(* ===== verification/_CoqProject ===== *)
-Q . S2P
Prelude.v
Text.v
Datatype.v
Wire.v
NetProto2.v
NetProto.v
SessionBuffer.v
BufferPool.v
IdGenerator.v
BufferList.v
DoubleBuffer.v
SendBuffer.v
DataHandler2.v
DataHandler.v
EventHandler.v
ConnBuffer.v
Connection.v
ConnectionFrame.v
ConnectionProps.v
ConnectionLife.v
ConnectionMgr.v
TcpServer.v
TcpClient.v
ClientProps.v
BiMap.v
Agent.v
AppNet.v
Proto.v
Codec.v
Common.v
LoginServer.v
LoginProps.v
GateClients.v
GateServer.v
GateProps.v
LoginFlow.v
Records.v
RecordsProps.v
ConfigServer.v
ConfigProps.v
Players.v
GameServer.v
GameProps.v
GameFlow.v
DbServer.v
DbProps.v
MysqlPool.v
MysqlPoolProps.v
SqlFormat.v
SqlProps.v
SqlStatements.v
ConfigLoader.v
ConfigLoaderProps.v
ThreadPool.v
ThreadPoolProps.v
Json.v
ServerFiles.v
ServerFilesProps.v
DbGenConfig.v
DbGenStruct.v
DbGenFunc.v
DbGenProps.v
DbGenTables.v
NetContract.v
CsvParser.v
CsvGen.v
CsvTable.v
CsvProps.v
GateLink.v
GateLinkProps.v
ServerStart.v
ServerStartProps.v
TestClient.v
TestClientProps.v
HttpRequests.v
HttpProps.v
HttpPostLog.v
TcpClients.v
Users.v
DbStart.v
