(* ===== verification/Prelude.v ===== *)
(** * Verification of the lianxi game-server framework

    The repository is a C++ framework for online games and the servers built with it.  This
    library models the framework's core and the servers as executable definitions translated from
    the sources, and proves what makes them correct.  Paths are relative to
    [src/jmy_game/servers/].

    ** The program

    [libjmy] is the framework: packets are framed by a network protocol, kept in session buffers,
    parsed by a data handler that calls the message handlers the application registered, and
    carried by connections over asynchronous sockets.  A server accepts connections and recycles
    them, a client set opens them and connects them again.  The configuration compiled in is
    protocol 2 ([USE_NET_PROTO2] 1, [USE_THREAD] 0, [USE_CONN_PROTO] 0); protocol 1 is modelled
    too.

    Five kinds of servers are built on it.  A client logs in at the login server, which tells the
    gate server that the client selected; that answers with a session code, which the client
    presents to the gate server; the gate server passes the client's messages to the game server
    and back, and the game server keeps players in the database through the database server.
    The config server tells login servers and gate servers of each other.

    ** The files

    - Shared: [Prelude] (machine integers, memory, pointers, generic lemmas and tactics),
      [Datatype] ([libjmy/jmy_const.h], [jmy_datatype.h]), [Wire] (the packing macros).
    - Protocols: [NetProto2], [NetProto] ([libjmy/jmy_net_proto2.*], [jmy_net_proto.*]).
    - Memory: [SessionBuffer], [DoubleBuffer], [BufferList] ([jmy_session_buffer.*]), [BufferPool]
      ([jmy_session_buffer_pool.*]), [ConnBuffer] ([jmy_connection_buffer.*]); [SendBuffer] is the
      interface the write templates use, a class of operations and a class of laws, with an
      instance for each of the three kinds of buffer.
    - Parsing and dispatch: [DataHandler2], [DataHandler] ([jmy_data_handler2.*],
      [jmy_data_handler.*]), [EventHandler] ([jmy_event_handler.h]).
    - Connections: [Connection], [ConnectionMgr] ([jmy_tcp_connection.*]), [IdGenerator]
      ([jmy_util.h]), [TcpServer] ([jmy_tcp_server.*]), [TcpClient] ([jmy_tcp_client.*],
      [jmy_tcp_client_set.*]).  [ConnectionProps] and [ConnectionLife] are about one connection,
      [ConnectionFrame] says what its operations preserve, for the server and the clients,
      [ClientProps] is about the clients.
    - What the servers share: [BiMap], [Agent] ([common/bi_map.h], [agent.h]), [Common]
      ([common/defines.h], [util.*]), [Proto] (the messages of [../proto/]), [Codec] (a concrete
      encoding of them for the examples), [AppNet] (the connections as a server sees them).
    - Servers: [LoginServer] and [LoginProps] ([login_server/]), [GateClients], [GateServer] and
      [GateProps] ([gate_server/]), [LoginFlow] (both together), [ConfigServer] and [ConfigProps]
      ([config_server/]), [Records] and [RecordsProps] ([mysql/mysql_records_manager.h]).
    - The game server: [Players] ([game_server/player.*], [item.*]: the pool of player objects and the maps
      that lead to them), [GameServer] (the handlers of [conn_gate_handler.*], [conn_db_handler.*] and the
      game master commands of [gm.*], [gm_cmd.*]), [GameProps] (what it guarantees), [GameFlow] (a gate
      server and the game server together).
    - The database server: [DbServer] ([db_server/]: the handlers of game servers, the table of roles over
      [Records], the queries that are not yet answered), [DbProps].
    - The access to the database: [MysqlPool] ([mysql/mysql_connector.*], [mysql_connector_pool.*]: the queues
      between the main loop and the threads of the connectors, as interleaved steps), [SqlFormat]
      ([mysql_defines.h], [mysql_util.h], [mysql_db_config_manager.*], [mysql_db_manager.*]: statements printed
      through the shared buffers), [ConfigLoader] ([mysql_config_loader.*]: the tables made at the
      start), [ConfigLoaderProps], [MysqlPoolProps], [SqlProps] and [SqlStatements].  [Text] has the C strings and
      the part of [printf] they use.
    - The thread pool of [src/threadpool/threadpool/]: [ThreadPool] (steps of workers, submitters and [shutdown]),
      [ThreadPoolProps].
    - The configuration files: [Json] (the documents and how rapidjson gives access to them), [ServerFiles] (the
      loaders of all programs, each a list of blocks), [ServerFilesProps].
    - The database generator: [DbGenConfig] ([db_generator/]: the description and how it is read, the words and
      what they become), [DbGenStruct] and [DbGenFunc] (the text of the generated files), [DbGenProps] (what the
      generated functions mean, as programs) and [DbGenTables].
    - Tables in csv files: [CsvParser] ([jmy_csv_parser.h]), [CsvGen] ([csv_generator/]: the text of the generated
      headers), [CsvTable] ([jmy_object_set.hpp] and what a generated class means), [CsvProps].
    - Start-up, main loops and links: [GateLink] ([gate_server/gate_server.*], [conn_config_handler.*]) with
      [GateLinkProps]; [ServerStart] (the login, game and config servers) with [ServerStartProps];
      [DbStart] (the database server and the connectors it makes).
    - [TestClient] and [TestClientProps] ([test_client/]: one process that plays many accounts).
    - [NetContract]: the connection of [Connection], with its reads, its [run] and its handlers, keeps what
      [AppNet] promises the servers.
    - Used by no server: [TcpClients] ([jmy_tcp_clients.*]), [Users] ([login_server/user.*]).
    - The HTTP requests of [src/curl/]: [HttpRequests] and [HttpProps], [HttpPostLog].

    ** How the model corresponds to the code

    A definition has the name of the C++ function it translates, with a prefix where two classes
    share a name.  An object is a record of its members; a member function takes the state and
    returns the new state with the result.  [option] is undefined behaviour or a failed assertion:
    [None] is an access out of bounds, through a null, dangling or erased pointer or iterator, or
    signed overflow.  A failure the code reports is a value of the result.  [char], [int] and
    [unsigned] arithmetic is written with its wrap-around ([schar], [s32], [u32] ...).  Memory
    that is shared is shared in the model: blocks in a [heap] by pointer, connections, agents and
    clients in stores by pointer.

    A connection is modelled with its asynchronous operations: starting one records it as
    outstanding, and a completion handler runs when it completes, with any result the socket may
    give (a short write, a read of any number of bytes, an error), in any order.  The theorems
    about connections, servers and clients hold for every sequence of these events, and the
    theorems about the application servers for every sequence of messages, connects and
    disconnects.  The application servers act on their connections through [AppNet.Net], the
    contract of [Connection] with the buffers the servers configure (a list without limits).  An accepted
    connection that a handler closed counts as connected again when it is read, and messages that
    were queued behind the one that closed it are handled: both are steps of the servers' runs
    ([AppNet.nt_revive], [AppNet.nt_in_use]).

    ** What is proved

    - The stream: the protocols' pack and unpack functions are inverse and their memory bounds
      exact; every kind of buffer refines a queue and every pool an allocator; the write functions
      append exactly their frames; receiving queues exactly the messages of the stream, however it
      is cut up; dispatch calls the registered handlers in order; and end to end, what is accepted
      for sending on a connection is what the peer's handlers get, exactly once and in order, for
      every interleaving of writes and completions ([ConnectionProps.end_to_end_delivery]).
    - Life cycles: the connection manager is a map; the server keeps its connections distinct,
      bounded by the configured number, and recycles every one that is disconnected; a client set
      connects each of its clients again at the configured distance; a master never makes more
      clients than it was asked for; a connection that was opened and then closed stays closed.
    - The registries of agents and the two-way map refine finite maps.
    - The login protocol: in every run of a login server and a gate server together, a client
      controls an account only if the account was checked in and the code issued for it was
      presented in time and once ([LoginFlow.game_entry_needs_login]); the gate server's table
      stays well formed; connected gate servers know exactly the connected login servers.
    - The record managers keep, for each record, the net effect of what was committed, and
      [update] ends after one request for each record.
    - The game server refines a realm: accounts with their roles, who plays which one, and what each owns
      ([GameProps.game_refines_realm]); the commands that it does not survive and the counts it cuts are
      characterised exactly; with the gate server, a client can play any role ([GameFlow]).
    - The database server keeps every role that is created, and answers for it, until it ends; which of its
      role ids collide; and which questions it never answers ([DbProps]).
    - Whatever the threads do, callbacks come in the order of the selects and every select that is answered with
      rows is called back ([MysqlPoolProps]); inserts and selects by a key are the statements that are meant,
      which updates and lists of fields are is characterised exactly ([SqlProps], [SqlStatements]), as is what a key
      can do to its statement.  Loading a configuration makes its columns ([ConfigLoaderProps]).
    - The thread pool runs each task once and in order; a task is never stranded exactly from two workers on, and
      [shutdown] may hang ([ThreadPoolProps]).
    - What a missing member of a configuration file does to each program, and exactly when a gate loads one
      ([ServerFilesProps]).
    - The functions that the database generator writes for a select agree with each other and load a record,
      by a semantics of the generated statements ([DbGenProps]); what the words for types and flags become, which
      fields are written and never read, and which tables are accepted ([DbGenTables]).
    - The header generated for a csv table, where a compiler takes it (its key is an int or a bool and its members
      have different names), loads the table it was generated from; which other files it loads
      safely, and which tables survive being written and read, is characterised exactly ([CsvProps]).
    - The interface that the servers are proved against is one that connections implement, and what it says was
      sent arrives ([NetContract]).
    - The game server ends when a link is lost ([ServerStartProps]); a gate can be told of nine login servers at
      most ([GateLinkProps]); the test client starts all its accounts ([TestClientProps]); on a MySQL server
      without the database the database server never starts and never makes it ([DbStart]).
    - No HTTP request is lost unless curl refuses its handle ([HttpProps]), but logs are never sent
      ([HttpPostLog]); a group of clients never has a connection ([TcpClients]).
    - Where the code does not do what it means to do, a theorem states what it does: the entry of an
      account is never released, a passive close raises the disconnect event twice, a heartbeat
      desynchronises the stream, long data are truncated, and others.

    ** Fuel, bounds and parameters

    The loops of the data handlers run with fuel one more than the number of bytes: every
    iteration consumes a byte or ends.  [Records.rm_update] is given more fuel than there are
    records, and its theorem says it ends then.  Identifiers are counted up to [INT_MAX], where
    incrementing them is undefined.  All other loops are structural.

    Code that is not in the repository is a parameter: the messages' generated encoders and
    decoders ([Proto.ServerMessages]; the theorems that need it assume that parsing undoes
    serialising), the random engine behind session codes, the order in which a hash map is
    traversed, the contents of uninitialised memory, how the MySQL client escapes a text, the
    JSON parser and writer, the clock, and the results of file and socket operations, of queries and
    of curl.

    ** Not modelled

    Logging, allocation and singletons, which are output and thin wrappers; address lookup; each
    [main], but for its calls; [jmy_tcp_session.*] and [jmy_tcp_connector.*], which are not compiled;
    closing the connectors of the database, which waits for threads that never end; the joined lists
    of fields of [mysql_db_manager.h] and [commit_insert_request_by_key], templates that are never
    instantiated; the statistics of the HTTP requests; the JSON parser, the MySQL client, curl and the
    other third-party code, which are parameters; the experiments.
     [JmyDataHandler] is modelled without the statistics it prints.
*)
From Stdlib Require Import ZArith Lia.
From stdpp Require Import base option list gmap strings fin_maps.

Declare Scope lianxi_scope.
Delimit Scope lianxi_scope with lx.
Local Open Scope Z_scope.

(** ** Machine integers

    [char] is signed (clang, x86), so a byte of a [char] buffer is a [Z] in
    [-128, 128).  [int] and [long] are the 32 and 64 bit two's complement types. *)

Definition u8 (z : Z) : Z := z mod 2 ^ 8.
Definition u16 (z : Z) : Z := z mod 2 ^ 16.
Definition u32 (z : Z) : Z := z mod 2 ^ 32.
Definition u64 (z : Z) : Z := z mod 2 ^ 64.
Definition schar (z : Z) : Z := (z + 2 ^ 7) mod 2 ^ 8 - 2 ^ 7.
Definition s16 (z : Z) : Z := (z + 2 ^ 15) mod 2 ^ 16 - 2 ^ 15.
Definition s32 (z : Z) : Z := (z + 2 ^ 31) mod 2 ^ 32 - 2 ^ 31.
Definition s64 (z : Z) : Z := (z + 2 ^ 63) mod 2 ^ 64 - 2 ^ 63.
Definition INT_MAX : Z := 2 ^ 31 - 1.

Definition is_char (z : Z) : Prop := - 2 ^ 7 <= z < 2 ^ 7.
Definition is_u16 (z : Z) : Prop := 0 <= z < 2 ^ 16.
Definition is_u32 (z : Z) : Prop := 0 <= z < 2 ^ 32.
Definition is_s32 (z : Z) : Prop := - 2 ^ 31 <= z < 2 ^ 31.

(** ** Undefined behaviour

    A definition that reads or writes memory returns an [option]: [None] is
    undefined behaviour of the C++ program (an access out of bounds, through a
    null or a dangling pointer).  A safety theorem says the result is [Some]. *)

Definition ub_unless (b : bool) : option unit := if b then Some () else None.

(** The difference of two [int]s: signed overflow is undefined. *)
Definition int_sub (a b : Z) : option Z := if (- 2 ^ 31 <=? a - b) && (a - b <? 2 ^ 31) then Some (a - b) else None.

Abbreviation lenZ l := (Z.of_nat (length l)).

(** A block of memory is the list of its bytes.  A read or a write of no byte
    touches no memory. *)
Definition mem_read (bl : list Z) (off n : Z) : option (list Z) :=
  if (0 <=? off) && (0 <=? n) && (off + n <=? lenZ bl)
  then Some (take (Z.to_nat n) (drop (Z.to_nat off) bl)) else None.

Definition mem_write (bl : list Z) (off : Z) (data : list Z) : option (list Z) :=
  if (0 <=? off) && (off + lenZ data <=? lenZ bl)
  then Some (take (Z.to_nat off) bl ++ data ++ drop (Z.to_nat (off + lenZ data)) bl)
  else None.

(** The heap: blocks by the pointer to their first byte; [NULL] is 0. *)
Abbreviation ptr := Z (only parsing).
Abbreviation heap := (gmap Z (list Z)).
Definition NULL : ptr := 0.

Definition load (h : heap) (p : ptr) (off n : Z) : option (list Z) :=
  if n =? 0 then Some [] else bl ← h !! p; mem_read bl off n.

Definition store (h : heap) (p : ptr) (off : Z) (data : list Z) : option heap :=
  match data with
  | [] => Some h
  | _ => bl ← h !! p; bl' ← mem_write bl off data; Some (<[p := bl']> h)
  end.

(** [new char[n]] and [jmy_mem_malloc(n)] return a block that is not in use; its
    bytes are unspecified, so an allocating definition takes them as an argument.
    [jmy_mem_malloc<T>] does the same in a store of objects. *)
Definition fresh_ptr {A} (h : gmap Z A) : ptr := map_fold (fun (p : ptr) _ acc => Z.max (p + 1) acc) 1 h.

Definition heap_new (h : heap) (garbage : list Z) : ptr * heap :=
  let p := fresh_ptr h in (p, <[p := garbage]> h).

(** [insert] of a map keeps an existing entry. *)
Definition map_insert_new {A} (k : Z) (v : A) (m : gmap Z A) : gmap Z A :=
  match m !! k with Some _ => m | None => <[k := v]> m end.

(** ** Tactics *)

Ltac pow2 :=
  repeat match goal with
  | |- context [2 ^ ?k] => let v := eval vm_compute in (2 ^ k) in change (2 ^ k) with v
  | H : context [2 ^ ?k] |- _ => let v := eval vm_compute in (2 ^ k) in change (2 ^ k) with v in H
  end.

Ltac lia_mod := pow2; Z.div_mod_to_equations; lia.

(** Decides the boolean comparisons of the goal and of the hypotheses. *)
Ltac zbool :=
  repeat match goal with
  | |- context [?a =? ?b] => destruct (Z.eqb_spec a b); try lia
  | |- context [?a <? ?b] => destruct (Z.ltb_spec a b); try lia
  | |- context [?a <=? ?b] => destruct (Z.leb_spec a b); try lia
  end; simpl; try done.

(** Takes apart hypotheses [x ← o; k = Some r] and conditionals equal to [Some]. *)
Ltac inv_opt :=
  repeat match goal with
  | H : (_ ≫= _) = Some _ |- _ => apply bind_Some in H as (? & ? & H)
  | H : Some _ = Some _ |- _ => injection H as H; subst
  | H : None = Some _ |- _ => discriminate H
  | H : (let (_, _) := ?x in _) = Some _ |- _ => destruct x eqn:?
  end.

Create HintDb lx.

(** ** Lemmas on machine integers *)

Lemma u32_id z : is_u32 z -> u32 z = z.
Proof. intros H. apply Z.mod_small, H. Qed.

Lemma u16_id z : is_u16 z -> u16 z = z.
Proof. intros H. apply Z.mod_small, H. Qed.

Lemma u32_range z : is_u32 (u32 z).
Proof. apply Z.mod_pos_bound. lia. Qed.

Lemma u16_range z : is_u16 (u16 z).
Proof. apply Z.mod_pos_bound. lia. Qed.

Lemma s32_id z : is_s32 z -> s32 z = z.
Proof. unfold is_s32, s32. intros. rewrite Z.mod_small by lia. lia. Qed.

Lemma s32_range z : is_s32 (s32 z).
Proof. unfold is_s32, s32. pose proof (Z.mod_pos_bound (z + 2 ^ 31) (2 ^ 32)). lia. Qed.

Lemma s32_u32 z : s32 (u32 z) = s32 z.
Proof. unfold s32, u32. lia_mod. Qed.

Lemma s32_eqm z : s32 z mod 2 ^ 32 = z mod 2 ^ 32.
Proof. unfold s32. lia_mod. Qed.

Lemma schar_range z : is_char (schar z).
Proof. unfold is_char, schar. pose proof (Z.mod_pos_bound (z + 2 ^ 7) (2 ^ 8)). lia. Qed.

Lemma schar_id z : is_char z -> schar z = z.
Proof. unfold is_char, schar. intros. rewrite Z.mod_small by lia. lia. Qed.

Lemma schar_mod z : schar z mod 2 ^ 8 = z mod 2 ^ 8.
Proof. unfold schar. lia_mod. Qed.

Lemma schar_of_mod a b : a mod 2 ^ 8 = b mod 2 ^ 8 -> schar a = schar b.
Proof. unfold schar. lia_mod. Qed.

#[export] Hint Resolve u32_range u16_range s32_range schar_range : lx.

Lemma land_255 z : Z.land z 0xff = z mod 2 ^ 8.
Proof. change 0xff with (Z.ones 8). rewrite Z.land_ones by lia. reflexivity. Qed.

(** The mask at bit [k] of a shifted signed byte keeps exactly the byte: the sign
    extension of the promotion to [int] is removed. *)
Lemma land_shifted_byte k z :
  0 <= k -> Z.land (Z.shiftl z k) (Z.shiftl 0xff k) = 2 ^ k * (z mod 2 ^ 8).
Proof.
  intros. rewrite <-Z.shiftl_land, land_255, Z.shiftl_mul_pow2 by lia. lia.
Qed.

(** ** Lemmas on blocks of memory *)

Lemma lenZ_nonneg {A} (l : list A) : 0 <= lenZ l.
Proof. lia. Qed.

Lemma mem_read_Some bl off n :
  0 <= off -> 0 <= n -> off + n <= lenZ bl ->
  mem_read bl off n = Some (take (Z.to_nat n) (drop (Z.to_nat off) bl)).
Proof. intros. unfold mem_read. zbool. Qed.

Lemma mem_read_inv bl off n r :
  mem_read bl off n = Some r ->
  0 <= off /\ 0 <= n /\ off + n <= lenZ bl /\
  r = take (Z.to_nat n) (drop (Z.to_nat off) bl).
Proof. unfold mem_read. zbool; naive_solver lia. Qed.

Lemma mem_read_length bl off n r : mem_read bl off n = Some r -> lenZ r = n.
Proof.
  intros (?&?&?&->)%mem_read_inv. rewrite length_take, length_drop. lia.
Qed.

Lemma mem_read_all bl : mem_read bl 0 (lenZ bl) = Some bl.
Proof.
  rewrite mem_read_Some by lia. rewrite drop_0, take_ge by lia. reflexivity.
Qed.

Lemma mem_write_Some bl off data :
  0 <= off -> off + lenZ data <= lenZ bl ->
  mem_write bl off data =
    Some (take (Z.to_nat off) bl ++ data ++ drop (Z.to_nat (off + lenZ data)) bl).
Proof. intros. unfold mem_write. zbool. Qed.

Lemma mem_write_inv bl off data bl' :
  mem_write bl off data = Some bl' ->
  0 <= off /\ off + lenZ data <= lenZ bl /\
  bl' = take (Z.to_nat off) bl ++ data ++ drop (Z.to_nat (off + lenZ data)) bl.
Proof. unfold mem_write. zbool; naive_solver lia. Qed.

Lemma mem_write_length bl off data bl' :
  mem_write bl off data = Some bl' -> length bl' = length bl.
Proof.
  intros (?&?&->)%mem_write_inv.
  rewrite !length_app, length_take, length_drop. lia.
Qed.

(** Two writes side by side are one write. *)
Lemma mem_write_app bl off d1 d2 :
  0 <= off -> off + lenZ d1 + lenZ d2 <= lenZ bl ->
  (b ← mem_write bl off d1; mem_write b (off + lenZ d1) d2) = mem_write bl off (d1 ++ d2).
Proof.
  intros. rewrite (mem_write_Some bl off d1) by lia. simpl.
  rewrite !mem_write_Some by (rewrite ?length_app, ?length_take, ?length_drop; lia).
  f_equal. rewrite length_app.
  assert (H1 : length (take (Z.to_nat off) bl) = Z.to_nat off) by (rewrite length_take; lia).
  rewrite take_app, H1, (take_ge (take _ _)) by lia.
  replace (Z.to_nat (off + lenZ d1) - Z.to_nat off)%nat with (length d1) by lia.
  rewrite take_app_length, <-!app_assoc. do 3 f_equal.
  rewrite drop_app, H1, (drop_ge (take _ _)) by lia. simpl.
  rewrite drop_app, (drop_ge d1) by lia. simpl. rewrite drop_drop. f_equal. lia.
Qed.

Lemma mem_read_write_eq bl off d b : mem_write bl off d = Some b -> mem_read b off (lenZ d) = Some d.
Proof.
  intros H. pose proof (mem_write_length _ _ _ _ H).
  apply mem_write_inv in H as (?&?&->). rewrite mem_read_Some by lia. f_equal.
  rewrite drop_app_length' by (rewrite length_take; lia).
  rewrite take_app_length' by lia. reflexivity.
Qed.

Lemma mem_read_sub bl off n r i m :
  mem_read bl off n = Some r -> 0 <= i -> 0 <= m -> i + m <= n ->
  mem_read bl (off + i) m = mem_read r i m.
Proof.
  intros H Hi Hm Hn. pose proof (mem_read_length _ _ _ _ H).
  apply mem_read_inv in H as (?&?&?&->). rewrite !mem_read_Some by lia. f_equal.
  rewrite skipn_firstn_comm, drop_drop, take_take. f_equal; [lia|]. f_equal. lia.
Qed.

Lemma mem_read_0 bl off : 0 <= off -> off <= lenZ bl -> mem_read bl off 0 = Some [].
Proof. intros. by rewrite mem_read_Some by lia. Qed.

(** ** Lemmas on the heap *)

Lemma fresh_ptr_gt {A} (h : gmap Z A) : 1 <= fresh_ptr h /\ forall p bl, h !! p = Some bl -> p < fresh_ptr h.
Proof.
  unfold fresh_ptr.
  apply (map_fold_weak_ind (fun r h => 1 <= r /\ forall p bl, h !! p = Some bl -> p < r)).
  - split; [lia|]. intros p bl. by rewrite lookup_empty.
  - intros i x m r Hi [H1 IH]. split; [lia|]. intros p bl Hp.
    rewrite lookup_insert_Some in Hp. destruct Hp as [[<- _]|[_ Hp]]; [lia|].
    apply IH in Hp. lia.
Qed.

Lemma fresh_ptr_fresh {A} (h : gmap Z A) : h !! fresh_ptr h = None.
Proof.
  destruct (h !! fresh_ptr h) eqn:E; [|done]. apply fresh_ptr_gt in E. lia.
Qed.

Lemma fresh_ptr_not_null {A} (h : gmap Z A) : fresh_ptr h <> NULL.
Proof. pose proof (proj1 (fresh_ptr_gt h)). unfold NULL. lia. Qed.

Lemma load_Some h p bl off n :
  h !! p = Some bl -> 0 <= off -> 0 <= n -> off + n <= lenZ bl ->
  load h p off n = Some (take (Z.to_nat n) (drop (Z.to_nat off) bl)).
Proof.
  intros Hp ???. unfold load. destruct (Z.eqb_spec n 0) as [->|]; [done|].
  rewrite Hp. simpl. by apply mem_read_Some.
Qed.

Lemma store_Some h p bl off d :
  h !! p = Some bl -> 0 <= off -> off + lenZ d <= lenZ bl ->
  exists bl', mem_write bl off d = Some bl' /\ store h p off d = Some (<[p := bl']> h).
Proof.
  intros Hp ??. rewrite mem_write_Some by lia. eexists. split; [done|].
  destruct d as [|x d].
  - simpl. rewrite Z.add_0_r, take_drop, insert_id by done. done.
  - unfold store. rewrite Hp. cbv beta iota zeta delta [mbind option_bind].
    by rewrite mem_write_Some by lia.
Qed.

Lemma store_frame h p off d h' q :
  store h p off d = Some h' -> q <> p -> h' !! q = h !! q.
Proof.
  destruct d; simpl; intros H Hq; [by inv_opt|].
  apply bind_Some in H as (?&?&H). apply bind_Some in H as (?&?&H). inv_opt.
  by rewrite lookup_insert_ne.
Qed.

(** A segment in the middle of a block. *)
Lemma mem_read_mid pre d post : mem_read (pre ++ d ++ post) (lenZ pre) (lenZ d) = Some d.
Proof.
  rewrite mem_read_Some by (rewrite ?length_app; lia). f_equal.
  rewrite drop_app_length' by lia. by rewrite take_app_length' by lia.
Qed.

Lemma mem_write_mid pre x post d :
  length x = length d -> mem_write (pre ++ x ++ post) (lenZ pre) d = Some (pre ++ d ++ post).
Proof.
  intros Hx. rewrite mem_write_Some by (rewrite ?length_app; lia). f_equal.
  rewrite take_app_length' by lia. do 2 f_equal.
  rewrite (app_assoc pre x post), drop_app_length' by (rewrite ?length_app; lia). done.
Qed.

Lemma load_mid h p pre d post :
  h !! p = Some (pre ++ d ++ post) -> load h p (lenZ pre) (lenZ d) = Some d.
Proof.
  intros Hp. unfold load. destruct (Z.eqb_spec (lenZ d) 0).
  - by destruct d.
  - rewrite Hp. apply mem_read_mid.
Qed.

Lemma store_mid h p pre x post d :
  h !! p = Some (pre ++ x ++ post) -> length x = length d ->
  store h p (lenZ pre) d = Some (<[p := pre ++ d ++ post]> h).
Proof.
  intros Hp Hx. destruct d as [|a d].
  - destruct x; [|done]. simpl. by rewrite insert_id.
  - unfold store. rewrite Hp. cbv beta iota zeta delta [mbind option_bind].
    by rewrite mem_write_mid.
Qed.

(** A list split at a position in its range. *)
Lemma split_at {A} (l : list A) n :
  0 <= n <= lenZ l -> exists l1 l2, l = l1 ++ l2 /\ lenZ l1 = n /\ lenZ l2 = lenZ l - n.
Proof.
  intros. exists (take (Z.to_nat n) l), (drop (Z.to_nat n) l).
  rewrite take_drop, length_take, length_drop. repeat split; lia.
Qed.

(** ** Lemmas on sets *)

Lemma size_list_to_set_le {A} `{Countable A} (l : list A) : (size (list_to_set l : gset A) <= length l)%nat.
Proof.
  induction l as [|x l IH]; [done|]. cbn [list_to_set length]. rewrite size_union_alt, size_singleton.
  assert (size ((list_to_set l : gset A) ∖ {[x]}) <= size (list_to_set l : gset A))%nat by (apply subseteq_size; set_solver). lia.
Qed.
