(* ===== verification/Text.v ===== *)
(** * Texts

    C strings and the part of [printf] that the program uses: literals, [%s], [%d] and its unsigned and long
    variants, and the cut of [snprintf]. *)
From S2P Require Import Prelude.
From Stdlib Require Import ZArith Lia String Ascii.
From stdpp Require Import base option list.
Local Open Scope Z_scope.

(** A text that a program handles as [char*] or [std::string]. *)
Abbreviation text := (list Z) (only parsing).

(** The characters of a literal. *)
Definition chars (s : string) : text := (fun a => schar (Z.of_nat (nat_of_ascii a))) <$> list_ascii_of_string s.

(** The C string at the beginning of a block: up to the first zero byte. *)
Fixpoint c_str (l : text) : text := match l with c :: l => if c =? 0 then [] else c :: c_str l | [] => [] end.

(** What [snprintf(buf, size, ...)] leaves in [buf]: the last byte is for the zero. *)
Definition snprintf (size : Z) (t : text) : text := take (Z.to_nat (size - 1)) t.

(** The decimal digits of a number below [10^fuel]. *)
Fixpoint dec_digits (fuel : nat) (n : Z) (acc : text) : text :=
  match fuel with
  | O => acc
  | S fuel => let acc := (48 + n mod 10) :: acc in if n <? 10 then acc else dec_digits fuel (n / 10) acc
  end.

(** [%u], [%lu] and [%llu] of a number that fits in 64 bits; 20 digits are enough. *)
Definition print_unsigned (n : Z) : text := dec_digits 20 n [].
(** [%d], [%ld] and [%lld]. *)
Definition print_signed (n : Z) : text := if n <? 0 then 45 :: print_unsigned (- n) else print_unsigned n.

Definition isspace (c : Z) : bool := (c =? 32) || ((9 <=? c) && (c <=? 13)).
Definition isdigit (c : Z) : bool := (48 <=? c) && (c <=? 57).

Fixpoint digits_value (acc : Z) (l : text) : Z :=
  match l with c :: l => if isdigit c then digits_value (10 * acc + (c - 48)) l else acc | [] => acc end.
Fixpoint skip_space (l : text) : text := match l with c :: l' => if isspace c then skip_space l' else l | [] => [] end.

(** [std::strtoul(s, NULL, 10)]: spaces, a sign, digits; too large a value gives [ULONG_MAX]. *)
Definition strtoul (s : text) : Z :=
  let s := skip_space s in
  let '(minus, s) := match s with c :: s' => if c =? 45 then (true, s') else if c =? 43 then (false, s') else (false, s) | [] => (false, s) end in
  let n := digits_value 0 s in
  if 2 ^ 64 <=? n then 2 ^ 64 - 1 else if minus then u64 (- n) else n.

(** [int] out of range is undefined behaviour of [std::atoi]. *)
Definition atoi (s : text) : option Z :=
  let s := skip_space s in
  let n := match s with
    | c :: s' => if c =? 45 then - digits_value 0 s' else if c =? 43 then digits_value 0 s' else digits_value 0 s
    | [] => 0 end in
  if (- 2 ^ 31 <=? n) && (n <? 2 ^ 31) then Some n else None.

(** [boost::join(l, sep)]. *)
Fixpoint boost_join (sep : text) (l : list text) : text :=
  match l with [] => [] | [t] => t | t :: l => t ++ sep ++ boost_join sep l end.

(** ** Lemmas *)

Lemma c_str_id l : 0 ∉ l -> c_str l = l.
Proof.
  induction l as [|c l IH]; [done|]. intros Hl. apply not_elem_of_cons in Hl as [Hc Hl]. cbn [c_str].
  rewrite (proj2 (Z.eqb_neq c 0)), IH by done. done.
Qed.

Lemma c_str_no_zero l : 0 ∉ c_str l.
Proof.
  induction l as [|c l IH]; cbn [c_str]; [by apply not_elem_of_nil|]. destruct (Z.eqb_spec c 0); [by apply not_elem_of_nil|].
  apply not_elem_of_cons. auto.
Qed.

Lemma c_str_app l l' : 0 ∉ l -> c_str (l ++ l') = l ++ c_str l'.
Proof.
  induction l as [|c l IH]; [done|]. intros Hl. apply not_elem_of_cons in Hl as [Hc Hl]. cbn [c_str app].
  rewrite (proj2 (Z.eqb_neq c 0)), IH by done. done.
Qed.

Lemma snprintf_fits size t : lenZ t < size -> snprintf size t = t.
Proof. intros Hl. unfold snprintf. apply take_ge. lia. Qed.

Lemma snprintf_length size t : 1 <= size -> lenZ (snprintf size t) < size.
Proof. intros Hs. unfold snprintf. rewrite length_take. lia. Qed.

Lemma snprintf_no_zero size t : 0 ∉ t -> 0 ∉ snprintf size t.
Proof. intros Ht Hin. apply Ht. unfold snprintf in Hin. by apply elem_of_take in Hin as (i & ? & _); eapply list_elem_of_lookup_2. Qed.

Lemma dec_digits_app fuel : forall n acc, dec_digits fuel n acc = dec_digits fuel n [] ++ acc.
Proof.
  induction fuel as [|fuel IH]; intros n acc; [done|]. cbn [dec_digits]. destruct (n <? 10); [done|]. rewrite IH, (IH _ [_]), <- app_assoc. done.
Qed.

Lemma isdigit_true c : 48 <= c <= 57 -> isdigit c = true.
Proof. intros Hc. unfold isdigit. rewrite (proj2 (Z.leb_le 48 c)), (proj2 (Z.leb_le c 57)) by lia. done. Qed.

Lemma digits_value_app l : forall acc l', (forall c, c ∈ l -> 48 <= c <= 57) -> digits_value acc (l ++ l') = digits_value (digits_value acc l) l'.
Proof.
  induction l as [|c l IH]; intros acc l' Hl; [done|]. cbn [digits_value app]. assert (48 <= c <= 57) by (apply Hl; by left).
  rewrite isdigit_true by done. apply IH. intros d Hd. apply Hl. by right.
Qed.

Lemma dec_digits_digits fuel : forall n c, c ∈ dec_digits fuel n [] -> 48 <= c <= 57.
Proof.
  induction fuel as [|fuel IH]; intros n c; [by intros ?%elem_of_nil|]. cbn [dec_digits]. pose proof (Z.mod_pos_bound n 10).
  destruct (n <? 10); [intros ->%list_elem_of_singleton; lia|]. rewrite dec_digits_app. intros [Hc|Hc]%elem_of_app; [by eapply IH|].
  apply list_elem_of_singleton in Hc. lia.
Qed.

(** Printing a number and reading it back. *)
Lemma dec_digits_value fuel : forall n, 0 <= n < 10 ^ Z.of_nat fuel -> digits_value 0 (dec_digits fuel n []) = n.
Proof.
  induction fuel as [|fuel IH]; intros n Hn; [cbn in Hn; cbn; lia|]. cbn [dec_digits]. pose proof (Z.mod_pos_bound n 10). pose proof (Z.div_mod n 10).
  rewrite Nat2Z.inj_succ, Z.pow_succ_r in Hn by lia. destruct (Z.ltb_spec n 10) as [Hlt|Hge].
  - cbn [digits_value]. rewrite Z.mod_small, isdigit_true by lia. lia.
  - rewrite dec_digits_app, digits_value_app by apply dec_digits_digits. rewrite IH by (split; [apply Z.div_pos; lia|apply Z.div_lt_upper_bound; lia]).
    cbn [digits_value]. rewrite isdigit_true by lia. lia.
Qed.

Lemma print_unsigned_value n : 0 <= n < 2 ^ 64 -> digits_value 0 (print_unsigned n) = n.
Proof. intros Hn. apply dec_digits_value. lia. Qed.

Lemma print_unsigned_digits n c : c ∈ print_unsigned n -> 48 <= c <= 57.
Proof. apply dec_digits_digits. Qed.

Lemma dec_digits_length fuel : forall n, lenZ (dec_digits fuel n []) <= Z.of_nat fuel.
Proof.
  induction fuel as [|fuel IH]; intros n; [done|]. cbn [dec_digits]. destruct (n <? 10); [cbn; lia|].
  rewrite dec_digits_app, length_app. cbn [length]. specialize (IH (n / 10)). lia.
Qed.

Lemma print_signed_no_zero n : 0 ∉ print_signed n.
Proof.
  intros Hc. unfold print_signed in Hc. destruct (n <? 0); [apply elem_of_cons in Hc as [?|Hc]; [done|]|]; apply print_unsigned_digits in Hc; lia.
Qed.

Lemma boost_join_snoc sep l t : l <> [] -> boost_join sep (l ++ [t]) = boost_join sep l ++ sep ++ t.
Proof.
  induction l as [|x l IH]; [done|]. intros _. destruct l as [|y l]; [done|]. cbn [boost_join app] in *. rewrite IH by done. by rewrite !app_assoc.
Qed.
