(* ===== verification/Datatype.v ===== *)
(** * Constants and plain data of libjmy

    The constants of [jmy_const.h] and the structs of [jmy_datatype.h] that the
    other components share.  Enumerations keep their C++ values as [Z]: the code
    converts between them and integers (a packet type is cast from a byte, a
    buffer's [woffset_] holds a packet type), so an unknown value is possible. *)
From S2P Require Import Prelude.
From Stdlib Require Import ZArith Lia.
From stdpp Require Import base option list.
Local Open Scope Z_scope.

(** ** jmy_const.h *)

Definition JMY_MAX_MSG_SIZE : Z := 64 * 1024.
Definition DEFAULT_SEND_BUFFER_SIZE : Z := 4096.
Definition MAX_SEND_BUFFER_SIZE : Z := 640 * 1024.
Definition DEFAULT_RECV_BUFFER_SIZE : Z := 4096.
Definition MAX_RECV_BUFFER_SIZE : Z := 640 * 1024.
Definition DEFAULT_MAX_SEND_BUFFER_COUNT : Z := 100.
Definition DEFAULT_MAX_RECV_BUFFER_COUNT : Z := 100.

Inductive JmyConnType : Type :=
| JMY_CONN_TYPE_NONE
| JMY_CONN_TYPE_ACTIVE
| JMY_CONN_TYPE_PASSIVE.

Inductive JmyConnState : Type :=
| JMY_CONN_STATE_NOT_USE
| JMY_CONN_STATE_NOT_CONNECT
| JMY_CONN_STATE_CONNECTING
| JMY_CONN_STATE_CONNECTED
| JMY_CONN_STATE_DISCONNECTING
| JMY_CONN_STATE_DISCONNECTED.

Definition JMY_EVENT_NONE : Z := 0.
Definition JMY_EVENT_CONNECT : Z := 1.
Definition JMY_EVENT_DISCONNECT : Z := 2.
Definition JMY_EVENT_TICK : Z := 3.
Definition JMY_EVENT_TIMER : Z := 4.
Definition JMY_EVENT_MAX_COUNT : Z := 5.

Definition JMY_MIN_MESSAGE_ID : Z := 1.
Definition JMY_MAX_MESSAGE_ID : Z := 65535.

Definition JMY_ACTIVE_CLOSE_CONNECTION_TIMEOUT : Z := 30.

(** ** jmy_datatype.h *)

(** A [const char*] is the memory from the pointer to the end of its object;
    [None] is a null pointer. *)
Record JmyData : Type := mkJmyData { jd_data : list Z; jd_len : Z }.

Record JmyMsgInfo : Type := mkJmyMsgInfo {
  mi_user_id : Z;
  mi_msg_id : Z;
  mi_data : option (list Z);
  mi_len : Z;
  mi_conn_id : Z;
  mi_param : Z;
}.

Definition JmyMsgInfo_new : JmyMsgInfo := mkJmyMsgInfo 0 0 None 0 0 0.

Record JmyEventInfo : Type := mkJmyEventInfo {
  ei_event_id : Z;
  ei_conn_id : Z;
  ei_param : Z;
  ei_param_l : Z;
}.

Record JmyBufferConfig : Type := mkJmyBufferConfig {
  bc_recv_buff_size : Z;
  bc_send_buff_size : Z;
  bc_recv_buff_list_size : Z;
  bc_send_buff_list_size : Z;
  bc_use_recv_buff_list : bool;
  bc_use_send_buff_list : bool;
}.

(** The payload a message handler can read: [len] bytes from [data]. *)
Definition mi_payload (m : JmyMsgInfo) : option (list Z) :=
  d ← mi_data m; mem_read d 0 (mi_len m).

#[export] Instance JmyConnState_eq_dec : EqDecision JmyConnState.
Proof. solve_decision. Defined.

#[export] Instance JmyConnType_eq_dec : EqDecision JmyConnType.
Proof. solve_decision. Defined.

#[export] Instance JmyData_eq_dec : EqDecision JmyData.
Proof. solve_decision. Defined.

#[export] Instance JmyMsgInfo_eq_dec : EqDecision JmyMsgInfo.
Proof. solve_decision. Defined.
