(* ===== verification/Wire.v ===== *)
(** * The integer packing macros of the network protocols

    [jmy_net_proto.cpp] and [jmy_net_proto2.cpp] define the same macros
    [PACK_INT16_TO_BUFF], [UNPACK_INT16_FROM_BUFF], and so on: big-endian
    integers in a buffer of signed [char].  A macro is called with a pointer
    into a buffer, here the buffer and the offset of the pointer. *)
From S2P Require Import Prelude.
From Stdlib Require Import ZArith Lia.
From stdpp Require Import base option list.
Local Open Scope Z_scope.

(** [buff[i] = v] and [buff[i]]. *)
Definition put (buf : list Z) (i v : Z) : option (list Z) := mem_write buf i [v].

Definition get (buf : list Z) (i : Z) : option Z :=
  if 0 <=? i then buf !! Z.to_nat i else None.

(** The byte that [(id >> k) & 0xff] stores in a [char]. *)
Definition byte_at (id k : Z) : Z := schar (Z.land (Z.shiftr id k) 0xff).

Definition PACK_INT16_TO_BUFF (id : Z) (buf : list Z) (p : Z) : option (Z * list Z) :=
  buf ← put buf (p + 0) (byte_at id 8);
  buf ← put buf (p + 1) (byte_at id 0);
  Some (2, buf).

Definition PACK_INT32_TO_BUFF (id : Z) (buf : list Z) (p : Z) : option (Z * list Z) :=
  buf ← put buf (p + 0) (byte_at id 24);
  buf ← put buf (p + 1) (byte_at id 16);
  buf ← put buf (p + 2) (byte_at id 8);
  buf ← put buf (p + 3) (byte_at id 0);
  Some (4, buf).

Definition PACK_INT64_TO_BUFF (value : Z) (buf : list Z) (p : Z) : option (Z * list Z) :=
  buf ← put buf (p + 0) (byte_at value 56);
  buf ← put buf (p + 1) (byte_at value 48);
  buf ← put buf (p + 2) (byte_at value 40);
  buf ← put buf (p + 3) (byte_at value 32);
  buf ← put buf (p + 4) (byte_at value 24);
  buf ← put buf (p + 5) (byte_at value 16);
  buf ← put buf (p + 6) (byte_at value 8);
  buf ← put buf (p + 7) (byte_at value 0);
  Some (8, buf).

(** The operands are promoted to [int]. *)
Definition UNPACK_INT16_FROM_BUFF (buf : list Z) (p : Z) : option Z :=
  b0 ← get buf (p + 0);
  b1 ← get buf (p + 1);
  Some (Z.land (Z.shiftl b0 8) 0xff00 + Z.land b1 0xff).

(** [0xff000000] is an [unsigned int], so the sum is one. *)
Definition UNPACK_INT32_FROM_BUFF (buf : list Z) (p : Z) : option Z :=
  b0 ← get buf (p + 0);
  b1 ← get buf (p + 1);
  b2 ← get buf (p + 2);
  b3 ← get buf (p + 3);
  Some (u32 (Z.land (u32 (Z.shiftl b0 24)) 0xff000000 + Z.land (Z.shiftl b1 16) 0xff0000
             + Z.land (Z.shiftl b2 8) 0xff00 + Z.land b3 0xff)).

(** ** The bytes written *)

Definition be16 (id : Z) : list Z := [byte_at id 8; byte_at id 0].
Definition be32 (id : Z) : list Z := [byte_at id 24; byte_at id 16; byte_at id 8; byte_at id 0].
Definition be64 (v : Z) : list Z :=
  [byte_at v 56; byte_at v 48; byte_at v 40; byte_at v 32;
   byte_at v 24; byte_at v 16; byte_at v 8; byte_at v 0].

Lemma put_insert buf i v :
  0 <= i < lenZ buf -> put buf i v = Some (<[Z.to_nat i := v]> buf).
Proof.
  intros. unfold put. rewrite mem_write_Some by (simpl; lia). f_equal.
  rewrite insert_take_drop by lia. simpl. do 3 f_equal. lia.
Qed.

(** Runs the [put]s of a buffer whose first cells are explicit. *)
Ltac run_puts :=
  repeat (rewrite put_insert by (rewrite ?length_insert; simpl; lia); simpl).

Lemma PACK_INT16_safe id buf p :
  0 <= p -> p + 2 <= lenZ buf ->
  exists b, PACK_INT16_TO_BUFF id buf p = Some (2, b) /\ length b = length buf.
Proof.
  intros. unfold PACK_INT16_TO_BUFF. run_puts. eexists. split; [done|].
  by rewrite !length_insert.
Qed.

(** ** Reading back *)

Lemma get_lookup buf i : 0 <= i -> get buf i = buf !! Z.to_nat i.
Proof. intros. unfold get. zbool. Qed.

Lemma get_Some buf i : 0 <= i < lenZ buf -> is_Some (get buf i).
Proof. intros. rewrite get_lookup by lia. apply lookup_lt_is_Some. lia. Qed.

Lemma byte_at_mod id k : byte_at id k mod 2 ^ 8 = Z.shiftr id k mod 2 ^ 8.
Proof. unfold byte_at. rewrite land_255. unfold schar. lia_mod. Qed.

(** The value of an unpacking macro, by the unsigned values of the bytes. *)
Definition val16 (b0 b1 : Z) : Z := 2 ^ 8 * (b0 mod 2 ^ 8) + b1 mod 2 ^ 8.
Definition val32 (b0 b1 b2 b3 : Z) : Z :=
  2 ^ 24 * (b0 mod 2 ^ 8) + 2 ^ 16 * (b1 mod 2 ^ 8) + 2 ^ 8 * (b2 mod 2 ^ 8) + b3 mod 2 ^ 8.

Lemma unpack16_val b0 b1 :
  Z.land (Z.shiftl b0 8) 0xff00 + Z.land b1 0xff = val16 b0 b1.
Proof.
  change 0xff00 with (Z.shiftl 0xff 8). rewrite land_shifted_byte, land_255 by lia. reflexivity.
Qed.

Lemma land_u32_top b : Z.land (u32 (Z.shiftl b 24)) 0xff000000 = 2 ^ 24 * (b mod 2 ^ 8).
Proof.
  change 0xff000000 with (Z.shiftl 0xff 24). unfold u32.
  rewrite <-Z.land_ones by lia. rewrite <-Z.land_assoc.
  change (Z.land (Z.ones 32) (Z.shiftl 0xff 24)) with (Z.shiftl 0xff 24).
  by rewrite land_shifted_byte by lia.
Qed.

Lemma unpack32_val b0 b1 b2 b3 :
  u32 (Z.land (u32 (Z.shiftl b0 24)) 0xff000000 + Z.land (Z.shiftl b1 16) 0xff0000
       + Z.land (Z.shiftl b2 8) 0xff00 + Z.land b3 0xff) = val32 b0 b1 b2 b3.
Proof.
  rewrite land_u32_top.
  change 0xff00 with (Z.shiftl 0xff 8). change 0xff0000 with (Z.shiftl 0xff 16).
  rewrite !land_shifted_byte, land_255 by lia. apply u32_id.
  unfold is_u32, val32. lia_mod.
Qed.

Lemma val16_be16 id : val16 (byte_at id 8) (byte_at id 0) = id mod 2 ^ 16.
Proof.
  unfold val16. rewrite !byte_at_mod, Z.shiftr_0_r, Z.shiftr_div_pow2 by lia. lia_mod.
Qed.

Lemma val32_be32 id :
  val32 (byte_at id 24) (byte_at id 16) (byte_at id 8) (byte_at id 0) = id mod 2 ^ 32.
Proof.
  unfold val32. rewrite !byte_at_mod, Z.shiftr_0_r, !Z.shiftr_div_pow2 by lia. lia_mod.
Qed.

Lemma val16_range b0 b1 : is_u16 (val16 b0 b1).
Proof. unfold is_u16, val16. lia_mod. Qed.

Lemma val32_range b0 b1 b2 b3 : is_u32 (val32 b0 b1 b2 b3).
Proof. unfold is_u32, val32. lia_mod. Qed.

Lemma UNPACK_INT16_spec buf p b0 b1 :
  0 <= p -> get buf p = Some b0 -> get buf (p + 1) = Some b1 ->
  UNPACK_INT16_FROM_BUFF buf p = Some (val16 b0 b1).
Proof.
  intros Hp H0 H1. unfold UNPACK_INT16_FROM_BUFF. rewrite Z.add_0_r, H0. simpl.
  rewrite H1. simpl. by rewrite unpack16_val.
Qed.

Lemma UNPACK_INT32_spec buf p b0 b1 b2 b3 :
  get buf p = Some b0 -> get buf (p + 1) = Some b1 ->
  get buf (p + 2) = Some b2 -> get buf (p + 3) = Some b3 ->
  UNPACK_INT32_FROM_BUFF buf p = Some (val32 b0 b1 b2 b3).
Proof.
  intros H0 H1 H2 H3. unfold UNPACK_INT32_FROM_BUFF. rewrite Z.add_0_r, H0. simpl.
  rewrite H1. simpl. rewrite H2. simpl. rewrite H3. simpl. by rewrite unpack32_val.
Qed.

(** An unpacking macro inside a longer buffer. *)
Lemma get_app_r pre l i : lenZ pre <= i -> get (pre ++ l) i = get l (i - lenZ pre).
Proof.
  intros. rewrite !get_lookup by lia. rewrite lookup_app_r by lia. f_equal. lia.
Qed.

Lemma UNPACK_INT16_app pre post id :
  UNPACK_INT16_FROM_BUFF (pre ++ be16 id ++ post) (lenZ pre) = Some (id mod 2 ^ 16).
Proof.
  rewrite <-val16_be16. apply UNPACK_INT16_spec; [lia|rewrite get_app_r by lia..].
  - by rewrite Z.sub_diag.
  - by replace (lenZ pre + 1 - lenZ pre) with 1 by lia.
Qed.

Lemma UNPACK_INT32_app pre post id :
  UNPACK_INT32_FROM_BUFF (pre ++ be32 id ++ post) (lenZ pre) = Some (id mod 2 ^ 32).
Proof.
  rewrite <-val32_be32. apply UNPACK_INT32_spec; rewrite get_app_r by lia.
  - by rewrite Z.sub_diag.
  - by replace (lenZ pre + 1 - lenZ pre) with 1 by lia.
  - by replace (lenZ pre + 2 - lenZ pre) with 2 by lia.
  - by replace (lenZ pre + 3 - lenZ pre) with 3 by lia.
Qed.

Lemma UNPACK_INT16_front post id :
  UNPACK_INT16_FROM_BUFF (be16 id ++ post) 0 = Some (id mod 2 ^ 16).
Proof. exact (UNPACK_INT16_app [] post id). Qed.

Lemma UNPACK_INT32_front post id :
  UNPACK_INT32_FROM_BUFF (be32 id ++ post) 0 = Some (id mod 2 ^ 32).
Proof. exact (UNPACK_INT32_app [] post id). Qed.

Lemma UNPACK_INT16_safe buf p :
  0 <= p -> p + 2 <= lenZ buf -> exists v, UNPACK_INT16_FROM_BUFF buf p = Some v /\ is_u16 v.
Proof.
  intros Hp Hl. destruct (get_Some buf p) as [b0 H0]; [lia|].
  destruct (get_Some buf (p + 1)) as [b1 H1]; [lia|].
  exists (val16 b0 b1). auto using UNPACK_INT16_spec, val16_range.
Qed.

Lemma UNPACK_INT32_safe buf p :
  0 <= p -> p + 4 <= lenZ buf -> exists v, UNPACK_INT32_FROM_BUFF buf p = Some v /\ is_u32 v.
Proof.
  intros Hp Hl. destruct (get_Some buf p) as [b0 H0]; [lia|].
  destruct (get_Some buf (p + 1)) as [b1 H1]; [lia|].
  destruct (get_Some buf (p + 2)) as [b2 H2]; [lia|].
  destruct (get_Some buf (p + 3)) as [b3 H3]; [lia|].
  exists (val32 b0 b1 b2 b3). auto using UNPACK_INT32_spec, val32_range.
Qed.
