(* ===== verification/NetProto2.v ===== *)
(** * Network protocol 2 ([jmy_net_proto2.h], [jmy_net_proto2.cpp])

    A packet is a 2 byte big-endian length (of what follows it), a 1 byte type and
    a body.  The packing functions write the head of a packet in a caller's
    buffer; [jmy_net_proto2_unpack_data] decodes a body. *)
From S2P Require Import Prelude Datatype Wire.
From Stdlib Require Import ZArith Lia.
From stdpp Require Import base option list.
Local Open Scope Z_scope.

(** ** Constants *)

Definition JMY_PACKET2_NONE : Z := 0.
Definition JMY_PACKET2_USER_DATA : Z := 5.
Definition JMY_PACKET2_ACK : Z := 6.
Definition JMY_PACKET2_HEARTBEAT : Z := 7.
Definition JMY_PACKET2_DISCONNECT : Z := 8.
Definition JMY_PACKET2_DISCONNECT_ACK : Z := 9.
Definition JMY_PACKET2_USER_ID_DATA : Z := 10.

Definition JMY_UNPACK2_RESULT_NO_ERROR : Z := 0.
Definition JMY_UNPACK2_RESULT_DATA_NOT_ENOUGH : Z := 1.
Definition JMY_UNPACK2_RESULT_USER_DATA_NOT_ENOUGH : Z := 2.
Definition JMY_UNPACK2_RESULT_MSG_LEN_INVALID : Z := 3.

Definition JMY_PACKET2_LEN_HEAD : Z := 2.
Definition JMY_PACKET2_LEN_TYPE : Z := 1.
Definition JMY_PACKET2_LEN_USER_ID : Z := 4.
Definition JMY_PACKET2_LEN_MSG_ID : Z := 2.
Definition JMY_PACKET2_LEN_TIMESTAMP : Z := 4.

(** ** Data *)

Record JmyPacketUnpackData2 : Type := mkUnpackData2 {
  ud2_type : Z;
  ud2_param : Z;
  ud2_data : Z;
  ud2_result : Z;
  ud2_msg_info : JmyMsgInfo;
}.

Definition JmyPacketUnpackData2_new : JmyPacketUnpackData2 :=
  mkUnpackData2 JMY_PACKET2_NONE 0 0 JMY_UNPACK2_RESULT_NO_ERROR JmyMsgInfo_new.

Definition ud2_set_result (r : Z) (d : JmyPacketUnpackData2) : JmyPacketUnpackData2 :=
  mkUnpackData2 (ud2_type d) (ud2_param d) (ud2_data d) r (ud2_msg_info d).
Definition ud2_set_param (p : Z) (d : JmyPacketUnpackData2) : JmyPacketUnpackData2 :=
  mkUnpackData2 (ud2_type d) p (ud2_data d) (ud2_result d) (ud2_msg_info d).
Definition ud2_set_msg_info (m : JmyMsgInfo) (d : JmyPacketUnpackData2) : JmyPacketUnpackData2 :=
  mkUnpackData2 (ud2_type d) (ud2_param d) (ud2_data d) (ud2_result d) m.

(** ** Lengths of packets *)

Definition jmy_net_proto2_disconnect_pack_len : Z := JMY_PACKET2_LEN_HEAD + JMY_PACKET2_LEN_TYPE.
Definition jmy_net_proto2_disconnect_ack_pack_len : Z := JMY_PACKET2_LEN_HEAD + JMY_PACKET2_LEN_TYPE.
Definition jmy_net_proto2_user_data_pack_len : Z :=
  JMY_PACKET2_LEN_HEAD + JMY_PACKET2_LEN_TYPE + JMY_PACKET2_LEN_MSG_ID.
Definition jmy_net_proto2_user_data_pack_len_of (data_len : Z) : Z :=
  jmy_net_proto2_user_data_pack_len + data_len.
Definition jmy_net_proto2_user_id_data_pack_len : Z :=
  JMY_PACKET2_LEN_HEAD + JMY_PACKET2_LEN_TYPE + JMY_PACKET2_LEN_USER_ID + JMY_PACKET2_LEN_MSG_ID.
Definition jmy_net_proto2_user_id_data_pack_len_of (data_len : Z) : Z :=
  jmy_net_proto2_user_id_data_pack_len + data_len.
Definition jmy_net_proto2_heartbeat_pack_len : Z :=
  JMY_PACKET2_LEN_HEAD + JMY_PACKET2_LEN_TYPE + JMY_PACKET2_LEN_TIMESTAMP.

(** ** Packing

    [buf] is the memory at the buffer pointer, [None] for a null pointer; [len]
    is the size the caller states.  The result is the returned [int] and the
    buffer afterwards. *)

Definition jmy_net_proto2_get_packet_len_type (buf : list Z) (buf_len : Z)
  : option (option (Z * Z)) :=
  if buf_len <? JMY_PACKET2_LEN_HEAD + JMY_PACKET2_LEN_TYPE then Some None else
  len ← UNPACK_INT16_FROM_BUFF buf 0;
  type ← get buf 2;
  Some (Some (type, len)).

Definition jmy_net_proto2_pack_disconnect (buf : option (list Z)) (len : Z)
  : option (Z * option (list Z)) :=
  let pack_len := jmy_net_proto2_disconnect_pack_len in
  match buf with
  | None => Some (-1, buf)
  | Some b =>
    if len <? pack_len then Some (-1, buf) else
    '(_, b) ← PACK_INT16_TO_BUFF JMY_PACKET2_LEN_TYPE b 0;
    b ← put b 2 (schar JMY_PACKET2_DISCONNECT);
    Some (pack_len, Some b)
  end.

Definition jmy_net_proto2_pack_disconnect_ack (buf : option (list Z)) (len : Z)
  : option (Z * option (list Z)) :=
  let pack_len := jmy_net_proto2_disconnect_ack_pack_len in
  match buf with
  | None => Some (-1, buf)
  | Some b =>
    if len <? pack_len then Some (-1, buf) else
    '(_, b) ← PACK_INT16_TO_BUFF JMY_PACKET2_LEN_TYPE b 0;
    b ← put b 2 (schar JMY_PACKET2_DISCONNECT_ACK);
    Some (pack_len, Some b)
  end.

Definition jmy_net_proto2_pack_user_data_head (buf : option (list Z)) (len msg_id data_len : Z)
  : option (Z * option (list Z)) :=
  let pack_len := jmy_net_proto2_user_data_pack_len_of data_len in
  match buf with
  | None => Some (-1, buf)
  | Some b =>
    if len <? pack_len - data_len then Some (-1, buf) else
    '(_, b) ← PACK_INT16_TO_BUFF (pack_len - JMY_PACKET2_LEN_HEAD) b 0;
    b ← put b 2 (schar JMY_PACKET2_USER_DATA);
    '(_, b) ← PACK_INT16_TO_BUFF msg_id b 3;
    Some (jmy_net_proto2_user_data_pack_len, Some b)
  end.

Definition jmy_net_proto2_pack_user_id_data_head (buf : option (list Z))
  (len user_id msg_id data_len : Z) : option (Z * option (list Z)) :=
  let pack_len := jmy_net_proto2_user_id_data_pack_len_of data_len in
  match buf with
  | None => Some (-1, buf)
  | Some b =>
    if len <? pack_len - data_len then Some (-1, buf) else
    '(_, b) ← PACK_INT16_TO_BUFF (pack_len - JMY_PACKET2_LEN_HEAD) b 0;
    b ← put b 2 (schar JMY_PACKET2_USER_ID_DATA);
    let offset := 3 in
    '(res, b) ← PACK_INT32_TO_BUFF user_id b offset;
    let offset := offset + res in
    '(_, b) ← PACK_INT16_TO_BUFF msg_id b offset;
    Some (jmy_net_proto2_user_id_data_pack_len, Some b)
  end.

(** [t] is the [time_t] the system clock returns. *)
Definition jmy_net_proto2_pack_heartbeat (t : Z) (buf : option (list Z)) (len : Z)
  : option (Z * option (list Z)) :=
  let pack_len := jmy_net_proto2_heartbeat_pack_len in
  match buf with
  | None => Some (-1, buf)
  | Some b =>
    if len <? pack_len then Some (-1, buf) else
    '(_, b) ← PACK_INT16_TO_BUFF (pack_len - JMY_PACKET2_LEN_HEAD) b 0;
    b ← put b 2 (schar JMY_PACKET2_HEARTBEAT);
    '(_, b) ← PACK_INT32_TO_BUFF t b 3;
    Some (pack_len, Some b)
  end.

(** ** Unpacking

    [buf] is the memory from the body on, [len] the length of the body.  The
    result is the returned [int] and the [data] the caller passed by reference. *)

Definition unpack_user (packet_type : Z) (buf : list Z) (len : Z)
  (data : JmyPacketUnpackData2) (conn_id param offset user_id : Z)
  : option (Z * JmyPacketUnpackData2) :=
  msg_id ← UNPACK_INT16_FROM_BUFF buf offset;
  let data := ud2_set_param msg_id data in
  let offset := offset + 2 in
  let msg_len := u32 (len - offset) in
  let msg_info := mkJmyMsgInfo user_id (s32 (ud2_param data))
                    (Some (drop (Z.to_nat offset) buf)) msg_len conn_id param in
  Some (s32 (u32 (offset + msg_len)),
        ud2_set_result JMY_UNPACK2_RESULT_NO_ERROR (ud2_set_msg_info msg_info data)).

Definition jmy_net_proto2_unpack_data (packet_type : Z) (buf : option (list Z)) (len : Z)
  (data : JmyPacketUnpackData2) (conn_id param : Z) : option (Z * JmyPacketUnpackData2) :=
  match buf with
  | None => Some (0, data)
  | Some buf =>
    if len =? 0 then Some (0, data)
    else if packet_type =? JMY_PACKET2_USER_DATA then
      unpack_user packet_type buf len data conn_id param 0 0
    else if packet_type =? JMY_PACKET2_USER_ID_DATA then
      if len - 0 <? 4 then Some (0, ud2_set_result JMY_UNPACK2_RESULT_DATA_NOT_ENOUGH data) else
      user_id ← UNPACK_INT32_FROM_BUFF buf 0;
      unpack_user packet_type buf len data conn_id param 4 (s32 user_id)
    else if packet_type =? JMY_PACKET2_HEARTBEAT then
      if len <? JMY_PACKET2_LEN_TIMESTAMP
      then Some (0, ud2_set_result JMY_UNPACK2_RESULT_DATA_NOT_ENOUGH data) else
      t ← UNPACK_INT32_FROM_BUFF buf 0;
      Some (JMY_PACKET2_LEN_TIMESTAMP,
            ud2_set_result JMY_UNPACK2_RESULT_NO_ERROR (ud2_set_param t data))
    else if (packet_type =? JMY_PACKET2_DISCONNECT) || (packet_type =? JMY_PACKET2_DISCONNECT_ACK) then
      Some (0, ud2_set_result JMY_UNPACK2_RESULT_NO_ERROR data)
    else Some (-1, data)
  end.

(** ** The bytes of a packet *)

Definition user_data_head (msg_id data_len : Z) : list Z :=
  be16 (data_len + 3) ++ [JMY_PACKET2_USER_DATA] ++ be16 msg_id.

Definition user_id_data_head (user_id msg_id data_len : Z) : list Z :=
  be16 (data_len + 7) ++ [JMY_PACKET2_USER_ID_DATA] ++ be32 user_id ++ be16 msg_id.

Definition heartbeat_packet (t : Z) : list Z := be16 5 ++ [JMY_PACKET2_HEARTBEAT] ++ be32 t.
Definition disconnect_packet : list Z := be16 1 ++ [JMY_PACKET2_DISCONNECT].
Definition disconnect_ack_packet : list Z := be16 1 ++ [JMY_PACKET2_DISCONNECT_ACK].

(** ** Packing writes exactly the head *)

(** What a packing function does: nothing but return -1 when the buffer is null or
    the stated length too short; otherwise it writes [head] at the front. *)
Definition packs_head (pack : option (list Z) -> Z -> option (Z * option (list Z)))
  (n : Z) (head : list Z) : Prop :=
  (forall len, pack None len = Some (-1, None)) /\
  (forall b len, len < n -> pack (Some b) len = Some (-1, Some b)) /\
  (forall b len, n <= len -> len <= lenZ b ->
     pack (Some b) len = Some (n, Some (head ++ drop (Z.to_nat n) b))).

Ltac proto2_consts :=
  unfold jmy_net_proto2_user_data_pack_len_of, jmy_net_proto2_user_id_data_pack_len_of,
    jmy_net_proto2_user_data_pack_len, jmy_net_proto2_user_id_data_pack_len,
    jmy_net_proto2_heartbeat_pack_len, jmy_net_proto2_disconnect_pack_len,
    jmy_net_proto2_disconnect_ack_pack_len, JMY_PACKET2_LEN_HEAD, JMY_PACKET2_LEN_TYPE,
    JMY_PACKET2_LEN_USER_ID, JMY_PACKET2_LEN_MSG_ID, JMY_PACKET2_LEN_TIMESTAMP.

(** Proves [packs_head] of a packing function whose guard and lengths are in normal
    form: the null and short cases, then the writes one by one on a buffer whose
    first cells are explicit. *)
Ltac solve_packs_head :=
  split; [done|split; intros ? ?; zbool]; intros ??;
  repeat (match goal with b : list Z |- _ => destruct b; [simpl in *; lia|] end);
  unfold PACK_INT16_TO_BUFF, PACK_INT32_TO_BUFF; simpl; run_puts; done.

Lemma user_data_head_packs msg_id data_len :
  packs_head (fun b l => jmy_net_proto2_pack_user_data_head b l msg_id data_len)
    5 (user_data_head msg_id data_len).
Proof.
  unfold jmy_net_proto2_pack_user_data_head, user_data_head. proto2_consts.
  replace (2 + 1 + 2 + data_len - data_len) with 5 by lia.
  replace (2 + 1 + 2 + data_len - 2) with (data_len + 3) by lia.
  solve_packs_head.
Qed.

Lemma user_id_data_head_packs user_id msg_id data_len :
  packs_head (fun b l => jmy_net_proto2_pack_user_id_data_head b l user_id msg_id data_len)
    9 (user_id_data_head user_id msg_id data_len).
Proof.
  unfold jmy_net_proto2_pack_user_id_data_head, user_id_data_head. proto2_consts.
  replace (2 + 1 + 4 + 2 + data_len - data_len) with 9 by lia.
  replace (2 + 1 + 4 + 2 + data_len - 2) with (data_len + 7) by lia.
  solve_packs_head.
Qed.

Lemma heartbeat_packs t : packs_head (jmy_net_proto2_pack_heartbeat t) 7 (heartbeat_packet t).
Proof.
  unfold jmy_net_proto2_pack_heartbeat, heartbeat_packet. proto2_consts. solve_packs_head.
Qed.

Lemma disconnect_packs : packs_head jmy_net_proto2_pack_disconnect 3 disconnect_packet.
Proof.
  unfold jmy_net_proto2_pack_disconnect, disconnect_packet. proto2_consts. solve_packs_head.
Qed.

Lemma disconnect_ack_packs : packs_head jmy_net_proto2_pack_disconnect_ack 3 disconnect_ack_packet.
Proof.
  unfold jmy_net_proto2_pack_disconnect_ack, disconnect_ack_packet. proto2_consts.
  solve_packs_head.
Qed.

(** Every packing function of protocol 2 is memory safe and writes exactly
    the head of its packet: with a null buffer or a stated length below the
    packet's head it returns -1 and writes nothing, otherwise it returns the
    length of the head, the head's bytes are at the front and the rest of the
    buffer is unchanged. *)
Theorem pack_functions_write_head : forall user_id msg_id data_len t : Z,
  packs_head (fun b l => jmy_net_proto2_pack_user_data_head b l msg_id data_len)
    5 (user_data_head msg_id data_len) /\
  packs_head (fun b l => jmy_net_proto2_pack_user_id_data_head b l user_id msg_id data_len)
    9 (user_id_data_head user_id msg_id data_len) /\
  packs_head (jmy_net_proto2_pack_heartbeat t) 7 (heartbeat_packet t) /\
  packs_head jmy_net_proto2_pack_disconnect 3 disconnect_packet /\
  packs_head jmy_net_proto2_pack_disconnect_ack 3 disconnect_ack_packet.
Proof.
  intros. eauto using user_data_head_packs, user_id_data_head_packs, heartbeat_packs,
    disconnect_packs, disconnect_ack_packs.
Qed.

(** ** Unpacking *)

Lemma get_packet_len_type_spec n ty rest :
  0 <= n < 2 ^ 16 ->
  jmy_net_proto2_get_packet_len_type (be16 n ++ [ty] ++ rest) 3 = Some (Some (ty, n)).
Proof.
  intros Hn. unfold jmy_net_proto2_get_packet_len_type. simpl Z.ltb.
  rewrite UNPACK_INT16_front. simpl.
  by rewrite Z.mod_small by lia.
Qed.

Lemma get_packet_len_type_truncates n ty rest :
  jmy_net_proto2_get_packet_len_type (be16 n ++ [ty] ++ rest) 3 = Some (Some (ty, n mod 2 ^ 16)).
Proof.
  unfold jmy_net_proto2_get_packet_len_type. simpl Z.ltb.
  by rewrite UNPACK_INT16_front.
Qed.

Lemma unpack_user_app ty pre msg_id data st conn_id param user_id :
  0 <= msg_id < 2 ^ 16 -> lenZ pre + 2 + lenZ data < 2 ^ 31 ->
  let body := pre ++ be16 msg_id ++ data in
  unpack_user ty body (lenZ body) st conn_id param (lenZ pre) user_id =
    Some (lenZ body,
          ud2_set_result JMY_UNPACK2_RESULT_NO_ERROR
            (ud2_set_msg_info (mkJmyMsgInfo user_id msg_id (Some data) (lenZ data) conn_id param)
              (ud2_set_param msg_id st))).
Proof.
  intros Hid Hlen body. subst body. unfold unpack_user.
  assert (Hd : drop (Z.to_nat (lenZ pre + 2)) (pre ++ be16 msg_id ++ data) = data).
  { rewrite app_assoc. apply drop_app_length'. rewrite length_app. simpl. lia. }
  rewrite UNPACK_INT16_app. cbv beta iota zeta delta [mbind option_bind].
  rewrite Hd, !length_app. simpl.
  rewrite Z.mod_small by lia.
  rewrite (s32_id msg_id) by (unfold is_s32; lia).
  rewrite (u32_id (_ - _)) by (unfold is_u32; lia).
  rewrite u32_id, s32_id by (unfold is_u32, is_s32; lia).
  repeat (f_equal; try lia).
Qed.

Lemma unpack_user_data st msg_id data conn_id param :
  0 <= msg_id < 2 ^ 16 -> lenZ data < 2 ^ 16 ->
  jmy_net_proto2_unpack_data JMY_PACKET2_USER_DATA (Some (be16 msg_id ++ data))
    (lenZ data + 2) st conn_id param =
  Some (lenZ data + 2,
        ud2_set_result JMY_UNPACK2_RESULT_NO_ERROR
          (ud2_set_msg_info (mkJmyMsgInfo 0 msg_id (Some data) (lenZ data) conn_id param)
            (ud2_set_param msg_id st))).
Proof.
  intros. unfold jmy_net_proto2_unpack_data.
  replace (lenZ data + 2 =? 0) with false by (symmetry; apply Z.eqb_neq; lia). simpl.
  pose proof (unpack_user_app JMY_PACKET2_USER_DATA [] msg_id data st conn_id param 0) as H1.
  simpl in H1. replace (Z.of_nat (S (S (length data)))) with (lenZ data + 2) in H1 by lia.
  apply H1; lia.
Qed.

Lemma unpack_user_id_data st user_id msg_id data conn_id param :
  is_s32 user_id -> 0 <= msg_id < 2 ^ 16 -> lenZ data < 2 ^ 16 ->
  jmy_net_proto2_unpack_data JMY_PACKET2_USER_ID_DATA (Some (be32 user_id ++ be16 msg_id ++ data))
    (lenZ data + 6) st conn_id param =
  Some (lenZ data + 6,
        ud2_set_result JMY_UNPACK2_RESULT_NO_ERROR
          (ud2_set_msg_info (mkJmyMsgInfo user_id msg_id (Some data) (lenZ data) conn_id param)
            (ud2_set_param msg_id st))).
Proof.
  intros Hu ??. unfold jmy_net_proto2_unpack_data.
  replace (lenZ data + 6 =? 0) with false by (symmetry; apply Z.eqb_neq; lia). simpl Z.eqb. cbv iota.
  replace (lenZ data + 6 - 0 <? 4) with false by (symmetry; apply Z.ltb_ge; lia).
  rewrite UNPACK_INT32_front. simpl mbind.
  change (user_id mod 2 ^ 32) with (u32 user_id). rewrite s32_u32, s32_id by done.
  pose proof (unpack_user_app JMY_PACKET2_USER_ID_DATA (be32 user_id) msg_id data st conn_id param
                user_id) as H1.
  simpl in H1.
  replace (Z.of_nat (S (S (S (S (S (S (length data)))))))) with (lenZ data + 6) in H1 by lia.
  apply H1; lia.
Qed.

(** C13.  Round trip of a user message: the head that the packing functions write
    for a message id in [0, 65535], any 32 bit user id and a payload that fits the
    16 bit length field is read back as the packet's type and length, and the body
    is decoded to the same user id, message id and payload, with the connection id
    and the parameter of the receiver. *)
Theorem user_packets_roundtrip : forall user_id msg_id (data : list Z) st conn_id param,
  is_s32 user_id -> 0 <= msg_id <= JMY_MAX_MESSAGE_ID -> lenZ data + 7 < 2 ^ 16 ->
  (let packet := user_data_head msg_id (lenZ data) ++ data in
   let info := mkJmyMsgInfo 0 msg_id (Some data) (lenZ data) conn_id param in
   jmy_net_proto2_get_packet_len_type (take 3 packet) 3
     = Some (Some (JMY_PACKET2_USER_DATA, lenZ (drop 3 packet) + JMY_PACKET2_LEN_TYPE)) /\
   exists st', jmy_net_proto2_unpack_data JMY_PACKET2_USER_DATA (Some (drop 3 packet))
     (lenZ (drop 3 packet)) st conn_id param = Some (lenZ (drop 3 packet), st') /\
   ud2_result st' = JMY_UNPACK2_RESULT_NO_ERROR /\ ud2_msg_info st' = info /\
   mi_payload info = Some data) /\
  (let packet := user_id_data_head user_id msg_id (lenZ data) ++ data in
   let info := mkJmyMsgInfo user_id msg_id (Some data) (lenZ data) conn_id param in
   jmy_net_proto2_get_packet_len_type (take 3 packet) 3
     = Some (Some (JMY_PACKET2_USER_ID_DATA, lenZ (drop 3 packet) + JMY_PACKET2_LEN_TYPE)) /\
   exists st', jmy_net_proto2_unpack_data JMY_PACKET2_USER_ID_DATA (Some (drop 3 packet))
     (lenZ (drop 3 packet)) st conn_id param = Some (lenZ (drop 3 packet), st') /\
   ud2_result st' = JMY_UNPACK2_RESULT_NO_ERROR /\ ud2_msg_info st' = info /\
   mi_payload info = Some data).
Proof.
  unfold JMY_MAX_MESSAGE_ID. intros user_id msg_id data st conn_id param Hu Hm Hl.
  split; cbv zeta.
  - change (drop 3 (user_data_head msg_id (lenZ data) ++ data)) with (be16 msg_id ++ data).
    change (take 3 (user_data_head msg_id (lenZ data) ++ data))
      with (be16 (lenZ data + 3) ++ [JMY_PACKET2_USER_DATA] ++ []).
    rewrite get_packet_len_type_spec by lia.
    replace (lenZ (be16 msg_id ++ data)) with (lenZ data + 2) by (simpl; lia).
    rewrite unpack_user_data by lia. unfold JMY_PACKET2_LEN_TYPE.
    split; [do 3 f_equal; lia|]. eexists. repeat split. apply mem_read_all.
  - change (drop 3 (user_id_data_head user_id msg_id (lenZ data) ++ data))
      with (be32 user_id ++ be16 msg_id ++ data).
    change (take 3 (user_id_data_head user_id msg_id (lenZ data) ++ data))
      with (be16 (lenZ data + 7) ++ [JMY_PACKET2_USER_ID_DATA] ++ []).
    rewrite get_packet_len_type_spec by lia.
    replace (lenZ (be32 user_id ++ be16 msg_id ++ data)) with (lenZ data + 6) by (simpl; lia).
    rewrite unpack_user_id_data by (done || lia). unfold JMY_PACKET2_LEN_TYPE.
    split; [do 3 f_equal; lia|]. eexists. repeat split. apply mem_read_all.
Qed.

Lemma user_packets_roundtrip_witness :
  let st := JmyPacketUnpackData2_new in
  (is_s32 (-7) /\ 0 <= 300 <= JMY_MAX_MESSAGE_ID) /\
  exists st', jmy_net_proto2_unpack_data JMY_PACKET2_USER_ID_DATA
    (Some (drop 3 (user_id_data_head (-7) 300 3 ++ [1; -2; 3]))) 9 st 5 1 = Some (9, st') /\
  ud2_msg_info st' = mkJmyMsgInfo (-7) 300 (Some [1; -2; 3]) 3 5 1.
Proof.
  split; [unfold is_s32, JMY_MAX_MESSAGE_ID; lia|].
  destruct (user_packets_roundtrip (-7) 300 [1; -2; 3] JmyPacketUnpackData2_new 5 1)
    as [_ (_ & st' & H1 & _ & H2 & _)];
    [unfold is_s32; lia|unfold JMY_MAX_MESSAGE_ID; lia|simpl; lia|].
  exists st'. split; [exact H1|exact H2].
Defined.

(** The exact memory-safety boundary of [jmy_net_proto2_unpack_data] on a body of
    [len] bytes: it reads out of bounds for a user packet whose body is a single
    byte and for a user-id packet whose body is 4 or 5 bytes (the message id is read
    with no length check), and for no other packet type or length. *)
Theorem unpack_data_safe_iff : forall packet_type (buf : list Z) st conn_id param,
  jmy_net_proto2_unpack_data packet_type (Some buf) (lenZ buf) st conn_id param = None <->
  (packet_type = JMY_PACKET2_USER_DATA /\ lenZ buf = 1) \/
  (packet_type = JMY_PACKET2_USER_ID_DATA /\ (lenZ buf = 4 \/ lenZ buf = 5)).
Proof.
  intros ty buf st c p. unfold jmy_net_proto2_unpack_data, unpack_user.
  assert (H16 : forall o, 0 <= o -> UNPACK_INT16_FROM_BUFF buf o = None <-> lenZ buf < o + 2).
  { intros o Ho. split.
    - intros HN. destruct (decide (o + 2 <= lenZ buf)); [|lia].
      destruct (UNPACK_INT16_safe buf o) as (v & E & _); [lia..|congruence].
    - intros Hl. unfold UNPACK_INT16_FROM_BUFF. rewrite Z.add_0_r, !get_lookup by lia.
      destruct (buf !! Z.to_nat o); [simpl|done].
      by rewrite lookup_ge_None_2 by lia. }
  assert (H32 : UNPACK_INT32_FROM_BUFF buf 0 = None -> lenZ buf < 4).
  { intros HN. destruct (decide (4 <= lenZ buf)); [|lia].
    destruct (UNPACK_INT32_safe buf 0) as (v & E & _); [lia..|congruence]. }
  unfold JMY_PACKET2_LEN_TIMESTAMP, JMY_PACKET2_USER_DATA, JMY_PACKET2_USER_ID_DATA,
    JMY_PACKET2_HEARTBEAT, JMY_PACKET2_DISCONNECT, JMY_PACKET2_DISCONNECT_ACK.
  destruct (Z.eqb_spec (lenZ buf) 0); [split; [done|lia]|].
  destruct (Z.eqb_spec ty 5) as [->|].
  { specialize (H16 0). destruct (UNPACK_INT16_FROM_BUFF buf 0); simpl; naive_solver lia. }
  destruct (Z.eqb_spec ty 10) as [->|].
  { destruct (Z.ltb_spec (lenZ buf - 0) 4); [split; [done|lia]|].
    destruct (UNPACK_INT32_FROM_BUFF buf 0); simpl; [|specialize (H32 eq_refl); lia].
    specialize (H16 4). destruct (UNPACK_INT16_FROM_BUFF buf 4); simpl; naive_solver lia. }
  destruct (Z.eqb_spec ty 7) as [->|].
  { destruct (Z.ltb_spec (lenZ buf) 4); [split; [done|lia]|].
    destruct (UNPACK_INT32_FROM_BUFF buf 0); simpl; [split; [done|lia]|].
    specialize (H32 eq_refl); lia. }
  destruct (_ || _); split; (done || lia).
Qed.
