(* ===== verification/NetProto.v ===== *)
(** * Network protocol 1 ([jmy_net_proto.h], [jmy_net_proto.cpp])

    A packet is a 1 byte type and a body; only the user packets carry a length.  The packing
    functions write the head of a packet, [jmy_net_proto_unpack_data_head] decodes the packet
    at the front of a receive buffer.  [USE_CONN_PROTO] is 0, so the connect packets do not
    exist. *)
From S2P Require Import Prelude Datatype Wire NetProto2.
From Stdlib Require Import ZArith Lia.
From stdpp Require Import base option list.
Local Open Scope Z_scope.

(** ** Constants and data *)

Definition JMY_PACKET_NONE : Z := 0.
Definition JMY_PACKET_USER_DATA : Z := 5.
Definition JMY_PACKET_ACK : Z := 6.
Definition JMY_PACKET_HEARTBEAT : Z := 7.
Definition JMY_PACKET_DISCONNECT : Z := 8.
Definition JMY_PACKET_DISCONNECT_ACK : Z := 9.
Definition JMY_PACKET_USER_ID_DATA : Z := 10.

Definition JMY_UNPACK_RESULT_NO_ERROR : Z := 0.
Definition JMY_UNPACK_RESULT_DATA_NOT_ENOUGH : Z := 1.
Definition JMY_UNPACK_RESULT_USER_DATA_NOT_ENOUGH : Z := 2.
Definition JMY_UNPACK_RESULT_MSG_LEN_INVALID : Z := 3.

Definition JMY_PACKET_LEN_TYPE : Z := 1.
Definition JMY_PACKET_LEN_DISCONNECT : Z := 1.
Definition JMY_PACKET_LEN_DISCONNECT_ACK : Z := 1.
Definition JMY_PACKET_LEN_USER_DATA_HEAD : Z := 1 + 2 + 2.
Definition JMY_PACKET_LEN_USER_ID_DATA_HEAD : Z := 1 + 4 + 2 + 2.
Definition JMY_PACKET_LEN_ACK : Z := 1 + 2 + 2.
Definition JMY_PACKET_LEN_HEARTBEAT : Z := 1 + 4.

Record JmyPacketUnpackData : Type := mkUnpackData {
  ud_type : Z;
  ud_param : Z;
  ud_data : Z;
  ud_result : Z;
  ud_msg_info : JmyMsgInfo;
}.

Definition JmyPacketUnpackData_new : JmyPacketUnpackData :=
  mkUnpackData JMY_PACKET_NONE 0 0 JMY_UNPACK_RESULT_NO_ERROR JmyMsgInfo_new.

Definition ud_set_type (t : Z) (d : JmyPacketUnpackData) : JmyPacketUnpackData :=
  mkUnpackData t (ud_param d) (ud_data d) (ud_result d) (ud_msg_info d).
Definition ud_set_param (p : Z) (d : JmyPacketUnpackData) : JmyPacketUnpackData :=
  mkUnpackData (ud_type d) p (ud_data d) (ud_result d) (ud_msg_info d).
Definition ud_set_data (x : Z) (d : JmyPacketUnpackData) : JmyPacketUnpackData :=
  mkUnpackData (ud_type d) (ud_param d) x (ud_result d) (ud_msg_info d).
Definition ud_set_result (r : Z) (d : JmyPacketUnpackData) : JmyPacketUnpackData :=
  mkUnpackData (ud_type d) (ud_param d) (ud_data d) r (ud_msg_info d).
Definition ud_set_msg_info (m : JmyMsgInfo) (d : JmyPacketUnpackData) : JmyPacketUnpackData :=
  mkUnpackData (ud_type d) (ud_param d) (ud_data d) (ud_result d) m.

(** ** Packing: [None] is a null pointer, [len] the stated size of the buffer *)

Definition jmy_net_proto_pack_type (buf : list Z) : option Z := get buf 0.

Definition jmy_net_proto_pack_disconnect (buf : option (list Z)) (len : Z) : option (Z * option (list Z)) :=
  match buf with
  | None => Some (-1, buf)
  | Some b =>
    if len <? JMY_PACKET_LEN_DISCONNECT then Some (-1, buf) else
    b ← put b 0 (schar JMY_PACKET_DISCONNECT);
    Some (JMY_PACKET_LEN_DISCONNECT, Some b)
  end.

Definition jmy_net_proto_pack_disconnect_ack (buf : option (list Z)) (len : Z) : option (Z * option (list Z)) :=
  match buf with
  | None => Some (-1, buf)
  | Some b =>
    if len <? JMY_PACKET_LEN_DISCONNECT_ACK then Some (-1, buf) else
    b ← put b 0 (schar JMY_PACKET_DISCONNECT_ACK);
    Some (JMY_PACKET_LEN_DISCONNECT_ACK, Some b)
  end.

Definition jmy_net_proto_pack_msgid_datalen (buf : option (list Z)) (len msgid data_len : Z)
  : option (Z * option (list Z)) :=
  match buf with
  | None => Some (-1, buf)
  | Some b =>
    if len <? JMY_PACKET_LEN_USER_DATA_HEAD then Some (-1, buf) else
    b ← put b 0 (schar JMY_PACKET_USER_DATA);
    '(_, b) ← PACK_INT16_TO_BUFF (data_len + 2) b 1;
    '(_, b) ← PACK_INT16_TO_BUFF msgid b 3;
    Some (JMY_PACKET_LEN_USER_DATA_HEAD, Some b)
  end.

Definition jmy_net_proto_pack_userid_msgid_datalen (buf : option (list Z))
  (len user_id msg_id data_len : Z) : option (Z * option (list Z)) :=
  match buf with
  | None => Some (-1, buf)
  | Some b =>
    if len <? JMY_PACKET_LEN_USER_ID_DATA_HEAD then Some (-1, buf) else
    b ← put b 0 (schar JMY_PACKET_USER_ID_DATA);
    let offset := 1 in
    '(res, b) ← PACK_INT32_TO_BUFF user_id b offset;
    let offset := offset + res in
    '(res, b) ← PACK_INT16_TO_BUFF (data_len + 2) b offset;
    let offset := offset + res in
    '(_, b) ← PACK_INT16_TO_BUFF msg_id b offset;
    Some (JMY_PACKET_LEN_USER_ID_DATA_HEAD, Some b)
  end.

Definition jmy_net_proto_pack_ack (buf : option (list Z)) (len msg_count curr_id : Z)
  : option (Z * option (list Z)) :=
  match buf with
  | None => Some (-1, buf)
  | Some b =>
    if len <? JMY_PACKET_LEN_ACK then Some (-1, buf) else
    b ← put b 0 (schar JMY_PACKET_ACK);
    '(_, b) ← PACK_INT16_TO_BUFF msg_count b 1;
    '(_, b) ← PACK_INT16_TO_BUFF curr_id b 3;
    Some (JMY_PACKET_LEN_ACK, Some b)
  end.

(** [t] is the [time_t] of the system clock. *)
Definition jmy_net_proto_pack_heartbeat (t : Z) (buf : option (list Z)) (len : Z)
  : option (Z * option (list Z)) :=
  match buf with
  | None => Some (-1, buf)
  | Some b =>
    if len <? JMY_PACKET_LEN_HEARTBEAT then Some (-1, buf) else
    b ← put b 0 (schar JMY_PACKET_HEARTBEAT);
    '(_, b) ← PACK_INT32_TO_BUFF t b 1;
    Some (JMY_PACKET_LEN_HEARTBEAT, Some b)
  end.

(** The [defined_type_head] functions: the value is packed at the type's own offset. *)
Definition pack_defined_type_head_int64 (buf : option (list Z)) (len defined_pack_type param : Z)
  : option (Z * option (list Z)) :=
  let int64_packet_type_len := JMY_PACKET_LEN_TYPE + 8 in
  match buf with
  | None => Some (-1, buf)
  | Some b =>
    if len <? int64_packet_type_len then Some (-1, buf) else
    b ← put b 0 (schar defined_pack_type);
    '(_, b) ← PACK_INT64_TO_BUFF param b 0;
    Some (int64_packet_type_len, Some b)
  end.

Definition pack_defined_type_head_int (buf : option (list Z)) (len defined_pack_type param : Z)
  : option (Z * option (list Z)) :=
  let int32_packet_type_len := JMY_PACKET_LEN_TYPE + 4 in
  match buf with
  | None => Some (-1, buf)
  | Some b =>
    if len <? int32_packet_type_len then Some (-1, buf) else
    b ← put b 0 (schar defined_pack_type);
    '(_, b) ← PACK_INT32_TO_BUFF param b 0;
    Some (int32_packet_type_len, Some b)
  end.

Definition pack_defined_type_head_short (buf : option (list Z)) (len defined_pack_type param : Z)
  : option (Z * option (list Z)) :=
  let int16_packet_type_len := JMY_PACKET_LEN_TYPE + 2 in
  match buf with
  | None => Some (-1, buf)
  | Some b =>
    if len <? int16_packet_type_len then Some (-1, buf) else
    b ← put b 0 (schar defined_pack_type);
    '(_, b) ← PACK_INT16_TO_BUFF param b 0;
    Some (int16_packet_type_len, Some b)
  end.

Definition pack_defined_type_head_char (buf : option (list Z)) (len defined_pack_type param : Z)
  : option (Z * option (list Z)) :=
  let int8_packet_type_len := JMY_PACKET_LEN_TYPE + 1 in
  match buf with
  | None => Some (-1, buf)
  | Some b =>
    if len <? int8_packet_type_len then Some (-1, buf) else
    b ← put b 0 (schar defined_pack_type);
    b ← put b 1 param;
    Some (int8_packet_type_len, Some b)
  end.

(** ** Unpacking

    [buf] is the memory from the pointer to the end of its block, [len] the number of
    received bytes. *)

Definition unpack_user_head (buf : list Z) (len : Z) (data : JmyPacketUnpackData) (conn_id param offset user_id : Z)
  : option (Z * JmyPacketUnpackData) :=
  if s32 len - offset - 2 <? 0 then Some (0, ud_set_result JMY_UNPACK_RESULT_DATA_NOT_ENOUGH data) else
  data_len ← UNPACK_INT16_FROM_BUFF buf offset;
  if data_len <? 2 then
    Some (-1, ud_set_result JMY_UNPACK_RESULT_MSG_LEN_INVALID (ud_set_data data_len data))
  else
  let offset := offset + 2 in
  if s32 (u32 (len - offset)) <? data_len then
    Some (0, ud_set_result JMY_UNPACK_RESULT_USER_DATA_NOT_ENOUGH (ud_set_data (data_len + offset) data))
  else
  msg_id ← UNPACK_INT16_FROM_BUFF buf offset;
  let data := ud_set_param msg_id data in
  let offset := offset + 2 in
  let msg_info := mkJmyMsgInfo user_id (s32 (ud_param data)) (Some (drop (Z.to_nat offset) buf))
                    (u32 (data_len - 2)) conn_id param in
  Some (s32 (u32 (offset + mi_len msg_info)),
        ud_set_result JMY_UNPACK_RESULT_NO_ERROR (ud_set_msg_info msg_info data)).

Definition jmy_net_proto_unpack_data_head (buf : option (list Z)) (len : Z) (data : JmyPacketUnpackData)
  (conn_id param : Z) : option (Z * JmyPacketUnpackData) :=
  match buf with
  | None => Some (0, data)
  | Some buf =>
    if len =? 0 then Some (0, data) else
    type ← get buf 0;
    let data := ud_set_type type data in
    if type =? JMY_PACKET_USER_DATA then
      unpack_user_head buf len data conn_id param JMY_PACKET_LEN_TYPE 0
    else if type =? JMY_PACKET_USER_ID_DATA then
      if u32 (len - JMY_PACKET_LEN_TYPE) <? 4
      then Some (0, ud_set_result JMY_UNPACK_RESULT_DATA_NOT_ENOUGH data) else
      user_id ← UNPACK_INT32_FROM_BUFF buf JMY_PACKET_LEN_TYPE;
      unpack_user_head buf len data conn_id param (JMY_PACKET_LEN_TYPE + 4) (s32 user_id)
    else if type =? JMY_PACKET_ACK then
      if u32 (len - 1) <=? 2 + 2 then Some (0, ud_set_result JMY_UNPACK_RESULT_DATA_NOT_ENOUGH data) else
      count ← UNPACK_INT16_FROM_BUFF buf 1;
      curr ← UNPACK_INT16_FROM_BUFF buf 3;
      Some (1 + 2 + 2, ud_set_result JMY_UNPACK_RESULT_NO_ERROR (ud_set_param curr (ud_set_data count data)))
    else if type =? JMY_PACKET_HEARTBEAT then
      if u32 (len - 1) <=? 4 then Some (0, ud_set_result JMY_UNPACK_RESULT_DATA_NOT_ENOUGH data) else
      t ← UNPACK_INT32_FROM_BUFF buf 1;
      Some (1 + 4, ud_set_result JMY_UNPACK_RESULT_NO_ERROR (ud_set_param t data))
    else if type =? JMY_PACKET_DISCONNECT then
      if len <? JMY_PACKET_LEN_DISCONNECT then Some (0, ud_set_result JMY_UNPACK_RESULT_DATA_NOT_ENOUGH data) else
      Some (JMY_PACKET_LEN_DISCONNECT, ud_set_result JMY_UNPACK_RESULT_NO_ERROR data)
    else if type =? JMY_PACKET_DISCONNECT_ACK then
      if len <? JMY_PACKET_LEN_DISCONNECT_ACK then Some (0, ud_set_result JMY_UNPACK_RESULT_DATA_NOT_ENOUGH data) else
      Some (JMY_PACKET_LEN_DISCONNECT_ACK, ud_set_result JMY_UNPACK_RESULT_NO_ERROR data)
    else Some (-1, data)
  end.

(** ** The frames of user messages *)

Record umsg : Type := mkUmsg { um_user : option Z; um_id : Z; um_data : list Z }.

Definition umsg_ok (m : umsg) : Prop :=
  match um_user m with Some u => is_s32 u | None => True end /\
  is_u16 (um_id m) /\ lenZ (um_data m) + 2 < 2 ^ 16.

Definition umsg_type (m : umsg) : Z :=
  match um_user m with Some _ => JMY_PACKET_USER_ID_DATA | None => JMY_PACKET_USER_DATA end.

(** What comes before the length field. *)
Definition umsg_pre (m : umsg) : list Z :=
  match um_user m with Some u => JMY_PACKET_USER_ID_DATA :: be32 u | None => [JMY_PACKET_USER_DATA] end.

Definition umsg_head (m : umsg) : list Z := umsg_pre m ++ be16 (lenZ (um_data m) + 2) ++ be16 (um_id m).
Definition umsg_frame (m : umsg) : list Z := umsg_head m ++ um_data m.
Definition umsg_len (m : umsg) : Z := lenZ (umsg_frame m).

Definition umsg_info (conn_id param : Z) (rest : list Z) (m : umsg) : JmyMsgInfo :=
  mkJmyMsgInfo (default 0 (um_user m)) (um_id m) (Some (um_data m ++ rest)) (lenZ (um_data m)) conn_id param.

(** The unpack data after a complete frame, and after an incomplete one. *)
Definition ud_complete (conn_id param : Z) (rest : list Z) (m : umsg) (st : JmyPacketUnpackData) : JmyPacketUnpackData :=
  mkUnpackData (umsg_type m) (um_id m) (ud_data st) JMY_UNPACK_RESULT_NO_ERROR (umsg_info conn_id param rest m).

Definition ud_incomplete (n : Z) (m : umsg) (st : JmyPacketUnpackData) : JmyPacketUnpackData :=
  if n <? lenZ (umsg_pre m) + 2
  then mkUnpackData (umsg_type m) (ud_param st) (ud_data st) JMY_UNPACK_RESULT_DATA_NOT_ENOUGH (ud_msg_info st)
  else mkUnpackData (umsg_type m) (ud_param st) (umsg_len m) JMY_UNPACK_RESULT_USER_DATA_NOT_ENOUGH (ud_msg_info st).

Lemma umsg_len_eq m : umsg_len m = lenZ (umsg_pre m) + 4 + lenZ (um_data m).
Proof. unfold umsg_len, umsg_frame, umsg_head. rewrite !length_app. simpl. lia. Qed.

Lemma umsg_pre_len m : 1 <= lenZ (umsg_pre m) <= 5.
Proof. unfold umsg_pre. destruct (um_user m); simpl; lia. Qed.

Lemma unpack_user_head_short buf len st c p off uid :
  len < off + 2 -> is_s32 len ->
  unpack_user_head buf len st c p off uid = Some (0, ud_set_result JMY_UNPACK_RESULT_DATA_NOT_ENOUGH st).
Proof. intros. unfold unpack_user_head. rewrite s32_id by done. zbool. Qed.

Lemma unpack_user_head_incomplete pre rest k len st c p uid :
  2 <= k < 2 ^ 16 -> lenZ pre + 2 <= len < lenZ pre + 2 + k -> len < 2 ^ 31 ->
  unpack_user_head (pre ++ be16 k ++ rest) len st c p (lenZ pre) uid =
    Some (0, ud_set_result JMY_UNPACK_RESULT_USER_DATA_NOT_ENOUGH (ud_set_data (lenZ pre + 2 + k) st)).
Proof.
  intros Hk Hl H31. unfold unpack_user_head. rewrite s32_id by (unfold is_s32; lia).
  rewrite (proj2 (Z.ltb_ge _ 0)) by lia. rewrite UNPACK_INT16_app.
  cbv beta iota zeta delta [mbind option_bind]. rewrite Z.mod_small by lia.
  rewrite (proj2 (Z.ltb_ge k 2)) by lia.
  rewrite u32_id, s32_id by (unfold is_s32, is_u32; lia).
  rewrite (proj2 (Z.ltb_lt _ k)) by lia. do 4 f_equal. lia.
Qed.

Lemma unpack_user_head_complete pre id d rest len st c p uid :
  is_u16 id -> lenZ d + 2 < 2 ^ 16 -> lenZ pre <= 5 -> lenZ pre + 4 + lenZ d <= len < 2 ^ 31 ->
  unpack_user_head (pre ++ be16 (lenZ d + 2) ++ be16 id ++ d ++ rest) len st c p (lenZ pre) uid =
    Some (lenZ pre + 4 + lenZ d,
      ud_set_result JMY_UNPACK_RESULT_NO_ERROR
        (ud_set_msg_info (mkJmyMsgInfo uid id (Some (d ++ rest)) (lenZ d) c p) (ud_set_param id st))).
Proof.
  intros Hid Hd Hp Hl. unfold unpack_user_head. rewrite s32_id by (unfold is_s32; lia).
  rewrite (proj2 (Z.ltb_ge _ 0)) by lia. rewrite UNPACK_INT16_app.
  cbv beta iota zeta delta [mbind option_bind]. rewrite Z.mod_small by lia.
  rewrite (proj2 (Z.ltb_ge _ 2)) by lia.
  rewrite u32_id, s32_id by (unfold is_s32, is_u32; lia).
  rewrite (proj2 (Z.ltb_ge _ (lenZ d + 2))) by lia.
  assert (E : drop (Z.to_nat (lenZ pre + 2 + 2)) (pre ++ be16 (lenZ d + 2) ++ be16 id ++ d ++ rest) = d ++ rest).
  { rewrite !app_assoc, <-(app_assoc _ d). apply drop_app_length'. rewrite !length_app. simpl. lia. }
  rewrite E. replace (lenZ pre + 2) with (lenZ (pre ++ be16 (lenZ d + 2))) by (rewrite length_app; simpl; lia).
  rewrite (app_assoc pre). rewrite UNPACK_INT16_app. cbn [ud_param ud_set_param mi_len].
  rewrite Z.mod_small by done. rewrite (s32_id id) by (unfold is_u16, is_s32 in *; lia).
  rewrite length_app. simpl length. rewrite (u32_id (_ - 2)) by (unfold is_u32; lia).
  rewrite u32_id, s32_id by (unfold is_u32, is_s32; lia). repeat (f_equal; try lia).
Qed.

(** The decoding of a message starts after its type and user id. *)
Lemma unpack_pre m rest len st c p :
  umsg_ok m -> lenZ (umsg_pre m) <= len < 2 ^ 31 ->
  jmy_net_proto_unpack_data_head (Some (umsg_pre m ++ rest)) len st c p =
    unpack_user_head (umsg_pre m ++ rest) len (ud_set_type (umsg_type m) st) c p (lenZ (umsg_pre m))
      (default 0 (um_user m)).
Proof.
  intros (Hu & _ & _) Hl. pose proof (umsg_pre_len m).
  unfold jmy_net_proto_unpack_data_head. rewrite (proj2 (Z.eqb_neq len 0)) by lia.
  unfold umsg_pre, umsg_type in *. destruct (um_user m) as [u|]; [|done].
  cbn [app]. change (get (_ :: _) 0) with (Some JMY_PACKET_USER_ID_DATA).
  cbv beta iota zeta delta [mbind option_bind].
  change (JMY_PACKET_USER_ID_DATA =? JMY_PACKET_USER_DATA) with false.
  change (JMY_PACKET_USER_ID_DATA =? JMY_PACKET_USER_ID_DATA) with true. cbv iota.
  unfold JMY_PACKET_LEN_TYPE. simpl in Hl. rewrite u32_id by (unfold is_u32; lia).
  rewrite (proj2 (Z.ltb_ge _ 4)) by lia.
  assert (UNPACK_INT32_FROM_BUFF (JMY_PACKET_USER_ID_DATA :: be32 u ++ rest) 1 = Some (u mod 2 ^ 32)) as ->
    by exact (UNPACK_INT32_app [JMY_PACKET_USER_ID_DATA] rest u).
  change (u mod 2 ^ 32) with (u32 u). by rewrite s32_u32, s32_id by done.
Qed.

Lemma unpack_frame_complete m rest n st c p :
  umsg_ok m -> umsg_len m <= n < 2 ^ 31 ->
  jmy_net_proto_unpack_data_head (Some (umsg_frame m ++ rest)) n st c p =
    Some (umsg_len m, ud_complete c p rest m st).
Proof.
  intros Hm Hn. rewrite umsg_len_eq in *. pose proof (umsg_pre_len m).
  unfold umsg_frame, umsg_head. rewrite <-!app_assoc. rewrite unpack_pre by (done || lia).
  destruct Hm as (_ & Hid & Hd). by rewrite unpack_user_head_complete by (done || lia).
Qed.

(** Less than the head of a user-id packet. *)
Lemma unpack_frame_short m n g st c p :
  umsg_ok m -> 0 < n < lenZ (umsg_pre m) ->
  jmy_net_proto_unpack_data_head (Some (take (Z.to_nat n) (umsg_pre m) ++ g)) n st c p =
    Some (0, ud_set_result JMY_UNPACK_RESULT_DATA_NOT_ENOUGH (ud_set_type (umsg_type m) st)).
Proof.
  intros Hm Hn. unfold jmy_net_proto_unpack_data_head. rewrite (proj2 (Z.eqb_neq n 0)) by lia.
  unfold umsg_pre, umsg_type in *. destruct (um_user m) as [u|]; simpl in Hn; [|lia].
  replace (Z.to_nat n) with (S (Z.to_nat (n - 1))) by lia. cbn [take app].
  change (get (_ :: _) 0) with (Some JMY_PACKET_USER_ID_DATA).
  cbv beta iota zeta delta [mbind option_bind].
  change (JMY_PACKET_USER_ID_DATA =? JMY_PACKET_USER_DATA) with false.
  change (JMY_PACKET_USER_ID_DATA =? JMY_PACKET_USER_ID_DATA) with true. cbv iota.
  unfold JMY_PACKET_LEN_TYPE. rewrite u32_id by (unfold is_u32; lia).
  by rewrite (proj2 (Z.ltb_lt _ 4)) by lia.
Qed.

Lemma unpack_frame_incomplete m n g st c p :
  umsg_ok m -> 0 < n < umsg_len m ->
  jmy_net_proto_unpack_data_head (Some (take (Z.to_nat n) (umsg_frame m) ++ g)) n st c p =
    Some (0, ud_incomplete n m st).
Proof.
  intros Hm Hn. rewrite umsg_len_eq in Hn. pose proof (umsg_pre_len m). pose proof Hm as (_ & _ & Hd).
  unfold ud_incomplete, umsg_frame, umsg_head. rewrite <-!app_assoc.
  destruct (decide (n < lenZ (umsg_pre m))) as [Hs|Hs].
  { rewrite take_app_le by lia. rewrite (proj2 (Z.ltb_lt n _)) by lia. by rewrite unpack_frame_short by (done || lia). }
  rewrite take_app_ge by lia. rewrite <-app_assoc. rewrite unpack_pre by (done || lia).
  destruct (Z.ltb_spec n (lenZ (umsg_pre m) + 2)).
  { by rewrite unpack_user_head_short by (unfold is_s32; lia). }
  rewrite take_app_ge by (simpl; lia). rewrite <-app_assoc.
  rewrite unpack_user_head_incomplete by lia. rewrite umsg_len_eq.
  by replace (lenZ (umsg_pre m) + 4 + lenZ (um_data m)) with (lenZ (umsg_pre m) + 2 + (lenZ (um_data m) + 2)) by lia.
Qed.

(** Protocol 1 decodes incrementally.  With the first [n] bytes of a message's frame and
    what follows it received, and any memory behind them, unpacking is memory safe and either consumes
    exactly the frame and yields the user id, the message id and the payload that were packed, when
    the [n] bytes hold it, or consumes nothing and reports missing data, and then, once the
    length field is there, the length of the frame to wait for. *)
Theorem unpack_head_incremental : forall m more memory n st conn_id param,
  umsg_ok m -> 0 < n <= lenZ (umsg_frame m ++ more) -> n < 2 ^ 31 ->
  let buf := take (Z.to_nat n) (umsg_frame m ++ more) ++ memory in
  exists st', jmy_net_proto_unpack_data_head (Some buf) n st conn_id param =
      Some (if n <? umsg_len m then 0 else umsg_len m, st') /\
    ud_type st' = umsg_type m /\
    (umsg_len m <= n -> ud_result st' = JMY_UNPACK_RESULT_NO_ERROR /\
       mi_user_id (ud_msg_info st') = default 0 (um_user m) /\ mi_msg_id (ud_msg_info st') = um_id m /\
       mi_payload (ud_msg_info st') = Some (um_data m) /\ mi_conn_id (ud_msg_info st') = conn_id) /\
    (n < umsg_len m -> ud_msg_info st' = ud_msg_info st /\
       (ud_result st' = JMY_UNPACK_RESULT_DATA_NOT_ENOUGH \/
        ud_result st' = JMY_UNPACK_RESULT_USER_DATA_NOT_ENOUGH /\ ud_data st' = umsg_len m)).
Proof.
  intros m more memory n st c p Hm Hn H31 buf. subst buf. destruct (Z.ltb_spec n (umsg_len m)) as [Hl|Hl].
  - rewrite take_app_le by (unfold umsg_len in Hl; lia).
    rewrite unpack_frame_incomplete by (done || lia). eexists. split; [done|]. unfold ud_incomplete.
    destruct (n <? _); (split; [done|]; split; [lia|]); simpl; auto.
  - rewrite take_app_ge by (unfold umsg_len in Hl; lia). rewrite <-app_assoc.
    rewrite unpack_frame_complete by (done || lia). eexists. split; [done|].
    split; [done|]. split; [intros _|lia]. do 3 (split; [done|]). split; [|done].
    apply (mem_read_mid [] (um_data m)).
Qed.

Lemma unpack_head_incremental_witness :
  let m := mkUmsg (Some (-3)) 600 [1; 2] in
  (umsg_ok m /\ 0 < 13 <= lenZ (umsg_frame m ++ [5; 0; 9]) /\ 13 < 2 ^ 31) /\
  exists st', jmy_net_proto_unpack_data_head (Some [10; -1; -1; -1; -3; 0; 4; 2; 88; 1; 2; 5; 0; 77]) 13
      JmyPacketUnpackData_new 8 0 = Some (11, st') /\
    mi_user_id (ud_msg_info st') = -3 /\ mi_msg_id (ud_msg_info st') = 600.
Proof.
  set (m := mkUmsg (Some (-3)) 600 [1; 2]).
  assert (Hm : umsg_ok m) by (unfold umsg_ok, is_s32, is_u16; simpl; lia).
  assert (Hn : 0 < 13 <= lenZ (umsg_frame m ++ [5; 0; 9])) by (vm_compute; split; congruence).
  split; [split; [exact Hm|split; [exact Hn|lia]]|].
  destruct (unpack_head_incremental m [5; 0; 9] [77] 13 JmyPacketUnpackData_new 8 0 Hm Hn ltac:(lia))
    as (st' & E & _ & H1 & _).
  exists st'. split; [exact E|]. destruct H1 as (_ & H1 & H2 & _); [vm_compute; congruence|].
  split; [exact H1|exact H2].
Defined.

(** ** Packing *)

Ltac solve_packs1 :=
  split; [done|split; intros ? ?; zbool]; intros ??;
  repeat (match goal with b : list Z |- _ => destruct b; [simpl in *; lia|] end);
  unfold PACK_INT16_TO_BUFF, PACK_INT32_TO_BUFF, PACK_INT64_TO_BUFF; simpl; run_puts; done.

(** A head of [n] bytes of which only the first ones, [head], are written. *)
Definition packs_part (pack : option (list Z) -> Z -> option (Z * option (list Z))) (n : Z) (head : list Z) : Prop :=
  (forall len, pack None len = Some (-1, None)) /\
  (forall b len, len < n -> pack (Some b) len = Some (-1, Some b)) /\
  (forall b len, n <= len -> len <= lenZ b -> pack (Some b) len = Some (n, Some (head ++ drop (length head) b))).

Lemma msgid_datalen_packs id d :
  packs_head (fun b l => jmy_net_proto_pack_msgid_datalen b l id (lenZ d)) 5 (umsg_head (mkUmsg None id d)).
Proof. unfold jmy_net_proto_pack_msgid_datalen, umsg_head, JMY_PACKET_LEN_USER_DATA_HEAD. solve_packs1. Qed.

Lemma userid_msgid_datalen_packs u id d :
  packs_head (fun b l => jmy_net_proto_pack_userid_msgid_datalen b l u id (lenZ d)) 9 (umsg_head (mkUmsg (Some u) id d)).
Proof. unfold jmy_net_proto_pack_userid_msgid_datalen, umsg_head, JMY_PACKET_LEN_USER_ID_DATA_HEAD. solve_packs1. Qed.

Lemma heartbeat1_packs t : packs_head (jmy_net_proto_pack_heartbeat t) 5 (JMY_PACKET_HEARTBEAT :: be32 t).
Proof. unfold jmy_net_proto_pack_heartbeat, JMY_PACKET_LEN_HEARTBEAT. solve_packs1. Qed.

Lemma disconnect1_packs : packs_head jmy_net_proto_pack_disconnect 1 [JMY_PACKET_DISCONNECT].
Proof. unfold jmy_net_proto_pack_disconnect, JMY_PACKET_LEN_DISCONNECT. solve_packs1. Qed.

Lemma disconnect_ack1_packs : packs_head jmy_net_proto_pack_disconnect_ack 1 [JMY_PACKET_DISCONNECT_ACK].
Proof. unfold jmy_net_proto_pack_disconnect_ack, JMY_PACKET_LEN_DISCONNECT_ACK. solve_packs1. Qed.

Lemma ack1_packs n c :
  packs_head (fun b l => jmy_net_proto_pack_ack b l n c) 5 (JMY_PACKET_ACK :: be16 n ++ be16 c).
Proof. unfold jmy_net_proto_pack_ack, JMY_PACKET_LEN_ACK. solve_packs1. Qed.

Lemma defined_char_packs ty v :
  packs_head (fun b l => pack_defined_type_head_char b l ty v) 2 [schar ty; v].
Proof. unfold pack_defined_type_head_char, JMY_PACKET_LEN_TYPE. solve_packs1. Qed.

Lemma defined_short_packs ty v :
  packs_part (fun b l => pack_defined_type_head_short b l ty v) 3 (be16 v).
Proof. unfold pack_defined_type_head_short, JMY_PACKET_LEN_TYPE. solve_packs1. Qed.

Lemma defined_int_packs ty v :
  packs_part (fun b l => pack_defined_type_head_int b l ty v) 5 (be32 v).
Proof. unfold pack_defined_type_head_int, JMY_PACKET_LEN_TYPE. solve_packs1. Qed.

Lemma defined_int64_packs ty v :
  packs_part (fun b l => pack_defined_type_head_int64 b l ty v) 9 (be64 v).
Proof. unfold pack_defined_type_head_int64, JMY_PACKET_LEN_TYPE. solve_packs1. Qed.

(** The user, heartbeat, disconnect and ack heads of protocol 1 are packed exactly: type, then
    the big-endian fields, nothing else touched, -1 for a null or short buffer.  A
    user-defined type survives with a [char] parameter only: with a
    [short], [int] or [int64_t] parameter the head that is written and its last byte, which is not
    written, do not depend on the type at all, because the value is stored over it. *)
Theorem pack_heads_protocol1 : forall u id d t n c ty v,
  packs_head (fun b l => jmy_net_proto_pack_msgid_datalen b l id (lenZ d)) 5 (umsg_head (mkUmsg None id d)) /\
  packs_head (fun b l => jmy_net_proto_pack_userid_msgid_datalen b l u id (lenZ d)) 9 (umsg_head (mkUmsg (Some u) id d)) /\
  packs_head (jmy_net_proto_pack_heartbeat t) 5 (JMY_PACKET_HEARTBEAT :: be32 t) /\
  packs_head jmy_net_proto_pack_disconnect 1 [JMY_PACKET_DISCONNECT] /\
  packs_head jmy_net_proto_pack_disconnect_ack 1 [JMY_PACKET_DISCONNECT_ACK] /\
  packs_head (fun b l => jmy_net_proto_pack_ack b l n c) 5 (JMY_PACKET_ACK :: be16 n ++ be16 c) /\
  packs_head (fun b l => pack_defined_type_head_char b l ty v) 2 [schar ty; v] /\
  packs_part (fun b l => pack_defined_type_head_short b l ty v) 3 (be16 v) /\
  packs_part (fun b l => pack_defined_type_head_int b l ty v) 5 (be32 v) /\
  packs_part (fun b l => pack_defined_type_head_int64 b l ty v) 9 (be64 v).
Proof.
  intros. repeat split_and; eauto using msgid_datalen_packs, userid_msgid_datalen_packs, heartbeat1_packs,
    disconnect1_packs, disconnect_ack1_packs, ack1_packs, defined_char_packs, defined_short_packs,
    defined_int_packs, defined_int64_packs.
Qed.

(** ** Arbitrary bytes *)

(** What unpacking [len] received bytes returns, whatever they are. *)
Record unpack_sane (len : Z) (st : JmyPacketUnpackData) (r : Z) (st' : JmyPacketUnpackData) : Prop := {
  us_range : -1 <= r <= len;
  us_taken : 0 < r -> ud_result st' = JMY_UNPACK_RESULT_NO_ERROR;
  us_wait : r = 0 -> ud_result st' = JMY_UNPACK_RESULT_DATA_NOT_ENOUGH \/
    ud_result st' = JMY_UNPACK_RESULT_USER_DATA_NOT_ENOUGH /\ len < ud_data st' <= 2 ^ 16 + 6;
  us_user : 0 < r -> ud_type st' = JMY_PACKET_USER_DATA \/ ud_type st' = JMY_PACKET_USER_ID_DATA ->
    is_Some (mi_payload (ud_msg_info st')) /\ 0 <= mi_len (ud_msg_info st') <= r - 5 /\
    is_u16 (mi_msg_id (ud_msg_info st'));
}.

Lemma unpack_user_head_sane buf len st c p off uid :
  len <= lenZ buf -> len < 2 ^ 31 -> 1 <= off <= len -> off <= 5 ->
  exists r st', unpack_user_head buf len st c p off uid = Some (r, st') /\ unpack_sane len st r st' /\
    ud_type st' = ud_type st.
Proof.
  intros Hb Hl Ho Ho5. unfold unpack_user_head. rewrite s32_id by (unfold is_s32; lia).
  destruct (Z.ltb_spec (len - off - 2) 0).
  { eexists _, _. split; [done|]. split; [|done]. constructor; simpl; auto; lia. }
  destruct (UNPACK_INT16_safe buf off) as (k & -> & Hk); [lia..|]. unfold is_u16 in Hk.
  cbv beta iota zeta delta [mbind option_bind]. destruct (Z.ltb_spec k 2).
  { eexists _, _. split; [done|]. split; [|done]. constructor; simpl; lia. }
  rewrite u32_id, s32_id by (unfold is_s32, is_u32; lia).
  destruct (Z.ltb_spec (len - (off + 2)) k).
  { eexists _, _. split; [done|]. split; [|done]. constructor; simpl; [lia..| |lia].
    intros _. right. split; [done|lia]. }
  destruct (UNPACK_INT16_safe buf (off + 2)) as (i & -> & Hi); [lia..|]. cbn [mi_len ud_param ud_set_param].
  rewrite (s32_id i) by (unfold is_u16, is_s32 in *; lia).
  rewrite (u32_id (k - 2)) by (unfold is_u32; lia). rewrite u32_id, s32_id by (unfold is_s32, is_u32; lia).
  eexists _, _. split; [done|]. split; [|done]. constructor; simpl; [lia|done|lia|].
  intros _ _. split; [|split; [lia|done]]. unfold mi_payload. simpl.
  rewrite mem_read_Some by (rewrite ?length_drop; lia). eauto.
Qed.

Ltac not_user := eexists _, _; split; [reflexivity|]; constructor; simpl; auto;
  unfold JMY_PACKET_USER_DATA, JMY_PACKET_USER_ID_DATA, JMY_PACKET_ACK, JMY_PACKET_HEARTBEAT,
    JMY_PACKET_DISCONNECT, JMY_PACKET_DISCONNECT_ACK in *; lia.

Lemma unpack_head_sane buf len st c p :
  0 < len <= lenZ buf -> len < 2 ^ 31 ->
  exists r st', jmy_net_proto_unpack_data_head (Some buf) len st c p = Some (r, st') /\ unpack_sane len st r st'.
Proof.
  intros Hl H31. unfold jmy_net_proto_unpack_data_head. rewrite (proj2 (Z.eqb_neq len 0)) by lia.
  destruct (get_Some buf 0) as [ty ->]; [lia|]. cbv beta iota zeta delta [mbind option_bind].
  unfold JMY_PACKET_LEN_TYPE, JMY_PACKET_LEN_DISCONNECT, JMY_PACKET_LEN_DISCONNECT_ACK.
  rewrite !u32_id by (unfold is_u32; lia).
  destruct (Z.eqb_spec ty JMY_PACKET_USER_DATA) as [->|H5].
  { destruct (unpack_user_head_sane buf len (ud_set_type JMY_PACKET_USER_DATA st) c p 1 0)
      as (r & st' & -> & Hs & _); [lia..|]. eexists _, _. split; [done|]. by destruct Hs; constructor. }
  destruct (Z.eqb_spec ty JMY_PACKET_USER_ID_DATA) as [->|H10].
  { destruct (Z.ltb_spec (len - 1) 4); [not_user|].
    destruct (UNPACK_INT32_safe buf 1) as (u & -> & _); [lia..|].
    destruct (unpack_user_head_sane buf len (ud_set_type JMY_PACKET_USER_ID_DATA st) c p (1 + 4) (s32 u))
      as (r & st' & -> & Hs & _); [lia..|]. eexists _, _. split; [done|]. by destruct Hs; constructor. }
  destruct (Z.eqb_spec ty JMY_PACKET_ACK) as [->|H6].
  { destruct (Z.leb_spec (len - 1) (2 + 2)); [not_user|].
    destruct (UNPACK_INT16_safe buf 1) as (u & -> & _); [lia..|].
    destruct (UNPACK_INT16_safe buf 3) as (v & -> & _); [lia..|]. not_user. }
  destruct (Z.eqb_spec ty JMY_PACKET_HEARTBEAT) as [->|H7].
  { destruct (Z.leb_spec (len - 1) 4); [not_user|].
    destruct (UNPACK_INT32_safe buf 1) as (u & -> & _); [lia..|]. not_user. }
  destruct (Z.eqb_spec ty JMY_PACKET_DISCONNECT) as [->|H8].
  { rewrite (proj2 (Z.ltb_ge len 1)) by lia. not_user. }
  destruct (Z.eqb_spec ty JMY_PACKET_DISCONNECT_ACK) as [->|H9].
  { rewrite (proj2 (Z.ltb_ge len 1)) by lia. not_user. }
  not_user.
Qed.
