(* ===== verification/SessionBuffer.v ===== *)
(** * Session buffers ([JmySessionBuffer] of [jmy_session_buffer.h], [jmy_session_buffer.cpp])

    A block of memory with a read and a write offset.  The block lives in the
    heap, because a pool and several buffers hold pointers to it.  The first
    part is the code; then an abstract byte queue with a capacity, and the
    refinement: on well-formed states every operation is memory safe, touches
    only its own block and does what the queue does. *)
From S2P Require Import Prelude Datatype.
From Stdlib Require Import ZArith Lia.
From stdpp Require Import base option list gmap.
Local Open Scope Z_scope.

Inductive SessionBufferType : Type :=
| SESSION_BUFFER_TYPE_NONE
| SESSION_BUFFER_TYPE_RECV
| SESSION_BUFFER_TYPE_SEND.

#[export] Instance SessionBufferType_eq_dec : EqDecision SessionBufferType.
Proof. solve_decision. Defined.

Record JmySessionBuffer : Type := mkSB {
  proxy_ : bool;
  buff_ : ptr;
  len_ : Z;
  type_ : SessionBufferType;
  write_offset_ : Z;
  read_offset_ : Z;
}.

Definition JmySessionBuffer_new : JmySessionBuffer :=
  mkSB false NULL 0 SESSION_BUFFER_TYPE_NONE 0 0.

Definition sb_set_offsets (w r : Z) (b : JmySessionBuffer) : JmySessionBuffer :=
  mkSB (proxy_ b) (buff_ b) (len_ b) (type_ b) w r.

(** ** Operations *)

Definition sb_destroy (h : heap) (b : JmySessionBuffer) : heap * JmySessionBuffer :=
  let h := if negb (proxy_ b) && negb (buff_ b =? NULL) then delete (buff_ b) h else h in
  (h, mkSB (proxy_ b) NULL 0 (type_ b) 0 0).

(** [init(unsigned int size, SessionBufferType type)]; [garbage] is the content of
    the block that [jmy_mem_malloc(size)] returns. *)
Definition sb_init_size (h : heap) (b : JmySessionBuffer) (size : Z) (garbage : list Z)
  (type : SessionBufferType) : bool * heap * JmySessionBuffer :=
  let '(h, b) := sb_destroy h b in
  let '(p, h) := heap_new h garbage in
  (true, h, mkSB false p size type (write_offset_ b) (read_offset_ b)).

(** [init(char* buff, unsigned int size, SessionBufferType type)] *)
Definition sb_init_buff (h : heap) (b : JmySessionBuffer) (buff : ptr) (size : Z)
  (type : SessionBufferType) : bool * heap * JmySessionBuffer :=
  let '(h, b) := sb_destroy h b in
  (true, h, mkSB true buff size type (write_offset_ b) (read_offset_ b)).

Definition sb_clear (b : JmySessionBuffer) : JmySessionBuffer := sb_set_offsets 0 0 b.

Definition sb_isInited (b : JmySessionBuffer) : bool := negb (buff_ b =? NULL) && (0 <? len_ b).
Definition sb_getTotalLen (b : JmySessionBuffer) : Z := len_ b.
Definition sb_isEmpty (b : JmySessionBuffer) : bool := write_offset_ b =? read_offset_ b.
Definition sb_getWriteLen (b : JmySessionBuffer) : Z := u32 (len_ b - write_offset_ b).
Definition sb_getReadLen (b : JmySessionBuffer) : Z := u32 (write_offset_ b - read_offset_ b).
Definition sb_getType (b : JmySessionBuffer) : SessionBufferType := type_ b.

(** [this->assign(buffer)]: the copy starts at [buffer.write_offset_]. *)
Definition sb_assign (h : heap) (b buffer : JmySessionBuffer)
  : option (bool * heap * JmySessionBuffer) :=
  let b := sb_set_offsets (u32 (write_offset_ buffer - read_offset_ buffer)) 0 b in
  if 0 <? write_offset_ b then
    d ← load h (buff_ buffer) (write_offset_ buffer) (write_offset_ b);
    h ← store h (buff_ b) 0 d;
    Some (true, h, b)
  else Some (true, h, b).

Definition sb_moveDataToFront (h : heap) (b : JmySessionBuffer)
  : option (heap * JmySessionBuffer) :=
  let left_read := sb_getReadLen b in
  d ← load h (buff_ b) (read_offset_ b) left_read;
  h ← store h (buff_ b) 0 d;
  Some (h, sb_set_offsets left_read 0 b).

Definition sb_checkWriteLen (h : heap) (b : JmySessionBuffer) (len : Z)
  : option (bool * heap * JmySessionBuffer) :=
  let left_write := sb_getWriteLen b in
  if left_write <? len then
    '(h, b) ← sb_moveDataToFront h b;
    Some (len <=? sb_getWriteLen b, h, b)
  else Some (len <=? left_write, h, b).

Definition sb_writeLen (b : JmySessionBuffer) (len : Z) : bool * JmySessionBuffer :=
  if sb_getWriteLen b <? len then (false, b)
  else (true, sb_set_offsets (u32 (write_offset_ b + len)) (read_offset_ b) b).

Definition sb_readLen (b : JmySessionBuffer) (len : Z) : bool * JmySessionBuffer :=
  if sb_getReadLen b <? len then (false, b)
  else (true, sb_set_offsets (write_offset_ b) (u32 (read_offset_ b + len)) b).

(** [memcpy(buff_+write_offset_, data, len); write_offset_ += len;] *)
Definition sb_append (h : heap) (b : JmySessionBuffer) (data : list Z) (len : Z)
  : option (heap * JmySessionBuffer) :=
  d ← mem_read data 0 len;
  h ← store h (buff_ b) (write_offset_ b) d;
  Some (h, sb_set_offsets (u32 (write_offset_ b + len)) (read_offset_ b) b).

Definition sb_writeData (h : heap) (b : JmySessionBuffer) (data : list Z) (len : Z)
  : option (bool * heap * JmySessionBuffer) :=
  if sb_getWriteLen b <? len then Some (false, h, b) else
  '(h, b) ← sb_append h b data len;
  Some (true, h, b).

(** [total_len += datas[i].len] over the array, in [unsigned int]. *)
Definition datas_total_len (datas : list JmyData) : Z :=
  foldl (fun t d => u32 (t + jd_len d)) 0 datas.

Fixpoint sb_append_all (h : heap) (b : JmySessionBuffer) (datas : list JmyData)
  : option (heap * JmySessionBuffer) :=
  match datas with
  | [] => Some (h, b)
  | d :: datas => '(h, b) ← sb_append h b (jd_data d) (jd_len d); sb_append_all h b datas
  end.

(** [writeData(JmyData* datas, int len)]; [datas] is the array of [len] elements,
    [None] for a null pointer. *)
Definition sb_writeDatas (h : heap) (b : JmySessionBuffer) (datas : option (list JmyData))
  : option (bool * heap * JmySessionBuffer) :=
  match datas with
  | None | Some [] => Some (false, h, b)
  | Some datas =>
    if sb_getWriteLen b <? datas_total_len datas then Some (false, h, b) else
    '(h, b) ← sb_append_all h b datas;
    Some (true, h, b)
  end.

(** ** Well-formed buffers and their content *)

Definition sb_wf (h : heap) (b : JmySessionBuffer) : Prop :=
  0 <= read_offset_ b <= write_offset_ b /\ write_offset_ b <= len_ b /\ len_ b < 2 ^ 32 /\
  (0 < len_ b -> buff_ b <> NULL /\ exists bl, h !! buff_ b = Some bl /\ lenZ bl = len_ b).

(** The bytes written and not yet read. *)
Definition sb_content (h : heap) (b : JmySessionBuffer) : list Z :=
  match h !! buff_ b with
  | Some bl => take (Z.to_nat (write_offset_ b - read_offset_ b))
                 (drop (Z.to_nat (read_offset_ b)) bl)
  | None => []
  end.

(** ** The abstract byte queue *)

Record bqueue : Type := mkBQ {
  bq_bytes : list Z;   (** the bytes to read, oldest first *)
  bq_room : Z;         (** bytes that can be written before the queue is compacted *)
  bq_cap : Z;          (** capacity *)
}.

Definition bq_compact (q : bqueue) : bqueue :=
  mkBQ (bq_bytes q) (bq_cap q - lenZ (bq_bytes q)) (bq_cap q).
Definition bq_write (q : bqueue) (d : list Z) : bool * bqueue :=
  if bq_room q <? lenZ d then (false, q)
  else (true, mkBQ (bq_bytes q ++ d) (bq_room q - lenZ d) (bq_cap q)).
Definition bq_read (q : bqueue) (n : Z) : bool * bqueue :=
  if lenZ (bq_bytes q) <? n then (false, q)
  else (true, mkBQ (drop (Z.to_nat n) (bq_bytes q)) (bq_room q) (bq_cap q)).
Definition bq_ensure (q : bqueue) (n : Z) : bool * bqueue :=
  let q := if bq_room q <? n then bq_compact q else q in (n <=? bq_room q, q).
Definition bq_clear (q : bqueue) : bqueue := mkBQ [] (bq_cap q) (bq_cap q).

(** The operations a client performs on a buffer. [op_recv d] is a receive: the
    socket layer stores [d] at [getWriteBuff()] and [writeLen] commits it. *)
Inductive sb_op : Type :=
| op_write (d : list Z)
| op_write_all (ds : list (list Z))
| op_recv (d : list Z)
| op_read (n : Z)
| op_compact
| op_check (n : Z)
| op_clear.

Definition whole (d : list Z) : JmyData := mkJmyData d (lenZ d).

Definition sb_exec (o : sb_op) (h : heap) (b : JmySessionBuffer)
  : option (bool * heap * JmySessionBuffer) :=
  match o with
  | op_write d => sb_writeData h b d (lenZ d)
  | op_write_all ds => sb_writeDatas h b (Some (whole <$> ds))
  | op_recv d =>
    if sb_getWriteLen b <? lenZ d then Some (false, h, b) else
    h ← store h (buff_ b) (write_offset_ b) d;
    let '(r, b) := sb_writeLen b (lenZ d) in Some (r, h, b)
  | op_read n => let '(r, b) := sb_readLen b n in Some (r, h, b)
  | op_compact => '(h, b) ← sb_moveDataToFront h b; Some (true, h, b)
  | op_check n => sb_checkWriteLen h b n
  | op_clear => Some (true, h, sb_clear b)
  end.

Definition bq_exec (o : sb_op) (q : bqueue) : bool * bqueue :=
  match o with
  | op_write d => bq_write q d
  | op_write_all [] => (false, q)
  | op_write_all ds => bq_write q (concat ds)
  | op_recv d => bq_write q d
  | op_read n => bq_read q n
  | op_compact => (true, bq_compact q)
  | op_check n => bq_ensure q n
  | op_clear => (true, bq_clear q)
  end.

(** Lengths are [unsigned int]s, and the lengths of one [writeData] do not overflow. *)
Definition op_ok (o : sb_op) : Prop :=
  match o with
  | op_write d | op_recv d => lenZ d < 2 ^ 32
  | op_write_all ds => lenZ (concat ds) < 2 ^ 32
  | op_read n | op_check n => is_u32 n
  | op_compact | op_clear => True
  end.

(** The refinement relation. *)
Definition sb_refines (h : heap) (b : JmySessionBuffer) (q : bqueue) : Prop :=
  sb_wf h b /\ bq_bytes q = sb_content h b /\
  bq_room q = len_ b - write_offset_ b /\ bq_cap q = len_ b.

Fixpoint sb_run (os : list sb_op) (h : heap) (b : JmySessionBuffer)
  : option (list bool * heap * JmySessionBuffer) :=
  match os with
  | [] => Some ([], h, b)
  | o :: os =>
    '(r, h, b) ← sb_exec o h b;
    '(rs, h, b) ← sb_run os h b;
    Some (r :: rs, h, b)
  end.

Fixpoint bq_run (os : list sb_op) (q : bqueue) : list bool * bqueue :=
  match os with
  | [] => ([], q)
  | o :: os => let '(r, q) := bq_exec o q in let '(rs, q) := bq_run os q in (r :: rs, q)
  end.

(** ** Views: the block of a well-formed buffer as read part, content and room *)

Definition sb_view (h : heap) (b : JmySessionBuffer) (c : list Z) : Prop :=
  exists pre post : list Z,
    lenZ pre = read_offset_ b /\ lenZ pre + lenZ c = write_offset_ b /\
    write_offset_ b + lenZ post = len_ b /\ len_ b < 2 ^ 32 /\
    (0 < len_ b -> buff_ b <> NULL /\ h !! buff_ b = Some (pre ++ c ++ post)).

Lemma sb_view_wf h b c : sb_view h b c -> sb_wf h b.
Proof.
  intros (pre & post & ? & ? & ? & ? & Hh). unfold sb_wf.
  split; [lia|]. split; [lia|]. split; [lia|]. intros Hl. destruct (Hh Hl) as [? ->].
  split; [done|]. eexists. split; [done|]. rewrite !length_app. lia.
Qed.

Lemma sb_view_content h b c : sb_view h b c -> sb_content h b = c.
Proof.
  intros (pre & post & ? & ? & ? & ? & Hh). unfold sb_content.
  destruct (decide (0 < len_ b)) as [Hl|Hl].
  - destruct Hh as [_ ->]; [done|].
    rewrite drop_app_length' by lia. by rewrite take_app_length' by lia.
  - assert (c = []) as -> by (destruct c; [done|simpl in *; lia]).
    destruct (h !! buff_ b); [|done].
    by replace (Z.to_nat (write_offset_ b - read_offset_ b)) with 0%nat by lia.
Qed.

Lemma sb_wf_view h b : sb_wf h b -> exists c, sb_view h b c.
Proof.
  intros (? & ? & ? & Hh). destruct (decide (0 < len_ b)) as [Hl|Hl].
  - destruct Hh as (? & bl & Hbl & Hlen); [done|].
    destruct (split_at bl (read_offset_ b)) as (pre & r & -> & ? & ?); [lia|].
    rewrite length_app in *.
    destruct (split_at r (write_offset_ b - read_offset_ b)) as (c & post & -> & ? & ?); [lia|].
    exists c, pre, post. rewrite length_app in *. repeat split; try lia; done.
  - exists [], [], []. simpl. repeat split; lia.
Qed.

(** Proves that a buffer with updated offsets has a view: the parts of the block and
    the arithmetic on the offsets. *)
Ltac view_of pre post :=
  exists pre, post; simpl; rewrite ?length_app; repeat split; try lia.

Lemma sb_view_append h b c d :
  sb_view h b c -> lenZ d <= len_ b - write_offset_ b ->
  exists h', store h (buff_ b) (write_offset_ b) d = Some h' /\
    sb_view h' (sb_set_offsets (write_offset_ b + lenZ d) (read_offset_ b) b) (c ++ d) /\
    (forall q, q <> buff_ b -> h' !! q = h !! q).
Proof.
  intros (pre & post & Hp & Hc & Hl & H32 & Hh) Hd.
  destruct (split_at post (lenZ d)) as (x & y & -> & Hx & Hy); [lia|].
  rewrite length_app in *. destruct (decide (0 < len_ b)) as [Hpos|Hz].
  - destruct Hh as [Hn Hh]; [done|]. rewrite (app_assoc pre c) in Hh.
    exists (<[buff_ b := (pre ++ c) ++ d ++ y]> h). split; [|split].
    + replace (write_offset_ b) with (lenZ (pre ++ c)) by (rewrite length_app; lia).
      apply (store_mid _ _ _ x); [done|lia].
    + view_of pre y. by rewrite lookup_insert_eq, <-!app_assoc.
    + intros q Hq. by rewrite lookup_insert_ne.
  - assert (d = []) as -> by (destruct d; [done|simpl in *; lia]).
    exists h. split; [done|]. split; [|done]. view_of pre (x ++ y).
Qed.

Lemma sb_view_compact h b c :
  sb_view h b c ->
  exists h', sb_moveDataToFront h b = Some (h', sb_set_offsets (lenZ c) 0 b) /\
    sb_view h' (sb_set_offsets (lenZ c) 0 b) c /\
    (forall q, q <> buff_ b -> h' !! q = h !! q).
Proof.
  intros (pre & post & Hp & Hc & Hl & H32 & Hh).
  unfold sb_moveDataToFront, sb_getReadLen.
  replace (u32 (write_offset_ b - read_offset_ b)) with (lenZ c)
    by (rewrite u32_id; unfold is_u32; lia).
  destruct (decide (0 < len_ b)) as [Hpos|Hz].
  - destruct Hh as [Hn Hh]; [done|].
    destruct (split_at (pre ++ c) (lenZ c)) as (x & y & Hxy & Hx & Hy);
      [rewrite length_app; lia|]. rewrite length_app in Hy.
    exists (<[buff_ b := c ++ y ++ post]> h). split; [|split].
    + rewrite <-Hp, (load_mid _ _ pre c post) by done.
      cbv beta iota zeta delta [mbind option_bind].
      rewrite app_assoc, Hxy, <-app_assoc in Hh.
      assert (store h (buff_ b) 0 c = Some (<[buff_ b := c ++ y ++ post]> h)) as ->; [|done].
      apply (store_mid h (buff_ b) [] x (y ++ post) c); [done|lia].
    + view_of (@nil Z) (y ++ post). by rewrite lookup_insert_eq.
    + intros q Hq. by rewrite lookup_insert_ne.
  - assert (c = []) as -> by (destruct c; [done|simpl in *; lia]).
    exists h. split; [done|]. split; [|done]. view_of (@nil Z) post.
Qed.

Lemma sb_view_read h b c n :
  sb_view h b c -> 0 <= n <= lenZ c ->
  sb_view h (sb_set_offsets (write_offset_ b) (read_offset_ b + n) b) (drop (Z.to_nat n) c).
Proof.
  intros (pre & post & Hp & Hc & Hl & H32 & Hh) Hn.
  destruct (split_at c n) as (x & y & -> & Hx & Hy); [done|].
  rewrite drop_app_length' by lia. rewrite length_app in *.
  view_of (pre ++ x) post.
  destruct Hh as [_ ->]; [done|]. f_equal. by rewrite <-!app_assoc.
Qed.

Lemma sb_view_clear h b c : sb_view h b c -> sb_view h (sb_clear b) [].
Proof.
  intros (pre & post & Hp & Hc & Hl & H32 & Hh).
  view_of (@nil Z) (pre ++ c ++ post). by apply Hh.
Qed.

Lemma sb_refines_view h b q :
  sb_refines h b q <->
  sb_view h b (bq_bytes q) /\ bq_room q = len_ b - write_offset_ b /\ bq_cap q = len_ b.
Proof.
  unfold sb_refines. split.
  - intros (Hwf & -> & ? & ?). destruct (sb_wf_view _ _ Hwf) as [c Hc].
    by rewrite (sb_view_content _ _ _ Hc).
  - intros (Hv & ? & ?). rewrite (sb_view_content _ _ _ Hv). eauto using sb_view_wf.
Qed.

(** ** Refinement *)

Lemma sb_view_lens h b c :
  sb_view h b c -> sb_getWriteLen b = len_ b - write_offset_ b /\ sb_getReadLen b = lenZ c /\
  0 <= read_offset_ b <= write_offset_ b /\ write_offset_ b <= len_ b < 2 ^ 32.
Proof.
  intros (pre & post & ? & ? & ? & ? & _). unfold sb_getWriteLen, sb_getReadLen.
  rewrite !u32_id by (unfold is_u32; lia). lia.
Qed.

Lemma sb_view_sb_append h b c d :
  sb_view h b c -> lenZ d <= len_ b - write_offset_ b ->
  exists h', sb_append h b d (lenZ d)
      = Some (h', sb_set_offsets (write_offset_ b + lenZ d) (read_offset_ b) b) /\
    sb_view h' (sb_set_offsets (write_offset_ b + lenZ d) (read_offset_ b) b) (c ++ d) /\
    (forall q, q <> buff_ b -> h' !! q = h !! q).
Proof.
  intros Hv Hd. pose proof (sb_view_lens _ _ _ Hv).
  destruct (sb_view_append _ _ _ _ Hv Hd) as (h' & Hs & Hv' & Hf).
  exists h'. split; [|done]. unfold sb_append. rewrite mem_read_all.
  cbv beta iota zeta delta [mbind option_bind]. rewrite Hs.
  by rewrite u32_id by (unfold is_u32; lia).
Qed.

Lemma sb_view_append_all ds h b c :
  sb_view h b c -> lenZ (concat ds) <= len_ b - write_offset_ b ->
  exists h', sb_append_all h b (whole <$> ds)
      = Some (h', sb_set_offsets (write_offset_ b + lenZ (concat ds)) (read_offset_ b) b) /\
    sb_view h' (sb_set_offsets (write_offset_ b + lenZ (concat ds)) (read_offset_ b) b)
      (c ++ concat ds) /\
    (forall q, q <> buff_ b -> h' !! q = h !! q).
Proof.
  revert h b c. induction ds as [|d ds IH]; intros h b c Hv Hd.
  - exists h. simpl. rewrite Z.add_0_r, app_nil_r. by destruct b.
  - csimpl in *. rewrite length_app in Hd.
    destruct (sb_view_sb_append h b c d Hv) as (h1 & E1 & Hv1 & Hf1); [lia|].
    rewrite E1. csimpl. destruct (IH _ _ _ Hv1) as (h2 & E2 & Hv2 & Hf2); [simpl; lia|].
    exists h2. csimpl in *. rewrite E2, length_app, app_assoc.
    replace (write_offset_ b + Z.of_nat (length d + length (concat ds)))
      with (write_offset_ b + lenZ d + lenZ (concat ds)) by lia.
    split; [done|]. split; [done|]. intros q Hq. rewrite Hf2 by done. by apply Hf1.
Qed.

Lemma datas_total_len_whole ds :
  lenZ (concat ds) < 2 ^ 32 -> datas_total_len (whole <$> ds) = lenZ (concat ds).
Proof.
  unfold datas_total_len. intros H.
  enough (forall t, 0 <= t -> t + lenZ (concat ds) < 2 ^ 32 ->
    foldl (fun t d => u32 (t + jd_len d)) t (whole <$> ds) = t + lenZ (concat ds)) as Hg
    by (rewrite Hg; lia).
  clear H. induction ds as [|d ds IH]; intros t Ht Hl; simpl in *; [lia|].
  rewrite length_app in *. rewrite u32_id by (unfold is_u32; lia). rewrite IH; lia.
Qed.

Lemma sb_exec_refines o h b q :
  sb_refines h b q -> op_ok o ->
  exists h' b', sb_exec o h b = Some (fst (bq_exec o q), h', b') /\
    sb_refines h' b' (snd (bq_exec o q)) /\ buff_ b' = buff_ b /\
    (forall p, p <> buff_ b -> h' !! p = h !! p).
Proof.
  rewrite sb_refines_view. destruct q as [c room cap]. simpl.
  intros (Hv & -> & ->) Hok. destruct (sb_view_lens _ _ _ Hv) as (Hw & Hr & Ho & Hl).
  destruct o as [d|ds|d|n| |n|]; simpl in *.
  - unfold sb_writeData, bq_write. simpl. rewrite Hw. zbool.
    + exists h, b. by rewrite sb_refines_view.
    + destruct (sb_view_sb_append h b c d Hv) as (h' & E & Hv' & Hf); [lia|].
      rewrite E. eexists h', _. split; [done|]. rewrite sb_refines_view. simpl.
      split; [|done]. split; [done|lia].
  - destruct ds as [|d ds]; [exists h, b; by rewrite sb_refines_view|].
    unfold sb_writeDatas, bq_write. csimpl.
    change (whole d :: (whole <$> ds)) with (whole <$> d :: ds).
    change (d ++ concat ds) with (concat (d :: ds)). rewrite datas_total_len_whole, Hw by done. simpl bq_room. simpl bq_bytes. zbool.
    + exists h, b. by rewrite sb_refines_view.
    + destruct (sb_view_append_all (d :: ds) h b c Hv) as (h' & E & Hv' & Hf); [lia|].
      csimpl in E. csimpl. rewrite E. eexists h', _. split; [done|]. rewrite sb_refines_view.
      split; [|done]. split; [done|cbn [bq_room bq_cap sb_set_offsets write_offset_ len_ snd]; lia].
  - unfold bq_write. simpl. rewrite Hw. zbool.
    + exists h, b. by rewrite sb_refines_view.
    + destruct (sb_view_append h b c d Hv) as (h' & E & Hv' & Hf); [lia|].
      rewrite E. simpl. unfold sb_writeLen. rewrite Hw. zbool.
      rewrite u32_id by (unfold is_u32; lia).
      eexists h', _. split; [done|]. rewrite sb_refines_view. simpl. split; [|done].
      split; [done|lia].
  - unfold sb_readLen, bq_read. simpl. rewrite Hr. zbool.
    + exists h, b. by rewrite sb_refines_view.
    + destruct Hok. pose proof (sb_view_read h b c n Hv).
      destruct Hv as (pre & post & ? & ? & ? & _). rewrite u32_id by (unfold is_u32; lia).
      eexists h, _. split; [done|]. rewrite sb_refines_view. simpl. split; [|done].
      split; [auto|lia].
  - destruct (sb_view_compact h b c Hv) as (h' & E & Hv' & Hf). rewrite E.
    eexists h', _. split; [done|]. by rewrite sb_refines_view.
  - unfold sb_checkWriteLen, bq_ensure. simpl. rewrite Hw.
    destruct (Z.ltb_spec (len_ b - write_offset_ b) n).
    + destruct (sb_view_compact h b c Hv) as (h' & E & Hv' & Hf). rewrite E. simpl.
      destruct (sb_view_lens _ _ _ Hv') as (-> & _). simpl.
      eexists h', _. split; [done|]. by rewrite sb_refines_view.
    + exists h, b. by rewrite sb_refines_view.
  - eexists h, _. split; [done|]. rewrite sb_refines_view. simpl. split; [|done].
    split; [by eapply sb_view_clear|lia].
Qed.

(** C10.  A session buffer implements a bounded byte queue.  From a well-formed buffer
    that holds the queue's bytes, every sequence of writes (of one or several
    pieces), receives, reads, compactions, space checks and clears runs without
    undefined behaviour, returns what the queue returns, ends in a buffer that
    holds the queue's bytes, with the same free space and capacity, and changes no
    other block of the heap. *)
Theorem session_buffer_refines_queue : forall os h b q,
  sb_refines h b q -> Forall op_ok os ->
  exists h' b', sb_run os h b = Some (fst (bq_run os q), h', b') /\
    sb_refines h' b' (snd (bq_run os q)) /\
    forall p, p <> buff_ b -> h' !! p = h !! p.
Proof.
  intros os. induction os as [|o os IH]; intros h b q Hq Hok; [by exists h, b|].
  apply Forall_cons_1 in Hok as [Ho Hos].
  destruct (sb_exec_refines o h b q Hq Ho) as (h1 & b1 & E1 & Hq1 & Hb1 & Hf1).
  simpl. rewrite E1. destruct (bq_exec o q) as [r q1]. simpl in *.
  destruct (IH h1 b1 q1 Hq1 Hos) as (h2 & b2 & E2 & Hq2 & Hf2).
  rewrite E2. simpl. destruct (bq_run os q1) as [rs q2]. simpl in *.
  exists h2, b2. split; [done|]. split; [done|].
  intros p Hp. rewrite Hf2 by congruence. by apply Hf1.
Qed.

Lemma session_buffer_refines_queue_witness :
  let h : heap := {[ 1 := [0; 0; 0; 0] ]} in
  let b := mkSB true 1 4 SESSION_BUFFER_TYPE_SEND 0 0 in
  let q := mkBQ [] 4 4 in
  let os := [op_write [7; 8; 9]; op_read 2; op_write [1; 2]; op_check 2; op_write [1; 2]] in
  (sb_refines h b q /\ Forall op_ok os) /\
  bq_run os q = ([true; true; false; true; true], mkBQ [9; 1; 2] 1 4) /\
  exists h' b', sb_run os h b = Some (fst (bq_run os q), h', b') /\
    sb_refines h' b' (snd (bq_run os q)).
Proof.
  set (h := {[ 1 := [0; 0; 0; 0] ]} : heap).
  set (b := mkSB true 1 4 SESSION_BUFFER_TYPE_SEND 0 0).
  set (os := [op_write [7; 8; 9]; op_read 2; op_write [1; 2]; op_check 2; op_write [1; 2]]).
  assert (Hq : sb_refines h b (mkBQ [] 4 4)).
  { unfold sb_refines, sb_wf. simpl. repeat split; try (vm_compute; congruence).
    eexists. split; vm_compute; reflexivity. }
  assert (Hos : Forall op_ok os).
  { repeat constructor; vm_compute; congruence. }
  split; [done|]. split; [reflexivity|].
  destruct (session_buffer_refines_queue os h b (mkBQ [] 4 4) Hq Hos) as (h' & b' & E & Hr & _).
  exists h', b'. split; [exact E|exact Hr].
Defined.

(** ** Initialisation and assignment *)

Lemma sb_init_buff_refines h b p n ty bl :
  h !! p = Some bl -> lenZ bl = n -> p <> NULL -> n < 2 ^ 32 ->
  (proxy_ b = true \/ buff_ b = NULL) ->
  let '(r, h', b') := sb_init_buff h b p n ty in
  r = true /\ h' = h /\ sb_refines h' b' (mkBQ [] n n) /\ buff_ b' = p /\ type_ b' = ty.
Proof.
  intros Hp Hn H0 H32 Hd. unfold sb_init_buff, sb_destroy. simpl.
  replace (negb (proxy_ b) && negb (buff_ b =? NULL)) with false
    by (destruct Hd as [->| ->]; simpl; by rewrite ?andb_false_r).
  split; [done|]. split; [done|]. split; [|done]. unfold sb_refines. simpl.
  split; [|split; [|lia]].
  - unfold sb_wf. simpl. split; [lia|]. split; [lia|]. split; [done|]. eauto.
  - unfold sb_content. simpl. by rewrite Hp.
Qed.
