(* ===== verification/BufferPool.v ===== *)
(** * Buffer pools ([jmy_session_buffer_pool.h], [jmy_session_buffer_pool.cpp])

    [FixedSizeBufferPool] keeps blocks of one size on a free list and in a set of
    used blocks; [JmySessionBufferPool] holds four such pools.  An abstract
    allocator over a set of blocks is the specification of the first. *)
From S2P Require Import Prelude Datatype.
From Stdlib Require Import ZArith Lia.
From stdpp Require Import base option list gmap.
Local Open Scope Z_scope.

(** ** FixedSizeBufferPool *)

Record FixedSizeBufferPool : Type := mkFP {
  free_buffer_list_ : list ptr;
  used_buffer_set_ : gset Z;
  max_length_ : Z;
  fixed_size_ : Z;
}.

Definition FixedSizeBufferPool_new : FixedSizeBufferPool := mkFP [] ∅ 0 0.

(** [n] times [push_back(new char[fixed_size])]. *)
Fixpoint fp_new_blocks (n : nat) (garbage : list Z) (h : heap) (l : list ptr) : list ptr * heap :=
  match n with
  | O => (l, h)
  | S n => let '(p, h) := heap_new h garbage in fp_new_blocks n garbage h (l ++ [p])
  end.

Definition fp_init (h : heap) (P : FixedSizeBufferPool) (max_length fixed_size : Z)
  (garbage : list Z) : bool * heap * FixedSizeBufferPool :=
  let '(l, h) := fp_new_blocks (Z.to_nat max_length) garbage h (free_buffer_list_ P) in
  (true, h, mkFP l (used_buffer_set_ P) max_length fixed_size).

(** [delete [] p]: a block that is not allocated is undefined behaviour. *)
Fixpoint fp_delete_blocks (h : heap) (l : list ptr) : option heap :=
  match l with
  | [] => Some h
  | p :: l =>
    if p =? NULL then fp_delete_blocks h l else
    _ ← h !! p; fp_delete_blocks (delete p h) l
  end.

(** The second loop reads [*it], the end iterator of the free list, where it means [*sit]:
    undefined behaviour as soon as a block is in use. *)
Definition fp_clear (h : heap) (P : FixedSizeBufferPool) : option (heap * FixedSizeBufferPool) :=
  h ← fp_delete_blocks h (free_buffer_list_ P);
  ub_unless (bool_decide (used_buffer_set_ P = ∅));;
  Some (h, mkFP [] ∅ (max_length_ P) (fixed_size_ P)).

Definition fp_malloc (P : FixedSizeBufferPool) : ptr * FixedSizeBufferPool :=
  match free_buffer_list_ P with
  | [] => (NULL, P)
  | p :: l => (p, mkFP l ({[p]} ∪ used_buffer_set_ P) (max_length_ P) (fixed_size_ P))
  end.

Definition fp_free (P : FixedSizeBufferPool) (p : ptr) : bool * FixedSizeBufferPool :=
  if decide (p ∈ used_buffer_set_ P)
  then (true, mkFP (free_buffer_list_ P ++ [p]) (used_buffer_set_ P ∖ {[p]})
                (max_length_ P) (fixed_size_ P))
  else (false, P).

Definition fp_getFixedSize (P : FixedSizeBufferPool) : Z := fixed_size_ P.

(** ** JmySessionBufferPool *)

Record JmySessionBufferPool : Type := mkBP {
  send_buffer_pool_ : FixedSizeBufferPool;
  recv_buffer_pool_ : FixedSizeBufferPool;
  max_send_buffer_pool_ : FixedSizeBufferPool;
  max_recv_buffer_pool_ : FixedSizeBufferPool;
  max_session_size_ : Z;
}.

Definition JmySessionBufferPool_new : JmySessionBufferPool :=
  mkBP FixedSizeBufferPool_new FixedSizeBufferPool_new FixedSizeBufferPool_new
    FixedSizeBufferPool_new 0.

(** The rounding of one requested size: to half of [top], to [top], or an error. *)
Definition round_size (size top : Z) : option Z :=
  if size <=? top / 2 then Some (top / 2)
  else if size <=? top then Some top
  else None.

(** [garbage n] is the content of a new block of [n] bytes. *)
Definition bp_init (garbage : Z -> list Z) (h : heap) (P : JmySessionBufferPool)
  (max_session_size min_send min_recv max_send max_recv : Z)
  : bool * heap * JmySessionBufferPool :=
  match round_size min_send DEFAULT_SEND_BUFFER_SIZE, round_size min_recv DEFAULT_RECV_BUFFER_SIZE,
        round_size max_send MAX_SEND_BUFFER_SIZE, round_size max_recv MAX_RECV_BUFFER_SIZE with
  | Some min_send, Some min_recv, Some max_send, Some max_recv =>
    let '(_, h, ps) := fp_init h (send_buffer_pool_ P) max_session_size min_send (garbage min_send) in
    let '(_, h, pr) := fp_init h (recv_buffer_pool_ P) max_session_size min_recv (garbage min_recv) in
    let '(_, h, pls) := fp_init h (max_send_buffer_pool_ P) DEFAULT_MAX_SEND_BUFFER_COUNT
                          max_send (garbage max_send) in
    let '(_, h, plr) := fp_init h (max_recv_buffer_pool_ P) DEFAULT_MAX_RECV_BUFFER_COUNT
                          max_recv (garbage max_recv) in
    (true, h, mkBP ps pr pls plr max_session_size)
  | _, _, _, _ => (false, h, P)
  end.

Definition bp_clear (h : heap) (P : JmySessionBufferPool) : option (heap * JmySessionBufferPool) :=
  '(h, ps) ← fp_clear h (send_buffer_pool_ P);
  '(h, pr) ← fp_clear h (recv_buffer_pool_ P);
  '(h, pls) ← fp_clear h (max_send_buffer_pool_ P);
  '(h, plr) ← fp_clear h (max_recv_buffer_pool_ P);
  Some (h, mkBP ps pr pls plr (max_session_size_ P)).

Definition bp_set_send (p : FixedSizeBufferPool) (P : JmySessionBufferPool) : JmySessionBufferPool :=
  mkBP p (recv_buffer_pool_ P) (max_send_buffer_pool_ P) (max_recv_buffer_pool_ P) (max_session_size_ P).
Definition bp_set_recv (p : FixedSizeBufferPool) (P : JmySessionBufferPool) : JmySessionBufferPool :=
  mkBP (send_buffer_pool_ P) p (max_send_buffer_pool_ P) (max_recv_buffer_pool_ P) (max_session_size_ P).
Definition bp_set_max_send (p : FixedSizeBufferPool) (P : JmySessionBufferPool) : JmySessionBufferPool :=
  mkBP (send_buffer_pool_ P) (recv_buffer_pool_ P) p (max_recv_buffer_pool_ P) (max_session_size_ P).
Definition bp_set_max_recv (p : FixedSizeBufferPool) (P : JmySessionBufferPool) : JmySessionBufferPool :=
  mkBP (send_buffer_pool_ P) (recv_buffer_pool_ P) (max_send_buffer_pool_ P) p (max_session_size_ P).

(** [buffer_size] is passed by reference and set when a block is returned. *)
Definition mallocSendBuffer (P : JmySessionBufferPool) (buffer_size : Z)
  : ptr * Z * JmySessionBufferPool :=
  let '(p, q) := fp_malloc (send_buffer_pool_ P) in
  (p, if p =? NULL then buffer_size else fp_getFixedSize q, bp_set_send q P).

Definition freeSendBuffer (P : JmySessionBufferPool) (p : ptr) : bool * JmySessionBufferPool :=
  let '(r, q) := fp_free (send_buffer_pool_ P) p in (r, bp_set_send q P).

Definition mallocRecvBuffer (P : JmySessionBufferPool) (buffer_size : Z)
  : ptr * Z * JmySessionBufferPool :=
  let '(p, q) := fp_malloc (recv_buffer_pool_ P) in
  (p, if p =? NULL then buffer_size else fp_getFixedSize q, bp_set_recv q P).

Definition freeRecvBuffer (P : JmySessionBufferPool) (p : ptr) : bool * JmySessionBufferPool :=
  let '(r, q) := fp_free (recv_buffer_pool_ P) p in (r, bp_set_recv q P).

(** The size reported for a large send block is the size of the large receive blocks. *)
Definition mallocLargeSendBuffer (P : JmySessionBufferPool) (buffer_size : Z)
  : ptr * Z * JmySessionBufferPool :=
  let '(p, q) := fp_malloc (max_send_buffer_pool_ P) in
  (p, if p =? NULL then buffer_size else fp_getFixedSize (max_recv_buffer_pool_ P), bp_set_max_send q P).

Definition freeLargeSendBuffer (P : JmySessionBufferPool) (p : ptr) : bool * JmySessionBufferPool :=
  let '(r, q) := fp_free (max_send_buffer_pool_ P) p in (r, bp_set_max_send q P).

Definition mallocLargeRecvBuffer (P : JmySessionBufferPool) (buffer_size : Z)
  : ptr * Z * JmySessionBufferPool :=
  let '(p, q) := fp_malloc (max_recv_buffer_pool_ P) in
  (p, if p =? NULL then buffer_size else fp_getFixedSize (max_send_buffer_pool_ P), bp_set_max_recv q P).

Definition freeLargeRecvBuffer (P : JmySessionBufferPool) (p : ptr) : bool * JmySessionBufferPool :=
  let '(r, q) := fp_free (max_recv_buffer_pool_ P) p in (r, bp_set_max_recv q P).

(** ** Specification: an allocator over a fixed set of blocks *)

Inductive fp_op : Type := op_malloc | op_free (p : ptr).
Inductive fp_res : Type := res_ptr (p : ptr) | res_bool (b : bool).

Definition fp_exec (o : fp_op) (P : FixedSizeBufferPool) : fp_res * FixedSizeBufferPool :=
  match o with
  | op_malloc => let '(p, P) := fp_malloc P in (res_ptr p, P)
  | op_free p => let '(b, P) := fp_free P p in (res_bool b, P)
  end.

Fixpoint fp_run (os : list fp_op) (P : FixedSizeBufferPool) : list fp_res * FixedSizeBufferPool :=
  match os with
  | [] => ([], P)
  | o :: os => let '(r, P) := fp_exec o P in let '(rs, P) := fp_run os P in (r :: rs, P)
  end.

(** The state is the set of blocks that are out; [B] are all the blocks. *)
Inductive alloc_step (B : gset Z) : gset Z -> fp_op -> fp_res -> gset Z -> Prop :=
| alloc_malloc U p : p ∈ B -> p ∉ U -> alloc_step B U op_malloc (res_ptr p) ({[p]} ∪ U)
| alloc_full : alloc_step B B op_malloc (res_ptr NULL) B
| alloc_free U p : p ∈ U -> alloc_step B U (op_free p) (res_bool true) (U ∖ {[p]})
| alloc_bad_free U p : p ∉ U -> alloc_step B U (op_free p) (res_bool false) U.

Inductive alloc_trace (B : gset Z) : gset Z -> list fp_op -> list fp_res -> gset Z -> Prop :=
| alloc_trace_nil U : alloc_trace B U [] [] U
| alloc_trace_cons U o r U' os rs U'' :
    alloc_step B U o r U' -> alloc_trace B U' os rs U'' -> alloc_trace B U (o :: os) (r :: rs) U''.

(** The invariant that ties a pool to its set of blocks: every block is either free or
    used, once, and is allocated memory of the pool's size. *)
Record fp_inv (h : heap) (B : gset Z) (P : FixedSizeBufferPool) : Prop := mkFpInv {
  fp_inv_nodup : NoDup (free_buffer_list_ P);
  fp_inv_disj : forall p, p ∈ free_buffer_list_ P -> p ∉ used_buffer_set_ P;
  fp_inv_all : B = list_to_set (free_buffer_list_ P) ∪ used_buffer_set_ P;
  fp_inv_blocks : forall p, p ∈ B ->
    p <> NULL /\ exists bl, h !! p = Some bl /\ lenZ bl = fixed_size_ P;
}.

Lemma fp_exec_inv h B P o :
  fp_inv h B P ->
  let '(r, P') := fp_exec o P in
  alloc_step B (used_buffer_set_ P) o r (used_buffer_set_ P') /\ fp_inv h B P' /\
  fixed_size_ P' = fixed_size_ P.
Proof.
  intros [Hn Hd Ha Hb]. destruct P as [fl us ml fs]. simpl in *. destruct o as [|p]; simpl.
  - unfold fp_malloc. destruct fl as [|p fl]; simpl in *.
    + split; [|by constructor]. replace us with B by set_solver. constructor.
    + apply NoDup_cons in Hn as [Hp Hn]. split; [constructor; set_solver|].
      split; [|done]. constructor; simpl; [done|set_solver|set_solver|done].
  - unfold fp_free. simpl. case_decide as Hp; simpl.
    + split; [by constructor|]. split; [|done]. constructor; simpl.
      * apply NoDup_app. split; [done|]. split; [set_solver|apply NoDup_singleton].
      * set_solver.
      * rewrite list_to_set_app_L. simpl. apply set_eq. intros x.
        destruct (decide (x = p)); set_solver.
      * done.
    + split; [by constructor|]. by constructor.
Qed.

Lemma fp_run_trace h B os P :
  fp_inv h B P ->
  let '(rs, P') := fp_run os P in
  alloc_trace B (used_buffer_set_ P) os rs (used_buffer_set_ P') /\ fp_inv h B P'.
Proof.
  revert P. induction os as [|o os IH]; intros P HP; simpl; [by split; [constructor|]|].
  pose proof (fp_exec_inv h B P o HP) as H1. destruct (fp_exec o P) as [r P1].
  destruct H1 as (Hs & HP1 & _). specialize (IH P1 HP1).
  destruct (fp_run os P1) as [rs P2]. destruct IH. split; [by econstructor|done].
Qed.

(** [init] on an empty pool. *)
Lemma fp_new_blocks_spec n (garbage : list Z) (h : heap) (l : list Z) (B : gset Z) :
  NoDup l -> B = list_to_set l ->
  (forall p, p ∈ B -> p <> NULL /\ exists bl, h !! p = Some bl /\ lenZ bl = lenZ garbage) ->
  let '(l', h') := fp_new_blocks n garbage h l in
  NoDup l' /\ length l' = (length l + n)%nat /\
  (forall p, p ∈ l' -> p <> NULL /\ exists bl, h' !! p = Some bl /\ lenZ bl = lenZ garbage) /\
  (forall p bl, h !! p = Some bl -> h' !! p = Some bl).
Proof.
  revert h l B. induction n as [|n IH]; intros h l B Hl -> Hb; simpl.
  - split; [done|]. split; [lia|]. split; [set_solver|done].
  - assert (Hf : fresh_ptr h ∉ l).
    { intros Hin. destruct (Hb (fresh_ptr h)) as (_ & bl & E & _); [set_solver|].
      by rewrite fresh_ptr_fresh in E. }
    specialize (IH (<[fresh_ptr h := garbage]> h) (l ++ [fresh_ptr h]) _
      ltac:(apply NoDup_app; split_and!; [done|set_solver|apply NoDup_singleton]) eq_refl).
    destruct fp_new_blocks as [l' h'].
    destruct IH as (H1 & H2 & H3 & H4).
    + intros p Hp. destruct (decide (p = fresh_ptr h)) as [->|].
      * split; [apply fresh_ptr_not_null|]. eexists. by rewrite lookup_insert_eq.
      * rewrite lookup_insert_ne by done. apply Hb. set_solver.
    + split; [done|]. rewrite length_app in H2. simpl in H2. split; [lia|]. split; [done|].
      intros p bl Hp. apply H4. rewrite lookup_insert_ne; [done|].
      intros <-. by rewrite fresh_ptr_fresh in Hp.
Qed.

Lemma fp_init_inv (h : heap) n size (garbage : list Z) :
  0 <= n -> lenZ garbage = size ->
  let '(r, h', P) := fp_init h FixedSizeBufferPool_new n size garbage in
  r = true /\ fp_inv h' (list_to_set (free_buffer_list_ P)) P /\
  lenZ (free_buffer_list_ P) = n /\ used_buffer_set_ P = ∅ /\ fixed_size_ P = size /\
  (forall p bl, h !! p = Some bl -> h' !! p = Some bl).
Proof.
  intros Hn Hg. unfold fp_init. simpl.
  pose proof (fp_new_blocks_spec (Z.to_nat n) garbage h [] ∅ (NoDup_nil_2) eq_refl) as H.
  destruct fp_new_blocks as [l h']. destruct H as (H1 & H2 & H3 & H4); [set_solver|].
  simpl in *. split; [done|]. split; [|split; [lia|done]].
  constructor; simpl; [done|set_solver|set_solver|].
  intros p Hp. rewrite <-Hg. apply H3. set_solver.
Qed.

(** C14.  A fixed-size pool implements an allocator.  After [init] with [n] blocks, every
    sequence of [malloc] and [free] calls returns what an allocator over that set of
    [n] distinct blocks returns: [malloc] gives a block of the pool's size that is
    not out, or null exactly when all are out; [free] takes back a block that is out and
    refuses any other pointer.  No block is ever lost or handed out twice. *)
Theorem pool_refines_allocator : forall (h : heap) n sz (garbage : list Z) os,
  0 <= n -> lenZ garbage = sz ->
  let '(_, h', P) := fp_init h FixedSizeBufferPool_new n sz garbage in
  let B := list_to_set (free_buffer_list_ P) : gset Z in
  let '(rs, P') := fp_run os P in
  Z.of_nat (size B) = n /\ alloc_trace B ∅ os rs (used_buffer_set_ P') /\
  B = list_to_set (free_buffer_list_ P') ∪ used_buffer_set_ P' /\
  (forall p, p ∈ B -> p <> NULL /\ exists bl, h' !! p = Some bl /\ lenZ bl = sz).
Proof.
  intros h n sz garbage os Hn Hg. pose proof (fp_init_inv h n sz garbage Hn Hg) as H.
  destruct fp_init as [[r h'] P]. destruct H as (_ & HP & Hl & Hu & Hs & _). cbv zeta.
  pose proof (fp_run_trace h' _ os P HP) as Ht. rewrite Hu in Ht.
  destruct (fp_run os P) as [rs P']. destruct Ht as [Ht HP'].
  split; [|split; [done|split; [apply HP'|]]].
  - rewrite size_list_to_set by apply HP. done.
  - rewrite <-Hs. apply HP.
Qed.


Lemma pool_refines_allocator_witness :
  (0 <= 2 /\ lenZ (repeat 0 4) = 4) /\
  let '(_, h', P) := fp_init ∅ FixedSizeBufferPool_new 2 4 (repeat 0 4) in
  let B := list_to_set (free_buffer_list_ P) : gset Z in
  let os := [op_malloc; op_malloc; op_malloc; op_free 2; op_free 2; op_malloc] in
  let '(rs, P') := fp_run os P in
  rs = [res_ptr 1; res_ptr 2; res_ptr NULL; res_bool true; res_bool false; res_ptr 2] /\
  Z.of_nat (size B) = 2 /\ alloc_trace B ∅ os rs (used_buffer_set_ P').
Proof.
  split; [split; [lia|reflexivity]|].
  pose proof (pool_refines_allocator ∅ 2 4 (repeat 0 4)
    [op_malloc; op_malloc; op_malloc; op_free 2; op_free 2; op_malloc]
    ltac:(lia) eq_refl) as H.
  destruct fp_init as [[r h'] P] eqn:E. cbv zeta in *.
  destruct fp_run as [rs P'] eqn:E'. split; [|split; apply H].
  vm_compute in E. injection E as <- <- <-. vm_compute in E'. injection E' as <- <-. reflexivity.
Defined.

(** ** JmySessionBufferPool: the sizes it rounds to and reports *)

Inductive bp_kind : Type := k_send | k_recv | k_large_send | k_large_recv.

Definition bp_malloc (k : bp_kind) : JmySessionBufferPool -> Z -> ptr * Z * JmySessionBufferPool :=
  match k with
  | k_send => mallocSendBuffer
  | k_recv => mallocRecvBuffer
  | k_large_send => mallocLargeSendBuffer
  | k_large_recv => mallocLargeRecvBuffer
  end.

(** The largest request each kind accepts. *)
Definition bp_top (k : bp_kind) : Z :=
  match k with
  | k_send => DEFAULT_SEND_BUFFER_SIZE
  | k_recv => DEFAULT_RECV_BUFFER_SIZE
  | k_large_send => MAX_SEND_BUFFER_SIZE
  | k_large_recv => MAX_RECV_BUFFER_SIZE
  end.

(** The kind whose size is reported. *)
Definition bp_reported (k : bp_kind) : bp_kind :=
  match k with
  | k_large_send => k_large_recv
  | k_large_recv => k_large_send
  | k => k
  end.

Lemma round_size_Some size top :
  0 <= top -> is_Some (round_size size top) <-> size <= top.
Proof.
  intros. unfold round_size. assert (top / 2 <= top) by lia_mod. split.
  - intros [? Hr]. zbool; destruct (Z.leb_spec size (top / 2)), (Z.leb_spec size top); try lia; done.
  - intros. destruct (Z.leb_spec size (top / 2)), (Z.leb_spec size top); try lia; eauto.
Qed.

Lemma round_size_ge size top r : round_size size top = Some r -> size <= r <= top \/ size <= r.
Proof.
  unfold round_size. destruct (Z.leb_spec size (top / 2)), (Z.leb_spec size top); intros [= <-]; lia.
Qed.

Lemma fp_init_malloc (h : heap) n sz (garbage : list Z) :
  0 < n -> lenZ garbage = sz ->
  let '(_, h', P) := fp_init h FixedSizeBufferPool_new n sz garbage in
  fixed_size_ P = sz /\ (forall p bl, h !! p = Some bl -> h' !! p = Some bl) /\
  exists p q bl, fp_malloc P = (p, q) /\ p <> NULL /\ h' !! p = Some bl /\ lenZ bl = sz /\
    fixed_size_ q = sz.
Proof.
  intros Hn Hg. pose proof (fp_init_inv h n sz garbage ltac:(lia) Hg) as H.
  destruct fp_init as [[r h'] P]. destruct H as (_ & HP & Hl & _ & Hs & Hm).
  split; [done|]. split; [done|]. unfold fp_malloc.
  destruct (free_buffer_list_ P) as [|p l] eqn:E; [simpl in Hl; lia|].
  destruct (fp_inv_blocks _ _ _ HP p) as (? & bl & ? & ?); [set_solver|].
  eexists _, _, bl. split; [done|]. simpl. rewrite <-Hs. done.
Qed.

(** [JmySessionBufferPool::init] succeeds exactly when every requested size is at
    most the maximum of its kind.  Then each of the four pools hands out a non-null
    block whose length is the request rounded up.  The size reported with a normal block is its
    length; the size reported with a large block is the length of the {e other}
    direction's large blocks, so it is right for every configuration only when the two
    rounded sizes agree. *)
Theorem buffer_pool_init_spec : forall (garbage : Z -> list Z) (h : heap) n (req : bp_kind -> Z),
  0 < n -> (forall s, 0 <= s -> lenZ (garbage s) = s) ->
  let '(r, h', P) := bp_init garbage h JmySessionBufferPool_new n
                       (req k_send) (req k_recv) (req k_large_send) (req k_large_recv) in
  (r = true <-> forall k, req k <= bp_top k) /\
  (r = true -> forall k size0, exists p size P' bl sz sz',
    bp_malloc k P size0 = (p, size, P') /\ p <> NULL /\ h' !! p = Some bl /\ lenZ bl = sz /\
    round_size (req k) (bp_top k) = Some sz /\ req k <= sz /\
    round_size (req (bp_reported k)) (bp_top (bp_reported k)) = Some sz' /\ size = sz').
Proof.
  intros garbage h n req Hn Hg. unfold bp_init.
  assert (Hr : forall k r, round_size (req k) (bp_top k) = Some r -> req k <= r /\ 0 <= r).
  { intros k r Hk. split; [apply round_size_ge in Hk; lia|]. unfold round_size in Hk.
    destruct k; simpl in Hk; repeat case_match; inv_opt; vm_compute; discriminate. }
  assert (Hs : forall k, is_Some (round_size (req k) (bp_top k)) <-> req k <= bp_top k).
  { intros k. apply round_size_Some. by destruct k. }
  pose proof (Hs k_send) as S1. pose proof (Hs k_recv) as S2.
  pose proof (Hs k_large_send) as S3. pose proof (Hs k_large_recv) as S4. simpl in S1, S2, S3, S4.
  destruct (round_size (req k_send) _) as [s1|] eqn:E1;
    [|split; [|done]; split; [done|]; intros H; by apply S1 in H as [? ?]].
  destruct (round_size (req k_recv) _) as [s2|] eqn:E2;
    [|split; [|done]; split; [done|]; intros H; by apply S2 in H as [? ?]].
  destruct (round_size (req k_large_send) _) as [s3|] eqn:E3;
    [|split; [|done]; split; [done|]; intros H; by apply S3 in H as [? ?]].
  destruct (round_size (req k_large_recv) _) as [s4|] eqn:E4;
    [|split; [|done]; split; [done|]; intros H; by apply S4 in H as [? ?]].
  destruct (Hr k_send s1 E1) as [G1 P1]. destruct (Hr k_recv s2 E2) as [G2 P2].
  destruct (Hr k_large_send s3 E3) as [G3 P3]. destruct (Hr k_large_recv s4 E4) as [G4 P4].
  cbn [JmySessionBufferPool_new send_buffer_pool_ recv_buffer_pool_ max_send_buffer_pool_ max_recv_buffer_pool_].
  pose proof (fp_init_malloc h n s1 (garbage s1) Hn (Hg _ P1)) as M1.
  destruct fp_init as [[r1 h1] Q1]. destruct M1 as (F1 & _ & M1).
  pose proof (fp_init_malloc h1 n s2 (garbage s2) Hn (Hg _ P2)) as M2.
  destruct fp_init as [[r2 h2] Q2]. destruct M2 as (F2 & H12 & M2).
  pose proof (fp_init_malloc h2 DEFAULT_MAX_SEND_BUFFER_COUNT s3 (garbage s3) ltac:(done) (Hg _ P3)) as M3.
  destruct fp_init as [[r3 h3] Q3]. destruct M3 as (F3 & H23 & M3).
  pose proof (fp_init_malloc h3 DEFAULT_MAX_RECV_BUFFER_COUNT s4 (garbage s4) ltac:(done) (Hg _ P4)) as M4.
  destruct fp_init as [[r4 h4] Q4]. destruct M4 as (F4 & H34 & M4).
  split.
  { split; [|done]. intros _ k. apply Hs. destruct k; simpl; rewrite ?E1, ?E2, ?E3, ?E4; eauto. }
  intros _ k size0. unfold bp_malloc, mallocSendBuffer, mallocRecvBuffer, mallocLargeSendBuffer,
    mallocLargeRecvBuffer, fp_getFixedSize; destruct k; simpl.
  - destruct M1 as (p & q & bl & -> & Hp & Hb & Hl & Hq). rewrite (proj2 (Z.eqb_neq _ _) Hp).
    eexists p, _, _, bl, s1, s1. eauto 12.
  - destruct M2 as (p & q & bl & -> & Hp & Hb & Hl & Hq). rewrite (proj2 (Z.eqb_neq _ _) Hp).
    eexists p, _, _, bl, s2, s2. eauto 12.
  - destruct M3 as (p & q & bl & -> & Hp & Hb & Hl & Hq). rewrite (proj2 (Z.eqb_neq _ _) Hp).
    eexists p, _, _, bl, s3, s4. eauto 12.
  - destruct M4 as (p & q & bl & -> & Hp & Hb & Hl & Hq). rewrite (proj2 (Z.eqb_neq _ _) Hp).
    eexists p, _, _, bl, s4, s3. eauto 12.
Qed.

Lemma buffer_pool_init_spec_witness :
  let garbage s := repeat 7 (Z.to_nat s) in
  (0 < 3 /\ forall s, 0 <= s -> lenZ (garbage s) = s) /\
  let '(r, h', P) := bp_init garbage ∅ JmySessionBufferPool_new 3 2048 2049 100 400000 in
  r = true /\ exists p P' bl, mallocLargeSendBuffer P 0 = (p, 655360, P') /\
    h' !! p = Some bl /\ lenZ bl = 327680.
Proof.
  cbv zeta. assert (Hg : forall s, 0 <= s -> lenZ (repeat 7 (Z.to_nat s)) = s)
    by (intros; rewrite repeat_length; lia).
  split; [split; [lia|exact Hg]|].
  pose proof (buffer_pool_init_spec (fun s => repeat 7 (Z.to_nat s)) ∅ 3
    (fun k => match k with k_send => 2048 | k_recv => 2049 | k_large_send => 100 | k_large_recv => 400000 end)
    ltac:(lia) Hg) as H. cbv beta iota in H.
  destruct bp_init as [[r h'] P]. destruct H as [H1 H2].
  assert (Hr : r = true) by (apply H1; intros []; vm_compute; discriminate).
  split; [exact Hr|].
  destruct (H2 Hr k_large_send 0) as (p & size & P' & bl & sz & sz' & Hm & _ & Hb & Hl & E & _ & E' & ->).
  vm_compute in E. injection E as <-. vm_compute in E'. injection E' as <-.
  exists p, P', bl. split; [exact Hm|]. split; [exact Hb|exact Hl].
Defined.
