(* ===== verification/IdGenerator.v ===== *)
(** * Identifier generator ([JmyIdGenerator] of [jmy_util.h])

    [JmyIdGenerator<int>] numbers connections in the server and in the client
    managers.  [int] arithmetic is the C++ one: incrementing [INT_MAX] is undefined. *)
From S2P Require Import Prelude.
From Stdlib Require Import ZArith Lia.
From stdpp Require Import base option list gmap.
Local Open Scope Z_scope.

Record JmyIdGenerator : Type := mkIG {
  curr_id_ : Z;
  min_id_ : Z;
  max_id_ : Z;
  free_list_ : list Z;
  used_set_ : gset Z;
}.

Definition MIN_ID : Z := 1.

(** Both branches of the constructor store [MIN_ID]: the template argument is ignored. *)
Definition JmyIdGenerator_new (max_id min_id : Z) : JmyIdGenerator :=
  mkIG 0 (if min_id <? MIN_ID then MIN_ID else MIN_ID) max_id [] ∅.

Definition ig_init (g : JmyIdGenerator) (maxid minid : Z) : JmyIdGenerator :=
  mkIG (curr_id_ g) minid maxid (free_list_ g) (used_set_ g).

Definition ig_reset (g : JmyIdGenerator) : JmyIdGenerator :=
  mkIG 0 (min_id_ g) (max_id_ g) [] ∅.

Definition ig_clear (g : JmyIdGenerator) : JmyIdGenerator :=
  ig_reset (mkIG (curr_id_ g) 0 0 (free_list_ g) (used_set_ g)).

(** [curr_id_ += 1] on [int]. *)
Definition int_incr (z : Z) : option Z := if z <? INT_MAX then Some (z + 1) else None.

Definition ig_get (g : JmyIdGenerator) : option (Z * JmyIdGenerator) :=
  match free_list_ g with
  | id :: l => Some (id, mkIG (curr_id_ g) (min_id_ g) (max_id_ g) l ({[id]} ∪ used_set_ g))
  | [] =>
    c ← (if 0 <? max_id_ g then
           if max_id_ g <=? curr_id_ g then Some (min_id_ g) else int_incr (curr_id_ g)
         else int_incr (curr_id_ g));
    let c := if c <=? 0 then min_id_ g else c in
    let g := mkIG c (min_id_ g) (max_id_ g) (free_list_ g) (used_set_ g) in
    if decide (c ∈ used_set_ g) then Some (0, g) else Some (c, g)
  end.

Definition ig_free (g : JmyIdGenerator) (id : Z) : bool * JmyIdGenerator :=
  if decide (id ∈ used_set_ g)
  then (true, mkIG (curr_id_ g) (min_id_ g) (max_id_ g) (free_list_ g ++ [id]) (used_set_ g ∖ {[id]}))
  else (false, g).

(** ** Runs *)

Inductive ig_op : Type := op_get | op_free_id (id : Z).

Inductive ig_res : Type := res_id (id : Z) | res_freed (b : bool).

Definition ig_exec (o : ig_op) (g : JmyIdGenerator) : option (ig_res * JmyIdGenerator) :=
  match o with
  | op_get => '(id, g) ← ig_get g; Some (res_id id, g)
  | op_free_id id => let '(b, g) := ig_free g id in Some (res_freed b, g)
  end.

Fixpoint ig_run (os : list ig_op) (g : JmyIdGenerator) : option (list ig_res * JmyIdGenerator) :=
  match os with
  | [] => Some ([], g)
  | o :: os => '(r, g) ← ig_exec o g; '(rs, g) ← ig_run os g; Some (r :: rs, g)
  end.

Definition is_get (o : ig_op) : bool := match o with op_get => true | _ => false end.
Definition gets (os : list ig_op) : Z := lenZ (filter is_get os).

(** ** What a generator returns *)

(** The id after [c] for a generator with maximum [m] (0: no maximum). *)
Definition next_id (m c : Z) : Z := if m =? 0 then c + 1 else c mod m + 1.

Fixpoint ig_spec (m c : Z) (os : list ig_op) : list ig_res :=
  match os with
  | [] => []
  | op_get :: os => res_id (next_id m c) :: ig_spec m (next_id m c) os
  | op_free_id _ :: os => res_freed false :: ig_spec m c os
  end.

Fixpoint ig_last (m c : Z) (os : list ig_op) : Z :=
  match os with
  | [] => c
  | op_get :: os => ig_last m (next_id m c) os
  | op_free_id _ :: os => ig_last m c os
  end.

Definition issued (rs : list ig_res) : list Z :=
  omap (fun r => match r with res_id i => Some i | _ => None end) rs.

(** The states a generator can be in. *)
Definition ig_at (m c : Z) : JmyIdGenerator := mkIG c 1 m [] ∅.

Lemma ig_get_at m c :
  0 <= m <= INT_MAX -> 0 <= c <= INT_MAX -> (m <> 0 -> c <= m) ->
  ig_get (ig_at m c) =
    if (m =? 0) && (c =? INT_MAX) then None else Some (next_id m c, ig_at m (next_id m c)).
Proof.
  intros Hm Hc Hcm. unfold ig_get, ig_at, next_id, int_incr; cbn [free_list_ max_id_ curr_id_ min_id_ used_set_].
  destruct (Z.eqb_spec m 0) as [->|Hm0]; simpl.
  - zbool. destruct (Z.leb_spec (c + 1) 0); [lia|].
    rewrite decide_False by set_solver. done.
  - rewrite (proj2 (Z.ltb_lt 0 m)) by lia. destruct (Z.leb_spec m c).
    + replace c with m by lia. rewrite Z_mod_same_full. simpl.
      rewrite decide_False by set_solver. done.
    + rewrite (proj2 (Z.ltb_lt c INT_MAX)), Z.mod_small by lia. simpl.
      destruct (Z.leb_spec (c + 1) 0); [lia|]. rewrite decide_False by set_solver. done.
Qed.

Lemma ig_run_at os m c :
  0 <= m <= INT_MAX -> 0 <= c <= INT_MAX -> (m <> 0 -> c <= m) ->
  ig_run os (ig_at m c) =
    if (m =? 0) && (INT_MAX <? c + gets os) then None
    else Some (ig_spec m c os, ig_at m (ig_last m c os)).
Proof.
  intros Hm. revert c. induction os as [|[|id] os IH]; intros c Hc Hcm.
  - change (gets []) with 0. rewrite Z.add_0_r. simpl. destruct (Z.ltb_spec INT_MAX c); [lia|].
    by rewrite andb_false_r.
  - change (gets (op_get :: os)) with (lenZ (op_get :: filter is_get os)).
    replace (lenZ (op_get :: filter is_get os)) with (gets os + 1) by (unfold gets; simpl; lia).
    assert (0 <= gets os) by (unfold gets; lia).
    cbn [ig_run ig_exec]. rewrite ig_get_at by done. simpl.
    unfold next_id. destruct (Z.eqb_spec m 0) as [->|Hm0]; simpl.
    + destruct (Z.eqb_spec c INT_MAX); simpl; [zbool|].
      rewrite IH by (try done; lia). simpl.
      replace (c + 1 + gets os) with (c + (gets os + 1)) by lia.
      destruct (INT_MAX <? c + (gets os + 1)); done.
    + assert (0 <= c mod m < m) by (apply Z.mod_pos_bound; lia).
      rewrite IH by lia. done.
  - change (gets (op_free_id id :: os)) with (gets os).
    cbn [ig_run ig_exec]. unfold ig_free. simpl used_set_.
    rewrite decide_False by set_solver. simpl. rewrite IH by done. simpl.
    by destruct ((m =? 0) && (INT_MAX <? c + gets os)).
Qed.

Lemma issued_above os c : Forall (fun i => c < i) (issued (ig_spec 0 c os)) /\ NoDup (issued (ig_spec 0 c os)).
Proof.
  revert c. induction os as [|[|id] os IH]; intros c; simpl; [by repeat constructor| |apply IH].
  change (next_id 0 c) with (c + 1). destruct (IH (c + 1)) as [H1 H2]. split.
  - constructor; [lia|]. eapply Forall_impl; [exact H1|]. simpl. lia.
  - constructor; [|done]. intros Hin. rewrite Forall_forall in H1. apply H1 in Hin. lia.
Qed.

(** Every sequence of [get] and [free] calls on a new generator.  Without a maximum the
    [k]-th [get] returns [k]: the ids are pairwise distinct, and the calls are defined
    exactly as long as there are at most [INT_MAX] [get]s.  With a maximum [m] the ids run
    through [1..m] and start again.  In both cases every [free] returns false, and an id
    that is handed back changes nothing: [get] never records an id as used. *)
Theorem id_generator_sequence : forall m min os,
  0 <= m <= INT_MAX ->
  ig_run os (JmyIdGenerator_new m min) =
    (if (m =? 0) && (INT_MAX <? gets os) then None
     else Some (ig_spec m 0 os, ig_at m (ig_last m 0 os))) /\
  (m = 0 -> NoDup (issued (ig_spec m 0 os))).
Proof.
  intros m min os Hm. split.
  - replace (JmyIdGenerator_new m min) with (ig_at m 0)
      by (unfold JmyIdGenerator_new; by destruct (min <? MIN_ID)).
    rewrite ig_run_at by (unfold INT_MAX in *; lia). done.
  - intros ->. apply issued_above.
Qed.

Lemma id_generator_sequence_witness :
  0 <= 2 <= INT_MAX /\
  ig_run [op_get; op_free_id 1; op_get; op_get] (JmyIdGenerator_new 2 5)
    = Some ([res_id 1; res_freed false; res_id 2; res_id 1], ig_at 2 1).
Proof.
  split; [split; vm_compute; discriminate|].
  destruct (id_generator_sequence 2 5 [op_get; op_free_id 1; op_get; op_get]
    ltac:(split; vm_compute; discriminate)) as [H _].
  vm_compute in H. exact H.
Defined.
