(* ===== verification/BufferList.v ===== *)
(** * Buffer lists ([JmySessionBufferList] of [jmy_session_buffer.h], [jmy_session_buffer.cpp])

    A list of owned packets with optional limits.  The send side reads it as a byte
    stream; the receive side fills it with whole packets and stores the packet type
    in the write offset.  Each [buffer] owns the memory it allocates, so its block is
    a value here.  The abstract counterpart is a queue of non-empty packets. *)
From S2P Require Import Prelude Datatype.
From Stdlib Require Import ZArith Lia.
From stdpp Require Import base option list.
Local Open Scope Z_scope.

(** ** JmySessionBufferList::buffer *)

Record buffer : Type := mkBuffer {
  data_ : option (list Z);
  len_ : Z;
  roffset_ : Z;
  woffset_ : Z;
}.

Definition buffer_new : buffer := mkBuffer None 0 0 0.

(** [init(data, len)]; [data] is the memory at the pointer, [None] for null. *)
Definition buffer_init_data (b : buffer) (data : option (list Z)) (len : Z) : option (bool * buffer) :=
  match data with
  | None => Some (false, b)
  | Some data =>
    if len =? 0 then Some (false, b) else
    d ← mem_read data 0 len;
    Some (true, mkBuffer (Some d) len 0 len)
  end.

(** [init(len)]; [garbage] is the content of the new block. *)
Definition buffer_init_len (b : buffer) (garbage : list Z) (len : Z) : bool * buffer :=
  if len =? 0 then (false, b) else (true, mkBuffer (Some garbage) len 0 0).

Definition buffer_write (b : buffer) (data : option (list Z)) (len : Z) : option (bool * buffer) :=
  match data with
  | None => Some (false, b)
  | Some data =>
    if len =? 0 then Some (false, b) else
    let left := len_ b - woffset_ b in
    if left <? len then Some (false, b) else
    d ← mem_read data 0 len;
    bl ← data_ b;
    bl ← mem_write bl (woffset_ b) d;
    Some (true, mkBuffer (Some bl) (len_ b) (roffset_ b) (u16 (woffset_ b + len)))
  end.

(** The memory at [data_+roffset_]. *)
Definition buffer_read_buff (b : buffer) : option (list Z) :=
  bl ← data_ b; Some (drop (Z.to_nat (roffset_ b)) bl).

Definition buffer_read_len (b : buffer) : Z :=
  if woffset_ b <? roffset_ b then 0 else u16 (woffset_ b - roffset_ b).

Definition buffer_read (b : buffer) (len : Z) : bool * buffer :=
  if woffset_ b - roffset_ b <? len then (false, b)
  else (true, mkBuffer (data_ b) (len_ b) (u16 (roffset_ b + len)) (woffset_ b)).

Definition buffer_is_read_out (b : buffer) : bool := negb (roffset_ b <? woffset_ b).

Definition buffer_destroy (b : buffer) : buffer := mkBuffer None 0 0 0.

(** ** JmySessionBufferList *)

Record JmySessionBufferList : Type := mkBL {
  using_list_ : list buffer;
  max_bytes_ : Z;
  curr_used_bytes_ : Z;
  max_count_ : Z;
  curr_count_ : Z;
}.

Definition JmySessionBufferList_new : JmySessionBufferList := mkBL [] 0 0 0 0.

Definition bl_init (l : JmySessionBufferList) (max_bytes max_count : Z) : bool * JmySessionBufferList :=
  (true, mkBL (using_list_ l) max_bytes (curr_used_bytes_ l) max_count (curr_count_ l)).

Definition bl_clear (l : JmySessionBufferList) : JmySessionBufferList :=
  mkBL [] (max_bytes_ l) 0 (max_count_ l) 0.

(** The two guards at the head of both [writeData]s. *)
Definition bl_count_full (l : JmySessionBufferList) : bool :=
  (0 <? max_count_ l) && (max_count_ l <? u32 (curr_count_ l + 1)).
Definition bl_bytes_full (l : JmySessionBufferList) (len : Z) : bool :=
  (0 <? max_bytes_ l) && (max_bytes_ l <? u32 (curr_used_bytes_ l + len)).

(** [using_list_.push_back(std::move(b))] and the two counters. *)
Definition bl_push (l : JmySessionBufferList) (b : buffer) (len : Z) : JmySessionBufferList :=
  mkBL (using_list_ l ++ [b]) (max_bytes_ l)
    (if 0 <? max_bytes_ l then u32 (curr_used_bytes_ l + len) else curr_used_bytes_ l)
    (max_count_ l)
    (if 0 <? max_count_ l then u32 (curr_count_ l + 1) else curr_count_ l).

(** [writeData(const char*, unsigned short)] *)
Definition bl_writeData (l : JmySessionBufferList) (data : option (list Z)) (len : Z)
  : option (bool * JmySessionBufferList) :=
  if bl_count_full l then Some (false, l) else
  if bl_bytes_full l len then Some (false, l) else
  '(r, b) ← buffer_init_data buffer_new data len;
  Some (if (r : bool) then (true, bl_push l b len) else (false, l)).

Definition datas_total (datas : list JmyData) : Z := foldl (fun t d => u32 (t + jd_len d)) 0 datas.

(** The loop over [datas]: stops at the first piece that cannot be written.  A length
    is an [unsigned int] passed as [unsigned short]. *)
Fixpoint buffer_write_all (b : buffer) (datas : list JmyData) : option (bool * buffer) :=
  match datas with
  | [] => Some (true, b)
  | d :: datas =>
    '(r, b) ← buffer_write b (Some (jd_data d)) (u16 (jd_len d));
    if (r : bool) then buffer_write_all b datas else Some (false, b)
  end.

(** [writeData(JmyData*, int)]; [garbage n] is the content of a new block of [n] bytes. *)
Definition bl_writeDatas (garbage : Z -> list Z) (l : JmySessionBufferList)
  (datas : option (list JmyData)) : option (bool * JmySessionBufferList) :=
  match datas with
  | None | Some [] => Some (false, l)
  | Some datas =>
    if bl_count_full l then Some (false, l) else
    let total_len := datas_total datas in
    if bl_bytes_full l total_len then Some (false, l) else
    let '(r, b) := buffer_init_len buffer_new (garbage (u16 total_len)) (u16 total_len) in
    if negb r then Some (false, l) else
    '(r, b) ← buffer_write_all b datas;
    Some (if (r : bool) then (true, bl_push l b total_len) else (false, l))
  end.

(** [writeData(unsigned short param, const char*, unsigned short)]: a received packet;
    [param], the packet type, is stored in [woffset_]. *)
Definition bl_writeParam (l : JmySessionBufferList) (param : Z) (data : option (list Z)) (len : Z)
  : option (bool * JmySessionBufferList) :=
  '(r, b) ← buffer_init_data buffer_new data len;
  Some (if (r : bool) then
          (true, mkBL (using_list_ l ++ [mkBuffer (data_ b) (len_ b) (roffset_ b) param])
                   (max_bytes_ l) (curr_used_bytes_ l) (max_count_ l) (curr_count_ l))
        else (false, l)).

Definition bl_getReadBuff (l : JmySessionBufferList) : option (list Z) :=
  match using_list_ l with [] => None | b :: _ => buffer_read_buff b end.

Definition bl_getReadLen (l : JmySessionBufferList) : Z :=
  match using_list_ l with [] => 0 | b :: _ => buffer_read_len b end.

Definition bl_set_list (l : JmySessionBufferList) (bs : list buffer) : JmySessionBufferList :=
  mkBL bs (max_bytes_ l) (curr_used_bytes_ l) (max_count_ l) (curr_count_ l).

(** [readLen(unsigned int)] returns [int]; [b.read] takes an [unsigned short]. *)
Definition bl_readLen (l : JmySessionBufferList) (len : Z) : Z * JmySessionBufferList :=
  match using_list_ l with
  | [] => (0, l)
  | b :: bs =>
    let '(r, b) := buffer_read b (u16 len) in
    if negb r then (0, l) else
    if buffer_is_read_out b then (s32 len, bl_set_list l bs)
    else (s32 len, bl_set_list l (b :: bs))
  end.

Definition bl_getUsingSize (l : JmySessionBufferList) : Z := lenZ (using_list_ l).
Definition bl_getUsedBytes (l : JmySessionBufferList) : Z := curr_used_bytes_ l.

(** ** The abstract packet queue *)

(** [pq_used] and [pq_count] are the bytes and packets accepted since the last clear:
    reading packets does not give the room back. *)
Record pqueue : Type := mkPQ {
  pq_packets : list (list Z);
  pq_max_bytes : Z;
  pq_used : Z;
  pq_max_count : Z;
  pq_count : Z;
}.

Definition pq_accepts (q : pqueue) (n : Z) : bool :=
  ((pq_max_count q =? 0) || (pq_count q <? pq_max_count q)) &&
  ((pq_max_bytes q =? 0) || (pq_used q + n <=? pq_max_bytes q)).

Definition pq_push (q : pqueue) (p : list Z) : pqueue :=
  mkPQ (pq_packets q ++ [p]) (pq_max_bytes q) (pq_used q + lenZ p) (pq_max_count q) (pq_count q + 1).

Inductive bl_op : Type :=
| bl_op_write (d : list Z)
| bl_op_writes (ds : list (list Z))
| bl_op_read (n : Z)
| bl_op_clear.

Definition nonempty (d : list Z) : bool := match d with [] => false | _ => true end.

Definition pq_exec (o : bl_op) (q : pqueue) : Z * pqueue :=
  match o with
  | bl_op_write d => if pq_accepts q (lenZ d) && nonempty d then (1, pq_push q d) else (0, q)
  | bl_op_writes ds =>
    if pq_accepts q (lenZ (concat ds)) && nonempty (concat ds) && (lenZ (concat ds) <? 2 ^ 16)
       && forallb nonempty ds
    then (1, pq_push q (concat ds)) else (0, q)
  | bl_op_read n =>
    match pq_packets q with
    | [] => (0, q)
    | p :: ps =>
      if lenZ p <? n then (0, q) else
      (n, mkPQ (if n =? lenZ p then ps else drop (Z.to_nat n) p :: ps)
            (pq_max_bytes q) (pq_used q) (pq_max_count q) (pq_count q))
    end
  | bl_op_clear => (0, mkPQ [] (pq_max_bytes q) 0 (pq_max_count q) 0)
  end.

Definition bl_exec (garbage : Z -> list Z) (o : bl_op) (l : JmySessionBufferList)
  : option (Z * JmySessionBufferList) :=
  match o with
  | bl_op_write d => '(r, l) ← bl_writeData l (Some d) (lenZ d); Some (Z.b2z r, l)
  | bl_op_writes ds =>
    '(r, l) ← bl_writeDatas garbage l (Some ((fun d => mkJmyData d (lenZ d)) <$> ds)); Some (Z.b2z r, l)
  | bl_op_read n => Some (bl_readLen l n)
  | bl_op_clear => Some (0, bl_clear l)
  end.

(** Lengths fit the parameter types; limits leave room for the sums. *)
Definition bl_op_ok (o : bl_op) : Prop :=
  match o with
  | bl_op_write d => is_u16 (lenZ d)
  | bl_op_writes ds => Forall (fun d => is_u16 (lenZ d)) ds /\ lenZ (concat ds) < 2 ^ 31
  | bl_op_read n => is_u16 n
  | bl_op_clear => True
  end.

Fixpoint bl_run (garbage : Z -> list Z) (os : list bl_op) (l : JmySessionBufferList)
  : option (list Z * JmySessionBufferList) :=
  match os with
  | [] => Some ([], l)
  | o :: os => '(r, l) ← bl_exec garbage o l; '(rs, l) ← bl_run garbage os l; Some (r :: rs, l)
  end.

Fixpoint pq_run (os : list bl_op) (q : pqueue) : list Z * pqueue :=
  match os with
  | [] => ([], q)
  | o :: os => let '(r, q) := pq_exec o q in let '(rs, q) := pq_run os q in (r :: rs, q)
  end.

(** ** The refinement relation *)

Definition buffer_holds (b : buffer) (p : list Z) : Prop :=
  exists pre, data_ b = Some (pre ++ p) /\ roffset_ b = lenZ pre /\ woffset_ b = lenZ (pre ++ p) /\
    len_ b = lenZ (pre ++ p) /\ lenZ (pre ++ p) < 2 ^ 16 /\ nonempty p = true.

Record bl_refines (l : JmySessionBufferList) (q : pqueue) : Prop := mkBlRefines {
  blr_packets : Forall2 buffer_holds (using_list_ l) (pq_packets q);
  blr_max_bytes : max_bytes_ l = pq_max_bytes q /\ 0 <= max_bytes_ l < 2 ^ 31;
  blr_max_count : max_count_ l = pq_max_count q /\ 0 <= max_count_ l < 2 ^ 31;
  blr_used : 0 < max_bytes_ l -> curr_used_bytes_ l = pq_used q /\ 0 <= pq_used q <= max_bytes_ l;
  blr_count : 0 < max_count_ l -> curr_count_ l = pq_count q /\ 0 <= pq_count q <= max_count_ l;
}.

Lemma nonempty_len d : nonempty d = (0 <? lenZ d).
Proof. by destruct d. Qed.

Lemma bl_guards l q n :
  bl_refines l q -> 0 <= n < 2 ^ 31 ->
  pq_accepts q n = negb (bl_count_full l) && negb (bl_bytes_full l n).
Proof.
  intros [_ [Eb Hb] [Ec Hc] Hu Hn] H. unfold pq_accepts, bl_count_full, bl_bytes_full.
  rewrite <-Eb, <-Ec. f_equal.
  - destruct (Z.eqb_spec (max_count_ l) 0) as [->|]; [done|]. rewrite (proj2 (Z.ltb_lt 0 _)) by lia.
    simpl. destruct Hn as [-> ?]; [lia|]. rewrite u32_id by (unfold is_u32; lia). zbool.
  - destruct (Z.eqb_spec (max_bytes_ l) 0) as [->|]; [done|]. rewrite (proj2 (Z.ltb_lt 0 _)) by lia.
    simpl. destruct Hu as [-> ?]; [lia|]. rewrite u32_id by (unfold is_u32; lia). zbool.
Qed.

Lemma bl_push_refines l q b p :
  bl_refines l q -> 0 <= lenZ p < 2 ^ 31 -> pq_accepts q (lenZ p) = true ->
  buffer_holds b p -> bl_refines (bl_push l b (lenZ p)) (pq_push q p).
Proof.
  intros [Hp [Eb Hb] [Ec Hc] Hu Hn] Hl Ha Hh. unfold pq_accepts in Ha.
  apply andb_true_iff in Ha as [Ha1 Ha2]. rewrite <-Eb in Ha2. rewrite <-Ec in Ha1.
  constructor; simpl; [|done..| |].
  - apply Forall2_app; [done|]. by constructor.
  - intros H0. rewrite (proj2 (Z.ltb_lt 0 _)) by done. destruct (Hu H0) as [-> ?].
    rewrite u32_id by (unfold is_u32; lia).
    rewrite (proj2 (Z.eqb_neq _ 0)) in Ha2 by lia. simpl in Ha2. lia.
  - intros H0. rewrite (proj2 (Z.ltb_lt 0 _)) by done. destruct (Hn H0) as [-> ?].
    rewrite u32_id by (unfold is_u32; lia).
    rewrite (proj2 (Z.eqb_neq _ 0)) in Ha1 by lia. simpl in Ha1. lia.
Qed.

Lemma buffer_init_data_whole d :
  is_u16 (lenZ d) ->
  buffer_init_data buffer_new (Some d) (lenZ d) =
    Some (if nonempty d then (true, mkBuffer (Some d) (lenZ d) 0 (lenZ d)) else (false, buffer_new)).
Proof.
  intros. unfold buffer_init_data. destruct d as [|x d]; [done|].
  rewrite (proj2 (Z.eqb_neq _ 0)) by (simpl; lia). by rewrite mem_read_all.
Qed.

Lemma buffer_holds_whole d :
  lenZ d < 2 ^ 16 -> nonempty d = true -> buffer_holds (mkBuffer (Some d) (lenZ d) 0 (lenZ d)) d.
Proof. intros. by exists []. Qed.

Lemma datas_total_whole ds :
  lenZ (concat ds) < 2 ^ 32 -> datas_total ((fun d => mkJmyData d (lenZ d)) <$> ds) = lenZ (concat ds).
Proof.
  unfold datas_total. intros H.
  enough (forall t, 0 <= t -> t + lenZ (concat ds) < 2 ^ 32 ->
    foldl (fun t d => u32 (t + jd_len d)) t ((fun d => mkJmyData d (lenZ d)) <$> ds) = t + lenZ (concat ds)) as Hg
    by (rewrite Hg; lia).
  clear H. induction ds as [|d ds IH]; intros t Ht Hl; simpl in *; [lia|].
  rewrite length_app in *. rewrite u32_id by (unfold is_u32; lia). rewrite IH; lia.
Qed.

(** The loop of [writeData(JmyData*, int)] from a buffer that holds [acc] of [n] bytes. *)
Lemma buffer_write_all_whole ds acc g n :
  Forall (fun d => is_u16 (lenZ d)) ds -> n < 2 ^ 16 -> lenZ (acc ++ g) = n ->
  exists b',
    buffer_write_all (mkBuffer (Some (acc ++ g)) n 0 (lenZ acc)) ((fun d => mkJmyData d (lenZ d)) <$> ds)
    = Some (forallb nonempty ds && (lenZ acc + lenZ (concat ds) <=? n), b') /\
    (lenZ acc + lenZ (concat ds) = n -> forallb nonempty ds = true ->
     b' = mkBuffer (Some (acc ++ concat ds)) n 0 n).
Proof.
  intros Hds Hn. revert acc g. induction Hds as [|d ds Hd Hds IH]; intros acc g Hg; csimpl.
  - rewrite Z.add_0_r. rewrite length_app in Hg. eexists. split; [f_equal; f_equal; symmetry; apply Z.leb_le; lia|].
    intros Ha _. assert (g = []) as -> by (destruct g; [done|simpl in *; lia]). by rewrite Ha.
  - rewrite u16_id by done. unfold buffer_write. cbn [len_ woffset_ data_ roffset_].
    destruct d as [|x d]; [by eexists|].
    rewrite (proj2 (Z.eqb_neq _ 0)) by (simpl; lia). cbn [nonempty forallb andb].
    rewrite length_app in Hg. remember (x :: d) as y eqn:Hy.
    rewrite length_app, Nat2Z.inj_add. destruct (Z.ltb_spec (n - lenZ acc) (lenZ y)).
    + eexists. split; [|lia]. cbv beta iota zeta delta [mbind option_bind].
      do 2 f_equal. symmetry. apply andb_false_intro2. apply Z.leb_gt. lia.
    + rewrite mem_read_all. destruct (split_at g (lenZ y)) as (g1 & g2 & -> & Hg1 & Hg2); [lia|].
      cbv beta iota zeta delta [mbind option_bind].
      rewrite (mem_write_mid acc g1 g2 y) by lia. rewrite length_app in Hg.
      rewrite u16_id by (unfold is_u16; lia).
      destruct (IH (acc ++ y) g2) as (b' & E & Hb'); [rewrite ?length_app; lia|].
      exists b'. rewrite <-app_assoc, length_app, Nat2Z.inj_add in E.
      rewrite (app_assoc acc y (concat ds)), Z.add_assoc. split; [exact E|].
      intros H1 H2. apply Hb'; [rewrite length_app; lia|done].
Qed.

Lemma bl_write_refines l q d :
  bl_refines l q -> is_u16 (lenZ d) ->
  exists l', bl_exec (fun _ => []) (bl_op_write d) l = Some (fst (pq_exec (bl_op_write d) q), l') /\
    bl_refines l' (snd (pq_exec (bl_op_write d) q)).
Proof.
  intros Hq [Hd Hd']. simpl. unfold bl_writeData.
  pose proof (bl_guards l q (lenZ d) Hq ltac:(lia)) as Hg.
  destruct (bl_count_full l); simpl in Hg; [rewrite Hg; by exists l|].
  destruct (bl_bytes_full l (lenZ d)); simpl in Hg; [rewrite Hg; by exists l|].
  rewrite Hg, buffer_init_data_whole by done. simpl.
  destruct (nonempty d) eqn:Hne; simpl; [|by exists l].
  eexists. split; [done|]. apply bl_push_refines; [done|lia|done|]. by apply buffer_holds_whole.
Qed.

Lemma bl_writes_refines garbage l q ds :
  (forall n, 0 <= n -> lenZ (garbage n) = n) ->
  bl_refines l q -> bl_op_ok (bl_op_writes ds) ->
  exists l', bl_exec garbage (bl_op_writes ds) l = Some (fst (pq_exec (bl_op_writes ds) q), l') /\
    bl_refines l' (snd (pq_exec (bl_op_writes ds) q)).
Proof.
  intros Hgb Hq [Hds Hlen]. unfold bl_exec, pq_exec, bl_writeDatas.
  destruct ds as [|d0 ds0]; [rewrite andb_false_r; by exists l|].
  cbn [fmap list_fmap]. cbn [forallb concat].
  remember (d0 :: ds0) as ds eqn:Eds.
  change (mkJmyData d0 (lenZ d0) :: ((fun d => mkJmyData d (lenZ d)) <$> ds0))
    with ((fun d => mkJmyData d (lenZ d)) <$> d0 :: ds0). rewrite <-Eds.
  change (d0 ++ concat ds0) with (concat (d0 :: ds0)).
  change (nonempty d0 && forallb nonempty ds0) with (forallb nonempty (d0 :: ds0)). rewrite <-Eds.
  rewrite datas_total_whole by lia.
  pose proof (bl_guards l q (lenZ (concat ds)) Hq ltac:(lia)) as Hg.
  destruct (bl_count_full l); simpl in Hg; [rewrite Hg; by exists l|].
  destruct (bl_bytes_full l _); simpl in Hg; [rewrite Hg; by exists l|]. rewrite Hg.
  unfold buffer_init_len. set (n := u16 (lenZ (concat ds))).
  assert (Hn : 0 <= n < 2 ^ 16 /\ n <= lenZ (concat ds) /\ (lenZ (concat ds) < 2 ^ 16 -> n = lenZ (concat ds))).
  { unfold n, u16. pose proof (Z.mod_pos_bound (lenZ (concat ds)) (2 ^ 16)).
    pose proof (Z.mod_le (lenZ (concat ds)) (2 ^ 16)). split; [lia|]. split; [lia|].
    intros. apply Z.mod_small. lia. }
  clearbody n. destruct Hn as (Hn1 & Hn2 & Hn3). rewrite (nonempty_len (concat ds)).
  destruct (Z.eqb_spec n 0) as [Hn0|Hn0]; csimpl.
  - assert ((0 <? lenZ (concat ds)) && (lenZ (concat ds) <? 2 ^ 16) = false) as ->
      by (destruct (Z.ltb_spec (lenZ (concat ds)) (2 ^ 16)); [|apply andb_false_r];
          apply andb_false_intro1, Z.ltb_ge; lia).
    by exists l.
  - rewrite (proj2 (Z.ltb_lt 0 _)) by lia. csimpl.
    destruct (buffer_write_all_whole ds [] (garbage n) n Hds) as (b' & E & Hb');
      [lia|apply Hgb; lia|].
    cbn [app length] in E, Hb'. change (Z.of_nat 0) with 0 in *. rewrite Z.add_0_l in E, Hb'. rewrite E.
    cbv beta iota zeta delta [mbind option_bind].
    replace (lenZ (concat ds) <=? n) with (lenZ (concat ds) <? 2 ^ 16)
      by (destruct (Z.ltb_spec (lenZ (concat ds)) (2 ^ 16)), (Z.leb_spec (lenZ (concat ds)) n);
          try reflexivity; lia).
    rewrite andb_comm. destruct (Z.ltb_spec (lenZ (concat ds)) (2 ^ 16)); [|by exists l].
    destruct (forallb nonempty ds) eqn:Hne; [|by exists l]. simpl.
    eexists. split; [done|]. rewrite Hb' by (rewrite ?Hn3; done).
    apply bl_push_refines; [done|lia|done|]. rewrite Hn3 by done.
    apply buffer_holds_whole; [done|]. rewrite nonempty_len. apply Z.ltb_lt. lia.
Qed.

Lemma bl_set_list_refines l q bs ps :
  bl_refines l q -> Forall2 buffer_holds bs ps ->
  bl_refines (bl_set_list l bs) (mkPQ ps (pq_max_bytes q) (pq_used q) (pq_max_count q) (pq_count q)).
Proof. intros [] Hf. by constructor. Qed.

Lemma bl_read_refines l q n :
  bl_refines l q -> is_u16 n ->
  fst (bl_readLen l n) = fst (pq_exec (bl_op_read n) q) /\
  bl_refines (snd (bl_readLen l n)) (snd (pq_exec (bl_op_read n) q)).
Proof.
  intros Hq [Hn Hn']. simpl. unfold bl_readLen. pose proof (blr_packets _ _ Hq) as Hp.
  destruct Hp as [|b p bs ps Hb Hp]; [done|].
  destruct Hb as (pre & Hd & Hr & Hw & Hl & H16 & Hne). rewrite u16_id by done.
  rewrite nonempty_len in Hne. apply Z.ltb_lt in Hne.
  unfold buffer_read. rewrite Hw, Hr, length_app, Nat2Z.inj_add in *.
  replace (lenZ pre + lenZ p - lenZ pre) with (lenZ p) by lia.
  destruct (Z.ltb_spec (lenZ p) n); [done|]. simpl.
  unfold buffer_is_read_out. simpl. rewrite u16_id by (unfold is_u16; lia).
  rewrite s32_id by (unfold is_s32; lia).
  destruct (Z.eqb_spec n (lenZ p)) as [->|].
  - destruct (Z.ltb_spec (lenZ pre + lenZ p) (lenZ pre + lenZ p)); [lia|]. simpl.
    split; [done|]. by apply bl_set_list_refines.
  - destruct (Z.ltb_spec (lenZ pre + n) (lenZ pre + lenZ p)); [|lia]. simpl. split; [done|].
    apply bl_set_list_refines; [done|]. constructor; [|done].
    destruct (split_at p n) as (p1 & p2 & -> & Hp1 & Hp2); [lia|].
    rewrite length_app in *. rewrite drop_app_length' by lia.
    exists (pre ++ p1). simpl. rewrite <-app_assoc, !length_app, nonempty_len.
    split; [done|]. repeat split; try lia; apply Z.ltb_lt; lia.
Qed.

Lemma bl_exec_refines garbage o l q :
  (forall n, 0 <= n -> lenZ (garbage n) = n) -> bl_refines l q -> bl_op_ok o ->
  exists l', bl_exec garbage o l = Some (fst (pq_exec o q), l') /\ bl_refines l' (snd (pq_exec o q)).
Proof.
  intros Hg Hq Ho. destruct o as [d|ds|n|].
  - by apply bl_write_refines.
  - by apply bl_writes_refines.
  - destruct (bl_read_refines l q n Hq Ho) as [Hf Hr]. eexists. split; [|exact Hr].
    cbn [bl_exec]. rewrite <-Hf. by destruct (bl_readLen l n).
  - eexists. split; [done|]. destruct Hq as [_ ? ? _ _]. constructor; simpl; try done; lia.
Qed.

(** What the socket layer sees: the length and the bytes of the first packet. *)
Lemma bl_front_refines l q :
  bl_refines l q ->
  match pq_packets q with
  | [] => bl_getReadLen l = 0 /\ bl_getReadBuff l = None
  | p :: _ => bl_getReadLen l = lenZ p /\ bl_getReadBuff l = Some p
  end.
Proof.
  intros Hq. unfold bl_getReadLen, bl_getReadBuff.
  destruct (blr_packets _ _ Hq) as [|b p bs ps (pre & Hd & Hr & Hw & Hl & H16 & Hne) _]; [done|].
  unfold buffer_read_len, buffer_read_buff. rewrite Hd, Hr, Hw, length_app, Nat2Z.inj_add in *.
  destruct (Z.ltb_spec (lenZ pre + lenZ p) (lenZ pre)); [lia|]. split.
  - rewrite u16_id; [lia|]. unfold is_u16. lia.
  - simpl. by rewrite drop_app_length' by lia.
Qed.

(** C11.  A buffer list implements a queue of packets.  From a list that holds the queue,
    every sequence of writes (of one or several pieces), partial reads and clears is
    memory safe and returns what the queue returns; at the end the list holds the queue, and the
    first packet is what [getReadBuff] and [getReadLen] give the socket.  A write is
    accepted as one whole packet or changes nothing: a null or empty piece and a packet of
    [2^16] bytes or more are refused.  The limits count everything written since the
    last clear: reading never makes room again. *)
Theorem buffer_list_refines_queue : forall (garbage : Z -> list Z) os l q,
  (forall n, 0 <= n -> lenZ (garbage n) = n) -> bl_refines l q -> Forall bl_op_ok os ->
  exists l', bl_run garbage os l = Some (fst (pq_run os q), l') /\
    let q' := snd (pq_run os q) in
    bl_refines l' q' /\
    match pq_packets q' with
    | [] => bl_getReadLen l' = 0 /\ bl_getReadBuff l' = None
    | p :: _ => bl_getReadLen l' = lenZ p /\ bl_getReadBuff l' = Some p
    end.
Proof.
  intros garbage os. induction os as [|o os IH]; intros l q Hg Hq Hok.
  - exists l. split; [done|]. split; [done|]. by apply bl_front_refines.
  - apply Forall_cons_1 in Hok as [Ho Hos].
    destruct (bl_exec_refines garbage o l q Hg Hq Ho) as (l1 & E1 & Hq1).
    destruct (IH l1 _ Hg Hq1 Hos) as (l2 & E2 & Hq2). exists l2.
    cbn [bl_run pq_run]. rewrite E1. destruct (pq_exec o q) as [r q1]. cbn [fst snd] in *.
    cbv beta iota zeta delta [mbind option_bind]. rewrite E2.
    by destruct (pq_run os q1) as [rs q2].
Qed.

Lemma bl_new_refines max_bytes max_count :
  0 <= max_bytes < 2 ^ 31 -> 0 <= max_count < 2 ^ 31 ->
  bl_refines (snd (bl_init JmySessionBufferList_new max_bytes max_count)) (mkPQ [] max_bytes 0 max_count 0).
Proof. intros. constructor; simpl; try done; lia. Qed.

(** The second packet is refused although the first has been read. *)
Lemma buffer_list_refines_queue_witness :
  let garbage n := repeat 0 (Z.to_nat n) in
  let l := snd (bl_init JmySessionBufferList_new 0 1) in
  let q := mkPQ [] 0 0 1 0 in
  let os := [bl_op_writes [[1; 2]; [3]]; bl_op_read 2; bl_op_read 1; bl_op_write [4]] in
  ((forall n, 0 <= n -> lenZ (garbage n) = n) /\ bl_refines l q /\ Forall bl_op_ok os) /\
  exists l', bl_run garbage os l = Some ([1; 2; 1; 0], l') /\ bl_getReadLen l' = 0.
Proof.
  cbv zeta.
  assert (Hg : forall n, 0 <= n -> lenZ (repeat 0 (Z.to_nat n)) = n)
    by (intros; rewrite repeat_length; lia).
  assert (Hq : bl_refines (snd (bl_init JmySessionBufferList_new 0 1)) (mkPQ [] 0 0 1 0))
    by (apply bl_new_refines; lia).
  assert (Hos : Forall bl_op_ok [bl_op_writes [[1; 2]; [3]]; bl_op_read 2; bl_op_read 1; bl_op_write [4]]).
  { repeat constructor; vm_compute; discriminate. }
  split; [split; [exact Hg|split; [exact Hq|exact Hos]]|].
  destruct (buffer_list_refines_queue _ _ _ _ Hg Hq Hos) as (l' & E & _ & H & _).
  exists l'. split; [exact E|exact H].
Defined.
