(* ===== verification/DoubleBuffer.v ===== *)
(** * Double session buffers ([JmyDoubleSessionBuffer] of [jmy_session_buffer.h],
    [jmy_session_buffer.cpp])

    A normal and a large session buffer whose blocks come from a shared
    [JmySessionBufferPool].  The heap and the pool are threaded through the operations.
    A failed [assert] is [None], like undefined behaviour. *)
From S2P Require Import Prelude Datatype SessionBuffer BufferPool.
From Stdlib Require Import ZArith Lia.
From stdpp Require Import base option list gmap.
Local Open Scope Z_scope.

Record JmyDoubleSessionBuffer : Type := mkDB {
  use_large_ : bool;
  db_buff_ : JmySessionBuffer;
  large_buff_ : JmySessionBuffer;
  buff_pool_ : bool;   (** the shared pool pointer is set *)
}.

Definition JmyDoubleSessionBuffer_new : JmyDoubleSessionBuffer :=
  mkDB false JmySessionBuffer_new JmySessionBuffer_new false.

(** ** Initialisation *)

Definition db_init_size (h : heap) (b : JmyDoubleSessionBuffer) (size : Z) (garbage : list Z)
  (type : SessionBufferType) : option (bool * heap * JmyDoubleSessionBuffer) :=
  ub_unless (0 <? size);;
  let '(r, h, s) := sb_init_size h (db_buff_ b) size garbage type in
  Some (r, h, mkDB (use_large_ b) s (large_buff_ b) (buff_pool_ b)).

Definition db_init_pool (h : heap) (P : JmySessionBufferPool) (b : JmyDoubleSessionBuffer)
  (type : SessionBufferType) : option (bool * heap * JmySessionBufferPool * JmyDoubleSessionBuffer) :=
  let '(p, s, P) := if decide (type = SESSION_BUFFER_TYPE_RECV) then mallocRecvBuffer P 0
                    else mallocSendBuffer P 0 in
  ub_unless (negb (p =? NULL));;
  ub_unless (0 <? s);;
  let '(r, h, sb) := sb_init_buff h (db_buff_ b) p s type in
  Some (r, h, P, mkDB (use_large_ b) sb (large_buff_ b) true).

Definition db_destroy (h : heap) (b : JmyDoubleSessionBuffer) : heap * JmyDoubleSessionBuffer :=
  let '(h, s) := sb_destroy h (db_buff_ b) in
  let '(h, l) := sb_destroy h (large_buff_ b) in
  (h, mkDB (use_large_ b) s l (buff_pool_ b)).

(** With a pool, the blocks are given back but the buffers keep their pointers and
    offsets; without one, the offsets are reset. *)
Definition db_clear (P : JmySessionBufferPool) (b : JmyDoubleSessionBuffer)
  : JmySessionBufferPool * JmyDoubleSessionBuffer :=
  if buff_pool_ b then
    let P :=
      if buff_ (db_buff_ b) =? NULL then P else
      snd (if decide (sb_getType (db_buff_ b) = SESSION_BUFFER_TYPE_RECV)
           then freeRecvBuffer P (buff_ (db_buff_ b)) else freeSendBuffer P (buff_ (db_buff_ b))) in
    let P :=
      if buff_ (large_buff_ b) =? NULL then P else
      snd (if decide (sb_getType (large_buff_ b) = SESSION_BUFFER_TYPE_RECV)
           then freeLargeRecvBuffer P (buff_ (large_buff_ b))
           else freeLargeSendBuffer P (buff_ (large_buff_ b))) in
    (P, b)
  else (P, mkDB (use_large_ b) (sb_clear (db_buff_ b)) (sb_clear (large_buff_ b)) (buff_pool_ b)).

(** ** The operations on the current buffer *)

(** [use_large_ ? large_buff_ : buff_], and replacing it. *)
Definition db_getSessionBuffer (b : JmyDoubleSessionBuffer) : JmySessionBuffer :=
  if use_large_ b then large_buff_ b else db_buff_ b.
Definition db_set_current (s : JmySessionBuffer) (b : JmyDoubleSessionBuffer) : JmyDoubleSessionBuffer :=
  if use_large_ b then mkDB true (db_buff_ b) s (buff_pool_ b) else mkDB false s (large_buff_ b) (buff_pool_ b).

Definition db_getNormalLen (b : JmyDoubleSessionBuffer) : Z := sb_getTotalLen (db_buff_ b).
Definition db_getLargeLen (b : JmyDoubleSessionBuffer) : Z := sb_getTotalLen (large_buff_ b).
Definition db_getTotalLen (b : JmyDoubleSessionBuffer) : Z := sb_getTotalLen (db_getSessionBuffer b).
Definition db_isLarge (b : JmyDoubleSessionBuffer) : bool := use_large_ b.
Definition db_isEmpty (b : JmyDoubleSessionBuffer) : bool := sb_isEmpty (db_getSessionBuffer b).
Definition db_getWriteLen (b : JmyDoubleSessionBuffer) : Z := sb_getWriteLen (db_getSessionBuffer b).
Definition db_getReadLen (b : JmyDoubleSessionBuffer) : Z := sb_getReadLen (db_getSessionBuffer b).

Definition db_checkWriteLen (h : heap) (b : JmyDoubleSessionBuffer) (len : Z)
  : option (bool * heap * JmyDoubleSessionBuffer) :=
  '(r, h, s) ← sb_checkWriteLen h (db_getSessionBuffer b) len; Some (r, h, db_set_current s b).

Definition db_writeLen (b : JmyDoubleSessionBuffer) (len : Z) : bool * JmyDoubleSessionBuffer :=
  let '(r, s) := sb_writeLen (db_getSessionBuffer b) len in (r, db_set_current s b).

Definition db_readLen (b : JmyDoubleSessionBuffer) (len : Z) : bool * JmyDoubleSessionBuffer :=
  let '(r, s) := sb_readLen (db_getSessionBuffer b) len in (r, db_set_current s b).

(** The large buffer is compacted in both cases. *)
Definition db_moveDataToFront (h : heap) (b : JmyDoubleSessionBuffer)
  : option (heap * JmyDoubleSessionBuffer) :=
  '(h, s) ← (if use_large_ b then Some (h, db_buff_ b) else sb_moveDataToFront h (db_buff_ b));
  '(h, l) ← sb_moveDataToFront h (large_buff_ b);
  Some (h, mkDB (use_large_ b) s l (buff_pool_ b)).

Definition db_writeData (h : heap) (b : JmyDoubleSessionBuffer) (data : list Z) (len : Z)
  : option (bool * heap * JmyDoubleSessionBuffer) :=
  '(r, h, s) ← sb_writeData h (db_getSessionBuffer b) data len; Some (r, h, db_set_current s b).

Definition db_writeDatas (h : heap) (b : JmyDoubleSessionBuffer) (datas : option (list JmyData))
  : option (bool * heap * JmyDoubleSessionBuffer) :=
  '(r, h, s) ← sb_writeDatas h (db_getSessionBuffer b) datas; Some (r, h, db_set_current s b).

(** ** Switching between the buffers *)

Definition db_switchToLarge (h : heap) (P : JmySessionBufferPool) (b : JmyDoubleSessionBuffer)
  : option (bool * heap * JmySessionBufferPool * JmyDoubleSessionBuffer) :=
  if use_large_ b then Some (true, h, P, b) else
  (* a large block, unless there is one *)
  '(ok, h, P, b) ←
    (if sb_isInited (large_buff_ b) then Some (true, h, P, b) else
     ub_unless (buff_pool_ b);;
     let '(p, size, P) := if decide (sb_getType (db_buff_ b) = SESSION_BUFFER_TYPE_SEND)
                          then mallocLargeSendBuffer P 0 else mallocLargeRecvBuffer P 0 in
     if p =? NULL then Some (false, h, P, b) else
     let '(_, h, l) := sb_init_buff h (large_buff_ b) p size (sb_getType (db_buff_ b)) in
     Some (true, h, P, mkDB (use_large_ b) (db_buff_ b) l (buff_pool_ b)));
  if negb ok then Some (false, h, P, b) else
  '(_, h, l) ← sb_assign h (large_buff_ b) (db_buff_ b);
  Some (true, h, P, mkDB true (db_buff_ b) l (buff_pool_ b)).

Definition db_backToNormal (h : heap) (P : JmySessionBufferPool) (b : JmyDoubleSessionBuffer)
  : option (bool * heap * JmySessionBufferPool * JmyDoubleSessionBuffer) :=
  if negb (use_large_ b) then Some (true, h, P, b) else
  '(_, h, s) ← sb_assign h (db_buff_ b) (large_buff_ b);
  ub_unless (buff_pool_ b);;
  let '(_, P) := if decide (sb_getType (large_buff_ b) = SESSION_BUFFER_TYPE_SEND)
                 then freeLargeSendBuffer P (buff_ (large_buff_ b))
                 else freeLargeRecvBuffer P (buff_ (large_buff_ b)) in
  let '(h, l) := sb_destroy h (large_buff_ b) in
  Some (true, h, P, mkDB false s l (buff_pool_ b)).

(** ** What switching copies *)

(** The bytes behind the write offset of a buffer. *)
Definition sb_room (h : heap) (b : JmySessionBuffer) : list Z :=
  drop (Z.to_nat (write_offset_ b)) (default [] (h !! buff_ b)).

Lemma sb_assign_room h l b c blk :
  sb_view h b c -> buff_ l <> buff_ b -> h !! buff_ l = Some blk -> lenZ c <= lenZ blk -> 0 < lenZ c ->
  sb_assign h l b =
    if SessionBuffer.len_ b <? write_offset_ b + lenZ c then None
    else Some (true, <[buff_ l := take (length c) (sb_room h b) ++ drop (length c) blk]> h, sb_set_offsets (lenZ c) 0 l).
Proof.
  intros (pre & post & Hp & Hw & Hl & H32 & Hh) Hne Hblk Hlen Hpos. destruct Hh as [Hn Hh]; [lia|].
  unfold sb_assign. replace (write_offset_ b - read_offset_ b) with (lenZ c) by lia.
  rewrite u32_id by (unfold is_u32; lia). cbn [sb_set_offsets write_offset_]. rewrite (proj2 (Z.ltb_lt 0 _)) by lia.
  unfold load. rewrite (proj2 (Z.eqb_neq _ 0)) by lia. unfold sb_room. rewrite Hh. cbn [default from_option id].
  cbv beta iota zeta delta [mbind option_bind].
  assert (Hlb : lenZ (pre ++ c ++ post) = SessionBuffer.len_ b) by (rewrite !length_app; lia).
  unfold mem_read at 1. rewrite Hlb. destruct (Z.ltb_spec (SessionBuffer.len_ b) (write_offset_ b + lenZ c)).
  { by rewrite (proj2 (Z.leb_gt _ (SessionBuffer.len_ b))), andb_false_r by lia. }
  rewrite !(proj2 (Z.leb_le _ _)) by lia. cbn [andb]. rewrite Nat2Z.id. cbn [sb_set_offsets buff_ write_offset_].
  set (d := take (length c) (drop (Z.to_nat (write_offset_ b)) (pre ++ c ++ post))).
  assert (Hd : length d = length c) by (unfold d; rewrite length_take, length_drop; lia).
  destruct (split_at blk (lenZ c)) as (x & y & -> & Hx & Hy); [lia|].
  assert (store h (buff_ l) 0 d = Some (<[buff_ l := d ++ y]> h)) as ->
    by (apply (store_mid h (buff_ l) [] x y d); [done|lia]).
  by replace (drop (length c) (x ++ y)) with y by (rewrite drop_app_length'; [done|lia]).
Qed.

(** [switchToLarge] does not move the unread bytes.  With a
    large block from the pool that has room for them, it makes the large buffer current and gives it as many bytes
    as there are unread ones, but the bytes {e behind} them in the normal buffer, which were never
    received; and when the normal buffer has fewer bytes left than
    unread ones it reads out of bounds.  Only an empty buffer is switched correctly. *)
Theorem switch_to_large_copies_room : forall h P b p size P' blk,
  use_large_ b = false -> sb_isInited (large_buff_ b) = false -> buff_pool_ b = true -> sb_wf h (db_buff_ b) ->
  (if decide (sb_getType (db_buff_ b) = SESSION_BUFFER_TYPE_SEND)
   then mallocLargeSendBuffer P 0 else mallocLargeRecvBuffer P 0) = (p, size, P') ->
  p <> NULL -> p <> buff_ (db_buff_ b) -> buff_ (large_buff_ b) = NULL -> h !! p = Some blk -> lenZ blk = size -> size < 2 ^ 32 ->
  let n := lenZ (sb_content h (db_buff_ b)) in
  n <= size ->
  if (0 <? n) && (SessionBuffer.len_ (db_buff_ b) <? write_offset_ (db_buff_ b) + n)
  then db_switchToLarge h P b = None
  else exists h' b', db_switchToLarge h P b = Some (true, h', P', b') /\ use_large_ b' = true /\ db_buff_ b' = db_buff_ b /\
    sb_wf h' (large_buff_ b') /\
    sb_content h' (large_buff_ b') = take (Z.to_nat n) (sb_room h (db_buff_ b)).
Proof.
  intros h P b p size P' blk Hul Hil Hbp Hwf Hm Hp Hpb Hlb Hblk Hsz H32 n Hn. subst n.
  destruct (sb_wf_view h (db_buff_ b) Hwf) as [c Hv]. rewrite (sb_view_content _ _ _ Hv) in *.
  set (l := mkSB true p size (sb_getType (db_buff_ b)) 0 0).
  assert (E : db_switchToLarge h P b = '(_, h, l) ← sb_assign h l (db_buff_ b); Some (true, h, P', mkDB true (db_buff_ b) l true)).
  { unfold db_switchToLarge. rewrite Hul, Hil, Hbp, Hm. cbn [ub_unless mbind option_bind]. cbv beta iota zeta delta [mbind option_bind].
    rewrite (proj2 (Z.eqb_neq p NULL)) by done.
    unfold sb_init_buff, sb_destroy. rewrite Hlb. change (NULL =? NULL) with true. cbn [negb]. rewrite andb_false_r. done. }
  rewrite E. destruct (sb_view_lens _ _ _ Hv) as (_ & Hr & Ho & Hl). destruct c as [|z c].
  - cbn [length andb]. change (0 <? Z.of_nat 0) with false. cbn [andb]. unfold sb_assign.
    replace (write_offset_ (db_buff_ b) - read_offset_ (db_buff_ b)) with 0 by (destruct Hv as (? & ? & ? & Hvw & _); simpl in Hvw; lia).
    change (u32 0) with 0. cbn [sb_set_offsets write_offset_]. change (0 <? 0) with false. cbv beta iota zeta delta [mbind option_bind].
    eexists _, _. split; [reflexivity|]. split; [done|]. split; [done|].
    cbn [large_buff_]. split.
    + unfold sb_wf. simpl. split; [lia|]. split; [lia|]. split; [lia|]. intros _. split; [done|]. by exists blk.
    + unfold sb_content. simpl. by rewrite Hblk.
  - set (cc := z :: c) in *. assert (0 < lenZ cc) by (subst cc; simpl; lia). clearbody cc. clear c z. rewrite (proj2 (Z.ltb_lt 0 _)) by lia. cbn [andb].
    rewrite (sb_assign_room h l (db_buff_ b) cc blk) by (done || lia).
    destruct (Z.ltb_spec (SessionBuffer.len_ (db_buff_ b)) (write_offset_ (db_buff_ b) + lenZ cc)); [done|].
    cbv beta iota zeta delta [mbind option_bind]. eexists _, _. split; [reflexivity|]. split; [done|]. split; [done|].
    cbn [large_buff_ sb_set_offsets l buff_ SessionBuffer.len_ proxy_ type_].
    assert (Hroom : (length cc <= length (sb_room h (db_buff_ b)))%nat).
    { unfold sb_room. destruct Hv as (pre & post & ? & ? & ? & ? & Hh). destruct Hh as [_ ->]; [lia|].
      cbn [default from_option id]. rewrite length_drop, !length_app. lia. }
    split.
    + unfold sb_wf. simpl. split; [lia|]. split; [lia|]. split; [lia|]. intros _. split; [done|].
      rewrite lookup_insert_eq. eexists. split; [done|]. rewrite length_app, length_take, length_drop. lia.
    + unfold sb_content. cbn [sb_set_offsets buff_ write_offset_ read_offset_ l]. rewrite lookup_insert_eq, Z.sub_0_r.
      change (Z.to_nat 0) with 0%nat. rewrite drop_0, !Nat2Z.id. apply take_app_length'. rewrite length_take. lia.
Qed.

(** A 4 byte buffer holding [1; 2], and a large block of 8 bytes. *)
Definition switch_heap : heap := <[1 := [1; 2; 77; 78]]> {[ 2 := repeat 0 8 ]}.
Definition switch_pool : JmySessionBufferPool :=
  mkBP FixedSizeBufferPool_new (mkFP [] {[ 1 ]} 1 4) (mkFP [] ∅ 0 8) (mkFP [2] ∅ 1 8) 1.
Definition switch_buffer : JmyDoubleSessionBuffer :=
  mkDB false (mkSB true 1 4 SESSION_BUFFER_TYPE_RECV 2 0) JmySessionBuffer_new true.

Lemma switch_to_large_copies_room_witness :
  (sb_wf switch_heap (db_buff_ switch_buffer) /\ mallocLargeRecvBuffer switch_pool 0 =
     (2, 8, snd (mallocLargeRecvBuffer switch_pool 0)) /\ switch_heap !! 2 = Some (repeat 0 8)) /\
  sb_content switch_heap (db_getSessionBuffer switch_buffer) = [1; 2] /\
  exists h' b', db_switchToLarge switch_heap switch_pool switch_buffer =
      Some (true, h', snd (mallocLargeRecvBuffer switch_pool 0), b') /\
    use_large_ b' = true /\ sb_content h' (large_buff_ b') = [77; 78].
Proof.
  assert (Hw : sb_wf switch_heap (db_buff_ switch_buffer)).
  { split; [vm_compute; split; congruence|]. split; [vm_compute; congruence|]. split; [vm_compute; reflexivity|].
    intros _. split; [vm_compute; congruence|]. eexists. split; vm_compute; reflexivity. }
  split; [split; [exact Hw|split; vm_compute; reflexivity]|]. split; [vm_compute; reflexivity|].
  destruct (switch_to_large_copies_room switch_heap switch_pool switch_buffer 2 8 (snd (mallocLargeRecvBuffer switch_pool 0))
    (repeat 0 8) eq_refl eq_refl eq_refl Hw ltac:(vm_compute; reflexivity) ltac:(vm_compute; congruence) ltac:(vm_compute; congruence)
    eq_refl ltac:(vm_compute; reflexivity) eq_refl ltac:(lia) ltac:(vm_compute; congruence)) as (h' & b' & E & Hu & _ & _ & Hc).
  exists h', b'. split; [exact E|]. split; [exact Hu|]. rewrite Hc. vm_compute. reflexivity.
Defined.
