(* ===== verification/SendBuffer.v ===== *)
(** * The buffer a data handler writes to

    The handler's templates ([template <class SendBuffer>] in [jmy_data_handler2.h] and
    [jmy_data_handler.h]) are instantiated with [JmySessionBuffer],
    [JmyDoubleSessionBuffer] and [JmySessionBufferList].  [SendBuffer] is what the
    templates call; [SendBufferLaws] is what their correctness relies on: a write
    appends its bytes to the stream the peer will read, or fails and changes nothing. *)
From S2P Require Import Prelude Datatype SessionBuffer BufferPool BufferList DoubleBuffer.
From Stdlib Require Import ZArith Lia.
From stdpp Require Import base option list gmap.
Local Open Scope Z_scope.

Class SendBuffer (S : Type) : Type := {
  sbuf_writeData : S -> list Z -> Z -> option (bool * S);
  sbuf_writeDatas : S -> list JmyData -> option (bool * S);
}.

(** The pieces of a write: each as long as stated, none empty. *)
Definition pieces (ds : list (list Z)) : list JmyData := (fun d => mkJmyData d (lenZ d)) <$> ds.

Class SendBufferLaws (S : Type) `{SendBuffer S} : Type := {
  sbuf_ok : S -> Prop;
  sbuf_stream : S -> list Z;
  sbuf_accepts : S -> Z -> bool;
  sbuf_write_law : forall s d,
    sbuf_ok s -> d <> [] -> lenZ d < 2 ^ 16 ->
    exists s', sbuf_writeData s d (lenZ d) = Some (sbuf_accepts s (lenZ d), s') /\ sbuf_ok s' /\
      sbuf_stream s' = if sbuf_accepts s (lenZ d) then sbuf_stream s ++ d else sbuf_stream s;
  sbuf_writes_law : forall s ds,
    sbuf_ok s -> ds <> [] -> Forall (fun d => d <> []) ds -> lenZ (concat ds) < 2 ^ 16 ->
    exists s', sbuf_writeDatas s (pieces ds) = Some (sbuf_accepts s (lenZ (concat ds)), s') /\ sbuf_ok s' /\
      sbuf_stream s' = if sbuf_accepts s (lenZ (concat ds)) then sbuf_stream s ++ concat ds
                       else sbuf_stream s;
}.

(** ** JmySessionBuffer, with the heap its block lives in *)

#[export] Instance session_SendBuffer : SendBuffer (heap * JmySessionBuffer) := {
  sbuf_writeData s d n := '(r, h, b) ← sb_writeData (fst s) (snd s) d (u32 n); Some (r, (h, b));
  sbuf_writeDatas s ds := '(r, h, b) ← sb_writeDatas (fst s) (snd s) (Some ds); Some (r, (h, b));
}.

(** The queue of a well-formed session buffer. *)
Definition sb_queue (s : heap * JmySessionBuffer) : bqueue :=
  mkBQ (sb_content (fst s) (snd s)) (SessionBuffer.len_ (snd s) - write_offset_ (snd s)) (SessionBuffer.len_ (snd s)).

Lemma sb_queue_refines s : sb_wf (fst s) (snd s) -> sb_refines (fst s) (snd s) (sb_queue s).
Proof. done. Qed.

Definition sb_accepts (b : JmySessionBuffer) (n : Z) : bool := n <=? SessionBuffer.len_ b - write_offset_ b.

(** A write operation of the queue, seen as append or nothing. *)
Lemma bq_write_cases q d :
  bq_write q d = if lenZ d <=? bq_room q
                 then (true, mkBQ (bq_bytes q ++ d) (bq_room q - lenZ d) (bq_cap q)) else (false, q).
Proof. unfold bq_write. rewrite Z.leb_antisym. by destruct (bq_room q <? lenZ d). Qed.

Lemma sb_exec_write o h b d :
  sb_wf h b -> op_ok o -> bq_exec o (sb_queue (h, b)) = bq_write (sb_queue (h, b)) d ->
  exists h' b', sb_exec o h b = Some (sb_accepts b (lenZ d), h', b') /\ sb_wf h' b' /\
    buff_ b' = buff_ b /\ (forall p, p <> buff_ b -> h' !! p = h !! p) /\
    sb_content h' b' = if sb_accepts b (lenZ d) then sb_content h b ++ d else sb_content h b.
Proof.
  intros Hwf Ho E. destruct (sb_exec_refines o h b _ (sb_queue_refines (h, b) Hwf) Ho)
    as (h' & b' & Ex & (Hwf' & Hc & _) & Hb & Hf).
  exists h', b'. rewrite Ex, E, bq_write_cases. unfold sb_accepts. simpl.
  rewrite E, bq_write_cases in Hc. simpl in Hc.
  by destruct (lenZ d <=? SessionBuffer.len_ b - write_offset_ b).
Qed.

#[export] Instance session_SendBufferLaws : SendBufferLaws (heap * JmySessionBuffer).
Proof.
  refine {| sbuf_ok s := sb_wf (fst s) (snd s);
            sbuf_stream s := sb_content (fst s) (snd s);
            sbuf_accepts s n := sb_accepts (snd s) n |}.
  - intros [h b] d Hwf Hd Hl. simpl.
    destruct (sb_exec_write (op_write d) h b d Hwf) as (h' & b' & E & Hwf' & _ & _ & Hc);
      [simpl; lia|done|]. simpl in E.
    rewrite u32_id by (unfold is_u32; lia). rewrite E. by exists (h', b').
  - intros [h b] ds Hwf Hne Hds Hl. simpl.
    destruct (sb_exec_write (op_write_all ds) h b (concat ds) Hwf) as (h' & b' & E & Hwf' & _ & _ & Hc);
      [simpl; lia|by destruct ds|]. simpl in E.
    change (pieces ds) with (whole <$> ds). rewrite E. by exists (h', b').
Defined.

(** ** JmySessionBufferList; [garbage] is the content of new blocks *)

Section list_send_buffer.
Context (garbage : Z -> list Z) (Hgarbage : forall n, 0 <= n -> lenZ (garbage n) = n).

Definition list_SendBuffer : SendBuffer JmySessionBufferList := {|
  sbuf_writeData s d n := bl_writeData s (Some d) (u16 n);
  sbuf_writeDatas s ds := bl_writeDatas garbage s (Some ds);
|}.

(** The bytes still to be sent. *)
Definition buffer_pending (b : buffer) : list Z :=
  match data_ b with
  | Some d => take (Z.to_nat (woffset_ b - roffset_ b)) (drop (Z.to_nat (roffset_ b)) d)
  | None => []
  end.
Definition bl_stream (l : JmySessionBufferList) : list Z := concat (buffer_pending <$> using_list_ l).

Definition bl_ok (l : JmySessionBufferList) : Prop := exists q, bl_refines l q.

Lemma buffer_holds_pending b p : buffer_holds b p -> buffer_pending b = p.
Proof using.
  intros (pre & Hd & Hr & Hw & Hl & _). unfold buffer_pending. rewrite Hd, Hr, Hw, length_app.
  rewrite drop_app_length' by lia. apply take_ge. lia.
Qed.

Lemma bl_refines_stream l q : bl_refines l q -> bl_stream l = concat (pq_packets q).
Proof using.
  intros [Hp _ _ _ _]. unfold bl_stream. induction Hp as [|b p bs ps Hb _ IH]; [done|]. csimpl.
  by rewrite (buffer_holds_pending _ _ Hb), IH.
Qed.

Definition bl_accepts (l : JmySessionBufferList) (n : Z) : bool :=
  negb (bl_count_full l) && negb (bl_bytes_full l n).
End list_send_buffer.

Lemma nonempty_true d : nonempty d = true <-> d <> [].
Proof. by destruct d. Qed.

Lemma forallb_nonempty ds : Forall (fun d => d <> []) ds -> forallb nonempty ds = true.
Proof. induction 1 as [|d ds Hd _ IH]; [done|]. simpl. rewrite IH. by destruct d. Qed.

Lemma concat_nonempty ds : ds <> [] -> Forall (fun d : list Z => d <> []) ds -> concat ds <> [].
Proof. intros Hne Hds. destruct Hds as [|d ds Hd _]; [done|]. by destruct d. Qed.

Lemma concat_length_in (d : list Z) ds : d ∈ ds -> lenZ d <= lenZ (concat ds).
Proof.
  induction ds as [|e ds IH]; [set_solver|]. simpl. rewrite length_app.
  intros [->|H]%elem_of_cons; [lia|]. specialize (IH H). lia.
Qed.

Lemma list_SendBufferLaws garbage :
  (forall n, 0 <= n -> lenZ (garbage n) = n) -> @SendBufferLaws _ (list_SendBuffer garbage).
Proof.
  intros Hg. refine (@Build_SendBufferLaws _ (list_SendBuffer garbage) bl_ok bl_stream bl_accepts _ _).
  - intros l d [q Hq] Hd Hl. simpl. rewrite u16_id by (unfold is_u16; lia).
    destruct (bl_write_refines l q d Hq) as (l' & E & Hq'); [unfold is_u16; lia|].
    cbn [bl_exec pq_exec] in *. apply nonempty_true in Hd. rewrite Hd, andb_true_r in *.
    rewrite (bl_guards l q) in * by (done || lia). fold (bl_accepts l (lenZ d)) in *.
    destruct (bl_writeData l (Some d) (lenZ d)) as [[r l1]|]; [|done]. simpl in E.
    exists l'. rewrite (bl_refines_stream _ _ Hq), (bl_refines_stream _ _ Hq').
    destruct (bl_accepts l (lenZ d)), r; simpl in E; inv_opt; simpl;
      (split; [done|]; split; [by eexists|]); rewrite ?concat_app; simpl; by rewrite ?app_nil_r.
  - intros l ds [q Hq] Hne Hds Hl. cbn [list_SendBuffer sbuf_writeDatas].
    assert (Hc : concat ds <> []) by by apply concat_nonempty.
    assert (Hok : bl_op_ok (bl_op_writes ds)).
    { simpl. split; [|lia]. apply Forall_forall. intros d Hin.
      apply concat_length_in in Hin. unfold is_u16. lia. }
    destruct (bl_writes_refines garbage l q ds Hg Hq Hok) as (l' & E & Hq').
    cbn [bl_exec pq_exec] in *. apply nonempty_true in Hc.
    rewrite Hc, (forallb_nonempty _ Hds), (proj2 (Z.ltb_lt _ _) Hl), !andb_true_r in *.
    rewrite (bl_guards l q) in * by (done || lia). fold (bl_accepts l (lenZ (concat ds))) in *.
    unfold pieces. destruct (bl_writeDatas garbage l _) as [[r l1]|]; [|done]. simpl in E.
    exists l'. rewrite (bl_refines_stream _ _ Hq), (bl_refines_stream _ _ Hq').
    destruct (bl_accepts l _), r; simpl in E; inv_opt; simpl;
      (split; [done|]; split; [by eexists|]); rewrite ?concat_app; simpl; by rewrite ?app_nil_r.
Defined.

(** ** JmyDoubleSessionBuffer, with the heap *)

#[export] Instance double_SendBuffer : SendBuffer (heap * JmyDoubleSessionBuffer) := {
  sbuf_writeData s d n := '(r, h, b) ← db_writeData (fst s) (snd s) d (u32 n); Some (r, (h, b));
  sbuf_writeDatas s ds := '(r, h, b) ← db_writeDatas (fst s) (snd s) (Some ds); Some (r, (h, b));
}.

Lemma db_set_get s b : db_getSessionBuffer (db_set_current s b) = s.
Proof. unfold db_set_current. destruct (use_large_ b) eqn:E; done. Qed.

#[export] Instance double_SendBufferLaws : SendBufferLaws (heap * JmyDoubleSessionBuffer).
Proof.
  refine {| sbuf_ok s := sb_wf (fst s) (db_getSessionBuffer (snd s));
            sbuf_stream s := sb_content (fst s) (db_getSessionBuffer (snd s));
            sbuf_accepts s n := sb_accepts (db_getSessionBuffer (snd s)) n |}.
  - intros [h b] d Hwf Hd Hl. simpl in *. unfold db_writeData.
    destruct (sb_exec_write (op_write d) h (db_getSessionBuffer b) d Hwf)
      as (h' & b' & E & Hwf' & _ & _ & Hc); [simpl; lia|done|]. simpl in E.
    rewrite u32_id by (unfold is_u32; lia). rewrite E.
    eexists (h', _). split; [done|]. simpl. by rewrite db_set_get.
  - intros [h b] ds Hwf Hne Hds Hl. simpl in Hwf.
    cbn [double_SendBuffer sbuf_writeDatas]. unfold db_writeDatas. cbn [fst snd].
    destruct (sb_exec_write (op_write_all ds) h (db_getSessionBuffer b) (concat ds) Hwf)
      as (h' & b' & E & Hwf' & _ & _ & Hc); [simpl; lia|by destruct ds|].
    cbn [sb_exec] in E.
    change (pieces ds) with (whole <$> ds). rewrite E.
    eexists (h', _). split; [done|]. simpl. by rewrite db_set_get.
Defined.
