(* ===== verification/DataHandler2.v ===== *)
(** * Data handler of protocol 2 ([jmy_data_handler2.h], [jmy_data_handler2.cpp])

    The handler writes packets to a send buffer and dispatches received packets to
    the message handlers the application registered.  [W] is everything a message
    handler can change: the application's state, the connections and their buffers.
    What the handler asks of the connections is the interface [ConnCalls]. *)
From S2P Require Import Prelude Datatype Wire NetProto2 SessionBuffer BufferList SendBuffer.
From Stdlib Require Import ZArith Lia.
From stdpp Require Import base option list gmap.
Local Open Scope Z_scope.

#[export] Instance buffer_eq_dec : EqDecision buffer.
Proof. solve_decision. Defined.

(** ** Writing packets *)

(** [char head_buf[n]]: an array with unspecified content. *)
Definition local_array (n : Z) : list Z := repeat 0 (Z.to_nat n).

Section write.
Context {S : Type} `{SendBuffer S}.

(** [buffer->writeData(head_buf, res)] and its failure. *)
Definition write_head_only (s : S) (head : list Z) (n ret : Z) : option (Z * S) :=
  '(ok, s) ← sbuf_writeData s head n;
  Some (if (ok : bool) then ret else -1, s).

Definition writeUserData (s : S) (msg_id : Z) (data : option (list Z)) (len : Z) : option (Z * S) :=
  let head_buf := local_array jmy_net_proto2_user_data_pack_len in
  '(res, head) ← jmy_net_proto2_pack_user_data_head (Some head_buf) (u8 (lenZ head_buf)) msg_id (u16 len);
  let head := default [] head in
  if res <? 0 then Some (-1, s) else
  if len =? 0 then write_head_only s head res (s32 len) else
  '(ok, s) ← sbuf_writeDatas s [mkJmyData head res; mkJmyData (default [] data) len];
  Some (if (ok : bool) then s32 (u32 (res + len)) else -1, s).

(** A failed pack is only logged. *)
Definition writeUserIdAndData (s : S) (user_id msg_id : Z) (data : option (list Z)) (len : Z)
  : option (Z * S) :=
  let head_buf := local_array jmy_net_proto2_user_id_data_pack_len in
  '(res, head) ← jmy_net_proto2_pack_user_id_data_head (Some head_buf) (u8 (lenZ head_buf)) user_id msg_id len;
  let head := default [] head in
  if len =? 0 then write_head_only s head res len else
  '(ok, s) ← sbuf_writeDatas s [mkJmyData head res; mkJmyData (default [] data) len];
  Some (if (ok : bool) then res + len else -1, s).

(** [t] is the clock's [time_t]. *)
Definition writeHeartbeat (t : Z) (s : S) : option (Z * S) :=
  let buf := local_array jmy_net_proto2_heartbeat_pack_len in
  '(res, b) ← jmy_net_proto2_pack_heartbeat t (Some buf) (u8 (lenZ buf));
  if res <? 0 then Some (-1, s) else
  write_head_only s (default [] b) (lenZ buf) res.

Definition writeDisconnect (s : S) : option (Z * S) :=
  let buf := local_array jmy_net_proto2_disconnect_pack_len in
  '(res, b) ← jmy_net_proto2_pack_disconnect (Some buf) (u8 (lenZ buf));
  if res <? 0 then Some (-1, s) else
  write_head_only s (default [] b) (lenZ buf) res.

Definition writeDisconnectAck (s : S) : option (Z * S) :=
  let buf := local_array jmy_net_proto2_disconnect_ack_pack_len in
  '(res, b) ← jmy_net_proto2_pack_disconnect_ack (Some buf) (u8 (lenZ buf));
  if res <? 0 then Some (-1, s) else
  write_head_only s (default [] b) (lenZ buf) res.
End write.

(** The overloads for a buffer list refuse a null pointer. *)
Definition writeUserData_list (garbage : Z -> list Z) (l : JmySessionBufferList) (msg_id : Z)
  (data : option (list Z)) (len : Z) : option (Z * JmySessionBufferList) :=
  match data with
  | None => Some (0, l)
  | Some _ => @writeUserData _ (list_SendBuffer garbage) l msg_id data len
  end.

Definition writeUserIdAndData_list (garbage : Z -> list Z) (l : JmySessionBufferList)
  (user_id msg_id : Z) (data : option (list Z)) (len : Z) : option (Z * JmySessionBufferList) :=
  match data with
  | None => Some (0, l)
  | Some _ => @writeUserIdAndData _ (list_SendBuffer garbage) l user_id msg_id data len
  end.

(** ** Dispatching *)

(** What the handler calls on [JmyTcpConnectionMgr] and [JmyTcpConnection]. *)
Class ConnCalls (W : Type) : Type := {
  mgr_get : Z -> W -> bool;                          (** [mgr->get(id)] is not null *)
  conn_handleHeartbeat : Z -> W -> option (Z * W);
  conn_handleDisconnect : Z -> W -> option (Z * W);
  conn_handleDisconnectAck : Z -> W -> option (Z * W);
}.

Definition jmy_msg_handler (W : Type) : Type := JmyMsgInfo -> W -> Z * W.

Record JmyDataHandler2 (W : Type) : Type := mkDH2 {
  msg_handler_map_ : gmap Z (jmy_msg_handler W);
  default_msg_handler_ : option (jmy_msg_handler W);
  unpack_data_ : JmyPacketUnpackData2;
}.
Arguments mkDH2 {W}.
Arguments msg_handler_map_ {W}.
Arguments default_msg_handler_ {W}.
Arguments unpack_data_ {W}.

Section dispatch.
Context {W : Type}.
Notation Handler2 := (JmyDataHandler2 W).

Definition JmyDataHandler2_new : Handler2 := mkDH2 ∅ None JmyPacketUnpackData2_new.

Definition dh2_set_unpack (u : JmyPacketUnpackData2) (H : Handler2) : Handler2 :=
  mkDH2 (msg_handler_map_ H) (default_msg_handler_ H) u.

(** The two [assert]s; [handler] is a function pointer, possibly null. *)
Definition registerMsgHandle (H : Handler2) (msg_id : Z) (handler : option (jmy_msg_handler W))
  : option (bool * Handler2) :=
  ub_unless ((JMY_MIN_MESSAGE_ID <=? msg_id) && (msg_id <=? JMY_MAX_MESSAGE_ID));;
  handler ← handler;
  Some (match msg_handler_map_ H !! msg_id with
        | Some _ => (false, H)
        | None => (true, mkDH2 (<[msg_id := handler]> (msg_handler_map_ H)) (default_msg_handler_ H)
                           (unpack_data_ H))
        end).

(** The array is null or has [size] elements. *)
Definition loadMsgHandle (H : Handler2) (id2handlers : option (list (Z * jmy_msg_handler W)))
  : bool * Handler2 :=
  match id2handlers with
  | None | Some [] => (false, H)
  | Some l =>
    (true, mkDH2 (foldl (fun m e => map_insert_new (fst e) (snd e) m) (msg_handler_map_ H) l)
             (default_msg_handler_ H) (unpack_data_ H))
  end.

Definition setDefaultMsgHandler (H : Handler2) (handler : option (jmy_msg_handler W)) : Handler2 :=
  mkDH2 (msg_handler_map_ H) handler (unpack_data_ H).

(** [info->len], an [unsigned int], is returned as [int]. *)
Definition handleMsg (H : Handler2) (info : JmyMsgInfo) (w : W) : Z * W :=
  match msg_handler_map_ H !! mi_msg_id info with
  | None =>
    match default_msg_handler_ H with
    | Some f =>
      let '(res, w) := f info w in
      if res =? 0 then (0, w) else if res <? 0 then (-1, w) else (s32 (mi_len info), w)
    | None => (0, w)
    end
  | Some f =>
    let '(res, w) := f info w in
    if res <? 0 then (-1, w) else (s32 (mi_len info), w)
  end.

Context `{ConnCalls W}.

Definition handleHeartbeat (session_id : Z) (w : W) : option (Z * W) :=
  if mgr_get session_id w then conn_handleHeartbeat session_id w else Some (-1, w).
Definition handleDisconnect (session_id : Z) (w : W) : option (Z * W) :=
  if mgr_get session_id w then conn_handleDisconnect session_id w else Some (-1, w).
Definition handleDisconnectAck (session_id : Z) (w : W) : option (Z * W) :=
  if mgr_get session_id w then conn_handleDisconnectAck session_id w else Some (-1, w).

Definition is_user_packet (type : Z) : bool :=
  (type =? JMY_PACKET2_USER_DATA) || (type =? JMY_PACKET2_USER_ID_DATA).

(** [-1] for a negative result, [r] otherwise. *)
Definition check_neg (x : option (Z * W)) (r : Z) (H : Handler2) : option (Z * W * Handler2) :=
  '(res, w) ← x; Some (if res <? 0 then -1 else r, w, H).

Definition handleOne (H : Handler2) (buff : buffer) (conn_id param : Z) (w : W)
  : option (Z * W * Handler2) :=
  let type := woffset_ buff in
  '(r, data) ← jmy_net_proto2_unpack_data type (data_ buff) (len_ buff) (unpack_data_ H) conn_id param;
  let H := dh2_set_unpack data H in
  if r <? 0 then Some (-1, w, H)
  else if (r =? 0) && negb (is_user_packet type) then Some (0, w, H)
  else if is_user_packet type then
    let '(res, w) := handleMsg H (ud2_msg_info data) w in
    Some (if res <? 0 then -1 else r, w, H)
  else if type =? JMY_PACKET2_HEARTBEAT then check_neg (handleHeartbeat conn_id w) r H
  else if type =? JMY_PACKET2_DISCONNECT then check_neg (handleDisconnect conn_id w) r H
  else if type =? JMY_PACKET2_DISCONNECT_ACK then check_neg (handleDisconnectAck conn_id w) r H
  else Some (-1, w, H).

(** The loop of [processData] over the list [bs] that is left.  [recv w] is the list
    the iterator walks: a message handler that changes it (closing the connection
    clears it) invalidates the iterator. *)
Fixpoint process_loop (recv : W -> JmySessionBufferList) (all bs : list buffer) (conn_id mgr count : Z)
  (H : Handler2) (w : W) : option (Z * W * Handler2) :=
  match bs with
  | [] => Some (count, w, H)
  | buff :: bs =>
    '(res, w, H) ← handleOne H buff conn_id mgr w;
    if res <? 0 then Some (-1, w, H) else
    ub_unless (bool_decide (using_list_ (recv w) = all));;
    let count := if is_user_packet (ud2_type (unpack_data_ H)) then count + 1 else count in
    process_loop recv all bs conn_id mgr count H w
  end.

(** [recv] and [set_recv] are the list [buffer_list] points to. *)
Definition processData (recv : W -> JmySessionBufferList) (set_recv : JmySessionBufferList -> W -> W)
  (conn_id mgr : Z) (H : Handler2) (w : W) : option (Z * W * Handler2) :=
  let bs := using_list_ (recv w) in
  '(r, w, H) ← process_loop recv bs bs conn_id mgr 0 H w;
  if r <? 0 then Some (-1, w, H) else
  Some (r, set_recv (bl_clear (recv w)) w, H).
End dispatch.

(** ** What is written *)

Inductive packet : Type :=
| pk_user (msg_id : Z) (data : list Z)
| pk_user_id (user_id msg_id : Z) (data : list Z)
| pk_heartbeat (t : Z)
| pk_disconnect
| pk_disconnect_ack.

Definition packet_bytes (p : packet) : list Z :=
  match p with
  | pk_user m d => user_data_head m (lenZ d) ++ d
  | pk_user_id u m d => user_id_data_head u m (lenZ d) ++ d
  | pk_heartbeat t => heartbeat_packet t
  | pk_disconnect => disconnect_packet
  | pk_disconnect_ack => disconnect_ack_packet
  end.

(** The value returned for a packet that is written: a packet without data counts 0. *)
Definition packet_ret (p : packet) : Z :=
  match p with
  | pk_user _ [] | pk_user_id _ _ [] => 0
  | _ => lenZ (packet_bytes p)
  end.

Definition write_packet {S} `{SendBuffer S} (s : S) (p : packet) : option (Z * S) :=
  match p with
  | pk_user m d => writeUserData s m (Some d) (lenZ d)
  | pk_user_id u m d => writeUserIdAndData s u m (Some d) (lenZ d)
  | pk_heartbeat t => writeHeartbeat t s
  | pk_disconnect => writeDisconnect s
  | pk_disconnect_ack => writeDisconnectAck s
  end.

Fixpoint write_packets {S} `{SendBuffer S} (s : S) (ps : list packet) : option (list Z * S) :=
  match ps with
  | [] => Some ([], s)
  | p :: ps => '(r, s) ← write_packet s p; '(rs, s) ← write_packets s ps; Some (r :: rs, s)
  end.

(** The packets whose write succeeded. *)
Definition written (ps : list packet) (rs : list Z) : list packet :=
  (zip ps rs) ≫= (fun pr => if 0 <=? snd pr then [fst pr] else []).

Lemma local_array_len n : 0 <= n -> lenZ (local_array n) = n.
Proof. intros. unfold local_array. rewrite repeat_length. lia. Qed.

(** A packing function on a local array of its head's size. *)
Lemma packs_local pack n head :
  packs_head pack n head -> 0 <= n < 256 -> lenZ head = n ->
  pack (Some (local_array n)) (u8 (lenZ (local_array n))) = Some (n, Some head).
Proof.
  intros (_ & _ & Hp) Hn Hh. rewrite (local_array_len n) by lia. unfold u8.
  rewrite Z.mod_small by lia. rewrite Hp by (rewrite ?local_array_len; lia).
  rewrite drop_ge by (unfold local_array; rewrite repeat_length; lia). by rewrite app_nil_r.
Qed.

Lemma packet_nonempty p : packet_bytes p <> [].
Proof. by destruct p. Qed.

Section write_laws.
Context {S : Type} {HS : SendBuffer S} {HL : SendBufferLaws S}.

(** The outcome of a write that appends [bs] or fails. *)
Definition appends (s : S) (bs : list Z) (ret : Z) (o : option (Z * S)) : Prop :=
  exists s', o = Some (if sbuf_accepts s (lenZ bs) then ret else -1, s') /\ sbuf_ok s' /\
    sbuf_stream s' = if sbuf_accepts s (lenZ bs) then sbuf_stream s ++ bs else sbuf_stream s.

Lemma write_head_only_appends s head n ret :
  sbuf_ok s -> head <> [] -> lenZ head = n -> n < 2 ^ 16 -> appends s head ret (write_head_only s head n ret).
Proof using HL.
  intros Hs Hh <- Hl. unfold write_head_only.
  destruct (sbuf_write_law s head Hs Hh Hl) as (s' & -> & Hs' & E). simpl.
  exists s'. by destruct (sbuf_accepts s (lenZ head)).
Qed.

Lemma write_two_appends s head d n len ret :
  sbuf_ok s -> head <> [] -> d <> [] -> lenZ head = n -> lenZ d = len -> n + len < 2 ^ 16 ->
  appends s (head ++ d) ret
    ('(ok, s) ← sbuf_writeDatas s [mkJmyData head n; mkJmyData d len];
     Some (if (ok : bool) then ret else -1, s)).
Proof using HL.
  intros Hs Hh Hd <- <- Hl.
  change [mkJmyData head (lenZ head); mkJmyData d (lenZ d)] with (pieces [head; d]).
  destruct (sbuf_writes_law s [head; d] Hs) as (s' & -> & Hs' & E);
    [done|by repeat constructor|simpl; rewrite ?length_app; simpl; lia|].
  cbn [concat] in *. rewrite app_nil_r in *. exists s'.
  by destruct (sbuf_accepts s (lenZ (head ++ d))).
Qed.

Lemma write_packet_appends s p :
  sbuf_ok s -> lenZ (packet_bytes p) < 2 ^ 16 ->
  appends s (packet_bytes p) (packet_ret p) (write_packet s p).
Proof using HL.
  intros Hs Hl. destruct p as [m d|u m d|t| |]; cbn [write_packet packet_bytes] in *.
  - unfold writeUserData. change jmy_net_proto2_user_data_pack_len with 5. rewrite (length_app (user_data_head _ _)) in Hl. simpl in Hl.
    unfold u16 at 1. rewrite Z.mod_small by lia.
    rewrite (packs_local _ _ _ (user_data_head_packs m (lenZ d))) by done.
    cbv beta iota zeta delta [mbind option_bind default from_option id].
    change (5 <? 0) with false. cbv iota. destruct (Z.eqb_spec (lenZ d) 0) as [E|E].
    + destruct d; [|done]. rewrite app_nil_r. by apply write_head_only_appends.
    + replace (packet_ret (pk_user m d)) with (s32 (u32 (5 + lenZ d))).
      * by apply write_two_appends; try (by destruct d); try lia.
      * destruct d; [done|]. unfold packet_ret. rewrite s32_u32, s32_id by (unfold is_s32; simpl in *; lia).
        cbn [packet_bytes]. rewrite (length_app (user_data_head _ _)). simpl. lia.
  - unfold writeUserIdAndData. change jmy_net_proto2_user_id_data_pack_len with 9. rewrite (length_app (user_id_data_head _ _ _)) in Hl. simpl in Hl.
    rewrite (packs_local _ _ _ (user_id_data_head_packs u m (lenZ d))) by done.
    cbv beta iota zeta delta [mbind option_bind default from_option id].
    destruct (Z.eqb_spec (lenZ d) 0) as [E|E].
    + destruct d; [|done]. rewrite app_nil_r. by apply write_head_only_appends.
    + replace (packet_ret (pk_user_id u m d)) with (9 + lenZ d).
      * by apply write_two_appends; try (by destruct d); try lia.
      * destruct d; [done|]. unfold packet_ret.
        cbn [packet_bytes]. rewrite (length_app (user_id_data_head _ _ _)). simpl. lia.
  - unfold writeHeartbeat. change jmy_net_proto2_heartbeat_pack_len with 7. rewrite (packs_local _ _ _ (heartbeat_packs t)) by done.
    by apply write_head_only_appends.
  - unfold writeDisconnect. change jmy_net_proto2_disconnect_pack_len with 3. rewrite (packs_local _ _ _ disconnect_packs) by done.
    by apply write_head_only_appends.
  - unfold writeDisconnectAck. change jmy_net_proto2_disconnect_ack_pack_len with 3. rewrite (packs_local _ _ _ disconnect_ack_packs) by done.
    by apply write_head_only_appends.
Qed.

Lemma packet_ret_nonneg p : 0 <= packet_ret p.
Proof using. destruct p as [? []|? ? []|?| |]; simpl; lia. Qed.

(** For every send buffer that satisfies its contract, any sequence of
    [writeUserData], [writeUserIdAndData], [writeHeartbeat], [writeDisconnect] and
    [writeDisconnectAck] calls is memory safe, and the stream for the peer grows by exactly the
    bytes of the packets whose write returned a non-negative value, in order; the
    packets that are refused leave no byte behind. *)
Theorem write_functions_append_packets : forall ps s,
  sbuf_ok s -> Forall (fun p => lenZ (packet_bytes p) < 2 ^ 16) ps ->
  exists rs s', write_packets s ps = Some (rs, s') /\ sbuf_ok s' /\
    Forall2 (fun p r => r = packet_ret p \/ r = -1) ps rs /\
    sbuf_stream s' = sbuf_stream s ++ concat (packet_bytes <$> written ps rs).
Proof using HL.
  intros ps. induction ps as [|p ps IH]; intros s Hs Hps.
  - exists [], s. rewrite app_nil_r. by repeat constructor.
  - apply Forall_cons_1 in Hps as [Hp Hps]. cbn [write_packets].
    destruct (write_packet_appends s p Hs Hp) as (s1 & -> & Hs1 & E1).
    cbv beta iota zeta delta [mbind option_bind].
    destruct (IH s1 Hs1 Hps) as (rs & s2 & -> & Hs2 & Hrs & E2).
    eexists (_ :: rs), s2. split; [done|]. split; [done|].
    split; [constructor; [destruct (sbuf_accepts _ _); auto|done]|].
    rewrite E2, E1. unfold written. cbn [zip zip_with mbind list_bind snd fst].
    pose proof (packet_ret_nonneg p). destruct (sbuf_accepts s _).
    + rewrite (proj2 (Z.leb_le 0 _)) by done. csimpl. by rewrite app_assoc.
    + done.
Qed.
End write_laws.

Lemma write_functions_append_packets_witness :
  let s : heap * JmySessionBuffer := ({[ 1 := repeat 0 16 ]}, mkSB true 1 16 SESSION_BUFFER_TYPE_SEND 0 0) in
  let ps := [pk_user 258 [7; 8]; pk_user_id 3 4 [9]; pk_disconnect; pk_user 5 []] in
  (sbuf_ok s /\ Forall (fun p => lenZ (packet_bytes p) < 2 ^ 16) ps) /\
  exists rs s', write_packets s ps = Some (rs, s') /\ rs = [7; -1; 3; 0] /\
    sbuf_stream s' = [0; 5; 5; 1; 2; 7; 8] ++ [0; 1; 8] ++ [0; 3; 5; 0; 5].
Proof.
  cbv zeta.
  set (s := ({[ 1 := repeat 0 16 ]}, mkSB true 1 16 SESSION_BUFFER_TYPE_SEND 0 0) : heap * JmySessionBuffer).
  set (ps := [pk_user 258 [7; 8]; pk_user_id 3 4 [9]; pk_disconnect; pk_user 5 []]).
  assert (Hs : sbuf_ok s).
  { simpl. unfold sb_wf. simpl. repeat split; try (vm_compute; congruence).
    eexists. split; vm_compute; reflexivity. }
  assert (Hps : Forall (fun p => lenZ (packet_bytes p) < 2 ^ 16) ps)
    by (repeat constructor; vm_compute; reflexivity).
  split; [split; [exact Hs|exact Hps]|].
  destruct (write_functions_append_packets ps s Hs Hps) as (rs & s' & E & _ & _ & Hst).
  exists rs, s'. split; [exact E|].
  assert (Hr : rs = [7; -1; 3; 0]) by (vm_compute in E; congruence).
  split; [exact Hr|]. rewrite Hst, Hr. reflexivity.
Defined.

(** ** Data longer than a packet *)

Lemma buffer_write_front acc g n d rest len :
  0 < len -> lenZ acc + len <= n -> n < 2 ^ 16 -> lenZ (acc ++ g) = n -> lenZ d = len ->
  exists g', lenZ (acc ++ d ++ g') = n /\
    buffer_write (mkBuffer (Some (acc ++ g)) n 0 (lenZ acc)) (Some (d ++ rest)) len =
      Some (true, mkBuffer (Some ((acc ++ d) ++ g')) n 0 (lenZ (acc ++ d))).
Proof.
  intros H0 Hn H16 Hg Hd. rewrite length_app in Hg.
  destruct (split_at g len) as (g1 & g2 & -> & Hg1 & Hg2); [lia|].
  exists g2. rewrite !length_app in *. split; [lia|]. unfold buffer_write.
  cbn [len_ woffset_ data_ roffset_]. rewrite (proj2 (Z.eqb_neq _ 0)) by lia.
  rewrite (proj2 (Z.ltb_ge _ _)) by lia.
  replace (mem_read (d ++ rest) 0 len) with (Some d)
    by (rewrite <-Hd; symmetry; apply (mem_read_mid [] d rest)).
  cbv beta iota zeta delta [mbind option_bind].
  rewrite (mem_write_mid acc g1 g2 d) by lia. rewrite u16_id by (unfold is_u16; lia).
  rewrite <-app_assoc. do 3 f_equal. lia.
Qed.

(** [writeUserData] on a buffer list with 64 KiB or more of data, [n = k * 2^16 + r] bytes with
    [0 < r < 65531], reports success for all [n] bytes but queues a
    well-formed packet with the first [r] bytes only: every length on the way is
    converted to [unsigned short] without a check. *)
Theorem list_write_truncates_long_data : forall (garbage : Z -> list Z) l m data rest k,
  (forall n, 0 <= n -> lenZ (garbage n) = n) -> 0 < k ->
  0 < lenZ data < 65531 -> lenZ (data ++ rest) = k * 2 ^ 16 + lenZ data -> k < 2 ^ 10 ->
  max_bytes_ l = 0 -> max_count_ l = 0 ->
  exists l', writeUserData_list garbage l m (Some (data ++ rest)) (lenZ (data ++ rest)) =
      Some (5 + lenZ (data ++ rest), l') /\
    using_list_ l' = using_list_ l ++
      [mkBuffer (Some (packet_bytes (pk_user m data))) (5 + lenZ data) 0 (5 + lenZ data)].
Proof.
  intros garbage l m data rest k Hg Hk Hd Hlen Hk2 Hmb Hmc.
  set (n := lenZ (data ++ rest)) in *.
  assert (Hu : u16 n = lenZ data) by (unfold u16; rewrite Hlen; lia_mod).
  cbn [writeUserData_list]. unfold writeUserData. rewrite Hu.
  change jmy_net_proto2_user_data_pack_len with 5.
  rewrite (packs_local _ _ _ (user_data_head_packs m (lenZ data))) by done.
  cbv beta iota zeta delta [mbind option_bind default from_option id].
  change (5 <? 0) with false. cbv iota. rewrite (proj2 (Z.eqb_neq n 0)) by lia.
  cbn [list_SendBuffer sbuf_writeDatas]. unfold bl_writeDatas, bl_count_full, bl_bytes_full.
  rewrite Hmb, Hmc. cbn [Z.ltb Z.compare andb].
  assert (Ht : datas_total [mkJmyData (user_data_head m (lenZ data)) 5; mkJmyData (data ++ rest) n] = 5 + n).
  { unfold datas_total. cbn [foldl jd_len]. rewrite (u32_id (0 + 5)), u32_id by (unfold is_u32; lia). lia. }
  rewrite Ht. replace (u16 (5 + n)) with (5 + lenZ data) by (unfold u16; rewrite Hlen; lia_mod).
  unfold buffer_init_len. rewrite (proj2 (Z.eqb_neq (5 + lenZ data) 0)) by lia.
  cbn [negb buffer_write_all jd_data jd_len].
  destruct (buffer_write_front [] (garbage (5 + lenZ data)) (5 + lenZ data) (user_data_head m (lenZ data)) [] 5)
    as (g1 & Hg1 & E1); try (simpl; lia); [simpl; rewrite Hg; lia|].
  rewrite app_nil_r in E1. change (u16 5) with 5. cbn [app length] in E1.
  change (Z.of_nat 0) with 0 in E1. rewrite E1. cbv beta iota zeta delta [mbind option_bind].
  rewrite Hu. destruct (buffer_write_front (user_data_head m (lenZ data)) g1 (5 + lenZ data) data rest (lenZ data))
    as (g2 & Hg2 & E2); try (simpl; lia); [simpl in *; lia|].
  rewrite E2. cbv beta iota zeta delta [mbind option_bind].
  assert (g2 = []) as -> by (rewrite !length_app in Hg2; simpl in Hg2; destruct g2; [done|simpl in Hg2; lia]).
  rewrite app_nil_r. rewrite s32_u32, s32_id by (unfold is_s32; lia).
  eexists. split; [done|]. unfold bl_push. cbn [using_list_ packet_bytes].
  do 3 f_equal. rewrite length_app. simpl. lia.
Qed.

Lemma list_write_truncates_long_data_witness :
  let garbage n := repeat 0 (Z.to_nat n) in
  let data := [1; 2] in let rest := repeat 0 (Z.to_nat (2 ^ 16)) in
  ((forall n, 0 <= n -> lenZ (garbage n) = n) /\ 0 < 1 /\ 0 < lenZ data < 65531 /\
   lenZ (data ++ rest) = 1 * 2 ^ 16 + lenZ data /\ 1 < 2 ^ 10) /\
  exists l', writeUserData_list garbage JmySessionBufferList_new 3 (Some (data ++ rest)) 65538 = Some (65543, l') /\
    bl_stream l' = [0; 5; 5; 0; 3; 1; 2].
Proof.
  cbv zeta. assert (Hg : forall n, 0 <= n -> lenZ (repeat 0 (Z.to_nat n)) = n)
    by (intros; rewrite repeat_length; lia).
  set (rest := repeat 0 (Z.to_nat (2 ^ 16))).
  assert (Hl : lenZ ([1; 2] ++ rest) = 1 * 2 ^ 16 + lenZ [1; 2]).
  { unfold rest. rewrite length_app, repeat_length. simpl length. lia. }
  split; [split; [exact Hg|split; [lia|split; [vm_compute; split; congruence|split; [exact Hl|lia]]]]|].
  destruct (list_write_truncates_long_data _ JmySessionBufferList_new 3 [1; 2] rest 1 Hg ltac:(lia)
    ltac:(vm_compute; split; congruence) Hl ltac:(lia) eq_refl eq_refl) as (l' & E & Hb).
  exists l'. rewrite Hl in E. split; [exact E|].
  unfold bl_stream. rewrite Hb. reflexivity.
Defined.

(** ** Delivery of received packets *)

Section deliver.
Context {W : Type} `{ConnCalls W}.
Variable recv : W -> JmySessionBufferList.
Variable set_recv : JmySessionBufferList -> W -> W.
Variable handlers : JmyDataHandler2 W.
Variables conn_id mgr : Z.

(** A user message as the peer sent it. *)
Inductive message : Type := msg_plain (msg_id : Z) (data : list Z) | msg_user (user_id msg_id : Z) (data : list Z).

Definition message_ok (m : message) : Prop :=
  match m with
  | msg_plain i d => is_u16 i /\ lenZ d < 65530
  | msg_user u i d => is_s32 u /\ is_u16 i /\ lenZ d < 65526
  end.

(** The received body and the info the message handler is given. *)
Definition message_buffer (m : message) : buffer :=
  match m with
  | msg_plain i d => mkBuffer (Some (be16 i ++ d)) (lenZ d + 2) 0 JMY_PACKET2_USER_DATA
  | msg_user u i d => mkBuffer (Some (be32 u ++ be16 i ++ d)) (lenZ d + 6) 0 JMY_PACKET2_USER_ID_DATA
  end.
Definition message_info (m : message) : JmyMsgInfo :=
  match m with
  | msg_plain i d => mkJmyMsgInfo 0 i (Some d) (lenZ d) conn_id mgr
  | msg_user u i d => mkJmyMsgInfo u i (Some d) (lenZ d) conn_id mgr
  end.

(** Handing the messages over one by one, until one is refused. *)
Fixpoint deliver (ms : list message) (w : W) : bool * W :=
  match ms with
  | [] => (true, w)
  | m :: ms =>
    let '(r, w) := handleMsg handlers (message_info m) w in
    if r <? 0 then (false, w) else deliver ms w
  end.

Lemma handleMsg_unpack u (H1 : JmyDataHandler2 W) info w : handleMsg (dh2_set_unpack u H1) info w = handleMsg H1 info w.
Proof using. done. Qed.

Lemma handleOne_message u m w :
  message_ok m -> exists u',
  handleOne (dh2_set_unpack u handlers) (message_buffer m) conn_id mgr w =
    (let '(r, w) := handleMsg handlers (message_info m) w in
     Some (if r <? 0 then -1 else len_ (message_buffer m), w, dh2_set_unpack u' handlers)) /\
  ud2_type u' = ud2_type u.
Proof using.
  intros Hm. unfold handleOne.
  destruct m as [i d|uid i d]; cbn [message_buffer woffset_ data_ len_] in *;
    [destruct Hm as [Hi Hd]|destruct Hm as (Hu & Hi & Hd)];
    (rewrite unpack_user_data || rewrite unpack_user_id_data); try (unfold is_u16 in *; try done; lia);
    cbv beta iota zeta delta [mbind option_bind]; rewrite (proj2 (Z.ltb_ge _ 0)) by lia;
    rewrite (proj2 (Z.eqb_neq _ 0)) by lia;
    [change (is_user_packet JMY_PACKET2_USER_DATA) with true
    |change (is_user_packet JMY_PACKET2_USER_ID_DATA) with true];
    cbn [andb negb]; rewrite !handleMsg_unpack;
    cbn [message_info ud2_msg_info ud2_set_result ud2_set_msg_info];
    destruct handleMsg as [r w'].
  all: eexists; split; [reflexivity|done].
Qed.

(** The list never changes under the iterator. *)
Definition keeps_recv : Prop := forall m w, recv (snd (handleMsg handlers (message_info m) w)) = recv w.

Lemma process_loop_messages ms u w all :
  keeps_recv -> Forall message_ok ms -> using_list_ (recv w) = all -> ud2_type u = JMY_PACKET2_NONE ->
  exists u', process_loop recv all (message_buffer <$> ms) conn_id mgr 0 (dh2_set_unpack u handlers) w =
    Some (if fst (deliver ms w) then 0 else -1, snd (deliver ms w), dh2_set_unpack u' handlers) /\
    ud2_type u' = JMY_PACKET2_NONE /\ recv (snd (deliver ms w)) = recv w.
Proof using.
  intros Hk Hms. revert u w. induction Hms as [|m ms Hm Hms IH]; intros u w Hw Hu; [by exists u|].
  csimpl. destruct (handleOne_message u m w Hm) as (u1 & -> & Hu1).
  pose proof (Hk m w) as Hr. destruct handleMsg as [r w1]. simpl in Hr.
  cbv beta iota zeta delta [mbind option_bind]. destruct (Z.ltb_spec r 0).
  - exists u1. rewrite Hu1. by rewrite Hr.
  - rewrite (proj2 (Z.ltb_ge _ 0)) by (destruct m; simpl; lia).
    rewrite Hr, bool_decide_eq_true_2 by done. unfold ub_unless.
    cbn [unpack_data_ dh2_set_unpack]. rewrite Hu1, Hu. simpl.
    destruct (IH u1 w1) as (u2 & E & H2 & H3); [by rewrite Hr|by rewrite Hu1|].
    exists u2. by rewrite E, H3, Hr.
Qed.

(** C9.  [processData] on a list of received user packets hands every message to the handler
    registered for its id (or the default handler), in order, with the user id,
    message id, data and length the peer packed; the first handler that returns a
    negative value stops it with -1 and leaves the list; otherwise the list is
    cleared and the result is 0, although the header says that the messages are
    counted: the packet type it would count by is never set. *)
Theorem processData_delivers : forall ms u w,
  keeps_recv -> Forall message_ok ms -> ud2_type u = JMY_PACKET2_NONE ->
  using_list_ (recv w) = message_buffer <$> ms ->
  exists u',
    processData recv set_recv conn_id mgr (dh2_set_unpack u handlers) w =
      Some (if fst (deliver ms w)
            then (0, set_recv (bl_clear (recv w)) (snd (deliver ms w)), dh2_set_unpack u' handlers)
            else (-1, snd (deliver ms w), dh2_set_unpack u' handlers)) /\
    ud2_type u' = JMY_PACKET2_NONE.
Proof using.
  intros ms u w Hk Hms Hu Hw. unfold processData. rewrite Hw.
  destruct (process_loop_messages ms u w _ Hk Hms eq_refl Hu) as (u' & E & H1 & H2); [].
  rewrite Hw in E. rewrite E. exists u'. split; [|done].
  cbv beta iota zeta delta [mbind option_bind].
  destruct (fst (deliver ms w)); [|done]. by rewrite H2.
Qed.
End deliver.

(** A user-id packet whose body is shorter than the 4 byte user id is not rejected:
    the unpacking reports missing data, but the message handler is then called with
    the {e previous} message's info, whatever connection it came from (the unpack data is
    shared by all connections of a server), and the packet counts as handled. *)
Theorem short_user_id_packet_replays : forall {W} `{ConnCalls W} (H1 : JmyDataHandler2 W) d n r conn_id mgr w,
  1 <= n <= 3 ->
  handleOne H1 (mkBuffer (Some d) n r JMY_PACKET2_USER_ID_DATA) conn_id mgr w =
    let '(res, w') := handleMsg H1 (ud2_msg_info (unpack_data_ H1)) w in
    Some (if res <? 0 then -1 else 0, w',
          dh2_set_unpack (ud2_set_result JMY_UNPACK2_RESULT_DATA_NOT_ENOUGH (unpack_data_ H1)) H1).
Proof.
  intros W HW H1 d n r conn_id mgr w Hn. unfold handleOne. cbn [woffset_ data_ len_].
  unfold jmy_net_proto2_unpack_data. rewrite (proj2 (Z.eqb_neq n 0)) by lia.
  change (JMY_PACKET2_USER_ID_DATA =? JMY_PACKET2_USER_DATA) with false.
  change (JMY_PACKET2_USER_ID_DATA =? JMY_PACKET2_USER_ID_DATA) with true. cbv iota.
  rewrite (proj2 (Z.ltb_lt _ 4)) by lia. cbv beta iota zeta delta [mbind option_bind].
  change (0 <? 0) with false. change (is_user_packet JMY_PACKET2_USER_ID_DATA) with true.
  rewrite andb_false_r. rewrite handleMsg_unpack. cbv iota.
  cbn [ud2_msg_info ud2_set_result]. destruct handleMsg as [res w']. reflexivity.
Qed.

(** An application that logs the messages it gets: the world of the witnesses. *)
Definition log_world : Type := JmySessionBufferList * list (Z * Z * list Z).
Definition log_handler : jmy_msg_handler log_world :=
  fun m w => (0, (fst w, snd w ++ [(mi_user_id m, mi_msg_id m, default [] (mi_payload m))])).
#[local] Instance log_calls : ConnCalls log_world := {|
  mgr_get _ _ := true;
  conn_handleHeartbeat _ w := Some (0, w);
  conn_handleDisconnect _ w := Some (0, w);
  conn_handleDisconnectAck _ w := Some (0, w);
|}.
Definition log_dh2 : JmyDataHandler2 log_world := setDefaultMsgHandler JmyDataHandler2_new (Some log_handler).

Lemma short_user_id_packet_replays_witness :
  1 <= 2 <= 3 /\
  let u := ud2_set_msg_info (mkJmyMsgInfo 0 9 (Some [1; 2]) 2 77 0) JmyPacketUnpackData2_new in
  let '(r, w, _) := default (0, (JmySessionBufferList_new, []), log_dh2)
    (handleOne (dh2_set_unpack u log_dh2) (mkBuffer (Some [5; 6]) 2 0 JMY_PACKET2_USER_ID_DATA) 1 0
       (JmySessionBufferList_new, [])) in
  r = 0 /\ snd w = [(0, 9, [1; 2])].
Proof.
  split; [lia|]. cbv zeta. rewrite short_user_id_packet_replays by lia.
  vm_compute. split; reflexivity.
Defined.

Lemma processData_delivers_witness :
  let ms := [msg_plain 3 [7; 8]; msg_user (-2) 4 []] in
  let w : log_world := (mkBL (message_buffer <$> ms) 0 0 0 0, []) in
  (keeps_recv fst log_dh2 1 0 /\ Forall message_ok ms /\
   using_list_ (fst w) = message_buffer <$> ms) /\
  exists u', processData fst (fun l w => (l, snd w)) 1 0 (dh2_set_unpack JmyPacketUnpackData2_new log_dh2) w
    = Some (0, (mkBL [] 0 0 0 0, [(0, 3, [7; 8]); (-2, 4, [])]), dh2_set_unpack u' log_dh2).
Proof.
  cbv zeta. set (ms := [msg_plain 3 [7; 8]; msg_user (-2) 4 []]).
  assert (Hk : keeps_recv (fst : log_world -> _) log_dh2 1 0) by (intros m [l t]; reflexivity).
  assert (Hm : Forall message_ok ms) by (repeat constructor; vm_compute; congruence).
  split; [split; [exact Hk|split; [exact Hm|reflexivity]]|].
  destruct (processData_delivers fst (fun l w => (l, snd w)) log_dh2 1 0 ms JmyPacketUnpackData2_new
    (mkBL (message_buffer <$> ms) 0 0 0 0, []) Hk Hm eq_refl eq_refl) as (u' & E & _).
  exists u'. etransitivity; [exact E|reflexivity].
Defined.
