(* ===== verification/DataHandler.v ===== *)
(** * The data handler of protocol 1 ([jmy_data_handler.h], [jmy_data_handler.cpp])

    Writing packets to the three kinds of send buffer, and parsing the packets of a receive
    buffer and dispatching them to message handlers.  The message handlers and the
    connection calls act on a world of type [W] that does not contain the receive buffer. A
    message info holds the memory its [data] pointer pointed to when it was made. *)
From S2P Require Import Prelude Datatype Wire NetProto2 NetProto SessionBuffer BufferPool BufferList DoubleBuffer SendBuffer DataHandler2.
From Stdlib Require Import ZArith Lia.
From stdpp Require Import base option list gmap.
Local Open Scope Z_scope.

(** ** Writing packets *)

Section write.
Context {S : Type} `{SendBuffer S}.

(** The templates.  [len] is an [unsigned int], the packing function takes an [unsigned short]. *)
Definition dh_writeUserData (s : S) (msg_id : Z) (data : list Z) (len : Z) : option (Z * S) :=
  let head_buf := local_array JMY_PACKET_LEN_USER_DATA_HEAD in
  '(res, head) ← jmy_net_proto_pack_msgid_datalen (Some head_buf) (u8 (lenZ head_buf)) msg_id (u16 len);
  let head := default [] head in
  if res <? 0 then Some (-1, s) else
  if len =? 0 then write_head_only s head res (s32 len) else
  '(ok, s) ← sbuf_writeDatas s [mkJmyData head res; mkJmyData data len];
  Some (if (ok : bool) then s32 len else -1, s).

Definition dh_writeUserIdAndData (s : S) (user_id msg_id : Z) (data : list Z) (len : Z) : option (Z * S) :=
  let head_buf := local_array JMY_PACKET_LEN_USER_ID_DATA_HEAD in
  '(res, head) ← jmy_net_proto_pack_userid_msgid_datalen (Some head_buf) (u8 (lenZ head_buf)) user_id msg_id len;
  let head := default [] head in
  if len =? 0 then write_head_only s head res len else
  '(ok, s) ← sbuf_writeDatas s [mkJmyData head res; mkJmyData data len];
  Some (if (ok : bool) then len else -1, s).

Definition dh_writeHeartbeat (t : Z) (s : S) : option (Z * S) :=
  let buf := local_array JMY_PACKET_LEN_HEARTBEAT in
  '(res, b) ← jmy_net_proto_pack_heartbeat t (Some buf) (u8 (lenZ buf));
  if res <? 0 then Some (-1, s) else write_head_only s (default [] b) (lenZ buf) 0.

Definition dh_writeDisconnect (s : S) : option (Z * S) :=
  let buf := local_array JMY_PACKET_LEN_DISCONNECT in
  '(res, b) ← jmy_net_proto_pack_disconnect (Some buf) (u8 (lenZ buf));
  if res <? 0 then Some (-1, s) else write_head_only s (default [] b) (lenZ buf) 0.

Definition dh_writeDisconnectAck (s : S) : option (Z * S) :=
  let buf := local_array JMY_PACKET_LEN_DISCONNECT_ACK in
  '(res, b) ← jmy_net_proto_pack_disconnect_ack (Some buf) (u8 (lenZ buf));
  if res <? 0 then Some (-1, s) else write_head_only s (default [] b) (lenZ buf) 0.
End write.

(** The overloads for a session buffer compact it when the packet does not fit behind the data. *)
Definition dh_writeUserData_session (s : heap * JmySessionBuffer) (msg_id : Z) (data : option (list Z)) (len : Z)
  : option (Z * (heap * JmySessionBuffer)) :=
  match data with
  | None => Some (0, s)
  | Some d =>
    '(ok, h, b) ← sb_checkWriteLen (fst s) (snd s) (u32 (len + JMY_PACKET_LEN_USER_DATA_HEAD));
    if negb ok then Some (-1, (h, b)) else dh_writeUserData (h, b) msg_id d len
  end.

Definition dh_writeUserIdAndData_session (s : heap * JmySessionBuffer) (user_id msg_id : Z)
  (data : option (list Z)) (len : Z) : option (Z * (heap * JmySessionBuffer)) :=
  match data with
  | None => Some (0, s)
  | Some d =>
    '(ok, h, b) ← sb_checkWriteLen (fst s) (snd s) (u32 (len + JMY_PACKET_LEN_USER_ID_DATA_HEAD));
    if negb ok then Some (-1, (h, b)) else dh_writeUserIdAndData (h, b) user_id msg_id d len
  end.

(** The overloads for a double buffer switch to the large buffer when the packet does not fit,
    and back when its length fits the normal one.  The result is [-1], or the buffer to write to. *)
Definition dh_choose_buffer (h : heap) (P : JmySessionBufferPool) (b : JmyDoubleSessionBuffer) (n : Z)
  : option (bool * heap * JmySessionBufferPool * JmyDoubleSessionBuffer) :=
  '(fits, h, b) ← db_checkWriteLen h b n;
  '(ok, h, P, b) ←
    (if (fits : bool) then Some (true, h, P, b) else
     if db_isLarge b then Some (false, h, P, b) else
     '(sw, h, P, b) ← db_switchToLarge h P b;
     if negb sw then Some (false, h, P, b) else
     '(fits, h, b) ← db_checkWriteLen h b n;
     Some (fits, h, P, b));
  if negb ok then Some (false, h, P, b) else
  if db_isLarge b && (n <=? db_getNormalLen b) then db_backToNormal h P b
  else Some (true, h, P, b).

(** The returned value and the heap, the pool and the buffer after a write to the chosen buffer. *)
Definition dh_on_chosen (h : heap) (P : JmySessionBufferPool) (b : JmyDoubleSessionBuffer) (n : Z)
  (write : heap * JmyDoubleSessionBuffer -> option (Z * (heap * JmyDoubleSessionBuffer)))
  : option (Z * heap * JmySessionBufferPool * JmyDoubleSessionBuffer) :=
  '(ok, h, P, b) ← dh_choose_buffer h P b n;
  if negb ok then Some (-1, h, P, b) else
  '(r, hb) ← write (h, b);
  Some (r, fst hb, P, snd hb).

Definition dh_writeUserData_double (h : heap) (P : JmySessionBufferPool) (b : JmyDoubleSessionBuffer)
  (msg_id : Z) (data : option (list Z)) (len : Z) : option (Z * heap * JmySessionBufferPool * JmyDoubleSessionBuffer) :=
  match data with
  | None => Some (0, h, P, b)
  | Some d => dh_on_chosen h P b (u32 (len + JMY_PACKET_LEN_USER_DATA_HEAD)) (fun s => dh_writeUserData s msg_id d len)
  end.

Definition dh_writeUserIdAndData_double (h : heap) (P : JmySessionBufferPool) (b : JmyDoubleSessionBuffer)
  (user_id msg_id : Z) (data : option (list Z)) (len : Z)
  : option (Z * heap * JmySessionBufferPool * JmyDoubleSessionBuffer) :=
  match data with
  | None => Some (0, h, P, b)
  | Some d =>
    dh_on_chosen h P b (u32 (len + JMY_PACKET_LEN_USER_ID_DATA_HEAD)) (fun s => dh_writeUserIdAndData s user_id msg_id d len)
  end.

Definition dh_writeUserData_list (garbage : Z -> list Z) (l : JmySessionBufferList) (msg_id : Z)
  (data : option (list Z)) (len : Z) : option (Z * JmySessionBufferList) :=
  match data with
  | None => Some (0, l)
  | Some d => @dh_writeUserData _ (list_SendBuffer garbage) l msg_id d len
  end.

Definition dh_writeUserIdAndData_list (garbage : Z -> list Z) (l : JmySessionBufferList) (user_id msg_id : Z)
  (data : option (list Z)) (len : Z) : option (Z * JmySessionBufferList) :=
  match data with
  | None => Some (0, l)
  | Some d => @dh_writeUserIdAndData _ (list_SendBuffer garbage) l user_id msg_id d len
  end.

(** ** Dispatching *)

Record JmyDataHandler (W : Type) : Type := mkDH {
  dh_msg_handler_map_ : gmap Z (jmy_msg_handler W);
  dh_default_msg_handler_ : option (jmy_msg_handler W);
  dh_unpack_data_ : JmyPacketUnpackData;
}.
Arguments mkDH {W}.
Arguments dh_msg_handler_map_ {W}.
Arguments dh_default_msg_handler_ {W}.
Arguments dh_unpack_data_ {W}.

(** The memory from [getReadBuff() + offset] to the end of the block; [None] is a null pointer. *)
Definition sb_memory (h : heap) (b : JmySessionBuffer) (offset : Z) : option (list Z) :=
  if (buff_ b =? NULL) && (read_offset_ b + offset =? 0) then None
  else Some (drop (Z.to_nat (read_offset_ b + offset)) (default [] (h !! buff_ b))).

Section dispatch.
Context {W : Type}.
Notation Handler := (JmyDataHandler W).

Definition JmyDataHandler_new : Handler := mkDH ∅ None JmyPacketUnpackData_new.

Definition dh_set_unpack (u : JmyPacketUnpackData) (H : Handler) : Handler :=
  mkDH (dh_msg_handler_map_ H) (dh_default_msg_handler_ H) u.

Definition dh_registerMsgHandle (H : Handler) (msg_id : Z) (handler : option (jmy_msg_handler W))
  : option (bool * Handler) :=
  ub_unless ((JMY_MIN_MESSAGE_ID <=? msg_id) && (msg_id <=? JMY_MAX_MESSAGE_ID));;
  handler ← handler;
  Some (match dh_msg_handler_map_ H !! msg_id with
        | Some _ => (false, H)
        | None => (true, mkDH (<[msg_id := handler]> (dh_msg_handler_map_ H)) (dh_default_msg_handler_ H)
                           (dh_unpack_data_ H))
        end).

Definition dh_loadMsgHandle (H : Handler) (id2handlers : option (list (Z * jmy_msg_handler W)))
  : bool * Handler :=
  match id2handlers with
  | None | Some [] => (false, H)
  | Some l =>
    (true, mkDH (foldl (fun m e => map_insert_new (fst e) (snd e) m) (dh_msg_handler_map_ H) l)
             (dh_default_msg_handler_ H) (dh_unpack_data_ H))
  end.

Definition dh_setDefaultMsgHandler (H : Handler) (handler : option (jmy_msg_handler W)) : Handler :=
  mkDH (dh_msg_handler_map_ H) handler (dh_unpack_data_ H).

Definition dh_handleMsg (H : Handler) (info : JmyMsgInfo) (w : W) : Z * W :=
  match dh_msg_handler_map_ H !! mi_msg_id info with
  | None =>
    match dh_default_msg_handler_ H with
    | Some f =>
      let '(res, w) := f info w in
      if res =? 0 then (0, w) else if res <? 0 then (-1, w) else (s32 (mi_len info), w)
    | None => (0, w)
    end
  | Some f =>
    let '(res, w) := f info w in
    if res <? 0 then (-1, w) else (s32 (mi_len info), w)
  end.

Context `{ConnCalls W}.

Definition dh_handleHeartbeat (session_id : Z) (w : W) : option (Z * W) :=
  if mgr_get session_id w then conn_handleHeartbeat session_id w else Some (-1, w).
Definition dh_handleDisconnect (session_id : Z) (w : W) : option (Z * W) :=
  if mgr_get session_id w then conn_handleDisconnect session_id w else Some (-1, w).
Definition dh_handleDisconnectAck (session_id : Z) (w : W) : option (Z * W) :=
  if mgr_get session_id w then conn_handleDisconnectAck session_id w else Some (-1, w).

Definition is_user_type (type : Z) : bool :=
  (type =? JMY_PACKET_USER_DATA) || (type =? JMY_PACKET_USER_ID_DATA).

(** Result, heap, receive buffer, world and handler. *)
Definition dh_state : Type := Z * heap * JmySessionBuffer * W * Handler.

Definition dh_call (x : option (Z * W)) (r : Z) (h : heap) (b : JmySessionBuffer) (H : Handler) : option dh_state :=
  '(res, w) ← x; Some (if res <? 0 then -1 else r, h, b, w, H).

Definition dh_handleOne (h : heap) (session_buffer : JmySessionBuffer) (offset : Z) (H : Handler)
  (conn_id param : Z) (w : W) : option dh_state :=
  let read_len := sb_getReadLen session_buffer in
  '(r, data) ← jmy_net_proto_unpack_data_head (sb_memory h session_buffer offset) (u32 (read_len - offset))
                 (dh_unpack_data_ H) conn_id param;
  let H := dh_set_unpack data H in
  if r <? 0 then Some (-1, h, session_buffer, w, H)
  else if (r =? 0) && negb (is_user_type (ud_type data)) then Some (0, h, session_buffer, w, H)
  else if is_user_type (ud_type data) then
    if ud_result data =? JMY_UNPACK_RESULT_DATA_NOT_ENOUGH then
      '(h, b) ← sb_moveDataToFront h session_buffer; Some (0, h, b, w, H)
    else if ud_result data =? JMY_UNPACK_RESULT_USER_DATA_NOT_ENOUGH then
      let can_read_len := s32 (u32 (sb_getWriteLen session_buffer + read_len - offset)) in
      '(h, b) ← (if can_read_len <? ud_data data then sb_moveDataToFront h session_buffer
                 else Some (h, session_buffer));
      Some (0, h, b, w, H)
    else
      let '(res, w) := dh_handleMsg H (ud_msg_info data) w in
      Some (if res <? 0 then -1 else r, h, session_buffer, w, H)
  else if ud_type data =? JMY_PACKET_HEARTBEAT then dh_call (dh_handleHeartbeat conn_id w) r h session_buffer H
  else if ud_type data =? JMY_PACKET_DISCONNECT then dh_call (dh_handleDisconnect conn_id w) r h session_buffer H
  else if ud_type data =? JMY_PACKET_DISCONNECT_ACK then dh_call (dh_handleDisconnectAck conn_id w) r h session_buffer H
  else Some (-1, h, session_buffer, w, H).

(** The [while (true)] of [processData]; [None] also when the fuel runs out. *)
Fixpoint dh_loop (fuel : nat) (h : heap) (b : JmySessionBuffer) (len nhandled count : Z)
  (H : Handler) (session_id param : Z) (w : W) : option dh_state :=
  match fuel with
  | O => None
  | S fuel =>
    '(res, h, b, w, H) ← dh_handleOne h b nhandled H session_id param w;
    if res <? 0 then Some (-1, h, b, w, H) else
    if res =? 0 then Some (count, h, snd (sb_readLen b nhandled), w, H) else
    let nhandled := u32 (nhandled + res) in
    let count := if is_user_type (ud_type (dh_unpack_data_ H)) then count + 1 else count in
    if u32 (len - nhandled) =? 0 then Some (count, h, snd (sb_readLen b nhandled), w, H)
    else dh_loop fuel h b len nhandled count H session_id param w
  end.

(** Every round but the last consumes a byte, so [len + 1] rounds are enough. *)
Definition dh_processData (h : heap) (recv_buffer : JmySessionBuffer) (H : Handler) (session_id param : Z) (w : W)
  : option dh_state :=
  let len := sb_getReadLen recv_buffer in
  dh_loop (S (Z.to_nat len)) h recv_buffer len 0 0 H session_id param w.

(** ** The same over a double buffer *)

Definition dh_dstate : Type := Z * heap * JmySessionBufferPool * JmyDoubleSessionBuffer * W * Handler.

(** [buff] is a reference to the buffer that was current when [processData] was called. *)
Definition db_ref (large : bool) (b : JmyDoubleSessionBuffer) : JmySessionBuffer :=
  if large then large_buff_ b else db_buff_ b.
Definition db_ref_set (large : bool) (s : JmySessionBuffer) (b : JmyDoubleSessionBuffer) : JmyDoubleSessionBuffer :=
  if large then mkDB (use_large_ b) (db_buff_ b) s (buff_pool_ b)
  else mkDB (use_large_ b) s (large_buff_ b) (buff_pool_ b).

Definition dh_not_enough (large : bool) (h : heap) (P : JmySessionBufferPool) (b : JmyDoubleSessionBuffer)
  (nhandled count : Z) (w : W) (H : Handler) : option dh_dstate :=
  let data := ud_data (dh_unpack_data_ H) in
  '(ok, h, P, b) ←
    (if negb (db_isLarge b) && (s32 (db_getTotalLen b) <? data) then
       '(ok, h, P, b) ← db_switchToLarge h P b;
       Some (ok && negb (s32 (db_getTotalLen b) <? data), h, P, b)
     else Some (true, h, P, b));
  if negb ok then Some (-1, h, P, b, w, H) else
  Some (count, h, P, db_ref_set large (snd (sb_readLen (db_ref large b) (u32 nhandled))) b, w, H).

Fixpoint dh_loop_double (fuel : nat) (large : bool) (h : heap) (P : JmySessionBufferPool) (b : JmyDoubleSessionBuffer)
  (len nhandled count : Z) (H : Handler) (session_id param : Z) (w : W) : option dh_dstate :=
  match fuel with
  | O => None
  | S fuel =>
    '(res, h, s, w, H) ← dh_handleOne h (db_ref large b) nhandled H session_id param w;
    let b := db_ref_set large s b in
    if res <? 0 then Some (-1, h, P, b, w, H) else
    if res =? 0 then dh_not_enough large h P b nhandled count w H else
    '(ok, h, P, b) ←
      (if db_isLarge b && (ud_data (dh_unpack_data_ H) <=? s32 (db_getTotalLen b)) then db_backToNormal h P b
       else Some (true, h, P, b));
    if negb ok then Some (-1, h, P, b, w, H) else
    let nhandled := s32 (u32 (nhandled + res)) in
    let count := if is_user_type (ud_type (dh_unpack_data_ H)) then count + 1 else count in
    if u32 (len - nhandled) =? 0 then
      Some (count, h, P, db_ref_set large (snd (sb_readLen (db_ref large b) (u32 nhandled))) b, w, H)
    else dh_loop_double fuel large h P b len nhandled count H session_id param w
  end.

Definition dh_processData_double (h : heap) (P : JmySessionBufferPool) (recv_buffer : JmyDoubleSessionBuffer)
  (H : Handler) (session_id param : Z) (w : W) : option dh_dstate :=
  let len := db_getReadLen recv_buffer in
  dh_loop_double (S (Z.to_nat len)) (db_isLarge recv_buffer) h P recv_buffer len 0 0 H session_id param w.
End dispatch.

(** ** Memory safety against arbitrary bytes *)

(** The memory at an offset into the content of a well-formed buffer. *)
Lemma sb_memory_view h b c n :
  sb_view h b c -> 0 <= n < lenZ c ->
  exists post, sb_memory h b n = Some (drop (Z.to_nat n) c ++ post).
Proof.
  intros (pre & post & Hp & Hc & Hl & H32 & Hh) Hn. destruct Hh as [Hb Hh]; [lia|]. exists post.
  unfold sb_memory. rewrite (proj2 (Z.eqb_neq _ NULL)) by done. cbn [andb]. rewrite Hh. cbn [default from_option id].
  f_equal. rewrite <-Hp. replace (Z.to_nat (lenZ pre + n)) with (length pre + Z.to_nat n)%nat by lia.
  rewrite <-drop_drop, drop_app_length. apply drop_app_le. lia.
Qed.

Lemma unpack_nothing h b n st c p : jmy_net_proto_unpack_data_head (sb_memory h b n) 0 st c p = Some (0, st).
Proof. unfold jmy_net_proto_unpack_data_head. by destruct sb_memory. Qed.

(** Compacting keeps the content. *)
Lemma sb_compact_keeps h b c :
  sb_view h b c ->
  exists h' b', sb_moveDataToFront h b = Some (h', b') /\ sb_view h' b' c /\ buff_ b' = buff_ b /\
    (SessionBuffer.len_ b' = SessionBuffer.len_ b /\ write_offset_ b' <= write_offset_ b) /\ forall q, q <> buff_ b -> h' !! q = h !! q.
Proof.
  intros Hv. destruct (sb_view_compact h b c Hv) as (h' & E & Hv' & Hf).
  exists h', (sb_set_offsets (lenZ c) 0 b). rewrite E. do 3 (split; [done|]). split; [|done].
  split; [done|]. destruct Hv as (? & ? & ? & ? & _). simpl. lia.
Qed.

Section safety.
Context {W : Type} `{ConnCalls W}.

(** The connection calls do not fail undefined. *)
Definition calls_defined : Prop := forall id (w : W),
  is_Some (conn_handleHeartbeat id w) /\ is_Some (conn_handleDisconnect id w) /\ is_Some (conn_handleDisconnectAck id w).

(** What a step does to the receive buffer: nothing, or it compacts it. *)
Definition keeps_content (h : heap) (b : JmySessionBuffer) (c : list Z) (h' : heap) (b' : JmySessionBuffer) : Prop :=
  sb_view h' b' c /\ buff_ b' = buff_ b /\
  (SessionBuffer.len_ b' = SessionBuffer.len_ b /\ write_offset_ b' <= write_offset_ b) /\
  forall q, q <> buff_ b -> h' !! q = h !! q.

Lemma keeps_content_refl h b c : sb_view h b c -> keeps_content h b c h b.
Proof using. unfold keeps_content. intuition lia. Qed.

Lemma keeps_content_trans h b c h1 b1 h2 b2 :
  keeps_content h b c h1 b1 -> keeps_content h1 b1 c h2 b2 -> keeps_content h b c h2 b2.
Proof using.
  intros (V1 & B1 & [L1 O1] & F1) (V2 & B2 & [L2 O2] & F2). split; [done|]. split; [congruence|].
  split; [split; [congruence|lia]|].
  intros q Hq. rewrite F2 by congruence. by apply F1.
Qed.

Lemma sb_maybe_compact (t : bool) h b c :
  sb_view h b c ->
  exists h' b', (if t then sb_moveDataToFront h b else Some (h, b)) = Some (h', b') /\ keeps_content h b c h' b'.
Proof using.
  intros Hv. destruct t; [|exists h, b; by split; [|apply keeps_content_refl]]. destruct (sb_compact_keeps h b c Hv) as (h' & b' & E & ?).
  by exists h', b'.
Qed.

Lemma dh_call_keeps (x : option (Z * W)) r h b c (H1 : JmyDataHandler W) m :
  is_Some x -> sb_view h b c -> -1 <= r <= m ->
  exists r' h' b' w' H1', dh_call x r h b H1 = Some (r', h', b', w', H1') /\ keeps_content h b c h' b' /\ -1 <= r' <= m.
Proof using.
  intros [[res w'] ->] Hv Hr. eexists _, _, _, _, _. split; [reflexivity|].
  split; [by apply keeps_content_refl|destruct (res <? 0); lia].
Qed.

Lemma handle_calls_defined id (w : W) :
  calls_defined -> is_Some (dh_handleHeartbeat id w) /\ is_Some (dh_handleDisconnect id w) /\ is_Some (dh_handleDisconnectAck id w).
Proof using.
  intros Hd. destruct (Hd id w) as (? & ? & ?).
  unfold dh_handleHeartbeat, dh_handleDisconnect, dh_handleDisconnectAck. destruct mgr_get; eauto.
Qed.

Lemma handleOne_safe h b c n (H1 : JmyDataHandler W) conn_id param w :
  calls_defined -> sb_view h b c -> 0 <= n <= lenZ c -> SessionBuffer.len_ b < 2 ^ 31 ->
  exists r h' b' w' H1', dh_handleOne h b n H1 conn_id param w = Some (r, h', b', w', H1') /\
    keeps_content h b c h' b' /\ -1 <= r <= lenZ c - n.
Proof using.
  intros Hcalls Hv Hn H31. destruct (sb_view_lens h b c Hv) as (_ & Hr & Ho & Hl).
  assert (Hc31 : lenZ c < 2 ^ 31) by (destruct Hv as (? & ? & ? & ? & ? & _); lia).
  unfold dh_handleOne. cbv zeta. rewrite Hr, (u32_id (lenZ c - n)) by (unfold is_u32; lia).
  assert (Hu : exists r st', jmy_net_proto_unpack_data_head (sb_memory h b n) (lenZ c - n) (dh_unpack_data_ H1) conn_id param
    = Some (r, st') /\ -1 <= r <= lenZ c - n).
  { destruct (decide (n = lenZ c)) as [->|]; [rewrite Z.sub_diag, unpack_nothing; eexists _, _; split; [done|lia]|].
    destruct (sb_memory_view h b c n Hv) as [post ->]; [lia|].
    destruct (unpack_head_sane (drop (Z.to_nat n) c ++ post) (lenZ c - n) (dh_unpack_data_ H1) conn_id param)
      as (r & st' & E & [Hs _ _ _]); [rewrite length_app, length_drop; lia|lia|]. eauto. }
  destruct Hu as (r & st' & -> & Hrr). cbv beta iota zeta delta [mbind option_bind].
  destruct (handle_calls_defined conn_id w Hcalls) as (D1 & D2 & D3).
  assert (Hsame : exists r' h' b' w' H1', Some (-1, h, b, w, dh_set_unpack st' H1) = Some (r', h', b', w', H1') /\
    keeps_content h b c h' b' /\ -1 <= r' <= lenZ c - n)
    by (eexists _, _, _, _, _; split; [reflexivity|]; split; [by apply keeps_content_refl|lia]).
  destruct (r <? 0); [done|].
  destruct ((r =? 0) && negb (is_user_type (ud_type st')));
    [eexists _, _, _, _, _; split; [reflexivity|]; split; [by apply keeps_content_refl|lia]|].
  destruct (is_user_type (ud_type st')).
  - destruct (ud_result st' =? _); [|destruct (ud_result st' =? _)].
    + destruct (sb_compact_keeps h b c Hv) as (h' & b' & -> & Hk). eexists _, _, _, _, _. split; [reflexivity|].
      split; [done|lia].
    + destruct (sb_maybe_compact (s32 (u32 (sb_getWriteLen b + lenZ c - n)) <? ud_data st') h b c Hv)
        as (h' & b' & -> & Hk). eexists _, _, _, _, _. split; [reflexivity|]. split; [done|lia].
    + destruct dh_handleMsg as [res w']. eexists _, _, _, _, _. split; [reflexivity|].
      split; [by apply keeps_content_refl|destruct (res <? 0); lia].
  - destruct (ud_type st' =? _); [by apply dh_call_keeps|]. destruct (ud_type st' =? _); [by apply dh_call_keeps|].
    destruct (ud_type st' =? _); [by apply dh_call_keeps|done].
Qed.

(** What [processData] leaves: a suffix of the content. *)
Definition keeps_suffix (h : heap) (b : JmySessionBuffer) (c : list Z) (n : Z) (h' : heap) (b' : JmySessionBuffer) : Prop :=
  sb_view h' b' (drop (Z.to_nat n) c) /\ buff_ b' = buff_ b /\
  (SessionBuffer.len_ b' = SessionBuffer.len_ b /\ write_offset_ b' <= write_offset_ b) /\
  forall q, q <> buff_ b -> h' !! q = h !! q.

Lemma readLen_suffix h b c h' b' n :
  keeps_content h b c h' b' -> 0 <= n <= lenZ c -> keeps_suffix h b c n h' (snd (sb_readLen b' n)).
Proof using.
  intros (Hv & Hb & [Hl Hw] & Hf) Hn. destruct (sb_view_lens _ _ _ Hv) as (_ & Hr & Ho & Hl').
  pose proof (sb_view_read h' b' c n Hv Hn) as Hv'.
  unfold sb_readLen. rewrite Hr, (proj2 (Z.ltb_ge _ n)) by lia. cbn [snd].
  assert (n <= write_offset_ b' - read_offset_ b')
    by (destruct Hv as (? & ? & ? & ? & _); lia).
  by rewrite u32_id by (unfold is_u32; lia).
Qed.

Lemma dh_loop_safe fuel h b c n count (H1 : JmyDataHandler W) conn_id param w :
  calls_defined -> sb_view h b c -> 0 <= n <= lenZ c -> SessionBuffer.len_ b < 2 ^ 31 -> 0 <= count ->
  lenZ c - n < Z.of_nat fuel ->
  exists r h' b' w' H1' k, dh_loop fuel h b (lenZ c) n count H1 conn_id param w = Some (r, h', b', w', H1') /\
    0 <= k <= lenZ c /\ keeps_suffix h b c k h' b' /\ (r = -1 /\ k = 0 \/ 0 <= r).
Proof using.
  intros Hcalls. revert h b n count H1 w. induction fuel as [|fuel IH]; intros h b n count H1 w Hv Hn H31 Hc Hf; [lia|].
  assert (Hc32 : lenZ c < 2 ^ 31) by (destruct Hv as (? & ? & ? & ? & ? & _); lia).
  cbn [dh_loop]. destruct (handleOne_safe h b c n H1 conn_id param w Hcalls Hv Hn H31)
    as (r & h1 & b1 & w1 & H1' & -> & Hk & Hr).
  cbv beta iota zeta delta [mbind option_bind].
  destruct (Z.ltb_spec r 0).
  { eexists _, _, _, _, _, 0. split; [done|]. split; [lia|]. split; [|left; lia]. unfold keeps_suffix. by rewrite drop_0. }
  destruct (Z.eqb_spec r 0).
  { eexists _, _, _, _, _, n. split; [done|]. split; [lia|]. split; [by apply readLen_suffix|right; lia]. }
  rewrite (u32_id (n + r)), (u32_id (lenZ c - (n + r))) by (unfold is_u32; lia).
  destruct (Z.eqb_spec (lenZ c - (n + r)) 0).
  { eexists _, _, _, _, _, (n + r). split; [done|]. split; [lia|].
    split; [apply readLen_suffix; [done|lia]|right]. destruct is_user_type; lia. }
  destruct Hk as (Hv1 & Hb1 & [Hl1 Hw1] & Hf1).
  destruct (IH h1 b1 (n + r) (if is_user_type (ud_type (dh_unpack_data_ H1')) then count + 1 else count) H1' w1)
    as (r2 & h2 & b2 & w2 & H2 & k & E & Hk & (V & B & [L O] & F) & Hr2); [done|lia|lia|destruct is_user_type; lia|lia|].
  exists r2, h2, b2, w2, H2, k. split; [done|]. split; [done|]. split; [|done].
  split; [done|]. split; [congruence|]. split; [split; [congruence|lia]|]. intros q Hq. rewrite F by congruence. by apply Hf1.
Qed.

(** [processData] of protocol 1 is safe against any peer.  Whatever bytes a well-formed receive buffer
    holds, whatever the unpack data was before and whatever the message handlers do, it
    terminates within its fuel without undefined behaviour, changes no block but the
    buffer's own, and leaves a well-formed buffer that holds a suffix of the bytes: all of them
    when it returns -1. *)
Theorem processData_protocol1_safe : forall h b (H1 : JmyDataHandler W) session_id param w,
  calls_defined -> sb_wf h b -> SessionBuffer.len_ b < 2 ^ 31 ->
  exists r h' b' w' H1' k, dh_processData h b H1 session_id param w = Some (r, h', b', w', H1') /\
    sb_wf h' b' /\ sb_content h' b' = drop k (sb_content h b) /\ (r = -1 /\ k = 0%nat \/ 0 <= r) /\
    forall q, q <> buff_ b -> h' !! q = h !! q.
Proof using.
  intros h b H1 id p w Hcalls Hwf H31. destruct (sb_wf_view h b Hwf) as [c Hv].
  destruct (sb_view_lens _ _ _ Hv) as (_ & Hr & _). unfold dh_processData. rewrite Hr.
  destruct (dh_loop_safe (S (Z.to_nat (lenZ c))) h b c 0 0 H1 id p w) as (r & h' & b' & w' & H1' & k & E & Hk & (V & B & L & F) & Hres);
    [done|done|lia|done|lia|lia|].
  exists r, h', b', w', H1', (Z.to_nat k). split; [done|]. split; [by eapply sb_view_wf|].
  split; [by rewrite (sb_view_content _ _ _ V), (sb_view_content _ _ _ Hv)|]. split; [|done].
  destruct Hres as [[-> ->]|]; [by left|by right].
Qed.
End safety.

(** ** Delivery of messages *)

Section deliver1.
Context {W : Type} `{ConnCalls W}.
Variable handlers : JmyDataHandler W.
Variables conn_id param : Z.

(** The info with the payload only. *)
Definition clip (m : JmyMsgInfo) : JmyMsgInfo :=
  mkJmyMsgInfo (mi_user_id m) (mi_msg_id m) (mi_payload m) (mi_len m) (mi_conn_id m) (mi_param m).

(** A message handler reads the [len] bytes at [data] and no more. *)
Definition reads_payload : Prop := forall m w, dh_handleMsg handlers m w = dh_handleMsg handlers (clip m) w.

(** The messages handed over one by one, until one is refused. *)
Fixpoint dh_deliver (ms : list umsg) (w : W) : bool * W :=
  match ms with
  | [] => (true, w)
  | m :: ms =>
    let '(r, w) := dh_handleMsg handlers (clip (umsg_info conn_id param [] m)) w in
    if r <? 0 then (false, w) else dh_deliver ms w
  end.

Definition frames (ms : list umsg) : list Z := concat (umsg_frame <$> ms).

(** An incomplete frame, or nothing. *)
Definition partial (part : list Z) : Prop :=
  part = [] \/ exists m k, umsg_ok m /\ 0 < k < umsg_len m /\ part = take (Z.to_nat k) (umsg_frame m).

Lemma clip_info rest m : clip (umsg_info conn_id param rest m) = clip (umsg_info conn_id param [] m).
Proof using.
  unfold clip, umsg_info, mi_payload. cbn [mi_user_id mi_msg_id mi_data mi_len mi_conn_id mi_param].
  cbv beta iota zeta delta [mbind option_bind]. rewrite app_nil_r, mem_read_all.
  pose proof (mem_read_mid [] (um_data m) rest) as E. cbn [app length] in E. change (Z.of_nat 0) with 0 in E. by rewrite E.
Qed.

Lemma dh_handleMsg_unpack u (H1 : JmyDataHandler W) info w : dh_handleMsg (dh_set_unpack u H1) info w = dh_handleMsg H1 info w.
Proof using. done. Qed.

Lemma is_user_type_umsg m : is_user_type (umsg_type m) = true.
Proof using. unfold umsg_type. by destruct (um_user m). Qed.

Lemma umsg_len_pos m : 0 < umsg_len m.
Proof using. rewrite umsg_len_eq. pose proof (umsg_pre_len m). lia. Qed.

Lemma handleOne_frame h b c n m rest u w :
  reads_payload -> sb_view h b c -> umsg_ok m -> SessionBuffer.len_ b < 2 ^ 31 ->
  0 <= n <= lenZ c -> drop (Z.to_nat n) c = umsg_frame m ++ rest ->
  exists u', dh_handleOne h b n (dh_set_unpack u handlers) conn_id param w =
    (let '(r, w) := dh_handleMsg handlers (clip (umsg_info conn_id param [] m)) w in
     Some (if r <? 0 then -1 else umsg_len m, h, b, w, dh_set_unpack u' handlers)) /\
    ud_type u' = umsg_type m /\ ud_result u' = JMY_UNPACK_RESULT_NO_ERROR /\
    clip (ud_msg_info u') = clip (umsg_info conn_id param [] m).
Proof using.
  intros Hrp Hv Hm H31 Hn Hd. destruct (sb_view_lens h b c Hv) as (_ & Hr & Ho & Hl).
  assert (Hlen : lenZ c - n = umsg_len m + lenZ rest).
  { unfold umsg_len. rewrite <-Nat2Z.inj_add, <-length_app, <-Hd, length_drop. lia. }
  pose proof (umsg_len_pos m).
  assert (Hc31 : lenZ c < 2 ^ 31) by (destruct Hv as (? & ? & ? & ? & ? & _); lia).
  unfold dh_handleOne. cbv zeta. rewrite Hr, (u32_id (lenZ c - n)) by (unfold is_u32; lia).
  destruct (sb_memory_view h b c n Hv) as [post ->]; [lia|]. rewrite Hd, <-app_assoc.
  rewrite unpack_frame_complete by (done || lia). cbv beta iota zeta delta [mbind option_bind].
  rewrite (proj2 (Z.ltb_ge _ 0)), (proj2 (Z.eqb_neq _ 0)) by lia.
  cbn [ud_complete ud_type ud_result ud_msg_info andb]. rewrite is_user_type_umsg.
  change (JMY_UNPACK_RESULT_NO_ERROR =? JMY_UNPACK_RESULT_DATA_NOT_ENOUGH) with false.
  change (JMY_UNPACK_RESULT_NO_ERROR =? JMY_UNPACK_RESULT_USER_DATA_NOT_ENOUGH) with false. cbv iota.
  rewrite !dh_handleMsg_unpack, Hrp, clip_info. destruct dh_handleMsg as [r w'].
  eexists. split; [reflexivity|]. simpl. by rewrite clip_info.
Qed.

Lemma handleOne_partial h b c n m k u w :
  sb_view h b c -> umsg_ok m -> SessionBuffer.len_ b < 2 ^ 31 ->
  0 <= n <= lenZ c -> 0 < k < umsg_len m -> drop (Z.to_nat n) c = take (Z.to_nat k) (umsg_frame m) ->
  exists h' b', dh_handleOne h b n (dh_set_unpack u handlers) conn_id param w =
     Some (0, h', b', w, dh_set_unpack (ud_incomplete k m u) handlers) /\ keeps_content h b c h' b'.
Proof using.
  intros Hv Hm H31 Hn Hk Hd. destruct (sb_view_lens h b c Hv) as (_ & Hr & Ho & Hl).
  assert (Hlen : lenZ c - n = k).
  { apply (f_equal length) in Hd. rewrite length_drop, length_take in Hd. unfold umsg_len in Hk. lia. }
  assert (Hc31 : lenZ c < 2 ^ 31) by (destruct Hv as (? & ? & ? & ? & ? & _); lia).
  unfold dh_handleOne. cbv zeta. rewrite Hr, (u32_id (lenZ c - n)) by (unfold is_u32; lia). rewrite Hlen.
  destruct (sb_memory_view h b c n Hv) as [post ->]; [lia|]. rewrite Hd.
  rewrite unpack_frame_incomplete by (done || lia). cbv beta iota zeta delta [mbind option_bind].
  change (dh_unpack_data_ (dh_set_unpack u handlers)) with u. change (0 <? 0) with false. change (0 =? 0) with true. cbn [andb].
  assert (is_user_type (ud_type (ud_incomplete k m u)) = true) as ->
    by (unfold ud_incomplete; destruct (k <? _); apply is_user_type_umsg).
  cbn [negb]. unfold ud_incomplete. destruct (k <? _); cbn [ud_result].
  - destruct (sb_maybe_compact true h b c Hv) as (h' & b' & E & Hkc). exists h', b'. cbn in E. cbn. by rewrite E.
  - change (JMY_UNPACK_RESULT_USER_DATA_NOT_ENOUGH =? JMY_UNPACK_RESULT_DATA_NOT_ENOUGH) with false.
    change (JMY_UNPACK_RESULT_USER_DATA_NOT_ENOUGH =? JMY_UNPACK_RESULT_USER_DATA_NOT_ENOUGH) with true. cbv iota.
    match goal with |- context [if ?t then sb_moveDataToFront h b else _] =>
      destruct (sb_maybe_compact t h b c Hv) as (h' & b' & -> & Hkc) end. by exists h', b'.
Qed.

Lemma frames_cons m ms : frames (m :: ms) = umsg_frame m ++ frames ms.
Proof using. done. Qed.

Lemma frame_nonempty m : umsg_frame m <> [].
Proof using. pose proof (umsg_len_pos m). unfold umsg_len in *. by destruct (umsg_frame m). Qed.

(** The loop on frames and what is left of the next one. *)
Lemma dh_loop_frames fuel h b c n count ms part u w :
  reads_payload -> sb_view h b c -> SessionBuffer.len_ b < 2 ^ 31 -> 0 <= n < lenZ c ->
  Forall umsg_ok ms -> partial part -> drop (Z.to_nat n) c = frames ms ++ part ->
  lenZ c - n < Z.of_nat fuel ->
  exists h' b' u', dh_loop fuel h b (lenZ c) n count (dh_set_unpack u handlers) conn_id param w =
    Some (if fst (dh_deliver ms w) then count + lenZ ms else -1, h', b', snd (dh_deliver ms w), dh_set_unpack u' handlers) /\
    (fst (dh_deliver ms w) = true -> keeps_suffix h b c (lenZ c - lenZ part) h' b' /\
       (part = [] -> h' = h /\ write_offset_ b' = write_offset_ b /\ exists m, last ms = Some m /\
          ud_type u' = umsg_type m /\ ud_result u' = JMY_UNPACK_RESULT_NO_ERROR /\
          clip (ud_msg_info u') = clip (umsg_info conn_id param [] m))).
Proof using.
  intros Hrp. revert h b n count ms u w. induction fuel as [|fuel IH]; intros h b n count ms u w Hv H31 Hn Hms Hpart Hd Hf; [lia|].
  assert (Hc32 : lenZ c < 2 ^ 31) by (destruct (sb_view_lens _ _ _ Hv); destruct Hv as (? & ? & ? & ? & ? & _); lia).
  assert (Hlen : lenZ c - n = lenZ (frames ms) + lenZ part).
  { rewrite <-Nat2Z.inj_add, <-length_app, <-Hd, length_drop. lia. }
  cbn [dh_loop]. destruct ms as [|m ms].
  - destruct Hpart as [->|(m & k & Hm & Hk & Hp)]; [simpl in Hlen; lia|].
    cbn [frames fmap list_fmap concat app] in Hd. rewrite Hp in Hd.
    destruct (handleOne_partial h b c n m k u w Hv Hm H31 ltac:(lia) Hk Hd) as (h' & b' & -> & Hkc).
    cbv beta iota zeta delta [mbind option_bind]. change (0 <? 0) with false. change (0 =? 0) with true. cbv iota.
    exists h', (snd (sb_readLen b' n)), (ud_incomplete k m u). split; [cbn [dh_deliver fst snd length]; by rewrite Z.add_0_r|].
    intros _. split; [|intros ->; simpl in Hlen; lia]. simpl in Hlen.
    replace (lenZ c - lenZ part) with n by lia. apply readLen_suffix; [done|lia].
  - apply Forall_cons_1 in Hms as [Hm Hms]. rewrite frames_cons, <-app_assoc in Hd.
    destruct (handleOne_frame h b c n m _ u w Hrp Hv Hm H31 ltac:(lia) Hd) as (u1 & -> & Ht & Hres & Hclip).
    pose proof (umsg_len_pos m). rewrite frames_cons, length_app in Hlen. fold (umsg_len m) in Hlen.
    assert (Hlen' : lenZ c - n = umsg_len m + lenZ (frames ms) + lenZ part) by (unfold umsg_len; lia).
    cbn [dh_deliver]. destruct dh_handleMsg as [r w1]. cbv beta iota zeta delta [mbind option_bind].
    destruct (Z.ltb_spec r 0); [by exists h, b, u1|].
    rewrite (proj2 (Z.ltb_ge _ 0)), (proj2 (Z.eqb_neq _ 0)) by lia.
    change (ud_type (dh_unpack_data_ (dh_set_unpack u1 handlers))) with (ud_type u1). rewrite Ht, is_user_type_umsg.
    rewrite (u32_id (n + _)), (u32_id (lenZ c - _)) by (unfold is_u32; lia).
    destruct (Z.eqb_spec (lenZ c - (n + umsg_len m)) 0) as [E|E].
    + assert (ms = []) as ->.
      { destruct ms as [|m2 ms]; [done|]. rewrite frames_cons, length_app in Hlen'.
        pose proof (umsg_len_pos m2). unfold umsg_len in *. lia. }
      assert (part = []) as -> by (simpl in Hlen'; destruct part; [done|simpl in Hlen'; lia]).
      exists h, (snd (sb_readLen b (n + umsg_len m))), u1. split; [done|]. intros _.
      split; [cbn [length] in *; replace (lenZ c - Z.of_nat 0) with (n + umsg_len m) by lia;
        apply readLen_suffix; [by apply keeps_content_refl|lia]|].
      intros _. split; [done|]. split; [unfold sb_readLen; by destruct (_ <? _)|]. by exists m.
    + destruct (IH h b (n + umsg_len m) (count + 1) ms u1 w1) as (h' & b' & u' & -> & Hx); [done|done|lia|done|done| |lia|].
      { replace (Z.to_nat (n + umsg_len m)) with (Z.to_nat n + Z.to_nat (umsg_len m))%nat by lia.
        rewrite <-drop_drop, Hd. apply drop_app_length'. unfold umsg_len. lia. }
      exists h', b', u'.
      split; [cbn [length]; by replace (count + 1 + lenZ ms) with (count + Z.of_nat (S (length ms))) by lia|].
      intros Hfst. destruct (Hx Hfst) as [HA HB]. split; [done|]. intros Hp. destruct (HB Hp) as (-> & Ho & m' & Hl & ?).
      split; [done|]. split; [done|]. exists m'. split; [|done]. destruct ms; [done|done].
Qed.

Lemma dh_deliver_app ms1 ms2 w :
  dh_deliver (ms1 ++ ms2) w =
    if fst (dh_deliver ms1 w) then dh_deliver ms2 (snd (dh_deliver ms1 w)) else dh_deliver ms1 w.
Proof using.
  revert w. induction ms1 as [|m ms1 IH]; intros w; [done|]. simpl. destruct dh_handleMsg as [r w1].
  destruct (r <? 0); [done|]. by rewrite IH.
Qed.

Lemma frames_app ms1 ms2 : frames (ms1 ++ ms2) = frames ms1 ++ frames ms2.
Proof using. unfold frames. by rewrite fmap_app, concat_app. Qed.

(** A prefix of a stream of frames: whole frames and a part of the next one. *)
Lemma frames_split ms x y :
  Forall umsg_ok ms -> x ++ y = frames ms ->
  exists ms1 ms2 part, ms = ms1 ++ ms2 /\ x = frames ms1 ++ part /\ partial part /\ part ++ y = frames ms2.
Proof using.
  intros Hms. revert x. induction Hms as [|m ms Hm Hms IH]; intros x Hx.
  - destruct x; [|done]. exists [], [], []. split; [done|]. split; [done|]. split; [by left|done].
  - rewrite frames_cons in Hx. destruct (decide (lenZ x < umsg_len m)) as [Hl|Hl].
    + exists [], (m :: ms), x. split; [done|]. split; [done|]. split; [|by rewrite frames_cons].
      destruct x as [|z x]; [by left|right]. exists m, (lenZ (z :: x)). split; [done|]. split; [simpl in *; lia|].
      apply (f_equal (take (length (z :: x)))) in Hx. rewrite take_app_length in Hx. rewrite Nat2Z.id.
      etransitivity; [exact Hx|]. apply take_app_le. unfold umsg_len in Hl. lia.
    + pose proof Hx as Hx2. apply (f_equal (take (length (umsg_frame m)))) in Hx.
      apply (f_equal (drop (length (umsg_frame m)))) in Hx2.
      unfold umsg_len in Hl. rewrite take_app_length, take_app_le in Hx by lia.
      rewrite drop_app_length, drop_app_le in Hx2 by lia.
      destruct (IH _ Hx2) as (ms1 & ms2 & part & -> & Hd & Hp & He).
      exists (m :: ms1), ms2, part. split; [done|]. split; [|done].
      rewrite frames_cons, <-app_assoc, <-Hd. rewrite <-(take_drop (length (umsg_frame m)) x) at 1. by rewrite Hx.
Qed.

(** Receiving chunk by chunk: a chunk is stored at [getWriteBuff()], [writeLen] commits it
    and the data is processed.  [false]: a chunk did not fit or a handler failed. *)
Fixpoint dh_feed (cs : list (list Z)) (h : heap) (b : JmySessionBuffer) (H1 : JmyDataHandler W) (w : W) (total : Z)
  : option (bool * Z * heap * JmySessionBuffer * W * JmyDataHandler W) :=
  match cs with
  | [] => Some (true, total, h, b, w, H1)
  | d :: cs =>
    '(ok, h, b) ← sb_exec (op_recv d) h b;
    if negb ok then Some (false, total, h, b, w, H1) else
    '(r, h, b, w, H1) ← dh_processData h b H1 conn_id param w;
    if r <? 0 then Some (false, total, h, b, w, H1) else
    dh_feed cs h b H1 w (total + r)
  end.

Lemma recv_chunk h b c d :
  sb_view h b c -> lenZ d < 2 ^ 32 ->
  exists ok h' b', sb_exec (op_recv d) h b = Some (ok, h', b') /\ buff_ b' = buff_ b /\
    SessionBuffer.len_ b' = SessionBuffer.len_ b /\
    (ok = true -> sb_view h' b' (c ++ d) /\ write_offset_ b' = write_offset_ b + lenZ d) /\
    (lenZ d <= SessionBuffer.len_ b - write_offset_ b -> ok = true).
Proof using.
  intros Hv Hd. destruct (sb_view_lens _ _ _ Hv) as (Hw & Hr & Ho & Hl). cbn [sb_exec]. rewrite Hw.
  destruct (Z.ltb_spec (SessionBuffer.len_ b - write_offset_ b) (lenZ d)).
  { eexists _, _, _. split; [done|]. split; [done|]. split; [done|]. split; [done|lia]. }
  destruct (sb_view_append h b c d Hv) as (h' & -> & Hv' & _); [lia|].
  cbv beta iota zeta delta [mbind option_bind]. unfold sb_writeLen. rewrite Hw, (proj2 (Z.ltb_ge _ (lenZ d))) by lia.
  rewrite u32_id by (unfold is_u32; lia). by eexists _, _, _.
Qed.

Lemma dh_feed_delivers cs h b c u w total ms rest :
  reads_payload -> sb_view h b c -> SessionBuffer.len_ b < 2 ^ 31 -> Forall umsg_ok ms -> partial c ->
  Forall (fun d => d <> [] /\ lenZ d < 2 ^ 32) cs -> c ++ concat cs ++ rest = frames ms -> fst (dh_deliver ms w) = true ->
  exists ok n h' b' w' u', dh_feed cs h b (dh_set_unpack u handlers) w total = Some (ok, n, h', b', w', dh_set_unpack u' handlers) /\
    (ok = true -> exists ms1 ms2 part, ms = ms1 ++ ms2 /\ c ++ concat cs = frames ms1 ++ part /\ partial part /\
       n = total + lenZ ms1 /\ w' = snd (dh_deliver ms1 w) /\ sb_view h' b' part) /\
    (lenZ (concat cs) <= SessionBuffer.len_ b - write_offset_ b -> ok = true).
Proof using.
  intros Hrp. revert h b c u w total ms.
  induction cs as [|d cs IH]; intros h b c u w total ms Hv H31 Hms Hc Hcs Hst Hdel.
  { exists true, total, h, b, w, u. split; [done|]. split; [|done]. intros _. exists [], ms, c. rewrite app_nil_r, Z.add_0_r.
    by repeat split. }
  apply Forall_cons_1 in Hcs as [[Hd Hd32] Hcs]. cbn [dh_feed].
  destruct (recv_chunk h b c d Hv Hd32) as (ok & h1 & b1 & -> & Hb1 & Hl1 & Hok & Hfit).
  cbv beta iota zeta delta [mbind option_bind]. destruct ok; cbn [negb].
  2: { exists false, total, h1, b1, w, u. split; [done|]. split; [done|]. cbn [concat]. rewrite length_app. intros. apply Hfit. lia. }
  destruct (Hok eq_refl) as [Hv1 Hw1]. cbn [concat] in Hst. rewrite <-(app_assoc d), app_assoc in Hst.
  destruct (frames_split ms (c ++ d) (concat cs ++ rest) Hms Hst) as (ms1 & ms2 & part & -> & Hcd & Hpart & Hst2).
  apply Forall_app in Hms as [Hms1 Hms2]. rewrite dh_deliver_app in Hdel.
  assert (Hpos : 0 < lenZ (c ++ d)) by (rewrite length_app; destruct d; [done|simpl; lia]).
  destruct (sb_view_lens _ _ _ Hv1) as (_ & Hr & _). unfold dh_processData. rewrite Hr.
  destruct (dh_loop_frames (S (Z.to_nat (lenZ (c ++ d)))) h1 b1 (c ++ d) 0 0 ms1 part u w)
    as (h2 & b2 & u2 & -> & Hsuf); [done|done|lia|lia|done|done|by rewrite drop_0|lia|].
  cbv beta iota zeta delta [mbind option_bind].
  destruct (fst (dh_deliver ms1 w)) eqn:Hdel1; [|congruence].
  rewrite (proj2 (Z.ltb_ge _ 0)) by lia. destruct (Hsuf eq_refl) as [(Hv2 & Hb2 & [Hl2 Hw2] & _) _].
  assert (Hdrop : drop (Z.to_nat (lenZ (c ++ d) - lenZ part)) (c ++ d) = part).
  { rewrite Hcd. apply drop_app_length'. rewrite length_app. lia. }
  rewrite Hdrop in Hv2.
  destruct (IH h2 b2 part u2 (snd (dh_deliver ms1 w)) (total + (0 + lenZ ms1)) ms2)
    as (ok & n & h3 & b3 & w3 & u3 & -> & Hres & Hroom); [done|lia|done|done|done|done|done|].
  exists ok, n, h3, b3, w3, u3. split; [done|]. split.
  - intros ->. destruct (Hres eq_refl) as (ms3 & ms4 & part' & -> & Hcc & Hp' & -> & -> & Hv3).
    exists (ms1 ++ ms3), ms4, part'. rewrite dh_deliver_app, Hdel1, length_app. split; [by rewrite app_assoc|].
    split; [cbn [concat]; by rewrite (app_assoc c), Hcd, frames_app, <-!app_assoc, Hcc|].
    split; [done|]. split; [lia|done].
  - cbn [concat]. rewrite length_app. intros. apply Hroom. lia.
Qed.

(** C28.  Delivery with protocol 1.  However the frames of a sequence of messages are cut into
    non-empty chunks, and also when only a prefix of them was received, storing each chunk in
    an empty receive buffer and calling [processData] hands to the message handlers
    exactly the messages whose frame is complete, in order and with the user id, message id and payload
    that were packed, returns their number in total, and leaves the
    incomplete frame in the buffer.  It cannot fail before the free space
    is used up. *)
Theorem chunks_delivered_protocol1 : forall cs rest ms h b u w,
  reads_payload -> sb_wf h b -> sb_content h b = [] -> SessionBuffer.len_ b < 2 ^ 31 -> Forall umsg_ok ms ->
  Forall (fun d => d <> [] /\ lenZ d < 2 ^ 32) cs -> concat cs ++ rest = frames ms -> fst (dh_deliver ms w) = true ->
  exists ok n h' b' w' u', dh_feed cs h b (dh_set_unpack u handlers) w 0 = Some (ok, n, h', b', w', dh_set_unpack u' handlers) /\
    (ok = true -> exists ms1 ms2 part, ms = ms1 ++ ms2 /\ concat cs = frames ms1 ++ part /\ partial part /\
       n = lenZ ms1 /\ w' = snd (dh_deliver ms1 w) /\ sb_content h' b' = part) /\
    (lenZ (concat cs) <= SessionBuffer.len_ b - write_offset_ b -> ok = true).
Proof using.
  intros cs rest ms h b u w Hrp Hwf Hc H31 Hms Hcs Hst Hdel. destruct (sb_wf_view h b Hwf) as [c Hv].
  rewrite (sb_view_content _ _ _ Hv) in Hc. subst c.
  destruct (dh_feed_delivers cs h b [] u w 0 ms rest) as (ok & n & h' & b' & w' & u' & E & Hr & Hroom); try done; [by left|].
  exists ok, n, h', b', w', u'. split; [done|]. split; [|done].
  intros Hok. destruct (Hr Hok) as (ms1 & ms2 & part & ? & ? & ? & ? & ? & Hv'). exists ms1, ms2, part.
  by rewrite (sb_view_content _ _ _ Hv').
Qed.

Lemma readLen_zero h b c : sb_view h b c -> snd (sb_readLen b 0) = b.
Proof using.
  intros Hv. destruct (sb_view_lens _ _ _ Hv) as (_ & Hr & Ho & Hl). unfold sb_readLen.
  rewrite Hr, (proj2 (Z.ltb_ge _ 0)) by lia. cbn [snd]. rewrite Z.add_0_r, u32_id by (unfold is_u32; lia). by destruct b.
Qed.

(** [processData] with nothing to read after a message. *)
Lemma processData_empty_replays h b u m w :
  reads_payload -> sb_view h b [] -> ud_type u = umsg_type m -> ud_result u = JMY_UNPACK_RESULT_NO_ERROR ->
  clip (ud_msg_info u) = clip (umsg_info conn_id param [] m) ->
  dh_processData h b (dh_set_unpack u handlers) conn_id param w =
    (let '(r, w') := dh_handleMsg handlers (clip (umsg_info conn_id param [] m)) w in
     Some (if r <? 0 then -1 else 0, h, b, w', dh_set_unpack u handlers)).
Proof using.
  intros Hrp Hv Ht Hres Hclip. destruct (sb_view_lens _ _ _ Hv) as (_ & Hr & _).
  unfold dh_processData. rewrite Hr. change (S (Z.to_nat (lenZ []))) with 1%nat. cbn [dh_loop].
  unfold dh_handleOne. cbv zeta. rewrite Hr. change (u32 (lenZ [] - 0)) with 0. rewrite unpack_nothing.
  cbv beta iota zeta delta [mbind option_bind]. change (dh_unpack_data_ (dh_set_unpack u handlers)) with u.
  change (0 <? 0) with false. change (0 =? 0) with true. rewrite Ht, is_user_type_umsg, Hres. cbn [negb andb].
  change (JMY_UNPACK_RESULT_NO_ERROR =? JMY_UNPACK_RESULT_DATA_NOT_ENOUGH) with false.
  change (JMY_UNPACK_RESULT_NO_ERROR =? JMY_UNPACK_RESULT_USER_DATA_NOT_ENOUGH) with false. cbv iota.
  rewrite !dh_handleMsg_unpack, Hrp, Hclip. destruct dh_handleMsg as [r w'].
  destruct (r <? 0); [done|]. cbv iota. by rewrite (readLen_zero h b [] Hv).
Qed.

(** A receive buffer that was filled to its last byte by complete frames is stuck: the messages are
    delivered, but no byte is free for the next read, since the buffer is compacted only
    when an incomplete frame is left. The empty read that follows then calls [processData]
    without data, and every such call hands the last message to its handler again
    and changes nothing else, so it happens forever. *)
Theorem full_buffer_redelivers : forall h b ms u w,
  reads_payload -> sb_wf h b -> SessionBuffer.len_ b < 2 ^ 31 -> write_offset_ b = SessionBuffer.len_ b ->
  Forall umsg_ok ms -> ms <> [] -> sb_content h b = frames ms -> fst (dh_deliver ms w) = true ->
  exists b' u' m, last ms = Some m /\
    dh_processData h b (dh_set_unpack u handlers) conn_id param w =
      Some (lenZ ms, h, b', snd (dh_deliver ms w), dh_set_unpack u' handlers) /\
    sb_getWriteLen b' = 0 /\
    forall w, dh_processData h b' (dh_set_unpack u' handlers) conn_id param w =
      let '(r, w') := dh_handleMsg handlers (clip (umsg_info conn_id param [] m)) w in
      Some (if r <? 0 then -1 else 0, h, b', w', dh_set_unpack u' handlers).
Proof using.
  intros h b ms u w Hrp Hwf H31 Hfull Hms Hne Hc Hdel. destruct (sb_wf_view h b Hwf) as [c Hv].
  rewrite (sb_view_content _ _ _ Hv) in Hc. subst c. destruct (sb_view_lens _ _ _ Hv) as (_ & Hr & Ho & Hl).
  assert (Hpos : 0 < lenZ (frames ms)).
  { destruct ms as [|m ms]; [done|]. rewrite frames_cons, length_app. pose proof (umsg_len_pos m). unfold umsg_len in *. lia. }
  unfold dh_processData at 1. rewrite Hr.
  destruct (dh_loop_frames (S (Z.to_nat (lenZ (frames ms)))) h b (frames ms) 0 0 ms [] u w)
    as (h' & b' & u' & -> & Hsuf); [done|done|done|lia|done|by left|by rewrite app_nil_r, drop_0|lia|].
  destruct (Hsuf Hdel) as [(Hv' & Hb' & [Hl' _] & _) Hlast]. destruct (Hlast eq_refl) as (-> & Hw' & m & Hm & Ht & Hres & Hclip).
  rewrite Z.sub_0_r, Nat2Z.id, drop_all in Hv'. rewrite Hdel.
  exists b', u', m. split; [done|]. split; [done|]. split.
  - destruct (sb_view_lens _ _ _ Hv') as (-> & _). lia.
  - intros w'. by apply processData_empty_replays.
Qed.
End deliver1.

(** ** Witnesses: an application that logs the messages it gets *)

Definition dh_log_world : Type := list (Z * Z * list Z).
Definition dh_log_handler : jmy_msg_handler dh_log_world :=
  fun m w => (0, w ++ [(mi_user_id m, mi_msg_id m, default [] (mi_payload m))]).
#[local] Instance dh_log_calls : ConnCalls dh_log_world := {|
  mgr_get _ _ := true;
  conn_handleHeartbeat _ w := Some (0, w);
  conn_handleDisconnect _ w := Some (0, w);
  conn_handleDisconnectAck _ w := Some (0, w);
|}.
Definition dh_log : JmyDataHandler dh_log_world := mkDH {[ 7 := dh_log_handler ]} (Some dh_log_handler) JmyPacketUnpackData_new.

Lemma mi_payload_clip m : mi_payload (clip m) = mi_payload m.
Proof.
  unfold mi_payload at 1, clip. cbn [mi_data mi_len].
  destruct (mi_payload m) as [d|] eqn:E; [|done]. cbv beta iota zeta delta [mbind option_bind].
  unfold mi_payload in E. destruct (mi_data m) as [x|]; [|done]. cbv beta iota zeta delta [mbind option_bind] in E.
  rewrite <-(mem_read_length _ _ _ _ E). apply mem_read_all.
Qed.

Lemma dh_log_reads_payload : reads_payload dh_log.
Proof.
  intros m w. unfold dh_handleMsg. cbn [clip mi_msg_id mi_len dh_msg_handler_map_ dh_default_msg_handler_ dh_log].
  assert (E : forall w, dh_log_handler (clip m) w = dh_log_handler m w)
    by (intros; unfold dh_log_handler; by rewrite mi_payload_clip).
  destruct (({[ 7 := dh_log_handler ]} : gmap Z (jmy_msg_handler dh_log_world)) !! mi_msg_id m) as [f|] eqn:Ef.
  - apply lookup_singleton_Some in Ef as [_ <-]. by rewrite E.
  - by rewrite E.
Qed.

(** A receive buffer of [n] bytes with [data] in it. *)
Definition recv_heap (n : Z) (data : list Z) : heap := {[ 1 := data ++ repeat 0 (Z.to_nat n - length data)%nat ]}.
Definition recv_buffer (n : Z) (data : list Z) : JmySessionBuffer := mkSB true 1 n SESSION_BUFFER_TYPE_RECV (lenZ data) 0.

Lemma recv_buffer_wf n data : lenZ data <= n < 2 ^ 32 -> sb_wf (recv_heap n data) (recv_buffer n data).
Proof.
  intros Hn. unfold sb_wf, recv_buffer. simpl. split; [lia|]. split; [lia|]. split; [lia|]. intros _. split; [done|].
  unfold recv_heap. rewrite lookup_singleton_eq. eexists. split; [done|]. rewrite length_app, repeat_length. lia.
Qed.

Definition wit_msgs : list umsg := [mkUmsg None 7 [1; 2]; mkUmsg (Some (-2)) 8 [3]].

Lemma wit_msgs_ok : Forall umsg_ok wit_msgs.
Proof. repeat constructor; vm_compute; congruence. Qed.

Lemma processData_protocol1_safe_witness :
  let b := recv_buffer 8 [5; 0; 4; 0; 7; 1; 2; 99] in let h := recv_heap 8 [5; 0; 4; 0; 7; 1; 2; 99] in
  (@calls_defined dh_log_world _ /\ sb_wf h b) /\
  exists r h' b' w' H1' k, dh_processData h b dh_log 1 0 [] = Some (r, h', b', w', H1') /\ r = -1 /\ k = 0%nat /\
    sb_content h' b' = drop k (sb_content h b) /\ w' = [(0, 7, [1; 2])].
Proof.
  cbv zeta.
  assert (Hc : @calls_defined dh_log_world _) by (intros id w; repeat split; eexists; reflexivity).
  assert (Hw : sb_wf (recv_heap 8 [5; 0; 4; 0; 7; 1; 2; 99]) (recv_buffer 8 [5; 0; 4; 0; 7; 1; 2; 99])).
  { apply recv_buffer_wf. vm_compute. split; congruence. }
  split; [split; [exact Hc|exact Hw]|].
  destruct (processData_protocol1_safe _ _ dh_log 1 0 [] Hc Hw ltac:(vm_compute; reflexivity))
    as (r & h' & b' & w' & H1' & k & E & _ & Hs & Hr & _).
  exists r, h', b', w', H1', k. split; [exact E|].
  assert (Hv : (fun x => (x.1.1.1.1, x.1.2)) <$> dh_processData (recv_heap 8 [5; 0; 4; 0; 7; 1; 2; 99])
    (recv_buffer 8 [5; 0; 4; 0; 7; 1; 2; 99]) dh_log 1 0 [] = Some (-1, [(0, 7, [1; 2])])) by (vm_compute; reflexivity).
  rewrite E in Hv. simpl in Hv. injection Hv as -> ->.
  destruct Hr as [[_ ->]|Hr]; [|lia]. split; [reflexivity|]. split; [reflexivity|]. split; [exact Hs|reflexivity].
Defined.

Lemma chunks_delivered_protocol1_witness :
  let h := recv_heap 32 [] in let b := recv_buffer 32 [] in
  let cs := [[5; 0]; [4; 0; 7; 1; 2; 10]; [-1; -1; -1; -2; 0; 3; 0; 8; 3]] in
  (reads_payload dh_log /\ sb_wf h b /\ Forall umsg_ok wit_msgs /\ concat cs ++ [] = frames wit_msgs /\
   fst (dh_deliver dh_log 1 0 wit_msgs []) = true) /\
  exists n h' b' w' u', dh_feed 1 0 cs h b (dh_set_unpack JmyPacketUnpackData_new dh_log) [] 0
      = Some (true, n, h', b', w', dh_set_unpack u' dh_log) /\
    n = 2 /\ w' = [(0, 7, [1; 2]); (-2, 8, [3])].
Proof.
  cbv zeta. set (cs := [[5; 0]; [4; 0; 7; 1; 2; 10]; [-1; -1; -1; -2; 0; 3; 0; 8; 3]]).
  assert (Hw : sb_wf (recv_heap 32 []) (recv_buffer 32 [])) by (apply recv_buffer_wf; vm_compute; split; congruence).
  assert (Hst : concat cs ++ [] = frames wit_msgs) by (vm_compute; reflexivity).
  assert (Hd : fst (dh_deliver dh_log 1 0 wit_msgs []) = true) by (vm_compute; reflexivity).
  split; [split; [exact dh_log_reads_payload|split; [exact Hw|split; [exact wit_msgs_ok|split; [exact Hst|exact Hd]]]]|].
  destruct (chunks_delivered_protocol1 dh_log 1 0 cs [] wit_msgs _ _ JmyPacketUnpackData_new [] dh_log_reads_payload Hw
    ltac:(vm_compute; reflexivity) ltac:(vm_compute; reflexivity) wit_msgs_ok
    ltac:(repeat constructor; vm_compute; congruence) Hst Hd) as (ok & n & h' & b' & w' & u' & E & _ & Hok).
  rewrite (Hok ltac:(vm_compute; congruence)) in E. exists n, h', b', w', u'. split; [exact E|].
  assert (Hv : (fun x => (x.1.1.1.1.2, x.1.2)) <$> dh_feed 1 0 cs (recv_heap 32 []) (recv_buffer 32 [])
    (dh_set_unpack JmyPacketUnpackData_new dh_log) [] 0 = Some (2, [(0, 7, [1; 2]); (-2, 8, [3])])) by (vm_compute; reflexivity).
  rewrite E in Hv. simpl in Hv. injection Hv as -> ->. split; reflexivity.
Defined.

Lemma full_buffer_redelivers_witness :
  let h := recv_heap 17 (frames wit_msgs) in let b := recv_buffer 17 (frames wit_msgs) in
  (reads_payload dh_log /\ sb_wf h b /\ write_offset_ b = 17 /\ sb_content h b = frames wit_msgs) /\
  exists b' u', dh_processData h b (dh_set_unpack JmyPacketUnpackData_new dh_log) 1 0 [] =
      Some (2, h, b', [(0, 7, [1; 2]); (-2, 8, [3])], dh_set_unpack u' dh_log) /\
    dh_processData h b' (dh_set_unpack u' dh_log) 1 0 [] = Some (0, h, b', [(-2, 8, [3])], dh_set_unpack u' dh_log).
Proof.
  cbv zeta.
  assert (Hw : sb_wf (recv_heap 17 (frames wit_msgs)) (recv_buffer 17 (frames wit_msgs)))
    by (apply recv_buffer_wf; vm_compute; split; congruence).
  split; [split; [exact dh_log_reads_payload|split; [exact Hw|split; vm_compute; reflexivity]]|].
  destruct (full_buffer_redelivers dh_log 1 0 _ _ wit_msgs JmyPacketUnpackData_new [] dh_log_reads_payload Hw
    ltac:(vm_compute; reflexivity) ltac:(vm_compute; reflexivity) wit_msgs_ok ltac:(discriminate)
    ltac:(vm_compute; reflexivity) ltac:(vm_compute; reflexivity)) as (b' & u' & m & Hm & E & _ & Hrep).
  exists b', u'. split; [exact E|]. rewrite Hrep. injection Hm as <-. vm_compute. reflexivity.
Defined.

(** ** What is written *)

Inductive packet1 : Type :=
| pk1_msg (m : umsg)
| pk1_heartbeat (t : Z)
| pk1_disconnect
| pk1_disconnect_ack.

Definition packet1_bytes (p : packet1) : list Z :=
  match p with
  | pk1_msg m => umsg_frame m
  | pk1_heartbeat t => JMY_PACKET_HEARTBEAT :: be32 t
  | pk1_disconnect => [JMY_PACKET_DISCONNECT]
  | pk1_disconnect_ack => [JMY_PACKET_DISCONNECT_ACK]
  end.

(** The value returned for a packet that is written: the length of the data. *)
Definition packet1_ret (p : packet1) : Z := match p with pk1_msg m => lenZ (um_data m) | _ => 0 end.

Definition write_packet1 {S} `{SendBuffer S} (s : S) (p : packet1) : option (Z * S) :=
  match p with
  | pk1_msg (mkUmsg None i d) => dh_writeUserData s i d (lenZ d)
  | pk1_msg (mkUmsg (Some u) i d) => dh_writeUserIdAndData s u i d (lenZ d)
  | pk1_heartbeat t => dh_writeHeartbeat t s
  | pk1_disconnect => dh_writeDisconnect s
  | pk1_disconnect_ack => dh_writeDisconnectAck s
  end.

Section write_laws1.
Context {S : Type} {HS : SendBuffer S} {HL : SendBufferLaws S}.

Lemma write_packet1_appends s p :
  sbuf_ok s -> lenZ (packet1_bytes p) < 2 ^ 16 ->
  appends s (packet1_bytes p) (packet1_ret p) (write_packet1 s p).
Proof using HL.
  intros Hs Hl. destruct p as [[u i d]|t| |]; cbn [write_packet1 packet1_bytes packet1_ret um_data] in *.
  - fold (umsg_len (mkUmsg u i d)) in Hl. rewrite umsg_len_eq in Hl. pose proof (umsg_pre_len (mkUmsg u i d)).
    cbn [um_data] in Hl. destruct u as [u|].
    + unfold dh_writeUserIdAndData. change JMY_PACKET_LEN_USER_ID_DATA_HEAD with 9.
      rewrite (packs_local _ _ _ (userid_msgid_datalen_packs u i d)) by done.
      cbv beta iota zeta delta [mbind option_bind default from_option id].
      destruct (Z.eqb_spec (lenZ d) 0) as [E|E].
      * destruct d; [|done]. unfold umsg_frame. rewrite app_nil_r. by apply write_head_only_appends.
      * apply write_two_appends; try (by destruct d); try done; simpl in *; lia.
    + unfold dh_writeUserData. change JMY_PACKET_LEN_USER_DATA_HEAD with 5.
      unfold u16 at 1. rewrite Z.mod_small by lia.
      rewrite (packs_local _ _ _ (msgid_datalen_packs i d)) by done.
      cbv beta iota zeta delta [mbind option_bind default from_option id].
      change (5 <? 0) with false. cbv iota. rewrite s32_id by (unfold is_s32; lia).
      destruct (Z.eqb_spec (lenZ d) 0) as [E|E].
      * destruct d; [|done]. unfold umsg_frame. rewrite app_nil_r. by apply write_head_only_appends.
      * apply write_two_appends; try (by destruct d); try done; simpl in *; lia.
  - unfold dh_writeHeartbeat. change JMY_PACKET_LEN_HEARTBEAT with 5. rewrite (packs_local _ _ _ (heartbeat1_packs t)) by done.
    by apply write_head_only_appends.
  - unfold dh_writeDisconnect. change JMY_PACKET_LEN_DISCONNECT with 1. rewrite (packs_local _ _ _ disconnect1_packs) by done.
    by apply write_head_only_appends.
  - unfold dh_writeDisconnectAck. change JMY_PACKET_LEN_DISCONNECT_ACK with 1. rewrite (packs_local _ _ _ disconnect_ack1_packs) by done.
    by apply write_head_only_appends.
Qed.
End write_laws1.

(** The overloads for a session buffer, which compact it first. *)
Definition write_session1 (s : heap * JmySessionBuffer) (m : umsg) : option (Z * (heap * JmySessionBuffer)) :=
  match um_user m with
  | None => dh_writeUserData_session s (um_id m) (Some (um_data m)) (lenZ (um_data m))
  | Some u => dh_writeUserIdAndData_session s u (um_id m) (Some (um_data m)) (lenZ (um_data m))
  end.

Lemma checkWriteLen_view h b c n :
  sb_view h b c -> 0 <= n ->
  exists h1 b1, sb_checkWriteLen h b n = Some (lenZ c + n <=? SessionBuffer.len_ b, h1, b1) /\ sb_view h1 b1 c /\
    (lenZ c + n <= SessionBuffer.len_ b -> sb_accepts b1 n = true).
Proof.
  intros Hv Hn. destruct (sb_view_lens _ _ _ Hv) as (Hw & Hr & Ho & Hlen).
  assert (Hcw : lenZ c <= write_offset_ b) by (destruct Hv as (? & ? & ? & ? & _); lia).
  unfold sb_checkWriteLen. rewrite Hw. destruct (Z.ltb_spec (SessionBuffer.len_ b - write_offset_ b) n).
  - destruct (sb_view_compact h b c Hv) as (h1 & -> & Hv1 & _). cbv beta iota zeta delta [mbind option_bind].
    destruct (sb_view_lens _ _ _ Hv1) as (-> & _). eexists _, _. split; [|split; [done|]].
    + cbn [sb_set_offsets write_offset_ SessionBuffer.len_]. do 3 f_equal. zbool.
    + intros. unfold sb_accepts. cbn [sb_set_offsets write_offset_ SessionBuffer.len_]. zbool.
  - exists h, b. split; [do 3 f_equal; zbool|]. split; [done|]. intros. unfold sb_accepts. zbool.
Qed.

Lemma write_session1_unfold h b m :
  umsg_len m < 2 ^ 16 ->
  write_session1 (h, b) m =
    '(ok, h, b) ← sb_checkWriteLen h b (umsg_len m);
    if negb ok then Some (-1, (h, b)) else write_packet1 (h, b) (pk1_msg m).
Proof.
  intros Hl. rewrite umsg_len_eq in *. unfold umsg_pre in *. unfold write_session1.
  destruct m as [[u|] i d]; cbn [um_user um_id um_data] in *;
    unfold dh_writeUserData_session, dh_writeUserIdAndData_session, JMY_PACKET_LEN_USER_DATA_HEAD, JMY_PACKET_LEN_USER_ID_DATA_HEAD;
    cbn [fst snd]; simpl in Hl; rewrite u32_id by (unfold is_u32; lia).
  - by replace (lenZ d + (1 + 4 + 2 + 2)) with (lenZ (JMY_PACKET_USER_ID_DATA :: be32 u) + 4 + lenZ d) by (simpl; lia).
  - by replace (lenZ d + (1 + 2 + 2)) with (lenZ [JMY_PACKET_USER_DATA] + 4 + lenZ d) by (simpl; lia).
Qed.

(** Writing a message of protocol 1 to a session buffer uses the whole capacity: for every well-formed
    buffer the call is memory safe, and it appends exactly the message's frame to the unread bytes, and
    returns the length of the data, if and only if the frame and the unread bytes together fit the
    buffer; otherwise it returns -1 and the unread bytes are unchanged. *)
Theorem session_write_exact : forall h b m,
  sb_wf h b -> umsg_len m < 2 ^ 16 ->
  let fits := lenZ (sb_content h b) + umsg_len m <=? SessionBuffer.len_ b in
  exists h' b', write_session1 (h, b) m = Some (if fits then lenZ (um_data m) else -1, (h', b')) /\
    sb_wf h' b' /\ sb_content h' b' = if fits then sb_content h b ++ umsg_frame m else sb_content h b.
Proof.
  intros h b m Hwf Hl. destruct (sb_wf_view h b Hwf) as [c Hv]. rewrite (sb_view_content _ _ _ Hv). cbv zeta.
  pose proof (umsg_len_pos m). rewrite write_session1_unfold by done.
  destruct (checkWriteLen_view h b c (umsg_len m) Hv) as (h1 & b1 & -> & Hv1 & Hacc); [lia|].
  cbv beta iota zeta delta [mbind option_bind]. destruct (Z.leb_spec (lenZ c + umsg_len m) (SessionBuffer.len_ b)); cbn [negb].
  - destruct (write_packet1_appends (h1, b1) (pk1_msg m)) as ([h2 b2] & -> & Hwf2 & Hst); [by eapply sb_view_wf|done|].
    cbn [sbuf_accepts session_SendBufferLaws sbuf_stream sbuf_ok fst snd] in *.
    change (lenZ (packet1_bytes (pk1_msg m))) with (umsg_len m) in *. rewrite Hacc in * by done.
    exists h2, b2. split; [done|]. split; [done|]. by rewrite Hst, (sb_view_content _ _ _ Hv1).
  - exists h1, b1. split; [done|]. split; [by eapply sb_view_wf|]. by apply sb_view_content.
Qed.

Lemma session_write_exact_witness :
  let b := sb_set_offsets 6 4 (recv_buffer 9 [1; 2; 3; 4; 5; 6]) in let h := recv_heap 9 [1; 2; 3; 4; 5; 6] in
  let m := mkUmsg None 7 [8; 9] in
  (sb_wf h b /\ umsg_len m < 2 ^ 16) /\
  exists h' b', write_session1 (h, b) m = Some (2, (h', b')) /\ sb_content h' b' = [5; 6; 5; 0; 4; 0; 7; 8; 9].
Proof.
  cbv zeta.
  assert (Hw : sb_wf (recv_heap 9 [1; 2; 3; 4; 5; 6]) (sb_set_offsets 6 4 (recv_buffer 9 [1; 2; 3; 4; 5; 6]))).
  { split; [vm_compute; split; congruence|]. split; [vm_compute; congruence|]. split; [vm_compute; reflexivity|].
    intros _. split; [vm_compute; congruence|]. eexists. split; vm_compute; reflexivity. }
  split; [split; [exact Hw|vm_compute; reflexivity]|].
  destruct (session_write_exact _ _ (mkUmsg None 7 [8; 9]) Hw ltac:(vm_compute; reflexivity)) as (h' & b' & E & _ & Hc).
  exists h', b'. split; [exact E|]. rewrite Hc. vm_compute. reflexivity.
Defined.

(** ** The double buffer *)

Section double.
Context {W : Type} `{ConnCalls W}.

Lemma db_set_normal s b : use_large_ b = false -> db_ref_set false s b = mkDB false s (large_buff_ b) (buff_pool_ b).
Proof using. unfold db_ref_set. by intros ->. Qed.

Lemma dh_loop_double_normal fuel h P b c n count (H1 : JmyDataHandler W) id param w r h' s' w' H1' :
  calls_defined (W := W) -> use_large_ b = false -> sb_view h (db_buff_ b) c -> 0 <= n <= lenZ c -> SessionBuffer.len_ (db_buff_ b) < 2 ^ 31 ->
  dh_loop fuel h (db_buff_ b) (lenZ c) n count H1 id param w = Some (r, h', s', w', H1') ->
  ud_data (dh_unpack_data_ H1') <= SessionBuffer.len_ (db_buff_ b) ->
  dh_loop_double fuel false h P b (lenZ c) n count H1 id param w =
    Some (r, h', P, mkDB false s' (large_buff_ b) (buff_pool_ b), w', H1').
Proof using.
  intros Hcalls. revert h b n count H1 w. induction fuel as [|fuel IH]; intros h b n count H1 w Hu Hv Hn H31 E Hd; [done|].
  assert (Hc32 : lenZ c < 2 ^ 31) by (destruct (sb_view_lens _ _ _ Hv); destruct Hv as (? & ? & ? & ? & ? & _); lia).
  destruct (sb_view_lens _ _ _ Hv) as (_ & _ & Ho & Hlen).
  cbn [dh_loop dh_loop_double] in *. change (db_ref false b) with (db_buff_ b).
  destruct (handleOne_safe h (db_buff_ b) c n H1 id param w Hcalls Hv Hn H31) as (r1 & h1 & b1 & w1 & H2 & E1 & Hk & Hr).
  rewrite E1 in *. cbv beta iota zeta delta [mbind option_bind] in *. rewrite (db_set_normal b1 b Hu).
  destruct Hk as (Hv1 & Hb1 & [Hl1 Hw1] & Hf1).
  destruct (Z.ltb_spec r1 0); [by inv_opt|]. destruct (Z.eqb_spec r1 0).
  - inv_opt. unfold dh_not_enough, db_isLarge, db_getTotalLen, db_getSessionBuffer. cbn [use_large_ db_buff_ negb andb].
    unfold sb_getTotalLen. rewrite Hl1, s32_id by (unfold is_s32; lia). rewrite (proj2 (Z.ltb_ge _ _)) by done.
    cbv beta iota zeta delta [mbind option_bind]. cbn [negb db_ref db_buff_ db_ref_set use_large_ large_buff_ buff_pool_].
    by rewrite u32_id by (unfold is_u32; lia).
  - unfold db_isLarge. cbn [use_large_ andb]. cbv beta iota zeta delta [mbind option_bind]. cbn [negb].
    rewrite s32_u32, s32_id by (unfold is_s32; lia). rewrite (u32_id (n + r1)) in E by (unfold is_u32; lia).
    destruct (u32 (lenZ c - (n + r1)) =? 0) eqn:Hz.
    + inv_opt. cbn [db_ref db_buff_ db_ref_set use_large_ large_buff_ buff_pool_].
      by rewrite u32_id by (unfold is_u32; lia).
    + rewrite u32_id in Hz by (unfold is_u32; lia). apply Z.eqb_neq in Hz.
      apply (IH h1 (mkDB false b1 (large_buff_ b) (buff_pool_ b))); cbn [db_buff_]; try done; try lia; by rewrite Hl1.
Qed.

(** On its normal buffer a double buffer is parsed like a session buffer: as long as no frame longer than the
    normal buffer was announced, [processData] of the double buffer returns, delivers and leaves exactly
    what [processData] does on the normal buffer alone, and touches neither the large buffer
    nor the pool. *)
Theorem double_processData_normal : forall h P b (H1 : JmyDataHandler W) id param w,
  calls_defined (W := W) -> use_large_ b = false -> sb_wf h (db_buff_ b) -> SessionBuffer.len_ (db_buff_ b) < 2 ^ 31 ->
  exists r h' s' w' H1', dh_processData h (db_buff_ b) H1 id param w = Some (r, h', s', w', H1') /\
    (ud_data (dh_unpack_data_ H1') <= SessionBuffer.len_ (db_buff_ b) ->
     dh_processData_double h P b H1 id param w =
       Some (r, h', P, mkDB false s' (large_buff_ b) (buff_pool_ b), w', H1')).
Proof using.
  intros h P b H1 id p w Hcalls Hu Hwf H31. destruct (sb_wf_view _ _ Hwf) as [c Hv].
  destruct (sb_view_lens _ _ _ Hv) as (_ & Hr & _).
  unfold dh_processData, dh_processData_double, db_getReadLen, db_getSessionBuffer, db_isLarge. rewrite Hu, Hr.
  destruct (dh_loop_safe (S (Z.to_nat (lenZ c))) h (db_buff_ b) c 0 0 H1 id p w)
    as (r & h' & s' & w' & H1' & k & E & _); [done|done|lia|done|lia|lia|].
  exists r, h', s', w', H1'. split; [done|]. intros Hd. by apply dh_loop_double_normal; [..|lia|done|done|done].
Qed.
End double.

Lemma double_processData_normal_witness :
  let h := recv_heap 32 (frames wit_msgs) in
  let b := mkDB false (recv_buffer 32 (frames wit_msgs)) JmySessionBuffer_new true in
  (@calls_defined dh_log_world _ /\ sb_wf h (db_buff_ b)) /\
  exists h' b' H1', dh_processData_double h JmySessionBufferPool_new b dh_log 1 0 [] =
    Some (2, h', JmySessionBufferPool_new, b', [(0, 7, [1; 2]); (-2, 8, [3])], H1').
Proof.
  cbv zeta.
  assert (Hc : @calls_defined dh_log_world _) by (intros id w; repeat split; eexists; reflexivity).
  assert (Hw : sb_wf (recv_heap 32 (frames wit_msgs)) (recv_buffer 32 (frames wit_msgs)))
    by (apply recv_buffer_wf; vm_compute; split; congruence).
  split; [split; [exact Hc|exact Hw]|].
  destruct (double_processData_normal (recv_heap 32 (frames wit_msgs)) JmySessionBufferPool_new
    (mkDB false (recv_buffer 32 (frames wit_msgs)) JmySessionBuffer_new true) dh_log 1 0 [] Hc eq_refl Hw
    ltac:(vm_compute; reflexivity)) as (r & h' & s' & w' & H1' & E & Hd).
  assert (Hv : (fun x => (x.1.1.1.1, x.1.2, ud_data (dh_unpack_data_ x.2))) <$>
    dh_processData (recv_heap 32 (frames wit_msgs)) (recv_buffer 32 (frames wit_msgs)) dh_log 1 0 []
    = Some (2, [(0, 7, [1; 2]); (-2, 8, [3])], 0)) by (vm_compute; reflexivity).
  cbn [db_buff_] in E. rewrite E in Hv. simpl in Hv. injection Hv as -> -> Hu.
  eexists _, _, _. apply Hd. rewrite Hu. vm_compute. congruence.
Defined.
