(* ===== verification/EventHandler.v ===== *)
(** * Event handlers ([JmyEventHandlerManager] of [jmy_event_handler.h])

    An array of handlers by event id.  [W] is the state a handler can change. *)
From S2P Require Import Prelude Datatype.
From Stdlib Require Import ZArith Lia.
From stdpp Require Import base option list.
Local Open Scope Z_scope.

Definition jmy_event_handler (W : Type) : Type := JmyEventInfo -> W -> Z * W.

Section events.
Context {W : Type}.

(** [handlers_[JMY_EVENT_MAX_COUNT]], cleared by [memset]. *)
Definition JmyEventHandlerManager : Type := list (option (jmy_event_handler W)).
Definition JmyEventHandlerManager_new : JmyEventHandlerManager :=
  repeat None (Z.to_nat JMY_EVENT_MAX_COUNT).

Record JmyBaseEventHandlers : Type := mkBaseEH {
  conn_handler : option (jmy_event_handler W);
  disconn_handler : option (jmy_event_handler W);
  tick_handler : option (jmy_event_handler W);
  timer_handler : option (jmy_event_handler W);
}.

Definition eh_in_range (event_id : Z) : bool :=
  (JMY_EVENT_NONE <? event_id) && (event_id <? JMY_EVENT_MAX_COUNT).

(** [handlers_[i] = handler] for an index in range. *)
Definition eh_put (m : list (option (jmy_event_handler W))) (i : Z) (h : option (jmy_event_handler W))
  : list (option (jmy_event_handler W)) := <[Z.to_nat i := h]> m.
Definition eh_at (m : list (option (jmy_event_handler W))) (i : Z) : option (jmy_event_handler W) :=
  default None (m !! Z.to_nat i).

Definition setHandler (m : JmyEventHandlerManager) (event_id : Z) (h : option (jmy_event_handler W))
  : option JmyEventHandlerManager :=
  ub_unless (eh_in_range event_id);; Some (eh_put m event_id h).

Fixpoint eh_init (m : JmyEventHandlerManager) (l : list (Z * option (jmy_event_handler W)))
  : option JmyEventHandlerManager :=
  match l with
  | [] => Some m
  | (i, h) :: l => m ← setHandler m i h; eh_init m l
  end.

Definition is_set (h : option (jmy_event_handler W)) : bool := match h with Some _ => true | None => false end.

Definition hasConnectHandler (m : JmyEventHandlerManager) : bool := is_set (eh_at m JMY_EVENT_CONNECT).
Definition hasDisconnectHandler (m : JmyEventHandlerManager) : bool := is_set (eh_at m JMY_EVENT_DISCONNECT).
Definition hasTickHandler (m : JmyEventHandlerManager) : bool := is_set (eh_at m JMY_EVENT_TICK).
Definition hasTimerHandler (m : JmyEventHandlerManager) : bool := is_set (eh_at m JMY_EVENT_TIMER).
Definition hasEventHandler (m : JmyEventHandlerManager) (event_id : Z) : option bool :=
  ub_unless (eh_in_range event_id);; Some (is_set (eh_at m event_id)).

Definition setBaseHandlers (m : JmyEventHandlerManager) (b : JmyBaseEventHandlers) : JmyEventHandlerManager :=
  let m := eh_put m JMY_EVENT_CONNECT (conn_handler b) in
  let m := eh_put m JMY_EVENT_DISCONNECT (disconn_handler b) in
  let m := eh_put m JMY_EVENT_TICK (tick_handler b) in
  eh_put m JMY_EVENT_TIMER (timer_handler b).

(** The [onDefault] functions return 0. *)
Definition onDefault (info : JmyEventInfo) (w : W) : Z * W := (0, w).
Definition eh_call (m : JmyEventHandlerManager) (i : Z) (info : JmyEventInfo) (w : W) : Z * W :=
  match eh_at m i with Some f => f info w | None => onDefault info w end.

Definition onConnect (m : JmyEventHandlerManager) := eh_call m JMY_EVENT_CONNECT.
Definition onDisconnect (m : JmyEventHandlerManager) := eh_call m JMY_EVENT_DISCONNECT.
Definition onTick (m : JmyEventHandlerManager) := eh_call m JMY_EVENT_TICK.
Definition onTimer (m : JmyEventHandlerManager) := eh_call m JMY_EVENT_TIMER.
Definition onEvent (m : JmyEventHandlerManager) (info : JmyEventInfo) (w : W) : option (Z * W) :=
  ub_unless (eh_in_range (ei_event_id info));; Some (eh_call m (ei_event_id info) info w).

(** ** Properties *)

Lemma eh_in_range_iff i : eh_in_range i = true <-> 1 <= i < 5.
Proof using. unfold eh_in_range, JMY_EVENT_NONE, JMY_EVENT_MAX_COUNT. rewrite andb_true_iff. lia. Qed.

Lemma eh_at_put m i j h :
  length m = 5%nat -> 0 <= i < 5 -> 0 <= j < 5 -> eh_at (eh_put m i h) j = if j =? i then h else eh_at m j.
Proof using.
  intros Hm Hi Hj. unfold eh_at, eh_put. destruct (Z.eqb_spec j i) as [->|].
  - by rewrite list_lookup_insert_eq by lia.
  - rewrite list_lookup_insert_ne by lia. done.
Qed.

Lemma eh_put_length m i h : length (eh_put m i h) = length m.
Proof using. apply length_insert. Qed.

(** The handler an initialisation list leaves for an event: the last one given. *)
Definition eh_spec (old : option (jmy_event_handler W)) (l : list (Z * option (jmy_event_handler W))) (i : Z)
  : option (jmy_event_handler W) :=
  foldl (fun acc e => if i =? fst e then snd e else acc) old l.

(** The event table.  Initialising it is defined exactly when every event id is
    one of 1..4 (the assertion holds); afterwards every event of the table is dispatched to the
    last handler given for it, or to the base handler set before, and an event
    without a handler returns 0 and changes nothing. *)
Theorem event_table_dispatch : forall b l (info : JmyEventInfo) (w : W),
  let m0 := setBaseHandlers JmyEventHandlerManager_new b in
  (is_Some (eh_init m0 l) <-> Forall (fun e => 1 <= fst e < 5) l) /\
  forall m, eh_init m0 l = Some m -> 1 <= ei_event_id info < 5 ->
    let base := if ei_event_id info =? JMY_EVENT_CONNECT then conn_handler b
                else if ei_event_id info =? JMY_EVENT_DISCONNECT then disconn_handler b
                else if ei_event_id info =? JMY_EVENT_TICK then tick_handler b else timer_handler b in
    onEvent m info w = Some (match eh_spec base l (ei_event_id info) with
                             | Some f => f info w
                             | None => (0, w)
                             end).
Proof using.
  intros b l info w m0.
  assert (Hl : length m0 = 5%nat) by (unfold m0, setBaseHandlers; by rewrite !eh_put_length).
  assert (Hb : forall i, 1 <= i < 5 -> eh_at m0 i =
    if i =? JMY_EVENT_CONNECT then conn_handler b else if i =? JMY_EVENT_DISCONNECT then disconn_handler b
    else if i =? JMY_EVENT_TICK then tick_handler b else timer_handler b).
  { intros i Hi. assert (i = 1 \/ i = 2 \/ i = 3 \/ i = 4) as [ -> | [ -> | [ -> | -> ]]] by lia; done. }
  enough (forall m, length m = 5%nat ->
    (is_Some (eh_init m l) <-> Forall (fun e => 1 <= fst e < 5) l) /\
    forall m', eh_init m l = Some m' -> forall i, 1 <= i < 5 -> eh_at m' i = eh_spec (eh_at m i) l i) as Hg.
  { destruct (Hg m0 Hl) as [H1 H2]. split; [done|]. intros m Hm Hi. cbv zeta.
    unfold onEvent. rewrite (proj2 (eh_in_range_iff _)) by done. simpl. unfold eh_call.
    rewrite (H2 m Hm _ Hi), (Hb _ Hi). by destruct (eh_spec _ _ _). }
  clear m0 Hl Hb. induction l as [|[i h] l IH]; intros m Hm; simpl.
  - split; [split; [constructor|eauto]|]. by intros m' [= <-].
  - rewrite Forall_cons. unfold setHandler. destruct (eh_in_range i) eqn:E; simpl.
    + apply eh_in_range_iff in E. destruct (IH (eh_put m i h)) as [H1 H2]; [by rewrite eh_put_length|].
      split; [naive_solver|]. intros m' Hm' j Hj. rewrite (H2 m' Hm' j Hj).
      by rewrite eh_at_put by lia.
    + split; [|done]. split; [by intros [? ?]|]. intros [Hi _].
      apply eh_in_range_iff in Hi. congruence.
Qed.
End events.
Arguments JmyEventHandlerManager : clear implicits.
Arguments JmyBaseEventHandlers : clear implicits.

Lemma event_table_dispatch_witness :
  let h n : option (jmy_event_handler (list Z)) := Some (fun info l => (n, l ++ [ei_conn_id info])) in
  let b := mkBaseEH (h 1) None (h 3) None in
  let m0 := setBaseHandlers JmyEventHandlerManager_new b in
  let l := [(2, h 7); (2, h 8)] in
  exists m, eh_init m0 l = Some m /\ 1 <= 2 < 5 /\
    onEvent m (mkJmyEventInfo 2 40 0 0) [] = Some (8, [40]).
Proof.
  cbv zeta.
  set (h := fun n => Some (fun info (l : list Z) => (n, l ++ [ei_conn_id info])) : option (jmy_event_handler (list Z))).
  destruct (event_table_dispatch (mkBaseEH (h 1) None (h 3) None) [(2, h 7); (2, h 8)]
    (mkJmyEventInfo 2 40 0 0) []) as [_ H].
  eexists. split; [reflexivity|]. split; [lia|].
  rewrite (H _ eq_refl) by (simpl; lia). reflexivity.
Defined.
