(* ===== verification/ConnBuffer.v ===== *)
(** * Connection buffers ([jmy_connection_buffer.h], [jmy_connection_buffer.cpp])

    The buffers of one connection, and the manager that lends them to connections.
    Built with [USE_NET_PROTO2]: the receive side is a buffer list. *)
From S2P Require Import Prelude Datatype SessionBuffer BufferPool BufferList DoubleBuffer.
From Stdlib Require Import ZArith Lia.
From stdpp Require Import base option list gmap.
Local Open Scope Z_scope.

Inductive JmyConnectionBufferState : Type :=
| JMY_CONN_BUFFER_STATE_IDLE
| JMY_CONN_BUFFER_STATE_USING
| JMY_CONN_BUFFER_STATE_SUSPEND.

#[export] Instance JmyConnectionBufferState_eq_dec : EqDecision JmyConnectionBufferState.
Proof. solve_decision. Defined.

Record JmyConnectionBuffer : Type := mkCB {
  cb_id : Z;
  cb_state : JmyConnectionBufferState;
  send_buff : JmyDoubleSessionBuffer;
  send_buff_list : JmySessionBufferList;
  recv_buff_list : JmySessionBufferList;
  use_send_list : bool;
  cb_send_count : Z;   (** [total_reconn_info] *)
  cb_recv_count : Z;
}.

Definition JmyConnectionBuffer_new : JmyConnectionBuffer :=
  mkCB 0 JMY_CONN_BUFFER_STATE_IDLE JmyDoubleSessionBuffer_new JmySessionBufferList_new
    JmySessionBufferList_new false 0 0.

(** [init(config, pool)]: the result of [send_buff.init] is ignored. *)
Definition cb_init_pool (h : heap) (P : JmySessionBufferPool) (b : JmyConnectionBuffer) (config : JmyBufferConfig)
  : option (heap * JmySessionBufferPool * JmyConnectionBuffer) :=
  let use := bc_use_send_buff_list config in
  if negb use then
    '(_, h, P, sb) ← db_init_pool h P (send_buff b) SESSION_BUFFER_TYPE_SEND;
    Some (h, P, mkCB (cb_id b) (cb_state b) sb (send_buff_list b) (recv_buff_list b) use 0 0)
  else
    let '(_, l) := bl_init (send_buff_list b) 0 0 in
    Some (h, P, mkCB (cb_id b) (cb_state b) (send_buff b) l (recv_buff_list b) use 0 0).

(** [init(config)]; [garbage] is the content of a new block. *)
Definition cb_init (h : heap) (b : JmyConnectionBuffer) (config : JmyBufferConfig) (garbage : list Z)
  : option (heap * JmyConnectionBuffer) :=
  let use := bc_use_send_buff_list config in
  if negb use then
    '(_, h, sb) ← db_init_size h (send_buff b) (bc_send_buff_size config) garbage SESSION_BUFFER_TYPE_SEND;
    Some (h, mkCB (cb_id b) (cb_state b) sb (send_buff_list b) (recv_buff_list b) use
               (cb_send_count b) (cb_recv_count b))
  else
    let '(_, l) := bl_init (send_buff_list b) 0 0 in
    Some (h, mkCB (cb_id b) (cb_state b) (send_buff b) l (recv_buff_list b) use
               (cb_send_count b) (cb_recv_count b)).

(** [JmySessionBufferList::destroy] does nothing. *)
Definition cb_destroy (h : heap) (b : JmyConnectionBuffer) : heap * JmyConnectionBuffer :=
  let '(h, sb) := db_destroy h (send_buff b) in
  (h, mkCB (cb_id b) (cb_state b) sb (send_buff_list b) (recv_buff_list b) (use_send_list b) 0 0).

Definition cb_clear (P : JmySessionBufferPool) (b : JmyConnectionBuffer)
  : JmySessionBufferPool * JmyConnectionBuffer :=
  let '(P, sb) := db_clear P (send_buff b) in
  (P, mkCB (cb_id b) (cb_state b) sb (bl_clear (send_buff_list b)) (bl_clear (recv_buff_list b))
        (use_send_list b) 0 0).

Definition cb_set_id_state (id : Z) (s : JmyConnectionBufferState) (b : JmyConnectionBuffer) : JmyConnectionBuffer :=
  mkCB id s (send_buff b) (send_buff_list b) (recv_buff_list b) (use_send_list b)
    (cb_send_count b) (cb_recv_count b).

(** ** JmyConnectionBufferMgr

    The buffers are shared objects: the vector is the store, and a [shared_ptr] is
    the index of a buffer in it. *)

Record JmyConnectionBufferMgr : Type := mkCBM {
  max_size_ : Z;
  conn_buff_vec_ : list JmyConnectionBuffer;
  free_queue_ : list nat;
}.

Definition JmyConnectionBufferMgr_new : JmyConnectionBufferMgr := mkCBM 0 [] [].

(** One turn of the loop of [init]. *)
Definition cbm_fresh (i : nat) : JmyConnectionBuffer :=
  cb_set_id_state (Z.of_nat i + 1) JMY_CONN_BUFFER_STATE_IDLE JmyConnectionBuffer_new.

(** [resize] keeps elements, but the loop replaces every one of them. *)
Definition cbm_init (m : JmyConnectionBufferMgr) (max_size : Z) : bool * JmyConnectionBufferMgr :=
  let ids := seq 0 (Z.to_nat max_size) in
  (true, mkCBM max_size (cbm_fresh <$> ids) (free_queue_ m ++ ids)).

Definition cbm_clear (m : JmyConnectionBufferMgr) : JmyConnectionBufferMgr :=
  mkCBM (max_size_ m) (conn_buff_vec_ m) [].

Definition getOneBuffer (m : JmyConnectionBufferMgr) : option nat * JmyConnectionBufferMgr :=
  match free_queue_ m with
  | [] => (None, m)
  | i :: q =>
    (Some i, mkCBM (max_size_ m)
               (alter (fun b => cb_set_id_state (cb_id b) JMY_CONN_BUFFER_STATE_USING b) i (conn_buff_vec_ m)) q)
  end.

(** [id] is used as an index, without a lower bound: a negative one is undefined. *)
Definition getBuffer (m : JmyConnectionBufferMgr) (id : Z) : option (option nat) :=
  if max_size_ m - 1 <=? id then Some None else
  ub_unless ((0 <=? id) && (id <? lenZ (conn_buff_vec_ m)));; Some (Some (Z.to_nat id)).

Definition freeBuffer (m : JmyConnectionBufferMgr) (id : Z) : option (bool * JmyConnectionBufferMgr) :=
  if (id <? 1) || (max_size_ m <? id) then Some (false, m) else
  b ← conn_buff_vec_ m !! Z.to_nat (id - 1);
  Some (if decide (cb_state b = JMY_CONN_BUFFER_STATE_IDLE) then (false, m)
        else (true, mkCBM (max_size_ m) (conn_buff_vec_ m) (Z.to_nat (id - 1) :: free_queue_ m))).

(** ** The manager lends each buffer to one holder *)

(** [U] are the buffers that are out. *)
Record cbm_inv (m : JmyConnectionBufferMgr) (U : gset nat) : Prop := mkCbmInv {
  cbi_size : max_size_ m = lenZ (conn_buff_vec_ m);
  cbi_nodup : NoDup (free_queue_ m);
  cbi_disj : forall i, i ∈ free_queue_ m -> i ∉ U;
  cbi_all : forall i, (i < length (conn_buff_vec_ m))%nat <-> i ∈ free_queue_ m \/ i ∈ U;
  cbi_id : forall i b, conn_buff_vec_ m !! i = Some b -> cb_id b = Z.of_nat i + 1;
  cbi_using : forall i b, conn_buff_vec_ m !! i = Some b -> i ∈ U -> cb_state b = JMY_CONN_BUFFER_STATE_USING;
}.

Inductive cbm_op : Type := op_lend | op_return (i : nat).

Inductive cbm_res : Type := res_lent (i : option nat) | res_returned (b : bool).

(** Requests by buffer; the id passed to [freeBuffer] is the one stored in it. *)
Definition cbm_exec (o : cbm_op) (m : JmyConnectionBufferMgr) : option (cbm_res * JmyConnectionBufferMgr) :=
  match o with
  | op_lend => let '(r, m) := getOneBuffer m in Some (res_lent r, m)
  | op_return i => '(r, m) ← freeBuffer m (Z.of_nat i + 1); Some (res_returned r, m)
  end.

Fixpoint cbm_run (os : list cbm_op) (m : JmyConnectionBufferMgr) : option (list cbm_res * JmyConnectionBufferMgr) :=
  match os with
  | [] => Some ([], m)
  | o :: os => '(r, m) ← cbm_exec o m; '(rs, m) ← cbm_run os m; Some (r :: rs, m)
  end.

(** What a lending library does: a request gets a buffer that is not out, or none when
    all are; a buffer that is out can be returned. *)
Inductive lend_step (n : nat) : gset nat -> cbm_op -> cbm_res -> gset nat -> Prop :=
| lend_some U i : (i < n)%nat -> i ∉ U -> lend_step n U op_lend (res_lent (Some i)) ({[i]} ∪ U)
| lend_none U : (forall i, (i < n)%nat -> i ∈ U) -> lend_step n U op_lend (res_lent None) U
| lend_return U i : i ∈ U -> lend_step n U (op_return i) (res_returned true) (U ∖ {[i]}).

Inductive lend_trace (n : nat) : gset nat -> list cbm_op -> list cbm_res -> gset nat -> Prop :=
| lend_trace_nil U : lend_trace n U [] [] U
| lend_trace_cons U o r U' os rs U'' :
    lend_step n U o r U' -> lend_trace n U' os rs U'' -> lend_trace n U (o :: os) (r :: rs) U''.

(** The client's discipline: it returns only what is out. *)
Fixpoint returns_once (os : list cbm_op) (rs : list cbm_res) (U : gset nat) : Prop :=
  match os, rs with
  | op_return i :: os, _ :: rs => i ∈ U /\ returns_once os rs (U ∖ {[i]})
  | op_lend :: os, res_lent (Some i) :: rs => returns_once os rs ({[i]} ∪ U)
  | op_lend :: os, _ :: rs => returns_once os rs U
  | _, _ => True
  end.

Lemma cbm_init_inv n : cbm_inv (snd (cbm_init JmyConnectionBufferMgr_new (Z.of_nat n))) ∅.
Proof.
  unfold cbm_init. rewrite Nat2Z.id. constructor; simpl.
  - rewrite length_fmap, length_seq. done.
  - apply NoDup_seq.
  - set_solver.
  - intros i. rewrite length_fmap, length_seq, elem_of_seq. set_solver by lia.
  - intros i b. rewrite list_lookup_fmap, fmap_Some. intros (j & Hj & ->).
    apply lookup_seq in Hj as [-> _]. done.
  - set_solver.
Qed.

Lemma cbm_lend_inv m U :
  cbm_inv m U -> let '(r, m') := getOneBuffer m in
  length (conn_buff_vec_ m') = length (conn_buff_vec_ m) /\
  match r with
  | Some i => (i < length (conn_buff_vec_ m))%nat /\ i ∉ U /\ cbm_inv m' ({[i]} ∪ U)
  | None => (forall i, (i < length (conn_buff_vec_ m))%nat -> i ∈ U) /\ m' = m
  end.
Proof.
  intros [Hs Hn Hd Ha Hi Hu]. destruct m as [ms v q]. simpl in *. unfold getOneBuffer. simpl.
  destruct q as [|i q]; simpl; [split; [done|]; split; [set_solver|done]|].
  apply NoDup_cons in Hn as [Hni Hn].
  split; [apply length_alter|]. split; [set_solver|]. split; [set_solver|].
  constructor; simpl; rewrite ?length_alter; [done|done|set_solver| | |].
  - intros j. rewrite Ha. set_solver.
  - intros j b. destruct (decide (j = i)) as [->|].
    + rewrite list_lookup_alter_eq, fmap_Some. intros (b' & Hb & ->). simpl. eauto.
    + rewrite list_lookup_alter_ne by done. eauto.
  - intros j b. destruct (decide (j = i)) as [->|].
    + rewrite list_lookup_alter_eq, fmap_Some. by intros (b' & Hb & ->) _.
    + rewrite list_lookup_alter_ne by done. intros Hb Hj. apply (Hu j); [done|set_solver].
Qed.

Lemma cbm_return_inv m U i :
  cbm_inv m U -> i ∈ U ->
  exists m', freeBuffer m (Z.of_nat i + 1) = Some (true, m') /\ cbm_inv m' (U ∖ {[i]}) /\
    conn_buff_vec_ m' = conn_buff_vec_ m.
Proof.
  intros [Hs Hn Hd Ha Hi Hu] Hin. unfold freeBuffer.
  assert (Hl : (i < length (conn_buff_vec_ m))%nat) by (apply Ha; auto).
  rewrite Hs, (proj2 (Z.ltb_ge _ _)), (proj2 (Z.ltb_ge _ _)) by lia. simpl.
  replace (Z.to_nat (Z.of_nat i + 1 - 1)) with i by lia.
  apply lookup_lt_is_Some in Hl as [b Hb]. rewrite Hb. simpl.
  rewrite decide_False by (by rewrite (Hu i b)).
  eexists. split; [done|]. split; [|done].
  constructor; simpl; [done|constructor; set_solver|set_solver| |done|set_solver].
  intros j. rewrite Ha. destruct (decide (j = i)); set_solver.
Qed.

Lemma cbm_run_lends os m U rs m' :
  cbm_inv m U -> cbm_run os m = Some (rs, m') -> returns_once os rs U ->
  exists U', lend_trace (length (conn_buff_vec_ m)) U os rs U' /\ cbm_inv m' U'.
Proof.
  revert m U rs. induction os as [|o os IH]; intros m U rs Hm Hrun Hc; simpl in Hrun.
  - injection Hrun as <- <-. exists U. by split; [constructor|].
  - apply bind_Some in Hrun as ([r m1] & E & Hrun). apply bind_Some in Hrun as ([rs1 m2] & E2 & Hrun).
    injection Hrun as <- <-. destruct o as [|i].
    + pose proof (cbm_lend_inv m U Hm) as Hl. simpl in E. destruct (getOneBuffer m) as [o m1'].
      injection E as <- <-. destruct Hl as [Hlen Hl]. rewrite <-Hlen. destruct o as [i|].
      * destruct Hl as (H1 & H2 & H3). destruct (IH _ _ _ H3 E2 Hc) as (U' & Ht & Hi).
        exists U'. split; [|done]. econstructor; [constructor; [lia|done]|done].
      * destruct Hl as (H1 & ->). destruct (IH _ _ _ Hm E2 Hc) as (U' & Ht & Hi).
        exists U'. split; [|done]. econstructor; [by constructor|done].
    + simpl in Hc. destruct Hc as [Hin Hc]. destruct (cbm_return_inv m U i Hm Hin) as (m3 & E3 & Hi3 & Hv).
      cbn [cbm_exec] in E. rewrite E3 in E. injection E as <- <-. rewrite <-Hv.
      destruct (IH _ _ _ Hi3 E2 Hc) as (U' & Ht & Hi).
      exists U'. split; [|done]. econstructor; [by constructor|done].
Qed.

(** The connection buffer manager lends each of its [n] buffers to one holder at a
    time: as long as every buffer that is handed back is out, every run of
    [getOneBuffer] and [freeBuffer] does what a lending library does, and a request
    fails exactly when all [n] buffers are out.  The discipline is needed: [freeBuffer]
    does not set the buffer idle again, so a second [freeBuffer] of the same id succeeds
    too, and the next two requests get the same buffer. *)
Theorem connection_buffers_lent_once : forall n,
  let m := snd (cbm_init JmyConnectionBufferMgr_new (Z.of_nat n)) in
  (forall os rs m', cbm_run os m = Some (rs, m') -> returns_once os rs ∅ ->
     exists U, lend_trace n ∅ os rs U /\ cbm_inv m' U) /\
  ((0 < n)%nat ->
   (fst <$> cbm_run [op_lend; op_return 0; op_return 0; op_lend; op_lend] m) =
     Some [res_lent (Some 0%nat); res_returned true; res_returned true;
           res_lent (Some 0%nat); res_lent (Some 0%nat)]).
Proof.
  intros n m. split.
  - intros os rs m' Hrun Hc.
    destruct (cbm_run_lends os m ∅ rs m' (cbm_init_inv n) Hrun Hc) as (U & Ht & Hi).
    exists U. split; [|done]. unfold m, cbm_init in Ht. rewrite Nat2Z.id in Ht. simpl in Ht.
    by rewrite length_fmap, length_seq in Ht.
  - intros Hn. destruct n as [|n]; [lia|].
    unfold m, cbm_init. rewrite Nat2Z.id. simpl. unfold freeBuffer. simpl max_size_.
    change (Z.of_nat 0 + 1) with 1.
    rewrite (proj2 (Z.ltb_ge 1 1)) by lia. rewrite (proj2 (Z.ltb_ge _ 1)) by lia. simpl.
    rewrite (proj2 (Z.ltb_ge _ 1)) by lia. done.
Qed.

Lemma connection_buffers_lent_once_witness :
  let m := snd (cbm_init JmyConnectionBufferMgr_new 2) in
  let os := [op_lend; op_lend; op_lend; op_return 0; op_lend] in
  let rs := [res_lent (Some 0%nat); res_lent (Some 1%nat); res_lent None; res_returned true; res_lent (Some 0%nat)] in
  exists m', (cbm_run os m = Some (rs, m') /\ returns_once os rs ∅) /\
    exists U, lend_trace 2 ∅ os rs U /\ cbm_inv m' U.
Proof.
  cbv zeta. eexists. split; [split; [reflexivity|simpl; split; [set_solver|done]]|].
  eapply (proj1 (connection_buffers_lent_once 2)); [reflexivity|simpl; split; [set_solver|done]].
Defined.
