(* ===== verification/Connection.v ===== *)
(** * TCP connections ([JmyTcpConnection] of [jmy_tcp_connection.h], [jmy_tcp_connection.cpp])

    A connection issues asynchronous operations on its socket and is called back when
    they complete.  The socket (boost asio) is not code of this repository: it is
    modelled by the operations that are outstanding and the bytes handed to it, and a
    completion handler is a function that is called with the operation's result.
    The world [World] is one connection, its socket, the memory its buffers live in, the
    unpack data of the shared data handler, and the application's own state [App]. *)
From S2P Require Import Prelude Datatype Wire NetProto2 SessionBuffer BufferPool BufferList DoubleBuffer SendBuffer DataHandler2 EventHandler ConnBuffer.
From Stdlib Require Import ZArith Lia.
From stdpp Require Import base option list gmap.
Local Open Scope Z_scope.

(** ** State *)

Definition CONN_CLOSE_REASON_NORMAL : Z := 0.
Definition CONN_CLOSE_REASON_READ_DATA_FAILED : Z := 1.
Definition CONN_CLOSE_REASON_WRITE_DATA_FAILED : Z := 2.
Definition CONN_CLOSE_REASON_READ_MSG_HEAD_NOT_ENOUGH : Z := 3.
Definition CONN_CLOSE_REASON_READ_MSG_DATA_NOT_ENOUGH : Z := 4.
Definition CONN_CLOSE_REASON_RECV_CLOSE_EVENT : Z := 5.
Definition CONN_CLOSE_REASON_TIMEOUT : Z := 6.

(** Time points are nanoseconds of the system clock. *)
Record JmyTcpConnection : Type := mkConn {
  c_id : Z;
  conn_type_ : JmyConnType;
  state_ : JmyConnState;
  sending_data_ : bool;
  buff_send_count_ : Z;
  active_close_start_ : Z;
  data_handler_ : bool;    (** the shared pointers are set *)
  event_handler_ : bool;
  buffer_ : option JmyConnectionBuffer;
  last_run_tick_ : Z;
}.

(** The asynchronous operations that are outstanding on the socket, oldest first. *)
Inductive pending_read : Type :=
| rd_head                              (** 3 bytes into [tmp_] *)
| rd_body (type pack_len : Z).         (** [pack_len] bytes into a new block *)

Inductive pending_send : Type :=
| sd_buffer (bytes : list Z)
| sd_list (bytes : list Z).

Record Socket : Type := mkSock {
  sk_open : bool;
  sk_connecting : bool;
  sk_reads : list pending_read;
  sk_sends : list pending_send;
}.

Record World {App : Type} : Type := mkWorld {
  w_conn : JmyTcpConnection;
  w_sock : Socket;
  w_heap : heap;
  w_pool : JmySessionBufferPool;
  w_unpack : JmyPacketUnpackData2;
  w_app : App;
}.
Arguments World : clear implicits.
Arguments mkWorld {App}.

Section updates.
Context {App : Type}.
Implicit Type w : World App.
Definition set_conn (f : JmyTcpConnection -> JmyTcpConnection) w : World App :=
  mkWorld (f (w_conn w)) (w_sock w) (w_heap w) (w_pool w) (w_unpack w) (w_app w).
Definition set_sock (f : Socket -> Socket) w : World App :=
  mkWorld (w_conn w) (f (w_sock w)) (w_heap w) (w_pool w) (w_unpack w) (w_app w).
Definition set_heap (h : heap) w : World App :=
  mkWorld (w_conn w) (w_sock w) h (w_pool w) (w_unpack w) (w_app w).
Definition set_pool (P : JmySessionBufferPool) w : World App :=
  mkWorld (w_conn w) (w_sock w) (w_heap w) P (w_unpack w) (w_app w).
Definition set_unpack (u : JmyPacketUnpackData2) w : World App :=
  mkWorld (w_conn w) (w_sock w) (w_heap w) (w_pool w) u (w_app w).
Definition set_app (a : App) w : World App :=
  mkWorld (w_conn w) (w_sock w) (w_heap w) (w_pool w) (w_unpack w) a.
End updates.

Definition c_set_state (s : JmyConnState) (c : JmyTcpConnection) : JmyTcpConnection :=
  mkConn (c_id c) (conn_type_ c) s (sending_data_ c) (buff_send_count_ c) (active_close_start_ c)
    (data_handler_ c) (event_handler_ c) (buffer_ c) (last_run_tick_ c).
Definition c_set_sending (b : bool) (c : JmyTcpConnection) : JmyTcpConnection :=
  mkConn (c_id c) (conn_type_ c) (state_ c) b (buff_send_count_ c) (active_close_start_ c)
    (data_handler_ c) (event_handler_ c) (buffer_ c) (last_run_tick_ c).
Definition c_set_send_count (n : Z) (c : JmyTcpConnection) : JmyTcpConnection :=
  mkConn (c_id c) (conn_type_ c) (state_ c) (sending_data_ c) n (active_close_start_ c)
    (data_handler_ c) (event_handler_ c) (buffer_ c) (last_run_tick_ c).
Definition c_set_close_start (t : Z) (c : JmyTcpConnection) : JmyTcpConnection :=
  mkConn (c_id c) (conn_type_ c) (state_ c) (sending_data_ c) (buff_send_count_ c) t
    (data_handler_ c) (event_handler_ c) (buffer_ c) (last_run_tick_ c).
Definition c_set_tick (t : Z) (c : JmyTcpConnection) : JmyTcpConnection :=
  mkConn (c_id c) (conn_type_ c) (state_ c) (sending_data_ c) (buff_send_count_ c) (active_close_start_ c)
    (data_handler_ c) (event_handler_ c) (buffer_ c) t.
Definition c_set_buffer (b : option JmyConnectionBuffer) (c : JmyTcpConnection) : JmyTcpConnection :=
  mkConn (c_id c) (conn_type_ c) (state_ c) (sending_data_ c) (buff_send_count_ c) (active_close_start_ c)
    (data_handler_ c) (event_handler_ c) b (last_run_tick_ c).
Definition c_set_id (id : Z) (c : JmyTcpConnection) : JmyTcpConnection :=
  mkConn id (conn_type_ c) (state_ c) (sending_data_ c) (buff_send_count_ c) (active_close_start_ c)
    (data_handler_ c) (event_handler_ c) (buffer_ c) (last_run_tick_ c).

Definition cb_set_send_buff (s : JmyDoubleSessionBuffer) (b : JmyConnectionBuffer) : JmyConnectionBuffer :=
  mkCB (cb_id b) (cb_state b) s (send_buff_list b) (recv_buff_list b) (use_send_list b)
    (cb_send_count b) (cb_recv_count b).
Definition cb_set_send_list (l : JmySessionBufferList) (b : JmyConnectionBuffer) : JmyConnectionBuffer :=
  mkCB (cb_id b) (cb_state b) (send_buff b) l (recv_buff_list b) (use_send_list b)
    (cb_send_count b) (cb_recv_count b).
Definition cb_set_recv_list (l : JmySessionBufferList) (b : JmyConnectionBuffer) : JmyConnectionBuffer :=
  mkCB (cb_id b) (cb_state b) (send_buff b) (send_buff_list b) l (use_send_list b)
    (cb_send_count b) (cb_recv_count b).

(** The constructor. *)
Definition JmyTcpConnection_new (conn_type : JmyConnType) : JmyTcpConnection :=
  mkConn 0 conn_type JMY_CONN_STATE_NOT_USE false 0 0 false false None 0.

Definition conn_isDisconnect (c : JmyTcpConnection) : bool :=
  bool_decide (state_ c = JMY_CONN_STATE_DISCONNECTED).

(** The test is the same as in [isDisconnect]. *)
Definition conn_isConnected (c : JmyTcpConnection) : bool :=
  bool_decide (state_ c = JMY_CONN_STATE_DISCONNECTED).

Definition conn_reset (c : JmyTcpConnection) : JmyTcpConnection := c_set_state JMY_CONN_STATE_NOT_CONNECT c.

(** ** Operations

    [handlers] are the registered message handlers (their unpack data is in the
    world), [events] the event handlers, [mgr] the manager's address, [garbage n] the
    content of a new block of [n] bytes. *)
Section operations.
Context {App : Type}.
Notation W := (World App).
Variable handlers : JmyDataHandler2 W.
Variable events : JmyEventHandlerManager W.
Variable mgr : Z.
Variable garbage : Z -> list Z.

Definition state (w : W) : JmyConnState := state_ (w_conn w).
Definition ctype (w : W) : JmyConnType := conn_type_ (w_conn w).

Definition handle_event (event_id param : Z) (w : W) : option (Z * W) :=
  let info := mkJmyEventInfo event_id (c_id (w_conn w)) mgr param in
  ub_unless (event_handler_ (w_conn w));;
  if event_id =? JMY_EVENT_CONNECT then Some (onConnect events info w)
  else if event_id =? JMY_EVENT_DISCONNECT then Some (onDisconnect events info w)
  else if event_id =? JMY_EVENT_TICK then Some (onTick events info w)
  else if event_id =? JMY_EVENT_TIMER then Some (onTimer events info w)
  else onEvent events info w.

(** [sock_.close()]; what is outstanding will complete with an error. *)
Definition sock_close (w : W) : W :=
  set_sock (fun s => mkSock false (sk_connecting s) (sk_reads s) (sk_sends s)) w.

(** [buffer_->clear()] if there is a buffer. *)
Definition clear_buffer (w : W) : W :=
  match buffer_ (w_conn w) with
  | None => w
  | Some b => let '(P, b) := cb_clear (w_pool w) b in set_pool P (set_conn (c_set_buffer (Some b)) w)
  end.

(** [reason] is only logged. *)
Definition force_close (reason : Z) (w : W) : option W :=
  if bool_decide (state w = JMY_CONN_STATE_DISCONNECTED) then Some w else
  let w := sock_close w in
  let w := clear_buffer w in
  let w := set_conn (c_set_state JMY_CONN_STATE_DISCONNECTED) w in
  let w := set_conn (c_set_sending false) w in
  '(_, w) ← handle_event JMY_EVENT_DISCONNECT 0 w;
  Some w.

(** A write to the send buffer or the send list of the connection's buffer. *)
Definition on_send_buffer
  (fd : heap * JmyDoubleSessionBuffer -> option (Z * (heap * JmyDoubleSessionBuffer)))
  (fl : JmySessionBufferList -> option (Z * JmySessionBufferList)) (w : W) : option (Z * W) :=
  b ← buffer_ (w_conn w);
  ub_unless (data_handler_ (w_conn w));;
  if negb (use_send_list b) then
    '(r, hs) ← fd (w_heap w, send_buff b);
    Some (r, set_heap (fst hs) (set_conn (c_set_buffer (Some (cb_set_send_buff (snd hs) b))) w))
  else
    '(r, l) ← fl (send_buff_list b);
    Some (r, set_conn (c_set_buffer (Some (cb_set_send_list l b))) w).

(** [if (... < 0) return -1;], else [ret]. *)
Definition neg_or (ret : Z) (x : Z * W) : Z * W := if fst x <? 0 then (-1, snd x) else (ret, snd x).

Definition send (msg_id : Z) (data : option (list Z)) (len : Z) (w : W) : option (Z * W) :=
  if negb (bool_decide (state w = JMY_CONN_STATE_CONNECTED)) then Some (-1, w) else
  x ← on_send_buffer (fun s => writeUserData s msg_id data len)
                     (fun l => writeUserData_list garbage l msg_id data len) w;
  Some (neg_or (s32 len) x).

Definition send_user (user_id msg_id : Z) (data : option (list Z)) (len : Z) (w : W) : option (Z * W) :=
  if negb (bool_decide (state w = JMY_CONN_STATE_CONNECTED)) then Some (-1, w) else
  x ← on_send_buffer (fun s => writeUserIdAndData s user_id msg_id data len)
                     (fun l => writeUserIdAndData_list garbage l user_id msg_id data len) w;
  Some (neg_or len x).

(** [t] is the clock's [time_t]. *)
Definition sendHeartbeat (t : Z) (w : W) : option (Z * W) :=
  if negb (bool_decide (state w = JMY_CONN_STATE_CONNECTED)) then Some (-1, w) else
  x ← on_send_buffer (fun s => writeHeartbeat t s) (@writeHeartbeat _ (list_SendBuffer garbage) t) w;
  Some (neg_or 0 x).

Definition sendDisconnect (w : W) : option (Z * W) :=
  x ← on_send_buffer (fun s => writeDisconnect s) (@writeDisconnect _ (list_SendBuffer garbage)) w;
  Some (neg_or 0 x).

Definition sendDisconnectAck (w : W) : option (Z * W) :=
  x ← on_send_buffer (fun s => writeDisconnectAck s) (@writeDisconnectAck _ (list_SendBuffer garbage)) w;
  Some (neg_or 0 x).

Definition close (now : Z) (w : W) : option W :=
  if negb (bool_decide (state w = JMY_CONN_STATE_CONNECTED)) then Some w else
  '(r, w) ← sendDisconnect w;
  if r <? 0 then Some w else
  Some (set_conn (c_set_state JMY_CONN_STATE_DISCONNECTING) (set_conn (c_set_close_start now) w)).

Definition conn_on_heartbeat (w : W) : option (Z * W) := Some (0, w).

Definition conn_on_disconnect (w : W) : option (Z * W) :=
  if bool_decide (state w = JMY_CONN_STATE_DISCONNECTING) then Some (0, w) else sendDisconnectAck w.

Definition conn_on_disconnect_ack (w : W) : option (Z * W) :=
  if negb (bool_decide (state w = JMY_CONN_STATE_DISCONNECTING)) then Some (0, w) else
  w ← force_close CONN_CLOSE_REASON_RECV_CLOSE_EVENT w;
  Some (1, w).

(** ** Receiving *)

Definition push_read (r : pending_read) (w : W) : W :=
  set_sock (fun s => mkSock (sk_open s) (sk_connecting s) (sk_reads s ++ [r]) (sk_sends s)) w.

Definition start_recv (w : W) : W :=
  if bool_decide (ctype w = JMY_CONN_TYPE_ACTIVE) && negb (bool_decide (state w = JMY_CONN_STATE_CONNECTED))
  then w else
  if negb (data_handler_ (w_conn w)) || bool_decide (buffer_ (w_conn w) = None) then w else
  let w := push_read rd_head w in
  if bool_decide (ctype w = JMY_CONN_TYPE_PASSIVE) && negb (bool_decide (state w = JMY_CONN_STATE_CONNECTED))
  then set_conn (c_set_state JMY_CONN_STATE_CONNECTED) w else w.

Definition start (w : W) : W := start_recv w.

(** All branches on the error code only log. *)
Definition handle_recv_error (w : W) : option W := force_close CONN_CLOSE_REASON_READ_DATA_FAILED w.

Definition recv_packet (type pack_len : Z) (w : W) : W := push_read (rd_body type pack_len) w.

Definition handle_packet_type (packet_type : Z) (w : W) : option (Z * W) :=
  if packet_type =? JMY_PACKET2_DISCONNECT then '(_, w) ← conn_on_disconnect w; Some (0, w)
  else if packet_type =? JMY_PACKET2_DISCONNECT_ACK then '(_, w) ← conn_on_disconnect_ack w; Some (0, w)
  else if packet_type =? JMY_PACKET2_HEARTBEAT then '(_, w) ← conn_on_heartbeat w; Some (0, w)
  else if packet_type =? JMY_PACKET2_USER_DATA then Some (1, w)
  else if packet_type =? JMY_PACKET2_USER_ID_DATA then Some (1, w)
  else Some (0, w).

(** The completion handler of the read of a head, without an error. *)
Definition on_head (tmp : list Z) (w : W) : option W :=
  if negb (lenZ tmp =? JMY_PACKET2_LEN_HEAD + JMY_PACKET2_LEN_TYPE)
  then force_close CONN_CLOSE_REASON_READ_MSG_HEAD_NOT_ENOUGH w else
  tl ← jmy_net_proto2_get_packet_len_type tmp (JMY_PACKET2_LEN_HEAD + JMY_PACKET2_LEN_TYPE);
  match tl with
  | None => force_close CONN_CLOSE_REASON_READ_DATA_FAILED w
  | Some (type, len) =>
    '(r, w) ← handle_packet_type type w;
    if r =? 0 then Some (start_recv w)
    else Some (recv_packet type (u16 (len - JMY_PACKET2_LEN_TYPE)) w)
  end.

(** The completion handler of the read of a body, without an error; the result of
    [writeData] is ignored. *)
Definition on_body (type pack_len : Z) (buf : list Z) (w : W) : option W :=
  if negb (lenZ buf =? pack_len) then force_close CONN_CLOSE_REASON_READ_MSG_HEAD_NOT_ENOUGH w else
  b ← buffer_ (w_conn w);
  '(_, l) ← bl_writeParam (recv_buff_list b) (u16 type) (Some buf) pack_len;
  Some (start_recv (set_conn (c_set_buffer (Some (cb_set_recv_list l b))) w)).

Definition pop_read (w : W) : option (pending_read * W) :=
  match sk_reads (w_sock w) with
  | [] => None
  | r :: rs => Some (r, set_sock (fun s => mkSock (sk_open s) (sk_connecting s) rs (sk_sends s)) w)
  end.

(** The oldest read completes: with the bytes it asked for, or with an error. *)
Definition read_completes (res : option (list Z)) (w : W) : option W :=
  '(r, w) ← pop_read w;
  match res, r with
  | None, _ => handle_recv_error w
  | Some bytes, rd_head => on_head bytes w
  | Some bytes, rd_body type n => on_body type n bytes w
  end.

(** ** Sending *)

Definition push_send (s : pending_send) (w : W) : W :=
  set_sock (fun k => mkSock (sk_open k) (sk_connecting k) (sk_reads k) (sk_sends k ++ [s])) w.

(** [async_send] of the bytes from [getReadBuff()]. *)
Definition buffer_send (b : JmyConnectionBuffer) (w : W) : option W :=
  let s := db_getSessionBuffer (send_buff b) in
  bytes ← load (w_heap w) (buff_ s) (read_offset_ s) (db_getReadLen (send_buff b));
  Some (push_send (sd_buffer bytes) w).

Definition buffer_list_send (b : JmyConnectionBuffer) (w : W) : option W :=
  bytes ← match bl_getReadBuff (send_buff_list b) with
          | Some m => mem_read m 0 (bl_getReadLen (send_buff_list b))
          | None => if bl_getReadLen (send_buff_list b) =? 0 then Some [] else None
          end;
  Some (push_send (sd_list bytes) w).

Definition start_send (w : W) : option (Z * W) :=
  if negb (bool_decide (state w = JMY_CONN_STATE_CONNECTED)) then Some (-1, w) else
  if sending_data_ (w_conn w) then Some (0, w) else
  b ← buffer_ (w_conn w);
  let read_len := if use_send_list b then bl_getReadLen (send_buff_list b) else db_getReadLen (send_buff b) in
  if read_len =? 0 then Some (0, w) else
  w ← (if negb (use_send_list b) then buffer_send b w else buffer_list_send b w);
  Some (1, set_conn (c_set_sending true) w).

(** The completion handlers of the two sends; [None] is an error. *)
Definition on_sent_buffer (res : option Z) (w : W) : option W :=
  match res with
  | None => force_close CONN_CLOSE_REASON_WRITE_DATA_FAILED w
  | Some n =>
    b ← buffer_ (w_conn w);
    if 0 <? n then
      let '(r, s) := db_readLen (send_buff b) (u32 n) in
      let w := set_conn (c_set_buffer (Some (cb_set_send_buff s b))) w in
      if negb r then Some w else Some (set_conn (c_set_sending false) w)
    else Some (set_conn (c_set_sending false) w)
  end.

Definition on_sent_list (res : option Z) (w : W) : option W :=
  match res with
  | None => force_close CONN_CLOSE_REASON_WRITE_DATA_FAILED w
  | Some n =>
    b ← buffer_ (w_conn w);
    let '(_, l) := bl_readLen (send_buff_list b) (u32 n) in
    let b := cb_set_send_list l b in
    let w := set_conn (c_set_buffer (Some b)) w in
    let count := s16 (buff_send_count_ (w_conn w) + 1) in
    if (100 <=? count) || (bl_getUsingSize l =? 0)
    then Some (set_conn (c_set_sending false) (set_conn (c_set_send_count 0) w))
    else buffer_list_send b (set_conn (c_set_send_count count) w)
  end.

Definition pop_send (w : W) : option (pending_send * W) :=
  match sk_sends (w_sock w) with
  | [] => None
  | s :: ss => Some (s, set_sock (fun k => mkSock (sk_open k) (sk_connecting k) (sk_reads k) ss) w)
  end.

(** The oldest send completes, after [n] bytes or with an error. *)
Definition send_completes (res : option Z) (w : W) : option W :=
  '(s, w) ← pop_send w;
  match s with
  | sd_buffer _ => on_sent_buffer res w
  | sd_list _ => on_sent_list res w
  end.

(** ** Connecting *)

Inductive connect_result : Type := connect_ok | connect_in_progress | connect_failed.

Definition asynConnect (w : W) : W :=
  if negb (bool_decide (ctype w = JMY_CONN_TYPE_ACTIVE)) then w else
  if bool_decide (state w = JMY_CONN_STATE_CONNECTED) then w else
  set_conn (c_set_state JMY_CONN_STATE_CONNECTING)
    (set_sock (fun s => mkSock true true (sk_reads s) (sk_sends s)) w).

Definition on_connect (res : connect_result) (w : W) : option W :=
  let w := set_sock (fun s => mkSock (sk_open s) false (sk_reads s) (sk_sends s)) w in
  match res with
  | connect_failed => Some (set_conn (c_set_state JMY_CONN_STATE_NOT_CONNECT) w)
  | connect_in_progress => Some w
  | connect_ok =>
    let w := set_conn (c_set_state JMY_CONN_STATE_CONNECTED) w in
    let w := start w in
    '(_, w) ← handle_event JMY_EVENT_CONNECT 0 w;
    Some w
  end.

(** [ok] is whether the blocking [sock_.connect] succeeds. *)
Definition connect (ok : bool) (w : W) : option (bool * W) :=
  if negb (bool_decide (ctype w = JMY_CONN_TYPE_ACTIVE)) then Some (false, w) else
  if bool_decide (state w = JMY_CONN_STATE_CONNECTED) then Some (false, w) else
  if negb ok then Some (false, w) else
  let w := set_conn (c_set_state JMY_CONN_STATE_CONNECTED)
             (set_sock (fun s => mkSock true (sk_connecting s) (sk_reads s) (sk_sends s)) w) in
  '(_, w) ← handle_event JMY_EVENT_CONNECT 0 w;
  Some (true, w).

(** ** Running *)

Definition recv_of (w : W) : JmySessionBufferList :=
  match buffer_ (w_conn w) with Some b => recv_buff_list b | None => JmySessionBufferList_new end.
Definition set_recv (l : JmySessionBufferList) (w : W) : W :=
  match buffer_ (w_conn w) with
  | Some b => set_conn (c_set_buffer (Some (cb_set_recv_list l b))) w
  | None => w
  end.

(** [mgr->get(id)] finds this connection, and no other. *)
Definition connection_calls : ConnCalls W := {|
  mgr_get id w := id =? c_id (w_conn w);
  conn_handleHeartbeat _ w := conn_on_heartbeat w;
  conn_handleDisconnect _ w := conn_on_disconnect w;
  conn_handleDisconnectAck _ w := conn_on_disconnect_ack w;
|}.

Definition handle_recv (w : W) : option (Z * W) :=
  ub_unless (data_handler_ (w_conn w));;
  _ ← buffer_ (w_conn w);
  '(count, w, H) ← @processData W connection_calls recv_of set_recv (c_id (w_conn w)) mgr
                     (dh2_set_unpack (w_unpack w) handlers) w;
  let w := set_unpack (unpack_data_ H) w in
  Some (if count <? 0 then -1 else count, w).

Definition run (now : Z) (w : W) : option (Z * W) :=
  ub_unless (event_handler_ (w_conn w));;
  w ← (if hasTickHandler events then
         '(_, w) ← handle_event JMY_EVENT_TICK (Z.quot (now - last_run_tick_ (w_conn w)) 1000) w;
         Some (set_conn (c_set_tick now) w)
       else Some w);
  if bool_decide (state w = JMY_CONN_STATE_DISCONNECTING) &&
     (JMY_ACTIVE_CLOSE_CONNECTION_TIMEOUT <=? Z.quot (now - active_close_start_ (w_conn w)) (10 ^ 9))
  then w ← force_close CONN_CLOSE_REASON_TIMEOUT w; Some (0, w)
  else if negb (bool_decide (state w = JMY_CONN_STATE_CONNECTED)) then Some (0, w) else
  '(r, w) ← handle_recv w;
  if r <? 0 then w ← force_close CONN_CLOSE_REASON_READ_DATA_FAILED w; Some (-1, w)
  else start_send w.
End operations.
