(* ===== verification/ConnectionFrame.v ===== *)
(** * What the operations of a connection preserve

    A relation between the worlds before and after is preserved by every operation of a
    connection when it holds for the few elementary changes that the operations make of: the
    clients of this file prove what their connections keep against the class [ConnPreserved]. *)
From S2P Require Import Prelude Datatype Wire NetProto2 SessionBuffer BufferPool BufferList DoubleBuffer SendBuffer DataHandler2 EventHandler ConnBuffer Connection.
From Stdlib Require Import ZArith Lia.
From stdpp Require Import base option list gmap.
Local Open Scope Z_scope.

Definition cb_tag (b : JmyConnectionBuffer) : Z * JmyConnectionBufferState := (cb_id b, cb_state b).

(** Only the contents of buffers, the outstanding reads and sends, counters and times change. *)
Record same_conn {App} (w w' : World App) : Prop := mkSameConn {
  sc_id : c_id (w_conn w') = c_id (w_conn w);
  sc_type : conn_type_ (w_conn w') = conn_type_ (w_conn w);
  sc_state : state_ (w_conn w') = state_ (w_conn w);
  sc_handlers : data_handler_ (w_conn w') = data_handler_ (w_conn w) /\ event_handler_ (w_conn w') = event_handler_ (w_conn w);
  sc_buffer : cb_tag <$> buffer_ (w_conn w') = cb_tag <$> buffer_ (w_conn w);
  sc_connecting : sk_connecting (w_sock w') = sk_connecting (w_sock w);
}.

Class ConnPreserved {App} (R : World App -> World App -> Prop) : Prop := {
  cp_preorder : PreOrder R;
  cp_same : forall w w', same_conn w w' -> R w w';
  cp_disconnected : forall w, R w (set_conn (c_set_state JMY_CONN_STATE_DISCONNECTED) w);
  cp_disconnecting : forall w, state w = JMY_CONN_STATE_CONNECTED -> R w (set_conn (c_set_state JMY_CONN_STATE_DISCONNECTING) w);
  cp_accepted : forall w, ctype w = JMY_CONN_TYPE_PASSIVE -> R w (set_conn (c_set_state JMY_CONN_STATE_CONNECTED) w);
}.
#[export] Existing Instance cp_preorder.
Arguments cp_same {App R _}.

Definition handlers_preserve {App} (R : World App -> World App -> Prop) (handlers : JmyDataHandler2 (World App)) : Prop :=
  forall info w, R w (snd (handleMsg handlers info w)).
Definition events_preserve {App} (R : World App -> World App -> Prop) (events : JmyEventHandlerManager (World App)) : Prop :=
  forall i info w, R w (snd (eh_call events i info w)).

(** The two worlds differ in none of what [same_conn] lists, given what the buffer of the first one is. *)
Ltac same_conn_tac := apply cp_same; constructor; simpl; repeat match goal with H : buffer_ _ = _ |- _ => rewrite H; clear H end; done.

Section preserved.
Context {App : Type}.
Notation W := (World App).
Context (R : W -> W -> Prop) `{!ConnPreserved R}.
Variable handlers : JmyDataHandler2 W.
Variable events : JmyEventHandlerManager W.
Variable mgr : Z.
Variable garbage : Z -> list Z.
Hypothesis Hmsg : handlers_preserve R handlers.
Hypothesis Hev : events_preserve R events.

Lemma handle_event_preserves i l w r w' : handle_event events mgr i l w = Some (r, w') -> R w w'.
Proof using ConnPreserved0 Hev.
  unfold handle_event, onConnect, onDisconnect, onTick, onTimer, onEvent. intros E. apply bind_Some in E as ([] & _ & E).
  repeat case_match; try (injection E as E'; subst);
    try (match goal with H : eh_call events ?i ?f w = _ |- _ => by generalize (Hev i f w); rewrite H end).
  apply bind_Some in E as ([] & _ & E). injection E as E. cbn [ei_event_id] in E.
  match goal with H : eh_call events ?i ?f w = _ |- _ => by generalize (Hev i f w); rewrite H end.
Qed.

Lemma clear_buffer_preserves w : R w (clear_buffer w).
Proof using ConnPreserved0.
  unfold clear_buffer. destruct (buffer_ (w_conn w)) as [b|] eqn:E; [|reflexivity].
  unfold cb_clear. destruct db_clear. same_conn_tac.
Qed.

Lemma force_close_preserves reason w w' : force_close events mgr reason w = Some w' -> R w w'.
Proof using ConnPreserved0 Hev.
  unfold force_close. case_bool_decide; [intros [= ->]; reflexivity|]. intros E. apply bind_Some in E as ([r w1] & E & [= <-]).
  apply handle_event_preserves in E. etrans; [|exact E].
  transitivity (sock_close w); [same_conn_tac|]. etrans; [apply clear_buffer_preserves|].
  etrans; [apply cp_disconnected|]. same_conn_tac.
Qed.

Lemma on_send_buffer_preserves fd fl w r w' : on_send_buffer fd fl w = Some (r, w') -> R w w'.
Proof using ConnPreserved0.
  unfold on_send_buffer. destruct (buffer_ (w_conn w)) as [b|] eqn:Eb; [|done]. cbn [mbind option_bind].
  intros E. apply bind_Some in E as ([] & _ & E). destruct (use_send_list b); cbn [negb] in E;
    apply bind_Some in E as ([r1 x] & _ & [= <- <-]); same_conn_tac.
Qed.

Lemma start_recv_preserves w : R w (start_recv w).
Proof using ConnPreserved0.
  unfold start_recv. destruct (_ && _); [reflexivity|]. destruct (_ || _); [reflexivity|].
  assert (Hp : R w (push_read rd_head w)) by same_conn_tac. destruct (bool_decide (ctype (push_read rd_head w) = JMY_CONN_TYPE_PASSIVE)) eqn:E; cbn [andb]; [|exact Hp].
  destruct (negb _); [|exact Hp]. etrans; [exact Hp|]. apply cp_accepted. by apply bool_decide_eq_true in E.
Qed.

Lemma neg_or_preserves w ret x r w' : R w (snd x) -> neg_or ret x = (r, w') -> R w w'.
Proof using. unfold neg_or. destruct (_ <? 0); by intros Hx [= _ <-]. Qed.

Lemma on_disconnect_preserves w r w' : conn_on_disconnect garbage w = Some (r, w') -> R w w'.
Proof using ConnPreserved0.
  unfold conn_on_disconnect, sendDisconnectAck. case_bool_decide; [intros [= _ ->]; reflexivity|].
  intros E. apply bind_Some in E as ([r1 w1] & E & E1). apply on_send_buffer_preserves in E.
  injection E1 as E1. by eapply neg_or_preserves in E1.
Qed.

Lemma on_disconnect_ack_preserves w r w' : conn_on_disconnect_ack events mgr w = Some (r, w') -> R w w'.
Proof using ConnPreserved0 Hev.
  unfold conn_on_disconnect_ack. destruct (negb _); [intros [= _ ->]; reflexivity|].
  intros E. apply bind_Some in E as (w1 & E & [= _ <-]). by apply force_close_preserves in E.
Qed.

Lemma handle_packet_type_preserves ty w r w' : handle_packet_type events mgr garbage ty w = Some (r, w') -> R w w'.
Proof using ConnPreserved0 Hev.
  unfold handle_packet_type, conn_on_heartbeat. repeat case_match; intros E;
    try (injection E as _ <-; reflexivity); apply bind_Some in E as ([r1 w1] & E & [= _ <-]).
  - by apply on_disconnect_preserves in E.
  - by apply on_disconnect_ack_preserves in E.
Qed.

Lemma read_completes_preserves res w w' : read_completes events mgr garbage res w = Some w' -> R w w'.
Proof using ConnPreserved0 Hev.
  unfold read_completes. intros E. apply bind_Some in E as ([r w1] & Ep & E).
  assert (Hp : R w w1) by (unfold pop_read in Ep; destruct (sk_reads _); [done|injection Ep as _ <-; same_conn_tac]).
  etrans; [exact Hp|]. destruct res as [bytes|]; [|by apply force_close_preserves in E]. destruct r as [|ty n].
  - unfold on_head in E. destruct (negb _); [by apply force_close_preserves in E|].
    apply bind_Some in E as ([[ty len]|] & _ & E); [|by apply force_close_preserves in E].
    apply bind_Some in E as ([r w2] & E2 & E). apply handle_packet_type_preserves in E2. etrans; [exact E2|].
    destruct (r =? 0); injection E as <-; [apply start_recv_preserves|same_conn_tac].
  - unfold on_body in E. destruct (negb _); [by apply force_close_preserves in E|].
    destruct (buffer_ (w_conn w1)) as [b|] eqn:Eb; [|done]. cbn [mbind option_bind] in E.
    apply bind_Some in E as ([r l] & _ & [= <-]). etrans; [|apply start_recv_preserves]. same_conn_tac.
Qed.

Lemma list_send_preserves b w w' : buffer_list_send b w = Some w' -> R w w'.
Proof using ConnPreserved0. unfold buffer_list_send. intros E. apply bind_Some in E as (bytes & _ & [= <-]). same_conn_tac. Qed.

Lemma buffer_send_preserves b w w' : buffer_send b w = Some w' -> R w w'.
Proof using ConnPreserved0. unfold buffer_send. intros E. apply bind_Some in E as (bytes & _ & [= <-]). same_conn_tac. Qed.

Lemma send_completes_preserves res w w' : send_completes events mgr res w = Some w' -> R w w'.
Proof using ConnPreserved0 Hev.
  unfold send_completes. intros E. apply bind_Some in E as ([k w1] & Ep & E).
  assert (Hp : R w w1) by (unfold pop_send in Ep; destruct (sk_sends _); [done|injection Ep as _ <-; same_conn_tac]).
  etrans; [exact Hp|]. destruct k as [bytes|bytes].
  - unfold on_sent_buffer in E. destruct res as [n|]; [|by apply force_close_preserves in E].
    destruct (buffer_ (w_conn w1)) as [b|] eqn:Eb; [|done]. cbn [mbind option_bind] in E.
    destruct (0 <? n); [|injection E as <-; same_conn_tac]. destruct db_readLen as [r s].
    destruct (negb r); injection E as <-; same_conn_tac.
  - unfold on_sent_list in E. destruct res as [n|]; [|by apply force_close_preserves in E].
    destruct (buffer_ (w_conn w1)) as [b|] eqn:Eb; [|done]. cbn [mbind option_bind] in E.
    destruct bl_readLen as [r l]. destruct (_ || _).
    + injection E as <-. same_conn_tac.
    + apply list_send_preserves in E. etrans; [|exact E]. same_conn_tac.
Qed.

Lemma start_send_preserves w r w' : start_send w = Some (r, w') -> R w w'.
Proof using ConnPreserved0.
  unfold start_send. destruct (negb _); [intros [= _ ->]; reflexivity|]. destruct (sending_data_ _); [intros [= _ ->]; reflexivity|].
  destruct (buffer_ (w_conn w)) as [b|]; [|done]. cbn [mbind option_bind].
  destruct (_ =? 0); [intros [= _ ->]; reflexivity|]. intros E. apply bind_Some in E as (w1 & E & [= _ <-]).
  etrans; [|same_conn_tac].
  destruct (negb _); [apply buffer_send_preserves in E|apply list_send_preserves in E]; exact E.
Qed.

Lemma check_neg_preserves x r H w r' w' H' :
  (forall r1 w1, x = Some (r1, w1) -> R w w1) -> check_neg x r H = Some (r', w', H') -> R w w' /\ H' = H.
Proof using ConnPreserved0.
  intros Hx. unfold check_neg. intros E. apply bind_Some in E as ([r1 w1] & E & [= _ <- <-]). eauto.
Qed.

Lemma handleOne_preserves u buff id p w r w' H' :
  @handleOne W (connection_calls events mgr garbage) (dh2_set_unpack u handlers) buff id p w = Some (r, w', H') ->
  R w w' /\ exists u', H' = dh2_set_unpack u' handlers.
Proof using ConnPreserved0 Hmsg Hev.
  unfold handleOne. intros E. apply bind_Some in E as ([r1 d] & _ & E).
  assert (Hn : forall (x : Z * W * JmyDataHandler2 W), x = (x.1.1, w, dh2_set_unpack d (dh2_set_unpack u handlers)) ->
    Some x = Some (r, w', H') -> R w w' /\ exists u', H' = dh2_set_unpack u' handlers).
  { intros x Hx [= ->]. injection Hx as -> ->. split; [reflexivity|]. by exists d. }
  destruct (r1 <? 0); [by eapply Hn; [|exact E]|]. destruct (_ && _); [by eapply Hn; [|exact E]|].
  destruct (is_user_packet _).
  { pose proof (Hmsg (ud2_msg_info d) w) as Hk. rewrite handleMsg_unpack, handleMsg_unpack in E.
    destruct (handleMsg handlers (ud2_msg_info d) w) as [r2 w2]. injection E as _ <- <-. split; [done|]. by exists d. }
  assert (Hc : forall x, (forall r1 w1, x = Some (r1, w1) -> R w w1) ->
    check_neg x r1 (dh2_set_unpack d (dh2_set_unpack u handlers)) = Some (r, w', H') ->
    R w w' /\ exists u', H' = dh2_set_unpack u' handlers).
  { intros x Hx E'. destruct (check_neg_preserves _ _ _ _ _ _ _ Hx E') as [Hk ->]. split; [done|]. by exists d. }
  destruct (_ =? JMY_PACKET2_HEARTBEAT).
  { eapply Hc; [|exact E]. unfold handleHeartbeat. intros r2 w2. destruct mgr_get; intros [= _ <-]; reflexivity. }
  destruct (_ =? JMY_PACKET2_DISCONNECT).
  { eapply Hc; [|exact E]. unfold handleDisconnect. intros r2 w2. destruct mgr_get; [|intros [= _ <-]; reflexivity].
    cbn [connection_calls conn_handleDisconnect]. apply on_disconnect_preserves. }
  destruct (_ =? JMY_PACKET2_DISCONNECT_ACK); [|by eapply Hn; [|exact E]].
  eapply Hc; [|exact E]. unfold handleDisconnectAck. intros r2 w2. destruct mgr_get; [|intros [= _ <-]; reflexivity].
  cbn [connection_calls conn_handleDisconnectAck]. apply on_disconnect_ack_preserves.
Qed.

Lemma process_loop_preserves all bs id p count u w r w' H' :
  @process_loop W (connection_calls events mgr garbage) recv_of all bs id p count (dh2_set_unpack u handlers) w = Some (r, w', H') ->
  R w w'.
Proof using ConnPreserved0 Hmsg Hev.
  revert count u w. induction bs as [|b bs IH]; intros count u w; cbn [process_loop]; [intros [= _ <- _]; reflexivity|].
  intros E. apply bind_Some in E as ([[r1 w1] H1] & E1 & E). destruct (handleOne_preserves _ _ _ _ _ _ _ _ E1) as [Hk [u' ->]].
  destruct (r1 <? 0); [by injection E as _ <- _|]. apply bind_Some in E as ([] & _ & E). etrans; [exact Hk|]. by eapply IH.
Qed.

Lemma handle_recv_preserves w r w' : handle_recv handlers events mgr garbage w = Some (r, w') -> R w w'.
Proof using ConnPreserved0 Hmsg Hev.
  unfold handle_recv. intros E. apply bind_Some in E as ([] & _ & E).
  destruct (buffer_ (w_conn w)) as [b|] eqn:Eb; [|done]. cbn [mbind option_bind] in E.
  apply bind_Some in E as ([[r1 w1] H1] & E & [= _ <-]). unfold processData in E.
  apply bind_Some in E as ([[r2 w2] H2] & E2 & E). apply process_loop_preserves in E2.
  etrans; [exact E2|]. destruct (r2 <? 0); injection E as _ <- _; [same_conn_tac|].
  unfold set_recv. destruct (buffer_ (w_conn w2)) as [b2|] eqn:Eb2; same_conn_tac.
Qed.

Lemma run_preserves now w r w' : run handlers events mgr garbage now w = Some (r, w') -> R w w'.
Proof using ConnPreserved0 Hmsg Hev.
  unfold run. intros E. apply bind_Some in E as ([] & _ & E). apply bind_Some in E as (w1 & E1 & E).
  assert (Hk : R w w1).
  { destruct (hasTickHandler events); [|injection E1 as <-; reflexivity]. apply bind_Some in E1 as ([r1 w2] & E1 & [= <-]).
    apply handle_event_preserves in E1. etrans; [exact E1|same_conn_tac]. }
  etrans; [exact Hk|]. destruct (_ && _).
  { apply bind_Some in E as (w2 & E & [= _ <-]). by apply force_close_preserves in E. }
  destruct (negb _); [injection E as _ <-; reflexivity|]. apply bind_Some in E as ([r2 w2] & E2 & E).
  apply handle_recv_preserves in E2. etrans; [exact E2|]. destruct (r2 <? 0); [|by apply start_send_preserves in E].
  apply bind_Some in E as (w3 & E & [= _ <-]). by apply force_close_preserves in E.
Qed.

Lemma send_preserves msg_id data len w r w' : send garbage msg_id data len w = Some (r, w') -> R w w'.
Proof using ConnPreserved0.
  unfold send. destruct (negb _); [intros [= _ ->]; reflexivity|]. intros E. apply bind_Some in E as ([r1 w1] & E & E1).
  apply on_send_buffer_preserves in E. injection E1 as E1. by eapply neg_or_preserves in E1.
Qed.

Lemma on_send_buffer_state fd fl (w : W) r w' : on_send_buffer fd fl w = Some (r, w') -> state w' = state w.
Proof using.
  unfold on_send_buffer. destruct (buffer_ (w_conn w)); [|done]. cbn [mbind option_bind]. intros E.
  apply bind_Some in E as ([] & _ & E). destruct (negb _); apply bind_Some in E as ([r1 y] & _ & [= _ <-]); done.
Qed.

Lemma close_preserves now w w' : close garbage now w = Some w' -> R w w'.
Proof using ConnPreserved0.
  unfold close. destruct (bool_decide (state w = JMY_CONN_STATE_CONNECTED)) eqn:Hs; cbn [negb]; [|intros [= ->]; reflexivity].
  apply bool_decide_eq_true in Hs. intros E. apply bind_Some in E as ([r w1] & E & E1).
  unfold sendDisconnect in E. apply bind_Some in E as ([r1 w2] & E & E2). pose proof (on_send_buffer_state _ _ _ _ _ E) as Hs2.
  apply on_send_buffer_preserves in E. injection E2 as E2.
  assert (w1 = w2) as -> by (unfold neg_or in E2; destruct (_ <? 0); by injection E2 as _ <-).
  destruct (r <? 0); injection E1 as <-; [exact E|]. etrans; [exact E|].
  transitivity (set_conn (c_set_close_start now) w2); [same_conn_tac|]. apply cp_disconnecting. unfold state in *. simpl. congruence.
Qed.
End preserved.
