(* ===== verification/ConnectionProps.v ===== *)
(** * Properties of connections

    What [Connection] guarantees: reading frames, conserving the byte stream on the way out,
    end-to-end delivery, and the life cycle of a connection. *)
From S2P Require Import Prelude Datatype Wire NetProto2 SessionBuffer BufferPool BufferList DoubleBuffer SendBuffer DataHandler2 EventHandler ConnBuffer Connection.
From Stdlib Require Import ZArith Lia.
From stdpp Require Import base option list gmap.
Local Open Scope Z_scope.

(** ** Reading frames *)

(** The packet of a message. *)
Definition message_packet (m : message) : packet :=
  match m with msg_plain i d => pk_user i d | msg_user u i d => pk_user_id u i d end.

Definition message_type (m : message) : Z :=
  match m with msg_plain _ _ => JMY_PACKET2_USER_DATA | msg_user _ _ _ => JMY_PACKET2_USER_ID_DATA end.

Definition message_body (m : message) : list Z :=
  match m with msg_plain i d => be16 i ++ d | msg_user u i d => be32 u ++ be16 i ++ d end.

Lemma message_bytes m :
  packet_bytes (message_packet m) = be16 (lenZ (message_body m) + 1) ++ [message_type m] ++ message_body m.
Proof.
  destruct m as [i d|u i d]; simpl message_packet; unfold packet_bytes, user_data_head, user_id_data_head.
  - rewrite <-!app_assoc. do 2 f_equal. unfold message_body. rewrite length_app. simpl. lia.
  - rewrite <-!app_assoc. do 2 f_equal. unfold message_body. rewrite !length_app. simpl. lia.
Qed.

Lemma message_buffer_body m :
  message_buffer m = mkBuffer (Some (message_body m)) (lenZ (message_body m)) 0 (message_type m).
Proof.
  destruct m as [i d|u i d]; simpl message_buffer; unfold message_body, message_type; f_equal;
    rewrite ?length_app; simpl; lia.
Qed.

Lemma message_ok_len m : message_ok m -> 2 <= lenZ (message_body m) < 65532.
Proof.
  destruct m as [i d|u i d]; simpl; [intros [_ ?]|intros (_ & _ & ?)]; lia.
Qed.

Section receive.
Context {App : Type}.
Notation W := (World App).
Implicit Type w : W.
Variable events : JmyEventHandlerManager W.
Variable mgr : Z.
Variable garbage : Z -> list Z.

(** The number of bytes a read waits for ([transfer_all]). *)
Definition need (r : pending_read) : Z :=
  match r with rd_head => JMY_PACKET2_LEN_HEAD + JMY_PACKET2_LEN_TYPE | rd_body _ n => n end.

(** The byte stream of the peer arrives: up to [fuel] reads complete, each as soon as its
    bytes are there.  Returns the bytes not yet asked for. *)
Fixpoint feed (fuel : nat) (bytes : list Z) (w : W) : option (list Z * W) :=
  match fuel, sk_reads (w_sock w) with
  | S fuel, r :: _ =>
    if lenZ bytes <? need r then Some (bytes, w) else
    w ← read_completes events mgr garbage (Some (take (Z.to_nat (need r)) bytes)) w;
    feed fuel (drop (Z.to_nat (need r)) bytes) w
  | _, _ => Some (bytes, w)
  end.

(** A connection that is reading: one read outstanding, of a head. *)
Definition reading (w : W) : Prop :=
  state_ (w_conn w) = JMY_CONN_STATE_CONNECTED /\ data_handler_ (w_conn w) = true /\
  is_Some (buffer_ (w_conn w)) /\ sk_reads (w_sock w) = [rd_head].

(** The packets [bs] queued for [processData]. *)
Definition recv_append (bs : list buffer) (w : W) : W :=
  set_recv (bl_set_list (recv_of w) (using_list_ (recv_of w) ++ bs)) w.

Definition with_reads (rs : list pending_read) (w : W) : W :=
  set_sock (fun s => mkSock (sk_open s) (sk_connecting s) rs (sk_sends s)) w.

Lemma start_recv_connected w b :
  state_ (w_conn w) = JMY_CONN_STATE_CONNECTED -> data_handler_ (w_conn w) = true ->
  buffer_ (w_conn w) = Some b -> start_recv w = push_read rd_head w.
Proof using.
  intros Hs Hd Hb. unfold start_recv, ctype, state. rewrite Hs, Hd, Hb.
  rewrite (bool_decide_eq_true_2 (JMY_CONN_STATE_CONNECTED = _)) by done. rewrite andb_false_r.
  rewrite (bool_decide_eq_false_2 (Some b = None)) by done. simpl. unfold state, ctype. simpl. rewrite Hs.
  rewrite (bool_decide_eq_true_2 (JMY_CONN_STATE_CONNECTED = _)) by done. by rewrite andb_false_r.
Qed.

Lemma head_of_message m rest w :
  message_ok m -> reading w ->
  on_head events mgr garbage (take 3 (packet_bytes (message_packet m) ++ rest)) (with_reads [] w) =
    Some (with_reads [rd_body (message_type m) (lenZ (message_body m))] w).
Proof using.
  intros Hm (Hs & Hd & [b Hb] & Hr). pose proof (message_ok_len m Hm) as Hl. rewrite message_bytes.
  replace (take 3 ((be16 (lenZ (message_body m) + 1) ++ [message_type m] ++ message_body m) ++ rest))
    with (be16 (lenZ (message_body m) + 1) ++ [message_type m] ++ []) by done.
  unfold on_head. change (JMY_PACKET2_LEN_HEAD + JMY_PACKET2_LEN_TYPE) with 3.
  change (lenZ (be16 (lenZ (message_body m) + 1) ++ [message_type m] ++ [])) with 3.
  change (negb (3 =? 3)) with false. cbv iota. rewrite get_packet_len_type_spec by lia.
  cbv beta iota zeta delta [mbind option_bind].
  assert (handle_packet_type events mgr garbage (message_type m) (with_reads [] w) = Some (1, with_reads [] w))
    as -> by by destruct m.
  change (1 =? 0) with false. cbv iota.
  replace (lenZ (message_body m) + 1 - JMY_PACKET2_LEN_TYPE) with (lenZ (message_body m))
    by (unfold JMY_PACKET2_LEN_TYPE; lia).
  by rewrite u16_id by (unfold is_u16; lia).
Qed.

Lemma body_of_message m w :
  message_ok m -> reading w ->
  on_body events mgr (message_type m) (lenZ (message_body m)) (message_body m) (with_reads [] w) =
    Some (recv_append [message_buffer m] w).
Proof using.
  intros Hm (Hs & Hd & [b Hb] & Hr). pose proof (message_ok_len m Hm) as Hl.
  unfold on_body. rewrite Z.eqb_refl. simpl negb. cbv iota. simpl w_conn. rewrite Hb.
  unfold bl_writeParam. cbv beta iota zeta delta [mbind option_bind].
  rewrite buffer_init_data_whole by (unfold is_u16; lia). rewrite nonempty_len.
  rewrite (proj2 (Z.ltb_lt 0 _)) by lia. cbv beta iota zeta delta [mbind option_bind].
  rewrite (start_recv_connected _ (cb_set_recv_list
    (bl_set_list (recv_buff_list b) (using_list_ (recv_buff_list b) ++ [message_buffer m])) b)) by
    (try done; simpl; rewrite message_buffer_body; by destruct m).
  unfold recv_append, set_recv, recv_of. rewrite Hb. unfold push_read, set_conn, set_sock, with_reads.
  simpl. rewrite message_buffer_body. f_equal.
  replace (u16 (message_type m)) with (message_type m) by by destruct m.
  destruct w as [c k h P u a]. simpl in *. f_equal. destruct k. simpl in *. by subst.
Qed.

Lemma recv_append_reading bs w : reading w -> reading (recv_append bs w).
Proof using.
  intros (Hs & Hd & [b Hb] & Hr). unfold recv_append, set_recv, reading. rewrite Hb. simpl. eauto.
Qed.

Lemma recv_append_app xs ys w : recv_append ys (recv_append xs w) = recv_append (xs ++ ys) w.
Proof using.
  unfold recv_append, set_recv, recv_of. destruct (buffer_ (w_conn w)) as [b|] eqn:Hb.
  - simpl. unfold set_conn, bl_set_list, c_set_buffer, cb_set_recv_list. simpl. by rewrite <-app_assoc.
  - by rewrite !Hb.
Qed.

Lemma packet_length m : lenZ (packet_bytes (message_packet m)) = 3 + lenZ (message_body m).
Proof using. rewrite message_bytes, !length_app. simpl. lia. Qed.

Lemma reading_eta w : sk_reads (w_sock w) = [rd_head] -> w = with_reads [rd_head] w.
Proof using. intros Hr. destruct w as [? [] ? ? ? ?]. simpl in *. by subst. Qed.

Lemma feed_step n bytes w r rs :
  need r <= lenZ bytes ->
  feed (S n) bytes (with_reads (r :: rs) w) =
    (w ← match r with
         | rd_head => on_head events mgr garbage (take (Z.to_nat (need r)) bytes) (with_reads rs w)
         | rd_body ty k => on_body events mgr ty k (take (Z.to_nat (need r)) bytes) (with_reads rs w)
         end;
     feed n (drop (Z.to_nat (need r)) bytes) w).
Proof using. intros H. cbn [feed with_reads set_sock w_sock sk_reads]. rewrite (proj2 (Z.ltb_ge _ _)) by done. by destruct r. Qed.

Lemma feed_message m rest w n :
  message_ok m -> reading w ->
  feed (S (S n)) (packet_bytes (message_packet m) ++ rest) w = feed n rest (recv_append [message_buffer m] w).
Proof using.
  intros Hm Hw. pose proof Hw as (_ & _ & _ & Hr). pose proof (message_ok_len m Hm) as Hl.
  rewrite (reading_eta w Hr) at 1.
  rewrite feed_step by (rewrite length_app, Nat2Z.inj_add, packet_length; change (need rd_head) with 3; lia).
  change (Z.to_nat (need rd_head)) with 3%nat. rewrite head_of_message by done.
  cbv beta iota zeta delta [mbind option_bind].
  assert (drop 3 (packet_bytes (message_packet m) ++ rest) = message_body m ++ rest)
    as -> by (by rewrite message_bytes).
  rewrite feed_step by (simpl; rewrite length_app; lia). cbn [need].
  rewrite take_app_length' by lia. rewrite drop_app_length' by lia.
  by rewrite body_of_message.
Qed.

Lemma feed_messages ms rest w n :
  Forall message_ok ms -> reading w ->
  feed (2 * length ms + n) (concat ((fun m => packet_bytes (message_packet m)) <$> ms) ++ rest) w =
    feed n rest (recv_append (message_buffer <$> ms) w).
Proof using.
  intros Hms. revert w. induction Hms as [|m ms Hm Hms IH]; intros w Hw.
  - simpl. f_equal. unfold recv_append, set_recv, recv_of.
    destruct (buffer_ (w_conn w)) as [b|] eqn:Hb; [|done]. rewrite app_nil_r.
    destruct w as [c ? ? ? ? ?]. unfold set_conn, c_set_buffer. simpl in *. destruct c. simpl in *. subst.
    destruct b as [? ? ? ? l]. by destruct l.
  - replace (2 * length (m :: ms) + n)%nat with (S (S (2 * length ms + n))) by (simpl; lia).
    rewrite !fmap_cons. cbn [concat].
    rewrite <-app_assoc, feed_message by done. rewrite IH by by apply recv_append_reading.
    by rewrite recv_append_app.
Qed.

(** C8.  Framing.  Whatever way the peer's byte stream is cut up by the network, a connection
    that reads queues exactly the user packets of the stream for [processData]:
    for any valid messages [ms], their packets followed by [rest] leave the connection reading
    [rest] with the packets queued behind those already there, in order, unchanged and with
    their types; nothing else of the connection changes. *)
Theorem receive_queues_messages : forall ms rest w,
  Forall message_ok ms -> reading w ->
  feed (2 * length ms) (concat ((fun m => packet_bytes (message_packet m)) <$> ms) ++ rest) w =
    Some (rest, recv_append (message_buffer <$> ms) w) /\ reading (recv_append (message_buffer <$> ms) w) /\
  using_list_ (recv_of (recv_append (message_buffer <$> ms) w)) =
    using_list_ (recv_of w) ++ (message_buffer <$> ms).
Proof using.
  intros ms rest w Hms Hw. split.
  - rewrite <-(Nat.add_0_r (2 * length ms)), feed_messages by done. simpl.
    destruct Hw as (_ & _ & _ & Hr). by destruct (sk_reads _).
  - split; [by apply recv_append_reading|]. destruct Hw as (_ & _ & [b Hb] & _).
    unfold recv_append, set_recv, recv_of. by rewrite Hb.
Qed.

(** A heartbeat breaks the framing: when its head has been read, the next
    head is read at once, so the 4 bytes of the timestamp that the packet carries are taken
    for the length and type of a packet. *)
Theorem heartbeat_desynchronises : forall t rest w n,
  reading w -> feed (S n) (heartbeat_packet t ++ rest) w = feed n (be32 t ++ rest) w.
Proof using.
  intros t rest w n (Hs & Hd & [b Hb] & Hr). rewrite (reading_eta w Hr) at 1.
  rewrite feed_step by (change (need rd_head) with 3; simpl; lia). change (Z.to_nat (need rd_head)) with 3%nat.
  change (take 3 (heartbeat_packet t ++ rest)) with (be16 5 ++ [JMY_PACKET2_HEARTBEAT] ++ []).
  change (drop 3 (heartbeat_packet t ++ rest)) with (be32 t ++ rest).
  unfold on_head. change (JMY_PACKET2_LEN_HEAD + JMY_PACKET2_LEN_TYPE) with 3.
  change (lenZ (be16 5 ++ [JMY_PACKET2_HEARTBEAT] ++ [])) with 3.
  change (negb (3 =? 3)) with false. cbv iota. rewrite get_packet_len_type_spec by lia.
  cbv beta iota zeta delta [mbind option_bind]. unfold handle_packet_type.
  change (JMY_PACKET2_HEARTBEAT =? JMY_PACKET2_DISCONNECT) with false.
  change (JMY_PACKET2_HEARTBEAT =? JMY_PACKET2_DISCONNECT_ACK) with false.
  change (JMY_PACKET2_HEARTBEAT =? JMY_PACKET2_HEARTBEAT) with true.
  cbv beta iota zeta delta [mbind option_bind conn_on_heartbeat]. change (0 =? 0) with true. cbv iota.
  f_equal. rewrite (start_recv_connected _ b) by done.
  change (push_read rd_head (with_reads [] w)) with (with_reads [rd_head] w).
  symmetry. by apply reading_eta.
Qed.
End receive.

(** ** Sending *)

Section sending.
Context {App : Type}.
Notation W := (World App).
Implicit Type w : W.
Variable events : JmyEventHandlerManager W.
Variable mgr : Z.
Variable garbage : Z -> list Z.
Hypothesis Hgarbage : forall n, 0 <= n -> lenZ (garbage n) = n.

(** What happens on the sending side: the application or the connection writes a
    packet, [run] starts a send, the outstanding send completes after at most [n] bytes. *)
Inductive out_op : Type := oo_write (p : packet) | oo_start | oo_sent (n : Z).

(** The write functions of the connection, by packet. *)
Definition write_conn (p : packet) (w : W) : option (Z * W) :=
  match p with
  | pk_user m d => send garbage m (Some d) (lenZ d) w
  | pk_user_id u m d => send_user garbage u m (Some d) (lenZ d) w
  | pk_heartbeat t => sendHeartbeat garbage t w
  | pk_disconnect => sendDisconnect garbage w
  | pk_disconnect_ack => sendDisconnectAck garbage w
  end.

(** The bytes of the oldest outstanding send. *)
Definition offered (w : W) : option (list Z) :=
  match sk_sends (w_sock w) with
  | [] => None
  | sd_buffer bs :: _ | sd_list bs :: _ => Some bs
  end.

(** The bytes that reach the peer, the packets that were accepted, and the new state. *)
Definition out_exec (o : out_op) (w : W) : option (list Z * list packet * W) :=
  match o with
  | oo_write p => '(r, w) ← write_conn p w; Some ([], if r <? 0 then [] else [p], w)
  | oo_start => '(_, w) ← start_send w; Some ([], [], w)
  | oo_sent n =>
    match offered w with
    | None => Some ([], [], w)
    | Some bs =>
      let k := Z.min n (lenZ bs) in
      w ← send_completes events mgr (Some k) w; Some (take (Z.to_nat k) bs, [], w)
    end
  end.

Fixpoint out_run (os : list out_op) (w : W) : option (list Z * list packet * W) :=
  match os with
  | [] => Some ([], [], w)
  | o :: os =>
    '(bs, ps, w) ← out_exec o w;
    '(bs', ps', w) ← out_run os w;
    Some (bs ++ bs', ps ++ ps', w)
  end.

Definition out_op_ok (o : out_op) : Prop :=
  match o with
  | oo_write p => lenZ (packet_bytes p) < 2 ^ 16
  | oo_start => True
  | oo_sent n => 0 <= n
  end.

(** The bytes written and not yet sent. *)
Definition out_stream (w : W) : list Z :=
  match buffer_ (w_conn w) with
  | None => []
  | Some b => if use_send_list b then bl_stream (send_buff_list b)
              else sb_content (w_heap w) (db_getSessionBuffer (send_buff b))
  end.

(** The outstanding send: none, or one whose bytes are at the front of the stream. *)
Definition pending_ok (w : W) (b : JmyConnectionBuffer) : Prop :=
  match sk_sends (w_sock w) with
  | [] => sending_data_ (w_conn w) = false
  | [s] => sending_data_ (w_conn w) = true /\
    if use_send_list b then
      exists bs q p ps, s = sd_list bs /\ bl_refines (send_buff_list b) q /\ pq_packets q = p :: ps /\ bs = p
    else exists bs rest, s = sd_buffer bs /\
      sb_content (w_heap w) (db_getSessionBuffer (send_buff b)) = bs ++ rest
  | _ => False
  end.

Definition out_inv (w : W) : Prop :=
  state_ (w_conn w) = JMY_CONN_STATE_CONNECTED /\ data_handler_ (w_conn w) = true /\
  0 <= buff_send_count_ (w_conn w) < 100 /\
  exists b, buffer_ (w_conn w) = Some b /\ pending_ok w b /\
    if use_send_list b then bl_ok (send_buff_list b)
    else sb_wf (w_heap w) (db_getSessionBuffer (send_buff b)).

(** One step conserves the stream. *)
Definition conserves (w : W) (o : option (list Z * list packet * W)) : Prop :=
  exists bs ps w', o = Some (bs, ps, w') /\ out_inv w' /\
    bs ++ out_stream w' = out_stream w ++ concat (packet_bytes <$> ps).

(** ** Writing *)

(** A write appends packets to a list and leaves its limits. *)
Definition list_extends (l l' : JmySessionBufferList) : Prop :=
  (exists bs, using_list_ l' = using_list_ l ++ bs) /\ max_bytes_ l' = max_bytes_ l /\ max_count_ l' = max_count_ l.

Lemma list_extends_refl l : list_extends l l.
Proof using. split; [|done]. exists []. by rewrite app_nil_r. Qed.

Lemma list_extends_push l b n : list_extends l (bl_push l b n).
Proof using. split; [|done]. by exists [b]. Qed.

#[local] Hint Resolve list_extends_refl list_extends_push : core.

Lemma list_write_extends p (l : JmySessionBufferList) r l' :
  @write_packet _ (list_SendBuffer garbage) l p = Some (r, l') -> list_extends l l'.
Proof using.
  assert (H1 : forall d n ok l1, bl_writeData l d n = Some (ok, l1) -> list_extends l l1).
  { intros d n ok l1. unfold bl_writeData. destruct (bl_count_full l); [|destruct (bl_bytes_full l n)];
      [intros [= <- <-]; done..|].
    destruct (buffer_init_data _ _ _) as [[[] b]|]; simpl; [| |done]; intros [= <- <-]; done. }
  assert (H2 : forall ds ok l1, bl_writeDatas garbage l (Some ds) = Some (ok, l1) -> list_extends l l1).
  { intros ds ok l1. unfold bl_writeDatas. destruct ds as [|d ds]; [intros [= <- <-]; done|].
    destruct (bl_count_full l); [|destruct (bl_bytes_full l _)]; [intros [= <- <-]; done..|].
    destruct (buffer_init_len _ _ _) as [[] b]; simpl negb; cbv iota; [|intros [= <- <-]; done].
    destruct (buffer_write_all _ _) as [[[] b']|]; simpl; [| |done]; intros [= <- <-]; done. }
  destruct p; cbn [write_packet]; unfold writeUserData, writeUserIdAndData, writeHeartbeat, writeDisconnect,
    writeDisconnectAck, write_head_only; cbn [list_SendBuffer sbuf_writeData sbuf_writeDatas]; intros H;
    apply bind_Some in H as ([res hd] & _ & H); repeat case_match;
    try (injection H as <- <-; done);
    apply bind_Some in H as ([ok l1] & E & H); injection H as _ <-; eauto.
Qed.

Lemma write_conn_eq p w :
  state_ (w_conn w) = JMY_CONN_STATE_CONNECTED -> lenZ (packet_bytes p) < 2 ^ 16 ->
  exists ret, 0 <= ret /\ write_conn p w =
    (x ← on_send_buffer (fun s => write_packet s p) (fun l => @write_packet _ (list_SendBuffer garbage) l p) w;
     Some (neg_or ret x)).
Proof using.
  intros Hs Hl. assert (Hd : forall A (x y : A), (if negb (bool_decide (state w = JMY_CONN_STATE_CONNECTED)) then x else y) = y).
  { intros. unfold state. rewrite bool_decide_eq_true_2 by done. done. }
  destruct p as [m d|u m d|t| |]; cbn [write_conn write_packet packet_bytes] in *.
  - exists (lenZ d). unfold send. rewrite Hd. split; [lia|].
    rewrite (length_app (user_data_head _ _)) in Hl. rewrite s32_id by (unfold is_s32; lia). done.
  - exists (lenZ d). unfold send_user. rewrite Hd. split; [lia|done].
  - exists 0. unfold sendHeartbeat. rewrite Hd. done.
  - by exists 0.
  - by exists 0.
Qed.

(** The first packet of a list does not change when packets are appended. *)
Lemma first_packet_stays l l' bs q q' p ps :
  using_list_ l' = using_list_ l ++ bs -> bl_refines l q -> bl_refines l' q' -> pq_packets q = p :: ps ->
  exists ps', pq_packets q' = p :: ps'.
Proof using.
  intros Hu Hq Hq' Hp. apply blr_packets in Hq, Hq'. rewrite Hp in Hq. rewrite Hu in Hq'.
  inversion Hq as [|b ? bl ? Hb _ E]; subst. rewrite <-E in Hq'.
  inversion Hq' as [|? p' ? ps' Hb' _]; subst.
  apply buffer_holds_pending in Hb, Hb'. exists ps'. congruence.
Qed.

Lemma neg_or_write ret pr (c : bool) w (p : packet) :
  0 <= ret -> 0 <= pr ->
  neg_or ret (if c then pr else -1, w) = (if c then ret else -1, w) /\
  (if (if c then ret else -1) <? 0 then [] else [p]) = (if c then [p] else []).
Proof using.
  intros Hr Hp. unfold neg_or. simpl. destruct c; simpl; [|done].
  by rewrite (proj2 (Z.ltb_ge pr 0)), (proj2 (Z.ltb_ge ret 0)).
Qed.

Lemma app_if_nil (c : bool) (s s' : list Z) p :
  s' = (if c then s ++ packet_bytes p else s) ->
  [] ++ s' = s ++ concat (packet_bytes <$> (if c then [p] else [])).
Proof using. intros ->. destruct c; csimpl; by rewrite ?app_nil_r. Qed.

(** Writing a packet to the list of a connection: it is appended, or the list is full. *)
Lemma on_send_list_packet p w b fd :
  out_inv w -> lenZ (packet_bytes p) < 2 ^ 16 -> buffer_ (w_conn w) = Some b -> use_send_list b = true ->
  exists l', let c := bl_accepts (send_buff_list b) (lenZ (packet_bytes p)) in
    let w' := set_conn (c_set_buffer (Some (cb_set_send_list l' b))) w in
    on_send_buffer fd (fun l => @write_packet _ (list_SendBuffer garbage) l p) w =
      Some (if c then packet_ret p else -1, w') /\
    out_inv w' /\ out_stream w' = (if c then out_stream w ++ packet_bytes p else out_stream w) /\
    list_extends (send_buff_list b) l'.
Proof using Hgarbage.
  intros (Hs & Hd & Hc & b' & Hb' & Hp & Hm) Hl Hb Hu. assert (b' = b) as -> by congruence.
  rewrite Hu in Hm. unfold on_send_buffer. rewrite Hb.
  cbv beta iota zeta delta [mbind option_bind]. rewrite Hd, Hu. cbv beta iota zeta delta [ub_unless negb].
  destruct (@write_packet_appends _ (list_SendBuffer garbage) (list_SendBufferLaws garbage Hgarbage)
    (send_buff_list b) p Hm Hl) as (l' & E & Hok' & Est). rewrite E. simpl in Est, Hok'.
  pose proof (list_write_extends _ _ _ _ E) as Hex. exists l'. split; [done|].
  split; [|split; [unfold out_stream; simpl; by rewrite Hb, Hu|done]].
  split; [done|]. split; [done|]. split; [done|].
  exists (cb_set_send_list l' b). split; [done|]. simpl. rewrite Hu. split; [|done].
  unfold pending_ok in *. simpl. rewrite Hu in *.
  destruct (sk_sends (w_sock w)) as [|sd [|? ?]]; [done| |done].
  destruct Hp as (Hsd & bs & q & p0 & ps & -> & Hq & Hps & ->). split; [done|].
  destruct Hex as [[bs' Hbs] _]. destruct Hok' as [q' Hq'].
  destruct (first_packet_stays _ _ _ _ _ _ _ Hbs Hq Hq' Hps) as [ps' Hps'].
  exists p0, q', p0, ps'. done.
Qed.

Lemma oo_write_list p w b :
  out_inv w -> lenZ (packet_bytes p) < 2 ^ 16 -> buffer_ (w_conn w) = Some b -> use_send_list b = true ->
  conserves w (out_exec (oo_write p) w).
Proof using Hgarbage.
  intros Hw Hl Hb Hu. unfold conserves. cbn [out_exec].
  destruct (write_conn_eq p w (proj1 Hw) Hl) as (ret & Hret & ->).
  destruct (on_send_list_packet p w b (fun s => write_packet s p) Hw Hl Hb Hu) as (l' & -> & Hw' & Est & _).
  cbv beta iota zeta delta [mbind option_bind].
  destruct (neg_or_write ret (packet_ret p) (bl_accepts (send_buff_list b) (lenZ (packet_bytes p)))
    (set_conn (c_set_buffer (Some (cb_set_send_list l' b))) w) p Hret (packet_ret_nonneg p)) as [-> ->].
  eexists [], _, _. split; [done|]. split; [done|]. by apply app_if_nil.
Qed.

Lemma oo_write_double p w b :
  out_inv w -> lenZ (packet_bytes p) < 2 ^ 16 -> buffer_ (w_conn w) = Some b -> use_send_list b = false ->
  conserves w (out_exec (oo_write p) w).
Proof using.
  intros (Hs & Hd & Hc & b' & Hb' & Hp & Hm) Hl Hb Hu. assert (b' = b) as -> by congruence.
  rewrite Hu in Hm. unfold conserves. cbn [out_exec].
  destruct (write_conn_eq p w Hs Hl) as (ret & Hret & ->). unfold on_send_buffer. rewrite Hb.
  cbv beta iota zeta delta [mbind option_bind]. rewrite Hd, Hu. cbv beta iota zeta delta [ub_unless negb].
  destruct (@write_packet_appends _ double_SendBuffer double_SendBufferLaws
    (w_heap w, send_buff b) p Hm Hl) as ([h' s'] & E & Hok' & Est). rewrite E. simpl in Est, Hok'. cbn [fst snd].
  set (c := sbuf_accepts _ _). change (sb_accepts (db_getSessionBuffer (send_buff b)) (lenZ (packet_bytes p))) with c in Est.
  set (w' := set_heap h' (set_conn (c_set_buffer (Some (cb_set_send_buff s' b))) w)).
  destruct (neg_or_write ret (packet_ret p) c w' p Hret (packet_ret_nonneg p)) as [-> ->].
  exists [], (if c then [p] else []), w'. split; [done|].
  split; [|apply app_if_nil; unfold out_stream; simpl; by rewrite Hb, Hu].
  split; [done|]. split; [done|]. split; [done|].
  exists (cb_set_send_buff s' b). split; [done|]. simpl. rewrite Hu. split; [|done].
  unfold pending_ok in *. simpl. rewrite Hu in *.
  destruct (sk_sends (w_sock w)) as [|sd [|? ?]]; [done| |done].
  destruct Hp as (Hsd & bs & rest & -> & Hrest). split; [done|].
  rewrite Est, Hrest. destruct c; [|by exists bs, rest].
  exists bs, (rest ++ packet_bytes p). by rewrite app_assoc.
Qed.

(** ** Starting a send *)

Lemma load_content h s : sb_wf h s -> load h (buff_ s) (read_offset_ s) (sb_getReadLen s) = Some (sb_content h s).
Proof using.
  intros Hwf. destruct (sb_wf_view _ _ Hwf) as [c Hv]. rewrite (sb_view_content _ _ _ Hv).
  destruct (sb_view_lens _ _ _ Hv) as (_ & -> & _).
  destruct Hv as (pre & post & Hp & Hc & Hl & H32 & Hh).
  destruct (decide (0 < SessionBuffer.len_ s)) as [Hpos|Hz].
  - destruct Hh as [_ Hh]; [done|]. rewrite <-Hp. by apply (load_mid _ _ pre c post).
  - assert (c = []) as -> by (destruct c; [done|simpl in *; lia]). done.
Qed.

Lemma bl_readlen_zero l q : bl_refines l q -> bl_getReadLen l = 0 -> pq_packets q = [] /\ bl_stream l = [].
Proof using.
  intros Hq H0. pose proof (bl_front_refines _ _ Hq) as Hf. rewrite (bl_refines_stream _ _ Hq).
  destruct (pq_packets q) as [|p ps] eqn:E; [done|]. destruct Hf as [Hf _].
  pose proof (blr_packets _ _ Hq) as Hp. rewrite E in Hp. inversion Hp as [|? ? ? ? Hb _]; subst.
  destruct Hb as (pre & _ & _ & _ & _ & _ & Hne). rewrite nonempty_len in Hne. lia.
Qed.

Lemma oo_start_conserves w : out_inv w -> conserves w (out_exec oo_start w).
Proof using.
  intros Hw. pose proof Hw as (Hs & Hd & Hc & b & Hb & Hp & Hm). unfold conserves. cbn [out_exec].
  unfold start_send, state. rewrite Hs, (bool_decide_eq_true_2 (JMY_CONN_STATE_CONNECTED = _)) by done.
  simpl negb. cbv iota. unfold pending_ok in Hp.
  destruct (sk_sends (w_sock w)) as [|sd [|? ?]] eqn:Hsk; [|destruct Hp as [-> _]|done];
    [rewrite Hp, Hb|eexists [], [], w; by rewrite app_nil_r].
  cbv beta iota zeta delta [mbind option_bind]. destruct (Z.eqb_spec
    (if use_send_list b then bl_getReadLen (send_buff_list b) else db_getReadLen (send_buff b)) 0) as [H0|H0].
  { eexists [], [], w. by rewrite app_nil_r. }
  destruct (use_send_list b) eqn:Hu; simpl negb; cbv iota.
  - destruct Hm as [q Hq]. pose proof (bl_front_refines _ _ Hq) as Hf. unfold buffer_list_send.
    destruct (pq_packets q) as [|p ps] eqn:Hps; [lia|]. destruct Hf as [-> ->].
    rewrite mem_read_all. cbv beta iota zeta delta [mbind option_bind].
    eexists [], [], _. split; [done|]. split; [|unfold out_stream; simpl; by rewrite app_nil_r].
    split; [done|]. split; [done|]. split; [done|]. exists b. split; [done|].
    unfold pending_ok. simpl. rewrite Hsk, Hu. simpl. split; [|by exists q].
    split; [done|]. by exists p, q, p, ps.
  - unfold buffer_send. change (db_getReadLen (send_buff b)) with (sb_getReadLen (db_getSessionBuffer (send_buff b))).
    rewrite load_content by done. cbv beta iota zeta delta [mbind option_bind].
    eexists [], [], _. split; [done|]. split; [|unfold out_stream; simpl; by rewrite app_nil_r].
    split; [done|]. split; [done|]. split; [done|]. exists b. split; [done|].
    unfold pending_ok. simpl. rewrite Hsk, Hu. simpl. split; [|done].
    split; [done|]. eexists _, []. by rewrite app_nil_r.
Qed.

(** ** Completing a send *)

(** Reading [k] bytes of the first packet takes them off the stream. *)
Lemma bl_read_stream l q p ps k :
  bl_refines l q -> pq_packets q = p :: ps -> 0 <= k <= lenZ p ->
  exists q', bl_refines (snd (bl_readLen l (u32 k))) q' /\
    take (Z.to_nat k) p ++ bl_stream (snd (bl_readLen l (u32 k))) = bl_stream l.
Proof using.
  intros Hq Hp Hk. pose proof (blr_packets _ _ Hq) as Hf. rewrite Hp in Hf.
  inversion Hf as [|? ? ? ? (pre & _ & _ & _ & _ & H16 & _) _]; subst. rewrite length_app in H16.
  rewrite u32_id by (unfold is_u32; lia).
  destruct (bl_read_refines l q k Hq) as [_ Hr]; [unfold is_u16; lia|].
  eexists. split; [exact Hr|]. rewrite (bl_refines_stream _ _ Hr), (bl_refines_stream _ _ Hq). simpl. rewrite Hp.
  rewrite (proj2 (Z.ltb_ge _ _)) by lia. simpl. destruct (Z.eqb_spec k (lenZ p)) as [->|]; simpl.
  - by rewrite take_ge by lia.
  - by rewrite app_assoc, take_drop.
Qed.

Lemma oo_sent_list n w b :
  out_inv w -> 0 <= n -> buffer_ (w_conn w) = Some b -> use_send_list b = true ->
  conserves w (out_exec (oo_sent n) w).
Proof using.
  intros Hw Hn Hb Hu. pose proof Hw as (Hs & Hd & Hc & b' & Hb' & Hp & Hm). assert (b' = b) as -> by congruence.
  unfold conserves. cbn [out_exec]. unfold pending_ok in Hp. unfold offered, send_completes, pop_send.
  destruct (sk_sends (w_sock w)) as [|sd [|? ?]] eqn:Hsk; [|rewrite Hu in Hp|done].
  { eexists [], [], w. by rewrite app_nil_r. }
  destruct Hp as (Hsd & bs & q & p & ps & -> & Hq & Hps & ->).
  cbv beta iota zeta delta [mbind option_bind]. cbn [set_sock sk_open sk_connecting sk_reads].
  set (k := Z.min n (lenZ p)). assert (Hk : 0 <= k <= lenZ p) by lia. clearbody k.
  unfold on_sent_list. cbn [w_conn set_sock]. rewrite Hb. cbv beta iota zeta delta [mbind option_bind].
  destruct (bl_read_stream _ _ _ _ _ Hq Hps Hk) as (q' & Hq' & Hst).
  destruct (bl_readLen (send_buff_list b) (u32 k)) as [r l'] eqn:El. simpl in Hq', Hst.
  match goal with |- context [s16 (?x + 1)] => change x with (buff_send_count_ (w_conn w)) end.
  assert (Hco : s16 (buff_send_count_ (w_conn w) + 1) = buff_send_count_ (w_conn w) + 1)
    by (unfold s16; rewrite Z.mod_small; lia).
  rewrite Hco. destruct (Z.leb_spec 100 (buff_send_count_ (w_conn w) + 1)) as [H100|H100]; simpl orb.
  2: destruct (Z.eqb_spec (bl_getUsingSize l') 0) as [Hz|Hz].
  1,2: eexists _, [], _; split; [done|]; split;
    [|unfold out_stream; simpl; by rewrite Hb, Hu, app_nil_r];
    split; [done|]; split; [done|]; split; [simpl; lia|]; exists (cb_set_send_list l' b);
    split; [done|]; simpl; rewrite Hu; split; [done|by exists q'].
  pose proof (bl_front_refines _ _ Hq') as Hf. unfold buffer_list_send. simpl send_buff_list.
  destruct (pq_packets q') as [|p' ps'] eqn:Hps'.
  { pose proof (blr_packets _ _ Hq') as Hl. rewrite Hps' in Hl. inversion Hl as [E|].
    unfold bl_getUsingSize in Hz. by rewrite <-E in Hz. }
  destruct Hf as [-> ->]. rewrite mem_read_all. cbv beta iota zeta delta [mbind option_bind].
  eexists _, [], _. split; [done|]. split; [|unfold out_stream; simpl; by rewrite Hb, Hu, app_nil_r].
  split; [done|]. split; [done|]. split; [simpl; lia|]. exists (cb_set_send_list l' b). split; [done|].
  unfold pending_ok. simpl. rewrite Hu. split; [|by exists q']. split; [done|]. by exists p', q', p', ps'.
Qed.

Lemma sb_read_stream h s bs rest k :
  sb_wf h s -> sb_content h s = bs ++ rest -> 0 <= k <= lenZ bs ->
  exists s', sb_readLen s (u32 k) = (true, s') /\ sb_wf h s' /\
    take (Z.to_nat k) bs ++ sb_content h s' = sb_content h s.
Proof using.
  intros Hwf Hc Hk. destruct (sb_wf_view _ _ Hwf) as [c Hv].
  rewrite (sb_view_content _ _ _ Hv) in *. subst c. destruct (sb_view_lens _ _ _ Hv) as (_ & Hrl & _ & Hl).
  assert (Hk2 : k <= lenZ (bs ++ rest)) by (rewrite length_app; lia).
  pose proof (sb_view_read h s _ k Hv ltac:(lia)) as Hr.
  destruct Hv as (pre & post & ? & ? & ? & ? & _).
  unfold sb_readLen. rewrite (u32_id k) by (unfold is_u32; lia).
  rewrite Hrl, (proj2 (Z.ltb_ge _ _)) by lia. rewrite u32_id by (unfold is_u32; lia).
  eexists. split; [done|]. split; [by eapply sb_view_wf|]. rewrite (sb_view_content _ _ _ Hr).
  rewrite <-(take_app_le bs rest) by lia. by rewrite take_drop.
Qed.

Lemma oo_sent_double n w b :
  out_inv w -> 0 <= n -> buffer_ (w_conn w) = Some b -> use_send_list b = false ->
  conserves w (out_exec (oo_sent n) w).
Proof using.
  intros Hw Hn Hb Hu. pose proof Hw as (Hs & Hd & Hc & b' & Hb' & Hp & Hm). assert (b' = b) as -> by congruence.
  unfold conserves. cbn [out_exec]. unfold pending_ok in Hp. unfold offered, send_completes, pop_send.
  destruct (sk_sends (w_sock w)) as [|sd [|? ?]] eqn:Hsk; [|rewrite Hu in Hp, Hm|done].
  { eexists [], [], w. by rewrite app_nil_r. }
  destruct Hp as (Hsd & bs & rest & -> & Hrest).
  cbv beta iota zeta delta [mbind option_bind]. cbn [set_sock sk_open sk_connecting sk_reads].
  set (k := Z.min n (lenZ bs)). assert (Hk : 0 <= k <= lenZ bs) by lia. clearbody k.
  unfold on_sent_buffer. cbn [w_conn set_sock]. rewrite Hb. cbv beta iota zeta delta [mbind option_bind].
  destruct (sb_read_stream _ _ _ _ _ Hm Hrest Hk) as (s' & Es & Hwf' & Hst).
  unfold db_readLen. rewrite Es. simpl negb. cbv iota.
  destruct (Z.ltb_spec 0 k) as [H0|H0].
  - eexists _, [], _. split; [done|]. split; [|unfold out_stream; simpl; by rewrite Hb, Hu, db_set_get, app_nil_r].
    split; [done|]. split; [done|]. split; [done|]. eexists. split; [done|]. simpl. rewrite Hu.
    split; [done|]. by rewrite db_set_get.
  - assert (k = 0) as -> by lia. eexists _, [], _. split; [done|].
    split; [|unfold out_stream; simpl; by rewrite app_nil_r].
    split; [done|]. split; [done|]. split; [done|]. exists b. split; [done|]. simpl. by rewrite Hu.
Qed.

Lemma out_exec_conserves o w : out_inv w -> out_op_ok o -> conserves w (out_exec o w).
Proof using Hgarbage.
  intros Hw Ho. pose proof Hw as (_ & _ & _ & b & Hb & _). destruct (use_send_list b) eqn:Hu; destruct o as [p| |n].
  all: eauto using oo_write_list, oo_write_double, oo_start_conserves, oo_sent_list, oo_sent_double.
Qed.

Lemma out_run_conserves os w : out_inv w -> Forall out_op_ok os -> conserves w (out_run os w).
Proof using Hgarbage.
  revert w. induction os as [|o os IH]; intros w Hw Hos.
  - exists [], [], w. by rewrite app_nil_r.
  - apply Forall_cons_1 in Hos as [Ho Hos].
    destruct (out_exec_conserves o w Hw Ho) as (bs1 & ps1 & w1 & E1 & Hw1 & S1).
    destruct (IH w1 Hw1 Hos) as (bs2 & ps2 & w2 & E2 & Hw2 & S2).
    exists (bs1 ++ bs2), (ps1 ++ ps2), w2. cbn [out_run]. rewrite E1.
    cbv beta iota zeta delta [mbind option_bind]. rewrite E2. split; [done|]. split; [done|].
    rewrite fmap_app, concat_app, app_assoc, <-S1, <-!app_assoc, S2. done.
Qed.

(** C7.  The way out loses, repeats and reorders nothing.  For both kinds of send buffer, and for
    every interleaving of packet writes, [start_send]s and send completions of any size
    (short ones included), all operations are memory safe and
    the bytes that reached the peer followed by the bytes still buffered are the bytes
    buffered at first followed by the packets whose write succeeded, in order; at most
    one send is outstanding, exactly while [sending_data_] is set. *)
Theorem sending_conserves_stream : forall os w,
  out_inv w -> Forall out_op_ok os ->
  exists bs ps w', out_run os w = Some (bs, ps, w') /\ out_inv w' /\
    bs ++ out_stream w' = out_stream w ++ concat (packet_bytes <$> ps) /\
    (sending_data_ (w_conn w') = true <-> length (sk_sends (w_sock w')) = 1%nat) /\
    (length (sk_sends (w_sock w')) <= 1)%nat.
Proof using Hgarbage.
  intros os w Hw Hos. destruct (out_run_conserves os w Hw Hos) as (bs & ps & w' & E & Hw' & Hst).
  exists bs, ps, w'. split; [done|]. split; [done|]. split; [done|].
  destruct Hw' as (_ & _ & _ & b & _ & Hp & _). unfold pending_ok in Hp.
  destruct (sk_sends (w_sock w')) as [|s [|? ?]]; [rewrite Hp; simpl; split; [done|lia]| |done].
  destruct Hp as [-> _]. simpl. split; [done|lia].
Qed.
End sending.

(** ** End to end *)

(** Handing the queued packets to the message handlers. *)
Lemma handle_recv_delivers {App : Type} (handlers : JmyDataHandler2 (World App)) (events : JmyEventHandlerManager (World App))
  mgr garbage ms (w : World App) :
  keeps_recv recv_of handlers (c_id (w_conn w)) mgr -> Forall message_ok ms ->
  data_handler_ (w_conn w) = true -> is_Some (buffer_ (w_conn w)) ->
  ud2_type (w_unpack w) = JMY_PACKET2_NONE -> using_list_ (recv_of w) = message_buffer <$> ms ->
  let '(ok, wd) := deliver handlers (c_id (w_conn w)) mgr ms w in
  exists u, handle_recv handlers events mgr garbage w =
    Some (if ok then (0, set_unpack u (set_recv (bl_clear (recv_of w)) wd)) else (-1, set_unpack u wd)).
Proof.
  intros Hk Hms Hd [b Hb] Hu Hl. unfold handle_recv. rewrite Hd, Hb.
  cbv beta iota zeta delta [mbind option_bind ub_unless].
  destruct (@process_loop_messages (World App) (connection_calls events mgr garbage)
    recv_of handlers (c_id (w_conn w)) mgr ms (w_unpack w) w _ Hk Hms eq_refl Hu) as (u' & E & _ & H2).
  unfold processData. rewrite Hl in E |- *. rewrite E. cbv beta iota zeta delta [mbind option_bind].
  destruct (deliver handlers (c_id (w_conn w)) mgr ms w) as [[] wd]; simpl in *.
  - exists (unpack_data_ (dh2_set_unpack u' handlers)). rewrite H2. done.
  - exists (unpack_data_ (dh2_set_unpack u' handlers)). done.
Qed.

Lemma recv_append_buffer {App} bs (w : World App) :
  is_Some (buffer_ (w_conn w)) -> is_Some (buffer_ (w_conn (recv_append bs w))).
Proof. intros [b Hb]. unfold recv_append, set_recv. rewrite Hb. simpl. eauto. Qed.

(** A connection that reads the packets of [ms] hands these messages to its handlers. *)
Lemma fed_messages_delivered {App : Type} (events : JmyEventHandlerManager (World App))
  (handlers : JmyDataHandler2 (World App)) mgr garbage ms (w : World App) :
  Forall message_ok ms -> reading w -> using_list_ (recv_of w) = [] -> ud2_type (w_unpack w) = JMY_PACKET2_NONE ->
  keeps_recv recv_of handlers (c_id (w_conn w)) mgr ->
  exists w' u,
    feed events mgr garbage (2 * length ms) (concat ((fun m => packet_bytes (message_packet m)) <$> ms)) w = Some ([], w') /\
    reading w' /\
    let '(ok, wd) := deliver handlers (c_id (w_conn w)) mgr ms w' in
    handle_recv handlers events mgr garbage w' =
      Some (if ok then (0, set_unpack u (set_recv (bl_clear (recv_of w')) wd)) else (-1, set_unpack u wd)).
Proof.
  intros Hms Hb Hb0 Hu Hk. pose proof (feed_messages events mgr garbage ms [] w 0 Hms Hb) as Hf.
  rewrite app_nil_r, Nat.add_0_r in Hf.
  pose proof (recv_append_reading (message_buffer <$> ms) w Hb) as Hrd.
  assert (using_list_ (recv_of (recv_append (message_buffer <$> ms) w)) = message_buffer <$> ms /\
    c_id (w_conn (recv_append (message_buffer <$> ms) w)) = c_id (w_conn w) /\
    w_unpack (recv_append (message_buffer <$> ms) w) = w_unpack w) as (Hl & Hid & Hun).
  { destruct Hb as (_ & _ & [b Hbb] & _). unfold recv_append, set_recv, recv_of in *. rewrite Hbb in *.
    simpl in *. by rewrite Hb0. }
  pose proof (handle_recv_delivers handlers events mgr garbage ms (recv_append (message_buffer <$> ms) w)) as Hh.
  rewrite Hid, Hun in Hh. specialize (Hh Hk Hms (proj1 (proj2 Hrd)) (proj1 (proj2 (proj2 Hrd))) Hu Hl).
  destruct (deliver handlers (c_id (w_conn w)) mgr ms (recv_append (message_buffer <$> ms) w)) as [ok wd] eqn:Ed.
  destruct Hh as [u Hh]. exists (recv_append (message_buffer <$> ms) w), u. rewrite Ed.
  split; [|split; [done|done]]. rewrite Hf. simpl.
  by destruct (sk_reads (w_sock (recv_append (message_buffer <$> ms) w))).
Qed.

(** C1.  End to end.  Connection [wa] sends, connection [wb] receives.  Take any interleaving
    of writes, send starts and send completions on [wa] that begins and ends with nothing buffered
    and whose accepted packets are the valid user messages [ms].  When [wb] has read the bytes
    that went out, one [handle_recv] calls [wb]'s message handlers with exactly the
    messages [ms] in order: same user ids, message ids and data. *)
Theorem end_to_end_delivery : forall {App : Type} (eva evb : JmyEventHandlerManager (World App))
    (handlers : JmyDataHandler2 (World App)) mgr garbage os ms bs ps (wa wa' wb : World App),
  (forall n, 0 <= n -> lenZ (garbage n) = n) ->
  out_inv wa -> out_stream wa = [] -> Forall out_op_ok os ->
  out_run eva mgr garbage os wa = Some (bs, ps, wa') -> out_stream wa' = [] ->
  ps = message_packet <$> ms -> Forall message_ok ms ->
  reading wb -> using_list_ (recv_of wb) = [] -> ud2_type (w_unpack wb) = JMY_PACKET2_NONE ->
  keeps_recv recv_of handlers (c_id (w_conn wb)) mgr ->
  exists wb' u, feed evb mgr garbage (2 * length ms) bs wb = Some ([], wb') /\ reading wb' /\
    let '(ok, wd) := deliver handlers (c_id (w_conn wb)) mgr ms wb' in
    handle_recv handlers evb mgr garbage wb' =
      Some (if ok then (0, set_unpack u (set_recv (bl_clear (recv_of wb')) wd)) else (-1, set_unpack u wd)).
Proof.
  intros App eva evb handlers mgr garbage os ms bs ps wa wa' wb Hg Ha Ha0 Hos Hrun Ha1 Hps Hms Hb Hb0 Hu Hk.
  destruct (out_run_conserves eva mgr garbage Hg os wa Ha Hos) as (bs' & ps' & w'' & E & _ & Hst).
  rewrite Hrun in E. injection E as <- <- <-.
  rewrite Ha0, Ha1, app_nil_r in Hst. simpl in Hst. subst ps. rewrite <-list_fmap_compose in Hst.
  rewrite Hst. by apply fed_messages_delivered.
Qed.

(** A concrete pair of connections for the witnesses: the application logs its messages. *)
Definition demo_app : Type := list (Z * Z * list Z).
Definition demo_handler : jmy_msg_handler (World demo_app) :=
  fun m w => (0, set_app (w_app w ++ [(mi_user_id m, mi_msg_id m, default [] (mi_payload m))]) w).
Definition demo_handlers : JmyDataHandler2 (World demo_app) :=
  setDefaultMsgHandler JmyDataHandler2_new (Some demo_handler).
Definition demo_buffer (use_list : bool) : JmyConnectionBuffer :=
  mkCB 1 JMY_CONN_BUFFER_STATE_USING
    (mkDB false (mkSB true 1 16 SESSION_BUFFER_TYPE_SEND 0 0) JmySessionBuffer_new true)
    JmySessionBufferList_new JmySessionBufferList_new use_list 0 0.
Definition demo_world (ty : JmyConnType) (use_list : bool) : World demo_app :=
  mkWorld (mkConn 7 ty JMY_CONN_STATE_CONNECTED false 0 0 true true (Some (demo_buffer use_list)) 0)
    (mkSock true false [rd_head] []) {[ 1 := repeat 0 16 ]} JmySessionBufferPool_new
    JmyPacketUnpackData2_new [].
Definition demo_garbage (n : Z) : list Z := repeat 0 (Z.to_nat n).

Lemma demo_garbage_len n : 0 <= n -> lenZ (demo_garbage n) = n.
Proof. intros. unfold demo_garbage. rewrite repeat_length. lia. Qed.

Lemma demo_reading ty l : reading (demo_world ty l).
Proof. repeat split. by eexists. Qed.

Lemma demo_out_inv ty l : out_inv (demo_world ty l).
Proof.
  split; [done|]. split; [done|]. split; [done|]. exists (demo_buffer l). split; [done|]. split; [done|].
  destruct l; simpl.
  - exists (mkPQ [] 0 0 0 0). by constructor.
  - unfold sb_wf. simpl. split; [lia|]. split; [lia|]. split; [lia|]. intros _. split; [done|].
    exists (repeat 0 16). split; vm_compute; reflexivity.
Qed.

Definition demo_ops : list out_op :=
  [oo_write (pk_user 5 [1; 2]); oo_start; oo_sent 4; oo_write (pk_user_id 9 6 []); oo_start; oo_sent 3; oo_sent 100; oo_start; oo_sent 100].
Definition demo_messages : list message := [msg_plain 5 [1; 2]; msg_user 9 6 []].

Lemma demo_ops_ok : Forall out_op_ok demo_ops.
Proof. repeat constructor; vm_compute; congruence. Qed.

Lemma demo_messages_ok : Forall message_ok demo_messages.
Proof. repeat constructor; vm_compute; congruence. Qed.

Lemma receive_queues_messages_witness :
  let w := demo_world JMY_CONN_TYPE_PASSIVE false in
  (Forall message_ok demo_messages /\ reading w) /\
  exists w', feed JmyEventHandlerManager_new 0 demo_garbage 4
    ([0; 5; 5; 0; 5; 1; 2] ++ [0; 7; 10; 0; 0; 0; 9; 0; 6] ++ [0; 4]) w = Some ([0; 4], w') /\
    using_list_ (recv_of w') = message_buffer <$> demo_messages.
Proof.
  cbv zeta. split; [split; [exact demo_messages_ok|exact (demo_reading _ _)]|].
  destruct (receive_queues_messages JmyEventHandlerManager_new 0 demo_garbage demo_messages [0; 4]
    (demo_world JMY_CONN_TYPE_PASSIVE false) demo_messages_ok (demo_reading _ _)) as (E & _ & H).
  eexists. split; [exact E|exact H].
Defined.

Lemma heartbeat_desynchronises_witness :
  let w := demo_world JMY_CONN_TYPE_PASSIVE false in
  reading w /\
  feed JmyEventHandlerManager_new 0 demo_garbage 3 (heartbeat_packet 1280 ++ [0; 5; 5; 0; 5; 1; 2]) w =
  feed JmyEventHandlerManager_new 0 demo_garbage 2 ([0; 0; 5; 0] ++ [0; 5; 5; 0; 5; 1; 2]) w.
Proof.
  cbv zeta. split; [exact (demo_reading _ _)|].
  exact (heartbeat_desynchronises JmyEventHandlerManager_new 0 demo_garbage 1280 [0; 5; 5; 0; 5; 1; 2]
    (demo_world JMY_CONN_TYPE_PASSIVE false) 2 (demo_reading _ _)).
Defined.

Lemma sending_conserves_stream_witness :
  (out_inv (demo_world JMY_CONN_TYPE_ACTIVE false) /\ Forall out_op_ok demo_ops) /\
  exists bs ps w', out_run JmyEventHandlerManager_new 0 demo_garbage demo_ops (demo_world JMY_CONN_TYPE_ACTIVE false)
      = Some (bs, ps, w') /\
    bs ++ out_stream w' = [] ++ concat (packet_bytes <$> ps).
Proof.
  split; [split; [exact (demo_out_inv _ _)|exact demo_ops_ok]|].
  destruct (sending_conserves_stream JmyEventHandlerManager_new 0 demo_garbage demo_garbage_len demo_ops
    (demo_world JMY_CONN_TYPE_ACTIVE false) (demo_out_inv _ _) demo_ops_ok) as (bs & ps & w' & E & _ & H & _).
  exists bs, ps, w'. split; [exact E|exact H].
Defined.

Lemma end_to_end_delivery_witness :
  let wa := demo_world JMY_CONN_TYPE_ACTIVE true in
  let wb := demo_world JMY_CONN_TYPE_PASSIVE true in
  exists bs wa', (out_run JmyEventHandlerManager_new 0 demo_garbage demo_ops wa
      = Some (bs, message_packet <$> demo_messages, wa') /\ out_stream wa' = []) /\
    exists wb' u, feed JmyEventHandlerManager_new 0 demo_garbage 4 bs wb = Some ([], wb') /\ reading wb' /\
      let '(ok, wd) := deliver demo_handlers 7 0 demo_messages wb' in
      handle_recv demo_handlers JmyEventHandlerManager_new 0 demo_garbage wb' =
        Some (if ok then (0, set_unpack u (set_recv (bl_clear (recv_of wb')) wd)) else (-1, set_unpack u wd)).
Proof.
  cbv zeta.
  assert (Hx : match out_run JmyEventHandlerManager_new 0 demo_garbage demo_ops (demo_world JMY_CONN_TYPE_ACTIVE true) with
               | Some (_, ps, wa') => Some (ps, out_stream wa')
               | None => None
               end = Some (message_packet <$> demo_messages, [])) by (vm_compute; reflexivity).
  destruct (out_run _ _ _ _ _) as [[[bs ps] wa']|] eqn:E; [|discriminate Hx].
  assert (Hps : ps = message_packet <$> demo_messages) by congruence.
  assert (Hst : out_stream wa' = []) by congruence.
  exists bs, wa'. split; [split; [by rewrite <-Hps|exact Hst]|].
  exact (end_to_end_delivery JmyEventHandlerManager_new JmyEventHandlerManager_new demo_handlers 0 demo_garbage
    demo_ops demo_messages bs ps (demo_world JMY_CONN_TYPE_ACTIVE true) wa' (demo_world JMY_CONN_TYPE_PASSIVE true)
    demo_garbage_len (demo_out_inv _ _) eq_refl demo_ops_ok E Hst Hps demo_messages_ok
    (demo_reading _ _) eq_refl eq_refl (fun m w => eq_refl)).
Defined.
