(* ===== verification/ConnectionLife.v ===== *)
(** * The life cycle of a connection

    Closing, the close handshake and the events it raises.  The event handlers are assumed to
    change only the application's state. *)
From S2P Require Import Prelude Datatype Wire NetProto2 SessionBuffer BufferPool BufferList DoubleBuffer SendBuffer DataHandler2 EventHandler ConnBuffer Connection ConnectionProps.
From Stdlib Require Import ZArith Lia.
From stdpp Require Import base option list gmap.
Local Open Scope Z_scope.

Section life.
Context {App : Type}.
Notation W := (World App).
Implicit Type w : W.
Variable handlers : JmyDataHandler2 W.
Variable events : JmyEventHandlerManager W.
Variable mgr : Z.
Variable garbage : Z -> list Z.
(** The effect of the handler of event [i] on the application's state. *)
Variable effect : Z -> JmyEventInfo -> App -> App.
Hypothesis Hevents : forall i info w, snd (eh_call events i info w) = set_app (effect i info (w_app w)) w.

Definition event_of (i : Z) (w : W) (l : Z) : JmyEventInfo := mkJmyEventInfo i (c_id (w_conn w)) mgr l.

Lemma handle_event_app i l w :
  event_handler_ (w_conn w) = true -> i = JMY_EVENT_CONNECT \/ i = JMY_EVENT_DISCONNECT \/ i = JMY_EVENT_TICK ->
  exists r, handle_event events mgr i l w = Some (r, set_app (effect i (event_of i w l) (w_app w)) w).
Proof using Hevents.
  intros He Hi. unfold handle_event. rewrite He. fold (event_of i w l).
  destruct Hi as [->|[->| ->]]; cbn [ub_unless mbind option_bind Z.eqb Z.compare Pos.eqb
    JMY_EVENT_CONNECT JMY_EVENT_DISCONNECT JMY_EVENT_TICK]; unfold onConnect, onDisconnect, onTick;
    match goal with |- context [eh_call ?e ?j ?x ?y] =>
      pose proof (Hevents j x y) as H; destruct (eh_call e j x y) as [r w'] end;
    simpl in H; subst w'; by exists r.
Qed.

(** What closing leaves: the socket closed, the buffer cleared, the state set. *)
Definition closed_world (w : W) : W :=
  set_conn (c_set_sending false) (set_conn (c_set_state JMY_CONN_STATE_DISCONNECTED) (clear_buffer (sock_close w))).

Local Arguments closed_world : simpl never.

Lemma closed_world_frame w :
  event_handler_ (w_conn (closed_world w)) = event_handler_ (w_conn w) /\
  data_handler_ (w_conn (closed_world w)) = data_handler_ (w_conn w) /\
  conn_type_ (w_conn (closed_world w)) = conn_type_ (w_conn w) /\
  c_id (w_conn (closed_world w)) = c_id (w_conn w) /\
  sk_reads (w_sock (closed_world w)) = sk_reads (w_sock w) /\
  sk_sends (w_sock (closed_world w)) = sk_sends (w_sock w) /\
  sk_open (w_sock (closed_world w)) = false /\ w_app (closed_world w) = w_app w /\
  (is_Some (buffer_ (w_conn w)) <-> is_Some (buffer_ (w_conn (closed_world w)))).
Proof using.
  unfold closed_world, clear_buffer, sock_close. simpl.
  destruct (buffer_ (w_conn w)) as [b|] eqn:Hb; simpl; rewrite ?Hb.
  - destruct (cb_clear (w_pool w) b) as [P b']. simpl. repeat split; eauto.
  - repeat split; eauto.
Qed.

Lemma force_close_eq reason w :
  event_handler_ (w_conn w) = true -> state w <> JMY_CONN_STATE_DISCONNECTED ->
  force_close events mgr reason w =
    Some (set_app (effect JMY_EVENT_DISCONNECT (event_of JMY_EVENT_DISCONNECT w 0) (w_app w)) (closed_world w)).
Proof using Hevents.
  intros He Hs. unfold force_close. rewrite bool_decide_eq_false_2 by done. fold (closed_world w).
  destruct (closed_world_frame w) as (E1 & _ & _ & E4 & _ & _ & _ & E8 & _).
  destruct (handle_event_app JMY_EVENT_DISCONNECT 0 (closed_world w)) as [r ->]; [by rewrite E1|auto|].
  cbv beta iota zeta delta [mbind option_bind]. unfold event_of. by rewrite E4, E8.
Qed.

(** ** The close handshake of an accepted connection *)

(** The end of the close handshake on an accepted (passive) connection.  When the
    acknowledgement of its disconnect packet arrives, the connection is closed and the
    disconnect event raised; but [start_recv] then marks it connected again and reads on the
    closed socket, and the failure of that read closes it a second time: the
    application gets two disconnect events for one connection, and between them the
    connection counts as connected. *)
Theorem passive_close_raises_disconnect_twice : forall w,
  event_handler_ (w_conn w) = true -> data_handler_ (w_conn w) = true -> is_Some (buffer_ (w_conn w)) ->
  conn_type_ (w_conn w) = JMY_CONN_TYPE_PASSIVE -> state w = JMY_CONN_STATE_DISCONNECTING ->
  sk_reads (w_sock w) = [rd_head] ->
  let raise a := effect JMY_EVENT_DISCONNECT (event_of JMY_EVENT_DISCONNECT w 0) a in
  exists w1 w2,
    read_completes events mgr garbage (Some disconnect_ack_packet) w = Some w1 /\
    state w1 = JMY_CONN_STATE_CONNECTED /\ sk_open (w_sock w1) = false /\
    sk_reads (w_sock w1) = [rd_head] /\ w_app w1 = raise (w_app w) /\
    read_completes events mgr garbage None w1 = Some w2 /\
    state w2 = JMY_CONN_STATE_DISCONNECTED /\ w_app w2 = raise (raise (w_app w)).
Proof using Hevents.
  intros w He Hd Hb Ht Hs Hr raise. set (w0 := with_reads [] w).
  set (a1 := raise (w_app w)). set (v1 := set_app a1 (closed_world w0)).
  assert (E1 : conn_on_disconnect_ack events mgr w0 = Some (1, v1)).
  { unfold conn_on_disconnect_ack. change (state w0) with (state w). rewrite Hs.
    rewrite bool_decide_eq_true_2 by done. simpl negb. cbv iota.
    rewrite force_close_eq by (try done; change (state w0) with (state w); by rewrite Hs). done. }
  destruct (closed_world_frame w0) as (F1 & F2 & F3 & F4 & F5 & F6 & F7 & F8 & F9).
  set (w1 := set_conn (c_set_state JMY_CONN_STATE_CONNECTED) (push_read rd_head v1)).
  assert (E2 : start_recv v1 = w1).
  { unfold start_recv, ctype. change (conn_type_ (w_conn v1)) with (conn_type_ (w_conn (closed_world w0))).
    rewrite F3. change (conn_type_ (w_conn w0)) with (conn_type_ (w_conn w)). rewrite Ht.
    change (data_handler_ (w_conn v1)) with (data_handler_ (w_conn (closed_world w0))). rewrite F2.
    change (data_handler_ (w_conn w0)) with (data_handler_ (w_conn w)). rewrite Hd.
    rewrite (bool_decide_eq_false_2 (JMY_CONN_TYPE_PASSIVE = _)) by done. simpl andb. cbv iota.
    assert (buffer_ (w_conn v1) <> None) as Hn.
    { apply F9 in Hb as [b Hb]. change (buffer_ (w_conn v1)) with (buffer_ (w_conn (closed_world w0))). by rewrite Hb. }
    rewrite (bool_decide_eq_false_2 (buffer_ (w_conn v1) = None)) by done. simpl orb. cbv iota.
    change (conn_type_ (w_conn (clear_buffer (sock_close w0)))) with (conn_type_ (w_conn (closed_world w0))).
    rewrite F3. change (conn_type_ (w_conn w0)) with (conn_type_ (w_conn w)). rewrite Ht.
    rewrite (bool_decide_eq_true_2 (JMY_CONN_TYPE_PASSIVE = _)) by done. done. }
  set (w2 := set_app (effect JMY_EVENT_DISCONNECT (event_of JMY_EVENT_DISCONNECT w1 0) a1)
               (closed_world (with_reads [] w1))).
  exists w1, w2. split.
  { unfold read_completes, pop_read. rewrite Hr. cbv beta iota zeta delta [mbind option_bind].
    change (set_sock _ w) with w0. unfold on_head.
    change (negb (lenZ disconnect_ack_packet =? JMY_PACKET2_LEN_HEAD + JMY_PACKET2_LEN_TYPE)) with false. cbv iota.
    change (JMY_PACKET2_LEN_HEAD + JMY_PACKET2_LEN_TYPE) with 3.
    change disconnect_ack_packet with (be16 1 ++ [JMY_PACKET2_DISCONNECT_ACK] ++ []).
    rewrite get_packet_len_type_spec by lia. cbv beta iota zeta delta [mbind option_bind].
    unfold handle_packet_type. change (JMY_PACKET2_DISCONNECT_ACK =? JMY_PACKET2_DISCONNECT) with false.
    change (JMY_PACKET2_DISCONNECT_ACK =? JMY_PACKET2_DISCONNECT_ACK) with true. cbv iota.
    rewrite E1. cbv beta iota zeta delta [mbind option_bind]. change (0 =? 0) with true. cbv iota.
    by rewrite E2. }
  assert (Hrd : sk_reads (w_sock w1) = [rd_head]) by (change (sk_reads (w_sock (closed_world w0)) ++ [rd_head] = [rd_head]); by rewrite F5).
  split; [done|]. split; [exact F7|]. split; [done|]. split; [done|]. split.
  { unfold read_completes, pop_read. rewrite Hrd. cbv beta iota zeta delta [mbind option_bind].
    change (set_sock _ w1) with (with_reads [] w1). unfold handle_recv_error.
    rewrite force_close_eq; [done| |done]. change (event_handler_ (w_conn (with_reads [] w1)))
      with (event_handler_ (w_conn (closed_world w0))). rewrite F1. done. }
  split; [done|]. simpl. unfold event_of at 1. change (c_id (w_conn w1)) with (c_id (w_conn (closed_world w0))).
  by rewrite F4.
Qed.

(** ** Closing an idle connection *)

(** What a packet write leaves alone. *)
Lemma on_send_buffer_frame fd fl w r w' :
  on_send_buffer fd fl w = Some (r, w') ->
  w_sock w' = w_sock w /\ state w' = state w /\ ctype w' = ctype w /\ w_app w' = w_app w /\
  event_handler_ (w_conn w') = event_handler_ (w_conn w) /\
  sending_data_ (w_conn w') = sending_data_ (w_conn w) /\ c_id (w_conn w') = c_id (w_conn w).
Proof using.
  unfold on_send_buffer. intros H. apply bind_Some in H as (b & _ & H). apply bind_Some in H as (? & _ & H).
  destruct (negb (use_send_list b)); apply bind_Some in H as ([? ?] & _ & H); injection H as <- <-; done.
Qed.

(** [run] at one time after another, with no completion in between. *)
Fixpoint run_all (times : list Z) (w : W) : option W :=
  match times with
  | [] => Some w
  | t :: times => '(_, w) ← run handlers events mgr garbage t w; run_all times w
  end.

Definition before_timeout (start t : Z) : Prop := Z.quot (t - start) (10 ^ 9) < JMY_ACTIVE_CLOSE_CONNECTION_TIMEOUT.

(** The effect of a tick on a world: the application's state and the time of the tick. *)
Lemma run_disconnecting t w :
  event_handler_ (w_conn w) = true -> state w = JMY_CONN_STATE_DISCONNECTING ->
  exists w1, w_sock w1 = w_sock w /\ state w1 = state w /\ event_handler_ (w_conn w1) = true /\
    active_close_start_ (w_conn w1) = active_close_start_ (w_conn w) /\ out_stream w1 = out_stream w /\
    run handlers events mgr garbage t w =
      (if JMY_ACTIVE_CLOSE_CONNECTION_TIMEOUT <=? Z.quot (t - active_close_start_ (w_conn w)) (10 ^ 9)
       then w2 ← force_close events mgr CONN_CLOSE_REASON_TIMEOUT w1; Some (0, w2) else Some (0, w1)).
Proof using Hevents.
  intros He Hs. unfold run. rewrite He. cbv beta iota zeta delta [mbind option_bind ub_unless].
  assert (exists w1, (if hasTickHandler events
            then match handle_event events mgr JMY_EVENT_TICK (Z.quot (t - last_run_tick_ (w_conn w)) 1000) w with
                 | Some (_, w0) => Some (set_conn (c_set_tick t) w0) | None => None end
            else Some w) = Some w1 /\ w_sock w1 = w_sock w /\ state w1 = state w /\
            event_handler_ (w_conn w1) = true /\
            active_close_start_ (w_conn w1) = active_close_start_ (w_conn w) /\ out_stream w1 = out_stream w)
    as (w1 & -> & H1 & H2 & H3 & H4 & H5).
  { destruct (hasTickHandler events); [|by exists w].
    destruct (handle_event_app JMY_EVENT_TICK (Z.quot (t - last_run_tick_ (w_conn w)) 1000) w) as [r ->]; [done|auto|].
    eexists. split; [done|]. done. }
  exists w1. split; [done|]. split; [done|]. split; [done|]. split; [done|]. split; [done|].
  rewrite H2, H4, Hs. rewrite (bool_decide_eq_true_2 (JMY_CONN_STATE_DISCONNECTING = _)) by done.
  rewrite (bool_decide_eq_false_2 (JMY_CONN_STATE_DISCONNECTING = _)) by done. simpl andb. simpl negb.
  by destruct (_ <=? _).
Qed.

(** [close] on a connection with no send outstanding queues the disconnect packet but the packet is
    never sent: however often [run] is called before the timeout of 30 seconds, no
    send is started and the packet stays at the end of the stream; the first [run] after
    the timeout closes the connection. *)
Theorem close_never_sends_disconnect : forall now times t w r wd,
  (forall n, 0 <= n -> lenZ (garbage n) = n) ->
  out_inv w -> event_handler_ (w_conn w) = true -> sk_sends (w_sock w) = [] ->
  sendDisconnect garbage w = Some (r, wd) -> 0 <= r ->
  Forall (before_timeout now) times -> ~ before_timeout now t ->
  exists w1 w2 w3, close garbage now w = Some w1 /\ run_all times w1 = Some w2 /\
    state w2 = JMY_CONN_STATE_DISCONNECTING /\ sk_sends (w_sock w2) = [] /\
    out_stream w2 = out_stream w ++ disconnect_packet /\
    run handlers events mgr garbage t w2 = Some (0, w3) /\
    state w3 = JMY_CONN_STATE_DISCONNECTED /\ sk_sends (w_sock w3) = [].
Proof using Hevents.
  intros now times t w r wd Hg Hw He Hsk Hsd Hr Hts Ht.
  destruct (out_exec_conserves events mgr garbage Hg (oo_write pk_disconnect) w Hw) as (bs & ps & w' & E & Hw' & Hst);
    [done|]. cbn [out_exec write_conn] in E. rewrite Hsd in E. cbv beta iota zeta delta [mbind option_bind] in E.
  rewrite (proj2 (Z.ltb_ge r 0)) in E by done. injection E as <- <- <-.
  pose proof Hsd as Hf. unfold sendDisconnect in Hf. apply bind_Some in Hf as ([r' wd'] & Hf & Heq).
  assert (wd' = wd) as -> by (unfold neg_or in Heq; destruct (_ <? 0); by injection Heq).
  apply on_send_buffer_frame in Hf as (F1 & F2 & _ & _ & F5 & _).
  set (w1 := set_conn (c_set_state JMY_CONN_STATE_DISCONNECTING) (set_conn (c_set_close_start now) wd)).
  assert (E1 : close garbage now w = Some w1).
  { unfold close. destruct Hw as (Hs & _). unfold state. rewrite Hs.
    rewrite (bool_decide_eq_true_2 (JMY_CONN_STATE_CONNECTED = _)) by done. simpl negb. cbv iota. rewrite Hsd.
    cbv beta iota zeta delta [mbind option_bind]. by rewrite (proj2 (Z.ltb_ge r 0)). }
  enough (exists w2, run_all times w1 = Some w2 /\ state w2 = JMY_CONN_STATE_DISCONNECTING /\
    w_sock w2 = w_sock w1 /\ event_handler_ (w_conn w2) = true /\
    active_close_start_ (w_conn w2) = now /\ out_stream w2 = out_stream w1) as (w2 & R1 & R2 & R3 & R4 & R5 & R6).
  { destruct (run_disconnecting t w2 R4 R2) as (v & V1 & V2 & V3 & V4 & V5 & Vr).
    rewrite R5 in Vr. unfold before_timeout in Ht. rewrite (proj2 (Z.leb_le _ _)) in Vr by lia.
    rewrite force_close_eq in Vr by (try done; rewrite V2, R2; done).
    eexists w1, w2, _. split; [done|]. split; [done|]. split; [done|].
    rewrite R3. change (w_sock w1) with (w_sock wd). rewrite F1. split; [done|].
    split; [rewrite R6; exact Hst|]. split; [exact Vr|]. split; [done|].
    change (sk_sends (w_sock (closed_world v)) = []).
    destruct (closed_world_frame v) as (_ & _ & _ & _ & _ & -> & _). rewrite V1, R3.
    change (w_sock w1) with (w_sock wd). by rewrite F1. }
  assert (H1 : state w1 = JMY_CONN_STATE_DISCONNECTING /\ event_handler_ (w_conn w1) = true /\
               active_close_start_ (w_conn w1) = now) by (split; [done|]; split; [simpl; by rewrite F5|done]).
  clearbody w1. clear -Hevents Hts H1. revert w1 H1.
  induction Hts as [|u us Hu Hus IH]; intros w1 (H1 & H2 & H3); [by exists w1|].
  destruct (run_disconnecting u w1 H2 H1) as (v & V1 & V2 & V3 & V4 & V5 & Vr).
  rewrite H3 in Vr. unfold before_timeout in Hu. rewrite (proj2 (Z.leb_gt _ _)) in Vr by lia.
  cbn [run_all]. rewrite Vr. cbv beta iota zeta delta [mbind option_bind].
  destruct (IH v) as (w2 & R1 & R2 & R3 & R4 & R5 & R6); [by rewrite V2, V4|].
  exists w2. by rewrite R3, R6.
Qed.

(** ** A closed connection *)

(** Everything that can happen to a connection short of connecting it again. *)
Inductive conn_op : Type :=
| co_close (now : Z)
| co_force_close (reason : Z)
| co_send (msg_id : Z) (data : option (list Z)) (len : Z)
| co_send_user (user_id msg_id : Z) (data : option (list Z)) (len : Z)
| co_heartbeat (t : Z)
| co_read (res : option (list Z))
| co_sent (res : option Z)
| co_run (now : Z).

Definition conn_exec (o : conn_op) (w : W) : option W :=
  match o with
  | co_close now => close garbage now w
  | co_force_close reason => force_close events mgr reason w
  | co_send m d n => '(_, w) ← send garbage m d n w; Some w
  | co_send_user u m d n => '(_, w) ← send_user garbage u m d n w; Some w
  | co_heartbeat t => '(_, w) ← sendHeartbeat garbage t w; Some w
  | co_read res => read_completes events mgr garbage res w
  | co_sent res => send_completes events mgr res w
  | co_run now => '(_, w) ← run handlers events mgr garbage now w; Some w
  end.

Fixpoint conn_run (os : list conn_op) (w : W) : option W :=
  match os with [] => Some w | o :: os => w ← conn_exec o w; conn_run os w end.

(** [w'] is reached from [w] while it stays closed: the application has seen ticks only,
    and no read was added. *)
Record stays_closed (w w' : W) : Prop := mkStaysClosed {
  sc_state : state w' = JMY_CONN_STATE_DISCONNECTED;
  sc_type : ctype w' = ctype w;
  sc_events : event_handler_ (w_conn w') = event_handler_ (w_conn w);
  sc_open : sk_open (w_sock w') = sk_open (w_sock w);
  sc_reads : (length (sk_reads (w_sock w')) <= length (sk_reads (w_sock w)))%nat;
  sc_ticks : exists ticks, w_app w' = foldl (fun a i => effect JMY_EVENT_TICK i a) (w_app w) ticks;
}.

Lemma stays_closed_same w w' :
  state w' = JMY_CONN_STATE_DISCONNECTED -> ctype w' = ctype w ->
  event_handler_ (w_conn w') = event_handler_ (w_conn w) -> sk_open (w_sock w') = sk_open (w_sock w) ->
  (length (sk_reads (w_sock w')) <= length (sk_reads (w_sock w)))%nat -> w_app w' = w_app w ->
  stays_closed w w'.
Proof using. intros. constructor; try done. by exists []. Qed.

Lemma stays_closed_trans w1 w2 w3 : stays_closed w1 w2 -> stays_closed w2 w3 -> stays_closed w1 w3.
Proof using.
  intros [] []. constructor; try congruence; [lia|].
  destruct sc_ticks0 as [t1 E1], sc_ticks1 as [t2 E2]. exists (t1 ++ t2). by rewrite foldl_app, <-E1.
Qed.

Lemma force_close_closed reason w :
  state w = JMY_CONN_STATE_DISCONNECTED -> force_close events mgr reason w = Some w.
Proof using. intros Hs. unfold force_close. by rewrite bool_decide_eq_true_2. Qed.

Lemma start_recv_closed w :
  ctype w = JMY_CONN_TYPE_ACTIVE -> state w = JMY_CONN_STATE_DISCONNECTED -> start_recv w = w.
Proof using. intros Ht Hs. unfold start_recv. rewrite Ht, Hs. done. Qed.

(** Dispatching on the packet type of a closed connection writes at most an
    acknowledgement to the buffer. *)
Lemma packet_type_closed ty w r v :
  state w = JMY_CONN_STATE_DISCONNECTED ->
  handle_packet_type events mgr garbage ty w = Some (r, v) -> stays_closed w v /\ w_sock v = w_sock w.
Proof using.
  intros Hs Hp. unfold handle_packet_type, conn_on_disconnect, conn_on_disconnect_ack, conn_on_heartbeat in Hp.
  rewrite Hs in Hp. cbv beta iota zeta delta [mbind option_bind] in Hp.
  assert (Hw : stays_closed w w /\ w_sock w = w_sock w) by (split; [by apply stays_closed_same|done]).
  destruct (ty =? JMY_PACKET2_DISCONNECT).
  { rewrite (bool_decide_eq_false_2 (JMY_CONN_STATE_DISCONNECTED = _)) in Hp by done.
    destruct (sendDisconnectAck garbage w) as [[r' v']|] eqn:E; [|done]. injection Hp as <- <-.
    unfold sendDisconnectAck in E. apply bind_Some in E as ([r1 v1] & Hf & Heq).
    assert (v1 = v') as -> by (unfold neg_or in Heq; destruct (_ <? 0); by injection Heq).
    apply on_send_buffer_frame in Hf as (F1 & F2 & F3 & F4 & F5 & _). split; [|done].
    apply stays_closed_same; rewrite ?F1; try congruence; done. }
  rewrite (bool_decide_eq_false_2 (JMY_CONN_STATE_DISCONNECTED = _)) in Hp by done. simpl in Hp.
  repeat match type of Hp with context [if ?c then _ else _] => destruct c end; by injection Hp as <- <-.
Qed.

Lemma read_closed res w w' :
  ctype w = JMY_CONN_TYPE_ACTIVE -> state w = JMY_CONN_STATE_DISCONNECTED ->
  read_completes events mgr garbage res w = Some w' -> stays_closed w w'.
Proof using.
  intros Ht Hs H. unfold read_completes, pop_read in H.
  destruct (sk_reads (w_sock w)) as [|rd rs] eqn:Hr; [done|].
  cbv beta iota zeta delta [mbind option_bind] in H.
  change (set_sock _ w) with (with_reads rs w) in H. set (w0 := with_reads rs w) in *.
  assert (H0 : stays_closed w w0) by (apply stays_closed_same; try done; rewrite Hr; simpl; lia).
  assert (Ht0 : ctype w0 = JMY_CONN_TYPE_ACTIVE) by done.
  assert (Hs0 : state w0 = JMY_CONN_STATE_DISCONNECTED) by done.
  assert (Hl : (length (sk_reads (w_sock w0)) < length (sk_reads (w_sock w)))%nat) by (rewrite Hr; simpl; lia).
  clearbody w0. destruct res as [bs|].
  2: { unfold handle_recv_error in H. rewrite force_close_closed in H by done. by injection H as <-. }
  destruct rd as [|ty n].
  - unfold on_head in H. destruct (negb _); [rewrite force_close_closed in H by done; by injection H as <-|].
    apply bind_Some in H as (tl & _ & H). destruct tl as [[ty n]|];
      [|rewrite force_close_closed in H by done; by injection H as <-].
    apply bind_Some in H as ([r v] & Hp & H).
    destruct (packet_type_closed _ _ _ _ Hs0 Hp) as [Hv Hsk].
    pose proof (stays_closed_trans _ _ _ H0 Hv) as Hwv. destruct (r =? 0); injection H as <-.
    + rewrite start_recv_closed; [done| |by apply Hv]. by rewrite (sc_type _ _ Hv).
    + destruct Hwv as [? ? ? ? ? ?]. constructor; try done. simpl. rewrite length_app, Hsk. simpl. lia.
  - unfold on_body in H. destruct (negb _); [rewrite force_close_closed in H by done; by injection H as <-|].
    apply bind_Some in H as (b & Hb & H). apply bind_Some in H as ([? l] & _ & H). injection H as <-.
    rewrite start_recv_closed by done. apply (stays_closed_trans _ _ _ H0). by apply stays_closed_same.
Qed.

Lemma sent_closed res w w' :
  state w = JMY_CONN_STATE_DISCONNECTED ->
  send_completes events mgr res w = Some w' -> stays_closed w w'.
Proof using.
  intros Hs H. unfold send_completes in H. apply bind_Some in H as ([s w0] & Hp & H).
  unfold pop_send in Hp. destruct (sk_sends (w_sock w)) as [|s0 ss]; [done|]. injection Hp as <- <-.
  set (w0 := set_sock _ w) in H.
  assert (H0 : stays_closed w w0) by by apply stays_closed_same.
  assert (Hs0 : state w0 = JMY_CONN_STATE_DISCONNECTED) by done. clearbody w0.
  apply (stays_closed_trans _ _ _ H0).
  destruct s0; destruct res as [n|]; cbn [on_sent_buffer on_sent_list] in H;
    try (rewrite force_close_closed in H by done; injection H as <-; by apply stays_closed_same);
    apply bind_Some in H as (b & Hb & H).
  - destruct (0 <? n); [|injection H as <-; by apply stays_closed_same].
    destruct (db_readLen (send_buff b) (u32 n)) as [ok s]. destruct (negb ok); injection H as <-; by apply stays_closed_same.
  - destruct (bl_readLen (send_buff_list b) (u32 n)) as [r l]. destruct (_ || _).
    + injection H as <-. by apply stays_closed_same.
    + unfold buffer_list_send in H. apply bind_Some in H as (m & _ & H). injection H as <-. by apply stays_closed_same.
Qed.

Lemma run_closed now w w' r :
  event_handler_ (w_conn w) = true -> state w = JMY_CONN_STATE_DISCONNECTED ->
  run handlers events mgr garbage now w = Some (r, w') -> stays_closed w w'.
Proof using Hevents.
  intros He Hs H. unfold run in H. rewrite He in H. cbv beta iota zeta delta [mbind option_bind ub_unless] in H.
  destruct (hasTickHandler events).
  - destruct (handle_event_app JMY_EVENT_TICK (Z.quot (now - last_run_tick_ (w_conn w)) 1000) w) as [r' E]; [done|auto|].
    rewrite E in H. cbv beta iota zeta in H.
    match type of H with context [state ?v] => change (state v) with (state w) in H; set (v0 := v) in H end.
    rewrite Hs in H. rewrite (bool_decide_eq_false_2 (JMY_CONN_STATE_DISCONNECTED = JMY_CONN_STATE_DISCONNECTING)) in H by done.
    rewrite (bool_decide_eq_false_2 (JMY_CONN_STATE_DISCONNECTED = JMY_CONN_STATE_CONNECTED)) in H by done.
    simpl andb in H. simpl negb in H. cbv iota in H. injection H as <- <-.
    constructor; try done. eexists [_]. done.
  - rewrite Hs in H. rewrite (bool_decide_eq_false_2 (JMY_CONN_STATE_DISCONNECTED = JMY_CONN_STATE_DISCONNECTING)) in H by done.
    rewrite (bool_decide_eq_false_2 (JMY_CONN_STATE_DISCONNECTED = JMY_CONN_STATE_CONNECTED)) in H by done.
    simpl in H. injection H as <- <-. by apply stays_closed_same.
Qed.

(** A connection that was opened by this side (active) and is closed stays closed:
    whatever reads and sends still complete, and whatever the application calls short of
    connecting again, the state stays disconnected, the only events the application sees are
    ticks (no second disconnect event), the socket is not touched and the number of
    outstanding reads does not grow. *)
Theorem active_closed_stays_closed : forall os w w',
  ctype w = JMY_CONN_TYPE_ACTIVE -> event_handler_ (w_conn w) = true ->
  state w = JMY_CONN_STATE_DISCONNECTED -> conn_run os w = Some w' -> stays_closed w w'.
Proof using Hevents.
  intros os. induction os as [|o os IH]; intros w w' Ht He Hs H; cbn [conn_run] in H.
  - injection H as <-. by apply stays_closed_same.
  - apply bind_Some in H as (w1 & H1 & H).
    assert (S1 : stays_closed w w1).
    { assert (Hnc : negb (bool_decide (state w = JMY_CONN_STATE_CONNECTED)) = true) by (by rewrite Hs).
      destruct o; cbn [conn_exec] in H1; unfold close, send, send_user, sendHeartbeat in H1; rewrite ?Hnc in H1.
      1,3,4,5: injection H1 as <-; by apply stays_closed_same.
      - rewrite force_close_closed in H1 by done. injection H1 as <-. by apply stays_closed_same.
      - by eapply read_closed.
      - by eapply sent_closed.
      - apply bind_Some in H1 as ([r v] & Hr & E). injection E as <-. by eapply run_closed. }
    apply (stays_closed_trans _ _ _ S1). apply IH; [by rewrite (sc_type _ _ S1)|by rewrite (sc_events _ _ S1)|apply S1|done].
Qed.
End life.

(** ** Witnesses: the application logs the ids of its events *)

Definition log_app : Type := list (Z * Z * list Z).
Definition log_event : jmy_event_handler (World log_app) :=
  fun info w => (0, set_app (w_app w ++ [(ei_event_id info, ei_conn_id info, [])]) w).
Definition log_events : JmyEventHandlerManager (World log_app) := repeat (Some log_event) 5.
Definition log_effect (i : Z) (info : JmyEventInfo) (a : log_app) : log_app :=
  if Nat.ltb (Z.to_nat i) 5 then a ++ [(ei_event_id info, ei_conn_id info, [])] else a.

Lemma log_events_effect i info (w : World log_app) :
  snd (eh_call log_events i info w) = set_app (log_effect i info (w_app w)) w.
Proof.
  unfold eh_call, eh_at, log_events, log_effect.
  destruct (Z.to_nat i) as [|[|[|[|[|n]]]]]; simpl; try done. by destruct w.
Qed.

Definition demo_closing : World log_app :=
  set_conn (c_set_state JMY_CONN_STATE_DISCONNECTING) (demo_world JMY_CONN_TYPE_PASSIVE true).

Lemma passive_close_raises_disconnect_twice_witness :
  let w := demo_closing in
  (event_handler_ (w_conn w) = true /\ data_handler_ (w_conn w) = true /\ is_Some (buffer_ (w_conn w)) /\
   conn_type_ (w_conn w) = JMY_CONN_TYPE_PASSIVE /\ state w = JMY_CONN_STATE_DISCONNECTING /\
   sk_reads (w_sock w) = [rd_head]) /\
  exists w1 w2, read_completes log_events 0 demo_garbage (Some [0; 1; 9]) w = Some w1 /\
    read_completes log_events 0 demo_garbage None w1 = Some w2 /\
    w_app w2 = [(2, 7, []); (2, 7, [])].
Proof.
  cbv zeta. assert (Hb : is_Some (buffer_ (w_conn demo_closing))) by (eexists; reflexivity).
  split; [repeat split; try reflexivity; exact Hb|].
  destruct (passive_close_raises_disconnect_twice log_events 0 demo_garbage log_effect log_events_effect
    demo_closing eq_refl eq_refl Hb eq_refl eq_refl eq_refl) as (w1 & w2 & E1 & _ & _ & _ & _ & E2 & _ & E3).
  exists w1, w2. split; [exact E1|]. split; [exact E2|exact E3].
Defined.

Lemma close_never_sends_disconnect_witness :
  let w : World log_app := demo_world JMY_CONN_TYPE_ACTIVE true in
  (out_inv w /\ sk_sends (w_sock w) = [] /\ Forall (before_timeout 1000) [2000; 29000000000] /\
   ~ before_timeout 1000 30000001000) /\
  exists w1 w2 w3, close demo_garbage 1000 w = Some w1 /\
    run_all demo_handlers log_events 0 demo_garbage [2000; 29000000000] w1 = Some w2 /\
    sk_sends (w_sock w2) = [] /\ out_stream w2 = [] ++ [0; 1; 8] /\
    run demo_handlers log_events 0 demo_garbage 30000001000 w2 = Some (0, w3) /\
    state w3 = JMY_CONN_STATE_DISCONNECTED.
Proof.
  cbv zeta.
  assert (Ht : Forall (before_timeout 1000) [2000; 29000000000]) by (repeat constructor; vm_compute; reflexivity).
  assert (Hn : ~ before_timeout 1000 30000001000) by (intros H; vm_compute in H; discriminate H).
  split; [split; [exact (demo_out_inv _ _)|split; [reflexivity|split; [exact Ht|exact Hn]]]|].
  destruct (sendDisconnect demo_garbage (demo_world JMY_CONN_TYPE_ACTIVE true)) as [[r wd]|] eqn:E;
    [|vm_compute in E; discriminate E].
  assert (Hr : 0 <= r) by (vm_compute in E; injection E as <- _; vm_compute; discriminate).
  destruct (close_never_sends_disconnect demo_handlers log_events 0 demo_garbage log_effect log_events_effect
    1000 [2000; 29000000000] 30000001000 (demo_world JMY_CONN_TYPE_ACTIVE true) r wd demo_garbage_len
    (demo_out_inv _ _) eq_refl eq_refl E Hr Ht Hn) as (w1 & w2 & w3 & E1 & E2 & _ & E3 & E4 & E5 & E6 & _).
  exists w1, w2, w3. split; [exact E1|]. split; [exact E2|]. split; [exact E3|]. split; [exact E4|].
  split; [exact E5|exact E6].
Defined.

Definition demo_closed : World log_app :=
  set_conn (c_set_state JMY_CONN_STATE_DISCONNECTED) (demo_world JMY_CONN_TYPE_ACTIVE true).

Lemma active_closed_stays_closed_witness :
  let os := [co_run 5; co_read (Some [0; 1; 8]); co_send 3 (Some [1]) 1; co_force_close 0; co_run 6] in
  exists w', (ctype demo_closed = JMY_CONN_TYPE_ACTIVE /\ state demo_closed = JMY_CONN_STATE_DISCONNECTED /\
    conn_run demo_handlers log_events 0 demo_garbage os demo_closed = Some w') /\
    state w' = JMY_CONN_STATE_DISCONNECTED /\
    exists ticks, w_app w' = foldl (fun a i => log_effect JMY_EVENT_TICK i a) [] ticks.
Proof.
  cbv zeta.
  destruct (conn_run demo_handlers log_events 0 demo_garbage
    [co_run 5; co_read (Some [0; 1; 8]); co_send 3 (Some [1]) 1; co_force_close 0; co_run 6] demo_closed)
    as [w'|] eqn:E; [|vm_compute in E; discriminate E].
  exists w'. split; [split; [reflexivity|split; [reflexivity|reflexivity]]|].
  destruct (active_closed_stays_closed demo_handlers log_events 0 demo_garbage log_effect log_events_effect
    _ demo_closed w' eq_refl eq_refl eq_refl E) as [Hs _ _ _ _ Ht].
  split; [exact Hs|exact Ht].
Defined.
