(* ===== verification/ConnectionMgr.v ===== *)
(** * The connection manager ([JmyTcpConnectionMgr] of [jmy_tcp_connection.h], [jmy_tcp_connection.cpp])

    Connections are objects allocated once and recycled: a store of objects by pointer, a
    map of the connections in use by id and a list of the free ones.  The specification is
    a finite map from ids to connections. *)
From S2P Require Import Prelude Datatype Connection.
From Stdlib Require Import ZArith Lia.
From stdpp Require Import base option list gmap.
Local Open Scope Z_scope.

Record JmyTcpConnectionMgr : Type := mkCM {
  cm_objs : gmap Z JmyTcpConnection;   (** the allocated connections *)
  used_map_ : gmap Z ptr;
  free_list_ : list ptr;
  size_ : Z;
}.

Definition JmyTcpConnectionMgr_new : JmyTcpConnectionMgr := mkCM ∅ ∅ [] 0.

(** [jmy_mem_free(conn)]: an object that is not allocated is undefined behaviour. *)
Fixpoint cm_free_all (objs : gmap Z JmyTcpConnection) (l : list ptr) : option (gmap Z JmyTcpConnection) :=
  match l with
  | [] => Some objs
  | p :: l => if p =? NULL then cm_free_all objs l else _ ← objs !! p; cm_free_all (delete p objs) l
  end.

Definition cm_clear (m : JmyTcpConnectionMgr) : option JmyTcpConnectionMgr :=
  objs ← cm_free_all (cm_objs m) (free_list_ m);
  objs ← cm_free_all objs (snd <$> map_to_list (used_map_ m));
  Some (mkCM objs ∅ [] (size_ m)).

Fixpoint cm_new_conns (n : nat) (conn_type : JmyConnType) (objs : gmap Z JmyTcpConnection) (l : list ptr)
  : gmap Z JmyTcpConnection * list ptr :=
  match n with
  | O => (objs, l)
  | S n => let p := fresh_ptr objs in
           cm_new_conns n conn_type (<[p := JmyTcpConnection_new conn_type]> objs) (l ++ [p])
  end.

Definition cm_init (m : JmyTcpConnectionMgr) (size : Z) (conn_type : JmyConnType) : JmyTcpConnectionMgr :=
  let '(objs, l) := cm_new_conns (Z.to_nat size) conn_type (cm_objs m) (free_list_ m) in
  mkCM objs (used_map_ m) l size.

(** [None] in the result is a null pointer. *)
Definition cm_getFree (m : JmyTcpConnectionMgr) (id : Z) : option (option ptr * JmyTcpConnectionMgr) :=
  match used_map_ m !! id with
  | Some _ => Some (None, m)
  | None =>
    match free_list_ m with
    | [] => Some (None, m)
    | p :: l =>
      c ← cm_objs m !! p;
      Some (Some p, mkCM (<[p := c_set_id id c]> (cm_objs m)) (<[id := p]> (used_map_ m)) l (size_ m))
    end
  end.

Definition cm_get (m : JmyTcpConnectionMgr) (id : Z) : option ptr := used_map_ m !! id.

Definition cm_free (m : JmyTcpConnectionMgr) (conn : option ptr) : option (bool * JmyTcpConnectionMgr) :=
  match conn with
  | None => Some (false, m)
  | Some p =>
    c ← cm_objs m !! p;
    match used_map_ m !! c_id c with
    | None => Some (false, m)
    | Some _ =>
      Some (true, mkCM (<[p := conn_reset c]> (cm_objs m)) (delete (c_id c) (used_map_ m)) (p :: free_list_ m) (size_ m))
    end
  end.

(** ** Specification *)

Inductive cm_op : Type := cm_op_getFree (id : Z) | cm_op_get (id : Z) | cm_op_free (p : ptr).

Inductive cm_res : Type := cm_res_conn (p : option ptr) | cm_res_bool (b : bool).

Definition cm_exec (o : cm_op) (m : JmyTcpConnectionMgr) : option (cm_res * JmyTcpConnectionMgr) :=
  match o with
  | cm_op_getFree id => '(r, m) ← cm_getFree m id; Some (cm_res_conn r, m)
  | cm_op_get id => Some (cm_res_conn (cm_get m id), m)
  | cm_op_free p => '(r, m) ← cm_free m (Some p); Some (cm_res_bool r, m)
  end.

Fixpoint cm_run (os : list cm_op) (m : JmyTcpConnectionMgr) : option (list cm_res * JmyTcpConnectionMgr) :=
  match os with
  | [] => Some ([], m)
  | o :: os => '(r, m) ← cm_exec o m; '(rs, m) ← cm_run os m; Some (r :: rs, m)
  end.

(** A map [M] from ids to connections, over the set [B] of all connections: an id that
    is taken, or no connection left, gives null; a connection that is in use is found by
    its id until it is freed. *)
Inductive reg_step (B : gset Z) : gmap Z ptr -> cm_op -> cm_res -> gmap Z ptr -> Prop :=
| reg_new M id p :
    M !! id = None -> p ∈ B -> (forall i, M !! i <> Some p) ->
    reg_step B M (cm_op_getFree id) (cm_res_conn (Some p)) (<[id := p]> M)
| reg_taken M id p : M !! id = Some p -> reg_step B M (cm_op_getFree id) (cm_res_conn None) M
| reg_full M id :
    M !! id = None -> (forall p, p ∈ B -> exists i, M !! i = Some p) ->
    reg_step B M (cm_op_getFree id) (cm_res_conn None) M
| reg_get M id : reg_step B M (cm_op_get id) (cm_res_conn (M !! id)) M
| reg_free M id p : M !! id = Some p -> reg_step B M (cm_op_free p) (cm_res_bool true) (delete id M).

Inductive reg_trace (B : gset Z) : gmap Z ptr -> list cm_op -> list cm_res -> gmap Z ptr -> Prop :=
| reg_trace_nil M : reg_trace B M [] [] M
| reg_trace_cons M o r M' os rs M'' :
    reg_step B M o r M' -> reg_trace B M' os rs M'' -> reg_trace B M (o :: os) (r :: rs) M''.

(** Every connection is free or in use under exactly the id stored in it. *)
Record cm_inv (B : gset Z) (m : JmyTcpConnectionMgr) : Prop := mkCmInv {
  cmi_nodup : NoDup (free_list_ m);
  cmi_all : forall p, p ∈ B <-> p ∈ free_list_ m \/ exists i, used_map_ m !! i = Some p;
  cmi_disj : forall p i, p ∈ free_list_ m -> used_map_ m !! i <> Some p;
  cmi_id : forall i p, used_map_ m !! i = Some p -> exists c, cm_objs m !! p = Some c /\ c_id c = i;
  cmi_objs : forall p, p ∈ B -> is_Some (cm_objs m !! p);
}.

(** The client frees only connections that are in use. *)
Fixpoint frees_used (os : list cm_op) (m : JmyTcpConnectionMgr) : Prop :=
  match os with
  | [] => True
  | o :: os =>
    match o with cm_op_free p => exists i, used_map_ m !! i = Some p | _ => True end /\
    forall r m', cm_exec o m = Some (r, m') -> frees_used os m'
  end.

Lemma cm_exec_registers B m o :
  cm_inv B m -> match o with cm_op_free p => exists i, used_map_ m !! i = Some p | _ => True end ->
  exists r m', cm_exec o m = Some (r, m') /\ reg_step B (used_map_ m) o r (used_map_ m') /\ cm_inv B m'.
Proof.
  intros [Hn Ha Hd Hi Ho] Hok. destruct o as [id|id|p]; cbn [cm_exec].
  - unfold cm_getFree. destruct (used_map_ m !! id) as [p|] eqn:Hid.
    { eexists _, m. split; [done|]. split; [by econstructor|by constructor]. }
    destruct (free_list_ m) as [|p l] eqn:Hl.
    { eexists _, m. split; [done|]. split; [|constructor; rewrite ?Hl; done]. apply reg_full; [done|].
      intros p Hp. apply Ha in Hp as [Hp|Hp]; [set_solver|done]. }
    assert (Hp : p ∈ B) by (apply Ha; left; set_solver).
    apply NoDup_cons in Hn as [Hpl Hn].
    destruct (Ho p Hp) as [c Hc]. rewrite Hc. simpl. eexists _, _. split; [done|].
    assert (Hnu : forall i, used_map_ m !! i <> Some p) by (intros i; apply Hd; set_solver).
    split; [by apply reg_new|]. constructor; simpl; [done| | | |].
    + intros q. rewrite Ha. split.
      * intros [Hq|[i Hq]]; [|right; exists i; rewrite lookup_insert_ne; congruence].
        apply elem_of_cons in Hq as [->|Hq]; [right; exists id; by rewrite lookup_insert_eq|auto].
      * intros [Hq|[i Hq]]; [left; set_solver|].
        apply lookup_insert_Some in Hq as [[_ <-]|[_ Hq]]; [left; set_solver|eauto].
    + intros q i Hq [[_ <-]|[_ Hq']]%lookup_insert_Some; [done|]. apply (Hd q i); [set_solver|done].
    + intros i q [[<- <-]|[Hne Hq]]%lookup_insert_Some.
      * exists (c_set_id id c). by rewrite lookup_insert_eq.
      * rewrite lookup_insert_ne; [by apply Hi|]. intros <-. by apply (Hnu i).
    + intros q Hq. destruct (decide (q = p)) as [->|]; [rewrite lookup_insert_eq; eauto|].
      rewrite lookup_insert_ne by done. auto.
  - eexists _, m. split; [done|]. split; [constructor|by constructor].
  - destruct Hok as [id Hid]. destruct (Hi id p Hid) as (c & Hc & Hcid). unfold cm_free. rewrite Hc.
    cbv beta iota zeta delta [mbind option_bind]. rewrite Hcid, Hid. eexists _, _. split; [done|].
    split; [by constructor|].
    assert (Huniq : forall i, used_map_ m !! i = Some p -> i = id).
    { intros i Hip. destruct (Hi i p Hip) as (c' & Hc' & <-). congruence. }
    constructor; simpl; rewrite ?Hcid.
    + constructor; [|done]. intros Hp. by apply (Hd p id).
    + intros q. rewrite Ha. split.
      * intros [Hq|[i Hq]]; [left; set_solver|]. destruct (decide (q = p)) as [->|]; [left; set_solver|].
        right. exists i. rewrite lookup_delete_ne; [done|]. intros <-. congruence.
      * intros [[->|Hq]%elem_of_cons|[i [_ Hq]%lookup_delete_Some]]; eauto.
    + intros q i Hq [Hne Hqi]%lookup_delete_Some. apply elem_of_cons in Hq as [->|Hq]; [|by apply (Hd q i)].
      by apply Hne, eq_sym, Huniq.
    + intros i q [Hne Hq]%lookup_delete_Some. rewrite lookup_insert_ne; [by apply Hi|].
      intros <-. by apply Hne, eq_sym, Huniq.
    + intros q Hq. destruct (decide (q = p)) as [->|]; [rewrite lookup_insert_eq; eauto|].
      rewrite lookup_insert_ne by done. auto.
Qed.

Lemma cm_run_registers B os m :
  cm_inv B m -> frees_used os m ->
  exists rs m', cm_run os m = Some (rs, m') /\ reg_trace B (used_map_ m) os rs (used_map_ m') /\ cm_inv B m'.
Proof.
  revert m. induction os as [|o os IH]; intros m Hm Hf; [exists [], m; split; [done|split; [constructor|done]]|].
  destruct Hf as [Ho Hf]. destruct (cm_exec_registers B m o Hm Ho) as (r & m1 & E1 & S1 & Hm1).
  destruct (IH m1 Hm1 (Hf _ _ E1)) as (rs & m2 & E2 & S2 & Hm2).
  exists (r :: rs), m2. cbn [cm_run]. rewrite E1. cbv beta iota zeta delta [mbind option_bind]. rewrite E2.
  split; [done|]. split; [by econstructor|done].
Qed.

Lemma cm_new_conns_spec n ty objs l :
  NoDup l -> (forall p, p ∈ l -> is_Some (objs !! p)) ->
  let '(objs', l') := cm_new_conns n ty objs l in
  NoDup l' /\ length l' = (length l + n)%nat /\ (forall p, p ∈ l' -> is_Some (objs' !! p)).
Proof.
  revert objs l. induction n as [|n IH]; intros objs l Hn Hl; cbn [cm_new_conns].
  - split; [done|]. split; [lia|done].
  - assert (Hf : fresh_ptr objs ∉ l).
    { intros Hin. apply Hl in Hin. rewrite fresh_ptr_fresh in Hin. by destruct Hin. }
    specialize (IH (<[fresh_ptr objs := JmyTcpConnection_new ty]> objs) (l ++ [fresh_ptr objs])).
    destruct (cm_new_conns n ty _ _) as [objs' l']. destruct IH as (H1 & H2 & H3).
    + apply NoDup_app. split; [done|]. split; [set_solver|apply NoDup_singleton].
    + intros p [Hp|Hp]%elem_of_app; destruct (decide (p = fresh_ptr objs)) as [->|];
        rewrite ?lookup_insert_eq; try (by eexists).
      * rewrite lookup_insert_ne by done. auto.
      * set_solver.
    + rewrite length_app in H2. simpl in H2. split; [done|]. split; [lia|done].
Qed.

Lemma cm_init_inv n ty :
  let m := cm_init JmyTcpConnectionMgr_new (Z.of_nat n) ty in
  cm_inv (list_to_set (free_list_ m)) m /\ used_map_ m = ∅ /\ length (free_list_ m) = n.
Proof.
  unfold cm_init. rewrite Nat2Z.id. simpl.
  pose proof (cm_new_conns_spec n ty ∅ []) as H. destruct (cm_new_conns n ty ∅ []) as [objs l].
  destruct H as (H1 & H2 & H3); [constructor|set_solver|]. simpl. split; [|done].
  constructor; simpl; [done| |set_solver|set_solver|].
  - intros p. rewrite elem_of_list_to_set. split; [auto|]. by intros [?|[i Hi]].
  - intros p. rewrite elem_of_list_to_set. apply H3.
Qed.

(** The connection manager is a map from ids to its [n] connections.  As long as only
    connections in use are freed, every run of [getFree], [get] and [free] is defined and does
    what such a map does: an id that is in use is refused, a free id gets a
    connection that no other id has, unless all [n] are in use, [get] finds exactly the
    connection that was given out under the id, and a freed connection can be given out again. *)
Theorem connection_manager_is_map : forall n ty os,
  let m := cm_init JmyTcpConnectionMgr_new (Z.of_nat n) ty in
  let B := list_to_set (free_list_ m) : gset Z in
  frees_used os m ->
  exists rs m', cm_run os m = Some (rs, m') /\ reg_trace B ∅ os rs (used_map_ m') /\ size B = n.
Proof.
  intros n ty os m B Hf. destruct (cm_init_inv n ty) as (Hi & Hu & Hl).
  destruct (cm_run_registers _ os _ Hi Hf) as (rs & m' & E & Ht & _).
  exists rs, m'. split; [done|]. split; [by rewrite <- Hu|].
  unfold B. rewrite size_list_to_set by apply Hi. done.
Qed.

Lemma connection_manager_is_map_witness :
  let m := cm_init JmyTcpConnectionMgr_new 2 JMY_CONN_TYPE_PASSIVE in
  let os := [cm_op_getFree 5; cm_op_getFree 5; cm_op_get 5; cm_op_free 1; cm_op_get 5] in
  frees_used os m /\
  exists rs m', cm_run os m = Some (rs, m') /\
    rs = [cm_res_conn (Some 1); cm_res_conn None; cm_res_conn (Some 1); cm_res_bool true; cm_res_conn None] /\
    reg_trace (list_to_set (free_list_ m)) ∅ os rs (used_map_ m').
Proof.
  cbv zeta.
  assert (Hf : frees_used [cm_op_getFree 5; cm_op_getFree 5; cm_op_get 5; cm_op_free 1; cm_op_get 5]
    (cm_init JmyTcpConnectionMgr_new 2 JMY_CONN_TYPE_PASSIVE)).
  { split; [exact I|]. intros r1 m1 E1. vm_compute in E1. injection E1 as <- <-.
    split; [exact I|]. intros r2 m2 E2. vm_compute in E2. injection E2 as <- <-.
    split; [exact I|]. intros r3 m3 E3. vm_compute in E3. injection E3 as <- <-.
    split; [exists 5; vm_compute; reflexivity|]. intros r4 m4 E4. vm_compute in E4. injection E4 as <- <-.
    split; [exact I|]. intros r5 m5 E5. exact I. }
  split; [exact Hf|].
  destruct (connection_manager_is_map 2 JMY_CONN_TYPE_PASSIVE _ Hf) as (rs & m' & E & Ht & _).
  exists rs, m'. split; [exact E|]. split; [|exact Ht].
  assert (H : fst <$> cm_run [cm_op_getFree 5; cm_op_getFree 5; cm_op_get 5; cm_op_free 1; cm_op_get 5]
    (cm_init JmyTcpConnectionMgr_new 2 JMY_CONN_TYPE_PASSIVE) =
    Some [cm_res_conn (Some 1); cm_res_conn None; cm_res_conn (Some 1); cm_res_bool true; cm_res_conn None])
    by (vm_compute; reflexivity).
  change (Z.of_nat 2) with 2 in E. rewrite E in H. simpl in H. congruence.
Defined.
