(* ===== verification/TcpServer.v ===== *)
(** * The TCP server ([jmy_tcp_server.h], [jmy_tcp_server.cpp])

    The server owns the connection manager, the connection buffers, the id generator and
    the list of running connections.  It accepts connections, runs them in turn and
    recycles those that are disconnected.  Built with [USE_THREAD] 0 and [USE_NET_PROTO2] 1.
    The operations of one connection are those of [Connection]: they run on the
    connection's own part of the server's state. *)
From S2P Require Import Prelude Datatype NetProto2 SessionBuffer BufferPool IdGenerator BufferList DoubleBuffer DataHandler2 EventHandler ConnBuffer Connection ConnectionFrame ConnectionMgr.
From Stdlib Require Import ZArith Lia.
From stdpp Require Import base option list gmap.
Local Open Scope Z_scope.

(** ** State *)

Section server.
Context {App : Type}.
Notation W := (World App).

Record JmyServerConfig : Type := mkServerConfig {
  sc_handlers : option (list (Z * jmy_msg_handler W));      (** [None] is a null array *)
  sc_default_msg_handler : option (jmy_msg_handler W);
  sc_base_event_handlers : JmyBaseEventHandlers W;
  sc_other_event_handlers : option (list (Z * option (jmy_event_handler W)));
  sc_buff_conf : JmyBufferConfig;
  sc_max_conn : Z;
}.

Record JmyTcpServer : Type := mkServer {
  sv_handler : JmyDataHandler2 W;
  sv_events : JmyEventHandlerManager W;
  sv_mgr : JmyTcpConnectionMgr;
  sv_socks : gmap Z Socket;          (** the socket of each connection *)
  sv_bufs : gmap Z nat;              (** the buffer each connection holds *)
  sv_buffer_mgr : JmyConnectionBufferMgr;
  sv_id_gene : JmyIdGenerator;
  sv_conns : list ptr;
  sv_heap : heap;
  sv_pool : JmySessionBufferPool;
  sv_app : App;
  sv_conf : option JmyServerConfig;
  sv_inited : bool;
  sv_accepting : nat;                (** outstanding [async_accept]s *)
}.

Definition JmyTcpServer_new (h : heap) (app : App) : JmyTcpServer :=
  mkServer JmyDataHandler2_new JmyEventHandlerManager_new JmyTcpConnectionMgr_new ∅ ∅ JmyConnectionBufferMgr_new
    (JmyIdGenerator_new 0 1) [] h JmySessionBufferPool_new app None false 0.

Definition sv_set_resources (m : JmyTcpConnectionMgr) (bufs : gmap Z nat) (bm : JmyConnectionBufferMgr)
  (s : JmyTcpServer) : JmyTcpServer :=
  mkServer (sv_handler s) (sv_events s) m (sv_socks s) bufs bm (sv_id_gene s) (sv_conns s) (sv_heap s) (sv_pool s)
    (sv_app s) (sv_conf s) (sv_inited s) (sv_accepting s).
Definition sv_set_mgr (m : JmyTcpConnectionMgr) (s : JmyTcpServer) : JmyTcpServer :=
  sv_set_resources m (sv_bufs s) (sv_buffer_mgr s) s.
Definition sv_set_id_gene (g : JmyIdGenerator) (s : JmyTcpServer) : JmyTcpServer :=
  mkServer (sv_handler s) (sv_events s) (sv_mgr s) (sv_socks s) (sv_bufs s) (sv_buffer_mgr s) g (sv_conns s) (sv_heap s)
    (sv_pool s) (sv_app s) (sv_conf s) (sv_inited s) (sv_accepting s).
Definition sv_set_conns (l : list ptr) (s : JmyTcpServer) : JmyTcpServer :=
  mkServer (sv_handler s) (sv_events s) (sv_mgr s) (sv_socks s) (sv_bufs s) (sv_buffer_mgr s) (sv_id_gene s) l (sv_heap s)
    (sv_pool s) (sv_app s) (sv_conf s) (sv_inited s) (sv_accepting s).
Definition sv_set_accepting (n : nat) (s : JmyTcpServer) : JmyTcpServer :=
  mkServer (sv_handler s) (sv_events s) (sv_mgr s) (sv_socks s) (sv_bufs s) (sv_buffer_mgr s) (sv_id_gene s) (sv_conns s)
    (sv_heap s) (sv_pool s) (sv_app s) (sv_conf s) (sv_inited s) n.
Definition sv_set_mem (h : heap) (P : JmySessionBufferPool) (s : JmyTcpServer) : JmyTcpServer :=
  mkServer (sv_handler s) (sv_events s) (sv_mgr s) (sv_socks s) (sv_bufs s) (sv_buffer_mgr s) (sv_id_gene s) (sv_conns s)
    h P (sv_app s) (sv_conf s) (sv_inited s) (sv_accepting s).
Definition sv_set_sock (p : ptr) (k : Socket) (s : JmyTcpServer) : JmyTcpServer :=
  mkServer (sv_handler s) (sv_events s) (sv_mgr s) (<[p := k]> (sv_socks s)) (sv_bufs s) (sv_buffer_mgr s) (sv_id_gene s)
    (sv_conns s) (sv_heap s) (sv_pool s) (sv_app s) (sv_conf s) (sv_inited s) (sv_accepting s).
Definition cm_set_objs (objs : gmap Z JmyTcpConnection) (m : JmyTcpConnectionMgr) : JmyTcpConnectionMgr :=
  mkCM objs (used_map_ m) (ConnectionMgr.free_list_ m) (size_ m).
Definition cbm_set_vec (l : list JmyConnectionBuffer) (m : JmyConnectionBufferMgr) : JmyConnectionBufferMgr :=
  mkCBM (max_size_ m) l (free_queue_ m).

(** ** The connection's own part of the state *)

Definition closed_socket : Socket := mkSock false false [] [].

Definition sv_buffer_of (s : JmyTcpServer) (p : ptr) : option (option JmyConnectionBuffer) :=
  match sv_bufs s !! p with
  | None => Some None
  | Some i => b ← conn_buff_vec_ (sv_buffer_mgr s) !! i; Some (Some b)
  end.

Definition conn_world (s : JmyTcpServer) (p : ptr) : option W :=
  c ← cm_objs (sv_mgr s) !! p;
  b ← sv_buffer_of s p;
  Some (mkWorld (c_set_buffer b c) (default closed_socket (sv_socks s !! p)) (sv_heap s) (sv_pool s)
          (unpack_data_ (sv_handler s)) (sv_app s)).

Definition put_world (s : JmyTcpServer) (p : ptr) (w : W) : JmyTcpServer :=
  let vec := conn_buff_vec_ (sv_buffer_mgr s) in
  let vec := match sv_bufs s !! p, buffer_ (w_conn w) with Some i, Some b => <[i := b]> vec | _, _ => vec end in
  mkServer (dh2_set_unpack (w_unpack w) (sv_handler s)) (sv_events s)
    (cm_set_objs (<[p := w_conn w]> (cm_objs (sv_mgr s))) (sv_mgr s)) (<[p := w_sock w]> (sv_socks s)) (sv_bufs s)
    (cbm_set_vec vec (sv_buffer_mgr s)) (sv_id_gene s) (sv_conns s) (w_heap w) (w_pool w) (w_app w) (sv_conf s)
    (sv_inited s) (sv_accepting s).

(** A call on the connection [p]. *)
Definition on_conn {A} (s : JmyTcpServer) (p : ptr) (f : W -> option (A * W)) : option (A * JmyTcpServer) :=
  w ← conn_world s p; '(r, w) ← f w; Some (r, put_world s p w).

Definition no_result (f : W -> option W) (w : W) : option (unit * W) := w ← f w; Some (tt, w).

(** ** Operations

    [mgr] is the address of the connection manager, [garbage n] the content of a new block. *)
Variable mgr : Z.
Variable garbage : Z -> list Z.

Definition sv_loadConfig (s : JmyTcpServer) (conf : JmyServerConfig) : option (bool * JmyTcpServer) :=
  let with_conf H ev m bm h P i :=
    mkServer H ev m (sv_socks s) (sv_bufs s) bm (sv_id_gene s) (sv_conns s) h P (sv_app s) (Some conf) i (sv_accepting s) in
  let '(res, H) := loadMsgHandle (sv_handler s) (sc_handlers conf) in
  if negb res then Some (false, with_conf H (sv_events s) (sv_mgr s) (sv_buffer_mgr s) (sv_heap s) (sv_pool s) (sv_inited s)) else
  let H := setDefaultMsgHandler H (sc_default_msg_handler conf) in
  let ev := setBaseHandlers (sv_events s) (sc_base_event_handlers conf) in
  ev ← match sc_other_event_handlers conf with Some l => eh_init ev l | None => Some ev end;
  let m := cm_init (sv_mgr s) (sc_max_conn conf) JMY_CONN_TYPE_PASSIVE in
  let '(res, h, P) := bp_init garbage (sv_heap s) (sv_pool s) (sc_max_conn conf) 0 0
                        (bc_send_buff_size (sc_buff_conf conf)) (bc_recv_buff_size (sc_buff_conf conf)) in
  let init_buffer_size := s32 (u32 (2 * sc_max_conn conf)) in
  let '(ok, bm) := cbm_init (sv_buffer_mgr s) init_buffer_size in
  if negb ok then Some (false, with_conf H ev m bm h P (sv_inited s)) else
  Some (res, with_conf H ev m bm h P (res || sv_inited s)).

(** Closing the acceptor makes the outstanding [async_accept] complete, later, with an error. *)
Definition sv_close (s : JmyTcpServer) : option JmyTcpServer :=
  '(h, P) ← bp_clear (sv_heap s) (sv_pool s);
  m ← cm_clear (sv_mgr s);
  Some (sv_set_mgr m (sv_set_conns [] (sv_set_mem h P s))).

Definition sv_do_accept (s : JmyTcpServer) : Z * JmyTcpServer :=
  if negb (sv_inited s) then (-1, s) else (1, sv_set_accepting (S (sv_accepting s)) s).

Definition sv_start (s : JmyTcpServer) : Z * JmyTcpServer :=
  if negb (sv_inited s) then (-1, s) else sv_do_accept s.

(** Opening, binding and listening are calls of the acceptor. *)
Definition sv_listenStart (s : JmyTcpServer) : Z * JmyTcpServer :=
  if negb (sv_inited s) then (-1, s) else sv_start s.

(** [setDataHandler], [setEventHandler] and [setBuffer]. *)
Definition c_attach (c : JmyTcpConnection) : JmyTcpConnection :=
  mkConn (c_id c) (conn_type_ c) (state_ c) (sending_data_ c) (buff_send_count_ c) (active_close_start_ c)
    true true (buffer_ c) (last_run_tick_ c).

(** [conn->getSock() = std::move(sock)]: what was outstanding on the old socket still completes. *)
Definition sv_move_sock (p : ptr) (s : JmyTcpServer) : JmyTcpServer :=
  let old := default closed_socket (sv_socks s !! p) in
  sv_set_sock p (mkSock true false (sk_reads old) (sk_sends old)) s.

Definition sv_event_connect (id : Z) (s : JmyTcpServer) (w : W) : option (unit * W) :=
  Some (tt, snd (onConnect (sv_events s) (mkJmyEventInfo JMY_EVENT_CONNECT id mgr 0) w)).

(** [conn] is used without a test for null. *)
Definition sv_accept_new (s : JmyTcpServer) : option (Z * JmyTcpServer) :=
  '(id, g) ← ig_get (sv_id_gene s);
  let s := sv_set_id_gene g s in
  if id =? 0 then Some (-1, s) else
  '(conn, m) ← cm_getFree (sv_mgr s) id;
  p ← conn;
  let s := sv_move_sock p (sv_set_mgr m s) in
  let '(buffer, bm) := getOneBuffer (sv_buffer_mgr s) in
  c ← cm_objs (sv_mgr s) !! p;
  let m := cm_set_objs (<[p := c_attach c]> (cm_objs (sv_mgr s))) (sv_mgr s) in
  match buffer with
  | None => Some (-1, sv_set_resources m (sv_bufs s) bm s)
  | Some i =>
    conf ← sv_conf s;
    b ← conn_buff_vec_ bm !! i;
    '(h, P, b) ← cb_init_pool (sv_heap s) (sv_pool s) b (sc_buff_conf conf);
    let s := sv_set_mem h P (sv_set_resources m (<[p := i]> (sv_bufs s)) (cbm_set_vec (<[i := b]> (conn_buff_vec_ bm)) bm) s) in
    '(_, s) ← on_conn s p (no_result (fun w => Some (start w)));
    let s := sv_set_conns (sv_conns s ++ [p]) s in
    '(_, s) ← on_conn s p (sv_event_connect id s);
    Some (id, s)
  end.

(** How an [async_accept] completes: an error that is tolerated, another error, or a connection. *)
Inductive accept_result : Type := accept_retry | accept_error | accept_ok.

Definition sv_on_accept (res : accept_result) (s : JmyTcpServer) : option JmyTcpServer :=
  match sv_accepting s with
  | O => None
  | S n =>
    let s := sv_set_accepting n s in
    match res with
    | accept_error => Some s
    | accept_retry => Some (snd (sv_do_accept s))
    | accept_ok =>
      conf ← sv_conf s;
      if sc_max_conn conf <=? lenZ (sv_conns s) then Some (snd (sv_do_accept s)) else
      '(id, s) ← sv_accept_new s;
      if id <? 0 then Some s else Some (snd (sv_do_accept s))
    end
  end.

(** The part of [run_conns] that recycles a connection. *)
Definition sv_recycle (p : ptr) (s : JmyTcpServer) : option JmyTcpServer :=
  '(_, m) ← cm_free (sv_mgr s) (Some p);
  let s := sv_set_mgr m s in
  i ← sv_bufs s !! p;
  b ← conn_buff_vec_ (sv_buffer_mgr s) !! i;
  let '(P, b) := cb_clear (sv_pool s) b in
  let bm := cbm_set_vec (<[i := b]> (conn_buff_vec_ (sv_buffer_mgr s))) (sv_buffer_mgr s) in
  '(_, bm) ← freeBuffer bm (cb_id b);
  Some (sv_set_mem (sv_heap s) P (sv_set_resources (sv_mgr s) (sv_bufs s) bm s)).

(** The loop of [run_conns] after the connections [kept], over [l]. *)
Fixpoint sv_run_loop (now : Z) (kept l : list ptr) (n : Z) (s : JmyTcpServer) : option (Z * JmyTcpServer) :=
  match l with
  | [] => Some (n, s)
  | p :: l =>
    c ← cm_objs (sv_mgr s) !! p;
    if conn_isDisconnect c then
      s ← sv_recycle p s;
      sv_run_loop now kept l n (sv_set_conns (kept ++ l) s)
    else
      '(r, s) ← on_conn s p (run (sv_handler s) (sv_events s) mgr garbage now);
      sv_run_loop now (kept ++ [p]) l (if 0 <=? r then n + 1 else n) s
  end.

Definition sv_run_conns (now : Z) (s : JmyTcpServer) : option (Z * JmyTcpServer) := sv_run_loop now [] (sv_conns s) 0 s.

Definition sv_run (now : Z) (s : JmyTcpServer) : option (Z * JmyTcpServer) :=
  '(n, s) ← sv_run_conns now s; Some (if n <? 0 then -1 else 0, s).

(** Everything that happens to a server that is listening: an [async_accept], a read or
    a send completes, or the main loop calls [run]. *)
Inductive sv_op : Type :=
| sv_op_accept (res : accept_result)
| sv_op_read (p : ptr) (res : option (list Z))
| sv_op_send (p : ptr) (res : option Z)
| sv_op_run (now : Z).

Definition sv_exec (o : sv_op) (s : JmyTcpServer) : option JmyTcpServer :=
  match o with
  | sv_op_accept res => sv_on_accept res s
  | sv_op_read p res => '(_, s) ← on_conn s p (no_result (read_completes (sv_events s) mgr garbage res)); Some s
  | sv_op_send p res => '(_, s) ← on_conn s p (no_result (send_completes (sv_events s) mgr res)); Some s
  | sv_op_run now => '(_, s) ← sv_run now s; Some s
  end.

Fixpoint sv_exec_all (os : list sv_op) (s : JmyTcpServer) : option JmyTcpServer :=
  match os with [] => Some s | o :: os => s ← sv_exec o s; sv_exec_all os s end.
End server.
Arguments JmyServerConfig : clear implicits.
Arguments JmyTcpServer : clear implicits.

(** ** What the operations of a connection leave alone *)

Section keeps.
Context {App : Type}.
Notation W := (World App).

(** The connection keeps its id, its buffer, and the buffer's id and state. *)
Definition keeps (w w' : W) : Prop :=
  c_id (w_conn w') = c_id (w_conn w) /\ cb_tag <$> buffer_ (w_conn w') = cb_tag <$> buffer_ (w_conn w).

#[export] Instance keeps_preserved : ConnPreserved keeps.
Proof using.
  split; try done.
  - split; [done|]. intros w1 w2 w3 [H1 H2] [H3 H4]. split; congruence.
  - intros w w' []. done.
Qed.

(** The application cannot change the private fields of a connection. *)
Definition handlers_keep (handlers : JmyDataHandler2 W) : Prop := handlers_preserve keeps handlers.
Definition events_keep (events : JmyEventHandlerManager W) : Prop := events_preserve keeps events.
End keeps.

(** ** The invariant of a listening server *)

Section invariant.
Context {App : Type}.
Notation W := (World App).
Notation Server := (JmyTcpServer App).
Variable mgr : Z.
Variable garbage : Z -> list Z.
Variable conf : JmyServerConfig App.

(** [B] are the connections, [U] the buffers that are out, [c] the last id given out. *)
Record sv_inv (B : gset Z) (U : gset nat) (c : Z) (s : Server) : Prop := mkSvInv {
  si_conf : sv_conf s = Some conf;
  si_inited : sv_inited s = true;
  si_msgs : handlers_keep (sv_handler s);
  si_events : events_keep (sv_events s);
  si_mgr : cm_inv B (sv_mgr s);
  si_count : Z.of_nat (size B) = sc_max_conn conf;
  si_nodup : NoDup (sv_conns s);
  si_used : forall p, p ∈ sv_conns s <-> exists id, used_map_ (sv_mgr s) !! id = Some p;
  si_cbm : cbm_inv (sv_buffer_mgr s) U;
  si_nbufs : lenZ (conn_buff_vec_ (sv_buffer_mgr s)) = 2 * sc_max_conn conf;
  si_held : forall p, p ∈ sv_conns s -> exists i, sv_bufs s !! p = Some i /\ i ∈ U;
  si_holder : forall i, i ∈ U -> exists p, p ∈ sv_conns s /\ sv_bufs s !! p = Some i;
  si_own : forall p q i, p ∈ sv_conns s -> q ∈ sv_conns s -> sv_bufs s !! p = Some i -> sv_bufs s !! q = Some i -> p = q;
  si_range : forall p i, sv_bufs s !! p = Some i -> (i < length (conn_buff_vec_ (sv_buffer_mgr s)))%nat;
  si_ids : sv_id_gene s = ig_at 0 c /\ 0 <= c <= INT_MAX;
  si_id_range : forall id p, used_map_ (sv_mgr s) !! id = Some p -> 1 <= id <= c;
}.

(** *** Updates of a connection or a buffer that keep the ids *)

Lemma cm_inv_objs B m objs :
  cm_inv B m -> (forall p, is_Some (cm_objs m !! p) -> is_Some (objs !! p)) ->
  (forall p x y, cm_objs m !! p = Some x -> objs !! p = Some y -> c_id y = c_id x) ->
  cm_inv B (cm_set_objs objs m).
Proof using.
  intros [H1 H2 H3 H4 H5] Hs Hi. constructor; simpl; try done.
  - intros i p Hp. destruct (H4 i p Hp) as (x & Hx & <-). destruct (Hs p) as [y Hy]; [by eexists|]. exists y. eauto.
  - intros p Hp. apply Hs. by apply H5.
Qed.

Lemma cm_inv_insert B m p x y :
  cm_inv B m -> cm_objs m !! p = Some x -> c_id y = c_id x -> cm_inv B (cm_set_objs (<[p := y]> (cm_objs m)) m).
Proof using.
  intros Hm Hx Hy. apply cm_inv_objs; [done| |].
  - intros q Hq. destruct (decide (q = p)) as [->|]; [rewrite lookup_insert_eq; by eexists|by rewrite lookup_insert_ne].
  - intros q a b Ha. destruct (decide (q = p)) as [->|].
    + rewrite lookup_insert_eq. intros [= <-]. congruence.
    + rewrite lookup_insert_ne by done. congruence.
Qed.

Lemma cbm_inv_vec m U i b b' :
  cbm_inv m U -> conn_buff_vec_ m !! i = Some b -> cb_tag b' = cb_tag b ->
  cbm_inv (cbm_set_vec (<[i := b']> (conn_buff_vec_ m)) m) U.
Proof using.
  intros [H1 H2 H3 H4 H5 H6] Hb [= Hid Hst]. constructor; simpl; rewrite ?length_insert; try done.
  - intros j x. destruct (decide (j = i)) as [->|].
    + rewrite list_lookup_insert_eq by (by eapply lookup_lt_Some). intros [= <-]. rewrite Hid. by apply H5.
    + rewrite list_lookup_insert_ne by done. apply H5.
  - intros j x. destruct (decide (j = i)) as [->|].
    + rewrite list_lookup_insert_eq by (by eapply lookup_lt_Some). intros [= <-] Hj. rewrite Hst. by apply (H6 i).
    + rewrite list_lookup_insert_ne by done. apply H6.
Qed.

(** *** A call on a connection *)

Lemma conn_world_Some (s : Server) p w :
  conn_world s p = Some w ->
  exists x, cm_objs (sv_mgr s) !! p = Some x /\ c_id (w_conn w) = c_id x /\
    match sv_bufs s !! p with
    | Some i => exists b, conn_buff_vec_ (sv_buffer_mgr s) !! i = Some b /\ buffer_ (w_conn w) = Some b
    | None => buffer_ (w_conn w) = None
    end.
Proof using.
  unfold conn_world, sv_buffer_of. intros E. apply bind_Some in E as (x & Hx & E). exists x. split; [done|].
  apply bind_Some in E as (b & Hb & [= <-]). split; [done|]. simpl. destruct (sv_bufs s !! p) as [i|].
  - apply bind_Some in Hb as (b' & Hb' & [= <-]). eauto.
  - by injection Hb as <-.
Qed.

Lemma put_world_inv B U c (s : Server) p w w' :
  sv_inv B U c s -> conn_world s p = Some w -> keeps w w' -> sv_inv B U c (put_world s p w').
Proof using.
  intros Hs Hw [Hid Htag]. destruct (conn_world_Some _ _ _ Hw) as (x & Hx & Hxid & Hb).
  assert (Hvec : cbm_inv (sv_buffer_mgr (put_world s p w')) U /\
    length (conn_buff_vec_ (sv_buffer_mgr (put_world s p w'))) = length (conn_buff_vec_ (sv_buffer_mgr s))).
  { unfold put_world. cbn [sv_buffer_mgr cbm_set_vec conn_buff_vec_].
    destruct (sv_bufs s !! p) as [i|]; [|by destruct Hs, (sv_buffer_mgr s)].
    destruct Hb as (b & Hb & Hwb). rewrite Hwb in Htag. destruct (buffer_ (w_conn w')) as [b'|]; [|done].
    split; [|apply length_insert]. eapply cbm_inv_vec; [apply Hs|done|]. injection Htag as Hi1 Hi2; unfold cb_tag; congruence. }
  destruct Hvec as [Hcbm Hlen].
  destruct Hs as [H1 H1' H2 H3 H4 H5 H6 H7 H8 H9 H10 H11 H12 H13 H14 H15].
  constructor; try done; [by eapply cm_inv_insert; [|done|congruence]|by rewrite Hlen|].
  intros q j Hq. rewrite Hlen. by eapply H13.
Qed.

Lemma on_conn_inv {A} B U c (s : Server) p (f : W -> option (A * W)) r s' :
  sv_inv B U c s -> (forall w r w', f w = Some (r, w') -> keeps w w') -> on_conn s p f = Some (r, s') ->
  sv_inv B U c s' /\ sv_conns s' = sv_conns s /\ sv_accepting s' = sv_accepting s /\ sv_inited s' = sv_inited s.
Proof using.
  intros Hs Hf E. unfold on_conn in E. apply bind_Some in E as (w & Hw & E). apply bind_Some in E as ([r1 w1] & E & [= _ <-]).
  split; [|done]. eapply put_world_inv; eauto.
Qed.

(** *** Recycling *)

Lemma cm_free_used B m p id :
  cm_inv B m -> used_map_ m !! id = Some p ->
  exists m', cm_free m (Some p) = Some (true, m') /\ cm_inv B m' /\ used_map_ m' = delete id (used_map_ m).
Proof using.
  intros Hm Hid. destruct (cm_exec_registers B m (cm_op_free p) Hm) as (r & m' & E & Hs & Hm'); [by exists id|].
  cbn [cm_exec] in E. apply bind_Some in E as ([b m1] & E & [= <- <-]).
  inversion Hs as [| | | |M id' p' Hid' HM]; subst. exists m1. split; [by subst|]. split; [done|].
  assert (id' = id) as ->; [|done].
  destruct (cmi_id _ _ Hm _ _ Hid) as (x & Hx & <-). destruct (cmi_id _ _ Hm _ _ Hid') as (y & Hy & <-). congruence.
Qed.

Lemma recycle_inv B U c (s : Server) kept l p :
  sv_inv B U c s -> sv_conns s = kept ++ p :: l ->
  exists s' U', sv_recycle p s = Some s' /\ sv_inv B U' c (sv_set_conns (kept ++ l) s') /\
    sv_accepting s' = sv_accepting s /\ sv_conns s' = sv_conns s.
Proof using.
  clear garbage mgr. intros Hs Hl. pose proof Hs as [H1 H1' H2 H3 H4 H5 H6 H7 H8 H9 H10 H11 H12 H13 H14 H15].
  assert (Hp : p ∈ sv_conns s) by (rewrite Hl; set_solver).
  destruct (proj1 (H7 p) Hp) as [id Hid]. destruct (cm_free_used B _ p id H4 Hid) as (m' & Em & Hm' & Hused).
  destruct (H10 p Hp) as (i & Hi & HiU). pose proof (H13 _ _ Hi) as Hlt. apply lookup_lt_is_Some in Hlt as [b Hb].
  unfold sv_recycle. rewrite Em. cbv beta iota zeta delta [mbind option_bind].
  change (sv_bufs (sv_set_mgr m' s)) with (sv_bufs s). rewrite Hi.
  change (sv_buffer_mgr (sv_set_mgr m' s)) with (sv_buffer_mgr s). rewrite Hb.
  change (sv_pool (sv_set_mgr m' s)) with (sv_pool s).
  assert (Htag : cb_tag (snd (cb_clear (sv_pool s) b)) = cb_tag b) by (unfold cb_clear; by destruct db_clear).
  destruct (cb_clear (sv_pool s) b) as [P b'] eqn:Ecl. cbn [snd] in Htag.
  pose proof (cbm_inv_vec _ _ _ _ _ H8 Hb Htag) as Hcbm. set (bm := cbm_set_vec _ _) in *.
  destruct (cbm_return_inv bm U i Hcbm HiU) as (bm' & Ebm & Hbm' & Hvec).
  assert (cb_id b' = Z.of_nat i + 1) as ->.
  { injection Htag as -> _. by apply (cbi_id _ _ H8). }
  rewrite Ebm. eexists _, (U ∖ {[i]}). split; [reflexivity|]. split; [|done].
  assert (Hlen : length (conn_buff_vec_ bm') = length (conn_buff_vec_ (sv_buffer_mgr s))) by (rewrite Hvec; apply length_insert).
  assert (Hnd : NoDup (kept ++ l) /\ p ∉ kept ++ l /\ forall q, q ∈ sv_conns s <-> q = p \/ q ∈ kept ++ l).
  { rewrite Hl in H6. apply NoDup_app in H6 as (N1 & N2 & [N3 N4]%NoDup_cons). split; [|split].
    - apply NoDup_app. set_solver.
    - intros [Hq|Hq]%elem_of_app; [apply (N2 p Hq); set_solver|done].
    - intros q. rewrite Hl. set_solver. }
  destruct Hnd as (Hnd & Hpn & Hiff).
  assert (Hother : forall q j, q ∈ kept ++ l -> sv_bufs s !! q = Some j -> j <> i).
  { intros q j Hq Hj ->. apply Hpn. by rewrite (H12 p q i Hp (proj2 (Hiff q) (or_intror Hq)) Hi Hj). }
  constructor; try done; cbn [sv_set_conns sv_set_mem sv_set_resources sv_set_mgr sv_mgr sv_conns sv_buffer_mgr sv_bufs].
  - intros q. rewrite Hused. split.
    + intros Hq. destruct (proj1 (H7 q) (proj2 (Hiff q) (or_intror Hq))) as [iq Hiq]. exists iq.
      rewrite lookup_delete_ne; [done|]. intros <-. apply Hpn. congruence.
    + intros [iq [Hne Hiq]%lookup_delete_Some]. destruct (proj1 (Hiff q)) as [->|]; [apply H7; eauto| |done].
      destruct Hne. destruct (cmi_id _ _ H4 _ _ Hid) as (x & Hx & <-). destruct (cmi_id _ _ H4 _ _ Hiq) as (y & Hy & <-). congruence.
  - by rewrite Hlen.
  - intros q Hq. destruct (H10 q (proj2 (Hiff q) (or_intror Hq))) as (j & Hj & HjU). exists j. split; [done|].
    pose proof (Hother q j Hq Hj). set_solver.
  - intros j Hj. destruct (H11 j) as (q & Hq & Hqj); [set_solver|]. exists q. split; [|done].
    apply Hiff in Hq as [->|]; [|done]. assert (j = i) by congruence. set_solver.
  - intros q r j Hq Hr. apply H12; apply Hiff; by right.
  - intros q j Hj. rewrite Hlen. by eapply H13.
  - intros iq q Hiq. rewrite Hused in Hiq. apply lookup_delete_Some in Hiq as [_ Hiq]. by eapply H15.
Qed.

Lemma run_loop_inv now l B U c (s : Server) kept n r s' :
  sv_inv B U c s -> sv_conns s = kept ++ l -> sv_run_loop mgr garbage now kept l n s = Some (r, s') ->
  exists U', sv_inv B U' c s' /\ sv_accepting s' = sv_accepting s /\ sv_conns s' ⊆ sv_conns s.
Proof using.
  revert U s kept n. induction l as [|p l IH]; intros U s kept n Hs Hl E; cbn [sv_run_loop] in E; [injection E as _ <-; eauto|].
  apply bind_Some in E as (x & Hx & E). destruct (conn_isDisconnect x).
  - destruct (recycle_inv B U c s kept l p Hs Hl) as (s1 & U1 & E1 & Hs1 & Ha & Hc). rewrite E1 in E. cbn [mbind option_bind] in E.
    destruct (IH U1 _ kept n Hs1 eq_refl E) as (U2 & Hs2 & Ha2 & Hsub). exists U2. split; [done|]. split; [by rewrite Ha2|].
    etrans; [exact Hsub|]. cbn [sv_set_conns sv_conns]. rewrite Hl. set_solver.
  - apply bind_Some in E as ([r1 s1] & E1 & E).
    destruct (on_conn_inv B U c s p _ r1 s1 Hs (run_preserves keeps _ _ mgr garbage (si_msgs _ _ _ _ Hs) (si_events _ _ _ _ Hs) now) E1) as (Hs1 & Hc1 & Ha1 & _).
    destruct (IH U s1 (kept ++ [p]) (if 0 <=? r1 then n + 1 else n) Hs1) as (U2 & Hs2 & Ha2 & Hsub);
      [by rewrite Hc1, Hl, <-app_assoc|exact E|]. exists U2. split; [done|]. split; [congruence|by rewrite <-Hc1].
Qed.

(** *** Accepting *)

Lemma conn_world_defined B U c (s : Server) p : sv_inv B U c s -> p ∈ B -> exists w, conn_world s p = Some w.
Proof using.
  intros Hs Hp. unfold conn_world, sv_buffer_of. destruct (cmi_objs _ _ (si_mgr _ _ _ _ Hs) p Hp) as [x ->].
  cbn [mbind option_bind]. destruct (sv_bufs s !! p) as [i|] eqn:Hi; [|by eexists].
  destruct (lookup_lt_is_Some_2 (conn_buff_vec_ (sv_buffer_mgr s)) i) as [b Hb]; [by eapply si_range|].
  rewrite Hb. by eexists.
Qed.

(** A call whose function is total is defined. *)
Lemma on_conn_total {A} B U c (s : Server) p (f : W -> A * W) :
  sv_inv B U c s -> p ∈ B -> (forall w, keeps w (snd (f w))) ->
  exists r s', on_conn s p (fun w => Some (f w)) = Some (r, s') /\ sv_inv B U c s' /\
    sv_conns s' = sv_conns s /\ sv_accepting s' = sv_accepting s.
Proof using.
  intros Hs Hp Hf. destruct (conn_world_defined _ _ _ _ _ Hs Hp) as [w Hw]. unfold on_conn. rewrite Hw.
  cbn [mbind option_bind]. specialize (Hf w). destruct (f w) as [r w']. exists r, (put_world s p w'). split; [done|].
  split; [by eapply put_world_inv|done].
Qed.

(** With a connection less than the maximum there is a free connection and a free buffer. *)
Lemma buffers_out B U c (s : Server) : sv_inv B U c s -> (size U <= length (sv_conns s))%nat.
Proof using.
  intros Hs. transitivity (size (list_to_set (omap (sv_bufs s !!.) (sv_conns s)) : gset nat)).
  - apply subseteq_size. intros i Hi. destruct (si_holder _ _ _ _ Hs i Hi) as (p & Hp & Hpi).
    apply elem_of_list_to_set, list_elem_of_omap. eauto.
  - etrans; [apply size_list_to_set_le|]. clear. induction (sv_conns s) as [|p l IH]; [done|]. csimpl.
    destruct (sv_bufs s !! p); simpl; lia.
Qed.

Lemma lend_one B U c (s : Server) :
  sv_inv B U c s -> lenZ (sv_conns s) < sc_max_conn conf ->
  exists i bm b, getOneBuffer (sv_buffer_mgr s) = (Some i, bm) /\ i ∉ U /\ cbm_inv bm ({[i]} ∪ U) /\
    length (conn_buff_vec_ bm) = length (conn_buff_vec_ (sv_buffer_mgr s)) /\ conn_buff_vec_ bm !! i = Some b.
Proof using.
  intros Hs Hl. pose proof (cbm_lend_inv _ _ (si_cbm _ _ _ _ Hs)) as Hc. destruct (getOneBuffer _) as [o bm].
  destruct Hc as [Hlen Hc]. destruct o as [i|].
  - destruct Hc as (Hi & HiU & Hbm). destruct (lookup_lt_is_Some_2 (conn_buff_vec_ bm) i) as [b Hb]; [by rewrite Hlen|].
    exists i, bm, b. by rewrite Hlen.
  - exfalso. destruct Hc as [Hall _]. pose proof (buffers_out _ _ _ _ Hs). pose proof (si_nbufs _ _ _ _ Hs).
    assert (size (set_seq 0 (length (conn_buff_vec_ (sv_buffer_mgr s))) : gset nat) <= size U)%nat as Hle.
    { apply subseteq_size. intros i Hi. apply Hall. apply elem_of_set_seq in Hi. lia. }
    rewrite size_set_seq in Hle. lia.
Qed.

Lemma get_connection B U c (s : Server) id :
  sv_inv B U c s -> lenZ (sv_conns s) < sc_max_conn conf -> c < id ->
  exists p m, cm_getFree (sv_mgr s) id = Some (Some p, m) /\ cm_inv B m /\ p ∈ B /\ p ∉ sv_conns s /\
    used_map_ m = <[id := p]> (used_map_ (sv_mgr s)) /\ used_map_ (sv_mgr s) !! id = None.
Proof using.
  intros Hs Hl Hid. pose proof (si_mgr _ _ _ _ Hs) as Hm. pose proof (si_used _ _ _ _ Hs) as Hu.
  assert (Hnone : used_map_ (sv_mgr s) !! id = None).
  { destruct (used_map_ (sv_mgr s) !! id) as [p|] eqn:E; [|done]. apply (si_id_range _ _ _ _ Hs) in E. lia. }
  destruct (cm_exec_registers B _ (cm_op_getFree id) Hm I) as (r & m & E & Hst & Hm').
  cbn [cm_exec] in E. apply bind_Some in E as ([o m1] & E & [= <- <-]). inversion Hst as [M id' p HM HpB Hp|M id' p HM|M id' HM Hfull| |]; subst.
  - exists p, m1. split; [done|]. split; [done|]. split; [done|]. split; [|by subst].
    intros [i Hi]%Hu. by apply (Hp i).
  - congruence.
  - exfalso. assert (size B <= size (list_to_set (sv_conns s) : gset Z))%nat as Hle.
    { apply subseteq_size. intros p Hp. apply elem_of_list_to_set, Hu. by apply Hfull. }
    pose proof (size_list_to_set_le (sv_conns s)). pose proof (si_count _ _ _ _ Hs). lia.
Qed.

(** The resources of a new connection [p] with buffer [i] and the next id. *)
Lemma attach_inv B U c (s : Server) p i m1 bm h P b b' x :
  sv_inv B U c s -> c < INT_MAX ->
  cm_inv B m1 -> p ∈ B -> p ∉ sv_conns s -> used_map_ m1 = <[c + 1 := p]> (used_map_ (sv_mgr s)) ->
  used_map_ (sv_mgr s) !! (c + 1) = None -> cm_objs m1 !! p = Some x ->
  i ∉ U -> cbm_inv bm ({[i]} ∪ U) -> length (conn_buff_vec_ bm) = length (conn_buff_vec_ (sv_buffer_mgr s)) ->
  conn_buff_vec_ bm !! i = Some b -> cb_tag b' = cb_tag b ->
  let s1 := sv_move_sock p (sv_set_mgr m1 (sv_set_id_gene (ig_at 0 (c + 1)) s)) in
  sv_inv B ({[i]} ∪ U) (c + 1)
    (sv_set_conns (sv_conns s ++ [p])
      (sv_set_mem h P (sv_set_resources (cm_set_objs (<[p := c_attach x]> (cm_objs m1)) m1)
         (<[p := i]> (sv_bufs s)) (cbm_set_vec (<[i := b']> (conn_buff_vec_ bm)) bm) s1))).
Proof using.
  clear garbage mgr. intros Hs Hc Hm1 HpB Hpn Hu1 Hu0 Hx HiU Hbm Hlen Hb Htag s1.
  pose proof Hs as [H1 H1' H2 H3 H4 H5 H6 H7 H8 H9 H10 H11 H12 H13 [H14 H14'] H15].
  assert (Hin : forall q, q ∈ sv_conns s ++ [p] <-> q = p \/ q ∈ sv_conns s) by (intros q; set_solver).
  assert (Hold : forall q, q ∈ sv_conns s -> <[p := i]> (sv_bufs s) !! q = sv_bufs s !! q).
  { intros q Hq. rewrite lookup_insert_ne; [done|]. by intros ->. }
  assert (Hi : forall q, q ∈ sv_conns s -> sv_bufs s !! q <> Some i).
  { intros q Hq E. destruct (H10 q Hq) as (j & Hj & HjU). congruence. }
  constructor; try done; cbn [sv_set_conns sv_set_mem sv_set_resources sv_mgr sv_conns sv_buffer_mgr sv_bufs sv_id_gene cm_set_objs used_map_ cbm_set_vec conn_buff_vec_].
  - by eapply cm_inv_insert.
  - apply NoDup_app. split; [done|]. split; [set_solver|apply NoDup_singleton].
  - intros q. rewrite Hin, Hu1, H7. split.
    + intros [->|[id Hid]]; [exists (c + 1); by rewrite lookup_insert_eq|].
      exists id. rewrite lookup_insert_ne; [done|]. intros <-. congruence.
    + intros [id [[_ ->]|[_ Hid]]%lookup_insert_Some]; [by left|right; by exists id].
  - by eapply cbm_inv_vec.
  - by rewrite length_insert, Hlen.
  - intros q [->|Hq]%Hin; [exists i; rewrite lookup_insert_eq; set_solver|].
    destruct (H10 q Hq) as (j & Hj & HjU). exists j. rewrite Hold by done. set_solver.
  - intros j [->%elem_of_singleton|Hj]%elem_of_union; [exists p; rewrite lookup_insert_eq, Hin; auto|].
    destruct (H11 j Hj) as (q & Hq & Hqj). exists q. rewrite Hold, Hin by done. auto.
  - intros q r j [->|Hq]%Hin [->|Hr]%Hin; rewrite ?lookup_insert_eq, ?Hold by done; [done| | |by apply H12].
    + intros [= <-] E. by destruct (Hi r Hr).
    + intros E [= <-]. by destruct (Hi q Hq).
  - intros q j. rewrite length_insert, Hlen. intros [[_ <-]|[_ Hj]]%lookup_insert_Some; [|by eapply H13].
    rewrite <-Hlen. by eapply lookup_lt_Some.
  - split; [done|lia].
  - intros id q. rewrite Hu1. intros [[<- _]|[_ Hid]]%lookup_insert_Some; [lia|]. apply H15 in Hid. lia.
Qed.

Lemma on_conn_set_conns {A} (s : Server) p (f : W -> option (A * W)) l :
  on_conn (sv_set_conns l s) p f = '(r, s') ← on_conn s p f; Some (r, sv_set_conns l s').
Proof using.
  unfold on_conn. change (conn_world (sv_set_conns l s) p) with (conn_world s p).
  destruct (conn_world s p) as [w|]; [|done]. cbn [mbind option_bind]. by destruct (f w) as [[r w']|].
Qed.

Lemma accept_new_inv B U c (s : Server) :
  sv_inv B U c s -> lenZ (sv_conns s) < sc_max_conn conf -> bc_use_send_buff_list (sc_buff_conf conf) = true -> c < INT_MAX ->
  exists s' U' p, sv_accept_new mgr s = Some (c + 1, s') /\ sv_inv B U' (c + 1) s' /\
    sv_conns s' = sv_conns s ++ [p] /\ sv_accepting s' = sv_accepting s.
Proof using.
  intros Hs Hl Huse Hc. pose proof (si_ids _ _ _ _ Hs) as [Hg Hc0].
  destruct (get_connection B U c s (c + 1) Hs Hl) as (p & m1 & Eg & Hm1 & HpB & Hpn & Hu1 & Hu0); [lia|].
  destruct (lend_one B U c s Hs Hl) as (i & bm & b & El & HiU & Hbm & Hlen & Hb).
  destruct (cmi_objs _ _ Hm1 p HpB) as [x Hx].
  set (s1 := sv_move_sock p (sv_set_mgr m1 (sv_set_id_gene (ig_at 0 (c + 1)) s))).
  assert (Ecb : exists b', cb_init_pool (sv_heap s1) (sv_pool s1) b (sc_buff_conf conf) = Some (sv_heap s1, sv_pool s1, b') /\ cb_tag b' = cb_tag b).
  { unfold cb_init_pool. rewrite Huse. cbn [negb]. destruct bl_init as [r l]. by eexists. }
  destruct Ecb as (b' & Ecb & Htag).
  pose proof (attach_inv B U c s p i m1 bm (sv_heap s1) (sv_pool s1) b b' x Hs Hc Hm1 HpB Hpn Hu1 Hu0 Hx HiU Hbm Hlen Hb Htag) as Hs3.
  cbv zeta in Hs3. fold s1 in Hs3. set (s2 := sv_set_mem _ _ _) in Hs3.
  destruct (on_conn_total B _ (c + 1) _ p (fun w => (tt, start w)) Hs3 HpB (fun w => start_recv_preserves keeps w)) as (r4 & s4 & E4 & Hs4 & Hc4 & Ha4).
  rewrite on_conn_set_conns in E4. destruct (on_conn s2 p _) as [[r5 s5]|] eqn:E5; [|done]. cbn [mbind option_bind] in E4.
  injection E4 as <- <-.
  destruct (on_conn_total B _ (c + 1) _ p (fun w => (tt, snd (onConnect (sv_events (sv_set_conns (sv_conns s ++ [p]) s5))
    (mkJmyEventInfo JMY_EVENT_CONNECT (c + 1) mgr 0) w))) Hs4 HpB) as (r6 & s6 & E6 & Hs6 & Hc6 & Ha6).
  { intros w. apply (si_events _ _ _ _ Hs4). }
  exists s6, ({[i]} ∪ U), p. split; [|split; [done|split; [by rewrite Hc6|by rewrite Ha6]]].
  unfold sv_accept_new. rewrite Hg, ig_get_at by (unfold INT_MAX in *; lia).
  rewrite (proj2 (Z.eqb_neq c _)), andb_false_r by lia. change (next_id 0 c) with (c + 1).
  cbv beta iota zeta delta [mbind option_bind]. rewrite (proj2 (Z.eqb_neq (c + 1) 0)) by lia.
  change (sv_mgr (sv_set_id_gene (ig_at 0 (c + 1)) s)) with (sv_mgr s). rewrite Eg.
  fold s1. change (sv_buffer_mgr s1) with (sv_buffer_mgr s). rewrite El.
  change (cm_objs (sv_mgr s1)) with (cm_objs m1). rewrite Hx.
  change (sv_conf s1) with (sv_conf s). rewrite (si_conf _ _ _ _ Hs), Hb, Ecb.
  change (sv_bufs s1) with (sv_bufs s). change (sv_mgr s1) with m1. fold s2.
  unfold no_result. cbv beta iota zeta delta [mbind option_bind].
  unfold on_conn in E5 |- *. destruct (conn_world s2 p) as [w|] eqn:Ew; [|done]. cbv beta iota zeta delta [mbind option_bind] in E5 |- *.
  injection E5 as <- <-. unfold sv_event_connect, on_conn in *. cbv beta iota zeta delta [mbind option_bind] in E6 |- *.
  change (sv_conns (put_world s2 p (start w))) with (sv_conns s).
  revert E6. destruct (conn_world (sv_set_conns (sv_conns s ++ [p]) (put_world s2 p (start w))) p) as [w6|]; [|done].
  by intros [= _ <-].
Qed.

(** *** Runs *)

Lemma conns_le B U c (s : Server) : sv_inv B U c s -> lenZ (sv_conns s) <= sc_max_conn conf.
Proof using.
  intros Hs. rewrite <- (si_count _ _ _ _ Hs). rewrite <- (size_list_to_set (C := gset Z) (sv_conns s)) by apply Hs.
  apply Nat2Z.inj_le, subseteq_size. intros p. rewrite elem_of_list_to_set, (si_used _ _ _ _ Hs).
  intros Hp. apply (cmi_all _ _ (si_mgr _ _ _ _ Hs)). by right.
Qed.

Lemma set_accepting_inv B U c n (s : Server) : sv_inv B U c s -> sv_inv B U c (sv_set_accepting n s).
Proof using. by intros []. Qed.

Lemma accept_again B U c (s : Server) :
  sv_inv B U c s -> sv_do_accept s = (1, sv_set_accepting (S (sv_accepting s)) s).
Proof using. intros Hs. unfold sv_do_accept. by rewrite (si_inited _ _ _ _ Hs). Qed.

Lemma set_accepting_same (s : Server) : sv_set_accepting (sv_accepting s) s = s.
Proof using. by destruct s. Qed.

(** An accepted connection, when there is room. *)
Lemma on_accept_ok B U c n (s : Server) :
  sv_inv B U c s -> sv_accepting s = S n -> lenZ (sv_conns s) < sc_max_conn conf ->
  bc_use_send_buff_list (sc_buff_conf conf) = true -> c < INT_MAX ->
  exists s' U' p, sv_on_accept mgr accept_ok s = Some s' /\ sv_inv B U' (c + 1) s' /\
    sv_conns s' = sv_conns s ++ [p] /\ sv_accepting s' = S n.
Proof using.
  intros Hs Ha Hl Huse Hc. unfold sv_on_accept. rewrite Ha.
  pose proof (set_accepting_inv _ _ _ n _ Hs) as Hs1. rewrite (si_conf _ _ _ _ Hs1). cbn [mbind option_bind].
  change (sv_conns (sv_set_accepting n s)) with (sv_conns s). rewrite (proj2 (Z.leb_gt _ _)) by lia.
  destruct (accept_new_inv _ _ _ _ Hs1 Hl Huse Hc) as (s2 & U2 & p & E & Hs2 & Hc2 & Ha2). rewrite E. cbn [mbind option_bind].
  pose proof (proj2 (si_ids _ _ _ _ Hs)). rewrite (proj2 (Z.ltb_ge _ _)) by lia.
  rewrite (accept_again _ _ _ _ Hs2). exists (sv_set_accepting (S n) s2), U2, p.
  split; [by rewrite Ha2|]. split; [by apply set_accepting_inv|done].
Qed.

(** The number of [async_accept]s outstanding after an operation. *)
Definition accepting_after (o : sv_op) (n : nat) : nat :=
  match o with sv_op_accept accept_error => pred n | _ => n end.

Lemma exec_inv B U c o (s s' : Server) :
  bc_use_send_buff_list (sc_buff_conf conf) = true -> sv_inv B U c s -> sv_exec mgr garbage o s = Some s' ->
  exists U' c', sv_inv B U' c' s' /\ sv_accepting s' = accepting_after o (sv_accepting s).
Proof using.
  intros Huse Hs E. destruct o as [res|p res|p res|now]; cbn [sv_exec accepting_after] in *.
  - destruct (sv_accepting s) as [|n] eqn:Ha; [by unfold sv_on_accept in E; rewrite Ha in E|].
    pose proof (set_accepting_inv _ _ _ n _ Hs) as Hs1.
    assert (Hretry : sv_inv B U c (snd (sv_do_accept (sv_set_accepting n s))) /\
    sv_accepting (snd (sv_do_accept (sv_set_accepting n s))) = S n).
    { rewrite (accept_again _ _ _ _ Hs1). split; [by apply set_accepting_inv|done]. }
    destruct res; [unfold sv_on_accept in E; rewrite Ha in E; injection E as <-; eauto..|].
    destruct (Z.lt_ge_cases (lenZ (sv_conns s)) (sc_max_conn conf)) as [Hl|Hl].
    + destruct (Z.lt_ge_cases c INT_MAX) as [Hc|Hc].
      * destruct (on_accept_ok _ _ _ _ _ Hs Ha Hl Huse Hc) as (s2 & U2 & p & E2 & Hs2 & _ & Ha2). simplify_eq. eauto.
      * exfalso. unfold sv_on_accept in E. rewrite Ha, (si_conf _ _ _ _ Hs1) in E. cbn [mbind option_bind] in E.
        change (sv_conns (sv_set_accepting n s)) with (sv_conns s) in E. rewrite (proj2 (Z.leb_gt _ _)) in E by lia.
        destruct (si_ids _ _ _ _ Hs1) as [Hg Hr]. unfold sv_accept_new in E. rewrite Hg, ig_get_at in E by (unfold INT_MAX in *; lia).
        replace c with INT_MAX in E by lia. by rewrite Z.eqb_refl in E.
    + unfold sv_on_accept in E. rewrite Ha, (si_conf _ _ _ _ Hs1) in E. cbn [mbind option_bind] in E.
      change (sv_conns (sv_set_accepting n s)) with (sv_conns s) in E. rewrite (proj2 (Z.leb_le _ _)) in E by lia.
      injection E as <-. eauto.
  - apply bind_Some in E as ([r s1] & E & [= <-]). eapply on_conn_inv in E as (H1 & _ & H2 & _); [eauto|done|].
    unfold no_result. intros w r1 w' E1. apply bind_Some in E1 as (w1 & E1 & [= _ <-]).
    eapply (read_completes_preserves keeps); [apply Hs|done].
  - apply bind_Some in E as ([r s1] & E & [= <-]). eapply on_conn_inv in E as (H1 & _ & H2 & _); [eauto|done|].
    unfold no_result. intros w r1 w' E1. apply bind_Some in E1 as (w1 & E1 & [= _ <-]).
    eapply (send_completes_preserves keeps); [apply Hs|done].
  - apply bind_Some in E as ([r s1] & E & [= <-]). unfold sv_run in E. apply bind_Some in E as ([n s2] & E & [= _ <-]).
    eapply run_loop_inv in E as (U' & H1 & H2 & _); [eauto..|done].
Qed.

Lemma no_accepts os : foldl (fun n o => accepting_after o n) 0%nat os = 0%nat.
Proof using. induction os as [|o os IH]; [done|]. cbn [foldl]. by destruct o as [[]| | |]. Qed.

Lemma accepting_count os :
  foldl (fun n o => accepting_after o n) 1%nat os =
  (if existsb (fun o => match o with sv_op_accept accept_error => true | _ => false end) os then 0 else 1)%nat.
Proof using.
  induction os as [|o os IH]; [done|]. cbn [foldl existsb].
  destruct o as [[]| | |]; cbn [accepting_after pred orb]; [done|apply no_accepts|done..].
Qed.

Lemma exec_all_inv B U c os (s s' : Server) :
  bc_use_send_buff_list (sc_buff_conf conf) = true -> sv_inv B U c s -> sv_exec_all mgr garbage os s = Some s' ->
  exists U' c', sv_inv B U' c' s' /\ sv_accepting s' = foldl (fun n o => accepting_after o n) (sv_accepting s) os.
Proof using.
  intros Huse. revert U c s. induction os as [|o os IH]; intros U c s Hs E; cbn [sv_exec_all] in E.
  - injection E as <-. eauto.
  - apply bind_Some in E as (s1 & E1 & E). destruct (exec_inv _ _ _ _ _ _ Huse Hs E1) as (U1 & c1 & Hs1 & Ha1).
    cbn [foldl]. rewrite <- Ha1. by eapply IH.
Qed.

(** [run] removes every connection that was disconnected. *)
Lemma run_loop_removes now B U c (s : Server) kept l n r s' p x :
  sv_inv B U c s -> sv_conns s = kept ++ l -> sv_run_loop mgr garbage now kept l n s = Some (r, s') ->
  p ∈ l -> cm_objs (sv_mgr s) !! p = Some x -> conn_isDisconnect x = true -> p ∉ sv_conns s'.
Proof using.
  revert U s kept n. induction l as [|q l IH]; intros U s kept n Hs Hl E Hp Hx Hd; [set_solver|]. cbn [sv_run_loop] in E.
  assert (Hnd : NoDup (kept ++ q :: l)) by (rewrite <-Hl; apply Hs).
  apply bind_Some in E as (y & Hy & E). destruct (conn_isDisconnect y) eqn:Hdy.
  - destruct (recycle_inv B U c s kept l q Hs Hl) as (s1 & U1 & E1 & Hs1 & Ha & Hc). rewrite E1 in E. cbn [mbind option_bind] in E.
    destruct (decide (p = q)) as [->|Hne].
    + destruct (run_loop_inv _ _ _ _ _ _ _ _ _ _ Hs1 eq_refl E) as (_ & _ & _ & Hsub). intros Hin%Hsub.
      cbn [sv_set_conns sv_conns] in Hin. apply NoDup_app in Hnd as (_ & N2 & [N3 N4]%NoDup_cons). apply elem_of_app in Hin as [Hin|Hin]; [|done].
      apply (N2 q Hin). set_solver.
    + eapply (IH U1 _ kept n Hs1 eq_refl E); [set_solver| |done]. cbn [sv_set_conns sv_mgr].
      unfold sv_recycle in E1. apply bind_Some in E1 as ([b m1] & Em & E1).
      assert (Hm : sv_mgr s1 = m1).
      { apply bind_Some in E1 as (i & _ & E1). apply bind_Some in E1 as (bb & _ & E1). destruct (cb_clear _ _) as [P b1].
        apply bind_Some in E1 as ([r1 bm] & _ & [= <-]). done. }
      rewrite Hm. unfold cm_free in Em. rewrite Hy in Em. cbn [mbind option_bind] in Em.
      destruct (used_map_ _ !! _); injection Em as _ <-; [|done]. cbn [cm_objs]. by rewrite lookup_insert_ne.
  - assert (p <> q) as Hne by congruence. apply bind_Some in E as ([r1 s1] & E1 & E).
    destruct (on_conn_inv B U c s q _ r1 s1 Hs (run_preserves keeps _ _ mgr garbage (si_msgs _ _ _ _ Hs) (si_events _ _ _ _ Hs) now) E1) as (Hs1 & Hc1 & Ha1 & _).
    eapply (IH U s1 (kept ++ [q]) _ Hs1); [by rewrite Hc1, Hl, <-app_assoc|exact E|set_solver| |done].
    unfold on_conn in E1. apply bind_Some in E1 as (w & _ & E1). apply bind_Some in E1 as ([r2 w2] & _ & [= _ <-]).
    cbn [put_world sv_mgr cm_set_objs cm_objs]. by rewrite lookup_insert_ne.
Qed.
End invariant.

(** ** A server from [loadConfig] on *)

Section runs.
Context {App : Type}.
Notation Server := (JmyTcpServer App).
Variable mgr : Z.
Variable garbage : Z -> list Z.

(** The connections, the buffers and the ids of a server that has loaded its configuration. *)
Lemma loadConfig_inv h (app : App) conf (s : Server) :
  0 <= sc_max_conn conf < 2 ^ 30 -> sv_loadConfig garbage (JmyTcpServer_new h app) conf = Some (true, s) ->
  handlers_keep (sv_handler s) -> events_keep (sv_events s) ->
  (exists B, sv_inv conf B ∅ 0 s) /\ sv_accepting s = 0%nat.
Proof using.
  intros Hn E Hm He. unfold sv_loadConfig in E. destruct (loadMsgHandle _ _) as [r1 H]. destruct (negb r1); [done|].
  apply bind_Some in E as (ev & Hev & E). set (m := cm_init _ _ _) in E.
  destruct (bp_init _ _ _ _ _ _ _ _) as [[res h1] P]. set (bs := s32 _) in E.
  assert (Hbs : bs = Z.of_nat (Z.to_nat (2 * sc_max_conn conf))).
  { subst bs. unfold s32, u32. rewrite Z2Nat.id by lia.
    rewrite (Z.mod_small (2 * _)) by lia. rewrite Z.mod_small by lia. lia. }
  pose proof (cbm_init_inv (Z.to_nat (2 * sc_max_conn conf))) as Hcbm. rewrite <- Hbs in Hcbm.
  assert (Hlen : lenZ (conn_buff_vec_ (snd (cbm_init JmyConnectionBufferMgr_new bs))) = bs).
  { unfold cbm_init. cbn [snd conn_buff_vec_]. rewrite length_fmap, length_seq. rewrite Hbs. lia. }
  change (sv_buffer_mgr (JmyTcpServer_new h app)) with JmyConnectionBufferMgr_new in E.
  destruct (cbm_init JmyConnectionBufferMgr_new bs) as [ok bm]. cbn [snd] in Hcbm, Hlen. destruct (negb ok); [done|].
  injection E as -> <-. split; [|done].
  pose proof (cm_init_inv (Z.to_nat (sc_max_conn conf)) JMY_CONN_TYPE_PASSIVE) as Hcm. rewrite Z2Nat.id in Hcm by lia.
  change (cm_init JmyTcpConnectionMgr_new (sc_max_conn conf) JMY_CONN_TYPE_PASSIVE) with m in Hcm.
  destruct Hcm as (Hcm & Hu & Hl). exists (list_to_set (ConnectionMgr.free_list_ m)).
  constructor; try done; cbn [sv_conns sv_mgr sv_bufs sv_buffer_mgr sv_id_gene JmyTcpServer_new].
  - rewrite size_list_to_set by apply Hcm. rewrite Hl. lia.
  - apply NoDup_nil_2.
  - intros p. rewrite Hu. split; [set_solver|]. by intros [id Hid].
  - rewrite Hlen, Hbs. lia.
  - by intros p Hp%elem_of_nil.
  - intros id p. by rewrite Hu.
Qed.

(** C6.  The connections of the server are never lost, duplicated or mixed up.  From
    [loadConfig] and [listenStart] on, whatever accepts, reads and sends complete (also
    late ones of the old socket of a recycled connection) and whenever [run] is called,
    with handlers that leave a connection's private fields alone:
    the connections that run are distinct, at most [max_conn], exactly those that the
    connection manager has in use; each has a buffer of its own, which is out of the free
    queue; one accept is outstanding as long as none failed with an error that is not tolerated,
    and none after that; with room and ids left an accepted connection
    is added and accepting goes on; and after [run] no connection is left that was disconnected before. *)
Theorem server_recycles_connections : forall h (app : App) conf s0 os s,
  0 <= sc_max_conn conf < 2 ^ 30 -> bc_use_send_buff_list (sc_buff_conf conf) = true ->
  sv_loadConfig garbage (JmyTcpServer_new h app) conf = Some (true, s0) ->
  handlers_keep (sv_handler s0) -> events_keep (sv_events s0) ->
  sv_exec_all mgr garbage os (snd (sv_listenStart s0)) = Some s ->
  NoDup (sv_conns s) /\ lenZ (sv_conns s) <= sc_max_conn conf /\
  (forall p, p ∈ sv_conns s <-> exists id, used_map_ (sv_mgr s) !! id = Some p) /\
  (forall p, p ∈ sv_conns s -> exists i b, sv_bufs s !! p = Some i /\ conn_buff_vec_ (sv_buffer_mgr s) !! i = Some b /\
     cb_state b = JMY_CONN_BUFFER_STATE_USING /\ i ∉ free_queue_ (sv_buffer_mgr s) /\
     forall q, q ∈ sv_conns s -> sv_bufs s !! q = Some i -> q = p) /\
  sv_accepting s = (if existsb (fun o => match o with sv_op_accept accept_error => true | _ => false end) os then 0 else 1)%nat /\
  (sv_accepting s = 1%nat -> lenZ (sv_conns s) < sc_max_conn conf -> curr_id_ (sv_id_gene s) < INT_MAX ->
   exists s' p, sv_exec mgr garbage (sv_op_accept accept_ok) s = Some s' /\ sv_conns s' = sv_conns s ++ [p] /\ sv_accepting s' = 1%nat) /\
  (forall now r s' p c, sv_run mgr garbage now s = Some (r, s') -> cm_objs (sv_mgr s) !! p = Some c ->
   conn_isDisconnect c = true -> p ∉ sv_conns s').
Proof using.
  intros h app conf s0 os s Hn Huse E0 Hm He E. destruct (loadConfig_inv h app conf s0 Hn E0 Hm He) as [[B Hs0] Ha0].
  assert (Hs1 : sv_inv conf B ∅ 0 (snd (sv_listenStart s0)) /\ sv_accepting (snd (sv_listenStart s0)) = 1%nat).
  { unfold sv_listenStart, sv_start. rewrite (si_inited _ _ _ _ _ Hs0). simpl negb. rewrite (accept_again _ _ _ _ _ Hs0), Ha0.
    split; [by apply set_accepting_inv|done]. }
  destruct Hs1 as [Hs1 Ha1]. destruct (exec_all_inv _ _ _ _ _ _ _ _ _ Huse Hs1 E) as (U & c & Hs & Ha).
  split; [apply Hs|]. split; [by eapply conns_le|]. split; [apply Hs|]. split; [|split; [|split]].
  - intros p Hp. destruct (si_held _ _ _ _ _ Hs p Hp) as (i & Hi & HiU).
    destruct (lookup_lt_is_Some_2 (conn_buff_vec_ (sv_buffer_mgr s)) i) as [b Hb]; [by eapply si_range|].
    exists i, b. split; [done|]. split; [done|]. split; [by eapply cbi_using; [apply Hs|..]|].
    split; [intros Hf; by eapply cbi_disj; [apply Hs|exact Hf|]|]. intros q Hq Hqi. by eapply si_own; [apply Hs|..].
  - rewrite Ha, Ha1. apply accepting_count.
  - intros Hacc Hl Hc. destruct (si_ids _ _ _ _ _ Hs) as [Hg _]. rewrite Hg in Hc.
    destruct (on_accept_ok mgr conf _ _ _ _ _ Hs Hacc Hl Huse Hc) as (s' & U' & p & E1 & _ & Hc1 & Ha2). by exists s', p.
  - intros now r s' p x Er Hx Hd Hin. unfold sv_run in Er. apply bind_Some in Er as ([n s2] & Er & [= _ ->]).
    assert (Hp : p ∈ sv_conns s) by (eapply run_loop_inv in Er as (_ & _ & _ & Hsub); [by apply Hsub|exact Hs|done]).
    by eapply (run_loop_removes mgr garbage conf now B U c s [] (sv_conns s)); [exact Hs| |exact Er|..].
Qed.
End runs.

(** ** A server with room for one connection *)

Definition conn_log : Type := list (Z * Z).
Definition log_conn : jmy_event_handler (World conn_log) :=
  fun info w => (0, set_app (w_app w ++ [(ei_event_id info, ei_conn_id info)]) w).
Definition demo_conf : JmyServerConfig conn_log :=
  mkServerConfig (Some [(1, fun info w => (mi_len info, w))]) None
    (mkBaseEH (Some log_conn) (Some log_conn) None None) None (mkJmyBufferConfig 64 64 0 0 true true) 1.
Definition demo_content (n : Z) : list Z := repeat 0 (Z.to_nat n).
(** The first connection is accepted, a second one is refused, the first fails and is recycled. *)
Definition demo_ops : list sv_op :=
  [sv_op_accept accept_ok; sv_op_accept accept_ok; sv_op_read 1 None; sv_op_run 5; sv_op_accept accept_retry].

Lemma demo_server_keeps s : sv_loadConfig demo_content (JmyTcpServer_new ∅ []) demo_conf = Some (true, s) ->
  handlers_keep (sv_handler s) /\ events_keep (sv_events s).
Proof.
  assert (H : match sv_loadConfig demo_content (JmyTcpServer_new ∅ []) demo_conf with
    | Some (_, s) => msg_handler_map_ (sv_handler s) = {[ 1 := fun info w => (mi_len info, w) ]} /\
                default_msg_handler_ (sv_handler s) = None /\
                sv_events s = [None; Some log_conn; Some log_conn; None; None]
    | None => False end) by (vm_compute; repeat split).
  intros E. rewrite E in H. clear E. destruct H as (Hm & Hd & He). split.
  - intros info w. unfold handleMsg. rewrite Hm, Hd. destruct (decide (mi_msg_id info = 1)) as [->|].
    + rewrite lookup_singleton_eq. cbn. by destruct (mi_len info <? 0).
    + rewrite lookup_singleton_ne by done. cbn. split; reflexivity.
  - intros i info w. unfold eh_call, eh_at. rewrite He. by destruct (Z.to_nat i) as [|[|[|[|[|n]]]]].
Qed.

Lemma server_recycles_connections_witness :
  exists s0 s s' p,
    (sv_loadConfig demo_content (JmyTcpServer_new ∅ []) demo_conf = Some (true, s0) /\
     handlers_keep (sv_handler s0) /\ events_keep (sv_events s0) /\
     sv_exec_all 0 demo_content demo_ops (snd (sv_listenStart s0)) = Some s) /\
    sv_conns s = [] /\ sv_accepting s = 1%nat /\ sv_app s = [(1, 1); (2, 1)] /\
    sv_exec 0 demo_content (sv_op_accept accept_ok) s = Some s' /\ sv_conns s' = [p] /\ sv_accepting s' = 1%nat.
Proof.
  assert (Hk := demo_server_keeps).
  assert (H0 : match sv_loadConfig demo_content (JmyTcpServer_new ∅ []) demo_conf with
    | Some (true, _) => True | _ => False end) by (vm_compute; exact I).
  destruct (sv_loadConfig demo_content (JmyTcpServer_new ∅ []) demo_conf) as [[[] s0]|] eqn:E0; [|destruct H0..].
  destruct (Hk s0 eq_refl) as [Hm He]. clear Hk H0.
  assert (Hrun : match sv_loadConfig demo_content (JmyTcpServer_new ∅ []) demo_conf with
    | Some (_, s0) => match sv_exec_all 0 demo_content demo_ops (snd (sv_listenStart s0)) with
      | Some s => sv_conns s = [] /\ curr_id_ (sv_id_gene s) = 1 /\ sv_app s = [(1, 1); (2, 1)]
      | None => False end
    | None => False end) by (vm_compute; repeat split).
  rewrite E0 in Hrun.
  destruct (sv_exec_all 0 demo_content demo_ops (snd (sv_listenStart s0))) as [s|] eqn:E; [|destruct Hrun].
  destruct Hrun as (Hc & Hid & Happ).
  destruct (server_recycles_connections 0 demo_content ∅ [] demo_conf s0 demo_ops s ltac:(split; vm_compute; [discriminate|reflexivity])
    eq_refl E0 Hm He E) as (_ & _ & _ & _ & Ha & Hacc & _).
  destruct (Hacc Ha) as (s' & p & E' & Hc' & Ha').
  { rewrite Hc. vm_compute. reflexivity. }
  { rewrite Hid. vm_compute. reflexivity. }
  exists s0, s, s', p. rewrite Hc in Hc'. split; [split; [reflexivity|split; [exact Hm|split; [exact He|exact E]]]|].
  split; [exact Hc|]. split; [exact Ha|]. split; [exact Happ|]. split; [exact E'|]. split; [exact Hc'|exact Ha'].
Defined.
