(* ===== verification/TcpClient.v ===== *)
(** * The TCP clients ([jmy_tcp_client.*], [jmy_tcp_client_set.*])

    A client is the active side of one connection.  [JmyTcpClientMaster] makes clients over a
    connection manager, [JmyTcpClientSet] runs clients and connects them again.  Built with
    [USE_NET_PROTO2] 1.  Every connection has a data handler, event handlers and a buffer of its
    own, and its operations are those of [Connection]. *)
From S2P Require Import Prelude Datatype NetProto2 SessionBuffer BufferPool IdGenerator BufferList DoubleBuffer DataHandler2 EventHandler ConnBuffer Connection ConnectionMgr TcpServer.
From Stdlib Require Import ZArith Lia.
From stdpp Require Import base option list gmap.
Local Open Scope Z_scope.

(** An address and a port; connecting is the socket's. *)
Definition Endpoint : Type := list Z * Z.

(** [conn_] is never null: the only clients are the ones [generate] makes. *)
Record JmyTcpClient : Type := mkClient { cl_conn : ptr; cl_ep : Endpoint }.

Section clients.
Context {App : Type}.
Notation W := (World App).

(** A null array is [None]. *)
Record JmyClientConfig : Type := mkClientConfig {
  cc_handlers : option (list (Z * jmy_msg_handler W));
  cc_default_msg_handler : option (jmy_msg_handler W);
  cc_base_event_handlers : JmyBaseEventHandlers W;
  cc_other_event_handlers : option (list (Z * option (jmy_event_handler W)));
  cc_buff_conf : JmyBufferConfig;
  is_reconnect : bool;
  reconnect_interval : Z;
}.

Record JmyTcpClientMaster : Type := mkMaster {
  mt_objs : gmap ptr JmyTcpClient;               (** the allocated clients *)
  conn_mgr_ : JmyTcpConnectionMgr;
  mt_socks : gmap Z Socket;                      (** of each connection: its socket, *)
  mt_handlers : gmap Z (JmyDataHandler2 W);      (** its data handler, *)
  mt_events : gmap Z (JmyEventHandlerManager W); (** its event handlers *)
  mt_heap : heap;
  mt_app : App;
  gene_clients_ : gset ptr;
  id_gen_ : JmyIdGenerator;
  used_ids_ : gset Z;
  free_ids_ : list Z;
  max_count_ : Z;
  inited_ : bool;
}.

Definition JmyTcpClientMaster_new (h : heap) (app : App) : JmyTcpClientMaster :=
  mkMaster ∅ JmyTcpConnectionMgr_new ∅ ∅ ∅ h app ∅ (JmyIdGenerator_new 0 1) ∅ [] 0 false.

Definition mt_set_clients (objs : gmap ptr JmyTcpClient) (mgr : JmyTcpConnectionMgr) (gene : gset ptr) (g : JmyIdGenerator) (used : gset Z)
  (m : JmyTcpClientMaster) : JmyTcpClientMaster :=
  mkMaster objs mgr (mt_socks m) (mt_handlers m) (mt_events m) (mt_heap m) (mt_app m) gene g used (free_ids_ m) (max_count_ m) (inited_ m).
Definition mt_set_conn (p : ptr) (f : JmyTcpConnection -> JmyTcpConnection) (m : JmyTcpClientMaster) : JmyTcpClientMaster :=
  mt_set_clients (mt_objs m) (cm_set_objs (alter f p (cm_objs (conn_mgr_ m))) (conn_mgr_ m)) (gene_clients_ m) (id_gen_ m) (used_ids_ m) m.
Definition mt_attach (p : ptr) (H : option (JmyDataHandler2 W)) (ev : option (JmyEventHandlerManager W)) (h : heap) (m : JmyTcpClientMaster)
  : JmyTcpClientMaster :=
  mkMaster (mt_objs m) (conn_mgr_ m) (mt_socks m) (match H with Some H => <[p := H]> (mt_handlers m) | None => mt_handlers m end)
    (match ev with Some ev => <[p := ev]> (mt_events m) | None => mt_events m end) h (mt_app m)
    (gene_clients_ m) (id_gen_ m) (used_ids_ m) (free_ids_ m) (max_count_ m) (inited_ m).

(** ** A connection's own part of the state *)

Definition mt_handler (m : JmyTcpClientMaster) (p : ptr) : JmyDataHandler2 W := default JmyDataHandler2_new (mt_handlers m !! p).
Definition mt_event (m : JmyTcpClientMaster) (p : ptr) : JmyEventHandlerManager W := default JmyEventHandlerManager_new (mt_events m !! p).

(** The buffers of clients do not come from a pool. *)
Definition mt_world (m : JmyTcpClientMaster) (p : ptr) : option W :=
  c ← cm_objs (conn_mgr_ m) !! p;
  Some (mkWorld c (default closed_socket (mt_socks m !! p)) (mt_heap m) JmySessionBufferPool_new (unpack_data_ (mt_handler m p)) (mt_app m)).

Definition mt_put (m : JmyTcpClientMaster) (p : ptr) (w : W) : JmyTcpClientMaster :=
  mkMaster (mt_objs m) (cm_set_objs (<[p := w_conn w]> (cm_objs (conn_mgr_ m))) (conn_mgr_ m)) (<[p := w_sock w]> (mt_socks m))
    (alter (dh2_set_unpack (w_unpack w)) p (mt_handlers m)) (mt_events m) (w_heap w) (w_app w)
    (gene_clients_ m) (id_gen_ m) (used_ids_ m) (free_ids_ m) (max_count_ m) (inited_ m).

Definition mt_on {A} (m : JmyTcpClientMaster) (p : ptr) (f : W -> option (A * W)) : option (A * JmyTcpClientMaster) :=
  w ← mt_world m p; '(r, w) ← f w; Some (r, mt_put m p w).

(** ** JmyTcpClient

    [mgr] is the address of the connection manager, [garbage n] the content of a new block. *)
Variable mgr : Z.
Variable garbage : Z -> list Z.

(** The connection of a client; a client that was freed is undefined behaviour. *)
Definition cl_at (m : JmyTcpClientMaster) (c : ptr) : option ptr := cl ← mt_objs m !! c; Some (cl_conn cl).
Definition cl_state (m : JmyTcpClientMaster) (c : ptr) : option JmyConnState := p ← cl_at m c; k ← cm_objs (conn_mgr_ m) !! p; Some (state_ k).
Definition cl_getId (m : JmyTcpClientMaster) (c : ptr) : option Z := p ← cl_at m c; k ← cm_objs (conn_mgr_ m) !! p; Some (c_id k).

Definition cl_close (now : Z) (c : ptr) (m : JmyTcpClientMaster) : option JmyTcpClientMaster :=
  p ← cl_at m c; '(_, m) ← mt_on m p (no_result (close garbage now)); Some m.

Definition cl_reset (c : ptr) (m : JmyTcpClientMaster) : option JmyTcpClientMaster :=
  p ← cl_at m c; '(_, m) ← mt_on m p (fun w => Some (tt, set_conn conn_reset w)); Some m.

Definition cl_setEndPoint (ep : Endpoint) (c : ptr) (m : JmyTcpClientMaster) : option JmyTcpClientMaster :=
  cl ← mt_objs m !! c;
  Some (mt_set_clients (<[c := mkClient (cl_conn cl) ep]> (mt_objs m)) (conn_mgr_ m) (gene_clients_ m) (id_gen_ m) (used_ids_ m) m).

(** [blocking] is [None] for a non-blocking connect, and else whether the blocking one succeeds. *)
Definition cl_connect (blocking : option bool) (c : ptr) (m : JmyTcpClientMaster) : option (bool * JmyTcpClientMaster) :=
  p ← cl_at m c;
  match blocking with
  | None => '(_, m) ← mt_on m p (fun w => Some (tt, asynConnect w)); Some (true, m)
  | Some ok => mt_on m p (connect (mt_event m p) mgr ok)
  end.

(** The handlers, when there are any, and [None] when they cannot be loaded. *)
Definition cl_load_handlers (conf : JmyClientConfig) : option (option (JmyDataHandler2 W)) :=
  match cc_handlers conf with
  | None | Some [] => Some None
  | Some l =>
    let '(ok, H) := loadMsgHandle JmyDataHandler2_new (Some l) in
    if ok : bool then Some (Some (setDefaultMsgHandler H (cc_default_msg_handler conf))) else None
  end.

Definition cl_load_events (conf : JmyClientConfig) : option (JmyEventHandlerManager W) :=
  let ev := setBaseHandlers JmyEventHandlerManager_new (cc_base_event_handlers conf) in
  match cc_other_event_handlers conf with None | Some [] => Some ev | Some l => eh_init ev l end.

(** The buffer that the connection had is destroyed when the new one is set. *)
Definition cl_start (conf : JmyClientConfig) (blocking : option bool) (c : ptr) (m : JmyTcpClientMaster) : option (bool * JmyTcpClientMaster) :=
  p ← cl_at m c;
  k ← cm_objs (conn_mgr_ m) !! p;
  match cl_load_handlers conf with
  | None => Some (false, m)
  | Some H =>
    ev ← cl_load_events conf;
    '(h, b) ← cb_init (mt_heap m) JmyConnectionBuffer_new (cc_buff_conf conf) (garbage (bc_send_buff_size (cc_buff_conf conf)));
    let h := match buffer_ k with Some old => fst (cb_destroy h old) | None => h end in
    let k := mkConn (c_id k) (conn_type_ k) (state_ k) (sending_data_ k) (buff_send_count_ k) (active_close_start_ k)
               (match H with Some _ => true | None => data_handler_ k end) true (Some b) (last_run_tick_ k) in
    cl_connect blocking c (mt_set_conn p (fun _ => k) (mt_attach p H (Some ev) h m))
  end.

Definition cl_reconnect (blocking : option bool) (c : ptr) (m : JmyTcpClientMaster) : option (bool * JmyTcpClientMaster) :=
  s ← cl_state m c;
  if negb (bool_decide (s = JMY_CONN_STATE_NOT_CONNECT)) then Some (false, m) else cl_connect blocking c m.

Definition cl_send (msg_id : Z) (data : option (list Z)) (len : Z) (c : ptr) (m : JmyTcpClientMaster) : option (Z * JmyTcpClientMaster) :=
  p ← cl_at m c; mt_on m p (send garbage msg_id data len).

Definition cl_run (now : Z) (c : ptr) (m : JmyTcpClientMaster) : option (Z * JmyTcpClientMaster) :=
  p ← cl_at m c;
  s ← cl_state m c;
  if bool_decide (s = JMY_CONN_STATE_CONNECTING) then Some (0, m) else
  if bool_decide (s = JMY_CONN_STATE_DISCONNECTED) then Some (-1, m) else
  mt_on m p (run (mt_handler m p) (mt_event m p) mgr garbage now).

(** ** JmyTcpClientMaster *)

Definition mt_init (max_client_size : Z) (m : JmyTcpClientMaster) : bool * JmyTcpClientMaster :=
  if inited_ m then (true, m) else
  (true, mkMaster (mt_objs m) (cm_init (conn_mgr_ m) max_client_size JMY_CONN_TYPE_ACTIVE) (mt_socks m) (mt_handlers m) (mt_events m) (mt_heap m)
           (mt_app m) (gene_clients_ m) (id_gen_ m) (used_ids_ m) (free_ids_ m) max_client_size true).

(** The connection manager keeps its connections. *)
Definition mt_close (m : JmyTcpClientMaster) : JmyTcpClientMaster :=
  mkMaster (set_fold (fun c objs => delete c objs) (mt_objs m) (gene_clients_ m)) (conn_mgr_ m) (mt_socks m) (mt_handlers m) (mt_events m)
    (mt_heap m) (mt_app m) ∅ (ig_reset (id_gen_ m)) ∅ [] 0 false.

(** [None] in the result is a null pointer. *)
Definition mt_generate (m : JmyTcpClientMaster) : option (option ptr * JmyTcpClientMaster) :=
  if max_count_ m <=? Z.of_nat (size (used_ids_ m)) then Some (None, m) else
  '(id, conn, m) ← match free_ids_ m with
    | [] =>
      '(id, g) ← ig_get (id_gen_ m);
      '(conn, cm) ← cm_getFree (conn_mgr_ m) id;
      let m := mt_set_clients (mt_objs m) cm (gene_clients_ m) g (used_ids_ m) m in
      match conn with
      | None => Some (id, None, m)
      | Some p => k ← cm_objs cm !! p; Some (c_id k, Some p, m)
      end
    | id :: _ =>
      match cm_get (conn_mgr_ m) id with
      | None => Some (id, None, m)
      | Some p => _ ← cm_objs (conn_mgr_ m) !! p; Some (id, Some p, mt_set_conn p conn_reset m)
      end
    end;
  match conn with
  | None => Some (None, m)
  | Some p =>
    let c := fresh_ptr (mt_objs m) in
    Some (Some c, mt_set_clients (<[c := mkClient p ([], 0)]> (mt_objs m)) (conn_mgr_ m) ({[c]} ∪ gene_clients_ m) (id_gen_ m) ({[id]} ∪ used_ids_ m) m)
  end.

(** The id stays in [used_ids_], and nothing is put into [free_ids_]. *)
Definition mt_recycle (c : ptr) (m : JmyTcpClientMaster) : option (bool * JmyTcpClientMaster) :=
  if decide (c ∈ gene_clients_ m) then
    p ← cl_at m c;
    '(_, cm) ← cm_free (conn_mgr_ m) (Some p);
    Some (true, mt_set_clients (delete c (mt_objs m)) cm (gene_clients_ m ∖ {[c]}) (id_gen_ m) (used_ids_ m) m)
  else Some (false, m).

(** ** JmyTcpClientSet *)

Record SetClientData : Type := mkSetClientData { cd_conf : option JmyClientConfig; last_point : Z }.
Abbreviation JmyTcpClientSet := (gmap ptr SetClientData).
Definition JmyTcpClientSet_new : JmyTcpClientSet := ∅.
Definition cset_clear (_ : JmyTcpClientSet) : JmyTcpClientSet := ∅.

Definition addClient (client : ptr) (config : option JmyClientConfig) (s : JmyTcpClientSet) : bool * JmyTcpClientSet :=
  match s !! client with Some _ => (false, s) | None => (true, <[client := mkSetClientData config 0]> s) end.
Definition removeClient (client : ptr) (s : JmyTcpClientSet) : bool * JmyTcpClientSet :=
  match s !! client with None => (false, s) | Some _ => (true, delete client s) end.

(** One turn of the loop of [run]: what it does to the client, and its new [last_point]. *)
Definition cset_turn (now : Z) (c : ptr) (cf : JmyClientConfig) (last : Z) (m : JmyTcpClientMaster) : option (Z * JmyTcpClientMaster) :=
  '(last, m) ← (if is_reconnect cf then
      s ← cl_state m c;
      if bool_decide (s = JMY_CONN_STATE_DISCONNECTED) then m ← cl_reset c m; Some (now, m)
      else if bool_decide (s = JMY_CONN_STATE_NOT_CONNECT) then
        if reconnect_interval cf <=? Z.quot (now - last) (10 ^ 9) then '(_, m) ← cl_reconnect None c m; Some (now, m) else Some (last, m)
      else Some (last, m)
    else Some (last, m));
  '(_, m) ← cl_run now c m;
  Some (last, m).

Fixpoint cset_run_loop (now : Z) (l : list ptr) (s : JmyTcpClientSet) (m : JmyTcpClientMaster) : option (JmyTcpClientSet * JmyTcpClientMaster) :=
  match l with
  | [] => Some (s, m)
  | c :: l =>
    d ← s !! c;
    match cd_conf d with
    | None => cset_run_loop now l s m
    | Some cf =>
      if c =? NULL then cset_run_loop now l s m else
      '(last, m) ← cset_turn now c cf (last_point d) m;
      cset_run_loop now l (<[c := mkSetClientData (cd_conf d) last]> s) m
    end
  end.

(** The order in which the hash map is traversed. *)
Variable hash_order : JmyTcpClientSet -> list ptr.
Definition cset_run (now : Z) (s : JmyTcpClientSet) (m : JmyTcpClientMaster) : option (JmyTcpClientSet * JmyTcpClientMaster) :=
  cset_run_loop now (hash_order s) s m.

(** ** What happens to clients

    The program calls the operations, or what is outstanding on the socket of the connection [p] completes. *)

Record Clients : Type := mkClients { ct_master : JmyTcpClientMaster; ct_set : JmyTcpClientSet }.

Inductive ct_op : Type :=
| ct_generate
| ct_recycle (c : ptr)
| ct_setEndPoint (ep : Endpoint) (c : ptr)
| ct_start (conf : JmyClientConfig) (blocking : option bool) (c : ptr)
| ct_reconnect (blocking : option bool) (c : ptr)
| ct_send (msg_id : Z) (data : option (list Z)) (len : Z) (c : ptr)
| ct_close (now : Z) (c : ptr)
| ct_reset (c : ptr)
| ct_run (now : Z) (c : ptr)
| ct_add (c : ptr) (conf : option JmyClientConfig)
| ct_remove (c : ptr)
| ct_run_set (now : Z)
| ct_connected (p : ptr) (res : connect_result)
| ct_read (p : ptr) (res : option (list Z))
| ct_sent (p : ptr) (res : option Z).

Definition on_master {A} (s : Clients) (r : option (A * JmyTcpClientMaster)) : option Clients :=
  '(_, m) ← r; Some (mkClients m (ct_set s)).

Definition ct_exec (o : ct_op) (s : Clients) : option Clients :=
  let m := ct_master s in
  match o with
  | ct_generate => on_master s (mt_generate m)
  | ct_recycle c => on_master s (mt_recycle c m)
  | ct_setEndPoint ep c => m ← cl_setEndPoint ep c m; Some (mkClients m (ct_set s))
  | ct_start conf blocking c => on_master s (cl_start conf blocking c m)
  | ct_reconnect blocking c => on_master s (cl_reconnect blocking c m)
  | ct_send msg_id data len c => on_master s (cl_send msg_id data len c m)
  | ct_close now c => m ← cl_close now c m; Some (mkClients m (ct_set s))
  | ct_reset c => m ← cl_reset c m; Some (mkClients m (ct_set s))
  | ct_run now c => on_master s (cl_run now c m)
  | ct_add c conf => Some (mkClients m (snd (addClient c conf (ct_set s))))
  | ct_remove c => Some (mkClients m (snd (removeClient c (ct_set s))))
  | ct_run_set now => '(cs, m) ← cset_run now (ct_set s) m; Some (mkClients m cs)
  | ct_connected p res =>
    k ← mt_socks m !! p;
    ub_unless (sk_connecting k);;
    on_master s (mt_on m p (no_result (on_connect (mt_event m p) mgr res)))
  | ct_read p res => on_master s (mt_on m p (no_result (read_completes (mt_event m p) mgr garbage res)))
  | ct_sent p res => on_master s (mt_on m p (no_result (send_completes (mt_event m p) mgr res)))
  end.

Fixpoint ct_exec_all (os : list ct_op) (s : Clients) : option Clients :=
  match os with [] => Some s | o :: os => s ← ct_exec o s; ct_exec_all os s end.
End clients.
Arguments JmyClientConfig : clear implicits.
Arguments JmyTcpClientMaster : clear implicits.
Arguments SetClientData : clear implicits.
Arguments Clients : clear implicits.
Arguments ct_op : clear implicits.
