(* ===== verification/ClientProps.v ===== *)
(** * Properties of the TCP clients

    A master makes at most as many clients as it was initialised for, however many are recycled;
    a client set connects the connection of each of its clients again, at the distance that is
    configured. *)
From S2P Require Import Prelude Datatype NetProto2 SessionBuffer BufferPool IdGenerator BufferList DoubleBuffer DataHandler2 EventHandler ConnBuffer Connection ConnectionFrame ConnectionMgr TcpServer TcpClient.
From Stdlib Require Import ZArith Lia Sorted.
From stdpp Require Import base option list gmap.
Local Open Scope Z_scope.

(** ** What a client's connection keeps *)

(** How the state changes without connecting: it stays, the connection is closed, or the program starts to close it. *)
Definition settles (s s' : JmyConnState) : Prop :=
  s' = s \/ s' = JMY_CONN_STATE_DISCONNECTED \/ (s = JMY_CONN_STATE_CONNECTED /\ s' = JMY_CONN_STATE_DISCONNECTING).

Lemma settles_trans s1 s2 s3 : settles s1 s2 -> settles s2 s3 -> settles s1 s3.
Proof. unfold settles. intros [->|[->|[-> ->]]] [->|[->|[H ->]]]; auto; discriminate. Qed.

Lemma settles_connecting s s' : settles s s' -> s' = JMY_CONN_STATE_CONNECTING -> s = JMY_CONN_STATE_CONNECTING.
Proof. intros [->|[->|[-> ->]]]; congruence. Qed.

Section client_keeps.
Context {App : Type}.
Notation W := (World App).

Record client_keeps (w w' : W) : Prop := mkClientKeeps {
  ck_id : c_id (w_conn w') = c_id (w_conn w);
  ck_type : ctype w' = ctype w;
  ck_connecting : sk_connecting (w_sock w') = sk_connecting (w_sock w);
  ck_state : ctype w = JMY_CONN_TYPE_ACTIVE -> settles (state w) (state w');
}.

#[export] Instance client_keeps_preserved : ConnPreserved client_keeps.
Proof using.
  split.
  - split; [intros w; by split; [..|left]|]. intros w1 w2 w3 [H1 H2 H3 H4] [H5 H6 H7 H8].
    split; [congruence..|]. intros Ht. eapply settles_trans; [by apply H4|]. apply H8. congruence.
  - intros w w' []. split; try done. intros _. left. done.
  - intros w. split; try done. intros _. right. by left.
  - intros w Hs. split; try done. intros _. right. by right.
  - intros w Ht. split; try done. intros Ha. congruence.
Qed.

(** The handlers of a configuration only use the connection's operations. *)
Definition conf_keeps (conf : JmyClientConfig App) : Prop :=
  (forall H, cl_load_handlers conf = Some (Some H) -> handlers_preserve client_keeps H) /\
  (forall ev, cl_load_events conf = Some ev -> events_preserve client_keeps ev).

Definition op_keeps (o : ct_op App) : Prop := match o with ct_start conf _ _ => conf_keeps conf | _ => True end.
End client_keeps.

(** ** The invariant of a master *)

Section master.
Context {App : Type}.
Notation W := (World App).
Notation Master := (JmyTcpClientMaster App).
Implicit Type m : Master.
Implicit Type w : W.
Variable mgr : Z.
Variable garbage : Z -> list Z.

(** [k] clients were generated of at most [n]. *)
Record mt_inv (B : gset Z) (n k : Z) (m : Master) : Prop := mkMtInv {
  mi_mgr : cm_inv B (conn_mgr_ m);
  mi_max : max_count_ m = n;
  mi_range : 0 <= k <= n;
  mi_int : n <= INT_MAX;
  mi_gen : id_gen_ m = ig_at 0 k;
  mi_free_ids : free_ids_ m = [];
  mi_used_ids : Z.of_nat (size (used_ids_ m)) = k;
  mi_used_range : forall id, id ∈ used_ids_ m -> 1 <= id <= k;
  mi_map_range : forall id p, used_map_ (conn_mgr_ m) !! id = Some p -> 1 <= id <= k;
  mi_left : n - k <= lenZ (ConnectionMgr.free_list_ (conn_mgr_ m));
  mi_gene : gene_clients_ m = dom (mt_objs m);
  mi_null : mt_objs m !! NULL = None;
  mi_conn : forall c cl, mt_objs m !! c = Some cl -> exists id, used_map_ (conn_mgr_ m) !! id = Some (cl_conn cl);
  mi_distinct : forall c c' cl cl', mt_objs m !! c = Some cl -> mt_objs m !! c' = Some cl' -> cl_conn cl = cl_conn cl' -> c = c';
  mi_active : forall p x, cm_objs (conn_mgr_ m) !! p = Some x -> conn_type_ x = JMY_CONN_TYPE_ACTIVE;
  mi_handlers : forall p, handlers_preserve client_keeps (mt_handler m p);
  mi_events : forall p, events_preserve client_keeps (mt_event m p);
}.

Lemma mt_world_Some m p w : mt_world m p = Some w ->
  cm_objs (conn_mgr_ m) !! p = Some (w_conn w) /\ w_sock w = default closed_socket (mt_socks m !! p).
Proof using. unfold mt_world. intros E. apply bind_Some in E as (c & Hc & [= <-]). done. Qed.

Lemma set_unpack_preserves u (H : JmyDataHandler2 W) : handlers_preserve client_keeps H -> handlers_preserve client_keeps (dh2_set_unpack u H).
Proof using.
  intros HH info w. specialize (HH info w). rewrite handleMsg_unpack. by destruct (handleMsg H info w).
Qed.

(** Apart from the state, which connecting sets. *)
Definition keeps_but_state (w w' : W) : Prop := c_id (w_conn w') = c_id (w_conn w) /\ ctype w' = ctype w.
Lemma client_keeps_but_state w w' : client_keeps w w' -> keeps_but_state w w'.
Proof using. by intros []. Qed.

Lemma put_inv B n k m p w w' : mt_inv B n k m -> mt_world m p = Some w -> keeps_but_state w w' -> mt_inv B n k (mt_put m p w').
Proof using.
  intros Hm Hw [Hid Ht]. destruct (mt_world_Some _ _ _ Hw) as [Hp _]. destruct Hm. constructor; try done.
  - by eapply cm_inv_insert.
  - intros q x. cbn. intros [[<- <-]|[_ Hx]]%lookup_insert_Some; [|eauto]. unfold ctype in Ht. rewrite Ht. eauto.
  - intros q. specialize (mi_handlers0 q). unfold mt_handler in *. cbn. destruct (decide (q = p)) as [->|].
    + rewrite lookup_alter_eq. destruct (mt_handlers m !! p); [|done]. by apply set_unpack_preserves.
    + by rewrite lookup_alter_ne.
Qed.

Lemma on_inv {A} B n k m p (f : W -> option (A * W)) r m' :
  mt_inv B n k m -> (forall w r w', f w = Some (r, w') -> keeps_but_state w w') -> mt_on m p f = Some (r, m') ->
  mt_inv B n k m' /\ exists w w', mt_world m p = Some w /\ f w = Some (r, w') /\ m' = mt_put m p w'.
Proof using.
  intros Hm Hf E. unfold mt_on in E. apply bind_Some in E as (w & Hw & E). apply bind_Some in E as ([r1 w'] & Ew & [= -> <-]).
  split; [by eapply put_inv; [..|eapply Hf]|]. by exists w, w'.
Qed.

(** ** Connecting *)

Lemma asynConnect_spec w : ctype w = JMY_CONN_TYPE_ACTIVE -> state w <> JMY_CONN_STATE_CONNECTED ->
  state (asynConnect w) = JMY_CONN_STATE_CONNECTING /\ sk_connecting (w_sock (asynConnect w)) = true.
Proof using. intros Ht Hs. unfold asynConnect. rewrite Ht, bool_decide_true by done. cbn [negb]. by rewrite bool_decide_false. Qed.


Lemma connect_keeps events ok w r w' : events_preserve client_keeps events -> connect events mgr ok w = Some (r, w') -> keeps_but_state w w'.
Proof using.
  intros Hev. unfold connect. destruct (negb _); [by intros [= _ ->]|]. destruct (bool_decide _); [by intros [= _ ->]|].
  destruct (negb ok); [by intros [= _ ->]|]. intros E. apply bind_Some in E as ([r1 w1] & E & [= _ <-]).
  apply handle_event_preserves with (R := client_keeps) in E; [|exact client_keeps_preserved|done].
  apply client_keeps_but_state in E. exact E.
Qed.

Lemma on_connect_spec events res w w' : events_preserve client_keeps events -> ctype w = JMY_CONN_TYPE_ACTIVE ->
  on_connect events mgr res w = Some w' ->
  keeps_but_state w w' /\
  match res with
  | connect_failed => state w' = JMY_CONN_STATE_NOT_CONNECT
  | connect_in_progress => state w' = state w
  | connect_ok => settles JMY_CONN_STATE_CONNECTED (state w')
  end.
Proof using.
  intros Hev Ht. unfold on_connect. destruct res; [|intros [= <-]; split; [by split|reflexivity]..].
  intros E. apply bind_Some in E as ([r1 w1] & E & [= <-]).
  apply handle_event_preserves with (R := client_keeps) in E; [|exact client_keeps_preserved|done].
  match type of E with client_keeps (start ?a) _ => pose proof (start_recv_preserves client_keeps a : client_keeps a (start a)) as Ha end.
  pose proof (transitivity Ha E) as [H1 H2 _ H4]. split; [by split|]. apply H4. exact Ht.
Qed.

Lemma mt_world_type B n k m p w : mt_inv B n k m -> mt_world m p = Some w -> ctype w = JMY_CONN_TYPE_ACTIVE.
Proof using. intros Hm Hw. destruct (mt_world_Some _ _ _ Hw) as [Hp _]. by apply (mi_active _ _ _ _ Hm) in Hp. Qed.

Lemma cl_connect_inv B n k m blocking c r m' : mt_inv B n k m -> cl_connect mgr blocking c m = Some (r, m') -> mt_inv B n k m'.
Proof using.
  intros Hm E. unfold cl_connect in E. apply bind_Some in E as (p & _ & E). destruct blocking as [ok|].
  - eapply on_inv in E as [H _]; [exact H|exact Hm|]. intros w r1 w'. apply connect_keeps, Hm.
  - apply bind_Some in E as ([r1 m1] & E & [= _ <-]). eapply on_inv in E as [H _]; [exact H|exact Hm|].
    intros w r2 w' [= _ <-]. unfold asynConnect. destruct (negb _); [done|]. by destruct (bool_decide _).
Qed.

Lemma start_inv B n k m conf blocking c r m' : conf_keeps conf -> mt_inv B n k m ->
  cl_start mgr garbage conf blocking c m = Some (r, m') -> mt_inv B n k m'.
Proof using.
  intros [HH Hev] Hm E. unfold cl_start in E. apply bind_Some in E as (p & _ & E). apply bind_Some in E as (x & Hx & E).
  destruct (cl_load_handlers conf) as [H|] eqn:EH; [|by injection E as _ <-].
  apply bind_Some in E as (ev & Eev & E). apply bind_Some in E as ([h b] & _ & E). specialize (Hev _ Eev).
  eapply cl_connect_inv; [|exact E]. destruct Hm. constructor; try done.
  - cbn. apply cm_inv_objs; [done|..].
    + intros q Hq. destruct (decide (q = p)) as [->|]; [rewrite lookup_alter_eq, Hx; by eexists|by rewrite lookup_alter_ne].
    + intros q y z Hy. destruct (decide (q = p)) as [->|]; [rewrite lookup_alter_eq, Hx; intros [= <-]; cbn; congruence|].
      rewrite lookup_alter_ne by done. congruence.
  - cbn. intros q y. destruct (decide (q = p)) as [->|]; [rewrite lookup_alter_eq, Hx; intros [= <-]; exact (mi_active0 _ _ Hx)|].
    rewrite lookup_alter_ne by done. apply mi_active0.
  - intros q. specialize (mi_handlers0 q). unfold mt_handler in *. cbn. destruct H as [H|]; [|done].
    destruct (decide (q = p)) as [->|]; [rewrite lookup_insert_eq; by apply HH|by rewrite lookup_insert_ne].
  - intros q. specialize (mi_events0 q). unfold mt_event in *. cbn.
    destruct (decide (q = p)) as [->|]; [by rewrite lookup_insert_eq|by rewrite lookup_insert_ne].
Qed.

Lemma send_inv B n k m p msg_id data len r m' : mt_inv B n k m -> mt_on m p (send garbage msg_id data len) = Some (r, m') -> mt_inv B n k m'.
Proof using.
  intros Hm E. eapply on_inv in E as [H _]; [exact H|exact Hm|]. intros w r1 w' Ew.
  by apply client_keeps_but_state, (send_preserves client_keeps garbage msg_id data len w r1 w').
Qed.

Lemma run_inv B n k m p now r m' : mt_inv B n k m -> mt_on m p (run (mt_handler m p) (mt_event m p) mgr garbage now) = Some (r, m') -> mt_inv B n k m'.
Proof using.
  intros Hm E. eapply on_inv in E as [H _]; [exact H|exact Hm|]. intros w r1 w' Ew.
  apply client_keeps_but_state. eapply run_preserves; [..|exact Ew]; [exact client_keeps_preserved|apply Hm..].
Qed.

(** ** Generating and recycling *)

Lemma getFree_next B n k m : mt_inv B n k m -> k < n ->
  exists p cm x, cm_getFree (conn_mgr_ m) (k + 1) = Some (Some p, cm) /\ cm_inv B cm /\ used_map_ cm = <[k + 1 := p]> (used_map_ (conn_mgr_ m)) /\
    cm_objs (conn_mgr_ m) !! p = Some x /\ cm_objs cm = <[p := c_set_id (k + 1) x]> (cm_objs (conn_mgr_ m)) /\
    ConnectionMgr.free_list_ (conn_mgr_ m) = p :: ConnectionMgr.free_list_ cm /\ (forall id, used_map_ (conn_mgr_ m) !! id <> Some p).
Proof using.
  intros Hm Hk. destruct (cm_exec_registers B _ (cm_op_getFree (k + 1)) (mi_mgr _ _ _ _ Hm) I) as (r & cm & E & _ & Hcm).
  cbn [cm_exec] in E. apply bind_Some in E as ([o cm'] & E & [= _ ->]). revert E. unfold cm_getFree.
  destruct (used_map_ (conn_mgr_ m) !! (k + 1)) as [q|] eqn:Hq; [apply (mi_map_range _ _ _ _ Hm) in Hq; lia|].
  pose proof (mi_left _ _ _ _ Hm) as Hl. destruct (ConnectionMgr.free_list_ (conn_mgr_ m)) as [|p l] eqn:Hfl; [cbn in Hl; lia|].
  assert (Hp : p ∈ ConnectionMgr.free_list_ (conn_mgr_ m)) by (rewrite Hfl; by left).
  destruct (cm_objs (conn_mgr_ m) !! p) as [x|] eqn:Hx; [|done]. intros [= <- <-]. exists p. eexists. exists x. cbn [mbind option_bind].
  split; [reflexivity|]. split; [exact Hcm|]. repeat (split; [done|]). intros id. by apply (cmi_disj _ _ (mi_mgr _ _ _ _ Hm)).
Qed.

Lemma generate_more B n k m : mt_inv B n k m -> k < n -> exists c m', mt_generate m = Some (Some c, m') /\ mt_inv B n (k + 1) m'.
Proof using.
  intros Hm Hk. destruct (getFree_next _ _ _ _ Hm Hk) as (p & cm & x & E & Hcm & Hu & Hx & Ho & Hfl & Hnew).
  destruct Hm as [H1 H2 H3 H4 H5 H6 H7 H8 H9 H10 H11 H0 H12 H13 H14 H15 H16]. unfold mt_generate.
  rewrite (proj2 (Z.leb_gt _ _)) by lia. rewrite H6, H5, ig_get_at by lia. cbn [Z.eqb andb].
  rewrite (proj2 (Z.eqb_neq _ _)) by lia. cbn [mbind option_bind]. change (next_id 0 k) with (k + 1). rewrite E. cbn [mbind option_bind].
  rewrite Ho, lookup_insert_eq. cbn [mbind option_bind c_id c_set_id]. do 2 eexists. split; [reflexivity|].
  assert (Hf : k + 1 ∉ used_ids_ m) by (intros Hi; apply H8 in Hi; lia).
  constructor; cbn -[size]; try done; try lia.
  - rewrite size_union by set_solver. rewrite size_singleton. lia.
  - intros id [->%elem_of_singleton|Hi%H8]%elem_of_union; lia.
  - intros id q. rewrite Hu. intros [[<- _]|[_ Hi%H9]]%lookup_insert_Some; lia.
  - rewrite Hfl in H10. cbn [length] in H10. lia.
  - by rewrite H11, dom_insert_L.
  - by rewrite lookup_insert_ne by apply fresh_ptr_not_null.
  - intros c cl [[<- <-]|[_ Hc]]%lookup_insert_Some; cbn; rewrite Hu; [exists (k + 1); by rewrite lookup_insert_eq|].
    destruct (H12 _ _ Hc) as [id Hid]. exists id. rewrite lookup_insert_ne; [done|]. intros <-. apply H9 in Hid. lia.
  - assert (Hother : forall c cl, mt_objs m !! c = Some cl -> cl_conn cl <> p).
    { intros c cl Hc. destruct (H12 _ _ Hc) as [id Hid]. intros He. apply (Hnew id). congruence. }
    intros c c' cl cl' [[<- <-]|[_ Hc]]%lookup_insert_Some [[<- <-]|[_ Hc']]%lookup_insert_Some; cbn; [done|..|eauto];
      [intros He; by apply Hother in Hc'|intros He; by apply Hother in Hc].
  - intros q y. rewrite Ho. intros [[<- <-]|[_ Hy]]%lookup_insert_Some; [by apply H14 in Hx|eauto].
Qed.

Lemma generate_none B n k m : mt_inv B n k m -> n <= k -> mt_generate m = Some (None, m).
Proof using. intros Hm Hk. unfold mt_generate. rewrite (mi_max _ _ _ _ Hm), (mi_used_ids _ _ _ _ Hm), (proj2 (Z.leb_le _ _)) by lia. done. Qed.

Lemma mt_recycle_inv B n k m c : mt_inv B n k m ->
  exists m', mt_recycle c m = Some (bool_decide (c ∈ gene_clients_ m), m') /\ mt_inv B n k m'.
Proof using.
  intros Hm. unfold mt_recycle. destruct (decide (c ∈ gene_clients_ m)) as [Hc|Hc]; [|rewrite bool_decide_false by done; eauto].
  rewrite bool_decide_true by done. pose proof Hm as [H1 H2 H3 H4 H5 H6 H7 H8 H9 H10 H11 H0 H12 H13 H14 H15 H16].
  rewrite H11 in Hc. apply elem_of_dom in Hc as [cl Hc]. unfold cl_at. rewrite Hc. cbn [mbind option_bind].
  destruct (H12 _ _ Hc) as [id Hid]. destruct (cm_free_used B _ _ _ H1 Hid) as (cm & E & Hcm & Hu).
  rewrite E. cbn [mbind option_bind]. eexists. split; [reflexivity|].
  unfold cm_free in E. apply bind_Some in E as (x & Hx & E). destruct (used_map_ (conn_mgr_ m) !! c_id x); [|done]. injection E as <-. cbn in Hu.
  constructor; cbn -[size]; try done.
  - intros i q. rewrite Hu. intros [_ Hi]%lookup_delete_Some. eauto.
  - lia.
  - by rewrite H11, dom_delete_L.
  - rewrite lookup_delete_None. by right.
  - intros c' cl' [Hne Hc']%lookup_delete_Some. destruct (H12 _ _ Hc') as [i Hi]. exists i. rewrite Hu, lookup_delete_ne; [done|].
    intros <-. apply Hne. eapply H13; [done..|]. congruence.
  - intros c1 c2 cl1 cl2 [_ Hc1]%lookup_delete_Some [_ Hc2]%lookup_delete_Some. eauto.
  - intros q y [[<- <-]|[_ Hy]]%lookup_insert_Some; [by apply H14 in Hx|eauto].
Qed.

(** ** One turn of the client set *)

Definition conn_state m (p : ptr) : option JmyConnState := state_ <$> cm_objs (conn_mgr_ m) !! p.

(** What the turn of a client does to the state of its connection and to [last_point]. *)
Inductive turn_step (now : Z) (cf : JmyClientConfig App) : JmyConnState * Z -> JmyConnState * Z -> Prop :=
| turn_reset last st' :
    is_reconnect cf = true -> settles JMY_CONN_STATE_NOT_CONNECT st' ->
    turn_step now cf (JMY_CONN_STATE_DISCONNECTED, last) (st', now)
| turn_try last :
    is_reconnect cf = true -> reconnect_interval cf <= Z.quot (now - last) (10 ^ 9) ->
    turn_step now cf (JMY_CONN_STATE_NOT_CONNECT, last) (JMY_CONN_STATE_CONNECTING, now)
| turn_wait last st' :
    is_reconnect cf = true -> Z.quot (now - last) (10 ^ 9) < reconnect_interval cf -> settles JMY_CONN_STATE_NOT_CONNECT st' ->
    turn_step now cf (JMY_CONN_STATE_NOT_CONNECT, last) (st', last)
| turn_connecting last : turn_step now cf (JMY_CONN_STATE_CONNECTING, last) (JMY_CONN_STATE_CONNECTING, last)
| turn_run st st' last :
    st <> JMY_CONN_STATE_CONNECTING ->
    (is_reconnect cf = true -> st <> JMY_CONN_STATE_DISCONNECTED /\ st <> JMY_CONN_STATE_NOT_CONNECT) -> settles st st' ->
    turn_step now cf (st, last) (st', last).

(** A part of the state where only the connection [p] changed, to the state [st']. *)
Record only_conn (p : ptr) (st' : JmyConnState) m (m' : Master) : Prop := mkOnlyConn {
  oc_objs : mt_objs m' = mt_objs m;
  oc_other : forall q, q <> p -> conn_state m' q = conn_state m q;
  oc_state : conn_state m' p = Some st';
}.

Lemma only_conn_refl p st m : conn_state m p = Some st -> only_conn p st m m.
Proof using. by constructor. Qed.

Lemma only_conn_trans p st st' m1 m2 m3 : only_conn p st m1 m2 -> only_conn p st' m2 m3 -> only_conn p st' m1 m3.
Proof using. intros [H1 H2 H3] [H4 H5 H6]. constructor; [congruence| |done]. intros q Hq. by rewrite H5, H2. Qed.

Lemma on_frame {A} B n k m p (f : W -> option (A * W)) r m' :
  mt_inv B n k m -> (forall w r w', ctype w = JMY_CONN_TYPE_ACTIVE -> f w = Some (r, w') -> keeps_but_state w w') -> mt_on m p f = Some (r, m') ->
  mt_inv B n k m' /\ exists w w', ctype w = JMY_CONN_TYPE_ACTIVE /\ conn_state m p = Some (state w) /\ f w = Some (r, w') /\ only_conn p (state w') m m'.
Proof using.
  intros Hm Hf E. unfold mt_on in E. apply bind_Some in E as (w & Hw & E). apply bind_Some in E as ([r1 w'] & Ew & [= -> <-]).
  pose proof (mt_world_type _ _ _ _ _ _ Hm Hw) as Ht. split; [by eapply put_inv; [..|eapply Hf]|].
  destruct (mt_world_Some _ _ _ Hw) as [Hp _]. exists w, w'. split; [done|]. split; [unfold conn_state; by rewrite Hp|]. split; [done|].
  constructor; [done| |].
  - intros q Hq. unfold conn_state. cbn. by rewrite lookup_insert_ne.
  - unfold conn_state. cbn. by rewrite lookup_insert_eq.
Qed.

Lemma cl_state_conn m c cl : mt_objs m !! c = Some cl -> cl_state m c = conn_state m (cl_conn cl).
Proof using. intros Hc. unfold cl_state, cl_at, conn_state. rewrite Hc. cbn [mbind option_bind]. by destruct (cm_objs _ !! _). Qed.

Lemma cl_run_spec B n k m now c cl st r m' :
  mt_inv B n k m -> mt_objs m !! c = Some cl -> conn_state m (cl_conn cl) = Some st -> cl_run mgr garbage now c m = Some (r, m') ->
  mt_inv B n k m' /\ exists st', settles st st' /\ (st = JMY_CONN_STATE_CONNECTING -> st' = st) /\ only_conn (cl_conn cl) st' m m'.
Proof using.
  intros Hm Hc Hst E. unfold cl_run in E. rewrite (cl_state_conn _ _ _ Hc), Hst in E. unfold cl_at in E. rewrite Hc in E. cbn [mbind option_bind] in E.
  assert (Hrefl : m' = m -> mt_inv B n k m' /\ exists st', settles st st' /\ (st = JMY_CONN_STATE_CONNECTING -> st' = st) /\ only_conn (cl_conn cl) st' m m').
  { intros ->. split; [done|]. exists st. split; [by left|]. split; [done|by apply only_conn_refl]. }
  case_bool_decide as H1; [injection E as _ <-; by apply Hrefl|]. case_bool_decide as H2; [injection E as _ <-; by apply Hrefl|].
  assert (Hr : forall w r w', run (mt_handler m (cl_conn cl)) (mt_event m (cl_conn cl)) mgr garbage now w = Some (r, w') -> client_keeps w w').
  { intros w r1 w' Ew. eapply run_preserves; [..|exact Ew]; [exact client_keeps_preserved|apply Hm..]. }
  eapply on_frame in E as (Hm' & w & w' & Ht & Hs & Ew & Ho); [|exact Hm|by intros w r1 w' _ Ew; eapply client_keeps_but_state, Hr].
  split; [done|]. exists (state w'). rewrite Hst in Hs. injection Hs as ->. split; [by eapply ck_state; [eapply Hr|]|]. done.
Qed.

Lemma cl_reset_spec B n k m c cl m' : mt_inv B n k m -> mt_objs m !! c = Some cl -> cl_reset c m = Some m' ->
  mt_inv B n k m' /\ only_conn (cl_conn cl) JMY_CONN_STATE_NOT_CONNECT m m'.
Proof using.
  intros Hm Hc E. unfold cl_reset, cl_at in E. rewrite Hc in E. cbn [mbind option_bind] in E. apply bind_Some in E as ([[] m1] & E & [= <-]).
  eapply on_frame in E as (Hm' & w & w' & _ & _ & [= <-] & Ho); [|exact Hm|by intros w [] w' _ [= <-]]. done.
Qed.

Lemma cl_reconnect_spec B n k m c cl r m' : mt_inv B n k m -> mt_objs m !! c = Some cl ->
  conn_state m (cl_conn cl) = Some JMY_CONN_STATE_NOT_CONNECT -> cl_reconnect mgr None c m = Some (r, m') ->
  mt_inv B n k m' /\ only_conn (cl_conn cl) JMY_CONN_STATE_CONNECTING m m'.
Proof using.
  intros Hm Hc Hst E. unfold cl_reconnect in E. rewrite (cl_state_conn _ _ _ Hc), Hst in E. cbn [mbind option_bind] in E.
  rewrite bool_decide_true in E by done. cbn [negb] in E. unfold cl_connect, cl_at in E. rewrite Hc in E. cbn [mbind option_bind] in E.
  apply bind_Some in E as ([[] m1] & E & [= _ <-]).
  eapply on_frame in E as (Hm' & w & w' & Ht & Hs & [= <-] & Ho); [|exact Hm|].
  - rewrite Hst in Hs. injection Hs as Hs. destruct (asynConnect_spec w Ht) as [Ha _]; [congruence|]. rewrite Ha in Ho. done.
  - intros w [] w' _ [= <-]. unfold asynConnect. destruct (negb _); [done|]. by destruct (bool_decide _).
Qed.

Lemma live_state B n k m c cl : mt_inv B n k m -> mt_objs m !! c = Some cl -> is_Some (conn_state m (cl_conn cl)).
Proof using.
  intros Hm Hc. destruct (mi_conn _ _ _ _ Hm _ _ Hc) as [id Hid]. destruct (cmi_id _ _ (mi_mgr _ _ _ _ Hm) _ _ Hid) as (x & Hx & _).
  unfold conn_state. rewrite Hx. by eexists.
Qed.

Lemma turn_spec B n k m now c cl cf last last' m' :
  mt_inv B n k m -> mt_objs m !! c = Some cl -> cset_turn mgr garbage now c cf last m = Some (last', m') ->
  mt_inv B n k m' /\ exists st st', conn_state m (cl_conn cl) = Some st /\ only_conn (cl_conn cl) st' m m' /\
    turn_step now cf (st, last) (st', last').
Proof using.
  intros Hm Hc E. destruct (live_state _ _ _ _ _ _ Hm Hc) as [st Hst]. unfold cset_turn in E. rewrite (cl_state_conn _ _ _ Hc), Hst in E.
  apply bind_Some in E as ([last1 m1] & E & E2). apply bind_Some in E2 as ([r m2] & E2 & [= -> ->]).
  assert (Hrun : forall st1, mt_inv B n k m1 -> only_conn (cl_conn cl) st1 m m1 -> (forall st', settles st1 st' -> (st1 = JMY_CONN_STATE_CONNECTING -> st' = st1) -> turn_step now cf (st, last) (st', last')) ->
    mt_inv B n k m' /\ exists st st', conn_state m (cl_conn cl) = Some st /\ only_conn (cl_conn cl) st' m m' /\ turn_step now cf (st, last) (st', last')).
  { intros st1 Hm1 Ho Hstep. assert (Hc1 : mt_objs m1 !! c = Some cl) by (by rewrite (oc_objs _ _ _ _ Ho)).
    destruct (cl_run_spec _ _ _ _ _ _ _ _ _ _ Hm1 Hc1 (oc_state _ _ _ _ Ho) E2) as (Hm' & st' & Hs & Hcn & Ho').
    split; [done|]. exists st, st'. split; [done|]. split; [by eapply only_conn_trans|]. by apply Hstep. }
  destruct (is_reconnect cf) eqn:Hr; cbn [mbind option_bind] in E.
  - case_bool_decide as H1; [|case_bool_decide as H2].
    + subst st. apply bind_Some in E as (m3 & E & [= <- ->]). destruct (cl_reset_spec _ _ _ _ _ _ _ Hm Hc E) as [Hm1 Ho].
      eapply Hrun; [done..|]. intros st' Hs _. by constructor.
    + subst st. destruct (Z.leb_spec (reconnect_interval cf) (Z.quot (now - last) (10 ^ 9))).
      * apply bind_Some in E as ([b m3] & E & [= <- ->]). destruct (cl_reconnect_spec _ _ _ _ _ _ _ _ Hm Hc Hst E) as [Hm1 Ho].
        eapply Hrun; [done..|]. intros st' _ ->; [|done]. by constructor.
      * injection E as <- ->. eapply Hrun; [done|by apply only_conn_refl|]. intros st' Hs _. by constructor.
    + injection E as <- ->. eapply Hrun; [done|by apply only_conn_refl|]. intros st' Hs Hcn.
      destruct (decide (st = JMY_CONN_STATE_CONNECTING)) as [->|]; [rewrite Hcn by done; constructor|apply turn_run; [done|by split|done]].
  - injection E as <- ->. eapply Hrun; [done|by apply only_conn_refl|]. intros st' Hs Hcn.
    destruct (decide (st = JMY_CONN_STATE_CONNECTING)) as [->|]; [rewrite Hcn by done; constructor|apply turn_run; [done|congruence|done]].
Qed.

(** ** A run of the client set *)

Record loop_spec (now : Z) (l : list ptr) (s s' : gmap ptr (SetClientData App)) m (m' : Master) : Prop := mkLoopSpec {
  lp_objs : mt_objs m' = mt_objs m;
  lp_other : forall c cl, mt_objs m !! c = Some cl -> c ∉ l -> conn_state m' (cl_conn cl) = conn_state m (cl_conn cl);
  lp_set : forall c, c ∉ l -> s' !! c = s !! c;
  lp_turn : forall c d cf, c ∈ l -> s !! c = Some d -> cd_conf d = Some cf -> c <> NULL ->
    exists cl st st' last', mt_objs m !! c = Some cl /\ conn_state m (cl_conn cl) = Some st /\ conn_state m' (cl_conn cl) = Some st' /\
      s' !! c = Some (mkSetClientData (Some cf) last') /\ turn_step now cf (st, last_point d) (st', last');
}.

Lemma turn_live now c cf last m r : cset_turn mgr garbage now c cf last m = Some r -> is_Some (mt_objs m !! c).
Proof using.
  unfold cset_turn, cl_state, cl_run, cl_at. destruct (mt_objs m !! c) eqn:E; [by eexists|].
  destruct (is_reconnect cf); cbn [mbind option_bind]; rewrite ?E; done.
Qed.

Lemma run_loop_spec B n k now l s m s' m' :
  mt_inv B n k m -> NoDup l -> cset_run_loop mgr garbage now l s m = Some (s', m') -> mt_inv B n k m' /\ loop_spec now l s s' m m'.
Proof using.
  revert s m. induction l as [|c l IH]; intros s m Hm Hn E; cbn [cset_run_loop] in E.
  { injection E as <- <-. split; [done|]. constructor; try done. set_solver. }
  apply NoDup_cons in Hn as [Hcl Hn]. apply bind_Some in E as (d & Hd & E).
  assert (Hskip : (cd_conf d = None \/ c = NULL) -> cset_run_loop mgr garbage now l s m = Some (s', m') -> mt_inv B n k m' /\ loop_spec now (c :: l) s s' m m').
  { intros Hno E'. destruct (IH _ _ Hm Hn E') as [Hm' [H1 H2 H3 H4]]. split; [done|]. constructor; [done| | |].
    - intros c' cl Hc' Hni. apply (H2 c'); [done|set_solver].
    - intros c' Hni. apply (H3 c'). set_solver.
    - intros c' d' cf Hin Hd' Hcf Hnn. apply elem_of_cons in Hin as [->|Hin]; [|by apply (H4 c' d')].
      rewrite Hd in Hd'. injection Hd' as <-. destruct Hno; congruence. }
  destruct (cd_conf d) as [cf|] eqn:Hcf; [|by apply Hskip; [left|]].
  destruct (Z.eqb_spec c NULL) as [->|Hnull]; [by apply Hskip; [right|]|].
  apply bind_Some in E as ([last' m1] & Et & E). destruct (turn_live _ _ _ _ _ _ Et) as [cl Hc].
  destruct (turn_spec _ _ _ _ _ _ _ _ _ _ _ Hm Hc Et) as (Hm1 & st & st' & Hst & [Ho1 Ho2 Ho3] & Hstep).
  destruct (IH _ _ Hm1 Hn E) as [Hm' [H1 H2 H3 H4]]. split; [done|]. constructor.
  - congruence.
  - intros c' cl' Hc' Hni. apply not_elem_of_cons in Hni as [Hne Hni]. rewrite (H2 c' cl') by (congruence || done).
    apply Ho2. intros He. apply Hne. by eapply (mi_distinct _ _ _ _ Hm).
  - intros c' Hni. apply not_elem_of_cons in Hni as [Hne Hni]. rewrite H3 by done. by apply lookup_insert_ne.
  - intros c' d' cf' Hin Hd' Hcf' Hnn. apply elem_of_cons in Hin as [->|Hin].
    + rewrite Hd in Hd'. injection Hd' as <-. rewrite Hcf in Hcf'. injection Hcf' as <-. exists cl, st, st', last'.
      split; [done|]. split; [done|]. split; [rewrite (H2 c cl) by (congruence || done); done|]. split; [|done].
      rewrite H3 by done. by apply lookup_insert_eq.
    + assert (c' <> c) by (intros ->; done).
      assert (Hd1 : <[c := mkSetClientData (Some cf) last']> s !! c' = Some d') by (etrans; [by apply lookup_insert_ne|done]).
      destruct (H4 c' d' cf' Hin Hd1 Hcf' Hnn) as (cl' & st1 & st1' & last1 & Hc' & Hs1 & Hs1' & Hd2 & Hstep1).
      exists cl', st1, st1', last1. rewrite Ho1 in Hc'. split; [done|]. split; [|done]. rewrite <- Ho2; [done|].
      intros He. assert (c' = c) by (by eapply (mi_distinct _ _ _ _ Hm)). done.
Qed.
End master.

(** ** Runs *)

Section runs.
Context {App : Type}.
Notation W := (World App).
Variable mgr : Z.
Variable garbage : Z -> list Z.
Variable hash_order : gmap ptr (SetClientData App) -> list ptr.
Hypothesis Horder : forall cs, hash_order cs ≡ₚ (map_to_list cs).*1.
Implicit Type s : Clients App.

(** A master for [n] clients and an empty client set. *)
Definition clients_new (n : Z) (h : heap) (app : App) : Clients App :=
  mkClients (snd (mt_init n (JmyTcpClientMaster_new h app))) ∅.

Definition is_generate (o : ct_op App) : bool := match o with ct_generate => true | _ => false end.
Definition generates (os : list (ct_op App)) : Z := lenZ (filter (fun o => is_generate o = true) os).

Lemma new_conns_type n ty objs l :
  (forall p x, objs !! p = Some x -> conn_type_ x = ty) ->
  forall p x, fst (cm_new_conns n ty objs l) !! p = Some x -> conn_type_ x = ty.
Proof using.
  revert objs l. induction n as [|n IH]; intros objs l Ho; cbn [cm_new_conns]; [exact Ho|]. apply IH.
  intros p x. destruct (decide (p = fresh_ptr objs)) as [->|]; [rewrite lookup_insert_eq; by intros [= <-]|].
  rewrite lookup_insert_ne by done. apply Ho.
Qed.

Lemma no_events_preserve : events_preserve (App := App) client_keeps JmyEventHandlerManager_new.
Proof using.
  intros i info w. unfold eh_call, eh_at. destruct (_ !! _) as [[f|]|] eqn:E; [|reflexivity..].
  exfalso. apply list_elem_of_lookup_2, list_elem_of_In, repeat_spec in E. done.
Qed.

Lemma new_inv n h app : 0 <= n <= INT_MAX -> exists B, size B = Z.to_nat n /\ mt_inv B n 0 (ct_master (clients_new n h app)).
Proof using.
  intros Hn. destruct (cm_init_inv (Z.to_nat n) JMY_CONN_TYPE_ACTIVE) as (Hi & Hu & Hl). rewrite Z2Nat.id in Hi, Hu, Hl by lia.
  eexists. split; [|constructor; try exact Hi; try done; try lia].
  - rewrite size_list_to_set by apply Hi. exact Hl.
  - intros id p Hid. change (conn_mgr_ _) with (cm_init JmyTcpConnectionMgr_new n JMY_CONN_TYPE_ACTIVE) in Hid. rewrite Hu in Hid. done.
  - change (conn_mgr_ _) with (cm_init JmyTcpConnectionMgr_new n JMY_CONN_TYPE_ACTIVE). lia.
  - intros p x. change (conn_mgr_ _) with (cm_init JmyTcpConnectionMgr_new n JMY_CONN_TYPE_ACTIVE). unfold cm_init.
    pose proof (new_conns_type (Z.to_nat n) JMY_CONN_TYPE_ACTIVE (cm_objs JmyTcpConnectionMgr_new) (ConnectionMgr.free_list_ JmyTcpConnectionMgr_new)) as Ht.
    destruct (cm_new_conns _ _ _ _) as [objs l]. cbn. apply Ht. by intros q y [=].
  - intros p. intros info w. reflexivity.
  - intros p. apply no_events_preserve.
Qed.

Lemma setEndPoint_inv B n k (m m' : JmyTcpClientMaster App) ep c : mt_inv B n k m -> cl_setEndPoint ep c m = Some m' -> mt_inv B n k m'.
Proof using.
  intros Hm E. unfold cl_setEndPoint in E. apply bind_Some in E as (cl & Hc & [= <-]). destruct Hm. constructor; cbn; try done.
  - rewrite mi_gene0, dom_insert_lookup_L; [done|by eexists].
  - rewrite lookup_insert_ne; [done|]. intros ->. congruence.
  - intros c' cl' [[<- <-]|[_ Hc']]%lookup_insert_Some; [apply (mi_conn0 c _ Hc)|eauto].
  - intros c1 c2 cl1 cl2 [[<- <-]|[_ H1]]%lookup_insert_Some [[<- <-]|[_ H2]]%lookup_insert_Some; cbn; eauto.
Qed.

Lemma clients_exec_inv B n k o s s' : mt_inv B n k (ct_master s) -> op_keeps o -> ct_exec mgr garbage hash_order o s = Some s' ->
  mt_inv B n (if is_generate o then Z.min n (k + 1) else k) (ct_master s').
Proof using Horder.
  intros Hm Ho E. destruct o as [|c|ep c|conf blocking c|blocking c|msg_id data len c|now c|c|now c|c conf|c|now|p res|p res|p res];
    cbn [ct_exec is_generate] in *; unfold on_master in E;
    try (apply bind_Some in E as ([r m'] & E & [= <-]); cbn [ct_master]);
    try (apply bind_Some in E as (m' & E & [= <-]); cbn [ct_master]).
  - destruct (Z_lt_le_dec k n).
    + destruct (generate_more _ _ _ _ Hm) as (c & m1 & E1 & H1); [done|]. rewrite E1 in E. injection E as <- <-. by rewrite Z.min_r by lia.
    + rewrite (generate_none _ _ _ _ Hm) in E by lia. injection E as <- <-. pose proof (mi_range _ _ _ _ Hm).
      rewrite Z.min_l by lia. assert (k = n) as -> by lia. exact Hm.
  - destruct (mt_recycle_inv _ _ _ _ c Hm) as (m1 & E1 & H1). rewrite E1 in E. by injection E as <- <-.
  - by eapply setEndPoint_inv.
  - by eapply start_inv.
  - unfold cl_reconnect in E. apply bind_Some in E as (st & _ & E). destruct (negb _); [by injection E as _ <-|]. by eapply cl_connect_inv.
  - unfold cl_send in E. apply bind_Some in E as (p & _ & E). by eapply send_inv.
  - unfold cl_close in E. apply bind_Some in E as (p & _ & E). apply bind_Some in E as ([[] m1] & E & [= <-]).
    eapply on_inv in E as [H _]; [exact H|exact Hm|]. intros w [] w' Ew. apply bind_Some in Ew as (w1 & Ew & [= <-]).
    by apply client_keeps_but_state, (close_preserves client_keeps garbage now w w1).
  - unfold cl_reset in E. apply bind_Some in E as (p & _ & E). apply bind_Some in E as ([[] m1] & E & [= <-]).
    eapply on_inv in E as [H _]; [exact H|exact Hm|]. by intros w [] w' [= <-].
  - unfold cl_run in E. apply bind_Some in E as (p & _ & E). apply bind_Some in E as (st & _ & E).
    destruct (bool_decide _); [by injection E as _ <-|]. destruct (bool_decide _); [by injection E as _ <-|]. by eapply run_inv.
  - by injection E as <-.
  - by injection E as <-.
  - unfold cset_run in E. eapply run_loop_spec in E as [H _]; [exact H|done|]. rewrite Horder. apply NoDup_fst_map_to_list.
  - apply bind_Some in E as (k0 & _ & E). apply bind_Some in E as ([] & _ & E). apply bind_Some in E as ([[] m1] & E & [= <-]).
    eapply on_frame in E as [H _]; [exact H|exact Hm|]. intros w [] w' Ht Ew. apply bind_Some in Ew as (w1 & Ew & [= <-]).
    eapply on_connect_spec in Ew as [H _]; [exact H|apply Hm|done].
  - destruct r. eapply on_inv in E as [H _]; [exact H|exact Hm|]. intros w [] w' Ew. apply bind_Some in Ew as (w1 & Ew & [= <-]).
    apply client_keeps_but_state. eapply read_completes_preserves; [exact client_keeps_preserved|apply Hm|exact Ew].
  - destruct r. eapply on_inv in E as [H _]; [exact H|exact Hm|]. intros w [] w' Ew. apply bind_Some in Ew as (w1 & Ew & [= <-]).
    apply client_keeps_but_state. eapply send_completes_preserves; [exact client_keeps_preserved|apply Hm|exact Ew].
Qed.

Lemma clients_exec_all_inv B n k os s s' : mt_inv B n k (ct_master s) -> Forall op_keeps os -> ct_exec_all mgr garbage hash_order os s = Some s' ->
  mt_inv B n (Z.min n (k + generates os)) (ct_master s').
Proof using Horder.
  revert k s. induction os as [|o os IH]; intros k s Hm Ho E; cbn [ct_exec_all] in E.
  { injection E as <-. unfold generates. cbn. pose proof (mi_range _ _ _ _ Hm). by rewrite Z.add_0_r, Z.min_r by lia. }
  apply Forall_cons in Ho as [Ho Hos]. apply bind_Some in E as (s1 & E1 & E). pose proof (clients_exec_inv _ _ _ _ _ _ Hm Ho E1) as H1.
  pose proof (IH _ _ H1 Hos E) as H2. pose proof (mi_range _ _ _ _ Hm).
  replace (Z.min n (k + generates (o :: os))) with (Z.min n ((if is_generate o then Z.min n (k + 1) else k) + generates os)); [done|].
  unfold generates. rewrite filter_cons. destruct (is_generate o); [rewrite decide_True by done|rewrite decide_False by done];
    cbn [length]; lia.
Qed.

Lemma reachable_inv n h app os s : 0 <= n <= INT_MAX -> Forall op_keeps os ->
  ct_exec_all mgr garbage hash_order os (clients_new n h app) = Some s ->
  exists B, size B = Z.to_nat n /\ mt_inv B n (Z.min n (generates os)) (ct_master s).
Proof using Horder.
  intros Hn Ho E. destruct (new_inv n h app Hn) as (B & HB & Hm). exists B. split; [done|]. by apply (clients_exec_all_inv _ _ _ _ _ _ Hm Ho E).
Qed.

(** In every run of a master for [n] clients, whatever is called and whatever completes, [generate] and
    [recycle] are defined.  [generate] gives a client exactly as long as it was called fewer
    than [n] times before, however many clients were recycled since; every client that is not
    recycled has a connection of its own, which is in use under one of the ids 1 to [n]. *)
Theorem clients_generated_once n h app os s :
  0 <= n <= INT_MAX -> Forall op_keeps os -> ct_exec_all mgr garbage hash_order os (clients_new n h app) = Some s ->
  let m := ct_master s in
  (exists r m', mt_generate m = Some (r, m') /\ (is_Some r <-> generates os < n)) /\
  (forall c, exists m', mt_recycle c m = Some (bool_decide (c ∈ gene_clients_ m), m')) /\
  (forall c, c ∈ gene_clients_ m -> exists p id, cl_at m c = Some p /\ cm_get (conn_mgr_ m) id = Some p /\ 1 <= id <= Z.min n (generates os)) /\
  (forall c c' p, cl_at m c = Some p -> cl_at m c' = Some p -> c = c').
Proof using Horder.
  intros Hn Ho E m. destruct (reachable_inv _ _ _ _ _ Hn Ho E) as (B & HB & Hm). fold m in Hm. split; [|split; [|split]].
  - destruct (Z_lt_le_dec (Z.min n (generates os)) n) as [Hl|Hl].
    + destruct (generate_more _ _ _ _ Hm Hl) as (c & m1 & E1 & _). exists (Some c), m1. split; [done|]. split; [lia|by eexists].
    + exists None, m. split; [by eapply generate_none|]. split; [by intros []|lia].
  - intros c. destruct (mt_recycle_inv _ _ _ _ c Hm) as (m1 & E1 & _). by exists m1.
  - intros c Hc. rewrite (mi_gene _ _ _ _ Hm) in Hc. apply elem_of_dom in Hc as [cl Hc]. destruct (mi_conn _ _ _ _ Hm _ _ Hc) as [id Hid].
    exists (cl_conn cl), id. unfold cl_at. rewrite Hc. split; [done|]. split; [done|]. by eapply (mi_map_range _ _ _ _ Hm).
  - intros c c' p. unfold cl_at. intros (cl & Hc & [= <-])%bind_Some (cl' & Hc' & [= He])%bind_Some. by eapply (mi_distinct _ _ _ _ Hm).
Qed.

(** ** Connecting again *)

(** The state of a client's connection, and when the set last reset it or connected it. *)
Definition rc_state s (c : ptr) : option (JmyConnState * Z) :=
  st ← cl_state (ct_master s) c; d ← ct_set s !! c; Some (st, last_point d).

(** The set runs, the program sends, or an operation on a socket completes. *)
Definition net_op (o : ct_op App) : Prop :=
  match o with ct_run_set _ | ct_send _ _ _ _ | ct_connected _ _ | ct_read _ _ | ct_sent _ _ => True | _ => False end.

Inductive net_step (cf : JmyClientConfig App) : ct_op App -> JmyConnState * Z -> JmyConnState * Z -> Prop :=
| net_run now x y : turn_step now cf x y -> net_step cf (ct_run_set now) x y
| net_settles o st st' last : (forall now, o <> ct_run_set now) -> settles st st' -> net_step cf o (st, last) (st', last)
| net_failed p st last : net_step cf (ct_connected p connect_failed) (st, last) (JMY_CONN_STATE_NOT_CONNECT, last)
| net_connected p st st' last : settles JMY_CONN_STATE_CONNECTED st' -> net_step cf (ct_connected p connect_ok) (st, last) (st', last).

(** The times at which a run of the set made the client connect. *)
Fixpoint attempts (c : ptr) (os : list (ct_op App)) s : list Z :=
  match os with
  | [] => []
  | o :: os =>
    match ct_exec mgr garbage hash_order o s with
    | None => []
    | Some s' =>
      (match o with
       | ct_run_set now =>
         if bool_decide (cl_state (ct_master s') c = Some JMY_CONN_STATE_CONNECTING /\ cl_state (ct_master s) c <> Some JMY_CONN_STATE_CONNECTING)
         then [now] else []
       | _ => []
       end) ++ attempts c os s'
    end
  end.

Definition run_times (os : list (ct_op App)) : list Z := omap (fun o => match o with ct_run_set now => Some now | _ => None end) os.
Definition spaced (d : Z) : list Z -> Prop := StronglySorted (fun a b => a + d <= b).

Lemma on_keeps_settles {A} B n k (m : JmyTcpClientMaster App) p (f : W -> option (A * W)) r m' c cl :
  mt_inv B n k m -> (forall w r w', f w = Some (r, w') -> client_keeps w w') -> mt_on m p f = Some (r, m') -> mt_objs m !! c = Some cl ->
  mt_objs m' !! c = Some cl /\ exists st st', conn_state m (cl_conn cl) = Some st /\ conn_state m' (cl_conn cl) = Some st' /\ settles st st'.
Proof using.
  intros Hm Hf E Hc. eapply on_frame in E as (_ & w & w' & Ht & Hs & Ew & [H1 H2 H3]); [|exact Hm|by intros w r1 w' _ Ew; eapply client_keeps_but_state, Hf].
  split; [congruence|]. destruct (decide (cl_conn cl = p)) as [->|Hne].
  - exists (state w), (state w'). split; [done|]. split; [done|]. by eapply ck_state; [eapply Hf|].
  - destruct (live_state _ _ _ _ _ _ Hm Hc) as [st Hst]. exists st, st. split; [done|]. split; [by rewrite H2|by left].
Qed.

Lemma net_exec B n k o s s' c cl d cf :
  mt_inv B n k (ct_master s) -> net_op o -> ct_exec mgr garbage hash_order o s = Some s' ->
  mt_objs (ct_master s) !! c = Some cl -> ct_set s !! c = Some d -> cd_conf d = Some cf ->
  exists st st' last', cl_state (ct_master s) c = Some st /\ cl_state (ct_master s') c = Some st' /\
    mt_objs (ct_master s') !! c = Some cl /\ ct_set s' !! c = Some (mkSetClientData (Some cf) last') /\
    net_step cf o (st, last_point d) (st', last').
Proof using Horder.
  intros Hm Hn E Hc Hd Hcf. assert (d = mkSetClientData (Some cf) (last_point d)) as Hd'. { destruct d. cbn in *. by subst. }
  assert (Hset : forall m', s' = mkClients m' (ct_set s) -> (forall now, o <> ct_run_set now) ->
    (mt_objs m' !! c = Some cl /\ exists st st', conn_state (ct_master s) (cl_conn cl) = Some st /\ conn_state m' (cl_conn cl) = Some st' /\ settles st st') ->
    exists st st' last', cl_state (ct_master s) c = Some st /\ cl_state (ct_master s') c = Some st' /\
      mt_objs (ct_master s') !! c = Some cl /\ ct_set s' !! c = Some (mkSetClientData (Some cf) last') /\ net_step cf o (st, last_point d) (st', last')).
  { intros m' -> Hno (Hc' & st & st' & H1 & H2 & H3). exists st, st', (last_point d). cbn. rewrite (cl_state_conn _ _ _ Hc), (cl_state_conn _ _ _ Hc'), Hd, Hd'.
    repeat (split; [done|]). by apply net_settles. }
  destruct o as [|c'|ep c'|conf blocking c'|blocking c'|msg_id data len c'|now c'|c'|now c'|c' conf|c'|now|p res|p res|p res]; try done;
    cbn [ct_exec] in E; unfold on_master in E.
  - apply bind_Some in E as ([r m'] & E & [= <-]). unfold cl_send in E. apply bind_Some in E as (p & _ & E). eapply Hset; [done|done|].
    eapply on_keeps_settles; [exact Hm| |exact E|exact Hc]. intros w r1 w' Ew.
    by apply (send_preserves client_keeps garbage msg_id data len w r1 w').
  - apply bind_Some in E as ([cs m'] & E & [= <-]). unfold cset_run in E. eapply run_loop_spec in E as [_ [H1 _ _ H4]]; [|exact Hm|rewrite Horder; apply NoDup_fst_map_to_list].
    destruct (H4 c d cf) as (cl' & st & st' & last' & Hc' & Hs & Hs' & Hcs & Hstep); [|done|done| |].
    + rewrite Horder. apply list_elem_of_fmap. exists (c, d). split; [done|]. by apply elem_of_map_to_list.
    + intros ->. pose proof (mi_null _ _ _ _ Hm). congruence.
    + assert (cl' = cl) as -> by congruence. exists st, st', last'. cbn. assert (Hc1 : mt_objs m' !! c = Some cl) by congruence.
      rewrite (cl_state_conn _ _ _ Hc), (cl_state_conn _ _ _ Hc1). repeat (split; [done|]). by constructor.
  - apply bind_Some in E as (k0 & _ & E). apply bind_Some in E as ([] & _ & E). apply bind_Some in E as ([[] m'] & E & [= <-]).
    destruct (decide (cl_conn cl = p)) as [<-|Hne].
    + eapply on_frame in E as (_ & w & w' & Ht & Hs & Ew & [H1 H2 H3]); [|exact Hm|].
      2:{ intros w [] w' Ht Ew. apply bind_Some in Ew as (w1 & Ew & [= <-]). eapply on_connect_spec in Ew as [H _]; [exact H|apply Hm|done]. }
      apply bind_Some in Ew as (w1 & Ew & [= <-]). eapply on_connect_spec in Ew as [_ Hst]; [|apply Hm|done].
      assert (Hc1 : mt_objs m' !! c = Some cl) by congruence. exists (state w), (state w1), (last_point d). cbn.
      rewrite (cl_state_conn _ _ _ Hc), (cl_state_conn _ _ _ Hc1), Hd, Hd'. repeat (split; [done|]). cbn [last_point].
      destruct res; [by apply net_connected|rewrite Hst; apply net_settles; [done|by left]|rewrite Hst; apply net_failed].
    + eapply on_frame in E as (_ & w & w' & Ht & Hs & Ew & [H1 H2 H3]); [|exact Hm|].
      2:{ intros w [] w' Ht Ew. apply bind_Some in Ew as (w1 & Ew & [= <-]). eapply on_connect_spec in Ew as [H _]; [exact H|apply Hm|done]. }
      eapply Hset; [done|done|]. split; [congruence|]. destruct (live_state _ _ _ _ _ _ Hm Hc) as [st Hst].
      exists st, st. split; [done|]. split; [by rewrite H2|by left].
  - apply bind_Some in E as ([[] m'] & E & [= <-]). eapply Hset; [done|done|]. eapply on_keeps_settles; [exact Hm| |exact E|exact Hc].
    intros w [] w' Ew. apply bind_Some in Ew as (w1 & Ew & [= <-]). eapply read_completes_preserves; [exact client_keeps_preserved|apply Hm|exact Ew].
  - apply bind_Some in E as ([[] m'] & E & [= <-]). eapply Hset; [done|done|]. eapply on_keeps_settles; [exact Hm| |exact E|exact Hc].
    intros w [] w' Ew. apply bind_Some in Ew as (w1 & Ew & [= <-]). eapply send_completes_preserves; [exact client_keeps_preserved|apply Hm|exact Ew].
Qed.

Lemma turn_cases now cf st last st' last' : turn_step (App := App) now cf (st, last) (st', last') ->
  (st' = JMY_CONN_STATE_CONNECTING /\ st <> JMY_CONN_STATE_CONNECTING /\ last' = now /\ reconnect_interval cf <= Z.quot (now - last) (10 ^ 9)) \/
  ((st' = JMY_CONN_STATE_CONNECTING -> st = JMY_CONN_STATE_CONNECTING) /\ (last' = last \/ last' = now)).
Proof using.
  inversion 1; subst; [right|left; by split_and!|right|right|right]; (split; [|by auto]); intros Hc; try done;
    match goal with Hs : settles _ _ |- _ => by apply (settles_connecting _ _ Hs) in Hc end.
Qed.

Lemma elapsed_after i d : 0 < i -> i <= Z.quot d (10 ^ 9) -> i * 10 ^ 9 <= d.
Proof using.
  intros Hi Hd. destruct (Z_lt_le_dec d 0).
  - pose proof (Z.quot_opp_l d (10 ^ 9)). pose proof (Z.quot_pos (- d) (10 ^ 9)). lia.
  - rewrite Z.quot_div_nonneg in Hd by lia. pose proof (Z.mul_div_le d (10 ^ 9)). lia.
Qed.

Lemma attempts_spaced B n k os s s' c cl d cf :
  mt_inv B n k (ct_master s) -> Forall net_op os -> ct_exec_all mgr garbage hash_order os s = Some s' ->
  mt_objs (ct_master s) !! c = Some cl -> ct_set s !! c = Some d -> cd_conf d = Some cf -> 0 < reconnect_interval cf ->
  StronglySorted Z.le (run_times os) ->
  spaced (reconnect_interval cf * 10 ^ 9) (attempts c os s) /\
  (Forall (Z.le (last_point d)) (run_times os) -> Forall (fun a => last_point d + reconnect_interval cf * 10 ^ 9 <= a) (attempts c os s)).
Proof using Horder.
  revert k s d. induction os as [|o os IH]; intros k s d Hm Hn E Hc Hd Hcf Hi Hsort; [by split; [constructor|]|].
  apply Forall_cons in Hn as [Hno Hn]. cbn [ct_exec_all] in E. apply bind_Some in E as (s1 & E1 & E). cbn [attempts]. rewrite E1.
  assert (Hko : op_keeps o) by (by destruct o).
  destruct (net_exec _ _ _ _ _ _ _ _ _ _ Hm Hno E1 Hc Hd Hcf) as (st & st' & last' & Hs & Hs' & Hc' & Hd' & Hstep).
  pose proof (clients_exec_inv _ _ _ _ _ _ Hm Hko E1) as Hm1.
  assert (Hrest : StronglySorted Z.le (run_times os)).
  { destruct o; cbn [run_times omap list_omap] in Hsort; try exact Hsort. by inversion Hsort. }
  destruct (IH _ _ _ Hm1 Hn E Hc' Hd' eq_refl Hi Hrest) as [IH1 IH2]. cbn [last_point] in IH2.
  destruct o as [|?|? ?|? ? ?|? ?|? ? ? ?|? ?|?|? ?|? ?|?|now|p res|p res|p res]; try done;
    try (assert (last' = last_point d) as -> by (by inversion Hstep); by split).
  rewrite Hs, Hs'. cbn [run_times omap list_omap] in Hsort |- *. inversion Hsort as [|? ? _ Hle]; subst.
  assert (Hturn : turn_step now cf (st, last_point d) (st', last')) by (inversion Hstep; subst; [done|exfalso; match goal with H : forall _, _ <> _ |- _ => by apply (H now) end]).
  destruct (turn_cases _ _ _ _ _ _ Hturn) as [(-> & Hst & -> & Hel)|[Hst Hlast]].
  - rewrite bool_decide_true by (split; congruence). apply elapsed_after in Hel; [|done]. specialize (IH2 Hle). split; [by constructor|].
    intros _. constructor; [lia|]. eapply Forall_impl; [exact IH2|]. cbn. lia.
  - rewrite bool_decide_false by (intros [[= Hst'] Hne]; apply Hne; by rewrite Hst). split; [done|]. cbn [app].
    intros [Hnow Hall]%Forall_cons. destruct Hlast as [->|Hlast]; [by apply IH2|]. subst last'. eapply Forall_impl; [by apply IH2|]. cbn. lia.
Qed.

Lemma exec_all_app os1 os2 s : ct_exec_all mgr garbage hash_order (os1 ++ os2) s =
  (s1 ← ct_exec_all mgr garbage hash_order os1 s; ct_exec_all mgr garbage hash_order os2 s1).
Proof using.
  revert s. induction os1 as [|o os IH]; intros s; [done|]. cbn [app ct_exec_all]. destruct (ct_exec _ _ _ o s); [apply IH|done].
Qed.

Lemma net_exec_all B n k os s s' c cl d cf :
  mt_inv B n k (ct_master s) -> Forall net_op os -> ct_exec_all mgr garbage hash_order os s = Some s' ->
  mt_objs (ct_master s) !! c = Some cl -> ct_set s !! c = Some d -> cd_conf d = Some cf ->
  mt_inv B n k (ct_master s') /\ mt_objs (ct_master s') !! c = Some cl /\ exists d', ct_set s' !! c = Some d' /\ cd_conf d' = Some cf.
Proof using Horder.
  revert s d. induction os as [|o os IH]; intros s d Hm Hn E Hc Hd Hcf; cbn [ct_exec_all] in E; [injection E as <-; eauto|].
  apply Forall_cons in Hn as [Hno Hn]. apply bind_Some in E as (s1 & E1 & E).
  destruct (net_exec _ _ _ _ _ _ _ _ _ _ Hm Hno E1 Hc Hd Hcf) as (st & st' & last' & _ & _ & Hc' & Hd' & _).
  assert (Hko : op_keeps o) by (by destruct o). pose proof (clients_exec_inv _ _ _ _ _ _ Hm Hko E1) as Hm1.
  eapply IH; [|exact Hn|exact E|exact Hc'|exact Hd'|done]. by destruct o.
Qed.

(** C16. A client that is in a client set and is to be connected again.  In every run of the set
    and its connections, each step does to the client what [net_step] says: a run resets a
    closed connection, connects it at the first run at which the interval has passed since,
    and otherwise leaves it to the connection; and however the connections fail, two attempts
    to connect are at least the interval apart. *)
Theorem clients_connect_again n h app os0 s0 os s c d cf :
  0 <= n <= INT_MAX -> Forall op_keeps os0 -> ct_exec_all mgr garbage hash_order os0 (clients_new n h app) = Some s0 ->
  c ∈ gene_clients_ (ct_master s0) -> ct_set s0 !! c = Some d -> cd_conf d = Some cf ->
  Forall net_op os -> ct_exec_all mgr garbage hash_order os s0 = Some s ->
  (forall os1 o os2, os = os1 ++ o :: os2 -> exists s1 s2 x y,
     ct_exec_all mgr garbage hash_order os1 s0 = Some s1 /\ ct_exec mgr garbage hash_order o s1 = Some s2 /\
     rc_state s1 c = Some x /\ rc_state s2 c = Some y /\ net_step cf o x y) /\
  (0 < reconnect_interval cf -> StronglySorted Z.le (run_times os) -> spaced (reconnect_interval cf * 10 ^ 9) (attempts c os s0)).
Proof using Horder.
  intros Hn Ho E0 Hc Hd Hcf Hno E. destruct (reachable_inv _ _ _ _ _ Hn Ho E0) as (B & _ & Hm).
  rewrite (mi_gene _ _ _ _ Hm) in Hc. apply elem_of_dom in Hc as [cl Hc]. split.
  - intros os1 o os2 ->. rewrite exec_all_app in E. apply bind_Some in E as (s1 & E1 & E). cbn [ct_exec_all] in E.
    apply bind_Some in E as (s2 & E2 & _). apply Forall_app in Hno as [Hno1 [Hno2 _]%Forall_cons].
    destruct (net_exec_all _ _ _ _ _ _ _ _ _ _ Hm Hno1 E1 Hc Hd Hcf) as (Hm1 & Hc1 & d1 & Hd1 & Hcf1).
    destruct (net_exec _ _ _ _ _ _ _ _ _ _ Hm1 Hno2 E2 Hc1 Hd1 Hcf1) as (st & st' & last' & Hs & Hs' & _ & Hd2 & Hstep).
    exists s1, s2, (st, last_point d1), (st', last'). unfold rc_state. rewrite Hs, Hd1, Hs', Hd2. done.
  - intros Hi Hsort. by eapply attempts_spaced.
Qed.
End runs.

(** ** Example

    One client, which is to connect again after 5 seconds.  The first two attempts to connect
    fail, the third one succeeds and its connection is lost. *)

Definition ex_client_conf : JmyClientConfig conn_log :=
  mkClientConfig (Some [(1, fun info w => (mi_len info, w))]) None
    (mkBaseEH (Some log_conn) (Some log_conn) None None) None (mkJmyBufferConfig 64 64 0 0 true true) true 5.
Definition ex_order (cs : gmap ptr (SetClientData conn_log)) : list ptr := (map_to_list cs).*1.
Definition ex_client_start : list (ct_op conn_log) := [ct_generate; ct_setEndPoint ([49], 9000) 1; ct_start ex_client_conf None 1; ct_add 1 (Some ex_client_conf)].
Definition ex_client_ops : list (ct_op conn_log) :=
  [ct_connected 1 connect_failed; ct_run_set (3 * 10 ^ 9); ct_run_set (6 * 10 ^ 9); ct_connected 1 connect_failed; ct_run_set (8 * 10 ^ 9);
   ct_run_set (11 * 10 ^ 9); ct_connected 1 connect_ok; ct_run_set (12 * 10 ^ 9); ct_read 1 None; ct_run_set (13 * 10 ^ 9); ct_run_set (18 * 10 ^ 9)].
Definition ex_exec : list (ct_op conn_log) -> Clients conn_log -> option (Clients conn_log) := ct_exec_all 7 demo_content ex_order.
Definition ex_client_new : Clients conn_log := clients_new 1 ∅ [].
Definition ex_started : Clients conn_log := default ex_client_new (ex_exec ex_client_start ex_client_new).
Definition ex_ended : Clients conn_log := default ex_client_new (ex_exec ex_client_ops ex_started).

Lemma ex_client_keeps : Forall op_keeps ex_client_start.
Proof.
  repeat (constructor; [exact I|]). constructor; [|constructor; [exact I|constructor]]. split.
  - intros H E. assert (EH : msg_handler_map_ H = {[ 1 := fun info w => (mi_len info, w) ]} /\ default_msg_handler_ H = None).
    { vm_compute in E. injection E as <-. split; reflexivity. }
    destruct EH as [Hm Hd]. clear E. intros info w. unfold handleMsg. rewrite Hm, Hd. destruct (decide (mi_msg_id info = 1)) as [->|].
    + rewrite lookup_singleton_eq. cbn. destruct (mi_len info <? 0); reflexivity.
    + rewrite lookup_singleton_ne by done. reflexivity.
  - intros ev [= <-] i info w. unfold eh_call, eh_at. cbn. destruct (Z.to_nat i) as [|[|[|[|[|j]]]]]; cbn; try reflexivity;
      (apply cp_same; by constructor).
Qed.

(** The client is recycled, but no other one is generated. *)
Lemma clients_generated_once_witness :
  exists s m', ex_exec [ct_generate; ct_recycle 1] ex_client_new = Some s /\ mt_generate (ct_master s) = Some (None, m') /\ gene_clients_ (ct_master s) = ∅.
Proof.
  assert (E : is_Some (ex_exec [ct_generate; ct_recycle 1] ex_client_new)) by (vm_compute; by eexists). destruct E as [s E].
  destruct (clients_generated_once 7 demo_content ex_order (fun cs => reflexivity _) 1 ∅ [] [ct_generate; ct_recycle 1] s) as ((r & m' & Eg & Hr) & _ & Hg & _).
  - split; vm_compute; discriminate.
  - repeat constructor.
  - exact E.
  - exists s, m'. split; [exact E|]. split.
    + rewrite Eg. destruct r as [c|]; [|reflexivity]. exfalso. pose proof (proj1 Hr (ex_intro _ c eq_refl)) as Hl. vm_compute in Hl. discriminate.
    + vm_compute in E. injection E as <-. vm_compute. reflexivity.
Defined.

Lemma clients_connect_again_witness :
  spaced (5 * 10 ^ 9) (attempts 7 demo_content ex_order 1 ex_client_ops ex_started) /\
  attempts 7 demo_content ex_order 1 ex_client_ops ex_started = [6 * 10 ^ 9; 11 * 10 ^ 9; 18 * 10 ^ 9] /\
  mt_app (ct_master ex_ended) = [(JMY_EVENT_CONNECT, 1); (JMY_EVENT_DISCONNECT, 1)].
Proof.
  split; [|split; vm_compute; reflexivity].
  assert (E : is_Some (ex_exec ex_client_ops ex_started)) by (vm_compute; by eexists). destruct E as [s E].
  assert (E0 : ex_exec ex_client_start ex_client_new = Some ex_started) by (vm_compute; reflexivity).
  refine (proj2 (clients_connect_again 7 demo_content ex_order (fun cs => reflexivity _) 1 ∅ [] ex_client_start ex_started ex_client_ops s
    1 (mkSetClientData (Some ex_client_conf) 0) ex_client_conf _ ex_client_keeps E0 _ _ eq_refl _ E) _ _).
  - split; vm_compute; discriminate.
  - vm_compute. reflexivity.
  - vm_compute. reflexivity.
  - repeat constructor.
  - vm_compute. reflexivity.
  - vm_compute. repeat constructor; discriminate.
Defined.
