(* ===== verification/BiMap.v ===== *)
(** * Two-way maps ([BiMap] of [common/bi_map.h])

    Two hash maps that are meant to be inverse to each other. *)
From S2P Require Import Prelude.
From Stdlib Require Import ZArith Lia.
From stdpp Require Import base option list gmap.
Local Open Scope Z_scope.

Section bimap.
Context {T1 T2 : Type} `{Countable T1} `{Countable T2}.

Record BiMap : Type := mkBiMap { one_map_ : gmap T1 T2; two_map_ : gmap T2 T1 }.

Definition BiMap_new : BiMap := mkBiMap ∅ ∅.

Definition bm_clear (m : BiMap) : BiMap := mkBiMap ∅ ∅.

Definition bm_insert (m : BiMap) (t1 : T1) (t2 : T2) : bool * BiMap :=
  match one_map_ m !! t1 with
  | Some _ => (false, m)
  | None =>
    match two_map_ m !! t2 with
    | Some _ => (false, m)
    | None => (true, mkBiMap (<[t1 := t2]> (one_map_ m)) (<[t2 := t1]> (two_map_ m)))
    end
  end.

Definition find_1 (m : BiMap) (t1 : T1) : option T2 := one_map_ m !! t1.
Definition find_2 (m : BiMap) (t2 : T2) : option T1 := two_map_ m !! t2.

(** [it->second]: the value of the element the iterator points to, which must still be in the map. *)
Definition iter_second {A B} `{Countable A} (it : A) (m : gmap A B) : option B := m !! it.

(** The element is erased before the iterator to it is read. *)
Definition remove_1 (m : BiMap) (t1 : T1) : option (bool * BiMap) :=
  match one_map_ m !! t1 with
  | None => Some (false, m)
  | Some _ =>
    let one := delete t1 (one_map_ m) in
    t2 ← iter_second t1 one;
    Some (true, mkBiMap one (delete t2 (two_map_ m)))
  end.

Definition remove_2 (m : BiMap) (t2 : T2) : option (bool * BiMap) :=
  match two_map_ m !! t2 with
  | None => Some (false, m)
  | Some _ =>
    let two := delete t2 (two_map_ m) in
    t1 ← iter_second t2 two;
    Some (true, mkBiMap (delete t1 (one_map_ m)) two)
  end.

(** ** Specification: a set of pairs that is one-to-one *)

Inductive bm_op : Type :=
| bm_op_insert (t1 : T1) (t2 : T2)
| bm_op_find_1 (t1 : T1)
| bm_op_find_2 (t2 : T2)
| bm_op_remove_1 (t1 : T1)
| bm_op_remove_2 (t2 : T2)
| bm_op_clear.

Inductive bm_res : Type :=
| bm_res_bool (b : bool)
| bm_res_1 (r : option T1)
| bm_res_2 (r : option T2).

Definition bm_exec (o : bm_op) (m : BiMap) : option (bm_res * BiMap) :=
  match o with
  | bm_op_insert a b => let '(r, m) := bm_insert m a b in Some (bm_res_bool r, m)
  | bm_op_find_1 a => Some (bm_res_2 (find_1 m a), m)
  | bm_op_find_2 b => Some (bm_res_1 (find_2 m b), m)
  | bm_op_remove_1 a => '(r, m) ← remove_1 m a; Some (bm_res_bool r, m)
  | bm_op_remove_2 b => '(r, m) ← remove_2 m b; Some (bm_res_bool r, m)
  | bm_op_clear => Some (bm_res_bool true, bm_clear m)
  end.

Fixpoint bm_run (os : list bm_op) (m : BiMap) : option (list bm_res * BiMap) :=
  match os with
  | [] => Some ([], m)
  | o :: os => '(r, m) ← bm_exec o m; '(rs, m) ← bm_run os m; Some (r :: rs, m)
  end.

Definition pairs : Type := gset (T1 * T2).

Definition one_to_one (S : pairs) : Prop :=
  forall a b a' b', (a, b) ∈ S -> (a', b') ∈ S -> a = a' <-> b = b'.

(** What each operation is meant to do to the pairs; removing a pair is included. *)
Inductive bm_step (S : pairs) : bm_op -> bm_res -> pairs -> Prop :=
| bm_s_insert a b :
    (forall b', (a, b') ∉ S) -> (forall a', (a', b) ∉ S) ->
    bm_step S (bm_op_insert a b) (bm_res_bool true) ({[ (a, b) ]} ∪ S)
| bm_s_insert_taken a b a' b' : (a', b') ∈ S -> a = a' \/ b = b' -> bm_step S (bm_op_insert a b) (bm_res_bool false) S
| bm_s_find_1 a r : (forall b, r = Some b <-> (a, b) ∈ S) -> bm_step S (bm_op_find_1 a) (bm_res_2 r) S
| bm_s_find_2 b r : (forall a, r = Some a <-> (a, b) ∈ S) -> bm_step S (bm_op_find_2 b) (bm_res_1 r) S
| bm_s_remove_1_none a : (forall b, (a, b) ∉ S) -> bm_step S (bm_op_remove_1 a) (bm_res_bool false) S
| bm_s_remove_2_none b : (forall a, (a, b) ∉ S) -> bm_step S (bm_op_remove_2 b) (bm_res_bool false) S
| bm_s_remove_1 a b : (a, b) ∈ S -> bm_step S (bm_op_remove_1 a) (bm_res_bool true) (S ∖ {[ (a, b) ]})
| bm_s_remove_2 a b : (a, b) ∈ S -> bm_step S (bm_op_remove_2 b) (bm_res_bool true) (S ∖ {[ (a, b) ]})
| bm_s_clear : bm_step S bm_op_clear (bm_res_bool true) ∅.

Inductive bm_steps : pairs -> list bm_op -> list bm_res -> pairs -> Prop :=
| bm_steps_nil S : bm_steps S [] [] S
| bm_steps_cons S o r S' os rs S'' : bm_step S o r S' -> bm_steps S' os rs S'' -> bm_steps S (o :: os) (r :: rs) S''.

(** A removal of a present element. *)
Definition removes (o : bm_op) (S : pairs) : Prop :=
  match o with
  | bm_op_remove_1 a => exists b, (a, b) ∈ S
  | bm_op_remove_2 b => exists a, (a, b) ∈ S
  | _ => False
  end.

(** Both maps hold the pairs. *)
Definition bm_refines (m : BiMap) (S : pairs) : Prop :=
  (forall a b, one_map_ m !! a = Some b <-> (a, b) ∈ S) /\ (forall a b, two_map_ m !! b = Some a <-> (a, b) ∈ S).

Lemma bm_refines_one_to_one m S : bm_refines m S -> one_to_one S.
Proof using.
  intros [H1 H2] a b a' b' Hab Hab'. split.
  - intros <-. apply H1 in Hab, Hab'. congruence.
  - intros <-. apply H2 in Hab, Hab'. congruence.
Qed.

Lemma bm_none_1 m S a : bm_refines m S -> one_map_ m !! a = None -> forall b, (a, b) ∉ S.
Proof using. intros [H1 _] E b Hb%H1. congruence. Qed.
Lemma bm_none_2 m S b : bm_refines m S -> two_map_ m !! b = None -> forall a, (a, b) ∉ S.
Proof using. intros [_ H2] E a Hb%H2. congruence. Qed.

Lemma bm_exec_insert m S a b :
  bm_refines m S -> exists r S', bm_step S (bm_op_insert a b) (bm_res_bool r) S' /\
    fst (bm_insert m a b) = r /\ bm_refines (snd (bm_insert m a b)) S'.
Proof using.
  intros Hm. pose proof Hm as [H1 H2]. unfold bm_insert. destruct (one_map_ m !! a) as [b'|] eqn:Ea.
  { exists false, S. split; [|done]. apply (bm_s_insert_taken S a b a b'); [by apply H1|by left]. }
  destruct (two_map_ m !! b) as [a'|] eqn:Eb.
  { exists false, S. split; [|done]. apply (bm_s_insert_taken S a b a' b); [by apply H2|by right]. }
  exists true, ({[ (a, b) ]} ∪ S). split; [constructor; eauto using bm_none_1, bm_none_2|]. split; [done|].
  pose proof (bm_none_1 _ _ _ Hm Ea). pose proof (bm_none_2 _ _ _ Hm Eb).
  split; intros x y; cbn [snd one_map_ two_map_]; rewrite lookup_insert_Some; [rewrite H1|rewrite H2]; set_solver.
Qed.

Lemma bm_exec_spec m S o :
  bm_refines m S ->
  (removes o S /\ bm_exec o m = None) \/
  (~ removes o S /\ exists r m' S', bm_exec o m = Some (r, m') /\ bm_step S o r S' /\ bm_refines m' S').
Proof using.
  intros Hm. pose proof Hm as [H1 H2]. destruct o as [a b|a|b|a|b|]; cbn [bm_exec removes].
  - right. split; [by intros []|]. destruct (bm_exec_insert m S a b Hm) as (r & S' & Hs & Hr & Hm').
    destruct (bm_insert m a b) as [r' m']. simpl in *. subst r'. by exists (bm_res_bool r), m', S'.
  - right. split; [by intros []|]. eexists _, m, S. split; [done|]. split; [|done]. constructor. intros b. apply H1.
  - right. split; [by intros []|]. eexists _, m, S. split; [done|]. split; [|done]. constructor. intros a. apply H2.
  - unfold remove_1. destruct (one_map_ m !! a) as [b|] eqn:E.
    + left. split; [exists b; by apply H1|]. unfold iter_second. by rewrite lookup_delete_eq.
    + pose proof (bm_none_1 _ _ _ Hm E) as Hn. right. split; [intros [b Hb]; by apply (Hn b)|].
      eexists _, m, S. split; [done|]. split; [by constructor|done].
  - unfold remove_2. destruct (two_map_ m !! b) as [a|] eqn:E.
    + left. split; [exists a; by apply H2|]. unfold iter_second. by rewrite lookup_delete_eq.
    + pose proof (bm_none_2 _ _ _ Hm E) as Hn. right. split; [intros [a Ha]; by apply (Hn a)|].
      eexists _, m, S. split; [done|]. split; [by constructor|done].
  - right. split; [by intros []|]. eexists _, _, ∅. split; [done|]. split; [constructor|].
    split; intros a b; simpl; rewrite lookup_empty; set_solver.
Qed.

(** A [BiMap] keeps a one-to-one set of pairs: every sequence of operations on a new one
    does to the set, and answers, what is meant, up to the first removal of an element that is
    present.  That removal is undefined behaviour: the iterator is read after its
    element was erased. *)
Theorem bimap_one_to_one : forall os,
  exists os1 rs m S, bm_run os1 BiMap_new = Some (rs, m) /\ bm_steps ∅ os1 rs S /\ one_to_one S /\
    (forall a b, find_1 m a = Some b <-> (a, b) ∈ S) /\ (forall a b, find_2 m b = Some a <-> (a, b) ∈ S) /\
    (os = os1 \/ exists o os2, os = os1 ++ o :: os2 /\ removes o S /\ bm_run os BiMap_new = None).
Proof using.
  assert (forall os m S, bm_refines m S -> exists os1 rs m' S', bm_run os1 m = Some (rs, m') /\ bm_steps S os1 rs S' /\
    bm_refines m' S' /\ (os = os1 \/ exists o os2, os = os1 ++ o :: os2 /\ removes o S' /\ bm_run os m = None)) as Hg.
  { intros os. induction os as [|o os IH]; intros m S Hm.
    { exists [], [], m, S. split; [done|]. split; [constructor|]. split; [done|by left]. }
    destruct (bm_exec_spec m S o Hm) as [[Hr E]|[_ (r & m1 & S1 & E & Hs & Hm1)]].
    - exists [], [], m, S. split; [done|]. split; [constructor|]. split; [done|right].
      exists o, os. split; [done|]. split; [done|]. cbn [bm_run]. by rewrite E.
    - destruct (IH m1 S1 Hm1) as (os1 & rs & m' & S' & E1 & Hss & Hm' & Hend).
      exists (o :: os1), (r :: rs), m', S'. cbn [bm_run]. rewrite E. cbv beta iota zeta delta [mbind option_bind].
      rewrite E1. split; [done|]. split; [by econstructor|]. split; [done|].
      destruct Hend as [->|(o2 & os2 & -> & Hrm & E2)]; [by left|right]. exists o2, os2. by rewrite E2. }
  intros os. destruct (Hg os BiMap_new ∅) as (os1 & rs & m & S & E & Hs & Hm & Hend).
  { split; intros a b; simpl; rewrite lookup_empty; set_solver. }
  exists os1, rs, m, S. split; [done|]. split; [done|]. split; [by eapply bm_refines_one_to_one|].
  destruct Hm as [H1 H2]. by split; [|split].
Qed.
End bimap.
Arguments BiMap : clear implicits.
Arguments BiMap T1 T2 {_ _ _ _}.
