(* ===== verification/Agent.v ===== *)
(** * Agents and their managers ([common/agent.h])

    An agent is the server's record of a peer server or a client: its connection, a state
    and the server's own data.  [AgentManager] keeps agents by key in hash maps,
    [AgentManagerPerf] by a small integer in an array.  Both find an agent by its
    connection id too.  [AgentRegistry] is the contract they share: a finite map from keys to
    agents with distinct connections. *)
From S2P Require Import Prelude.
From Stdlib Require Import ZArith Lia.
From stdpp Require Import base option list gmap.
Local Open Scope Z_scope.

Inductive AgentStateType : Type :=
| AGENT_STATE_NONE
| AGENT_STATE_CONNECTED
| AGENT_STATE_VERIFIED
| AGENT_STATE_DISCONNECT.

#[export] Instance AgentStateType_eq_dec : EqDecision AgentStateType.
Proof. solve_decision. Defined.

(** What an agent calls on the connection manager [mgr] and on its connections. *)
Class AgentCalls (W : Type) : Type := {
  ac_get : Z -> Z -> W -> bool;                                        (** [mgr_->get(conn_id_)] is not null *)
  ac_send : Z -> Z -> Z -> list Z -> Z -> W -> option (Z * W);         (** [conn->send(msgid, data, len)] *)
  ac_send_user : Z -> Z -> Z -> Z -> list Z -> Z -> W -> option (Z * W);
  ac_close : Z -> Z -> W -> option W;
  ac_force_close : Z -> Z -> W -> option W;
}.

Section agent.
Context {D : Type}.

Record Agent : Type := mkAgent {
  ag_data : D;
  ag_conn_id : Z;
  ag_mgr : Z;
  ag_state : AgentStateType;
}.

(** [d0] is the value-initialised data. *)
Definition Agent_new (d0 : D) : Agent := mkAgent d0 0 NULL AGENT_STATE_NONE.
Definition ag_init (conn_id mgr : Z) (a : Agent) : Agent := mkAgent (ag_data a) conn_id mgr AGENT_STATE_NONE.
Definition ag_setState (s : AgentStateType) (a : Agent) : Agent := mkAgent (ag_data a) (ag_conn_id a) (ag_mgr a) s.
Definition ag_setData (d : D) (a : Agent) : Agent := mkAgent d (ag_conn_id a) (ag_mgr a) (ag_state a).

Context {W : Type} `{AgentCalls W}.

Definition ag_sendMsg (a : Agent) (msgid : Z) (data : list Z) (len : Z) (w : W) : option (Z * W) :=
  if decide (ag_state a <> AGENT_STATE_VERIFIED) then Some (0, w) else
  if negb (ac_get (ag_mgr a) (ag_conn_id a) w) then Some (-1, w) else
  '(r, w) ← ac_send (ag_mgr a) (ag_conn_id a) msgid data (u32 len) w;
  Some (if r <? 0 then -1 else 0, w).

Definition ag_sendMsg_user (a : Agent) (userid msgid : Z) (data : list Z) (len : Z) (w : W) : option (Z * W) :=
  if decide (ag_state a <> AGENT_STATE_VERIFIED) then Some (0, w) else
  if negb (ac_get (ag_mgr a) (ag_conn_id a) w) then Some (-1, w) else
  '(r, w) ← ac_send_user (ag_mgr a) (ag_conn_id a) userid msgid data len w;
  Some (if r <? 0 then -1 else 0, w).

Definition ag_close (a : Agent) (w : W) : option (Z * W) :=
  if negb (ac_get (ag_mgr a) (ag_conn_id a) w) then Some (-1, w) else
  w ← ac_close (ag_mgr a) (ag_conn_id a) w; Some (0, w).

Definition ag_force_close (a : Agent) (w : W) : option (Z * W) :=
  if negb (ac_get (ag_mgr a) (ag_conn_id a) w) then Some (-1, w) else
  w ← ac_force_close (ag_mgr a) (ag_conn_id a) w; Some (0, w).
End agent.
Arguments Agent : clear implicits.

(** The agents that are allocated, by pointer. *)
Abbreviation agents D := (gmap Z (Agent D)).

(** [jmy_mem_malloc<agent_type>()] and [jmy_mem_free(agent)]. *)
Definition agent_free {D} (p : ptr) (objs : agents D) : option (agents D) := _ ← objs !! p; Some (delete p objs).

(** ** AgentManager *)

Section manager.
Context {D : Type} (d0 : D) {K : Type} `{Countable K}.

Record AgentManager : Type := mkAM {
  am_objs : agents D;
  key2agents_ : gmap K ptr;
  id2keys_ : gmap Z K;
  key2ids_ : gmap K Z;
}.

Definition AgentManager_new : AgentManager := mkAM ∅ ∅ ∅ ∅.

Definition am_getAgentSize (m : AgentManager) : Z := Z.of_nat (size (key2agents_ m)).

(** [unordered_map::insert]: an existing entry is kept. *)
Definition insert_new {A B} `{Countable A} (k : A) (v : B) (m : gmap A B) : gmap A B :=
  match m !! k with Some _ => m | None => <[k := v]> m end.

Fixpoint am_free_all (l : list (K * ptr)) (objs : agents D) : option (agents D) :=
  match l with
  | [] => Some objs
  | (_, p) :: l => if p =? NULL then am_free_all l objs else objs ← agent_free p objs; am_free_all l objs
  end.

Definition am_clear (m : AgentManager) : option AgentManager :=
  objs ← am_free_all (map_to_list (key2agents_ m)) (am_objs m);
  Some (mkAM objs ∅ ∅ (key2ids_ m)).

Definition am_newAgent (m : AgentManager) (key : K) (mgr id : Z) : option ptr * AgentManager :=
  match key2agents_ m !! key with
  | Some _ => (None, m)
  | None =>
    let agent := fresh_ptr (am_objs m) in
    (Some agent,
     mkAM (<[agent := ag_setState AGENT_STATE_VERIFIED (ag_init id mgr (Agent_new d0))]> (am_objs m))
       (<[key := agent]> (key2agents_ m)) (insert_new id key (id2keys_ m)) (insert_new key id (key2ids_ m)))
  end.

Definition am_getAgent (m : AgentManager) (key : K) : option ptr := key2agents_ m !! key.
Definition am_getAgentByConnId (m : AgentManager) (id : Z) : option ptr := key ← id2keys_ m !! id; am_getAgent m key.
Definition am_getKeyByConnId (m : AgentManager) (id : Z) : option K := id2keys_ m !! id.

Definition am_deleteAgent (m : AgentManager) (key : K) : option (bool * AgentManager) :=
  match am_getAgent m key with
  | None => Some (false, m)
  | Some agent =>
    objs ← agent_free agent (am_objs m);
    let agents := delete key (key2agents_ m) in
    Some (true, match key2ids_ m !! key with
                | Some id => mkAM objs agents (delete id (id2keys_ m)) (delete key (key2ids_ m))
                | None => mkAM objs agents (id2keys_ m) (key2ids_ m)
                end)
  end.

Definition am_deleteAgentByConnId (m : AgentManager) (id : Z) : option (bool * AgentManager) :=
  match id2keys_ m !! id with None => Some (false, m) | Some key => am_deleteAgent m key end.

Definition am_setAgentState (m : AgentManager) (key : K) (s : AgentStateType) : option (bool * AgentManager) :=
  match key2agents_ m !! key with
  | None => Some (false, m)
  | Some p => a ← am_objs m !! p;
              Some (true, mkAM (<[p := ag_setState s a]> (am_objs m)) (key2agents_ m) (id2keys_ m) (key2ids_ m))
  end.

Definition am_setAgentStateByConnId (m : AgentManager) (id : Z) (s : AgentStateType) : option (bool * AgentManager) :=
  match id2keys_ m !! id with None => Some (false, m) | Some key => am_setAgentState m key s end.
End manager.
Arguments AgentManager D K {_ _}.

(** ** AgentManagerPerf *)

Section perf.
Context {D : Type} (d0 : D) (max_id min_id : Z).

Record AgentManagerPerf : Type := mkAP {
  ap_objs : agents D;
  agents_ : list (option ptr);     (** [None] is a null pointer *)
  agent_count_ : Z;
  conn2agent_ids_ : gmap Z Z;
  agent2conn_ids_ : gmap Z Z;
}.

Definition AgentManagerPerf_new : AgentManagerPerf := mkAP ∅ (repeat None (Z.to_nat (max_id - min_id + 1))) 0 ∅ ∅.

Definition ap_getAgentSize (m : AgentManagerPerf) : Z := agent_count_ m.

Fixpoint ap_free_all (l : list (option ptr)) (objs : agents D) : option (agents D) :=
  match l with
  | [] => Some objs
  | None :: l => ap_free_all l objs
  | Some p :: l => objs ← agent_free p objs; ap_free_all l objs
  end.

Definition ap_clear (m : AgentManagerPerf) : option AgentManagerPerf :=
  objs ← ap_free_all (agents_ m) (ap_objs m);
  Some (mkAP objs ((fun _ => None) <$> agents_ m) (agent_count_ m) ∅ ∅).

Definition ap_out_of_range (m : AgentManagerPerf) (id : Z) : bool :=
  (id <? min_id) || (lenZ (agents_ m) - 1 <? id - min_id).

(** [agents_[i]] for an index in range. *)
Definition ap_at (m : AgentManagerPerf) (id : Z) : option ptr := default None (agents_ m !! Z.to_nat (id - min_id)).

Definition ap_newAgent (m : AgentManagerPerf) (id mgr conn_id : Z) : option ptr * AgentManagerPerf :=
  if ap_out_of_range m id then (None, m) else
  match ap_at m id with
  | Some _ => (None, m)
  | None =>
    let agent := fresh_ptr (ap_objs m) in
    (Some agent,
     mkAP (<[agent := ag_setState AGENT_STATE_VERIFIED (ag_init conn_id mgr (Agent_new d0))]> (ap_objs m))
       (<[Z.to_nat (id - min_id) := Some agent]> (agents_ m)) (agent_count_ m + 1)
       (insert_new conn_id id (conn2agent_ids_ m)) (insert_new id conn_id (agent2conn_ids_ m)))
  end.

Definition ap_getAgent (m : AgentManagerPerf) (id : Z) : option ptr :=
  if ap_out_of_range m id then None else ap_at m id.
Definition ap_getAgentByConnId (m : AgentManagerPerf) (conn_id : Z) : option ptr :=
  id ← conn2agent_ids_ m !! conn_id; ap_getAgent m id.
Definition ap_getIdByConnId (m : AgentManagerPerf) (conn_id : Z) : option Z := conn2agent_ids_ m !! conn_id.

Definition ap_deleteAgent (m : AgentManagerPerf) (id : Z) : option (bool * AgentManagerPerf) :=
  match ap_getAgent m id with
  | None => Some (false, m)
  | Some agent =>
    objs ← agent_free agent (ap_objs m);
    if agent_count_ m =? 0
    then Some (false, mkAP objs (agents_ m) (agent_count_ m) (conn2agent_ids_ m) (agent2conn_ids_ m)) else
    let l := <[Z.to_nat (id - min_id) := None]> (agents_ m) in
    Some (true, match agent2conn_ids_ m !! id with
                | Some c => mkAP objs l (agent_count_ m - 1) (delete c (conn2agent_ids_ m)) (delete id (agent2conn_ids_ m))
                | None => mkAP objs l (agent_count_ m - 1) (conn2agent_ids_ m) (agent2conn_ids_ m)
                end)
  end.

Definition ap_deleteAgentByConnId (m : AgentManagerPerf) (conn_id : Z) : option (bool * AgentManagerPerf) :=
  match conn2agent_ids_ m !! conn_id with None => Some (false, m) | Some id => ap_deleteAgent m id end.

(** After [agent->setState(state)] the function runs off its end without returning the [bool] it
    declares, which is undefined behaviour. *)
Definition ap_setAgentState (m : AgentManagerPerf) (id : Z) (s : AgentStateType) : option (bool * AgentManagerPerf) :=
  match ap_getAgent m id with None => Some (false, m) | Some _ => None end.

Definition ap_setAgentStateByConnId (m : AgentManagerPerf) (conn_id : Z) (s : AgentStateType)
  : option (bool * AgentManagerPerf) :=
  match conn2agent_ids_ m !! conn_id with None => Some (false, m) | Some id => ap_setAgentState m id s end.
End perf.
Arguments AgentManagerPerf : clear implicits.

(** ** The contract: a map from keys to agents with distinct connections *)

Section registry.
Context {D : Type} (d0 : D) {K : Type} `{Countable K}.
Notation registry := (gmap K (Agent D)).

Inductive rg_op : Type :=
| rg_new (k : K) (mgr conn : Z)
| rg_get (k : K)
| rg_get_conn (conn : Z)
| rg_key_of (conn : Z)
| rg_delete (k : K)
| rg_delete_conn (conn : Z)
| rg_set_state (k : K) (s : AgentStateType)
| rg_set_state_conn (conn : Z) (s : AgentStateType)
| rg_size.

Inductive rg_res : Type :=
| rr_agent (a : option (Agent D))
| rr_bool (b : bool)
| rr_key (k : option K)
| rr_size (n : Z).

(** The key of the agent with a connection. *)
Definition by_conn (M : registry) (c : Z) (ok : option K) : Prop :=
  match ok with
  | Some k => exists a, M !! k = Some a /\ ag_conn_id a = c
  | None => forall k a, M !! k = Some a -> ag_conn_id a <> c
  end.

Definition rg_new_agent (mgr c : Z) : Agent D := mkAgent d0 c mgr AGENT_STATE_VERIFIED.
Definition is_present {A} (x : option A) : bool := match x with Some _ => true | None => false end.
Definition rg_del (k : option K) (M : registry) : registry := match k with Some k => delete k M | None => M end.
Definition rg_set (s : AgentStateType) (k : option K) (M : registry) : registry :=
  match k with Some k => alter (ag_setState s) k M | None => M end.

Inductive rg_step (accepts : K -> bool) (M : registry) : rg_op -> rg_res -> registry -> Prop :=
| rs_new k mgr c : M !! k = None -> accepts k = true ->
    rg_step accepts M (rg_new k mgr c) (rr_agent (Some (rg_new_agent mgr c))) (<[k := rg_new_agent mgr c]> M)
| rs_refused k mgr c : is_Some (M !! k) \/ accepts k = false -> rg_step accepts M (rg_new k mgr c) (rr_agent None) M
| rs_get k : rg_step accepts M (rg_get k) (rr_agent (M !! k)) M
| rs_get_conn c ok : by_conn M c ok -> rg_step accepts M (rg_get_conn c) (rr_agent (k ← ok; M !! k)) M
| rs_key_of c ok : by_conn M c ok -> rg_step accepts M (rg_key_of c) (rr_key ok) M
| rs_delete k : rg_step accepts M (rg_delete k) (rr_bool (is_present (M !! k))) (delete k M)
| rs_delete_conn c ok : by_conn M c ok -> rg_step accepts M (rg_delete_conn c) (rr_bool (is_present ok)) (rg_del ok M)
| rs_set k s : rg_step accepts M (rg_set_state k s) (rr_bool (is_present (M !! k))) (rg_set s (Some k) M)
| rs_set_conn c s ok : by_conn M c ok ->
    rg_step accepts M (rg_set_state_conn c s) (rr_bool (is_present ok)) (rg_set s ok M)
| rs_size : rg_step accepts M rg_size (rr_size (Z.of_nat (size M))) M.

Inductive rg_trace (accepts : K -> bool) : registry -> list rg_op -> list rg_res -> registry -> Prop :=
| rg_trace_nil M : rg_trace accepts M [] [] M
| rg_trace_cons M o r M' os rs M'' :
    rg_step accepts M o r M' -> rg_trace accepts M' os rs M'' -> rg_trace accepts M (o :: os) (r :: rs) M''.

(** What a client must respect: the connection of a new agent is not in use; and, where
    setting the state is not defined ([sets] is false), no state is set. *)
Definition rg_ok (sets : bool) (M : registry) (o : rg_op) : Prop :=
  match o with
  | rg_new _ _ c => forall k a, M !! k = Some a -> ag_conn_id a <> c
  | rg_set_state k _ => sets = true \/ M !! k = None
  | rg_set_state_conn c _ => sets = true \/ by_conn M c None
  | _ => True
  end.

Fixpoint rg_all_ok (accepts : K -> bool) (sets : bool) (M : registry) (os : list rg_op) : Prop :=
  match os with
  | [] => True
  | o :: os => rg_ok sets M o /\ forall r M', rg_step accepts M o r M' -> rg_all_ok accepts sets M' os
  end.

(** The interface: a manager's operations and its contract. *)
Class AgentRegistry (Mg : Type) : Type := {
  ar_exec : rg_op -> Mg -> option (rg_res * Mg);
  ar_accepts : K -> bool;
  ar_sets : bool;
  ar_rel : Mg -> registry -> Prop;
  ar_law : forall m M o, ar_rel m M -> rg_ok ar_sets M o ->
    exists r m' M', ar_exec o m = Some (r, m') /\ rg_step ar_accepts M o r M' /\ ar_rel m' M';
}.

Fixpoint ar_run {Mg} `{AgentRegistry Mg} (os : list rg_op) (m : Mg) : option (list rg_res * Mg) :=
  match os with
  | [] => Some ([], m)
  | o :: os => '(r, m) ← ar_exec o m; '(rs, m) ← ar_run os m; Some (r :: rs, m)
  end.

Lemma ar_run_traces {Mg} `{AgentRegistry Mg} os m M :
  ar_rel m M -> rg_all_ok ar_accepts ar_sets M os ->
  exists rs m' M', ar_run os m = Some (rs, m') /\ rg_trace ar_accepts M os rs M' /\ ar_rel m' M'.
Proof using.
  revert m M. induction os as [|o os IH]; intros m M Hm Hok; [exists [], m, M; split; [done|split; [constructor|done]]|].
  destruct Hok as [Ho Hok]. destruct (ar_law m M o Hm Ho) as (r & m1 & M1 & E & Hs & Hm1).
  destruct (IH m1 M1 Hm1 (Hok _ _ Hs)) as (rs & m2 & M2 & E2 & Ht & Hm2).
  exists (r :: rs), m2, M2. cbn [ar_run]. rewrite E. cbv beta iota zeta delta [mbind option_bind]. rewrite E2.
  split; [done|]. split; [by econstructor|done].
Qed.

(** ** What both managers store: agents by key, and the two maps between connections and keys *)

Record store_rel (get : K -> option ptr) (objs : agents D) (id2k : gmap Z K) (k2id : gmap K Z) (M : registry) : Prop := {
  sr_get : forall k p, get k = Some p -> exists a, objs !! p = Some a /\ M !! k = Some a;
  sr_none : forall k, get k = None -> M !! k = None;
  sr_inj : forall k k' p, get k = Some p -> get k' = Some p -> k = k';
  sr_k2id : forall k, k2id !! k = ag_conn_id <$> M !! k;
  sr_id2k : forall c k, id2k !! c = Some k <-> exists a, M !! k = Some a /\ ag_conn_id a = c;
}.

Lemma sr_lookup get objs id2k k2id M k :
  store_rel get objs id2k k2id M -> (p ← get k; objs !! p) = M !! k /\ is_present (get k) = is_present (M !! k).
Proof using.
  intros [Hg Hn _ _ _]. destruct (get k) as [p|] eqn:E; simpl; [|by rewrite (Hn k E)].
  destruct (Hg k p E) as (a & -> & ->). done.
Qed.

Lemma sr_by_conn get objs id2k k2id M c : store_rel get objs id2k k2id M -> by_conn M c (id2k !! c).
Proof using.
  intros [_ _ _ _ Hc]. destruct (id2k !! c) as [k|] eqn:E; [by apply Hc|].
  intros k a Hk Ha. assert (id2k !! c = Some k) by (apply Hc; eauto). congruence.
Qed.

Lemma sr_distinct get objs id2k k2id M k k' a a' :
  store_rel get objs id2k k2id M -> M !! k = Some a -> M !! k' = Some a' -> ag_conn_id a = ag_conn_id a' -> k = k'.
Proof using.
  intros [_ _ _ _ Hc] H1 H2 He. assert (id2k !! ag_conn_id a = Some k) by (apply Hc; eauto).
  assert (id2k !! ag_conn_id a = Some k') by (apply Hc; eauto). congruence.
Qed.

Lemma sr_new get get' objs id2k k2id M k mgr c :
  store_rel get objs id2k k2id M -> get k = None -> (forall k a, M !! k = Some a -> ag_conn_id a <> c) ->
  get' k = Some (fresh_ptr objs) -> (forall k', k' <> k -> get' k' = get k') ->
  store_rel get' (<[fresh_ptr objs := rg_new_agent mgr c]> objs) (insert_new c k id2k) (insert_new k c k2id)
    (<[k := rg_new_agent mgr c]> M).
Proof using.
  intros Hsr Hk Hc Hg' Hg. pose proof Hsr as [H1 H2 H3 H4 H5].
  assert (Hold : forall k' p, get k' = Some p -> p <> fresh_ptr objs).
  { intros k' p Hp ->. destruct (H1 _ _ Hp) as (a & Ha & _). apply fresh_ptr_gt in Ha. lia. }
  assert (Hik : insert_new k c k2id = <[k := c]> k2id).
  { unfold insert_new. by rewrite H4, (H2 k Hk). }
  assert (Hic : insert_new c k id2k = <[c := k]> id2k).
  { unfold insert_new. pose proof (sr_by_conn _ _ _ _ _ c Hsr) as Hbc. destruct (id2k !! c) as [k'|]; [|done].
    destruct Hbc as (a & Ha & Hca). by destruct (Hc _ _ Ha). }
  rewrite Hik, Hic. constructor.
  - intros k' p Hp. destruct (decide (k' = k)) as [->|Hne].
    + rewrite Hg' in Hp. injection Hp as <-. rewrite !lookup_insert_eq. eauto.
    + rewrite Hg in Hp by done. pose proof (Hold _ _ Hp). rewrite !lookup_insert_ne by done. by apply H1.
  - intros k' Hp. destruct (decide (k' = k)) as [->|Hne]; [congruence|]. rewrite Hg in Hp by done.
    rewrite lookup_insert_ne by done. by apply H2.
  - intros k1 k2 p Hp1 Hp2. destruct (decide (k1 = k)) as [->|N1], (decide (k2 = k)) as [->|N2]; rewrite ?Hg', ?Hg in * by done.
    + done.
    + injection Hp1 as <-. by destruct (Hold _ _ Hp2).
    + injection Hp2 as <-. by destruct (Hold _ _ Hp1).
    + by eapply H3.
  - intros k'. destruct (decide (k' = k)) as [->|]; [by rewrite !lookup_insert_eq|]. by rewrite !lookup_insert_ne.
  - intros c' k'. rewrite lookup_insert_Some, H5. setoid_rewrite lookup_insert_Some. split.
    + intros [[<- <-]|[Hne (a & Ha & <-)]]; [eexists; split; [by left|done]|]. exists a. split; [right|done].
      split; [|done]. intros <-. rewrite (H2 k Hk) in Ha. done.
    + intros (a & [[<- <-]|[Hne Ha]] & <-); [by left|right]. split; [|by exists a]. intros E. by apply (Hc _ _ Ha).
Qed.

Lemma sr_delete get get' objs id2k k2id M k p c :
  store_rel get objs id2k k2id M -> get k = Some p -> k2id !! k = Some c ->
  get' k = None -> (forall k', k' <> k -> get' k' = get k') ->
  store_rel get' (delete p objs) (delete c id2k) (delete k k2id) (delete k M).
Proof using.
  intros Hsr Hk Hkc Hg' Hg. pose proof Hsr as [H1 H2 H3 H4 H5].
  destruct (H1 _ _ Hk) as (a & Ha & HMa). rewrite H4, HMa in Hkc. injection Hkc as Hca. constructor.
  - intros k' p' Hp. destruct (decide (k' = k)) as [->|Hne]; [congruence|]. rewrite Hg in Hp by done.
    rewrite !lookup_delete_ne; [by apply H1|done|]. intros <-. by apply Hne, (H3 _ _ p).
  - intros k' Hp. destruct (decide (k' = k)) as [->|Hne]; [by rewrite lookup_delete_eq|]. rewrite Hg in Hp by done.
    rewrite lookup_delete_ne by done. by apply H2.
  - intros k1 k2 q Hq1 Hq2. destruct (decide (k1 = k)) as [->|N1], (decide (k2 = k)) as [->|N2]; try congruence.
    rewrite Hg in * by done. by eapply H3.
  - intros k'. destruct (decide (k' = k)) as [->|]; [by rewrite !lookup_delete_eq|]. by rewrite !lookup_delete_ne.
  - intros c' k'. rewrite lookup_delete_Some, H5. setoid_rewrite lookup_delete_Some. split.
    + intros [Hne (a' & Ha' & <-)]. exists a'. split; [|done]. split; [|done]. intros <-. congruence.
    + intros (a' & [Hne Ha'] & <-). split; [|by exists a']. intros E. apply Hne.
      eapply sr_distinct; [done|exact HMa|exact Ha'|congruence].
Qed.

Lemma sr_set get objs id2k k2id M k p a s :
  store_rel get objs id2k k2id M -> get k = Some p -> objs !! p = Some a ->
  store_rel get (<[p := ag_setState s a]> objs) id2k k2id (alter (ag_setState s) k M).
Proof using.
  intros Hsr Hk Hp. pose proof Hsr as [H1 H2 H3 H4 H5]. destruct (H1 _ _ Hk) as (a' & Ha' & HM). simplify_eq.
  assert (Hconn : forall k', ag_conn_id <$> alter (ag_setState s) k M !! k' = ag_conn_id <$> M !! k').
  { intros k'. destruct (decide (k' = k)) as [->|]; [rewrite lookup_alter_eq, HM; done|by rewrite lookup_alter_ne]. }
  constructor.
  - intros k' q Hq. destruct (H1 _ _ Hq) as (b & Hb & HMb). destruct (decide (k' = k)) as [->|Hne].
    + assert (q = p) as -> by congruence. rewrite lookup_insert_eq, lookup_alter_eq, HM. eauto.
    + rewrite lookup_insert_ne, lookup_alter_ne; [by exists b|done|]. intros <-. by apply Hne, (H3 _ _ p).
  - intros k' Hq. destruct (decide (k' = k)) as [->|]; [congruence|]. rewrite lookup_alter_ne by done. by apply H2.
  - done.
  - intros k'. by rewrite H4, Hconn.
  - intros c k'. rewrite H5. specialize (Hconn k'). split; intros (b & Hb & <-); rewrite Hb in Hconn; simpl in Hconn.
    + destruct (alter _ _ _ !! k') as [b'|] eqn:E; [|done]. exists b'. split; [done|]. simpl in Hconn. congruence.
    + destruct (M !! k') as [b'|] eqn:E; [|done]. exists b'. split; [done|]. simpl in Hconn. congruence.
Qed.
End registry.

(** The agent behind a pointer that was returned. *)
Definition deref {D K : Type} (p : option ptr) (objs : agents D) : option (@rg_res D K) :=
  match p with None => Some (rr_agent None) | Some p => a ← objs !! p; Some (rr_agent (Some a)) end.

Lemma deref_rel {D K : Type} `{Countable K} (get : K -> option ptr) (objs : agents D) id2k k2id M k :
  store_rel get objs id2k k2id M -> deref (K := K) (get k) objs = Some (rr_agent (M !! k)).
Proof.
  intros Hsr. unfold deref. destruct (get k) as [p|] eqn:E.
  - destruct (sr_get _ _ _ _ _ Hsr _ _ E) as (a & -> & ->). done.
  - by rewrite (sr_none _ _ _ _ _ Hsr _ E).
Qed.

Lemma is_present_is_Some {A} (x : option A) : is_present x = true <-> is_Some x.
Proof. by destruct x. Qed.

(** ** AgentManager implements the contract *)

Section manager_instance.
Context {D : Type} (d0 : D) {K : Type} `{Countable K}.

Definition am_exec (o : @rg_op K) (m : AgentManager D K) : option (@rg_res D K * AgentManager D K) :=
  match o with
  | rg_new k mgr c => let '(p, m) := am_newAgent d0 m k mgr c in r ← deref p (am_objs m); Some (r, m)
  | rg_get k => r ← deref (am_getAgent m k) (am_objs m); Some (r, m)
  | rg_get_conn c => r ← deref (am_getAgentByConnId m c) (am_objs m); Some (r, m)
  | rg_key_of c => Some (rr_key (am_getKeyByConnId m c), m)
  | rg_delete k => '(b, m) ← am_deleteAgent m k; Some (rr_bool b, m)
  | rg_delete_conn c => '(b, m) ← am_deleteAgentByConnId m c; Some (rr_bool b, m)
  | rg_set_state k s => '(b, m) ← am_setAgentState m k s; Some (rr_bool b, m)
  | rg_set_state_conn c s => '(b, m) ← am_setAgentStateByConnId m c s; Some (rr_bool b, m)
  | rg_size => Some (rr_size (am_getAgentSize m), m)
  end.

Definition am_rel (m : AgentManager D K) (M : gmap K (Agent D)) : Prop :=
  store_rel (am_getAgent m) (am_objs m) (id2keys_ m) (key2ids_ m) M.

Lemma am_new_law m M k mgr c :
  am_rel m M -> (forall k a, M !! k = Some a -> ag_conn_id a <> c) ->
  exists r m' M', am_exec (rg_new k mgr c) m = Some (r, m') /\ rg_step d0 (fun _ => true) M (rg_new k mgr c) r M' /\ am_rel m' M'.
Proof using.
  intros Hm Hc. cbn [am_exec]. unfold am_newAgent. destruct (key2agents_ m !! k) as [p|] eqn:E.
  - destruct (sr_get _ _ _ _ _ Hm _ _ E) as (a & _ & HM).
    eexists _, m, M. split; [done|]. split; [|done]. apply rs_refused. left. eauto.
  - cbn [am_objs deref]. rewrite lookup_insert_eq. cbv beta iota zeta delta [mbind option_bind].
    eexists _, _, _. split; [reflexivity|]. split; [apply rs_new; [by apply (sr_none _ _ _ _ _ Hm)|done]|].
    apply (sr_new d0 (am_getAgent m)); [done|done|done|apply lookup_insert_eq|].
    intros k' Hk'. unfold am_getAgent. simpl. by rewrite lookup_insert_ne.
Qed.

Lemma am_delete_law m M k :
  am_rel m M ->
  exists m', am_deleteAgent m k = Some (is_present (M !! k), m') /\ am_rel m' (delete k M).
Proof using.
  intros Hm. unfold am_deleteAgent. destruct (am_getAgent m k) as [p|] eqn:E.
  - destruct (sr_get _ _ _ _ _ Hm _ _ E) as (a & Ha & HM). unfold agent_free. rewrite Ha.
    cbv beta iota zeta delta [mbind option_bind]. pose proof (sr_k2id _ _ _ _ _ Hm k) as Hkc. rewrite HM in Hkc.
    cbn in Hkc. rewrite Hkc, HM. eexists. split; [reflexivity|].
    apply (sr_delete (am_getAgent m)); [done|done|done|apply lookup_delete_eq|].
    intros k' Hk'. unfold am_getAgent. simpl. by rewrite lookup_delete_ne.
  - pose proof (sr_none _ _ _ _ _ Hm _ E) as HM. rewrite HM. exists m. split; [done|]. by rewrite delete_id.
Qed.

Lemma am_set_law m M k s :
  am_rel m M ->
  exists m', am_setAgentState m k s = Some (is_present (M !! k), m') /\ am_rel m' (alter (ag_setState s) k M).
Proof using.
  intros Hm. unfold am_setAgentState. destruct (key2agents_ m !! k) as [p|] eqn:E.
  - destruct (sr_get _ _ _ _ _ Hm _ _ E) as (a & Ha & HM). rewrite Ha, HM.
    cbv beta iota zeta delta [mbind option_bind]. eexists. split; [reflexivity|].
    by apply (sr_set (am_getAgent m)).
  - pose proof (sr_none _ _ _ _ _ Hm _ E) as HM. rewrite HM. exists m. split; [done|].
    replace (alter (ag_setState s) k M) with M; [done|]. symmetry. apply alter_id. intros x Hx. congruence.
Qed.

Lemma am_size_law m M : am_rel m M -> size (key2agents_ m) = size M.
Proof using.
  intros Hm. rewrite <-!size_dom. f_equal. apply set_eq. intros k. rewrite !elem_of_dom.
  destruct (sr_lookup _ _ _ _ _ k Hm) as [_ Hp]. rewrite <-!is_present_is_Some.
  unfold am_getAgent in Hp. by rewrite Hp.
Qed.

#[export] Instance AgentManager_registry : @AgentRegistry D d0 K _ _ (AgentManager D K).
Proof using.
  refine {| ar_exec := am_exec; ar_accepts _ := true; ar_sets := true; ar_rel := am_rel |}.
  intros m M o Hm Hok. pose proof (fun c => sr_by_conn _ _ _ _ M c Hm) as Hbc. destruct o as [k mgr c|k|c|c|k|c|k s|c s|]; cbn [rg_ok] in Hok.
  - by apply am_new_law.
  - cbn [am_exec]. rewrite (deref_rel _ _ _ _ M k Hm). eexists _, m, M. by split; [|split; [constructor|]].
  - cbn [am_exec]. unfold am_getAgentByConnId. specialize (Hbc c).
    assert (deref (k ← id2keys_ m !! c; am_getAgent m k) (am_objs m) = Some (rr_agent (K := K) (k ← id2keys_ m !! c; M !! k))) as ->.
    { destruct (id2keys_ m !! c) as [k|]; [apply (deref_rel _ _ _ _ M k Hm)|done]. }
    eexists _, m, M. split; [done|]. split; [by apply rs_get_conn|done].
  - eexists _, m, M. split; [done|]. split; [|done]. apply rs_key_of. by apply Hbc.
  - cbn [am_exec]. destruct (am_delete_law m M k Hm) as (m' & -> & Hm'). eexists _, _, _. split; [done|]. by split; [constructor|].
  - cbn [am_exec]. unfold am_deleteAgentByConnId. specialize (Hbc c). destruct (id2keys_ m !! c) as [k|].
    + destruct (am_delete_law m M k Hm) as (m' & -> & Hm'). eexists _, _, _. split; [done|].
      split; [|exact Hm']. pose proof (rs_delete_conn d0 (fun _ => true) M c _ Hbc) as Hs.
      destruct Hbc as (a & Ha & _). by rewrite Ha.
    + eexists _, _, _. split; [done|]. by split; [apply (rs_delete_conn _ _ _ _ None)|].
  - cbn [am_exec]. destruct (am_set_law m M k s Hm) as (m' & -> & Hm'). eexists _, _, _. split; [done|].
    split; [constructor|done].
  - cbn [am_exec]. unfold am_setAgentStateByConnId. specialize (Hbc c). destruct (id2keys_ m !! c) as [k|].
    + destruct (am_set_law m M k s Hm) as (m' & -> & Hm'). eexists _, _, _. split; [done|].
      split; [|exact Hm']. pose proof (rs_set_conn d0 (fun _ => true) M c s _ Hbc) as Hs.
      destruct Hbc as (a & Ha & _). by rewrite Ha.
    + eexists _, _, _. split; [done|]. by split; [apply (rs_set_conn _ _ _ _ _ None)|].
  - eexists _, m, M. split; [done|]. split; [|done]. unfold am_getAgentSize. rewrite (am_size_law m M Hm). constructor.
Defined.
End manager_instance.

(** ** AgentManagerPerf implements the contract, but for setting a state *)

Section perf_instance.
Context {D : Type} (d0 : D) (max_id min_id : Z) (Hids : min_id <= max_id).
Notation Mgr := (AgentManagerPerf D).
Notation get := (ap_getAgent min_id).

Definition ap_exec (o : @rg_op Z) (m : Mgr) : option (@rg_res D Z * Mgr) :=
  match o with
  | rg_new k mgr c => let '(p, m) := ap_newAgent d0 min_id m k mgr c in r ← deref p (ap_objs m); Some (r, m)
  | rg_get k => r ← deref (get m k) (ap_objs m); Some (r, m)
  | rg_get_conn c => r ← deref (ap_getAgentByConnId min_id m c) (ap_objs m); Some (r, m)
  | rg_key_of c => Some (rr_key (ap_getIdByConnId m c), m)
  | rg_delete k => '(b, m) ← ap_deleteAgent min_id m k; Some (rr_bool b, m)
  | rg_delete_conn c => '(b, m) ← ap_deleteAgentByConnId min_id m c; Some (rr_bool b, m)
  | rg_set_state k s => '(b, m) ← ap_setAgentState min_id m k s; Some (rr_bool b, m)
  | rg_set_state_conn c s => '(b, m) ← ap_setAgentStateByConnId min_id m c s; Some (rr_bool b, m)
  | rg_size => Some (rr_size (ap_getAgentSize m), m)
  end.

Definition ap_accepts (k : Z) : bool := (min_id <=? k) && (k <=? max_id).

Record ap_rel (m : Mgr) (M : gmap Z (Agent D)) : Prop := {
  apr_len : lenZ (agents_ m) = max_id - min_id + 1;
  apr_count : agent_count_ m = Z.of_nat (size M);
  apr_store : store_rel (get m) (ap_objs m) (conn2agent_ids_ m) (agent2conn_ids_ m) M;
}.

Lemma ap_range (m : Mgr) k : lenZ (agents_ m) = max_id - min_id + 1 -> ap_out_of_range min_id m k = negb (ap_accepts k).
Proof using. clear Hids. intros Hl. unfold ap_out_of_range, ap_accepts. rewrite Hl. zbool. Qed.

(** Writing an entry of the array changes what is found for its id only. *)
Lemma ap_get_put (m m' : Mgr) k x k' :
  lenZ (agents_ m) = max_id - min_id + 1 -> ap_accepts k = true ->
  agents_ m' = <[Z.to_nat (k - min_id) := x]> (agents_ m) ->
  lenZ (agents_ m') = max_id - min_id + 1 /\ get m' k' = if decide (k' = k) then x else get m k'.
Proof using.
  clear Hids. intros Hl Hk E. assert (Hl' : lenZ (agents_ m') = max_id - min_id + 1) by (by rewrite E, length_insert).
  split; [done|]. unfold ap_getAgent, ap_at. rewrite !ap_range, E by done. destruct (decide (k' = k)) as [->|Hne].
  - rewrite Hk. cbn [negb]. unfold ap_accepts in Hk. apply andb_true_iff in Hk as [H1%Z.leb_le H2%Z.leb_le].
    by rewrite list_lookup_insert_eq by lia.
  - destruct (ap_accepts k') eqn:Hk'; [|done]. cbn [negb]. unfold ap_accepts in *.
    apply andb_true_iff in Hk as [H1%Z.leb_le H2%Z.leb_le]. apply andb_true_iff in Hk' as [H3%Z.leb_le H4%Z.leb_le].
    by rewrite list_lookup_insert_ne by lia.
Qed.

Lemma ap_get_put_eq (m m' : Mgr) k x :
  lenZ (agents_ m) = max_id - min_id + 1 -> ap_accepts k = true ->
  agents_ m' = <[Z.to_nat (k - min_id) := x]> (agents_ m) -> get m' k = x.
Proof using. intros Hl Hk E. destruct (ap_get_put m m' k x k Hl Hk E) as [_ ->]. by rewrite decide_True. Qed.

Lemma ap_get_put_ne (m m' : Mgr) k x k' :
  lenZ (agents_ m) = max_id - min_id + 1 -> ap_accepts k = true ->
  agents_ m' = <[Z.to_nat (k - min_id) := x]> (agents_ m) -> k' <> k -> get m' k' = get m k'.
Proof using. intros Hl Hk E Hne. destruct (ap_get_put m m' k x k' Hl Hk E) as [_ ->]. by rewrite decide_False. Qed.

Lemma ap_get_accepts m M k p : ap_rel m M -> get m k = Some p -> ap_accepts k = true.
Proof using.
  clear Hids. intros [Hl _ _]. unfold ap_getAgent. rewrite ap_range by done. by destruct (ap_accepts k).
Qed.

Lemma ap_new_law m M k mgr c :
  ap_rel m M -> (forall k a, M !! k = Some a -> ag_conn_id a <> c) ->
  exists r m' M', ap_exec (rg_new k mgr c) m = Some (r, m') /\ rg_step d0 ap_accepts M (rg_new k mgr c) r M' /\ ap_rel m' M'.
Proof using.
  clear Hids. intros Hm Hc. pose proof Hm as [Hl Hn Hst]. cbn [ap_exec]. unfold ap_newAgent. rewrite ap_range by done.
  destruct (ap_accepts k) eqn:Hk; cbn [negb].
  2: { eexists _, m, M. split; [done|]. split; [|done]. apply rs_refused. by right. }
  destruct (ap_at min_id m k) as [p|] eqn:E.
  - assert (Hg : get m k = Some p) by (unfold ap_getAgent; by rewrite ap_range, Hk).
    destruct (sr_get _ _ _ _ _ Hst _ _ Hg) as (a & _ & HM).
    eexists _, m, M. split; [done|]. split; [|done]. apply rs_refused. left. eauto.
  - assert (Hg : get m k = None) by (unfold ap_getAgent; by rewrite ap_range, Hk).
    pose proof (sr_none _ _ _ _ _ Hst _ Hg) as HM.
    cbn [ap_objs deref]. rewrite lookup_insert_eq. cbv beta iota zeta delta [mbind option_bind].
    eexists _, _, _. split; [reflexivity|]. split; [by apply rs_new|]. constructor.
    + cbn [agents_]. by rewrite length_insert.
    + cbn [agent_count_]. rewrite map_size_insert_None by done. lia.
    + apply (sr_new d0 (get m)); [done|done|done| |].
      * by apply (ap_get_put_eq m).
      * intros k' Hk'. by eapply (ap_get_put_ne m).
Qed.

Lemma ap_delete_law m M k :
  ap_rel m M -> exists m', ap_deleteAgent min_id m k = Some (is_present (M !! k), m') /\ ap_rel m' (delete k M).
Proof using.
  clear Hids. intros Hm. pose proof Hm as [Hl Hn Hst]. unfold ap_deleteAgent. destruct (get m k) as [p|] eqn:E.
  - pose proof (ap_get_accepts _ _ _ _ Hm E) as Hk.
    destruct (sr_get _ _ _ _ _ Hst _ _ E) as (a & Ha & HM). unfold agent_free. rewrite Ha.
    cbv beta iota zeta delta [mbind option_bind]. pose proof (sr_k2id _ _ _ _ _ Hst k) as Hkc. rewrite HM in Hkc.
    cbn in Hkc. rewrite Hkc, HM.
    assert (Hpos : (size M <> 0)%nat) by (intros Hz; apply map_size_empty_inv in Hz; by rewrite Hz, lookup_empty in HM).
    rewrite (proj2 (Z.eqb_neq _ 0)) by lia. eexists. split; [reflexivity|]. constructor.
    + cbn [agents_]. by rewrite length_insert.
    + cbn [agent_count_]. rewrite map_size_delete_Some by eauto. lia.
    + apply (sr_delete (get m)); [done|done|done| |].
      * by apply (ap_get_put_eq m).
      * intros k' Hk'. by eapply (ap_get_put_ne m).
  - pose proof (sr_none _ _ _ _ _ Hst _ E) as HM. rewrite HM. exists m. split; [done|]. by rewrite delete_id.
Qed.

Lemma ap_set_law m M k s :
  ap_rel m M -> M !! k = None -> ap_setAgentState min_id m k s = Some (false, m) /\ alter (ag_setState s) k M = M.
Proof using.
  clear Hids. intros [_ _ Hst] HM. unfold ap_setAgentState. destruct (get m k) as [p|] eqn:E.
  - destruct (sr_get _ _ _ _ _ Hst _ _ E) as (a & _ & Ha). congruence.
  - split; [done|]. apply alter_id. intros x Hx. congruence.
Qed.

Definition AgentManagerPerf_registry : @AgentRegistry D d0 Z _ _ Mgr.
Proof using Hids.
  refine {| ar_exec := ap_exec; ar_accepts := ap_accepts; ar_sets := false; ar_rel := ap_rel |}.
  intros m M o Hm Hok. pose proof Hm as [Hl Hn Hst]. pose proof (fun c => sr_by_conn _ _ _ _ M c Hst) as Hbc.
  destruct o as [k mgr c|k|c|c|k|c|k s|c s|]; cbn [rg_ok] in Hok.
  - by apply ap_new_law.
  - cbn [ap_exec]. rewrite (deref_rel _ _ _ _ M k Hst). eexists _, m, M. by split; [|split; [constructor|]].
  - cbn [ap_exec]. unfold ap_getAgentByConnId. specialize (Hbc c).
    assert (deref (k ← conn2agent_ids_ m !! c; get m k) (ap_objs m) = Some (rr_agent (K := Z) (k ← conn2agent_ids_ m !! c; M !! k))) as ->.
    { destruct (conn2agent_ids_ m !! c) as [k|]; [apply (deref_rel _ _ _ _ M k Hst)|done]. }
    eexists _, m, M. split; [done|]. split; [by apply rs_get_conn|done].
  - eexists _, m, M. split; [done|]. split; [|done]. apply rs_key_of. by apply Hbc.
  - cbn [ap_exec]. destruct (ap_delete_law m M k Hm) as (m' & -> & Hm'). eexists _, _, _. split; [done|]. by split; [constructor|].
  - cbn [ap_exec]. unfold ap_deleteAgentByConnId. specialize (Hbc c). destruct (conn2agent_ids_ m !! c) as [k|].
    + destruct (ap_delete_law m M k Hm) as (m' & -> & Hm'). eexists _, _, _. split; [done|].
      split; [|exact Hm']. pose proof (rs_delete_conn d0 ap_accepts M c _ Hbc) as Hs.
      destruct Hbc as (a & Ha & _). by rewrite Ha.
    + eexists _, _, _. split; [done|]. by split; [apply (rs_delete_conn _ _ _ _ None)|].
  - destruct Hok as [?|Hk]; [done|]. cbn [ap_exec]. destruct (ap_set_law m M k s Hm Hk) as [-> Ea].
    eexists _, m, M. split; [done|]. split; [|done]. pose proof (rs_set d0 ap_accepts M k s) as Hs.
    cbn [rg_set] in Hs. by rewrite Ea, Hk in Hs.
  - destruct Hok as [?|Hc]; [done|]. cbn [ap_exec]. unfold ap_setAgentStateByConnId. specialize (Hbc c).
    destruct (conn2agent_ids_ m !! c) as [k|]; [destruct Hbc as (a & Ha & Hac); by destruct (Hc _ _ Ha)|].
    eexists _, m, M. split; [done|]. by split; [apply (rs_set_conn _ _ _ _ _ None)|].
  - eexists _, m, M. split; [done|]. split; [|done]. unfold ap_getAgentSize. rewrite Hn. constructor.
Defined.
End perf_instance.

Lemma store_rel_empty {D K : Type} `{Countable K} (get : K -> option ptr) : (forall k, get k = None) -> store_rel (D := D) get ∅ ∅ ∅ ∅.
Proof.
  intros Hg. constructor.
  - intros k p E. by rewrite Hg in E.
  - intros k _. apply lookup_empty.
  - intros k k' p E. by rewrite Hg in E.
  - intros k. by rewrite !lookup_empty.
  - intros c k. rewrite lookup_empty. split; [done|]. intros (a & Ha & _). by rewrite lookup_empty in Ha.
Qed.

Section registries.
Context {D : Type} (d0 : D) {K : Type} `{Countable K}.

(** C12.  Both agent managers are registries.  As long as a new agent gets a connection that no
    agent has, every sequence of operations on a new manager runs without undefined behaviour
    and answers as a finite map from keys to agents with distinct connections does:
    creating, finding by key and by connection, deleting by either, setting the
    state, counting.  [AgentManagerPerf] does so for the keys in its range and refuses the
    others, in every sequence that does not set the state of an agent it has, which is undefined
    behaviour after any of them: its [setAgentState] ends without a [return]. *)
Theorem agent_managers_are_registries :
  (forall os, rg_all_ok d0 (fun _ => true) true (∅ : gmap K (Agent D)) os ->
     exists rs m M, ar_run d0 os (AgentManager_new : AgentManager D K) = Some (rs, m) /\
       rg_trace d0 (fun _ => true) ∅ os rs M /\
       (forall k, (p ← am_getAgent m k; am_objs m !! p) = M !! k) /\ am_getAgentSize m = Z.of_nat (size M)) /\
  (forall max_id min_id (Hids : min_id <= max_id) os, rg_all_ok d0 (ap_accepts max_id min_id) false ∅ os ->
     exists rs m M, @ar_run D d0 Z _ _ _ (AgentManagerPerf_registry d0 max_id min_id Hids) os (AgentManagerPerf_new max_id min_id) = Some (rs, m) /\
       rg_trace d0 (ap_accepts max_id min_id) ∅ os rs M /\
       (forall k, (p ← ap_getAgent min_id m k; ap_objs m !! p) = M !! k) /\ ap_getAgentSize m = Z.of_nat (size M) /\
       (forall k s, ap_setAgentState min_id m k s = if is_present (M !! k) then None else Some (false, m))).
Proof using.
  split.
  - intros os Hok. destruct (ar_run_traces d0 os (AgentManager_new : AgentManager D K) ∅) as (rs & m & M & E & Ht & Hm).
    + apply store_rel_empty. intros k. apply lookup_empty.
    + exact Hok.
    + exists rs, m, M. split; [done|]. split; [done|]. split; [|unfold am_getAgentSize; by rewrite (am_size_law m M Hm)].
      intros k. apply (sr_lookup _ _ _ _ _ k Hm).
  - intros max_id min_id Hids os Hok.
    destruct (@ar_run_traces D d0 Z _ _ _ (AgentManagerPerf_registry d0 max_id min_id Hids) os (AgentManagerPerf_new max_id min_id) ∅)
      as (rs & m & M & E & Ht & Hm).
    + constructor; [simpl; rewrite repeat_length; lia|done|]. apply store_rel_empty. intros k.
      unfold ap_getAgent, ap_at. destruct ap_out_of_range; [done|]. cbn [AgentManagerPerf_new agents_].
      destruct (repeat None _ !! _) as [x|] eqn:Ex; [|done]. apply list_elem_of_lookup_2 in Ex.
      apply list_elem_of_In, repeat_spec in Ex. by subst.
    + exact Hok.
    + exists rs, m, M. split; [done|]. split; [done|]. pose proof Hm as [_ Hn Hst]. split; [intros k; apply (sr_lookup _ _ _ _ _ k Hst)|]. split; [done|].
      intros k s. destruct (M !! k) as [a|] eqn:Ek; [|by destruct (ap_set_law max_id min_id m M k s Hm Ek)]. unfold ap_setAgentState.
      destruct (ap_getAgent min_id m k) as [p|] eqn:Eg; [done|]. by rewrite (sr_none _ _ _ _ _ Hst _ Eg) in Ek.
Qed.
End registries.

Lemma agent_managers_are_registries_witness :
  let os := [rg_new 7 1 30; rg_get_conn 30; rg_set_state_conn 30 AGENT_STATE_DISCONNECT; rg_get 7; rg_delete_conn 30; rg_size] in
  let os' := [rg_new 9 1 30; rg_new 3 1 30; rg_key_of 30; rg_delete 3; rg_get 3] in
  let a s := mkAgent 0 30 1 s in
  (rg_all_ok 0 (fun _ => true) true (∅ : gmap Z (Agent Z)) os /\ rg_all_ok 0 (ap_accepts 4 1) false (∅ : gmap Z (Agent Z)) os') /\
  (exists rs m, ar_run 0 os (AgentManager_new : AgentManager Z Z) = Some (rs, m) /\
     rs = [rr_agent (Some (a AGENT_STATE_VERIFIED)); rr_agent (Some (a AGENT_STATE_VERIFIED)); rr_bool true;
           rr_agent (Some (a AGENT_STATE_DISCONNECT)); rr_bool true; rr_size 0]) /\
  (exists rs m (Hids : 1 <= 4), @ar_run Z 0 Z _ _ _ (AgentManagerPerf_registry 0 4 1 Hids) os' (AgentManagerPerf_new 4 1) = Some (rs, m) /\
     rs = [rr_agent None; rr_agent (Some (a AGENT_STATE_VERIFIED)); rr_key (Some 3); rr_bool true; rr_agent None]).
Proof.
  cbv zeta.
  set (os := [rg_new 7 1 30; rg_get_conn 30; rg_set_state_conn 30 AGENT_STATE_DISCONNECT; rg_get 7; rg_delete_conn 30; rg_size]).
  set (os' := [rg_new 9 1 30; rg_new 3 1 30; rg_key_of 30; rg_delete 3; rg_get 3]).
  assert (Hok : rg_all_ok 0 (fun _ => true) true (∅ : gmap Z (Agent Z)) os).
  { split; [intros k a Ha; by rewrite lookup_empty in Ha|]. intros r M _.
    repeat (split; [first [exact I|by left]|]; intros ? ? _). exact I. }
  assert (Hok' : rg_all_ok 0 (ap_accepts 4 1) false (∅ : gmap Z (Agent Z)) os').
  { split; [intros k a Ha; by rewrite lookup_empty in Ha|]. intros r M Hs.
    assert (M = ∅) as -> by (inversion Hs; subst; [discriminate|reflexivity]).
    split; [intros k a Ha; by rewrite lookup_empty in Ha|]. intros ? ? _.
    repeat (split; [exact I|]; intros ? ? _). exact I. }
  split; [split; [exact Hok|exact Hok']|]. destruct (agent_managers_are_registries (D := Z) 0 (K := Z)) as [H1 H2]. split.
  - destruct (H1 os Hok) as (rs & m & M & E & _). exists rs, m. split; [exact E|].
    assert (Hv : fst <$> ar_run 0 os (AgentManager_new : AgentManager Z Z) =
      Some [rr_agent (Some (mkAgent 0 30 1 AGENT_STATE_VERIFIED)); rr_agent (Some (mkAgent 0 30 1 AGENT_STATE_VERIFIED)); rr_bool true;
           rr_agent (Some (mkAgent 0 30 1 AGENT_STATE_DISCONNECT)); rr_bool true; rr_size 0]) by (vm_compute; reflexivity).
    rewrite E in Hv. simpl in Hv. congruence.
  - assert (Hids : 1 <= 4) by lia. destruct (H2 4 1 Hids os' Hok') as (rs & m & M & E & _). exists rs, m, Hids. split; [exact E|].
    assert (Hv : fst <$> @ar_run Z 0 Z _ _ _ (AgentManagerPerf_registry 0 4 1 Hids) os' (AgentManagerPerf_new 4 1) =
      Some [rr_agent None; rr_agent (Some (mkAgent 0 30 1 AGENT_STATE_VERIFIED)); rr_key (Some 3); rr_bool true; rr_agent None])
      by (vm_compute; reflexivity).
    rewrite E in Hv. simpl in Hv. congruence.
Defined.
