(* ===== verification/AppNet.v ===== *)
(** * The connections an application server sees

    The servers' handlers reach their connections through a [JmyTcpConnectionMgr] and a
    connection id ([common/util.cpp]) and call [send], [close] and [force_close] on them.
    [Net] keeps what these calls depend on: the state of every connection that is in use,
    and what was sent, in order.  It is the connection of [Connection] seen from above, with
    the configuration of the servers: a send buffer list without limits, so that [send] fails
    only when the connection is not connected. *)
From S2P Require Import Prelude Datatype Agent.
From Stdlib Require Import ZArith Lia.
From stdpp Require Import base option list gmap.
Local Open Scope Z_scope.

Abbreviation bytes := (list Z).

Record Packet : Type := mkPacket {
  pk_mgr : Z;
  pk_conn : Z;
  pk_user : option Z;      (** the user id, of a packet that has one *)
  pk_msgid : Z;
  pk_data : bytes;
}.

#[export] Instance Packet_eq_dec : EqDecision Packet.
Proof. solve_decision. Defined.

Record Net : Type := mkNet {
  nt_conns : gmap (Z * Z) JmyConnState;   (** by manager and connection id *)
  nt_sent : list Packet;
  nt_last : gmap Z Z;                     (** the last connection id of each manager *)
}.

Definition Net_new : Net := mkNet ∅ [] ∅.

Definition nt_set (mgr c : Z) (st : JmyConnState) (n : Net) : Net :=
  mkNet (<[(mgr, c) := st]> (nt_conns n)) (nt_sent n) (nt_last n).

(** A connection is made: it gets the next id, which was never used before ([JmyIdGenerator]). *)
Definition nt_next (mgr : Z) (n : Net) : Z := default 0 (nt_last n !! mgr) + 1.
Definition nt_connect (mgr : Z) (n : Net) : Net :=
  let c := nt_next mgr n in
  mkNet (<[(mgr, c) := JMY_CONN_STATE_CONNECTED]> (nt_conns n)) (nt_sent n) (<[mgr := c]> (nt_last n)).

(** [run] of the server recycles a disconnected connection. *)
Definition nt_recycle (mgr c : Z) (n : Net) : option Net :=
  st ← nt_conns n !! (mgr, c);
  if decide (st = JMY_CONN_STATE_DISCONNECTED) then Some (mkNet (delete (mgr, c) (nt_conns n)) (nt_sent n) (nt_last n)) else None.

(** [get_connection]: null for a null manager or an unknown id. *)
Definition get_connection (conn_id mgr : Z) (n : Net) : option JmyConnState :=
  if mgr =? NULL then None else nt_conns n !! (mgr, conn_id).

(** Longer data than this is cut by the send buffer list; a run that sends it is outside the model. *)
Definition NET_MAX_DATA : Z := 65000.

(** [conn->send(msgid, data, len)] on a connection that was found: it reads [len] bytes from [data]. *)
Definition nt_send (mgr c : Z) (user : option Z) (msgid : Z) (data : bytes) (len : Z) (n : Net) : option (Z * Net) :=
  st ← nt_conns n !! (mgr, c);
  if decide (st = JMY_CONN_STATE_CONNECTED) then
    ub_unless (len <=? NET_MAX_DATA);;
    d ← mem_read data 0 len;
    Some (len, mkNet (nt_conns n) (nt_sent n ++ [mkPacket mgr c user msgid d]) (nt_last n))
  else Some (-1, n).

(** [conn->close()]: the disconnect packet goes out before the state changes.  The state lasts until the connection is
    lost or revived. *)
Definition nt_close (mgr c : Z) (n : Net) : option Net :=
  st ← nt_conns n !! (mgr, c);
  Some (if decide (st = JMY_CONN_STATE_CONNECTED) then nt_set mgr c JMY_CONN_STATE_DISCONNECTING n else n).

(** An accepted connection that is read again counts as connected, also when it was closed ([start_recv]). *)
Definition nt_revive (mgr c : Z) (n : Net) : option Net :=
  _ ← nt_conns n !! (mgr, c); Some (nt_set mgr c JMY_CONN_STATE_CONNECTED n).

(** [conn->force_close()]; the boolean says whether the disconnect event is raised. *)
Definition nt_force_close (mgr c : Z) (n : Net) : option (bool * Net) :=
  st ← nt_conns n !! (mgr, c);
  Some (if decide (st = JMY_CONN_STATE_DISCONNECTED) then (false, n) else (true, nt_set mgr c JMY_CONN_STATE_DISCONNECTED n)).

(** The agents of a server call its connections; force closing one raises the server's disconnect event. *)
Definition net_calls {S : Type} (net : S -> Net) (set_net : Net -> S -> S) (on_disconnect : Z -> Z -> S -> option S)
  : AgentCalls S := {|
  ac_get mgr c s := is_present (nt_conns (net s) !! (mgr, c));
  ac_send mgr c msgid data len s := '(r, n) ← nt_send mgr c None msgid data len (net s); Some (r, set_net n s);
  ac_send_user mgr c user msgid data len s := '(r, n) ← nt_send mgr c (Some user) msgid data len (net s); Some (r, set_net n s);
  ac_close mgr c s := n ← nt_close mgr c (net s); Some (set_net n s);
  ac_force_close mgr c s := '(raised, n) ← nt_force_close mgr c (net s);
    if raised : bool then on_disconnect mgr c (set_net n s) else Some (set_net n s);
|}.

(** When a handler fails, the connection is closed by force.  [run] handles messages of connections that are connected; but
    the loop over the messages that are queued does not look at the state again, so that further ones are handled
    after a handler closed the connection, as long as it is in use. *)
Definition nt_in_use (mgr c : Z) (n : Net) : bool := is_present (nt_conns n !! (mgr, c)).
Definition nt_is_connected (mgr c : Z) (n : Net) : bool :=
  match nt_conns n !! (mgr, c) with Some st => bool_decide (st = JMY_CONN_STATE_CONNECTED) | None => false end.

Definition handled {S} `{AgentCalls S} (mgr c : Z) (r : option (Z * S)) : option S :=
  '(r, s) ← r; if r <? 0 then ac_force_close mgr c s else Some s.

(** The packets sent on a connection. *)
Definition link_packets (mgr c : Z) (n : Net) : list Packet :=
  filter (fun p => pk_mgr p = mgr /\ pk_conn p = c) (nt_sent n).

(** ** Generated messages

    A message type that [protoc] generates from the files under [proto/]: [ParseFromArray] and
    [SerializeToArray] belong to generated code.  Parsing what was serialised gives the message
    back, for messages whose fields are valid ([string] fields hold UTF-8 text). *)
Class Message (M : Type) : Type := {
  ParseFromArray : bytes -> option M;
  Serialize : M -> bytes;
  msg_valid : M -> Prop;
  parse_serialize : forall m, msg_valid m -> ParseFromArray (Serialize m) = Some m;
}.

(** [SerializeToArray(tmp, size)] fails when the message does not fit; [tmp_] of the handlers has
    [JMY_MAX_MSG_SIZE] bytes. *)
Definition SerializeToBuffer {M} `{Message M} (m : M) (tmp : bytes) (size : Z) : option bytes :=
  let d := Serialize m in
  if size <? lenZ d then None else Some (d ++ drop (length d) tmp).
Definition SerializeToArray {M} `{Message M} (m : M) (tmp : bytes) : option bytes :=
  SerializeToBuffer m tmp JMY_MAX_MSG_SIZE.
Definition ByteSize {M} `{Message M} (m : M) : Z := lenZ (Serialize m).

(** ** Lemmas *)

Lemma serialized_buffer {M} `{Message M} (m : M) tmp size tmp' :
  SerializeToBuffer m tmp size = Some tmp' -> ByteSize m <= size /\ mem_read tmp' 0 (ByteSize m) = Some (Serialize m).
Proof.
  unfold SerializeToBuffer, ByteSize. intros E. destruct (Z.ltb_spec size (lenZ (Serialize m))); [done|]. injection E as <-. split; [done|].
  rewrite mem_read_Some by (rewrite ?length_app; lia). by rewrite Nat2Z.id, drop_0, take_app_length.
Qed.

Lemma serialized_read {M} `{Message M} (m : M) tmp tmp' :
  SerializeToArray m tmp = Some tmp' -> mem_read tmp' 0 (ByteSize m) = Some (Serialize m).
Proof. intros E. by apply serialized_buffer in E as [_ E]. Qed.
