(* ===== verification/Proto.v ===== *)
(** * The messages between the servers and the clients ([proto/*.proto])

    The message types as records and the message ids.  [bytes] and [string] fields are byte
    strings, [int32] and [uint64] fields integers. *)
From S2P Require Import Prelude AppNet.
From Stdlib Require Import ZArith.
From stdpp Require Import base list.
Local Open Scope Z_scope.

(** ** msgid.proto and server.proto: message ids *)

Definition MSGID_ERROR : Z := 1.
Definition MSGID_C2S_LOGIN_REQUEST : Z := 10000.
Definition MSGID_C2S_SELECT_SERVER_REQUEST : Z := 10002.
Definition MSGID_C2S_ECHO_REQUEST : Z := 19003.
Definition MSGID_C2S_GET_ROLE_REQUEST : Z := 10010.
Definition MSGID_C2S_CREATE_ROLE_REQUEST : Z := 10014.
Definition MSGID_C2S_ENTER_GAME_REQUEST : Z := 10020.
Definition MSGID_C2S_LEAVE_GAME_REQUEST : Z := 10023.
Definition MSGID_C2S_RECONNECT_REQUEST : Z := 10025.
Definition MSGID_GS2GT_CONNECT_GATE_REQUEST : Z := 20200.
Definition MSGID_GS2GT_GET_ROLE_RESPONSE : Z := 20203.
Definition MSGID_GS2GT_CREATE_ROLE_RESPONSE : Z := 20205.
Definition MSGID_S2C_LOGIN_RESPONSE : Z := 10001.
Definition MSGID_S2C_SELECT_SERVER_RESPONSE : Z := 10003.
Definition MSGID_S2C_GET_ROLE_RESPONSE : Z := 10011.
Definition MSGID_S2C_CREATE_ROLE_RESPONSE : Z := 10015.
Definition MSGID_S2C_RECONNECT_RESPONSE : Z := 10026.
Definition MSGID_GT2LS_CONNECT_LOGIN_REQUEST : Z := 20000.
Definition MSGID_LS2GT_CONNECT_LOGIN_RESPONSE : Z := 20001.
Definition MSGID_LS2GT_SELECTED_SERVER_NOTIFY : Z := 20002.
Definition MSGID_GT2LS_SELECTED_SERVER_RESPONSE : Z := 20003.
Definition MSGID_GT2CS_CONNECT_CONFIG_REQUEST : Z := 20100.
Definition MSGID_CS2GT_CONNECT_CONFIG_RESPONSE : Z := 20101.
Definition MSGID_CS2GT_NEW_LOGIN_NOTIFY : Z := 20102.
Definition MSGID_CS2GT_REMOVE_LOGIN_NOTIFY : Z := 20103.
Definition MSGID_LS2CS_CONNECT_CONFIG_REQUEST : Z := 20110.
Definition MSGID_CS2LS_CONNECT_CONFIG_RESPONSE : Z := 20111.
Definition MSGID_GT2GS_CONNECT_GATE_RESPONSE : Z := 20201.
Definition MSGID_GT2GS_GET_ROLE_REQUEST : Z := 20202.
Definition MSGID_GT2GS_CREATE_ROLE_REQUEST : Z := 20204.
Definition MSGID_GT2GS_ENTER_GAME_REQUEST : Z := 20210.
Definition MSGID_GT2GS_LEAVE_GAME_REQUEST : Z := 20212.
Definition MSGID_GS2DS_CONNECT_DB_REQUEST : Z := 25000.
Definition MSGID_DS2GS_CONNECT_DB_RESPONSE : Z := 25001.
Definition MSGID_GS2DS_GET_ROLE_REQUEST : Z := 25010.
Definition MSGID_DS2GS_GET_ROLE_RESPONSE : Z := 25011.
Definition MSGID_GS2DS_CREATE_ROLE_REQUEST : Z := 25012.
Definition MSGID_DS2GS_CREATE_ROLE_RESPONSE : Z := 25013.
Definition MSGID_GS2DS_SET_ROLE_DATA_REQUEST : Z := 25100.
Definition MSGID_DS2GS_SET_ROLE_DATA_RESPONSE : Z := 25101.
Definition MSGID_GS2DS_ADD_ITEM_REQUEST : Z := 25102.
Definition MSGID_DS2GS_ADD_ITEM_RESPONSE : Z := 25103.
Definition MSGID_GS2DS_RM_ITEM_REQUEST : Z := 25104.
Definition MSGID_DS2GS_RM_ITEM_RESPONSE : Z := 25105.
Definition MSGID_S2C_ENTER_GAME_RESPONSE : Z := 10021.
Definition MSGID_S2C_ENTER_GAME_COMPLETE_NOTIFY : Z := 10022.
Definition MSGID_C2S_CHAT_REQUEST : Z := 10100.
Definition MSGID_S2C_CHAT_RESPONSE : Z := 10101.
Definition MSGID_S2C_CHAT_NOTIFY : Z := 10102.
Definition MSGID_C2S_SET_ROLE_DATA_REQUEST : Z := 19001.

(** ** error.proto *)

Definition PROTO_ERROR_SERVER_INTERNAL_ERROR : Z := 3.
Definition PROTO_ERROR_LOGIN_ACCOUNT_OR_PASSWORD_INVALID : Z := 100.
Definition PROTO_ERROR_LOGIN_REPEATED : Z := 102.
Definition PROTO_ERROR_LOGIN_DATA_INVALID : Z := 103.
Definition PROTO_ERROR_LOGIN_GAME_SERVER_MAINTENANCE : Z := 104.
Definition PROTO_ERROR_GET_ROLE_NONE : Z := 150.
Definition PROTO_ERROR_ENTER_GAME_INVALID_ACCOUNT : Z := 202.
Definition PROTO_ERROR_ENTER_GAME_PLAYER_COUNT_MAXIMUM : Z := 204.
Definition PROTO_ERROR_RECONN_ACCOUNT_NOT_FOUND : Z := 210.
Definition PROTO_ERROR_RECONN_FAILED : Z := 212.
Record MsgError : Type := mkMsgError { er_code : Z }.

(** ** login.proto *)

Record MsgC2S_LoginRequest : Type := mkLoginRequest { lr_account : bytes; lr_password : bytes }.
Record MsgServerInfo : Type := mkServerInfo { si_id : Z; si_name : bytes; si_is_maintenance : bool; si_is_busy : bool }.
Record MsgS2C_LoginResponse : Type := mkLoginResponse { lr_servers : list MsgServerInfo }.
Record MsgC2S_SelectServerRequest : Type := mkSelectServerRequest { sel_id : Z }.
Record MsgS2C_SelectServerResponse : Type := mkSelectServerResponse { sr_session_code : bytes; sr_server_ip : bytes; sr_port : Z }.

Record MsgC2S_EchoRequest : Type := mkEchoRequest { ec_echo_str : bytes }.
Record MsgS2C_EchoResponse : Type := mkEchoResponse { er_echo_str : bytes }.

(** ** account.proto *)

Record MsgC2S_GetRoleRequest : Type := mkGetRoleRequest { gr_account : bytes; gr_enter_session : bytes }.
Record MsgBaseRoleData : Type := mkBaseRoleData {
  rd_role_id : Z; rd_nick_name : bytes; rd_race : Z; rd_sex : Z; rd_hp : Z; rd_level : Z }.
Record MsgS2C_GetRoleResponse : Type := mkGetRoleResponse { gp_reconnect_session : bytes; gp_role_data : MsgBaseRoleData }.
Record MsgC2S_CreateRoleRequest : Type := mkCreateRoleRequest { cr_nick_name : bytes; cr_race : Z; cr_sex : Z }.
Record MsgS2C_CreateRoleResponse : Type := mkCreateRoleResponse { cp_role_data : MsgBaseRoleData }.
Record MsgC2S_ReconnectRequest : Type := mkReconnectRequest { rq_account : bytes; rq_reconnect_session : bytes }.
Record MsgS2C_ReconnectResponse : Type := mkReconnectResponse { rp_reconnect_session : bytes }.
Record MsgS2C_EnterGameResponse : Type := mkEnterGameResponse { }.

(** ** test.proto *)

Record MsgC2S_ChatRequest : Type := mkChatRequest { cq_content : bytes; cq_chat_type : Z; cq_channel : Z; cq_role_id : Z }.
Record MsgS2C_ChatResponse : Type := mkChatResponse { cr_content : bytes; cr_chat_type : Z; cr_channel : Z; cr_role_id : Z }.
Record MsgS2C_ChatNotify : Type := mkChatNotify { cn_content : bytes; cn_chat_type : Z; cn_channel : Z; cn_from_role_id : Z; cn_from_nick_name : bytes }.
Record MsgC2S_SetRoleDataRequest : Type := mkSetRoleDataRequest { sq_role_data : MsgBaseRoleData }.

(** ** server.proto *)

Record MsgGT2LS_ConnectLoginRequest : Type := mkConnectLoginRequest { cl_gate_server_id : Z; cl_gate_server_ip : bytes; cl_gate_server_port : Z }.
Record MsgLS2GT_ConnectLoginResponse : Type := mkConnectLoginResponse { cl_login_id : Z }.
Record MsgLS2GT_SelectedServerNotify : Type := mkSelectedServerNotify { sn_account : bytes }.
Record MsgGT2LS_SelectedServerResponse : Type := mkSelectedServerResponse { ss_account : bytes; ss_session_code : bytes }.
Record MsgGT2CS_ConnectConfigRequest : Type := mkGateConfigRequest { gq_gate_id : Z }.
Record MsgLoginInfoData : Type := mkLoginInfoData { li_login_ip : bytes; li_login_port : Z; li_login_id : Z }.
Record MsgCS2GT_ConnectConfigResponse : Type := mkGateConfigResponse { gc_login_list : list MsgLoginInfoData }.
Record MsgCS2GT_NewLoginNotify : Type := mkNewLoginNotify { nl_login_data : MsgLoginInfoData }.
Record MsgCS2GT_RemoveLoginNotify : Type := mkRemoveLoginNotify { rn_login_id : Z }.
Record MsgLS2CS_ConnectConfigRequest : Type := mkLoginConfigRequest { lq_login_id : Z; lq_login_ip : bytes; lq_login_port : Z }.
Record MsgGateConfData : Type := mkGateConfData {
  gd_name : bytes; gd_id : Z; gd_ip : bytes; gd_port : Z; gd_platform : bytes; gd_channel_code : bytes;
  gd_is_busy : bool; gd_is_maintenance : bool }.
Record MsgCS2LS_ConnectConfigResponse : Type := mkLoginConfigResponse { lc_gate_list : list MsgGateConfData }.
Record MsgCS2LS_GateConfListNotify : Type := mkGateConfListNotify { gn_gate_list : list MsgGateConfData }.
Record MsgGS2GT_ConnectGateRequest : Type := mkConnectGateRequest { cg_game_id : Z }.
Record MsgGT2GS_ConnectGateResponse : Type := mkConnectGateResponse { cg_max_user_count : Z; cg_start_user_id : Z }.
Record MsgGT2GS_GetRoleRequest : Type := mkGT2GS_GetRoleRequest { gg_account : bytes }.
Record MsgGS2GT_GetRoleResponse : Type := mkGS2GT_GetRoleResponse { gs_account : bytes; gs_role_data : MsgBaseRoleData }.
Record MsgGT2GS_CreateRoleRequest : Type := mkGT2GS_CreateRoleRequest { gcr_account : bytes; gcr_nick_name : bytes; gcr_sex : Z; gcr_race : Z }.
Record MsgGS2GT_CreateRoleResponse : Type := mkGS2GT_CreateRoleResponse { gsc_account : bytes; gsc_role_data : MsgBaseRoleData }.
Record MsgGT2GS_EnterGameRequest : Type := mkEnterGameRequest { eg_role_id : Z }.
Record MsgGT2GS_LeaveGameRequest : Type := mkLeaveGameRequest { lg_role_id : Z }.
Record MsgGS2DS_ConnectDBRequest : Type := mkConnectDBRequest { cd_game_id : Z }.
Record MsgDS2GS_ConnectDBResponse : Type := mkConnectDBResponse { }.
Record MsgGS2DS_GetRoleRequest : Type := mkDBGetRoleRequest { dq_account : bytes }.
Record MsgDS2GS_GetRoleResponse : Type := mkDBGetRoleResponse { dp_account : bytes; dp_role_data : MsgBaseRoleData }.
Record MsgGS2DS_CreateRoleRequest : Type := mkDBCreateRoleRequest { dc_account : bytes; dc_nick_name : bytes; dc_sex : Z; dc_race : Z }.
Record MsgDS2GS_CreateRoleResponse : Type := mkDBCreateRoleResponse { dr_account : bytes; dr_role_data : MsgBaseRoleData }.
Record MsgGS2DS_SetRoleDataRequest : Type := mkDBSetRoleDataRequest { ds_role_id : Z; ds_role_data : MsgBaseRoleData }.
Record MsgDS2GS_SetRoleDataResponse : Type := mkDBSetRoleDataResponse { dt_role_id : Z; dt_role_data : MsgBaseRoleData }.
Record MsgGS2DS_AddItemRequest : Type := mkDBAddItemRequest { da_role_id : Z; da_type_id : Z; da_item_num : Z }.
Record MsgDS2GS_AddItemResponse : Type := mkDBAddItemResponse { dar_role_id : Z; dar_type_id : Z; dar_item_num : Z }.
Record MsgGS2DS_RmItemRequest : Type := mkDBRmItemRequest { di_role_id : Z; di_type_id : Z; di_item_num : Z }.

(** ** The generated code of all of them *)

Class ServerMessages : Type := {
  sm_Error :: Message MsgError;
  sm_C2S_LoginRequest :: Message MsgC2S_LoginRequest;
  sm_S2C_LoginResponse :: Message MsgS2C_LoginResponse;
  sm_C2S_SelectServerRequest :: Message MsgC2S_SelectServerRequest;
  sm_S2C_SelectServerResponse :: Message MsgS2C_SelectServerResponse;
  sm_C2S_EchoRequest :: Message MsgC2S_EchoRequest;
  sm_S2C_EchoResponse :: Message MsgS2C_EchoResponse;
  sm_C2S_GetRoleRequest :: Message MsgC2S_GetRoleRequest;
  sm_S2C_GetRoleResponse :: Message MsgS2C_GetRoleResponse;
  sm_C2S_CreateRoleRequest :: Message MsgC2S_CreateRoleRequest;
  sm_S2C_CreateRoleResponse :: Message MsgS2C_CreateRoleResponse;
  sm_C2S_ReconnectRequest :: Message MsgC2S_ReconnectRequest;
  sm_S2C_ReconnectResponse :: Message MsgS2C_ReconnectResponse;
  sm_GT2LS_ConnectLoginRequest :: Message MsgGT2LS_ConnectLoginRequest;
  sm_LS2GT_ConnectLoginResponse :: Message MsgLS2GT_ConnectLoginResponse;
  sm_LS2GT_SelectedServerNotify :: Message MsgLS2GT_SelectedServerNotify;
  sm_GT2LS_SelectedServerResponse :: Message MsgGT2LS_SelectedServerResponse;
  sm_GT2CS_ConnectConfigRequest :: Message MsgGT2CS_ConnectConfigRequest;
  sm_CS2GT_ConnectConfigResponse :: Message MsgCS2GT_ConnectConfigResponse;
  sm_CS2GT_NewLoginNotify :: Message MsgCS2GT_NewLoginNotify;
  sm_CS2GT_RemoveLoginNotify :: Message MsgCS2GT_RemoveLoginNotify;
  sm_LS2CS_ConnectConfigRequest :: Message MsgLS2CS_ConnectConfigRequest;
  sm_CS2LS_ConnectConfigResponse :: Message MsgCS2LS_ConnectConfigResponse;
  sm_CS2LS_GateConfListNotify :: Message MsgCS2LS_GateConfListNotify;
  sm_GS2GT_ConnectGateRequest :: Message MsgGS2GT_ConnectGateRequest;
  sm_GT2GS_ConnectGateResponse :: Message MsgGT2GS_ConnectGateResponse;
  sm_GT2GS_GetRoleRequest :: Message MsgGT2GS_GetRoleRequest;
  sm_GS2GT_GetRoleResponse :: Message MsgGS2GT_GetRoleResponse;
  sm_GT2GS_CreateRoleRequest :: Message MsgGT2GS_CreateRoleRequest;
  sm_GS2GT_CreateRoleResponse :: Message MsgGS2GT_CreateRoleResponse;
  sm_GT2GS_EnterGameRequest :: Message MsgGT2GS_EnterGameRequest;
  sm_GT2GS_LeaveGameRequest :: Message MsgGT2GS_LeaveGameRequest;
  sm_C2S_ChatRequest :: Message MsgC2S_ChatRequest;
  sm_S2C_ChatResponse :: Message MsgS2C_ChatResponse;
  sm_S2C_ChatNotify :: Message MsgS2C_ChatNotify;
  sm_C2S_SetRoleDataRequest :: Message MsgC2S_SetRoleDataRequest;
  sm_S2C_EnterGameResponse :: Message MsgS2C_EnterGameResponse;
  sm_GS2DS_ConnectDBRequest :: Message MsgGS2DS_ConnectDBRequest;
  sm_DS2GS_ConnectDBResponse :: Message MsgDS2GS_ConnectDBResponse;
  sm_GS2DS_GetRoleRequest :: Message MsgGS2DS_GetRoleRequest;
  sm_DS2GS_GetRoleResponse :: Message MsgDS2GS_GetRoleResponse;
  sm_GS2DS_CreateRoleRequest :: Message MsgGS2DS_CreateRoleRequest;
  sm_DS2GS_CreateRoleResponse :: Message MsgDS2GS_CreateRoleResponse;
  sm_GS2DS_SetRoleDataRequest :: Message MsgGS2DS_SetRoleDataRequest;
  sm_DS2GS_SetRoleDataResponse :: Message MsgDS2GS_SetRoleDataResponse;
  sm_GS2DS_AddItemRequest :: Message MsgGS2DS_AddItemRequest;
  sm_DS2GS_AddItemResponse :: Message MsgDS2GS_AddItemResponse;
  sm_GS2DS_RmItemRequest :: Message MsgGS2DS_RmItemRequest;
}.
