(* ===== verification/Codec.v ===== *)
(** * A concrete instance of the generated messages

    The theorems about the servers hold for every implementation of the generated code
    ([ServerMessages]).  Here is one, which the examples are evaluated with: a message is the
    sequence of its fields, a byte string or a list with its length before it. *)
From S2P Require Import Prelude AppNet Proto.
From Stdlib Require Import ZArith Lia.
From stdpp Require Import base list.
Local Open Scope Z_scope.

(** ** Self-delimiting encodings *)

Class Codec (A : Type) : Type := {
  encode : A -> bytes;
  decode : bytes -> option (A * bytes);
  decode_encode : forall a r, decode (encode a ++ r) = Some (a, r);
}.

#[export, refine] Instance codec_Z : Codec Z := {| encode (z : Z) := [z]; decode (d : bytes) := match d with z :: d => Some (z, d) | [] => None end |}.
Proof. done. Defined.

#[export, refine] Instance codec_bool : Codec bool :=
  {| encode (b : bool) := [if b then 1 else 0]; decode (d : bytes) := match d with z :: d => Some (z =? 1, d) | [] => None end |}.
Proof. by intros []. Defined.

Definition encode_pair {A B} `{Codec A, Codec B} (p : A * B) : bytes := encode p.1 ++ encode p.2.
Definition decode_pair {A B} `{Codec A, Codec B} (d : bytes) : option ((A * B) * bytes) :=
  '(a, d) ← decode d; '(b, d) ← decode d; Some ((a, b), d).

#[export, refine] Instance codec_pair {A B} `{Codec A, Codec B} : Codec (A * B) := {| encode := encode_pair; decode := decode_pair |}.
Proof. intros [a b] r. unfold encode_pair, decode_pair. rewrite <- app_assoc, decode_encode. cbn [mbind option_bind]. by rewrite decode_encode. Defined.

Fixpoint decode_n {A} `{Codec A} (n : nat) (d : bytes) : option (list A * bytes) :=
  match n with O => Some ([], d) | S n => '(a, d) ← decode d; '(l, d) ← decode_n n d; Some (a :: l, d) end.

Lemma decode_n_concat {A} `{Codec A} (l : list A) r : decode_n (length l) (concat (map encode l) ++ r) = Some (l, r).
Proof. induction l as [|a l IH]; [done|]. simpl. rewrite <- app_assoc, decode_encode. simpl. by rewrite IH. Qed.

#[export, refine] Instance codec_list {A} `{Codec A} : Codec (list A) :=
  {| encode (l : list A) := lenZ l :: concat (map encode l);
     decode (d : bytes) := match d with n :: d => decode_n (Z.to_nat n) d | [] => None end |}.
Proof. intros l r. simpl. rewrite Nat2Z.id. apply decode_n_concat. Defined.

Definition codec_iso {A B} `{Codec B} (to : A -> B) (from : B -> A) (from_to : forall a, from (to a) = a) : Codec A.
Proof.
  refine {| encode a := encode (to a); decode d := '(b, d) ← decode d; Some (from b, d) |}.
  intros a r. rewrite decode_encode. simpl. by rewrite from_to.
Defined.

(** ** Messages *)

(** A message with such an encoding: the whole of the data is one message. *)
Definition codec_message {A} `{Codec A} : Message A.
Proof.
  refine {| ParseFromArray d := match decode d with Some (a, []) => Some a | _ => None end; Serialize := encode; msg_valid _ := True |}.
  intros a _. rewrite <- (app_nil_r (encode a)). by rewrite decode_encode.
Defined.

#[export] Instance codec_Error : Codec MsgError :=
  codec_iso er_code mkMsgError ltac:(by intros []).
#[export] Instance codec_C2S_LoginRequest : Codec MsgC2S_LoginRequest :=
  codec_iso (fun m => (lr_account m, lr_password m)) (fun '(x0, x1) => mkLoginRequest x0 x1) ltac:(by intros []).
#[export] Instance codec_ServerInfo : Codec MsgServerInfo :=
  codec_iso (fun m => (si_id m, si_name m, si_is_maintenance m, si_is_busy m)) (fun '(x0, x1, x2, x3) => mkServerInfo x0 x1 x2 x3) ltac:(by intros []).
#[export] Instance codec_S2C_LoginResponse : Codec MsgS2C_LoginResponse :=
  codec_iso lr_servers mkLoginResponse ltac:(by intros []).
#[export] Instance codec_C2S_SelectServerRequest : Codec MsgC2S_SelectServerRequest :=
  codec_iso sel_id mkSelectServerRequest ltac:(by intros []).
#[export] Instance codec_S2C_SelectServerResponse : Codec MsgS2C_SelectServerResponse :=
  codec_iso (fun m => (sr_session_code m, sr_server_ip m, sr_port m)) (fun '(x0, x1, x2) => mkSelectServerResponse x0 x1 x2) ltac:(by intros []).
#[export] Instance codec_C2S_EchoRequest : Codec MsgC2S_EchoRequest :=
  codec_iso ec_echo_str mkEchoRequest ltac:(by intros []).
#[export] Instance codec_S2C_EchoResponse : Codec MsgS2C_EchoResponse :=
  codec_iso er_echo_str mkEchoResponse ltac:(by intros []).
#[export] Instance codec_C2S_GetRoleRequest : Codec MsgC2S_GetRoleRequest :=
  codec_iso (fun m => (gr_account m, gr_enter_session m)) (fun '(x0, x1) => mkGetRoleRequest x0 x1) ltac:(by intros []).
#[export] Instance codec_BaseRoleData : Codec MsgBaseRoleData :=
  codec_iso (fun m => (rd_role_id m, rd_nick_name m, rd_race m, rd_sex m, rd_hp m, rd_level m)) (fun '(x0, x1, x2, x3, x4, x5) => mkBaseRoleData x0 x1 x2 x3 x4 x5) ltac:(by intros []).
#[export] Instance codec_S2C_GetRoleResponse : Codec MsgS2C_GetRoleResponse :=
  codec_iso (fun m => (gp_reconnect_session m, gp_role_data m)) (fun '(x0, x1) => mkGetRoleResponse x0 x1) ltac:(by intros []).
#[export] Instance codec_C2S_CreateRoleRequest : Codec MsgC2S_CreateRoleRequest :=
  codec_iso (fun m => (cr_nick_name m, cr_race m, cr_sex m)) (fun '(x0, x1, x2) => mkCreateRoleRequest x0 x1 x2) ltac:(by intros []).
#[export] Instance codec_S2C_CreateRoleResponse : Codec MsgS2C_CreateRoleResponse :=
  codec_iso cp_role_data mkCreateRoleResponse ltac:(by intros []).
#[export] Instance codec_C2S_ReconnectRequest : Codec MsgC2S_ReconnectRequest :=
  codec_iso (fun m => (rq_account m, rq_reconnect_session m)) (fun '(x0, x1) => mkReconnectRequest x0 x1) ltac:(by intros []).
#[export] Instance codec_S2C_ReconnectResponse : Codec MsgS2C_ReconnectResponse :=
  codec_iso rp_reconnect_session mkReconnectResponse ltac:(by intros []).
#[export] Instance codec_GT2LS_ConnectLoginRequest : Codec MsgGT2LS_ConnectLoginRequest :=
  codec_iso (fun m => (cl_gate_server_id m, cl_gate_server_ip m, cl_gate_server_port m)) (fun '(x0, x1, x2) => mkConnectLoginRequest x0 x1 x2) ltac:(by intros []).
#[export] Instance codec_LS2GT_ConnectLoginResponse : Codec MsgLS2GT_ConnectLoginResponse :=
  codec_iso cl_login_id mkConnectLoginResponse ltac:(by intros []).
#[export] Instance codec_LS2GT_SelectedServerNotify : Codec MsgLS2GT_SelectedServerNotify :=
  codec_iso sn_account mkSelectedServerNotify ltac:(by intros []).
#[export] Instance codec_GT2LS_SelectedServerResponse : Codec MsgGT2LS_SelectedServerResponse :=
  codec_iso (fun m => (ss_account m, ss_session_code m)) (fun '(x0, x1) => mkSelectedServerResponse x0 x1) ltac:(by intros []).
#[export] Instance codec_GT2CS_ConnectConfigRequest : Codec MsgGT2CS_ConnectConfigRequest :=
  codec_iso gq_gate_id mkGateConfigRequest ltac:(by intros []).
#[export] Instance codec_LoginInfoData : Codec MsgLoginInfoData :=
  codec_iso (fun m => (li_login_ip m, li_login_port m, li_login_id m)) (fun '(x0, x1, x2) => mkLoginInfoData x0 x1 x2) ltac:(by intros []).
#[export] Instance codec_CS2GT_ConnectConfigResponse : Codec MsgCS2GT_ConnectConfigResponse :=
  codec_iso gc_login_list mkGateConfigResponse ltac:(by intros []).
#[export] Instance codec_CS2GT_NewLoginNotify : Codec MsgCS2GT_NewLoginNotify :=
  codec_iso nl_login_data mkNewLoginNotify ltac:(by intros []).
#[export] Instance codec_CS2GT_RemoveLoginNotify : Codec MsgCS2GT_RemoveLoginNotify :=
  codec_iso rn_login_id mkRemoveLoginNotify ltac:(by intros []).
#[export] Instance codec_LS2CS_ConnectConfigRequest : Codec MsgLS2CS_ConnectConfigRequest :=
  codec_iso (fun m => (lq_login_id m, lq_login_ip m, lq_login_port m)) (fun '(x0, x1, x2) => mkLoginConfigRequest x0 x1 x2) ltac:(by intros []).
#[export] Instance codec_GateConfData : Codec MsgGateConfData :=
  codec_iso (fun m => (gd_name m, gd_id m, gd_ip m, gd_port m, gd_platform m, gd_channel_code m, gd_is_busy m, gd_is_maintenance m)) (fun '(x0, x1, x2, x3, x4, x5, x6, x7) => mkGateConfData x0 x1 x2 x3 x4 x5 x6 x7) ltac:(by intros []).
#[export] Instance codec_CS2LS_ConnectConfigResponse : Codec MsgCS2LS_ConnectConfigResponse :=
  codec_iso lc_gate_list mkLoginConfigResponse ltac:(by intros []).
#[export] Instance codec_CS2LS_GateConfListNotify : Codec MsgCS2LS_GateConfListNotify :=
  codec_iso gn_gate_list mkGateConfListNotify ltac:(by intros []).
#[export] Instance codec_GS2GT_ConnectGateRequest : Codec MsgGS2GT_ConnectGateRequest :=
  codec_iso cg_game_id mkConnectGateRequest ltac:(by intros []).
#[export] Instance codec_GT2GS_ConnectGateResponse : Codec MsgGT2GS_ConnectGateResponse :=
  codec_iso (fun m => (cg_max_user_count m, cg_start_user_id m)) (fun '(x0, x1) => mkConnectGateResponse x0 x1) ltac:(by intros []).
#[export] Instance codec_GT2GS_GetRoleRequest : Codec MsgGT2GS_GetRoleRequest :=
  codec_iso gg_account mkGT2GS_GetRoleRequest ltac:(by intros []).
#[export] Instance codec_GS2GT_GetRoleResponse : Codec MsgGS2GT_GetRoleResponse :=
  codec_iso (fun m => (gs_account m, gs_role_data m)) (fun '(x0, x1) => mkGS2GT_GetRoleResponse x0 x1) ltac:(by intros []).
#[export] Instance codec_GT2GS_CreateRoleRequest : Codec MsgGT2GS_CreateRoleRequest :=
  codec_iso (fun m => (gcr_account m, gcr_nick_name m, gcr_sex m, gcr_race m)) (fun '(x0, x1, x2, x3) => mkGT2GS_CreateRoleRequest x0 x1 x2 x3) ltac:(by intros []).
#[export] Instance codec_GS2GT_CreateRoleResponse : Codec MsgGS2GT_CreateRoleResponse :=
  codec_iso (fun m => (gsc_account m, gsc_role_data m)) (fun '(x0, x1) => mkGS2GT_CreateRoleResponse x0 x1) ltac:(by intros []).
#[export] Instance codec_GT2GS_EnterGameRequest : Codec MsgGT2GS_EnterGameRequest :=
  codec_iso eg_role_id mkEnterGameRequest ltac:(by intros []).
#[export] Instance codec_GT2GS_LeaveGameRequest : Codec MsgGT2GS_LeaveGameRequest :=
  codec_iso lg_role_id mkLeaveGameRequest ltac:(by intros []).
#[export] Instance codec_C2S_ChatRequest : Codec MsgC2S_ChatRequest :=
  codec_iso (fun m => (cq_content m, cq_chat_type m, cq_channel m, cq_role_id m)) (fun '(x0, x1, x2, x3) => mkChatRequest x0 x1 x2 x3) ltac:(by intros []).
#[export] Instance codec_S2C_ChatResponse : Codec MsgS2C_ChatResponse :=
  codec_iso (fun m => (cr_content m, cr_chat_type m, cr_channel m, cr_role_id m)) (fun '(x0, x1, x2, x3) => mkChatResponse x0 x1 x2 x3) ltac:(by intros []).
#[export] Instance codec_S2C_ChatNotify : Codec MsgS2C_ChatNotify :=
  codec_iso (fun m => (cn_content m, cn_chat_type m, cn_channel m, cn_from_role_id m, cn_from_nick_name m)) (fun '(x0, x1, x2, x3, x4) => mkChatNotify x0 x1 x2 x3 x4) ltac:(by intros []).
#[export] Instance codec_C2S_SetRoleDataRequest : Codec MsgC2S_SetRoleDataRequest :=
  codec_iso sq_role_data mkSetRoleDataRequest ltac:(by intros []).
#[export] Instance codec_S2C_EnterGameResponse : Codec MsgS2C_EnterGameResponse :=
  codec_iso (fun _ => [] : list Z) (fun _ => mkEnterGameResponse) ltac:(by intros []).
#[export] Instance codec_GS2DS_ConnectDBRequest : Codec MsgGS2DS_ConnectDBRequest :=
  codec_iso cd_game_id mkConnectDBRequest ltac:(by intros []).
#[export] Instance codec_DS2GS_ConnectDBResponse : Codec MsgDS2GS_ConnectDBResponse :=
  codec_iso (fun _ => [] : list Z) (fun _ => mkConnectDBResponse) ltac:(by intros []).
#[export] Instance codec_GS2DS_GetRoleRequest : Codec MsgGS2DS_GetRoleRequest :=
  codec_iso dq_account mkDBGetRoleRequest ltac:(by intros []).
#[export] Instance codec_DS2GS_GetRoleResponse : Codec MsgDS2GS_GetRoleResponse :=
  codec_iso (fun m => (dp_account m, dp_role_data m)) (fun '(x0, x1) => mkDBGetRoleResponse x0 x1) ltac:(by intros []).
#[export] Instance codec_GS2DS_CreateRoleRequest : Codec MsgGS2DS_CreateRoleRequest :=
  codec_iso (fun m => (dc_account m, dc_nick_name m, dc_sex m, dc_race m)) (fun '(x0, x1, x2, x3) => mkDBCreateRoleRequest x0 x1 x2 x3) ltac:(by intros []).
#[export] Instance codec_DS2GS_CreateRoleResponse : Codec MsgDS2GS_CreateRoleResponse :=
  codec_iso (fun m => (dr_account m, dr_role_data m)) (fun '(x0, x1) => mkDBCreateRoleResponse x0 x1) ltac:(by intros []).
#[export] Instance codec_GS2DS_SetRoleDataRequest : Codec MsgGS2DS_SetRoleDataRequest :=
  codec_iso (fun m => (ds_role_id m, ds_role_data m)) (fun '(x0, x1) => mkDBSetRoleDataRequest x0 x1) ltac:(by intros []).
#[export] Instance codec_DS2GS_SetRoleDataResponse : Codec MsgDS2GS_SetRoleDataResponse :=
  codec_iso (fun m => (dt_role_id m, dt_role_data m)) (fun '(x0, x1) => mkDBSetRoleDataResponse x0 x1) ltac:(by intros []).
#[export] Instance codec_GS2DS_AddItemRequest : Codec MsgGS2DS_AddItemRequest :=
  codec_iso (fun m => (da_role_id m, da_type_id m, da_item_num m)) (fun '(x0, x1, x2) => mkDBAddItemRequest x0 x1 x2) ltac:(by intros []).
#[export] Instance codec_DS2GS_AddItemResponse : Codec MsgDS2GS_AddItemResponse :=
  codec_iso (fun m => (dar_role_id m, dar_type_id m, dar_item_num m)) (fun '(x0, x1, x2) => mkDBAddItemResponse x0 x1 x2) ltac:(by intros []).
#[export] Instance codec_GS2DS_RmItemRequest : Codec MsgGS2DS_RmItemRequest :=
  codec_iso (fun m => (di_role_id m, di_type_id m, di_item_num m)) (fun '(x0, x1, x2) => mkDBRmItemRequest x0 x1 x2) ltac:(by intros []).

(** All the generated messages. *)
Definition coded_messages : ServerMessages.
Proof. constructor; exact codec_message. Defined.
