(* ===== verification/Common.v ===== *)
(** * Code the servers share ([common/defines.h], [common/util.h], [common/util.cpp])

    Server types, the ranges of server ids, and session codes. *)
From S2P Require Import Prelude AppNet.
From Stdlib Require Import ZArith Lia String Ascii.
From stdpp Require Import base list.
Local Open Scope Z_scope.

Inductive ServerType : Type :=
| SERVER_TYPE_NONE
| SERVER_TYPE_LOGIN
| SERVER_TYPE_GATE
| SERVER_TYPE_CONFIG
| SERVER_TYPE_GAME
| SERVER_TYPE_DB
| SERVER_TYPE_COUNT.

Definition server_type_value (t : ServerType) : Z :=
  match t with
  | SERVER_TYPE_NONE => 0 | SERVER_TYPE_LOGIN => 1 | SERVER_TYPE_GATE => 2 | SERVER_TYPE_CONFIG => 3
  | SERVER_TYPE_GAME => 4 | SERVER_TYPE_DB => 5 | SERVER_TYPE_COUNT => 6
  end.

Definition LOGIN_SERVER_MIN_ID : Z := 10001.
Definition LOGIN_SERVER_MAX_ID : Z := 10100.
Definition GATE_SERVER_MIN_ID : Z := 20001.
Definition GATE_SERVER_MAX_ID : Z := 20100.
Definition GAME_SERVER_MIN_ID : Z := 40001.
Definition GAME_SERVER_MAX_ID : Z := 40100.
Definition SERVER_ID_DEVIDE : Z := 10000.

(** [int] division rounds towards zero. *)
Definition get_server_type (server_id : Z) : Z := Z.quot server_id SERVER_ID_DEVIDE.

(** The characters of a session code. *)
Definition session_chars : bytes :=
  (fun a => Z.of_nat (nat_of_ascii a)) <$>
  list_ascii_of_string "abcdefghijklmnopqrstuvwxyz0123456789~!@#$%^&*()_+`-={}[]:<>?,./".

Section session.
(** The [i]th number the engine seeded with [seed] draws from [0 .. n] ([default_random_engine] and
    [uniform_int_distribution] of the C++ library). *)
Variable draw : Z -> Z -> nat -> Z.

(** [c] is the static counter that is added to the time, an unsigned 32 bit integer. *)
Definition get_session_code (now : Z) (c : Z) (buf_len : nat) : bytes * Z :=
  let gen := now + c in
  ((fun i => default 0 (session_chars !! Z.to_nat (draw gen (lenZ session_chars - 1) i))) <$> seq 0 buf_len, u32 (c + 1)).
End session.

Definition ENTER_GAME_SESSION_CODE_LENGTH : nat := 16.
Definition RECONN_SESSION_CODE_BUF_LENGTH : nat := 16.
