(* ===== verification/LoginServer.v ===== *)
(** * The login server ([login_server/])

    Clients log in with an account, get the list of gate servers and select one; the selected
    gate server is told the account and answers with a session code, which the client
    gets together with the gate's address.  [client_manager.*], [gate_server_list.*],
    [client_handler.cpp], [gate_handler.cpp] and [conn_config_handler.cpp]. *)
From S2P Require Import Prelude Datatype Agent AppNet Proto Common.
From Stdlib Require Import ZArith Lia.
From stdpp Require Import base option list gmap.
Local Open Scope Z_scope.

Record ClientData : Type := mkClientData { cd_gate_id : Z }.
Record GateData : Type := mkGateData { ga_id : Z; ga_ip : bytes; ga_port : Z }.

(** What a server reads from its configuration file. *)
Record LoginConfig : Type := mkLoginConfig { lcf_id : Z; lcf_max_conn : Z; lcf_gate_ip : bytes; lcf_gate_port : Z }.

Record LoginServer : Type := mkLS {
  ls_net : Net;
  ls_clients : AgentManager ClientData bytes;          (** [ClientManager] *)
  ls_gate_conf_list : list MsgGateConfData;            (** [GateServerList] *)
  ls_gate_mgr : AgentManagerPerf GateData;
  ls_tmp : bytes;                                      (** [ClientHandler::tmp_] *)
  ls_conf : LoginConfig;
}.

Definition LoginServer_new (tmp : bytes) (conf : LoginConfig) : LoginServer :=
  mkLS Net_new AgentManager_new [] (AgentManagerPerf_new GATE_SERVER_MAX_ID GATE_SERVER_MIN_ID) tmp conf.

Definition ls_set_net (n : Net) (s : LoginServer) : LoginServer :=
  mkLS n (ls_clients s) (ls_gate_conf_list s) (ls_gate_mgr s) (ls_tmp s) (ls_conf s).
Definition ls_set_clients (m : AgentManager ClientData bytes) (s : LoginServer) : LoginServer :=
  mkLS (ls_net s) m (ls_gate_conf_list s) (ls_gate_mgr s) (ls_tmp s) (ls_conf s).
Definition ls_set_gate_conf_list (l : list MsgGateConfData) (s : LoginServer) : LoginServer :=
  mkLS (ls_net s) (ls_clients s) l (ls_gate_mgr s) (ls_tmp s) (ls_conf s).
Definition ls_set_gate_mgr (m : AgentManagerPerf GateData) (s : LoginServer) : LoginServer :=
  mkLS (ls_net s) (ls_clients s) (ls_gate_conf_list s) m (ls_tmp s) (ls_conf s).
Definition ls_set_tmp (tmp : bytes) (s : LoginServer) : LoginServer :=
  mkLS (ls_net s) (ls_clients s) (ls_gate_conf_list s) (ls_gate_mgr s) tmp (ls_conf s).

Section login.
(** The connection managers of the three servers and clients of the process. *)
Variables CLIENT_MGR GATE_MGR CONFIG_MGR : Z.
Context `{ServerMessages}.

(** ** ClientManager and GateServerList *)

Definition cmgr_isFull (s : LoginServer) : bool := lcf_max_conn (ls_conf s) <=? am_getAgentSize (ls_clients s).

(** [get(gate_id)]. *)
Definition gsl_get (gate_id : Z) (s : LoginServer) : option MsgGateConfData :=
  find (fun d => gd_id d =? gate_id) (ls_gate_conf_list s).

(** The agent behind a pointer. *)
Definition client_agent (p : ptr) (s : LoginServer) : option (Agent ClientData) := am_objs (ls_clients s) !! p.
Definition gate_agent (p : ptr) (s : LoginServer) : option (Agent GateData) := ap_objs (ls_gate_mgr s) !! p.
Definition set_client_agent (p : ptr) (a : Agent ClientData) (s : LoginServer) : LoginServer :=
  let m := ls_clients s in ls_set_clients (mkAM (<[p := a]> (am_objs m)) (key2agents_ m) (id2keys_ m) (key2ids_ m)) s.
Definition set_gate_agent (p : ptr) (a : Agent GateData) (s : LoginServer) : LoginServer :=
  let m := ls_gate_mgr s in
  ls_set_gate_mgr (mkAP (<[p := a]> (ap_objs m)) (agents_ m) (agent_count_ m) (conn2agent_ids_ m) (agent2conn_ids_ m)) s.

(** ** Disconnect events *)

Definition client_onDisconnect (conn_id : Z) (s : LoginServer) : option LoginServer :=
  match am_getAgentByConnId (ls_clients s) conn_id with
  | None => Some s
  | Some _ => '(_, m) ← am_deleteAgentByConnId (ls_clients s) conn_id; Some (ls_set_clients m s)
  end.

Definition gate_onDisconnect (conn_id : Z) (s : LoginServer) : option LoginServer :=
  '(_, m) ← ap_deleteAgentByConnId GATE_SERVER_MIN_ID (ls_gate_mgr s) conn_id; Some (ls_set_gate_mgr m s).

Definition ls_onDisconnect (mgr conn_id : Z) (s : LoginServer) : option LoginServer :=
  if mgr =? CLIENT_MGR then client_onDisconnect conn_id s
  else if mgr =? GATE_MGR then gate_onDisconnect conn_id s else Some s.

#[local] Instance ls_calls : AgentCalls LoginServer := net_calls ls_net ls_set_net ls_onDisconnect.

(** ** ClientHandler

    A handler gets the connection manager and the connection id of the message and its data;
    [info->len] is [lenZ data]. *)

Definition ls_send_error (mgr conn_id error : Z) (s : LoginServer) : option (Z * LoginServer) :=
  match get_connection conn_id mgr (ls_net s) with
  | None => Some (-1, s)
  | Some _ =>
    (** the response is not serialised: [tmp_] holds what was sent before *)
    '(r, n) ← nt_send mgr conn_id None MSGID_S2C_LOGIN_RESPONSE (ls_tmp s) (ByteSize (mkMsgError error)) (ls_net s);
    Some (r, ls_set_net n s)
  end.

Definition client_onConnect (mgr conn_id : Z) (s : LoginServer) : option (Z * LoginServer) :=
  match get_connection conn_id mgr (ls_net s) with
  | None => Some (-1, s)
  | Some _ => if negb (cmgr_isFull s) then Some (0, s) else s ← ac_force_close mgr conn_id s; Some (0, s)
  end.

Definition server_info (d : MsgGateConfData) : MsgServerInfo :=
  mkServerInfo (gd_id d) (gd_name d) (gd_is_maintenance d) (gd_is_busy d).

(** The part of [processLogin] that kicks the account's agent. *)
Definition kick_account (account : bytes) (s : LoginServer) : option LoginServer :=
  match am_getAgent (ls_clients s) account with
  | None => Some s
  | Some p =>
    a ← client_agent p s;
    '(_, s) ← ag_force_close a s;
    '(_, m) ← am_deleteAgent (ls_clients s) account;
    Some (ls_set_clients m s)
  end.

Definition processLogin (mgr conn_id : Z) (data : bytes) (s : LoginServer) : option (Z * LoginServer) :=
  match (ParseFromArray data : option MsgC2S_LoginRequest) with
  | None => '(_, s) ← ls_send_error mgr conn_id PROTO_ERROR_LOGIN_DATA_INVALID s; Some (-1, s)
  | Some request =>
    s ← kick_account (lr_account request) s;
    let '(agent, m) := am_newAgent (mkClientData 0) (ls_clients s) (lr_account request) mgr conn_id in
    let s := ls_set_clients m s in
    match agent with
    | None => '(_, s) ← ls_send_error mgr conn_id PROTO_ERROR_LOGIN_REPEATED s; Some (-1, s)
    | Some p =>
      a ← client_agent p s;
      let a := ag_setState AGENT_STATE_VERIFIED a in
      let s := set_client_agent p a s in
      let response := mkLoginResponse (server_info <$> ls_gate_conf_list s) in
      match SerializeToArray response (ls_tmp s) with
      | None => Some (-1, s)
      | Some tmp =>
        let s := ls_set_tmp tmp s in
        '(r, s) ← ag_sendMsg a MSGID_S2C_LOGIN_RESPONSE tmp (ByteSize response) s;
        Some (if r <? 0 then -1 else lenZ data, s)
      end
    end
  end.

(** The last step of [processSelectServer]: the agent remembers the gate. *)
Definition set_gate_id (account : bytes) (gate_id : Z) (s : LoginServer) : option LoginServer :=
  match am_getAgent (ls_clients s) account with
  | None => Some s
  | Some p => a ← client_agent p s; Some (set_client_agent p (ag_setData (mkClientData gate_id) a) s)
  end.

Definition processSelectServer (mgr conn_id : Z) (data : bytes) (s : LoginServer) : option (Z * LoginServer) :=
  match (ParseFromArray data : option MsgC2S_SelectServerRequest) with
  | None => '(_, s) ← ls_send_error mgr conn_id PROTO_ERROR_LOGIN_DATA_INVALID s; Some (-1, s)
  | Some request =>
    let gate_id := sel_id request in
    match ap_getAgent GATE_SERVER_MIN_ID (ls_gate_mgr s) gate_id with
    | None => '(_, s) ← ls_send_error mgr conn_id PROTO_ERROR_LOGIN_GAME_SERVER_MAINTENANCE s; Some (-1, s)
    | Some gate =>
      match am_getKeyByConnId (ls_clients s) conn_id with
      | None => '(_, s) ← ls_send_error mgr conn_id PROTO_ERROR_LOGIN_DATA_INVALID s; Some (-1, s)
      | Some account =>
        let notify := mkSelectedServerNotify account in
        match SerializeToArray notify (ls_tmp s) with
        | None => Some (-1, s)
        | Some tmp =>
          let s := ls_set_tmp tmp s in
          a ← gate_agent gate s;
          '(r, s) ← ag_sendMsg a MSGID_LS2GT_SELECTED_SERVER_NOTIFY tmp (ByteSize notify) s;
          if r <? 0 then Some (-1, s) else
          s ← set_gate_id account gate_id s;
          Some (lenZ data, s)
        end
      end
    end
  end.

(** The reply is serialised but its sending is commented out. *)
Definition processEcho (mgr conn_id : Z) (data : bytes) (s : LoginServer) : Z * LoginServer :=
  match get_connection conn_id mgr (ls_net s) with
  | None => (-1, s)
  | Some _ =>
    match (ParseFromArray data : option MsgC2S_EchoRequest) with
    | None => (-1, s)
    | Some request =>
      match SerializeToArray (mkEchoResponse (ec_echo_str request)) (ls_tmp s) with
      | None => (-1, s)
      | Some tmp => (lenZ data, ls_set_tmp tmp s)
      end
    end
  end.

(** ** GateHandler

    [GateHandler::tmp_] is only read after it was written; [tmp] is what it held before. *)

Definition processConnectLogin (tmp : bytes) (mgr conn_id : Z) (data : bytes) (s : LoginServer) : option (Z * LoginServer) :=
  match (ParseFromArray data : option MsgGT2LS_ConnectLoginRequest) with
  | None => Some (-1, s)
  | Some request =>
    let gate_id := cl_gate_server_id request in
    match ap_getAgent GATE_SERVER_MIN_ID (ls_gate_mgr s) gate_id with
    | Some _ => Some (-1, s)
    | None =>
      let '(agent, m) := ap_newAgent (mkGateData 0 [] 0) GATE_SERVER_MIN_ID (ls_gate_mgr s) gate_id mgr conn_id in
      let s := ls_set_gate_mgr m s in
      match agent with
      | None => Some (-1, s)
      | Some p =>
        a ← gate_agent p s;
        let a := ag_setData (mkGateData gate_id (cl_gate_server_ip request) (s16 (cl_gate_server_port request))) a in
        let s := set_gate_agent p a s in
        let response := mkConnectLoginResponse (lcf_id (ls_conf s)) in
        match SerializeToArray response tmp with
        | None => Some (-1, s)
        | Some tmp =>
          '(r, s) ← ag_sendMsg a MSGID_LS2GT_CONNECT_LOGIN_RESPONSE tmp (ByteSize response) s;
          Some (if r <? 0 then -1 else lenZ data, s)
        end
      end
    end
  end.

Definition processSelectedServerResponse (tmp : bytes) (data : bytes) (s : LoginServer) : option (Z * LoginServer) :=
  match (ParseFromArray data : option MsgGT2LS_SelectedServerResponse) with
  | None => Some (-1, s)
  | Some res =>
    match am_getAgent (ls_clients s) (ss_account res) with
    | None => Some (-1, s)
    | Some p =>
      client ← client_agent p s;
      let gate_id := cd_gate_id (ag_data client) in
      match ap_getAgent GATE_SERVER_MIN_ID (ls_gate_mgr s) gate_id with
      | None => Some (-1, s)
      | Some _ =>
        match gsl_get gate_id s with
        | None => Some (-1, s)
        | Some d =>
          let response := mkSelectServerResponse (ss_session_code res) (gd_ip d) (gd_port d) in
          match SerializeToArray response tmp with
          | None => Some (-1, s)
          | Some tmp =>
            '(r, s) ← ag_sendMsg client MSGID_S2C_SELECT_SERVER_RESPONSE tmp (ByteSize response) s;
            Some (if r <? 0 then -1 else lenZ data, s)
          end
        end
      end
    end
  end.

(** ** ConnConfigHandler *)

Definition config_onConnect (tmp : bytes) (mgr conn_id : Z) (s : LoginServer) : option (Z * LoginServer) :=
  match get_connection conn_id mgr (ls_net s) with
  | None => Some (-1, s)
  | Some _ =>
    let request := mkLoginConfigRequest (lcf_id (ls_conf s)) (lcf_gate_ip (ls_conf s)) (lcf_gate_port (ls_conf s)) in
    match SerializeToArray request tmp with
    | None => Some (-1, s)
    | Some tmp =>
      '(r, n) ← nt_send mgr conn_id None MSGID_LS2CS_CONNECT_CONFIG_REQUEST tmp (ByteSize request) (ls_net s);
      Some (if r <? 0 then -1 else 0, ls_set_net n s)
    end
  end.

Definition processConnectConfigResponse (data : bytes) (s : LoginServer) : Z * LoginServer :=
  match (ParseFromArray data : option MsgCS2LS_ConnectConfigResponse) with
  | None => (-1, s)
  | Some response => (0, ls_set_gate_conf_list (lc_gate_list response) s)
  end.

(** The handler exists but the table of [config_data.h] does not register it. *)
Definition processGateConfListNotify (data : bytes) (s : LoginServer) : Z * LoginServer :=
  match (ParseFromArray data : option MsgCS2LS_GateConfListNotify) with
  | None => (-1, s)
  | Some notify => (0, ls_set_gate_conf_list (gn_gate_list notify) s)
  end.

(** ** What happens to a login server *)

Definition ls_client_msg (conn_id msg_id : Z) (data : bytes) (s : LoginServer) : option (Z * LoginServer) :=
  if msg_id =? MSGID_C2S_LOGIN_REQUEST then processLogin CLIENT_MGR conn_id data s
  else if msg_id =? MSGID_C2S_SELECT_SERVER_REQUEST then processSelectServer CLIENT_MGR conn_id data s
  else if msg_id =? MSGID_C2S_ECHO_REQUEST then Some (processEcho CLIENT_MGR conn_id data s)
  else Some (0, s).

Definition ls_gate_msg (tmp : bytes) (conn_id msg_id : Z) (data : bytes) (s : LoginServer) : option (Z * LoginServer) :=
  if msg_id =? MSGID_GT2LS_CONNECT_LOGIN_REQUEST then processConnectLogin tmp GATE_MGR conn_id data s
  else if msg_id =? MSGID_GT2LS_SELECTED_SERVER_RESPONSE then processSelectedServerResponse tmp data s
  else Some (0, s).

Definition ls_config_msg (msg_id : Z) (data : bytes) (s : LoginServer) : option (Z * LoginServer) :=
  if msg_id =? MSGID_CS2LS_CONNECT_CONFIG_RESPONSE then Some (processConnectConfigResponse data s) else Some (0, s).

(** [tmp] is what the static buffer of the other handlers holds. *)
Variable tmp : bytes.

Inductive ls_op : Type :=
| ls_op_connect (mgr : Z)
| ls_op_lost (mgr conn_id : Z)
| ls_op_recycle (mgr conn_id : Z)
| ls_op_revive (mgr conn_id : Z)
| ls_op_client (conn_id msg_id : Z) (data : bytes)
| ls_op_gate (conn_id msg_id : Z) (data : bytes)
| ls_op_config (conn_id msg_id : Z) (data : bytes).

Definition ls_exec (o : ls_op) (s : LoginServer) : option LoginServer :=
  match o with
  | ls_op_connect mgr =>
    let c := nt_next mgr (ls_net s) in
    let s := ls_set_net (nt_connect mgr (ls_net s)) s in
    if mgr =? CLIENT_MGR then '(_, s) ← client_onConnect mgr c s; Some s
    else if mgr =? CONFIG_MGR then '(_, s) ← config_onConnect tmp mgr c s; Some s else Some s
  | ls_op_lost mgr c => ac_force_close mgr c s
  | ls_op_recycle mgr c => n ← nt_recycle mgr c (ls_net s); Some (ls_set_net n s)
  | ls_op_revive mgr c =>
    if (mgr =? CLIENT_MGR) || (mgr =? GATE_MGR) then n ← nt_revive mgr c (ls_net s); Some (ls_set_net n s) else None
  | ls_op_client c msg_id data =>
    if nt_in_use CLIENT_MGR c (ls_net s) then handled CLIENT_MGR c (ls_client_msg c msg_id data s) else None
  | ls_op_gate c msg_id data =>
    if nt_in_use GATE_MGR c (ls_net s) then handled GATE_MGR c (ls_gate_msg tmp c msg_id data s) else None
  | ls_op_config c msg_id data =>
    if nt_in_use CONFIG_MGR c (ls_net s) then handled CONFIG_MGR c (ls_config_msg msg_id data s) else None
  end.

Fixpoint ls_exec_all (os : list ls_op) (s : LoginServer) : option LoginServer :=
  match os with [] => Some s | o :: os => s ← ls_exec o s; ls_exec_all os s end.
End login.
