(* ===== verification/LoginProps.v ===== *)
(** * What the login server guarantees

    It tells a gate server about an account only after a connection logged in with the account
    and selected a server. *)
From S2P Require Import Prelude Datatype Agent AppNet Proto Common LoginServer.
From Stdlib Require Import ZArith Lia.
From stdpp Require Import base option list gmap.
Local Open Scope Z_scope.

(** ** Steps that tell a gate nothing *)

Definition is_notify (p : Packet) : Prop := pk_msgid p = MSGID_LS2GT_SELECTED_SERVER_NOTIFY.

Record quiet_login (s s' : LoginServer) : Prop := mkQuietLogin {
  ql_sent : exists l, nt_sent (ls_net s') = nt_sent (ls_net s) ++ l /\ Forall (fun p => ~ is_notify p) l;
  ql_keys : forall c a, id2keys_ (ls_clients s') !! c = Some a -> id2keys_ (ls_clients s) !! c = Some a;
}.

#[export] Instance quiet_login_preorder : PreOrder quiet_login.
Proof.
  split.
  - intros s. constructor; [exists []; by rewrite app_nil_r|done].
  - intros a b c [(l1 & A1 & A2) A3] [(l2 & B1 & B2) B3]. constructor; [|auto]. exists (l1 ++ l2).
    rewrite B1, A1, app_assoc. split; [done|by apply Forall_app].
Qed.

Lemma quiet_login_same s s' :
  nt_sent (ls_net s') = nt_sent (ls_net s) -> id2keys_ (ls_clients s') = id2keys_ (ls_clients s) -> quiet_login s s'.
Proof. intros E1 E2. constructor; [exists []; by rewrite app_nil_r|by rewrite E2]. Qed.

Lemma nt_send_sent mgr c u m d l n r n' :
  nt_send mgr c u m d l n = Some (r, n') -> nt_sent n' = nt_sent n \/ exists x, nt_sent n' = nt_sent n ++ [mkPacket mgr c u m x] /\ mem_read d 0 l = Some x.
Proof.
  unfold nt_send. intros E. apply bind_Some in E as (st & _ & E). case_decide; [|injection E as _ <-; by left].
  apply bind_Some in E as ([] & _ & E). apply bind_Some in E as (x & Hx & [= _ <-]). right. by exists x.
Qed.

Lemma quiet_send mgr c u m d l r n' s :
  m <> MSGID_LS2GT_SELECTED_SERVER_NOTIFY -> nt_send mgr c u m d l (ls_net s) = Some (r, n') -> quiet_login s (ls_set_net n' s).
Proof.
  intros Hm E. apply nt_send_sent in E as [E|(x & E & _)]; [by apply quiet_login_same|]. constructor; [|done].
  exists [mkPacket mgr c u m x]. split; [done|]. by repeat constructor.
Qed.

Lemma deleteAgent_keys m k r m' : am_deleteAgent (D := ClientData) (K := bytes) m k = Some (r, m') ->
  forall c a, id2keys_ m' !! c = Some a -> id2keys_ m !! c = Some a.
Proof.
  unfold am_deleteAgent. destruct (am_getAgent m k) as [p|]; [|by intros [= _ ->]]. intros E. apply bind_Some in E as (objs & _ & [= _ <-]).
  destruct (key2ids_ m !! k) as [c'|]; [|done]. intros c a Hc. cbn in Hc. by apply lookup_delete_Some in Hc as [_ Hc].
Qed.

Lemma quiet_clients s m :
  (forall c a, id2keys_ m !! c = Some a -> id2keys_ (ls_clients s) !! c = Some a) -> quiet_login s (ls_set_clients m s).
Proof. intros Hk. constructor; [exists []; by rewrite app_nil_r|done]. Qed.

Section props.
Variables CLIENT_MGR GATE_MGR CONFIG_MGR : Z.
Context `{ServerMessages}.
#[local] Instance login_calls : AgentCalls LoginServer := ls_calls CLIENT_MGR GATE_MGR.

Lemma onDisconnect_quiet mgr c s s' : ls_onDisconnect CLIENT_MGR GATE_MGR mgr c s = Some s' -> quiet_login s s'.
Proof using.
  unfold ls_onDisconnect, client_onDisconnect, gate_onDisconnect. destruct (_ =? _).
  { destruct (am_getAgentByConnId _ _); [|by intros [= ->]]. intros E. apply bind_Some in E as ([r m] & E & [= <-]).
    apply quiet_clients. unfold am_deleteAgentByConnId in E. destruct (_ !! c); [by eapply deleteAgent_keys|by injection E as _ <-]. }
  destruct (_ =? _); [|by intros [= ->]]. intros E. apply bind_Some in E as ([r m] & _ & [= <-]). by apply quiet_login_same.
Qed.

Lemma force_close_quiet mgr c s s' : ac_force_close mgr c s = Some s' -> quiet_login s s'.
Proof using.
  intros E. cbn [ac_force_close login_calls ls_calls net_calls] in E. apply bind_Some in E as ([raised n] & En & E).
  assert (Hn : quiet_login s (ls_set_net n s)).
  { apply quiet_login_same; [|done]. unfold nt_force_close in En. apply bind_Some in En as (st & _ & [= En]).
    case_decide; by injection En as _ <-. }
  destruct raised; [|by injection E as <-]. etrans; [exact Hn|by apply onDisconnect_quiet in E].
Qed.

Lemma sendMsg_quiet {D} (a : Agent D) m d l r s s' :
  m <> MSGID_LS2GT_SELECTED_SERVER_NOTIFY -> ag_sendMsg a m d l s = Some (r, s') -> quiet_login s s'.
Proof using.
  intros Hm. unfold ag_sendMsg. case_decide; [by intros [= _ ->]|]. destruct (negb _); [by intros [= _ ->]|]. intros E.
  apply bind_Some in E as ([r1 s1] & E & [= _ <-]). cbn in E. apply bind_Some in E as ([r2 n] & E & [= _ <-]). by eapply quiet_send; [|exact E].
Qed.

Lemma ls_send_error_quiet mgr c e r s s' : ls_send_error mgr c e s = Some (r, s') -> quiet_login s s'.
Proof using.
  unfold ls_send_error. destruct (get_connection _ _ _); [|by intros [= _ ->]]. intros E. apply bind_Some in E as ([r1 n] & E & [= _ <-]).
  eapply quiet_send; [|exact E]; discriminate.
Qed.

Lemma kick_quiet a s s' : kick_account CLIENT_MGR GATE_MGR a s = Some s' -> quiet_login s s'.
Proof using.
  unfold kick_account. destruct (am_getAgent _ _) as [p|]; [|by intros [= ->]]. intros E. apply bind_Some in E as (x & _ & E).
  apply bind_Some in E as ([r1 s1] & E1 & E). apply bind_Some in E as ([r2 m] & Em & [= <-]).
  trans s1; [|by apply quiet_clients; eapply deleteAgent_keys]. unfold ag_force_close in E1.
  destruct (negb _); [by injection E1 as _ <-|]. apply bind_Some in E1 as (s2 & E1 & [= _ <-]). by eapply force_close_quiet.
Qed.

Lemma set_gate_id_quiet a g s s' : set_gate_id a g s = Some s' -> quiet_login s s'.
Proof using.
  unfold set_gate_id. destruct (am_getAgent _ _) as [p|]; [|by intros [= ->]]. intros E. apply bind_Some in E as (x & _ & [= <-]).
  by apply quiet_login_same.
Qed.
End props.

(** Takes the run of a handler apart, keeping what its parts do. *)
Ltac login_step :=
  match goal with
  | E : Some _ = Some _ |- _ => injection E; clear E; intros; subst
  | E : None = Some _ |- _ => discriminate E
  | E : (_ ≫= _) = Some _ |- _ => apply bind_Some in E; destruct E as (? & ? & E)
  | E : (let '(_, _) := ?x in _) = Some _ |- _ => destruct x eqn:?
  | E : (match ?x with _ => _ end) = Some _ |- _ => destruct x eqn:?
  | E : (if ?x then _ else _) = Some _ |- _ => destruct x eqn:?
  | E : ls_send_error _ _ _ _ = Some _ |- _ => apply ls_send_error_quiet in E
  | E : ag_sendMsg _ ?m _ _ _ = Some _ |- _ => apply sendMsg_quiet in E; [|discriminate]
  | E : nt_send _ _ _ _ _ _ _ = Some _ |- _ => apply quiet_send in E; [|discriminate]
  | E : kick_account _ _ _ _ = Some _ |- _ => apply kick_quiet in E
  | E : set_gate_id _ _ _ = Some _ |- _ => apply set_gate_id_quiet in E
  | x : (_ * _)%type |- _ => destruct x
  end; cbn beta iota in *.
Ltac login_quiet := repeat login_step.

Section handlers.
Variables CLIENT_MGR GATE_MGR CONFIG_MGR : Z.
Context `{ServerMessages}.
Variable tmp : bytes.
#[local] Instance handler_calls : AgentCalls LoginServer := ls_calls CLIENT_MGR GATE_MGR.

Lemma client_onConnect_quiet mgr c r s s' : client_onConnect CLIENT_MGR GATE_MGR mgr c s = Some (r, s') -> quiet_login s s'.
Proof using.
  unfold client_onConnect. intros E. destruct (get_connection _ _ _); [|by injection E as _ <-].
  destruct (negb _); [by injection E as _ <-|]. apply bind_Some in E as (s1 & E & [= _ <-]). by eapply force_close_quiet.
Qed.

Lemma config_onConnect_quiet mgr c r s s' : config_onConnect tmp mgr c s = Some (r, s') -> quiet_login s s'.
Proof using. unfold config_onConnect. intros E. login_quiet; by try done. Qed.

Lemma echo_quiet mgr c d r s s' : processEcho mgr c d s = (r, s') -> quiet_login s s'.
Proof using.
  unfold processEcho. destruct (get_connection _ _ _); [|by intros [= _ ->]]. destruct (ParseFromArray d); [|by intros [= _ ->]].
  destruct (SerializeToArray _ _); intros [= _ <-]; [|done]. by apply quiet_login_same.
Qed.

Lemma connect_config_quiet d r s s' : processConnectConfigResponse d s = (r, s') -> quiet_login s s'.
Proof using. unfold processConnectConfigResponse. destruct (ParseFromArray d); intros [= _ <-]; [|done]. by apply quiet_login_same. Qed.

Lemma connect_login_quiet mgr c d r s s' : processConnectLogin CLIENT_MGR GATE_MGR tmp mgr c d s = Some (r, s') -> quiet_login s s'.
Proof using.
  unfold processConnectLogin. intros E. destruct (ParseFromArray d); [|by injection E as _ <-].
  destruct (ap_getAgent _ _ _); [by injection E as _ <-|]. destruct (ap_newAgent _ _ _ _ _ _) as [[p|] m']; [|injection E as _ <-; by apply quiet_login_same].
  apply bind_Some in E as (a & _ & E). match type of E with context [set_gate_agent p ?x ?s1] => assert (Hs : quiet_login s (set_gate_agent p x s1)) by (by apply quiet_login_same) end.
  login_quiet; [|done]. by etrans.
Qed.

Lemma selected_response_quiet d r s s' : processSelectedServerResponse CLIENT_MGR GATE_MGR tmp d s = Some (r, s') -> quiet_login s s'.
Proof using. unfold processSelectedServerResponse. intros E. login_quiet; by try done. Qed.

(** ** One step of a login server *)

Record login_step (o : ls_op) (s s' : LoginServer) : Prop := mkLoginStep {
  lg_keys : forall c a, id2keys_ (ls_clients s') !! c = Some a ->
    id2keys_ (ls_clients s) !! c = Some a \/
    exists d q, o = ls_op_client c MSGID_C2S_LOGIN_REQUEST d /\ (ParseFromArray d : option MsgC2S_LoginRequest) = Some q /\ lr_account q = a;
  lg_sent : exists l, nt_sent (ls_net s') = nt_sent (ls_net s) ++ l /\ forall p, p ∈ l -> is_notify p -> exists c d a,
    o = ls_op_client c MSGID_C2S_SELECT_SERVER_REQUEST d /\ id2keys_ (ls_clients s) !! c = Some a /\
    pk_data p = Serialize (mkSelectedServerNotify a);
}.

Lemma quiet_login_step o s s' : quiet_login s s' -> login_step o s s'.
Proof using.
  intros [(l & El & Hl) Hk]. constructor; [by left; apply Hk|]. exists l. split; [done|]. intros p Hp Hn.
  rewrite Forall_forall in Hl. by destruct (Hl p Hp).
Qed.

Lemma login_step_quiet o s s1 s' : login_step o s s1 -> quiet_login s1 s' -> login_step o s s'.
Proof using.
  intros [Hk (l & El & Hl)] [(l' & El' & Hl') Hk']. constructor; [auto|]. exists (l ++ l'). rewrite El', El, app_assoc. split; [done|].
  intros p [Hp|Hp]%elem_of_app Hn; [by apply Hl|]. rewrite Forall_forall in Hl'. by destruct (Hl' p Hp).
Qed.

Lemma login_request_step mgr c d r s s' :
  processLogin CLIENT_MGR GATE_MGR mgr c d s = Some (r, s') -> login_step (ls_op_client c MSGID_C2S_LOGIN_REQUEST d) s s'.
Proof using.
  unfold processLogin. destruct (ParseFromArray d : option MsgC2S_LoginRequest) as [q|] eqn:Hq; intros E;
    [|login_quiet; by apply quiet_login_step].
  apply bind_Some in E as (s1 & E1 & E). apply kick_quiet in E1. destruct (am_newAgent _ _ _ _ _) as [[p|] m] eqn:Em.
  2: { unfold am_newAgent in Em. destruct (key2agents_ (ls_clients s1) !! lr_account q); [|done]. injection Em as <-.
    apply quiet_login_step. etrans; [exact E1|]. assert (Hs : quiet_login s1 (ls_set_clients (ls_clients s1) s1)) by (by apply quiet_login_same).
    login_quiet. by etrans. }
  apply bind_Some in E as (a & _ & E).
  match type of E with context [ls_set_tmp _ ?x] => assert (Hg : login_step (ls_op_client c MSGID_C2S_LOGIN_REQUEST d) s x) end.
  { constructor.
    - intros c' a' Hc'. cbn in Hc'. unfold am_newAgent in Em. destruct (key2agents_ (ls_clients s1) !! lr_account q); [done|]. injection Em as _ <-.
      cbn in Hc'. unfold insert_new in Hc'. destruct (id2keys_ (ls_clients s1) !! c); [left; by apply E1|].
      apply lookup_insert_Some in Hc' as [[<- <-]|[_ Hc']]; [right; by exists d, q|left; by apply E1].
    - destruct E1 as [(l & El & Hl) _]. exists l. split; [done|]. intros x Hx Hn. rewrite Forall_forall in Hl. by destruct (Hl x Hx). }
  login_quiet; [|done]. eapply login_step_quiet; [exact Hg|]. etrans; [|eassumption]. by apply quiet_login_same.
Qed.

Lemma select_server_step mgr c d r s s' :
  processSelectServer CLIENT_MGR GATE_MGR mgr c d s = Some (r, s') -> login_step (ls_op_client c MSGID_C2S_SELECT_SERVER_REQUEST d) s s'.
Proof using.
  unfold processSelectServer. destruct (ParseFromArray d) as [q|]; intros E; [|login_quiet; by apply quiet_login_step].
  destruct (ap_getAgent _ _ _) as [g|]; [|login_quiet; by apply quiet_login_step].
  destruct (am_getKeyByConnId _ _) as [a|] eqn:Ha; [|login_quiet; by apply quiet_login_step].
  destruct (SerializeToArray _ _) as [tmp'|] eqn:Ht; [|login_quiet; by apply quiet_login_step].
  apply bind_Some in E as (x & _ & E). apply bind_Some in E as ([r1 s1] & E1 & E).
  assert (Hg : login_step (ls_op_client c MSGID_C2S_SELECT_SERVER_REQUEST d) s s1).
  { assert (H0 : login_step (ls_op_client c MSGID_C2S_SELECT_SERVER_REQUEST d) s (ls_set_tmp tmp' s)) by (by apply quiet_login_step, quiet_login_same).
    unfold ag_sendMsg in E1. case_decide; [by injection E1 as _ <-|]. destruct (negb _); [by injection E1 as _ <-|].
    apply bind_Some in E1 as ([r2 s2] & E1 & [= _ <-]). cbn in E1. apply bind_Some in E1 as ([r3 n] & E1 & [= _ <-]).
    apply nt_send_sent in E1 as [E1|(y & E1 & Hy)]; [by apply quiet_login_step, quiet_login_same|]. constructor; [by left|].
    eexists. split; [exact E1|]. intros z ->%list_elem_of_singleton _. exists c, d, a. split_and!; [done..|].
    assert (Hlen : u32 (ByteSize (mkSelectedServerNotify a)) = ByteSize (mkSelectedServerNotify a)).
    { unfold ByteSize, SerializeToArray, SerializeToBuffer in *. destruct (JMY_MAX_MSG_SIZE <? lenZ (Serialize (mkSelectedServerNotify a))) eqn:Hl; [done|].
      apply Z.ltb_ge in Hl. apply u32_id. unfold is_u32. unfold JMY_MAX_MSG_SIZE in Hl. lia. }
    rewrite Hlen in Hy. rewrite (serialized_read _ _ _ Ht) in Hy. by injection Hy as <-. }
  login_quiet; [done|]. by eapply login_step_quiet.
Qed.

Lemma handled_login_step o mgr c p s s' :
  (forall r s1, p = Some (r, s1) -> login_step o s s1) -> handled mgr c p = Some s' -> login_step o s s'.
Proof using.
  intros Hp E. unfold handled in E. apply bind_Some in E as ([r s1] & E1 & E). apply Hp in E1. destruct (_ <? _); [|by injection E as <-].
  eapply login_step_quiet; [exact E1|]. by eapply force_close_quiet.
Qed.

Lemma nt_connect_quiet mgr s : quiet_login s (ls_set_net (nt_connect mgr (ls_net s)) s).
Proof using. by apply quiet_login_same. Qed.

(** Every step of a login server is such a step. *)
Lemma ls_exec_step o s s' : ls_exec CLIENT_MGR GATE_MGR CONFIG_MGR tmp o s = Some s' -> login_step o s s'.
Proof using.
  intros E. destruct o as [mgr|mgr c|mgr c|mgr c|c m d|c m d|c m d]; cbn [ls_exec] in E.
  - apply quiet_login_step. etrans; [apply (nt_connect_quiet mgr)|]. destruct (_ =? _).
    { apply bind_Some in E as ([r s1] & E & [= <-]). by eapply client_onConnect_quiet. }
    destruct (_ =? _); [|by injection E as <-]. apply bind_Some in E as ([r s1] & E & [= <-]). by eapply config_onConnect_quiet.
  - by eapply quiet_login_step, force_close_quiet.
  - apply bind_Some in E as (n & En & [= <-]). apply quiet_login_step, quiet_login_same; [|done].
    unfold nt_recycle in En. apply bind_Some in En as (st & _ & En). case_decide; [|done]. by injection En as <-.
  - destruct (_ || _); [|done]. apply bind_Some in E as (n & En & [= <-]). apply quiet_login_step, quiet_login_same; [|done].
    unfold nt_revive in En. apply bind_Some in En as (st & _ & En). by injection En as <-.
  - destruct (nt_in_use _ _ _); [|done]. eapply handled_login_step; [|exact E]. clear E. intros r s1 E. unfold ls_client_msg in E.
    destruct (m =? MSGID_C2S_LOGIN_REQUEST) eqn:Hm; [apply Z.eqb_eq in Hm as ->; by eapply login_request_step|].
    destruct (m =? MSGID_C2S_SELECT_SERVER_REQUEST) eqn:Hm2; [apply Z.eqb_eq in Hm2 as ->; by eapply select_server_step|].
    apply quiet_login_step. destruct (m =? MSGID_C2S_ECHO_REQUEST); [|by injection E as _ <-]. injection E as E. by eapply echo_quiet.
  - destruct (nt_in_use _ _ _); [|done]. eapply handled_login_step; [|exact E]. clear E. intros r s1 E. unfold ls_gate_msg in E.
    apply quiet_login_step. destruct (_ =? _); [by eapply connect_login_quiet|].
    destruct (_ =? _); [by eapply selected_response_quiet|by injection E as _ <-].
  - destruct (nt_in_use _ _ _); [|done]. eapply handled_login_step; [|exact E]. clear E. intros r s1 E. unfold ls_config_msg in E.
    apply quiet_login_step. destruct (_ =? _); [|by injection E as _ <-]. injection E as E. by eapply connect_config_quiet.
Qed.

(** ** The history of a run *)

Lemma ls_exec_app os1 os2 s :
  ls_exec_all CLIENT_MGR GATE_MGR CONFIG_MGR tmp (os1 ++ os2) s =
  s1 ← ls_exec_all CLIENT_MGR GATE_MGR CONFIG_MGR tmp os1 s; ls_exec_all CLIENT_MGR GATE_MGR CONFIG_MGR tmp os2 s1.
Proof using. revert s. induction os1 as [|o os1 IH]; intros s; [done|]. cbn. destruct (ls_exec _ _ _ _ o s); [apply IH|done]. Qed.

(** In [os], connection [c] logged in with account [a]; and then it selected a server. *)
Definition logged_in (os : list ls_op) (c : Z) (a : bytes) : Prop :=
  exists os1 d q os2, os = os1 ++ ls_op_client c MSGID_C2S_LOGIN_REQUEST d :: os2 /\
    (ParseFromArray d : option MsgC2S_LoginRequest) = Some q /\ lr_account q = a.
Definition selected_server (os : list ls_op) (c : Z) (a : bytes) : Prop :=
  exists os1 d os2, os = os1 ++ ls_op_client c MSGID_C2S_SELECT_SERVER_REQUEST d :: os2 /\ logged_in os1 c a.

Record login_history (os : list ls_op) (s : LoginServer) : Prop := mkLoginHistory {
  lh_keys : forall c a, id2keys_ (ls_clients s) !! c = Some a -> logged_in os c a;
  lh_sent : forall p, p ∈ nt_sent (ls_net s) -> is_notify p -> exists c a,
    pk_data p = Serialize (mkSelectedServerNotify a) /\ selected_server os c a;
}.

Lemma login_run_history tmp0 conf os s :
  ls_exec_all CLIENT_MGR GATE_MGR CONFIG_MGR tmp os (LoginServer_new tmp0 conf) = Some s -> login_history os s.
Proof using.
  revert s. induction os as [|o os IH] using rev_ind; intros s E.
  - injection E as <-. constructor; [intros c a Ha|intros p Hp].
    + unfold LoginServer_new, AgentManager_new in Ha. cbn [ls_clients id2keys_] in Ha. by rewrite lookup_empty in Ha.
    + by apply not_elem_of_nil in Hp.
  - rewrite ls_exec_app in E. apply bind_Some in E as (s1 & E1 & E2). cbn in E2. apply bind_Some in E2 as (s2 & E2 & [= <-]).
    destruct (IH s1 E1) as [I1 I2]. apply ls_exec_step in E2 as [S1 (l & El & S2)]. constructor.
    + intros c a [Hc|(d & q & -> & Hq & Ha)]%S1; [|by exists os, d, q, []].
      destruct (I1 c a Hc) as (os1 & d & q & os2 & -> & Hq & Ha). exists os1, d, q, (os2 ++ [o]). by rewrite <- app_assoc.
    + intros p Hp Hn. rewrite El in Hp. apply elem_of_app in Hp as [Hp|Hp].
      * destruct (I2 p Hp Hn) as (c & a & Hd & os1 & d & os2 & -> & Hl). exists c, a. split; [done|]. exists os1, d, (os2 ++ [o]). by rewrite <- app_assoc.
      * destruct (S2 p Hp Hn) as (c & d & a & -> & Hc & Hd). exists c, a. split; [done|]. exists os, d, []. split; [done|by apply I1].
Qed.
End handlers.
