(* ===== verification/GateClients.v ===== *)
(** * The gate server's table of clients ([gate_server/client_array.*], [gate_server/client_manager.*])

    [ClientArray] hands out the entries of a fixed array and [ClientManager] finds them by
    account and by connection; it also keeps the session codes that accounts may enter with.
    A [ClientInfo*] is the index of the entry in the array. *)
From S2P Require Import Prelude AppNet BiMap.
From Stdlib Require Import ZArith Lia.
From stdpp Require Import base option list gmap.
Local Open Scope Z_scope.

(** ** ClientInfo *)

Record ClientInfo : Type := mkClientInfo {
  ci_used : bool;
  ci_id : Z;
  ci_curr_role_id : Z;
  ci_account : bytes;
  ci_conn_id : Z;
  ci_conn_mgr : Z;
  ci_enter_session : bytes;
  ci_reconn_session : bytes;
  ci_role_id_list : list Z;
}.

Definition ClientInfo_new : ClientInfo := mkClientInfo false 0 0 [] 0 NULL [] [] [].
Definition ci_set_used (u : bool) (c : ClientInfo) : ClientInfo :=
  mkClientInfo u (ci_id c) (ci_curr_role_id c) (ci_account c) (ci_conn_id c) (ci_conn_mgr c) (ci_enter_session c)
    (ci_reconn_session c) (ci_role_id_list c).
Definition ci_set_id (id : Z) (c : ClientInfo) : ClientInfo :=
  mkClientInfo (ci_used c) id (ci_curr_role_id c) (ci_account c) (ci_conn_id c) (ci_conn_mgr c) (ci_enter_session c)
    (ci_reconn_session c) (ci_role_id_list c).
Definition ci_set_role (role : Z) (roles : list Z) (c : ClientInfo) : ClientInfo :=
  mkClientInfo (ci_used c) (ci_id c) role (ci_account c) (ci_conn_id c) (ci_conn_mgr c) (ci_enter_session c)
    (ci_reconn_session c) roles.
Definition ci_set_account (a : bytes) (c : ClientInfo) : ClientInfo :=
  mkClientInfo (ci_used c) (ci_id c) (ci_curr_role_id c) a (ci_conn_id c) (ci_conn_mgr c) (ci_enter_session c)
    (ci_reconn_session c) (ci_role_id_list c).
Definition ci_set_conn (conn mgr : Z) (c : ClientInfo) : ClientInfo :=
  mkClientInfo (ci_used c) (ci_id c) (ci_curr_role_id c) (ci_account c) conn mgr (ci_enter_session c)
    (ci_reconn_session c) (ci_role_id_list c).
Definition ci_set_sessions (enter reconn : bytes) (c : ClientInfo) : ClientInfo :=
  mkClientInfo (ci_used c) (ci_id c) (ci_curr_role_id c) (ci_account c) (ci_conn_id c) (ci_conn_mgr c) enter
    reconn (ci_role_id_list c).

Definition has_role_id (role_id : Z) (c : ClientInfo) : bool := existsb (Z.eqb role_id) (ci_role_id_list c).
Definition add_role_id (role_id : Z) (c : ClientInfo) : ClientInfo :=
  if has_role_id role_id c then c else ci_set_role (ci_curr_role_id c) (ci_role_id_list c ++ [role_id]) c.

(** ** ClientArray *)

(** The array: not allocated, freed (the pointer dangles), or its entries. *)
Inductive info_array : Type := array_null | array_freed | array_of (l : list ClientInfo).

Record ClientArray : Type := mkCA {
  info_array_ : info_array;
  start_id_ : Z;
  info_size_ : Z;
  free_ids_ : list Z;
  used_ids_ : gset Z;
  ca_inited_ : bool;
}.

Definition DEFAULT_CLIENT_START_ID : Z := 100000.
Definition ClientArray_new : ClientArray := mkCA array_null 0 0 [] ∅ false.

Definition ca_init (m : ClientArray) (array_size start_id : Z) : bool * ClientArray :=
  if (array_size <=? 0) || (start_id <=? 0) then (false, m) else
  match info_array_ m with
  | array_null =>
    if ca_inited_ m then (true, m) else
    let ids := (fun i => start_id + Z.of_nat i) <$> seq 0 (Z.to_nat array_size) in
    (true, mkCA (array_of ((fun id => ci_set_id id ClientInfo_new) <$> ids)) start_id array_size (free_ids_ m ++ ids) (used_ids_ m) true)
  | _ => (true, m)
  end.

(** The entries are freed; [info_array_] is freed too but not set to null. *)
Definition ca_clear (m : ClientArray) : option ClientArray :=
  match info_array_ m with
  | array_null => Some (mkCA array_null 0 0 [] ∅ false)
  | array_of _ => Some (mkCA array_freed 0 0 [] ∅ false)
  | array_freed => None
  end.

Definition ca_reset (m : ClientArray) : ClientArray := m.

(** [info_array_[i]], for an entry of an allocated array. *)
Definition ca_at (m : ClientArray) (i : nat) : option ClientInfo :=
  match info_array_ m with array_of l => l !! i | _ => None end.
Definition ca_update (m : ClientArray) (i : nat) (c : ClientInfo) : ClientArray :=
  mkCA (match info_array_ m with array_of l => array_of (<[i := c]> l) | a => a end) (start_id_ m) (info_size_ m)
    (free_ids_ m) (used_ids_ m) (ca_inited_ m).

(** A null pointer is [None] in the result. *)
Definition ca_getFree (m : ClientArray) : option (option nat * ClientArray) :=
  if negb (ca_inited_ m) then Some (None, m) else
  match free_ids_ m with
  | [] => Some (None, m)
  | id :: ids =>
    ub_unless (start_id_ m <=? id);;
    let i := Z.to_nat (id - start_id_ m) in
    c ← ca_at m i;
    let m := ca_update m i (ci_set_used true (ci_set_id id c)) in
    Some (Some i, mkCA (info_array_ m) (start_id_ m) (info_size_ m) ids ({[id]} ∪ used_ids_ m) (ca_inited_ m))
  end.

(** The upper bound of the range is one too large; the set of the used ids saves the access. *)
Definition ca_get (m : ClientArray) (id : Z) : option nat :=
  if negb (ca_inited_ m) then None else
  if (id <? start_id_ m) || (start_id_ m + info_size_ m <? id) then None else
  if decide (id ∈ used_ids_ m) then Some (Z.to_nat (id - start_id_ m)) else None.

Definition ca_free_info (m : ClientArray) (i : nat) : option (bool * ClientArray) :=
  if negb (ca_inited_ m) then Some (false, m) else
  c ← ca_at m i;
  if negb (ci_used c) then Some (false, m) else
  let m := ca_update m i (ci_set_used false c) in
  Some (true, mkCA (info_array_ m) (start_id_ m) (info_size_ m) (ci_id c :: free_ids_ m) (used_ids_ m ∖ {[ci_id c]}) (ca_inited_ m)).

Definition ca_free (m : ClientArray) (id : Z) : option (bool * ClientArray) :=
  match ca_get m id with None => Some (false, m) | Some i => ca_free_info m i end.

Definition ca_getUsedSize (m : ClientArray) : Z := Z.of_nat (size (used_ids_ m)).

(** ** ClientManager *)

Record SessionInfo : Type := mkSessionInfo { se_session : bytes; se_get_session_time : Z }.

Record ClientManager : Type := mkClientManager {
  account_session_map_ : gmap bytes SessionInfo;
  account_id_bimap_ : BiMap bytes Z;
  connid_id_bimap_ : BiMap Z Z;
  client_array_ : ClientArray;
}.

Definition ClientManager_new : ClientManager := mkClientManager ∅ BiMap_new BiMap_new ClientArray_new.
Definition cmg_set_sessions (s : gmap bytes SessionInfo) (m : ClientManager) : ClientManager :=
  mkClientManager s (account_id_bimap_ m) (connid_id_bimap_ m) (client_array_ m).
Definition cmg_set_array (a : ClientArray) (m : ClientManager) : ClientManager :=
  mkClientManager (account_session_map_ m) (account_id_bimap_ m) (connid_id_bimap_ m) a.
Definition cmg_set_accounts (b : BiMap bytes Z) (m : ClientManager) : ClientManager :=
  mkClientManager (account_session_map_ m) b (connid_id_bimap_ m) (client_array_ m).
Definition cmg_set_conns (b : BiMap Z Z) (m : ClientManager) : ClientManager :=
  mkClientManager (account_session_map_ m) (account_id_bimap_ m) b (client_array_ m).

Definition cmg_init (max_conn : Z) (m : ClientManager) : bool * ClientManager :=
  let '(r, a) := ca_init (client_array_ m) max_conn DEFAULT_CLIENT_START_ID in (r, cmg_set_array a m).

Definition cmg_clear (m : ClientManager) : option ClientManager :=
  a ← ca_clear (client_array_ m);
  Some (mkClientManager ∅ (bm_clear (account_id_bimap_ m)) (bm_clear (connid_id_bimap_ m)) a).

Definition newAccountSession (account session : bytes) (now : Z) (m : ClientManager) : bool * ClientManager :=
  (true, cmg_set_sessions (<[account := mkSessionInfo session now]> (account_session_map_ m)) m).

Definition SESSION_LIFETIME : Z := 100.

Definition checkSessionByAccount (account session : bytes) (now : Z) (m : ClientManager) : bool * ClientManager :=
  match account_session_map_ m !! account with
  | None => (false, m)
  | Some si =>
    if decide (se_session si <> session) then (false, m) else
    (negb (SESSION_LIFETIME <? now - se_get_session_time si), cmg_set_sessions (delete account (account_session_map_ m)) m)
  end.

Definition getClientInfo (id : Z) (m : ClientManager) : option nat := ca_get (client_array_ m) id.
Definition getClientInfoByAccount (account : bytes) (m : ClientManager) : option nat :=
  id ← find_1 (account_id_bimap_ m) account; ca_get (client_array_ m) id.
Definition getClientInfoByConnId (conn_id : Z) (m : ClientManager) : option nat :=
  id ← find_1 (connid_id_bimap_ m) conn_id; ca_get (client_array_ m) id.
Definition insertConnIdId (conn_id id : Z) (m : ClientManager) : bool * ClientManager :=
  let '(r, b) := bm_insert (connid_id_bimap_ m) conn_id id in (r, cmg_set_conns b m).
Definition getIdByConnId (conn_id : Z) (m : ClientManager) : Z := default 0 (find_1 (connid_id_bimap_ m) conn_id).

Definition removeByConnId (conn_id : Z) (m : ClientManager) : option (bool * ClientManager) :=
  match find_1 (connid_id_bimap_ m) conn_id with
  | None => Some (false, m)
  | Some id =>
    '(r, a) ← ca_free (client_array_ m) id;
    let m := cmg_set_array a m in
    if negb r then Some (false, m) else
    '(r, b) ← remove_2 (account_id_bimap_ m) id;
    let m := cmg_set_accounts b m in
    if negb r then Some (false, m) else
    '(r, b) ← remove_1 (connid_id_bimap_ m) conn_id;
    Some (r, cmg_set_conns b m)
  end.
