(* ===== verification/GateServer.v ===== *)
(** * The gate server ([gate_server/])

    Clients enter with a session code that the login server asked for, and their messages are
    passed on to the game server and back.  [global_data.*], [client_handler.cpp],
    [game_handler.cpp] and [conn_login_handler.cpp] over the table of clients of [GateClients]. *)
From S2P Require Import Prelude Datatype Agent BiMap AppNet Proto Common GateClients.
From Stdlib Require Import ZArith Lia.
From stdpp Require Import base option list gmap.
Local Open Scope Z_scope.

Record GateConfig : Type := mkGateConfig { gcf_id : Z; gcf_ip : bytes; gcf_port : Z; gcf_max_conn : Z }.

Record GateServer : Type := mkGS {
  gt_net : Net;
  gt_clients : ClientManager;
  gt_login_clients : gmap Z ptr;             (** [login_clients_]: the clients that connect to login servers *)
  gt_login_mgr : AgentManagerPerf unit;
  gt_game_mgr : AgentManagerPerf unit;
  gt_game_id : Z;                            (** [the_game_id_] *)
  gt_removed : list ptr;                     (** the arguments of the calls of [GATE_SERVER->removeLoginClient] *)
  gt_codes : Z;                              (** the static counter of [get_session_code] *)
  gt_conf : GateConfig;
}.

Definition GateServer_new (conf : GateConfig) : GateServer :=
  mkGS Net_new (snd (cmg_init (gcf_max_conn conf) ClientManager_new)) ∅
    (AgentManagerPerf_new LOGIN_SERVER_MAX_ID LOGIN_SERVER_MIN_ID) (AgentManagerPerf_new GAME_SERVER_MAX_ID GAME_SERVER_MIN_ID)
    0 [] 0 conf.

Definition gt_set_net (n : Net) (s : GateServer) : GateServer :=
  mkGS n (gt_clients s) (gt_login_clients s) (gt_login_mgr s) (gt_game_mgr s) (gt_game_id s) (gt_removed s) (gt_codes s) (gt_conf s).
Definition gt_set_clients (m : ClientManager) (s : GateServer) : GateServer :=
  mkGS (gt_net s) m (gt_login_clients s) (gt_login_mgr s) (gt_game_mgr s) (gt_game_id s) (gt_removed s) (gt_codes s) (gt_conf s).
Definition gt_set_login_clients (l : gmap Z ptr) (r : list ptr) (s : GateServer) : GateServer :=
  mkGS (gt_net s) (gt_clients s) l (gt_login_mgr s) (gt_game_mgr s) (gt_game_id s) r (gt_codes s) (gt_conf s).
Definition gt_set_login_mgr (m : AgentManagerPerf unit) (s : GateServer) : GateServer :=
  mkGS (gt_net s) (gt_clients s) (gt_login_clients s) m (gt_game_mgr s) (gt_game_id s) (gt_removed s) (gt_codes s) (gt_conf s).
Definition gt_set_game (m : AgentManagerPerf unit) (id : Z) (s : GateServer) : GateServer :=
  mkGS (gt_net s) (gt_clients s) (gt_login_clients s) (gt_login_mgr s) m id (gt_removed s) (gt_codes s) (gt_conf s).
Definition gt_set_codes (c : Z) (s : GateServer) : GateServer :=
  mkGS (gt_net s) (gt_clients s) (gt_login_clients s) (gt_login_mgr s) (gt_game_mgr s) (gt_game_id s) (gt_removed s) c (gt_conf s).

Section gate.
(** The connection managers of the server for clients, the server for the game server and
    the clients of login servers; what the random engine draws; the content of the static buffers. *)
Variables CLIENT_MGR GAME_MGR LOGIN_MGR : Z.
Variable draw : Z -> Z -> nat -> Z.
Variable tmp : bytes.
Context `{ServerMessages}.

(** ** GlobalData *)

Definition addLoginClient (login_id : Z) (client : ptr) (s : GateServer) : bool * GateServer :=
  match gt_login_clients s !! login_id with
  | Some _ => (false, s)
  | None => (true, gt_set_login_clients (<[login_id := client]> (gt_login_clients s)) (gt_removed s) s)
  end.

Definition removeLoginClient (login_id : Z) (s : GateServer) : bool * GateServer :=
  match gt_login_clients s !! login_id with
  | None => (false, s)
  | Some client => (true, gt_set_login_clients (delete login_id (gt_login_clients s)) (gt_removed s ++ [client]) s)
  end.

Definition getLoginIdByConnId (conn_id : Z) (s : GateServer) : Z := default 0 (ap_getIdByConnId (gt_login_mgr s) conn_id).

Definition removeLoginClientByConnId (conn_id : Z) (s : GateServer) : bool * GateServer :=
  let login_id := getLoginIdByConnId conn_id s in if login_id =? 0 then (false, s) else removeLoginClient login_id s.

Definition newLoginAgent (login_id mgr conn_id : Z) (s : GateServer) : option ptr * GateServer :=
  let '(agent, m) := ap_newAgent tt LOGIN_SERVER_MIN_ID (gt_login_mgr s) login_id mgr conn_id in (agent, gt_set_login_mgr m s).
Definition removeLoginAgent (login_id : Z) (s : GateServer) : option (bool * GateServer) :=
  '(r, m) ← ap_deleteAgent LOGIN_SERVER_MIN_ID (gt_login_mgr s) login_id; Some (r, gt_set_login_mgr m s).
Definition removeLoginAgentByConnId (conn_id : Z) (s : GateServer) : option (bool * GateServer) :=
  '(r, m) ← ap_deleteAgentByConnId LOGIN_SERVER_MIN_ID (gt_login_mgr s) conn_id; Some (r, gt_set_login_mgr m s).

Definition removeLoginAgentAndClientByConnId (conn_id : Z) (s : GateServer) : option (bool * GateServer) :=
  let login_id := getLoginIdByConnId conn_id s in
  '(r, s) ← removeLoginAgent login_id s;
  Some (if negb r then (false, s) else removeLoginClient login_id s).

Definition newGameAgent (game_id mgr conn_id : Z) (s : GateServer) : option ptr * GateServer :=
  match ap_getAgentByConnId GAME_SERVER_MIN_ID (gt_game_mgr s) conn_id with
  | Some _ => (None, s)
  | None =>
    if 0 <? gt_game_id s then (None, s) else
    let '(agent, m) := ap_newAgent tt GAME_SERVER_MIN_ID (gt_game_mgr s) game_id mgr conn_id in
    match agent with
    | None => (None, gt_set_game m (gt_game_id s) s)
    | Some p => (Some p, gt_set_game m game_id s)
    end
  end.

Definition removeGameAgentByConnId (conn_id : Z) (s : GateServer) : option (bool * GateServer) :=
  match ap_getAgentByConnId GAME_SERVER_MIN_ID (gt_game_mgr s) conn_id with
  | None => Some (false, s)
  | Some _ =>
    if decide (ap_getIdByConnId (gt_game_mgr s) conn_id = Some (gt_game_id s)) then
      '(_, m) ← ap_deleteAgent GAME_SERVER_MIN_ID (gt_game_mgr s) (gt_game_id s);
      Some (true, gt_set_game m 0 s)
    else Some (false, s)
  end.

(** ** Disconnect events *)

Definition gt_client_onDisconnect (mgr conn_id : Z) (s : GateServer) : option GateServer :=
  match get_connection conn_id mgr (gt_net s) with
  | None => Some s
  | Some _ => '(_, m) ← removeByConnId conn_id (gt_clients s); Some (gt_set_clients m s)
  end.

Definition gt_game_onDisconnect (conn_id : Z) (s : GateServer) : option GateServer :=
  '(_, s) ← removeGameAgentByConnId conn_id s; Some s.

Definition gt_login_onDisconnect (conn_id : Z) (s : GateServer) : option GateServer :=
  match ap_getAgentByConnId LOGIN_SERVER_MIN_ID (gt_login_mgr s) conn_id with
  | None => Some s
  | Some _ => '(_, s) ← removeLoginAgentAndClientByConnId conn_id s; Some s
  end.

Definition gt_onDisconnect (mgr conn_id : Z) (s : GateServer) : option GateServer :=
  if mgr =? CLIENT_MGR then gt_client_onDisconnect mgr conn_id s
  else if mgr =? GAME_MGR then gt_game_onDisconnect conn_id s
  else if mgr =? LOGIN_MGR then gt_login_onDisconnect conn_id s else Some s.

#[local] Instance gt_calls : AgentCalls GateServer := net_calls gt_net gt_set_net gt_onDisconnect.

(** [sendGameMsg]: to the game server, which must be connected. *)
Definition sendGameMsg (user : option Z) (msg_id : Z) (data : bytes) (len : Z) (s : GateServer) : option (Z * GateServer) :=
  match ap_getAgent GAME_SERVER_MIN_ID (gt_game_mgr s) (gt_game_id s) with
  | None => Some (-1, s)
  | Some p =>
    agent ← ap_objs (gt_game_mgr s) !! p;
    '(r, s) ← match user with
              | None => ag_sendMsg agent msg_id data len s
              | Some u => ag_sendMsg_user agent u msg_id data len s
              end;
    Some (if r <? 0 then -1 else len, s)
  end.

(** [send_error(conn, error)] on a connection that was found; the message fits its buffer of 64 bytes. *)
Definition gt_send_error (mgr conn_id error : Z) (s : GateServer) : option (Z * GateServer) :=
  let response := mkMsgError error in
  ub_unless (ByteSize response <=? 64);;
  '(r, n) ← nt_send mgr conn_id None MSGID_ERROR (Serialize response) (ByteSize response) (gt_net s);
  Some (r, gt_set_net n s).

(** ** Calls on a client's entry *)

Definition gt_entry (i : nat) (s : GateServer) : option ClientInfo := ca_at (client_array_ (gt_clients s)) i.
Definition gt_set_entry (i : nat) (c : ClientInfo) (s : GateServer) : GateServer :=
  gt_set_clients (cmg_set_array (ca_update (client_array_ (gt_clients s)) i c) (gt_clients s)) s.

Definition ci_send (i : nat) (msg_id : Z) (data : bytes) (len : Z) (s : GateServer) : option (Z * GateServer) :=
  c ← gt_entry i s;
  if negb (ci_used c) then Some (-1, s) else
  match get_connection (ci_conn_id c) (ci_conn_mgr c) (gt_net s) with
  | None => Some (-1, s)
  | Some _ =>
    '(r, n) ← nt_send (ci_conn_mgr c) (ci_conn_id c) None msg_id data (u16 len) (gt_net s);
    Some (r, gt_set_net n s)
  end.

(** The entry is marked as unused when the connection is still there. *)
Definition ci_close (i : nat) (s : GateServer) : option GateServer :=
  c ← gt_entry i s;
  if negb (ci_used c) then Some s else
  match get_connection (ci_conn_id c) (ci_conn_mgr c) (gt_net s) with
  | None => Some s
  | Some _ => n ← nt_close (ci_conn_mgr c) (ci_conn_id c) (gt_net s); Some (gt_set_entry i (ci_set_used false c) (gt_set_net n s))
  end.

Definition ci_force_close (i : nat) (s : GateServer) : option GateServer :=
  c ← gt_entry i s;
  if negb (ci_used c) then Some s else
  match get_connection (ci_conn_id c) (ci_conn_mgr c) (gt_net s) with
  | None => Some s
  | Some _ => ac_force_close (ci_conn_mgr c) (ci_conn_id c) s
  end.

Definition newClient (account : bytes) (s : GateServer) : option (option nat * GateServer) :=
  '(info, s) ← match find_1 (account_id_bimap_ (gt_clients s)) account with
    | Some id =>
      match ca_get (client_array_ (gt_clients s)) id with
      | None => Some (None, s)
      | Some i => s ← ci_force_close i s; Some (Some i, s)
      end
    | None =>
      '(info, a) ← ca_getFree (client_array_ (gt_clients s));
      let s := gt_set_clients (cmg_set_array a (gt_clients s)) s in
      match info with
      | None => Some (None, s)
      | Some i =>
        c ← gt_entry i s;
        let '(_, b) := bm_insert (account_id_bimap_ (gt_clients s)) account (ci_id c) in
        Some (Some i, gt_set_clients (cmg_set_accounts b (gt_clients s)) s)
      end
    end;
  match info with
  | None => Some (None, s)
  | Some i => c ← gt_entry i s; Some (Some i, gt_set_entry i (ci_set_account account c) s)
  end.

Definition newClientSession (account session_code : bytes) (s : GateServer) : option (bool * GateServer) :=
  '(info, s) ← newClient account s;
  match info with
  | None => Some (false, s)
  | Some i => c ← gt_entry i s; Some (true, gt_set_entry i (ci_set_sessions session_code (ci_reconn_session c) c) s)
  end.

Definition checkClientMaxCount (curr_count : Z) (s : GateServer) : bool := gcf_max_conn (gt_conf s) <=? curr_count.

(** ** ClientHandler

    A handler gets the manager and the id of the message's connection, and its data;
    [now] is [std::time(0)]. *)

Definition processGetRoleRequest (now mgr conn_id : Z) (data : bytes) (s : GateServer) : option (Z * GateServer) :=
  match get_connection conn_id mgr (gt_net s) with
  | None => Some (-1, s)
  | Some _ =>
    match (ParseFromArray data : option MsgC2S_GetRoleRequest) with
    | None => Some (-1, s)
    | Some request =>
      s ← match getClientInfoByAccount (gr_account request) (gt_clients s) with
          | Some i => ci_force_close i s
          | None => Some s
          end;
      let '(ok, m) := checkSessionByAccount (gr_account request) (gr_enter_session request) now (gt_clients s) in
      let s := gt_set_clients m s in
      if negb ok then '(_, s) ← gt_send_error mgr conn_id PROTO_ERROR_LOGIN_ACCOUNT_OR_PASSWORD_INVALID s; Some (-1, s) else
      '(ci, s) ← newClient (gr_account request) s;
      match ci with
      | None => '(_, s) ← gt_send_error mgr conn_id PROTO_ERROR_ENTER_GAME_INVALID_ACCOUNT s; Some (-1, s)
      | Some i =>
        let used_size := ca_getUsedSize (client_array_ (gt_clients s)) in
        if checkClientMaxCount used_size s then
          '(_, s) ← gt_send_error mgr conn_id PROTO_ERROR_ENTER_GAME_PLAYER_COUNT_MAXIMUM s;
          s ← ci_close i s; Some (-1, s)
        else
          c ← gt_entry i s;
          let '(_, m) := insertConnIdId conn_id (ci_id c) (gt_clients s) in
          let c := ci_set_conn conn_id mgr c in
          let s := gt_set_entry i c (gt_set_clients m s) in
          match SerializeToArray (mkGT2GS_GetRoleRequest (ci_account c)) tmp with
          | None => Some (-1, s)
          | Some _ =>
            '(r, s) ← sendGameMsg None MSGID_GT2GS_GET_ROLE_REQUEST data (u16 (lenZ data)) s;
            Some (if r <? 0 then -1 else lenZ data, s)
          end
      end
    end
  end.

Definition processCreateRoleRequest (mgr conn_id : Z) (data : bytes) (s : GateServer) : option (Z * GateServer) :=
  match get_connection conn_id mgr (gt_net s) with
  | None => Some (-1, s)
  | Some _ =>
    match getClientInfoByConnId conn_id (gt_clients s) with
    | None => Some (-1, s)
    | Some i =>
      match (ParseFromArray data : option MsgC2S_CreateRoleRequest) with
      | None => Some (-1, s)
      | Some request =>
        c ← gt_entry i s;
        let create_req := mkGT2GS_CreateRoleRequest (ci_account c) (cr_nick_name request) (cr_sex request) (cr_race request) in
        match SerializeToArray create_req tmp with
        | None => Some (-1, s)
        | Some tmp => '(_, s) ← sendGameMsg None MSGID_GT2GS_CREATE_ROLE_REQUEST tmp (u16 (ByteSize create_req)) s; Some (lenZ data, s)
        end
      end
    end
  end.

Definition processEnterGameRequest (mgr conn_id : Z) (data : bytes) (s : GateServer) : option (Z * GateServer) :=
  match get_connection conn_id mgr (gt_net s) with
  | None => Some (-1, s)
  | Some _ =>
    match getClientInfoByConnId conn_id (gt_clients s) with
    | None => Some (-1, s)
    | Some i =>
      c ← gt_entry i s;
      if ci_curr_role_id c =? 0 then
        '(_, s) ← gt_send_error mgr conn_id PROTO_ERROR_ENTER_GAME_INVALID_ACCOUNT s; Some (-1, s)
      else
        let request := mkEnterGameRequest (ci_curr_role_id c) in
        match SerializeToArray request tmp with
        | None => Some (-1, s)
        | Some tmp =>
          '(_, s) ← sendGameMsg (Some (ci_id c)) MSGID_GT2GS_ENTER_GAME_REQUEST tmp (u16 (ByteSize request)) s; Some (lenZ data, s)
        end
    end
  end.

Definition processLeaveGameRequest (conn_id : Z) (data : bytes) (s : GateServer) : option (Z * GateServer) :=
  match getClientInfoByConnId conn_id (gt_clients s) with
  | None => Some (-1, s)
  | Some i =>
    s ← ci_close i s;
    let request := mkLeaveGameRequest 0 in
    match SerializeToArray request tmp with
    | None => Some (-1, s)
    | Some tmp =>
      c ← gt_entry i s;
      '(r, s) ← sendGameMsg (Some (ci_id c)) MSGID_GT2GS_LEAVE_GAME_REQUEST tmp (u16 (ByteSize request)) s;
      Some (if r <? 0 then -1 else lenZ data, s)
    end
  end.

(** The reconnect session of the request is not looked at. *)
Definition processReconnectRequest (now mgr conn_id : Z) (data : bytes) (s : GateServer) : option (Z * GateServer) :=
  match (ParseFromArray data : option MsgC2S_ReconnectRequest) with
  | None => Some (-1, s)
  | Some request =>
    match get_connection conn_id mgr (gt_net s) with
    | None => Some (-1, s)
    | Some _ =>
      match getClientInfoByAccount (rq_account request) (gt_clients s) with
      | None => '(_, s) ← gt_send_error mgr conn_id PROTO_ERROR_RECONN_ACCOUNT_NOT_FOUND s; Some (-1, s)
      | Some i =>
        c ← gt_entry i s;
        (** [check_conn]: the entry's connection is this one *)
        let same := match get_connection (ci_conn_id c) (ci_conn_mgr c) (gt_net s) with
                    | Some _ => (ci_conn_id c =? conn_id) && (ci_conn_mgr c =? mgr) | None => false end in
        s ← (if same then Some s else ci_force_close i s);
        let '(code, n) := get_session_code draw now (gt_codes s) RECONN_SESSION_CODE_BUF_LENGTH in
        let s := gt_set_codes n s in
        c ← gt_entry i s;
        let s := gt_set_entry i (ci_set_sessions (ci_enter_session c) code c) s in
        let response := mkReconnectResponse code in
        match SerializeToArray response tmp with
        | None => '(_, s) ← gt_send_error mgr conn_id PROTO_ERROR_RECONN_FAILED s; Some (-1, s)
        | Some tmp =>
          '(r, n) ← nt_send mgr conn_id None MSGID_S2C_RECONNECT_RESPONSE tmp (ByteSize response) (gt_net s);
          Some (if r <? 0 then -1 else lenZ data, gt_set_net n s)
        end
      end
    end
  end.

Definition gt_client_default (mgr conn_id msg_id : Z) (data : bytes) (s : GateServer) : option (Z * GateServer) :=
  match get_connection conn_id mgr (gt_net s) with
  | None => Some (-1, s)
  | Some _ =>
    let id := getIdByConnId conn_id (gt_clients s) in
    if id =? 0 then '(_, s) ← gt_send_error mgr conn_id PROTO_ERROR_SERVER_INTERNAL_ERROR s; Some (-1, s) else
    '(r, s) ← sendGameMsg (Some id) msg_id data (u16 (lenZ data)) s;
    if r <? 0 then '(_, s) ← gt_send_error mgr conn_id PROTO_ERROR_SERVER_INTERNAL_ERROR s; Some (lenZ data, s)
    else Some (lenZ data, s)
  end.

(** ** GameHandler *)

Definition processConnectGateRequest (mgr conn_id : Z) (data : bytes) (s : GateServer) : option (Z * GateServer) :=
  match (ParseFromArray data : option MsgGS2GT_ConnectGateRequest) with
  | None => Some (-1, s)
  | Some request =>
    let '(agent, s) := newGameAgent (cg_game_id request) mgr conn_id s in
    match agent with
    | None => Some (-1, s)
    | Some p =>
      let response := mkConnectGateResponse (gcf_max_conn (gt_conf s)) (start_id_ (client_array_ (gt_clients s))) in
      match SerializeToArray response tmp with
      | None => Some (-1, s)
      | Some tmp =>
        a ← ap_objs (gt_game_mgr s) !! p;
        '(r, s) ← ag_sendMsg a MSGID_GT2GS_CONNECT_GATE_RESPONSE tmp (ByteSize response) s;
        Some (if r <? 0 then -1 else lenZ data, s)
      end
    end
  end.

Definition set_current_role (role_id : Z) (c : ClientInfo) : ClientInfo :=
  let c := add_role_id role_id c in ci_set_role role_id (ci_role_id_list c) c.

(** The reply that is filled in is [get_resp], but the game server's own message is serialised and sent. *)
Definition processGetRoleResponse (now : Z) (data : bytes) (s : GateServer) : option (Z * GateServer) :=
  match (ParseFromArray data : option MsgGS2GT_GetRoleResponse) with
  | None => Some (-1, s)
  | Some response =>
    match getClientInfoByAccount (gs_account response) (gt_clients s) with
    | None => Some (-1, s)
    | Some i =>
      let role_id := rd_role_id (gs_role_data response) in
      if role_id =? 0 then
        let error := mkMsgError PROTO_ERROR_GET_ROLE_NONE in
        match SerializeToArray error tmp with
        | None => Some (-1, s)
        | Some tmp =>
          '(r, s) ← ci_send i MSGID_ERROR tmp (ByteSize error) s;
          Some (if r <? 0 then -1 else lenZ data, s)
        end
      else
        let '(code, n) := get_session_code draw now (gt_codes s) RECONN_SESSION_CODE_BUF_LENGTH in
        let s := gt_set_codes n s in
        c ← gt_entry i s;
        let s := gt_set_entry i (ci_set_sessions (ci_enter_session c) code c) s in
        match SerializeToArray response tmp with
        | None => Some (-1, s)
        | Some tmp =>
          '(r, s) ← ci_send i MSGID_S2C_GET_ROLE_RESPONSE tmp (ByteSize response) s;
          if r <? 0 then Some (-1, s) else
          c ← gt_entry i s;
          Some (lenZ data, gt_set_entry i (set_current_role role_id c) s)
        end
    end
  end.

Definition client_role (d : MsgBaseRoleData) : MsgBaseRoleData :=
  mkBaseRoleData (rd_role_id d) (rd_nick_name d) (rd_race d) (rd_sex d) 0 0.

Definition processCreateRoleResponse (data : bytes) (s : GateServer) : option (Z * GateServer) :=
  match (ParseFromArray data : option MsgGS2GT_CreateRoleResponse) with
  | None => Some (-1, s)
  | Some response =>
    match getClientInfoByAccount (gsc_account response) (gt_clients s) with
    | None => Some (-1, s)
    | Some i =>
      c ← gt_entry i s;
      let s := gt_set_entry i (set_current_role (rd_role_id (gsc_role_data response)) c) s in
      let create_resp := mkCreateRoleResponse (client_role (gsc_role_data response)) in
      match SerializeToArray create_resp tmp with
      | None => Some (-1, s)
      | Some tmp =>
        '(r, s) ← ci_send i MSGID_S2C_CREATE_ROLE_RESPONSE tmp (ByteSize create_resp) s;
        Some (if r <? 0 then -1 else lenZ data, s)
      end
    end
  end.

(** [info->user_id] says which client the message is for. *)
Definition gt_game_default (mgr conn_id user_id msg_id : Z) (data : bytes) (s : GateServer) : option (Z * GateServer) :=
  match get_connection conn_id mgr (gt_net s) with
  | None => Some (-1, s)
  | Some _ =>
    if user_id =? 0 then Some (-1, s) else
    match getClientInfo user_id (gt_clients s) with
    | None => Some (-1, s)
    | Some i =>
      '(r, s) ← ci_send i msg_id data (u16 (lenZ data)) s;
      Some (if r <? 0 then -1 else lenZ data, s)
    end
  end.

(** ** ConnLoginHandler *)

Definition gt_login_onConnect (mgr conn_id : Z) (s : GateServer) : option (Z * GateServer) :=
  let request := mkConnectLoginRequest (gcf_id (gt_conf s)) (gcf_ip (gt_conf s)) (gcf_port (gt_conf s)) in
  match SerializeToArray request tmp with
  | None => Some (-1, s)
  | Some tmp =>
    match get_connection conn_id mgr (gt_net s) with
    | None => Some (-1, s)
    | Some _ =>
      '(r, n) ← nt_send mgr conn_id None MSGID_GT2LS_CONNECT_LOGIN_REQUEST tmp (ByteSize request) (gt_net s);
      Some (if r <? 0 then -1 else 0, gt_set_net n s)
    end
  end.

Definition processConnectLoginResponse (mgr conn_id : Z) (data : bytes) (s : GateServer) : Z * GateServer :=
  match (ParseFromArray data : option MsgLS2GT_ConnectLoginResponse) with
  | None => (-1, s)
  | Some response =>
    let login_id := cl_login_id response in
    if negb (get_server_type login_id =? server_type_value SERVER_TYPE_LOGIN) then (-1, s) else
    match ap_getAgent LOGIN_SERVER_MIN_ID (gt_login_mgr s) login_id with
    | Some _ => (-1, s)
    | None =>
      let '(agent, s) := newLoginAgent login_id mgr conn_id s in
      match agent with None => (-1, s) | Some _ => (0, s) end
    end
  end.

(** A session code for the account, remembered and sent back. *)
Definition processSelectedServerNotify (now mgr conn_id : Z) (data : bytes) (s : GateServer) : option (Z * GateServer) :=
  match get_connection conn_id mgr (gt_net s) with
  | None => Some (-1, s)
  | Some _ =>
    match (ParseFromArray data : option MsgLS2GT_SelectedServerNotify) with
    | None => Some (-1, s)
    | Some notify =>
      let '(code, n) := get_session_code draw now (gt_codes s) ENTER_GAME_SESSION_CODE_LENGTH in
      let s := gt_set_codes n s in
      let '(ok, m) := newAccountSession (sn_account notify) code now (gt_clients s) in
      let s := gt_set_clients m s in
      if negb ok then Some (-1, s) else
      let response := mkSelectedServerResponse (sn_account notify) code in
      match SerializeToArray response tmp with
      | None => Some (-1, s)
      | Some tmp =>
        '(r, n) ← nt_send mgr conn_id None MSGID_GT2LS_SELECTED_SERVER_RESPONSE tmp (ByteSize response) (gt_net s);
        Some (if r <? 0 then -1 else 0, gt_set_net n s)
      end
    end
  end.

(** ** What happens to a gate server

    A connection is made, is lost, is recycled, is read again (only those of clients and the game server were accepted), or
    delivers a message, which the tables of [config_data.h] give to its handler. *)

Definition gt_client_msg (now conn_id msg_id : Z) (data : bytes) (s : GateServer) : option (Z * GateServer) :=
  if msg_id =? MSGID_C2S_GET_ROLE_REQUEST then processGetRoleRequest now CLIENT_MGR conn_id data s
  else if msg_id =? MSGID_C2S_CREATE_ROLE_REQUEST then processCreateRoleRequest CLIENT_MGR conn_id data s
  else if msg_id =? MSGID_C2S_ENTER_GAME_REQUEST then processEnterGameRequest CLIENT_MGR conn_id data s
  else if msg_id =? MSGID_C2S_LEAVE_GAME_REQUEST then processLeaveGameRequest conn_id data s
  else if msg_id =? MSGID_C2S_RECONNECT_REQUEST then processReconnectRequest now CLIENT_MGR conn_id data s
  else gt_client_default CLIENT_MGR conn_id msg_id data s.

Definition gt_game_msg (now conn_id user_id msg_id : Z) (data : bytes) (s : GateServer) : option (Z * GateServer) :=
  if msg_id =? MSGID_GS2GT_CONNECT_GATE_REQUEST then processConnectGateRequest GAME_MGR conn_id data s
  else if msg_id =? MSGID_GS2GT_GET_ROLE_RESPONSE then processGetRoleResponse now data s
  else if msg_id =? MSGID_GS2GT_CREATE_ROLE_RESPONSE then processCreateRoleResponse data s
  else gt_game_default GAME_MGR conn_id user_id msg_id data s.

(** There is no default handler: other messages are ignored. *)
Definition gt_login_msg (now conn_id msg_id : Z) (data : bytes) (s : GateServer) : option (Z * GateServer) :=
  if msg_id =? MSGID_LS2GT_CONNECT_LOGIN_RESPONSE then Some (processConnectLoginResponse LOGIN_MGR conn_id data s)
  else if msg_id =? MSGID_LS2GT_SELECTED_SERVER_NOTIFY then processSelectedServerNotify now LOGIN_MGR conn_id data s
  else Some (0, s).

Inductive gt_op : Type :=
| gt_op_connect (mgr : Z)
| gt_op_lost (mgr conn_id : Z)
| gt_op_recycle (mgr conn_id : Z)
| gt_op_revive (mgr conn_id : Z)
| gt_op_client (now conn_id msg_id : Z) (data : bytes)
| gt_op_game (now conn_id user_id msg_id : Z) (data : bytes)
| gt_op_login (now conn_id msg_id : Z) (data : bytes).

Definition gt_exec (o : gt_op) (s : GateServer) : option GateServer :=
  match o with
  | gt_op_connect mgr =>
    let c := nt_next mgr (gt_net s) in
    let s := gt_set_net (nt_connect mgr (gt_net s)) s in
    if mgr =? LOGIN_MGR then '(_, s) ← gt_login_onConnect mgr c s; Some s else Some s
  | gt_op_lost mgr c => ac_force_close mgr c s
  | gt_op_recycle mgr c => n ← nt_recycle mgr c (gt_net s); Some (gt_set_net n s)
  | gt_op_revive mgr c =>
    if (mgr =? CLIENT_MGR) || (mgr =? GAME_MGR) then n ← nt_revive mgr c (gt_net s); Some (gt_set_net n s) else None
  | gt_op_client now c msg_id data =>
    if nt_in_use CLIENT_MGR c (gt_net s) then handled CLIENT_MGR c (gt_client_msg now c msg_id data s) else None
  | gt_op_game now c user msg_id data =>
    if nt_in_use GAME_MGR c (gt_net s) then handled GAME_MGR c (gt_game_msg now c user msg_id data s) else None
  | gt_op_login now c msg_id data =>
    if nt_in_use LOGIN_MGR c (gt_net s) then handled LOGIN_MGR c (gt_login_msg now c msg_id data s) else None
  end.

Fixpoint gt_exec_all (os : list gt_op) (s : GateServer) : option GateServer :=
  match os with [] => Some s | o :: os => s ← gt_exec o s; gt_exec_all os s end.
End gate.
