(* ===== verification/GateProps.v ===== *)
(** * What the gate server guarantees

    The table of clients stays consistent in every run, a client controls an account's entry
    only after it presented the session code issued for the account, and a client that left is locked out. *)
From S2P Require Import Prelude Datatype Agent BiMap AppNet Proto Codec Common GateClients GateServer.
From Stdlib Require Import ZArith Lia.
From stdpp Require Import base option list gmap.
Local Open Scope Z_scope.

(** ** Entries that only lose their mark *)

Record array_same (a a' : ClientArray) : Prop := mkArraySame {
  as_start : start_id_ a' = start_id_ a;
  as_size : info_size_ a' = info_size_ a;
  as_free : free_ids_ a' = free_ids_ a;
  as_used : used_ids_ a' = used_ids_ a;
  as_inited : ca_inited_ a' = ca_inited_ a;
  as_back : forall i c', ca_at a' i = Some c' ->
    exists c, ca_at a i = Some c /\ ci_id c' = ci_id c /\ (ci_used c' = true -> ci_used c = true);
  as_forth : forall i, is_Some (ca_at a i) -> is_Some (ca_at a' i);
}.

#[export] Instance array_same_preorder : PreOrder array_same.
Proof.
  split.
  - intros a. constructor; try done. eauto.
  - intros a b c [A1 A2 A3 A4 A5 A6 A7] [B1 B2 B3 B4 B5 B6 B7]. constructor; try congruence.
    + intros i c' Hc. destruct (B6 i c' Hc) as (x & Hx & I1 & U1). destruct (A6 i x Hx) as (y & Hy & I2 & U2).
      exists y. split; [done|]. split; [congruence|auto].
    + auto.
Qed.

(** An entry in use that is marked as unused stays so. *)
Definition left_stays (a a' : ClientArray) : Prop :=
  forall id c', id ∈ used_ids_ a -> ca_at a' (Z.to_nat (id - DEFAULT_CLIENT_START_ID)) = Some c' -> ci_used c' = true ->
    exists c, ca_at a (Z.to_nat (id - DEFAULT_CLIENT_START_ID)) = Some c /\ ci_used c = true.

Lemma array_same_left a a' : array_same a a' -> left_stays a a'.
Proof. intros Hs id c' _ Hc' Hu. destruct (as_back _ _ Hs _ _ Hc') as (c & Hc & _ & Hcu). eauto. Qed.

Lemma left_stays_trans a b c : left_stays a b -> (forall id, id ∈ used_ids_ a -> id ∈ used_ids_ b) -> left_stays b c -> left_stays a c.
Proof. intros H1 Hu H2 id x Hid Hx Hxu. destruct (H2 id x (Hu _ Hid) Hx Hxu) as (y & Hy & Hyu). eauto. Qed.

(** The sessions, both maps and the array apart from the entries' contents are the same. *)
Record same_table (s s' : GateServer) : Prop := mkSameTable {
  st_sessions : account_session_map_ (gt_clients s') = account_session_map_ (gt_clients s);
  st_accounts : account_id_bimap_ (gt_clients s') = account_id_bimap_ (gt_clients s);
  st_conns : connid_id_bimap_ (gt_clients s') = connid_id_bimap_ (gt_clients s);
  st_array : array_same (client_array_ (gt_clients s)) (client_array_ (gt_clients s'));
  st_conf : gt_conf s' = gt_conf s;
}.

#[export] Instance same_table_preorder : PreOrder same_table.
Proof.
  split; [intros s; by constructor|]. intros a b c [A1 A2 A3 A4 A5] [B1 B2 B3 B4 B5].
  constructor; try congruence. by etrans.
Qed.

Lemma same_table_clients s s' : gt_clients s' = gt_clients s -> gt_conf s' = gt_conf s -> same_table s s'.
Proof. intros E1 E2. constructor; by rewrite ?E1. Qed.

Lemma ca_at_update a i c j :
  ca_at (ca_update a i c) j = if decide (i = j) then (_ ← ca_at a i; Some c) else ca_at a j.
Proof.
  unfold ca_at, ca_update; cbn [info_array_]. destruct (info_array_ a) as [| |l]; try by case_decide.
  destruct (decide (i = j)) as [->|]; [|by rewrite list_lookup_insert_ne].
  destruct (l !! j) as [x|] eqn:E; [|by rewrite list_lookup_insert_None].
  rewrite list_lookup_insert_eq; [done|]. by eapply lookup_lt_Some.
Qed.

Lemma ca_at_fields a st sz f u b j : ca_at (mkCA (info_array_ a) st sz f u b) j = ca_at a j.
Proof. done. Qed.

Lemma set_entry_same i c c' s :
  gt_entry i s = Some c -> ci_id c' = ci_id c -> (ci_used c' = true -> ci_used c = true) -> same_table s (gt_set_entry i c' s).
Proof.
  intros E Hid Hu. constructor; try done. constructor; try done; cbn [gt_set_entry gt_set_clients gt_clients cmg_set_array client_array_].
  - intros j x. rewrite ca_at_update. case_decide as Hij; [subst j|eauto]. unfold gt_entry in E. rewrite E. intros [= <-]. eauto.
  - intros j. rewrite ca_at_update. case_decide as Hij; [subst j|done]. unfold gt_entry in E. rewrite E. by eexists.
Qed.

(** ** The invariant of the table *)

Record gt_wf (s : GateServer) : Prop := mkGtWf {
  wf_inited : ca_inited_ (client_array_ (gt_clients s)) = true;
  wf_start : start_id_ (client_array_ (gt_clients s)) = DEFAULT_CLIENT_START_ID;
  wf_size : info_size_ (client_array_ (gt_clients s)) = gcf_max_conn (gt_conf s);
  wf_entry : forall i, Z.of_nat i < gcf_max_conn (gt_conf s) ->
    exists c, ca_at (client_array_ (gt_clients s)) i = Some c /\ ci_id c = DEFAULT_CLIENT_START_ID + Z.of_nat i;
  wf_nodup : NoDup (free_ids_ (client_array_ (gt_clients s)));
  wf_ids : forall id, DEFAULT_CLIENT_START_ID <= id < DEFAULT_CLIENT_START_ID + gcf_max_conn (gt_conf s) <->
    id ∈ free_ids_ (client_array_ (gt_clients s)) \/ id ∈ used_ids_ (client_array_ (gt_clients s));
  wf_disj : forall id, id ∈ free_ids_ (client_array_ (gt_clients s)) -> id ∉ used_ids_ (client_array_ (gt_clients s));
  wf_accounts : forall a id, one_map_ (account_id_bimap_ (gt_clients s)) !! a = Some id <->
    two_map_ (account_id_bimap_ (gt_clients s)) !! id = Some a;
  wf_used : forall id, id ∈ used_ids_ (client_array_ (gt_clients s)) <-> is_Some (two_map_ (account_id_bimap_ (gt_clients s)) !! id);
  wf_conns : forall c id, one_map_ (connid_id_bimap_ (gt_clients s)) !! c = Some id <->
    two_map_ (connid_id_bimap_ (gt_clients s)) !! id = Some c;
  wf_conn_used : forall c id, one_map_ (connid_id_bimap_ (gt_clients s)) !! c = Some id -> id ∈ used_ids_ (client_array_ (gt_clients s));
}.

Lemma same_table_wf s s' : gt_wf s -> same_table s s' -> gt_wf s'.
Proof.
  intros [H1 H2 H3 H4 H5 H6 H7 H8 H9 H10 H11] [E1 E2 E3 [A1 A2 A3 A4 A5 A6 A7] E5].
  constructor; rewrite ?E1, ?E2, ?E3, ?E5, ?A1, ?A2, ?A3, ?A4, ?A5; try done.
  intros i Hi. destruct (H4 i Hi) as (c & Hc & Hid). destruct (A7 i) as [c' Hc']; [by eexists|]. exists c'. split; [done|].
  destruct (A6 _ _ Hc') as (x & Hx & Hxid & _). congruence.
Qed.

Lemma wf_get s id : gt_wf s ->
  ca_get (client_array_ (gt_clients s)) id =
  if decide (id ∈ used_ids_ (client_array_ (gt_clients s))) then Some (Z.to_nat (id - DEFAULT_CLIENT_START_ID)) else None.
Proof.
  intros Hw. unfold ca_get. rewrite (wf_inited _ Hw), (wf_start _ Hw), (wf_size _ Hw). cbn [negb].
  case_decide as Hu; [|by case_match].
  assert (Hr : DEFAULT_CLIENT_START_ID <= id < DEFAULT_CLIENT_START_ID + gcf_max_conn (gt_conf s)) by (apply (wf_ids _ Hw); by right).
  rewrite (proj2 (Z.ltb_ge _ _)), (proj2 (Z.ltb_ge _ _)) by lia. done.
Qed.

Lemma wf_used_entry s id : gt_wf s -> id ∈ used_ids_ (client_array_ (gt_clients s)) ->
  exists c, ca_at (client_array_ (gt_clients s)) (Z.to_nat (id - DEFAULT_CLIENT_START_ID)) = Some c /\ ci_id c = id.
Proof.
  intros Hw Hu. assert (Hr : DEFAULT_CLIENT_START_ID <= id < DEFAULT_CLIENT_START_ID + gcf_max_conn (gt_conf s)) by (apply (wf_ids _ Hw); by right).
  destruct (wf_entry _ Hw (Z.to_nat (id - DEFAULT_CLIENT_START_ID))) as (c & Hc & Hid); [lia|]. exists c. split; [done|]. lia.
Qed.

(** Removing a client's connection changes nothing, or reads an element that was erased. *)
Lemma remove_by_conn s c r m :
  gt_wf s -> removeByConnId c (gt_clients s) = Some (r, m) ->
  r = false /\ m = gt_clients s /\
  forall id, find_1 (connid_id_bimap_ (gt_clients s)) c = Some id ->
    exists x, ca_at (client_array_ (gt_clients s)) (Z.to_nat (id - DEFAULT_CLIENT_START_ID)) = Some x /\ ci_used x = false.
Proof.
  intros Hw. unfold removeByConnId, find_1. destruct (one_map_ _ !! c) as [id|] eqn:Hc; [|by intros [= <- <-]].
  pose proof (wf_conn_used _ Hw _ _ Hc) as Hu. destruct (wf_used_entry _ _ Hw Hu) as (x & Hx & Hxid).
  unfold ca_free. rewrite wf_get, decide_True by done. unfold ca_free_info. rewrite (wf_inited _ Hw). cbn [negb].
  rewrite Hx. cbv beta iota zeta delta [mbind option_bind]. destruct (ci_used x) eqn:Hxu; cbn [negb].
  - cbn [cmg_set_array account_id_bimap_]. apply (wf_used _ Hw) in Hu as [a Ha]. unfold remove_2. rewrite Ha.
    unfold iter_second. by rewrite lookup_delete_eq.
  - intros [= <- <-]. split; [done|]. split; [by destruct (gt_clients s)|]. intros ? [= <-]. eauto.
Qed.

Lemma removeByConnId_undefined s c id x : gt_wf s -> find_1 (connid_id_bimap_ (gt_clients s)) c = Some id ->
  ca_at (client_array_ (gt_clients s)) (Z.to_nat (id - DEFAULT_CLIENT_START_ID)) = Some x ->
  removeByConnId c (gt_clients s) = None -> ci_used x = true.
Proof.
  intros Hw Hc Hx. unfold removeByConnId. rewrite Hc. pose proof (wf_conn_used _ Hw _ _ Hc) as Hu.
  unfold ca_free. rewrite wf_get, decide_True by done. unfold ca_free_info. rewrite (wf_inited _ Hw). cbn [negb]. rewrite Hx.
  cbv beta iota zeta delta [mbind option_bind]. by destruct (ci_used x).
Qed.

Lemma wf_used_size s : gt_wf s -> 0 <= gcf_max_conn (gt_conf s) -> ca_getUsedSize (client_array_ (gt_clients s)) <= gcf_max_conn (gt_conf s).
Proof.
  intros Hw Hn. unfold ca_getUsedSize. set (n := gcf_max_conn (gt_conf s)) in *.
  assert (Hsub : used_ids_ (client_array_ (gt_clients s)) ⊆
    list_to_set ((fun i => DEFAULT_CLIENT_START_ID + Z.of_nat i) <$> seq 0 (Z.to_nat n))).
  { intros id Hid. assert (DEFAULT_CLIENT_START_ID <= id < DEFAULT_CLIENT_START_ID + n) by (apply (wf_ids _ Hw); by right).
    rewrite elem_of_list_to_set, list_elem_of_fmap. exists (Z.to_nat (id - DEFAULT_CLIENT_START_ID)).
    split; [lia|]. apply elem_of_seq. lia. }
  apply subseteq_size in Hsub. rewrite size_list_to_set, length_fmap, length_seq in Hsub by (apply NoDup_fmap_2_strong; [intros x y _ _; lia|apply NoDup_seq]).
  lia.
Qed.

(** ** Which operations leave the table alone *)

Section props.
Variables CLIENT_MGR GAME_MGR LOGIN_MGR : Z.
Variable draw : Z -> Z -> nat -> Z.
Variable tmp : bytes.
Context `{ServerMessages}.
#[local] Instance gate_calls : AgentCalls GateServer := gt_calls CLIENT_MGR GAME_MGR LOGIN_MGR.

Lemma onDisconnect_same mgr c s s' : gt_wf s -> gt_onDisconnect CLIENT_MGR GAME_MGR LOGIN_MGR mgr c s = Some s' -> same_table s s'.
Proof using.
  intros Hw. unfold gt_onDisconnect. destruct (mgr =? CLIENT_MGR).
  { unfold gt_client_onDisconnect. destruct (get_connection _ _ _); [|by intros [= ->]]. intros E.
    apply bind_Some in E as ([r m] & E & [= <-]). apply remove_by_conn in E as (-> & -> & _); [|done]. by apply same_table_clients. }
  destruct (mgr =? GAME_MGR).
  { unfold gt_game_onDisconnect, removeGameAgentByConnId. intros E. apply bind_Some in E as ([r s1] & E & [= <-]).
    destruct (ap_getAgentByConnId _ _ _); [|by injection E as _ <-]. case_decide; [|by injection E as _ <-].
    apply bind_Some in E as ([r1 m] & E & [= _ <-]). by apply same_table_clients. }
  destruct (mgr =? LOGIN_MGR); [|by intros [= ->]].
  unfold gt_login_onDisconnect, removeLoginAgentAndClientByConnId, removeLoginAgent, removeLoginClient.
  destruct (ap_getAgentByConnId _ _ _); [|by intros [= ->]].
  intros E. apply bind_Some in E as ([r s1] & E & [= <-]). apply bind_Some in E as ([r1 s2] & E & [= E2]).
  apply bind_Some in E as ([r2 m] & E & [= <- <-]).
  destruct (negb r2); [injection E2 as _ <-; by apply same_table_clients|].
  destruct (_ !! _); injection E2 as _ <-; by apply same_table_clients.
Qed.

Lemma set_net_same n s : same_table s (gt_set_net n s).
Proof using. by apply same_table_clients. Qed.

Lemma force_close_same mgr c s s' : gt_wf s -> ac_force_close mgr c s = Some s' -> same_table s s'.
Proof using.
  intros Hw E. cbn [ac_force_close gate_calls gt_calls net_calls] in E. apply bind_Some in E as ([raised n] & _ & E).
  destruct raised; [|injection E as <-; apply set_net_same]. pose proof (set_net_same n s) as Hn.
  etrans; [exact Hn|]. eapply onDisconnect_same; [|exact E]. by eapply same_table_wf.
Qed.

Lemma send_same r mgr c u m d l s n : nt_send mgr c u m d l (gt_net s) = Some (r, n) -> same_table s (gt_set_net n s).
Proof using. intros _. apply set_net_same. Qed.

Lemma sendMsg_same {D} (a : Agent D) m d l r s s' : ag_sendMsg a m d l s = Some (r, s') -> same_table s s'.
Proof using.
  unfold ag_sendMsg. case_decide; [by intros [= _ ->]|]. destruct (negb _); [by intros [= _ ->]|]. intros E.
  apply bind_Some in E as ([r1 s1] & E & [= _ <-]). cbn in E. apply bind_Some in E as ([r2 n] & _ & [= _ <-]). apply set_net_same.
Qed.

Lemma sendMsg_user_same {D} (a : Agent D) u m d l r s s' : ag_sendMsg_user a u m d l s = Some (r, s') -> same_table s s'.
Proof using.
  unfold ag_sendMsg_user. case_decide; [by intros [= _ ->]|]. destruct (negb _); [by intros [= _ ->]|]. intros E.
  apply bind_Some in E as ([r1 s1] & E & [= _ <-]). cbn in E. apply bind_Some in E as ([r2 n] & _ & [= _ <-]). apply set_net_same.
Qed.

Lemma sendGameMsg_same u m d l r s s' : sendGameMsg CLIENT_MGR GAME_MGR LOGIN_MGR u m d l s = Some (r, s') -> same_table s s'.
Proof using.
  unfold sendGameMsg. destruct (ap_getAgent _ _ _); [|by intros [= _ ->]]. intros E. apply bind_Some in E as (a & _ & E).
  apply bind_Some in E as ([r1 s1] & E & [= _ <-]). destruct u; [by apply sendMsg_user_same in E|by apply sendMsg_same in E].
Qed.

Lemma send_error_same mgr c e r s s' : gt_send_error mgr c e s = Some (r, s') -> same_table s s'.
Proof using.
  unfold gt_send_error. intros E. apply bind_Some in E as ([] & _ & E). apply bind_Some in E as ([r1 n] & _ & [= _ <-]). apply set_net_same.
Qed.

Lemma ci_send_same i m d l r s s' : ci_send i m d l s = Some (r, s') -> same_table s s'.
Proof using.
  unfold ci_send. intros E. apply bind_Some in E as (c & _ & E). destruct (negb _); [by injection E as _ <-|].
  destruct (get_connection _ _ _); [|by injection E as _ <-]. apply bind_Some in E as ([r1 n] & _ & [= _ <-]). apply set_net_same.
Qed.

Lemma ci_close_same i s s' : ci_close i s = Some s' -> same_table s s'.
Proof using.
  unfold ci_close. intros E. apply bind_Some in E as (c & Hc & E). destruct (negb _); [by injection E as <-|].
  destruct (get_connection _ _ _); [|by injection E as <-]. apply bind_Some in E as (n & _ & [= <-]).
  etrans; [apply (set_net_same n)|]. by apply (set_entry_same i c).
Qed.

Lemma ci_force_close_same i s s' : gt_wf s -> ci_force_close CLIENT_MGR GAME_MGR LOGIN_MGR i s = Some s' -> same_table s s'.
Proof using.
  intros Hw. unfold ci_force_close. intros E. apply bind_Some in E as (c & _ & E). destruct (negb _); [by injection E as <-|].
  destruct (get_connection _ _ _); [|by injection E as <-]. by apply force_close_same in E.
Qed.
End props.

#[export] Hint Resolve set_net_same : gate.

(** Takes the run of a handler apart, keeping the relation to the state before. *)
Ltac quiet_step :=
  match goal with
  | E : Some _ = Some _ |- _ => injection E; clear E; intros; subst
  | E : None = Some _ |- _ => discriminate E
  | E : (_ ≫= _) = Some _ |- _ => apply bind_Some in E; destruct E as (? & ? & E)
  | E : (let '(_, _) := ?x in _) = Some _ |- _ => destruct x eqn:?
  | E : (match ?x with _ => _ end) = Some _ |- _ => destruct x eqn:?
  | E : (if ?x then _ else _) = Some _ |- _ => destruct x eqn:?
  | E : gt_send_error _ _ _ _ = Some _ |- _ => apply send_error_same in E
  | E : sendGameMsg _ _ _ _ _ _ _ _ = Some _ |- _ => apply sendGameMsg_same in E
  | E : ag_sendMsg _ _ _ _ _ = Some _ |- _ => apply sendMsg_same in E
  | E : ci_send _ _ _ _ _ = Some _ |- _ => apply ci_send_same in E
  | E : ci_close _ _ = Some _ |- _ => apply ci_close_same in E
  | E : nt_send _ _ _ _ _ _ _ = Some _ |- _ => apply send_same in E
  | x : (_ * _)%type |- _ => destruct x
  end; cbn beta iota in *.
Ltac quiet := repeat quiet_step.

(** Composes the steps that were found. *)
Ltac chain := first [ reflexivity | eassumption
  | match goal with H : same_table ?s ?s1 |- same_table ?s _ => etransitivity; [exact H|]; clear H; chain end
  | match goal with |- same_table ?s (gt_set_net ?n ?s') => etransitivity; [|apply set_net_same]; chain end ].

Lemma set_codes_same c s : same_table s (gt_set_codes c s).
Proof. by apply same_table_clients. Qed.

Lemma set_current_role_same i c r s : gt_entry i s = Some c -> same_table s (gt_set_entry i (set_current_role r c) s).
Proof.
  intros E. apply (set_entry_same i c); [done|..]; unfold set_current_role, add_role_id; by destruct (has_role_id r c).
Qed.

Section quiet.
Variables CLIENT_MGR GAME_MGR LOGIN_MGR : Z.
Variable draw : Z -> Z -> nat -> Z.
Variable tmp : bytes.
Context `{ServerMessages}.
#[local] Existing Instance gate_calls.

Lemma create_role_same mgr c d r s s' :
  processCreateRoleRequest CLIENT_MGR GAME_MGR LOGIN_MGR tmp mgr c d s = Some (r, s') -> same_table s s'.
Proof using. unfold processCreateRoleRequest. intros E. quiet; chain. Qed.

Lemma enter_game_same mgr c d r s s' :
  processEnterGameRequest CLIENT_MGR GAME_MGR LOGIN_MGR tmp mgr c d s = Some (r, s') -> same_table s s'.
Proof using. unfold processEnterGameRequest. intros E. quiet; chain. Qed.

Lemma leave_game_same c d r s s' :
  processLeaveGameRequest CLIENT_MGR GAME_MGR LOGIN_MGR tmp c d s = Some (r, s') -> same_table s s'.
Proof using. unfold processLeaveGameRequest. intros E. quiet; chain. Qed.

Lemma client_default_same mgr c m d r s s' :
  gt_client_default CLIENT_MGR GAME_MGR LOGIN_MGR mgr c m d s = Some (r, s') -> same_table s s'.
Proof using. unfold gt_client_default. intros E. quiet; chain. Qed.

Lemma connect_gate_same mgr c d r s s' :
  processConnectGateRequest CLIENT_MGR GAME_MGR LOGIN_MGR tmp mgr c d s = Some (r, s') -> same_table s s'.
Proof using.
  unfold processConnectGateRequest. intros E.
  assert (Hn : forall g m c s1 o, newGameAgent g m c s = (o, s1) -> same_table s s1).
  { intros g m c' s1 o. unfold newGameAgent. destruct (ap_getAgentByConnId _ _ _); [by intros [= _ <-]|].
    destruct (_ <? _); [by intros [= _ <-]|]. destruct (ap_newAgent _ _ _ _ _ _) as [[p|] m']; intros [= _ <-]; by apply same_table_clients. }
  destruct (ParseFromArray d) as [q|]; [|by injection E as _ <-]. destruct (newGameAgent _ _ _ _) as [o s1] eqn:En. apply Hn in En.
  quiet; chain.
Qed.

Lemma game_default_same mgr c u m d r s s' : gt_game_default mgr c u m d s = Some (r, s') -> same_table s s'.
Proof using. unfold gt_game_default. intros E. quiet; chain. Qed.

Lemma get_role_response_same now d r s s' : processGetRoleResponse draw tmp now d s = Some (r, s') -> same_table s s'.
Proof using.
  unfold processGetRoleResponse. intros E. destruct (ParseFromArray d) as [q|]; [|by injection E as _ <-].
  destruct (getClientInfoByAccount _ _) as [i|]; [|by injection E as _ <-]. destruct (_ =? 0); [quiet; chain|].
  destruct (get_session_code _ _ _ _) as [code n]. apply bind_Some in E as (c & Hc & E).
  assert (Hs : same_table s (gt_set_entry i (ci_set_sessions (ci_enter_session c) code c) (gt_set_codes n s))).
  { etrans; [apply (set_codes_same n)|]. by apply (set_entry_same i c). }
  destruct (SerializeToArray _ _); [|by injection E as _ <-]. apply bind_Some in E as ([r1 s1] & E1 & E).
  apply ci_send_same in E1. destruct (_ <? _); [injection E as _ <-; by etrans|]. apply bind_Some in E as (c1 & Hc1 & [= _ <-]).
  etrans; [exact Hs|]. etrans; [exact E1|]. by apply set_current_role_same.
Qed.

Lemma create_role_response_same d r s s' : processCreateRoleResponse tmp d s = Some (r, s') -> same_table s s'.
Proof using.
  unfold processCreateRoleResponse. intros E. destruct (ParseFromArray d) as [q|]; [|by injection E as _ <-].
  destruct (getClientInfoByAccount _ _) as [i|]; [|by injection E as _ <-]. apply bind_Some in E as (c & Hc & E).
  pose proof (set_current_role_same i c (rd_role_id (gsc_role_data q)) s Hc) as Hs. quiet; chain.
Qed.

Lemma reconnect_same now mgr c d r s s' : gt_wf s ->
  processReconnectRequest CLIENT_MGR GAME_MGR LOGIN_MGR draw tmp now mgr c d s = Some (r, s') -> same_table s s'.
Proof using.
  intros Hw. unfold processReconnectRequest. intros E. destruct (ParseFromArray d) as [q|]; [|by injection E as _ <-].
  destruct (get_connection _ _ _); [|by injection E as _ <-]. destruct (getClientInfoByAccount _ _) as [i|]; [|quiet; chain].
  apply bind_Some in E as (x & Hx & E). apply bind_Some in E as (s1 & E1 & E).
  assert (Hs1 : same_table s s1) by (revert E1; repeat case_match; try (by intros [= <-]); by apply ci_force_close_same).
  destruct (get_session_code _ _ _ _) as [code n]. apply bind_Some in E as (y & Hy & E).
  assert (Hs : same_table s (gt_set_entry i (ci_set_sessions (ci_enter_session y) code y) (gt_set_codes n s1))).
  { etrans; [exact Hs1|]. etrans; [apply (set_codes_same n)|]. by apply (set_entry_same i y). }
  quiet; chain.
Qed.

Lemma connect_login_same mgr c d r s s' : processConnectLoginResponse mgr c d s = (r, s') -> same_table s s'.
Proof using.
  unfold processConnectLoginResponse, newLoginAgent. intros E. destruct (ParseFromArray d) as [q|]; [|by injection E as _ <-].
  destruct (negb _); [by injection E as _ <-|]. destruct (ap_getAgent _ _ _); [by injection E as _ <-|].
  destruct (ap_newAgent _ _ _ _ _ _) as [[p|] m']; injection E as _ <-; by apply same_table_clients.
Qed.

Lemma login_onConnect_same mgr c r s s' : gt_login_onConnect tmp mgr c s = Some (r, s') -> same_table s s'.
Proof using. unfold gt_login_onConnect. intros E. quiet; chain. Qed.
End quiet.

(** ** Entering *)

Lemma init_wf conf : 0 < gcf_max_conn conf -> gt_wf (GateServer_new conf).
Proof.
  intros Hn. unfold GateServer_new, cmg_init, ca_init. cbn [ClientManager_new client_array_ ClientArray_new info_array_ ca_inited_].
  rewrite (proj2 (Z.leb_gt _ _)) by lia. cbn [orb].
  assert (Hids : forall i, Z.of_nat i < gcf_max_conn conf ->
    ((fun i => DEFAULT_CLIENT_START_ID + Z.of_nat i) <$> seq 0 (Z.to_nat (gcf_max_conn conf))) !! i = Some (DEFAULT_CLIENT_START_ID + Z.of_nat i)).
  { intros i Hi. rewrite list_lookup_fmap, lookup_seq_lt by lia. done. }
  constructor; try done; cbn.
  - intros i Hi. rewrite list_lookup_fmap, Hids by done. by eexists.
  - apply (NoDup_fmap_2_strong); [intros x y _ _; lia|apply NoDup_seq].
  - intros id. rewrite list_elem_of_fmap. split.
    + intros Hid. left. exists (Z.to_nat (id - DEFAULT_CLIENT_START_ID)). split; [lia|]. apply elem_of_seq. lia.
    + intros [(i & -> & Hi%elem_of_seq)|Hid]; [lia|set_solver].
  - intros id. split; [set_solver|]. rewrite lookup_empty. by intros [].
Qed.

(** What [newClient] does to the table: the account has an entry, which is found again. *)
Record entered_account (a : bytes) (o : option nat) (s s' : GateServer) : Prop := mkEntered {
  ea_wf : gt_wf s';
  ea_sessions : account_session_map_ (gt_clients s') = account_session_map_ (gt_clients s);
  ea_conns : connid_id_bimap_ (gt_clients s') = connid_id_bimap_ (gt_clients s);
  ea_conf : gt_conf s' = gt_conf s;
  ea_keep : forall a' id, find_1 (account_id_bimap_ (gt_clients s)) a' = Some id -> find_1 (account_id_bimap_ (gt_clients s')) a' = Some id;
  ea_left : left_stays (client_array_ (gt_clients s)) (client_array_ (gt_clients s'));
  ea_entry : forall i, o = Some i -> exists id c, find_1 (account_id_bimap_ (gt_clients s')) a = Some id /\
    gt_entry i s' = Some c /\ ci_id c = id;
}.

Lemma same_table_entered a o s s' :
  gt_wf s -> same_table s s' ->
  (forall i, o = Some i -> exists id c, find_1 (account_id_bimap_ (gt_clients s')) a = Some id /\ gt_entry i s' = Some c /\ ci_id c = id) ->
  entered_account a o s s'.
Proof.
  intros Hw Hs Ho. pose proof Hs as [E1 E2 E3 E4 E5]. constructor; try done; [by eapply same_table_wf|by rewrite E2|by apply array_same_left].
Qed.

Lemma getFree_wf s id ids c a :
  gt_wf s -> free_ids_ (client_array_ (gt_clients s)) = id :: ids ->
  ca_at (client_array_ (gt_clients s)) (Z.to_nat (id - DEFAULT_CLIENT_START_ID)) = Some c ->
  find_1 (account_id_bimap_ (gt_clients s)) a = None ->
  let A := client_array_ (gt_clients s) in
  let i := Z.to_nat (id - DEFAULT_CLIENT_START_ID) in
  let A' := ca_update A i (ci_set_used true (ci_set_id id c)) in
  let A'' := mkCA (info_array_ A') (start_id_ A') (info_size_ A') ids ({[id]} ∪ used_ids_ A') (ca_inited_ A') in
  let b := mkBiMap (<[a := id]> (one_map_ (account_id_bimap_ (gt_clients s)))) (<[id := a]> (two_map_ (account_id_bimap_ (gt_clients s)))) in
  gt_wf (gt_set_clients (cmg_set_accounts b (cmg_set_array A'' (gt_clients s))) s).
Proof.
  intros Hw Hf Hc Ha A i A' A'' b.
  assert (Hnd : id ∉ ids /\ NoDup ids) by (apply NoDup_cons; rewrite <- Hf; apply Hw).
  assert (Hnu : id ∉ used_ids_ A) by (apply (wf_disj _ Hw); rewrite Hf; set_solver).
  assert (Hr : DEFAULT_CLIENT_START_ID <= id < DEFAULT_CLIENT_START_ID + gcf_max_conn (gt_conf s)).
  { apply (wf_ids _ Hw). left. rewrite Hf. set_solver. }
  assert (Hn2 : two_map_ (account_id_bimap_ (gt_clients s)) !! id = None).
  { apply eq_None_not_Some. intros Hx. by apply Hnu, (wf_used _ Hw). }
  pose proof Hw as [H1 H2 H3 H4 H5 H6 H7 H8 H9 H10 H11].
  constructor; cbn [gt_set_clients gt_clients gt_conf cmg_set_accounts cmg_set_array client_array_ account_id_bimap_ connid_id_bimap_ A'' b
    ca_inited_ start_id_ info_size_ free_ids_ used_ids_ one_map_ two_map_ ca_update A' A]; try done.
  - intros j Hj. change (ca_at A'' j) with (ca_at A' j). unfold A'. rewrite ca_at_update. case_decide as Hij; [|by apply H4].
    subst j. unfold A, i. rewrite Hc. eexists. split; [done|]. cbn. lia.
  - apply Hnd.
  - intros x. rewrite H6, Hf. set_solver.
  - intros x Hx. assert (x <> id) by (intros ->; by apply Hnd). assert (x ∉ used_ids_ A) by (apply H7; rewrite Hf; set_solver). set_solver.
  - intros a' x. rewrite !lookup_insert_Some. unfold find_1 in Ha. specialize (H8 a' x). naive_solver congruence.
  - intros x. rewrite elem_of_union, elem_of_singleton. unfold A. rewrite H9. destruct (decide (x = id)) as [->|].
    + rewrite lookup_insert_eq. split; [by eexists|by left].
    + rewrite lookup_insert_ne by done. split; [by intros [->|]|by right].
  - intros c' x Hx. apply H11 in Hx. set_solver.
Qed.

(** What [getFree] gives: nothing, or the entry of the first free id, marked as used. *)
Lemma getFree_spec s o A :
  gt_wf s -> ca_getFree (client_array_ (gt_clients s)) = Some (o, A) ->
  let B := client_array_ (gt_clients s) in
  (o = None /\ A = B) \/
  exists id ids c, free_ids_ B = id :: ids /\ ca_at B (Z.to_nat (id - DEFAULT_CLIENT_START_ID)) = Some c /\
    o = Some (Z.to_nat (id - DEFAULT_CLIENT_START_ID)) /\
    let B' := ca_update B (Z.to_nat (id - DEFAULT_CLIENT_START_ID)) (ci_set_used true (ci_set_id id c)) in
    A = mkCA (info_array_ B') (start_id_ B') (info_size_ B') ids ({[id]} ∪ used_ids_ B') (ca_inited_ B').
Proof.
  intros Hw. unfold ca_getFree. rewrite (wf_inited _ Hw). cbn [negb]. destruct (free_ids_ _) as [|id ids] eqn:Hf.
  - intros [= <- <-]. by left.
  - intros E. apply bind_Some in E as ([] & _ & E). apply bind_Some in E as (c & Hc & E). right. exists id, ids, c.
    rewrite (wf_start _ Hw) in Hc. split; [done|]. split; [done|]. apply (inj Some), pair_equal_spec in E as [<- <-].
    by rewrite (wf_start _ Hw).
Qed.

Section entering.
Variables CLIENT_MGR GAME_MGR LOGIN_MGR : Z.
#[local] Existing Instance gate_calls.

Lemma newClient_enters a s o s' :
  gt_wf s -> newClient CLIENT_MGR GAME_MGR LOGIN_MGR a s = Some (o, s') -> entered_account a o s s'.
Proof using.
  intros Hw. unfold newClient. intros E. apply bind_Some in E as ([info s1] & E1 & E).
  assert (H1 : entered_account a info s s1).
  { destruct (find_1 _ a) as [id|] eqn:Ha.
    - assert (Hu : id ∈ used_ids_ (client_array_ (gt_clients s))) by (apply (wf_used _ Hw); exists a; by apply (wf_accounts _ Hw)).
      rewrite wf_get, decide_True in E1 by done. apply bind_Some in E1 as (s2 & E2 & [= <- <-]). apply ci_force_close_same in E2; [|done].
      apply same_table_entered; [done..|]. intros i [= <-]. exists id. rewrite (st_accounts _ _ E2). unfold gt_entry.
      destruct (wf_used_entry s2 id) as (c & Hc & Hid); [by eapply same_table_wf|by rewrite (as_used _ _ (st_array _ _ E2))|]. eauto.
    - apply bind_Some in E1 as ([o1 A] & E1 & E2). apply getFree_spec in E1 as [[-> ->]|(id & ids & c & Hf & Hc & -> & ->)]; [| |done].
      + injection E2 as <- <-. apply same_table_entered; [done|by apply same_table_clients; [destruct s as [? []]|]|done].
      + pose proof (getFree_wf s id ids c a Hw Hf Hc Ha) as Hw'. cbv zeta in Hw'.
        apply bind_Some in E2 as (c2 & Hc2 & E2). unfold gt_entry in Hc2. cbn [gt_set_clients gt_clients cmg_set_array client_array_] in Hc2.
        assert (Hc2' : c2 = ci_set_used true (ci_set_id id c)).
        { rewrite ca_at_fields, ca_at_update, decide_True, Hc in Hc2 by done. by injection Hc2. }
        subst c2. cbn [ci_set_used ci_set_id ci_id] in E2. unfold bm_insert in E2.
        cbn [gt_set_clients gt_clients cmg_set_array account_id_bimap_] in E2. unfold find_1 in Ha. rewrite Ha in E2.
        assert (Hn2 : two_map_ (account_id_bimap_ (gt_clients s)) !! id = None).
        { apply eq_None_not_Some. intros Hx. apply (wf_used _ Hw) in Hx. revert Hx. apply (wf_disj _ Hw). rewrite Hf. set_solver. }
        rewrite Hn2 in E2. apply (inj Some), pair_equal_spec in E2 as [<- <-]. constructor; try done.
        * intros a' x Hx. unfold find_1 in *. cbn. rewrite lookup_insert_ne; [done|]. intros <-. congruence.
        * intros x c' Hx Hc' Hcu. cbn [gt_set_clients gt_clients cmg_set_accounts cmg_set_array client_array_] in Hc'.
          rewrite ca_at_fields, ca_at_update in Hc'. case_decide as Hj; [|eauto]. exfalso.
          assert (id ∉ used_ids_ (client_array_ (gt_clients s))) as Hnu by (apply (wf_disj _ Hw); rewrite Hf; set_solver).
          assert (DEFAULT_CLIENT_START_ID <= id) by (eapply (wf_ids _ Hw); left; rewrite Hf; set_solver).
          assert (DEFAULT_CLIENT_START_ID <= x) by (eapply (wf_ids _ Hw); by right). apply Hnu. by replace id with x by lia.
        * intros i [= <-]. eexists _, _. unfold find_1. cbn. rewrite lookup_insert_eq. split; [done|].
          unfold gt_entry. cbn. split; [exact Hc2|done]. }
  destruct info as [i|]; [|by injection E as <- <-].
  apply bind_Some in E as (c & Hc & [= <- <-]). destruct (ea_entry _ _ _ _ H1 i eq_refl) as (id & c' & Ha & Hc' & Hid).
  assert (Hset : same_table s1 (gt_set_entry i (ci_set_account a c) s1)) by (by apply (set_entry_same i c)).
  destruct H1 as [A1 A2 A3 A4 A5 A6 A7]. pose proof Hset as [S1 S2 S3 S4 S5].
  constructor; [by eapply same_table_wf|congruence|congruence|congruence|intros; rewrite S2; auto|..].
  - intros x y Hx Hy Hyu. destruct (as_back _ _ S4 _ _ Hy) as (z & Hz & _ & Hzu). eauto.
  - intros j [= <-]. exists id, (ci_set_account a c). rewrite S2. split; [done|]. split; [|simpl; congruence].
    unfold gt_entry. cbn. rewrite ca_at_update, decide_True by done. unfold gt_entry in Hc. by rewrite Hc.
Qed.
End entering.

(** ** One step of a gate server *)

Lemma wf_used_mono s s' : gt_wf s -> gt_wf s' ->
  (forall a id, find_1 (account_id_bimap_ (gt_clients s)) a = Some id -> find_1 (account_id_bimap_ (gt_clients s')) a = Some id) ->
  forall id, id ∈ used_ids_ (client_array_ (gt_clients s)) -> id ∈ used_ids_ (client_array_ (gt_clients s')).
Proof.
  intros Hw Hw' Hk id [a Ha]%(wf_used _ Hw). apply (wf_accounts _ Hw), Hk, (wf_accounts _ Hw') in Ha. apply (wf_used _ Hw'). by eexists.
Qed.

(** Inserting a connection keeps the table consistent. *)
Lemma insertConnIdId_wf s c id r m :
  gt_wf s -> id ∈ used_ids_ (client_array_ (gt_clients s)) -> insertConnIdId c id (gt_clients s) = (r, m) ->
  gt_wf (gt_set_clients m s) /\ account_session_map_ m = account_session_map_ (gt_clients s) /\
  account_id_bimap_ m = account_id_bimap_ (gt_clients s) /\ client_array_ m = client_array_ (gt_clients s) /\
  (forall c' id', find_1 (connid_id_bimap_ m) c' = Some id' -> find_1 (connid_id_bimap_ (gt_clients s)) c' = Some id' \/ (c' = c /\ id' = id)) /\
  (forall c' id', find_1 (connid_id_bimap_ (gt_clients s)) c' = Some id' -> find_1 (connid_id_bimap_ m) c' = Some id').
Proof.
  intros Hw Hu. unfold insertConnIdId, bm_insert, find_1.
  assert (Hsame : gt_wf (gt_set_clients (cmg_set_conns (connid_id_bimap_ (gt_clients s)) (gt_clients s)) s)).
  { eapply same_table_wf; [exact Hw|]. apply same_table_clients; [by destruct s as [? []]|done]. }
  destruct (one_map_ _ !! c) as [x|] eqn:Ec; [intros [= <- <-]; split_and!; eauto|].
  destruct (two_map_ (connid_id_bimap_ (gt_clients s)) !! id) as [x|] eqn:Ei; [intros [= <- <-]; split_and!; eauto|].
  intros E. apply pair_equal_spec in E as [<- <-]. split; [|repeat split; try done].
  - pose proof Hw as [H1 H2 H3 H4 H5 H6 H7 H8 H9 H10 H11].
    constructor; cbn [gt_set_clients gt_clients gt_conf cmg_set_conns client_array_ account_id_bimap_ connid_id_bimap_ one_map_ two_map_]; try done.
    + intros c' x. rewrite !lookup_insert_Some. specialize (H10 c' x). naive_solver congruence.
    + intros c' x [[<- <-]|[_ Hx]]%lookup_insert_Some; [done|eauto].
  - intros c' id' Hx. cbn in Hx. apply lookup_insert_Some in Hx as [[<- <-]|[_ Hx]]; [by right|by left].
  - intros c' id' Hx. cbn. rewrite lookup_insert_ne; [done|]. congruence.
Qed.

(** [newClient] found or made the account's entry, whose id is used. *)
Lemma entered_used a i s s' : entered_account a (Some i) s s' ->
  exists id c, find_1 (account_id_bimap_ (gt_clients s')) a = Some id /\ gt_entry i s' = Some c /\ ci_id c = id /\
    id ∈ used_ids_ (client_array_ (gt_clients s')).
Proof.
  intros He. destruct (ea_entry _ _ _ _ He i eq_refl) as (id & c & Ha & Hc & Hid). exists id, c. split_and!; try done.
  apply (wf_used _ (ea_wf _ _ _ _ He)). exists a. by apply (wf_accounts _ (ea_wf _ _ _ _ He)).
Qed.

Section steps.
Variables CLIENT_MGR GAME_MGR LOGIN_MGR : Z.
Variable draw : Z -> Z -> nat -> Z.
Variable tmp : bytes.
Context `{ServerMessages}.
#[local] Instance step_calls : AgentCalls GateServer := gt_calls CLIENT_MGR GAME_MGR LOGIN_MGR.

(** The step tells the gate server about an account: the time and the account. *)
Definition issues (o : gt_op) : option (Z * bytes) :=
  match o with
  | gt_op_login now _ msg_id data =>
    if msg_id =? MSGID_LS2GT_CONNECT_LOGIN_RESPONSE then None else
    if msg_id =? MSGID_LS2GT_SELECTED_SERVER_NOTIFY then
      q ← (ParseFromArray data : option MsgLS2GT_SelectedServerNotify); Some (now, sn_account q)
    else None
  | _ => None
  end.

(** The step presents a session code: the time, the connection, the account and the code. *)
Definition presents (o : gt_op) : option (Z * Z * bytes * bytes) :=
  match o with
  | gt_op_client now c msg_id data =>
    if msg_id =? MSGID_C2S_GET_ROLE_REQUEST then
      q ← (ParseFromArray data : option MsgC2S_GetRoleRequest); Some (now, c, gr_account q, gr_enter_session q)
    else None
  | _ => None
  end.

(** What a step may do to the sessions and to the clients' connections. *)
Record gate_step (o : gt_op) (s s' : GateServer) : Prop := mkGateStep {
  gs_wf : gt_wf s';
  gs_conf : gt_conf s' = gt_conf s;
  gs_accounts : forall a id, find_1 (account_id_bimap_ (gt_clients s)) a = Some id -> find_1 (account_id_bimap_ (gt_clients s')) a = Some id;
  gs_sessions : forall a si, account_session_map_ (gt_clients s') !! a = Some si ->
    (account_session_map_ (gt_clients s) !! a = Some si /\ (forall t, issues o <> Some (t, a)) /\
     (forall t c, presents o <> Some (t, c, a, se_session si))) \/
    (issues o = Some (se_get_session_time si, a) /\
     se_session si = (get_session_code draw (se_get_session_time si) (gt_codes s) ENTER_GAME_SESSION_CODE_LENGTH).1);
  gs_conns : forall c id, find_1 (connid_id_bimap_ (gt_clients s')) c = Some id ->
    find_1 (connid_id_bimap_ (gt_clients s)) c = Some id \/
    exists t a si, presents o = Some (t, c, a, se_session si) /\ account_session_map_ (gt_clients s) !! a = Some si /\
      t - se_get_session_time si <= SESSION_LIFETIME /\ find_1 (account_id_bimap_ (gt_clients s')) a = Some id;
  gs_keep : forall c id, find_1 (connid_id_bimap_ (gt_clients s)) c = Some id -> find_1 (connid_id_bimap_ (gt_clients s')) c = Some id;
  gs_used : forall id, id ∈ used_ids_ (client_array_ (gt_clients s)) -> id ∈ used_ids_ (client_array_ (gt_clients s'));
  gs_left : left_stays (client_array_ (gt_clients s)) (client_array_ (gt_clients s'));
}.

Lemma gate_step_same o s s1 s' : gate_step o s s1 -> same_table s1 s' -> gate_step o s s'.
Proof using.
  intros [G1 G2 G3 G4 G5 G6 G7 G8] Hs. pose proof Hs as [E1 E2 E3 E4 E5].
  constructor; [by eapply same_table_wf|congruence|..]; rewrite ?E1, ?E2, ?E3, ?(as_used _ _ E4); eauto using left_stays_trans, array_same_left.
Qed.

Lemma same_gate_step o s s' : gt_wf s -> same_table s s' -> issues o = None -> presents o = None -> gate_step o s s'.
Proof using.
  intros Hw Hs Hi Hp. pose proof Hs as [E1 E2 E3 E4 E5]. constructor; [by eapply same_table_wf|done|..];
    rewrite ?E1, ?E2, ?E3, ?(as_used _ _ E4); eauto using array_same_left.
  intros a si Ha. left. rewrite Hi, Hp. done.
Qed.

Lemma handled_step o mgr c p s s' :
  (forall r s1, p = Some (r, s1) -> gate_step o s s1) -> handled mgr c p = Some s' -> gate_step o s s'.
Proof using.
  intros Hp E. unfold handled in E. apply bind_Some in E as ([r s1] & E1 & E). apply Hp in E1. destruct (_ <? _); [|by injection E as <-].
  eapply gate_step_same; [exact E1|]. eapply force_close_same; [|exact E]. apply E1.
Qed.

(** Having a client entered for an account after the step. *)
Lemma gate_step_entered o s s1 s2 a i : gate_step o s s1 -> entered_account a i s1 s2 -> gate_step o s s2.
Proof using.
  intros [G1 G2 G3 G4 G5 G6 G7 G8] [A1 A2 A3 A4 A5 A6 A7]. pose proof (wf_used_mono _ _ G1 A1 A5) as Hu.
  constructor; [done|congruence|..]; rewrite ?A2, ?A3; eauto using left_stays_trans.
  intros c id Hc. destruct (G5 c id Hc) as [|(t & a' & si & ? & ? & ? & ?)]; [by left|]. right. exists t, a', si. eauto.
Qed.

(** The check of the session code uses the code up. *)
Lemma check_step o t c a code s s1 ok m :
  gt_wf s -> presents o = Some (t, c, a, code) -> issues o = None -> same_table s s1 ->
  checkSessionByAccount a code t (gt_clients s1) = (ok, m) ->
  gate_step o s (gt_set_clients m s1) /\
  (ok = true -> exists si, account_session_map_ (gt_clients s) !! a = Some si /\ se_session si = code /\ t - se_get_session_time si <= SESSION_LIFETIME).
Proof using.
  intros Hw Hp Hi Hs. pose proof Hs as [E1 E2 E3 E4 E5]. unfold checkSessionByAccount. rewrite E1.
  assert (Hkeep : (forall si, account_session_map_ (gt_clients s) !! a = Some si -> se_session si <> code) -> gate_step o s (gt_set_clients (gt_clients s1) s1)).
  { intros Hne. assert (Hs' : same_table s (gt_set_clients (gt_clients s1) s1)) by (etrans; [exact Hs|by apply same_table_clients]).
    pose proof Hs' as [F1 F2 F3 F4 F5]. constructor; [by eapply same_table_wf|done|..];
      rewrite ?F1, ?F2, ?F3, ?(as_used _ _ F4); eauto using array_same_left.
    intros a' si Ha'. left. rewrite Hi, Hp. split_and!; [done..|]. intros t' c' [= _ _ <- Hcode]. by apply (Hne si). }
  destruct (_ !! a) as [si|] eqn:Ha; [|intros [= <- <-]; split; [by apply Hkeep|done]].
  case_decide as Hne; [intros [= <- <-]; split; [apply Hkeep; by intros ? [= <-]|done]|]. subst code.
  intros E. apply pair_equal_spec in E as [<- <-]. split.
  - pose proof (same_table_wf _ _ Hw Hs) as [H1 H2 H3 H4 H5 H6 H7 H8 H9 H10 H11]. constructor; [by constructor|done|..];
      cbn [gt_set_clients gt_clients cmg_set_sessions account_id_bimap_ account_session_map_ connid_id_bimap_ client_array_];
      rewrite ?E2, ?E3, ?(as_used _ _ E4); eauto using array_same_left.
    intros a' si' [Hne Ha']%lookup_delete_Some. left. rewrite Hi, Hp. split_and!; [done..|congruence].
  - intros Ht. exists si. split_and!; [done..|]. apply negb_true_iff, Z.ltb_ge in Ht. done.
Qed.

Lemma get_role_step o now c data q s r s' :
  gt_wf s -> (ParseFromArray data : option MsgC2S_GetRoleRequest) = Some q ->
  presents o = Some (now, c, gr_account q, gr_enter_session q) -> issues o = None ->
  is_Some (get_connection c CLIENT_MGR (gt_net s)) ->
  processGetRoleRequest CLIENT_MGR GAME_MGR LOGIN_MGR tmp now CLIENT_MGR c data s = Some (r, s') -> gate_step o s s'.
Proof using.
  intros Hw Hq Hp Hi [st Hst]. unfold processGetRoleRequest. rewrite Hst, Hq. intros E.
  apply bind_Some in E as (s1 & E1 & E).
  assert (Hs1 : same_table s s1) by (destruct (getClientInfoByAccount _ _); [by apply ci_force_close_same in E1|by injection E1 as <-]).
  destruct (checkSessionByAccount _ _ _ _) as [ok m] eqn:Ec. destruct (check_step o now c _ _ s s1 ok m Hw Hp Hi Hs1 Ec) as [Hg Hok].
  destruct ok; cbn [negb] in E; [|quiet; by eapply gate_step_same]. destruct (Hok eq_refl) as (si & Hsi & Hcode & Ht). clear Hok.
  apply bind_Some in E as ([ci s2] & E2 & E). apply newClient_enters in E2; [|apply Hg].
  pose proof (gate_step_entered _ _ _ _ _ _ Hg E2) as Hg2. destruct ci as [i|]; [|quiet; by eapply gate_step_same].
  destruct (checkClientMaxCount _ _); [quiet; do 2 (eapply gate_step_same; [|eassumption]); done|].
  apply bind_Some in E as (x & Hx & E). destruct (entered_used _ _ _ _ E2) as (id & x' & Ha & Hx' & Hid & Hu).
  assert (x' = x) as -> by congruence. rewrite Hid in E.
  destruct (insertConnIdId c id (gt_clients s2)) as [ok' m'] eqn:Em.
  destruct (insertConnIdId_wf _ _ _ _ _ (gs_wf _ _ _ Hg2) Hu Em) as (Hw3 & M1 & M2 & M3 & M4 & M5).
  assert (Hg3 : gate_step o s (gt_set_clients m' s2)).
  { destruct Hg2 as [G1 G2 G3 G4 G5 G6 G7 G8]. constructor; [done|done|..]; cbn [gt_set_clients gt_clients]; rewrite ?M1, ?M2, ?M3; eauto.
    intros c' id' [Hc|[-> ->]]%M4; [eauto|]. right. exists now, (gr_account q), si. rewrite Hcode. done. }
  assert (Hx3 : gt_entry i (gt_set_clients m' s2) = Some x) by (unfold gt_entry; cbn [gt_set_clients gt_clients]; by rewrite M3).
  pose proof (set_entry_same i x (ci_set_conn c CLIENT_MGR x) _ Hx3 eq_refl (fun h => h)) as Hs3.
  pose proof (gate_step_same _ _ _ _ Hg3 Hs3) as Hg4. clear E1. quiet; by eauto using gate_step_same.
Qed.

Lemma notify_step o now c data q r s s' :
  gt_wf s -> (ParseFromArray data : option MsgLS2GT_SelectedServerNotify) = Some q ->
  issues o = Some (now, sn_account q) -> presents o = None -> is_Some (get_connection c LOGIN_MGR (gt_net s)) ->
  processSelectedServerNotify draw tmp now LOGIN_MGR c data s = Some (r, s') -> gate_step o s s'.
Proof using.
  intros Hw Hq Hi Hp [st Hst]. unfold processSelectedServerNotify. rewrite Hst, Hq. intros E.
  destruct (get_session_code _ _ _ _) as [code n] eqn:Hcode. unfold newAccountSession in E. cbn [negb] in E.
  pose proof (same_table_wf _ _ Hw (set_codes_same n s)) as Hw1.
  match type of E with context [gt_set_clients ?m _] => assert (Hg : gate_step o s (gt_set_clients m (gt_set_codes n s))) end.
  { pose proof Hw1 as [H1 H2 H3 H4 H5 H6 H7 H8 H9 H10 H11]. constructor; [by constructor|done|..];
      cbn [gt_set_clients gt_set_codes gt_clients cmg_set_sessions account_id_bimap_ account_session_map_ connid_id_bimap_ client_array_]; eauto.
    2: { by apply array_same_left. }
    intros a si [[<- <-]|[Hne Ha]]%lookup_insert_Some; [right; cbn [se_session se_get_session_time]; by rewrite Hcode|]. left. rewrite Hi, Hp. split_and!; [done|congruence|done]. }
  quiet; eauto using gate_step_same, set_net_same.
Qed.

(** Every step of a gate server is such a step. *)
Lemma exec_step o s s' : CLIENT_MGR <> NULL -> LOGIN_MGR <> NULL ->
  gt_wf s -> gt_exec CLIENT_MGR GAME_MGR LOGIN_MGR draw tmp o s = Some s' -> gate_step o s s'.
Proof using.
  intros HC HL Hw E.
  assert (Hconn : forall mgr c, mgr <> NULL -> nt_in_use mgr c (gt_net s) = true -> is_Some (get_connection c mgr (gt_net s))).
  { intros mgr c Hm. unfold nt_in_use, get_connection. rewrite (proj2 (Z.eqb_neq _ _)) by done. by destruct (_ !! _). }
  destruct o as [mgr|mgr c|mgr c|mgr c|now c m d|now c u m d|now c m d]; cbn [gt_exec] in E.
  - destruct (_ =? _); [|injection E as <-; apply same_gate_step; [done|apply set_net_same|done..]].
    apply bind_Some in E as ([r s1] & E & [= <-]). apply login_onConnect_same in E. apply same_gate_step; [done| |done..].
    etrans; [apply set_net_same|exact E].
  - apply same_gate_step; [done| |done..]. by eapply force_close_same.
  - apply bind_Some in E as (n & _ & [= <-]). apply same_gate_step; [done|apply set_net_same|done..].
  - destruct (_ || _); [|done]. apply bind_Some in E as (n & _ & [= <-]). apply same_gate_step; [done|apply set_net_same|done..].
  - destruct (nt_in_use _ _ _) eqn:Hc; [|done]. apply Hconn in Hc; [|done]. eapply handled_step; [|exact E]. clear E. intros r s1 E.
    unfold gt_client_msg in E.
    destruct (m =? MSGID_C2S_GET_ROLE_REQUEST) eqn:Hm.
    { destruct (ParseFromArray d : option MsgC2S_GetRoleRequest) as [q|] eqn:Hq.
      - eapply get_role_step; [done|exact Hq|..|done|exact E]; [|done]. cbn [presents]. by rewrite Hm, Hq.
      - unfold processGetRoleRequest in E. rewrite Hq in E. assert (s1 = s) as -> by (by destruct (get_connection _ _ _); injection E).
        apply same_gate_step; [done..|]. cbn [presents]. by rewrite Hm, Hq. }
    apply same_gate_step; [done| |done|cbn [presents]; by rewrite Hm].
    repeat match type of E with (if ?b then _ else _) = _ => destruct b end.
    + by eapply create_role_same.
    + by eapply enter_game_same.
    + by eapply leave_game_same.
    + by eapply reconnect_same.
    + by eapply client_default_same.
  - destruct (nt_in_use _ _ _); [|done]. eapply handled_step; [|exact E]. clear E. intros r s1 E. apply same_gate_step; [done| |done..].
    unfold gt_game_msg in E. repeat match type of E with (if ?b then _ else _) = _ => destruct b end.
    + by eapply connect_gate_same.
    + by eapply get_role_response_same.
    + by eapply create_role_response_same.
    + by eapply game_default_same.
  - destruct (nt_in_use _ _ _) eqn:Hc; [|done]. apply Hconn in Hc; [|done]. eapply handled_step; [|exact E]. clear E. intros r s1 E.
    unfold gt_login_msg in E. destruct (m =? MSGID_LS2GT_CONNECT_LOGIN_RESPONSE) eqn:Hm.
    { injection E as E. apply same_gate_step; [done|by eapply connect_login_same| |done]. cbn [issues]. by rewrite Hm. }
    destruct (m =? MSGID_LS2GT_SELECTED_SERVER_NOTIFY) eqn:Hm2.
    2: { injection E as _ <-. apply same_gate_step; [done..| |done]. cbn [issues]. by rewrite Hm, Hm2. }
    destruct (ParseFromArray d : option MsgLS2GT_SelectedServerNotify) as [q|] eqn:Hq.
    + eapply notify_step; [done|exact Hq| |done..|exact E]. cbn [issues]. by rewrite Hm, Hm2, Hq.
    + unfold processSelectedServerNotify in E. rewrite Hq in E. assert (s1 = s) as -> by (by destruct (get_connection _ _ _); injection E).
      apply same_gate_step; [done..| |done]. cbn [issues]. by rewrite Hm, Hm2, Hq.
Qed.
End steps.

(** ** The history of a run *)

Section history.
Variables CLIENT_MGR GAME_MGR LOGIN_MGR : Z.
Variable draw : Z -> Z -> nat -> Z.
Variable tmp : bytes.
Context `{ServerMessages}.

Lemma gt_exec_app os1 os2 s :
  gt_exec_all CLIENT_MGR GAME_MGR LOGIN_MGR draw tmp (os1 ++ os2) s =
  s1 ← gt_exec_all CLIENT_MGR GAME_MGR LOGIN_MGR draw tmp os1 s; gt_exec_all CLIENT_MGR GAME_MGR LOGIN_MGR draw tmp os2 s1.
Proof using. revert s. induction os1 as [|o os1 IH]; intros s; [done|]. cbn. destruct (gt_exec _ _ _ _ _ o s); [apply IH|done]. Qed.

(** In the run [os], the account's last code was issued at time [t] and was not used since. *)
Definition code_issued (conf : GateConfig) (os : list gt_op) (a : bytes) (t : Z) (code : bytes) : Prop :=
  exists os1 o os2 s1, os = os1 ++ o :: os2 /\
    gt_exec_all CLIENT_MGR GAME_MGR LOGIN_MGR draw tmp os1 (GateServer_new conf) = Some s1 /\
    issues o = Some (t, a) /\ code = (get_session_code draw t (gt_codes s1) ENTER_GAME_SESSION_CODE_LENGTH).1 /\
    Forall (fun o' => (forall t', issues o' <> Some (t', a)) /\ (forall t' c', presents o' <> Some (t', c', a, code))) os2.

(** In the run [os], connection [c] presented the account's code within its lifetime. *)
Definition code_presented (conf : GateConfig) (os : list gt_op) (c : Z) (a : bytes) : Prop :=
  exists os1 o os2 t t' code, os = os1 ++ o :: os2 /\
    presents o = Some (t', c, a, code) /\ code_issued conf os1 a t code /\ t' - t <= SESSION_LIFETIME.

Lemma code_issued_snoc conf os o a t code :
  code_issued conf os a t code -> (forall t', issues o <> Some (t', a)) -> (forall t' c', presents o <> Some (t', c', a, code)) ->
  code_issued conf (os ++ [o]) a t code.
Proof using.
  intros (os1 & o1 & os2 & s1 & -> & E & Hi & Hc & Hf) H1 H2. exists os1, o1, (os2 ++ [o]), s1. rewrite <- app_assoc. split_and!; try done.
  apply Forall_app. split; [done|]. by constructor.
Qed.

Lemma code_presented_snoc conf os o c a : code_presented conf os c a -> code_presented conf (os ++ [o]) c a.
Proof using.
  intros (os1 & o1 & os2 & t & t' & code & -> & Hp & Hi & Ht). exists os1, o1, (os2 ++ [o]), t, t', code. by rewrite <- app_assoc.
Qed.

(** The state of the gate server tells what happened before. *)
Record gate_history (conf : GateConfig) (os : list gt_op) (s : GateServer) : Prop := mkGateHistory {
  gh_wf : gt_wf s;
  gh_conf : gt_conf s = conf;
  gh_sessions : forall a si, account_session_map_ (gt_clients s) !! a = Some si -> code_issued conf os a (se_get_session_time si) (se_session si);
  gh_conns : forall c id, find_1 (connid_id_bimap_ (gt_clients s)) c = Some id ->
    exists a, find_1 (account_id_bimap_ (gt_clients s)) a = Some id /\ code_presented conf os c a;
}.

Lemma gate_history_step conf os s o s' :
  gt_exec_all CLIENT_MGR GAME_MGR LOGIN_MGR draw tmp os (GateServer_new conf) = Some s ->
  gate_history conf os s -> gate_step draw o s s' -> gate_history conf (os ++ [o]) s'.
Proof using.
  intros E [H1 H2 H3 H4] [G1 G2 G3 G4 G5 _ _ _]. constructor; [done|congruence|..].
  - intros a si Ha. destruct (G4 a si Ha) as [(Ha' & Hi & Hp)|[Hi Hc]]; [by apply code_issued_snoc; auto|].
    exists os, o, [], s. split_and!; done.
  - intros c id Hc. destruct (G5 c id Hc) as [Hc'|(t & a & si & Hp & Ha & Ht & Hid)].
    + destruct (H4 c id Hc') as (a & Ha & Hp). exists a. split; [by apply G3|by apply code_presented_snoc].
    + exists a. split; [done|]. exists os, o, [], (se_get_session_time si), t, (se_session si). split_and!; auto.
Qed.

Lemma gate_run_history conf os s : CLIENT_MGR <> NULL -> LOGIN_MGR <> NULL -> 0 < gcf_max_conn conf ->
  gt_exec_all CLIENT_MGR GAME_MGR LOGIN_MGR draw tmp os (GateServer_new conf) = Some s -> gate_history conf os s.
Proof using.
  intros HC HL Hn. revert s. induction os as [|o os IH] using rev_ind; intros s E.
  - injection E as <-. constructor; [by apply init_wf|done|..].
    + intros a si Ha. unfold GateServer_new in Ha. cbn [gt_clients] in Ha. unfold cmg_init in Ha. by destruct (ca_init _ _ _).
    + intros c id Hc. unfold GateServer_new in Hc. cbn [gt_clients] in Hc. unfold cmg_init in Hc. by destruct (ca_init _ _ _).
  - rewrite gt_exec_app in E. apply bind_Some in E as (s1 & E1 & E2). cbn in E2. apply bind_Some in E2 as (s2 & E2 & [= <-]).
    eapply gate_history_step; [exact E1|by apply IH|]. eapply exec_step; [exact HC|exact HL| |exact E2]. by destruct (IH s1 E1).
Qed.

(** C5. A client controls an account's entry of the gate server only after its connection
    presented, at most 100 seconds after it was issued, the last session code that was issued
    for the account, in a run of any length of connections, losses and messages from clients, login and game servers;
    and the code was not used before. *)
Theorem gate_entry_needs_session conf os s c id a :
  CLIENT_MGR <> NULL -> LOGIN_MGR <> NULL -> 0 < gcf_max_conn conf ->
  gt_exec_all CLIENT_MGR GAME_MGR LOGIN_MGR draw tmp os (GateServer_new conf) = Some s ->
  find_1 (connid_id_bimap_ (gt_clients s)) c = Some id -> find_2 (account_id_bimap_ (gt_clients s)) id = Some a ->
  code_presented conf os c a.
Proof using.
  intros HC HL Hn E Hc Ha. destruct (gate_run_history _ _ _ HC HL Hn E) as [Hw _ _ H4].
  destruct (H4 c id Hc) as (a' & Ha' & Hp). apply (wf_accounts _ Hw) in Ha'. unfold find_2 in Ha. by assert (a' = a) as -> by congruence.
Qed.

(** C15. The table of clients is well formed in every run: the ids of the entries are split between
    the free list and the used set, accounts and connections have used ids, both maps are two-way, at most
    [max_conn] entries are used; and removing a client's connection reads an erased element, or
    does nothing when the client's entry is marked as unused. *)
Theorem gate_table_well_formed conf os s :
  CLIENT_MGR <> NULL -> LOGIN_MGR <> NULL -> 0 < gcf_max_conn conf ->
  gt_exec_all CLIENT_MGR GAME_MGR LOGIN_MGR draw tmp os (GateServer_new conf) = Some s ->
  gt_wf s /\ ca_getUsedSize (client_array_ (gt_clients s)) <= gcf_max_conn conf /\
  forall c id, find_1 (connid_id_bimap_ (gt_clients s)) c = Some id -> exists x,
    gt_entry (Z.to_nat (id - DEFAULT_CLIENT_START_ID)) s = Some x /\ ci_id x = id /\
    removeByConnId c (gt_clients s) = if ci_used x then None else Some (false, gt_clients s).
Proof using.
  intros HC HL Hn E. destruct (gate_run_history _ _ _ HC HL Hn E) as [Hw Hc _ _]. split_and!; [done| |].
  - rewrite <- Hc in *. apply wf_used_size; [done|lia].
  - intros c id Hid. destruct (wf_used_entry s id Hw (wf_conn_used _ Hw _ _ Hid)) as (x & Hx & Hxid). exists x. split_and!; [done..|].
    destruct (removeByConnId c (gt_clients s)) as [[r m]|] eqn:Er.
    + destruct (remove_by_conn s c r m Hw Er) as (-> & -> & Hr). destruct (Hr id Hid) as (y & Hy & Hyu).
      assert (y = x) as -> by congruence. by rewrite Hyu.
    + by rewrite (removeByConnId_undefined s c id x Hw Hid Hx Er).
Qed.

Lemma gate_run_mono conf os os' s s' : CLIENT_MGR <> NULL -> LOGIN_MGR <> NULL -> 0 < gcf_max_conn conf ->
  gt_exec_all CLIENT_MGR GAME_MGR LOGIN_MGR draw tmp os (GateServer_new conf) = Some s ->
  gt_exec_all CLIENT_MGR GAME_MGR LOGIN_MGR draw tmp os' s = Some s' ->
  gt_wf s' /\
  (forall a id, find_1 (account_id_bimap_ (gt_clients s)) a = Some id -> find_1 (account_id_bimap_ (gt_clients s')) a = Some id) /\
  (forall c id, find_1 (connid_id_bimap_ (gt_clients s)) c = Some id -> find_1 (connid_id_bimap_ (gt_clients s')) c = Some id) /\
  (forall id, id ∈ used_ids_ (client_array_ (gt_clients s)) -> id ∈ used_ids_ (client_array_ (gt_clients s'))) /\
  left_stays (client_array_ (gt_clients s)) (client_array_ (gt_clients s')).
Proof using.
  intros HC HL Hn E. destruct (gate_run_history _ _ _ HC HL Hn E) as [Hw _ _ _]. revert s' . induction os' as [|o os' IH] using rev_ind; intros s' E'.
  - injection E' as <-. split_and!; auto. by apply array_same_left.
  - rewrite gt_exec_app in E'. apply bind_Some in E' as (s1 & E1 & E2). cbn in E2. apply bind_Some in E2 as (s2 & E2 & [= <-]).
    destruct (IH s1 E1) as (W & I1 & I2 & I3 & I4). destruct (exec_step _ _ _ _ _ _ _ _ HC HL W E2) as [G1 G2 G3 G4 G5 G6 G7 G8].
    split_and!; eauto using left_stays_trans.
Qed.

(** C27. A client's entry is never released: whatever happens afterwards, the connection that
    entered an account stays the one connection that controls it, so that no later
    connection of the account is served; and an entry that the client left stays marked as unused.  What happens
    includes messages that are handled on a connection after the gate closed it, reads that mark it connected again,
    and its loss, where that does not read an erased element. *)
Theorem gate_entry_never_released conf os os' s s' c id a :
  CLIENT_MGR <> NULL -> LOGIN_MGR <> NULL -> 0 < gcf_max_conn conf ->
  gt_exec_all CLIENT_MGR GAME_MGR LOGIN_MGR draw tmp os (GateServer_new conf) = Some s ->
  gt_exec_all CLIENT_MGR GAME_MGR LOGIN_MGR draw tmp os' s = Some s' ->
  find_1 (connid_id_bimap_ (gt_clients s)) c = Some id -> find_2 (account_id_bimap_ (gt_clients s)) id = Some a ->
  find_1 (connid_id_bimap_ (gt_clients s')) c = Some id /\ find_2 (account_id_bimap_ (gt_clients s')) id = Some a /\
  (forall c' id', c' <> c -> find_1 (connid_id_bimap_ (gt_clients s')) c' = Some id' -> find_2 (account_id_bimap_ (gt_clients s')) id' <> Some a) /\
  (forall x x', gt_entry (Z.to_nat (id - DEFAULT_CLIENT_START_ID)) s = Some x -> gt_entry (Z.to_nat (id - DEFAULT_CLIENT_START_ID)) s' = Some x' ->
     ci_used x = false -> ci_used x' = false).
Proof using.
  intros HC HL Hn E E' Hc Ha. destruct (gate_run_history _ _ _ HC HL Hn E) as [Hw _ _ _].
  destruct (gate_run_mono _ _ _ _ _ HC HL Hn E E') as (W & I1 & I2 & I3 & I4). unfold find_2 in *.
  assert (Ha' : two_map_ (account_id_bimap_ (gt_clients s')) !! id = Some a) by (apply (wf_accounts _ W), I1, (wf_accounts _ Hw), Ha).
  split_and!; [by apply I2|done|..].
  - intros c' id' Hne Hc' Ha2. apply (wf_accounts _ W) in Ha', Ha2. assert (id' = id) as -> by congruence.
    pose proof (I2 _ _ Hc) as Hc2. apply (wf_conns _ W) in Hc2, Hc'. congruence.
  - intros x x' Hx Hx' Hu. apply not_true_iff_false. intros Hu'. destruct (I4 id x' (wf_conn_used _ Hw _ _ Hc) Hx' Hu') as (y & Hy & Hyu).
    unfold gt_entry in Hx. congruence.
Qed.
End history.

(** ** Examples

    Managers 1, 2 and 3 for clients, the game server and login servers.  The game server connects,
    an account ([[97]]) is announced at time 1000, and a client enters with its code at 1050. *)

Definition ex_draw (gen n : Z) (i : nat) : Z := (gen + Z.of_nat i) mod (n + 1).
Definition ex_gate_conf : GateConfig := mkGateConfig 20001 [49] 9000 2.
Definition ex_gate_code (now c : Z) : bytes := (get_session_code ex_draw now c ENTER_GAME_SESSION_CODE_LENGTH).1.

Section example.
#[local] Existing Instance coded_messages.
Definition ex_gate_exec : list gt_op -> GateServer -> option GateServer := gt_exec_all 1 2 3 ex_draw [].

Definition ex_gate_entry : list gt_op := [
  gt_op_connect 2; gt_op_game 900 1 0 MSGID_GS2GT_CONNECT_GATE_REQUEST (Serialize (mkConnectGateRequest 40001));
  gt_op_connect 3; gt_op_login 1000 1 MSGID_LS2GT_SELECTED_SERVER_NOTIFY (Serialize (mkSelectedServerNotify [97]));
  gt_op_connect 1; gt_op_client 1050 1 MSGID_C2S_GET_ROLE_REQUEST (Serialize (mkGetRoleRequest [97] (ex_gate_code 1000 0)))].

(** The client leaves, and the gate closes the connection; a message on it that was queued is still handled; it is read again
    and so connected again, handles another message, and is lost and recycled.  The client comes back on another
    connection with a new code. *)
Definition ex_gate_again : list gt_op := [
  gt_op_client 1060 1 MSGID_C2S_LEAVE_GAME_REQUEST []; gt_op_client 1061 1 MSGID_C2S_LEAVE_GAME_REQUEST [];
  gt_op_revive 1 1; gt_op_client 1062 1 MSGID_C2S_LEAVE_GAME_REQUEST []; gt_op_lost 1 1; gt_op_recycle 1 1;
  gt_op_login 1100 1 MSGID_LS2GT_SELECTED_SERVER_NOTIFY (Serialize (mkSelectedServerNotify [97]));
  gt_op_connect 1; gt_op_client 1110 2 MSGID_C2S_GET_ROLE_REQUEST (Serialize (mkGetRoleRequest [97] (ex_gate_code 1100 1)))].

Definition ex_gate_1 : GateServer := default (GateServer_new ex_gate_conf) (ex_gate_exec ex_gate_entry (GateServer_new ex_gate_conf)).
Definition ex_gate_2 : GateServer := default ex_gate_1 (ex_gate_exec ex_gate_again ex_gate_1).

Lemma ex_gate_run_1 : ex_gate_exec ex_gate_entry (GateServer_new ex_gate_conf) = Some ex_gate_1.
Proof. vm_compute. reflexivity. Qed.
Lemma ex_gate_run_2 : ex_gate_exec ex_gate_again ex_gate_1 = Some ex_gate_2.
Proof. vm_compute. reflexivity. Qed.

(** The first connection entered, and nothing was refused. *)
Lemma ex_gate_entered : find_1 (connid_id_bimap_ (gt_clients ex_gate_1)) 1 = Some 100000 /\
  find_2 (account_id_bimap_ (gt_clients ex_gate_1)) 100000 = Some [97] /\ pk_msgid <$> nt_sent (gt_net ex_gate_1) =
  [MSGID_GT2GS_CONNECT_GATE_RESPONSE; MSGID_GT2LS_CONNECT_LOGIN_REQUEST; MSGID_GT2LS_SELECTED_SERVER_RESPONSE; MSGID_GT2GS_GET_ROLE_REQUEST].
Proof. vm_compute. auto. Qed.

Lemma gate_entry_needs_session_witness :
  ex_gate_exec ex_gate_entry (GateServer_new ex_gate_conf) = Some ex_gate_1 /\ code_presented 1 2 3 ex_draw [] ex_gate_conf ex_gate_entry 1 [97].
Proof.
  split; [exact ex_gate_run_1|].
  apply (gate_entry_needs_session 1 2 3 ex_draw [] ex_gate_conf ex_gate_entry ex_gate_1 1 100000 [97]);
    [done|done|done|exact ex_gate_run_1|apply ex_gate_entered|apply ex_gate_entered].
Defined.

Lemma gate_table_well_formed_witness :
  gt_wf ex_gate_1 /\ ca_getUsedSize (client_array_ (gt_clients ex_gate_1)) <= 2 /\ removeByConnId 1 (gt_clients ex_gate_1) = None.
Proof.
  destruct (gate_table_well_formed 1 2 3 ex_draw [] ex_gate_conf ex_gate_entry ex_gate_1) as (Hw & Hs & _);
    [done|done|done|exact ex_gate_run_1|]. split; [exact Hw|]. split; [exact Hs|]. vm_compute. reflexivity.
Defined.

(** The second connection gets no answer to what it sends from then on: it controls no entry. *)
Lemma gate_entry_never_released_witness :
  find_1 (connid_id_bimap_ (gt_clients ex_gate_2)) 1 = Some 100000 /\ find_1 (connid_id_bimap_ (gt_clients ex_gate_2)) 2 = None /\
  (forall id, find_1 (connid_id_bimap_ (gt_clients ex_gate_2)) 2 = Some id -> find_2 (account_id_bimap_ (gt_clients ex_gate_2)) id <> Some [97]) /\
  ci_used <$> gt_entry 0 ex_gate_2 = Some false /\ nt_conns (gt_net ex_gate_2) !! (1, 2) = Some JMY_CONN_STATE_CONNECTED.
Proof.
  destruct (gate_entry_never_released 1 2 3 ex_draw [] ex_gate_conf ex_gate_entry ex_gate_again ex_gate_1 ex_gate_2 1 100000 [97]) as (H1 & _ & H3 & _);
    [done|done|done|exact ex_gate_run_1|exact ex_gate_run_2|apply ex_gate_entered|apply ex_gate_entered|].
  split; [exact H1|]. split; [vm_compute; reflexivity|]. split; [|split; vm_compute; reflexivity].
  intros id Hid. apply (H3 2 id); [done|exact Hid].
Defined.
End example.
