(* ===== verification/LoginFlow.v ===== *)
(** * Logging in: a login server and a gate server together

    The two servers run next to each other and exchange messages over the connection between
    them, which delivers what was sent in order ([Connection] proves it of the connections
    themselves); clients, the game server, the config server and other gate servers do anything.
    A client that the gate server lets in had its account checked in by the login server. *)
From S2P Require Import Prelude Datatype Agent BiMap AppNet Proto Codec Common LoginServer LoginProps GateClients GateServer GateProps.
From Stdlib Require Import ZArith Lia.
From stdpp Require Import base option list gmap.
Local Open Scope Z_scope.

(** Both servers with what they did so far, and how many packets of the link were delivered each way. *)
Record LoginSystem : Type := mkSystem {
  sy_login : LoginServer;
  sy_gate : GateServer;
  sy_login_ops : list ls_op;
  sy_gate_ops : list gt_op;
  sy_gate_got : nat;
  sy_login_got : nat;
}.

Inductive sy_op : Type :=
| sy_op_login (o : ls_op)
| sy_op_gate (o : gt_op)
| sy_op_to_gate (now : Z)
| sy_op_to_login.

Section system.
(** The managers of the login server and of the gate server, the ids that the two ends of the
    link have, the random engine and the static buffers. *)
Variables L_CLIENT L_GATE L_CONFIG G_CLIENT G_GAME G_LOGIN : Z.
Variables gate_conn login_conn : Z.
Variable draw : Z -> Z -> nat -> Z.
Variables ltmp gtmp : bytes.
Context `{ServerMessages}.

(** What happens to a server besides the deliveries of the link. *)
Definition login_outside (o : ls_op) : bool := match o with ls_op_gate c _ _ => negb (c =? gate_conn) | _ => true end.
Definition gate_outside (o : gt_op) : bool := match o with gt_op_login _ _ _ _ => false | _ => true end.

Definition sy_login_step (o : ls_op) (y : LoginSystem) : option LoginSystem :=
  s ← ls_exec L_CLIENT L_GATE L_CONFIG ltmp o (sy_login y);
  Some (mkSystem s (sy_gate y) (sy_login_ops y ++ [o]) (sy_gate_ops y) (sy_gate_got y) (sy_login_got y)).
Definition sy_gate_step (o : gt_op) (y : LoginSystem) : option LoginSystem :=
  s ← gt_exec G_CLIENT G_GAME G_LOGIN draw gtmp o (sy_gate y);
  Some (mkSystem (sy_login y) s (sy_login_ops y) (sy_gate_ops y ++ [o]) (sy_gate_got y) (sy_login_got y)).

Definition sy_exec (o : sy_op) (y : LoginSystem) : option LoginSystem :=
  match o with
  | sy_op_login o => if login_outside o then sy_login_step o y else None
  | sy_op_gate o => if gate_outside o then sy_gate_step o y else None
  | sy_op_to_gate now =>
    p ← link_packets L_GATE gate_conn (ls_net (sy_login y)) !! sy_gate_got y;
    y ← sy_gate_step (gt_op_login now login_conn (pk_msgid p) (pk_data p)) y;
    Some (mkSystem (sy_login y) (sy_gate y) (sy_login_ops y) (sy_gate_ops y) (S (sy_gate_got y)) (sy_login_got y))
  | sy_op_to_login =>
    p ← link_packets G_LOGIN login_conn (gt_net (sy_gate y)) !! sy_login_got y;
    y ← sy_login_step (ls_op_gate gate_conn (pk_msgid p) (pk_data p)) y;
    Some (mkSystem (sy_login y) (sy_gate y) (sy_login_ops y) (sy_gate_ops y) (sy_gate_got y) (S (sy_login_got y)))
  end.

Fixpoint sy_exec_all (os : list sy_op) (y : LoginSystem) : option LoginSystem :=
  match os with [] => Some y | o :: os => y ← sy_exec o y; sy_exec_all os y end.

Definition LoginSystem_new (lconf : LoginConfig) (gconf : GateConfig) : LoginSystem :=
  mkSystem (LoginServer_new ltmp lconf) (GateServer_new gconf) [] [] 0 0.

(** ** The histories of both servers *)

Record sy_inv (lconf : LoginConfig) (gconf : GateConfig) (y : LoginSystem) : Prop := mkSyInv {
  sv_login : ls_exec_all L_CLIENT L_GATE L_CONFIG ltmp (sy_login_ops y) (LoginServer_new ltmp lconf) = Some (sy_login y);
  sv_gate : gt_exec_all G_CLIENT G_GAME G_LOGIN draw gtmp (sy_gate_ops y) (GateServer_new gconf) = Some (sy_gate y);
  sv_sent : forall now c m d, gt_op_login now c m d ∈ sy_gate_ops y ->
    exists p, p ∈ nt_sent (ls_net (sy_login y)) /\ pk_msgid p = m /\ pk_data p = d;
}.

Lemma sy_login_step_inv lconf gconf o y y' : sy_inv lconf gconf y -> sy_login_step o y = Some y' -> sy_inv lconf gconf y'.
Proof using.
  intros [I1 I2 I3] E. unfold sy_login_step in E. apply bind_Some in E as (s & E & [= <-]). constructor; [|done|].
  - cbn [sy_login_ops sy_login]. rewrite ls_exec_app, I1. cbn. by rewrite E.
  - intros now c m d Hin. destruct (I3 now c m d Hin) as (p & Hp & Hm & Hd). exists p. split; [|done].
    apply (ls_exec_step L_CLIENT L_GATE L_CONFIG ltmp) in E as [_ (l & El & _)]. cbn [sy_login]. rewrite El. apply elem_of_app. by left.
Qed.

Lemma sy_gate_step_inv lconf gconf o y y' : sy_inv lconf gconf y ->
  (forall now c m d, o = gt_op_login now c m d -> exists p, p ∈ nt_sent (ls_net (sy_login y)) /\ pk_msgid p = m /\ pk_data p = d) ->
  sy_gate_step o y = Some y' -> sy_inv lconf gconf y'.
Proof using.
  intros [I1 I2 I3] Ho E. unfold sy_gate_step in E. apply bind_Some in E as (s & E & [= <-]). constructor; [done| |].
  - cbn [sy_gate_ops sy_gate]. rewrite gt_exec_app, I2. cbn. by rewrite E.
  - cbn [sy_gate_ops]. intros now c m d [Hin|Hin]%elem_of_app; [by eapply I3|]. apply list_elem_of_singleton in Hin. by eapply Ho.
Qed.

Lemma sy_exec_inv lconf gconf o y y' : sy_inv lconf gconf y -> sy_exec o y = Some y' -> sy_inv lconf gconf y'.
Proof using.
  intros I E. destruct o as [o|o|now|]; cbn [sy_exec] in E.
  - destruct (login_outside o); [|done]. by eapply sy_login_step_inv.
  - destruct (gate_outside o) eqn:Ho; [|done]. eapply sy_gate_step_inv; [exact I| |exact E]. intros now c m d ->. done.
  - apply bind_Some in E as (p & Hp & E). apply bind_Some in E as (y1 & E & [= <-]).
    eapply sy_gate_step_inv in E as [I1 I2 I3]; [by constructor|exact I|]. intros now' c m d [= <- <- <- <-]. exists p. split; [|done].
    apply list_elem_of_lookup_2 in Hp. unfold link_packets in Hp. by apply list_elem_of_filter in Hp as [_ Hp].
  - apply bind_Some in E as (p & Hp & E). apply bind_Some in E as (y1 & E & [= <-]).
    eapply sy_login_step_inv in E as [I1 I2 I3]; [by constructor|exact I].
Qed.

Lemma sy_run_inv lconf gconf os y : sy_exec_all os (LoginSystem_new lconf gconf) = Some y -> sy_inv lconf gconf y.
Proof using.
  assert (H0 : sy_inv lconf gconf (LoginSystem_new lconf gconf)).
  { constructor; [done..|]. intros now c m d Hin. by apply not_elem_of_nil in Hin. }
  revert H0. generalize (LoginSystem_new lconf gconf). induction os as [|o os IH]; intros y0 I E; [by injection E as <-|].
  cbn in E. apply bind_Some in E as (y1 & E1 & E2). eapply IH; [|exact E2]. by eapply sy_exec_inv.
Qed.

(** What the gate server is told about an account is what the login server said. *)
Lemma issued_op_notify o t a : issues o = Some (t, a) -> exists c d,
  o = gt_op_login t c MSGID_LS2GT_SELECTED_SERVER_NOTIFY d /\ ParseFromArray d = Some (mkSelectedServerNotify a).
Proof using.
  destruct o as [| | | | | |now c m d]; try done. cbn [issues]. destruct (_ =? _); [done|]. destruct (m =? _) eqn:Hm; [|done].
  apply Z.eqb_eq in Hm as ->. intros E. apply bind_Some in E as ([q] & Hq & [= <- <-]). exists c, d. by rewrite Hq.
Qed.

(** C4. A client controls an account's entry of the gate server only if its connection presented
    the session code the gate server issued for the account in time and for the first time, and only after, at the login server, a
    connection logged in with this account and then selected a server: in every run of the two
    servers together. *)
Theorem game_entry_needs_login lconf gconf os y c id a :
  G_CLIENT <> NULL -> G_LOGIN <> NULL -> 0 < gcf_max_conn gconf ->
  (forall m q : MsgLS2GT_SelectedServerNotify, ParseFromArray (Serialize m) = Some q -> q = m) ->
  sy_exec_all os (LoginSystem_new lconf gconf) = Some y ->
  find_1 (connid_id_bimap_ (gt_clients (sy_gate y))) c = Some id -> find_2 (account_id_bimap_ (gt_clients (sy_gate y))) id = Some a ->
  code_presented G_CLIENT G_GAME G_LOGIN draw gtmp gconf (sy_gate_ops y) c a /\
  exists lc, selected_server (sy_login_ops y) lc a.
Proof using.
  intros HC HL Hn Hparse E Hc Ha. destruct (sy_run_inv _ _ _ _ E) as [I1 I2 I3].
  destruct (gate_run_history _ _ _ _ _ _ _ _ HC HL Hn I2) as [Hw _ _ H4].
  destruct (H4 c id Hc) as (a' & Ha' & Hp). apply (wf_accounts _ Hw) in Ha'. unfold find_2 in Ha. assert (a' = a) as -> by congruence.
  split; [done|]. destruct Hp as (os1 & o & os2 & t & t' & code & Eo & _ & (os3 & o' & os4 & s1 & -> & _ & Hi & _) & _).
  apply issued_op_notify in Hi as (c' & d & -> & Hq).
  destruct (I3 t c' MSGID_LS2GT_SELECTED_SERVER_NOTIFY d) as (p & Hp & Hm & Hd).
  { rewrite Eo, !elem_of_app. left. right. apply elem_of_cons. by left. }
  destruct (login_run_history _ _ _ _ _ _ _ _ I1) as [_ L2]. destruct (L2 p Hp Hm) as (lc & a' & Hd' & Hs).
  exists lc. rewrite <- Hd, Hd' in Hq. apply Hparse in Hq. by injection Hq as ->.
Qed.
End system.

(** ** Example: one client logs in and enters the game *)

Section example.
#[local] Existing Instance coded_messages.

Definition ex_login_conf : LoginConfig := mkLoginConfig 10001 10 [49] 8000.
Definition ex_gate_data (id : Z) (ip : bytes) : MsgGateConfData := mkGateConfData [] id ip 9000 [] [] false false.
Definition ex_sys_exec : list sy_op -> LoginSystem -> option LoginSystem :=
  sy_exec_all 1 2 3 1 2 3 1 1 ex_draw [] [].

(** The servers connect and learn of each other; a client logs in and selects the gate server,
    which issues a code; the client enters with it. *)
Definition ex_flow : list sy_op := [
  sy_op_login (ls_op_connect 3);
  sy_op_login (ls_op_config 1 MSGID_CS2LS_CONNECT_CONFIG_RESPONSE (Serialize (mkLoginConfigResponse [ex_gate_data 20001 [50]])));
  sy_op_gate (gt_op_connect 2);
  sy_op_gate (gt_op_game 900 1 0 MSGID_GS2GT_CONNECT_GATE_REQUEST (Serialize (mkConnectGateRequest 40001)));
  sy_op_login (ls_op_connect 2); sy_op_gate (gt_op_connect 3); sy_op_to_login; sy_op_to_gate 910;
  sy_op_login (ls_op_connect 1);
  sy_op_login (ls_op_client 1 MSGID_C2S_LOGIN_REQUEST (Serialize (mkLoginRequest [97] [98])));
  sy_op_login (ls_op_client 1 MSGID_C2S_SELECT_SERVER_REQUEST (Serialize (mkSelectServerRequest 20001)));
  sy_op_to_gate 1000; sy_op_to_login;
  sy_op_gate (gt_op_connect 1);
  sy_op_gate (gt_op_client 1050 1 MSGID_C2S_GET_ROLE_REQUEST (Serialize (mkGetRoleRequest [97] (ex_gate_code 1000 0))))].

Definition ex_flow_init : LoginSystem := LoginSystem_new [] ex_login_conf ex_gate_conf.
Definition ex_flow_end : LoginSystem := default ex_flow_init (ex_sys_exec ex_flow ex_flow_init).

Lemma ex_flow_run : ex_sys_exec ex_flow ex_flow_init = Some ex_flow_end.
Proof. vm_compute. reflexivity. Qed.

(** The client entered, with the code and the address that the login server sent to it. *)
Lemma ex_flow_entered : find_1 (connid_id_bimap_ (gt_clients (sy_gate ex_flow_end))) 1 = Some 100000 /\
  find_2 (account_id_bimap_ (gt_clients (sy_gate ex_flow_end))) 100000 = Some [97] /\
  last (link_packets 1 1 (ls_net (sy_login ex_flow_end))) =
    Some (mkPacket 1 1 None MSGID_S2C_SELECT_SERVER_RESPONSE (Serialize (mkSelectServerResponse (ex_gate_code 1000 0) [50] 9000))).
Proof. vm_compute. auto. Qed.

Lemma game_entry_needs_login_witness :
  ex_sys_exec ex_flow ex_flow_init = Some ex_flow_end /\ exists lc, selected_server (sy_login_ops ex_flow_end) lc [97].
Proof.
  split; [exact ex_flow_run|].
  destruct (game_entry_needs_login 1 2 3 1 2 3 1 1 ex_draw [] [] ex_login_conf ex_gate_conf ex_flow ex_flow_end 1 100000 [97]) as [_ Hl];
    [done|done|done| |exact ex_flow_run|apply ex_flow_entered|apply ex_flow_entered|exact Hl].
  intros m q E. rewrite parse_serialize in E by exact I. by injection E.
Defined.

(** ** Example: selecting again before the answer

    Two gate servers are connected; the client selects the first and then the second, and the
    first one's answer arrives.  The client gets the first one's code with the second one's address. *)
Definition ex_reselect : list ls_op := [
  ls_op_connect 3;
  ls_op_config 1 MSGID_CS2LS_CONNECT_CONFIG_RESPONSE (Serialize (mkLoginConfigResponse [ex_gate_data 20001 [50]; ex_gate_data 20002 [51]]));
  ls_op_connect 2; ls_op_gate 1 MSGID_GT2LS_CONNECT_LOGIN_REQUEST (Serialize (mkConnectLoginRequest 20001 [50] 9000));
  ls_op_connect 2; ls_op_gate 2 MSGID_GT2LS_CONNECT_LOGIN_REQUEST (Serialize (mkConnectLoginRequest 20002 [51] 9000));
  ls_op_connect 1; ls_op_client 1 MSGID_C2S_LOGIN_REQUEST (Serialize (mkLoginRequest [97] [98]));
  ls_op_client 1 MSGID_C2S_SELECT_SERVER_REQUEST (Serialize (mkSelectServerRequest 20001));
  ls_op_client 1 MSGID_C2S_SELECT_SERVER_REQUEST (Serialize (mkSelectServerRequest 20002));
  ls_op_gate 1 MSGID_GT2LS_SELECTED_SERVER_RESPONSE (Serialize (mkSelectedServerResponse [97] [77]))].

Lemma reselect_mixes_gates : exists s,
  ls_exec_all 1 2 3 [] ex_reselect (LoginServer_new [] ex_login_conf) = Some s /\
  last (link_packets 1 1 (ls_net s)) =
    Some (mkPacket 1 1 None MSGID_S2C_SELECT_SERVER_RESPONSE (Serialize (mkSelectServerResponse [77] [51] 9000))).
Proof. eexists. split; [vm_compute; reflexivity|]. vm_compute. reflexivity. Qed.

(** One connection that logs in with two accounts leaves the second account's agent behind when it is lost. *)
Lemma second_login_leaks_agent : exists s,
  ls_exec_all 1 2 3 [] [ls_op_connect 1; ls_op_client 1 MSGID_C2S_LOGIN_REQUEST (Serialize (mkLoginRequest [97] []));
    ls_op_client 1 MSGID_C2S_LOGIN_REQUEST (Serialize (mkLoginRequest [98] [])); ls_op_lost 1 1; ls_op_recycle 1 1]
    (LoginServer_new [] ex_login_conf) = Some s /\
  nt_conns (ls_net s) = ∅ /\ is_Some (am_getAgent (ls_clients s) [98]).
Proof. eexists. split; [vm_compute; reflexivity|]. vm_compute. split; [done|by eexists]. Qed.
End example.
