(* ===== verification/Records.v ===== *)
(** * Table records and their pending requests ([mysql/mysql_records_manager.h])

    A table's records are found by one or two keys.  What was done to a record is kept as a
    state until [update] sends one request for each record.  [mysql_record_state_manager],
    [mysql_records_manager], [mysql_records_manager2] and [mysql_records_manager_map]. *)
From S2P Require Import Prelude BiMap.
From Stdlib Require Import ZArith Lia.
From stdpp Require Import base option list gmap.
Local Open Scope Z_scope.

Inductive MysqlTableRecordState : Type :=
| MYSQL_TABLE_RECORD_STATE_NONE
| MYSQL_TABLE_RECORD_STATE_INSERT
| MYSQL_TABLE_RECORD_STATE_DELETE
| MYSQL_TABLE_RECORD_STATE_UPDATE.

#[export] Instance record_state_eq_dec : EqDecision MysqlTableRecordState.
Proof. solve_decision. Defined.

(** The requests of a record, which generated code makes of its fields; [W] is the rest of the program. *)
Class RecordCalls (W : Type) : Type := {
  rc_insert_request : ptr -> W -> option (bool * W);
  rc_delete_request : ptr -> W -> option (bool * W);
  rc_update_request : ptr -> W -> option (bool * W);
}.

(** ** mysql_record_state_manager *)

(** [curr_iter_] is a position in the order in which the hash map is traversed. *)
Record mysql_record_state_manager : Type := mkStates { states_ : gmap ptr MysqlTableRecordState; curr_iter_ : nat }.

Definition states_new : mysql_record_state_manager := mkStates ∅ 0.
Definition st_clear (s : mysql_record_state_manager) : mysql_record_state_manager := mkStates ∅ (curr_iter_ s).
Definition st_size (s : mysql_record_state_manager) : Z := Z.of_nat (size (states_ s)).
Definition get_state (s : mysql_record_state_manager) (t : ptr) : option MysqlTableRecordState := states_ s !! t.
Definition st_set (t : ptr) (x : MysqlTableRecordState) (s : mysql_record_state_manager) : mysql_record_state_manager :=
  mkStates (<[t := x]> (states_ s)) (curr_iter_ s).

Definition commit_insert (record : ptr) (s : mysql_record_state_manager) : bool * mysql_record_state_manager :=
  match get_state s record with
  | Some MYSQL_TABLE_RECORD_STATE_NONE => (true, st_set record MYSQL_TABLE_RECORD_STATE_INSERT s)
  | Some MYSQL_TABLE_RECORD_STATE_DELETE => (true, st_set record MYSQL_TABLE_RECORD_STATE_NONE s)
  | Some _ => (true, s)
  | None => (true, st_set record MYSQL_TABLE_RECORD_STATE_INSERT s)
  end.

Definition commit_delete (record : ptr) (s : mysql_record_state_manager) : bool * mysql_record_state_manager :=
  match get_state s record with
  | None => (true, st_set record MYSQL_TABLE_RECORD_STATE_DELETE s)
  | Some MYSQL_TABLE_RECORD_STATE_NONE => (true, st_set record MYSQL_TABLE_RECORD_STATE_DELETE s)
  | Some MYSQL_TABLE_RECORD_STATE_INSERT => (true, st_set record MYSQL_TABLE_RECORD_STATE_NONE s)
  | Some MYSQL_TABLE_RECORD_STATE_DELETE => (true, s)
  | Some MYSQL_TABLE_RECORD_STATE_UPDATE => (true, st_set record MYSQL_TABLE_RECORD_STATE_DELETE s)
  end.

Definition commit_update (record : ptr) (s : mysql_record_state_manager) : bool * mysql_record_state_manager :=
  match get_state s record with
  | None => (true, st_set record MYSQL_TABLE_RECORD_STATE_UPDATE s)
  | Some MYSQL_TABLE_RECORD_STATE_NONE => (true, st_set record MYSQL_TABLE_RECORD_STATE_UPDATE s)
  | Some _ => (true, s)
  end.

Section traversal.
(** The order in which a hash map is traversed. *)
Variable hash_order : gmap ptr MysqlTableRecordState -> list (ptr * MysqlTableRecordState).

Definition start_update (s : mysql_record_state_manager) : mysql_record_state_manager := mkStates (states_ s) 0.

(** The element at the iterator; none at the end. *)
Definition curr (s : mysql_record_state_manager) : option (ptr * MysqlTableRecordState) := hash_order (states_ s) !! curr_iter_ s.

Definition next_update_record (s : mysql_record_state_manager) : bool * mysql_record_state_manager :=
  match curr s with None => (false, s) | Some _ => (true, mkStates (states_ s) (S (curr_iter_ s))) end.

(** A null pointer is [None]. *)
Definition get_update_record (s : mysql_record_state_manager) : option ptr :=
  match curr s with None => None | Some (p, _) => if p =? NULL then None else Some p end.

(** [live] says whether the record is still allocated. *)
Definition update_one_record {W} `{RecordCalls W} (live : ptr -> bool) (record : ptr) (s : mysql_record_state_manager) (w : W) : option (Z * W) :=
  '(_, state) ← curr s;
  match state with
  | MYSQL_TABLE_RECORD_STATE_INSERT =>
    ub_unless (live record);; '(r, w) ← rc_insert_request record w; Some (if r : bool then 1 else 0, w)
  | MYSQL_TABLE_RECORD_STATE_DELETE =>
    ub_unless (live record);; '(r, w) ← rc_delete_request record w; Some (if r : bool then 2 else 0, w)
  | MYSQL_TABLE_RECORD_STATE_UPDATE =>
    ub_unless (live record);; '(r, w) ← rc_update_request record w; Some (if r : bool then 1 else 0, w)
  | MYSQL_TABLE_RECORD_STATE_NONE => Some (1, w)
  end.
End traversal.

(** ** Allocation of records *)

Definition fresh_record (objs : gset ptr) : ptr := set_fold (fun (p acc : Z) => Z.max (p + 1) acc) 1 objs.
Definition record_free (p : ptr) (objs : gset ptr) : option (gset ptr) :=
  if decide (p ∈ objs) then Some (objs ∖ {[p]}) else None.

(** ** mysql_records_manager *)

Section manager.
Context {K : Type} `{Countable K}.
Variable hash_order : gmap ptr MysqlTableRecordState -> list (ptr * MysqlTableRecordState).

Record mysql_records_manager : Type := mkRM {
  rm_objs : gset ptr;
  key_record_map_ : BiMap K ptr;
  state_mgr_ : mysql_record_state_manager;
}.

Definition rm_new : mysql_records_manager := mkRM ∅ BiMap_new states_new.
Definition rm_set_states (s : mysql_record_state_manager) (m : mysql_records_manager) : mysql_records_manager :=
  mkRM (rm_objs m) (key_record_map_ m) s.

Fixpoint records_free (l : list ptr) (objs : gset ptr) : option (gset ptr) :=
  match l with [] => Some objs | p :: l => if p =? NULL then records_free l objs else objs ← record_free p objs; records_free l objs end.

Definition rm_clear (m : mysql_records_manager) : option mysql_records_manager :=
  objs ← records_free (snd <$> map_to_list (one_map_ (key_record_map_ m))) (rm_objs m);
  Some (mkRM objs (bm_clear (key_record_map_ m)) (state_mgr_ m)).

Definition rm_get_new_no_insert (m : mysql_records_manager) : ptr * mysql_records_manager :=
  let p := fresh_record (rm_objs m) in (p, mkRM ({[p]} ∪ rm_objs m) (key_record_map_ m) (state_mgr_ m)).

Definition rm_insert_new (key : K) (record : ptr) (m : mysql_records_manager) : bool * mysql_records_manager :=
  match find_1 (key_record_map_ m) key with
  | Some _ => (false, m)
  | None => (true, mkRM (rm_objs m) (snd (bm_insert (key_record_map_ m) key record)) (state_mgr_ m))
  end.

Definition rm_get (key : K) (m : mysql_records_manager) : option ptr := find_1 (key_record_map_ m) key.

Definition rm_get_new (key : K) (m : mysql_records_manager) : ptr * mysql_records_manager :=
  let p := fresh_record (rm_objs m) in
  (p, mkRM ({[p]} ∪ rm_objs m) (snd (bm_insert (key_record_map_ m) key p)) (state_mgr_ m)).

Definition rm_remove_key (key : K) (m : mysql_records_manager) : option (bool * mysql_records_manager) :=
  match find_1 (key_record_map_ m) key with
  | None => Some (false, m)
  | Some record =>
    objs ← (if record =? NULL then Some (rm_objs m) else record_free record (rm_objs m));
    '(_, b) ← remove_1 (key_record_map_ m) key;
    Some (true, mkRM objs b (state_mgr_ m))
  end.

Definition rm_remove (record : ptr) (m : mysql_records_manager) : option (bool * mysql_records_manager) :=
  match find_2 (key_record_map_ m) record with
  | None => Some (false, m)
  | Some _ =>
    objs ← record_free record (rm_objs m);
    '(_, b) ← remove_2 (key_record_map_ m) record;
    Some (true, mkRM objs b (state_mgr_ m))
  end.

(** [commit_X_request(record)]. *)
Definition rm_commit (f : ptr -> mysql_record_state_manager -> bool * mysql_record_state_manager) (record : ptr) (m : mysql_records_manager)
  : bool * mysql_records_manager :=
  let '(r, s) := f record (state_mgr_ m) in (r, rm_set_states s m).

Definition rm_commit_insert_key (key : K) (m : mysql_records_manager) : bool * mysql_records_manager :=
  match rm_get key m with
  | Some record => rm_commit commit_insert record m
  | None => let '(record, m) := rm_get_new key m in rm_commit commit_insert record m
  end.
Definition rm_commit_delete_key (key : K) (m : mysql_records_manager) : bool * mysql_records_manager :=
  match rm_get key m with None => (false, m) | Some record => rm_commit commit_delete record m end.
Definition rm_commit_update_key (key : K) (m : mysql_records_manager) : bool * mysql_records_manager :=
  match rm_get key m with None => (false, m) | Some record => rm_commit commit_update record m end.

Definition rm_live (m : mysql_records_manager) (p : ptr) : bool := bool_decide (p ∈ rm_objs m).

(** The loop of [update]; the boolean tells that it was left by [return]. *)
Fixpoint rm_update_loop {W} `{RecordCalls W} (fuel : nat) (m : mysql_records_manager) (w : W) : option (bool * mysql_records_manager * W) :=
  match fuel with
  | O => None
  | S fuel =>
    match get_update_record hash_order (state_mgr_ m) with
    | None => Some (false, m, w)
    | Some record =>
      '(res, w) ← update_one_record hash_order (rm_live m) record (state_mgr_ m) w;
      if res <? 0 then Some (true, m, w) else
      m ← (if res =? 2 then '(_, m) ← rm_remove record m; Some m else Some m);
      let '(r, s) := next_update_record hash_order (state_mgr_ m) in
      let m := rm_set_states s m in
      if negb r then Some (false, m, w) else rm_update_loop fuel m w
    end
  end.

Definition rm_update {W} `{RecordCalls W} (fuel : nat) (m : mysql_records_manager) (w : W) : option (mysql_records_manager * W) :=
  '(returned, m, w) ← rm_update_loop fuel (rm_set_states (start_update (state_mgr_ m)) m) w;
  Some (if returned : bool then m else rm_set_states (st_clear (state_mgr_ m)) m, w).
End manager.
Arguments mysql_records_manager K {_ _}.

(** ** mysql_records_manager2

    [commit_insert_request_by_key] makes the record with [get_new_by_key2(key)], which is
    only accepted by the compiler when the keys have the same type; it is left out. *)

Section manager2.
Context {K K2 : Type} `{Countable K, Countable K2}.
Variable hash_order : gmap ptr MysqlTableRecordState -> list (ptr * MysqlTableRecordState).

Record mysql_records_manager2 : Type := mkRM2 {
  r2_objs : gset ptr;
  r2_key_map : BiMap K ptr;
  r2_key2_map : BiMap K2 ptr;
  r2_states : mysql_record_state_manager;
}.

Definition rm2_new : mysql_records_manager2 := mkRM2 ∅ BiMap_new BiMap_new states_new.
Definition rm2_set_states (s : mysql_record_state_manager) (m : mysql_records_manager2) : mysql_records_manager2 :=
  mkRM2 (r2_objs m) (r2_key_map m) (r2_key2_map m) s.

Definition get_by_key (key : K) (m : mysql_records_manager2) : option ptr := find_1 (r2_key_map m) key.
Definition get_by_key2 (key2 : K2) (m : mysql_records_manager2) : option ptr := find_1 (r2_key2_map m) key2.

Definition get_new_by_key (key : K) (m : mysql_records_manager2) : ptr * mysql_records_manager2 :=
  let p := fresh_record (r2_objs m) in
  (p, mkRM2 ({[p]} ∪ r2_objs m) (snd (bm_insert (r2_key_map m) key p)) (r2_key2_map m) (r2_states m)).
Definition get_new_by_key2 (key2 : K2) (m : mysql_records_manager2) : ptr * mysql_records_manager2 :=
  let p := fresh_record (r2_objs m) in
  (p, mkRM2 ({[p]} ∪ r2_objs m) (r2_key_map m) (snd (bm_insert (r2_key2_map m) key2 p)) (r2_states m)).
Definition get_new_by_key_and_key2 (key : K) (key2 : K2) (m : mysql_records_manager2) : ptr * mysql_records_manager2 :=
  let p := fresh_record (r2_objs m) in
  (p, mkRM2 ({[p]} ∪ r2_objs m) (snd (bm_insert (r2_key_map m) key p)) (snd (bm_insert (r2_key2_map m) key2 p)) (r2_states m)).

Definition insert_key_record (key : K) (record : ptr) (m : mysql_records_manager2) : bool * mysql_records_manager2 :=
  match find_2 (r2_key2_map m) record with
  | None => (false, m)
  | Some _ =>
    match find_1 (r2_key_map m) key with
    | Some _ => (true, m)
    | None => (true, mkRM2 (r2_objs m) (snd (bm_insert (r2_key_map m) key record)) (r2_key2_map m) (r2_states m))
    end
  end.
Definition insert_key2_record (key2 : K2) (record : ptr) (m : mysql_records_manager2) : bool * mysql_records_manager2 :=
  match find_2 (r2_key_map m) record with
  | None => (false, m)
  | Some _ =>
    match find_1 (r2_key2_map m) key2 with
    | Some _ => (true, m)
    | None => (true, mkRM2 (r2_objs m) (r2_key_map m) (snd (bm_insert (r2_key2_map m) key2 record)) (r2_states m))
    end
  end.

Definition remove_by_key (key : K) (m : mysql_records_manager2) : option (bool * mysql_records_manager2) :=
  match find_1 (r2_key_map m) key with
  | None => Some (false, m)
  | Some record =>
    '(r, b2) ← remove_2 (r2_key2_map m) record;
    if negb r then Some (false, m) else
    '(_, b) ← remove_1 (r2_key_map m) key;
    objs ← record_free record (r2_objs m);
    Some (true, mkRM2 objs b b2 (r2_states m))
  end.
Definition remove_by_key2 (key2 : K2) (m : mysql_records_manager2) : option (bool * mysql_records_manager2) :=
  match find_1 (r2_key2_map m) key2 with
  | None => Some (false, m)
  | Some record =>
    '(r, b) ← remove_2 (r2_key_map m) record;
    if negb r then Some (false, m) else
    '(_, b2) ← remove_1 (r2_key2_map m) key2;
    objs ← record_free record (r2_objs m);
    Some (true, mkRM2 objs b b2 (r2_states m))
  end.

(** The second key is looked up but not removed. *)
Definition remove_record (record : ptr) (m : mysql_records_manager2) : option (bool * mysql_records_manager2) :=
  match find_2 (r2_key_map m) record with
  | None => Some (false, m)
  | Some _ =>
    '(_, b) ← remove_2 (r2_key_map m) record;
    let m := mkRM2 (r2_objs m) b (r2_key2_map m) (r2_states m) in
    match find_2 (r2_key2_map m) record with
    | None => Some (false, m)
    | Some _ => objs ← record_free record (r2_objs m); Some (true, mkRM2 objs (r2_key_map m) (r2_key2_map m) (r2_states m))
    end
  end.

Definition rm2_commit (f : ptr -> mysql_record_state_manager -> bool * mysql_record_state_manager) (record : ptr) (m : mysql_records_manager2)
  : bool * mysql_records_manager2 :=
  let '(r, s) := f record (r2_states m) in (r, rm2_set_states s m).

Definition commit_insert_request_by_key2 (key2 : K2) (m : mysql_records_manager2) : bool * mysql_records_manager2 :=
  match get_by_key2 key2 m with
  | Some record => rm2_commit commit_insert record m
  | None => let '(record, m) := get_new_by_key2 key2 m in rm2_commit commit_insert record m
  end.
Definition commit_delete_request_by_key (key : K) (m : mysql_records_manager2) : bool * mysql_records_manager2 :=
  match get_by_key key m with None => (false, m) | Some record => rm2_commit commit_delete record m end.
Definition commit_delete_request_by_key2 (key2 : K2) (m : mysql_records_manager2) : bool * mysql_records_manager2 :=
  match get_by_key2 key2 m with None => (false, m) | Some record => rm2_commit commit_delete record m end.
Definition commit_update_request_by_key (key : K) (m : mysql_records_manager2) : bool * mysql_records_manager2 :=
  match get_by_key key m with None => (false, m) | Some record => rm2_commit commit_update record m end.
Definition commit_update_request_by_key2 (key2 : K2) (m : mysql_records_manager2) : bool * mysql_records_manager2 :=
  match get_by_key2 key2 m with None => (false, m) | Some record => rm2_commit commit_update record m end.

Definition rm2_live (m : mysql_records_manager2) (p : ptr) : bool := bool_decide (p ∈ r2_objs m).

Fixpoint rm2_update_loop {W} `{RecordCalls W} (fuel : nat) (m : mysql_records_manager2) (w : W) : option (bool * mysql_records_manager2 * W) :=
  match fuel with
  | O => None
  | S fuel =>
    match get_update_record hash_order (r2_states m) with
    | None => Some (false, m, w)
    | Some record =>
      '(res, w) ← update_one_record hash_order (rm2_live m) record (r2_states m) w;
      if res <? 0 then Some (true, m, w) else
      m ← (if res =? 2 then '(_, m) ← remove_record record m; Some m else Some m);
      let '(r, s) := next_update_record hash_order (r2_states m) in
      let m := rm2_set_states s m in
      if negb r then Some (false, m, w) else rm2_update_loop fuel m w
    end
  end.

Definition rm2_update {W} `{RecordCalls W} (fuel : nat) (m : mysql_records_manager2) (w : W) : option (mysql_records_manager2 * W) :=
  if st_size (r2_states m) =? 0 then Some (m, w) else
  '(returned, m, w) ← rm2_update_loop fuel (rm2_set_states (start_update (r2_states m)) m) w;
  Some (if returned : bool then m else rm2_set_states (st_clear (r2_states m)) m, w).
End manager2.
Arguments mysql_records_manager2 K K2 {_ _ _ _}.

(** ** mysql_records_manager_map *)

Section manager_map.
Context {K SK : Type} `{Countable K, Countable SK}.
Variable hash_order : gmap ptr MysqlTableRecordState -> list (ptr * MysqlTableRecordState).
(** The order of the keys in a [std::set]. *)
Variable set_order : gset K -> list K.

Record mysql_records_manager_map : Type := mkRMM {
  key2recordlist_ : gmap K (mysql_records_manager SK);
  key_set_committed_ : gset K;
}.

Definition rmm_new : mysql_records_manager_map := mkRMM ∅ ∅.
Definition rmm_get (key : K) (m : mysql_records_manager_map) : option (mysql_records_manager SK) := key2recordlist_ m !! key.

(** [insert] keeps an existing manager, and the new one, which is returned, is lost. *)
Definition rmm_get_new (key : K) (m : mysql_records_manager_map) : mysql_records_manager SK * mysql_records_manager_map :=
  match key2recordlist_ m !! key with
  | Some _ => (rm_new, m)
  | None => (rm_new, mkRMM (<[key := rm_new]> (key2recordlist_ m)) (key_set_committed_ m))
  end.

Definition rmm_remove (key : K) (m : mysql_records_manager_map) : option (bool * mysql_records_manager_map) :=
  match key2recordlist_ m !! key with
  | None => Some (false, m)
  | Some v => _ ← rm_clear v; Some (true, mkRMM (delete key (key2recordlist_ m)) (key_set_committed_ m))
  end.

Definition commit_changed (key : K) (m : mysql_records_manager_map) : mysql_records_manager_map :=
  if decide (key ∈ key_set_committed_ m) then m else mkRMM (key2recordlist_ m) ({[key]} ∪ key_set_committed_ m).

Fixpoint rmm_update_keys {W} `{RecordCalls W} (fuel : nat) (keys : list K) (l : gmap K (mysql_records_manager SK)) (w : W)
  : option (gmap K (mysql_records_manager SK) * W) :=
  match keys with
  | [] => Some (l, w)
  | k :: keys =>
    match l !! k with
    | None => rmm_update_keys fuel keys l w
    | Some v => '(v, w) ← rm_update hash_order fuel v w; rmm_update_keys fuel keys (<[k := v]> l) w
    end
  end.

Definition rmm_update {W} `{RecordCalls W} (fuel : nat) (m : mysql_records_manager_map) (w : W) : option (mysql_records_manager_map * W) :=
  if decide (key_set_committed_ m = ∅) then Some (m, w) else
  '(l, w) ← rmm_update_keys fuel (set_order (key_set_committed_ m)) (key2recordlist_ m) w;
  Some (mkRMM l ∅, w).
End manager_map.
