(* ===== verification/RecordsProps.v ===== *)
(** * What the managers of table records guarantee

    The state of a record is the net effect of what was committed for it, and [update] sends one
    request for each record and ends. *)
From S2P Require Import Prelude BiMap Records.
From Stdlib Require Import ZArith Lia.
From stdpp Require Import base option list gmap.
Local Open Scope Z_scope.

(** ** The net effect of commits *)

Inductive record_commit : Type := rcm_insert | rcm_delete | rcm_update.

Definition commit_record (c : record_commit) : ptr -> mysql_record_state_manager -> bool * mysql_record_state_manager :=
  match c with rcm_insert => commit_insert | rcm_delete => commit_delete | rcm_update => commit_update end.

Fixpoint commit_all (cs : list (record_commit * ptr)) (s : mysql_record_state_manager) : mysql_record_state_manager :=
  match cs with [] => s | (c, p) :: cs => commit_all cs (snd (commit_record c p s)) end.

(** A row of the table: whether it is in the database; and whether it is there after the
    commits, with an update since it was there. *)
Record row : Type := mkRow { row_in_db : bool; row_present : bool; row_changed : bool }.

(** Rows are inserted when they are not there, and deleted and updated when they are. *)
Definition row_step (r : row) (c : record_commit) : option row :=
  match c, row_present r with
  | rcm_insert, false => Some (mkRow (row_in_db r) true false)
  | rcm_delete, true => Some (mkRow (row_in_db r) false false)
  | rcm_update, true => Some (mkRow (row_in_db r) true true)
  | _, _ => None
  end.

Fixpoint row_steps (cs : list record_commit) (r : row) : option row :=
  match cs with [] => Some r | c :: cs => r ← row_step r c; row_steps cs r end.

(** The request that brings the database up to date.  A row of the database that was deleted
    and inserted again without an update afterwards gets none. *)
Definition row_request (r : row) : MysqlTableRecordState :=
  match row_in_db r, row_present r, row_changed r with
  | false, true, _ => MYSQL_TABLE_RECORD_STATE_INSERT
  | true, false, _ => MYSQL_TABLE_RECORD_STATE_DELETE
  | true, true, true => MYSQL_TABLE_RECORD_STATE_UPDATE
  | _, _, _ => MYSQL_TABLE_RECORD_STATE_NONE
  end.

Definition record_state (s : mysql_record_state_manager) (p : ptr) : MysqlTableRecordState :=
  default MYSQL_TABLE_RECORD_STATE_NONE (get_state s p).

Lemma commit_other c p q s : p <> q -> get_state (snd (commit_record c q s)) p = get_state s p.
Proof.
  intros Hne. destruct c; unfold commit_record, commit_insert, commit_delete, commit_update;
    destruct (get_state s q) as [[]|]; try done; unfold get_state, st_set; cbn; by rewrite lookup_insert_ne.
Qed.

(** The states that a record can have: a row that is not in the database is present exactly
    when it is to be inserted. *)
Lemma commit_row c p s r r' :
  record_state s p = row_request r -> (get_state s p = None -> row_in_db r = row_present r) ->
  row_step r c = Some r' -> record_state (snd (commit_record c p s)) p = row_request r' /\ is_Some (get_state (snd (commit_record c p s)) p).
Proof.
  unfold record_state. destruct r as [b pr ch], c, pr; try done; cbn [row_step row_present row_in_db]; intros Hs Hn [= <-];
    unfold commit_record, commit_insert, commit_delete, commit_update, get_state in *;
    destruct (states_ s !! p) as [[]|] eqn:E; cbn [default from_option] in *; destruct b, ch; try done; try (by specialize (Hn eq_refl));
    cbn [snd st_set states_]; rewrite ?lookup_insert_eq, ?E; (split; [done|by eexists]).
Qed.

Definition commits_of (p : ptr) (cs : list (record_commit * ptr)) : list record_commit :=
  (filter (fun x => snd x = p) cs).*1.

Lemma commits_net p cs s r r' :
  record_state s p = row_request r -> (get_state s p = None -> row_in_db r = row_present r) ->
  row_steps (commits_of p cs) r = Some r' -> record_state (commit_all cs s) p = row_request r'.
Proof.
  revert s r. induction cs as [|[c q] cs IH]; intros s r Hs Hn E; [cbn in *; by injection E as <-|].
  unfold commits_of in E. rewrite filter_cons in E. cbn [commit_all snd] in *. destruct (decide (q = p)) as [->|Hne].
  - cbn [fmap list_fmap row_steps fst] in E. apply bind_Some in E as (r1 & E1 & E).
    destruct (commit_row c p s r r1 Hs Hn E1) as [Hs' [x Hx]]. eapply IH; [exact Hs'|by rewrite Hx|exact E].
  - assert (Hg : get_state (snd (commit_record c q s)) p = get_state s p) by (by apply commit_other).
    eapply IH; [unfold record_state; rewrite Hg; exact Hs|by rewrite Hg|exact E].
Qed.

(** ** The loop of update *)

Section update.
Context {K : Type} `{Countable K} {W : Type} `{RecordCalls W}.
Variable hash_order : gmap ptr MysqlTableRecordState -> list (ptr * MysqlTableRecordState).
Notation manager := (mysql_records_manager K).

(** What is done for one record. *)
Definition issue_request (x : ptr * MysqlTableRecordState) (mw : manager * W) : option (manager * W) :=
  let '(p, state) := x in
  let '(m, w) := mw in
  match state with
  | MYSQL_TABLE_RECORD_STATE_NONE => Some (m, w)
  | MYSQL_TABLE_RECORD_STATE_INSERT => ub_unless (rm_live m p);; '(_, w) ← rc_insert_request p w; Some (m, w)
  | MYSQL_TABLE_RECORD_STATE_UPDATE => ub_unless (rm_live m p);; '(_, w) ← rc_update_request p w; Some (m, w)
  | MYSQL_TABLE_RECORD_STATE_DELETE =>
    ub_unless (rm_live m p);; '(r, w) ← rc_delete_request p w;
    if r : bool then '(_, m) ← rm_remove p m; Some (m, w) else Some (m, w)
  end.

Fixpoint issue_requests (l : list (ptr * MysqlTableRecordState)) (mw : manager * W) : option (manager * W) :=
  match l with [] => Some mw | x :: l => mw ← issue_request x mw; issue_requests l mw end.

(** The requests of all records, each once, and then no record has one pending. *)
Definition update_spec (m : manager) (w : W) : option (manager * W) :=
  '(m', w) ← issue_requests (hash_order (states_ (state_mgr_ m))) (m, w);
  Some (rm_set_states (mkStates ∅ (length (hash_order (states_ (state_mgr_ m))))) m', w).

Lemma remove_set_states p s (m : manager) :
  rm_remove p (rm_set_states s m) = '(r, m') ← rm_remove p m; Some (r, rm_set_states s m').
Proof using.
  unfold rm_remove. cbn [key_record_map_ rm_set_states]. destruct (find_2 _ _); [|done]. cbn [rm_objs rm_set_states].
  destruct (record_free p (rm_objs m)); [|done]. cbn [mbind option_bind]. by destruct (remove_2 _ _) as [[? ?]|].
Qed.

Lemma issue_set_states x s (m : manager) w :
  issue_request x (rm_set_states s m, w) = '(m', w') ← issue_request x (m, w); Some (rm_set_states s m', w').
Proof using.
  destruct x as [p []]; cbn [issue_request]; change (rm_live (rm_set_states s m) p) with (rm_live m p); try done;
    (destruct (ub_unless (rm_live m p)); [|done]); cbn [mbind option_bind].
  - by destruct (rc_insert_request p w) as [[? ?]|].
  - destruct (rc_delete_request p w) as [[[] w']|]; [|done..]. cbn [mbind option_bind]. rewrite remove_set_states.
    by destruct (rm_remove p m) as [[? ?]|].
  - by destruct (rc_update_request p w) as [[? ?]|].
Qed.

Lemma issues_set_states l s (m : manager) w :
  issue_requests l (rm_set_states s m, w) = '(m', w') ← issue_requests l (m, w); Some (rm_set_states s m', w').
Proof using.
  revert m w. induction l as [|x l IH]; intros m w; [done|]. cbn [issue_requests]. rewrite issue_set_states.
  destruct (issue_request x (m, w)) as [[m1 w1]|]; [|done]. cbn [mbind option_bind]. apply IH.
Qed.

Lemma issue_keeps_states x (m m' : manager) w w' : issue_request x (m, w) = Some (m', w') -> state_mgr_ m' = state_mgr_ m.
Proof using.
  destruct x as [p []]; cbn [issue_request]; [by intros [= <- <-]|..]; intros E; apply bind_Some in E as ([] & _ & E);
    apply bind_Some in E as ([r w1] & _ & E); [by injection E as <- _| |by injection E as <- _].
  destruct r; [|by injection E as <- _]. apply bind_Some in E as ([r1 m1] & E & [= <- _]). unfold rm_remove in E.
  destruct (find_2 _ _); [|by injection E as _ <-]. apply bind_Some in E as (objs & _ & E). by apply bind_Some in E as ([? ?] & _ & [= _ <-]).
Qed.

(** One round of the loop. *)
Lemma update_round (m : manager) w p state : curr hash_order (state_mgr_ m) = Some (p, state) ->
  ('(res, w) ← update_one_record hash_order (rm_live m) p (state_mgr_ m) w;
   if res <? 0 then Some (true, m, w) else
   m ← (if res =? 2 then '(_, m) ← rm_remove p m; Some m else Some m); Some (false, m, w)) =
  '(m, w) ← issue_request (p, state) (m, w); Some (false, m, w).
Proof using.
  intros Hc. unfold update_one_record. rewrite Hc. cbn [mbind option_bind]. destruct state; cbn [issue_request]; [done|..];
    (destruct (ub_unless (rm_live m p)); [|done]); cbn [mbind option_bind].
  - by destruct (rc_insert_request p w) as [[[] ?]|].
  - destruct (rc_delete_request p w) as [[[] w']|]; [|done..]. cbn. by destruct (rm_remove p m) as [[? ?]|].
  - by destruct (rc_update_request p w) as [[[] ?]|].
Qed.

Lemma update_loop_unfold fuel (m : manager) w p state : curr hash_order (state_mgr_ m) = Some (p, state) -> p <> NULL ->
  rm_update_loop hash_order (S fuel) m w =
  '(m', w') ← issue_request (p, state) (m, w);
  rm_update_loop hash_order fuel (rm_set_states (mkStates (states_ (state_mgr_ m)) (S (curr_iter_ (state_mgr_ m)))) m') w'.
Proof using.
  intros Hc Hp. pose proof (update_round m w p state Hc) as Hr. cbn [rm_update_loop]. unfold get_update_record. rewrite Hc, (proj2 (Z.eqb_neq _ _)) by done.
  destruct (issue_request (p, state) (m, w)) as [[m' w']|] eqn:E; cbn [mbind option_bind] in *.
  - pose proof (issue_keeps_states _ _ _ _ _ E) as Hk.
    destruct (update_one_record _ _ _ _ _) as [[res w1]|]; [|done]. cbn [mbind option_bind] in *. destruct (res <? 0); [done|].
    destruct (if res =? 2 then _ else _) as [m1|]; [|done]. cbn [mbind option_bind] in *. injection Hr as -> ->.
    unfold next_update_record. rewrite Hk, Hc. done.
  - destruct (update_one_record _ _ _ _ _) as [[res w1]|]; [|done]. cbn [mbind option_bind] in *. destruct (res <? 0); [done|].
    by destruct (if res =? 2 then _ else _) as [m1|].
Qed.

Lemma update_loop_spec S0 l i fuel (m : manager) w :
  hash_order S0 = take i (hash_order S0) ++ l -> (i <= length (hash_order S0))%nat ->
  Forall (fun x => x.1 <> NULL) l -> (length l < fuel)%nat -> state_mgr_ m = mkStates S0 i ->
  rm_update_loop hash_order fuel m w =
  '(m', w') ← issue_requests l (m, w); Some (false, rm_set_states (mkStates S0 (length (hash_order S0))) m', w').
Proof using.
  revert i fuel m w. induction l as [|[p state] l IH]; intros i fuel m w Hl Hi Hn Hf Hm; (destruct fuel as [|fuel]; [cbn in Hf; lia|]).
  - assert (Hc : curr hash_order (state_mgr_ m) = None).
    { unfold curr. rewrite Hm. cbn [states_ curr_iter_]. apply lookup_ge_None. apply (f_equal length) in Hl. rewrite app_nil_r, length_take in Hl. lia. }
    cbn [rm_update_loop]. unfold get_update_record. rewrite Hc. cbn [issue_requests mbind option_bind].
    assert (Hi' : length (hash_order S0) = i) by (apply (f_equal length) in Hl; rewrite app_nil_r, length_take in Hl; lia).
    rewrite Hi', <- Hm. by destruct m.
  - assert (Hc : hash_order S0 !! i = Some (p, state)).
    { rewrite Hl, lookup_app_r; rewrite length_take_le by done; [|done]. by rewrite Nat.sub_diag. }
    apply Forall_cons in Hn as [Hp Hn]. rewrite (update_loop_unfold fuel m w p state) by (unfold curr; rewrite ?Hm; done).
    cbn [issue_requests]. destruct (issue_request (p, state) (m, w)) as [[m1 w1]|] eqn:E; [|done]. cbn [mbind option_bind].
    rewrite Hm. cbn [states_ curr_iter_]. rewrite (IH (S i) fuel).
    + rewrite issues_set_states. destruct (issue_requests l (m1, w1)) as [[m2 w2]|]; [|done]. done.
    + rewrite (take_S_r _ _ _ Hc), <- app_assoc. exact Hl.
    + apply lookup_lt_Some in Hc. lia.
    + done.
    + cbn in Hf. lia.
    + done.
Qed.

Lemma update_is_spec fuel (m : manager) w :
  (forall S0, hash_order S0 ≡ₚ map_to_list S0) -> states_ (state_mgr_ m) !! NULL = None ->
  (size (states_ (state_mgr_ m)) < fuel)%nat -> rm_update hash_order fuel m w = update_spec m w.
Proof using.
  intros Hperm Hnull Hf. unfold rm_update, update_spec. set (S0 := states_ (state_mgr_ m)) in *.
  rewrite (update_loop_spec S0 (hash_order S0) 0); try done; [|lia|..].
  - rewrite issues_set_states. destruct (issue_requests _ (m, w)) as [[m' w']|]; [|done]. done.
  - apply Forall_forall. intros [p x] Hx. rewrite Hperm, elem_of_map_to_list in Hx. intros Hp. cbn in Hp. congruence.
  - by rewrite (Permutation_length (Hperm S0)), length_map_to_list.
Qed.

Lemma issue_deletes_undefined l (m : manager) w p :
  (forall p w r w', rc_delete_request p w = Some (r, w') -> r = true) -> (p, MYSQL_TABLE_RECORD_STATE_DELETE) ∈ l ->
  is_Some (find_2 (key_record_map_ m) p) -> issue_requests l (m, w) = None.
Proof using.
  intros Hd. revert m w. induction l as [|x l IH]; intros m w Hin Hp; [by apply not_elem_of_nil in Hin|]. cbn [issue_requests].
  destruct (issue_request x (m, w)) as [[m1 w1]|] eqn:E; [|done]. cbn [mbind option_bind].
  assert (Hsame : key_record_map_ m1 = key_record_map_ m /\ x <> (p, MYSQL_TABLE_RECORD_STATE_DELETE)).
  { destruct x as [q []]; cbn [issue_request] in E; [by injection E as <- <-|..]; apply bind_Some in E as ([] & _ & E);
      apply bind_Some in E as ([r w2] & E1 & E); [by injection E as <- _| |by injection E as <- _].
    apply Hd in E1 as ->. apply bind_Some in E as ([r1 m2] & E & [= <- _]). unfold rm_remove in E.
    destruct (find_2 (key_record_map_ m) q) as [k|] eqn:Hq.
    - apply bind_Some in E as (objs & _ & E). apply bind_Some in E as ([r2 b] & E & _). unfold remove_2, find_2, iter_second in *.
      rewrite Hq, lookup_delete_eq in E. done.
    - injection E as _ <-. split; [done|]. intros [= ->]. rewrite Hq in Hp. by destruct Hp. }
  destruct Hsame as [Hk Hne]. apply IH; [|by rewrite Hk]. apply elem_of_cons in Hin as [<-|Hin]; [done|exact Hin].
Qed.

(** C26. The state of a record is the net effect of the commits for it, for every valid sequence of inserts, deletes
    and updates of its row; [update] terminates with fuel above the number of records, sends
    one request for each record in the order of the hash map, and leaves none pending; but a
    delete that succeeds for a record found by its key reads an erased element. *)
Theorem records_update_net fuel (m : manager) cs w :
  (forall S0, hash_order S0 ≡ₚ map_to_list S0) -> states_ (state_mgr_ m) = ∅ ->
  NULL ∉ cs.*2 -> (length cs < fuel)%nat ->
  let m1 := rm_set_states (commit_all cs (state_mgr_ m)) m in
  (forall p b r, row_steps (commits_of p cs) (mkRow b b false) = Some r -> record_state (state_mgr_ m1) p = row_request r) /\
  rm_update hash_order fuel m1 w = update_spec m1 w /\
  ((forall p w r w', rc_delete_request p w = Some (r, w') -> r = true) ->
   (exists p, get_state (state_mgr_ m1) p = Some MYSQL_TABLE_RECORD_STATE_DELETE /\ is_Some (find_2 (key_record_map_ m) p)) ->
   rm_update hash_order fuel m1 w = None).
Proof using.
  intros Hperm Hempty Hnull Hf m1.
  assert (Hdom : forall cs s, dom (states_ (commit_all cs s)) ⊆ dom (states_ s) ∪ list_to_set (cs.*2)).
  { clear. induction cs as [|[c p] cs IH]; intros s; [set_solver|]. cbn [commit_all]. etrans; [apply IH|]. cbn.
    assert (dom (states_ (snd (commit_record c p s))) ⊆ {[p]} ∪ dom (states_ s)); [|set_solver].
    destruct c; unfold commit_record, commit_insert, commit_delete, commit_update; destruct (get_state s p) as [[]|];
      cbn [snd st_set states_]; rewrite ?dom_insert; set_solver. }
  specialize (Hdom cs (state_mgr_ m)). rewrite Hempty, dom_empty_L, union_empty_l_L in Hdom.
  assert (Hu : rm_update hash_order fuel m1 w = update_spec m1 w).
  { apply update_is_spec; [exact Hperm|apply not_elem_of_dom; set_solver|]. rewrite <- size_dom.
    apply subseteq_size in Hdom. eapply Nat.le_lt_trans; [exact Hdom|].
    eapply Nat.le_lt_trans; [apply size_list_to_set_le|]. by rewrite length_fmap. }
  split; [|split; [exact Hu|]].
  - intros p b r Hr. eapply commits_net; [| |exact Hr]; [|done]. unfold record_state, get_state. rewrite Hempty, lookup_empty. by destruct b.
  - intros Hd (p & Hp & Hreg). rewrite Hu. unfold update_spec. rewrite (issue_deletes_undefined _ m1 w p); [done|exact Hd| |exact Hreg].
    rewrite Hperm. by apply elem_of_map_to_list.
Qed.
End update.

(** ** Example

    Requests are logged and succeed; two records are made for the keys 1 and 2. *)

Definition ex_log : Type := list (ptr * MysqlTableRecordState).
Definition ex_records : mysql_records_manager Z := snd (rm_get_new 2 (snd (rm_get_new 1 rm_new))).
Definition ex_commits : list (record_commit * ptr) := [(rcm_update, 1); (rcm_insert, 2); (rcm_update, 1)].
Definition ex_deletes : list (record_commit * ptr) := [(rcm_update, 1); (rcm_delete, 1)].

Section example.
#[local] Instance ex_record_calls : RecordCalls ex_log := {|
  rc_insert_request p w := Some (true, w ++ [(p, MYSQL_TABLE_RECORD_STATE_INSERT)]);
  rc_delete_request p w := Some (true, w ++ [(p, MYSQL_TABLE_RECORD_STATE_DELETE)]);
  rc_update_request p w := Some (true, w ++ [(p, MYSQL_TABLE_RECORD_STATE_UPDATE)]);
|}.

Lemma records_update_net_witness :
  snd <$> rm_update map_to_list 4 (rm_set_states (commit_all ex_commits (state_mgr_ ex_records)) ex_records) [] =
    Some [(2, MYSQL_TABLE_RECORD_STATE_INSERT); (1, MYSQL_TABLE_RECORD_STATE_UPDATE)] /\
  record_state (commit_all ex_commits (state_mgr_ ex_records)) 2 = MYSQL_TABLE_RECORD_STATE_INSERT /\
  rm_update map_to_list 4 (rm_set_states (commit_all ex_deletes (state_mgr_ ex_records)) ex_records) [] = None.
Proof.
  destruct (records_update_net map_to_list 4 ex_records ex_commits []) as (Hn & Hu & _);
    [intros S0; reflexivity|reflexivity|by vm_compute; inversion 1; set_solver|cbn; lia|].
  destruct (records_update_net map_to_list 4 ex_records ex_deletes []) as (_ & _ & Hd);
    [intros S0; reflexivity|reflexivity|by vm_compute; inversion 1; set_solver|cbn; lia|].
  split; [rewrite Hu; vm_compute; reflexivity|]. split; [exact (Hn 2 false (mkRow false true false) eq_refl)|].
  apply Hd; [intros p w r w' [= <- _]; reflexivity|]. exists 1. split; vm_compute; [reflexivity|by eexists].
Defined.

(** A row of the database that is deleted and inserted again, with other values, is not written. *)
Lemma replaced_row_is_lost : record_state (commit_all [(rcm_delete, 1); (rcm_insert, 1)] states_new) 1 = MYSQL_TABLE_RECORD_STATE_NONE.
Proof. reflexivity. Qed.
End example.
