(* ===== verification/ConfigServer.v ===== *)
(** * The config server ([config_server/])

    Login servers and gate servers register here.  A login server gets the list of gate servers,
    a gate server the login servers to connect to, and later the ones that are new.
    [conf_gate_list.*] and [conn_handler.*]. *)
From S2P Require Import Prelude Text Datatype Agent AppNet Proto Common.
From Stdlib Require Import ZArith Lia.
From stdpp Require Import base option list sorting gmap.
Local Open Scope Z_scope.

(** ** ConfGateList

    The array of pointers is not initialised; [garbage] is what it holds.  The JSON document is
    what rapidjson read: of each entry, the members, [None] for one of another type. *)

Definition MAX_GATE_SERVER_COUNT : nat := Z.to_nat (GATE_SERVER_MAX_ID - GATE_SERVER_MIN_ID).

Record ConfGateList : Type := mkConfGateList {
  cg_objs : gmap ptr MsgGateConfData;
  gate_array_ : list ptr;
  id2gate_map_ : gmap Z ptr;
  gate_count_ : nat;
}.

Definition ConfGateList_new (garbage : list ptr) : ConfGateList := mkConfGateList ∅ garbage ∅ 0.

Record JsonServer : Type := mkJsonServer {
  js_server_name : option bytes;
  js_server_id : option Z;
  js_server_ip : option bytes;
  js_server_port : option Z;
  js_platform : option (option bytes);        (** the member may be missing *)
  js_channel_code : option (option bytes);
}.

(** The loop of [loadJson]; [platform] and [channel_code] keep the last entry's values. *)
Fixpoint cg_load (entries : list JsonServer) (platform channel_code : bytes) (l : ConfGateList) : option (bool * ConfGateList) :=
  match entries with
  | [] => Some (true, l)
  | a :: entries =>
    match js_server_name a, js_server_id a, js_server_ip a, js_server_port a with
    | Some name, Some id, Some ip, Some port =>
      match js_platform a with
      | Some None => Some (false, l)
      | pl =>
        let platform := match pl with Some (Some x) => x | _ => platform end in
        match js_channel_code a with
        | Some None => Some (false, l)
        | cc =>
          let channel_code := match cc with Some (Some x) => x | _ => channel_code end in
          p ← gate_array_ l !! gate_count_ l;
          let '(p, l) :=
            if p =? NULL then
              let p := fresh_ptr (cg_objs l) in
              (p, mkConfGateList (<[p := mkGateConfData [] 0 [] 0 [] [] false false]> (cg_objs l)) (<[gate_count_ l := p]> (gate_array_ l))
                    (id2gate_map_ l) (S (gate_count_ l)))
            else (p, l) in
          d ← cg_objs l !! p;
          let d := mkGateConfData name id ip (s16 port) platform channel_code (gd_is_busy d) (gd_is_maintenance d) in
          cg_load entries platform channel_code
            (mkConfGateList (<[p := d]> (cg_objs l)) (gate_array_ l) (insert_new id p (id2gate_map_ l)) (gate_count_ l))
        end
      end
    | _, _, _, _ => Some (false, l)
    end
  end.

Definition cg_reset (l : ConfGateList) : ConfGateList := mkConfGateList (cg_objs l) (gate_array_ l) (id2gate_map_ l) 0.
(** [jsonpath_] is never set, and no file has the empty name. *)
Definition cg_reload (l : ConfGateList) : bool * ConfGateList := (false, cg_reset l).

Fixpoint cg_clear_from (i n : nat) (l : ConfGateList) : option ConfGateList :=
  match n with
  | O => Some l
  | S n =>
    p ← gate_array_ l !! i;
    if p =? NULL then cg_clear_from (S i) n l else
    _ ← cg_objs l !! p;
    cg_clear_from (S i) n (mkConfGateList (delete p (cg_objs l)) (<[i := NULL]> (gate_array_ l)) (id2gate_map_ l) (gate_count_ l))
  end.
(** The map from ids keeps its pointers. *)
Definition cg_clear (l : ConfGateList) : option ConfGateList := l ← cg_clear_from 0 (gate_count_ l) l; Some (cg_reset l).

Definition cg_getSize (l : ConfGateList) : nat := gate_count_ l.
Definition cg_get (index : nat) (l : ConfGateList) : option ptr :=
  if decide (gate_count_ l <= index)%nat then None else p ← gate_array_ l !! index; if p =? NULL then None else Some p.
Definition cg_getById (id : Z) (l : ConfGateList) : option ptr := id2gate_map_ l !! id.

(** ** ConnHandler *)

Record LoginAgentData : Type := mkLoginAgentData { la_id : Z; la_ip : bytes; la_port : Z }.
Record GateAgentData : Type := mkGateAgentData { gad_id : Z; gad_ip : bytes; gad_port : Z }.

Record ConfigServer : Type := mkCS {
  cs_net : Net;
  cs_login_mgr : AgentManager LoginAgentData Z;
  cs_gate_mgr : AgentManager GateAgentData Z;
  conn2agent_map_ : gmap Z Z;
  login_conn_id_set_ : gset Z;
  gate_conn_id_set_ : gset Z;
  cs_gates : ConfGateList;
}.

Definition ConfigServer_new (gates : ConfGateList) : ConfigServer := mkCS Net_new AgentManager_new AgentManager_new ∅ ∅ ∅ gates.
Definition cs_set_net (n : Net) (s : ConfigServer) : ConfigServer :=
  mkCS n (cs_login_mgr s) (cs_gate_mgr s) (conn2agent_map_ s) (login_conn_id_set_ s) (gate_conn_id_set_ s) (cs_gates s).
Definition cs_set_login (m : AgentManager LoginAgentData Z) (l : gset Z) (s : ConfigServer) : ConfigServer :=
  mkCS (cs_net s) m (cs_gate_mgr s) (conn2agent_map_ s) l (gate_conn_id_set_ s) (cs_gates s).
Definition cs_set_gate (m : AgentManager GateAgentData Z) (l : gset Z) (s : ConfigServer) : ConfigServer :=
  mkCS (cs_net s) (cs_login_mgr s) m (conn2agent_map_ s) (login_conn_id_set_ s) l (cs_gates s).
Definition cs_set_conns (c : gmap Z Z) (s : ConfigServer) : ConfigServer :=
  mkCS (cs_net s) (cs_login_mgr s) (cs_gate_mgr s) c (login_conn_id_set_ s) (gate_conn_id_set_ s) (cs_gates s).

(** A [std::set<int>] is traversed in ascending order. *)
Definition int_set_list (s : gset Z) : list Z := merge_sort Z.le (elements s).

Section config.
(** The connection manager of the server; what is left in the gate's request when parsing it
    fails, which is not checked; the content of the static buffer. *)
Variable MGR : Z.
Variable partial_gate_id : bytes -> Z.
Variable tmp : bytes.
Context `{ServerMessages}.

Definition cs_onConnect (conn_id : Z) (s : ConfigServer) : ConfigServer :=
  match conn2agent_map_ s !! conn_id with
  | Some _ => s
  | None => cs_set_conns (<[conn_id := 0]> (conn2agent_map_ s)) s
  end.

(** The iterator is erased before [it->second] is read. *)
Definition cs_onDisconnect (conn_id : Z) (s : ConfigServer) : option ConfigServer :=
  match conn2agent_map_ s !! conn_id with
  | None => Some s
  | Some _ =>
    let s := cs_set_conns (delete conn_id (conn2agent_map_ s)) s in
    if decide (conn_id ∈ login_conn_id_set_ s) then
      id ← conn2agent_map_ s !! conn_id;
      match am_getAgent (cs_login_mgr s) id with
      | None => Some s
      | Some _ => '(_, m) ← am_deleteAgent (cs_login_mgr s) id; Some (cs_set_login m (login_conn_id_set_ s ∖ {[conn_id]}) s)
      end
    else if decide (conn_id ∈ gate_conn_id_set_ s) then
      id ← conn2agent_map_ s !! conn_id;
      match am_getAgent (cs_gate_mgr s) id with
      | None => Some s
      | Some _ => '(_, m) ← am_deleteAgent (cs_gate_mgr s) id; Some (cs_set_gate m (gate_conn_id_set_ s ∖ {[conn_id]}) s)
      end
    else Some s
  end.

Definition cs_on_disconnect (mgr conn_id : Z) (s : ConfigServer) : option ConfigServer :=
  if mgr =? MGR then cs_onDisconnect conn_id s else Some s.

#[local] Instance cs_calls : AgentCalls ConfigServer := net_calls cs_net cs_set_net cs_on_disconnect.

Definition check_conn (conn_id : Z) (s : ConfigServer) : Z :=
  match conn2agent_map_ s !! conn_id with None => -1 | Some id => if id =? 0 then 0 else -1 end.

Definition update_conn (conn_id agent_id : Z) (s : ConfigServer) : ConfigServer :=
  match conn2agent_map_ s !! conn_id with None => s | Some _ => cs_set_conns (<[conn_id := agent_id]> (conn2agent_map_ s)) s end.

Fixpoint broadcast_to (conns : list Z) (msg_id : Z) (data : bytes) (len : Z) (s : ConfigServer) : option (Z * ConfigServer) :=
  match conns with
  | [] => Some (0, s)
  | c :: conns =>
    match conn2agent_map_ s !! c with
    | None => broadcast_to conns msg_id data len s
    | Some id =>
      match am_getAgent (cs_gate_mgr s) id with
      | None => Some (-1, s)
      | Some p =>
        a ← am_objs (cs_gate_mgr s) !! p;
        '(r, s) ← ag_sendMsg a msg_id data len s;
        if r <? 0 then Some (-1, s) else broadcast_to conns msg_id data len s
      end
    end
  end.
Definition broadcast_msg_to_gate (msg_id : Z) (data : bytes) (len : Z) (s : ConfigServer) : option (Z * ConfigServer) :=
  broadcast_to (int_set_list (gate_conn_id_set_ s)) msg_id data len s.

(** [login_ip] is a C string: the callers pass [c_str()]. *)
Definition broadcast_new_login_to_gate (login_id : Z) (login_ip : bytes) (login_port : Z) (s : ConfigServer) : option (Z * ConfigServer) :=
  let notify := mkNewLoginNotify (mkLoginInfoData login_ip login_port login_id) in
  match SerializeToArray notify tmp with
  | None => Some (-1, s)
  | Some tmp => broadcast_msg_to_gate MSGID_CS2GT_NEW_LOGIN_NOTIFY tmp (ByteSize notify) s
  end.

Definition broadcast_remove_login_to_gate (login_id : Z) (s : ConfigServer) : option (Z * ConfigServer) :=
  let notify := mkRemoveLoginNotify login_id in
  match SerializeToArray notify tmp with
  | None => Some (-1, s)
  | Some tmp => broadcast_msg_to_gate MSGID_CS2GT_REMOVE_LOGIN_NOTIFY tmp (ByteSize notify) s
  end.

(** The login servers with these connections, as a gate server is told of them. *)
Fixpoint login_infos (conns : list Z) (s : ConfigServer) : option (list MsgLoginInfoData) :=
  match conns with
  | [] => Some []
  | c :: conns =>
    match am_getAgentByConnId (cs_login_mgr s) c with
    | None => login_infos conns s
    | Some p =>
      a ← am_objs (cs_login_mgr s) !! p;
      l ← login_infos conns s;
      Some (mkLoginInfoData (la_ip (ag_data a)) (la_port (ag_data a)) (la_id (ag_data a)) :: l)
    end
  end.

Definition processGateConnect (conn_id : Z) (data : bytes) (s : ConfigServer) : option (Z * ConfigServer) :=
  if check_conn conn_id s <? 0 then Some (-1, s) else
  let gate_id := match (ParseFromArray data : option MsgGT2CS_ConnectConfigRequest) with
                 | Some request => gq_gate_id request | None => partial_gate_id data end in
  match am_getAgent (cs_gate_mgr s) gate_id with
  | Some _ => Some (-1, s)
  | None =>
    let '(agent, m) := am_newAgent (mkGateAgentData 0 [] 0) (cs_gate_mgr s) gate_id MGR conn_id in
    let s := cs_set_gate m (gate_conn_id_set_ s) s in
    match agent with
    | None => Some (-1, s)
    | Some p =>
      match cg_getById gate_id (cs_gates s) with
      | None => Some (-1, s)
      | Some dp =>
        d ← cg_objs (cs_gates s) !! dp;
        a ← am_objs (cs_gate_mgr s) !! p;
        let a := ag_setData (mkGateAgentData gate_id (gd_ip d) (s16 (gd_port d))) a in
        let m := cs_gate_mgr s in
        let s := cs_set_gate (mkAM (<[p := a]> (am_objs m)) (key2agents_ m) (id2keys_ m) (key2ids_ m)) (gate_conn_id_set_ s) s in
        let s := update_conn conn_id gate_id s in
        let s := cs_set_gate (cs_gate_mgr s) ({[conn_id]} ∪ gate_conn_id_set_ s) s in
        infos ← login_infos (int_set_list (login_conn_id_set_ s)) s;
        let response := mkGateConfigResponse infos in
        match SerializeToArray response tmp with
        | None => Some (-1, s)
        | Some tmp =>
          '(r, s) ← ag_sendMsg a MSGID_CS2GT_CONNECT_CONFIG_RESPONSE tmp (ByteSize response) s;
          Some (if r <? 0 then -1 else 0, s)
        end
      end
    end
  end.

(** The gate servers of the list, as a login server is told of them. *)
Fixpoint gate_list_at (indices : list nat) (l : ConfGateList) : option (list MsgGateConfData) :=
  match indices with
  | [] => Some []
  | i :: indices =>
    match cg_get i l with
    | None => gate_list_at indices l
    | Some p => d ← cg_objs l !! p; ds ← gate_list_at indices l; Some (d :: ds)
    end
  end.

Definition processLoginConnect (conn_id : Z) (data : bytes) (s : ConfigServer) : option (Z * ConfigServer) :=
  if check_conn conn_id s <? 0 then Some (-1, s) else
  match (ParseFromArray data : option MsgLS2CS_ConnectConfigRequest) with
  | None => Some (-1, s)
  | Some request =>
    let login_id := lq_login_id request in
    match am_getAgent (cs_login_mgr s) login_id with
    | Some _ => Some (-1, s)
    | None =>
      let '(agent, m) := am_newAgent (mkLoginAgentData 0 [] 0) (cs_login_mgr s) login_id MGR conn_id in
      let s := cs_set_login m (login_conn_id_set_ s) s in
      match agent with
      | None => Some (-1, s)
      | Some p =>
        a ← am_objs (cs_login_mgr s) !! p;
        let login_data := mkLoginAgentData login_id (lq_login_ip request) (s16 (lq_login_port request)) in
        let a := ag_setData login_data a in
        let m := cs_login_mgr s in
        let s := cs_set_login (mkAM (<[p := a]> (am_objs m)) (key2agents_ m) (id2keys_ m) (key2ids_ m)) (login_conn_id_set_ s) s in
        let s := update_conn conn_id login_id s in
        let s := cs_set_login (cs_login_mgr s) ({[conn_id]} ∪ login_conn_id_set_ s) s in
        gates ← gate_list_at (seq 0 (cg_getSize (cs_gates s))) (cs_gates s);
        let response := mkLoginConfigResponse gates in
        match SerializeToArray response tmp with
        | None => Some (-1, s)
        | Some tmp =>
          '(r, s) ← ag_sendMsg a MSGID_CS2LS_CONNECT_CONFIG_RESPONSE tmp (ByteSize response) s;
          if r <? 0 then Some (-1, s) else
          '(r, s) ← broadcast_new_login_to_gate login_id (c_str (la_ip login_data)) (u16 (la_port login_data)) s;
          Some (if r <? 0 then -1 else 0, s)
        end
      end
    end
  end.

(** ** What happens to a config server *)

Definition cs_msg (conn_id msg_id : Z) (data : bytes) (s : ConfigServer) : option (Z * ConfigServer) :=
  if msg_id =? MSGID_LS2CS_CONNECT_CONFIG_REQUEST then processLoginConnect conn_id data s
  else if msg_id =? MSGID_GT2CS_CONNECT_CONFIG_REQUEST then processGateConnect conn_id data s
  else Some (0, s).

Inductive cs_op : Type :=
| cs_op_connect
| cs_op_lost (conn_id : Z)
| cs_op_recycle (conn_id : Z)
| cs_op_revive (conn_id : Z)
| cs_op_msg (conn_id msg_id : Z) (data : bytes).

Definition cs_exec (o : cs_op) (s : ConfigServer) : option ConfigServer :=
  match o with
  | cs_op_connect => Some (cs_onConnect (nt_next MGR (cs_net s)) (cs_set_net (nt_connect MGR (cs_net s)) s))
  | cs_op_lost c => ac_force_close MGR c s
  | cs_op_recycle c => n ← nt_recycle MGR c (cs_net s); Some (cs_set_net n s)
  | cs_op_revive c => n ← nt_revive MGR c (cs_net s); Some (cs_set_net n s)
  | cs_op_msg c msg_id data => if nt_is_connected MGR c (cs_net s) then handled MGR c (cs_msg c msg_id data s) else None
  end.

Fixpoint cs_exec_all (os : list cs_op) (s : ConfigServer) : option ConfigServer :=
  match os with [] => Some s | o :: os => s ← cs_exec o s; cs_exec_all os s end.
End config.
