(* ===== verification/ConfigProps.v ===== *)
(** * What the config server guarantees

    Every gate server that is connected was told of every login server that is connected,
    exactly once. *)
From S2P Require Import Prelude Text Datatype Agent AppNet Proto Codec Common ConfigServer.
From Stdlib Require Import ZArith Lia.
From stdpp Require Import base option list sorting gmap.
Local Open Scope Z_scope.

(** ** Sets of connections as lists *)

Lemma int_set_list_perm s : int_set_list s ≡ₚ elements s.
Proof. unfold int_set_list. apply merge_sort_Permutation. Qed.

Lemma int_set_list_elem s c : c ∈ int_set_list s <-> c ∈ s.
Proof. rewrite int_set_list_perm. apply elem_of_elements. Qed.

Lemma int_set_list_nodup s : NoDup (int_set_list s).
Proof. rewrite int_set_list_perm. apply NoDup_elements. Qed.

Lemma omap_perm {A B} (f : A -> option B) l l' : l ≡ₚ l' -> omap f l ≡ₚ omap f l'.
Proof.
  induction 1 as [|x l l' _ IH|x y l|l l' l'' _ IH1 _ IH2]; [done|cbn; destruct (f x); [by constructor|done]| |by etrans].
  cbn. destruct (f x), (f y); try done. apply Permutation_swap.
Qed.

Lemma filter_one {A B} (f : A -> B) (P : B -> Prop) `{forall x, Decision (P x)} (l : list A) a :
  NoDup l -> a ∈ l -> (forall x, x ∈ l -> P (f x) <-> x = a) -> filter P (f <$> l) = [f a].
Proof.
  intros Hn Ha HP. induction l as [|x l IH]; [by apply not_elem_of_nil in Ha|]. apply NoDup_cons in Hn as [Hx Hn].
  rewrite fmap_cons, filter_cons. assert (HPx := HP x ltac:(by left)). case_decide as Hd.
  - apply HPx in Hd as ->. f_equal. clear -HP Hx. assert (Hl : forall y, y ∈ l -> ~ P (f y)).
    { intros y Hy Hp. apply HP in Hp; [subst y; done|by right]. }
    clear HP Hx. induction l as [|y l IH]; [done|]. rewrite fmap_cons, filter_cons, decide_False by (apply Hl; by left). apply IH. intros z Hz. apply Hl. by right.
  - apply elem_of_cons in Ha as [->|Ha]; [by destruct Hd; apply HPx|]. apply IH; [done|done|]. intros y Hy. apply HP. by right.
Qed.

Lemma filter_none {A B} (f : A -> B) (P : B -> Prop) `{forall x, Decision (P x)} (l : list A) :
  (forall x, x ∈ l -> ~ P (f x)) -> filter P (f <$> l) = [].
Proof.
  induction l as [|x l IH]; intros HP; [done|]. rewrite fmap_cons, filter_cons, decide_False by (apply HP; by left).
  apply IH. intros y Hy. apply HP. by right.
Qed.

(** ** Agents *)

Lemma newAgent_spec {D} (d0 : D) (m m' : AgentManager D Z) k mgr c o : am_newAgent d0 m k mgr c = (o, m') ->
  (o = None /\ m' = m) \/
  (exists p, o = Some p /\ key2agents_ m !! k = None /\ (forall q, is_Some (am_objs m !! q) -> q <> p) /\
     m' = mkAM (<[p := ag_setState AGENT_STATE_VERIFIED (ag_init c mgr (Agent_new d0))]> (am_objs m)) (<[k := p]> (key2agents_ m))
            (insert_new c k (id2keys_ m)) (insert_new k c (key2ids_ m))).
Proof.
  unfold am_newAgent. destruct (key2agents_ m !! k) eqn:E; intros [= <- <-]; [by left|]. right. eexists. split; [done|]. split; [done|]. split; [|done].
  intros q [a Ha]. apply fresh_ptr_gt in Ha. lia.
Qed.

Section props.
Variable MGR : Z.
Context `{ServerMessages}.
#[local] Instance config_calls : AgentCalls ConfigServer := cs_calls MGR.

(** The packet of the config server that tells a gate server of login servers. *)
Inductive tells (p : Packet) : list MsgLoginInfoData -> Prop :=
| tells_response l : pk_msgid p = MSGID_CS2GT_CONNECT_CONFIG_RESPONSE -> pk_data p = Serialize (mkGateConfigResponse l) -> tells p l
| tells_notify d : pk_msgid p = MSGID_CS2GT_NEW_LOGIN_NOTIFY -> pk_data p = Serialize (mkNewLoginNotify d) -> tells p [d].

(** What the gate server uses of an entry: it reads the address as a C string and the port as an [unsigned short].  The
    list has the address whole, the notification cut at a NUL byte. *)
Definition told_info (d : MsgLoginInfoData) : MsgLoginInfoData :=
  mkLoginInfoData (c_str (li_login_ip d)) (u16 (li_login_port d)) (li_login_id d).

Lemma c_str_twice l : c_str (c_str l) = c_str l.
Proof using. apply c_str_id, c_str_no_zero. Qed.

Definition login_info (s : ConfigServer) (c : Z) : option MsgLoginInfoData :=
  p ← am_getAgentByConnId (cs_login_mgr s) c;
  a ← am_objs (cs_login_mgr s) !! p;
  Some (mkLoginInfoData (la_ip (ag_data a)) (la_port (ag_data a)) (la_id (ag_data a))).

(** The login servers that are connected. *)
Definition connected_logins (s : ConfigServer) : list MsgLoginInfoData := omap (login_info s) (elements (login_conn_id_set_ s)).

(** A registered connection: its entry, and the connection is up. *)
Record registered_conn (s : ConfigServer) (c id : Z) : Prop := mkRegistered {
  rc_entry : conn2agent_map_ s !! c = Some id;
  rc_id : id <> 0;
  rc_up : nt_conns (cs_net s) !! (MGR, c) = Some JMY_CONN_STATE_CONNECTED;
}.

(** An agent that can be sent to. *)
Definition ready_agent {D} (m : AgentManager D Z) (k c : Z) : Prop :=
  exists p a, key2agents_ m !! k = Some p /\ am_objs m !! p = Some a /\ ag_conn_id a = c /\ ag_mgr a = MGR /\ ag_state a = AGENT_STATE_VERIFIED.

Record cs_wf (s : ConfigServer) : Prop := mkCsWf {
  cw_gate : forall c, c ∈ gate_conn_id_set_ s -> exists g, registered_conn s c g /\ ready_agent (cs_gate_mgr s) g c;
  cw_login : forall c, c ∈ login_conn_id_set_ s -> exists l, registered_conn s c l /\ ready_agent (cs_login_mgr s) l c /\ id2keys_ (cs_login_mgr s) !! c = Some l;
  cw_keys : forall c l, id2keys_ (cs_login_mgr s) !! c = Some l -> c ∈ login_conn_id_set_ s;
  cw_login_objs : forall k p, key2agents_ (cs_login_mgr s) !! k = Some p -> is_Some (am_objs (cs_login_mgr s) !! p);
  cw_gate_objs : forall k p, key2agents_ (cs_gate_mgr s) !! k = Some p -> is_Some (am_objs (cs_gate_mgr s) !! p);
  cw_disj : gate_conn_id_set_ s ## login_conn_id_set_ s;
  cw_sent : forall p, p ∈ nt_sent (cs_net s) -> pk_mgr p = MGR /\ (pk_conn p ∈ gate_conn_id_set_ s \/ pk_conn p ∈ login_conn_id_set_ s);
  cw_told : forall c, c ∈ gate_conn_id_set_ s -> exists ls, Forall2 tells (link_packets MGR c (cs_net s)) ls /\
    told_info <$> concat ls ≡ₚ told_info <$> connected_logins s;
}.

Lemma new_wf gates : cs_wf (ConfigServer_new gates).
Proof using.
  constructor; cbn; try set_solver; try (by intros ? ?; rewrite lookup_empty).
Qed.

(** ** Sending *)

Lemma sendMsg_sent {D} (a : Agent D) m data len r s s' :
  ag_mgr a = MGR -> ag_state a = AGENT_STATE_VERIFIED -> nt_conns (cs_net s) !! (MGR, ag_conn_id a) = Some JMY_CONN_STATE_CONNECTED ->
  ag_sendMsg a m data len s = Some (r, s') ->
  r = 0 /\ exists d, mem_read data 0 (u32 len) = Some d /\
    s' = cs_set_net (mkNet (nt_conns (cs_net s)) (nt_sent (cs_net s) ++ [mkPacket MGR (ag_conn_id a) None m d]) (nt_last (cs_net s))) s.
Proof using.
  intros Hm Hv Hup. unfold ag_sendMsg. rewrite Hv, decide_False by (intros Hx; by apply Hx). cbn [ac_get config_calls cs_calls net_calls]. rewrite Hm, Hup.
  cbn [is_present negb ac_send config_calls cs_calls net_calls]. unfold nt_send. rewrite Hup. cbv beta iota zeta delta [mbind option_bind].
  rewrite decide_True by done. unfold ub_unless. destruct (u32 len <=? NET_MAX_DATA); [|done].
  destruct (mem_read data 0 (u32 len)) as [d|]; [|done]. intros [= <- <-]. split; [|by exists d].
  pose proof (u32_range len) as Hr. unfold is_u32 in Hr. by rewrite (proj2 (Z.ltb_ge _ _)) by lia.
Qed.

Lemma broadcast_sent conns m data len r s s' :
  (forall c, c ∈ conns -> exists g, registered_conn s c g /\ ready_agent (cs_gate_mgr s) g c) ->
  broadcast_to MGR conns m data len s = Some (r, s') ->
  r = 0 /\ exists d, (conns <> [] -> mem_read data 0 (u32 len) = Some d) /\
    s' = cs_set_net (mkNet (nt_conns (cs_net s)) (nt_sent (cs_net s) ++ ((fun c => mkPacket MGR c None m d) <$> conns)) (nt_last (cs_net s))) s.
Proof using.
  revert s. induction conns as [|c conns IH]; intros s Hc E.
  - injection E as <- <-. split; [done|]. exists []. split; [done|]. cbn. rewrite app_nil_r. by destruct s as [[] ? ? ? ? ? ?].
  - destruct (Hc c ltac:(by left)) as (g & [Hg1 Hg2 Hg3] & (p & a & Hp & Ha & Hac & Ham & Hav)). cbn [broadcast_to] in E.
    unfold am_getAgent in E. rewrite Hg1, Hp in E. cbv beta iota in E. rewrite Ha in E. cbn [mbind option_bind] in E.
    apply bind_Some in E as ([r1 s1] & E1 & E). rewrite <- Hac in Hg3. apply (sendMsg_sent a) in E1 as (-> & d & Hd & ->); [|done..]. cbn in E.
    apply IH in E as (-> & d' & Hd' & ->); [|intros c' Hc'; destruct (Hc c' ltac:(by right)) as (g' & [? ? ?] & Hr); by exists g'].
    split; [done|]. exists d. split; [done|]. cbn [cs_set_net cs_net nt_conns nt_sent nt_last]. rewrite <- app_assoc, Hac. cbn [app fmap list_fmap].
    destruct conns as [|c' conns]; [done|]. assert (d' = d) as -> by (rewrite Hd' in Hd by done; by injection Hd). done.
Qed.

(** ** Losing connections *)

Lemma registered_wf s n' conns' :
  cs_wf s -> nt_sent n' = nt_sent (cs_net s) ->
  (forall c id, c ∈ gate_conn_id_set_ s \/ c ∈ login_conn_id_set_ s -> registered_conn s c id -> registered_conn (cs_set_conns conns' (cs_set_net n' s)) c id) ->
  cs_wf (cs_set_conns conns' (cs_set_net n' s)).
Proof using.
  intros [W1 W2 W3 W4 W5 W6 W7 W8] Hs Hr.
  constructor; cbn [cs_set_conns cs_set_net gate_conn_id_set_ login_conn_id_set_ cs_gate_mgr cs_login_mgr cs_net]; try done.
  - intros c Hin. destruct (W1 c Hin) as (g & R & A). exists g. split; [by apply Hr; [left|]|done].
  - intros c Hin. destruct (W2 c Hin) as (g & R & A & I). exists g. split; [by apply Hr; [right|]|done].
  - by rewrite Hs.
  - intros c Hin. unfold link_packets. rewrite Hs. by apply W8.
Qed.

Lemma set_conns_wf s c n' :
  cs_wf s -> c ∉ gate_conn_id_set_ s -> c ∉ login_conn_id_set_ s ->
  nt_sent n' = nt_sent (cs_net s) -> (forall c', c' <> c -> nt_conns n' !! (MGR, c') = nt_conns (cs_net s) !! (MGR, c')) ->
  forall conns', (forall c', c' <> c -> conns' !! c' = conn2agent_map_ s !! c') -> cs_wf (cs_set_conns conns' (cs_set_net n' s)).
Proof using.
  intros Hw Hg Hl Hs Hn conns' Hc'. apply registered_wf; [done..|]. intros c' id Hin [R1 R2 R3].
  assert (c' <> c) by (intros ->; tauto). constructor; cbn; [by rewrite Hc'|done|by rewrite Hn].
Qed.

Lemma force_close_wf c s s' : cs_wf s -> ac_force_close MGR c s = Some s' -> cs_wf s'.
Proof using.
  intros Hw E. cbn [ac_force_close config_calls cs_calls net_calls] in E. apply bind_Some in E as ([raised n] & En & E).
  unfold nt_force_close in En. apply bind_Some in En as (st & Hst & [= En]). case_decide as Hd; injection En as <- <-; [injection E as <-; by destruct s|].
  unfold cs_on_disconnect in E. rewrite Z.eqb_refl in E. unfold cs_onDisconnect in E. cbn [cs_set_net conn2agent_map_] in E.
  assert (Hne : forall c', c' <> c -> nt_conns (nt_set MGR c JMY_CONN_STATE_DISCONNECTED (cs_net s)) !! (MGR, c') = nt_conns (cs_net s) !! (MGR, c')).
  { intros c' Hc. cbn. rewrite lookup_insert_ne; [done|]. congruence. }
  destruct (conn2agent_map_ s !! c) as [id|] eqn:Hc.
  - cbn [cs_set_conns cs_set_net login_conn_id_set_ gate_conn_id_set_ conn2agent_map_] in E.
    case_decide as Hl; [by rewrite lookup_delete_eq in E|]. case_decide as Hg; [by rewrite lookup_delete_eq in E|]. injection E as <-.
    apply (set_conns_wf s c); [done..|]. intros c' Hc'. by rewrite lookup_delete_ne.
  - injection E as <-. assert (Hw' : cs_wf (cs_set_conns (conn2agent_map_ s) (cs_set_net (nt_set MGR c JMY_CONN_STATE_DISCONNECTED (cs_net s)) s))); [|by destruct s].
    apply (set_conns_wf s c); try done.
    + intros Hin. destruct (cw_gate _ Hw c Hin) as (g & [R _ _] & _). congruence.
    + intros Hin. destruct (cw_login _ Hw c Hin) as (g & [R _ _] & _). congruence.
Qed.

(** A registered connection cannot be lost: its entry is read after it was erased. *)
Lemma force_close_registered c id s : registered_conn s c id -> c ∈ gate_conn_id_set_ s \/ c ∈ login_conn_id_set_ s -> ac_force_close MGR c s = None.
Proof using.
  intros [R1 R2 R3] Hc. cbn [ac_force_close config_calls cs_calls net_calls]. unfold nt_force_close. rewrite R3. cbn [mbind option_bind].
  rewrite decide_False by done. unfold cs_on_disconnect. rewrite Z.eqb_refl. unfold cs_onDisconnect. cbn [cs_set_net conn2agent_map_].
  rewrite R1. cbn [cs_set_conns cs_set_net login_conn_id_set_ gate_conn_id_set_ conn2agent_map_].
  case_decide; [by rewrite lookup_delete_eq|]. rewrite decide_True by tauto. by rewrite lookup_delete_eq.
Qed.

Lemma ready_agent_insert {D} (m : AgentManager D Z) k c k' p a i2k k2i :
  key2agents_ m !! k' = None -> (forall q, is_Some (am_objs m !! q) -> q <> p) -> ready_agent m k c ->
  ready_agent (mkAM (<[p := a]> (am_objs m)) (<[k' := p]> (key2agents_ m)) i2k k2i) k c.
Proof using.
  intros Hk Hp (q & b & H1 & H2 & H3 & H4 & H5). exists q, b. cbn. rewrite !lookup_insert_ne; [done|apply not_eq_sym, Hp; by eexists|congruence].
Qed.

Lemma objs_insert {D} (m : AgentManager D Z) k' p a :
  (forall k q, key2agents_ m !! k = Some q -> is_Some (am_objs m !! q)) ->
  forall k q, <[k' := p]> (key2agents_ m) !! k = Some q -> is_Some (<[p := a]> (am_objs m) !! q).
Proof using.
  intros Hm k q. destruct (decide (q = p)) as [->|Hne]; [by rewrite lookup_insert_eq; eexists|].
  intros [[_ <-]|[_ Hq]]%lookup_insert_Some; [done|]. rewrite lookup_insert_ne by done. by eapply Hm.
Qed.

(** ** A gate server registers *)

Definition with_gate (c g : Z) (a : Agent GateAgentData) (p : ptr) (s : ConfigServer) : ConfigServer :=
  let m := cs_gate_mgr s in
  mkCS (cs_net s) (cs_login_mgr s)
    (mkAM (<[p := a]> (am_objs m)) (<[g := p]> (key2agents_ m)) (insert_new c g (id2keys_ m)) (insert_new g c (key2ids_ m)))
    (<[c := g]> (conn2agent_map_ s)) (login_conn_id_set_ s) ({[c]} ∪ gate_conn_id_set_ s) (cs_gates s).

Definition with_packet (c m : Z) (d : bytes) (s : ConfigServer) : ConfigServer :=
  cs_set_net (mkNet (nt_conns (cs_net s)) (nt_sent (cs_net s) ++ [mkPacket MGR c None m d]) (nt_last (cs_net s))) s.

Lemma link_packets_app c n l : link_packets MGR c (mkNet (nt_conns n) (nt_sent n ++ l) (nt_last n)) =
  link_packets MGR c n ++ filter (fun p => pk_mgr p = MGR /\ pk_conn p = c) l.
Proof using. unfold link_packets. cbn. by rewrite filter_app. Qed.

Lemma link_packets_none s c : cs_wf s -> c ∉ gate_conn_id_set_ s -> c ∉ login_conn_id_set_ s -> link_packets MGR c (cs_net s) = [].
Proof using.
  intros Hw Hg Hl. unfold link_packets. assert (Hall : forall p, p ∈ nt_sent (cs_net s) -> pk_conn p <> c).
  { intros p Hp <-. by destruct (cw_sent _ Hw p Hp) as [_ [?|?]]. }
  induction (nt_sent (cs_net s)) as [|p l IH]; [done|]. rewrite filter_cons, decide_False by (intros [_ Hc]; by eapply (Hall p); [left|]).
  apply IH. intros q Hq. apply Hall. by right.
Qed.

Lemma login_infos_spec conns s l : (forall c, c ∈ conns -> exists k, ready_agent (cs_login_mgr s) k c /\ id2keys_ (cs_login_mgr s) !! c = Some k) ->
  login_infos conns s = Some l -> l = omap (login_info s) conns.
Proof using.
  revert l. induction conns as [|c conns IH]; intros l Hc E; [by injection E as <-|]. cbn [login_infos] in E. cbn [omap list_omap].
  destruct (Hc c ltac:(by left)) as (k & (p & a & Hp & Ha & _) & Hk). unfold login_info at 1. unfold am_getAgentByConnId, am_getAgent in *.
  rewrite Hk in *. cbn [mbind option_bind] in *. rewrite Hp in *. cbn [mbind option_bind] in *. rewrite Ha in *. cbn [mbind option_bind] in *.
  apply bind_Some in E as (l' & E & [= <-]). f_equal. apply IH; [|done]. intros c' Hc'. apply Hc. by right.
Qed.

Lemma with_gate_wf s c g a p :
  cs_wf s -> conn2agent_map_ s !! c = Some 0 -> g <> 0 -> nt_conns (cs_net s) !! (MGR, c) = Some JMY_CONN_STATE_CONNECTED ->
  key2agents_ (cs_gate_mgr s) !! g = None -> (forall q, is_Some (am_objs (cs_gate_mgr s) !! q) -> q <> p) ->
  ag_conn_id a = c -> ag_mgr a = MGR -> ag_state a = AGENT_STATE_VERIFIED ->
  registered_conn (with_gate c g a p s) c g /\
  cs_wf (with_packet c MSGID_CS2GT_CONNECT_CONFIG_RESPONSE
    (Serialize (mkGateConfigResponse (omap (login_info s) (int_set_list (login_conn_id_set_ s))))) (with_gate c g a p s)).
Proof using.
  intros Hw Hc Hg Hup Hk Hp Ha1 Ha2 Ha3. pose proof Hw as [W1 W2 W3 W4 W5 W6 W7 W8].
  assert (Hng : c ∉ gate_conn_id_set_ s) by (intros Hin; destruct (W1 c Hin) as (g' & [R1 R2 _] & _); congruence).
  assert (Hnl : c ∉ login_conn_id_set_ s) by (intros Hin; destruct (W2 c Hin) as (g' & [R1 R2 _] & _); congruence).
  assert (Hr : forall c' id, c' <> c -> registered_conn s c' id -> forall m d, registered_conn (with_packet c m d (with_gate c g a p s)) c' id).
  { intros c' id Hne [R1 R2 R3] m d. constructor; cbn; [by rewrite lookup_insert_ne|done|done]. }
  split; [constructor; cbn; [by rewrite lookup_insert_eq|done|done]|].
  constructor; cbn [with_packet with_gate cs_set_net gate_conn_id_set_ login_conn_id_set_ cs_gate_mgr cs_login_mgr cs_net nt_sent key2agents_ am_objs].
  - intros c' [Hin%elem_of_singleton|Hin]%elem_of_union; [subst c'|].
    + exists g. split; [constructor; cbn; [by rewrite lookup_insert_eq|done|done]|]. exists p, a. cbn. by rewrite !lookup_insert_eq.
    + destruct (W1 c' Hin) as (g' & R & A). exists g'. split; [apply Hr; [by intros ->|done]|by apply ready_agent_insert].
  - intros c' Hin. destruct (W2 c' Hin) as (l & R & A & I). exists l. split; [apply Hr; [by intros ->|done]|done].
  - done.
  - done.
  - by apply objs_insert.
  - set_solver.
  - intros q [Hq|Hq%list_elem_of_singleton]%elem_of_app; [destruct (W7 q Hq); set_solver|subst q; cbn; set_solver].
  - intros c' Hin. rewrite link_packets_app. cbn [with_gate cs_net]. destruct (decide (c' = c)) as [->|Hne].
    + rewrite (link_packets_none s c Hw Hng Hnl), filter_cons, decide_True by done. exists [omap (login_info s) (int_set_list (login_conn_id_set_ s))].
      split; [constructor; [by constructor|constructor]|]. cbn [concat]. rewrite app_nil_r. apply Permutation_map, omap_perm, int_set_list_perm.
    + rewrite filter_cons, decide_False, app_nil_r by (cbn; intros [_ ?]; congruence). apply W8. set_solver.
Qed.

(** ** A login server registers *)

Definition with_login (c l : Z) (a : Agent LoginAgentData) (p : ptr) (s : ConfigServer) : ConfigServer :=
  let m := cs_login_mgr s in
  mkCS (cs_net s)
    (mkAM (<[p := a]> (am_objs m)) (<[l := p]> (key2agents_ m)) (insert_new c l (id2keys_ m)) (insert_new l c (key2ids_ m)))
    (cs_gate_mgr s) (<[c := l]> (conn2agent_map_ s)) ({[c]} ∪ login_conn_id_set_ s) (gate_conn_id_set_ s) (cs_gates s).

Definition with_broadcast (m : Z) (d : bytes) (s : ConfigServer) : ConfigServer :=
  cs_set_net (mkNet (nt_conns (cs_net s))
    (nt_sent (cs_net s) ++ ((fun c => mkPacket MGR c None m d) <$> int_set_list (gate_conn_id_set_ s))) (nt_last (cs_net s))) s.

Lemma login_info_other s c l a p c' :
  cs_wf s -> c ∉ login_conn_id_set_ s -> key2agents_ (cs_login_mgr s) !! l = None ->
  (forall q, is_Some (am_objs (cs_login_mgr s) !! q) -> q <> p) -> c' ∈ login_conn_id_set_ s ->
  login_info (with_login c l a p s) c' = login_info s c'.
Proof using.
  intros Hw Hnl Hk Hp Hin. destruct (cw_login _ Hw c' Hin) as (l' & _ & (q & b & Hq & Hb & _) & Hi).
  assert (c' <> c) by (by intros ->). assert (l' <> l) by congruence. assert (q <> p) by (apply Hp; by eexists).
  unfold login_info, am_getAgentByConnId, am_getAgent. cbn [with_login cs_login_mgr id2keys_ key2agents_ am_objs].
  assert (Hi' : insert_new c l (id2keys_ (cs_login_mgr s)) !! c' = Some l').
  { unfold insert_new. destruct (id2keys_ (cs_login_mgr s) !! c); [done|]. by rewrite lookup_insert_ne. }
  rewrite Hi', Hi. cbn [mbind option_bind]. rewrite lookup_insert_ne, Hq by done. cbn [mbind option_bind]. by rewrite lookup_insert_ne.
Qed.

Lemma connected_logins_with s c l a p :
  cs_wf s -> c ∉ login_conn_id_set_ s -> key2agents_ (cs_login_mgr s) !! l = None ->
  (forall q, is_Some (am_objs (cs_login_mgr s) !! q) -> q <> p) ->
  connected_logins (with_login c l a p s) ≡ₚ
    mkLoginInfoData (la_ip (ag_data a)) (la_port (ag_data a)) (la_id (ag_data a)) :: connected_logins s.
Proof using.
  intros Hw Hnl Hk Hp. unfold connected_logins. cbn [with_login login_conn_id_set_].
  rewrite (omap_perm _ _ _ (elements_union_singleton (login_conn_id_set_ s) c Hnl)). cbn [omap list_omap].
  assert (Hkey : id2keys_ (cs_login_mgr s) !! c = None) by (apply eq_None_not_Some; intros [k Hx]; by apply (cw_keys _ Hw) in Hx).
  assert (Hinfo : login_info (with_login c l a p s) c = Some (mkLoginInfoData (la_ip (ag_data a)) (la_port (ag_data a)) (la_id (ag_data a)))).
  { unfold login_info, am_getAgentByConnId, am_getAgent. cbn [with_login cs_login_mgr id2keys_ key2agents_ am_objs]. unfold insert_new.
    rewrite Hkey, lookup_insert_eq. cbn [mbind option_bind]. rewrite lookup_insert_eq. cbn [mbind option_bind]. by rewrite lookup_insert_eq. }
  rewrite Hinfo. constructor. assert (Hall : forall c', c' ∈ elements (login_conn_id_set_ s) -> login_info (with_login c l a p s) c' = login_info s c').
  { intros c' Hc'. apply elem_of_elements in Hc'. by apply login_info_other. }
  clear -Hall. induction (elements (login_conn_id_set_ s)) as [|x xs IH]; [done|]. cbn [omap list_omap]. rewrite Hall by (by left).
  destruct (login_info s x); [constructor|]; apply IH; intros c' Hc'; apply Hall; by right.
Qed.

Lemma with_login_wf s c l a p d0 info :
  cs_wf s -> conn2agent_map_ s !! c = Some 0 -> l <> 0 -> nt_conns (cs_net s) !! (MGR, c) = Some JMY_CONN_STATE_CONNECTED ->
  key2agents_ (cs_login_mgr s) !! l = None -> (forall q, is_Some (am_objs (cs_login_mgr s) !! q) -> q <> p) ->
  ag_conn_id a = c -> ag_mgr a = MGR -> ag_state a = AGENT_STATE_VERIFIED ->
  told_info info = told_info (mkLoginInfoData (la_ip (ag_data a)) (la_port (ag_data a)) (la_id (ag_data a))) ->
  registered_conn (with_login c l a p s) c l /\
  (forall c', c' ∈ gate_conn_id_set_ s -> exists g, registered_conn (with_login c l a p s) c' g /\ ready_agent (cs_gate_mgr s) g c') /\
  cs_wf (with_broadcast MSGID_CS2GT_NEW_LOGIN_NOTIFY (Serialize (mkNewLoginNotify info))
    (with_packet c MSGID_CS2LS_CONNECT_CONFIG_RESPONSE d0 (with_login c l a p s))).
Proof using.
  intros Hw Hc Hl Hup Hk Hp Ha1 Ha2 Ha3 Hinfo. pose proof Hw as [W1 W2 W3 W4 W5 W6 W7 W8].
  assert (Hng : c ∉ gate_conn_id_set_ s) by (intros Hin; destruct (W1 c Hin) as (g' & [R1 R2 _] & _); congruence).
  assert (Hnl : c ∉ login_conn_id_set_ s) by (intros Hin; destruct (W2 c Hin) as (g' & [R1 R2 _] & _); congruence).
  assert (Hkey : id2keys_ (cs_login_mgr s) !! c = None) by (apply eq_None_not_Some; intros [k Hx]; by apply W3 in Hx).
  assert (Hr : forall c' id, c' <> c -> registered_conn s c' id -> registered_conn (with_login c l a p s) c' id).
  { intros c' id Hne [R1 R2 R3]. constructor; cbn; [by rewrite lookup_insert_ne|done|done]. }
  assert (Hgates : forall c', c' ∈ gate_conn_id_set_ s -> exists g, registered_conn (with_login c l a p s) c' g /\ ready_agent (cs_gate_mgr s) g c').
  { intros c' Hin. destruct (W1 c' Hin) as (g & R & A). exists g. split; [|done]. apply Hr; [by intros ->|done]. }
  split; [constructor; cbn; [by rewrite lookup_insert_eq|done|done]|]. split; [exact Hgates|].
  constructor; cbn [with_broadcast with_packet with_login cs_set_net gate_conn_id_set_ login_conn_id_set_ cs_gate_mgr cs_login_mgr cs_net nt_sent key2agents_ am_objs id2keys_].
  - intros c' Hin. destruct (Hgates c' Hin) as (g & [R1 R2 R3] & A). exists g. split; [by constructor|done].
  - intros c' [Hin%elem_of_singleton|Hin]%elem_of_union; [subst c'|].
    + exists l. split; [constructor; cbn; [by rewrite lookup_insert_eq|done|done]|]. split; [exists p, a; cbn; by rewrite !lookup_insert_eq|].
      unfold insert_new. by rewrite Hkey, lookup_insert_eq.
    + destruct (W2 c' Hin) as (l' & R & A & I). assert (c' <> c) by (by intros ->). exists l'.
      destruct (Hr c' l' ltac:(done) R) as [R1 R2 R3]. split; [by constructor|]. split; [by apply ready_agent_insert|].
      unfold insert_new. rewrite Hkey. by rewrite lookup_insert_ne.
  - intros c' l'. unfold insert_new. rewrite Hkey. intros [[<- _]|[_ Hx]]%lookup_insert_Some; [set_solver|apply W3 in Hx; set_solver].
  - by apply objs_insert.
  - done.
  - set_solver.
  - intros q [[Hq|Hq%list_elem_of_singleton]%elem_of_app|Hq]%elem_of_app; [destruct (W7 q Hq); set_solver|subst q; cbn; set_solver|].
    apply list_elem_of_fmap in Hq as (c' & -> & Hc'). cbn in *. apply int_set_list_elem in Hc'. by split; [|left].
  - intros c' Hin. destruct (W8 c' Hin) as (ls & Hls & Hperm). exists (ls ++ [[info]]). split.
    + unfold link_packets in *. cbn [nt_sent]. rewrite !filter_app, filter_cons, decide_False by (cbn; intros [_ ?]; subst c'; done).
      rewrite filter_nil, app_nil_r.
      rewrite (filter_one _ _ _ c'); [|apply int_set_list_nodup|by apply int_set_list_elem|cbn; tauto].
      apply Forall2_app; [done|]. constructor; [by apply tells_notify|constructor].
    + rewrite concat_app, fmap_app, Hperm. cbn [concat app fmap list_fmap]. rewrite Hinfo.
      change (connected_logins (with_broadcast _ _ _)) with (connected_logins (with_login c l a p s)).
      rewrite (connected_logins_with s c l a p Hw Hnl Hk Hp). cbn [fmap list_fmap]. by rewrite Permutation_app_comm.
Qed.
End props.

(** ** Every step *)

Section steps.
Variable MGR : Z.
Variable partial_gate_id : bytes -> Z.
Variable tmp : bytes.
Context `{ServerMessages}.
#[local] Instance step_calls : AgentCalls ConfigServer := cs_calls MGR.

(** The outcome of a handler: the state is well formed, or the connection registered and will be lost. *)
Definition handler_outcome (c r : Z) (s : ConfigServer) : Prop :=
  cs_wf MGR s \/ (r < 0 /\ exists id, registered_conn MGR s c id /\ (c ∈ gate_conn_id_set_ s \/ c ∈ login_conn_id_set_ s)).

Lemma check_conn_ok c s : (check_conn c s <? 0) = false -> conn2agent_map_ s !! c = Some 0.
Proof using.
  unfold check_conn. destruct (conn2agent_map_ s !! c) as [id|]; [|done]. destruct (id =? 0) eqn:E; [|done]. apply Z.eqb_eq in E as ->. done.
Qed.

Lemma serialized_u32 {M} `{Message M} (m : M) tmp' : SerializeToArray m tmp = Some tmp' -> mem_read tmp' 0 (u32 (ByteSize m)) = Some (Serialize m).
Proof using.
  intros E. rewrite u32_id; [by eapply serialized_read|]. unfold SerializeToArray, SerializeToBuffer, ByteSize, is_u32 in *.
  destruct (JMY_MAX_MSG_SIZE <? lenZ (Serialize m)) eqn:Hl; [done|]. apply Z.ltb_ge in Hl. unfold JMY_MAX_MSG_SIZE in Hl. lia.
Qed.

Lemma gate_mgr_wf s m : cs_wf MGR s ->
  (forall g c, ready_agent MGR (cs_gate_mgr s) g c -> ready_agent MGR m g c) -> (forall k p, key2agents_ m !! k = Some p -> is_Some (am_objs m !! p)) ->
  cs_wf MGR (cs_set_gate m (gate_conn_id_set_ s) s).
Proof using.
  intros [W1 W2 W3 W4 W5 W6 W7 W8] Hr Ho. constructor; try done; intros c Hc.
  - destruct (W1 c Hc) as (g & [R1 R2 R3] & A). exists g. split; [by constructor|by apply Hr].
  - destruct (W2 c Hc) as (l & [R1 R2 R3] & A). exists l. split; [by constructor|done].
Qed.

Lemma gate_connect_outcome c data r s s' :
  cs_wf MGR s -> nt_conns (cs_net s) !! (MGR, c) = Some JMY_CONN_STATE_CONNECTED ->
  (forall q, (ParseFromArray data : option MsgGT2CS_ConnectConfigRequest) = Some q -> gq_gate_id q <> 0) ->
  ((ParseFromArray data : option MsgGT2CS_ConnectConfigRequest) = None -> partial_gate_id data <> 0) ->
  processGateConnect MGR partial_gate_id tmp c data s = Some (r, s') -> handler_outcome c r s'.
Proof using.
  intros Hw Hup Hid1 Hid2. unfold processGateConnect. destruct (check_conn c s <? 0) eqn:Hc; [intros [= _ <-]; by left|]. apply check_conn_ok in Hc.
  set (g := match ParseFromArray data with Some request => gq_gate_id request | None => partial_gate_id data end).
  assert (Hg : g <> 0) by (unfold g; destruct (ParseFromArray data); auto). clearbody g.
  destruct (am_getAgent _ _) eqn:Ha; [intros [= _ <-]; by left|]. destruct (am_newAgent _ _ _ _ _) as [o m] eqn:En.
  apply newAgent_spec in En as [[-> ->]|(p & -> & Hk & Hp & ->)]; [intros [= _ <-]; left; by apply gate_mgr_wf; [..|apply Hw]|].
  destruct (cg_getById g _) as [dp|].
  2: { intros [= _ <-]. left. apply gate_mgr_wf; [done|intros g' c' Hr; by apply ready_agent_insert|apply objs_insert; apply Hw]. }
  intros E. apply bind_Some in E as (d & _ & E). apply bind_Some in E as (a & Hpa & E).
  cbn [cs_set_gate cs_gate_mgr am_objs] in Hpa. rewrite lookup_insert_eq in Hpa. injection Hpa as <-.
  apply bind_Some in E as (infos & Hinfos & E). unfold update_conn in E, Hinfos. cbn [cs_set_gate conn2agent_map_] in E, Hinfos. rewrite Hc in E, Hinfos.
  cbn [cs_set_gate cs_set_conns conn2agent_map_ cs_gate_mgr am_objs key2agents_ id2keys_ key2ids_ cs_net cs_login_mgr login_conn_id_set_ gate_conn_id_set_ cs_gates] in E, Hinfos.
  rewrite insert_insert_eq in E, Hinfos.
  match type of E with context [ag_setData ?x ?y] => set (a := ag_setData x y) in * end.
  assert (Hinf : infos = omap (login_info s) (int_set_list (login_conn_id_set_ s))).
  { apply (login_infos_spec MGR) in Hinfos; [exact Hinfos|]. intros c' Hin. apply int_set_list_elem in Hin.
    destruct (cw_login _ _ Hw c' Hin) as (l & _ & A & I). by exists l. }
  destruct (with_gate_wf MGR s c g a p Hw Hc Hg Hup Hk Hp eq_refl eq_refl eq_refl) as [Hreg Hwf].
  destruct (SerializeToArray _ _) as [tmp'|] eqn:Hser.
  2: { injection E as <- <-. right. split; [lia|]. exists g. split; [exact Hreg|]. left. cbn. set_solver. }
  apply bind_Some in E as ([r1 s1] & E & [= _ <-]). apply (sendMsg_sent MGR a) in E as (_ & d1 & Hd1 & ->); [|done|done|apply Hreg].
  rewrite (serialized_u32 _ _ Hser), Hinf in Hd1. injection Hd1 as <-. left. exact Hwf.
Qed.

Lemma login_connect_outcome c data r s s' :
  cs_wf MGR s -> nt_conns (cs_net s) !! (MGR, c) = Some JMY_CONN_STATE_CONNECTED ->
  (forall q, (ParseFromArray data : option MsgLS2CS_ConnectConfigRequest) = Some q -> lq_login_id q <> 0) ->
  processLoginConnect MGR tmp c data s = Some (r, s') -> handler_outcome c r s'.
Proof using partial_gate_id.
  intros Hw Hup Hid. unfold processLoginConnect. destruct (check_conn c s <? 0) eqn:Hc; [intros [= _ <-]; by left|]. apply check_conn_ok in Hc.
  destruct (ParseFromArray data) as [q|]; [|intros [= _ <-]; by left]. specialize (Hid q eq_refl).
  destruct (am_getAgent _ _) eqn:Ha; [intros [= _ <-]; by left|]. destruct (am_newAgent _ _ _ _ _) as [o m] eqn:En.
  apply newAgent_spec in En as [[-> ->]|(p & -> & Hk & Hp & ->)]; [intros [= _ <-]; left; by destruct s|].
  intros E. apply bind_Some in E as (a & Hpa & E). cbn [cs_set_login cs_login_mgr am_objs] in Hpa. rewrite lookup_insert_eq in Hpa. injection Hpa as <-.
  apply bind_Some in E as (gates & _ & E). unfold update_conn in E. cbn [cs_set_login conn2agent_map_] in E. rewrite Hc in E.
  cbn [cs_set_login cs_set_conns conn2agent_map_ cs_login_mgr am_objs key2agents_ id2keys_ key2ids_ cs_net cs_gate_mgr login_conn_id_set_ gate_conn_id_set_ cs_gates] in E.
  rewrite insert_insert_eq in E.
  match type of E with context [ag_setData ?x ?y] => set (a := ag_setData x y) in * end.
  set (info := mkLoginInfoData (c_str (lq_login_ip q)) (u16 (s16 (lq_login_port q))) (lq_login_id q)).
  assert (Hinfo : told_info info = told_info (mkLoginInfoData (la_ip (ag_data a)) (la_port (ag_data a)) (la_id (ag_data a)))).
  { unfold told_info, info, a. cbn. by rewrite c_str_twice, (u16_id _ (u16_range _)). }
  match type of E with context [SerializeToArray ?x _] => set (resp := x) in * end.
  destruct (with_login_wf MGR s c (lq_login_id q) a p (Serialize resp) info Hw Hc Hid Hup Hk Hp eq_refl eq_refl eq_refl Hinfo) as (Hreg & Hgates & Hwf).
  destruct (SerializeToArray resp _) as [tmp'|] eqn:Hser.
  2: { injection E as <- <-. right. split; [lia|]. exists (lq_login_id q). split; [exact Hreg|]. right. cbn. set_solver. }
  apply bind_Some in E as ([r1 s1] & E1 & E). apply (sendMsg_sent MGR a) in E1 as (-> & d1 & Hd1 & ->); [|done|done|apply Hreg].
  rewrite (serialized_u32 _ _ Hser) in Hd1. injection Hd1 as <-. cbn [Z.ltb Z.compare] in E. apply bind_Some in E as ([r2 s2] & E2 & [= <- <-]).
  unfold broadcast_new_login_to_gate in E2. destruct (SerializeToArray (mkNewLoginNotify _) _) as [tmp2|] eqn:Hser2.
  2: { injection E2 as <- <-. right. split; [cbn; lia|]. exists (lq_login_id q). split; [destruct Hreg; by constructor|]. right. cbn. set_solver. }
  unfold broadcast_msg_to_gate in E2. apply (broadcast_sent MGR) in E2 as (-> & d2 & Hd2 & ->).
  2: { intros c' Hin. apply int_set_list_elem in Hin. destruct (Hgates c' Hin) as (g & [R1 R2 R3] & A). exists g. split; [by constructor|done]. }
  left. set (S1 := with_packet MGR c MSGID_CS2LS_CONNECT_CONFIG_RESPONSE (Serialize resp) (with_login c (lq_login_id q) a p s)) in *.
  change (cs_wf MGR (with_broadcast MGR MSGID_CS2GT_NEW_LOGIN_NOTIFY d2 S1)). change (int_set_list (gate_conn_id_set_ s) <> [] -> mem_read tmp2 0 (u32 (ByteSize (mkNewLoginNotify info))) = Some d2) in Hd2.
  change (SerializeToArray (mkNewLoginNotify info) tmp = Some tmp2) in Hser2. rewrite (serialized_u32 _ _ Hser2) in Hd2.
  unfold with_broadcast in *. change (gate_conn_id_set_ S1) with (gate_conn_id_set_ s) in *.
  destruct (int_set_list (gate_conn_id_set_ s)) as [|x xs]; [exact Hwf|]. specialize (Hd2 ltac:(done)). injection Hd2 as <-. exact Hwf.
Qed.

(** Servers have ids that are not 0. *)
Definition op_ids_ok (o : cs_op) : Prop :=
  match o with
  | cs_op_msg _ msg_id data =>
    (msg_id = MSGID_LS2CS_CONNECT_CONFIG_REQUEST -> forall q, (ParseFromArray data : option MsgLS2CS_ConnectConfigRequest) = Some q -> lq_login_id q <> 0) /\
    (msg_id = MSGID_GT2CS_CONNECT_CONFIG_REQUEST ->
       (forall q, (ParseFromArray data : option MsgGT2CS_ConnectConfigRequest) = Some q -> gq_gate_id q <> 0) /\
       ((ParseFromArray data : option MsgGT2CS_ConnectConfigRequest) = None -> partial_gate_id data <> 0))
  | _ => True
  end.

Lemma outcome_handled c r s s' : handler_outcome c r s -> (if r <? 0 then ac_force_close MGR c s else Some s) = Some s' -> cs_wf MGR s'.
Proof using.
  intros [Hw|(Hr & id & Hreg & Hin)].
  - destruct (r <? 0); [by apply force_close_wf|by intros [= <-]].
  - rewrite (proj2 (Z.ltb_lt _ _)) by done. intros E. exfalso. revert E. change (step_calls) with (config_calls MGR).
    rewrite (force_close_registered MGR c id s Hreg Hin). done.
Qed.

Lemma cs_exec_wf o s s' : cs_wf MGR s -> op_ids_ok o -> cs_exec MGR partial_gate_id tmp o s = Some s' -> cs_wf MGR s'.
Proof using.
  intros Hw Ho E. destruct o as [|c|c|c|c m data]; cbn [cs_exec] in E.
  - injection E as <-. set (c := nt_next MGR (cs_net s)). set (n' := nt_connect MGR (cs_net s)).
    assert (Hup : forall c', nt_conns (cs_net s) !! (MGR, c') = Some JMY_CONN_STATE_CONNECTED -> nt_conns n' !! (MGR, c') = Some JMY_CONN_STATE_CONNECTED).
    { intros c' Hc'. unfold n', nt_connect. cbn. destruct (decide (c' = c)) as [->|Hne]; [by rewrite lookup_insert_eq|].
      rewrite lookup_insert_ne; [done|]. unfold c in Hne. congruence. }
    unfold cs_onConnect. cbn [cs_set_net conn2agent_map_]. destruct (conn2agent_map_ s !! c) as [id|] eqn:Hc.
    + change (cs_set_net n' s) with (cs_set_conns (conn2agent_map_ s) (cs_set_net n' s)). apply registered_wf; [done..|].
      intros c' id' _ [R1 R2 R3]. constructor; cbn; auto.
    + apply registered_wf; [done..|]. intros c' id' _ [R1 R2 R3]. constructor; cbn; auto. rewrite lookup_insert_ne; [done|]. congruence.
  - by eapply force_close_wf.
  - apply bind_Some in E as (n & En & [= <-]). unfold nt_recycle in En. apply bind_Some in En as (st & Hst & En). case_decide as Hd; [|done].
    injection En as <-. subst st. assert (Hw' : cs_wf MGR (cs_set_conns (conn2agent_map_ s)
      (cs_set_net (mkNet (delete (MGR, c) (nt_conns (cs_net s))) (nt_sent (cs_net s)) (nt_last (cs_net s))) s))); [|by destruct s].
    apply (set_conns_wf MGR s c); try done.
    + intros Hin. destruct (cw_gate _ _ Hw c Hin) as (g & [_ _ R] & _). congruence.
    + intros Hin. destruct (cw_login _ _ Hw c Hin) as (g & [_ _ R] & _). congruence.
    + intros c' Hc'. cbn. rewrite lookup_delete_ne; [done|]. congruence.
  - apply bind_Some in E as (n & En & [= <-]). unfold nt_revive in En. apply bind_Some in En as (st & Hst & [= <-]).
    change (cs_set_net ?n s) with (cs_set_conns (conn2agent_map_ s) (cs_set_net n s)). apply registered_wf; [done..|].
    intros c' id' _ [R1 R2 R3]. constructor; cbn; auto. destruct (decide (c' = c)) as [->|Hne]; [by rewrite lookup_insert_eq|].
    rewrite lookup_insert_ne; [done|]. congruence.
  - unfold nt_is_connected in E. destruct (nt_conns (cs_net s) !! (MGR, c)) as [st|] eqn:Hup; [|done]. case_bool_decide as Hst; [|done]. subst st.
    unfold handled in E. apply bind_Some in E as ([r s1] & E1 & E). eapply outcome_handled; [|exact E]. unfold cs_msg in E1. destruct Ho as [Ho1 Ho2].
    destruct (m =? MSGID_LS2CS_CONNECT_CONFIG_REQUEST) eqn:Hm; [apply Z.eqb_eq in Hm; eapply login_connect_outcome; [done|done|by apply Ho1|exact E1]|].
    destruct (m =? MSGID_GT2CS_CONNECT_CONFIG_REQUEST) eqn:Hm2; [apply Z.eqb_eq in Hm2; eapply gate_connect_outcome; [done|done|by apply Ho2|by apply Ho2|exact E1]|].
    injection E1 as _ <-. by left.
Qed.

Lemma config_run_wf gates os s : Forall op_ids_ok os ->
  cs_exec_all MGR partial_gate_id tmp os (ConfigServer_new gates) = Some s -> cs_wf MGR s.
Proof using.
  assert (Hw : cs_wf MGR (ConfigServer_new gates)) by apply new_wf. revert Hw. generalize (ConfigServer_new gates).
  induction os as [|o os IH]; intros s0 Hw Ho E; [by injection E as <-|]. apply Forall_cons in Ho as [Ho Hos]. cbn in E.
  apply bind_Some in E as (s1 & E1 & E2). eapply IH; [|exact Hos|exact E2]. by eapply cs_exec_wf.
Qed.

(** C25. In every run of the config server in which the servers register with ids other than 0, of any order of registrations of
    gate and login servers, a gate server that is connected was told of exactly the login servers that are connected: what was
    sent to it is one list and then one notification for each later login server, and together they hold every login
    server once, with its id and the address and port the gate reads ([told_info]): the address up to a NUL byte, the port as
    16 bits.  Registering with an id of 0 does not take ([id_zero_registers_again]). *)
Theorem gates_know_logins gates os s c :
  Forall op_ids_ok os -> cs_exec_all MGR partial_gate_id tmp os (ConfigServer_new gates) = Some s ->
  c ∈ gate_conn_id_set_ s ->
  exists ls, Forall2 tells (link_packets MGR c (cs_net s)) ls /\
    told_info <$> concat ls ≡ₚ told_info <$> connected_logins s /\ length (connected_logins s) = size (login_conn_id_set_ s).
Proof using.
  intros Ho E Hc. pose proof (config_run_wf _ _ _ Ho E) as Hw. destruct (cw_told _ _ Hw c Hc) as (ls & Hls & Hp). exists ls.
  split; [exact Hls|]. split; [exact Hp|]. unfold connected_logins, size, set_size, compose.
  assert (Hall : forall x, x ∈ elements (login_conn_id_set_ s) -> is_Some (login_info s x)).
  { intros x Hx. apply elem_of_elements in Hx. destruct (cw_login _ _ Hw x Hx) as (l & _ & (p & a & Hp1 & Ha & _) & Hi).
    unfold login_info, am_getAgentByConnId, am_getAgent. rewrite Hi. cbn [mbind option_bind]. rewrite Hp1. cbn [mbind option_bind]. rewrite Ha. by eexists. }
  clear -Hall. induction (elements (login_conn_id_set_ s)) as [|x l IH]; [done|]. cbn [omap list_omap].
  destruct (Hall x ltac:(by left)) as [i ->]. cbn [length]. f_equal. apply IH. intros y Hy. apply Hall. by right.
Qed.
End steps.

(** ** Example

    One gate server is configured; a login server, the gate server and a second login server register. *)

Section example.
#[local] Existing Instance coded_messages.

Definition ex_gates : ConfGateList :=
  default (ConfGateList_new []) (snd <$> cg_load [mkJsonServer (Some [103]) (Some 20001) (Some [50]) (Some 9000) None None] [] []
    (ConfGateList_new (repeat NULL MAX_GATE_SERVER_COUNT))).

Definition ex_config_ops : list cs_op := [
  cs_op_connect; cs_op_msg 1 MSGID_LS2CS_CONNECT_CONFIG_REQUEST (Serialize (mkLoginConfigRequest 10001 [49] 40000));
  cs_op_connect; cs_op_msg 2 MSGID_GT2CS_CONNECT_CONFIG_REQUEST (Serialize (mkGateConfigRequest 20001));
  cs_op_connect; cs_op_msg 3 MSGID_LS2CS_CONNECT_CONFIG_REQUEST (Serialize (mkLoginConfigRequest 10002 [51] 8000))].

Definition ex_config : ConfigServer :=
  default (ConfigServer_new ex_gates) (cs_exec_all 1 (fun _ => 1) [] ex_config_ops (ConfigServer_new ex_gates)).

Lemma ex_config_run : cs_exec_all 1 (fun _ => 1) [] ex_config_ops (ConfigServer_new ex_gates) = Some ex_config.
Proof. vm_compute. reflexivity. Qed.

(** The port 40000 of the first login server is kept as a negative [short], and is told so. *)
Lemma gates_know_logins_witness :
  (exists ls, Forall2 tells (link_packets 1 2 (cs_net ex_config)) ls /\
    told_info <$> concat ls ≡ₚ [mkLoginInfoData [51] 8000 10002; mkLoginInfoData [49] 40000 10001]) /\
  pk_data <$> link_packets 1 2 (cs_net ex_config) =
    [Serialize (mkGateConfigResponse [mkLoginInfoData [49] (-25536) 10001]); Serialize (mkNewLoginNotify (mkLoginInfoData [51] 8000 10002))].
Proof.
  split; [|vm_compute; reflexivity].
  destruct (gates_know_logins 1 (fun _ => 1) [] ex_gates ex_config_ops ex_config 2) as (ls & H1 & H2 & _).
  - repeat constructor; try done; try (intros _ q Hq; vm_compute in Hq; injection Hq as <-; discriminate);
      intros q Hq; vm_compute in Hq; injection Hq as <-; discriminate.
  - exact ex_config_run.
  - vm_compute. reflexivity.
  - exists ls. split; [exact H1|]. etrans; [exact H2|]. vm_compute. reflexivity.
Defined.

(** Registering with an id of 0 does not take: the same connection registers again. *)
Lemma id_zero_registers_again : exists s,
  cs_exec_all 1 (fun _ => 1) [] [cs_op_connect;
    cs_op_msg 1 MSGID_LS2CS_CONNECT_CONFIG_REQUEST (Serialize (mkLoginConfigRequest 0 [49] 1));
    cs_op_msg 1 MSGID_LS2CS_CONNECT_CONFIG_REQUEST (Serialize (mkLoginConfigRequest 10001 [49] 1))] (ConfigServer_new ex_gates) = Some s /\
  am_getAgentSize (cs_login_mgr s) = 2.
Proof. eexists. split; vm_compute; reflexivity. Qed.

(** [reload] loses the list: a login server that registers afterwards is told of no gate server. *)
Lemma reload_loses_list l : gate_list_at (seq 0 (cg_getSize (snd (cg_reload l)))) (snd (cg_reload l)) = Some [].
Proof. reflexivity. Qed.
End example.
