(* ===== verification/Players.v ===== *)
(** * Players and their items ([game_server/player.*], [game_server/item.*])

    Player objects come from a pool and are never returned to the allocator before the end.
    [PlayerManager] finds them by role, and by user id through the array of the roles that are
    online.  Items are counted by type, up to a maximum from the item table. *)
From S2P Require Import Prelude BiMap AppNet.
From Stdlib Require Import ZArith Lia.
From stdpp Require Import base option list gmap.
Local Open Scope Z_scope.

(** ** Items *)

(** An item object; its [unique_id] is not initialised and not read. *)
Record Item : Type := mkItem { it_type_id : Z; it_item_num : Z }.

Section items.
(** The item table is generated from a csv file: the maximal count of an item type. *)
Variable item_table : Z -> option Z.

Definition add_item (type_id item_num : Z) (items : gmap Z Item) : bool * gmap Z Item :=
  match item_table type_id with
  | None => (false, items)
  | Some max_count =>
    match items !! type_id with
    | None =>
      let num := if max_count <? s32 item_num then u32 max_count else item_num in
      (true, <[type_id := mkItem type_id num]> items)
    | Some it =>
      let num := u32 (it_item_num it + item_num) in
      let num := if max_count <? s32 num then u32 max_count else num in
      (true, <[type_id := mkItem (it_type_id it) num]> items)
    end
  end.

Definition rm_item (type_id item_num : Z) (items : gmap Z Item) : bool * gmap Z Item :=
  match items !! type_id with
  | None => (false, items)
  | Some it =>
    if it_item_num it <? item_num then (false, items)
    else (true, <[type_id := mkItem (it_type_id it) (u32 (it_item_num it - item_num))]> items)
  end.
End items.

(** ** Players *)

Record Player : Type := mkPlayer {
  pl_user_id : Z;
  pl_role_id : Z;
  pl_acount : bytes;
  pl_level : Z;
  pl_items : gmap Z Item;
}.

Definition pl_set_ids (user_id role_id : Z) (p : Player) : Player := mkPlayer user_id role_id (pl_acount p) (pl_level p) (pl_items p).
Definition pl_set_level (level : Z) (p : Player) : Player := mkPlayer (pl_user_id p) (pl_role_id p) (pl_acount p) level (pl_items p).
Definition pl_set_items (items : gmap Z Item) (p : Player) : Player := mkPlayer (pl_user_id p) (pl_role_id p) (pl_acount p) (pl_level p) items.

Definition is_online (p : Player) : bool := 0 <? pl_user_id p.

(** ** The pool *)

Definition ONCE_MALLOC_PLAYER_OBJ_COUNT : Z := 1000.

Record PlayerPool : Type := mkPP {
  pp_objs : gmap ptr Player;      (** the objects the pointers point to *)
  pp_free : list ptr;
  pp_used : gset ptr;
}.

Definition PlayerPool_new : PlayerPool := mkPP ∅ [] ∅.

Section players.
(** The constructor does not initialise the level. *)
Variable garbage_level : Z.

Definition Player_new : Player := mkPlayer 0 0 [] garbage_level ∅.

(** The loop allocates the objects one after the other. *)
Definition pp_grow (m : PlayerPool) : PlayerPool :=
  fold_left (fun m p => mkPP (<[p := Player_new]> (pp_objs m)) (pp_free m ++ [p]) (pp_used m))
    (seqZ (fresh_ptr (pp_objs m)) ONCE_MALLOC_PLAYER_OBJ_COUNT) m.

Definition pp_init (m : PlayerPool) : bool * PlayerPool := (true, if decide (length (pp_free m) = O) then pp_grow m else m).

(** [jmy_mem_free(p)] on a pointer that may be null. *)
Definition pp_delete (p : ptr) (m : PlayerPool) : option PlayerPool :=
  if p =? NULL then Some m else _ ← pp_objs m !! p; Some (mkPP (delete p (pp_objs m)) (pp_free m) (pp_used m)).
Fixpoint pp_delete_all (ps : list ptr) (m : PlayerPool) : option PlayerPool :=
  match ps with [] => Some m | p :: ps => m ← pp_delete p m; pp_delete_all ps m end.

Definition pp_clear (m : PlayerPool) : option PlayerPool :=
  m ← pp_delete_all (pp_free m) m;
  m ← pp_delete_all (elements (pp_used m)) m;
  Some (mkPP (pp_objs m) [] ∅).

Definition pp_malloc (m : PlayerPool) : option (ptr * PlayerPool) :=
  let m := if (length (pp_free m) <? 100)%nat then pp_grow m else m in
  match pp_free m with [] => None | p :: free => Some (p, mkPP (pp_objs m) free ({[p]} ∪ pp_used m)) end.

Definition pp_free_player (p : ptr) (m : PlayerPool) : bool * PlayerPool :=
  if decide (p ∈ pp_used m) then (true, mkPP (pp_objs m) (p :: pp_free m) (pp_used m ∖ {[p]})) else (false, m).

(** ** The manager *)

(** [online_role_ids_] is null, points to an array or, after [clear], to memory that was freed. *)
Inductive RoleIds : Type := role_ids_null | role_ids (l : list Z) | role_ids_freed.

Record PlayerManager : Type := mkPM {
  pm_start : Z;
  pm_max : Z;
  pm_online : RoleIds;
  pm_accounts : BiMap bytes Z;
  pm_all : gmap Z ptr;
  pm_pool : PlayerPool;
}.

Definition PlayerManager_new : PlayerManager := mkPM 0 0 role_ids_null BiMap_new ∅ PlayerPool_new.

Definition pm_set_online (o : RoleIds) (m : PlayerManager) : PlayerManager := mkPM (pm_start m) (pm_max m) o (pm_accounts m) (pm_all m) (pm_pool m).
Definition pm_set_accounts (a : BiMap bytes Z) (m : PlayerManager) : PlayerManager :=
  mkPM (pm_start m) (pm_max m) (pm_online m) a (pm_all m) (pm_pool m).
Definition pm_set_all (a : gmap Z ptr) (m : PlayerManager) : PlayerManager :=
  mkPM (pm_start m) (pm_max m) (pm_online m) (pm_accounts m) a (pm_pool m).
Definition pm_set_pool (pool : PlayerPool) (m : PlayerManager) : PlayerManager :=
  mkPM (pm_start m) (pm_max m) (pm_online m) (pm_accounts m) (pm_all m) pool.

(** [p->field = ...] through a pointer to a player. *)
Definition pm_player (p : ptr) (m : PlayerManager) : option Player := pp_objs (pm_pool m) !! p.
Definition pm_update (p : ptr) (f : Player -> Player) (m : PlayerManager) : option PlayerManager :=
  pl ← pm_player p m;
  Some (pm_set_pool (mkPP (<[p := f pl]> (pp_objs (pm_pool m))) (pp_free (pm_pool m)) (pp_used (pm_pool m))) m).

(** [online_role_ids_[index]]. *)
Definition role_ids_get (i : Z) (m : PlayerManager) : option Z :=
  match pm_online m with role_ids l => l !! Z.to_nat i | _ => None end.
Definition role_ids_set (i role_id : Z) (m : PlayerManager) : option PlayerManager :=
  match pm_online m with
  | role_ids l => _ ← l !! Z.to_nat i; Some (pm_set_online (role_ids (<[Z.to_nat i := role_id]> l)) m)
  | _ => None
  end.
Definition role_ids_is_null (m : PlayerManager) : bool := match pm_online m with role_ids_null => true | _ => false end.

Definition pm_init (start_id max_size : Z) (m : PlayerManager) : bool * PlayerManager :=
  if (start_id <=? 0) || (max_size <=? 0) then (false, m)
  else if role_ids_is_null m then
    (true, mkPM start_id max_size (role_ids (replicate (Z.to_nat max_size) 0)) (pm_accounts m) (pm_all m) (pm_pool m))
  else (true, m).

(** The array is freed, but the pointer to it is not reset, and a second call frees it again.  The
    players are freed, but not taken from the pool. *)
Definition pm_clear (m : PlayerManager) : option PlayerManager :=
  if role_ids_is_null m then Some m else
  match pm_online m with
  | role_ids _ =>
    pool ← pp_delete_all (snd <$> map_to_list (pm_all m)) (pm_pool m);
    Some (mkPM 0 0 role_ids_freed (pm_accounts m) ∅ pool)
  | _ => None
  end.

Definition pm_out_of_range (index : Z) (m : PlayerManager) : bool := (index <? 0) || (pm_max m <=? index).

Definition insert_new (role_id : Z) (p : ptr) (all : gmap Z ptr) : gmap Z ptr :=
  match all !! role_id with Some _ => all | None => <[role_id := p]> all end.

Definition pm_malloc (user_id role_id : Z) (m : PlayerManager) : option (option ptr * PlayerManager) :=
  index ← int_sub user_id (pm_start m);
  if role_ids_is_null m || pm_out_of_range index m then Some (None, m) else
  m ← role_ids_set index role_id m;
  '(p, pool) ← pp_malloc (pm_pool m);
  m ← pm_update p (pl_set_ids user_id role_id) (pm_set_pool pool m);
  Some (Some p, pm_set_all (insert_new role_id p (pm_all m)) m).

(** The player of a role that is not online. *)
Definition pm_malloc_role (role_id : Z) (m : PlayerManager) : option (ptr * PlayerManager) :=
  '(p, pool) ← pp_malloc (pm_pool m);
  m ← pm_update p (fun pl => pl_set_ids (pl_user_id pl) role_id pl) (pm_set_pool pool m);
  Some (p, pm_set_all (insert_new role_id p (pm_all m)) m).

(** Whether the pair was inserted is not looked at. *)
Definition bind_account_role_id (account : bytes) (role_id : Z) (m : PlayerManager) : bool * PlayerManager :=
  match pm_all m !! role_id with
  | None => (false, m)
  | Some _ => let '(_, a) := bm_insert (pm_accounts m) account role_id in (true, pm_set_accounts a m)
  end.

Definition getByRoleId (role_id : Z) (m : PlayerManager) : option ptr := pm_all m !! role_id.

Definition getByAccount (account : bytes) (m : PlayerManager) : option ptr :=
  role_id ← find_1 (pm_accounts m) account; getByRoleId role_id m.

Definition pm_get (id : Z) (m : PlayerManager) : option (option ptr) :=
  index ← int_sub id (pm_start m);
  if pm_out_of_range index m then Some None
  else if role_ids_is_null m then Some None
  else role_id ← role_ids_get index m; Some (getByRoleId role_id m).

Definition pm_free (user_id : Z) (m : PlayerManager) : option (bool * PlayerManager) :=
  index ← int_sub user_id (pm_start m);
  if pm_out_of_range index m then Some (false, m) else
  role_id ← role_ids_get index m;
  match pm_all m !! role_id with
  | None => Some (false, m)
  | Some p =>
    let '(freed, pool) := pp_free_player p (pm_pool m) in
    let m := pm_set_pool pool m in
    if negb freed then Some (false, m) else
    '(_, a) ← remove_2 (pm_accounts m) role_id;
    m ← role_ids_set index 0 (pm_set_accounts a m);
    Some (true, pm_set_all (delete role_id (pm_all m)) m)
  end.

Definition pm_free_player (p : ptr) (m : PlayerManager) : option (bool * PlayerManager) :=
  pl ← pm_player p m;
  index ← int_sub (pl_user_id pl) (pm_start m);
  if pm_out_of_range index m then Some (false, m) else
  let '(freed, pool) := pp_free_player p (pm_pool m) in
  let m := pm_set_pool pool m in
  if negb freed then Some (false, m) else
  '(_, a) ← remove_2 (pm_accounts m) (pl_role_id pl);
  let m := pm_set_all (delete (pl_role_id pl) (pm_all m)) (pm_set_accounts a m) in
  m ← role_ids_set index 0 m; Some (true, m).

Definition getUserIdByRoleId (role_id : Z) (m : PlayerManager) : option Z :=
  match pm_all m !! role_id with None => Some 0 | Some p => pl ← pm_player p m; Some (pl_user_id pl) end.

Definition getRoleIdByUserId (user_id : Z) (m : PlayerManager) : option Z :=
  index ← int_sub user_id (pm_start m);
  if pm_out_of_range index m then Some 0 else role_ids_get index m.
End players.
