(* ===== verification/GameServer.v ===== *)
(** * The game server ([game_server/])

    The players of a gate server's clients, and the database behind them.  [gm.*], [gm_cmd.*],
    [global_data.h], [conn_gate_handler.cpp], [conn_db_handler.cpp] and [config_data.h] over the
    players of [Players]. *)
From S2P Require Import Prelude Text Datatype Agent BiMap AppNet Proto Codec Common Players.
From Stdlib Require Import ZArith Lia String Ascii.
From stdpp Require Import base option list gmap.
Local Open Scope Z_scope.

(** ** Texts *)

(** [boost::split(results, command, boost::is_any_of(" "))]: every space ends a token. *)
Fixpoint boost_split (l : bytes) : list bytes :=
  match l with
  | [] => [[]]
  | c :: l =>
    if c =? 32 then [] :: boost_split l
    else match boost_split l with [] => [[c]] | t :: ts => (c :: t) :: ts end
  end.

(** ** Game master commands *)

Inductive GmFunc : Type := gm_add_item_f | gm_rm_item_f | gm_levelup_f | gm_setlevel_f | gm_addexp_f | gm_newmail_f.

Record GmCommand : Type := mkGmCommand { gm_cmd : bytes; gm_func : GmFunc }.

Definition gm_cmds : list GmCommand := [
  mkGmCommand (chars "additem") gm_add_item_f;
  mkGmCommand (chars "rmitem") gm_rm_item_f;
  mkGmCommand (chars "levelup") gm_levelup_f;
  mkGmCommand (chars "setlevel") gm_setlevel_f;
  mkGmCommand (chars "addexp") gm_addexp_f;
  mkGmCommand (chars "newmail") gm_newmail_f ].

Abbreviation GmMap := (gmap bytes GmCommand).

(** [insert] keeps the first command of a name. *)
Definition load_cmds (cmds : list GmCommand) (m : GmMap) : GmMap :=
  fold_left (fun (m : GmMap) c => match m !! gm_cmd c with Some _ => m | None => <[gm_cmd c := c]> m end) cmds m.

(** The commands that [GameServer::init] loads. *)
Definition default_cmds : GmMap := load_cmds gm_cmds ∅.

Definition gm_word : bytes := chars "/gm".

(** The tokens, and whether they are a command. *)
Definition parse_command (command : bytes) : option (list bytes) :=
  let results := boost_split command in
  if (length results <=? 1)%nat then None
  else if decide (results !! 0%nat = Some gm_word) then Some results else None.

(** ** The state *)

Record GameServer : Type := mkGame {
  gs_net : Net;
  gs_players : PlayerManager;
  gs_gate_conn : option Z;      (** [gate_conn_] and [db_conn_], by connection id *)
  gs_db_conn : option Z;
  gs_cmds : GmMap;
  gs_id : Z;                    (** [SERVER_CONFIG.id] *)
}.

(** After [GameServer::init]: the commands are loaded. *)
Definition GameServer_new (id : Z) : GameServer := mkGame Net_new PlayerManager_new None None default_cmds id.

Definition gs_set_net (n : Net) (s : GameServer) : GameServer := mkGame n (gs_players s) (gs_gate_conn s) (gs_db_conn s) (gs_cmds s) (gs_id s).
Definition gs_set_players (m : PlayerManager) (s : GameServer) : GameServer :=
  mkGame (gs_net s) m (gs_gate_conn s) (gs_db_conn s) (gs_cmds s) (gs_id s).
Definition setGateConn (c : option Z) (s : GameServer) : GameServer := mkGame (gs_net s) (gs_players s) c (gs_db_conn s) (gs_cmds s) (gs_id s).
Definition setDBConn (c : option Z) (s : GameServer) : GameServer := mkGame (gs_net s) (gs_players s) (gs_gate_conn s) c (gs_cmds s) (gs_id s).

(** The connections of the two clients, generated in this order by [client_master_]. *)
Definition GATE_CONN : Z := 1.
Definition DB_CONN : Z := 2.

Section game.
(** The connection manager of the clients, the item table, what is in the level of a new player
    object and in the buffers. *)
Variable MGR : Z.
Variable item_table : Z -> option Z.
Variable garbage_level : Z.
Variable tmp : bytes.
Context `{ServerMessages}.

(** ** GlobalData: [len] is an [unsigned short] *)

Definition gs_send (conn : option Z) (user : option Z) (msg_id : Z) (data : bytes) (len : Z) (s : GameServer) : option (Z * GameServer) :=
  match conn with
  | None => Some (-1, s)
  | Some c => '(r, n) ← nt_send MGR c user msg_id data (u16 len) (gs_net s); Some (r, gs_set_net n s)
  end.

Definition sendGate (msg_id : Z) (data : bytes) (len : Z) (s : GameServer) : option (Z * GameServer) :=
  gs_send (gs_gate_conn s) None msg_id data len s.
Definition sendGate_user (user_id msg_id : Z) (data : bytes) (len : Z) (s : GameServer) : option (Z * GameServer) :=
  gs_send (gs_gate_conn s) (Some user_id) msg_id data len s.
Definition sendDB (msg_id : Z) (data : bytes) (len : Z) (s : GameServer) : option (Z * GameServer) :=
  gs_send (gs_db_conn s) None msg_id data len s.
Definition sendDB_user (user_id msg_id : Z) (data : bytes) (len : Z) (s : GameServer) : option (Z * GameServer) :=
  gs_send (gs_db_conn s) (Some user_id) msg_id data len s.

(** [Player::send_gate]: a failure is 1. *)
Definition send_gate (p : Player) (msg_id : Z) (data : bytes) (len : Z) (s : GameServer) : option (Z * GameServer) :=
  if pl_user_id p =? 0 then Some (0, s) else
  '(r, s) ← sendGate_user (pl_user_id p) msg_id data (u16 len) s; Some (if r <? 0 then 1 else 0, s).

(** A message is serialised and sent. *)
Definition reply {M} `{Message M} (m : M) (send : bytes -> Z -> GameServer -> option (Z * GameServer)) (ok : Z) (s : GameServer)
  : option (Z * GameServer) :=
  match SerializeToArray m tmp with
  | None => Some (-1, s)
  | Some t => '(r, s) ← send t (ByteSize m) s; Some (if r <? 0 then -1 else ok, s)
  end.

(** ** The commands *)

(** The two numbers of a command are tokens that are not checked to be there. *)
Definition gm_item_args (params : list bytes) : option (Z * Z) :=
  a ← params !! 2%nat; b ← params !! 3%nat; Some (u32 (strtoul a), u32 (strtoul b)).

Definition gm_change_items {M} `{Message M} (change : gmap Z Item -> bool * gmap Z Item) (msg_id : Z) (request : M) (role_id : Z) (s : GameServer)
  : option (Z * GameServer) :=
  match getByRoleId role_id (gs_players s) with
  | None => Some (-1, s)
  | Some p =>
    pl ← pm_player p (gs_players s);
    let '(ok, items) := change (pl_items pl) in
    if negb ok then Some (-1, s) else
    m ← pm_update p (pl_set_items items) (gs_players s);
    let s := gs_set_players m s in
    match SerializeToBuffer request tmp 128 with
    | None => Some (-1, s)
    | Some t => '(r, s) ← sendDB msg_id t (ByteSize request) s; Some (if r <? 0 then -1 else 0, s)
    end
  end.

Definition gm_add_item (role_id : Z) (params : list bytes) (s : GameServer) : option (Z * GameServer) :=
  '(type_id, item_num) ← gm_item_args params;
  gm_change_items (add_item item_table type_id item_num) MSGID_GS2DS_ADD_ITEM_REQUEST (mkDBAddItemRequest role_id type_id item_num) role_id s.

Definition gm_rm_item (role_id : Z) (params : list bytes) (s : GameServer) : option (Z * GameServer) :=
  '(type_id, item_num) ← gm_item_args params;
  gm_change_items (rm_item type_id item_num) MSGID_GS2DS_RM_ITEM_REQUEST (mkDBRmItemRequest role_id type_id item_num) role_id s.

(** The player's level is set to the parameter. *)
Definition gm_levelup (role_id : Z) (params : list bytes) (s : GameServer) : option (Z * GameServer) :=
  a ← params !! 2%nat;
  let level := s32 (strtoul a) in
  match getByRoleId role_id (gs_players s) with
  | None => Some (-1, s)
  | Some p =>
    pl ← pm_player p (gs_players s);
    if level =? pl_level pl then Some (0, s) else
    m ← pm_update p (pl_set_level level) (gs_players s); Some (0, gs_set_players m s)
  end.

Definition gm_call (f : GmFunc) (role_id : Z) (params : list bytes) (s : GameServer) : option (Z * GameServer) :=
  match f with
  | gm_add_item_f => gm_add_item role_id params s
  | gm_rm_item_f => gm_rm_item role_id params s
  | gm_levelup_f => gm_levelup role_id params s
  | gm_setlevel_f | gm_addexp_f | gm_newmail_f => Some (0, s)
  end.

Definition execute_command (role_id : Z) (results : list bytes) (s : GameServer) : option (bool * GameServer) :=
  r0 ← results !! 0%nat;
  if negb (bool_decide (r0 = gm_word)) then Some (false, s) else
  r1 ← results !! 1%nat;
  match gs_cmds s !! r1 with
  | None => Some (false, s)
  | Some cmd => '(r, s) ← gm_call (gm_func cmd) role_id results s; Some (negb (r <? 0), s)
  end.

(** ** ConnGateHandler *)

Definition gs_gate_onConnect (conn_id : Z) (s : GameServer) : option (Z * GameServer) :=
  match get_connection conn_id MGR (gs_net s) with
  | None => Some (-1, s)
  | Some _ =>
    let request := mkConnectGateRequest (gs_id s) in
    match SerializeToArray request tmp with
    | None => Some (-1, s)
    | Some t =>
      '(r, n) ← nt_send MGR conn_id None MSGID_GS2GT_CONNECT_GATE_REQUEST t (ByteSize request) (gs_net s);
      Some (if r <? 0 then -1 else 0, gs_set_net n s)
    end
  end.

Definition processConnectGateResponse (conn_id : Z) (data : bytes) (s : GameServer) : option (Z * GameServer) :=
  match get_connection conn_id MGR (gs_net s) with
  | None => Some (-1, s)
  | Some _ =>
    match (ParseFromArray data : option MsgGT2GS_ConnectGateResponse) with
    | None => Some (-1, s)
    | Some response =>
      let '(ok, m) := pm_init (cg_start_user_id response) (cg_max_user_count response) (gs_players s) in
      let s := gs_set_players m s in
      if negb ok then Some (-1, s) else Some (lenZ data, setGateConn (Some conn_id) s)
    end
  end.

Definition gs_processGetRole (data : bytes) (s : GameServer) : option (Z * GameServer) :=
  match (ParseFromArray data : option MsgGT2GS_GetRoleRequest) with
  | None => Some (-1, s)
  | Some request => reply (mkDBGetRoleRequest (gg_account request)) (sendDB MSGID_GS2DS_GET_ROLE_REQUEST) (lenZ data) s
  end.

Definition gs_processCreateRole (data : bytes) (s : GameServer) : option (Z * GameServer) :=
  match (ParseFromArray data : option MsgGT2GS_CreateRoleRequest) with
  | None => Some (-1, s)
  | Some request =>
    reply (mkDBCreateRoleRequest (gcr_account request) (gcr_nick_name request) (gcr_sex request) (gcr_race request))
      (sendDB MSGID_GS2DS_CREATE_ROLE_REQUEST) (lenZ data) s
  end.

(** The response is serialised and sent twice, the second time with the id of the complete notify. *)
Definition processEnterGame (user_id : Z) (data : bytes) (s : GameServer) : option (Z * GameServer) :=
  match (ParseFromArray data : option MsgGT2GS_EnterGameRequest) with
  | None => Some (-1, s)
  | Some request =>
    if user_id <=? 0 then Some (-1, s) else
    p ← pm_get user_id (gs_players s);
    '(_, m) ← match p with
              | Some p => Some (Some p, gs_players s)
              | None => pm_malloc garbage_level user_id (eg_role_id request) (gs_players s)
              end;
    let s := gs_set_players m s in
    '(r, s) ← reply mkEnterGameResponse (sendGate_user user_id MSGID_S2C_ENTER_GAME_RESPONSE) 0 s;
    if r <? 0 then Some (-1, s) else
    reply mkEnterGameResponse (sendGate_user user_id MSGID_S2C_ENTER_GAME_COMPLETE_NOTIFY) (lenZ data) s
  end.

(** [PLAYER_MGR->free(request.role_id())] calls [free(int user_id)]; its result is not looked at. *)
Definition processLeaveGame (user_id : Z) (data : bytes) (s : GameServer) : option (Z * GameServer) :=
  match (ParseFromArray data : option MsgGT2GS_LeaveGameRequest) with
  | None => Some (-1, s)
  | Some request =>
    p ← pm_get user_id (gs_players s);
    match p with
    | None => Some (-1, s)
    | Some _ => '(_, m) ← pm_free (s32 (lg_role_id request)) (gs_players s); Some (lenZ data, gs_set_players m s)
    end
  end.

Definition gs_chat_command (user_id : Z) (results : list bytes) (data : bytes) (s : GameServer) : option (Z * GameServer) :=
  p ← pm_get user_id (gs_players s);
  match p with
  | None => Some (0, s)
  | Some p =>
    pl ← pm_player p (gs_players s);
    '(ok, s) ← execute_command (pl_role_id pl) results s;
    Some (if ok : bool then lenZ data else 0, s)
  end.

(** The notify has neither the content nor the sender. *)
Definition gs_chat_notify (request : MsgC2S_ChatRequest) (data : bytes) (s : GameServer) : option (Z * GameServer) :=
  match getByRoleId (cq_role_id request) (gs_players s) with
  | None => Some (0, s)
  | Some p =>
    let notify := mkChatNotify [] (cq_chat_type request) (cq_channel request) 0 [] in
    match SerializeToArray notify tmp with
    | None => Some (-1, s)
    | Some t =>
      pl ← pm_player p (gs_players s);
      '(r, s) ← send_gate pl MSGID_S2C_CHAT_NOTIFY t (ByteSize notify) s;
      Some (if r <? 0 then -1 else lenZ data, s)
    end
  end.

Definition gs_processChat (conn_id user_id : Z) (data : bytes) (s : GameServer) : option (Z * GameServer) :=
  match get_connection conn_id MGR (gs_net s) with
  | None => Some (-1, s)
  | Some _ =>
    match (ParseFromArray data : option MsgC2S_ChatRequest) with
    | None => Some (-1, s)
    | Some request =>
      match parse_command (cq_content request) with
      | Some results => gs_chat_command user_id results data s
      | None =>
        let response := mkChatResponse (cq_content request) (cq_chat_type request) (cq_channel request) (cq_role_id request) in
        match SerializeToArray response tmp with
        | None => Some (-1, s)
        | Some t =>
          '(r, n) ← nt_send MGR conn_id (Some user_id) MSGID_S2C_CHAT_RESPONSE t (u16 (ByteSize response)) (gs_net s);
          let s := gs_set_net n s in
          if r <? 0 then Some (-1, s) else gs_chat_notify request data s
        end
      end
    end
  end.

Definition gs_processSetRoleData (user_id : Z) (data : bytes) (s : GameServer) : option (Z * GameServer) :=
  match (ParseFromArray data : option MsgC2S_SetRoleDataRequest) with
  | None => Some (-1, s)
  | Some request =>
    role_id ← getRoleIdByUserId user_id (gs_players s);
    let d := sq_role_data request in
    reply (mkDBSetRoleDataRequest role_id (mkBaseRoleData 0 [] (rd_race d) (rd_sex d) (rd_hp d) (rd_level d)))
      (sendDB MSGID_GS2DS_SET_ROLE_DATA_REQUEST) (lenZ data) s
  end.

Definition gs_gate_default (conn_id user_id msg_id : Z) (data : bytes) (s : GameServer) : option (Z * GameServer) :=
  if msg_id =? MSGID_C2S_CHAT_REQUEST then gs_processChat conn_id user_id data s
  else if msg_id =? MSGID_C2S_SET_ROLE_DATA_REQUEST then gs_processSetRoleData user_id data s
  else Some (lenZ data, s).

(** ** ConnDBHandler *)

Definition gs_db_onConnect (conn_id : Z) (s : GameServer) : option (Z * GameServer) :=
  match get_connection conn_id MGR (gs_net s) with
  | None => Some (-1, s)
  | Some _ =>
    let request := mkConnectDBRequest (gs_id s) in
    match SerializeToArray request tmp with
    | None => Some (-1, s)
    | Some t =>
      '(r, n) ← nt_send MGR conn_id None MSGID_GS2DS_CONNECT_DB_REQUEST t (ByteSize request) (gs_net s);
      Some (if r <? 0 then -1 else 0, gs_set_net n s)
    end
  end.

Definition processConnectDBResponse (conn_id : Z) (data : bytes) (s : GameServer) : Z * GameServer :=
  match (ParseFromArray data : option MsgDS2GS_ConnectDBResponse) with
  | None => (-1, s)
  | Some _ =>
    match get_connection conn_id MGR (gs_net s) with
    | None => (-1, s)
    | Some _ => (lenZ data, setDBConn (Some conn_id) s)
    end
  end.

Definition short_role (d : MsgBaseRoleData) : MsgBaseRoleData := mkBaseRoleData (rd_role_id d) (rd_nick_name d) (rd_race d) (rd_sex d) 0 0.

Definition gs_processGetRoleResponse (data : bytes) (s : GameServer) : option (Z * GameServer) :=
  match (ParseFromArray data : option MsgDS2GS_GetRoleResponse) with
  | None => Some (-1, s)
  | Some response =>
    reply (mkGS2GT_GetRoleResponse (dp_account response) (short_role (dp_role_data response))) (sendGate MSGID_GS2GT_GET_ROLE_RESPONSE) (lenZ data) s
  end.

Definition gs_processCreateRoleResponse (data : bytes) (s : GameServer) : option (Z * GameServer) :=
  match (ParseFromArray data : option MsgDS2GS_CreateRoleResponse) with
  | None => Some (-1, s)
  | Some response =>
    reply (mkGS2GT_CreateRoleResponse (dr_account response) (short_role (dr_role_data response)))
      (sendGate MSGID_GS2GT_CREATE_ROLE_RESPONSE) (lenZ data) s
  end.

(** Not in the table of handlers. *)
Definition processEnterGameResponse (data : bytes) (s : GameServer) : Z * GameServer := (lenZ data, s).
Definition processAddItemResponse (data : bytes) (s : GameServer) : Z * GameServer :=
  match (ParseFromArray data : option MsgDS2GS_AddItemResponse) with None => (-1, s) | Some _ => (lenZ data, s) end.

Definition gs_db_default (data : bytes) (s : GameServer) : Z * GameServer := (lenZ data, s).

(** ** What happens to a game server *)

Definition gs_gate_msg (conn_id user_id msg_id : Z) (data : bytes) (s : GameServer) : option (Z * GameServer) :=
  if msg_id =? MSGID_GT2GS_CONNECT_GATE_RESPONSE then processConnectGateResponse conn_id data s
  else if msg_id =? MSGID_GT2GS_GET_ROLE_REQUEST then gs_processGetRole data s
  else if msg_id =? MSGID_GT2GS_CREATE_ROLE_REQUEST then gs_processCreateRole data s
  else if msg_id =? MSGID_GT2GS_ENTER_GAME_REQUEST then processEnterGame user_id data s
  else if msg_id =? MSGID_GT2GS_LEAVE_GAME_REQUEST then processLeaveGame user_id data s
  else gs_gate_default conn_id user_id msg_id data s.

Definition gs_db_msg (conn_id msg_id : Z) (data : bytes) (s : GameServer) : option (Z * GameServer) :=
  if msg_id =? MSGID_DS2GS_CONNECT_DB_RESPONSE then Some (processConnectDBResponse conn_id data s)
  else if msg_id =? MSGID_DS2GS_GET_ROLE_RESPONSE then gs_processGetRoleResponse data s
  else if msg_id =? MSGID_DS2GS_CREATE_ROLE_RESPONSE then gs_processCreateRoleResponse data s
  else Some (gs_db_default data s).

(** [onDisconnect] of the two clients. *)
Definition gs_onDisconnect (c : Z) (s : GameServer) : GameServer :=
  if c =? GATE_CONN then setGateConn None s else if c =? DB_CONN then setDBConn None s else s.

#[local] Instance game_calls : AgentCalls GameServer := net_calls gs_net gs_set_net (fun _ c s => Some (gs_onDisconnect c s)).

Inductive gs_op : Type :=
| gs_op_connect (conn_id : Z)
| gs_op_lost (conn_id : Z)
| gs_op_gate (user_id msg_id : Z) (data : bytes)
| gs_op_db (msg_id : Z) (data : bytes).

(** A client connects its connection (again) when it is not connected. *)
Definition gs_connect (conn_id : Z) (s : GameServer) : option GameServer :=
  ub_unless ((conn_id =? GATE_CONN) || (conn_id =? DB_CONN));;
  ub_unless (match nt_conns (gs_net s) !! (MGR, conn_id) with Some st => bool_decide (st = JMY_CONN_STATE_DISCONNECTED) | None => true end);;
  let s := gs_set_net (nt_set MGR conn_id JMY_CONN_STATE_CONNECTED (gs_net s)) s in
  '(_, s) ← (if conn_id =? GATE_CONN then gs_gate_onConnect conn_id s else gs_db_onConnect conn_id s); Some s.

Definition gs_exec (o : gs_op) (s : GameServer) : option GameServer :=
  match o with
  | gs_op_connect c => gs_connect c s
  | gs_op_lost c => ac_force_close MGR c s
  | gs_op_gate user_id msg_id data =>
    if nt_is_connected MGR GATE_CONN (gs_net s) then handled MGR GATE_CONN (gs_gate_msg GATE_CONN user_id msg_id data s) else None
  | gs_op_db msg_id data =>
    if nt_is_connected MGR DB_CONN (gs_net s) then handled MGR DB_CONN (gs_db_msg DB_CONN msg_id data s) else None
  end.

Fixpoint gs_exec_all (os : list gs_op) (s : GameServer) : option GameServer :=
  match os with [] => Some s | o :: os => s ← gs_exec o s; gs_exec_all os s end.
End game.

(** ** Example messages *)

Section example.
#[local] Existing Instance coded_messages.

Definition example_item_table (type_id : Z) : option Z := if type_id =? 5 then Some 99 else None.

Definition ex_chat (user : Z) (text : string) : gs_op :=
  gs_op_gate user MSGID_C2S_CHAT_REQUEST (Serialize (mkChatRequest (chars text) 0 0 0)).
Definition ex_enter (user role : Z) : gs_op := gs_op_gate user MSGID_GT2GS_ENTER_GAME_REQUEST (Serialize (mkEnterGameRequest role)).
Definition ex_leave (user role : Z) : gs_op := gs_op_gate user MSGID_GT2GS_LEAVE_GAME_REQUEST (Serialize (mkLeaveGameRequest role)).
Definition ex_give (user : Z) : gs_op := ex_chat user "/gm additem 5 30".

(** User 1 gets items and sends a leave request for itself; user 2 enters. *)
Definition example_game : list gs_op := [
  gs_op_connect GATE_CONN;
  gs_op_gate 0 MSGID_GT2GS_CONNECT_GATE_RESPONSE (Serialize (mkConnectGateResponse 10 1));
  ex_enter 1 7; ex_give 1; ex_chat 1 "/gm levelup 12"; ex_leave 1 1; ex_enter 2 8 ].

(** A command without the number of items. *)
Definition example_crash : gs_op := ex_chat 2 "/gm additem 5".
Definition example_crash_text : bytes := chars "/gm additem 5".
Definition example_crash_name : bytes := chars "additem".
(** Ordinary chat. *)
Definition ex_hello : string := "hello".
End example.
