(* ===== verification/GameProps.v ===== *)
(** * What the game server guarantees

    Who is online with which player, and what the players have, is a function of the messages
    alone: the game server refines an abstract realm of heroes.  The exact cap of the item counts,
    and the commands that crash the server. *)
From S2P Require Import Prelude Text Datatype Agent BiMap AppNet Proto Codec Common Players GameServer.
From Stdlib Require Import ZArith Lia.
From stdpp Require Import base option list gmap.
Local Open Scope Z_scope.

(** ** The realm *)

Record Hero : Type := mkHero { h_user : Z; h_level : Z; h_items : gmap Z Z }.

(** The user ids that there are, the role a user entered with, the heroes by role, and the level and
    items of the heroes that were freed, the last one first. *)
Record Realm : Type := mkRealm {
  rl_start : Z;
  rl_max : Z;
  rl_roles : gmap Z Z;
  rl_heroes : gmap Z Hero;
  rl_spare : list (Z * gmap Z Z);
}.

Definition Realm_new : Realm := mkRealm 0 0 ∅ ∅ [].

(** A user that did not enter has role 0, which is a role like any other. *)
Definition role_of (R : Realm) (user : Z) : Z := default 0 (rl_roles R !! user).
Definition has_user (R : Realm) (user : Z) : bool := (rl_start R <=? user) && (user <? rl_start R + rl_max R).
Definition hero_of (R : Realm) (user : Z) : option Hero := if has_user R user then rl_heroes R !! role_of R user else None.

Inductive RealmEvent : Type :=
| ev_users (start max : Z)
| ev_enter (user role : Z)
| ev_leave (user victim : Z)
| ev_add (user type num : Z)
| ev_rm (user type num : Z)
| ev_level (user level : Z)
| ev_none.

Section realm.
Variable item_table : Z -> option Z.
Variable garbage_level : Z.

(** What adding items gives: the sum wraps around, and is cut when it is larger than the maximum as
    a signed number. *)
Definition count_add (type num : Z) (c : gmap Z Z) : gmap Z Z :=
  match item_table type with
  | None => c
  | Some max_count =>
    let n := u32 (default 0 (c !! type) + num) in
    <[type := if max_count <? s32 n then u32 max_count else n]> c
  end.

Definition count_rm (type num : Z) (c : gmap Z Z) : gmap Z Z :=
  match c !! type with Some k => if k <? num then c else <[type := k - num]> c | None => c end.

(** What a new hero starts with. *)
Definition realm_spare (R : Realm) : Z * gmap Z Z := default (garbage_level, ∅) (head (rl_spare R)).

Definition set_hero (R : Realm) (role : Z) (h : Hero) : Realm :=
  mkRealm (rl_start R) (rl_max R) (rl_roles R) (<[role := h]> (rl_heroes R)) (rl_spare R).

Definition realm_step (e : RealmEvent) (R : Realm) : Realm :=
  match e with
  | ev_users start max =>
    if (start <=? 0) || (max <=? 0) || (0 <? rl_max R) then R else mkRealm start max (rl_roles R) (rl_heroes R) (rl_spare R)
  | ev_enter user role =>
    if negb (has_user R user) then R else
    match hero_of R user with
    | Some _ => R
    | None =>
      let '(level, items) := realm_spare R in
      mkRealm (rl_start R) (rl_max R) (<[user := role]> (rl_roles R))
        (match rl_heroes R !! role with Some _ => rl_heroes R | None => <[role := mkHero user level items]> (rl_heroes R) end)
        (tail (rl_spare R))
    end
  | ev_leave user victim =>
    match hero_of R user, hero_of R victim with
    | Some _, Some h =>
      mkRealm (rl_start R) (rl_max R) (<[victim := 0]> (rl_roles R)) (delete (role_of R victim) (rl_heroes R))
        ((h_level h, h_items h) :: rl_spare R)
    | _, _ => R
    end
  | ev_add user type num =>
    match hero_of R user with
    | Some h => set_hero R (role_of R user) (mkHero (h_user h) (h_level h) (count_add type num (h_items h)))
    | None => R
    end
  | ev_rm user type num =>
    match hero_of R user with
    | Some h => set_hero R (role_of R user) (mkHero (h_user h) (h_level h) (count_rm type num (h_items h)))
    | None => R
    end
  | ev_level user level =>
    match hero_of R user with
    | Some h => set_hero R (role_of R user) (mkHero (h_user h) level (h_items h))
    | None => R
    end
  | ev_none => R
  end.

(** What a message means. *)
Definition gm_event (user : Z) (results : list bytes) : RealmEvent :=
  match r1 ← results !! 1%nat; default_cmds !! r1 with
  | None => ev_none
  | Some cmd =>
    match gm_func cmd, gm_item_args results with
    | gm_add_item_f, Some (t, n) => ev_add user t n
    | gm_rm_item_f, Some (t, n) => ev_rm user t n
    | gm_levelup_f, _ => match results !! 2%nat with Some a => ev_level user (s32 (strtoul a)) | None => ev_none end
    | _, _ => ev_none
    end
  end.

Context `{ServerMessages}.

Definition gate_event (user msg_id : Z) (data : bytes) : RealmEvent :=
  if msg_id =? MSGID_GT2GS_CONNECT_GATE_RESPONSE then
    match (ParseFromArray data : option MsgGT2GS_ConnectGateResponse) with
    | Some m => ev_users (cg_start_user_id m) (cg_max_user_count m) | None => ev_none end
  else if msg_id =? MSGID_GT2GS_ENTER_GAME_REQUEST then
    match (ParseFromArray data : option MsgGT2GS_EnterGameRequest) with
    | Some m => if user <=? 0 then ev_none else ev_enter user (eg_role_id m) | None => ev_none end
  else if msg_id =? MSGID_GT2GS_LEAVE_GAME_REQUEST then
    match (ParseFromArray data : option MsgGT2GS_LeaveGameRequest) with
    | Some m => ev_leave user (s32 (lg_role_id m)) | None => ev_none end
  else if msg_id =? MSGID_C2S_CHAT_REQUEST then
    match (ParseFromArray data : option MsgC2S_ChatRequest) with
    | Some m => match parse_command (cq_content m) with Some results => gm_event user results | None => ev_none end
    | None => ev_none
    end
  else ev_none.

Definition op_event (o : gs_op) : RealmEvent := match o with gs_op_gate user msg_id data => gate_event user msg_id data | _ => ev_none end.

Definition realm_run (os : list gs_op) : Realm := fold_left (fun R o => realm_step (op_event o) R) os Realm_new.
End realm.

(** ** How the players represent the realm *)

Definition counts (items : gmap Z Item) : gmap Z Z := it_item_num <$> items.
Definition player_hero (pl : Player) : Hero := mkHero (pl_user_id pl) (pl_level pl) (counts (pl_items pl)).
Definition counts_u32 (pl : Player) : Prop := map_Forall (fun _ it => is_u32 (it_item_num it)) (pl_items pl).

Record pool_ok (garbage_level : Z) (m : PlayerPool) (spare : list (Z * gmap Z Z)) : Prop := mkPoolOk {
  po_nodup : NoDup (pp_free m);
  po_disj : forall p, p ∈ pp_free m -> p ∉ pp_used m;
  po_used : forall p, p ∈ pp_used m -> is_Some (pp_objs m !! p);
  po_free : exists pls rest, pp_free m = (fst <$> pls) ++ rest /\
    Forall (fun ppl => pp_objs m !! ppl.1 = Some ppl.2) pls /\ spare = (fun ppl => (pl_level ppl.2, counts (pl_items ppl.2))) <$> pls /\
    Forall (fun p => pp_objs m !! p = Some (Player_new garbage_level)) rest;
  po_range : map_Forall (fun _ pl => counts_u32 pl) (pp_objs m);
}.

Record represents (garbage_level : Z) (m : PlayerManager) (R : Realm) : Prop := mkRep {
  rp_pool : pool_ok garbage_level (pm_pool m) (rl_spare R);
  rp_accounts : pm_accounts m = BiMap_new;
  rp_start : pm_start m = rl_start R;
  rp_max : pm_max m = rl_max R;
  rp_online : (pm_online m = role_ids_null /\ pm_start m = 0 /\ pm_max m = 0 /\ rl_roles R = ∅) \/
    (0 < pm_start m /\ 0 < pm_max m /\ exists l, pm_online m = role_ids l /\
      forall u, has_user R u = true -> l !! Z.to_nat (u - pm_start m) = Some (role_of R u));
  rp_heroes : forall r, rl_heroes R !! r = (p ← pm_all m !! r; player_hero <$> pm_player p m);
  rp_role : forall r p, pm_all m !! r = Some p -> p ∈ pp_used (pm_pool m) /\ exists pl, pm_player p m = Some pl /\ pl_role_id pl = r;
}.

(** ** The pool *)

Section pool.
Variable g : Z.

Definition objs_grow (m m' : PlayerPool) : Prop := forall p x, pp_objs m !! p = Some x -> pp_objs m' !! p = Some x.

Lemma grow_fold ps : forall m, NoDup ps -> (forall p, p ∈ ps -> pp_objs m !! p = None) ->
  let m' := fold_left (fun m p => mkPP (<[p := Player_new g]> (pp_objs m)) (pp_free m ++ [p]) (pp_used m)) ps m in
  pp_free m' = pp_free m ++ ps /\ pp_used m' = pp_used m /\
  forall q, pp_objs m' !! q = if decide (q ∈ ps) then Some (Player_new g) else pp_objs m !! q.
Proof using.
  induction ps as [|p ps IH]; intros m Hn Hf; cbn [fold_left].
  - rewrite app_nil_r. split; [done|]. split; [done|]. intros q. rewrite decide_False; [done|]. apply not_elem_of_nil.
  - apply NoDup_cons in Hn as [Hp Hn].
    destruct (IH (mkPP (<[p := Player_new g]> (pp_objs m)) (pp_free m ++ [p]) (pp_used m)) Hn) as (E1 & E2 & E3).
    { intros q Hq. cbn [pp_objs]. rewrite lookup_insert_ne by (by intros ->). apply Hf. by right. }
    rewrite E1, E2. cbn [pp_free pp_used]. rewrite <- app_assoc. split; [done|]. split; [done|]. intros q. rewrite E3. cbn [pp_objs].
    destruct (decide (q = p)) as [->|Hqp].
    + rewrite lookup_insert_eq, (decide_True (P := p ∈ p :: ps)) by left. by case_decide.
    + rewrite lookup_insert_ne by congruence. destruct (decide (q ∈ ps)); [by rewrite decide_True by (by right)|].
      rewrite decide_False; [done|]. by intros [|]%elem_of_cons.
Qed.

Lemma grow_ok m spare : pool_ok g m spare -> pool_ok g (pp_grow g m) spare /\ objs_grow m (pp_grow g m) /\ pp_used (pp_grow g m) = pp_used m /\
  pp_free (pp_grow g m) <> [].
Proof using.
  intros [Hn Hd Hu (pls & rest & Ef & Hpl & Es & Hr) Hc]. unfold pp_grow.
  set (ps := seqZ (fresh_ptr (pp_objs m)) ONCE_MALLOC_PLAYER_OBJ_COUNT).
  assert (Hfr : forall p, p ∈ ps -> pp_objs m !! p = None).
  { intros p Hp%elem_of_seqZ. destruct (pp_objs m !! p) as [x|] eqn:E; [|done]. apply fresh_ptr_gt in E. lia. }
  destruct (grow_fold ps m (NoDup_seqZ _ _) Hfr) as (E1 & E2 & E3). cbn zeta in *.
  set (m' := fold_left _ ps m) in *.
  assert (Hg : objs_grow m m').
  { intros p x E. rewrite E3, decide_False; [done|]. intros Hp%Hfr. congruence. }
  assert (Hfo : forall p, p ∈ pp_free m -> is_Some (pp_objs m !! p)).
  { rewrite Ef. intros p [(ppl & -> & Hp)%list_elem_of_fmap|Hp]%elem_of_app.
    - rewrite Forall_forall in Hpl. rewrite (Hpl _ Hp). by eexists.
    - rewrite Forall_forall in Hr. rewrite (Hr _ Hp). by eexists. }
  split; [|split; [done|split; [done|]]].
  - constructor; rewrite ?E1, ?E2.
    + apply NoDup_app. split; [done|]. split; [|apply NoDup_seqZ]. intros p Hp Hps. apply Hfr in Hps. destruct (Hfo p Hp). congruence.
    + intros p [Hp|Hp]%elem_of_app; [by apply Hd|]. apply Hfr in Hp. intros [x Hx]%Hu. congruence.
    + intros p [x Hx]%Hu. exists x. by apply Hg.
    + exists pls, (rest ++ ps). rewrite Ef, app_assoc. split; [done|]. split; [|split; [done|]].
      * eapply Forall_impl; [exact Hpl|]. intros ppl E. by apply Hg.
      * apply Forall_app. split; [eapply Forall_impl; [exact Hr|]; intros p E; by apply Hg|].
        apply Forall_forall. intros p Hp. by rewrite E3, decide_True.
    + intros p pl. rewrite E3. case_decide; [|apply Hc]. intros [= <-]. apply map_Forall_empty.
  - rewrite E1. intros [_ Hs]%app_eq_nil. apply (f_equal length) in Hs. unfold ps in Hs. rewrite length_seqZ in Hs. done.
Qed.

Lemma malloc_ok m spare : pool_ok g m spare ->
  exists p pl m', pp_malloc g m = Some (p, m') /\ pp_objs m' !! p = Some pl /\
    (pl_level pl, counts (pl_items pl)) = default (g, ∅) (head spare) /\ counts_u32 pl /\
    pool_ok g m' (tail spare) /\ objs_grow m m' /\ p ∉ pp_used m /\ pp_used m' = {[p]} ∪ pp_used m.
Proof using.
  intros Hm. unfold pp_malloc.
  assert (exists n, (if (length (pp_free m) <? 100)%nat then pp_grow g m else m) = n /\ pool_ok g n spare /\ objs_grow m n /\ pp_used n = pp_used m /\
    pp_free n <> []) as (n & -> & Hn & Hg & Eu & Hne).
  { eexists. split; [done|]. destruct (Nat.ltb_spec (length (pp_free m)) 100) as [Hl|Hl]; [by apply grow_ok|].
    split; [done|]. split; [by intros p x|]. split; [done|]. intros E. rewrite E in Hl. cbn in Hl. lia. }
  clear Hm. destruct Hn as [Hn Hd Hu (pls & rest & Ef & Hpl & Es & Hr) Hc].
  destruct (pp_free n) as [|p free] eqn:E; [done|]. apply NoDup_cons in Hn as [Hp Hn].
  assert (exists pl pls' rest', pp_objs n !! p = Some pl /\ (pl_level pl, counts (pl_items pl)) = default (g, ∅) (head spare) /\
    free = (fst <$> pls') ++ rest' /\ Forall (fun ppl => pp_objs n !! ppl.1 = Some ppl.2) pls' /\
    tail spare = (fun ppl => (pl_level ppl.2, counts (pl_items ppl.2))) <$> pls' /\
    Forall (fun p => pp_objs n !! p = Some (Player_new g)) rest') as (pl & pls' & rest' & Epl & Eh & Ef' & Hpl' & Es' & Hr').
  { destruct pls as [|[q x] pls].
    - cbn in Ef. subst rest spare. inversion Hr; subst. exists (Player_new g), [], free. repeat (split; [done|]). done.
    - cbn in Ef. injection Ef as <- ->. apply Forall_cons in Hpl as [E1 Hpl]. cbn in E1.
      exists x, pls, rest. subst spare. done. }
  exists p, pl, (mkPP (pp_objs n) free ({[p]} ∪ pp_used n)). cbn [pp_objs pp_used]. rewrite Eu in *.
  repeat (split; [first [done | by eapply Hc]|]).
  split; [|split; [done|split; [by apply Hd; left|done]]]. constructor; cbn [pp_objs pp_free pp_used]; try done.
  - intros q Hq [->%elem_of_singleton|Hqu]%elem_of_union; [done|]. revert Hqu. apply Hd. by right.
  - intros q [->%elem_of_singleton|Hqu]%elem_of_union; [by eexists|]. by apply Hu.
  - exists pls', rest'. done.
Qed.

(** Objects that are not free may change. *)
Lemma update_ok m spare p pl : pool_ok g m spare -> p ∈ pp_used m -> counts_u32 pl ->
  pool_ok g (mkPP (<[p := pl]> (pp_objs m)) (pp_free m) (pp_used m)) spare.
Proof using.
  intros [Hn Hd Hu (pls & rest & Ef & Hpl & Es & Hr) Hc] Hp Hpc. constructor; cbn [pp_objs pp_free pp_used]; try done.
  - intros q Hq. destruct (decide (q = p)) as [->|]; [rewrite lookup_insert_eq; by eexists|rewrite lookup_insert_ne by congruence; by apply Hu].
  - assert (Hq : forall q, q ∈ pp_free m -> q <> p) by (intros q Hq ->; by eapply Hd). rewrite Ef in Hq.
    exists pls, rest. split; [done|]. rewrite !Forall_forall in *. split; [|split; [done|]].
    + intros ppl Hppl. rewrite lookup_insert_ne; [by apply Hpl|]. intros E. apply (Hq ppl.1); [|done]. apply elem_of_app. left. by apply list_elem_of_fmap_2.
    + intros q Hqr. rewrite lookup_insert_ne; [by apply Hr|]. intros E. apply (Hq q); [|done]. apply elem_of_app. by right.
  - by apply map_Forall_insert_2.
Qed.

Lemma free_ok m spare p pl : pool_ok g m spare -> p ∈ pp_used m -> pp_objs m !! p = Some pl ->
  exists m', pp_free_player p m = (true, m') /\ pool_ok g m' ((pl_level pl, counts (pl_items pl)) :: spare) /\
    pp_objs m' = pp_objs m /\ pp_used m' = pp_used m ∖ {[p]}.
Proof using.
  intros [Hn Hd Hu (pls & rest & Ef & Hpl & Es & Hr) Hc] Hp Epl. unfold pp_free_player. rewrite decide_True by done.
  eexists. split; [done|]. split; [|done]. constructor; cbn [pp_objs pp_free pp_used]; try done.
  - apply NoDup_cons. split; [|done]. intros Hq. by eapply Hd.
  - intros q [->|Hq]%elem_of_cons; [set_solver|]. apply Hd in Hq. set_solver.
  - intros q [Hq _]%elem_of_difference. by apply Hu.
  - exists ((p, pl) :: pls), rest. rewrite Ef, Es. repeat (split; [done|]). split; [by constructor|done].
Qed.
End pool.

(** ** The manager *)

Section manager.
Variable g : Z.
Variable item_table : Z -> option Z.
Abbreviation rep := (represents g).

Lemma rep_new : rep PlayerManager_new Realm_new.
Proof using.
  constructor; try done; try (by left).
  - constructor; cbn [pp_free pp_objs pp_used PlayerManager_new PlayerPool_new pm_pool]; [constructor|set_solver|set_solver| |apply map_Forall_empty].
    exists [], []. repeat split; constructor.
Qed.

Lemma rep_range m R u i : rep m R -> int_sub u (pm_start m) = Some i -> i = u - pm_start m /\ pm_out_of_range i m = negb (has_user R u).
Proof using.
  intros Hr. unfold int_sub. destruct (_ && _); [|done]. intros [= <-]. split; [done|].
  unfold pm_out_of_range, has_user. rewrite <- (rp_start _ _ _ Hr), <- (rp_max _ _ _ Hr).
  destruct (Z.ltb_spec (u - pm_start m) 0), (Z.leb_spec (pm_max m) (u - pm_start m)), (Z.leb_spec (pm_start m) u), (Z.ltb_spec u (pm_start m + pm_max m)); try done; lia.
Qed.

Lemma rep_online m R u : rep m R -> has_user R u = true ->
  exists l, pm_online m = role_ids l /\ l !! Z.to_nat (u - pm_start m) = Some (role_of R u) /\ pm_start m <= u.
Proof using.
  intros Hr Hu. assert (Hin := Hu). unfold has_user in Hin. apply andb_prop in Hin as [H1%Z.leb_le H2%Z.ltb_lt].
  rewrite <- (rp_start _ _ _ Hr), <- (rp_max _ _ _ Hr) in *.
  destruct (rp_online _ _ _ Hr) as [(_ & _ & E & _)|(_ & _ & l & E & El)]; [lia|]. exists l. auto.
Qed.

(** [get] finds the hero of a user. *)
Lemma rep_get m R u r : rep m R -> pm_get u m = Some r ->
  match r with
  | None => hero_of R u = None
  | Some p => has_user R u = true /\ pm_all m !! role_of R u = Some p /\
      exists pl, pm_player p m = Some pl /\ pl_role_id pl = role_of R u /\ hero_of R u = Some (player_hero pl)
  end.
Proof using.
  intros Hr. unfold pm_get, hero_of. destruct (int_sub u (pm_start m)) as [i|] eqn:Ei; [|done]. cbn [mbind option_bind].
  destruct (rep_range _ _ _ _ Hr Ei) as [-> ->]. destruct (has_user R u) eqn:Hu; cbn [negb]; [|by intros [= <-]].
  destruct (rep_online _ _ _ Hr Hu) as (l & Eo & El & _). unfold role_ids_is_null, role_ids_get. rewrite Eo, El. cbn [mbind option_bind].
  intros [= <-]. unfold getByRoleId. rewrite (rp_heroes _ _ _ Hr). destruct (pm_all m !! role_of R u) as [p|] eqn:Ea; [|done].
  destruct (rp_role _ _ _ Hr _ _ Ea) as (_ & pl & Epl & Erole). repeat (split; [done|]). exists pl. cbn [mbind option_bind]. by rewrite Epl.
Qed.

Lemma rep_inj m R r r' p : rep m R -> pm_all m !! r = Some p -> pm_all m !! r' = Some p -> r = r'.
Proof using. intros Hr H1 H2. destruct (rp_role _ _ _ Hr _ _ H1) as (_ & x & E & <-), (rp_role _ _ _ Hr _ _ H2) as (_ & y & E' & <-). congruence. Qed.

(** A change of the player of a role changes its hero. *)
Lemma rep_update m R r p pl f : rep m R -> pm_all m !! r = Some p -> pm_player p m = Some pl ->
  pl_role_id (f pl) = pl_role_id pl -> counts_u32 (f pl) ->
  exists m', pm_update p f m = Some m' /\ rep m' (set_hero R r (player_hero (f pl))).
Proof using.
  intros Hr Ha Epl Hrole Hc. unfold pm_update. rewrite Epl. cbn [mbind option_bind]. eexists. split; [done|].
  assert (Hrep := Hr). destruct Hr as [Hp Hacc Hs Hm Ho Hh Hrl]. destruct (Hrl _ _ Ha) as [Hu _].
  constructor; cbn [pm_set_pool pm_pool pm_accounts pm_start pm_max pm_online pm_all set_hero rl_start rl_max rl_roles rl_heroes rl_spare]; try done.
  - by apply update_ok.
  - intros r'. unfold pm_player. cbn [pm_set_pool pm_pool pm_all pp_objs]. destruct (decide (r' = r)) as [->|Hne].
    + rewrite lookup_insert_eq, Ha. cbn [mbind option_bind]. by rewrite lookup_insert_eq.
    + rewrite lookup_insert_ne by congruence. rewrite Hh. destruct (pm_all m !! r') as [q|] eqn:Eq; [|done]. cbn [mbind option_bind].
      rewrite lookup_insert_ne; [done|]. intros <-. apply Hne. by eapply rep_inj.
  - intros r' q Eq. destruct (Hrl _ _ Eq) as (Hqu & x & Ex & <-). split; [done|]. unfold pm_player. cbn [pm_set_pool pm_pool pp_objs].
    destruct (decide (q = p)) as [->|]; [rewrite lookup_insert_eq|rewrite lookup_insert_ne by congruence; eauto]. exists (f pl). split; [done|]. congruence.
Qed.

Lemma rep_init m R st mx : rep m R -> rep (snd (pm_init st mx m)) (realm_step item_table g (ev_users st mx) R).
Proof using.
  intros Hr. unfold pm_init. cbn [realm_step]. destruct ((st <=? 0) || (mx <=? 0)) eqn:E; [done|]. cbn [orb].
  apply orb_false_elim in E as [E1%Z.leb_gt E2%Z.leb_gt]. assert (Hrep := Hr).
  destruct Hr as [Hp Hacc Hs Hm [(Eo & E3 & E4 & E5)|(E3 & E4 & l & Eo & El)] Hh Hrl]; unfold role_ids_is_null; rewrite Eo.
  - rewrite <- Hm, E4. cbn [Z.ltb Z.compare snd]. constructor; try done. cbn [pm_start pm_max pm_online]. right. split; [done|]. split; [done|].
    eexists. split; [done|]. intros u Hu. unfold has_user in Hu. cbn [rl_start rl_max] in Hu. apply andb_prop in Hu as [H1%Z.leb_le H2%Z.ltb_lt].
    unfold role_of. cbn [rl_roles]. rewrite E5, lookup_empty. cbn [default from_option]. apply lookup_replicate_2. lia.
  - rewrite <- Hm, (proj2 (Z.ltb_lt _ _)) by done. done.
Qed.

(** ** Entering *)

Lemma online_insert (l : list Z) R m u role :
  pm_start m = rl_start R -> (forall u, has_user R u = true -> l !! Z.to_nat (u - pm_start m) = Some (role_of R u)) -> has_user R u = true ->
  forall R', rl_start R' = rl_start R -> rl_max R' = rl_max R -> rl_roles R' = <[u := role]> (rl_roles R) ->
  forall u', has_user R' u' = true -> <[Z.to_nat (u - pm_start m) := role]> l !! Z.to_nat (u' - pm_start m) = Some (role_of R' u').
Proof using.
  intros Hs Hl Hu R' E1 E2 E3 u'. unfold has_user. rewrite E1, E2. intros Hu'. assert (Hb := Hu). assert (Hb' := Hu').
  unfold has_user in Hb. apply andb_prop in Hb as [B1%Z.leb_le _]. apply andb_prop in Hb' as [B2%Z.leb_le _].
  unfold role_of. rewrite E3. destruct (decide (u' = u)) as [->|Hne].
  - rewrite lookup_insert_eq. cbn. apply list_lookup_insert_eq. eapply lookup_lt_Some. by apply Hl.
  - rewrite lookup_insert_ne by congruence. rewrite list_lookup_insert_ne by lia. by apply Hl.
Qed.

Lemma rep_malloc m R u role r m' : rep m R -> hero_of R u = None -> pm_malloc g u role m = Some (r, m') ->
  rep m' (realm_step item_table g (ev_enter u role) R).
Proof using.
  intros Hr Hno. unfold pm_malloc. destruct (int_sub u (pm_start m)) as [i|] eqn:Ei; [|done]. cbn [mbind option_bind].
  destruct (rep_range _ _ _ _ Hr Ei) as [-> ->]. cbn [realm_step]. rewrite Hno. destruct (has_user R u) eqn:Hu; cbn [negb];
    [|rewrite orb_true_r; intros [= <- <-]; done].
  destruct (rep_online _ _ _ Hr Hu) as (l & Eo & El & Hle). unfold role_ids_is_null, role_ids_set. rewrite Eo, El. cbn [orb mbind option_bind].
  cbn [pm_set_online pm_pool]. destruct (malloc_ok g _ _ (rp_pool _ _ _ Hr)) as (p & pl & pool & Emal & Epl & Ed & Hc & Hok & Hg & Hpu & Eu).
  rewrite Emal. cbn [mbind option_bind]. unfold pm_update, pm_player. cbn [pm_set_pool pm_pool]. rewrite Epl. cbn [mbind option_bind].
  intros E. apply (inj Some), pair_equal_spec in E as [_ <-]. fold (realm_spare g R) in Ed. rewrite <- Ed.
  destruct Hr as [Hp Hacc Hs Hm Ho Hh Hrl].
  assert (Hpn : forall r q, pm_all m !! r = Some q -> q <> p) by (intros ? ? Eq ->; destruct (Hrl _ _ Eq); done).
  constructor; cbn [pm_set_pool pm_set_online pm_set_all pm_pool pm_accounts pm_start pm_max pm_online pm_all rl_start rl_max rl_roles rl_heroes rl_spare]; try done.
  - apply update_ok; [done| |done]. rewrite Eu. set_solver.
  - right. destruct Ho as [(Eo' & _)|(H1 & H2 & l' & Eo' & Hl)]; [congruence|]. split; [done|]. split; [done|].
    rewrite Eo in Eo'. injection Eo' as <-. eexists. split; [done|]. by apply (online_insert l R m u role).
  - intros r'. unfold insert_new, pm_player. cbn [pm_set_pool pm_set_online pm_set_all pm_pool pm_all pp_objs]. rewrite (Hh role).
    assert (Hold : forall q, pm_all m !! r' = Some q ->
      rl_heroes R !! r' = player_hero <$> <[p := pl_set_ids u role pl]> (pp_objs pool) !! q).
    { intros q Eq. rewrite Hh, Eq. cbn [mbind option_bind]. rewrite lookup_insert_ne by (intros <-; by eapply Hpn).
      destruct (Hrl _ _ Eq) as (_ & x & Ex & _). unfold pm_player in *. rewrite Ex. by rewrite (Hg _ _ Ex). }
    destruct (pm_all m !! role) as [q|] eqn:Eq; cbn [mbind option_bind].
    + destruct (Hrl _ _ Eq) as (_ & x & Ex & _). rewrite Ex. cbn [fmap option_fmap option_map].
      destruct (pm_all m !! r') as [q'|] eqn:Eq'; cbn [mbind option_bind]; [by apply Hold|by rewrite Hh, Eq'].
    + destruct (decide (r' = role)) as [->|Hne].
      * rewrite !lookup_insert_eq. cbn [mbind option_bind]. by rewrite lookup_insert_eq.
      * rewrite !lookup_insert_ne by congruence. destruct (pm_all m !! r') as [q'|] eqn:Eq'; cbn [mbind option_bind]; [by apply Hold|by rewrite Hh, Eq'].
  - intros r' q. unfold insert_new, pm_player. cbn [pm_set_pool pm_set_online pm_set_all pm_pool pm_all pp_objs pp_used]. rewrite Eu.
    assert (Hold : pm_all m !! r' = Some q -> q ∈ {[p]} ∪ pp_used (pm_pool m) /\
      exists x, <[p := pl_set_ids u role pl]> (pp_objs pool) !! q = Some x /\ pl_role_id x = r').
    { intros Eq. rewrite lookup_insert_ne by (intros <-; by eapply Hpn). destruct (Hrl _ _ Eq) as (Hq & x & Ex & Er). split; [set_solver|]. eauto. }
    destruct (pm_all m !! role) eqn:Eq; [done|]. destruct (decide (r' = role)) as [->|Hne]; [|by rewrite lookup_insert_ne].
    rewrite lookup_insert_eq. intros [= <-]. split; [set_solver|]. rewrite lookup_insert_eq. by eexists.
Qed.

(** ** Leaving *)

Lemma rep_free m R u v r m' : rep m R -> is_Some (hero_of R u) -> pm_free v m = Some (r, m') ->
  rep m' (realm_step item_table g (ev_leave u v) R).
Proof using.
  intros Hr [h Hh0]. unfold pm_free. destruct (int_sub v (pm_start m)) as [i|] eqn:Ei; [|done]. cbn [mbind option_bind].
  destruct (rep_range _ _ _ _ Hr Ei) as [-> ->]. cbn [realm_step]. rewrite Hh0. unfold hero_of at 1. destruct (has_user R v) eqn:Hu; cbn [negb];
    [|intros [= <- <-]; done].
  destruct (rep_online _ _ _ Hr Hu) as (l & Eo & El & Hle). unfold role_ids_get. rewrite Eo, El. cbn [mbind option_bind]. rewrite (rp_heroes _ _ _ Hr).
  destruct (pm_all m !! role_of R v) as [p|] eqn:Ea; [|intros [= <- <-]; done].
  destruct (rp_role _ _ _ Hr _ _ Ea) as (Hpu & pl & Epl & Erole).
  destruct (free_ok g _ _ _ _ (rp_pool _ _ _ Hr) Hpu Epl) as (pool & -> & Hok & Eobj & Eus). cbn [negb mbind option_bind].
  unfold pm_player in Epl. unfold pm_player at 1. rewrite Epl. cbn [fmap option_fmap option_map].
  assert (Hrep := Hr). destruct Hr as [Hp Hacc Hs Hm Ho Hh Hrl].
  cbn [pm_set_pool pm_accounts]. rewrite Hacc. unfold remove_2. cbn [two_map_ BiMap_new]. rewrite lookup_empty. cbn [mbind option_bind].
  unfold role_ids_set. cbn [pm_set_pool pm_set_accounts pm_online pm_start]. rewrite Eo, El. cbn [mbind option_bind].
  intros E. apply (inj Some), pair_equal_spec in E as [_ <-].
  constructor; cbn [pm_set_pool pm_set_online pm_set_all pm_set_accounts pm_pool pm_accounts pm_start pm_max pm_online pm_all rl_start rl_max rl_roles rl_heroes rl_spare player_hero h_level h_items]; try done.
  - right. destruct Ho as [(Eo' & _)|(H1 & H2 & l' & Eo' & Hl)]; [congruence|]. split; [done|]. split; [done|].
    rewrite Eo in Eo'. injection Eo' as <-. eexists. split; [done|]. by apply (online_insert l R m v 0).
  - intros r'. unfold pm_player. cbn [pm_set_pool pm_set_online pm_set_all pm_set_accounts pm_pool pm_all pp_objs]. rewrite Eobj.
    destruct (decide (r' = role_of R v)) as [->|Hne]; [by rewrite !lookup_delete_eq|]. rewrite !lookup_delete_ne by congruence. apply Hh.
  - intros r' q [Hne Eq]%lookup_delete_Some. destruct (Hrl _ _ Eq) as (Hq & x & Ex & Er). rewrite Eus. unfold pm_player. cbn [pm_set_pool pm_set_online pm_set_all pm_set_accounts pm_pool].
    split; [|exists x; by rewrite Eobj]. apply elem_of_difference. split; [done|]. intros ->%elem_of_singleton. apply Hne. by eapply rep_inj.
Qed.
End manager.

(** ** Items *)

Section item_counts.
Variable item_table : Z -> option Z.

Definition items_u32 (items : gmap Z Item) : Prop := map_Forall (fun _ it => is_u32 (it_item_num it)) items.

Lemma counts_lookup items t : counts items !! t = it_item_num <$> items !! t.
Proof using. apply lookup_fmap. Qed.

Lemma counts_insert items t it : counts (<[t := it]> items) = <[t := it_item_num it]> (counts items).
Proof using. apply fmap_insert. Qed.

Lemma add_item_counts t n items : items_u32 items -> is_u32 n ->
  let '(ok, items') := add_item item_table t n items in
  items_u32 items' /\ counts items' = count_add item_table t n (counts items) /\ (ok = false -> items' = items).
Proof using.
  intros Hi Hn. unfold add_item, count_add. destruct (item_table t) as [mx|]; [|cbn; auto]. rewrite counts_lookup.
  destruct (items !! t) as [it|] eqn:E; cbn [fmap option_fmap option_map default from_option].
  - rewrite counts_insert. cbn [it_item_num]. split; [|split; done]. apply map_Forall_insert_2; [|done].
    cbn [it_item_num]. case_match; apply u32_range.
  - rewrite Z.add_0_l, (u32_id n) by done. rewrite counts_insert. cbn [it_item_num]. split; [|split; done].
    apply map_Forall_insert_2; [|done]. cbn [it_item_num]. case_match; [apply u32_range|done].
Qed.

Lemma rm_item_counts t n items : items_u32 items -> is_u32 n ->
  let '(ok, items') := rm_item t n items in
  items_u32 items' /\ counts items' = count_rm t n (counts items) /\ (ok = false -> items' = items).
Proof using.
  intros Hi Hn. unfold rm_item, count_rm. rewrite counts_lookup. destruct (items !! t) as [it|] eqn:E; cbn [fmap option_fmap option_map]; [|cbn; auto].
  pose proof (Hi _ _ E) as Hit. cbn beta in Hit. destruct (Z.ltb_spec (it_item_num it) n); [cbn; auto|].
  unfold is_u32 in *. rewrite counts_insert. cbn [it_item_num]. rewrite u32_id by (unfold is_u32; lia).
  split; [|split; done]. apply map_Forall_insert_2; [|done]. cbn [it_item_num]. unfold is_u32. lia.
Qed.

Lemma gm_item_args_u32 params t n : gm_item_args params = Some (t, n) -> is_u32 n.
Proof using.
  unfold gm_item_args. destruct (params !! 2%nat); [|done]. destruct (params !! 3%nat); [|done]. cbn [mbind option_bind]. intros [= _ <-]. apply u32_range.
Qed.
End item_counts.

(** Adding items gives the sum modulo 2^32, cut to the maximum of the item table only when the sum
    is less than 2^31: a larger sum is kept, so that the count exceeds the maximum exactly when the
    sum wraps around to 2^31 or more.  Removing more than there is, or what is not there, is refused;
    and removing what was added gives the counts back when the sum is within the maximum. *)
Theorem item_counts_capped_iff (item_table : Z -> option Z) t n mx items :
  items_u32 items -> is_u32 n -> item_table t = Some mx -> 0 <= mx < 2 ^ 31 ->
  let old := default 0 (counts items !! t) in
  let k := u32 (old + n) in
  let '(ok, items') := add_item item_table t n items in
  ok = true /\ (forall t', t' <> t -> items' !! t' = items !! t') /\
  counts items' !! t = Some (if k <? 2 ^ 31 then Z.min k mx else k) /\
  (default 0 (counts items' !! t) <= mx <-> k < 2 ^ 31) /\
  (rm_item t n items = (false, items) <-> counts items !! t = None \/ old < n) /\
  (old + n <= mx -> is_Some (items !! t) -> counts (snd (rm_item t n items')) = counts items).
Proof.
  intros Hi Hn Ht Hm old k. assert (Hk : is_u32 k) by apply u32_range.
  pose proof (add_item_counts item_table t n items Hi Hn) as Hadd. destruct (add_item item_table t n items) as [ok items'] eqn:Ea.
  destruct Hadd as (Hi' & Hc & _). unfold count_add in Hc. rewrite Ht in Hc. fold old k in Hc.
  assert (Hv : (if mx <? s32 k then u32 mx else k) = if k <? 2 ^ 31 then Z.min k mx else k).
  { clearbody k. unfold is_u32 in Hk. rewrite (u32_id mx) by (unfold is_u32; lia). destruct (Z.ltb_spec k (2 ^ 31)).
    - rewrite s32_id by (unfold is_s32; lia). destruct (Z.ltb_spec mx k); lia.
    - assert (s32 k = k - 2 ^ 32) as -> by (clear - Hk H; unfold s32; lia_mod). destruct (Z.ltb_spec mx (k - 2 ^ 32)); lia. }
  rewrite Hv in Hc. assert (Hct : counts items' !! t = Some (if k <? 2 ^ 31 then Z.min k mx else k)) by (by rewrite Hc, lookup_insert_eq).
  split; [by unfold add_item in Ea; rewrite Ht in Ea; destruct (items !! t); injection Ea as <- _|].
  split. { intros t' Hne. unfold add_item in Ea. rewrite Ht in Ea. destruct (items !! t); injection Ea as _ <-; by rewrite lookup_insert_ne. }
  split; [done|]. split; [rewrite Hct; cbn [default from_option id]; clear - Hm; clearbody k; destruct (Z.ltb_spec k (2 ^ 31)); lia|]. split.
  - unfold rm_item, old. rewrite counts_lookup. destruct (items !! t) as [it|]; cbn [fmap option_fmap option_map default from_option id]; [|split; auto].
    destruct (Z.ltb_spec (it_item_num it) n); [split; auto|]. split; [done|]. intros [?|?]; [done|lia].
  - intros Hs [it Hit]. pose proof (rm_item_counts t n items' Hi' Hn) as Hrm. destruct (rm_item t n items') as [ok2 items2]. destruct Hrm as (_ & Hc2 & _).
    cbn [snd]. rewrite Hc2. unfold count_rm. rewrite Hct. pose proof (Hi _ _ Hit) as Hold. cbn beta in Hold. unfold is_u32 in *.
    assert (Eold : counts items !! t = Some old) by (unfold old; rewrite counts_lookup, Hit; done).
    assert (Hov : 0 <= old) by (unfold old; rewrite counts_lookup, Hit; cbn; lia).
    assert (Ek : k = old + n) by (apply u32_id; unfold is_u32; lia).
    rewrite (proj2 (Z.ltb_lt k (2 ^ 31))) by lia. rewrite Z.min_l by lia. rewrite (proj2 (Z.ltb_ge _ _)) by lia.
    rewrite Hc, insert_insert_eq. replace (k - n) with old by lia. by apply insert_id.
Qed.

(** ** The messages *)

Section messages.
Variable MGR : Z.
Variable item_table : Z -> option Z.
Variable g : Z.
Variable tmp : bytes.
Context `{ServerMessages}.
Abbreviation rep := (represents g).
Abbreviation step := (realm_step item_table g).

#[local] Opaque default_cmds gm_word.

(** A connection pointer of the server points to a connection. *)
Definition links_ok (s : GameServer) : Prop :=
  forall c, gs_gate_conn s = Some c \/ gs_db_conn s = Some c -> is_Some (nt_conns (gs_net s) !! (MGR, c)).

Definition same_server (s s' : GameServer) : Prop := gs_cmds s' = gs_cmds s /\ (links_ok s -> links_ok s').

#[local] Instance same_server_preorder : PreOrder same_server.
Proof. split; [done|]. intros a b c [E1 L1] [E2 L2]. split; [congruence|auto]. Qed.

Lemma same_server_net n s : (forall k, is_Some (nt_conns (gs_net s) !! k) -> is_Some (nt_conns n !! k)) -> same_server s (gs_set_net n s).
Proof using. intros Hn. split; [done|]. intros Hl c Hc. apply Hn, Hl, Hc. Qed.

Lemma nt_send_conns c user msg_id data len s x n : nt_send MGR c user msg_id data len (gs_net s) = Some (x, n) -> same_server s (gs_set_net n s).
Proof using.
  intros E. apply same_server_net. unfold nt_send in E. apply bind_Some in E as (st & _ & E). case_decide; [|by injection E as _ <-].
  apply bind_Some in E as (_ & _ & E). apply bind_Some in E as (d & _ & E). by injection E as _ <-.
Qed.

(** The server goes from [s] to [s'] and what happened to its players is [e]. *)
Definition follows (e : RealmEvent) (s s' : GameServer) : Prop :=
  forall R, rep (gs_players s) R -> rep (gs_players s') (step e R) /\ same_server s s'.

Abbreviation keeps_players := (follows ev_none).

Lemma follows_same s s' : gs_players s' = gs_players s -> same_server s s' -> keeps_players s s'.
Proof using. intros E1 E2 R HR. by rewrite E1. Qed.

Lemma follows_refl s : keeps_players s s.
Proof using. by apply follows_same. Qed.

Lemma follows_after e s s' s'' : follows e s s' -> keeps_players s' s'' -> follows e s s''.
Proof using. intros H1 H2 R HR. destruct (H1 R HR) as [HR' E1]. destruct (H2 _ HR') as [HR2 E2]. split; [done|by etrans]. Qed.

Lemma follows_before e s s' s'' : keeps_players s s' -> follows e s' s'' -> follows e s s''.
Proof using. intros H1 H2 R HR. destruct (H1 R HR) as [HR' E1]. destruct (H2 _ HR') as [HR2 E2]. split; [done|by etrans]. Qed.

Lemma gs_send_keeps conn user msg_id data len s r s' : gs_send MGR conn user msg_id data len s = Some (r, s') -> keeps_players s s'.
Proof using.
  unfold gs_send. destruct conn; [|intros [= <- <-]; apply follows_refl]. destruct (nt_send _ _ _ _ _ _ _) as [[x n]|] eqn:E; [|done].
  cbn [mbind option_bind]. intros [= <- <-]. apply follows_same; [done|]. by eapply nt_send_conns.
Qed.

Lemma reply_keeps {M} `{Message M} (m : M) send ok s r s' :
  (forall t len s r s', send t len s = Some (r, s') -> keeps_players s s') -> reply tmp m send ok s = Some (r, s') -> keeps_players s s'.
Proof using.
  intros Hs. unfold reply. destruct (SerializeToArray m tmp); [|intros [= <- <-]; apply follows_refl].
  destruct (send _ _ s) as [[x s1]|] eqn:E; [|done]. cbn [mbind option_bind]. intros [= <- <-]. by eapply Hs.
Qed.

Ltac keeps E := eapply reply_keeps in E; [exact E|intros ?????; apply gs_send_keeps].

Lemma set_hero_id R role h : rl_heroes R !! role = Some h -> set_hero R role h = R.
Proof using. intros E. unfold set_hero. rewrite insert_id by done. by destruct R. Qed.

Lemma rep_hero R m role p pl : rep m R -> pm_all m !! role = Some p -> pm_player p m = Some pl -> rl_heroes R !! role = Some (player_hero pl).
Proof using. intros HR Ha Epl. rewrite (rp_heroes _ _ _ HR), Ha. cbn [mbind option_bind]. by rewrite Epl. Qed.

Lemma rep_counts R m p pl : rep m R -> pm_player p m = Some pl -> items_u32 (pl_items pl).
Proof using. intros HR Epl. exact (po_range _ _ _ (rp_pool _ _ _ HR) p pl Epl). Qed.

(** Changing the items of a player, and telling the database. *)
Lemma gm_change_follows {M} `{Message M} change msg_id (request : M) role s r s' R p pl :
  gm_change_items MGR tmp change msg_id request role s = Some (r, s') ->
  rep (gs_players s) R -> pm_all (gs_players s) !! role = Some p -> pm_player p (gs_players s) = Some pl ->
  (let '(ok, items) := change (pl_items pl) in items_u32 items /\ (ok = false -> items = pl_items pl)) ->
  rep (gs_players s') (set_hero R role (mkHero (pl_user_id pl) (pl_level pl) (counts (snd (change (pl_items pl)))))) /\ same_server s s'.
Proof using item_table.
  intros E HR Ha Epl. unfold gm_change_items, getByRoleId in E. rewrite Ha, Epl in E. cbn [mbind option_bind] in E.
  destruct (change (pl_items pl)) as [ok items] eqn:Ec. intros [Hi Hok]. cbn [snd]. destruct ok; cbn [negb] in E.
  - destruct (rep_update g _ _ _ _ _ (pl_set_items items) HR Ha Epl) as (m' & Em & Hm'); [done|done|]. rewrite Em in E. cbn [mbind option_bind] in E.
    change (player_hero (pl_set_items items pl)) with (mkHero (pl_user_id pl) (pl_level pl) (counts items)) in Hm'.
    destruct (SerializeToBuffer request tmp 128); [|by injection E as <- <-].
    destruct (sendDB _ _ _ _ _) as [[x s2]|] eqn:Es; [|discriminate E]. cbn [mbind option_bind] in E. injection E as <- <-.
    apply gs_send_keeps in Es. apply (Es _ Hm').
  - injection E as <- <-. rewrite (Hok eq_refl). rewrite set_hero_id; [done|]. by apply (rep_hero R _ _ _ _ HR Ha).
Qed.

Lemma gm_levelup_follows role params s r s' R p pl a :
  gm_levelup role params s = Some (r, s') -> params !! 2%nat = Some a ->
  rep (gs_players s) R -> pm_all (gs_players s) !! role = Some p -> pm_player p (gs_players s) = Some pl ->
  rep (gs_players s') (set_hero R role (mkHero (pl_user_id pl) (s32 (strtoul a)) (counts (pl_items pl)))) /\ same_server s s'.
Proof using.
  intros E Ea HR Ha Epl. unfold gm_levelup, getByRoleId in E. rewrite Ea, Ha in E. cbn [mbind option_bind] in E. rewrite Epl in E. cbn [mbind option_bind] in E.
  destruct (Z.eqb_spec (s32 (strtoul a)) (pl_level pl)) as [El|El].
  - injection E as <- <-. rewrite El, set_hero_id; [done|]. by apply (rep_hero R _ _ _ _ HR Ha).
  - destruct (rep_update g _ _ _ _ _ (pl_set_level (s32 (strtoul a))) HR Ha Epl) as (m' & Em & Hm'); [done|exact (rep_counts _ _ _ _ HR Epl)|].
    rewrite Em in E. cbn [mbind option_bind] in E. by injection E as <- <-.
Qed.

(** A command of a user with a hero. *)
Lemma execute_follows R s user role results ok s' p pl :
  execute_command MGR item_table tmp role results s = Some (ok, s') -> gs_cmds s = default_cmds -> results !! 0%nat = Some (gm_word) ->
  rep (gs_players s) R -> role = role_of R user -> hero_of R user = Some (player_hero pl) ->
  pm_all (gs_players s) !! role = Some p -> pm_player p (gs_players s) = Some pl ->
  rep (gs_players s') (step (gm_event user results) R) /\ same_server s s'.
Proof using.
  intros E Ecm E0 HR Hrole Hh Ha Epl. unfold execute_command in E. rewrite E0 in E. cbn [mbind option_bind] in E.
  rewrite bool_decide_eq_true_2 in E by done. cbn [negb] in E. unfold gm_event.
  set (cmds := default_cmds) in *. clearbody cmds.
  destruct (results !! 1%nat) as [r1|]; [|done]. cbn [mbind option_bind] in *. rewrite Ecm in E.
  destruct (cmds !! r1) as [cmd|]; [|by injection E as <- <-].
  destruct (gm_call _ _ _ _ _ _ s) as [[r s1]|] eqn:Ec; [|discriminate E]. cbn [mbind option_bind] in E. injection E as _ <-.
  pose proof (rep_counts _ _ _ _ HR Epl) as Hi.
  destruct (gm_func cmd); cbn [gm_call] in Ec; try (injection Ec as _ <-; done).
  - unfold gm_add_item in Ec. destruct (gm_item_args results) as [[t n]|] eqn:Eg; [|discriminate Ec]. cbn [mbind option_bind] in Ec.
    cbn [realm_step]. rewrite Hh. pose proof (add_item_counts item_table t n _ Hi (gm_item_args_u32 _ _ _ Eg)) as Hadd.
    eapply gm_change_follows in Ec; [|exact HR|exact Ha|exact Epl|destruct (add_item _ _ _ _); naive_solver].
    rewrite <- Hrole. destruct (add_item _ _ _ _) as [ok' items']. destruct Hadd as (_ & Hc & _). cbn [snd player_hero h_user h_level h_items] in *. by rewrite <- Hc.
  - unfold gm_rm_item in Ec. destruct (gm_item_args results) as [[t n]|] eqn:Eg; [|discriminate Ec]. cbn [mbind option_bind] in Ec.
    cbn [realm_step]. rewrite Hh. pose proof (rm_item_counts t n _ Hi (gm_item_args_u32 _ _ _ Eg)) as Hadd.
    eapply gm_change_follows in Ec; [|exact HR|exact Ha|exact Epl|destruct (rm_item _ _ _); naive_solver].
    rewrite <- Hrole. destruct (rm_item _ _ _) as [ok' items']. destruct Hadd as (_ & Hc & _). cbn [snd player_hero h_user h_level h_items] in *. by rewrite <- Hc.
  - destruct (results !! 2%nat) as [a|] eqn:E2; [|unfold gm_levelup in Ec; by rewrite E2 in Ec].
    eapply gm_levelup_follows in Ec; [|exact E2|exact HR|exact Ha|exact Epl].
    destruct (gm_item_args results); cbn [realm_step]; rewrite Hh, <- Hrole; done.
Qed.
(** ** Every message does what it means *)

Lemma gm_event_no_hero user results R : hero_of R user = None -> step (gm_event user results) R = R.
Proof using.
  intros Hh. unfold gm_event. set (cmd := _ ≫= _). clearbody cmd. destruct cmd as [cmd|]; [|done].
  destruct (gm_func cmd), (gm_item_args results) as [[t n]|]; try done; try (destruct (results !! 2%nat); [|done]);
    cbn [realm_step]; by rewrite Hh.
Qed.

Lemma chat_command_follows user results data s r s' :
  gs_chat_command MGR item_table tmp user results data s = Some (r, s') -> gs_cmds s = default_cmds -> results !! 0%nat = Some gm_word ->
  follows (gm_event user results) s s'.
Proof using.
  intros E Ecm E0 R HR. unfold gs_chat_command in E. destruct (pm_get user (gs_players s)) as [p|] eqn:Eg; [|discriminate E]. cbn [mbind option_bind] in E.
  pose proof (rep_get _ _ _ _ _ HR Eg) as Hg. destruct p as [p|].
  - destruct Hg as (_ & Ha & pl & Epl & Erole & Eh). rewrite Epl in E. cbn [mbind option_bind] in E.
    destruct (execute_command _ _ _ _ _ s) as [[ok s1]|] eqn:Ex; [|discriminate E]. cbn [mbind option_bind] in E. injection E as _ <-.
    eapply execute_follows; [exact Ex|done|done|exact HR|done|exact Eh| |exact Epl]. by rewrite Erole.
  - injection E as _ <-. split; [|done]. by rewrite gm_event_no_hero.
Qed.

Lemma gs_chat_notify_keeps request data s r s' : gs_chat_notify MGR tmp request data s = Some (r, s') -> keeps_players s s'.
Proof using.
  unfold gs_chat_notify, send_gate. destruct (getByRoleId _ _) as [p|]; [|intros [= <- <-]; apply follows_refl].
  destruct (SerializeToArray _ tmp); [|intros [= <- <-]; apply follows_refl].
  destruct (pm_player p _) as [pl|]; [|done]. cbn [mbind option_bind]. destruct (pl_user_id pl =? 0); [cbn; intros [= <- <-]; apply follows_refl|].
  destruct (sendGate_user _ _ _ _ _ s) as [[x s1]|] eqn:E; [|done]. cbn [mbind option_bind]. intros [= _ <-]. by eapply gs_send_keeps.
Qed.

Lemma processChat_follows conn_id user data s r s' :
  gs_processChat MGR item_table tmp conn_id user data s = Some (r, s') -> is_Some (get_connection conn_id MGR (gs_net s)) ->
  gs_cmds s = default_cmds -> follows (gate_event user MSGID_C2S_CHAT_REQUEST data) s s'.
Proof using.
  unfold gs_processChat. intros E [st Hst] Ecm. rewrite Hst in E. change (gate_event user MSGID_C2S_CHAT_REQUEST data) with
    (match (ParseFromArray data : option MsgC2S_ChatRequest) with
     | Some m => match parse_command (cq_content m) with Some results => gm_event user results | None => ev_none end
     | None => ev_none end).
  destruct (ParseFromArray data : option MsgC2S_ChatRequest) as [m|]; [|injection E as _ <-; apply follows_refl].
  destruct (parse_command (cq_content m)) as [results|] eqn:Ep.
  - eapply chat_command_follows; [exact E|done|]. unfold parse_command in Ep. destruct (_ <=? _)%nat; [discriminate Ep|]. case_decide; [|discriminate Ep]. by injection Ep as <-.
  - destruct (SerializeToArray _ tmp); [|injection E as _ <-; apply follows_refl].
    destruct (nt_send _ _ _ _ _ _ _) as [[x n]|] eqn:En; [|discriminate E]. cbn [mbind option_bind] in E.
    assert (keeps_players s (gs_set_net n s)) by (apply follows_same; [done|by eapply nt_send_conns]).
    destruct (x <? 0); [by injection E as _ <-|]. eapply follows_after; [done|]. by eapply gs_chat_notify_keeps.
Qed.

Lemma processEnterGame_follows user data s r s' :
  processEnterGame MGR g tmp user data s = Some (r, s') -> follows (gate_event user MSGID_GT2GS_ENTER_GAME_REQUEST data) s s'.
Proof using.
  unfold processEnterGame. intros E. change (gate_event user MSGID_GT2GS_ENTER_GAME_REQUEST data) with
    (match (ParseFromArray data : option MsgGT2GS_EnterGameRequest) with
     | Some m => if user <=? 0 then ev_none else ev_enter user (eg_role_id m) | None => ev_none end).
  destruct (ParseFromArray data : option MsgGT2GS_EnterGameRequest) as [m|]; [|injection E as _ <-; apply follows_refl].
  destruct (user <=? 0); [injection E as _ <-; apply follows_refl|].
  destruct (pm_get user (gs_players s)) as [p|] eqn:Eg; [|discriminate E]. cbn [mbind option_bind] in E.
  destruct (match p with Some p => _ | None => _ end) as [[p' m']|] eqn:Em; [|discriminate E]. cbn [mbind option_bind] in E.
  assert (follows (ev_enter user (eg_role_id m)) s (gs_set_players m' s)) as Hf.
  { intros R HR. split; [|done]. cbn [gs_set_players gs_players]. pose proof (rep_get _ _ _ _ _ HR Eg) as Hg. destruct p as [p|].
    - injection Em as _ <-. destruct Hg as (Hu & _ & pl & _ & _ & Eh). cbn [realm_step]. by rewrite Hu, Eh.
    - by eapply rep_malloc. }
  destruct (reply _ _ _ _ (gs_set_players m' s)) as [[x s1]|] eqn:E1; [|discriminate E]. cbn [mbind option_bind] in E.
  eapply reply_keeps in E1; [|intros ?????; apply gs_send_keeps]. destruct (x <? 0).
  - injection E as _ <-. by eapply follows_after.
  - eapply follows_after; [exact Hf|]. eapply follows_after; [exact E1|]. keeps E.
Qed.

Lemma processLeaveGame_follows user data s r s' :
  processLeaveGame user data s = Some (r, s') -> follows (gate_event user MSGID_GT2GS_LEAVE_GAME_REQUEST data) s s'.
Proof using.
  unfold processLeaveGame. intros E. change (gate_event user MSGID_GT2GS_LEAVE_GAME_REQUEST data) with
    (match (ParseFromArray data : option MsgGT2GS_LeaveGameRequest) with Some m => ev_leave user (s32 (lg_role_id m)) | None => ev_none end).
  destruct (ParseFromArray data : option MsgGT2GS_LeaveGameRequest) as [m|]; [|injection E as _ <-; apply follows_refl].
  destruct (pm_get user (gs_players s)) as [p|] eqn:Eg; [|discriminate E]. cbn [mbind option_bind] in E. intros R HR.
  pose proof (rep_get _ _ _ _ _ HR Eg) as Hg. destruct p as [p|].
  - destruct (pm_free _ _) as [[b m']|] eqn:Ef; [|discriminate E]. cbn [mbind option_bind] in E. injection E as _ <-. split; [|done].
    eapply rep_free; [exact HR| |exact Ef]. destruct Hg as (_ & _ & pl & _ & _ & ->). by eexists.
  - injection E as _ <-. split; [|done]. cbn [realm_step]. by rewrite Hg.
Qed.

Lemma connect_response_follows conn_id user data s r s' :
  processConnectGateResponse MGR conn_id data s = Some (r, s') -> is_Some (get_connection conn_id MGR (gs_net s)) ->
  follows (gate_event user MSGID_GT2GS_CONNECT_GATE_RESPONSE data) s s'.
Proof using.
  unfold processConnectGateResponse. intros E [st Hst]. rewrite Hst in E. change (gate_event user MSGID_GT2GS_CONNECT_GATE_RESPONSE data) with
    (match (ParseFromArray data : option MsgGT2GS_ConnectGateResponse) with
     | Some m => ev_users (cg_start_user_id m) (cg_max_user_count m) | None => ev_none end).
  destruct (ParseFromArray data : option MsgGT2GS_ConnectGateResponse) as [m|]; [|injection E as _ <-; apply follows_refl].
  intros R HR. pose proof (rep_init g item_table _ _ (cg_start_user_id m) (cg_max_user_count m) HR) as Hi.
  destruct (pm_init _ _ _) as [ok m']. cbn [snd] in Hi. 
  destruct ok; cbn [negb] in E; injection E as _ <-; (split; [done|]); [|done]. split; [done|]. intros Hl c [[= <-]|Hc]; [|apply Hl; by right].
  unfold get_connection in Hst. destruct (MGR =? NULL); [discriminate Hst|]. by exists st.
Qed.

Lemma gate_msg_follows conn_id user msg_id data s r s' :
  gs_gate_msg MGR item_table g tmp conn_id user msg_id data s = Some (r, s') -> is_Some (get_connection conn_id MGR (gs_net s)) ->
  gs_cmds s = default_cmds -> follows (gate_event user msg_id data) s s'.
Proof using.
  unfold gs_gate_msg, gs_gate_default. intros E Hc Ecm.
  destruct (Z.eqb_spec msg_id MSGID_GT2GS_CONNECT_GATE_RESPONSE) as [->|N1]; [by eapply connect_response_follows|].
  destruct (Z.eqb_spec msg_id MSGID_GT2GS_GET_ROLE_REQUEST) as [->|_].
  { change (gate_event _ _ _) with ev_none. unfold gs_processGetRole in E. case_match; [keeps E|]. injection E as _ <-. apply follows_refl. }
  destruct (Z.eqb_spec msg_id MSGID_GT2GS_CREATE_ROLE_REQUEST) as [->|_].
  { change (gate_event _ _ _) with ev_none. unfold gs_processCreateRole in E. case_match; [keeps E|]. injection E as _ <-. apply follows_refl. }
  destruct (Z.eqb_spec msg_id MSGID_GT2GS_ENTER_GAME_REQUEST) as [->|N2]; [by eapply processEnterGame_follows|].
  destruct (Z.eqb_spec msg_id MSGID_GT2GS_LEAVE_GAME_REQUEST) as [->|N3]; [by eapply processLeaveGame_follows|].
  destruct (Z.eqb_spec msg_id MSGID_C2S_CHAT_REQUEST) as [->|N4]; [by eapply processChat_follows|].
  unfold gate_event. rewrite !(proj2 (Z.eqb_neq _ _)) by done. destruct (msg_id =? MSGID_C2S_SET_ROLE_DATA_REQUEST).
  - unfold gs_processSetRoleData in E. case_match; [|injection E as _ <-; apply follows_refl].
    destruct (getRoleIdByUserId _ _); [|discriminate E]. cbn [mbind option_bind] in E. keeps E.
  - injection E as _ <-. apply follows_refl.
Qed.

Lemma db_msg_keeps conn_id msg_id data s r s' : gs_db_msg MGR tmp conn_id msg_id data s = Some (r, s') -> keeps_players s s'.
Proof using.
  unfold gs_db_msg. intros E. destruct (msg_id =? MSGID_DS2GS_CONNECT_DB_RESPONSE).
  - unfold processConnectDBResponse in E. apply (inj Some) in E. destruct (ParseFromArray data); [|injection E as _ <-; apply follows_refl].
    destruct (get_connection conn_id MGR (gs_net s)) as [st|] eqn:Hst; injection E as _ <-; [|apply follows_refl].
    apply follows_same; [done|]. split; [done|]. intros Hl c [Hc|[= <-]]; [apply Hl; by left|].
    unfold get_connection in Hst. destruct (MGR =? NULL); [discriminate Hst|]. by exists st.
  - destruct (msg_id =? MSGID_DS2GS_GET_ROLE_RESPONSE); [|destruct (msg_id =? MSGID_DS2GS_CREATE_ROLE_RESPONSE)].
    + unfold gs_processGetRoleResponse in E. case_match; [keeps E|]. injection E as _ <-. apply follows_refl.
    + unfold gs_processCreateRoleResponse in E. case_match; [keeps E|]. injection E as _ <-. apply follows_refl.
    + injection E as _ <-. apply follows_refl.
Qed.

Lemma onConnect_keeps conn_id s r s' :
  (gs_gate_onConnect MGR tmp conn_id s = Some (r, s') -> keeps_players s s') /\ (gs_db_onConnect MGR tmp conn_id s = Some (r, s') -> keeps_players s s').
Proof using.
  split; unfold gs_gate_onConnect, gs_db_onConnect; (destruct (get_connection _ _ _); [|intros [= _ <-]; apply follows_refl]);
    (destruct (SerializeToArray _ tmp); [|intros [= _ <-]; apply follows_refl]);
    (destruct (nt_send _ _ _ _ _ _ _) as [[x n]|] eqn:E; [|done]); cbn [mbind option_bind]; intros [= _ <-];
    (apply follows_same; [done|]; by eapply nt_send_conns).
Qed.

Lemma onDisconnect_keeps c s : keeps_players s (gs_onDisconnect c s).
Proof using.
  unfold gs_onDisconnect. destruct (c =? GATE_CONN); [|destruct (c =? DB_CONN); [|apply follows_refl]];
    (apply follows_same; [done|]; split; [done|]; intros Hl c' [Hc|Hc]; try discriminate Hc; apply Hl; by (left + right)).
Qed.

Lemma set_conn_same c st s : same_server s (gs_set_net (nt_set MGR c st (gs_net s)) s).
Proof using.
  apply same_server_net. intros k [x Hx]. cbn [nt_set nt_conns]. destruct (decide (k = (MGR, c))) as [->|]; [rewrite lookup_insert_eq|rewrite lookup_insert_ne by congruence]; by eexists.
Qed.

#[local] Instance game_props_calls : AgentCalls GameServer := game_calls.

Lemma force_close_keeps c s s' : ac_force_close MGR c s = Some s' -> keeps_players s s'.
Proof using.
  cbn [ac_force_close game_props_calls game_calls net_calls]. destruct (nt_force_close MGR c (gs_net s)) as [[b n]|] eqn:Ef; [|done]. cbn [mbind option_bind].
  assert (keeps_players s (gs_set_net n s)).
  { apply follows_same; [done|]. unfold nt_force_close in Ef. apply bind_Some in Ef as (st & _ & Ef). apply (inj Some) in Ef.
    case_decide; apply pair_equal_spec in Ef as [_ <-]; [by apply same_server_net|apply set_conn_same]. } destruct b; intros [= <-]; [|done].
  eapply follows_after; [done|]. apply onDisconnect_keeps.
Qed.

Lemma handled_follows e c r s s' :
  (forall x s1, r = Some (x, s1) -> follows e s s1) -> handled MGR c r = Some s' -> follows e s s'.
Proof using.
  intros Hr E. unfold handled in E. destruct r as [[x s1]|]; [|discriminate E]. cbn [mbind option_bind] in E. specialize (Hr _ _ eq_refl).
  destruct (x <? 0); [|by injection E as <-]. eapply follows_after; [done|]. by eapply force_close_keeps.
Qed.

Lemma exec_follows o s s' : MGR <> NULL ->
  gs_exec MGR item_table g tmp o s = Some s' -> gs_cmds s = default_cmds -> follows (op_event o) s s'.
Proof using.
  intros HM E Ecm. destruct o as [c|c|user msg_id data|msg_id data]; cbn [gs_exec op_event] in *.
  - unfold gs_connect in E. apply bind_Some in E as (_ & _ & E). apply bind_Some in E as (_ & _ & E).
    destruct (if c =? GATE_CONN then _ else _) as [[x s1]|] eqn:E1; [|discriminate E]. cbn [mbind option_bind] in E. injection E as <-.
    eapply follows_before; [|destruct (c =? GATE_CONN); [exact (proj1 (onConnect_keeps _ _ _ _) E1)|exact (proj2 (onConnect_keeps _ _ _ _) E1)]]. apply follows_same; [done|apply set_conn_same].
  - by eapply force_close_keeps.
  - destruct (nt_is_connected _ _ _) eqn:Hc; [|discriminate E]. eapply handled_follows; [|exact E]. intros x s1 E1. eapply gate_msg_follows; [exact E1| |done].
    unfold nt_is_connected in Hc. unfold get_connection. rewrite (proj2 (Z.eqb_neq _ _)) by done. destruct (nt_conns _ !! _); [by eexists|done].
  - destruct (nt_is_connected _ _ _); [|discriminate E]. eapply handled_follows; [|exact E]. intros x s1 E1. by eapply db_msg_keeps.
Qed.

Lemma exec_all_follows os : MGR <> NULL -> forall s s' R,
  gs_exec_all MGR item_table g tmp os s = Some s' -> gs_cmds s = default_cmds -> rep (gs_players s) R ->
  rep (gs_players s') (fold_left (fun R o => step (op_event o) R) os R) /\ same_server s s'.
Proof using.
  intros HM. induction os as [|o os IH]; intros s s' R E Ecm HR; cbn [gs_exec_all] in E; [by injection E as <-|].
  destruct (gs_exec _ _ _ _ o s) as [s1|] eqn:E1; [|discriminate E]. cbn [mbind option_bind] in E.
  destruct (exec_follows _ _ _ HM E1 Ecm R HR) as [HR1 Hs1]. destruct (IH s1 s' (step (op_event o) R) E) as [HR2 Hs2]; [by rewrite (proj1 Hs1)|exact HR1|].
  split; [done|by etrans].
Qed.

Lemma run_reaches os id s : MGR <> NULL -> gs_exec_all MGR item_table g tmp os (GameServer_new id) = Some s ->
  rep (gs_players s) (realm_run item_table g os) /\ gs_cmds s = default_cmds /\ links_ok s.
Proof using.
  intros HM E. destruct (exec_all_follows os HM _ _ _ E eq_refl (rep_new g)) as [HR [Hc Hl]]. split; [done|]. split; [done|].
  apply Hl. intros c [Hc'|Hc']; discriminate Hc'.
Qed.

(** C17. In every run of the game server, who is online with which role, and the level and the items
    of every player, are what the messages say, by the rules of the realm: entering binds the user
    to a role the first time only; leaving frees the player of the user id that the message's role
    id is as an [int], and the next new player gets what that one had; commands change the items of
    the player their sender is bound to, whatever the connections do and whether or not the database is
    told.  [get] finds exactly the hero of a user. *)
Theorem game_refines_realm os id s : MGR <> NULL ->
  gs_exec_all MGR item_table g tmp os (GameServer_new id) = Some s ->
  let R := realm_run item_table g os in
  represents g (gs_players s) R /\
  forall user r, pm_get user (gs_players s) = Some r ->
    match r with
    | None => hero_of R user = None
    | Some p => exists pl, pm_player p (gs_players s) = Some pl /\ pl_role_id pl = role_of R user /\ hero_of R user = Some (player_hero pl)
    end.
Proof using.
  intros HM E R. assert (HR : rep (gs_players s) R) by (by apply (run_reaches os id)).
  split; [done|]. intros user r Eg. pose proof (rep_get _ _ _ _ _ HR Eg) as Hg. destruct r as [p|]; [|done].
  destruct Hg as (_ & _ & pl & H1 & H2 & H3). by exists pl.
Qed.

(** ** Commands that crash the server *)

(** The tokens of a command that its function reads. *)
Definition gm_needs (f : GmFunc) : nat :=
  match f with gm_add_item_f | gm_rm_item_f => 4 | gm_levelup_f => 3 | _ => 0 end.

Lemma gm_item_args_defined params : gm_item_args params = None <-> (length params < 4)%nat.
Proof using.
  unfold gm_item_args. destruct params as [|a [|b [|c [|d l]]]]; cbn; try (split; [lia|done]). split; [done|lia].
Qed.

Lemma parse_command_tokens content results : parse_command content = Some results -> results !! 0%nat = Some gm_word /\ is_Some (results !! 1%nat).
Proof using.
  unfold parse_command. destruct (_ <=? _)%nat eqn:Hlen; [done|]. case_decide; [|done]. intros [= <-].
  split; [done|]. apply lookup_lt_is_Some. apply Nat.leb_gt in Hlen. lia.
Qed.

(** A send on a connection that is there only fails, and leaves the connections. *)
Lemma nt_send_defined c user msg_id data len d n : is_Some (nt_conns n !! (MGR, c)) -> mem_read data 0 len = Some d -> len <= NET_MAX_DATA ->
  exists x n', nt_send MGR c user msg_id data len n = Some (x, n') /\ nt_conns n' = nt_conns n.
Proof using.
  intros [st Hst] Hd Hm. unfold nt_send. rewrite Hst. cbn [mbind option_bind]. case_decide; [|by eexists _, _].
  rewrite (proj2 (Z.leb_le _ _)) by done. cbn [ub_unless mbind option_bind]. rewrite Hd. by eexists _, _.
Qed.

Lemma gs_send_defined conn user msg_id data len s d : links_ok s -> conn = gs_gate_conn s \/ conn = gs_db_conn s ->
  mem_read data 0 (u16 len) = Some d -> u16 len <= NET_MAX_DATA ->
  exists x n, gs_send MGR conn user msg_id data len s = Some (x, gs_set_net n s) /\ nt_conns n = nt_conns (gs_net s).
Proof using.
  intros Hl Hc Hd Hm. unfold gs_send. destruct conn as [c|]; [|exists (-1), (gs_net s); split; [by destruct s|done]].
  destruct (nt_send_defined c user msg_id data (u16 len) d (gs_net s)) as (x & n & -> & Hn); [|done|done|by exists x, n].
  apply Hl. destruct Hc as [<-|<-]; auto.
Qed.

Lemma sendDB_defined msg_id data len s d : links_ok s -> mem_read data 0 (u16 len) = Some d -> u16 len <= NET_MAX_DATA ->
  is_Some (sendDB MGR msg_id data len s).
Proof using. intros Hl Hd Hm. unfold sendDB. destruct (gs_send_defined (gs_db_conn s) None msg_id data len s d) as (x & n & -> & _); auto. Qed.

Lemma gm_change_defined {M} `{Message M} change msg_id (request : M) role s p pl R :
  rep (gs_players s) R -> links_ok s -> pm_all (gs_players s) !! role = Some p -> pm_player p (gs_players s) = Some pl ->
  is_Some (gm_change_items MGR tmp change msg_id request role s).
Proof using.
  intros HR Hl Ha Epl. unfold gm_change_items, getByRoleId. rewrite Ha, Epl. cbn [mbind option_bind]. destruct (change _) as [ok items].
  destruct ok; [|by eexists]. cbn [negb]. unfold pm_update. rewrite Epl. cbn [mbind option_bind].
  destruct (SerializeToBuffer request tmp 128) as [t|] eqn:Et; [|by eexists]. apply serialized_buffer in Et as [Hsz Hrd].
  assert (Hb : 0 <= ByteSize request) by apply lenZ_nonneg.
  match goal with |- context [sendDB MGR msg_id t ?l ?s1] => destruct (sendDB_defined msg_id t l s1 (Serialize request)) as [[x s2] E] end.
  - exact Hl.
  - rewrite u16_id by (unfold is_u16; lia). done.
  - rewrite u16_id by (unfold is_u16; lia). unfold NET_MAX_DATA. lia.
  - rewrite E. by eexists.
Qed.

Lemma gm_call_defined f role results s p pl R :
  rep (gs_players s) R -> links_ok s -> pm_all (gs_players s) !! role = Some p -> pm_player p (gs_players s) = Some pl ->
  gm_call MGR item_table tmp f role results s = None <-> (length results < gm_needs f)%nat.
Proof using.
  intros HR Hl Ha Epl. destruct f; cbn [gm_call gm_needs]; try (split; [done|lia]).
  - unfold gm_add_item. rewrite <- gm_item_args_defined. destruct (gm_item_args results) as [[t n]|]; [|done]. cbn [mbind option_bind].
    split; [|done]. intros E. edestruct (gm_change_defined (M := MsgGS2DS_AddItemRequest)) as [x Ex]; [exact HR|exact Hl|exact Ha|exact Epl|]. erewrite Ex in E. discriminate E.
  - unfold gm_rm_item. rewrite <- gm_item_args_defined. destruct (gm_item_args results) as [[t n]|]; [|done]. cbn [mbind option_bind].
    split; [|done]. intros E. edestruct (gm_change_defined (M := MsgGS2DS_RmItemRequest)) as [x Ex]; [exact HR|exact Hl|exact Ha|exact Epl|]. erewrite Ex in E. discriminate E.
  - unfold gm_levelup. destruct (results !! 2%nat) as [a|] eqn:Ea; cbn [mbind option_bind].
    + split; [|intros Hlt; apply lookup_lt_Some in Ea; lia]. unfold getByRoleId. rewrite Ha, Epl. cbn [mbind option_bind].
      destruct (_ =? _); [discriminate|]. unfold pm_update. rewrite Epl. discriminate.
    + split; [|done]. intros _. apply lookup_ge_None in Ea. lia.
Qed.

(** The answer and the notification of a chat message are not longer than what the send buffers take whole. *)
Definition chat_answer (request : MsgC2S_ChatRequest) : MsgS2C_ChatResponse :=
  mkChatResponse (cq_content request) (cq_chat_type request) (cq_channel request) (cq_role_id request).
Definition chat_notice (request : MsgC2S_ChatRequest) : MsgS2C_ChatNotify := mkChatNotify [] (cq_chat_type request) (cq_channel request) 0 [].
Definition chat_fits (data : bytes) : Prop :=
  forall request, ParseFromArray data = Some request -> ByteSize (chat_answer request) <= NET_MAX_DATA /\ ByteSize (chat_notice request) <= NET_MAX_DATA.

Lemma serialized_fits {M} `{Message M} (m : M) t : SerializeToArray m tmp = Some t -> ByteSize m <= NET_MAX_DATA ->
  u16 (ByteSize m) = ByteSize m /\ mem_read t 0 (ByteSize m) = Some (Serialize m).
Proof using.
  intros [_ Hr]%serialized_buffer Hb. split; [|done]. assert (0 <= ByteSize m) by apply lenZ_nonneg. apply u16_id. unfold is_u16, NET_MAX_DATA in *. lia.
Qed.

Lemma chat_notify_defined request data s R : rep (gs_players s) R -> links_ok s -> ByteSize (chat_notice request) <= NET_MAX_DATA ->
  exists x s', gs_chat_notify MGR tmp request data s = Some (x, s') /\ nt_conns (gs_net s') = nt_conns (gs_net s).
Proof using.
  intros HR Hl Hb. unfold gs_chat_notify, getByRoleId. destruct (pm_all (gs_players s) !! cq_role_id request) as [p|] eqn:Ea; [|by eexists _, _].
  fold (chat_notice request). destruct (SerializeToArray (chat_notice request) tmp) as [t|] eqn:Et; [|by eexists _, _].
  destruct (serialized_fits _ _ Et Hb) as [Hu Hr]. destruct (rp_role _ _ _ HR _ _ Ea) as (_ & pl & -> & _). cbn [mbind option_bind].
  unfold send_gate. destruct (pl_user_id pl =? 0); [by eexists _, _|]. unfold sendGate_user.
  destruct (gs_send_defined (gs_gate_conn s) (Some (pl_user_id pl)) MSGID_S2C_CHAT_NOTIFY t (u16 (ByteSize (chat_notice request))) s (Serialize (chat_notice request)))
    as (x & n & -> & Hn); [exact Hl|by left|by rewrite !Hu|by rewrite !Hu|].
  cbn [mbind option_bind]. by eexists _, _.
Qed.

Lemma chat_reply_defined c user request data s R : rep (gs_players s) R -> links_ok s -> is_Some (nt_conns (gs_net s) !! (MGR, c)) ->
  ParseFromArray data = Some request -> parse_command (cq_content request) = None -> chat_fits data ->
  exists x s', gs_processChat MGR item_table tmp c user data s = Some (x, s') /\ is_Some (nt_conns (gs_net s') !! (MGR, c)).
Proof using.
  intros HR Hl Hst Ed Ep Hf. destruct (Hf _ Ed) as [Ha Hn].
  unfold gs_processChat. destruct (get_connection c MGR (gs_net s)); [|by eexists _, _]. rewrite Ed, Ep. fold (chat_answer request).
  destruct (SerializeToArray (chat_answer request) tmp) as [t|] eqn:Et; [|by eexists _, _]. destruct (serialized_fits _ _ Et Ha) as [Hu Hr].
  destruct (nt_send_defined c (Some user) MSGID_S2C_CHAT_RESPONSE t (u16 (ByteSize (chat_answer request))) (Serialize (chat_answer request)) (gs_net s)) as (x & n & -> & Hc);
    [done|by rewrite Hu|by rewrite Hu|].
  cbn [mbind option_bind]. rewrite <- Hc in Hst. destruct (x <? 0); [by eexists _, _|].
  destruct (chat_notify_defined request data (gs_set_net n s) R) as (x' & s' & -> & Hc'); [done| |done|].
  - intros c' H'. cbn. rewrite Hc. by apply Hl.
  - eexists _, _. split; [done|]. by rewrite Hc'.
Qed.

Lemma chat_handled_defined c x s : is_Some (nt_conns (gs_net s) !! (MGR, c)) -> handled MGR c (Some (x, s)) <> None.
Proof using.
  intros [st Hst]. unfold handled. cbn [mbind option_bind]. destruct (x <? 0); [|done].
  cbn [ac_force_close game_props_calls game_calls net_calls]. unfold nt_force_close. rewrite Hst. cbn [mbind option_bind]. by case_decide.
Qed.

(** The lookup of a user is undefined when its distance to the first user id of the gate is not an [int]. *)
Lemma pm_get_undefined m R u : rep m R -> pm_get u m = None <-> int_sub u (pm_start m) = None.
Proof using.
  intros HR. unfold pm_get. destruct (int_sub u (pm_start m)) as [i|] eqn:Ei; [|done]. cbn [mbind option_bind]. split; [|done].
  destruct (rep_range _ _ _ _ _ HR Ei) as [-> ->]. destruct (has_user R u) eqn:Hu; cbn [negb]; [|done].
  destruct (rep_online _ _ _ _ HR Hu) as (l & Eo & El & _). unfold role_ids_is_null, role_ids_get. by rewrite Eo, El.
Qed.

(** A command that reads tokens that are not there. *)
Definition command_crashes (results : list bytes) : Prop :=
  exists name cmd, results !! 1%nat = Some name /\ default_cmds !! name = Some cmd /\ (length results < gm_needs (gm_func cmd))%nat.

Lemma chat_command_defined user results data s R : rep (gs_players s) R -> links_ok s -> gs_cmds s = default_cmds ->
  results !! 0%nat = Some gm_word -> is_Some (results !! 1%nat) ->
  match gs_chat_command MGR item_table tmp user results data s with
  | None => pm_get user (gs_players s) = None \/ (exists p, pm_get user (gs_players s) = Some (Some p)) /\ command_crashes results
  | Some (x, _) => 0 <= x /\ pm_get user (gs_players s) <> None /\ ((exists p, pm_get user (gs_players s) = Some (Some p)) -> ~ command_crashes results)
  end.
Proof using.
  intros HR Hl Hcm E0 [name E1]. unfold gs_chat_command. destruct (pm_get user (gs_players s)) as [[p|]|] eqn:Eg; cbn [mbind option_bind];
    [|split; [lia|split; [done|by intros [? ?]]]|by left].
  pose proof (rep_get _ _ _ _ _ HR Eg) as (_ & Ha & pl & Epl & Erole & _). rewrite Epl. cbn [mbind option_bind].
  unfold execute_command. rewrite E0, E1. cbn [mbind option_bind]. rewrite bool_decide_eq_true_2 by done. cbn [negb]. rewrite Hcm.
  assert (Hiff : forall cmd, default_cmds !! name = Some cmd -> command_crashes results <-> (length results < gm_needs (gm_func cmd))%nat).
  { intros cmd Hcmd. split; [|intros Hlt; exists name, cmd; split; [exact E1|split; [exact Hcmd|exact Hlt]]]. intros (name' & cmd' & E1' & Hcmd' & Hlt). congruence. }
  destruct (default_cmds !! name) as [cmd|] eqn:Ecmd.
  - specialize (Hiff _ eq_refl). rewrite <- Erole in Ha. pose proof (gm_call_defined (gm_func cmd) _ results _ _ _ _ HR Hl Ha Epl) as Hdef. rewrite <- Hiff in Hdef.
    destruct (gm_call _ _ _ _ _ _ s) as [[x s1]|]; cbn [mbind option_bind].
    + split; [destruct (negb _); lia|]. split; [done|]. intros _ Hbad. apply Hdef in Hbad. discriminate Hbad.
    + right. split; [by exists p|]. by apply Hdef.
  - cbn [mbind option_bind]. split; [lia|]. split; [done|]. intros _ (name' & cmd & E1' & Ecmd' & _). congruence.
Qed.

(** C40. After any run, the server does not survive a chat message exactly when it is a command and
    either its user's distance to the first user id of the gate is not an [int], or the user has a player and the command
    reads tokens that are not there: [/gm additem] or [/gm rmitem] with less than two arguments, or
    [/gm levelup] without one.  Any client can send it.  Every other chat message is survived: one that cannot
    be parsed, ordinary chat, whether or not the answer can be sent and whether or not the role that it names is there, a
    command of a user without a player, and a command that is not known.  The answer and
    the notification are taken not to be longer than 65000 bytes. *)
Theorem gm_command_crashes_iff os id s user data : MGR <> NULL ->
  gs_exec_all MGR item_table g tmp os (GameServer_new id) = Some s ->
  nt_is_connected MGR GATE_CONN (gs_net s) = true -> chat_fits data ->
  gs_exec MGR item_table g tmp (gs_op_gate user MSGID_C2S_CHAT_REQUEST data) s = None <->
  exists request results, ParseFromArray data = Some request /\ parse_command (cq_content request) = Some results /\
    (int_sub user (pm_start (gs_players s)) = None \/
     (exists p, pm_get user (gs_players s) = Some (Some p)) /\ command_crashes results).
Proof using.
  intros HM E Hc Hf. destruct (run_reaches _ _ _ HM E) as (HR & Hcm & Hl). setoid_rewrite <- (pm_get_undefined _ _ user HR).
  assert (Hst : is_Some (nt_conns (gs_net s) !! (MGR, GATE_CONN))) by (unfold nt_is_connected in Hc; destruct (nt_conns (gs_net s) !! _); [by eexists|discriminate Hc]).
  cbn [gs_exec]. rewrite Hc.
  change (gs_gate_msg MGR item_table g tmp GATE_CONN user MSGID_C2S_CHAT_REQUEST data s) with (gs_processChat MGR item_table tmp GATE_CONN user data s).
  destruct (ParseFromArray data) as [request|] eqn:Ed; [destruct (parse_command (cq_content request)) as [results|] eqn:Ep|].
  - destruct (parse_command_tokens _ _ Ep) as [E0 E1]. pose proof (chat_command_defined user results data s _ HR Hl Hcm E0 E1) as Hdef.
    unfold gs_processChat, get_connection. rewrite (proj2 (Z.eqb_neq _ _)) by done. destruct Hst as [st ->]. rewrite Ed, Ep.
    destruct (gs_chat_command _ _ _ _ _ _ s) as [[x s1]|]; cbn [handled mbind option_bind].
    + destruct Hdef as (Hx & Hg & Hno). unfold handled. cbn [mbind option_bind]. rewrite (proj2 (Z.ltb_ge _ _)) by done. split; [done|].
      intros (request' & results' & [= <-] & Ep' & [?|[Hp Hbad]]); [done|]. rewrite Ep in Ep'. injection Ep' as <-. by destruct (Hno Hp).
    + split; [|done]. intros _. exists request, results. by repeat split.
  - destruct (chat_reply_defined GATE_CONN user request data s _ HR Hl Hst Ed Ep Hf) as (x & s1 & -> & Hst1).
    split; [intros Hn; by apply chat_handled_defined in Hn|]. intros (request' & results & [= <-] & Ep' & _). congruence.
  - unfold gs_processChat. rewrite Ed. destruct (get_connection _ _ _); (split; [intros Hn; by apply chat_handled_defined in Hn|by intros (? & ? & [=] & _)]).
Qed.
End messages.

(** The new player starts with what the freed one had. *)
Lemma game_refines_realm_witness :
  match gs_exec_all (H := coded_messages) 1 example_item_table 0 [] example_game (GameServer_new 40001) with
  | Some s =>
    let R := realm_run (H := coded_messages) example_item_table 0 example_game in
    represents 0 (gs_players s) R /\ hero_of R 1 = None /\ hero_of R 2 = Some (mkHero 2 12 {[5 := 30]})
  | None => False
  end.
Proof.
  destruct (gs_exec_all _ _ _ _ _ _) as [s|] eqn:E.
  - split; [|split; vm_compute; reflexivity].
    apply (game_refines_realm (H := coded_messages) 1 example_item_table 0 [] example_game 40001 s); [discriminate|exact E].
  - assert (Hs : is_present (gs_exec_all (H := coded_messages) 1 example_item_table 0 [] example_game (GameServer_new 40001)) = true)
      by (vm_compute; reflexivity). rewrite E in Hs. discriminate Hs.
Defined.

(** Three thousand million items of a type that is limited to 99. *)
Lemma item_counts_capped_iff_witness :
  let '(_, items') := add_item example_item_table 5 3000000000 {[5 := mkItem 5 10]} in counts items' !! 5 = Some 3000000010.
Proof.
  assert (Hi : items_u32 {[5 := mkItem 5 10]}).
  { apply map_Forall_insert_2; [split; [discriminate|reflexivity]|apply map_Forall_empty]. }
  pose proof (item_counts_capped_iff example_item_table 5 3000000000 99 {[5 := mkItem 5 10]} Hi) as Hw.
  cbn zeta in Hw. destruct (add_item example_item_table 5 3000000000 {[5 := mkItem 5 10]}) as [ok items'].
  destruct Hw as (_ & _ & Hc & _); [split; [discriminate|reflexivity]|reflexivity|split; [discriminate|reflexivity]|].
  etransitivity; [exact Hc|vm_compute; reflexivity].
Defined.

Section example.
#[local] Existing Instance coded_messages.

(** A user with a player sends [/gm additem 5]; another message of it is ordinary chat. *)
Lemma gm_command_crashes_iff_witness :
  match gs_exec_all 1 example_item_table 0 [] example_game (GameServer_new 40001) with
  | Some s => gs_exec 1 example_item_table 0 [] example_crash s = None /\ gs_exec 1 example_item_table 0 [] (ex_chat 2 ex_hello) s <> None
  | None => False
  end.
Proof.
  set (run := gs_exec_all 1 example_item_table 0 [] example_game (GameServer_new 40001)).
  assert (Hp : (s ← run; pm_get 2 (gs_players s)) = Some (Some 1)) by (vm_compute; reflexivity).
  assert (Hc : (s ← run; Some (nt_is_connected 1 GATE_CONN (gs_net s))) = Some true) by (vm_compute; reflexivity).
  destruct run as [s|] eqn:E; [|discriminate Hp]. cbn [mbind option_bind] in Hp, Hc. injection Hc as Hc. split.
  - apply (gm_command_crashes_iff 1 example_item_table 0 [] example_game 40001 s 2 (Serialize (mkChatRequest example_crash_text 0 0 0))); [discriminate|exact E|exact Hc|..].
    + intros request Er. vm_compute in Er. injection Er as <-. split; vm_compute; discriminate.
    + exists (mkChatRequest example_crash_text 0 0 0), (boost_split example_crash_text). split; [vm_compute; reflexivity|]. split; [vm_compute; reflexivity|].
      right. split; [by exists 1|]. exists example_crash_name, (mkGmCommand example_crash_name gm_add_item_f).
      split; [vm_compute; reflexivity|]. split; [vm_compute; reflexivity|]. apply Nat.ltb_lt. vm_compute. reflexivity.
  - intros Hn. eapply (gm_command_crashes_iff 1 example_item_table 0 [] example_game 40001 s 2) in Hn as (request & results & Er & Ep & _); [|discriminate|exact E|exact Hc|].
    + vm_compute in Er. injection Er as <-. vm_compute in Ep. discriminate Ep.
    + intros request Er. vm_compute in Er. injection Er as <-. split; vm_compute; discriminate.
Defined.
End example.
