(* ===== verification/GameFlow.v ===== *)
(** * Playing: a gate server and a game server together

    The gate server passes on every message of a client that it does not handle itself, with the
    message id that the client chose.  The ids of the servers' own messages are among them. *)
From S2P Require Import Prelude Datatype Agent BiMap AppNet Proto Codec Common GateClients GateServer GateProps Players GameServer GameProps.
From Stdlib Require Import ZArith Lia.
From stdpp Require Import base option list gmap.
Local Open Scope Z_scope.

(** ** The gate server's part *)

Section gate.
Variables CLIENT_MGR GAME_MGR LOGIN_MGR : Z.
Variable draw : Z -> Z -> nat -> Z.
Variable tmp : bytes.
Context `{ServerMessages}.

(** Client connection [c] controls the entry of user [u], and the game server is connected by [gc]. *)
Record client_ready (s : GateServer) (c u gc : Z) : Prop := mkClientReady {
  cr_connected : nt_is_connected CLIENT_MGR c (gt_net s) = true;
  cr_user : find_1 (connid_id_bimap_ (gt_clients s)) c = Some u;
  cr_game : exists p a, ap_getAgent GAME_SERVER_MIN_ID (gt_game_mgr s) (gt_game_id s) = Some p /\ ap_objs (gt_game_mgr s) !! p = Some a /\
    ag_state a = AGENT_STATE_VERIFIED /\ ag_mgr a = GAME_MGR /\ ag_conn_id a = gc;
  cr_game_connected : nt_is_connected GAME_MGR gc (gt_net s) = true;
}.

Definition client_ids : list Z :=
  [MSGID_C2S_GET_ROLE_REQUEST; MSGID_C2S_CREATE_ROLE_REQUEST; MSGID_C2S_ENTER_GAME_REQUEST; MSGID_C2S_LEAVE_GAME_REQUEST; MSGID_C2S_RECONNECT_REQUEST].

Definition add_sent (p : Packet) (n : Net) : Net := mkNet (nt_conns n) (nt_sent n ++ [p]) (nt_last n).

Lemma connected_lookup mgr c n : nt_is_connected mgr c n = true -> nt_conns n !! (mgr, c) = Some JMY_CONN_STATE_CONNECTED.
Proof using. unfold nt_is_connected. destruct (_ !! _) as [st|]; [|done]. by intros ->%bool_decide_eq_true. Qed.

Lemma nt_send_connected mgr c user msg_id data len d n : nt_is_connected mgr c n = true -> len <= NET_MAX_DATA -> mem_read data 0 len = Some d ->
  nt_send mgr c user msg_id data len n = Some (len, add_sent (mkPacket mgr c user msg_id d) n).
Proof using.
  intros Hc%connected_lookup Hl Hd. unfold nt_send. rewrite Hc. cbn [mbind option_bind]. rewrite decide_True by done.
  rewrite (proj2 (Z.leb_le _ _)) by done. cbn [ub_unless mbind option_bind]. by rewrite Hd.
Qed.

(** The message arrives at the game server as the client sent it. *)
Lemma gate_passes now s c u gc msg_id data : CLIENT_MGR <> NULL ->
  client_ready s c u gc -> u <> 0 -> msg_id ∉ client_ids -> lenZ data <= NET_MAX_DATA ->
  gt_exec CLIENT_MGR GAME_MGR LOGIN_MGR draw tmp (gt_op_client now c msg_id data) s =
    Some (gt_set_net (add_sent (mkPacket GAME_MGR gc (Some u) msg_id data) (gt_net s)) s).
Proof using.
  intros HC [Hc Hu (p & a & Hp & Ha & Hst & Hm & Hgc) Hg] Hu0 Hid Hl. cbn [gt_exec].
  unfold nt_in_use. rewrite (connected_lookup _ _ _ Hc). cbn [is_present]. unfold gt_client_msg, client_ids in *.
  rewrite !(proj2 (Z.eqb_neq msg_id _)) by (intros ->; apply Hid; set_solver). unfold gt_client_default, get_connection.
  rewrite (proj2 (Z.eqb_neq _ _)) by done. rewrite (connected_lookup _ _ _ Hc). unfold getIdByConnId. rewrite Hu. cbn [default from_option id].
  rewrite (proj2 (Z.eqb_neq _ _)) by done. unfold sendGameMsg. rewrite Hp, Ha. cbn [mbind option_bind]. unfold ag_sendMsg_user.
  rewrite decide_False by (rewrite Hst; tauto). rewrite Hm, Hgc. cbn [ac_get ac_send_user gt_calls net_calls].
  rewrite (connected_lookup _ _ _ Hg). cbn [is_present negb]. unfold NET_MAX_DATA in Hl.
  rewrite (u16_id (lenZ data)) by (unfold is_u16; lia).
  rewrite (nt_send_connected _ _ _ _ _ _ data) by (done || apply mem_read_all). cbn [mbind option_bind].
  assert (Hn : lenZ data <? 0 = false) by (apply Z.ltb_ge; lia). rewrite Hn. cbn [mbind option_bind]. change (0 <? 0) with false.
  cbn [mbind option_bind]. rewrite Hn. unfold handled. cbn [mbind option_bind]. by rewrite Hn.
Qed.
End gate.

(** ** The game server's part *)

Section game.
Variable MGR : Z.
Variable item_table : Z -> option Z.
Variable g : Z.
Variable tmp : bytes.
Context `{ServerMessages}.
Abbreviation rep := (represents g).

Lemma user_index m R u : rep m R -> has_user R u = true -> is_s32 u -> int_sub u (pm_start m) = Some (u - pm_start m).
Proof using.
  intros HR Hu Hs. unfold is_s32 in Hs. destruct (rep_online _ _ _ _ HR Hu) as (l & Eo & _ & Hle). unfold int_sub.
  destruct (rp_online _ _ _ HR) as [(Eo' & _)|(Hst & _)]; [congruence|].
  rewrite (proj2 (Z.leb_le _ _)), (proj2 (Z.ltb_lt _ _)) by lia. done.
Qed.

Lemma pm_get_defined m R u : rep m R -> has_user R u = true -> is_s32 u -> pm_get u m = Some (getByRoleId (role_of R u) m).
Proof using.
  intros HR Hu Hs. pose proof (user_index _ _ _ HR Hu Hs) as Ei. unfold pm_get. rewrite Ei. cbn [mbind option_bind].
  destruct (rep_range _ _ _ _ _ HR Ei) as [_ ->]. rewrite Hu. cbn [negb]. destruct (rep_online _ _ _ _ HR Hu) as (l & Eo & El & _).
  unfold role_ids_is_null, role_ids_get. rewrite Eo. cbn [mbind option_bind]. by rewrite El.
Qed.

Lemma pm_malloc_defined m R u role : rep m R -> has_user R u = true -> is_s32 u -> exists p m', pm_malloc g u role m = Some (Some p, m').
Proof using.
  intros HR Hu Hs. pose proof (user_index _ _ _ HR Hu Hs) as Ei. unfold pm_malloc. rewrite Ei. cbn [mbind option_bind].
  destruct (rep_range _ _ _ _ _ HR Ei) as [_ ->]. rewrite Hu. destruct (rep_online _ _ _ _ HR Hu) as (l & Eo & El & _).
  unfold role_ids_is_null, role_ids_set. rewrite Eo, El. cbn [negb orb mbind option_bind pm_set_online pm_pool].
  destruct (malloc_ok g _ _ (rp_pool _ _ _ HR)) as (p & pl & pool & -> & Epl & _). cbn [mbind option_bind].
  unfold pm_update, pm_player. cbn [pm_set_pool pm_pool]. rewrite Epl. cbn [mbind option_bind]. by eexists _, _.
Qed.

(** A message for a user is sent, or refused. *)
Lemma reply_user_defined {M} `{Message M} (m : M) user msg_id ok s : links_ok MGR s -> ByteSize m <= NET_MAX_DATA ->
  exists r s', reply tmp m (sendGate_user MGR user msg_id) ok s = Some (r, s') /\ gs_players s' = gs_players s /\ same_server MGR s s' /\
    nt_conns (gs_net s') = nt_conns (gs_net s).
Proof using.
  intros Hl Hm. unfold reply. destruct (SerializeToArray m tmp) as [t|] eqn:Et; [|by eexists _, s]. apply serialized_read in Et.
  assert (Hb : 0 <= ByteSize m) by apply lenZ_nonneg. unfold NET_MAX_DATA in Hm. unfold sendGate_user, gs_send.
  destruct (gs_gate_conn s) as [c|] eqn:Ec; [|by eexists _, s]. destruct (Hl c (or_introl Ec)) as [st Hst].
  rewrite (u16_id (ByteSize m)) by (unfold is_u16; lia). unfold nt_send. rewrite Hst. cbn [mbind option_bind].
  case_decide; [|eexists _, _; split; [done|]; split; [done|]; split; [by apply same_server_net|done]].
  rewrite (proj2 (Z.leb_le _ _)) by (unfold NET_MAX_DATA; lia). cbn [ub_unless mbind option_bind]. rewrite Et. cbn [mbind option_bind].
  eexists _, _. split; [done|]. split; [done|]. split; [by apply same_server_net|done].
Qed.

#[local] Instance flow_calls : AgentCalls GameServer := game_calls.

(** Entering returns. *)
Lemma enter_defined s R u role data : MGR <> NULL -> rep (gs_players s) R -> links_ok MGR s ->
  nt_is_connected MGR GATE_CONN (gs_net s) = true -> has_user R u = true -> 0 < u -> is_s32 u ->
  ParseFromArray data = Some (mkEnterGameRequest role) -> ByteSize mkEnterGameResponse <= NET_MAX_DATA ->
  is_Some (gs_exec MGR item_table g tmp (gs_op_gate u MSGID_GT2GS_ENTER_GAME_REQUEST data) s).
Proof using.
  intros HM HR Hl Hc Hu Hu0 Hs Hd Hsz. cbn [gs_exec]. rewrite Hc.
  change (gs_gate_msg MGR item_table g tmp GATE_CONN u MSGID_GT2GS_ENTER_GAME_REQUEST data s) with (processEnterGame MGR g tmp u data s).
  unfold processEnterGame. rewrite Hd. rewrite (proj2 (Z.leb_gt _ _)) by done. rewrite (pm_get_defined _ _ _ HR Hu Hs). cbn [mbind option_bind eg_role_id].
  assert (exists p m', match getByRoleId (role_of R u) (gs_players s) with Some p => Some (Some p, gs_players s) | None => pm_malloc g u role (gs_players s) end
    = Some (p, m')) as (p & m' & ->).
  { destruct (getByRoleId _ _) as [p|]; [by eexists _, _|]. destruct (pm_malloc_defined _ _ u role HR Hu Hs) as (p & m' & E). eauto. }
  cbn [mbind option_bind]. set (s1 := gs_set_players m' s).
  destruct (reply_user_defined mkEnterGameResponse u MSGID_S2C_ENTER_GAME_RESPONSE 0 s1 Hl Hsz) as (r & s2 & -> & _ & [_ Hl2] & Hn2).
  cbn [mbind option_bind].
  assert (Hcl : forall x s', nt_conns (gs_net s') = nt_conns (gs_net s) -> is_Some (handled MGR GATE_CONN (Some (x, s')))).
  { intros x s' Hn. unfold handled. cbn [mbind option_bind]. destruct (x <? 0); [|by eexists].
    cbn [ac_force_close flow_calls game_calls net_calls]. unfold nt_force_close. rewrite Hn, (connected_lookup _ _ _ Hc). cbn [mbind option_bind].
    rewrite decide_False by done. by eexists. }
  destruct (r <? 0); [by apply Hcl|].
  destruct (reply_user_defined mkEnterGameResponse u MSGID_S2C_ENTER_GAME_COMPLETE_NOTIFY (lenZ data) s2 (Hl2 Hl) Hsz) as (r' & s3 & -> & _ & _ & Hn3).
  apply Hcl. by rewrite Hn3, Hn2.
Qed.
End game.

(** ** Together *)

Section both.
Variables CLIENT_MGR GAME_MGR LOGIN_MGR : Z.
Variable draw : Z -> Z -> nat -> Z.
Variables gate_tmp game_tmp : bytes.
Variable MGR : Z.
Variable item_table : Z -> option Z.
Variable g : Z.
Context `{ServerMessages}.

(** C24. A client plays any role it likes.  A client that controls an entry of the gate server, and that has no
    player yet, sends the message by which the gate server tells the game server which role enters
    ([MSGID_GT2GS_ENTER_GAME_REQUEST]), with a role of its choice: the gate server passes it on as it is,
    and the game server gives the client that role, which is another user's player, with all that
    it has, when that user is playing. *)
Theorem client_plays_any_role now sg c u gc os id s role data :
  CLIENT_MGR <> NULL -> MGR <> NULL -> client_ready CLIENT_MGR GAME_MGR sg c u gc -> 0 < u -> is_s32 u ->
  gs_exec_all MGR item_table g game_tmp os (GameServer_new id) = Some s -> nt_is_connected MGR GATE_CONN (gs_net s) = true ->
  let R := realm_run item_table g os in
  has_user R u = true -> hero_of R u = None ->
  ParseFromArray data = Some (mkEnterGameRequest role) -> lenZ data <= NET_MAX_DATA -> ByteSize mkEnterGameResponse <= NET_MAX_DATA ->
  exists sg' s' p pl,
    gt_exec CLIENT_MGR GAME_MGR LOGIN_MGR draw gate_tmp (gt_op_client now c MSGID_GT2GS_ENTER_GAME_REQUEST data) sg = Some sg' /\
    nt_sent (gt_net sg') = nt_sent (gt_net sg) ++ [mkPacket GAME_MGR gc (Some u) MSGID_GT2GS_ENTER_GAME_REQUEST data] /\
    gs_exec MGR item_table g game_tmp (gs_op_gate u MSGID_GT2GS_ENTER_GAME_REQUEST data) s = Some s' /\
    pm_get u (gs_players s') = Some (Some p) /\ pm_player p (gs_players s') = Some pl /\ pl_role_id pl = role /\
    (forall h, rl_heroes R !! role = Some h -> player_hero pl = h).
Proof using.
  intros HC HM Hr Hu0 Hs E Hc R Hu Hno Hd Hl Hsz.
  destruct (run_reaches _ _ _ _ _ _ _ HM E) as (HR & Hcm & Hlk). fold R in HR.
  destruct (enter_defined MGR item_table g game_tmp s R u role data HM HR Hlk Hc Hu Hu0 Hs Hd Hsz) as [s' E'].
  destruct (exec_follows _ _ _ _ _ _ _ HM E' Hcm R HR) as [HR' _]. cbn [op_event] in HR'.
  change (gate_event u MSGID_GT2GS_ENTER_GAME_REQUEST data) with
    (match (ParseFromArray data : option MsgGT2GS_EnterGameRequest) with
     | Some m => if u <=? 0 then ev_none else ev_enter u (eg_role_id m) | None => ev_none end) in HR'.
  rewrite Hd, (proj2 (Z.leb_gt _ _)) in HR' by done. cbn [eg_role_id realm_step] in HR'. rewrite Hu, Hno in HR'. cbn [negb] in HR'.
  destruct (realm_spare g R) as [level items].
  match type of HR' with represents _ _ ?R1 => set (R' := R1) in HR' end.
  assert (Hu' : has_user R' u = true) by exact Hu. assert (Hrole : role_of R' u = role) by (unfold role_of; cbn; by rewrite lookup_insert_eq).
  pose proof (pm_get_defined g _ _ _ HR' Hu' Hs) as Eg. pose proof (rep_get _ _ _ _ _ HR' Eg) as Hg. rewrite Hrole in *.
  assert (Hh : rl_heroes R' !! role = Some (default (mkHero u level items) (rl_heroes R !! role))).
  { cbn. destruct (rl_heroes R !! role) as [h|] eqn:Eh; [done|]. by rewrite lookup_insert_eq. }
  destruct (getByRoleId role (gs_players s')) as [p|]; [|unfold hero_of in Hg; rewrite Hu', Hrole, Hh in Hg; discriminate Hg].
  destruct Hg as (_ & _ & pl & Epl & Erole & Eh). unfold hero_of in Eh. rewrite Hu', Hrole, Hh in Eh. injection Eh as Eh.
  eexists _, s', p, pl. split; [apply (gate_passes CLIENT_MGR GAME_MGR LOGIN_MGR draw gate_tmp now sg c u gc); [done|exact Hr|lia| |done]|].
  - unfold client_ids. intros Hin. repeat (apply elem_of_cons in Hin as [Hin|Hin]; [discriminate Hin|]). by apply elem_of_nil in Hin.
  - split; [done|]. split; [done|]. split; [done|]. split; [done|]. split; [done|]. intros h Hh'. rewrite <- Eh, Hh'. done.
Qed.
End both.

(** The other user of the gate server of [GateProps] plays role 7 and has items. *)
Section example.
#[local] Existing Instance coded_messages.

Definition ex_flow_game : list gs_op := [
  gs_op_connect GATE_CONN;
  gs_op_gate 0 MSGID_GT2GS_CONNECT_GATE_RESPONSE (Serialize (mkConnectGateResponse 2 100000));
  ex_enter 100001 7; ex_give 100001 ].

Definition ex_flow_take : bytes := Serialize (mkEnterGameRequest 7).

(** The client of user 100000 takes the player over. *)
Lemma client_plays_any_role_witness :
  exists s s' p pl, gs_exec_all 1 example_item_table 0 [] ex_flow_game (GameServer_new 40001) = Some s /\
    gs_exec 1 example_item_table 0 [] (gs_op_gate 100000 MSGID_GT2GS_ENTER_GAME_REQUEST ex_flow_take) s = Some s' /\
    pm_get 100000 (gs_players s') = Some (Some p) /\ pm_player p (gs_players s') = Some pl /\
    player_hero pl = mkHero 100001 0 {[5 := 30]}.
Proof.
  set (run := gs_exec_all 1 example_item_table 0 [] ex_flow_game (GameServer_new 40001)).
  assert (Hc : (s ← run; Some (nt_is_connected 1 GATE_CONN (gs_net s))) = Some true) by (vm_compute; reflexivity).
  destruct run as [s|] eqn:E; [|discriminate Hc]. cbn [mbind option_bind] in Hc. injection Hc as Hc.
  assert (Hr : client_ready 1 2 ex_gate_1 1 100000 1).
  { constructor; [vm_compute; reflexivity..| |vm_compute; reflexivity].
    eexists _, _. split; [vm_compute; reflexivity|]. split; [vm_compute; reflexivity|]. vm_compute. auto. }
  destruct (client_plays_any_role 1 2 3 ex_draw [] [] 1 example_item_table 0 2000 ex_gate_1 1 100000 1 ex_flow_game 40001 s 7 ex_flow_take)
    as (sg' & s' & p & pl & _ & _ & H1 & H2 & H3 & _ & H4); [discriminate|discriminate|exact Hr|reflexivity|split; [discriminate|reflexivity]|exact E|exact Hc|..].
  1-5: vm_compute; first [reflexivity|discriminate].
  exists s, s', p, pl. split; [reflexivity|]. split; [exact H1|]. split; [exact H2|]. split; [exact H3|]. apply H4. vm_compute. reflexivity.
Defined.
End example.
