(* ===== verification/DbServer.v ===== *)
(** * The database server ([db_server/])

    Game servers ask for the roles of accounts.  A role is a row of the table [t_player], which is read
    once, kept as a record ([Records.mysql_records_manager2], by role id and by account) and written
    back by [update].  [game_server_manager.*], [global_data.*], [dbres_callback_funcs.*], [game_handler.*]
    and [config_data.h].  The class [t_player] and the functions on it are generated from
    [bin/db_generator/db_tables.json]. *)
From S2P Require Import Prelude Datatype Agent BiMap AppNet Proto Codec Common Records.
From Stdlib Require Import ZArith Lia.
From stdpp Require Import base option list gmap.
Local Open Scope Z_scope.

(** ** Rows *)

Record DBItemData : Type := mkDBItem { di_type : Z; di_unique : Z; di_num : Z }.

(** The fields that the server reads and writes. *)
Record t_player : Type := mkTPlayer {
  tp_account : bytes;
  tp_role_id : Z;
  tp_nick_name : bytes;
  tp_sex : Z;
  tp_level : Z;
  tp_items : gmap Z DBItemData;
}.

Definition t_player_new : t_player := mkTPlayer [] 0 [] 0 0 ∅.
Definition tp_set_account (a : bytes) (p : t_player) : t_player := mkTPlayer a (tp_role_id p) (tp_nick_name p) (tp_sex p) (tp_level p) (tp_items p).
Definition tp_set_role (role : Z) (a : bytes) (sex : Z) (nick : bytes) (p : t_player) : t_player := mkTPlayer a role nick sex (tp_level p) (tp_items p).
Definition tp_set_data (sex level : Z) (p : t_player) : t_player := mkTPlayer (tp_account p) (tp_role_id p) (tp_nick_name p) sex level (tp_items p).
Definition tp_set_items (items : gmap Z DBItemData) (p : t_player) : t_player :=
  mkTPlayer (tp_account p) (tp_role_id p) (tp_nick_name p) (tp_sex p) (tp_level p) items.

(** The result of a query: its rows, each the texts of its fields. *)
Abbreviation Result := (list (list bytes)).
Definition num_rows (r : Result) : Z := lenZ r.

(** A query that was pushed, with what its callback remembers. *)
Inductive Query : Type :=
| q_accounts                          (** [GlobalData::init] *)
| q_player (account : bytes) (conn_id : Z).

(** A request that [update] makes of a record. *)
Inductive DbRequest : Type := req_insert (p : t_player) | req_update (p : t_player) | req_delete (role_id : Z).

(** ** The state *)

Abbreviation PlayerTable := (mysql_records_manager2 Z bytes).

Record DbServer : Type := mkDb {
  ds_net : Net;
  ds_games : AgentManagerPerf unit;
  ds_table : PlayerTable;
  ds_objs : gmap ptr t_player;             (** what the records hold *)
  ds_db_accounts : gset bytes;             (** [db_accounts_] *)
  ds_user_ids : gmap bytes Z;              (** [userid2accounts_] *)
  ds_counter : Z;                          (** the static counter of [gen_unique_role_id] *)
  ds_queries : list Query;                 (** pushed and not yet answered, the oldest first *)
  ds_requests : list DbRequest;            (** pushed by [update] *)
}.

Definition DbServer_new : DbServer :=
  mkDb Net_new (AgentManagerPerf_new GAME_SERVER_MAX_ID GAME_SERVER_MIN_ID) rm2_new ∅ ∅ ∅ 0 [q_accounts] [].

Definition ds_set_net (n : Net) (s : DbServer) : DbServer :=
  mkDb n (ds_games s) (ds_table s) (ds_objs s) (ds_db_accounts s) (ds_user_ids s) (ds_counter s) (ds_queries s) (ds_requests s).
Definition ds_set_games (m : AgentManagerPerf unit) (s : DbServer) : DbServer :=
  mkDb (ds_net s) m (ds_table s) (ds_objs s) (ds_db_accounts s) (ds_user_ids s) (ds_counter s) (ds_queries s) (ds_requests s).
Definition ds_set_table (t : PlayerTable) (o : gmap ptr t_player) (s : DbServer) : DbServer :=
  mkDb (ds_net s) (ds_games s) t o (ds_db_accounts s) (ds_user_ids s) (ds_counter s) (ds_queries s) (ds_requests s).
Definition ds_set_accounts (a : gset bytes) (u : gmap bytes Z) (s : DbServer) : DbServer :=
  mkDb (ds_net s) (ds_games s) (ds_table s) (ds_objs s) a u (ds_counter s) (ds_queries s) (ds_requests s).
Definition ds_set_counter (c : Z) (s : DbServer) : DbServer :=
  mkDb (ds_net s) (ds_games s) (ds_table s) (ds_objs s) (ds_db_accounts s) (ds_user_ids s) c (ds_queries s) (ds_requests s).
Definition ds_set_queries (q : list Query) (s : DbServer) : DbServer :=
  mkDb (ds_net s) (ds_games s) (ds_table s) (ds_objs s) (ds_db_accounts s) (ds_user_ids s) (ds_counter s) q (ds_requests s).
Definition ds_set_requests (r : list DbRequest) (s : DbServer) : DbServer :=
  mkDb (ds_net s) (ds_games s) (ds_table s) (ds_objs s) (ds_db_accounts s) (ds_user_ids s) (ds_counter s) (ds_queries s) r.

(** ** GlobalData *)

Definition findDBAccount (account : bytes) (s : DbServer) : bool := bool_decide (account ∈ ds_db_accounts s).
Definition insertDBAccount (account : bytes) (s : DbServer) : bool * DbServer :=
  if findDBAccount account s then (false, s) else (true, ds_set_accounts ({[account]} ∪ ds_db_accounts s) (ds_user_ids s) s).

(** The user id is an [int]: a role id is cut. *)
Definition setAccount2UserId (account : bytes) (user_id : Z) (s : DbServer) : DbServer :=
  ds_set_accounts (ds_db_accounts s) (<[account := s32 user_id]> (ds_user_ids s)) s.
Definition getUserIdByAccount (account : bytes) (s : DbServer) : Z := default 0 (ds_user_ids s !! account).
Definition deleteUserIdByAccount (account : bytes) (s : DbServer) : bool * DbServer :=
  match ds_user_ids s !! account with
  | None => (false, s)
  | Some _ => (true, ds_set_accounts (ds_db_accounts s) (delete account (ds_user_ids s)) s)
  end.
Definition ds_clear (s : DbServer) : DbServer := ds_set_accounts ∅ (ds_user_ids s) s.

(** ** GameServerManager *)

Definition ds_newAgent (game_id mgr conn_id : Z) (s : DbServer) : option ptr * DbServer :=
  let '(a, m) := ap_newAgent tt GAME_SERVER_MIN_ID (ds_games s) game_id mgr conn_id in (a, ds_set_games m s).
Definition ds_get (game_id : Z) (s : DbServer) : option ptr := ap_getAgent GAME_SERVER_MIN_ID (ds_games s) game_id.
Definition ds_getByConnId (conn_id : Z) (s : DbServer) : option ptr := ap_getAgentByConnId GAME_SERVER_MIN_ID (ds_games s) conn_id.
Definition ds_remove (game_id : Z) (s : DbServer) : option (bool * DbServer) :=
  '(r, m) ← ap_deleteAgent GAME_SERVER_MIN_ID (ds_games s) game_id; Some (r, ds_set_games m s).
Definition ds_removeByConnId (conn_id : Z) (s : DbServer) : option (bool * DbServer) :=
  '(r, m) ← ap_deleteAgentByConnId GAME_SERVER_MIN_ID (ds_games s) conn_id; Some (r, ds_set_games m s).
Definition ds_getIdByConnId (conn_id : Z) (s : DbServer) : Z := default 0 (ap_getIdByConnId (ds_games s) conn_id).

(** ** Role ids *)

(** [std::time(0)] is [now]. *)
Definition gen_unique_role_id (server_id now counter : Z) : Z * Z :=
  let id := Z.land (u64 (Z.shiftl server_id 48)) 0xffff000000000000 in
  let id := u64 (id + Z.land (Z.shiftl now 16) 0xffff0000) in
  (u64 (id + counter), u16 (counter + 1)).

Section db.
Variable MGR : Z.
(** The buffers' content, the order in which a hash map is traversed, and whether a request is accepted. *)
Variable tmp : bytes.
Variable hash_order : gmap ptr MysqlTableRecordState -> list (ptr * MysqlTableRecordState).
Variable request_ok : DbRequest -> bool.
(** [db_get_result_of_select_t_player_by_account], generated: fills in the record from a row. *)
Variable get_result : Result -> t_player -> Z * t_player.
Context `{ServerMessages}.

(** ** GameHandler: events *)

Definition ds_onDisconnect (conn_id : Z) (s : DbServer) : option DbServer :=
  match ds_getByConnId conn_id s with None => Some s | Some _ => '(_, s) ← ds_removeByConnId conn_id s; Some s end.

#[local] Instance db_agent_calls : AgentCalls DbServer := net_calls ds_net ds_set_net (fun _ c s => ds_onDisconnect c s).

(** ** DBResCBFuncs *)

Definition ds_player (p : ptr) (s : DbServer) : option t_player := ds_objs s !! p.
Definition ds_update_player (p : ptr) (f : t_player -> t_player) (s : DbServer) : option DbServer :=
  pl ← ds_player p s; Some (ds_set_table (ds_table s) (<[p := f pl]> (ds_objs s)) s).

(** [agent->sendMsg] of a response that is serialised to the buffer of [4096*128] bytes. *)
Definition ds_send_role (response : MsgDS2GS_GetRoleResponse) (conn_id : Z) (s : DbServer) : option (Z * DbServer) :=
  match ds_getByConnId conn_id s with
  | None => Some (-1, s)
  | Some a =>
    match SerializeToBuffer response tmp (4096 * 128) with
    | None => Some (-1, s)
    | Some t =>
      agent ← ap_objs (ds_games s) !! a;
      '(r, s) ← ag_sendMsg agent MSGID_DS2GS_GET_ROLE_RESPONSE t (ByteSize response) s;
      Some (if r <? 0 then -1 else 0, s)
    end
  end.

(** Neither the race nor the hit points are in the response. *)
Definition role_response (p : t_player) : MsgDS2GS_GetRoleResponse :=
  mkDBGetRoleResponse (tp_account p) (mkBaseRoleData (tp_role_id p) (tp_nick_name p) 0 (tp_sex p) 0 (tp_level p)).

Definition sendGetRoleResponse (user : ptr) (conn_id : Z) (s : DbServer) : option (Z * DbServer) :=
  p ← ds_player user s; ds_send_role (role_response p) conn_id s.

Definition sendGetRoleEmptyResponse (account : bytes) (conn_id : Z) (s : DbServer) : option (Z * DbServer) :=
  ds_send_role (mkDBGetRoleResponse account (mkBaseRoleData 0 [] 0 0 0 0)) conn_id s.

(** The rows of the query for all accounts. *)
Fixpoint getAllAccounts (rows : Result) (s : DbServer) : Z * DbServer :=
  match rows with
  | [] => (0, s)
  | row :: rows => match row with [] => (-1, s) | account :: _ => getAllAccounts rows (snd (insertDBAccount account s)) end
  end.

(** The role of a row that was read is filled into a record; the record is found by role id from then on. *)
Definition ds_fill (res : Result) (user : ptr) (conn_id : Z) (on_error : DbServer -> option DbServer) (s : DbServer) : option (Z * DbServer) :=
  p ← ds_player user s;
  let '(r, p) := get_result res p in
  let s := ds_set_table (ds_table s) (<[user := p]> (ds_objs s)) s in
  if r <? 0 then s ← on_error s; Some (-1, s) else
  let '(ok, t) := if 0 <? tp_role_id p then insert_key_record (tp_role_id p) user (ds_table s) else (true, ds_table s) in
  let s := ds_set_table t (ds_objs s) s in
  if negb ok then Some (-1, s) else
  '(r, s) ← sendGetRoleResponse user conn_id s; Some (if r <? 0 then -1 else 0, s).

(** Not used by the server. *)
Definition getPlayerInfo (account : bytes) (conn_id : Z) (res : Result) (s : DbServer) : option (Z * DbServer) :=
  match get_by_key2 account (ds_table s) with
  | None => Some (-1, s)
  | Some user => ds_fill res user conn_id Some s
  end.

(** The callback of the query for the role of an account. *)
Definition ds_player_result (account : bytes) (conn_id : Z) (res : Result) (s : DbServer) : option (Z * DbServer) :=
  if 0 <? num_rows res then
    let '(user, t) := get_new_by_key2 account (ds_table s) in
    let s := ds_set_table t (<[user := tp_set_account account t_player_new]> (ds_objs s)) s in
    ds_fill res user conn_id (fun s => '(r, t) ← remove_record user (ds_table s);
      Some (ds_set_table t (if r : bool then delete user (ds_objs s) else ds_objs s) s)) s
  else sendGetRoleEmptyResponse account conn_id s.

(** ** GameHandler: messages *)

Definition processConnectDBRequest (mgr conn_id : Z) (data : bytes) (s : DbServer) : option (Z * DbServer) :=
  match ds_getByConnId conn_id s with
  | Some _ => Some (-1, s)
  | None =>
    match (ParseFromArray data : option MsgGS2DS_ConnectDBRequest) with
    | None => Some (-1, s)
    | Some request =>
      let '(agent, s) := match ds_get (cd_game_id request) s with
                         | Some a => (Some a, s) | None => ds_newAgent (cd_game_id request) mgr conn_id s end in
      match agent with
      | None => Some (-1, s)
      | Some a =>
        match SerializeToArray mkConnectDBResponse tmp with
        | None => Some (-1, s)
        | Some t =>
          agent ← ap_objs (ds_games s) !! a;
          '(r, s) ← ag_sendMsg agent MSGID_DS2GS_CONNECT_DB_RESPONSE t (ByteSize mkConnectDBResponse) s;
          Some (if r <? 0 then -1 else lenZ data, s)
        end
      end
    end
  end.

(** [pushed] says whether the query could be pushed. *)
Definition processGetRole (pushed : bool) (conn_id : Z) (data : bytes) (s : DbServer) : option (Z * DbServer) :=
  match (ParseFromArray data : option MsgGS2DS_GetRoleRequest) with
  | None => Some (-1, s)
  | Some request =>
    match get_by_key2 (dq_account request) (ds_table s) with
    | None => if pushed then Some (lenZ data, ds_set_queries (ds_queries s ++ [q_player (dq_account request) conn_id]) s) else Some (-1, s)
    | Some user => '(r, s) ← sendGetRoleResponse user conn_id s; Some (if r <? 0 then -1 else lenZ data, s)
    end
  end.

(** The response of a handler, on the connection of the message. *)
Definition ds_reply {M} `{Message M} (m : M) (mgr conn_id msg_id : Z) (data : bytes) (s : DbServer) : option (Z * DbServer) :=
  match SerializeToArray m tmp with
  | None => Some (-1, s)
  | Some t => '(r, n) ← nt_send mgr conn_id None msg_id t (ByteSize m) (ds_net s); Some (if r <? 0 then -1 else lenZ data, ds_set_net n s)
  end.

(** Whether the account has a role in the database is not looked at, and the race is not kept. *)
Definition processCreateRole (now mgr conn_id : Z) (data : bytes) (s : DbServer) : option (Z * DbServer) :=
  match get_connection conn_id mgr (ds_net s) with
  | None => Some (-1, s)
  | Some _ =>
    match (ParseFromArray data : option MsgGS2DS_CreateRoleRequest) with
    | None => Some (-1, s)
    | Some request =>
      match get_by_key2 (dc_account request) (ds_table s) with
      | Some _ => Some (0, s)
      | None =>
        let '(role_id, counter) := gen_unique_role_id (ds_getIdByConnId conn_id s) now (ds_counter s) in
        let s := ds_set_counter counter s in
        let '(user, t) := get_new_by_key_and_key2 role_id (dc_account request) (ds_table s) in
        let s := ds_set_table t (<[user := t_player_new]> (ds_objs s)) s in
        match get_by_key role_id (ds_table s) with
        | None => Some (-1, s)
        | Some _ =>
          s ← ds_update_player user (tp_set_role role_id (dc_account request) (dc_sex request) (dc_nick_name request)) s;
          let s := setAccount2UserId (dc_account request) role_id s in
          let '(ok, t) := rm2_commit commit_insert user (ds_table s) in
          let s := ds_set_table t (ds_objs s) s in
          if negb ok then Some (-1, s) else
          ds_reply (mkDBCreateRoleResponse (dc_account request) (mkBaseRoleData role_id (dc_nick_name request) (dc_race request) (dc_sex request) 0 0))
            mgr conn_id MSGID_DS2GS_CREATE_ROLE_RESPONSE data s
        end
      end
    end
  end.

Definition processSetRoleData (mgr conn_id : Z) (data : bytes) (s : DbServer) : option (Z * DbServer) :=
  match get_connection conn_id mgr (ds_net s) with
  | None => Some (-1, s)
  | Some _ =>
    match (ParseFromArray data : option MsgGS2DS_SetRoleDataRequest) with
    | None => Some (-1, s)
    | Some request =>
      match get_by_key (ds_role_id request) (ds_table s) with
      | None => Some (-1, s)
      | Some p =>
        let d := ds_role_data request in
        s ← ds_update_player p (tp_set_data (rd_sex d) (rd_level d)) s;
        let '(_, t) := commit_update_request_by_key (ds_role_id request) (ds_table s) in
        let s := ds_set_table t (ds_objs s) s in
        ds_reply (mkDBSetRoleDataResponse 0 (mkBaseRoleData 0 [] 0 (rd_sex d) 0 (rd_level d))) mgr conn_id MSGID_DS2GS_SET_ROLE_DATA_RESPONSE data s
      end
    end
  end.

(** The key and the number are [int32]: they wrap around, and there is no maximum. *)
Definition db_add_item (type_id item_num : Z) (items : gmap Z DBItemData) : gmap Z DBItemData :=
  match items !! s32 type_id with
  | None => <[s32 type_id := mkDBItem (s32 type_id) 0 (s32 item_num)]> items
  | Some it => <[s32 type_id := mkDBItem (di_type it) (di_unique it) (s32 (di_num it + item_num))]> items
  end.

Definition processAddItem (mgr conn_id : Z) (data : bytes) (s : DbServer) : option (Z * DbServer) :=
  match get_connection conn_id mgr (ds_net s) with
  | None => Some (-1, s)
  | Some _ =>
    match (ParseFromArray data : option MsgGS2DS_AddItemRequest) with
    | None => Some (-1, s)
    | Some request =>
      match get_by_key (da_role_id request) (ds_table s) with
      | None => Some (-1, s)
      | Some p =>
        s ← ds_update_player p (fun pl => tp_set_items (db_add_item (da_type_id request) (da_item_num request) (tp_items pl)) pl) s;
        let '(_, t) := rm2_commit commit_update p (ds_table s) in
        let s := ds_set_table t (ds_objs s) s in
        ds_reply (mkDBAddItemResponse (da_role_id request) (da_type_id request) (da_item_num request)) mgr conn_id MSGID_DS2GS_ADD_ITEM_RESPONSE data s
      end
    end
  end.

(** Not called. *)
Definition processRmItem (data : bytes) (s : DbServer) : Z * DbServer := (lenZ data, s).

Definition ds_default (mgr conn_id msg_id : Z) (data : bytes) (s : DbServer) : option (Z * DbServer) :=
  if msg_id =? MSGID_GS2DS_SET_ROLE_DATA_REQUEST then processSetRoleData mgr conn_id data s
  else if msg_id =? MSGID_GS2DS_ADD_ITEM_REQUEST then processAddItem mgr conn_id data s
  else Some (lenZ data, s).

Definition ds_msg (now : Z) (pushed : bool) (conn_id msg_id : Z) (data : bytes) (s : DbServer) : option (Z * DbServer) :=
  if msg_id =? MSGID_GS2DS_CONNECT_DB_REQUEST then processConnectDBRequest MGR conn_id data s
  else if msg_id =? MSGID_GS2DS_GET_ROLE_REQUEST then processGetRole pushed conn_id data s
  else if msg_id =? MSGID_GS2DS_CREATE_ROLE_REQUEST then processCreateRole now MGR conn_id data s
  else ds_default MGR conn_id msg_id data s.

(** ** What happens to a database server *)

(** The generated requests of a record. *)
Definition make_request (r : t_player -> DbRequest) (p : ptr) (w : gmap ptr t_player * list DbRequest)
  : option (bool * (gmap ptr t_player * list DbRequest)) :=
  pl ← w.1 !! p; Some (request_ok (r pl), if request_ok (r pl) then (w.1, w.2 ++ [r pl]) else w).

#[local] Instance db_record_calls : RecordCalls (gmap ptr t_player * list DbRequest) := {|
  rc_insert_request := make_request req_insert;
  rc_delete_request := make_request (fun pl => req_delete (tp_role_id pl));
  rc_update_request := make_request req_update;
|}.

(** [GlobalData::run]. *)
Definition ds_run (s : DbServer) : option DbServer :=
  '(t, w) ← rm2_update hash_order (S (size (states_ (r2_states (ds_table s))))) (ds_table s) (ds_objs s, ds_requests s);
  Some (ds_set_requests (snd w) (ds_set_table t (fst w) s)).

(** The callback of the oldest query; a query that failed is dropped, and its callback is not called. *)
Definition ds_answer (res : option Result) (s : DbServer) : option DbServer :=
  match ds_queries s with
  | [] => None
  | q :: qs =>
    let s := ds_set_queries qs s in
    match res, q with
    | None, _ => Some s
    | Some rows, q_accounts => Some (snd (getAllAccounts rows s))
    | Some rows, q_player account conn_id => '(_, s) ← ds_player_result account conn_id rows s; Some s
    end
  end.

Inductive ds_op : Type :=
| ds_op_connect
| ds_op_lost (conn_id : Z)
| ds_op_recycle (conn_id : Z)
| ds_op_revive (conn_id : Z)
| ds_op_game (now : Z) (pushed : bool) (conn_id msg_id : Z) (data : bytes)
| ds_op_result (res : option Result)
| ds_op_update.

Definition ds_exec (o : ds_op) (s : DbServer) : option DbServer :=
  match o with
  | ds_op_connect => Some (ds_set_net (nt_connect MGR (ds_net s)) s)
  | ds_op_lost c => ac_force_close MGR c s
  | ds_op_recycle c => n ← nt_recycle MGR c (ds_net s); Some (ds_set_net n s)
  | ds_op_revive c => n ← nt_revive MGR c (ds_net s); Some (ds_set_net n s)
  | ds_op_game now pushed c msg_id data =>
    if nt_is_connected MGR c (ds_net s) then handled MGR c (ds_msg now pushed c msg_id data s) else None
  | ds_op_result res => ds_answer res s
  | ds_op_update => ds_run s
  end.

Fixpoint ds_exec_all (os : list ds_op) (s : DbServer) : option DbServer :=
  match os with [] => Some s | o :: os => s ← ds_exec o s; ds_exec_all os s end.
End db.
