(* ===== verification/DbProps.v ===== *)
(** * What the database server guarantees

    Role ids, and the roles of accounts: a role that was created is found from then on, whatever happens
    until the server ends; [update] writes what changed. *)
From S2P Require Import Prelude Datatype Agent BiMap AppNet Proto Codec Common Records DbServer.
From Stdlib Require Import ZArith Lia.
From stdpp Require Import base option list gmap.
Local Open Scope Z_scope.

(** ** Role ids *)

(** The ids that creations by servers at times get, one after the other. *)
Fixpoint gen_role_ids (l : list (Z * Z)) (counter : Z) : list Z :=
  match l with
  | [] => []
  | (server, now) :: l => let '(id, counter) := gen_unique_role_id server now counter in id :: gen_role_ids l counter
  end.

Lemma land_field x k m : 0 <= k -> 0 <= m -> Z.land (Z.shiftl x k) (Z.shiftl (Z.ones m) k) = (x mod 2 ^ m) * 2 ^ k.
Proof. intros Hk Hm. rewrite <- Z.shiftl_land, Z.land_ones, Z.shiftl_mul_pow2 by lia. done. Qed.

(** 16 bits of the server, 16 unused ones, 16 of the time, 16 of the counter. *)
Lemma role_id_fields server now c : is_u16 c ->
  gen_unique_role_id server now c = ((server mod 2 ^ 16) * 2 ^ 48 + (now mod 2 ^ 16) * 2 ^ 16 + c, (c + 1) mod 2 ^ 16).
Proof.
  intros Hc. unfold gen_unique_role_id. change 0xffff0000 with (Z.shiftl (Z.ones 16) 16).
  change 0xffff000000000000 with (Z.shiftl (Z.ones 16) 48). rewrite land_field by lia.
  assert (u64 (Z.shiftl server 48) = Z.shiftl (server mod 2 ^ 16) 48) as ->.
  { unfold u64. rewrite !Z.shiftl_mul_pow2 by lia. change (2 ^ 64) with (2 ^ 16 * 2 ^ 48). by rewrite Z.mul_mod_distr_r. }
  rewrite land_field, Z.mod_mod by lia. f_equal. unfold u64, is_u16 in *.
  pose proof (Z.mod_pos_bound server (2 ^ 16)). pose proof (Z.mod_pos_bound now (2 ^ 16)). rewrite (Z.mod_small (_ + _ * 2 ^ 16)) by lia.
  apply Z.mod_small. lia.
Qed.

Lemma gen_role_ids_at l : forall c i server now, is_u16 c -> l !! i = Some (server, now) ->
  gen_role_ids l c !! i = Some ((server mod 2 ^ 16) * 2 ^ 48 + (now mod 2 ^ 16) * 2 ^ 16 + (c + Z.of_nat i) mod 2 ^ 16).
Proof.
  induction l as [|[s n] l IH]; intros c i server now Hc E; [done|]. cbn [gen_role_ids]. rewrite role_id_fields by done.
  assert (Hc' := Hc). unfold is_u16 in Hc'. destruct i as [|i]; cbn [lookup list_lookup] in *.
  - injection E as -> ->. rewrite Z.add_0_r, (Z.mod_small c) by done. done.
  - rewrite (IH _ i server now); [|unfold is_u16; apply Z.mod_pos_bound; lia|done]. do 2 f_equal. rewrite Zplus_mod_idemp_l. f_equal. lia.
Qed.

(** Two role ids that a database server gives, in any sequence of creations, are the same exactly when
    their servers agree in 16 bits, the times of their creation agree modulo 2^16 seconds and the number of
    creations between them is a multiple of 2^16: up to 65536 creations in a row get different ids, and a
    server that was started again can give an id again every 65536 seconds. *)
Theorem role_ids_collide_iff l c i j a b s1 t1 s2 t2 : is_u16 c ->
  l !! i = Some (s1, t1) -> l !! j = Some (s2, t2) -> gen_role_ids l c !! i = Some a -> gen_role_ids l c !! j = Some b ->
  a = b <-> s1 mod 2 ^ 16 = s2 mod 2 ^ 16 /\ t1 mod 2 ^ 16 = t2 mod 2 ^ 16 /\ Z.of_nat i mod 2 ^ 16 = Z.of_nat j mod 2 ^ 16.
Proof.
  intros Hc Hi Hj Ha Hb. rewrite (gen_role_ids_at _ _ _ _ _ Hc Hi) in Ha. rewrite (gen_role_ids_at _ _ _ _ _ Hc Hj) in Hb.
  injection Ha as <-. injection Hb as <-.
  pose proof (Z.mod_pos_bound s1 (2 ^ 16)). pose proof (Z.mod_pos_bound s2 (2 ^ 16)). pose proof (Z.mod_pos_bound t1 (2 ^ 16)). pose proof (Z.mod_pos_bound t2 (2 ^ 16)).
  pose proof (Z.mod_pos_bound (c + Z.of_nat i) (2 ^ 16)). pose proof (Z.mod_pos_bound (c + Z.of_nat j) (2 ^ 16)).
  assert (Hij : (c + Z.of_nat i) mod 2 ^ 16 = (c + Z.of_nat j) mod 2 ^ 16 <-> Z.of_nat i mod 2 ^ 16 = Z.of_nat j mod 2 ^ 16) by (clear; split; lia_mod).
  rewrite <- Hij. clear Hij. change (2 ^ 48) with (2 ^ 32 * 2 ^ 16). lia.
Qed.

(** ** The table of roles *)

Definition two_way {A B} `{Countable A, Countable B} (m : BiMap A B) : Prop := forall a b, one_map_ m !! a = Some b <-> two_map_ m !! b = Some a.

Lemma bm_insert_two_way {A B} `{Countable A, Countable B} (m : BiMap A B) a b : two_way m ->
  two_way (snd (bm_insert m a b)) /\ (forall a' b', one_map_ m !! a' = Some b' -> one_map_ (snd (bm_insert m a b)) !! a' = Some b') /\
  (forall a' b', one_map_ (snd (bm_insert m a b)) !! a' = Some b' -> one_map_ m !! a' = Some b' \/ (a' = a /\ b' = b)).
Proof.
  intros Hm. unfold bm_insert. destruct (one_map_ m !! a) as [b0|] eqn:E1; [cbn; auto|]. destruct (two_map_ m !! b) as [a0|] eqn:E2; [cbn; auto|].
  cbn [snd one_map_]. split; [|split].
  - intros a' b'. cbn [one_map_ two_map_]. split.
    + intros [[<- <-]|[Hne E]]%lookup_insert_Some; [by rewrite lookup_insert_eq|]. apply Hm in E. rewrite lookup_insert_ne by congruence. done.
    + intros [[<- <-]|[Hne E]]%lookup_insert_Some; [by rewrite lookup_insert_eq|]. apply Hm in E. rewrite lookup_insert_ne by congruence. done.
  - intros a' b' E. rewrite lookup_insert_ne by congruence. done.
  - intros a' b' [[<- <-]|[Hne E]]%lookup_insert_Some; auto.
Qed.

Lemma fresh_record_gt (objs : gset ptr) : 1 <= fresh_record objs /\ forall p, p ∈ objs -> p < fresh_record objs.
Proof.
  unfold fresh_record. revert objs. apply (set_fold_ind_L (fun (m : Z) (objs : gset ptr) => 1 <= m /\ forall p, p ∈ objs -> p < m)).
  - split; [lia|]. intros p Hp. by apply elem_of_empty in Hp.
  - intros x objs m _ [H1 H2]. split; [lia|]. intros p [->%elem_of_singleton|Hp]%elem_of_union; [lia|]. apply H2 in Hp. lia.
Qed.

Record table_ok (t : PlayerTable) (objs : gmap ptr t_player) : Prop := mkTableOk {
  to_objs : forall p, p ∈ r2_objs t <-> is_Some (objs !! p);
  to_null : NULL ∉ r2_objs t;
  to_key : two_way (r2_key_map t);
  to_key_objs : forall k p, one_map_ (r2_key_map t) !! k = Some p -> p ∈ r2_objs t;
  to_key2 : two_way (r2_key2_map t);
  to_key2_objs : forall a p, one_map_ (r2_key2_map t) !! a = Some p -> p ∈ r2_objs t;
  to_states : forall p x, states_ (r2_states t) !! p = Some x -> p ∈ r2_objs t /\ x <> MYSQL_TABLE_RECORD_STATE_DELETE;
}.

(** What is kept of a row. *)
Definition tp_ident (p : t_player) : bytes * Z * bytes := (tp_account p, tp_role_id p, tp_nick_name p).

Definition rows_kept (t t' : PlayerTable) (objs objs' : gmap ptr t_player) : Prop :=
  (forall a p, get_by_key2 a t = Some p -> get_by_key2 a t' = Some p) /\
  (forall p pl, objs !! p = Some pl -> exists pl', objs' !! p = Some pl' /\ tp_ident pl' = tp_ident pl).

(** A step of the server keeps the table well formed and its rows. *)
Definition db_step (s s' : DbServer) : Prop :=
  table_ok (ds_table s) (ds_objs s) -> table_ok (ds_table s') (ds_objs s') /\ rows_kept (ds_table s) (ds_table s') (ds_objs s) (ds_objs s').

#[export] Instance db_step_preorder : PreOrder db_step.
Proof.
  split.
  - intros s Hs. split; [done|]. split; [done|]. eauto.
  - intros a b c Hab Hbc Ha. destruct (Hab Ha) as (Hb & K1 & O1). destruct (Hbc Hb) as (Hc & K2 & O2). split; [done|]. split; [auto|].
    intros p pl E. destruct (O1 _ _ E) as (pl1 & E1 & I1). destruct (O2 _ _ E1) as (pl2 & E2 & I2). exists pl2. split; [done|congruence].
Qed.

Lemma db_step_same s s' : ds_table s' = ds_table s -> ds_objs s' = ds_objs s -> db_step s s'.
Proof. intros E1 E2. unfold db_step. rewrite E1, E2. by apply (reflexivity (R := db_step) s). Qed.

Lemma db_step_eq_table s s' s1 : ds_table s' = ds_table s1 -> ds_objs s' = ds_objs s1 -> db_step s s1 -> db_step s s'.
Proof. intros E1 E2 Hs. etrans; [exact Hs|by apply db_step_same]. Qed.

(** A new record, that no key leads to yet. *)
Lemma table_new t objs p x : table_ok t objs -> p ∉ r2_objs t -> p <> NULL ->
  table_ok (mkRM2 ({[p]} ∪ r2_objs t) (r2_key_map t) (r2_key2_map t) (r2_states t)) (<[p := x]> objs).
Proof.
  intros [H1 H2 H3 H4 H5 H6 H7] Hp Hn. constructor; cbn [r2_objs r2_key_map r2_key2_map r2_states].
  - intros q. rewrite elem_of_union, elem_of_singleton, H1. destruct (decide (q = p)) as [->|Hne]; [rewrite lookup_insert_eq; split; eauto|].
    rewrite lookup_insert_ne by done. split; [by intros [?|?]|by right].
  - rewrite elem_of_union, elem_of_singleton. intros [?|?]; congruence.
  - done.
  - intros k q E. apply elem_of_union_r. by apply (H4 k).
  - done.
  - intros a q E. apply elem_of_union_r. by apply (H6 a).
  - intros q y E. apply H7 in E as [E ?]. split; [by apply elem_of_union_r|done].
Qed.

Lemma table_key t objs k p : table_ok t objs -> p ∈ r2_objs t ->
  table_ok (mkRM2 (r2_objs t) (snd (bm_insert (r2_key_map t) k p)) (r2_key2_map t) (r2_states t)) objs.
Proof.
  intros [H1 H2 H3 H4 H5 H6 H7] Hp. destruct (bm_insert_two_way (r2_key_map t) k p H3) as (B1 & _ & B3). constructor; try done.
  cbn [r2_objs r2_key_map]. intros k' q [E|[_ ->]]%B3; [by apply (H4 k')|done].
Qed.

Lemma table_key2 t objs a p : table_ok t objs -> p ∈ r2_objs t ->
  table_ok (mkRM2 (r2_objs t) (r2_key_map t) (snd (bm_insert (r2_key2_map t) a p)) (r2_states t)) objs.
Proof.
  intros [H1 H2 H3 H4 H5 H6 H7] Hp. destruct (bm_insert_two_way (r2_key2_map t) a p H5) as (B1 & _ & B3). constructor; try done.
  cbn [r2_objs r2_key2_map]. intros a' q [E|[_ ->]]%B3; [by apply (H6 a')|done].
Qed.

(** A record is filled in. *)
Lemma table_write t objs p x : table_ok t objs -> p ∈ r2_objs t -> table_ok t (<[p := x]> objs).
Proof.
  intros [H1 H2 H3 H4 H5 H6 H7] Hp. constructor; try done. intros q. rewrite H1. destruct (decide (q = p)) as [->|Hne].
  - rewrite lookup_insert_eq. apply H1 in Hp. split; eauto.
  - by rewrite lookup_insert_ne.
Qed.

Lemma table_states t objs st : table_ok t objs ->
  (forall p x, states_ st !! p = Some x -> p ∈ r2_objs t /\ x <> MYSQL_TABLE_RECORD_STATE_DELETE) -> table_ok (rm2_set_states st t) objs.
Proof. by intros [H1 H2 H3 H4 H5 H6 H7] Hst. Qed.

Lemma table_commit (f : ptr -> mysql_record_state_manager -> bool * mysql_record_state_manager) t objs p :
  f = commit_insert \/ f = commit_update -> table_ok t objs -> p ∈ r2_objs t -> table_ok (snd (rm2_commit f p t)) objs.
Proof.
  intros Hf Ht Hp. assert (H7 := to_states _ _ Ht). unfold rm2_commit.
  assert (Hs : forall y, y <> MYSQL_TABLE_RECORD_STATE_DELETE -> table_ok (rm2_set_states (st_set p y (r2_states t)) t) objs).
  { intros y Hy. apply table_states; [done|]. cbn [st_set states_]. intros q z [[<- <-]|[_ E]]%lookup_insert_Some; [done|by apply H7]. }
  assert (Hg : get_state (r2_states t) p <> Some MYSQL_TABLE_RECORD_STATE_DELETE) by (intros E; by apply H7 in E as [_ E]).
  destruct Hf as [-> | ->]; unfold commit_insert, commit_update; destruct (get_state (r2_states t) p) as [[]|] eqn:E; try done; cbn [snd];
    try (by apply Hs); by apply table_states.
Qed.

Lemma commit_key2 (f : ptr -> mysql_record_state_manager -> bool * mysql_record_state_manager) (p : ptr) (a : bytes) (t : PlayerTable) : get_by_key2 a (snd (rm2_commit f p t)) = get_by_key2 a t.
Proof. unfold rm2_commit. by destruct (f p (r2_states t)). Qed.

Lemma record_in (p : ptr) (objs : gset ptr) : p ∈ {[p]} ∪ objs.
Proof. set_solver. Qed.

Lemma fresh_new (t : PlayerTable) : fresh_record (r2_objs t) ∉ r2_objs t /\ fresh_record (r2_objs t) <> NULL.
Proof. destruct (fresh_record_gt (r2_objs t)) as [H1 H2]. split; [intros Hp; apply H2 in Hp; lia|unfold NULL; lia]. Qed.

Lemma rows_kept_new t objs a x km : table_ok t objs -> let p := fresh_record (r2_objs t) in
  rows_kept t (mkRM2 ({[p]} ∪ r2_objs t) km (snd (bm_insert (r2_key2_map t) a p)) (r2_states t)) objs (<[p := x]> objs).
Proof.
  intros Ht p. destruct (fresh_new t) as [Hp _]. fold p in Hp. split.
  - intros a' q E. destruct (bm_insert_two_way (r2_key2_map t) a p (to_key2 _ _ Ht)) as (_ & B2 & _). by apply B2.
  - intros q pl E. exists pl. split; [|done]. rewrite lookup_insert_ne; [done|]. intros ->. apply Hp, (to_objs _ _ Ht). by exists pl.
Qed.

Lemma new_key2_ok t objs a x : table_ok t objs -> let '(p, t') := get_new_by_key2 a t in
  table_ok t' (<[p := x]> objs) /\ rows_kept t t' objs (<[p := x]> objs) /\ p ∈ r2_objs t' /\ find_2 (r2_key_map t') p = None.
Proof.
  intros Ht. unfold get_new_by_key2. destruct (fresh_new t) as [Hp Hn]. split; [|split; [by apply rows_kept_new|split]].
  - refine (table_key2 (mkRM2 _ _ _ _) _ _ _ _ _); [by apply table_new|apply record_in].
  - apply record_in.
  - cbn [r2_key_map]. unfold find_2. destruct (two_map_ _ !! _) as [k|] eqn:E; [|done]. apply (to_key _ _ Ht) in E. by apply (to_key_objs _ _ Ht) in E.
Qed.

Lemma new_keys_ok t objs k a x : table_ok t objs -> let '(p, t') := get_new_by_key_and_key2 k a t in
  table_ok t' (<[p := x]> objs) /\ rows_kept t t' objs (<[p := x]> objs) /\ p ∈ r2_objs t' /\
  is_Some (get_by_key k t') /\ (get_by_key2 a t = None -> get_by_key2 a t' = Some p).
Proof.
  intros Ht. unfold get_new_by_key_and_key2. destruct (fresh_new t) as [Hp Hn]. split; [|split; [by apply rows_kept_new|split; [|split]]].
  - refine (table_key2 (mkRM2 _ _ _ _) _ _ _ _ _); [|apply record_in]. refine (table_key (mkRM2 _ _ _ _) _ _ _ _ _); [by apply table_new|apply record_in].
  - apply record_in.
  - unfold get_by_key, find_1, bm_insert. cbn [r2_key_map]. destruct (one_map_ (r2_key_map t) !! k) eqn:E1; [by eexists|].
    destruct (two_map_ (r2_key_map t) !! _) as [k0|] eqn:E2.
    + apply (to_key _ _ Ht) in E2. by apply (to_key_objs _ _ Ht) in E2.
    + cbn [snd one_map_]. rewrite lookup_insert_eq. by eexists.
  - unfold get_by_key2, find_1, bm_insert. cbn [r2_key2_map]. intros E1. rewrite E1. destruct (two_map_ (r2_key2_map t) !! _) as [k0|] eqn:E2.
    + apply (to_key2 _ _ Ht) in E2. by apply (to_key2_objs _ _ Ht) in E2.
    + cbn [snd one_map_]. by rewrite lookup_insert_eq.
Qed.

(** ** The handlers *)

Lemma update_player_step p f s s' : ds_update_player p f s = Some s' ->
  (forall pl, ds_objs s !! p = Some pl -> tp_ident (f pl) = tp_ident pl) -> db_step s s'.
Proof.
  unfold ds_update_player, ds_player. destruct (ds_objs s !! p) as [pl|] eqn:E; [|done]. intros [= <-] Hf Hs.
  cbn [ds_set_table ds_table ds_objs]. split; [apply table_write; [done|apply (to_objs _ _ Hs); by exists pl]|]. split; [done|].
  intros q pl0 E0. destruct (decide (q = p)) as [->|Hne]; [|exists pl0; by rewrite lookup_insert_ne].
  rewrite E in E0. injection E0 as <-. exists (f pl). rewrite lookup_insert_eq. split; [done|by apply Hf].
Qed.

Lemma commit_step (f : ptr -> mysql_record_state_manager -> bool * mysql_record_state_manager) p s : f = commit_insert \/ f = commit_update ->
  (table_ok (ds_table s) (ds_objs s) -> p ∈ r2_objs (ds_table s)) -> db_step s (ds_set_table (snd (rm2_commit f p (ds_table s))) (ds_objs s) s).
Proof.
  intros Hf Hp Hs. cbn [ds_set_table ds_table ds_objs]. split; [by apply table_commit; auto|]. split; [|eauto]. intros a q. by rewrite commit_key2.
Qed.

Lemma insert_key_step k p s : 
  db_step s (ds_set_table (snd (insert_key_record k p (ds_table s))) (ds_objs s) s).
Proof.
  intros Hs. cbn [ds_set_table ds_table ds_objs]. unfold insert_key_record. destruct (find_2 (r2_key2_map _) p) as [a|] eqn:E2; [|by apply (reflexivity (R := db_step) s)].
  destruct (find_1 _ k) eqn:E1; [by apply (reflexivity (R := db_step) s)|]. cbn [snd]. split; [|split; eauto]. apply table_key; [done|].
  apply (to_key2 _ _ Hs) in E2. by apply (to_key2_objs _ _ Hs) in E2.
Qed.

Section steps.
Variables (MGR : Z) (tmp : bytes).
Variable hash_order : gmap ptr MysqlTableRecordState -> list (ptr * MysqlTableRecordState).
Variable request_ok : DbRequest -> bool.
Variable get_result : Result -> t_player -> Z * t_player.
Context `{ServerMessages}.
Hypothesis hash_order_perm : forall m, hash_order m ≡ₚ map_to_list m.
#[local] Instance db_props_calls : AgentCalls DbServer := db_agent_calls.

(** Sending keeps the table and the records. *)
Definition same_rows (s s' : DbServer) : Prop := ds_table s' = ds_table s /\ ds_objs s' = ds_objs s.

Lemma same_rows_step s s' : same_rows s s' -> db_step s s'.
Proof using. intros [E1 E2]. by apply db_step_same. Qed.

Lemma sendMsg_rows (a : Agent unit) m data len s r s' : ag_sendMsg a m data len s = Some (r, s') -> same_rows s s'.
Proof using.
  unfold ag_sendMsg. case_decide; [by intros [= <- <-]|]. destruct (negb _); [by intros [= <- <-]|]. cbn [ac_send db_props_calls db_agent_calls net_calls].
  destruct (nt_send _ _ _ _ _ _ _) as [[x n]|]; [|done]. cbn [mbind option_bind]. intros [= _ <-]. done.
Qed.

Lemma send_role_rows resp c s r s' : ds_send_role tmp resp c s = Some (r, s') -> same_rows s s'.
Proof using.
  unfold ds_send_role. destruct (ds_getByConnId c s) as [a|]; [|by intros [= <- <-]]. destruct (SerializeToBuffer _ _ _) as [t|]; [|by intros [= <- <-]].
  intros E. apply bind_Some in E as (ag & _ & E). apply bind_Some in E as ([x s1] & E1 & E). apply (inj Some), pair_equal_spec in E as [_ <-].
  by eapply sendMsg_rows.
Qed.

Lemma get_response_rows u c s r s' : sendGetRoleResponse tmp u c s = Some (r, s') -> same_rows s s'.
Proof using. unfold sendGetRoleResponse. intros E. apply bind_Some in E as (p & _ & E). by eapply send_role_rows. Qed.

Lemma reply_rows {M} `{Message M} (m : M) mgr c msg data s r s' : ds_reply tmp m mgr c msg data s = Some (r, s') -> same_rows s s'.
Proof using.
  unfold ds_reply. destruct (SerializeToArray m tmp) as [t|]; [|by intros [= <- <-]]. intros E. apply bind_Some in E as ([x n] & _ & E).
  apply (inj Some), pair_equal_spec in E as [_ <-]. done.
Qed.

Lemma disconnect_rows c s s' : ds_onDisconnect c s = Some s' -> same_rows s s'.
Proof using.
  unfold ds_onDisconnect. destruct (ds_getByConnId c s); [|by intros [= <-]]. unfold ds_removeByConnId.
  destruct (ap_deleteAgentByConnId _ _ _) as [[r m]|]; [|done]. cbn [mbind option_bind]. by intros [= <-].
Qed.

Lemma force_close_rows c s s' : ac_force_close MGR c s = Some s' -> same_rows s s'.
Proof using.
  cbn [ac_force_close db_props_calls db_agent_calls net_calls]. destruct (nt_force_close MGR c (ds_net s)) as [[b n]|]; [|done]. cbn [mbind option_bind].
  destruct b; [|by intros [= <-]]. intros E. apply disconnect_rows in E. exact E.
Qed.

Lemma connect_db_rows mgr c data s r s' : processConnectDBRequest tmp mgr c data s = Some (r, s') -> same_rows s s'.
Proof using.
  unfold processConnectDBRequest. destruct (ds_getByConnId c s); [by intros [= <- <-]|]. destruct (ParseFromArray _) as [q|]; [|by intros [= <- <-]].
  set (x := match ds_get _ s with Some a => _ | None => _ end).
  assert (Hx : same_rows s (snd x)). { unfold x. destruct (ds_get _ s); [done|]. unfold ds_newAgent. by destruct (ap_newAgent _ _ _ _ _ _). }
  destruct x as [o s1]. cbn [snd] in Hx. destruct o as [a|]; [|by intros [= <- <-]]. destruct (SerializeToArray _ _) as [t|]; [|by intros [= <- <-]].
  intros E. apply bind_Some in E as (ag & _ & E). apply bind_Some in E as ([y s2] & E1 & E). apply (inj Some), pair_equal_spec in E as [_ <-].
  apply sendMsg_rows in E1 as [E1 E2]. destruct Hx as [X1 X2]. split; congruence.
Qed.

Lemma get_role_rows pushed c data s r s' : processGetRole tmp pushed c data s = Some (r, s') -> same_rows s s'.
Proof using.
  unfold processGetRole. destruct (ParseFromArray _) as [q|]; [|by intros [= <- <-]]. destruct (get_by_key2 _ _) as [u|].
  - intros E. apply bind_Some in E as ([x s1] & E1 & E). apply (inj Some), pair_equal_spec in E as [_ <-]. by eapply get_response_rows.
  - destruct pushed; by intros [= <- <-].
Qed.

Lemma after_rows s s1 s2 : db_step s s1 -> same_rows s1 s2 -> db_step s s2.
Proof using. intros H1 H2. etrans; [exact H1|by apply same_rows_step]. Qed.

Lemma update_player_table p f s s' : ds_update_player p f s = Some s' -> ds_table s' = ds_table s.
Proof using. unfold ds_update_player. intros E. apply bind_Some in E as (pl & _ & E). by injection E as <-. Qed.

(** A record that is found by role id is changed, and the change is committed. *)
Lemma update_commit_step k p f s s1 : get_by_key k (ds_table s) = Some p -> ds_update_player p f s = Some s1 ->
  (forall pl, tp_ident (f pl) = tp_ident pl) -> db_step s (ds_set_table (snd (rm2_commit commit_update p (ds_table s1))) (ds_objs s1) s1).
Proof using.
  intros Ep E1 Hf. etrans; [eapply update_player_step; [exact E1|intros pl _; apply Hf]|]. apply commit_step; [by right|].
  rewrite (update_player_table _ _ _ _ E1). intros Hs. eapply (to_key_objs _ _ Hs), Ep.
Qed.

Lemma set_role_step mgr c data s r s' : processSetRoleData tmp mgr c data s = Some (r, s') -> db_step s s'.
Proof using.
  unfold processSetRoleData. destruct (get_connection _ _ _); [|by intros [= <- <-]]. destruct (ParseFromArray _) as [q|]; [|by intros [= <- <-]].
  destruct (get_by_key _ _) as [p|] eqn:Ep; [|by intros [= <- <-]]. intros E. apply bind_Some in E as (s1 & E1 & E).
  assert (Et : ds_table s1 = ds_table s) by (by eapply update_player_table).
  unfold commit_update_request_by_key in E. rewrite Et, Ep, <- Et in E.
  destruct (rm2_commit commit_update p (ds_table s1)) as [b t] eqn:Ec. eapply after_rows; [|exact (reply_rows _ _ _ _ _ _ _ _ E)].
  replace t with (snd (rm2_commit commit_update p (ds_table s1))) by (by rewrite Ec). by eapply update_commit_step.
Qed.

Lemma add_item_step mgr c data s r s' : processAddItem tmp mgr c data s = Some (r, s') -> db_step s s'.
Proof using.
  unfold processAddItem. destruct (get_connection _ _ _); [|by intros [= <- <-]]. destruct (ParseFromArray _) as [q|]; [|by intros [= <- <-]].
  destruct (get_by_key _ _) as [p|] eqn:Ep; [|by intros [= <- <-]]. intros E. apply bind_Some in E as (s1 & E1 & E).
  destruct (rm2_commit commit_update p (ds_table s1)) as [b t] eqn:Ec. eapply after_rows; [|exact (reply_rows _ _ _ _ _ _ _ _ E)].
  replace t with (snd (rm2_commit commit_update p (ds_table s1))) by (by rewrite Ec). by eapply update_commit_step.
Qed.

(** The record of a role that is created. *)
Definition created (request : MsgGS2DS_CreateRoleRequest) (role_id : Z) (s : DbServer) : Prop :=
  exists p pl, get_by_key2 (dc_account request) (ds_table s) = Some p /\ ds_objs s !! p = Some pl /\
    tp_ident pl = (dc_account request, role_id, dc_nick_name request).

Lemma created_kept q id s s' : table_ok (ds_table s) (ds_objs s) -> db_step s s' -> created q id s -> created q id s'.
Proof using.
  intros Hs Hst (p & pl & E1 & E2 & E3). destruct (Hst Hs) as (_ & K1 & K2). destruct (K2 _ _ E2) as (pl' & E2' & I).
  exists p, pl'. split; [by apply K1|]. split; [done|congruence].
Qed.

(** What a creation does to the table: a new row, with an insert committed. *)
Definition table_created (q : MsgGS2DS_CreateRoleRequest) (role_id : Z) (s : DbServer) : DbServer :=
  let '(p, t) := get_new_by_key_and_key2 role_id (dc_account q) (ds_table s) in
  ds_set_table (snd (rm2_commit commit_insert p t)) (<[p := tp_set_role role_id (dc_account q) (dc_sex q) (dc_nick_name q) t_player_new]> (ds_objs s)) s.

Lemma table_created_step q id s : db_step s (table_created q id s) /\
  (table_ok (ds_table s) (ds_objs s) -> get_by_key2 (dc_account q) (ds_table s) = None -> created q id (table_created q id s)).
Proof using.
  unfold table_created. set (x := tp_set_role _ _ _ _ _). assert (Hn := new_keys_ok (ds_table s) (ds_objs s) id (dc_account q) x).
  destruct (get_new_by_key_and_key2 id (dc_account q) (ds_table s)) as [p t]. split.
  - intros Hs. destruct (Hn Hs) as (H1 & [K1 K2] & Hp & _ & _). cbn [ds_set_table ds_table ds_objs]. split; [by apply table_commit; auto|].
    split; [|done]. intros a u E. rewrite commit_key2. by apply K1.
  - intros Hs Ha. destruct (Hn Hs) as (_ & _ & _ & _ & Ha'). exists p, x. cbn [ds_set_table ds_table ds_objs]. rewrite commit_key2, lookup_insert_eq. auto.
Qed.

Lemma create_role_cases now mgr c data s r s' : table_ok (ds_table s) (ds_objs s) -> processCreateRole tmp now mgr c data s = Some (r, s') ->
  (s' = s /\ (is_Some (get_connection c mgr (ds_net s)) -> forall q, ParseFromArray data = Some q -> r = 0 /\ is_Some (get_by_key2 (dc_account q) (ds_table s)))) \/
  (exists q, ParseFromArray data = Some q /\ get_by_key2 (dc_account q) (ds_table s) = None /\
     same_rows (table_created q (fst (gen_unique_role_id (ds_getIdByConnId c s) now (ds_counter s))) s) s').
Proof using.
  intros Hs. unfold processCreateRole, table_created. destruct (get_connection _ _ _) as [st|]; [|intros [= <- <-]; left; split; [done|by intros [? ?]]].
  destruct (ParseFromArray _) as [q|]; [|intros [= <- <-]; by left]. destruct (get_by_key2 _ _) as [p|] eqn:Ep.
  { intros [= <- <-]. left. split; [done|]. intros _ q' [= <-]. split; [done|by rewrite Ep]. }
  destruct (gen_unique_role_id _ _ _) as [id counter]. cbn [fst ds_set_counter ds_table ds_objs].
  assert (Hn := new_keys_ok (ds_table s) (ds_objs s) id (dc_account q) t_player_new Hs).
  destruct (get_new_by_key_and_key2 id (dc_account q) (ds_table s)) as [u t] eqn:Et. destruct Hn as (_ & _ & _ & [p' Eg] & _).
  cbn [ds_set_table ds_table]. rewrite Eg. unfold ds_update_player, ds_player. cbn [ds_set_table ds_objs]. rewrite lookup_insert_eq.
  cbv beta iota zeta delta [mbind option_bind]. unfold setAccount2UserId. cbn [ds_set_table ds_set_accounts ds_table ds_objs ds_set_counter].
  rewrite insert_insert_eq. destruct (rm2_commit commit_insert u t) as [b t'] eqn:Ec. cbn [snd].
  intros E. right. exists q. split; [done|]. split; [done|]. rewrite Et, Ec. destruct b; cbn [negb] in E.
  - apply reply_rows in E. exact E.
  - injection E as _ <-. done.
Qed.

Lemma create_role_step now mgr c data s r s' : processCreateRole tmp now mgr c data s = Some (r, s') -> db_step s s'.
Proof using.
  intros E Hs. destruct (create_role_cases _ _ _ _ _ _ _ Hs E) as [[-> _]|(q & _ & _ & Hq)]; [by apply (reflexivity (R := db_step) s)|].
  revert Hs. change (db_step s s'). eapply after_rows; [apply table_created_step|exact Hq].
Qed.

(** The record that is made for the rows of a query. *)
Lemma fill_step res u c on_error s r s' : (forall s0 s1, find_2 (r2_key_map (ds_table s0)) u = None -> on_error s0 = Some s1 -> same_rows s0 s1) ->
  ds_fill tmp get_result res u c on_error s = Some (r, s') -> find_2 (r2_key_map (ds_table s)) u = None ->
  exists x, db_step (ds_set_table (ds_table s) (<[u := x]> (ds_objs s)) s) s'.
Proof using.
  intros He. unfold ds_fill, ds_player. destruct (ds_objs s !! u) as [pl|] eqn:Eu; [|done]. cbv beta iota zeta delta [mbind option_bind].
  destruct (get_result res pl) as [x pl']. set (s0 := ds_set_table (ds_table s) (<[u := pl']> (ds_objs s)) s). intros E Hu. exists pl'.
  destruct (x <? 0).
  - destruct (on_error s0) as [s1|] eqn:E1; [|done]. apply (inj Some), pair_equal_spec in E as [_ <-]. apply same_rows_step. by eapply He.
  - assert (Hk := insert_key_step (tp_role_id pl') u s0).
    set (y := if 0 <? tp_role_id pl' then _ else _) in E.
    assert (Hy : db_step s0 (ds_set_table (snd y) (ds_objs s0) s0)) by (unfold y; by destruct (0 <? tp_role_id pl')).
    clearbody y. destruct y as [b t]. cbn [snd] in Hy. destruct b; cbn [negb] in E; [|by injection E as _ <-].
    destruct (sendGetRoleResponse tmp u c _) as [[z s2]|] eqn:E2; [|done]. apply (inj Some), pair_equal_spec in E as [_ <-].
    eapply after_rows; [exact Hy|]. by eapply get_response_rows.
Qed.

Lemma player_result_step account c res s r s' : ds_player_result tmp get_result account c res s = Some (r, s') -> db_step s s'.
Proof using.
  unfold ds_player_result. destruct (0 <? num_rows res); [|intros E; apply same_rows_step; by eapply send_role_rows].
  intros E Hs. assert (Hn := fun x => new_key2_ok (ds_table s) (ds_objs s) account x Hs).
  destruct (get_new_by_key2 account (ds_table s)) as [u t]. destruct (Hn t_player_new) as (_ & _ & _ & Hu). apply fill_step in E as [x Hx]; [| |exact Hu].
  - destruct (Hn x) as (H1 & K & _). cbn [ds_set_table ds_table ds_objs] in Hx. rewrite insert_insert_eq in Hx.
    destruct (Hx H1) as (H2 & K2). split; [exact H2|]. destruct K as [K3 K4], K2 as [K5 K6]. cbn [ds_set_table ds_table ds_objs] in *. split; [auto|].
    intros q pl Eq. destruct (K4 _ _ Eq) as (pl1 & Eq1 & I1). destruct (K6 _ _ Eq1) as (pl2 & Eq2 & I2). exists pl2. split; [done|congruence].
  - intros s0 s1 H0. unfold remove_record. rewrite H0. cbn [mbind option_bind]. intros E0. apply (inj Some) in E0 as <-. done.
Qed.

(** ** update *)

#[local] Instance db_props_records : RecordCalls (gmap ptr t_player * list DbRequest) := db_record_calls request_ok.

Lemma make_request_objs r p w b w' : make_request request_ok r p w = Some (b, w') -> fst w' = fst w.
Proof using. unfold make_request. destruct (w.1 !! p) as [pl|]; [|done]. cbn. intros [= _ <-]. by destruct (request_ok _). Qed.

Lemma update_one_kept live p (st : mysql_record_state_manager) w res w' : (forall q x, states_ st !! q = Some x -> x <> MYSQL_TABLE_RECORD_STATE_DELETE) ->
  update_one_record hash_order live p st w = Some (res, w') -> (res = 0 \/ res = 1) /\ fst w' = fst w.
Proof using hash_order_perm.
  intros Hst. unfold update_one_record, curr. destruct (hash_order (states_ st) !! curr_iter_ st) as [[q x]|] eqn:E; [|done].
  apply list_elem_of_lookup_2 in E. rewrite hash_order_perm in E. apply elem_of_map_to_list, Hst in E.
  cbn [mbind option_bind]. destruct x; try done; [by intros [= <- <-]; auto| |]; unfold ub_unless; destruct (live p); try done;
    cbn [rc_insert_request rc_update_request db_props_records db_record_calls];
    (destruct (make_request request_ok _ p w) as [[b w1]|] eqn:Em; [|done]); cbn [mbind option_bind]; intros [= <- <-];
    (split; [by destruct b; auto|by eapply make_request_objs]).
Qed.

Lemma update_loop_kept fuel : forall (m : PlayerTable) w ret m' w', (forall q x, states_ (r2_states m) !! q = Some x -> x <> MYSQL_TABLE_RECORD_STATE_DELETE) ->
  rm2_update_loop hash_order fuel m w = Some (ret, m', w') -> (exists i, m' = rm2_set_states (mkStates (states_ (r2_states m)) i) m) /\ fst w' = fst w.
Proof using hash_order_perm.
  assert (Hsame : forall m : PlayerTable, exists i, m = rm2_set_states (mkStates (states_ (r2_states m)) i) m).
  { intros m. exists (curr_iter_ (r2_states m)). by destruct m as [? ? ? []]. }
  induction fuel as [|fuel IH]; intros m w ret m' w' Hst; [done|]. cbn [rm2_update_loop].
  destruct (get_update_record hash_order (r2_states m)) as [p|]; [|intros [= _ <- <-]; auto].
  destruct (update_one_record _ _ _ _ _) as [[res w1]|] eqn:E1; [|done]. apply update_one_kept in E1 as [Hr Hw]; [|done].
  cbn [mbind option_bind]. rewrite (proj2 (Z.ltb_ge res 0)), (proj2 (Z.eqb_neq res 2)) by (clear -Hr; lia). cbn [mbind option_bind].
  assert (Hn : exists i, snd (next_update_record hash_order (r2_states m)) = mkStates (states_ (r2_states m)) i).
  { unfold next_update_record. destruct (curr _ _); [by eexists|]. exists (curr_iter_ (r2_states m)). by destruct (r2_states m). }
  destruct (next_update_record hash_order (r2_states m)) as [r st]. destruct Hn as [i Hi]. cbn [snd] in Hi. subst st. destruct r; cbn [negb].
  - intros E. apply IH in E as [[j ->] Hw']; [|done]. split; [by exists j|congruence].
  - intros [= _ <- <-]. split; [by exists i|done].
Qed.

Lemma run_step s s' : ds_run hash_order request_ok s = Some s' -> db_step s s'.
Proof using hash_order_perm.
  unfold ds_run, rm2_update. intros E Hs. apply bind_Some in E as ([t w] & E1 & E). apply (inj Some) in E as <-.
  cbn [ds_set_requests ds_set_table ds_table ds_objs]. destruct (st_size _ =? 0) eqn:Ez.
  { apply (inj Some), pair_equal_spec in E1 as [<- <-]. by apply (reflexivity (R := db_step) s). }
  apply bind_Some in E1 as ([[ret m] w1] & E1 & E2). apply (inj Some), pair_equal_spec in E2 as [<- <-].
  apply update_loop_kept in E1 as [[i ->] Hw]; [|intros q x Hq; by apply (to_states _ _ Hs) in Hq as [_ Hq]]. rewrite Hw. split.
  - destruct ret; cbn [fst rm2_set_states r2_objs r2_key_map r2_key2_map].
    + exact (table_states _ _ (mkStates _ i) Hs (to_states _ _ Hs)).
    + refine (table_states _ _ (mkStates ∅ i) Hs _). intros q x Hq. cbn in Hq. by rewrite lookup_empty in Hq.
  - split; [by destruct ret|eauto].
Qed.

(** ** Steps of the server *)

Lemma accounts_rows rows : forall s, same_rows s (snd (getAllAccounts rows s)).
Proof using.
  induction rows as [|[|a row] rows IH]; intros s; [done..|]. cbn [getAllAccounts]. unfold insertDBAccount.
  destruct (findDBAccount a s); cbn [snd]; [apply IH|]. destruct (IH (ds_set_accounts ({[a]} ∪ ds_db_accounts s) (ds_user_ids s) s)) as [E1 E2]. by split; [rewrite E1|rewrite E2].
Qed.

Lemma answer_step res s s' : ds_answer tmp get_result res s = Some s' -> db_step s s'.
Proof using.
  unfold ds_answer. destruct (ds_queries s) as [|q qs]; [done|]. assert (H0 : same_rows s (ds_set_queries qs s)) by done.
  destruct res as [rows|]; [|intros [= <-]; by apply same_rows_step]. destruct q as [|account c].
  - intros E. apply (inj Some) in E as <-. eapply after_rows; [apply same_rows_step, H0|apply accounts_rows].
  - intros E. apply bind_Some in E as ([r s1] & E1 & E). apply (inj Some) in E as <-. etrans; [apply same_rows_step, H0|]. by eapply player_result_step.
Qed.

Lemma db_msg_step now pushed c msg_id data s r s' : ds_msg MGR tmp now pushed c msg_id data s = Some (r, s') -> db_step s s'.
Proof using.
  unfold ds_msg, ds_default. repeat case_match; intros E; try (by apply connect_db_rows in E; apply same_rows_step); try (by apply get_role_rows in E; apply same_rows_step).
  - by eapply create_role_step.
  - by eapply set_role_step.
  - by eapply add_item_step.
  - by injection E as _ <-.
Qed.

Lemma db_handled_step c r s' : handled MGR c r = Some s' -> exists x s1, r = Some (x, s1) /\ same_rows s1 s'.
Proof using.
  unfold handled. destruct r as [[x s1]|]; [|done]. cbn [mbind option_bind]. intros E. exists x, s1. split; [done|].
  destruct (x <? 0); [by eapply force_close_rows|by injection E as <-].
Qed.

Abbreviation db_exec := (ds_exec MGR tmp hash_order request_ok get_result).
Abbreviation db_exec_all := (ds_exec_all MGR tmp hash_order request_ok get_result).

Lemma db_exec_step o s s' : db_exec o s = Some s' -> db_step s s'.
Proof using hash_order_perm.
  destruct o as [|c|c|c|now pushed c m d|res|]; cbn [ds_exec].
  - intros [= <-]. by apply same_rows_step.
  - intros E. apply same_rows_step. by eapply force_close_rows.
  - intros E. apply bind_Some in E as (n & _ & E). injection E as <-. by apply same_rows_step.
  - intros E. apply bind_Some in E as (n & _ & E). injection E as <-. by apply same_rows_step.
  - destruct (nt_is_connected _ _ _); [|done]. intros E. apply db_handled_step in E as (x & s1 & E & Hr). eapply after_rows; [|exact Hr]. by eapply db_msg_step.
  - apply answer_step.
  - apply run_step.
Qed.

Lemma db_exec_all_step os : forall s s', db_exec_all os s = Some s' -> db_step s s'.
Proof using hash_order_perm.
  induction os as [|o os IH]; intros s s' E; [by injection E as <-|]. cbn [ds_exec_all] in E. apply bind_Some in E as (s1 & E1 & E).
  etrans; [by eapply db_exec_step|by apply IH].
Qed.

Lemma new_table_ok : table_ok (ds_table DbServer_new) (ds_objs DbServer_new).
Proof using.
  constructor; cbn.
  - intros p. rewrite lookup_empty. split; [intros Hp; by apply elem_of_empty in Hp|by intros [? ?]].
  - intros Hp. by apply elem_of_empty in Hp.
  - intros a b. cbn. by rewrite !lookup_empty.
  - intros k p. by rewrite lookup_empty.
  - intros a b. cbn. by rewrite !lookup_empty.
  - intros k p. by rewrite lookup_empty.
  - intros p x. by rewrite lookup_empty.
Qed.

Lemma db_reachable_ok os s : db_exec_all os DbServer_new = Some s -> table_ok (ds_table s) (ds_objs s).
Proof using hash_order_perm. intros E. by apply (db_exec_all_step _ _ _ E new_table_ok). Qed.

(** C18. A role that was created is kept until the server ends, whatever it does: it stays in the table under
    its account with its role id and its name, every later request for the account is answered at once with
    this row, and every later creation for the account makes no role and gets no answer. *)
Theorem created_role_found os1 os2 now pushed c data q s1 s2 s3 :
  MGR <> NULL -> db_exec_all os1 DbServer_new = Some s1 ->
  ParseFromArray data = Some q -> get_by_key2 (dc_account q) (ds_table s1) = None ->
  db_exec (ds_op_game now pushed c MSGID_GS2DS_CREATE_ROLE_REQUEST data) s1 = Some s2 -> db_exec_all os2 s2 = Some s3 ->
  exists u pl, get_by_key2 (dc_account q) (ds_table s3) = Some u /\ ds_player u s3 = Some pl /\
    tp_ident pl = (dc_account q, fst (gen_unique_role_id (ds_getIdByConnId c s1) now (ds_counter s1)), dc_nick_name q) /\
    (forall pushed' c' data' g, ParseFromArray data' = Some g -> dq_account g = dc_account q ->
       processGetRole tmp pushed' c' data' s3 = '(r, s) ← ds_send_role tmp (role_response pl) c' s3; Some (if r <? 0 then -1 else lenZ data', s)) /\
    (forall now' c' data' q', ParseFromArray data' = Some q' -> dc_account q' = dc_account q -> is_Some (get_connection c' MGR (ds_net s3)) ->
       processCreateRole tmp now' MGR c' data' s3 = Some (0, s3)).
Proof using hash_order_perm.
  intros Hm E1 Eq Ea E2 E3. assert (Hs1 := db_reachable_ok _ _ E1). assert (Hs2 := db_exec_step _ _ _ E2 Hs1). destruct Hs2 as [Hs2 _].
  cbn [ds_exec] in E2. destruct (nt_is_connected MGR c (ds_net s1)) eqn:Ec; [|done]. apply db_handled_step in E2 as (x & s1' & E2 & Hr).
  change (ds_msg MGR tmp now pushed c MSGID_GS2DS_CREATE_ROLE_REQUEST data s1) with (processCreateRole tmp now MGR c data s1) in E2.
  assert (Hcr : created q (fst (gen_unique_role_id (ds_getIdByConnId c s1) now (ds_counter s1))) s2).
  { destruct (create_role_cases _ _ _ _ _ _ _ Hs1 E2) as [[-> H0]|(q' & Eq' & _ & Hq)].
    - exfalso. unfold nt_is_connected in Ec. destruct (nt_conns _ !! _) as [st|] eqn:En; [|done]. destruct (H0 ltac:(unfold get_connection; rewrite (proj2 (Z.eqb_neq MGR NULL)), En by done; by eexists) q Eq) as [_ [p Hp]].
      by rewrite Ea in Hp.
    - rewrite Eq in Eq'. injection Eq' as <-. destruct (table_created_step q (fst (gen_unique_role_id (ds_getIdByConnId c s1) now (ds_counter s1))) s1) as [H1 H2].
      destruct (H1 Hs1) as [H3 _]. eapply created_kept; [exact H3| |by apply H2]. eapply after_rows; [apply same_rows_step, Hq|exact Hr]. }
  apply (created_kept _ _ s2 s3 Hs2) in Hcr; [|by eapply db_exec_all_step]. destruct Hcr as (u & pl & Hu & Hp & Hi). exists u, pl. split; [done|]. split; [done|]. split; [done|]. split.
  - intros pushed' c' data' g Eg Hg. unfold processGetRole. rewrite Eg, Hg, Hu. unfold sendGetRoleResponse, ds_player. by rewrite Hp.
  - intros now' c' data' q' Eq' Hq' [st Est]. unfold processCreateRole. by rewrite Est, Eq', Hq', Hu.
Qed.

(** ** Results of queries *)

Lemma fill_key2 res u c on_error s r s' : (forall s0 s1, find_2 (r2_key_map (ds_table s0)) u = None -> on_error s0 = Some s1 -> same_rows s0 s1) ->
  ds_fill tmp get_result res u c on_error s = Some (r, s') -> find_2 (r2_key_map (ds_table s)) u = None -> table_ok (ds_table s) (ds_objs s) ->
  u ∈ r2_objs (ds_table s) -> forall a p, get_by_key2 a (ds_table s) = Some p -> get_by_key2 a (ds_table s') = Some p.
Proof using.
  intros He E Hu Hs Hin a p Ha. destruct (fill_step _ _ _ _ _ _ _ He E Hu) as [x Hx].
  assert (Ht : table_ok (ds_table s) (<[u := x]> (ds_objs s))) by (by apply table_write).
  destruct (Hx Ht) as [_ [K _]]. by apply K.
Qed.

(** The account of a result has a record afterwards. *)
Lemma result_cached account c res s r s' : 0 < num_rows res -> table_ok (ds_table s) (ds_objs s) ->
  ds_player_result tmp get_result account c res s = Some (r, s') -> is_Some (get_by_key2 account (ds_table s')).
Proof using.
  intros Hres Hs. unfold ds_player_result. rewrite (proj2 (Z.ltb_lt _ _) Hres). assert (Hn := new_key2_ok (ds_table s) (ds_objs s) account (tp_set_account account t_player_new) Hs).
  assert (Hk : is_Some (get_by_key2 account (snd (get_new_by_key2 account (ds_table s))))).
  { unfold get_new_by_key2, get_by_key2, find_1, bm_insert. cbn [snd r2_key2_map]. destruct (one_map_ (r2_key2_map (ds_table s)) !! account) eqn:E1; [cbn [snd]; rewrite E1; by eexists|].
    destruct (two_map_ (r2_key2_map (ds_table s)) !! _) as [k0|] eqn:E2; [|cbn [snd one_map_]; rewrite lookup_insert_eq; by eexists].
    apply (to_key2 _ _ Hs), (to_key2_objs _ _ Hs) in E2. by apply fresh_new in E2. }
  destruct (get_new_by_key2 account (ds_table s)) as [u t]. cbn [snd] in Hk. destruct Hk as [p Hp]. destruct Hn as (H1 & _ & Hin & Hf).
  intros E. exists p. eapply fill_key2; [|exact E|exact Hf|exact H1|exact Hin|exact Hp].
  intros s0 s1 H0. unfold remove_record. rewrite H0. cbn [mbind option_bind]. intros E0. apply (inj Some) in E0 as <-. done.
Qed.

(** Rows for an account that has a record: the record that is made is lost. *)
Lemma result_lost account c res s r s' p : table_ok (ds_table s) (ds_objs s) -> get_by_key2 account (ds_table s) = Some p -> 0 < num_rows res ->
  0 < tp_role_id (snd (get_result res (tp_set_account account t_player_new))) -> ds_player_result tmp get_result account c res s = Some (r, s') ->
  r = -1 /\ exists x, let u := fresh_record (r2_objs (ds_table s)) in
    s' = ds_set_table (mkRM2 ({[u]} ∪ r2_objs (ds_table s)) (r2_key_map (ds_table s)) (r2_key2_map (ds_table s)) (r2_states (ds_table s))) (<[u := x]> (ds_objs s)) s.
Proof using.
  intros Hs Hp Hres Hrole. unfold ds_player_result. rewrite (proj2 (Z.ltb_lt _ _) Hres).
  assert (Hn := new_key2_ok (ds_table s) (ds_objs s) account t_player_new Hs). unfold get_new_by_key2, bm_insert in *. unfold get_by_key2, find_1 in Hp.
  rewrite Hp in *. cbn [snd] in *. destruct (fresh_new (ds_table s)) as [Hf _]. set (u := fresh_record (r2_objs (ds_table s))) in *.
  destruct Hn as (_ & _ & _ & Hu). cbn [r2_key_map] in Hu. unfold ds_fill, ds_player. cbn [ds_set_table ds_objs ds_table]. rewrite lookup_insert_eq.
  cbv beta iota zeta delta [mbind option_bind]. destruct (get_result res (tp_set_account account t_player_new)) as [x pl]. cbn [snd] in Hrole.
  cbn [ds_set_table ds_objs ds_table]. rewrite insert_insert_eq. destruct (x <? 0).
  - unfold remove_record. cbn [r2_key_map]. rewrite Hu. intros [= <- <-]. split; [done|]. by exists pl.
  - rewrite (proj2 (Z.ltb_lt _ _) Hrole). unfold insert_key_record, find_2. cbn [r2_key2_map].
    destruct (two_map_ (r2_key2_map (ds_table s)) !! u) as [a|] eqn:E; [apply (to_key2 _ _ Hs), (to_key2_objs _ _ Hs) in E; done|].
    cbn [negb]. intros [= <- <-]. split; [done|]. by exists pl.
Qed.

Lemma send_role_queries resp c s r s' : ds_send_role tmp resp c s = Some (r, s') -> ds_queries s' = ds_queries s.
Proof using.
  unfold ds_send_role. destruct (ds_getByConnId c s) as [a|]; [|by intros [= <- <-]]. destruct (SerializeToBuffer _ _ _) as [t|]; [|by intros [= <- <-]].
  intros E. apply bind_Some in E as (ag & _ & E). apply bind_Some in E as ([x s1] & E1 & E). apply (inj Some), pair_equal_spec in E as [_ <-].
  revert E1. unfold ag_sendMsg. case_decide; [by intros [= <- <-]|]. destruct (negb _); [by intros [= <- <-]|]. cbn [ac_send db_props_calls db_agent_calls net_calls].
  destruct (nt_send _ _ _ _ _ _ _) as [[y n]|]; [|done]. cbn [mbind option_bind]. by intros [= _ <-].
Qed.

Lemma player_result_queries account c res s r s' : ds_player_result tmp get_result account c res s = Some (r, s') -> ds_queries s' = ds_queries s.
Proof using.
  unfold ds_player_result. destruct (0 <? num_rows res); [|apply send_role_queries]. destruct (get_new_by_key2 _ _) as [u t]. unfold ds_fill.
  intros E. apply bind_Some in E as (pl & _ & E). destruct (get_result res pl) as [x pl']. destruct (x <? 0).
  - apply bind_Some in E as (s1 & E1 & E). apply (inj Some), pair_equal_spec in E as [_ <-]. apply bind_Some in E1 as ([b t'] & _ & E1). by apply (inj Some) in E1 as <-.
  - destruct (if 0 <? tp_role_id pl' then _ else _) as [b t']. destruct (negb b); [by injection E as _ <-|].
    apply bind_Some in E as ([y s1] & E1 & E). apply (inj Some), pair_equal_spec in E as [_ <-]. unfold sendGetRoleResponse in E1. apply bind_Some in E1 as (pp & _ & E1).
    by apply send_role_queries in E1.
Qed.

(** When an account is asked for again before the database answered, only the first answer counts: the
    second one, for the same rows, sends nothing, fills a record that no key leads to, and leaves what is
    found under every account and every role id as it was, so that the second game server waits for ever. *)
Theorem second_query_unanswered os s s1 s2 account c1 c2 qs rows1 rows2 :
  db_exec_all os DbServer_new = Some s -> ds_queries s = q_player account c1 :: q_player account c2 :: qs ->
  0 < num_rows rows1 -> 0 < num_rows rows2 -> 0 < tp_role_id (snd (get_result rows2 (tp_set_account account t_player_new))) ->
  db_exec (ds_op_result (Some rows1)) s = Some s1 -> db_exec (ds_op_result (Some rows2)) s1 = Some s2 ->
  ds_net s2 = ds_net s1 /\ ds_queries s2 = qs /\
  (forall a, get_by_key2 a (ds_table s2) = get_by_key2 a (ds_table s1)) /\ (forall k, get_by_key k (ds_table s2) = get_by_key k (ds_table s1)) /\
  size (ds_objs s2) = S (size (ds_objs s1)).
Proof using hash_order_perm.
  intros E Hq H1 H2 Hrole E1 E2. apply db_reachable_ok in E. cbn [ds_exec] in E1, E2. unfold ds_answer in E1. rewrite Hq in E1.
  apply bind_Some in E1 as ([r1 s1'] & E1 & E1'). apply (inj Some) in E1' as ->.
  set (s0 := ds_set_queries _ s) in E1. change (table_ok (ds_table s0) (ds_objs s0)) in E.
  assert (Hk := result_cached _ _ _ _ _ _ H1 E E1). destruct Hk as [p Hp]. assert (Hs1 := player_result_step _ _ _ _ _ _ E1 E). destruct Hs1 as [Hs1 _].
  apply player_result_queries in E1. unfold s0 in E1. cbn [ds_set_queries ds_queries] in E1. unfold ds_answer in E2. rewrite E1 in E2.
  apply bind_Some in E2 as ([r2 s2'] & E2 & E2'). apply (inj Some) in E2' as ->.
  destruct (result_lost account c2 rows2 (ds_set_queries qs s1) r2 s2 p Hs1 Hp H2 Hrole E2) as [_ [x ->]]. cbn [ds_set_table ds_set_queries ds_net ds_queries ds_table ds_objs].
  split; [done|]. split; [done|]. split; [done|]. split; [done|]. rewrite map_size_insert_None; [done|].
  apply eq_None_not_Some. intros Hx. apply (to_objs _ _ Hs1) in Hx. by apply fresh_new in Hx.
Qed.
End steps.

(** ** Examples *)

Section example.
#[local] Existing Instance coded_messages.

(** Two game servers; every request is accepted, and a row holds role 5. *)
Definition ex_db_row (rows : Result) (p : t_player) : Z * t_player := (0, tp_set_role 5 (tp_account p) 1 [110] p).
Definition ex_db_game (c msg_id : Z) (data : bytes) : ds_op := ds_op_game 1000 true c msg_id data.
Definition ex_db_start : list ds_op := [
  ds_op_connect; ds_op_connect;
  ex_db_game 1 MSGID_GS2DS_CONNECT_DB_REQUEST (Serialize (mkConnectDBRequest 40001));
  ex_db_game 2 MSGID_GS2DS_CONNECT_DB_REQUEST (Serialize (mkConnectDBRequest 40002));
  ds_op_result (Some [[[98]]]) ].
Definition ex_db_get (c : Z) : ds_op := ex_db_game c MSGID_GS2DS_GET_ROLE_REQUEST (Serialize (mkDBGetRoleRequest [98])).
Definition ex_db_create : bytes := Serialize (mkDBCreateRoleRequest [97] [110; 97] 1 2).

Definition ex_db_exec_all : list ds_op -> DbServer -> option DbServer := ds_exec_all 1 [] map_to_list (fun _ => true) ex_db_row.
Definition ex_db_exec : ds_op -> DbServer -> option DbServer := ds_exec 1 [] map_to_list (fun _ => true) ex_db_row.

(** Creations of two servers, 65536 seconds and 65536 creations apart, give the same id. *)
Lemma role_ids_collide_iff_witness : exists a b, gen_role_ids (repeat (40001, 7) 65536 ++ [(40001, 65543)]) 3 !! 0%nat = Some a /\
  gen_role_ids (repeat (40001, 7) 65536 ++ [(40001, 65543)]) 3 !! 65536%nat = Some b /\ a = b.
Proof.
  set (l := repeat (40001, 7) 65536 ++ [(40001, 65543)]).
  assert (Hi : l !! 0%nat = Some (40001, 7)) by reflexivity.
  assert (Hj : l !! 65536%nat = Some (40001, 65543)) by (vm_compute; reflexivity).
  assert (Hc : is_u16 3) by (unfold is_u16; lia).
  eexists _, _. split; [exact (gen_role_ids_at l 3 _ _ _ Hc Hi)|]. split; [exact (gen_role_ids_at l 3 _ _ _ Hc Hj)|].
  apply (role_ids_collide_iff l 3 0 65536 _ _ 40001 7 40001 65543 Hc Hi Hj (gen_role_ids_at l 3 _ _ _ Hc Hi) (gen_role_ids_at l 3 _ _ _ Hc Hj)).
  split; [reflexivity|]. split; [reflexivity|]. vm_compute. reflexivity.
Defined.

(** A role is created, then an item is added, the database is brought up to date and another server asks. *)
Lemma created_role_found_witness : exists s1 s2 s3 u pl,
  ex_db_exec_all ex_db_start DbServer_new = Some s1 /\ ex_db_exec (ex_db_game 1 MSGID_GS2DS_CREATE_ROLE_REQUEST ex_db_create) s1 = Some s2 /\
  ex_db_exec_all [ex_db_get 2; ds_op_update; ds_op_lost 1] s2 = Some s3 /\
  get_by_key2 [97] (ds_table s3) = Some u /\ ds_player u s3 = Some pl /\ tp_nick_name pl = [110; 97].
Proof.
  assert (H1 : is_present (ex_db_exec_all ex_db_start DbServer_new) = true) by (vm_compute; reflexivity).
  destruct (ex_db_exec_all ex_db_start DbServer_new) as [s1|] eqn:E1; [|discriminate H1].
  assert (H2 : is_present (s ← ex_db_exec_all ex_db_start DbServer_new; ex_db_exec (ex_db_game 1 MSGID_GS2DS_CREATE_ROLE_REQUEST ex_db_create) s) = true) by (vm_compute; reflexivity).
  assert (H3 : is_present (s ← ex_db_exec_all ex_db_start DbServer_new; s ← ex_db_exec (ex_db_game 1 MSGID_GS2DS_CREATE_ROLE_REQUEST ex_db_create) s;
    ex_db_exec_all [ex_db_get 2; ds_op_update; ds_op_lost 1] s) = true) by (vm_compute; reflexivity).
  assert (H4 : (s ← ex_db_exec_all ex_db_start DbServer_new; Some (get_by_key2 [97] (ds_table s))) = Some None) by (vm_compute; reflexivity).
  rewrite E1 in H2, H3, H4. cbn [mbind option_bind] in H2, H3, H4. injection H4 as H4.
  destruct (ex_db_exec (ex_db_game 1 MSGID_GS2DS_CREATE_ROLE_REQUEST ex_db_create) s1) as [s2|] eqn:E2; [|discriminate H2]. cbn [mbind option_bind] in H3.
  destruct (ex_db_exec_all [ex_db_get 2; ds_op_update; ds_op_lost 1] s2) as [s3|] eqn:E3; [|discriminate H3].
  destruct (created_role_found 1 [] map_to_list (fun _ => true) ex_db_row (fun m => Permutation_refl _) ex_db_start [ex_db_get 2; ds_op_update; ds_op_lost 1]
    1000 true 1 ex_db_create (mkDBCreateRoleRequest [97] [110; 97] 1 2) s1 s2 s3) as (u & pl & Hu & Hp & Hi & _);
    [discriminate|exact E1|vm_compute; reflexivity|exact H4|exact E2|exact E3|].
  exists s1, s2, s3, u, pl. repeat (split; [first [reflexivity|exact E2|exact E3|exact Hu|exact Hp]|]). by injection Hi.
Defined.

(** Both servers ask for the role of account [98] before the database answers. *)
Lemma second_query_unanswered_witness : exists s s1 s2, ex_db_exec_all (ex_db_start ++ [ex_db_get 1; ex_db_get 2]) DbServer_new = Some s /\
  ex_db_exec (ds_op_result (Some [[[98]]])) s = Some s1 /\ ex_db_exec (ds_op_result (Some [[[98]]])) s1 = Some s2 /\
  ds_net s2 = ds_net s1 /\ ds_queries s2 = [].
Proof.
  set (os := ex_db_start ++ [ex_db_get 1; ex_db_get 2]).
  assert (H1 : (s ← ex_db_exec_all os DbServer_new; Some (ds_queries s)) = Some [q_player [98] 1; q_player [98] 2]) by (vm_compute; reflexivity).
  assert (H2 : is_present (s ← ex_db_exec_all os DbServer_new; s ← ex_db_exec (ds_op_result (Some [[[98]]])) s; ex_db_exec (ds_op_result (Some [[[98]]])) s) = true)
    by (vm_compute; reflexivity).
  destruct (ex_db_exec_all os DbServer_new) as [s|] eqn:E; [|discriminate H1]. cbn [mbind option_bind] in H1, H2. injection H1 as H1.
  destruct (ex_db_exec (ds_op_result (Some [[[98]]])) s) as [s1|] eqn:E1; [|discriminate H2]. cbn [mbind option_bind] in H2.
  destruct (ex_db_exec (ds_op_result (Some [[[98]]])) s1) as [s2|] eqn:E2; [|discriminate H2].
  destruct (second_query_unanswered 1 [] map_to_list (fun _ => true) ex_db_row (fun m => Permutation_refl _) os s s1 s2 [98] 1 2 [] [[[98]]] [[[98]]])
    as (Hn & Hq & _); [exact E|exact H1|reflexivity|reflexivity|reflexivity|exact E1|exact E2|].
  exists s, s1, s2. repeat (split; [first [reflexivity|exact E1|exact E2|exact Hn]|]). exact Hq.
Defined.
End example.
