(* ===== verification/MysqlPool.v ===== *)
(** * Connections to the database ([mysql/mysql_connector.*], [mysql_connector_pool.*])

    The main thread pushes statements; every connector has a thread of its own that takes them, asks the
    database and queues the results, which the main thread hands to the callbacks.  The threads share two lists
    that locks protect; a run is any interleaving of their steps.  What the database answers is part of the
    run. *)
From S2P Require Import Prelude Text.
From Stdlib Require Import ZArith Lia.
From stdpp Require Import base option list.
Local Open Scope Z_scope.

Definition MYSQL_POOL_READ_CONN_SIZE : Z := 1.
Definition MYSQL_POOL_WRITE_CONN_SIZE : Z := 1.

Section pool.
(** The rows of a result and the callbacks. *)
Context {R Cb : Type}.

(** ** MysqlConnector *)

(** A result: the rows, none when [res] is null, and the error number. *)
Record Result : Type := mkResult { res_rows : option R; res_err : Z }.
Definition Result_new : Result := mkResult None 0.
Definition res_init_rows (rows : R) (r : Result) : Result := mkResult (Some rows) (res_err r).
Definition res_init_err (err : Z) (r : Result) : Result := mkResult None err.
Definition res_clear (r : Result) : Result := mkResult None (res_err r).
Definition is_empty (r : Result) : bool := match res_rows r with None => true | Some _ => false end.

(** What the database answers to a statement. *)
Inductive Outcome : Type := oc_error (err : Z) | oc_done | oc_rows (rows : R).

Definition real_query (o : Outcome) (res : Result) : bool * Result :=
  match o with oc_error err => (false, res_init_err err res) | _ => (true, res) end.

(** [store_result] keeps the last result when there is none. *)
Definition real_read_query (o : Outcome) (res : Result) : bool * Result :=
  let '(ok, res) := real_query o res in
  if negb ok then (false, res) else match o with oc_rows rows => (true, res_init_rows rows res) | _ => (false, res) end.

(** ** MysqlConnectorPool *)

Record CmdInfo : Type := mkCmd { ci_sql : text; ci_callback : option Cb; ci_write : bool }.

(** The length of the statement is an [unsigned short]; that many bytes are copied. *)
Definition CmdInfo_new (sql : text) (len : Z) : option CmdInfo := s ← mem_read sql 0 (u16 len); Some (mkCmd s None false).

Record ResultInfo : Type := mkRI { ri_res : Result; ri_callback : option Cb }.

(** Where the thread of a connector is: at [pop], between [pop] and the query, before [push_res]. *)
Inductive Worker : Type := w_pop | w_query (ci : CmdInfo) | w_push (ri : ResultInfo).

Record ConnectorInfo : Type := mkConn {
  cn_res : Result;             (** [connector.res_] *)
  cmd_list : list CmdInfo;
  res_list : list ResultInfo;
  cn_worker : Worker;
}.
Definition ConnectorInfo_new : ConnectorInfo := mkConn Result_new [] [] w_pop.

Definition cn_push (ci : CmdInfo) (c : ConnectorInfo) : ConnectorInfo := mkConn (cn_res c) (cmd_list c ++ [ci]) (res_list c) (cn_worker c).
Definition cn_pop (c : ConnectorInfo) : option CmdInfo * ConnectorInfo :=
  match cmd_list c with [] => (None, c) | ci :: l => (Some ci, mkConn (cn_res c) l (res_list c) (cn_worker c)) end.
Definition push_res (ri : ResultInfo) (c : ConnectorInfo) : ConnectorInfo := mkConn (cn_res c) (cmd_list c) (res_list c ++ [ri]) (cn_worker c).
Definition pop_res (c : ConnectorInfo) : option ResultInfo * ConnectorInfo :=
  match res_list c with [] => (None, c) | ri :: l => (Some ri, mkConn (cn_res c) (cmd_list c) l (cn_worker c)) end.
Definition cn_set_worker (w : Worker) (c : ConnectorInfo) : ConnectorInfo := mkConn (cn_res c) (cmd_list c) (res_list c) w.
Definition cn_set_res (r : Result) (c : ConnectorInfo) : ConnectorInfo := mkConn r (cmd_list c) (res_list c) (cn_worker c).

(** [ResultInfo ri(r)] moves the result out of the connector. *)
Definition take_result (ci : CmdInfo) (r : Result) (c : ConnectorInfo) : ConnectorInfo :=
  cn_set_worker (w_push (mkRI r (ci_callback ci))) (cn_set_res Result_new c).

(** A step of the threads; [o] is the answer when the step is a query. *)
Definition connector_read_func (o : Outcome) (c : ConnectorInfo) : ConnectorInfo :=
  match cn_worker c with
  | w_pop => let '(ci, c) := cn_pop c in match ci with None => c | Some ci => cn_set_worker (w_query ci) c end
  | w_query ci =>
    let '(_, r) := real_read_query o (cn_res c) in
    if ci_write ci then cn_set_worker w_pop (cn_set_res (res_clear r) c)
    else if is_empty r then cn_set_worker w_pop (cn_set_res (res_clear r) c)
    else take_result ci r c
  | w_push ri => cn_set_worker w_pop (push_res ri c)
  end.

Definition connector_write_func (o : Outcome) (c : ConnectorInfo) : ConnectorInfo :=
  match cn_worker c with
  | w_pop => let '(ci, c) := cn_pop c in match ci with None => c | Some ci => cn_set_worker (w_query ci) c end
  | w_query ci =>
    if negb (ci_write ci) then let '(_, r) := real_read_query o (cn_res c) in take_result ci r c
    else let '(_, r) := real_query o (cn_res c) in cn_set_worker w_pop (cn_set_res r c)
  | w_push ri => cn_set_worker w_pop (push_res ri c)
  end.

Record MysqlConnectorPool : Type := mkPool {
  write_connectors_ : list ConnectorInfo;
  read_connectors_ : list ConnectorInfo;
  curr_read_index_ : Z;
  curr_write_index_ : Z;
}.

(** The pool after [init]; the statements of the configuration loader came before. *)
Definition pool_init (read_conn_size write_conn_size : Z) : MysqlConnectorPool :=
  mkPool (repeat ConnectorInfo_new (Z.to_nat write_conn_size)) (repeat ConnectorInfo_new (Z.to_nat read_conn_size)) 0 0.

Definition pl_set_read (l : list ConnectorInfo) (p : MysqlConnectorPool) : MysqlConnectorPool :=
  mkPool (write_connectors_ p) l (curr_read_index_ p) (curr_write_index_ p).
Definition pl_set_write (l : list ConnectorInfo) (p : MysqlConnectorPool) : MysqlConnectorPool :=
  mkPool l (read_connectors_ p) (curr_read_index_ p) (curr_write_index_ p).
Definition pl_set_read_index (i : Z) (p : MysqlConnectorPool) : MysqlConnectorPool :=
  mkPool (write_connectors_ p) (read_connectors_ p) i (curr_write_index_ p).

(** A connector of the vector. *)
Definition cn_at (i : Z) (l : list ConnectorInfo) : option ConnectorInfo := if i <? 0 then None else l !! Z.to_nat i.
Definition cn_update (f : ConnectorInfo -> ConnectorInfo) (i : Z) (l : list ConnectorInfo) : option (list ConnectorInfo) :=
  c ← cn_at i l; Some (<[Z.to_nat i := f c]> l).

Definition get_write_connector (index : Z) (p : MysqlConnectorPool) : option ConnectorInfo :=
  if (index <? 0) || (lenZ (write_connectors_ p) <=? index) then None else cn_at index (write_connectors_ p).

Definition push_read_cmd (ci : CmdInfo) (p : MysqlConnectorPool) : option (bool * MysqlConnectorPool) :=
  let i := if s32 (lenZ (read_connectors_ p) - 1) <=? curr_read_index_ p then 0 else curr_read_index_ p + 1 in
  let p := pl_set_read_index i p in
  l ← cn_update (cn_push ci) i (read_connectors_ p); Some (true, pl_set_read l p).

(** It is the index of the reading connectors that is advanced. *)
Definition push_write_cmd (ci : CmdInfo) (p : MysqlConnectorPool) : option (bool * MysqlConnectorPool) :=
  let i := if s32 (lenZ (write_connectors_ p) - 1) <=? curr_write_index_ p then 0 else curr_read_index_ p + 1 in
  let p := pl_set_read_index i p in
  l ← cn_update (cn_push ci) (curr_write_index_ p) (write_connectors_ p); Some (true, pl_set_write l p).

(** [run] takes one result of every connector; the callbacks it calls, in order. *)
Fixpoint pop_each (l : list ConnectorInfo) : list (Cb * Result) * list ConnectorInfo :=
  match l with
  | [] => ([], [])
  | c :: l =>
    let '(ri, c) := pop_res c in
    let '(calls, l) := pop_each l in
    (match ri with Some (mkRI r (Some cb)) => (cb, r) :: calls | _ => calls end, c :: l)
  end.

Definition pool_run (p : MysqlConnectorPool) : list (Cb * Result) * MysqlConnectorPool :=
  let '(calls, rl) := pop_each (read_connectors_ p) in
  let '(calls2, wl) := pop_each (write_connectors_ p) in
  (calls ++ calls2, pl_set_write wl (pl_set_read rl p)).

(** ** Runs *)

(** A step of the main thread or of the thread of a connector. *)
Inductive pool_op : Type :=
| po_read (sql : text) (len : Z) (cb : Cb)       (** a select is pushed *)
| po_write (sql : text) (len : Z)                (** another statement is pushed *)
| po_run
| po_reader (i : nat) (o : Outcome)
| po_writer (i : nat) (o : Outcome).

(** [MysqlDBManager::push_read_cmd] and [push_write_cmd]. *)
Definition db_push_read (sql : text) (len : Z) (cb : Cb) (p : MysqlConnectorPool) : option (bool * MysqlConnectorPool) :=
  ci ← CmdInfo_new sql len; push_read_cmd (mkCmd (ci_sql ci) (Some cb) false) p.
Definition db_push_write (sql : text) (len : Z) (p : MysqlConnectorPool) : option (bool * MysqlConnectorPool) :=
  ci ← CmdInfo_new sql len; push_write_cmd (mkCmd (ci_sql ci) None true) p.

(** A step gives the callbacks that it calls. *)
Definition pool_exec (o : pool_op) (p : MysqlConnectorPool) : option (list (Cb * Result) * MysqlConnectorPool) :=
  match o with
  | po_read sql len cb => '(_, p) ← db_push_read sql len cb p; Some ([], p)
  | po_write sql len => '(_, p) ← db_push_write sql len p; Some ([], p)
  | po_run => Some (pool_run p)
  | po_reader i o => l ← cn_update (connector_read_func o) (Z.of_nat i) (read_connectors_ p); Some ([], pl_set_read l p)
  | po_writer i o => l ← cn_update (connector_write_func o) (Z.of_nat i) (write_connectors_ p); Some ([], pl_set_write l p)
  end.

Fixpoint pool_exec_all (os : list pool_op) (p : MysqlConnectorPool) : option (list (Cb * Result) * MysqlConnectorPool) :=
  match os with
  | [] => Some ([], p)
  | o :: os => '(calls, p) ← pool_exec o p; '(calls', p) ← pool_exec_all os p; Some (calls ++ calls', p)
  end.
End pool.
Arguments Result R : clear implicits.
Arguments MysqlConnectorPool R Cb : clear implicits.
Arguments ConnectorInfo R Cb : clear implicits.
Arguments CmdInfo Cb : clear implicits.
Arguments pool_op R Cb : clear implicits.
Arguments Outcome R : clear implicits.
