(* ===== verification/MysqlPoolProps.v ===== *)
(** * What the connections to the database guarantee

    With one reading and one writing connector, which is how the pool is configured, every select that the
    database answers is handed to its callback once, in the order of the selects, and the others never; and
    nothing waits for ever. *)
From S2P Require Import Prelude Text MysqlPool.
From Stdlib Require Import ZArith Lia.
From stdpp Require Import base option list.
Local Open Scope Z_scope.

Section props.
Context {R Cb : Type}.
Notation pool := (MysqlConnectorPool R Cb).
Notation conn := (ConnectorInfo R Cb).
Notation op := (pool_op R Cb).
Notation cmd := (CmdInfo Cb).

(** The selects that are pushed by a run. *)
Definition pushed_by (o : op) : list cmd :=
  match o with po_read sql len cb => match mem_read sql 0 (u16 len) with Some s => [mkCmd s (Some cb) false] | None => [] end | _ => [] end.
Definition pushed (os : list op) : list cmd := mjoin (pushed_by <$> os).

(** The selects that the thread asks the database, with its answers. *)
Definition asks (o : op) (c : conn) : list (cmd * Outcome R) :=
  match o, cn_worker c with po_reader 0 oc, w_query ci => [(ci, oc)] | _, _ => [] end.

(** The calls for answers.  An error number stays until the next result takes it along. *)
Fixpoint answers (err : Z) (l : list (cmd * Outcome R)) : list (Cb * Result R) :=
  match l with
  | [] => []
  | (ci, oc) :: l =>
    match oc with
    | oc_error err => answers err l
    | oc_done => answers err l
    | oc_rows rows => match ci_callback ci with Some cb => [(cb, mkResult (Some rows) err)] | None => [] end ++ answers 0 l
    end
  end.

(** The results that wait for the main thread, the oldest first. *)
Definition ri_call (ri : @ResultInfo R Cb) : option (Cb * Result R) := cb ← ri_callback ri; Some (cb, ri_res ri).
Definition in_flight (c : conn) : list (@ResultInfo R Cb) := res_list c ++ match cn_worker c with w_push ri => [ri] | _ => [] end.
Definition waiting (c : conn) : list (Cb * Result R) := omap ri_call (in_flight c).

(** The selects that were taken or pushed and not yet asked. *)
Definition outstanding (c : conn) : list cmd := match cn_worker c with w_query ci => [ci] | _ => [] end ++ cmd_list c.

(** The reading connector holds selects with callbacks, the other one holds no result. *)
Record read_conn_ok (c : conn) : Prop := mkReadOk {
  ro_res : res_rows (cn_res c) = None;
  ro_cmds : forall ci, ci ∈ outstanding c -> ci_write ci = false;
}.
Record write_conn_ok (w : conn) : Prop := mkWriteOk {
  wo_cmds : forall ci, ci ∈ outstanding w -> ci_write ci = true;
  wo_res : in_flight w = [];
}.
Record pool_ok (p : pool) (c w : conn) : Prop := mkPoolOk {
  po_rd : read_connectors_ p = [c];
  po_wr : write_connectors_ p = [w];
  po_ri : 0 <= curr_read_index_ p;
  po_wi : curr_write_index_ p = 0;
  po_rok : read_conn_ok c;
  po_wok : write_conn_ok w;
}.

Lemma init_ok : pool_ok (pool_init MYSQL_POOL_READ_CONN_SIZE MYSQL_POOL_WRITE_CONN_SIZE) ConnectorInfo_new ConnectorInfo_new.
Proof using. constructor; try done; constructor; try done; intros ci; by intros ?%elem_of_nil. Qed.

(** What one step does to the reading connector. *)
Definition conn_effect (o : op) (c c' : conn) (calls : list (Cb * Result R)) : Prop :=
  outstanding c ++ pushed_by o = (asks o c).*1 ++ outstanding c' /\
  forall rest, calls ++ waiting c' ++ answers (res_err (cn_res c')) rest = waiting c ++ answers (res_err (cn_res c)) (asks o c ++ rest).

Lemma reader_effect oc c : read_conn_ok c -> let c' := connector_read_func oc c in
  read_conn_ok c' /\ conn_effect (po_reader 0 oc) c c' [].
Proof using.
  intros [H1 H2]. destruct c as [res cmds rl w]. unfold connector_read_func, conn_effect, asks, outstanding, waiting, in_flight in *. cbn [cn_worker cn_res cmd_list res_list] in *.
  destruct w as [|ci|ri].
  - unfold cn_pop. cbn [cmd_list]. destruct cmds as [|ci cmds]; cbn; [split; [done|]; split; [done|]; intros rest; done|].
    split; [constructor; [done|exact H2]|]. split; [by rewrite app_nil_r|]. intros rest. by rewrite app_nil_r.
  - assert (Hw : ci_write ci = false) by (apply H2; by left). destruct res as [rows err]. cbn [res_rows] in H1. subst rows.
    assert (Hc : forall ci', ci' ∈ cmds -> ci_write ci' = false) by (intros ci' Hin; apply H2; by right).
    destruct oc as [e| |rows]; cbn; rewrite Hw; cbn; (split; [constructor; [done|exact Hc]|]); (split; [by rewrite app_nil_r|]); intros rest; rewrite ?app_nil_r; [done..|].
    rewrite omap_app. cbn. rewrite <- app_assoc. f_equal. unfold ri_call. cbn. by destruct (ci_callback ci).
  - cbn. split; [constructor; [done|exact H2]|]. split; [by rewrite app_nil_r|]. intros rest. by rewrite app_nil_r.
Qed.

Lemma writer_ok oc w : write_conn_ok w -> write_conn_ok (connector_write_func oc w).
Proof using.
  intros [H1 H2]. destruct w as [res cmds rl k]. unfold connector_write_func, outstanding, in_flight in *. cbn [cn_worker cn_res cmd_list res_list] in *.
  apply app_nil in H2 as [-> H2]. destruct k as [|ci|ri]; [| |done].
  - unfold cn_pop. cbn [cmd_list]. destruct cmds as [|ci cmds]; cbn; constructor; try done; exact H1.
  - assert (Hw : ci_write ci = true) by (apply H1; by left). rewrite Hw. cbn [negb]. destruct (real_query oc res) as [b r]. cbn.
    constructor; [|done]. intros ci' Hin. apply H1. by right.
Qed.

Lemma run_effect c w : read_conn_ok c -> write_conn_ok w -> forall p calls p', read_connectors_ p = [c] -> write_connectors_ p = [w] ->
  pool_run p = (calls, p') -> exists c', read_connectors_ p' = [c'] /\ write_connectors_ p' = [w] /\ curr_read_index_ p' = curr_read_index_ p /\
    curr_write_index_ p' = curr_write_index_ p /\ read_conn_ok c' /\ conn_effect po_run c c' calls.
Proof using.
  intros [H1 H2] [_ H4] p calls p' Er Ew. unfold pool_run. rewrite Er, Ew. unfold in_flight in H4. apply app_nil in H4 as [H4 _].
  cbn [pop_each]. unfold pop_res at 2. rewrite H4. unfold conn_effect, waiting, in_flight, outstanding, asks in *. cbn [pushed_by app fmap list_fmap].
  destruct c as [res cmds rl k]. cbn [cn_worker cn_res cmd_list res_list] in *. unfold pop_res. cbn [res_list].
  destruct rl as [|ri rl]; intros [= <- <-]; eexists; (split; [reflexivity|]); (split; [reflexivity|]); (split; [reflexivity|]); (split; [reflexivity|]);
    (split; [constructor; done|]); (split; [by rewrite app_nil_r|]); intros rest; [done|]. cbn [cn_worker cn_res cmd_list res_list app omap list_omap].
  rewrite app_nil_r. destruct ri as [r [cb|]]; done.
Qed.

Lemma update_single f (c : conn) : cn_update f 0 [c] = Some [f c].
Proof using. done. Qed.

Lemma update_other f i (c : conn) : cn_update f (Z.of_nat (S i)) [c] = None.
Proof using.
  unfold cn_update, cn_at. rewrite (proj2 (Z.ltb_ge _ 0)) by lia. by rewrite Nat2Z.id.
Qed.

Lemma pushed_read sql len cb p c w p' r : pool_ok p c w -> db_push_read sql len cb p = Some (r, p') ->
  exists c', pool_ok p' c' w /\ conn_effect (po_read sql len cb) c c' [].
Proof using.
  intros [H1 H2 H3 H4 [H5 H6] H7]. unfold db_push_read, CmdInfo_new, push_read_cmd. rewrite H1.
  destruct (mem_read sql 0 (u16 len)) as [t|] eqn:Et; [|done]. cbn [mbind option_bind length]. change (s32 (Z.of_nat 1 - 1)) with 0.
  rewrite (proj2 (Z.leb_le 0 _) H3). cbn [ci_sql pl_set_read_index read_connectors_]. rewrite H1, update_single. cbn [mbind option_bind]. intros [= _ <-].
  eexists. split; [constructor; [reflexivity|exact H2|done|exact H4| |exact H7]|].
  - constructor; [exact H5|]. unfold outstanding in *. cbn [cn_push cn_worker cmd_list]. intros ci. rewrite app_assoc. intros [Hin|Hin]%elem_of_app; [by apply H6|].
    by apply list_elem_of_singleton in Hin as ->.
  - unfold conn_effect, outstanding, waiting, in_flight, asks. cbn [cn_push cn_worker cn_res cmd_list res_list pushed_by]. rewrite Et. cbn [fmap list_fmap app].
    split; [by rewrite <- app_assoc|done].
Qed.

Lemma pushed_write sql len p c w p' r : pool_ok p c w -> db_push_write sql len p = Some (r, p') -> exists w', pool_ok p' c w'.
Proof using.
  intros [H1 H2 H3 H4 H5 [H6 H7]]. unfold db_push_write, CmdInfo_new, push_write_cmd. rewrite H2.
  destruct (mem_read sql 0 (u16 len)) as [t|]; [|done]. cbn [mbind option_bind length]. change (s32 (Z.of_nat 1 - 1)) with 0. rewrite H4.
  change (0 <=? 0) with true. cbn [ci_sql pl_set_read_index write_connectors_ curr_write_index_]. rewrite H2, H4, update_single. cbn [mbind option_bind]. intros [= _ <-].
  eexists. constructor; [exact H1|reflexivity|done|done|exact H5|]. constructor; [|exact H7]. unfold outstanding in *. cbn [cn_push cn_worker cmd_list].
  intros ci. rewrite app_assoc. intros [Hin|Hin]%elem_of_app; [by apply H6|]. by apply list_elem_of_singleton in Hin as ->.
Qed.

Lemma conn_effect_id o c : pushed_by o = [] -> asks o c = [] -> conn_effect o c c [].
Proof using. intros H1 H2. unfold conn_effect. rewrite H1, H2, app_nil_r. done. Qed.

Lemma pool_exec_effect o p c w calls p' : pool_ok p c w -> pool_exec o p = Some (calls, p') -> exists c' w', pool_ok p' c' w' /\ conn_effect o c c' calls.
Proof using.
  intros Hp. destruct o as [sql len cb|sql len| |i oc|i oc]; cbn [pool_exec]; intros E.
  - apply bind_Some in E as ([r p1] & E & E1). apply (inj Some), pair_equal_spec in E1 as [<- <-]. destruct (pushed_read _ _ _ _ _ _ _ _ Hp E) as (c' & H1 & H2). by exists c', w.
  - apply bind_Some in E as ([r p1] & E & E1). apply (inj Some), pair_equal_spec in E1 as [<- <-]. destruct (pushed_write _ _ _ _ _ _ _ Hp E) as (w' & H1).
    exists c, w'. split; [done|]. by apply conn_effect_id.
  - destruct Hp as [H1 H2 H3 H4 H5 H6]. apply (inj Some) in E. destruct (run_effect c w H5 H6 p calls p' H1 H2 E) as (c' & E1 & E2 & E3 & E4 & E5 & E6).
    exists c', w. split; [|done]. constructor; try done; [by rewrite E3|by rewrite E4].
  - destruct Hp as [H1 H2 H3 H4 H5 H6]. rewrite H1 in E. destruct i as [|i]; [|by rewrite update_other in E]. change (Z.of_nat 0) with 0 in E. rewrite update_single in E.
    apply (inj Some), pair_equal_spec in E as [<- <-]. destruct (reader_effect oc c H5) as [E1 E2]. exists (connector_read_func oc c), w. split; [|done]. by constructor.
  - destruct Hp as [H1 H2 H3 H4 H5 H6]. rewrite H2 in E. destruct i as [|i]; [|by rewrite update_other in E]. change (Z.of_nat 0) with 0 in E. rewrite update_single in E.
    apply (inj Some), pair_equal_spec in E as [<- <-]. exists c, (connector_write_func oc w). split; [constructor; try done; by apply writer_ok|]. by apply conn_effect_id.
Qed.

(** The selects that are asked in a run, with the answers. *)
Fixpoint asked (os : list op) (p : pool) : list (cmd * Outcome R) :=
  match os with
  | [] => []
  | o :: os =>
    match read_connectors_ p with c :: _ => asks o c | [] => [] end ++ match pool_exec o p with Some (_, p) => asked os p | None => [] end
  end.

Lemma pool_runs os : forall p c w calls p', pool_ok p c w -> pool_exec_all os p = Some (calls, p') ->
  exists c' w', pool_ok p' c' w' /\ outstanding c ++ pushed os = (asked os p).*1 ++ outstanding c' /\
    calls ++ waiting c' = waiting c ++ answers (res_err (cn_res c)) (asked os p).
Proof using.
  induction os as [|o os IH]; intros p c w calls p' Hp E.
  - cbn in E. apply (inj Some), pair_equal_spec in E as [<- <-]. exists c, w. split; [done|]. cbn. by rewrite !app_nil_r.
  - cbn [pool_exec_all] in E. apply bind_Some in E as ([calls1 p1] & E1 & E). apply bind_Some in E as ([calls2 p2] & E2 & E).
    apply (inj Some), pair_equal_spec in E as [<- <-]. destruct (pool_exec_effect _ _ _ _ _ _ Hp E1) as (c1 & w1 & Hp1 & Hq & Ha).
    destruct (IH _ _ _ _ _ Hp1 E2) as (c2 & w2 & Hp2 & Hq2 & Ha2). exists c2, w2. split; [done|]. cbn [asked]. rewrite (po_rd _ _ _ Hp), E1. cbn [pushed fmap list_fmap mjoin list_join].
    change (mjoin (pushed_by <$> os)) with (pushed os). split.
    + rewrite app_assoc, Hq, fmap_app, <- !app_assoc. f_equal. exact Hq2.
    + rewrite <- app_assoc, Ha2. apply Ha.
Qed.

(** C19. In every run of the main thread and the threads of the pool, as it is configured, the selects are asked
    in the order in which they were pushed, each once; and the callbacks that were called, followed by those
    that wait, are exactly those of the selects that got rows, in that order, each with its rows.  A select
    that fails, or that gives no result, is never told of, and its error number comes with the next rows. *)
Theorem callbacks_in_order os calls p :
  pool_exec_all os (pool_init MYSQL_POOL_READ_CONN_SIZE MYSQL_POOL_WRITE_CONN_SIZE) = Some (calls, p) ->
  exists c, read_connectors_ p = [c] /\
    pushed os = (asked os (pool_init MYSQL_POOL_READ_CONN_SIZE MYSQL_POOL_WRITE_CONN_SIZE)).*1 ++ outstanding c /\
    calls ++ waiting c = answers 0 (asked os (pool_init MYSQL_POOL_READ_CONN_SIZE MYSQL_POOL_WRITE_CONN_SIZE)).
Proof using.
  intros E. destruct (pool_runs _ _ _ _ _ _ init_ok E) as (c & w & Hp & H1 & H2). exists c. split; [by apply (po_rd _ _ _ Hp)|done].
Qed.

(** ** Nothing waits for ever *)

(** The steps that the thread of the reading connector needs for what it has to do. *)
Definition todo (c : conn) : nat := 3 * length (cmd_list c) + match cn_worker c with w_pop => 0 | w_query _ => 2 | w_push _ => 1 end.
Definition reads (o : op) : nat := match o with po_reader _ _ => 1 | _ => 0 end.
Definition reader_steps (os : list op) : nat := sum_list (reads <$> os).

Lemma todo_outstanding c : (todo c <= 3 * length (outstanding c) + 1)%nat.
Proof using. unfold todo, outstanding. destruct (cn_worker c); cbn [app length]; lia. Qed.

Lemma reader_todo oc c : (todo (connector_read_func oc c) <= todo c - 1)%nat.
Proof using.
  destruct c as [res cmds rl k]. unfold connector_read_func, todo. cbn [cn_worker cmd_list]. destruct k as [|ci|ri].
  - unfold cn_pop. cbn [cmd_list]. destruct cmds; cbn; lia.
  - destruct (real_read_query oc _) as [b r]. destruct (ci_write ci); [cbn; lia|]. destruct (is_empty r); cbn; lia.
  - cbn. lia.
Qed.

Lemma pop_todo p c w calls p' c' : pool_ok p c w -> pool_run p = (calls, p') -> read_connectors_ p' = [c'] ->
  todo c' = todo c /\ length (res_list c') = (length (res_list c) - 1)%nat.
Proof using.
  intros Hp. unfold pool_run. rewrite (po_rd _ _ _ Hp), (po_wr _ _ _ Hp). destruct (pop_each [w]) as [calls2 wl]. cbn [pop_each].
  destruct c as [res cmds rl k]. unfold pop_res. cbn [res_list]. destruct rl as [|[r cb] rl]; intros [= _ <-]; cbn [pl_set_write pl_set_read read_connectors_]; intros [= <-];
    cbn; split; try done; lia.
Qed.

Lemma step_todo o p c w calls p' c' w' : pool_ok p c w -> pool_exec o p = Some (calls, p') -> pool_ok p' c' w' -> pushed_by o = [] ->
  (todo c' <= todo c - reads o)%nat.
Proof using.
  intros Hp E Hp' Hn. assert (Hc := po_rd _ _ _ Hp'). destruct o as [sql len cb|sql len| |i oc|i oc]; cbn [pool_exec reads] in *.
  - exfalso. apply bind_Some in E as ([r p1] & E & _). unfold db_push_read, CmdInfo_new in E. cbn [pushed_by] in Hn. by destruct (mem_read _ _ _).
  - apply bind_Some in E as ([r p1] & E & E1). apply (inj Some), pair_equal_spec in E1 as [_ <-]. unfold db_push_write, CmdInfo_new, push_write_cmd in E.
    destruct (mem_read _ _ _) as [t|]; [|done]. cbn [mbind option_bind] in E. apply bind_Some in E as (l & _ & E). apply (inj Some), pair_equal_spec in E as [_ <-].
    cbn [pl_set_write pl_set_read_index read_connectors_] in Hc. rewrite (po_rd _ _ _ Hp) in Hc. injection Hc as <-. lia.
  - apply (inj Some) in E. destruct (pop_todo _ _ _ _ _ _ Hp E Hc) as [-> _]. lia.
  - rewrite (po_rd _ _ _ Hp) in E. destruct i as [|i]; [|by rewrite update_other in E]. change (Z.of_nat 0) with 0 in E. rewrite update_single in E.
    apply (inj Some), pair_equal_spec in E as [_ <-]. injection Hc as <-. apply reader_todo.
  - apply bind_Some in E as (l & _ & E). apply (inj Some), pair_equal_spec in E as [_ <-]. cbn [pl_set_write read_connectors_] in Hc.
    rewrite (po_rd _ _ _ Hp) in Hc. injection Hc as <-. lia.
Qed.

Lemma run_todo os : forall p c w calls p' c' w', pool_ok p c w -> pool_exec_all os p = Some (calls, p') -> pool_ok p' c' w' -> pushed os = [] ->
  (todo c' <= todo c - reader_steps os)%nat.
Proof using.
  induction os as [|o os IH]; intros p c w calls p' c' w' Hp E Hp' Hn; cbn [pool_exec_all] in E.
  - apply (inj Some), pair_equal_spec in E as [_ <-]. assert (E := po_rd _ _ _ Hp). rewrite (po_rd _ _ _ Hp') in E. injection E as <-. cbn. lia.
  - apply bind_Some in E as ([calls1 p1] & E1 & E). apply bind_Some in E as ([calls2 p2] & E2 & E). apply (inj Some), pair_equal_spec in E as [_ <-].
    apply app_nil in Hn as [Hn1 Hn2]. destruct (pool_exec_effect _ _ _ _ _ _ Hp E1) as (c1 & w1 & Hp1 & _).
    pose proof (step_todo _ _ _ _ _ _ _ _ Hp E1 Hp1 Hn1). specialize (IH _ _ _ _ _ _ _ Hp1 E2 Hp' Hn2).
    change (reader_steps (o :: os)) with (reads o + reader_steps os)%nat. lia.
Qed.

Lemma runs_empty n : forall p c w, pool_ok p c w -> length (res_list c) = n ->
  exists calls p' c' w', pool_exec_all (repeat po_run n) p = Some (calls, p') /\ pool_ok p' c' w' /\ res_list c' = [] /\ todo c' = todo c.
Proof using.
  induction n as [|n IH]; intros p c w Hp Hl.
  - exists [], p, c, w. split; [done|]. split; [done|]. split; [by apply nil_length_inv|done].
  - cbn [repeat pool_exec_all pool_exec]. destruct (pool_run p) as [calls1 p1] eqn:E.
    destruct (pool_exec_effect po_run p c w calls1 p1 Hp) as (c1 & w1 & Hp1 & _); [by cbn; rewrite E|].
    destruct (pop_todo _ _ _ _ _ _ Hp E (po_rd _ _ _ Hp1)) as [Ht Hl1].
    destruct (IH p1 c1 w1 Hp1) as (calls & p' & c' & w' & E' & Hp' & Hr & Ht'); [lia|]. exists (calls1 ++ calls), p', c', w'. cbn [mbind option_bind]. rewrite E'.
    cbn [mbind option_bind]. split; [done|]. split; [done|]. split; [done|]. by rewrite Ht'.
Qed.

Lemma pool_exec_all_app os1 os2 (p : pool) :
  pool_exec_all (os1 ++ os2) p = '(calls1, p) ← pool_exec_all os1 p; '(calls2, p) ← pool_exec_all os2 p; Some (calls1 ++ calls2, p).
Proof using.
  revert p. induction os1 as [|o os1 IH]; intros p; cbn [app pool_exec_all].
  - cbn [mbind option_bind]. by destruct (pool_exec_all os2 p) as [[? ?]|].
  - destruct (pool_exec o p) as [[c1 p1]|]; [|done]. cbn [mbind option_bind]. rewrite IH. destruct (pool_exec_all os1 p1) as [[c2 p2]|]; [|done].
    cbn [mbind option_bind]. destruct (pool_exec_all os2 p2) as [[c3 p3]|]; [|done]. cbn. by rewrite app_assoc.
Qed.

(** When no select is pushed any more and the thread of the reading connector is scheduled three times for
    each select that is outstanding and once more, every select was asked, whatever else was scheduled, and as
    many turns of [run] as there are results hand every answer to its callback. *)
Theorem every_select_answered os1 os2 calls1 calls2 p1 p2 c :
  pool_exec_all os1 (pool_init MYSQL_POOL_READ_CONN_SIZE MYSQL_POOL_WRITE_CONN_SIZE) = Some (calls1, p1) -> read_connectors_ p1 = [c] ->
  pool_exec_all os2 p1 = Some (calls2, p2) -> pushed os2 = [] -> (3 * length (outstanding c) + 1 <= reader_steps os2)%nat ->
  exists n calls3 p3, pool_exec_all (repeat po_run n) p2 = Some (calls3, p3) /\
    (asked (os1 ++ os2) (pool_init MYSQL_POOL_READ_CONN_SIZE MYSQL_POOL_WRITE_CONN_SIZE)).*1 = pushed os1 /\
    calls1 ++ calls2 ++ calls3 = answers 0 (asked (os1 ++ os2) (pool_init MYSQL_POOL_READ_CONN_SIZE MYSQL_POOL_WRITE_CONN_SIZE)).
Proof using.
  intros E1 Hc E2 Hn Hs. destruct (pool_runs _ _ _ _ _ _ init_ok E1) as (c1 & w1 & Hp1 & _).
  assert (c1 = c) as -> by (rewrite (po_rd _ _ _ Hp1) in Hc; by injection Hc).
  assert (E12 : pool_exec_all (os1 ++ os2) (pool_init MYSQL_POOL_READ_CONN_SIZE MYSQL_POOL_WRITE_CONN_SIZE) = Some (calls1 ++ calls2, p2))
    by (rewrite pool_exec_all_app, E1; cbn [mbind option_bind]; by rewrite E2).
  destruct (pool_runs _ _ _ _ _ _ init_ok E12) as (c2 & w2 & Hp2 & Hq & Ha).
  pose proof (run_todo _ _ _ _ _ _ _ _ Hp1 E2 Hp2 Hn) as Ht. pose proof (todo_outstanding c) as Ho.
  destruct (runs_empty _ _ _ _ Hp2 eq_refl) as (calls3 & p3 & c3 & w3 & E3 & Hp3 & Hr & Ht3). exists (length (res_list c2)), calls3, p3. split; [done|].
  assert (H0 : todo c2 = 0%nat) by lia. rewrite H0 in Ht3. unfold todo in H0. assert (Ho2 : outstanding c2 = []).
  { unfold outstanding. destruct (cn_worker c2), (cmd_list c2); cbn in H0 |- *; try done; lia. }
  assert (Hw3 : waiting c3 = []).
  { unfold waiting, in_flight. rewrite Hr. unfold todo in Ht3. destruct (cn_worker c3); cbn in Ht3 |- *; try done; lia. }
  cbn [outstanding ConnectorInfo_new cn_worker cmd_list app] in Hq. rewrite Ho2, app_nil_r in Hq.
  assert (Hp12 : pushed (os1 ++ os2) = pushed os1). { unfold pushed in *. rewrite fmap_app, join_app, Hn. by rewrite app_nil_r. }
  rewrite Hp12 in Hq. split; [done|]. destruct (pool_runs _ _ _ _ _ _ Hp2 E3) as (c3' & w3' & Hp3' & _ & Ha3).
  assert (c3' = c3) as -> by (pose proof (po_rd _ _ _ Hp3') as Hx; rewrite (po_rd _ _ _ Hp3) in Hx; by injection Hx).
  assert (Hz : asked (repeat po_run (length (res_list c2))) p2 = []).
  { clear. generalize (length (res_list c2)) p2. intros n. induction n as [|n IH]; intros p; [done|]. cbn [repeat asked pool_exec asks]. destruct (read_connectors_ p), (pool_run p); apply IH. }
  rewrite Hz, Hw3, !app_nil_r in Ha3. rewrite Ha3, app_assoc. exact Ha.
Qed.
End props.

(** ** Example *)

Section example.
(** Two selects, a statement that changes something and a failing select; the thread is scheduled late. *)
Definition ex_pool_run : list (pool_op Z Z) := [
  po_read [1; 2; 3] 3 10; po_write [9] 1; po_reader 0 oc_done; po_read [4] 1 11; po_reader 0 (oc_error 5); po_writer 0 oc_done; po_read [6] 1 12; po_run ].
Definition ex_pool_rest : list (pool_op Z Z) := [
  po_reader 0 oc_done; po_reader 0 (oc_rows 100); po_writer 0 oc_done; po_reader 0 oc_done; po_reader 0 oc_done; po_run; po_reader 0 (oc_rows 200); po_reader 0 oc_done;
  po_reader 0 oc_done ].

(** The error of the first select comes with the rows of the second one. *)
Lemma callbacks_in_order_witness : exists calls p c,
  pool_exec_all (ex_pool_run ++ ex_pool_rest) (pool_init MYSQL_POOL_READ_CONN_SIZE MYSQL_POOL_WRITE_CONN_SIZE) = Some (calls, p) /\
  read_connectors_ p = [c] /\ calls ++ waiting c = [(11, mkResult (Some 100) 5); (12, mkResult (Some 200) 0)].
Proof.
  destruct (pool_exec_all (ex_pool_run ++ ex_pool_rest) (pool_init MYSQL_POOL_READ_CONN_SIZE MYSQL_POOL_WRITE_CONN_SIZE)) as [[calls p]|] eqn:E; [|vm_compute in E; discriminate E].
  destruct (callbacks_in_order _ _ _ E) as (c & Hc & _ & Ha). exists calls, p, c. split; [reflexivity|]. split; [exact Hc|]. rewrite Ha. vm_compute. reflexivity.
Defined.

Definition ex_pool_calls (os : list (pool_op Z Z)) (p : MysqlConnectorPool Z Z) : list (Z * Result Z) * MysqlConnectorPool Z Z :=
  default ([], p) (pool_exec_all os p).
Definition ex_pool_p1 : MysqlConnectorPool Z Z := Eval vm_compute in snd (ex_pool_calls ex_pool_run (pool_init 1 1)).
Definition ex_pool_p2 : MysqlConnectorPool Z Z := Eval vm_compute in snd (ex_pool_calls ex_pool_rest ex_pool_p1).

Lemma every_select_answered_witness : exists n calls3 p3,
  pool_exec_all (repeat po_run n) ex_pool_p2 = Some (calls3, p3) /\ calls3 = [(12, mkResult (Some 200) 0)].
Proof.
  destruct (every_select_answered ex_pool_run ex_pool_rest [] [(11, mkResult (Some 100) 5)] ex_pool_p1 ex_pool_p2
    (mkConn (mkResult None 5) [mkCmd [4] (Some 11) false; mkCmd [6] (Some 12) false] [] w_pop)) as (n & calls3 & p3 & E & _ & Ha).
  1-4: vm_compute; reflexivity.
  1: apply Nat.leb_le; vm_compute; reflexivity.
  exists n, calls3, p3. split; [exact E|]. vm_compute in Ha. by injection Ha.
Defined.
End example.
