(* ===== verification/SqlFormat.v ===== *)
(** * Statements ([mysql/mysql_defines.h], [mysql_util.h], [mysql_db_config_manager.*], [mysql_db_manager.*])

    Statements are printed into buffers that are used in turns: a text that is built from two others reads
    one buffer and writes another.  The buffers are modelled as they are shared, and a print whose source is
    its destination is undefined. *)
From S2P Require Import Prelude Text MysqlPool.
From Stdlib Require Import ZArith Lia String.
From stdpp Require Import base option list gmap.
Local Open Scope Z_scope.

(** ** Tables *)

Inductive MysqlTableFieldType : Type :=
| MYSQL_FIELD_TYPE_NONE | MYSQL_FIELD_TYPE_TINYINT | MYSQL_FIELD_TYPE_SMALLINT | MYSQL_FIELD_TYPE_MEDIUMINT
| MYSQL_FIELD_TYPE_INT | MYSQL_FIELD_TYPE_BIGINT | MYSQL_FIELD_TYPE_FLOAT | MYSQL_FIELD_TYPE_DOUBLE
| MYSQL_FIELD_TYPE_DATE | MYSQL_FIELD_TYPE_DATETIME | MYSQL_FIELD_TYPE_TIMESTAMP | MYSQL_FIELD_TYPE_TIME
| MYSQL_FIELD_TYPE_YEAR | MYSQL_FIELD_TYPE_CHAR | MYSQL_FIELD_TYPE_BINARY | MYSQL_FIELD_TYPE_VARBINARY
| MYSQL_FIELD_TYPE_VARCHAR | MYSQL_FIELD_TYPE_TINYBLOB | MYSQL_FIELD_TYPE_TINYTEXT | MYSQL_FIELD_TYPE_BLOB
| MYSQL_FIELD_TYPE_TEXT | MYSQL_FIELD_TYPE_MEDIUMBLOB | MYSQL_FIELD_TYPE_MEDIUMTEXT | MYSQL_FIELD_TYPE_LONGBLOB
| MYSQL_FIELD_TYPE_LONGTEXT | MYSQL_FIELD_TYPE_ENUM | MYSQL_FIELD_TYPE_SET.

#[export] Instance field_type_eq_dec : EqDecision MysqlTableFieldType.
Proof. solve_decision. Defined.

Definition MYSQL_TABLE_CREATE_ZEROFILL : Z := 1.
Definition MYSQL_TABLE_CREATE_UNSIGNED : Z := 2.
Definition MYSQL_TABLE_CREATE_AUTOINCREMENT : Z := 4.
Definition MYSQL_TABLE_CREATE_NULL : Z := 8.
Definition MYSQL_TABLE_CREATE_NOT_NULL : Z := 16.
Definition MYSQL_TABLE_CREATE_DEFAULT : Z := 32.

Inductive MysqlEngineType : Type := MYSQL_ENGINE_MYISAM | MYSQL_ENGINE_INNODB.

Record MysqlTableFieldInfo : Type := mkFieldInfo { fi_name : text; field_type : MysqlTableFieldType; type_length : Z; index_type : Z; create_flags : Z }.

#[export] Instance field_info_eq_dec : EqDecision MysqlTableFieldInfo.
Proof. solve_decision. Defined.

Record MysqlTableInfo : Type := mkTableInfo {
  ti_name : text; primary_key_index : Z; primary_key : text; fields_info : list MysqlTableFieldInfo; engine_type : MysqlEngineType }.
Record MysqlDatabaseConfig : Type := mkDatabaseConfig { dbname : text; tables_info : list MysqlTableInfo }.

Definition IS_MYSQL_INT_TYPE (t : MysqlTableFieldType) : bool :=
  match t with
  | MYSQL_FIELD_TYPE_TINYINT | MYSQL_FIELD_TYPE_SMALLINT | MYSQL_FIELD_TYPE_MEDIUMINT | MYSQL_FIELD_TYPE_INT | MYSQL_FIELD_TYPE_BIGINT => true
  | _ => false
  end.
Definition IS_MYSQL_TEXT_TYPE (t : MysqlTableFieldType) : bool :=
  match t with
  | MYSQL_FIELD_TYPE_CHAR | MYSQL_FIELD_TYPE_VARCHAR | MYSQL_FIELD_TYPE_TEXT | MYSQL_FIELD_TYPE_TINYTEXT | MYSQL_FIELD_TYPE_MEDIUMTEXT
  | MYSQL_FIELD_TYPE_LONGTEXT => true
  | _ => false
  end.
Definition IS_MYSQL_BINARY_TYPE (t : MysqlTableFieldType) : bool :=
  match t with MYSQL_FIELD_TYPE_BINARY | MYSQL_FIELD_TYPE_VARBINARY => true | _ => false end.
Definition IS_MYSQL_BLOB_TYPE (t : MysqlTableFieldType) : bool :=
  match t with MYSQL_FIELD_TYPE_TINYBLOB | MYSQL_FIELD_TYPE_MEDIUMBLOB | MYSQL_FIELD_TYPE_BLOB | MYSQL_FIELD_TYPE_LONGBLOB => true | _ => false end.

Definition has_flag (flags flag : Z) : bool := negb (Z.land flags flag =? 0).

(** ** MysqlDBConfigManager *)

Record MysqlDBConfigManager : Type := mkConfigManager {
  db_name_ : text;
  table_name2index_ : gmap text nat;
  table_array_ : list MysqlTableInfo;
  table_fields_name2index_array_ : list (gmap text nat);
}.

(** [insert] keeps the first index of a name. *)
Definition insert_index (name : text) (i : nat) (m : gmap text nat) : gmap text nat := match m !! name with Some _ => m | None => <[name := i]> m end.
Fixpoint name_indices (names : list text) (i : nat) (m : gmap text nat) : gmap text nat :=
  match names with [] => m | name :: names => name_indices names (S i) (insert_index name i m) end.

Definition cm_clear (m : MysqlDBConfigManager) : MysqlDBConfigManager := mkConfigManager (db_name_ m) ∅ [] [].
Definition cm_init (config : MysqlDatabaseConfig) (m : MysqlDBConfigManager) : bool * MysqlDBConfigManager :=
  match tables_info config with
  | [] => (false, m)
  | tables => (true, mkConfigManager (dbname config) (name_indices (ti_name <$> tables) 0 (table_name2index_ m)) tables
                       ((fun t => name_indices (fi_name <$> fields_info t) 0 ∅) <$> tables))
  end.

Definition get_table_index (table_name : text) (m : MysqlDBConfigManager) : Z :=
  match table_name2index_ m !! table_name with None => -1 | Some i => Z.of_nat i end.
Definition get_table_field_index (table_index : Z) (field_name : text) (m : MysqlDBConfigManager) : option Z :=
  if table_index <? 0 then None else
  tf ← table_fields_name2index_array_ m !! Z.to_nat table_index; Some (match tf !! field_name with None => -1 | Some i => Z.of_nat i end).
Definition get_table_info (table_index : Z) (m : MysqlDBConfigManager) : option MysqlTableInfo :=
  if (table_index <? 0) || (lenZ (table_array_ m) <=? table_index) || (lenZ (table_fields_name2index_array_ m) <=? table_index) then None
  else table_array_ m !! Z.to_nat table_index.
Definition get_field_info (table_index : Z) (field_name : text) (m : MysqlDBConfigManager) : option MysqlTableFieldInfo :=
  ti ← get_table_info table_index m;
  tf ← table_fields_name2index_array_ m !! Z.to_nat table_index;
  idx ← tf !! field_name;
  fields_info ti !! idx.

(** ** Values *)

(** The types for which [mysql_get_field_value_format] is specialised; a message is any other type, given by what
    it is serialised to.  A [double] is given by what [%f] prints. *)
Inductive FieldValue : Type :=
| fv_int (v : Z) | fv_unsigned (v : Z) | fv_uint64 (v : Z) | fv_int64 (v : Z) | fv_ulonglong (v : Z)
| fv_double (printed : text) | fv_chars (s : text) | fv_string (s : text) | fv_message (serialized : text).

Definition quoted (t : text) : text := chars "'" ++ t ++ chars "'".

Section format.
(** [mysql_real_escape_string]. *)
Variable escape : text -> text.

Definition small_int_type (ft : MysqlTableFieldType) : bool :=
  match ft with MYSQL_FIELD_TYPE_TINYINT | MYSQL_FIELD_TYPE_SMALLINT | MYSQL_FIELD_TYPE_MEDIUMINT | MYSQL_FIELD_TYPE_INT => true | _ => false end.
Definition bigint_type (ft : MysqlTableFieldType) : bool := match ft with MYSQL_FIELD_TYPE_BIGINT => true | _ => false end.
Definition float_type (ft : MysqlTableFieldType) : bool := match ft with MYSQL_FIELD_TYPE_FLOAT | MYSQL_FIELD_TYPE_DOUBLE => true | _ => false end.

(** Escaping writes the text and a zero into [tmp_buf], whatever its size. *)
Definition escape_to (tmp_size : Z) (t : text) : option text := ub_unless (lenZ (escape t) <? tmp_size);; Some (escape t).

(** The texts that are left in [format_buf] and, when it is written, in [tmp_buf]; the inner [None] is [false].
    [tmp] is the size of [tmp_buf], none when it is null. *)
Definition format_text (s : text) (size : Z) (tmp : option Z) : option (option (text * option text)) :=
  match tmp with
  | None => Some (Some (snprintf size (quoted (c_str s)), None))
  | Some n => e ← escape_to n s; Some (Some (snprintf size (quoted (c_str e)), Some e))
  end.

Definition mysql_get_field_value_format (ft : MysqlTableFieldType) (flags : Z) (v : FieldValue) (size : Z) (tmp : option Z) : option (option (text * option text)) :=
  let unsigned := has_flag flags MYSQL_TABLE_CREATE_UNSIGNED in
  let print t := Some (Some (snprintf size t, None)) in
  match v with
  | fv_int v => if small_int_type ft then print (if unsigned then print_unsigned (u32 v) else print_signed v) else Some None
  | fv_unsigned v => if small_int_type ft && unsigned then print (print_unsigned v) else Some None
  | fv_uint64 v | fv_ulonglong v => if bigint_type ft then print (if unsigned then print_unsigned v else print_signed (s64 v)) else Some None
  | fv_int64 v => if bigint_type ft then print (if unsigned then print_unsigned (u64 v) else print_signed v) else Some None
  | fv_double t => if float_type ft then print t else Some None
  | fv_chars s => if IS_MYSQL_TEXT_TYPE ft || IS_MYSQL_BINARY_TYPE ft then format_text (c_str s) size tmp else Some None
  | fv_string s => if IS_MYSQL_TEXT_TYPE ft || IS_MYSQL_BINARY_TYPE ft then format_text s size tmp else Some None
  | fv_message m =>
    if IS_MYSQL_BINARY_TYPE ft || IS_MYSQL_BLOB_TYPE ft then
      if lenZ m =? 0 then print (quoted [])
      else if lenZ m <=? size then n ← tmp; format_text m size (Some n) else Some None
    else Some None
  end.

(** ** The buffers *)

Definition BUF_SIZE : Z := 1024 * 128.
Definition BIG_BUF_SIZE : Z := 1024 * 1024.
Definition BUF_COUNT : Z := 3.

(** The C strings in the buffers. *)
Record SqlBufs : Type := mkBufs {
  sb_buf : list text; sb_buf2 : list text;
  sb_index : Z; sb_index2 : Z; sb_big_index : Z;
  sb_tmp : text;
}.

(** The constructor sets [index_] and [big_index_]; [index2_] and the buffers hold what is there. *)
Definition SqlBufs_new (buf buf2 : list text) (index2 : Z) (tmp : text) : SqlBufs := mkBufs buf buf2 0 index2 0 tmp.

Definition next_index (m : SqlBufs) : Z * SqlBufs :=
  let i := if BUF_COUNT <=? sb_index m + 1 then 0 else sb_index m + 1 in
  (i, mkBufs (sb_buf m) (sb_buf2 m) i (sb_index2 m) (sb_big_index m) (sb_tmp m)).
Definition next_index2 (m : SqlBufs) : Z * SqlBufs :=
  let i := if BUF_COUNT <=? sb_index2 m + 1 then 0 else sb_index2 m + 1 in
  (i, mkBufs (sb_buf m) (sb_buf2 m) (sb_index m) i (sb_big_index m) (sb_tmp m)).

(** A pointer into the buffers. *)
Inductive sref : Type := sr_buf (buf_num i : Z) | sr_tmp.

#[export] Instance sref_eq_dec : EqDecision sref.
Proof. solve_decision. Defined.

Definition get_buf_info (buf_num : Z) (m : SqlBufs) : option sref :=
  if buf_num =? 0 then Some (sr_buf 0 (sb_index m)) else if buf_num =? 1 then Some (sr_buf 1 (sb_index2 m)) else None.
Definition to_next_index (buf_num : Z) (m : SqlBufs) : Z * SqlBufs :=
  if buf_num =? 0 then next_index m else if buf_num =? 1 then next_index2 m else (-1, m).

Definition at_index (i : Z) (l : list text) : option text := if i <? 0 then None else l !! Z.to_nat i.
Definition sr_read (r : sref) (m : SqlBufs) : option text :=
  match r with
  | sr_buf n i => at_index i (if n =? 0 then sb_buf m else sb_buf2 m)
  | sr_tmp => Some (sb_tmp m)
  end.
Definition sr_write (r : sref) (t : text) (m : SqlBufs) : option SqlBufs :=
  _ ← sr_read r m;
  Some (match r with
        | sr_buf n i =>
          if n =? 0 then mkBufs (<[Z.to_nat i := t]> (sb_buf m)) (sb_buf2 m) (sb_index m) (sb_index2 m) (sb_big_index m) (sb_tmp m)
          else mkBufs (sb_buf m) (<[Z.to_nat i := t]> (sb_buf2 m)) (sb_index m) (sb_index2 m) (sb_big_index m) (sb_tmp m)
        | sr_tmp => mkBufs (sb_buf m) (sb_buf2 m) (sb_index m) (sb_index2 m) (sb_big_index m) t
        end).

(** A part of a format: a literal, or [%s] of a C string or of a buffer. *)
Inductive piece : Type := pc_text (t : text) | pc_ref (r : sref).

Definition pc_read (m : SqlBufs) (p : piece) : option text := match p with pc_text t => Some t | pc_ref r => sr_read r m end.
Definition pc_overlaps (dst : sref) (p : piece) : bool := match p with pc_text _ => false | pc_ref r => bool_decide (r = dst) end.
Fixpoint pc_reads (m : SqlBufs) (ps : list piece) : option text :=
  match ps with [] => Some [] | p :: ps => t ← pc_read m p; t' ← pc_reads m ps; Some (t ++ t') end.

(** [std::snprintf(dst, BUF_SIZE, ...)]; the destination must not be one of the sources. *)
Definition print_to (dst : sref) (ps : list piece) (m : SqlBufs) : option SqlBufs :=
  ub_unless (negb (existsb (pc_overlaps dst) ps));; t ← pc_reads m ps; sr_write dst (snprintf BUF_SIZE t) m.

(** A statement is printed to [big_buf_], which is copied at once. *)
Definition print_big (ps : list piece) (m : SqlBufs) : option text := t ← pc_reads m ps; Some (snprintf BIG_BUF_SIZE t).

(** A value is printed to [dst]; [tmp] is the other buffer. *)
Definition format_value_to (f : MysqlTableFieldInfo) (v : FieldValue) (dst tmp : sref) (m : SqlBufs) : option (bool * SqlBufs) :=
  r ← mysql_get_field_value_format (field_type f) (create_flags f) v BUF_SIZE (Some BUF_SIZE);
  match r with
  | None => Some (false, m)
  | Some (t, e) =>
    m ← match e with Some e => sr_write tmp (c_str e) m | None => Some m end;
    m ← sr_write dst t m; Some (true, m)
  end.

(** ** Lists of fields *)

(** [MysqlFieldNameValue]; the name of a field that has not changed is null. *)
Record FieldNameValue : Type := mkField { fn_name : option text; fn_value : FieldValue }.

Definition format_insert_field_name (head_buf : option sref) (buf_num : Z) (arg : FieldNameValue) (m : SqlBufs) : option (option sref * SqlBufs) :=
  match get_buf_info buf_num m with
  | None => Some (None, m)
  | Some buf =>
    name ← fn_name arg;
    m ← print_to buf (match head_buf with None => [pc_text name] | Some h => [pc_ref h; pc_text (chars ", "); pc_text name] end) m;
    Some (Some buf, m)
  end.

Fixpoint format_insert_field_name_str (head_buf : option sref) (buf_num : Z) (first : FieldNameValue) (rest : list FieldNameValue) (m : SqlBufs)
  : option (option sref * SqlBufs) :=
  '(t, m) ← format_insert_field_name head_buf buf_num first m;
  match rest with
  | [] => Some (t, m)
  | arg :: rest =>
    match t with
    | None => Some (None, m)
    | Some t =>
      let '(r, m) := to_next_index buf_num m in
      if r <? 0 then Some (None, m) else format_insert_field_name_str (Some t) buf_num arg rest m
    end
  end.

(** [buf] is joined to the text before it, in the next buffer. *)
Definition append_field (head_buf : option sref) (buf_num : Z) (buf : sref) (m : SqlBufs) : option (option sref * SqlBufs) :=
  match head_buf with
  | None => Some (Some buf, m)
  | Some h =>
    let '(r, m) := to_next_index buf_num m in
    if r <? 0 then Some (None, m) else
    match get_buf_info buf_num m with
    | None => Some (None, m)
    | Some buf' => m ← print_to buf' [pc_ref h; pc_text (chars ", "); pc_ref buf] m; Some (Some buf', m)
    end
  end.

Definition format_insert_field_value (cfg : MysqlDBConfigManager) (table_index : Z) (head_buf : option sref) (buf_num : Z) (arg : FieldNameValue) (m : SqlBufs)
  : option (option sref * SqlBufs) :=
  match get_buf_info buf_num m with
  | None => Some (None, m)
  | Some buf =>
    name ← fn_name arg;
    match get_field_info table_index name cfg with
    | None => Some (None, m)
    | Some f =>
      '(ok, m) ← format_value_to f (fn_value arg) buf sr_tmp m;
      if negb ok then Some (None, m) else append_field head_buf buf_num buf m
    end
  end.

Fixpoint format_insert_field_value_str (cfg : MysqlDBConfigManager) (table_index : Z) (head_buf : option sref) (buf_num : Z) (first : FieldNameValue)
    (rest : list FieldNameValue) (m : SqlBufs) : option (option sref * SqlBufs) :=
  '(t, m) ← format_insert_field_value cfg table_index head_buf buf_num first m;
  match rest with
  | [] => Some (t, m)
  | arg :: rest =>
    match t with
    | None => Some (None, m)
    | Some t =>
      let '(r, m) := to_next_index buf_num m in
      if r <? 0 then Some (None, m) else format_insert_field_value_str cfg table_index (Some t) buf_num arg rest m
    end
  end.

Definition format_update_field_value (cfg : MysqlDBConfigManager) (table_index : Z) (head_buf : option sref) (buf_num : Z) (arg : FieldNameValue) (m : SqlBufs)
  : option (option sref * SqlBufs) :=
  match fn_name arg with
  | None => Some (head_buf, m)
  | Some name =>
    match get_field_info table_index name cfg with
    | None => Some (None, m)
    | Some f =>
      match get_buf_info buf_num m with
      | None => Some (None, m)
      | Some buf =>
        '(ok, m) ← format_value_to f (fn_value arg) sr_tmp buf m;
        if negb ok then Some (None, m) else
        m ← print_to buf [pc_text name; pc_text (chars "="); pc_ref sr_tmp] m;
        append_field head_buf buf_num buf m
      end
    end
  end.

(** The text of a field that could not be formatted is null, and the next one starts anew. *)
Fixpoint format_update_field_value_str (cfg : MysqlDBConfigManager) (table_index : Z) (head_buf : option sref) (buf_num : Z) (first : FieldNameValue)
    (rest : list FieldNameValue) (m : SqlBufs) : option (option sref * SqlBufs) :=
  '(t, m) ← format_update_field_value cfg table_index head_buf buf_num first m;
  match rest with
  | [] => Some (t, m)
  | arg :: rest =>
    let '(r, m) := to_next_index buf_num m in
    if r <? 0 then Some (None, m) else format_update_field_value_str cfg table_index t buf_num arg rest m
  end.

(** ** MysqlDBManager *)

Section manager.
Context {R Cb : Type}.

(** [write_conn_] is the first writing connector; it is set by [init]. *)
Record MysqlDBManager : Type := mkDBManager { dm_config : MysqlDBConfigManager; dm_bufs : SqlBufs; dm_pool : MysqlConnectorPool R Cb }.

Definition dm_set_bufs (b : SqlBufs) (m : MysqlDBManager) : MysqlDBManager := mkDBManager (dm_config m) b (dm_pool m).
Definition dm_set_pool (p : MysqlConnectorPool R Cb) (m : MysqlDBManager) : MysqlDBManager := mkDBManager (dm_config m) (dm_bufs m) p.

Definition dm_run (m : MysqlDBManager) : list (Cb * Result R) * MysqlDBManager := let '(calls, p) := pool_run (dm_pool m) in (calls, dm_set_pool p m).

Definition dm_push_read (sql : text) (cb : Cb) (m : MysqlDBManager) : option (bool * MysqlDBManager) :=
  '(r, p) ← db_push_read sql (lenZ sql) cb (dm_pool m); Some (r, dm_set_pool p m).
Definition dm_push_write (sql : text) (m : MysqlDBManager) : option (bool * MysqlDBManager) :=
  '(r, p) ← db_push_write sql (lenZ sql) (dm_pool m); Some (r, dm_set_pool p m).
Definition push_insert_cmd (sql : text) (m : MysqlDBManager) : option (bool * MysqlDBManager) :=
  '(res, m) ← dm_push_write sql m; if negb res then Some (false, m) else Some (res, m).

(** A table that is given by its name. *)
Definition by_table_name (table_name : text) (op : Z -> MysqlDBManager -> option (bool * MysqlDBManager)) (m : MysqlDBManager) : option (bool * MysqlDBManager) :=
  let idx := get_table_index table_name (dm_config m) in if idx <? 0 then Some (false, m) else op idx m.

(** A key is formatted without another buffer, so a text is not escaped. *)
Definition get_field_type_format (table_index : Z) (field_name : text) (v : FieldValue) (size : Z) (cfg : MysqlDBConfigManager) : option (option text) :=
  match get_field_info table_index field_name cfg with
  | None => Some None
  | Some f => r ← mysql_get_field_value_format (field_type f) (create_flags f) v size None; Some (match r with None => None | Some (t, _) => Some t end)
  end.

(** A key that is formatted to the current buffer. *)
Definition format_key_to (buf_num table_index : Z) (key_name : text) (v : FieldValue) (m : MysqlDBManager) : option (option sref * MysqlDBManager) :=
  match get_buf_info buf_num (dm_bufs m) with
  | None => Some (None, m)
  | Some buf =>
    _ ← sr_read buf (dm_bufs m);
    r ← get_field_type_format table_index key_name v BUF_SIZE (dm_config m);
    match r with None => Some (None, m) | Some t => b ← sr_write buf t (dm_bufs m); Some (Some buf, dm_set_bufs b m) end
  end.

Definition pc_null (r : option sref) : option piece := r ← r; Some (pc_ref r).

Definition insertRecord_default (table_index : Z) (m : MysqlDBManager) : option (bool * MysqlDBManager) :=
  match get_table_info table_index (dm_config m) with
  | None => Some (false, m)
  | Some ti =>
    b ← print_to (sr_buf 0 0) [pc_text (chars "INSERT INTO "); pc_text (ti_name ti)] (dm_bufs m);
    sql ← sr_read (sr_buf 0 0) b; push_insert_cmd sql (dm_set_bufs b m)
  end.

(** The results of the formatting functions are not tested: [%s] of null. *)
Definition insertRecord (first : FieldNameValue) (rest : list FieldNameValue) (table_index : Z) (m : MysqlDBManager) : option (bool * MysqlDBManager) :=
  match get_table_info table_index (dm_config m) with
  | None => Some (false, m)
  | Some ti =>
    '(names, b) ← format_insert_field_name_str None 0 first rest (dm_bufs m);
    '(values, b) ← format_insert_field_value_str (dm_config m) table_index None 1 first rest b;
    names ← pc_null names; values ← pc_null values;
    sql ← print_big [pc_text (chars "INSERT INTO "); pc_text (ti_name ti); pc_text (chars " ("); names; pc_text (chars ") VALUES ("); values; pc_text (chars ")")] b;
    push_insert_cmd sql (dm_set_bufs b m)
  end.

(** The conditions of [updateRecord], each printed to a [char[64]]. *)
Fixpoint format_keys (cfg : MysqlDBConfigManager) (table_index : Z) (keys : list (text * FieldValue)) : option (option (list text)) :=
  match keys with
  | [] => Some (Some [])
  | (key_name, v) :: keys =>
    t ← get_field_type_format table_index key_name v 64 cfg;
    match t with
    | None => Some None
    | Some t => ts ← format_keys cfg table_index keys; Some (ts ← ts; Some ((key_name ++ chars "=" ++ t) :: ts))
    end
  end.

(** The three templates, with one, two and three keys. *)
Definition updateRecord (keys : list (text * FieldValue)) (first : FieldNameValue) (rest : list FieldNameValue) (table_index : Z) (m : MysqlDBManager)
  : option (bool * MysqlDBManager) :=
  match get_table_info table_index (dm_config m) with
  | None => Some (false, m)
  | Some ti =>
    '(format, b) ← format_update_field_value_str (dm_config m) table_index None 0 first rest (dm_bufs m);
    let m := dm_set_bufs b m in
    match format with
    | None => Some (false, m)
    | Some format =>
      ks ← format_keys (dm_config m) table_index keys;
      match ks with
      | None => Some (false, m)
      | Some ks =>
        sql ← print_big [pc_text (chars "UPDATE "); pc_text (ti_name ti); pc_text (chars " SET "); pc_ref format; pc_text (chars " WHERE "); pc_text (boost_join (chars " AND ") ks)] b;
        dm_push_write sql m
      end
    end
  end.

Definition deleteRecord (key_name : text) (key_value : FieldValue) (table_index : Z) (m : MysqlDBManager) : option (bool * MysqlDBManager) :=
  match get_table_info table_index (dm_config m) with
  | None => Some (false, m)
  | Some ti =>
    '(format, m) ← format_key_to 0 table_index key_name key_value m;
    match format with
    | None => Some (false, m)
    | Some format =>
      sql ← print_big [pc_text (chars "DELETE FROM "); pc_text (ti_name ti); pc_text (chars " WHERE "); pc_text key_name; pc_text (chars "="); pc_ref format] (dm_bufs m);
      dm_push_write sql m
    end
  end.

(** The loop that lists fields; [prev] stays at the first one. *)
Fixpoint select_fields (prev : option sref) (buf : sref) (fields : list text) (m : SqlBufs) : option (option sref * SqlBufs) :=
  match fields with
  | [] => Some (Some buf, m)
  | name :: fields =>
    match prev with
    | None => m ← print_to buf [pc_text name] m; select_fields (Some buf) buf fields m
    | Some p =>
      let '(r, m) := to_next_index 0 m in
      if r <? 0 then Some (None, m) else
      match get_buf_info 0 m with
      | None => Some (None, m)
      | Some buf => m ← print_to buf [pc_ref p; pc_text (chars ", "); pc_text name] m; select_fields prev buf fields m
      end
    end
  end.

(** Both functions without a key: the fields as a [std::list] and as an array. *)
Definition selectRecord (fields : list text) (cb : Cb) (table_index : Z) (m : MysqlDBManager) : option (bool * MysqlDBManager) :=
  match get_table_info table_index (dm_config m) with
  | None => Some (false, m)
  | Some ti =>
    match get_buf_info 0 (dm_bufs m) with
    | None => Some (false, m)
    | Some buf =>
      '(r, b) ← select_fields None buf fields (dm_bufs m);
      let m := dm_set_bufs b m in
      match r with
      | None => Some (false, m)
      | Some buf => sql ← print_big [pc_text (chars "SELECT "); pc_ref buf; pc_text (chars " FROM "); pc_text (ti_name ti)] b; dm_push_read sql cb m
      end
    end
  end.

Definition selectRecord_by_key (key_name : text) (key_value : FieldValue) (cb : Cb) (table_index : Z) (m : MysqlDBManager) : option (bool * MysqlDBManager) :=
  match get_table_info table_index (dm_config m) with
  | None => Some (false, m)
  | Some ti =>
    '(format, m) ← format_key_to 0 table_index key_name key_value m;
    match format with
    | None => Some (false, m)
    | Some format =>
      sql ← print_big [pc_text (chars "SELECT * FROM "); pc_text (ti_name ti); pc_text (chars " WHERE "); pc_text key_name; pc_text (chars "="); pc_ref format] (dm_bufs m);
      dm_push_read sql cb m
    end
  end.

Definition selectRecord_by_keys (key_relation : Z) (key_name : text) (key_value : FieldValue) (key2_name : text) (key2_value : FieldValue) (cb : Cb)
    (table_index : Z) (m : MysqlDBManager) : option (bool * MysqlDBManager) :=
  match get_table_info table_index (dm_config m) with
  | None => Some (false, m)
  | Some ti =>
    '(format, m) ← format_key_to 0 table_index key_name key_value m;
    match format with
    | None => Some (false, m)
    | Some format =>
      '(format2, m) ← format_key_to 1 table_index key2_name key2_value m;
      match format2 with
      | None => Some (false, m)
      | Some format2 =>
        sql ← print_big [pc_text (chars "SELECT * FROM "); pc_text (ti_name ti); pc_text (chars " WHERE "); pc_text key_name; pc_text (chars "="); pc_ref format;
                         pc_text (chars " "); pc_text (chars (if key_relation =? 0 then "AND" else "OR")); pc_text (chars " ");
                         pc_text key2_name; pc_text (chars "="); pc_ref format2] (dm_bufs m);
        dm_push_read sql cb m
      end
    end
  end.

(** The loop of the next function; [prev_buf] follows the text. *)
Fixpoint key_fields (prev : option sref) (last : option sref) (fields : list text) (m : SqlBufs) : option (option sref * SqlBufs) :=
  match fields with
  | [] => Some (last, m)
  | name :: fields =>
    match get_buf_info 1 m with
    | None => Some (None, m)
    | Some buf =>
      m ← print_to buf (match prev with None => [pc_text name] | Some p => [pc_ref p; pc_text (chars ", "); pc_text name] end) m;
      let '(r, m) := to_next_index 1 m in
      if r <? 0 then Some (None, m) else key_fields (Some buf) (Some buf) fields m
    end
  end.

(** The function that the generated code calls. *)
Definition selectRecord_fields_by_key (key_name : text) (key_value : FieldValue) (fields : list text) (cb : Cb) (table_index : Z) (m : MysqlDBManager)
  : option (bool * MysqlDBManager) :=
  match fields with
  | [] => selectRecord_by_key key_name key_value cb table_index m
  | _ =>
    match get_table_info table_index (dm_config m) with
    | None => Some (false, m)
    | Some ti =>
      '(format, m) ← format_key_to 0 table_index key_name key_value m;
      match format with
      | None => Some (false, m)
      | Some format =>
        '(names, b) ← key_fields None None fields (dm_bufs m);
        let m := dm_set_bufs b m in
        match names with
        | None => Some (false, m)
        | Some names =>
          sql ← print_big [pc_text (chars "SELECT "); pc_ref names; pc_text (chars " FROM "); pc_text (ti_name ti); pc_text (chars " WHERE "); pc_text key_name;
                           pc_text (chars "="); pc_ref format] b;
          dm_push_read sql cb m
        end
      end
    end
  end.
End manager.
End format.
Arguments MysqlDBManager R Cb : clear implicits.
