(* ===== verification/SqlProps.v ===== *)
(** * What statements say

    Which of the statements that are printed through the shared buffers are the ones that were meant, and when
    the text of a key is read by the database as the text that was given. *)
From S2P Require Import Prelude Text MysqlPool SqlFormat.
From Stdlib Require Import ZArith Lia String.
From stdpp Require Import base option list gmap.
Local Open Scope Z_scope.

(** ** The buffers as two rings of three texts *)

Definition ring (n : Z) (m : SqlBufs) : list text := if n =? 0 then sb_buf m else sb_buf2 m.
Definition ring_index (n : Z) (m : SqlBufs) : Z := if n =? 0 then sb_index m else sb_index2 m.
Definition is_ring (n : Z) : Prop := n = 0 \/ n = 1.

Record bufs_ok (m : SqlBufs) : Prop := mkBufsOk {
  bo_len : forall n, lenZ (ring n m) = 3;
  bo_index : forall n, 0 <= ring_index n m < 3;
}.

Definition next (i : Z) : Z := if BUF_COUNT <=? i + 1 then 0 else i + 1.

Lemma next_mod i : 0 <= i < 3 -> next i = (i + 1) mod 3.
Proof. intros Hi. unfold next, BUF_COUNT. destruct (Z.leb_spec 3 (i + 1)); [assert (i = 2) as -> by lia; done|]. rewrite Z.mod_small by lia. done. Qed.

(** What an operation on ring [n] keeps. *)
Record same_ring (n : Z) (m m' : SqlBufs) : Prop := mkSameRing {
  sr_other : forall k, is_ring k -> k <> n -> ring k m' = ring k m /\ ring_index k m' = ring_index k m;
  sr_ok : bufs_ok m';
}.

Lemma get_buf_ring n m : is_ring n -> get_buf_info n m = Some (sr_buf n (ring_index n m)).
Proof. by intros [-> | ->]. Qed.

Lemma step_ring n m : is_ring n -> bufs_ok m -> exists m', to_next_index n m = (next (ring_index n m), m') /\ 0 <= next (ring_index n m) /\
  same_ring n m m' /\ ring n m' = ring n m /\ ring_index n m' = next (ring_index n m) /\ sb_tmp m' = sb_tmp m.
Proof.
  intros Hn [H1 H2]. assert (Hr : 0 <= next (ring_index n m) < 3) by (rewrite next_mod by apply H2; apply Z.mod_pos_bound; lia).
  assert (H10 := H1 0). assert (H11 := H1 1). assert (H20 := H2 0). assert (H21 := H2 1).
  destruct Hn as [-> | ->]; eexists; (split; [reflexivity|]); (split; [apply Hr|]); (split; [|done]);
    (split; [intros k [-> | ->] Hk; done|]); (constructor; intros k; unfold ring, ring_index; cbn; destruct (k =? 0); done).
Qed.

Lemma at_index_lookup i (l : list text) : 0 <= i < lenZ l -> at_index i l = l !! Z.to_nat i.
Proof. intros Hi. unfold at_index. by rewrite (proj2 (Z.ltb_ge i 0)) by lia. Qed.

Lemma ring_read n i m : is_ring n -> 0 <= i < 3 -> lenZ (ring n m) = 3 -> sr_read (sr_buf n i) m = ring n m !! Z.to_nat i /\ is_Some (sr_read (sr_buf n i) m).
Proof.
  intros Hn Hi Hl. unfold sr_read. change (if n =? 0 then sb_buf m else sb_buf2 m) with (ring n m). rewrite at_index_lookup by lia. split; [done|].
  apply lookup_lt_is_Some. lia.
Qed.

Lemma ring_write n i t m : is_ring n -> 0 <= i < 3 -> bufs_ok m -> exists m', sr_write (sr_buf n i) t m = Some m' /\ same_ring n m m' /\
  ring n m' = <[Z.to_nat i := t]> (ring n m) /\ ring_index n m' = ring_index n m /\ sb_tmp m' = sb_tmp m.
Proof.
  intros Hn Hi [H1 H2]. destruct (ring_read n i m Hn Hi (H1 n)) as [_ [x Hx]]. unfold sr_write. rewrite Hx. cbn [mbind option_bind].
  assert (H10 := H1 0). assert (H11 := H1 1). assert (H20 := H2 0). assert (H21 := H2 1). unfold ring, ring_index in *. cbn in H10, H11, H20, H21.
  destruct Hn as [-> | ->]; cbn; eexists; (split; [reflexivity|]); (split; [|done]); (split; [intros k [-> | ->] Hk; done|]);
    (constructor; intros k; unfold ring, ring_index; cbn; destruct (k =? 0); rewrite ?length_insert; done).
Qed.

Lemma pc_reads_texts m ps ts : Forall2 (fun p t => pc_read m p = Some t) ps ts -> pc_reads m ps = Some (mjoin ts).
Proof. induction 1 as [|p t ps ts E _ IH]; [done|]. cbn [pc_reads]. rewrite E, IH. done. Qed.

(** A print to a buffer of ring [n] of texts that are not there. *)
Lemma print_ring n i ps ts m : is_ring n -> 0 <= i < 3 -> bufs_ok m -> Forall2 (fun p t => pc_read m p = Some t) ps ts ->
  (forall r, pc_ref r ∈ ps -> r <> sr_buf n i) -> exists m', print_to (sr_buf n i) ps m = Some m' /\ same_ring n m m' /\
  ring n m' = <[Z.to_nat i := snprintf BUF_SIZE (mjoin ts)]> (ring n m) /\ ring_index n m' = ring_index n m /\ sb_tmp m' = sb_tmp m.
Proof.
  intros Hn Hi Hm Hps Hr. unfold print_to. assert (Ho : existsb (pc_overlaps (sr_buf n i)) ps = false).
  { apply not_true_is_false. intros Hx. apply existsb_exists in Hx as (p & Hp & Hx). apply list_elem_of_In in Hp. destruct p as [t|r]; [done|].
    cbn in Hx. apply bool_decide_eq_true in Hx as ->. by apply (Hr _ Hp). }
  rewrite Ho. cbn [negb ub_unless]. cbn [mbind option_bind]. rewrite (pc_reads_texts _ _ _ Hps). cbn [mbind option_bind]. by apply ring_write.
Qed.

Lemma print_overlaps dst ps m : pc_ref dst ∈ ps -> print_to dst ps m = None.
Proof.
  intros Hp. unfold print_to. assert (Ho : existsb (pc_overlaps dst) ps = true).
  { apply existsb_exists. exists (pc_ref dst). split; [by apply list_elem_of_In|]. cbn. by apply bool_decide_eq_true. }
  by rewrite Ho.
Qed.

Lemma tmp_write t m : exists m', sr_write sr_tmp t m = Some m' /\ (forall n, ring n m' = ring n m /\ ring_index n m' = ring_index n m) /\ sb_tmp m' = t.
Proof. eexists. split; [reflexivity|done]. Qed.

(** The current field is joined to the text so far: in the next buffer, unless that is where the text is. *)
Lemma append_ring n h hd t m : is_ring n -> bufs_ok m -> 0 <= h < 3 -> ring n m !! Z.to_nat h = Some hd ->
  ring n m !! Z.to_nat (ring_index n m) = Some t ->
  (next (ring_index n m) = h /\ append_field (Some (sr_buf n h)) n (sr_buf n (ring_index n m)) m = None) \/
  (next (ring_index n m) <> h /\ exists m', append_field (Some (sr_buf n h)) n (sr_buf n (ring_index n m)) m = Some (Some (sr_buf n (ring_index n m')), m') /\
    same_ring n m m' /\ ring_index n m' = next (ring_index n m) /\ ring n m' !! Z.to_nat (ring_index n m') = Some (snprintf BUF_SIZE (hd ++ chars ", " ++ t))).
Proof.
  intros Hn Hm Hh Ehd Et. unfold append_field. assert (Hi := bo_index _ Hm n). set (i := ring_index n m) in *.
  destruct (step_ring n m Hn Hm) as (m2 & -> & Hp & S2 & R2 & I2 & _). fold i in I2, Hp |- *. cbv beta iota. rewrite (proj2 (Z.ltb_ge _ 0) Hp), (get_buf_ring n m2 Hn), I2.
  assert (Hni : 0 <= next i < 3) by (rewrite next_mod by done; apply Z.mod_pos_bound; lia).
  assert (Hl := bo_len _ (sr_ok _ _ _ S2) n). destruct (Z.eq_dec (next i) h) as [<-|Hne]; [left; split; [done|]; rewrite print_overlaps; [done|by left]|].
  right. split; [done|]. assert (Hne2 : next i <> i) by (rewrite next_mod by done; intros Hx; revert Hx Hi; clear; intros; lia_mod).
  destruct (print_ring n (next i) [pc_ref (sr_buf n h); pc_text (chars ", "); pc_ref (sr_buf n i)] [hd; chars ", "; t] m2 Hn Hni (sr_ok _ _ _ S2)) as (m3 & -> & S3 & R3 & I3 & _).
  - constructor; [|constructor; [done|constructor; [|done]]]; cbn [pc_read].
    + destruct (ring_read n h m2 Hn Hh Hl) as [-> _]. by rewrite R2.
    + destruct (ring_read n i m2 Hn Hi Hl) as [-> _]. by rewrite R2.
  - intros r Hr. rewrite !elem_of_cons in Hr. destruct Hr as [[= ->]|[?|[[= ->]|?%elem_of_nil]]]; try done; intros [= Hx]; congruence.
  - exists m3. cbn [mbind option_bind]. assert (Hx : ring_index n m3 = next i) by (by rewrite I3, I2). rewrite Hx. split; [done|]. split; [|split; [done|]].
    + constructor; [|by apply (sr_ok _ _ _ S3)]. intros k Hk Hkn. destruct (sr_other _ _ _ S3 k Hk Hkn) as [-> ->]. by apply (sr_other _ _ _ S2).
    + rewrite R3, list_lookup_insert_eq by (rewrite Nat2Z.inj_lt, Z2Nat.id; lia). do 2 f_equal. cbn. by rewrite app_nil_r.
Qed.

Lemma same_ring_trans n m1 m2 m3 : same_ring n m1 m2 -> same_ring n m2 m3 -> same_ring n m1 m3.
Proof.
  intros [A1 A2] [B1 B2]. constructor; [|done]. intros k Hk Hkn. destruct (B1 k Hk Hkn) as [-> ->]. by apply A1.
Qed.

(** ** Updates *)

Section update.
Variable escape : text -> text.
Variables (cfg : MysqlDBConfigManager) (table_index : Z).

(** The text of a field of an update: none when it has not changed. *)
Inductive formats (arg : FieldNameValue) : option text -> Prop :=
| formats_unchanged : fn_name arg = None -> formats arg None
| formats_changed name f x e : fn_name arg = Some name -> get_field_info table_index name cfg = Some f ->
    mysql_get_field_value_format escape (field_type f) (create_flags f) (fn_value arg) BUF_SIZE (Some BUF_SIZE) = Some (Some (x, e)) ->
    formats arg (Some (snprintf BUF_SIZE (name ++ chars "=" ++ x))).

(** What happens to the text so far and to its distance from the current buffer, when a field is added and when
    the next buffer is taken. *)
Definition update_add (head : option (Z * text)) (field : option text) : option (option (Z * text)) :=
  match field, head with
  | None, _ => Some head
  | Some t, None => Some (Some (0, t))
  | Some t, Some (d, h) =>
    if d =? 0 then Some (Some (0, snprintf BUF_SIZE (t ++ chars ", " ++ t)))
    else if d =? 1 then Some (Some (0, snprintf BUF_SIZE (h ++ chars ", " ++ t)))
    else None
  end.
Definition update_next (head : option (Z * text)) : option (Z * text) := match head with None => None | Some (d, h) => Some ((d + 1) mod 3, h) end.

Fixpoint update_fields (head : option (Z * text)) (first : option text) (rest : list (option text)) : option (option (Z * text)) :=
  head ← update_add head first; match rest with [] => Some head | t :: rest => update_fields (update_next head) t rest end.

(** The text so far is in the ring, [d] buffers before the current one. *)
Definition head_at (n : Z) (m : SqlBufs) (r : option sref) (head : option (Z * text)) : Prop :=
  match r, head with
  | None, None => True
  | Some r, Some (d, t) => exists h, r = sr_buf n h /\ 0 <= h < 3 /\ ring n m !! Z.to_nat h = Some t /\ ring_index n m = (h + d) mod 3 /\ 0 <= d < 3
  | _, _ => False
  end.

Lemma formatted_field n arg name f x e m : is_ring n -> bufs_ok m -> fn_name arg = Some name -> get_field_info table_index name cfg = Some f ->
  mysql_get_field_value_format escape (field_type f) (create_flags f) (fn_value arg) BUF_SIZE (Some BUF_SIZE) = Some (Some (x, e)) ->
  forall head, exists m', format_update_field_value escape cfg table_index head n arg m = append_field head n (sr_buf n (ring_index n m)) m' /\
    same_ring n m m' /\ ring n m' = <[Z.to_nat (ring_index n m) := snprintf BUF_SIZE (name ++ chars "=" ++ x)]> (ring n m) /\ ring_index n m' = ring_index n m.
Proof using.
  intros Hn Hm E1 E2 E3 head. unfold format_update_field_value. rewrite E1, E2, (get_buf_ring n m Hn). set (i := ring_index n m). assert (Hi : 0 <= i < 3) by apply (bo_index _ Hm).
  assert (H1 : exists m1, match e with Some e => sr_write (sr_buf n i) (c_str e) m | None => Some m end = Some m1 /\ same_ring n m m1 /\
            (forall y, <[Z.to_nat i := y]> (ring n m1) = <[Z.to_nat i := y]> (ring n m)) /\ ring_index n m1 = i).
  { destruct e as [e|]; [|exists m; split; [done|]; split; [by constructor|done]].
    destruct (ring_write n i (c_str e) m Hn Hi Hm) as (m1 & F1 & F2 & F3 & F4 & _). exists m1. split; [done|]. split; [done|]. split; [|done]. intros y. rewrite F3. by rewrite list_insert_insert_eq. }
  destruct H1 as (m1 & F1 & S1 & R1 & I1). destruct (tmp_write x m1) as (m2 & F2 & R2 & T2).
  assert (Hm2 : bufs_ok m2). { destruct (sr_ok _ _ _ S1) as [B1 B2]. constructor; intros k; destruct (R2 k) as [Ea Eb]; by rewrite ?Ea, ?Eb. }
  destruct (print_ring n i [pc_text name; pc_text (chars "="); pc_ref sr_tmp] [name; chars "="; x] m2 Hn Hi Hm2) as (m3 & F3 & S3 & R3 & I3 & _).
  { constructor; [done|]. constructor; [done|]. constructor; [|done]. cbn. by rewrite T2. }
  { intros r Hr. rewrite !elem_of_cons in Hr. by destruct Hr as [?|[?|[[= ->]|?%elem_of_nil]]]. }
  exists m3. unfold format_value_to. rewrite E3. cbn [mbind option_bind]. rewrite F1. cbn [mbind option_bind]. rewrite F2. cbn [mbind option_bind negb]. rewrite F3. cbn [mbind option_bind].
  split; [done|]. split; [|split].
  - constructor; [|by apply (sr_ok _ _ _ S3)]. intros k Hk Hkn. destruct (sr_other _ _ _ S3 k Hk Hkn) as [-> ->]. destruct (R2 k) as [-> ->]. by apply (sr_other _ _ _ S1).
  - rewrite R3. destruct (R2 n) as [-> _]. rewrite R1. do 2 f_equal. cbn. by rewrite app_nil_r.
  - rewrite I3. destruct (R2 n) as [_ ->]. done.
Qed.

Lemma update_field n arg ot r head m : is_ring n -> bufs_ok m -> formats arg ot -> head_at n m r head ->
  match update_add head ot with
  | None => format_update_field_value escape cfg table_index r n arg m = None
  | Some head' => exists r' m', format_update_field_value escape cfg table_index r n arg m = Some (r', m') /\ same_ring n m m' /\ head_at n m' r' head'
  end.
Proof using.
  intros Hn Hm Hf Hh. destruct Hf as [Hu|name f x e E1 E2 E3].
  - cbn [update_add]. exists r, m. unfold format_update_field_value. rewrite Hu. split; [done|]. split; [by constructor|done].
  - destruct (formatted_field n arg name f x e m Hn Hm E1 E2 E3 r) as (m1 & -> & S1 & R1 & I1). set (t := snprintf _ _) in *. set (i := ring_index n m) in *.
    assert (Hi : 0 <= i < 3) by apply (bo_index _ Hm). assert (Hl := bo_len _ Hm n). assert (Ht : ring n m1 !! Z.to_nat i = Some t) by (rewrite R1; apply list_lookup_insert_eq; lia).
    destruct r as [r|], head as [[d h]|]; try done; cbn [head_at] in Hh.
    + destruct Hh as (hi & -> & Hhi & Hth & Hix & Hd). fold i in Hix. assert (Hni := next_mod i Hi).
      assert (Hdi : d = 0 -> hi = i) by (intros ->; rewrite Hix, Z.add_0_r, Z.mod_small; lia).
      assert (Hne : i <> hi -> ring n m1 !! Z.to_nat hi = Some h) by (intros Hx; rewrite R1, list_lookup_insert_ne; [done|intros Hy%Z2Nat.inj; lia]).
      assert (Hhd : ring n m1 !! Z.to_nat hi = Some (if d =? 0 then t else h)).
      { destruct (Z.eqb_spec d 0) as [->|Hd0]; [by rewrite Hdi|]. apply Hne. rewrite Hix. clear -Hd Hd0 Hhi. intros Hx. lia_mod. }
      assert (Hnx : next i = hi <-> d = 2) by (rewrite Hni, Hix; clear -Hd Hhi; split; [lia_mod|intros ->; lia_mod]).
      rewrite <- I1 in Ht. destruct (append_ring n hi _ t m1 Hn (sr_ok _ _ _ S1) Hhi Hhd Ht) as [[Hx Ha]|[Hx (m2 & Ha & S2 & I2 & T2)]]; rewrite I1 in Ha, Hx; fold i in Ha, Hx; rewrite Ha; cbn [update_add].
      * apply Hnx in Hx as ->. done.
      * assert (Hd2 : d = 0 \/ d = 1) by (clear -Hd Hx Hnx; lia).
        assert (Hfin : forall x, ring n m2 !! Z.to_nat (ring_index n m2) = Some x -> head_at n m2 (Some (sr_buf n (ring_index n m2))) (Some (0, x))).
        { intros y Hy. exists (ring_index n m2). pose proof (bo_index _ (sr_ok _ _ _ S2) n). split; [done|]. split; [done|]. split; [done|]. split; [|lia].
          rewrite Z.add_0_r, Z.mod_small by done. done. }
        destruct Hd2 as [-> | ->]; cbn in T2 |- *; eexists _, m2; (split; [reflexivity|]); (split; [by eapply same_ring_trans|by apply Hfin]).
    + exists (Some (sr_buf n i)), m1. cbn [append_field update_add]. split; [done|]. split; [done|]. exists i. split; [done|]. split; [done|]. split; [done|].
      split; [|lia]. rewrite I1, Z.add_0_r, Z.mod_small by done. done.
Qed.

Lemma update_refines n rest : forall first ot ots r head m, is_ring n -> bufs_ok m -> formats first ot -> Forall2 formats rest ots -> head_at n m r head ->
  match update_fields head ot ots with
  | None => format_update_field_value_str escape cfg table_index r n first rest m = None
  | Some head' => exists r' m', format_update_field_value_str escape cfg table_index r n first rest m = Some (r', m') /\ same_ring n m m' /\ head_at n m' r' head'
  end.
Proof using.
  induction rest as [|arg rest IH]; intros first ot ots r head m Hn Hm Hf Hr Hh.
  - inversion Hr; subst. cbn [update_fields format_update_field_value_str]. assert (Hs := update_field n first ot r head m Hn Hm Hf Hh).
    destruct (update_add head ot) as [head'|]; [|by rewrite Hs]. destruct Hs as (r' & m' & -> & Hs & Hh'). cbn [mbind option_bind]. by exists r', m'.
  - inversion Hr as [|? ot' ? ots' Hf' Hr']; subst. cbn [update_fields format_update_field_value_str]. assert (Hs := update_field n first ot r head m Hn Hm Hf Hh).
    destruct (update_add head ot) as [head1|]; [|by rewrite Hs]. destruct Hs as (r1 & m1 & -> & S1 & Hh1). cbn [mbind option_bind].
    destruct (step_ring n m1 Hn (sr_ok _ _ _ S1)) as (m2 & -> & Hp & S2 & R2 & I2 & _). cbv beta iota. rewrite (proj2 (Z.ltb_ge _ 0) Hp).
    assert (Hh2 : head_at n m2 r1 (update_next head1)).
    { destruct r1 as [r1|], head1 as [[d h]|]; try done. destruct Hh1 as (hi & -> & H1 & H2 & H3 & H4). exists hi. cbn [update_next].
      split; [done|]. split; [done|]. split; [by rewrite R2|]. rewrite I2, next_mod, H3 by apply (bo_index _ (sr_ok _ _ _ S1)). clear. split; [lia_mod|apply Z.mod_pos_bound; lia]. }
    specialize (IH arg ot' ots' r1 (update_next head1) m2 Hn (sr_ok _ _ _ S2) Hf' Hr' Hh2). destruct (update_fields (update_next head1) ot' ots') as [head'|]; [|done].
    destruct IH as (r' & m' & E & S3 & Hh'). exists r', m'. split; [done|]. split; [|done]. eapply same_ring_trans; [exact S1|]. by eapply same_ring_trans.
Qed.

(** Between two changed fields there is a multiple of three of fields that have not changed; [d] is how far the
    last changed field is, modulo three. *)
Fixpoint gaps_ok (d : option Z) (ts : list (option text)) : bool :=
  match ts with
  | [] => true
  | None :: ts => gaps_ok (d ← d; Some ((d + 1) mod 3)) ts
  | Some _ :: ts => (match d with None => true | Some d => d =? 1 end) && gaps_ok (Some 1) ts
  end.

Definition changed (ts : list (option text)) : list text := omap id ts.
Definition weight (ts : list (option text)) : Z := Z.of_nat (sum_list_with (fun t : text => length t + 2)%nat (changed ts)).
Lemma weight_some t ts : weight (Some t :: ts) = lenZ t + 2 + weight ts.
Proof using. unfold weight. change (changed (Some t :: ts)) with (t :: changed ts). cbn [sum_list_with]. lia. Qed.
Lemma weight_none ts : weight (None :: ts) = weight ts.
Proof using. done. Qed.
Lemma weight_nonneg ts : 0 <= weight ts.
Proof using. unfold weight. lia. Qed.

Definition comma : text := chars ", ".

Lemma join_two (a b : text) l : boost_join comma (a :: b :: l) = boost_join comma ((a ++ comma ++ b) :: l).
Proof using. cbn [boost_join]. destruct l; by rewrite <- ?app_assoc. Qed.

Lemma update_fields_text ts : forall d h t, 0 <= d < 3 -> lenZ h + 2 * weight (t :: ts) < BUF_SIZE ->
  (gaps_ok (Some d) (t :: ts) = true -> exists d', update_fields (Some (d, h)) t ts = Some (Some (d', boost_join comma (h :: changed (t :: ts))))) /\
  (gaps_ok (Some d) (t :: ts) = false -> update_fields (Some (d, h)) t ts = None \/
     exists d' pre x rest, update_fields (Some (d, h)) t ts = Some (Some (d', boost_join comma (x :: x :: rest))) /\ changed (t :: ts) = pre ++ x :: rest).
Proof using.
  induction ts as [|t' ts IH]; intros d h t Hd Hw; destruct t as [t|].
  - cbn [update_fields update_add gaps_ok]. change (chars ", ") with comma. rewrite andb_true_r. rewrite weight_some in Hw. pose proof (weight_nonneg []).
    assert (F1 : lenZ (t ++ comma ++ t) < BUF_SIZE) by (rewrite !length_app; change (length comma) with 2%nat; lia).
    assert (F2 : lenZ (h ++ comma ++ t) < BUF_SIZE) by (rewrite !length_app; change (length comma) with 2%nat; lia).
    destruct (Z.eqb_spec d 0) as [->|]; [|destruct (Z.eqb_spec d 1) as [->|]]; (split; intros Hg; try done).
    + right. eexists _, [], t, []. cbn [mbind option_bind]. split; [by rewrite snprintf_fits|done].
    + eexists. cbn [mbind option_bind]. by rewrite snprintf_fits.
    + by left.
  - cbn [update_fields update_add gaps_ok]. split; [|done]. intros _. by eexists.
  - cbn [update_fields update_add]. change (chars ", ") with comma. rewrite weight_some in Hw. pose proof (weight_nonneg (t' :: ts)).
    assert (F1 : lenZ (t ++ comma ++ t) < BUF_SIZE) by (rewrite !length_app; change (length comma) with 2%nat; lia).
    assert (F2 : lenZ (h ++ comma ++ t) < BUF_SIZE) by (rewrite !length_app; change (length comma) with 2%nat; lia).
    change (gaps_ok (Some d) (Some t :: t' :: ts)) with ((d =? 1) && gaps_ok (Some 1) (t' :: ts)).
    change (changed (Some t :: t' :: ts)) with (t :: changed (t' :: ts)).
    destruct (Z.eqb_spec d 0) as [->|]; [|destruct (Z.eqb_spec d 1) as [->|]]; [| |by split; [done|left]]; rewrite snprintf_fits by done;
      cbn [mbind option_bind update_next]; change ((0 + 1) mod 3) with 1.
    + split; [done|]. intros _. destruct (IH 1 (t ++ comma ++ t) t' ltac:(lia)) as [H1 H2]; [rewrite !length_app; change (length comma) with 2%nat; lia|].
      destruct (gaps_ok (Some 1) (t' :: ts)) eqn:Eg.
      * destruct (H1 eq_refl) as [d' ->]. right. exists d', [], t, (changed (t' :: ts)). by rewrite join_two.
      * destruct (H2 eq_refl) as [->|(d' & pre & x & rest & -> & E)]; [by left|]. right. exists d', (t :: pre), x, rest. by rewrite E.
    + destruct (IH 1 (h ++ comma ++ t) t' ltac:(lia)) as [H1 H2]; [rewrite !length_app; change (length comma) with 2%nat; lia|]. split.
      * intros Hg. destruct (H1 Hg) as [d' ->]. exists d'. by rewrite join_two.
      * intros Hg. destruct (H2 Hg) as [->|(d' & pre & x & rest & -> & E)]; [by left|]. right. exists d', (t :: pre), x, rest. by rewrite E.
  - change (gaps_ok (Some d) (None :: t' :: ts)) with (gaps_ok (Some ((d + 1) mod 3)) (t' :: ts)). change (changed (None :: t' :: ts)) with (changed (t' :: ts)).
    cbn [update_fields update_add mbind option_bind update_next]. apply IH; [apply Z.mod_pos_bound; lia|exact Hw].
Qed.

Lemma update_fields_start ts : forall t, 2 * weight (t :: ts) < BUF_SIZE ->
  (changed (t :: ts) <> [] -> gaps_ok None (t :: ts) = true -> exists d', update_fields None t ts = Some (Some (d', boost_join comma (changed (t :: ts))))) /\
  (gaps_ok None (t :: ts) = false -> update_fields None t ts = None \/
     exists d' h pre x rest, update_fields None t ts = Some (Some (d', boost_join comma (x :: x :: rest))) /\ changed (t :: ts) = h :: pre ++ x :: rest).
Proof using.
  induction ts as [|t' ts IH]; intros t Hw; destruct t as [t|].
  - split; [|done]. intros _ _. by eexists.
  - split; [|done]. intros Hx. by destruct Hx.
  - change (changed (Some t :: t' :: ts)) with (t :: changed (t' :: ts)). change (gaps_ok None (Some t :: t' :: ts)) with (gaps_ok (Some 1) (t' :: ts)).
    cbn [update_fields update_add mbind option_bind update_next]. change ((0 + 1) mod 3) with 1. rewrite weight_some in Hw.
    destruct (update_fields_text ts 1 t t' ltac:(lia)) as [H1 H2]; [lia|]. split; [intros _; exact H1|]. intros Hg.
    destruct (H2 Hg) as [->|(d' & pre & x & rest & -> & E)]; [by left|]. right. exists d', t, pre, x, rest. by rewrite E.
  - change (changed (None :: t' :: ts)) with (changed (t' :: ts)). change (gaps_ok None (None :: t' :: ts)) with (gaps_ok None (t' :: ts)).
    cbn [update_fields update_add mbind option_bind update_next]. apply IH, Hw.
Qed.

(** The text of a field begins with its name and an equals sign. *)
Definition field_of (name t : text) : Prop := exists x, t = name ++ 61 :: x.

Lemma formats_named args ts : Forall2 formats args ts -> 2 * weight ts < BUF_SIZE -> Forall2 field_of (omap fn_name args) (changed ts).
Proof using.
  induction 1 as [|arg ot args ts Hf _ IH]; intros Hw; [by constructor|]. destruct Hf as [Hu|name f x e E1 E2 E3].
  - cbn [omap list_omap]. rewrite Hu. by apply IH.
  - change (changed (Some (snprintf BUF_SIZE (name ++ chars "=" ++ x)) :: ts)) with (snprintf BUF_SIZE (name ++ chars "=" ++ x) :: changed ts).
    cbn [omap list_omap]. rewrite E1. rewrite weight_some in Hw. pose proof (weight_nonneg ts). constructor; [|apply IH; lia].
    exists x. rewrite snprintf_fits; [done|]. destruct (Z.lt_ge_cases (lenZ (name ++ chars "=" ++ x)) BUF_SIZE) as [|Hge]; [done|].
    exfalso. unfold snprintf in Hw. rewrite length_take in Hw. unfold BUF_SIZE in *. lia.
Qed.

Lemma field_names_differ (n1 n2 : text) x y : 61 ∉ n1 -> 61 ∉ n2 -> n1 ++ 61 :: x = n2 ++ 61 :: y -> n1 = n2.
Proof using.
  revert n2. induction n1 as [|c n1 IH]; intros [|c2 n2] H1 H2 E; [done|..]; cbn in E.
  - injection E as <- _. destruct H2. by left.
  - injection E as -> _. destruct H1. by left.
  - injection E as <- E. f_equal. apply IH; [intros Hx; apply H1; by right|intros Hx; apply H2; by right|done].
Qed.

Lemma boost_join_app (l1 l2 : list text) : l1 <> [] -> l2 <> [] -> boost_join comma (l1 ++ l2) = boost_join comma l1 ++ comma ++ boost_join comma l2.
Proof using.
  induction l1 as [|a l1 IH]; [done|]. intros _ H2. destruct l1 as [|b l1].
  - cbn [app boost_join]. by destruct l2.
  - cbn [app] in *. change (boost_join comma (a :: b :: l1 ++ l2)) with (a ++ comma ++ boost_join comma (b :: l1 ++ l2)). rewrite IH by done.
    change (boost_join comma (a :: b :: l1)) with (a ++ comma ++ boost_join comma (b :: l1)). by rewrite !app_assoc.
Qed.

Lemma boost_join_head name (h : text) l : field_of name h -> exists y, boost_join comma (h :: l) = name ++ 61 :: y.
Proof using. intros [x ->]. destruct l; [by exists x|]. cbn [boost_join]. rewrite <- app_assoc. by eexists. Qed.

(** C20. An update lists exactly the fields that have changed, each with its value, if and only if the number of
    fields without a change between two successive ones of them is always a multiple of three.  Otherwise a
    buffer is printed to itself, or the fields before such a gap are overwritten by the one after it, which
    the statement then holds twice: their changes are never written. *)
Theorem update_writes_changed_iff first rest ts m :
  bufs_ok m -> Forall2 formats (first :: rest) ts -> changed ts <> [] -> 2 * weight ts < BUF_SIZE ->
  NoDup (omap fn_name (first :: rest)) -> (forall name, name ∈ omap fn_name (first :: rest) -> 61 ∉ name) ->
  (exists r m', format_update_field_value_str escape cfg table_index None 0 first rest m = Some (Some r, m') /\ sr_read r m' = Some (boost_join comma (changed ts)))
  <-> gaps_ok None ts = true.
Proof using.
  intros Hm Hf Hc Hw Hnd Heq. assert (Hnames := formats_named _ _ Hf Hw). inversion Hf as [|? ot ? ots Hf1 Hfr]; subst.
  assert (Hrun := update_refines 0 rest first ot ots None None m (or_introl eq_refl) Hm Hf1 Hfr I). destruct (update_fields_start ots ot Hw) as [H1 H2].
  assert (Hread : forall m' r d t, head_at 0 m' (Some r) (Some (d, t)) -> bufs_ok m' -> sr_read r m' = Some t).
  { intros m' r d t (h & -> & Hh & Ht & _) Hb. destruct (ring_read 0 h m' (or_introl eq_refl) Hh (bo_len _ Hb 0)) as [-> _]. done. }
  split.
  - intros (r & m' & E & Er). destruct (gaps_ok None (ot :: ots)) eqn:Eg; [done|]. exfalso. destruct (H2 eq_refl) as [Eu|(d' & h & pre & x & l & Eu & Ec)]; rewrite Eu in Hrun; [congruence|].
    destruct Hrun as (r' & m1 & E1 & S1 & Hh). rewrite E in E1. injection E1 as <- <-. rewrite (Hread _ _ _ _ Hh (sr_ok _ _ _ S1)) in Er. apply (inj Some) in Er.
    rewrite Ec in Er, Hnames. apply Forall2_cons_inv_r in Hnames as (n1 & ns & Hn1 & Hns & En). apply Forall2_app_inv_r in Hns as (ns1 & ns2 & Hp & Hns2 & ->).
    apply Forall2_cons_inv_r in Hns2 as (n2 & ns3 & Hn2 & _ & ->). rewrite En in Hnd, Heq.
    change (h :: pre ++ x :: l) with ((h :: pre) ++ x :: l) in Er. change (x :: x :: l) with ([x] ++ x :: l) in Er. rewrite !boost_join_app in Er by done.
    apply app_inv_tail in Er. change (boost_join comma [x]) with x in Er. destruct (boost_join_head _ _ pre Hn1) as [y Ey]. rewrite Ey in Er. destruct Hn2 as [z ->].
    apply field_names_differ in Er as ->; [|apply Heq; set_solver|apply Heq; set_solver]. apply NoDup_cons in Hnd as [Hnd _]. apply Hnd. set_solver.
  - intros Hg. destruct (H1 Hc Hg) as [d' Eu]. rewrite Eu in Hrun. destruct Hrun as (r' & m1 & E1 & S1 & Hh).
    destruct r' as [r'|]; [|done]. exists r', m1. split; [done|]. by eapply Hread; [|apply (sr_ok _ _ _ S1)].
Qed.

(** ** Inserts *)

Definition formats_insert (arg : FieldNameValue) (t : text) : Prop := exists name f e, fn_name arg = Some name /\
  get_field_info table_index name cfg = Some f /\
  mysql_get_field_value_format escape (field_type f) (create_flags f) (fn_value arg) BUF_SIZE (Some BUF_SIZE) = Some (Some (t, e)).

(** The text so far is right before the current buffer. *)
Definition head_before (n : Z) (m : SqlBufs) (r : option sref) (l : list text) : Prop :=
  match r with
  | None => l = []
  | Some r => l <> [] /\ exists h, r = sr_buf n h /\ 0 <= h < 3 /\ ring n m !! Z.to_nat h = Some (boost_join comma l) /\ ring_index n m = next h
  end.
(** It is in the current buffer. *)
Definition text_at (n : Z) (m : SqlBufs) (r : option sref) (t : text) : Prop := r = Some (sr_buf n (ring_index n m)) /\ ring n m !! Z.to_nat (ring_index n m) = Some t.

Definition joined_size (l : list text) : Z := Z.of_nat (sum_list_with (fun t : text => length t + 2)%nat l).

Lemma joined_size_app l1 l2 : joined_size (l1 ++ l2) = joined_size l1 + joined_size l2.
Proof using. unfold joined_size. rewrite sum_list_with_app. lia. Qed.

Lemma boost_join_length l : lenZ (boost_join comma l) <= joined_size l.
Proof using.
  induction l as [|t l IH]; [done|]. change (t :: l) with ([t] ++ l). rewrite joined_size_app. unfold joined_size at 1. cbn [sum_list_with]. destruct l as [|t' l]; [cbn; lia|].
  rewrite boost_join_app, !length_app by done. change (length (boost_join comma [t])) with (length t). change (length comma) with 2%nat. lia.
Qed.

Lemma next_ne i : 0 <= i < 3 -> next i <> i /\ next (next i) <> i.
Proof using. intros Hi. rewrite (next_mod i Hi), next_mod by (apply Z.mod_pos_bound; lia). split; intros Hx; revert Hx Hi; clear; intros; lia_mod. Qed.

Lemma step_head n m l : is_ring n -> bufs_ok m -> forall r, text_at n m r (boost_join comma l) -> l <> [] ->
  exists m', to_next_index n m = (next (ring_index n m), m') /\ 0 <= next (ring_index n m) /\ same_ring n m m' /\ head_before n m' r l.
Proof using.
  intros Hn Hm r [-> Hr] Hl. destruct (step_ring n m Hn Hm) as (m2 & E & Hp & S2 & R2 & I2 & _). exists m2. split; [done|]. split; [done|]. split; [done|].
  split; [done|]. exists (ring_index n m). split; [done|]. split; [apply (bo_index _ Hm)|]. by rewrite R2.
Qed.

Lemma insert_name n arg name r l m : is_ring n -> bufs_ok m -> fn_name arg = Some name -> head_before n m r l -> joined_size (l ++ [name]) < BUF_SIZE ->
  exists r' m', format_insert_field_name r n arg m = Some (r', m') /\ same_ring n m m' /\ text_at n m' r' (boost_join comma (l ++ [name])).
Proof using.
  intros Hn Hm Hname Hh Hw. unfold format_insert_field_name. rewrite (get_buf_ring n m Hn), Hname. cbn [mbind option_bind]. set (i := ring_index n m).
  assert (Hi : 0 <= i < 3) by apply (bo_index _ Hm). assert (Hlen := boost_join_length (l ++ [name])). assert (Hl := bo_len _ Hm n).
  assert (Hp : exists ts, Forall2 (fun p t => pc_read m p = Some t) (match r with None => [pc_text name] | Some h => [pc_ref h; pc_text (chars ", "); pc_text name] end) ts /\
     mjoin ts = boost_join comma (l ++ [name]) /\ (forall x, pc_ref x ∈ (match r with None => [pc_text name] | Some h => [pc_ref h; pc_text (chars ", "); pc_text name] end) -> x <> sr_buf n i)).
  { destruct r as [r|].
    - destruct Hh as (Hne & h & -> & Hhi & Ht & Hx). exists [boost_join comma l; comma; name]. split; [|split].
      + constructor; [|constructor; [done|constructor; done]]. destruct (ring_read n h m Hn Hhi Hl) as [E _]. cbn [pc_read]. by rewrite E.
      + rewrite boost_join_app by done. cbn. by rewrite app_nil_r.
      + intros x Hin. rewrite !elem_of_cons in Hin. destruct Hin as [[= ->]|[?|[?|?%elem_of_nil]]]; try done. intros [= ->]. destruct (next_ne i Hi). fold i in Hx. congruence.
    - rewrite Hh. exists [name]. split; [by constructor|]. split; [cbn; by rewrite app_nil_r|]. intros x Hin. by apply list_elem_of_singleton in Hin. }
  destruct Hp as (ts & Hts & Hj & Hov). destruct (print_ring n i _ ts m Hn Hi Hm Hts Hov) as (m' & -> & S & R & I & _). cbn [mbind option_bind].
  eexists _, m'. split; [reflexivity|]. split; [done|]. unfold text_at. rewrite I. fold i. split; [done|]. rewrite R, list_lookup_insert_eq by (rewrite Nat2Z.inj_lt, Z2Nat.id; lia).
  rewrite Hj, snprintf_fits; [done|lia].
Qed.

Lemma insert_names n rest : forall first name names r l m, is_ring n -> bufs_ok m -> fn_name first = Some name -> Forall2 (fun a x => fn_name a = Some x) rest names ->
  head_before n m r l -> joined_size (l ++ name :: names) < BUF_SIZE ->
  exists r' m', format_insert_field_name_str r n first rest m = Some (r', m') /\ same_ring n m m' /\ text_at n m' r' (boost_join comma (l ++ name :: names)).
Proof using.
  induction rest as [|arg rest IH]; intros first name names r l m Hn Hm Hf Hr Hh Hw; cbn [format_insert_field_name_str].
  - inversion Hr; subst. destruct (insert_name n first name r l m Hn Hm Hf Hh Hw) as (r' & m' & -> & S & T). by exists r', m'.
  - inversion Hr as [|? name' ? names' Hf' Hr']; subst. change (name :: name' :: names') with ([name] ++ name' :: names') in Hw |- *. rewrite app_assoc in Hw |- *.
    destruct (insert_name n first name r l m Hn Hm Hf Hh) as (r1 & m1 & -> & S1 & T1).
    { rewrite joined_size_app in Hw. unfold joined_size at 2 in Hw. lia. }
    cbn [mbind option_bind]. destruct (step_head n m1 _ Hn (sr_ok _ _ _ S1) r1 T1) as (m2 & E2 & Hp & S2 & H2); [by destruct l|]. destruct T1 as [-> _].
    rewrite E2, (proj2 (Z.ltb_ge _ 0) Hp). destruct (IH arg name' names' _ _ m2 Hn (sr_ok _ _ _ S2) Hf' Hr' H2 Hw) as (r' & m' & -> & S & T).
    exists r', m'. split; [done|]. split; [|done]. eapply same_ring_trans; [exact S1|]. by eapply same_ring_trans.
Qed.

Lemma insert_value n arg t r l m : is_ring n -> bufs_ok m -> formats_insert arg t -> head_before n m r l -> joined_size (l ++ [t]) < BUF_SIZE ->
  exists r' m', format_insert_field_value escape cfg table_index r n arg m = Some (r', m') /\ same_ring n m m' /\ text_at n m' r' (boost_join comma (l ++ [t])).
Proof using.
  intros Hn Hm (name & f & e & E1 & E2 & E3) Hh Hw. unfold format_insert_field_value. rewrite (get_buf_ring n m Hn), E1. cbn [mbind option_bind]. rewrite E2.
  unfold format_value_to. rewrite E3. cbn [mbind option_bind]. set (i := ring_index n m). assert (Hi : 0 <= i < 3) by apply (bo_index _ Hm). assert (Hl := bo_len _ Hm n).
  assert (H1 : exists m1, match e with Some e => sr_write sr_tmp (c_str e) m | None => Some m end = Some m1 /\ bufs_ok m1 /\ (forall k, ring k m1 = ring k m /\ ring_index k m1 = ring_index k m)).
  { destruct e as [e|]; [|by exists m]. destruct (tmp_write (c_str e) m) as (m1 & F1 & R1 & _). exists m1. split; [done|]. split; [|done].
    destruct Hm as [B1 B2]. constructor; intros k; destruct (R1 k) as [Ea Eb]; by rewrite ?Ea, ?Eb. }
  destruct H1 as (m1 & -> & B1 & R1). cbn [mbind option_bind]. destruct (ring_write n i t m1 Hn Hi B1) as (m2 & -> & S2 & R2 & I2 & _). cbn [mbind option_bind negb].
  destruct (R1 n) as [Ra Rb]. rewrite Ra in R2. rewrite Rb in I2. fold i in I2.
  assert (S12 : same_ring n m m2). { constructor; [|by apply (sr_ok _ _ _ S2)]. intros k Hk Hkn. destruct (sr_other _ _ _ S2 k Hk Hkn) as [-> ->]. apply R1. }
  assert (Ht : ring n m2 !! Z.to_nat (ring_index n m2) = Some t) by (rewrite I2, R2; apply list_lookup_insert_eq; rewrite Nat2Z.inj_lt, Z2Nat.id; lia).
  assert (Hlen := boost_join_length (l ++ [t])). destruct r as [r|].
  - destruct Hh as (Hne & h & -> & Hhi & Hth & Hx). fold i in Hx. assert (Hnh := next_ne h Hhi). rewrite <- Hx in Hnh. destruct Hnh as [Hih Hnh].
    assert (Hth2 : ring n m2 !! Z.to_nat h = Some (boost_join comma l)) by (rewrite R2, list_lookup_insert_ne; [done|intros Hy%Z2Nat.inj; lia]).
    rewrite <- I2 in Hnh. destruct (append_ring n h _ t m2 Hn (sr_ok _ _ _ S2) Hhi Hth2 Ht) as [[Hy _]|[_ (m3 & E & S3 & I3 & T3)]]; [done|]. rewrite I2 in E. rewrite E.
    exists (Some (sr_buf n (ring_index n m3))), m3. split; [done|]. split; [by eapply same_ring_trans|]. split; [done|]. rewrite T3.
    change (chars ", ") with comma. rewrite boost_join_app in Hlen |- * by done. change (boost_join comma [t]) with t in *. rewrite snprintf_fits; [done|lia].
  - rewrite Hh. exists (Some (sr_buf n i)), m2. split; [done|]. split; [done|]. unfold text_at. by rewrite I2 in Ht |- *.
Qed.

Lemma insert_values n rest : forall first t ts r l m, is_ring n -> bufs_ok m -> formats_insert first t -> Forall2 formats_insert rest ts ->
  head_before n m r l -> joined_size (l ++ t :: ts) < BUF_SIZE ->
  exists r' m', format_insert_field_value_str escape cfg table_index r n first rest m = Some (r', m') /\ same_ring n m m' /\ text_at n m' r' (boost_join comma (l ++ t :: ts)).
Proof using.
  induction rest as [|arg rest IH]; intros first t ts r l m Hn Hm Hf Hr Hh Hw; cbn [format_insert_field_value_str].
  - inversion Hr; subst. destruct (insert_value n first t r l m Hn Hm Hf Hh Hw) as (r' & m' & -> & S & T). by exists r', m'.
  - inversion Hr as [|? t' ? ts' Hf' Hr']; subst. change (t :: t' :: ts') with ([t] ++ t' :: ts') in Hw |- *. rewrite app_assoc in Hw |- *.
    destruct (insert_value n first t r l m Hn Hm Hf Hh) as (r1 & m1 & -> & S1 & T1).
    { rewrite joined_size_app in Hw. unfold joined_size at 2 in Hw. lia. }
    cbn [mbind option_bind]. destruct (step_head n m1 _ Hn (sr_ok _ _ _ S1) r1 T1) as (m2 & E2 & Hp & S2 & H2); [by destruct l|]. destruct T1 as [-> _].
    rewrite E2, (proj2 (Z.ltb_ge _ 0) Hp). destruct (IH arg t' ts' _ _ m2 Hn (sr_ok _ _ _ S2) Hf' Hr' H2 Hw) as (r' & m' & -> & S & T).
    exists r', m'. split; [done|]. split; [|done]. eapply same_ring_trans; [exact S1|]. by eapply same_ring_trans.
Qed.
End update.

(** ** An example: some columns of [t_player] *)

Definition column (ft : MysqlTableFieldType) (length : Z) (name : text) : MysqlTableFieldInfo := mkFieldInfo name ft length 0 MYSQL_TABLE_CREATE_NOT_NULL.
Definition player_columns : list MysqlTableFieldInfo :=
  (column MYSQL_FIELD_TYPE_VARCHAR 32 <$> [chars "account"; chars "nick_name"]) ++
  column MYSQL_FIELD_TYPE_TINYINT 0 (chars "sex") :: (column MYSQL_FIELD_TYPE_INT 0 <$> [chars "level"; chars "vip_level"; chars "exp"]).
Definition player_table : MysqlTableInfo := mkTableInfo (chars "t_player") 0 (chars "id") player_columns MYSQL_ENGINE_INNODB.
Definition player_config : MysqlDBConfigManager :=
  (cm_init (mkDatabaseConfig (chars "jmy_game") [player_table]) (mkConfigManager [] ∅ [] [])).2.
Definition start_bufs : SqlBufs := SqlBufs_new [[]; []; []] [[]; []; []] 0 [].

Lemma start_bufs_ok : bufs_ok start_bufs.
Proof. constructor; intros n; unfold ring, ring_index; by destruct (n =? 0). Qed.

Definition set_int (name : text) (v : Z) : FieldNameValue := mkField (Some name) (fv_int v).
Definition unchanged : FieldNameValue := mkField None (fv_int 0).
Definition int_text (name : text) (v : Z) : text := snprintf BUF_SIZE (name ++ chars "=" ++ print_signed v).

Lemma formats_int escape ft name v : small_int_type ft = true -> bool_decide (get_field_info 0 name player_config = Some (column ft 0 name)) = true ->
  lenZ (print_signed v) <? BUF_SIZE = true -> formats escape player_config 0 (set_int name v) (Some (int_text name v)).
Proof.
  intros Ht E%bool_decide_eq_true Hl%Z.ltb_lt. apply (formats_changed _ _ _ (set_int name v) name (column ft 0 name) (print_signed v) None eq_refl E).
  unfold mysql_get_field_value_format. cbn [fn_value set_int field_type column create_flags]. rewrite Ht. change (has_flag _ _) with false. cbn [fi_name]. by rewrite snprintf_fits.
Qed.

(** A turn that changes the sex and the level, and one that changes the sex and the experience. *)
Lemma update_writes_changed_iff_witness :
  let update fields := format_update_field_value_str id player_config 0 None 0 (set_int (chars "sex") 1) fields start_bufs in
  (exists r m', update [set_int (chars "level") 2; unchanged; unchanged] = Some (Some r, m') /\ sr_read r m' = Some (chars "sex=1, level=2")) /\
  ~ exists r m', update [unchanged; unchanged; set_int (chars "exp") 9] = Some (Some r, m') /\ sr_read r m' = Some (chars "sex=1, exp=9").
Proof.
  assert (F1 := formats_int id MYSQL_FIELD_TYPE_TINYINT (chars "sex") 1 eq_refl ltac:(vm_compute; reflexivity) ltac:(vm_compute; reflexivity)).
  assert (F2 := formats_int id MYSQL_FIELD_TYPE_INT (chars "level") 2 eq_refl ltac:(vm_compute; reflexivity) ltac:(vm_compute; reflexivity)).
  assert (F9 := formats_int id MYSQL_FIELD_TYPE_INT (chars "exp") 9 eq_refl ltac:(vm_compute; reflexivity) ltac:(vm_compute; reflexivity)).
  assert (F0 := formats_unchanged id player_config 0 unchanged eq_refl).
  pose (good := [Some (int_text (chars "sex") 1); Some (int_text (chars "level") 2); None; None]).
  pose (bad := [Some (int_text (chars "sex") 1); None; None; Some (int_text (chars "exp") 9)]).
  assert (T1 : boost_join comma (changed good) = chars "sex=1, level=2") by (vm_compute; reflexivity).
  assert (T2 : boost_join comma (changed bad) = chars "sex=1, exp=9") by (vm_compute; reflexivity).
  split.
  - rewrite <- T1. eapply (update_writes_changed_iff id player_config 0 _ _ good).
    + apply start_bufs_ok.
    + apply Forall2_cons; split; [exact F1|]. apply Forall2_cons; split; [exact F2|]. by repeat constructor.
    + done.
    + apply Z.ltb_lt. vm_compute. reflexivity.
    + apply (bool_decide_unpack _). vm_compute. exact I.
    + intros name Hn. cbn in Hn. rewrite !elem_of_cons, elem_of_nil in Hn. by destruct Hn as [-> | [-> | ?]]; [apply (bool_decide_unpack _); vm_compute..|].
    + vm_compute. reflexivity.
  - rewrite <- T2. intros Hx. enough (gaps_ok None bad = true) by discriminate.
    eapply (update_writes_changed_iff id player_config 0 _ _ bad start_bufs); [| | | | | |exact Hx].
    + apply start_bufs_ok.
    + apply Forall2_cons; split; [exact F1|]. apply Forall2_cons; split; [exact F0|]. apply Forall2_cons; split; [exact F0|]. by repeat constructor.
    + done.
    + apply Z.ltb_lt. vm_compute. reflexivity.
    + apply (bool_decide_unpack _). vm_compute. exact I.
    + intros name Hn. cbn in Hn. rewrite !elem_of_cons, elem_of_nil in Hn. by destruct Hn as [-> | [-> | ?]]; [apply (bool_decide_unpack _); vm_compute..|].
Defined.
