(* ===== verification/SqlStatements.v ===== *)
(** * Whole statements

    The statements of [MysqlDBManager] as texts: what an insert, a select of some fields and a select by key push
    to the worker, and which calls cannot be told apart by it. *)
From S2P Require Import Prelude Text MysqlPool SqlFormat SqlProps.
From Stdlib Require Import ZArith Lia String.
From stdpp Require Import base option list gmap.
Local Open Scope Z_scope.

Section statements.
Variable escape : text -> text.
Context {R Cb : Type}.
Implicit Types m : MysqlDBManager R Cb.

(** A buffer of one ring is still there after an operation on the other one. *)
Lemma same_ring_read n k b b' i : same_ring n b b' -> is_ring n -> is_ring k -> k <> n -> sr_read (sr_buf k i) b' = sr_read (sr_buf k i) b.
Proof using.
  intros S Hn Hk Hkn. destruct (sr_other _ _ _ S k Hk Hkn) as [E _]. unfold sr_read.
  change (if k =? 0 then sb_buf b' else sb_buf2 b') with (ring k b'). change (if k =? 0 then sb_buf b else sb_buf2 b) with (ring k b). by rewrite E.
Qed.

Lemma text_at_read n b r t : is_ring n -> bufs_ok b -> text_at n b r t -> exists i, r = Some (sr_buf n i) /\ sr_read (sr_buf n i) b = Some t.
Proof using.
  intros Hn Hb [-> Ht]. eexists. split; [done|]. by destruct (ring_read n (ring_index n b) b Hn (bo_index _ Hb n) (bo_len _ Hb n)) as [-> _].
Qed.

Lemma print_big_texts ps ts b : Forall2 (fun p t => pc_read b p = Some t) ps ts -> lenZ (mjoin ts) < BIG_BUF_SIZE -> print_big ps b = Some (mjoin ts).
Proof using. intros H Hl. unfold print_big. rewrite (pc_reads_texts _ _ _ H). cbn [mbind option_bind]. by rewrite snprintf_fits. Qed.

Lemma push_insert_write (sql : text) m : push_insert_cmd sql m = dm_push_write sql m.
Proof using. unfold push_insert_cmd. destruct (dm_push_write sql m) as [[[] m']|]; done. Qed.

(** The length of a statement is handed over as an [unsigned short]. *)
Definition pushed_text (sql : text) : text := take (Z.to_nat (u16 (lenZ sql))) sql.

Lemma pushed_text_iff sql : pushed_text sql = sql <-> lenZ sql < 2 ^ 16.
Proof using.
  unfold pushed_text, u16. split.
  - intros E. apply (f_equal length) in E. rewrite length_take in E. pose proof (Z.mod_pos_bound (lenZ sql) (2 ^ 16) ltac:(lia)). lia.
  - intros Hl. rewrite Z.mod_small by lia. apply take_ge. lia.
Qed.

Lemma push_write_pushed (sql : text) m : dm_push_write sql m =
  ('(r, p) ← push_write_cmd (mkCmd (pushed_text sql) None true) (dm_pool m); Some (r, dm_set_pool p m)).
Proof using.
  unfold dm_push_write, db_push_write, CmdInfo_new, pushed_text. pose proof (Z.mod_le (lenZ sql) (2 ^ 16) ltac:(lia) ltac:(lia)).
  pose proof (Z.mod_pos_bound (lenZ sql) (2 ^ 16) ltac:(lia)). rewrite mem_read_Some by (unfold u16; lia). by rewrite drop_0.
Qed.

Definition insert_text (table : text) (names values : list text) : text :=
  mjoin [chars "INSERT INTO "; table; chars " ("; boost_join comma names; chars ") VALUES ("; boost_join comma values; chars ")"].

(** C34. An insert whose names and values fit the buffers makes one statement, which names every field
    once and in order, each with its own value, whatever the buffers held before, and pushes it for a writing connection; the
    buffers stay usable.  Its length is cut to 16 bits on the way, so that what is pushed is the statement exactly when
    it is shorter than 64 K. *)
Theorem insert_statement_exact table_index ti first rest name names t ts m :
  get_table_info table_index (dm_config m) = Some ti -> bufs_ok (dm_bufs m) ->
  Forall2 (fun a x => fn_name a = Some x) (first :: rest) (name :: names) ->
  Forall2 (formats_insert escape (dm_config m) table_index) (first :: rest) (t :: ts) ->
  joined_size (name :: names) < BUF_SIZE -> joined_size (t :: ts) < BUF_SIZE ->
  let sql := insert_text (ti_name ti) (name :: names) (t :: ts) in lenZ sql < BIG_BUF_SIZE ->
  (exists b, bufs_ok b /\ insertRecord escape first rest table_index m =
    ('(r, p) ← push_write_cmd (mkCmd (pushed_text sql) None true) (dm_pool m); Some (r, dm_set_pool p (dm_set_bufs b m)))) /\
  (pushed_text sql = sql <-> lenZ sql < 2 ^ 16).
Proof using.
  intros Hti Hb Hn Ht Wn Wt sql Hs. split; [|apply pushed_text_iff]. inversion Hn as [|? ? ? ? Hn1 Hn2]; subst. inversion Ht as [|? ? ? ? Ht1 Ht2]; subst. unfold insertRecord. rewrite Hti.
  destruct (insert_names 0 rest first name names None [] (dm_bufs m) (or_introl eq_refl) Hb Hn1 Hn2 eq_refl Wn) as (r1 & b1 & -> & S1 & T1). cbn [mbind option_bind].
  destruct (insert_values escape (dm_config m) table_index 1 rest first t ts None [] b1 (or_intror eq_refl) (sr_ok _ _ _ S1) Ht1 Ht2 eq_refl Wt) as (r2 & b2 & -> & S2 & T2).
  cbn [mbind option_bind]. destruct (text_at_read _ _ _ _ (or_introl eq_refl) (sr_ok _ _ _ S1) T1) as (i1 & -> & E1).
  destruct (text_at_read _ _ _ _ (or_intror eq_refl) (sr_ok _ _ _ S2) T2) as (i2 & -> & E2). cbn [pc_null mbind option_bind].
  rewrite <- (same_ring_read 1 0 b1 b2 i1 S2 (or_intror eq_refl) (or_introl eq_refl) ltac:(done)) in E1.
  rewrite (print_big_texts _ [chars "INSERT INTO "; ti_name ti; chars " ("; boost_join comma (name :: names); chars ") VALUES ("; boost_join comma (t :: ts); chars ")"]);
    [|by repeat constructor|done].
  cbn [mbind option_bind]. exists b2. split; [apply (sr_ok _ _ _ S2)|]. by rewrite push_insert_write, push_write_pushed.
Qed.

(** ** Selects *)

Lemma key_text n table_index key v t m : is_ring n -> bufs_ok (dm_bufs m) -> get_field_type_format escape table_index key v BUF_SIZE (dm_config m) = Some (Some t) ->
  exists b i, format_key_to escape n table_index key v m = Some (Some (sr_buf n i), dm_set_bufs b m) /\ same_ring n (dm_bufs m) b /\ sr_read (sr_buf n i) b = Some t.
Proof using.
  intros Hn Hb E. unfold format_key_to. rewrite (get_buf_ring n _ Hn). set (i := ring_index n _). assert (Hi := bo_index _ Hb n). assert (Hl := bo_len _ Hb n).
  destruct (ring_read n i _ Hn Hi Hl) as [_ [x Hx]]. rewrite Hx. cbn [mbind option_bind]. rewrite E. cbn [mbind option_bind].
  destruct (ring_write n i t _ Hn Hi Hb) as (b & -> & S & R1 & _). cbn [mbind option_bind]. exists b, i. split; [done|]. split; [done|].
  destruct (ring_read n i b Hn Hi (bo_len _ (sr_ok _ _ _ S) n)) as [-> _]. rewrite R1. apply list_lookup_insert_eq. rewrite Nat2Z.inj_lt, Z2Nat.id; lia.
Qed.

Lemma key_fields_text fields : forall r l b, bufs_ok b -> head_before 1 b r l -> joined_size (l ++ fields) < BUF_SIZE ->
  exists r' b', key_fields r r fields b = Some (r', b') /\ same_ring 1 b b' /\ head_before 1 b' r' (l ++ fields).
Proof using.
  induction fields as [|name fields IH]; intros r l b Hb Hh Hw.
  - exists r, b. rewrite app_nil_r. split; [done|]. split; [by constructor|done].
  - change (name :: fields) with ([name] ++ fields) in Hw |- *. rewrite app_assoc in Hw |- *. cbn [app key_fields].
    destruct (insert_name 1 (mkField (Some name) (fv_int 0)) name r l b (or_intror eq_refl) Hb eq_refl Hh) as (r1 & b1 & E & S1 & T1).
    { rewrite joined_size_app in Hw. unfold joined_size at 2 in Hw. lia. }
    unfold format_insert_field_name in E. destruct (get_buf_info 1 b) as [buf|]; [|by destruct T1; congruence]. cbn [fn_name mbind option_bind] in E.
    apply bind_Some in E as (b1' & E1 & [= <- ->]). rewrite E1. cbn [mbind option_bind].
    destruct (step_head 1 b1 _ (or_intror eq_refl) (sr_ok _ _ _ S1) _ T1) as (b2 & E2 & Hp & S2 & H2); [by destruct l|]. rewrite E2, (proj2 (Z.ltb_ge _ 0) Hp).
    destruct (IH _ _ b2 (sr_ok _ _ _ S2) H2 Hw) as (r' & b' & -> & S & T). exists r', b'. split; [done|]. split; [|done].
    eapply same_ring_trans; [exact S1|]. by eapply same_ring_trans.
Qed.

Lemma head_before_read n b r l : is_ring n -> bufs_ok b -> head_before n b r l -> l <> [] -> exists i, r = Some (sr_buf n i) /\ sr_read (sr_buf n i) b = Some (boost_join comma l).
Proof using.
  intros Hn Hb Hh Hl. destruct r as [r|]; [|done]. destruct Hh as (_ & h & -> & Hi & Ht & _). exists h. split; [done|].
  by destruct (ring_read n h b Hn Hi (bo_len _ Hb n)) as [-> _].
Qed.

Definition select_text (table : text) (fields : list text) (key t : text) : text :=
  mjoin [chars "SELECT "; boost_join comma fields; chars " FROM "; table; chars " WHERE "; key; chars "="; t].

(** A select of some fields by a key, the one that the generated tables use, pushes exactly one statement, with
    every field once and in order, however many there are, and the key's text in its condition. *)
Theorem select_by_key_exact table_index ti key v t fields cb m :
  get_table_info table_index (dm_config m) = Some ti -> bufs_ok (dm_bufs m) -> fields <> [] ->
  get_field_type_format escape table_index key v BUF_SIZE (dm_config m) = Some (Some t) ->
  joined_size fields < BUF_SIZE -> let sql := select_text (ti_name ti) fields key t in lenZ sql < BIG_BUF_SIZE ->
  exists b, bufs_ok b /\ selectRecord_fields_by_key escape key v fields cb table_index m = dm_push_read sql cb (dm_set_bufs b m).
Proof using.
  intros Hti Hb Hf Ht Hw sql Hs. unfold selectRecord_fields_by_key. destruct fields as [|name fields]; [done|]. rewrite Hti.
  destruct (key_text 0 table_index key v t m (or_introl eq_refl) Hb Ht) as (b1 & i1 & -> & S1 & E1). cbn [mbind option_bind dm_set_bufs dm_bufs].
  destruct (key_fields_text (name :: fields) None [] b1 (sr_ok _ _ _ S1) eq_refl Hw) as (r & b2 & -> & S2 & H2). cbn [mbind option_bind].
  destruct (head_before_read 1 b2 r _ (or_intror eq_refl) (sr_ok _ _ _ S2) H2) as (i2 & -> & E2); [done|].
  rewrite <- (same_ring_read 1 0 b1 b2 i1 S2 (or_intror eq_refl) (or_introl eq_refl) ltac:(done)) in E1.
  rewrite (print_big_texts _ [chars "SELECT "; boost_join comma (name :: fields); chars " FROM "; ti_name ti; chars " WHERE "; key; chars "="; t]);
    [|by repeat constructor|done].
  cbn [mbind option_bind]. exists b2. split; [apply (sr_ok _ _ _ S2)|done].
Qed.

(** One field after the first, which is in buffer [h]. *)
Lemma select_field h a name fields b : bufs_ok b -> 0 <= h < 3 -> ring 0 b !! Z.to_nat h = Some a ->
  joined_size [a; name] < BUF_SIZE -> next (ring_index 0 b) <> h ->
  exists b', select_fields (Some (sr_buf 0 h)) (sr_buf 0 (ring_index 0 b)) (name :: fields) b = select_fields (Some (sr_buf 0 h)) (sr_buf 0 (ring_index 0 b')) fields b' /\
    bufs_ok b' /\ ring 0 b' !! Z.to_nat h = Some a /\ ring_index 0 b' = next (ring_index 0 b) /\ sr_read (sr_buf 0 (ring_index 0 b')) b' = Some (boost_join comma [a; name]).
Proof using.
  intros Hb Hh Ha Hw Hne. cbn [select_fields]. destruct (step_ring 0 b (or_introl eq_refl) Hb) as (b1 & -> & Hp & S1 & R1 & I1 & _). rewrite (proj2 (Z.ltb_ge _ 0) Hp).
  rewrite (get_buf_ring 0 b1 (or_introl eq_refl)), I1. set (i := next (ring_index 0 b)) in *. assert (Hi : 0 <= i < 3) by (rewrite <- I1; apply (bo_index _ (sr_ok _ _ _ S1))).
  assert (Hl := bo_len _ (sr_ok _ _ _ S1) 0).
  destruct (print_ring 0 i [pc_ref (sr_buf 0 h); pc_text (chars ", "); pc_text name] [a; comma; name] b1 (or_introl eq_refl) Hi (sr_ok _ _ _ S1)) as (b2 & -> & S2 & R2 & I2 & _).
  - repeat constructor. cbn [pc_read]. destruct (ring_read 0 h b1 (or_introl eq_refl) Hh Hl) as [-> _]. by rewrite R1.
  - intros r Hr. rewrite !elem_of_cons in Hr. destruct Hr as [[= ->]|[?|[?|?%elem_of_nil]]]; try done. congruence.
  - cbn [mbind option_bind]. exists b2. rewrite I2, I1. split; [done|]. split; [apply (sr_ok _ _ _ S2)|]. assert (Hi' : i <> h) by done. split; [|split; [done|]].
    + rewrite R2, R1, list_lookup_insert_ne; [done|]. intros Hx%Z2Nat.inj; lia.
    + destruct (ring_read 0 i b2 (or_introl eq_refl) Hi (bo_len _ (sr_ok _ _ _ S2) 0)) as [-> _]. rewrite R2, list_lookup_insert_eq by (rewrite Nat2Z.inj_lt, Z2Nat.id; lia).
      assert (Hj := boost_join_length [a; name]). cbn [mjoin list_join]. rewrite app_nil_r. change (a ++ comma ++ name) with (boost_join comma [a; name]) in *. rewrite snprintf_fits; [done|lia].
Qed.

Lemma joined_size_cons a l : joined_size (a :: l) = lenZ a + 2 + joined_size l.
Proof using. unfold joined_size. cbn [sum_list_with]. lia. Qed.

Lemma joined_size_nonneg l : 0 <= joined_size l.
Proof using. unfold joined_size. lia. Qed.

(** The selects without a key list their fields rightly if and only if there are at most two: a third field
    replaces the second, because each one is printed after the first, and with a fourth a buffer is printed to
    itself. *)
Theorem select_fields_exact_iff b fields : bufs_ok b -> fields <> [] -> joined_size fields < BUF_SIZE ->
  (exists r b', select_fields None (sr_buf 0 (ring_index 0 b)) fields b = Some (Some r, b') /\ sr_read r b' = Some (boost_join comma fields))
  <-> (length fields <= 2)%nat.
Proof using.
  intros Hb Hne Hw. destruct fields as [|a fields]; [done|]. cbn [select_fields]. assert (Hi := bo_index _ Hb 0). set (i := ring_index 0 b) in *.
  rewrite joined_size_cons in Hw. assert (Hz := joined_size_nonneg fields).
  destruct (print_ring 0 i [pc_text a] [a] b (or_introl eq_refl) Hi Hb) as (b0 & -> & S0 & R0 & I0 & _); [by repeat constructor|intros r Hr; by apply list_elem_of_singleton in Hr|].
  cbn [mbind option_bind]. assert (B0 := sr_ok _ _ _ S0).
  assert (Ha : ring 0 b0 !! Z.to_nat i = Some a).
  { assert (Hl := bo_len _ Hb 0). rewrite R0, list_lookup_insert_eq by (rewrite Nat2Z.inj_lt, Z2Nat.id; lia). cbn [mjoin list_join]. rewrite app_nil_r, snprintf_fits; [done|lia]. }
  destruct (next_ne i Hi) as [Hn1 Hn2]. assert (Hn3 : next (next (next i)) = i).
  { assert (0 <= next i < 3) by (rewrite next_mod by done; apply Z.mod_pos_bound; lia). assert (0 <= next (next i) < 3) by (rewrite next_mod by done; apply Z.mod_pos_bound; lia).
    rewrite next_mod, next_mod, next_mod by done. revert Hi. clear. lia_mod. }
  destruct fields as [|x fields].
  - split; [cbn; lia|]. intros _. exists (sr_buf 0 i), b0. split; [done|]. by destruct (ring_read 0 i b0 (or_introl eq_refl) Hi (bo_len _ B0 0)) as [-> _].
  - rewrite joined_size_cons in Hw. fold i in I0.
    destruct (select_field i a x fields b0 B0 Hi Ha ltac:(rewrite !joined_size_cons; change (joined_size []) with 0; pose proof (joined_size_nonneg fields); lia) ltac:(rewrite I0; done))
      as (b1 & E1 & B1 & Ha1 & I1 & T1).
    rewrite I0 in E1. rewrite E1. destruct fields as [|y fields].
    + split; [cbn; lia|]. intros _. by exists (sr_buf 0 (ring_index 0 b1)), b1.
    + rewrite joined_size_cons in Hw.
      destruct (select_field i a y fields b1 B1 Hi Ha1 ltac:(rewrite !joined_size_cons; change (joined_size []) with 0; pose proof (joined_size_nonneg fields); lia) ltac:(rewrite I1, I0; done))
        as (b2 & E2 & B2 & Ha2 & I2 & T2).
      rewrite E2. split; [|cbn; lia]. intros (r & b' & E & Er). exfalso. destruct fields as [|z fields].
      * cbn [select_fields] in E. injection E as <- <-. rewrite T2 in Er. apply (inj Some), (f_equal length) in Er. cbn [boost_join] in Er. rewrite !length_app in Er.
        change (length comma) with 2%nat in Er. lia.
      * cbn [select_fields] in E. destruct (step_ring 0 b2 (or_introl eq_refl) B2) as (b3 & E3 & Hp & _ & _ & I3 & _). rewrite E3, (proj2 (Z.ltb_ge _ 0) Hp) in E.
        rewrite (get_buf_ring 0 b3 (or_introl eq_refl)), I3, I2, I1, I0, Hn3 in E. rewrite print_overlaps in E; [discriminate E|by left].
Qed.

(** ** Keys *)

Definition is_text_field (table_index : Z) (key : text) (cfg : MysqlDBConfigManager) : Prop :=
  exists f, get_field_info table_index key cfg = Some f /\ IS_MYSQL_TEXT_TYPE (field_type f) = true.

Lemma text_key_format table_index key s size cfg : is_text_field table_index key cfg -> 0 ∉ s -> lenZ s + 2 < size ->
  get_field_type_format escape table_index key (fv_string s) size cfg = Some (Some (quoted s)).
Proof using.
  intros (f & Ef & Et) Hs Hl. unfold get_field_type_format. rewrite Ef. unfold mysql_get_field_value_format. rewrite Et. cbn [orb format_text mbind option_bind].
  rewrite c_str_id by done. rewrite snprintf_fits; [done|]. unfold quoted. rewrite !length_app. change (length (chars "'")) with 1%nat. lia.
Qed.

Definition condition (key v : text) : text := key ++ chars "=" ++ quoted v.

(** C35. A key is put between quotes as it is, so a select by one key can be, letter for letter, the statement of a
    select by either of two keys: whoever chooses the value of the key chooses the condition. *)
Theorem quoted_key_is_two_keys table_index ti k1 v1 k2 v2 cb m :
  get_table_info table_index (dm_config m) = Some ti -> bufs_ok (dm_bufs m) ->
  is_text_field table_index k1 (dm_config m) -> is_text_field table_index k2 (dm_config m) ->
  0 ∉ v1 -> 0 ∉ k2 -> 0 ∉ v2 -> lenZ v1 + lenZ k2 + lenZ v2 + 10 < BUF_SIZE -> lenZ (ti_name ti) + lenZ k1 < BUF_SIZE ->
  exists sql b1 b2, bufs_ok b1 /\ bufs_ok b2 /\
    selectRecord_by_key escape k1 (fv_string (v1 ++ chars "' OR " ++ k2 ++ chars "='" ++ v2)) cb table_index m = dm_push_read sql cb (dm_set_bufs b1 m) /\
    selectRecord_by_keys escape 1 k1 (fv_string v1) k2 (fv_string v2) cb table_index m = dm_push_read sql cb (dm_set_bufs b2 m).
Proof using.
  intros Hti Hb F1 F2 Z1 Zk Z2 Hl Hl2. set (v := v1 ++ _).
  assert (Hv : 0 ∉ v /\ lenZ v + 2 < BUF_SIZE).
  { unfold v. rewrite !elem_of_app, !length_app. change (length (chars "' OR ")) with 5%nat. change (length (chars "='")) with 2%nat. split; [|lia].
    intros [?|[Hx|[?|[Hx|?]]]]; try done; repeat (apply elem_of_cons in Hx as [Hx|Hx]; [discriminate Hx|]); by apply elem_of_nil in Hx. }
  exists (mjoin [chars "SELECT * FROM "; ti_name ti; chars " WHERE "; k1; chars "="; quoted v]). unfold selectRecord_by_key, selectRecord_by_keys. rewrite Hti.
  destruct (key_text 0 table_index k1 (fv_string v) (quoted v) m (or_introl eq_refl) Hb) as (b1 & i1 & -> & S1 & E1); [destruct Hv; by apply text_key_format|].
  destruct (key_text 0 table_index k1 (fv_string v1) (quoted v1) m (or_introl eq_refl) Hb) as (b2 & i2 & -> & S2 & E2); [apply text_key_format; [done|done|lia]|].
  cbn [mbind option_bind dm_set_bufs dm_bufs].
  destruct (key_text 1 table_index k2 (fv_string v2) (quoted v2) (dm_set_bufs b2 m) (or_intror eq_refl) (sr_ok _ _ _ S2)) as (b3 & i3 & -> & S3 & E3); [apply text_key_format; [done|done|lia]|].
  cbn [mbind option_bind dm_set_bufs dm_bufs dm_config dm_pool] in *. exists b1, b3. split; [apply (sr_ok _ _ _ S1)|]. split; [apply (sr_ok _ _ _ S3)|].
  rewrite <- (same_ring_read 1 0 b2 b3 i2 S3 (or_intror eq_refl) (or_introl eq_refl) ltac:(done)) in E2.
  assert (Hq : forall x, lenZ (quoted x) = lenZ x + 2) by (intros x; unfold quoted; rewrite !length_app; change (length (chars "'")) with 1%nat; lia).
  assert (Hs : lenZ (mjoin [chars "SELECT * FROM "; ti_name ti; chars " WHERE "; k1; chars "="; quoted v]) < BIG_BUF_SIZE).
  { cbn [mjoin list_join]. rewrite !length_app. specialize (Hq v). change (length (chars "SELECT * FROM ")) with 14%nat. change (length (chars " WHERE ")) with 7%nat.
    change (length (chars "=")) with 1%nat. cbn [length]. unfold BUF_SIZE, BIG_BUF_SIZE in *. lia. }
  assert (Hsame : mjoin [chars "SELECT * FROM "; ti_name ti; chars " WHERE "; k1; chars "="; quoted v1; chars " "; chars "OR"; chars " "; k2; chars "="; quoted v2] =
    mjoin [chars "SELECT * FROM "; ti_name ti; chars " WHERE "; k1; chars "="; quoted v]).
  { unfold v, quoted. cbn [mjoin list_join]. rewrite <- !app_assoc. done. }
  split.
  - by rewrite (print_big_texts _ [chars "SELECT * FROM "; ti_name ti; chars " WHERE "; k1; chars "="; quoted v]) by (done || by repeat constructor).
  - rewrite (print_big_texts _ [chars "SELECT * FROM "; ti_name ti; chars " WHERE "; k1; chars "="; quoted v1; chars " "; chars "OR"; chars " "; k2; chars "="; quoted v2])
      by (by rewrite Hsame || by repeat constructor).
    by rewrite Hsame.
Qed.
End statements.

(** ** Examples *)

Definition example_manager : MysqlDBManager Z Z := mkDBManager player_config start_bufs (pool_init MYSQL_POOL_READ_CONN_SIZE MYSQL_POOL_WRITE_CONN_SIZE).

Lemma example_table : get_table_info 0 (dm_config example_manager) = Some player_table.
Proof. done. Qed.

Lemma example_text_field key : bool_decide (get_field_info 0 key player_config = Some (column MYSQL_FIELD_TYPE_VARCHAR 32 key)) = true -> is_text_field 0 key player_config.
Proof. intros E%bool_decide_eq_true. eexists. split; [exact E|done]. Qed.

Lemma example_insert_int ft name v : small_int_type ft = true -> bool_decide (get_field_info 0 name player_config = Some (column ft 0 name)) = true ->
  lenZ (print_signed v) <? BUF_SIZE = true -> formats_insert id player_config 0 (set_int name v) (print_signed v).
Proof.
  intros Ht E%bool_decide_eq_true Hl%Z.ltb_lt. exists name, (column ft 0 name), None. split; [done|]. split; [done|].
  unfold mysql_get_field_value_format. cbn [fn_value set_int field_type column create_flags]. rewrite Ht. change (has_flag _ _) with false. by rewrite snprintf_fits.
Qed.

Lemma insert_statement_exact_witness : exists b, bufs_ok b /\
  insertRecord id (set_int (chars "level") 7) [set_int (chars "exp") (-3)] 0 example_manager =
  ('(r, p) ← push_write_cmd (mkCmd (chars "INSERT INTO t_player (level, exp) VALUES (7, -3)") None true) (dm_pool example_manager);
   Some (r, dm_set_pool p (dm_set_bufs b example_manager))).
Proof.
  assert (F1 := example_insert_int MYSQL_FIELD_TYPE_INT (chars "level") 7 eq_refl ltac:(vm_compute; reflexivity) ltac:(vm_compute; reflexivity)).
  assert (F2 := example_insert_int MYSQL_FIELD_TYPE_INT (chars "exp") (-3) eq_refl ltac:(vm_compute; reflexivity) ltac:(vm_compute; reflexivity)).
  destruct (insert_statement_exact id 0 player_table (set_int (chars "level") 7) [set_int (chars "exp") (-3)] (chars "level") [chars "exp"]
    (print_signed 7) [print_signed (-3)] example_manager) as [(b & Hb & E) Hiff].
  - apply example_table.
  - apply start_bufs_ok.
  - by repeat constructor.
  - by repeat constructor.
  - apply Z.ltb_lt. vm_compute. reflexivity.
  - apply Z.ltb_lt. vm_compute. reflexivity.
  - apply Z.ltb_lt. vm_compute. reflexivity.
  - exists b. split; [exact Hb|]. rewrite E, (proj2 Hiff) by (apply Z.ltb_lt; vm_compute; reflexivity). reflexivity.
Defined.

Lemma select_by_key_exact_witness : exists b, bufs_ok b /\
  selectRecord_fields_by_key id (chars "account") (fv_string (chars "lin")) [chars "nick_name"; chars "sex"; chars "level"; chars "exp"] 1 0 example_manager =
  dm_push_read (chars "SELECT nick_name, sex, level, exp FROM t_player WHERE account='lin'") 1 (dm_set_bufs b example_manager).
Proof.
  change (chars "SELECT nick_name, sex, level, exp FROM t_player WHERE account='lin'") with
    (select_text (ti_name player_table) [chars "nick_name"; chars "sex"; chars "level"; chars "exp"] (chars "account") (quoted (chars "lin"))).
  apply (select_by_key_exact id 0 player_table).
  - apply example_table.
  - apply start_bufs_ok.
  - done.
  - apply text_key_format; [by apply example_text_field; vm_compute| |by apply Z.ltb_lt; vm_compute]. apply (bool_decide_unpack _). vm_compute. exact I.
  - apply Z.ltb_lt. vm_compute. reflexivity.
  - apply Z.ltb_lt. vm_compute. reflexivity.
Defined.

Lemma select_fields_exact_iff_witness :
  let selects fields t := exists r b', select_fields None (sr_buf 0 0) fields start_bufs = Some (Some r, b') /\ sr_read r b' = Some t in
  selects [chars "id"; chars "sex"] (chars "id, sex") /\ ~ selects [chars "id"; chars "sex"; chars "exp"] (chars "id, sex, exp").
Proof.
  change (chars "id, sex, exp") with (boost_join comma [chars "id"; chars "sex"; chars "exp"]). change (chars "id, sex") with (boost_join comma [chars "id"; chars "sex"]).
  split.
  - apply (select_fields_exact_iff start_bufs); [apply start_bufs_ok|done|apply Z.ltb_lt; vm_compute; reflexivity|cbn; lia].
  - intros Hx. apply (select_fields_exact_iff start_bufs) in Hx; [cbn in Hx; lia|apply start_bufs_ok|done|apply Z.ltb_lt; vm_compute; reflexivity].
Defined.

(** An account's name that selects other accounts. *)
Lemma quoted_key_is_two_keys_witness : exists sql b1 b2, bufs_ok b1 /\ bufs_ok b2 /\
  selectRecord_by_key id (chars "account") (fv_string (chars "x' OR nick_name='lin")) 1 0 example_manager = dm_push_read sql 1 (dm_set_bufs b1 example_manager) /\
  selectRecord_by_keys id 1 (chars "account") (fv_string (chars "x")) (chars "nick_name") (fv_string (chars "lin")) 1 0 example_manager =
    dm_push_read sql 1 (dm_set_bufs b2 example_manager).
Proof.
  apply (quoted_key_is_two_keys id 0 player_table (chars "account") (chars "x") (chars "nick_name") (chars "lin")).
  - apply example_table.
  - apply start_bufs_ok.
  - by apply example_text_field; vm_compute.
  - by apply example_text_field; vm_compute.
  - apply (bool_decide_unpack _). vm_compute. exact I.
  - apply (bool_decide_unpack _). vm_compute. exact I.
  - apply (bool_decide_unpack _). vm_compute. exact I.
  - apply Z.ltb_lt. vm_compute. reflexivity.
  - apply Z.ltb_lt. vm_compute. reflexivity.
Defined.
