(* ===== verification/ConfigLoader.v ===== *)
(** * MysqlConfigLoader ([mysql/mysql_config_loader.*])

    The tables and columns of a configuration are made when a server starts.  The texts of types and flags are
    printed to static buffers.  What the database answers to the [i]th statement is [answer i]. *)
From S2P Require Import Prelude Text MysqlPool SqlFormat.
From Stdlib Require Import ZArith Lia String.
From stdpp Require Import base option list gmap.
Local Open Scope Z_scope.

(** ** Lengths ([mysql_defines.h], [mysql_util.h]) *)

Definition MYSQL_FIELD_DEFAULT_LENGTH : Z := 0.
Definition MYSQL_FIELD_DEFAULT_LENGTH_TINYINT : Z := 4.
Definition MYSQL_FIELD_DEFAULT_LENGTH_SMALLINT : Z := 6.
Definition MYSQL_FIELD_DEFAULT_LENGTH_MEDIUMINT : Z := 8.
Definition MYSQL_FIELD_DEFAULT_LENGTH_INT : Z := 11.
Definition MYSQL_FIELD_DEFAULT_LENGTH_BIGINT : Z := 20.
Definition MYSQL_FIELD_DEFAULT_LENGTH_FLOAT : Z := 11.
Definition MYSQL_FIELD_DEFAULT_LENGTH_DOUBLE : Z := 20.
Definition MYSQL_FIELD_DEFAULT_LENGTH_DATE : Z := 10.
Definition MYSQL_FIELD_DEFAULT_LENGTH_DATETIME : Z := 19.
Definition MYSQL_FIELD_DEFAULT_LENGTH_TIMESTAMP : Z := 6.
Definition MYSQL_FIELD_DEFAULT_LENGTH_TIME : Z := 8.
Definition MYSQL_FIELD_DEFAULT_LENGTH_YEAR : Z := 4.
Definition MYSQL_FIELD_DEFAULT_LENGTH_CHAR : Z := 255.
Definition MYSQL_FIELD_DEFAULT_LENGTH_VARCHAR : Z := 65530.
Definition MYSQL_FIELD_DEFAULT_LENGTH_BINARY : Z := 8000.
Definition MYSQL_FIELD_DEFAULT_LENGTH_VARBINARY : Z := 8000.
Definition MYSQL_FIELD_DEFAULT_LENGTH_TINYBLOB : Z := 255.
Definition MYSQL_FIELD_DEFAULT_LENGTH_TINYTEXT : Z := 255.
Definition MYSQL_FIELD_DEFAULT_LENGTH_BLOB : Z := 65535.
Definition MYSQL_FIELD_DEFAULT_LENGTH_TEXT : Z := 65535.
Definition MYSQL_FIELD_DEFAULT_LENGTH_MEDIUMBLOB : Z := 16777215.
Definition MYSQL_FIELD_DEFAULT_LENGTH_MEDIUMTEXT : Z := 16777215.
Definition MYSQL_FIELD_DEFAULT_LENGTH_LONGBLOB : Z := 4294967295.
Definition MYSQL_FIELD_DEFAULT_LENGTH_LONGTEXT : Z := 4294967295.

(** The value of a type in its enumeration. *)
Definition field_type_value (ft : MysqlTableFieldType) : Z :=
  match ft with
  | MYSQL_FIELD_TYPE_NONE => 0 | MYSQL_FIELD_TYPE_TINYINT => 1 | MYSQL_FIELD_TYPE_SMALLINT => 2 | MYSQL_FIELD_TYPE_MEDIUMINT => 3
  | MYSQL_FIELD_TYPE_INT => 4 | MYSQL_FIELD_TYPE_BIGINT => 5 | MYSQL_FIELD_TYPE_FLOAT => 6 | MYSQL_FIELD_TYPE_DOUBLE => 7
  | MYSQL_FIELD_TYPE_DATE => 8 | MYSQL_FIELD_TYPE_DATETIME => 9 | MYSQL_FIELD_TYPE_TIMESTAMP => 10 | MYSQL_FIELD_TYPE_TIME => 11
  | MYSQL_FIELD_TYPE_YEAR => 12 | MYSQL_FIELD_TYPE_CHAR => 13 | MYSQL_FIELD_TYPE_BINARY => 14 | MYSQL_FIELD_TYPE_VARBINARY => 15
  | MYSQL_FIELD_TYPE_VARCHAR => 16 | MYSQL_FIELD_TYPE_TINYBLOB => 17 | MYSQL_FIELD_TYPE_TINYTEXT => 18 | MYSQL_FIELD_TYPE_BLOB => 19
  | MYSQL_FIELD_TYPE_TEXT => 20 | MYSQL_FIELD_TYPE_MEDIUMBLOB => 21 | MYSQL_FIELD_TYPE_MEDIUMTEXT => 22 | MYSQL_FIELD_TYPE_LONGBLOB => 23
  | MYSQL_FIELD_TYPE_LONGTEXT => 24 | MYSQL_FIELD_TYPE_ENUM => 25 | MYSQL_FIELD_TYPE_SET => 26
  end.

(** The table is indexed with the value of the type, and has the last types of characters in another order. *)
Definition field_length_array : list Z := [
  MYSQL_FIELD_DEFAULT_LENGTH; MYSQL_FIELD_DEFAULT_LENGTH_TINYINT; MYSQL_FIELD_DEFAULT_LENGTH_SMALLINT; MYSQL_FIELD_DEFAULT_LENGTH_MEDIUMINT;
  MYSQL_FIELD_DEFAULT_LENGTH_INT; MYSQL_FIELD_DEFAULT_LENGTH_BIGINT; MYSQL_FIELD_DEFAULT_LENGTH_FLOAT; MYSQL_FIELD_DEFAULT_LENGTH_DOUBLE;
  MYSQL_FIELD_DEFAULT_LENGTH_DATE; MYSQL_FIELD_DEFAULT_LENGTH_DATETIME; MYSQL_FIELD_DEFAULT_LENGTH_TIMESTAMP; MYSQL_FIELD_DEFAULT_LENGTH_TIME;
  MYSQL_FIELD_DEFAULT_LENGTH_YEAR; MYSQL_FIELD_DEFAULT_LENGTH_CHAR; MYSQL_FIELD_DEFAULT_LENGTH_VARCHAR; MYSQL_FIELD_DEFAULT_LENGTH_BINARY;
  MYSQL_FIELD_DEFAULT_LENGTH_VARBINARY; MYSQL_FIELD_DEFAULT_LENGTH_TINYBLOB; MYSQL_FIELD_DEFAULT_LENGTH_TINYTEXT; MYSQL_FIELD_DEFAULT_LENGTH_BLOB;
  MYSQL_FIELD_DEFAULT_LENGTH_TEXT; MYSQL_FIELD_DEFAULT_LENGTH_MEDIUMBLOB; MYSQL_FIELD_DEFAULT_LENGTH_MEDIUMTEXT; MYSQL_FIELD_DEFAULT_LENGTH_LONGBLOB;
  MYSQL_FIELD_DEFAULT_LENGTH_LONGTEXT ].
Definition mysql_field_default_length (ft : MysqlTableFieldType) : option Z :=
  if lenZ field_length_array <=? field_type_value ft then Some (-1) else field_length_array !! Z.to_nat (field_type_value ft).

(** ** The texts of a column *)

(** The types that are printed with a length, and their default one. *)
Definition sized_type (ft : MysqlTableFieldType) : option (string * Z) :=
  match ft with
  | MYSQL_FIELD_TYPE_TINYINT => Some ("TINYINT", MYSQL_FIELD_DEFAULT_LENGTH_TINYINT)
  | MYSQL_FIELD_TYPE_SMALLINT => Some ("SMALLINT", MYSQL_FIELD_DEFAULT_LENGTH_SMALLINT)
  | MYSQL_FIELD_TYPE_MEDIUMINT => Some ("MEDIUMINT", MYSQL_FIELD_DEFAULT_LENGTH_MEDIUMINT)
  | MYSQL_FIELD_TYPE_INT => Some ("INT", MYSQL_FIELD_DEFAULT_LENGTH_INT)
  | MYSQL_FIELD_TYPE_BIGINT => Some ("BIGINT", MYSQL_FIELD_DEFAULT_LENGTH_BIGINT)
  | MYSQL_FIELD_TYPE_FLOAT => Some ("FLOAT", MYSQL_FIELD_DEFAULT_LENGTH_FLOAT)
  | MYSQL_FIELD_TYPE_DOUBLE => Some ("DOUBLE", MYSQL_FIELD_DEFAULT_LENGTH_DOUBLE)
  | MYSQL_FIELD_TYPE_YEAR => Some ("YEAR", MYSQL_FIELD_DEFAULT_LENGTH_YEAR)
  | MYSQL_FIELD_TYPE_CHAR => Some ("CHAR", MYSQL_FIELD_DEFAULT_LENGTH_CHAR)
  | MYSQL_FIELD_TYPE_VARCHAR => Some ("VARCHAR", MYSQL_FIELD_DEFAULT_LENGTH_VARCHAR)
  | MYSQL_FIELD_TYPE_BINARY => Some ("BINARY", MYSQL_FIELD_DEFAULT_LENGTH_BINARY)
  | MYSQL_FIELD_TYPE_VARBINARY => Some ("VARBINARY", MYSQL_FIELD_DEFAULT_LENGTH_VARBINARY)
  | MYSQL_FIELD_TYPE_TINYBLOB => Some ("TINYBLOB", MYSQL_FIELD_DEFAULT_LENGTH_TINYBLOB)
  | MYSQL_FIELD_TYPE_TINYTEXT => Some ("TINYTEXT", MYSQL_FIELD_DEFAULT_LENGTH_TINYTEXT)
  | MYSQL_FIELD_TYPE_MEDIUMBLOB => Some ("MEDIUMBLOB", MYSQL_FIELD_DEFAULT_LENGTH_MEDIUMBLOB)
  | MYSQL_FIELD_TYPE_MEDIUMTEXT => Some ("MEDIUMTEXT", MYSQL_FIELD_DEFAULT_LENGTH_MEDIUMTEXT)
  | MYSQL_FIELD_TYPE_BLOB => Some ("BLOB", MYSQL_FIELD_DEFAULT_LENGTH_BLOB)
  | MYSQL_FIELD_TYPE_TEXT => Some ("TEXT", MYSQL_FIELD_DEFAULT_LENGTH_TEXT)
  | MYSQL_FIELD_TYPE_LONGBLOB => Some ("LONGBLOB", MYSQL_FIELD_DEFAULT_LENGTH_LONGBLOB)
  | MYSQL_FIELD_TYPE_LONGTEXT => Some ("LONGTEXT", MYSQL_FIELD_DEFAULT_LENGTH_LONGTEXT)
  | _ => None
  end%string.

Definition sized_text (name : string) (length : Z) : text := snprintf 64 (chars name ++ chars "(" ++ print_signed (s32 length) ++ chars ")").

(** The text that is returned, and what the static buffer [buf] then holds; other types return the buffer as it is. *)
Definition get_field_type (f : MysqlTableFieldInfo) (buf : text) : text * text :=
  let default_length := type_length f =? MYSQL_FIELD_DEFAULT_LENGTH in
  let print t := (t, t) in
  match sized_type (field_type f) with
  | Some (name, l) => print (sized_text name (if default_length then l else type_length f))
  | None =>
    match field_type f with
    | MYSQL_FIELD_TYPE_DATE => (chars "DATE", buf)
    | MYSQL_FIELD_TYPE_DATETIME => (chars "DATETIME", buf)
    | MYSQL_FIELD_TYPE_TIMESTAMP => if default_length then (chars "TIMESTAMP", buf) else print (sized_text "TIMESTAMP" (type_length f))
    | _ => (buf, buf)
    end
  end.

Definition s_flags_info : list (Z * string) := [
  (MYSQL_TABLE_CREATE_ZEROFILL, "ZEROFILL"); (MYSQL_TABLE_CREATE_UNSIGNED, "UNSIGNED"); (MYSQL_TABLE_CREATE_AUTOINCREMENT, "AUTO_INCREMENT");
  (MYSQL_TABLE_CREATE_NULL, "NULL"); (MYSQL_TABLE_CREATE_NOT_NULL, "NOT NULL"); (MYSQL_TABLE_CREATE_DEFAULT, "DEFAULT") ]%string.

Definition data_type (ft : MysqlTableFieldType) : bool := IS_MYSQL_TEXT_TYPE ft || IS_MYSQL_BINARY_TYPE ft || IS_MYSQL_BLOB_TYPE ft.

(** What is printed after the flags so far; nothing is for a default of other types. *)
Definition flag_text (ft : MysqlTableFieldType) (flag : Z) (str : string) : option text :=
  if flag =? MYSQL_TABLE_CREATE_DEFAULT then
    if IS_MYSQL_INT_TYPE ft then Some (chars " " ++ chars str ++ chars " 0")
    else if data_type ft then Some (chars " " ++ chars str ++ chars " ''")
    else match ft with MYSQL_FIELD_TYPE_TIMESTAMP => Some (chars " " ++ chars str ++ chars " CURRENT_TIMESTAMP") | _ => None end
  else Some (chars " " ++ chars str).

(** Two buffers in turns; [pbuf] is what the last one holds.  [bi] starts at -1, where nothing can be read. *)
Fixpoint print_flags (ft : MysqlTableFieldType) (flags : Z) (l : list (Z * string)) (bi : Z) (buf : list text) (pbuf : text) : option text :=
  match l with
  | [] => at_index bi buf
  | (flag, str) :: l =>
    if has_flag flags flag then
      let bi := if 2 <=? bi + 1 then 0 else bi + 1 in
      let buf := match flag_text ft flag str with Some t => <[Z.to_nat bi := snprintf 128 (pbuf ++ t)]> buf | None => buf end in
      pbuf ← at_index bi buf; print_flags ft flags l bi buf pbuf
    else print_flags ft flags l bi buf pbuf
  end.
Definition get_field_create_flags (f : MysqlTableFieldInfo) : option text := print_flags (field_type f) (create_flags f) s_flags_info (-1) [[]; []] [].

Definition MYSQL_INDEX_TYPE_NONE : Z := 0.
Definition MYSQL_INDEX_TYPE_NORMAL : Z := 1.
Definition MYSQL_INDEX_TYPE_UNIQUE : Z := 2.

Definition get_field_index_type (f : MysqlTableFieldInfo) : option text :=
  if index_type f =? MYSQL_INDEX_TYPE_NORMAL then Some (chars "index") else if index_type f =? MYSQL_INDEX_TYPE_UNIQUE then Some (chars "unique") else None.

(** ** The loader *)

Section loader.
Variable answer : nat -> Outcome Z.

(** The statements that were sent with their answers, the result of the connector, and the static buffer. *)
Record LoaderState : Type := mkLoader { ls_sent : list (text * Outcome Z); ls_res : Result Z; ls_type : text }.

Definition ls_set_type (t : text) (s : LoaderState) : LoaderState := mkLoader (ls_sent s) (ls_res s) t.
(** The buffers of the loader and of the connector. *)
Definition LOADER_BUF_SIZE : Z := 1024 * 8.
Definition MAX_BUFFER_SIZE : Z := 1024 * 16.

(** The statement is in a buffer of [size] bytes. *)
Definition ask (size : Z) (query : Outcome Z -> Result Z -> bool * Result Z) (stmt : text) (s : LoaderState) : bool * LoaderState :=
  let stmt := snprintf size stmt in
  let o := answer (length (ls_sent s)) in
  let '(ok, r) := query o (ls_res s) in (ok, mkLoader (ls_sent s ++ [(stmt, o)]) r (ls_type s)).
Definition loader_query := ask LOADER_BUF_SIZE.

(** [res.fetch()]: the rows are given by their number. *)
Definition fetch (r : Result Z) : bool * Result Z :=
  match res_rows r with Some n => (0 <? n, mkResult (Some (if 0 <? n then n - 1 else n)) (res_err r)) | None => (false, r) end.

Definition index_statement (table_name name : text) (sized unique : bool) (l : Z) : text :=
  let column := chars "`" ++ name ++ chars "`" ++ (if sized then chars "(" ++ print_signed l ++ chars ")" else []) in
  if unique then chars "ALTER TABLE `" ++ table_name ++ chars "` ADD UNIQUE (" ++ column ++ chars ")"
  else chars "ALTER TABLE `" ++ table_name ++ chars "` ADD INDEX " ++ name ++ chars "_index (" ++ column ++ chars ")".

Definition describe_statement (table_name name : text) : text := chars "DESCRIBE " ++ table_name ++ chars " " ++ name.
Definition add_statement (table_name name type flags : text) : text :=
  chars "ALTER TABLE `" ++ table_name ++ chars "` ADD COLUMN `" ++ name ++ chars "` " ++ type ++ chars " " ++ flags.

Definition add_field (table_name : text) (f : MysqlTableFieldInfo) (s : LoaderState) : option (bool * LoaderState) :=
  let '(ok, s) := loader_query real_read_query (describe_statement table_name (fi_name f)) s in
  if negb ok then Some (false, s) else
  let '(row, r) := fetch (ls_res s) in
  let s := mkLoader (ls_sent s) r (ls_type s) in
  if row then Some (true, s) else
  let '(field_type_str, buf) := get_field_type f (ls_type s) in
  let s := ls_set_type buf s in
  field_create_str ← get_field_create_flags f;
  let '(ok, s) := loader_query real_query (add_statement table_name (fi_name f) field_type_str field_create_str) s in
  if negb ok then Some (false, s) else
  match get_field_index_type f with
  | None => Some (true, s)
  | Some index_type_str =>
    l ← (if type_length f =? MYSQL_FIELD_DEFAULT_LENGTH then l ← mysql_field_default_length (field_type f); Some (s32 l) else Some (type_length f));
    if l <? 0 then Some (false, s) else
    let unique := bool_decide (index_type_str = chars "unique") in
    let '(ok, s) := loader_query real_query (index_statement table_name (fi_name f) (data_type (field_type f)) unique l) s in
    Some (ok, s)
  end.

(** The columns from the [i]th on, without the primary key. *)
Fixpoint add_fields (table_name : text) (primary_key_index i : Z) (fs : list MysqlTableFieldInfo) (s : LoaderState) : option (bool * LoaderState) :=
  match fs with
  | [] => Some (true, s)
  | f :: fs =>
    if i =? primary_key_index then add_fields table_name primary_key_index (i + 1) fs s else
    '(ok, s) ← add_field table_name f s;
    if negb ok then Some (false, s) else add_fields table_name primary_key_index (i + 1) fs s
  end.

Definition create_statement (t : MysqlTableInfo) (type flags : text) : text :=
  chars "CREATE TABLE IF NOT EXISTS `" ++ ti_name t ++ chars "` (`" ++ primary_key t ++ chars "` " ++ type ++ chars " " ++ flags ++
  chars ", primary key(`" ++ primary_key t ++ chars "`)) ENGINE=" ++
  match engine_type t with MYSQL_ENGINE_MYISAM => chars "MyISAM" | MYSQL_ENGINE_INNODB => chars "InnoDB" end.

Definition loadTable (t : MysqlTableInfo) (s : LoaderState) : option (bool * LoaderState) :=
  if (lenZ (fields_info t) <=? primary_key_index t) || (primary_key_index t <? 0) then Some (false, s) else
  f ← fields_info t !! Z.to_nat (primary_key_index t);
  if negb (bool_decide (fi_name f = primary_key t)) then Some (false, s) else
  let '(primary_field_type, buf) := get_field_type f (ls_type s) in
  let s := ls_set_type buf s in
  primary_field_create_flags ← get_field_create_flags f;
  let '(ok, s) := loader_query real_query (create_statement t primary_field_type primary_field_create_flags) s in
  if negb ok then Some (false, s) else add_fields (ti_name t) (primary_key_index t) 0 (fields_info t) s.

Fixpoint load_tables (ts : list MysqlTableInfo) (s : LoaderState) : option (bool * LoaderState) :=
  match ts with
  | [] => Some (true, s)
  | t :: ts => '(ok, s) ← loadTable t s; if negb ok then Some (false, s) else load_tables ts s
  end.

(** [MysqlConnector::create_db]. *)
Definition create_db (db_name : text) (s : LoaderState) : bool * LoaderState :=
  ask MAX_BUFFER_SIZE real_query (chars "CREATE DATABASE IF NOT EXISTS " ++ db_name) s.

Definition load (config : MysqlDatabaseConfig) (s : LoaderState) : option (bool * LoaderState) :=
  let '(ok, s) := create_db (dbname config) s in
  if negb ok then Some (false, s) else load_tables (tables_info config) s.

(** ** Operations that no server calls *)

Definition dropTable (table_name : text) (s : LoaderState) : bool * LoaderState := loader_query real_query (chars "DROP TABLE " ++ table_name) s.
Definition remove_field (table_name field_name : text) (s : LoaderState) : bool * LoaderState :=
  loader_query real_query (chars "ALTER TABLE `" ++ table_name ++ chars "` DROP COLUMN `" ++ field_name ++ chars "`") s.
Definition rename_field (table_name old_field_name new_field_name : text) (s : LoaderState) : bool * LoaderState :=
  loader_query real_query (chars "ALTER TABLE `" ++ table_name ++ chars "` CHANGE `" ++ old_field_name ++ chars "` `" ++ new_field_name ++ chars "`") s.
Definition modify_field_attr (table_name : text) (f : MysqlTableFieldInfo) (s : LoaderState) : option (bool * LoaderState) :=
  let '(field_type_str, buf) := get_field_type f (ls_type s) in
  let s := ls_set_type buf s in
  field_create_str ← get_field_create_flags f;
  Some (loader_query real_query (chars "ALTER TABLE `" ++ table_name ++ chars "` MODIFY `" ++ fi_name f ++ chars "` " ++ field_type_str ++ chars " " ++ field_create_str) s).
End loader.
