(* ===== verification/ConfigLoaderProps.v ===== *)
(** * What the loader makes

    Which texts of columns are right, and the statements that a configuration is turned into. *)
From S2P Require Import Prelude Text MysqlPool SqlFormat ConfigLoader.
From Stdlib Require Import ZArith Lia String.
From stdpp Require Import base option list gmap.
Local Open Scope Z_scope.

(** ** Flags *)

(** The texts of the flags that are set, in order; a default is only given to the types that have one. *)
Definition create_flags_text (ft : MysqlTableFieldType) (flags : Z) : text :=
  mjoin ((fun '(flag, str) => if has_flag flags flag then default [] (flag_text ft flag str) else []) <$> s_flags_info).

Definition has_default (ft : MysqlTableFieldType) : bool := IS_MYSQL_INT_TYPE ft || data_type ft || bool_decide (ft = MYSQL_FIELD_TYPE_TIMESTAMP).

Definition flags_fit (ft : MysqlTableFieldType) (flags : Z) : bool :=
  negb (Z.land flags 63 =? 0) && (negb (has_flag flags MYSQL_TABLE_CREATE_DEFAULT) || has_default ft || (Z.land flags 63 =? MYSQL_TABLE_CREATE_DEFAULT)).

(** Types that are treated alike. *)
Definition like_type (ft : MysqlTableFieldType) : MysqlTableFieldType :=
  if IS_MYSQL_INT_TYPE ft then MYSQL_FIELD_TYPE_INT else if data_type ft then MYSQL_FIELD_TYPE_CHAR
  else match ft with MYSQL_FIELD_TYPE_TIMESTAMP => MYSQL_FIELD_TYPE_TIMESTAMP | _ => MYSQL_FIELD_TYPE_FLOAT end.

Lemma like_type_cases ft : like_type ft ∈ [MYSQL_FIELD_TYPE_INT; MYSQL_FIELD_TYPE_CHAR; MYSQL_FIELD_TYPE_TIMESTAMP; MYSQL_FIELD_TYPE_FLOAT].
Proof. apply (bool_decide_unpack _). by destruct ft. Qed.

Lemma like_flag_text ft flag str : flag_text (like_type ft) flag str = flag_text ft flag str.
Proof. by destruct ft. Qed.

Lemma like_has_default ft : has_default (like_type ft) = has_default ft.
Proof. by destruct ft. Qed.

Lemma like_print ft flags l : forall bi buf pbuf, print_flags (like_type ft) flags l bi buf pbuf = print_flags ft flags l bi buf pbuf.
Proof.
  induction l as [|[flag str] l IH]; intros bi buf pbuf; [done|]. cbn [print_flags]. rewrite like_flag_text. destruct (has_flag flags flag); [|apply IH].
  destruct (at_index _ _); [apply IH|done].
Qed.

Lemma like_flags_text ft flags : create_flags_text (like_type ft) flags = create_flags_text ft flags.
Proof. unfold create_flags_text. cbn [fmap list_fmap s_flags_info]. by rewrite !like_flag_text. Qed.

Lemma has_flag_low flags flag : Z.land 63 flag = flag -> has_flag (Z.land flags 63) flag = has_flag flags flag.
Proof. intros E. unfold has_flag. by rewrite <- Z.land_assoc, E. Qed.

Definition low_flags (l : list (Z * string)) : Prop := Forall (fun x => Z.land 63 (fst x) = fst x) l.

Lemma low_flags_info : low_flags s_flags_info.
Proof. by repeat constructor. Qed.

Lemma low_flags_text ft flags : create_flags_text ft (Z.land flags 63) = create_flags_text ft flags.
Proof.
  unfold create_flags_text. f_equal. apply list_fmap_ext. intros i [flag str] Hi. apply list_elem_of_lookup_2 in Hi.
  assert (Hl := low_flags_info). unfold low_flags in Hl. rewrite Forall_forall in Hl. by rewrite has_flag_low by apply (Hl _ Hi).
Qed.

Lemma low_flags_print ft flags l : low_flags l -> forall bi buf pbuf, print_flags ft (Z.land flags 63) l bi buf pbuf = print_flags ft flags l bi buf pbuf.
Proof.
  induction 1 as [|[flag str] l Hx _ IH]; intros bi buf pbuf; [done|]. cbn [print_flags]. rewrite has_flag_low by exact Hx.
  destruct (has_flag flags flag); [|apply IH]. destruct (at_index _ _); [apply IH|done].
Qed.

Lemma flags_checked : forallb (fun ft => forallb (fun flags =>
  eqb (bool_decide (print_flags ft flags s_flags_info (-1) [[]; []] [] = Some (create_flags_text ft flags))) (flags_fit ft flags)) (seqZ 0 64))
  [MYSQL_FIELD_TYPE_INT; MYSQL_FIELD_TYPE_CHAR; MYSQL_FIELD_TYPE_TIMESTAMP; MYSQL_FIELD_TYPE_FLOAT] = true.
Proof. vm_compute. reflexivity. Qed.

Lemma flags_text_iff f :
  get_field_create_flags f = Some (create_flags_text (field_type f) (create_flags f)) <->
  Z.land (create_flags f) 63 <> 0 /\
  (has_flag (create_flags f) MYSQL_TABLE_CREATE_DEFAULT = false \/ has_default (field_type f) = true \/ Z.land (create_flags f) 63 = MYSQL_TABLE_CREATE_DEFAULT).
Proof.
  unfold get_field_create_flags. generalize (field_type f) (create_flags f). clear f. intros ft flags. rewrite <- (low_flags_print _ _ _ low_flags_info), <- low_flags_text, <- like_print, <- like_flags_text, <- like_has_default.
  assert (H := flags_checked). rewrite forallb_forall in H. specialize (H (like_type ft)). rewrite <- list_elem_of_In, forallb_forall in H.
  specialize (H (like_type_cases ft) (Z.land flags 63)).
  rewrite <- list_elem_of_In, elem_of_seqZ in H.
  assert (Hr : 0 <= Z.land flags 63 < 0 + 64). { change 63 with (Z.ones 6). rewrite Z.land_ones by lia. apply Z.mod_pos_bound. lia. }
  specialize (H Hr). apply eqb_prop in H. rewrite <- (bool_decide_eq_true (print_flags _ _ _ _ _ _ = _)), H. unfold flags_fit.
  rewrite (has_flag_low flags) by done. rewrite <- Z.land_assoc, Z.land_diag. rewrite andb_true_iff, !orb_true_iff, !negb_true_iff, Z.eqb_neq, Z.eqb_eq. tauto.
Qed.

(** The text of a column's flags is all of them in order, the default included, if and only if at least one is
    set and the type has a default when one is asked for (or it is the only flag).  Without any flag the text is
    read in front of the array, and a default of another type loses a flag. *)
Theorem create_flags_exact_iff f :
  get_field_create_flags f = Some (create_flags_text (field_type f) (create_flags f)) <->
  Z.land (create_flags f) 63 <> 0 /\
  (has_flag (create_flags f) MYSQL_TABLE_CREATE_DEFAULT = false \/ has_default (field_type f) = true \/ Z.land (create_flags f) 63 = MYSQL_TABLE_CREATE_DEFAULT).
Proof. apply flags_text_iff. Qed.

(** ** Types *)

Definition own_type (ft : MysqlTableFieldType) : bool :=
  match ft with MYSQL_FIELD_TYPE_NONE | MYSQL_FIELD_TYPE_TIME | MYSQL_FIELD_TYPE_ENUM | MYSQL_FIELD_TYPE_SET => false | _ => true end.
Definition column_type (f : MysqlTableFieldInfo) : text := (get_field_type f []).1.

(** A type that is not printed gets the text of the last one that was. *)
Lemma get_field_type_text f buf : (get_field_type f buf).1 = if own_type (field_type f) then column_type f else buf.
Proof.
  unfold column_type, get_field_type. destruct f as [name ft len idx flags]; cbn [field_type type_length].
  destruct ft; cbn [sized_type own_type fst]; try reflexivity. by destruct (len =? MYSQL_FIELD_DEFAULT_LENGTH).
Qed.

(** ** The statements of a configuration *)

Notation event := (text * Outcome Z)%type.

Definition answered (o : Outcome Z) : bool := match o with oc_error _ => false | _ => true end.
Definition loader_stmt (t : text) : text := snprintf LOADER_BUF_SIZE t.

(** The length that an index is given. *)
Definition index_length (f : MysqlTableFieldInfo) : Z :=
  if type_length f =? MYSQL_FIELD_DEFAULT_LENGTH then s32 (default 0 (mysql_field_default_length (field_type f))) else type_length f.

Record column_ok (f : MysqlTableFieldInfo) : Prop := mkColumnOk {
  co_type : own_type (field_type f) = true;
  co_flags : flags_fit (field_type f) (create_flags f) = true;
  co_index : is_Some (get_field_index_type f) -> 0 <= index_length f;
}.

Definition describe_event (table : text) (f : MysqlTableFieldInfo) : text := loader_stmt (describe_statement table (fi_name f)).
Definition add_event (table : text) (f : MysqlTableFieldInfo) : text :=
  loader_stmt (add_statement table (fi_name f) (column_type f) (create_flags_text (field_type f) (create_flags f))).
Definition index_event (table : text) (f : MysqlTableFieldInfo) : text :=
  loader_stmt (index_statement table (fi_name f) (data_type (field_type f)) (index_type f =? MYSQL_INDEX_TYPE_UNIQUE) (index_length f)).

(** What is said and answered for a column, and whether the loader goes on. *)
Inductive column_run (table : text) (f : MysqlTableFieldInfo) : bool -> list event -> Prop :=
| cr_refused o : (forall n, o <> oc_rows n) -> column_run table f false [(describe_event table f, o)]
| cr_exists n : 0 < n -> column_run table f true [(describe_event table f, oc_rows n)]
| cr_not_added n e : n <= 0 -> column_run table f false [(describe_event table f, oc_rows n); (add_event table f, oc_error e)]
| cr_added n o : n <= 0 -> answered o = true -> get_field_index_type f = None ->
    column_run table f true [(describe_event table f, oc_rows n); (add_event table f, o)]
| cr_indexed n o o2 : n <= 0 -> answered o = true -> is_Some (get_field_index_type f) ->
    column_run table f (answered o2) [(describe_event table f, oc_rows n); (add_event table f, o); (index_event table f, o2)].

Inductive run_all {A : Type} (step : A -> bool -> list event -> Prop) : list A -> bool -> list event -> Prop :=
| ra_nil : run_all step [] true []
| ra_stop x xs l : step x false l -> run_all step (x :: xs) false l
| ra_next x xs l ok l' : step x true l -> run_all step xs ok l' -> run_all step (x :: xs) ok (l ++ l').

(** The columns that are added: all but the primary key. *)
Definition other_columns (t : MysqlTableInfo) : list MysqlTableFieldInfo := delete (Z.to_nat (primary_key_index t)) (fields_info t).
Definition key_column (t : MysqlTableInfo) : option MysqlTableFieldInfo := fields_info t !! Z.to_nat (primary_key_index t).

Record table_ok (t : MysqlTableInfo) : Prop := mkTableOk {
  to_key : 0 <= primary_key_index t /\ exists f, key_column t = Some f /\ fi_name f = primary_key t;
  to_columns : Forall column_ok (fields_info t);
}.

Definition create_event (t : MysqlTableInfo) : text :=
  match key_column t with
  | Some f => loader_stmt (create_statement t (column_type f) (create_flags_text (field_type f) (create_flags f)))
  | None => []
  end.

Inductive table_run (t : MysqlTableInfo) : bool -> list event -> Prop :=
| tr_refused e : table_run t false [(create_event t, oc_error e)]
| tr_created o ok l : answered o = true -> run_all (column_run (ti_name t)) (other_columns t) ok l -> table_run t ok ((create_event t, o) :: l).

Definition database_event (c : MysqlDatabaseConfig) : text := snprintf MAX_BUFFER_SIZE (chars "CREATE DATABASE IF NOT EXISTS " ++ dbname c).

Inductive load_run (c : MysqlDatabaseConfig) : bool -> list event -> Prop :=
| lr_refused e : load_run c false [(database_event c, oc_error e)]
| lr_created o ok l : answered o = true -> run_all table_run (tables_info c) ok l -> load_run c ok ((database_event c, o) :: l).

Section load.
Variable answer : nat -> Outcome Z.

Lemma ask_effect size (t : text) s : exists o r, ask answer size real_query t s = (answered o, mkLoader (ls_sent s ++ [(snprintf size t, o)]) r (ls_type s)).
Proof using. exists (answer (length (ls_sent s))). unfold ask, real_query. destruct (answer _); by eexists. Qed.

Lemma default_length_total ft : is_Some (mysql_field_default_length ft).
Proof using. by destruct ft; eexists. Qed.

Lemma flags_text_ok f : column_ok f -> get_field_create_flags f = Some (create_flags_text (field_type f) (create_flags f)).
Proof using.
  intros [_ Hf _]. unfold flags_fit in Hf. apply andb_true_iff in Hf as [H1 H2]. rewrite negb_true_iff, Z.eqb_neq in H1.
  rewrite !orb_true_iff, negb_true_iff, Z.eqb_eq in H2. apply flags_text_iff. tauto.
Qed.

Lemma describe_effect (t : text) s : exists o r, ask answer LOADER_BUF_SIZE real_read_query t s =
  (match o with oc_rows _ => true | _ => false end, mkLoader (ls_sent s ++ [(loader_stmt t, o)]) r (ls_type s)) /\
  match o with oc_rows n => res_rows r = Some n | _ => True end.
Proof using. exists (answer (length (ls_sent s))). unfold ask, real_read_query, real_query. destruct (answer _); by eexists. Qed.

Lemma add_field_run table f s : column_ok f ->
  exists ok s' l, add_field answer table f s = Some (ok, s') /\ ls_sent s' = ls_sent s ++ l /\ column_run table f ok l.
Proof using.
  intros Hf. unfold add_field, loader_query. destruct (describe_effect (describe_statement table (fi_name f)) s) as (o & r & -> & Hr). cbn [ls_res ls_sent ls_type].
  destruct o as [e| |n]; cbn [negb]; [by eexists _, _, _; split; [done|split; [done|by constructor]]..|]. unfold fetch. rewrite Hr.
  destruct (Z.ltb_spec 0 n) as [Hn|Hn]; [by eexists _, _, _; split; [done|split; [done|by constructor]]|].
  destruct (get_field_type f _) as [ty buf] eqn:Ety. assert (Hty := get_field_type_text f (ls_type s)). rewrite Ety, (co_type _ Hf) in Hty. cbn [fst] in Hty. subst ty.
  rewrite (flags_text_ok f Hf). cbn [mbind option_bind]. unfold ls_set_type. cbn [ls_res ls_sent ls_type].
  destruct (ask_effect LOADER_BUF_SIZE (add_statement table (fi_name f) (column_type f) (create_flags_text (field_type f) (create_flags f)))
    (mkLoader (ls_sent s ++ [(loader_stmt (describe_statement table (fi_name f)), oc_rows n)]) (mkResult (Some n) (res_err r)) buf)) as (o2 & r2 & ->).
  cbn [ls_res ls_sent ls_type]. rewrite <- app_assoc. destruct (answered o2) eqn:Eo2; cbn [negb].
  2:{ eexists _, _, _. split; [done|]. split; [done|]. destruct o2; try done. by constructor. }
  destruct (get_field_index_type f) as [ix|] eqn:Eix; [|by eexists _, _, _; split; [done|split; [done|by constructor]]].
  assert (Hl : (if type_length f =? MYSQL_FIELD_DEFAULT_LENGTH then l ← mysql_field_default_length (field_type f); Some (s32 l) else Some (type_length f)) = Some (index_length f)).
  { unfold index_length. destruct (default_length_total (field_type f)) as [l ->]. by destruct (_ =? _). }
  rewrite Hl. cbn [mbind option_bind]. rewrite (proj2 (Z.ltb_ge _ 0)) by (apply (co_index _ Hf); by rewrite Eix).
  assert (Hu : bool_decide (ix = chars "unique") = (index_type f =? MYSQL_INDEX_TYPE_UNIQUE)).
  { revert Eix. unfold get_field_index_type. destruct (Z.eqb_spec (index_type f) MYSQL_INDEX_TYPE_NORMAL) as [->|]; [by intros <-%(inj Some)|]. destruct (index_type f =? MYSQL_INDEX_TYPE_UNIQUE); [by intros <-%(inj Some)|done]. }
  rewrite Hu. match goal with |- context [ask _ _ _ ?t ?st] => destruct (ask_effect LOADER_BUF_SIZE t st) as (o3 & r3 & ->) end. cbn [ls_sent]. rewrite <- app_assoc.
  eexists _, _, _. split; [done|]. split; [done|]. constructor; [done..|by rewrite Eix].
Qed.

Lemma add_fields_run table k fs : forall i s, Forall column_ok fs ->
  exists ok s' l, add_fields answer table k i fs s = Some (ok, s') /\ ls_sent s' = ls_sent s ++ l /\
    run_all (column_run table) (if i <=? k then delete (Z.to_nat (k - i)) fs else fs) ok l.
Proof using.
  induction fs as [|f fs IH]; intros i s Hf; cbn [add_fields].
  - exists true, s, []. rewrite app_nil_r. split; [done|]. split; [done|]. destruct (i <=? k); constructor.
  - inversion Hf as [|? ? Hf1 Hf2]; subst. destruct (Z.eqb_spec i k) as [<-|Hik].
    + destruct (IH (i + 1) s Hf2) as (ok & s' & l & E & El & Hr). exists ok, s', l. rewrite Z.leb_refl, Z.sub_diag. cbn [Z.to_nat delete list_delete].
      rewrite (proj2 (Z.leb_gt (i + 1) i)) in Hr by lia. done.
    + destruct (add_field_run table f s Hf1) as (ok1 & s1 & l1 & -> & E1 & R1). cbn [mbind option_bind].
      assert (Hd : (if i <=? k then delete (Z.to_nat (k - i)) (f :: fs) else f :: fs) = f :: (if i + 1 <=? k then delete (Z.to_nat (k - (i + 1))) fs else fs)).
      { destruct (Z.leb_spec i k), (Z.leb_spec (i + 1) k); try lia; [|done]. replace (k - i) with (Z.succ (k - (i + 1))) by lia. rewrite Z2Nat.inj_succ by lia. done. }
      rewrite Hd. destruct ok1; cbn [negb].
      * destruct (IH (i + 1) s1 Hf2) as (ok & s' & l & -> & El & Hr). exists ok, s', (l1 ++ l). rewrite El, E1, app_assoc. split; [done|]. split; [done|]. by constructor.
      * exists false, s1, l1. split; [done|]. split; [done|]. by constructor.
Qed.

Lemma loadTable_run t s : table_ok t -> exists ok s' l, loadTable answer t s = Some (ok, s') /\ ls_sent s' = ls_sent s ++ l /\ table_run t ok l.
Proof using.
  intros [[Hk (f & Ef & En)] Hc]. unfold loadTable. assert (Hl := lookup_lt_Some _ _ _ Ef). assert (Hf : column_ok f) by (eapply Forall_lookup_1; [exact Hc|exact Ef]).
  rewrite (proj2 (Z.leb_gt _ _)), (proj2 (Z.ltb_ge _ _)) by lia. cbn [orb]. unfold key_column in Ef. rewrite Ef. cbn [mbind option_bind].
  rewrite bool_decide_eq_true_2 by done. cbn [negb]. destruct (get_field_type f _) as [ty buf] eqn:Ety.
  assert (Hty := get_field_type_text f (ls_type s)). rewrite Ety, (co_type _ Hf) in Hty. cbn [fst] in Hty. subst ty. rewrite (flags_text_ok f Hf). cbn [mbind option_bind].
  unfold loader_query, ls_set_type. match goal with |- context [ask _ _ _ ?t ?st] => destruct (ask_effect LOADER_BUF_SIZE t st) as (o & r & ->) end. cbn [ls_sent ls_type].
  assert (Hev : create_event t = loader_stmt (create_statement t (column_type f) (create_flags_text (field_type f) (create_flags f)))) by (unfold create_event, key_column; by rewrite Ef).
  change (snprintf LOADER_BUF_SIZE (create_statement t (column_type f) (create_flags_text (field_type f) (create_flags f))))
    with (loader_stmt (create_statement t (column_type f) (create_flags_text (field_type f) (create_flags f)))). rewrite <- Hev.
  destruct (answered o) eqn:Eo; cbn [negb].
  - match goal with |- context [add_fields _ _ _ _ _ ?st] => destruct (add_fields_run (ti_name t) (primary_key_index t) (fields_info t) 0 st Hc) as (ok & s' & l & -> & El & Hr) end.
    exists ok, s', ((create_event t, o) :: l). split; [done|]. split; [rewrite El; cbn [ls_sent]; by rewrite <- app_assoc|]. constructor; [done|].
    rewrite (proj2 (Z.leb_le _ _) Hk), Z.sub_0_r in Hr. done.
  - eexists _, _, _. split; [done|]. split; [done|]. destruct o; try done. constructor.
Qed.

Lemma load_tables_run ts : forall s, Forall table_ok ts -> exists ok s' l, load_tables answer ts s = Some (ok, s') /\ ls_sent s' = ls_sent s ++ l /\ run_all table_run ts ok l.
Proof using.
  induction ts as [|t ts IH]; intros s Ht; cbn [load_tables].
  - exists true, s, []. rewrite app_nil_r. split; [done|]. split; [done|constructor].
  - inversion Ht as [|? ? Ht1 Ht2]; subst. destruct (loadTable_run t s Ht1) as (ok1 & s1 & l1 & -> & E1 & R1). cbn [mbind option_bind]. destruct ok1; cbn [negb].
    + destruct (IH s1 Ht2) as (ok & s' & l & -> & El & Hr). exists ok, s', (l1 ++ l). rewrite El, E1, app_assoc. split; [done|]. split; [done|]. by constructor.
    + exists false, s1, l1. split; [done|]. split; [done|]. by constructor.
Qed.
End load.

(** A column that is made: it is there or was added. *)
Definition column_made (l : list event) (table : text) (f : MysqlTableFieldInfo) : Prop :=
  exists n, (describe_event table f, oc_rows n) ∈ l /\ (n <= 0 -> exists o, answered o = true /\ (add_event table f, o) ∈ l).

Lemma column_made_weaken l l' table f : (forall x, x ∈ l -> x ∈ l') -> column_made l table f -> column_made l' table f.
Proof. intros Hl (n & H1 & H2). exists n. split; [by apply Hl|]. intros Hn. destruct (H2 Hn) as (o & Ho & Hin). exists o. auto. Qed.

Lemma column_run_made table f l : column_run table f true l -> column_made l table f.
Proof.
  intros Hr. inversion Hr; subst; (eexists; split; [by left|]); intros Hn; [lia|..]; (eexists; split; [|right; by left]); congruence.
Qed.

Lemma run_all_each {A} (step : A -> bool -> list event -> Prop) xs ok l :
  run_all step xs ok l -> ok = true -> forall x, x ∈ xs -> exists l', step x true l' /\ forall y, y ∈ l' -> y ∈ l.
Proof.
  induction 1 as [|x xs l _|x xs l ok l' Hs _ IH]; intros Hok; [by intros x ?%elem_of_nil|done|]. intros y [->|Hy]%elem_of_cons.
  - exists l. split; [done|]. intros z Hz. apply elem_of_app. by left.
  - destruct (IH Hok y Hy) as (l2 & H1 & H2). exists l2. split; [done|]. intros z Hz. apply elem_of_app. right. auto.
Qed.

(** C21. Loading a configuration whose columns have types that are printed, flags that fit and indexable lengths
    always ends without reading what it must not, and says exactly: create the database, then for each table create
    it with its key and describe each other column in order, adding and indexing those that have no row; it stops at
    the first refusal.  When it returns true every column of every table is there. *)
Theorem load_makes_columns answer config s :
  Forall table_ok (tables_info config) ->
  exists ok s' l, load answer config s = Some (ok, s') /\ ls_sent s' = ls_sent s ++ l /\ load_run config ok l /\
    (ok = true -> forall t f, t ∈ tables_info config -> f ∈ other_columns t -> column_made l (ti_name t) f).
Proof.
  intros Ht.
  assert (Hload : exists ok s' l, load answer config s = Some (ok, s') /\ ls_sent s' = ls_sent s ++ l /\ load_run config ok l).
  { unfold load, create_db. match goal with |- context [ask _ _ _ ?t ?st] => destruct (ask_effect answer MAX_BUFFER_SIZE t st) as (o & r & ->) end.
    destruct (answered o) eqn:Eo; cbn [negb].
    - match goal with |- context [load_tables _ _ ?st] => destruct (load_tables_run answer _ st Ht) as (ok & s' & l & -> & El & Hr) end.
      exists ok, s', ((database_event config, o) :: l). split; [done|]. split; [rewrite El; cbn [ls_sent]; by rewrite <- app_assoc|by constructor].
    - eexists _, _, _. split; [done|]. split; [done|]. destruct o; try done. constructor. }
  destruct Hload as (ok & s' & l & E1 & E2 & Hr). exists ok, s', l. split; [done|]. split; [done|]. split; [done|]. intros -> t f Hin Hf.
  inversion Hr as [|o ok l0 Ho Hall]; subst. destruct (run_all_each _ _ _ _ Hall eq_refl t Hin) as (lt & Hrt & Hlt). inversion Hrt as [|o1 ok1 l1 Ho1 Hall1]; subst.
  destruct (run_all_each _ _ _ _ Hall1 eq_refl f Hf) as (lf & Hrf & Hlf). apply column_run_made in Hrf.
  eapply column_made_weaken; [|exact Hrf]. intros x Hx. right. apply Hlt. right. by apply Hlf.
Qed.

(** ** An example *)

Definition example_account : MysqlTableInfo := mkTableInfo (chars "t_account") 0 (chars "id") [
  mkFieldInfo (chars "id") MYSQL_FIELD_TYPE_INT 0 0 (MYSQL_TABLE_CREATE_AUTOINCREMENT + MYSQL_TABLE_CREATE_UNSIGNED + MYSQL_TABLE_CREATE_NOT_NULL);
  mkFieldInfo (chars "account") MYSQL_FIELD_TYPE_VARCHAR 32 1 MYSQL_TABLE_CREATE_NOT_NULL;
  mkFieldInfo (chars "create_time") MYSQL_FIELD_TYPE_TIMESTAMP 0 0 (MYSQL_TABLE_CREATE_NOT_NULL + MYSQL_TABLE_CREATE_DEFAULT)] MYSQL_ENGINE_INNODB.
Definition example_database : MysqlDatabaseConfig := mkDatabaseConfig (chars "jmy_game") [example_account].
(** The database has the table with its key only. *)
Definition example_answers (i : nat) : Outcome Z := match i with 2%nat | 5%nat => oc_rows 0 | _ => oc_done end.

Lemma load_makes_columns_witness : exists s', load example_answers example_database (mkLoader [] Result_new []) = Some (true, s') /\
  (fst <$> ls_sent s') = [
    chars "CREATE DATABASE IF NOT EXISTS jmy_game";
    chars "CREATE TABLE IF NOT EXISTS `t_account` (`id` INT(11)  UNSIGNED AUTO_INCREMENT NOT NULL, primary key(`id`)) ENGINE=InnoDB";
    chars "DESCRIBE t_account account"; chars "ALTER TABLE `t_account` ADD COLUMN `account` VARCHAR(32)  NOT NULL";
    chars "ALTER TABLE `t_account` ADD INDEX account_index (`account`(32))";
    chars "DESCRIBE t_account create_time"; chars "ALTER TABLE `t_account` ADD COLUMN `create_time` TIMESTAMP  NOT NULL DEFAULT CURRENT_TIMESTAMP"] /\
  column_made (ls_sent s') (chars "t_account") (mkFieldInfo (chars "account") MYSQL_FIELD_TYPE_VARCHAR 32 1 MYSQL_TABLE_CREATE_NOT_NULL).
Proof.
  assert (Hc : Forall column_ok (fields_info example_account)).
  { repeat constructor; try (intros [x Hx]; discriminate Hx). intros _. apply Z.leb_le. vm_compute. reflexivity. }
  assert (Ht : Forall table_ok (tables_info example_database)).
  { apply Forall_singleton. split; [|exact Hc]. split; [done|]. eexists. split; reflexivity. }
  destruct (load_makes_columns example_answers example_database (mkLoader [] Result_new []) Ht) as (ok & s' & l & E & El & _ & Hmade).
  assert (Hok : option_map fst (load example_answers example_database (mkLoader [] Result_new [])) = Some true) by (vm_compute; reflexivity).
  assert (Hs : option_map (fun r => fst <$> ls_sent (snd r)) (load example_answers example_database (mkLoader [] Result_new [])) = Some (fst <$> ls_sent s')) by (by rewrite E).
  rewrite E in Hok. apply (inj Some) in Hok. cbn [fst] in Hok. subst ok. exists s'. split; [exact E|]. split.
  - apply (inj Some). rewrite <- Hs. vm_compute. reflexivity.
  - rewrite El. apply (Hmade eq_refl example_account); [by left|]. by left.
Defined.
