(* ===== verification/ThreadPool.v ===== *)
(** * ThreadPool and SafeQueue ([threadpool/threadpool/thread_pool.h], [safe_queue.h])

    Workers, submitters and the thread that shuts the pool down, as steps that interleave.  The operations of the
    queue are atomic, as they hold its mutex.  A worker that waits may wake up spuriously. *)
From S2P Require Import Prelude.
From Stdlib Require Import ZArith Lia.
From stdpp Require Import base option list relations.
Local Open Scope Z_scope.

(** ** SafeQueue *)

Section queue.
Context {T : Type}.
Definition enqueue (t : T) (q : list T) : list T := q ++ [t].
Definition dequeue (q : list T) : option T * list T := match q with [] => (None, []) | t :: q => (Some t, q) end.
Definition queue_empty (q : list T) : bool := match q with [] => true | _ => false end.
End queue.

(** ** ThreadWorker *)

Section pool.
Context {T : Type}.

(** Where a worker is in its loop. *)
Inductive ThreadWorker : Type :=
| wk_check            (** at [while (!m_pool->m_shutdown)] *)
| wk_lock             (** at the lock of [m_conditional_mutex] *)
| wk_test             (** it holds the mutex and asks whether the queue is empty *)
| wk_wait             (** it holds the mutex and is about to wait *)
| wk_waiting          (** it waits without the mutex *)
| wk_woken            (** it was woken and must lock the mutex again *)
| wk_dequeue          (** it holds the mutex and is about to dequeue *)
| wk_run (t : T)      (** it runs a task *)
| wk_end.

(** The thread that calls [shutdown]. *)
Inductive Closing : Type := cl_idle | cl_notify | cl_join | cl_done.

(** [notifying] counts the submitters between [enqueue] and [notify_one].  The last three lists are the tasks that
    were submitted, taken from the queue and finished, in these orders. *)
Record ThreadPool : Type := mkPool {
  m_shutdown : bool;
  m_queue : list T;
  m_threads : list ThreadWorker;
  m_conditional_mutex : option nat;
  notifying : nat;
  closing : Closing;
  submitted : list T; started : list T; finished : list T;
}.

(** After [init]. *)
Definition ThreadPool_init (n_threads : nat) : ThreadPool := mkPool false [] (repeat wk_check n_threads) None 0 cl_idle [] [] [].

Definition tp_set_worker (i : nat) (w : ThreadWorker) (p : ThreadPool) : ThreadPool :=
  mkPool (m_shutdown p) (m_queue p) (<[i := w]> (m_threads p)) (m_conditional_mutex p) (notifying p) (closing p) (submitted p) (started p) (finished p).
Definition tp_set_mutex (o : option nat) (p : ThreadPool) : ThreadPool :=
  mkPool (m_shutdown p) (m_queue p) (m_threads p) o (notifying p) (closing p) (submitted p) (started p) (finished p).
Definition tp_set_notifying (n : nat) (p : ThreadPool) : ThreadPool :=
  mkPool (m_shutdown p) (m_queue p) (m_threads p) (m_conditional_mutex p) n (closing p) (submitted p) (started p) (finished p).
Definition tp_set_closing (c : Closing) (p : ThreadPool) : ThreadPool :=
  mkPool (m_shutdown p) (m_queue p) (m_threads p) (m_conditional_mutex p) (notifying p) c (submitted p) (started p) (finished p).
Definition tp_set_shutdown (p : ThreadPool) : ThreadPool :=
  mkPool true (m_queue p) (m_threads p) (m_conditional_mutex p) (notifying p) (closing p) (submitted p) (started p) (finished p).
Definition tp_set_threads (l : list ThreadWorker) (p : ThreadPool) : ThreadPool :=
  mkPool (m_shutdown p) (m_queue p) l (m_conditional_mutex p) (notifying p) (closing p) (submitted p) (started p) (finished p).

(** [submit] up to [notify_one]. *)
Definition tp_submit (t : T) (p : ThreadPool) : ThreadPool :=
  mkPool (m_shutdown p) (enqueue t (m_queue p)) (m_threads p) (m_conditional_mutex p) (S (notifying p)) (closing p) (submitted p ++ [t]) (started p) (finished p).
(** A task is taken from the queue. *)
Definition tp_take (t : T) (q : list T) (p : ThreadPool) : ThreadPool :=
  mkPool (m_shutdown p) q (m_threads p) (m_conditional_mutex p) (notifying p) (closing p) (submitted p) (started p ++ [t]) (finished p).
Definition tp_finish (t : T) (p : ThreadPool) : ThreadPool :=
  mkPool (m_shutdown p) (m_queue p) (m_threads p) (m_conditional_mutex p) (notifying p) (closing p) (submitted p) (started p) (finished p ++ [t]).

Definition wake (w : ThreadWorker) : ThreadWorker := match w with wk_waiting => wk_woken | _ => w end.

(** A step of worker [i], up to the next place above. *)
Inductive worker_step (i : nat) (p : ThreadPool) : ThreadPool -> Prop :=
| ws_go : m_threads p !! i = Some wk_check -> m_shutdown p = false -> worker_step i p (tp_set_worker i wk_lock p)
| ws_end : m_threads p !! i = Some wk_check -> m_shutdown p = true -> worker_step i p (tp_set_worker i wk_end p)
| ws_lock : m_threads p !! i = Some wk_lock -> m_conditional_mutex p = None -> worker_step i p (tp_set_worker i wk_test (tp_set_mutex (Some i) p))
| ws_empty : m_threads p !! i = Some wk_test -> queue_empty (m_queue p) = true -> worker_step i p (tp_set_worker i wk_wait p)
| ws_nonempty : m_threads p !! i = Some wk_test -> queue_empty (m_queue p) = false -> worker_step i p (tp_set_worker i wk_dequeue p)
| ws_wait : m_threads p !! i = Some wk_wait -> worker_step i p (tp_set_worker i wk_waiting (tp_set_mutex None p))
| ws_relock : m_threads p !! i = Some wk_woken -> m_conditional_mutex p = None -> worker_step i p (tp_set_worker i wk_dequeue (tp_set_mutex (Some i) p))
| ws_dequeued t q : m_threads p !! i = Some wk_dequeue -> dequeue (m_queue p) = (Some t, q) ->
    worker_step i p (tp_set_worker i (wk_run t) (tp_set_mutex None (tp_take t q p)))
| ws_nothing q : m_threads p !! i = Some wk_dequeue -> dequeue (m_queue p) = (None, q) -> worker_step i p (tp_set_worker i wk_check (tp_set_mutex None p))
| ws_ran t : m_threads p !! i = Some (wk_run t) -> worker_step i p (tp_set_worker i wk_check (tp_finish t p)).

(** What goes on by itself: the workers, the notifications that are under way, and [shutdown] once it was called. *)
Inductive own_step (p : ThreadPool) : ThreadPool -> Prop :=
| os_worker i p' : worker_step i p p' -> own_step p p'
| os_notify_one n i : notifying p = S n -> m_threads p !! i = Some wk_waiting -> own_step p (tp_set_worker i wk_woken (tp_set_notifying n p))
| os_notify_none n : notifying p = S n -> wk_waiting ∉ m_threads p -> own_step p (tp_set_notifying n p)
| os_notify_all : closing p = cl_notify -> own_step p (tp_set_closing cl_join (tp_set_threads (wake <$> m_threads p) p))
| os_join : closing p = cl_join -> Forall (eq wk_end) (m_threads p) -> own_step p (tp_set_closing cl_done p).

(** What comes from outside: submissions, the call of [shutdown], a spurious wake-up. *)
Inductive outer_step (p : ThreadPool) : ThreadPool -> Prop :=
| us_submit t : outer_step p (tp_submit t p)
| us_shutdown : closing p = cl_idle -> outer_step p (tp_set_closing cl_notify (tp_set_shutdown p))
| us_spurious i : m_threads p !! i = Some wk_waiting -> outer_step p (tp_set_worker i wk_woken p).

Definition pool_step (p p' : ThreadPool) : Prop := own_step p p' \/ outer_step p p'.
Definition reachable (n_threads : nat) (p : ThreadPool) : Prop := rtc pool_step (ThreadPool_init n_threads) p.

(** ** What always holds *)

Definition holds_mutex (w : ThreadWorker) : bool := match w with wk_test | wk_wait | wk_dequeue => true | _ => false end.
Definition running (w : ThreadWorker) : option T := match w with wk_run t => Some t | _ => None end.

(** The mutex is held by the one worker that is between locking and releasing it. *)
Definition mutex_ok (o : option nat) (l : list ThreadWorker) : Prop := forall i, o = Some i <-> exists w, l !! i = Some w /\ holds_mutex w = true.

Record pool_inv (n_threads : nat) (p : ThreadPool) : Prop := mkPoolInv {
  pi_threads : length (m_threads p) = n_threads;
  pi_queue : submitted p = started p ++ m_queue p;
  pi_tasks : started p ≡ₚ finished p ++ omap running (m_threads p);
  pi_mutex : mutex_ok (m_conditional_mutex p) (m_threads p);
  pi_closing : m_shutdown p = negb (match closing p with cl_idle => true | _ => false end);
  pi_done : closing p = cl_done -> Forall (eq wk_end) (m_threads p);
}.

(** A worker goes from [w0] to [w]. *)
Lemma insert_split i w0 w (l : list ThreadWorker) : l !! i = Some w0 -> exists l1 l2, l = l1 ++ w0 :: l2 /\ <[i := w]> l = l1 ++ w :: l2.
Proof using.
  intros Hi. exists (take i l), (drop (S i) l). split; [by rewrite take_drop_middle|]. apply insert_take_drop. by eapply lookup_lt_Some.
Qed.

Lemma running_same i w0 w (l : list ThreadWorker) : l !! i = Some w0 -> running w0 = running w -> omap running (<[i := w]> l) = omap running l.
Proof using.
  intros Hi Hr. destruct (insert_split i w0 w l Hi) as (l1 & l2 & -> & ->). rewrite !omap_app. cbn [omap list_omap]. by rewrite Hr.
Qed.

Lemma running_start i w0 t (l : list ThreadWorker) : l !! i = Some w0 -> running w0 = None -> omap running (<[i := wk_run t]> l) ≡ₚ t :: omap running l.
Proof using.
  intros Hi Hr. destruct (insert_split i w0 (wk_run t) l Hi) as (l1 & l2 & -> & ->). rewrite !omap_app. cbn [omap list_omap running]. rewrite Hr. symmetry. apply Permutation_middle.
Qed.

Lemma running_stop i w t (l : list ThreadWorker) : l !! i = Some (wk_run t) -> running w = None -> t :: omap running (<[i := w]> l) ≡ₚ omap running l.
Proof using.
  intros Hi Hr. destruct (insert_split i (wk_run t) w l Hi) as (l1 & l2 & -> & ->). rewrite !omap_app. cbn [omap list_omap running]. rewrite Hr. apply Permutation_middle.
Qed.

Lemma insert_cases i w (l : list ThreadWorker) j x : <[i := w]> l !! j = Some x -> (i = j /\ x = w) \/ (i <> j /\ l !! j = Some x).
Proof using. intros Hx. apply list_lookup_insert_Some in Hx as [(? & ? & _)|[? ?]]; [left|right]; auto. Qed.

Lemma mutex_keep o i w0 w l : mutex_ok o l -> l !! i = Some w0 -> holds_mutex w0 = holds_mutex w -> mutex_ok o (<[i := w]> l).
Proof using.
  intros Hm Hi Hw j. rewrite (Hm j). split; intros (x & Hx & Hh).
  - destruct (decide (i = j)) as [<-|Hne]; [|exists x; by rewrite list_lookup_insert_ne]. exists w. rewrite list_lookup_insert_eq by (by eapply lookup_lt_Some). split; [done|congruence].
  - apply insert_cases in Hx as [[-> ->]|[_ Hx]]; [|by exists x]. exists w0. split; [done|congruence].
Qed.

Lemma mutex_acquire i w0 w l : mutex_ok None l -> l !! i = Some w0 -> holds_mutex w = true -> mutex_ok (Some i) (<[i := w]> l).
Proof using.
  intros Hm Hi Hw j. split.
  - intros [= <-]. exists w. rewrite list_lookup_insert_eq by (by eapply lookup_lt_Some). done.
  - intros (x & Hx & Hh). apply insert_cases in Hx as [[-> _]|[_ Hx]]; [done|]. assert (None = Some j) by (apply Hm; by exists x). done.
Qed.

Lemma mutex_release o i w0 w l : mutex_ok o l -> l !! i = Some w0 -> holds_mutex w0 = true -> holds_mutex w = false -> mutex_ok None (<[i := w]> l).
Proof using.
  intros Hm Hi H0 Hw j. split; [done|]. intros (x & Hx & Hh). apply insert_cases in Hx as [[_ ->]|[Hne Hx]]; [congruence|].
  assert (o = Some i) as -> by (apply Hm; by exists w0). assert (Some i = Some j) as [= ->] by (apply Hm; by exists x). done.
Qed.

Lemma ended_insert i w0 (l : list ThreadWorker) : l !! i = Some w0 -> w0 <> wk_end -> ~ Forall (eq wk_end) l.
Proof using. intros Hi Hw Hf. rewrite Forall_forall in Hf. apply Hw. symmetry. apply Hf. by eapply list_elem_of_lookup_2. Qed.

Lemma worker_step_inv n i p p' : pool_inv n p -> worker_step i p p' -> pool_inv n p'.
Proof using.
  intros [I1 I2 I3 I4 I5 I6] Hs. assert (Hd : forall w0, m_threads p !! i = Some w0 -> w0 <> wk_end -> closing p <> cl_done)
    by (intros w0 Hi Hw Hc; by eapply ended_insert; [exact Hi|exact Hw|apply I6]).
  destruct Hs as [Hi Hsd|Hi Hsd|Hi Hm|Hi Hq|Hi Hq|Hi|Hi Hm|t q Hi Hq|q Hi Hq|t Hi]; constructor; cbn; try done; rewrite ?length_insert; try done;
    try (intros Hc; exfalso; by eapply (Hd _ Hi)); try (by erewrite running_same by (exact Hi || reflexivity)); try (by eapply mutex_keep); try (by eapply mutex_release).
  - rewrite Hm in I4. by eapply mutex_acquire.
  - rewrite Hm in I4. by eapply mutex_acquire.
  - rewrite <- app_assoc. destruct (m_queue p); [done|]. by injection Hq as <- <-.
  - rewrite (running_start i wk_dequeue t (m_threads p)) by done. rewrite I3, <- app_assoc. f_equiv. symmetry. apply Permutation_cons_append.
  - rewrite I3, <- app_assoc, <- (running_stop i wk_check t (m_threads p)) by done. done.
Qed.

Lemma wake_lookup (l : list ThreadWorker) i w : wake <$> l !! i = Some w -> exists w0, l !! i = Some w0 /\ w = wake w0.
Proof using. destruct (l !! i) as [w0|]; [|done]. intros [= <-]. by exists w0. Qed.

Lemma running_wake (l : list ThreadWorker) : omap running (wake <$> l) = omap running l.
Proof using. induction l as [|w l IH]; [done|]. rewrite fmap_cons. cbn [omap list_omap]. rewrite IH. by destruct w. Qed.

Lemma mutex_wake o l : mutex_ok o l -> mutex_ok o (wake <$> l).
Proof using.
  intros Hm i. rewrite (Hm i). setoid_rewrite list_lookup_fmap. split.
  - intros (w & -> & Hh). exists (wake w). split; [done|]. by destruct w.
  - intros (w & Hw & Hh). apply wake_lookup in Hw as (w0 & Hw0 & ->). exists w0. split; [done|]. by destruct w0.
Qed.

Lemma own_step_inv n p p' : pool_inv n p -> own_step p p' -> pool_inv n p'.
Proof using.
  intros Hp Hs. destruct Hs as [i p' Hs|k i Hk Hi|k Hk Hi|Hc|Hc Hall]; [by eapply worker_step_inv| | | |]; destruct Hp as [I1 I2 I3 I4 I5 I6]; constructor; cbn; try done.
  - by rewrite length_insert.
  - by erewrite running_same by (exact Hi || reflexivity).
  - by eapply mutex_keep.
  - intros Hd. exfalso. by eapply ended_insert; [exact Hi| |apply I6].
  - by rewrite length_fmap.
  - by rewrite running_wake.
  - by apply mutex_wake.
  - by rewrite Hc in I5.
  - by rewrite Hc in I5.
Qed.

Lemma outer_step_inv n p p' : pool_inv n p -> outer_step p p' -> pool_inv n p'.
Proof using.
  intros [I1 I2 I3 I4 I5 I6] Hs. destruct Hs as [t|Hc|i Hi]; constructor; cbn; try done.
  - unfold enqueue. by rewrite I2, app_assoc.
  - by rewrite length_insert.
  - by erewrite running_same by (exact Hi || reflexivity).
  - by eapply mutex_keep.
  - intros Hd. exfalso. by eapply ended_insert; [exact Hi| |apply I6].
Qed.

Lemma init_inv n : pool_inv n (ThreadPool_init n).
Proof using.
  constructor; cbn; try done.
  - by rewrite repeat_length.
  - by induction n.
  - intros i. split; [done|]. intros (w & Hw & Hh). apply list_elem_of_lookup_2, list_elem_of_In, repeat_spec in Hw. by subst w.
Qed.

Lemma pool_reachable_inv n p : reachable n p -> pool_inv n p.
Proof using.
  intros Hr. unfold reachable in Hr. apply (rtc_ind_r (pool_inv n) (ThreadPool_init n)) in Hr; [done|apply init_inv|].
  intros p1 p2 _ [Hs|Hs] Hp; [by eapply own_step_inv|by eapply outer_step_inv].
Qed.
End pool.
Arguments ThreadPool T : clear implicits.
Arguments ThreadWorker T : clear implicits.
