(* ===== verification/ThreadPoolProps.v ===== *)
(** * What the thread pool guarantees

    Every task runs once and in order.  How many workers it takes for a lost notification not to matter, and when
    [shutdown] does not return. *)
From S2P Require Import Prelude ThreadPool.
From Stdlib Require Import ZArith Lia.
From stdpp Require Import base option list relations.
Local Open Scope Z_scope.

Section props.
Context {T : Type}.
Implicit Types p : ThreadPool T.

(** Nothing goes on by itself. *)
Definition stuck p : Prop := forall p', ~ own_step p p'.

Lemma holder_moves i w p : m_threads p !! i = Some w -> holds_mutex w = true -> exists p', worker_step i p p'.
Proof using.
  intros Hi Hw. destruct w; try done.
  - destruct (queue_empty (m_queue p)) eqn:E; eexists; [by apply ws_empty|by apply ws_nonempty].
  - eexists. by apply ws_wait.
  - destruct (dequeue (m_queue p)) as [[t|] q] eqn:E; eexists; [by eapply ws_dequeued|by eapply ws_nothing].
Qed.

Definition resting (w : ThreadWorker T) : bool := match w with wk_waiting | wk_end => true | _ => false end.

Lemma awake_moves n i w p : pool_inv n p -> m_threads p !! i = Some w -> resting w = false -> exists p', own_step p p'.
Proof using.
  intros Hp Hi Hw. destruct (holds_mutex w) eqn:Hh; [destruct (holder_moves i w p Hi Hh) as [p' Hs]; exists p'; by eapply os_worker|].
  destruct (m_conditional_mutex p) as [j|] eqn:Em.
  { destruct (proj1 (pi_mutex _ _ Hp j) Em) as (w' & Hj & Hh'). destruct (holder_moves j w' p Hj Hh') as [p' Hs]. exists p'. by eapply os_worker. }
  destruct w; try done.
  - destruct (m_shutdown p) eqn:E; eexists; eapply os_worker; [by eapply ws_end|by eapply ws_go].
  - eexists. eapply os_worker. by eapply ws_lock.
  - eexists. eapply os_worker. by eapply ws_relock.
  - eexists. eapply os_worker. by eapply ws_ran.
Qed.

Lemma waiting_dec (l : list (ThreadWorker T)) : {wk_waiting ∈ l} + {wk_waiting ∉ l}.
Proof using.
  induction l as [|w l [IH|IH]]; [right; apply not_elem_of_nil|left; by right|].
  destruct w; try (right; by rewrite elem_of_cons; intros [?|?]). left. by left.
Qed.

(** The pool stands still exactly when every worker waits or has ended, no notification is under way, and [shutdown]
    was not called, has returned, or joins a worker that waits. *)
Lemma stuck_iff n p : pool_inv n p -> stuck p <->
  Forall (fun w => resting w = true) (m_threads p) /\ notifying p = 0%nat /\ closing p <> cl_notify /\ (closing p = cl_join -> wk_waiting ∈ m_threads p).
Proof using.
  intros Hp. split.
  - intros Hs. assert (Hrest : Forall (fun w => resting w = true) (m_threads p)).
    { apply Forall_forall. intros w Hw. apply list_elem_of_lookup in Hw as [i Hi]. destruct (resting w) eqn:E; [done|].
      destruct (awake_moves n i w p Hp Hi E) as [p' Hp']. by apply Hs in Hp'. }
    split; [done|]. split; [|split].
    + destruct (notifying p) as [|k] eqn:En; [done|]. exfalso. destruct (waiting_dec (m_threads p)) as [Hw|Hw].
      * apply list_elem_of_lookup in Hw as [i Hi]. by apply (Hs _ (os_notify_one p k i En Hi)).
      * by apply (Hs _ (os_notify_none p k En Hw)).
    + intros Hc. by apply (Hs _ (os_notify_all p Hc)).
    + intros Hc. destruct (waiting_dec (m_threads p)) as [Hw|Hw]; [done|]. exfalso.
      assert (Hall : Forall (eq wk_end) (m_threads p)); [|by apply (Hs _ (os_join p Hc Hall))].
      apply Forall_forall. intros w Hin. rewrite Forall_forall in Hrest. specialize (Hrest w Hin). by destruct w.
  - intros (Hrest & Hn & Hc & Hj) p' Hs.
    assert (Hno : forall i w, m_threads p !! i = Some w -> resting w = true) by (intros i w Hi; eapply Forall_lookup_1 in Hrest; [exact Hrest|exact Hi]).
    destruct Hs as [i p' Hs|k i Hk Hi|k Hk Hi|Hcl|Hcl Hall]; try congruence.
    + destruct Hs as [Hi|Hi|Hi|Hi|Hi|Hi|Hi|t q Hi|q Hi|t Hi]; apply Hno in Hi; done.
    + rewrite Forall_forall in Hall. specialize (Hall _ (Hj Hcl)). done.
Qed.

(** C38. In every interleaving, tasks are taken from the queue in the order of their submission, and each task that
    was taken has finished or runs at one worker; at most one worker is between locking and releasing the mutex.
    When [shutdown] has returned no task runs; what is still in the queue never will. *)
Theorem tasks_run_once n p : reachable n p ->
  submitted p = started p ++ m_queue p /\ started p ≡ₚ finished p ++ omap running (m_threads p) /\
  (forall i j w w', m_threads p !! i = Some w -> m_threads p !! j = Some w' -> holds_mutex w = true -> holds_mutex w' = true -> i = j) /\
  (closing p = cl_done -> started p ≡ₚ finished p).
Proof using.
  intros Hr. apply pool_reachable_inv in Hr. destruct Hr as [I1 I2 I3 I4 I5 I6]. split; [done|]. split; [done|]. split.
  - intros i j w w' Hi Hj Hw Hw'. assert (Ei : m_conditional_mutex p = Some i) by (apply I4; by exists w). assert (Ej : m_conditional_mutex p = Some j) by (apply I4; by exists w'). congruence.
  - intros Hc. assert (Hnone : omap running (m_threads p) = []); [|by rewrite Hnone, app_nil_r in I3].
    specialize (I6 Hc). clear -I6. induction I6 as [|w l <- _ IH]; [done|exact IH].
Qed.

(** ** Lost notifications *)

(** A worker that will look at the queue again before it waits. *)
Definition active (w : ThreadWorker T) : bool := match w with wk_wait | wk_waiting | wk_end => false | _ => true end.

(** Two workers: a task is in the queue only while somebody is on the way to it. *)
Record attended p : Prop := mkAttended {
  at_end : m_shutdown p = false -> wk_end ∉ m_threads p;
  at_task : m_shutdown p = false -> m_queue p <> [] -> notifying p <> 0%nat \/ exists i w, m_threads p !! i = Some w /\ active w = true;
}.

Lemma active_insert i w0 w (l : list (ThreadWorker T)) : l !! i = Some w0 -> active w = true ->
  exists j x, <[i := w]> l !! j = Some x /\ active x = true.
Proof using. intros Hi Hw. exists i, w. split; [|done]. apply list_lookup_insert_eq. by eapply lookup_lt_Some. Qed.

Lemma active_other i w0 w (l : list (ThreadWorker T)) : l !! i = Some w0 -> active w0 = false ->
  (exists j x, l !! j = Some x /\ active x = true) -> exists j x, <[i := w]> l !! j = Some x /\ active x = true.
Proof using.
  intros Hi Hw (j & x & Hj & Hx). exists j, x. rewrite list_lookup_insert_ne; [done|]. intros ->. congruence.
Qed.

Lemma no_end_insert i w (l : list (ThreadWorker T)) : wk_end ∉ l -> w <> wk_end -> wk_end ∉ <[i := w]> l.
Proof using.
  intros Hl Hw Hin. apply list_elem_of_lookup in Hin as [j Hj]. apply insert_cases in Hj as [[_ Hj]|[_ Hj]]; [by rewrite Hj in Hw|].
  by apply list_elem_of_lookup_2 in Hj.
Qed.

Lemma worker_attended i p p' : attended p -> worker_step i p p' -> attended p'.
Proof using.
  intros [H1 H2] Hs. destruct Hs as [Hi Hsd|Hi Hsd|Hi Hm|Hi Hq|Hi Hq|Hi|Hi Hm|t q Hi Hq|q Hi Hq|t Hi]; constructor; cbn; intros Hd; try congruence;
    try (by apply no_end_insert; [apply H1|]); intros Hne; try (right; by eapply active_insert).
  - destruct (m_queue p); done.
  - destruct (H2 Hd Hne) as [|Hex]; [by left|right]. by eapply active_other.
Qed.

Lemma notify_finds_active n p : (2 <= n)%nat -> pool_inv n p -> wk_waiting ∉ m_threads p -> wk_end ∉ m_threads p ->
  exists i w, m_threads p !! i = Some w /\ active w = true.
Proof using.
  intros Hn Hp Hw He. destruct (m_threads p) as [|w0 [|w1 l]] eqn:El; [by rewrite <- (pi_threads _ _ Hp), El in Hn; cbn in Hn; lia..|].
  destruct (active w0) eqn:A0; [by exists 0%nat, w0|]. destruct (active w1) eqn:A1; [by exists 1%nat, w1|]. exfalso.
  assert (Hwait : forall w, w ∈ w0 :: w1 :: l -> active w = false -> w = wk_wait) by (intros w Hin Ha; by destruct w).
  assert (w0 = wk_wait) as -> by (apply Hwait; [by left|done]). assert (w1 = wk_wait) as -> by (apply Hwait; [by right; left|done]).
  assert (E0 : m_conditional_mutex p = Some 0%nat) by (apply (pi_mutex _ _ Hp); rewrite El; by exists wk_wait).
  assert (E1 : m_conditional_mutex p = Some 1%nat) by (apply (pi_mutex _ _ Hp); rewrite El; by exists wk_wait). congruence.
Qed.

Lemma own_attended n p p' : (2 <= n)%nat -> pool_inv n p -> attended p -> own_step p p' -> attended p'.
Proof using.
  intros Hn Hp Ha Hs. assert (Hc : m_shutdown p = false -> closing p = cl_idle) by (rewrite (pi_closing _ _ Hp); by destruct (closing p)).
  destruct Hs as [i p' Hs|k i Hk Hi|k Hk Hi|Hcl|Hcl Hall]; [by eapply worker_attended| | | |]; destruct Ha as [H1 H2]; constructor; cbn; intros Hd;
    try (specialize (Hc Hd); congruence).
  - by apply no_end_insert; [apply H1|].
  - intros _. right. by eapply active_insert.
  - by apply H1.
  - intros _. right. eapply notify_finds_active; [exact Hn|exact Hp|exact Hi|by apply H1].
Qed.

Lemma outer_attended p p' : attended p -> outer_step p p' -> attended p'.
Proof using.
  intros [H1 H2] Hs. destruct Hs as [t|Hc|i Hi]; constructor; cbn; intros Hd; try done.
  - by apply H1.
  - intros _. by left.
  - by apply no_end_insert; [apply H1|].
  - intros _. right. by eapply active_insert.
Qed.

Lemma reachable_attended n p : (2 <= n)%nat -> reachable n p -> attended p.
Proof using.
  intros Hn Hr. unfold reachable in Hr. enough (pool_inv n p /\ attended p) by tauto.
  apply (rtc_ind_r (fun p => pool_inv n p /\ attended p) (ThreadPool_init n)) in Hr; [done| |].
  - split; [apply init_inv|]. constructor; cbn; [|done]. intros _ Hin. apply list_elem_of_In, repeat_spec in Hin. done.
  - intros p1 p2 _ [Hs|Hs] [Hp Ha]; split.
    1, 3: [> by eapply own_step_inv | by eapply outer_step_inv]. 1, 2: [> by eapply own_attended | by eapply outer_attended].
Qed.

Lemma reach_own n p p' : reachable n p -> own_step p p' -> reachable n p'.
Proof using. intros Hr Hs. eapply rtc_r; [exact Hr|by left]. Qed.
Lemma reach_worker n i p p' : reachable n p -> worker_step i p p' -> reachable n p'.
Proof using. intros Hr Hs. eapply reach_own; [exact Hr|]. by apply (os_worker _ i). Qed.
Lemma reach_outer n p p' : reachable n p -> outer_step p p' -> reachable n p'.
Proof using. intros Hr Hs. eapply rtc_r; [exact Hr|by right]. Qed.

End props.

(** The first worker takes a step whose conditions can be computed. *)
Tactic Notation "worker_goes" hyp(R) uconstr(c) ident(R') :=
  match type of R with reachable ?n ?p => pose proof (reach_worker n 0%nat p _ R (c 0%nat p eq_refl eq_refl)) as R' end.

Section lost.
Context {T : Type}.
Implicit Types p : ThreadPool T.

(** The first worker has seen the empty queue and is about to wait. *)
Lemma reach_about_to_wait n : exists p : ThreadPool T, reachable (S n) p /\ m_threads p = wk_wait :: repeat wk_check n /\ m_queue p = [] /\
  m_shutdown p = false /\ notifying p = 0%nat /\ closing p = cl_idle.
Proof using.
  assert (R0 : reachable (S n) (ThreadPool_init (T := T) (S n))) by apply rtc_refl.
  worker_goes R0 ws_go R1. worker_goes R1 ws_lock R2.
  worker_goes R2 ws_empty R3. eexists. split; [exact R3|]. done.
Qed.

(** A task can be left in the queue while nothing goes on any more, without [shutdown], if and only if there are
    less than two workers: the notification of a single worker that has just found the queue empty is lost. *)
Theorem tasks_stranded_iff (t : T) n :
  (exists p, reachable n p /\ m_shutdown p = false /\ m_queue p <> [] /\ stuck p) <-> (n < 2)%nat.
Proof using.
  split.
  - intros (p & Hr & Hd & Hq & Hs). destruct (le_lt_dec 2 n) as [Hn|Hn]; [exfalso|done]. assert (Ha := reachable_attended n p Hn Hr). apply pool_reachable_inv in Hr.
    apply (stuck_iff n p Hr) in Hs as (Hrest & Hn0 & _ & _). destruct (at_task _ Ha Hd Hq) as [?|(i & w & Hi & Hw)]; [done|].
    eapply Forall_lookup_1 in Hrest; [|exact Hi]. by destruct w.
  - intros Hn. assert (Hex : exists p, reachable n p /\ m_shutdown p = false /\ m_queue p <> [] /\
      Forall (fun w => resting w = true) (m_threads p) /\ notifying p = 0%nat /\ closing p = cl_idle).
    { destruct n as [|[|n]]; [..|lia].
      - assert (R0 : reachable 0 (ThreadPool_init (T := T) 0)) by apply rtc_refl. assert (R1 := reach_outer _ _ _ R0 (us_submit _ t)).
        assert (R2 := reach_own _ _ _ R1 (os_notify_none (tp_submit t (ThreadPool_init 0)) 0 eq_refl (not_elem_of_nil _))). eexists. split; [exact R2|]. by repeat constructor.
      - destruct (reach_about_to_wait 0) as (p & R0 & Et & Eq & Ed & En & Ec). assert (R1 := reach_outer _ _ _ R0 (us_submit _ t)).
        assert (Hw : wk_waiting ∉ m_threads (tp_submit t p)) by (cbn; rewrite Et; cbn; by rewrite elem_of_cons, elem_of_nil; intros [?|?]).
        assert (R2 := reach_own _ _ _ R1 (os_notify_none (tp_submit t p) (notifying p) eq_refl Hw)).
        assert (Hi : m_threads (tp_set_notifying (notifying p) (tp_submit t p)) !! 0%nat = Some wk_wait) by (cbn; by rewrite Et).
        assert (R3 := reach_worker _ 0 _ _ R2 (ws_wait 0 _ Hi)). eexists. split; [exact R3|]. cbn. rewrite Et, Eq, Ed, Ec. by repeat constructor. }
    destruct Hex as (p & Hr & Hd & Hq & Hrest & Hn0 & Hc). exists p. split; [done|]. split; [done|]. split; [done|]. apply (stuck_iff n); [by apply pool_reachable_inv|].
    rewrite Hc. done.
Qed.

(** ** Shutting down *)

Lemma end_next a b : <[a := wk_end]> (repeat wk_end a ++ repeat wk_check (S b)) = repeat (@wk_end T) (S a) ++ repeat wk_check b.
Proof using. induction a as [|a IH]; [done|]. exact (f_equal (cons wk_end) IH). Qed.

Lemma checks_end n w b : forall a p, reachable n p -> m_shutdown p = true -> m_threads p = w :: repeat wk_end a ++ repeat wk_check b ->
  exists p', reachable n p' /\ m_threads p' = w :: repeat wk_end (a + b) /\ closing p' = closing p /\ notifying p' = notifying p.
Proof using.
  induction b as [|b IH]; intros a p Hr Hd Ht.
  - exists p. rewrite app_nil_r in Ht. by rewrite Nat.add_0_r.
  - assert (Hi : m_threads p !! S a = Some wk_check).
    { rewrite Ht, lookup_cons_ne_0 by done. cbn [Nat.pred]. rewrite lookup_app_r by (by rewrite repeat_length). rewrite repeat_length, Nat.sub_diag. done. }
    destruct (IH (S a) (tp_set_worker (S a) wk_end p)) as (p' & H1 & H2 & H3 & H4).
    + by apply (reach_worker _ (S a) _ _ Hr), ws_end.
    + done.
    + cbn [tp_set_worker m_threads]. rewrite Ht. exact (f_equal (cons w) (end_next a b)).
    + exists p'. rewrite H2, H3, H4. rewrite Nat.add_succ_r. done.
Qed.

(** However many workers there are, [shutdown] can wait for one of them for ever: it may set the flag and notify
    everybody between the time a worker finds the queue empty and the time it waits.  Without workers it cannot. *)
Theorem shutdown_hangs_iff n : (exists p, reachable n p /\ closing p = cl_join /\ stuck p) <-> (0 < n)%nat.
Proof using.
  split.
  - intros (p & Hr & Hc & Hs). apply pool_reachable_inv in Hr. apply (stuck_iff n p Hr) in Hs as (_ & _ & _ & Hw). specialize (Hw Hc). rewrite <- (pi_threads _ _ Hr).
    destruct (m_threads p); [by apply elem_of_nil in Hw|cbn; lia].
  - intros Hn. destruct n as [|n]; [lia|]. destruct (reach_about_to_wait n) as (p & Hr & Et & Eq & Ed & En & Ec).
    assert (Hr1 := reach_outer _ _ _ Hr (us_shutdown p Ec)). assert (Hr2 := reach_own _ _ _ Hr1 (os_notify_all (tp_set_closing cl_notify (tp_set_shutdown p)) eq_refl)).
    set (p2 := tp_set_closing cl_join _) in Hr2. assert (Et2 : m_threads p2 = wk_wait :: repeat wk_check n).
    { cbn. rewrite Et. cbn. f_equal. clear. induction n as [|n IH]; [done|]. cbn. by rewrite IH. }
    assert (Hi : m_threads p2 !! 0%nat = Some wk_wait) by (by rewrite Et2). assert (Hr3 := reach_worker _ 0 _ _ Hr2 (ws_wait 0 p2 Hi)).
    destruct (checks_end (S n) wk_waiting n 0 _ Hr3) as (p' & H1 & H2 & H3 & H4); [done|cbn [tp_set_worker tp_set_mutex m_threads]; by rewrite Et2|].
    exists p'. assert (Hc : closing p' = cl_join) by (by rewrite H3). split; [done|]. split; [done|]. apply (stuck_iff (S n)); [by apply pool_reachable_inv|].
    rewrite H2, H4, Hc. split; [|split; [exact En|split; [done|]]].
    + constructor; [done|]. apply Forall_forall. intros w Hw. by apply list_elem_of_In, repeat_spec in Hw as ->.
    + intros _. by left.
Qed.
End lost.

(** Two tasks, one running and one queued. *)
Lemma tasks_run_once_witness : exists p : ThreadPool nat, reachable 1 p /\ submitted p = [7; 8]%nat /\ started p = [7]%nat /\
  started p ≡ₚ finished p ++ omap running (m_threads p).
Proof.
  assert (R0 : reachable 1 (ThreadPool_init (T := nat) 1)) by apply rtc_refl. assert (R1 := reach_outer _ _ _ R0 (us_submit _ 7%nat)). assert (R2 := reach_outer _ _ _ R1 (us_submit _ 8%nat)).
  worker_goes R2 ws_go R3. worker_goes R3 ws_lock R4.
  worker_goes R4 ws_nonempty R5. match type of R5 with reachable _ ?p => pose proof (reach_worker 1 0 p _ R5 (ws_dequeued 0 p 7%nat [8%nat] eq_refl eq_refl)) as R6 end.
  eexists. split; [exact R6|]. split; [reflexivity|]. split; [reflexivity|]. apply (tasks_run_once 1 _ R6).
Defined.
