(* ===== verification/Json.v ===== *)
(** * JSON documents

    What the program uses of [rapidjson]: the values, the members of an object and the typed accessors, with the
    assertions that the build leaves on ([None] when one fails).  The text of a file becomes a document by the
    library's parser, which is a parameter of the components that read files. *)
From S2P Require Import Prelude Text.
From Stdlib Require Import ZArith Lia String Ascii.
From stdpp Require Import base option list.
Local Open Scope Z_scope.

(** A number that was written as an integer, and any other number. *)
Inductive Json : Type :=
| JNull
| JBool (b : bool)
| JInt (z : Z)
| JReal (t : text)
| JString (s : text)
| JArray (l : list Json)
| JObject (l : list (text * Json)).

Definition IsNull (v : Json) : bool := match v with JNull => true | _ => false end.
Definition IsString (v : Json) : bool := match v with JString _ => true | _ => false end.
Definition IsBool (v : Json) : bool := match v with JBool _ => true | _ => false end.
Definition IsArray (v : Json) : bool := match v with JArray _ => true | _ => false end.
Definition IsObject (v : Json) : bool := match v with JObject _ => true | _ => false end.
(** A number that fits in 32 bits. *)
Definition IsInt (v : Json) : bool := match v with JInt z => (- 2 ^ 31 <=? z) && (z <? 2 ^ 31) | _ => false end.

(** A C string: what follows a zero is lost when it becomes a [std::string]. *)
Definition GetString (v : Json) : option text := match v with JString s => Some (c_str s) | _ => None end.
Definition GetInt (v : Json) : option Z := match v with JInt z => if IsInt v then Some z else None | _ => None end.
Definition GetBool (v : Json) : option bool := match v with JBool b => Some b | _ => None end.
Definition GetArray (v : Json) : option (list Json) := match v with JArray l => Some l | _ => None end.

Fixpoint find_member (name : text) (l : list (text * Json)) : option Json :=
  match l with [] => None | (n, v) :: l => if decide (n = name) then Some v else find_member name l end.

Definition HasMember (v : Json) (name : text) : option bool :=
  match v with JObject l => Some (match find_member name l with Some _ => true | None => false end) | _ => None end.
(** [v[name]] asserts that there is such a member. *)
Definition member (v : Json) (name : text) : option Json := match v with JObject l => find_member name l | _ => None end.
(** [v[i]] of an array. *)
Definition element (v : Json) (i : nat) : option Json := l ← GetArray v; l !! i.

(** ** Typed accessors *)

Record Kind (A : Type) : Type := mkKind { k_is : Json -> bool; k_get : Json -> option A }.
Arguments mkKind {A}. Arguments k_is {A}. Arguments k_get {A}.

Definition KString : Kind text := mkKind IsString GetString.
Definition KInt : Kind Z := mkKind IsInt GetInt.
Definition KBool : Kind bool := mkKind IsBool GetBool.

(** ** Reading a file

    [while (std::getline(in, line)) str.append(line+"\n")]: every line gets its end, the last one too. *)
Fixpoint read_lines (line : text) (content : text) : text :=
  match content with
  | [] => match line with [] => [] | _ => line ++ [10] end
  | c :: content => if c =? 10 then line ++ [10] ++ read_lines [] content else read_lines (line ++ [c]) content
  end.

(** ** Lemmas *)

Lemma IsInt_get v : IsInt v = true <-> exists z, GetInt v = Some z.
Proof.
  destruct v as [| |z| | | |]; try (split; [done|intros (? & H); done]). cbn [GetInt]. destruct (IsInt (JInt z)); split; try done; [by eauto|by intros (? & H)].
Qed.

(** A typed accessor succeeds exactly when the value has the type. *)
Class LawfulKind {A} (K : Kind A) : Prop := kind_get : forall v, k_is K v = true <-> exists a, k_get K v = Some a.

#[export] Instance KString_lawful : LawfulKind KString.
Proof. intros v; destruct v; cbn; split; first [done|intros (? & [=]); done|by eauto]. Qed.
#[export] Instance KInt_lawful : LawfulKind KInt.
Proof. exact IsInt_get. Qed.
#[export] Instance KBool_lawful : LawfulKind KBool.
Proof. intros v; destruct v; cbn; split; first [done|intros (? & [=]); done|by eauto]. Qed.

Lemma kind_false {A} (K : Kind A) `{!LawfulKind K} v : k_is K v = false -> k_get K v = None.
Proof. intros H. destruct (k_get K v) as [a|] eqn:E; [|done]. assert (k_is K v = true) by (apply kind_get; eauto). congruence. Qed.

Lemma kind_true {A} (K : Kind A) `{!LawfulKind K} v a : k_get K v = Some a -> k_is K v = true.
Proof. intros H. apply kind_get. eauto. Qed.

(** The document without the members of one name. *)
Definition without (name : text) (v : Json) : Json :=
  match v with JObject l => JObject (filter (fun nv => nv.1 <> name) l) | _ => v end.

Lemma find_member_without name name' l :
  find_member name' (filter (fun nv => nv.1 <> name) l) = if decide (name' = name) then None else find_member name' l.
Proof.
  induction l as [|[n v] l IH]; [by destruct (decide _)|]. rewrite filter_cons. cbn [fst find_member]. destruct (decide (n <> name)) as [Hn|Hn].
  - cbn [find_member]. rewrite IH. destruct (decide (n = name')) as [->|]; [|done]. by rewrite decide_False.
  - rewrite IH. destruct (decide (name' = name)); [done|]. rewrite decide_False; [done|]. intros ->. done.
Qed.

Lemma member_without name name' v : member (without name v) name' = if decide (name' = name) then None else member v name'.
Proof. destruct v; cbn [without member]; try (by destruct (decide _)). apply find_member_without. Qed.

Lemma HasMember_member v name b : HasMember v name = Some b -> b = true <-> is_Some (member v name).
Proof. destruct v; [done..|]. intros [= <-]. cbn [member]. destruct (find_member _ _); split; first [done|by intros []|by eauto]. Qed.

Lemma HasMember_object v name : is_Some (HasMember v name) <-> IsObject v = true.
Proof. destruct v; split; first [done|by intros []|by eauto]. Qed.

Lemma member_HasMember v name x : member v name = Some x -> HasMember v name = Some true.
Proof. destruct v; [done..|]. cbn. by intros ->. Qed.

Lemma member_object v name x : member v name = Some x -> IsObject v = true.
Proof. by destruct v. Qed.

(** A file without its last line end reads as if it had one. *)
Lemma read_lines_app l : forall line, 10 ∉ l -> read_lines line l = match line ++ l with [] => [] | t => t ++ [10] end.
Proof.
  induction l as [|c l IH]; intros line Hl; cbn [read_lines]; [by rewrite app_nil_r; destruct line|].
  apply not_elem_of_cons in Hl as [Hc Hl]. rewrite (proj2 (Z.eqb_neq c 10)), IH, <- app_assoc by done. by destruct line.
Qed.
