(* ===== verification/ServerFiles.v ===== *)
(** * The servers' configuration files ([config_loader.*] of every program, [common/server_config_reader.*])

    Each program reads a JSON document and checks the members one after the other: a loader is the list of its
    blocks, in order, each with the name of the member it reads.  Opening a file and parsing its text are
    parameters.  [None] is a failed assertion. *)
From S2P Require Import Prelude Text Json AppNet Common.
From Stdlib Require Import ZArith Lia String Ascii.
From stdpp Require Import base option list.
From coqutil Require Import Datatypes.RecordSetters.
Import TriangleBracketNotations.
Local Open Scope Z_scope.

(** What a block does with the configuration: [false] is [return false], and what was read before stays. *)
Abbreviation Step C := (Json -> C -> option (bool * C)) (only parsing).

Record Field (C : Type) : Type := mkField { fd_name : text; fd_step : Step C }.
Arguments mkField {C}. Arguments fd_name {C}. Arguments fd_step {C}.

Section fields.
Context {C A : Type}.
Variables (name : string) (K : Kind A) (set : A -> C -> C).

(** [config_.x = doc_[name].GetX()]. *)
Definition read_member (doc : Json) (c : C) : option C := v ← member doc (chars name); a ← k_get K v; Some (set a c).

(** [if (!doc_[name].IsX()) return false;], and then the value is read and checked by [ok]. *)
Definition asserted (ok : C -> bool) : Field C :=
  mkField (chars name) (fun doc c =>
    v ← member doc (chars name);
    if negb (k_is K v) then Some (false, c) else c ← read_member doc c; Some (ok c, c)).

(** The same after [if (!doc_.HasMember(name)) return false;]. *)
Definition required (ok : C -> bool) : Field C :=
  mkField (chars name) (fun doc c =>
    has ← HasMember doc (chars name);
    if negb has then Some (false, c) else fd_step (asserted ok) doc c).

(** The same inside [if (doc_.HasMember(name)) { ... }]. *)
Definition optional (ok : C -> bool) : Field C :=
  mkField (chars name) (fun doc c =>
    has ← HasMember doc (chars name);
    if negb has then Some (true, c) else fd_step (asserted ok) doc c).

(** [if (doc_.HasMember(name) && doc_[name].IsX()) { ... }]. *)
Definition lenient : Field C :=
  mkField (chars name) (fun doc c =>
    has ← HasMember doc (chars name);
    if negb has then Some (true, c) else
    v ← member doc (chars name);
    if negb (k_is K v) then Some (true, c) else c ← read_member doc c; Some (true, c)).
End fields.

Definition any {C} (c : C) : bool := true.

Fixpoint run_fields {C} (doc : Json) (fs : list (Field C)) (c : C) : option (bool * C) :=
  match fs with
  | [] => Some (true, c)
  | f :: fs => '(ok, c) ← fd_step f doc c; if ok : bool then run_fields doc fs c else Some (false, c)
  end.

(** ** A loader: the last document, the configuration and the path it was read from *)

Record Loader (C : Type) : Type := mkLoader { doc_ : Json; config_ : C; jsonpath_ : text }.
Arguments mkLoader {C}. Arguments doc_ {C}. Arguments config_ {C}. Arguments jsonpath_ {C}.

(** What a loader needs of its environment: the content of a file that opens, and the document of a text without
    errors ([rapidjson]'s parser). *)
Class Files : Type := mkFiles { open_file : text -> option text; Parse : text -> option Json }.

Section files.
Context {F : Files}.

(** The text of the file, and its document; a failed parse leaves a null document. *)
Definition read_document (jsonpath : text) : option (option Json) :=
  content ← open_file jsonpath; Some (Parse (c_str (read_lines [] content))).

Definition load_fields {C} (fs : list (Field C)) (jsonpath : text) (ld : Loader C) : option (bool * Loader C) :=
  match read_document jsonpath with
  | None => Some (false, ld)
  | Some None => Some (false, mkLoader JNull (config_ ld) (jsonpath_ ld))
  | Some (Some doc) =>
    '(ok, c) ← run_fields doc fs (config_ ld);
    Some (ok, mkLoader doc c (if ok : bool then jsonpath else jsonpath_ ld))
  end.
End files.

(** ** [gate_server/config_loader.*] *)
Module GateFile.

Record GateConfig : Type := mkGateConfig {
  name : text;
  id : Z;
  ip : text;
  port : Z;
  max_conn : Z;
  enable_reconnect : bool;
  listen_game_ip : text;
  listen_game_port : Z;
  listen_game_max_conn : Z;
  listen_game_enable_reconnect : bool;
  connect_config_ip : text;
  connect_config_port : Z;
  connect_config_enable_reconnect : bool;
  log_conf_path : text;
}.

Definition gate_right_type (c : GateConfig) : bool := get_server_type (id c) =? server_type_value SERVER_TYPE_GATE.

Definition gate_fields : list (Field GateConfig) := [
  required "server_name" KString (fun v c => c <| name := v |>) any;
  required "server_id" KInt (fun v c => c <| id := v |>) gate_right_type;
  required "server_ip" KString (fun v c => c <| ip := v |>) any;
  required "server_port" KInt (fun v c => c <| port := u16 v |>) any;
  required "max_conn" KInt (fun v c => c <| max_conn := v |>) any;
  required "enable_reconnect" KBool (fun v c => c <| enable_reconnect := v |>) any;
  required "listen_game_ip" KString (fun v c => c <| listen_game_ip := v |>) any;
  required "listen_game_port" KInt (fun v c => c <| listen_game_port := u16 v |>) any;
  required "listen_game_max_conn" KInt (fun v c => c <| listen_game_max_conn := v |>) any;
  required "connect_config_ip" KString (fun v c => c <| connect_config_ip := v |>) any;
  required "connect_config_port" KInt (fun v c => c <| connect_config_port := u16 v |>) any;
  required "connect_config_enable_reconnect" KBool (fun v c => c <| connect_config_enable_reconnect := v |>) any;
  lenient "log_conf_path" KString (fun v c => c <| log_conf_path := v |>)
].

Definition gate_loadJson `{Files} : text -> Loader GateConfig -> option (bool * Loader GateConfig) := load_fields gate_fields.

(** [clear] does nothing. *)
Definition gate_reload `{Files} (ld : Loader GateConfig) : option (bool * Loader GateConfig) := gate_loadJson (jsonpath_ ld) ld.

End GateFile.

(** ** [login_server/config_loader.*] *)
Module LoginFile.

Record LoginConfig : Type := mkLoginConfig {
  name : text;
  id : Z;
  ip : text;
  port : Z;
  max_conn : Z;
  enable_reconnect : bool;
  listen_gate_ip : text;
  listen_gate_port : Z;
  listen_gate_max_conn : Z;
  listen_gate_enable_reconnect : bool;
  connect_config_ip : text;
  connect_config_port : Z;
  connect_config_enable_reconnect : bool;
  log_conf_path : text;
}.

Definition login_right_type (c : LoginConfig) : bool := get_server_type (id c) =? server_type_value SERVER_TYPE_LOGIN.

Definition login_fields : list (Field LoginConfig) := [
  asserted "server_name" KString (fun v c => c <| name := v |>) any;
  asserted "server_id" KInt (fun v c => c <| id := v |>) login_right_type;
  asserted "server_ip" KString (fun v c => c <| ip := v |>) any;
  asserted "server_port" KInt (fun v c => c <| port := u16 v |>) any;
  asserted "max_conn" KInt (fun v c => c <| max_conn := v |>) any;
  asserted "enable_reconnect" KBool (fun v c => c <| enable_reconnect := v |>) any;
  asserted "listen_gate_ip" KString (fun v c => c <| listen_gate_ip := v |>) any;
  asserted "listen_gate_port" KInt (fun v c => c <| listen_gate_port := u16 v |>) any;
  asserted "listen_gate_max_conn" KInt (fun v c => c <| listen_gate_max_conn := v |>) any;
  asserted "listen_gate_enable_reconnect" KBool (fun v c => c <| listen_gate_enable_reconnect := v |>) any;
  asserted "connect_config_ip" KString (fun v c => c <| connect_config_ip := v |>) any;
  asserted "connect_config_port" KInt (fun v c => c <| connect_config_port := u16 v |>) any;
  asserted "connect_config_enable_reconnect" KBool (fun v c => c <| connect_config_enable_reconnect := v |>) any;
  asserted "log_conf_path" KString (fun v c => c <| log_conf_path := v |>) any
].

Definition login_loadJson `{Files} : text -> Loader LoginConfig -> option (bool * Loader LoginConfig) := load_fields login_fields.
Definition login_reload `{Files} (ld : Loader LoginConfig) : option (bool * Loader LoginConfig) := login_loadJson (jsonpath_ ld) ld.

End LoginFile.

(** ** [config_server/config_loader.*] *)
Module ConfigFile.

Record ConfigConfig : Type := mkConfigConfig {
  name : text;
  id : Z;
  ip : text;
  port : Z;
  max_conn : Z;
  enable_reconnect : bool;
  gate_list_conf_path_type : Z;
  gate_list_conf_local_path : text;
  gate_list_conf_remote_path : text;
  log_conf_path : text;
}.

Definition config_right_type (c : ConfigConfig) : bool := get_server_type (id c) =? server_type_value SERVER_TYPE_CONFIG.

Definition config_fields : list (Field ConfigConfig) := [
  asserted "server_name" KString (fun v c => c <| name := v |>) any;
  asserted "server_id" KInt (fun v c => c <| id := v |>) config_right_type;
  asserted "server_ip" KString (fun v c => c <| ip := v |>) any;
  asserted "server_port" KInt (fun v c => c <| port := u16 v |>) any;
  asserted "max_conn" KInt (fun v c => c <| max_conn := v |>) any;
  asserted "enable_reconnect" KBool (fun v c => c <| enable_reconnect := v |>) any;
  asserted "gate_list_conf_path_type" KInt (fun v c => c <| gate_list_conf_path_type := u8 v |>) any;
  asserted "gate_list_conf_local_path" KString (fun v c => c <| gate_list_conf_local_path := v |>) any;
  asserted "gate_list_conf_remote_path" KString (fun v c => c <| gate_list_conf_remote_path := v |>) any;
  asserted "log_conf_path" KString (fun v c => c <| log_conf_path := v |>) any
].

Definition config_loadJson `{Files} : text -> Loader ConfigConfig -> option (bool * Loader ConfigConfig) := load_fields config_fields.
Definition config_reload `{Files} (ld : Loader ConfigConfig) : option (bool * Loader ConfigConfig) := config_loadJson (jsonpath_ ld) ld.

End ConfigFile.

(** ** [game_server/config_loader.*] *)
Module GameFile.

Record GameConfig : Type := mkGameConfig {
  name : text;
  id : Z;
  ip : text;
  port : Z;
  max_conn : Z;
  enable_reconnect : bool;
  connect_gate_ip : text;
  connect_gate_port : Z;
  connect_gate_enable_reconnect : bool;
  connect_db_ip : text;
  connect_db_port : Z;
  connect_db_enable_reconnect : bool;
  log_conf_path : text;
}.

Definition game_right_type (c : GameConfig) : bool := get_server_type (id c) =? server_type_value SERVER_TYPE_GAME.

Definition game_fields : list (Field GameConfig) := [
  optional "name" KString (fun v c => c <| name := v |>) any;
  optional "id" KInt (fun v c => c <| id := v |>) game_right_type;
  optional "ip" KString (fun v c => c <| ip := v |>) any;
  optional "port" KInt (fun v c => c <| port := u16 v |>) any;
  optional "max_conn" KInt (fun v c => c <| max_conn := v |>) any;
  optional "enable_reconnect" KBool (fun v c => c <| enable_reconnect := v |>) any;
  optional "connect_gate_ip" KString (fun v c => c <| connect_gate_ip := v |>) any;
  optional "connect_gate_port" KInt (fun v c => c <| connect_gate_port := u16 v |>) any;
  optional "connect_gate_enable_reconnect" KBool (fun v c => c <| connect_gate_enable_reconnect := v |>) any;
  optional "connect_db_ip" KString (fun v c => c <| connect_db_ip := v |>) any;
  optional "connect_db_port" KInt (fun v c => c <| connect_db_port := u16 v |>) any;
  optional "connect_db_enable_reconnect" KBool (fun v c => c <| connect_db_enable_reconnect := v |>) any;
  optional "log_conf_path" KString (fun v c => c <| log_conf_path := v |>) any
].

Definition game_loadJson `{Files} : text -> Loader GameConfig -> option (bool * Loader GameConfig) := load_fields game_fields.
Definition game_reload `{Files} (ld : Loader GameConfig) : option (bool * Loader GameConfig) := game_loadJson (jsonpath_ ld) ld.

End GameFile.

(** ** [db_server/config_loader.*] *)
Module DbFile.

Record DbConfig : Type := mkDbConfig {
  name : text;
  id : Z;
  ip : text;
  port : Z;
  max_conn : Z;
  enable_reconnect : bool;
  log_conf_path : text;
  mysql_host : text;
  mysql_port : Z;
  mysql_user : text;
  mysql_password : text;
  mysql_dbname : text;
}.

Definition db_right_type (c : DbConfig) : bool := get_server_type (id c) =? server_type_value SERVER_TYPE_DB.

Definition db_fields : list (Field DbConfig) := [
  required "name" KString (fun v c => c <| name := v |>) any;
  required "id" KInt (fun v c => c <| id := v |>) db_right_type;
  required "ip" KString (fun v c => c <| ip := v |>) any;
  required "port" KInt (fun v c => c <| port := u16 v |>) any;
  required "max_conn" KInt (fun v c => c <| max_conn := v |>) any;
  required "enable_reconnect" KBool (fun v c => c <| enable_reconnect := v |>) any;
  required "log_conf_path" KString (fun v c => c <| log_conf_path := v |>) any;
  required "mysql_host" KString (fun v c => c <| mysql_host := v |>) any;
  required "mysql_port" KInt (fun v c => c <| mysql_port := u16 v |>) any;
  required "mysql_user" KString (fun v c => c <| mysql_user := v |>) any;
  required "mysql_password" KString (fun v c => c <| mysql_password := v |>) any;
  required "mysql_dbname" KString (fun v c => c <| mysql_dbname := v |>) any
].

Definition db_loadJson `{Files} : text -> Loader DbConfig -> option (bool * Loader DbConfig) := load_fields db_fields.
Definition db_reload `{Files} (ld : Loader DbConfig) : option (bool * Loader DbConfig) := db_loadJson (jsonpath_ ld) ld.

End DbFile.

(** ** [test_client/config_loader.*] *)
Module TestClientFile.

Record ClientConfig : Type := mkClientConfig {
  connect_ip : text;
  connect_port : Z;
  enable_reconnect : bool;
  log_conf_path : text;
  account_prefix : text;
  account_start_index : Z;
  account_num : Z;
}.


Definition test_client_fields : list (Field ClientConfig) := [
  optional "connect_ip" KString (fun v c => c <| connect_ip := v |>) any;
  optional "connect_port" KInt (fun v c => c <| connect_port := u16 v |>) any;
  optional "enable_reconnect" KBool (fun v c => c <| enable_reconnect := v |>) any;
  optional "log_conf_path" KString (fun v c => c <| log_conf_path := v |>) any;
  optional "account_prefix" KString (fun v c => c <| account_prefix := v |>) any;
  optional "account_start_index" KInt (fun v c => c <| account_start_index := v |>) any;
  optional "account_num" KInt (fun v c => c <| account_num := v |>) any
].

Definition test_client_loadJson `{Files} : text -> Loader ClientConfig -> option (bool * Loader ClientConfig) := load_fields test_client_fields.
Definition test_client_reload `{Files} (ld : Loader ClientConfig) : option (bool * Loader ClientConfig) := test_client_loadJson (jsonpath_ ld) ld.

End TestClientFile.

(** ** [common/server_config_reader.*] *)
Module Reader.

Record ServerNode : Type := mkServerNode {
  name : text; id : Z; ip : text; port : Z; max_conn : Z; support_reconnect : bool;
}.
Record ClientNode : Type := mkClientNode { cn_name : text; cn_id : Z; cn_ip : text; cn_port : Z }.

Record ServerConfigReader : Type := mkReader { rd_doc : Json; server_node_ : ServerNode; client_nodes_ : list ClientNode }.

Definition MaxClientNodeNum : Z := 32.

Definition server_fields : list (Field ServerNode) := [
  asserted "name" KString (fun v n => n <| name := v |>) any;
  asserted "id" KInt (fun v n => n <| id := v |>) any;
  asserted "ip" KString (fun v n => n <| ip := v |>) any;
  asserted "port" KInt (fun v n => n <| port := s16 v |>) any;
  asserted "max_conn" KInt (fun v n => n <| max_conn := v |>) any;
  asserted "enable_reconnect" KBool (fun v n => n <| support_reconnect := v |>) any
].

Definition client_fields : list (Field ClientNode) := [
  asserted "name" KString (fun v n => n <| cn_name := v |>) any;
  asserted "id" KInt (fun v n => n <| cn_id := v |>) any;
  asserted "ip" KString (fun v n => n <| cn_ip := v |>) any;
  asserted "port" KInt (fun v n => n <| cn_port := s16 v |>) any
].

Definition parseServerNode (doc : Json) (n : ServerNode) : option (bool * ServerNode) :=
  v ← member doc (chars "server");
  if IsNull v then Some (false, n) else run_fields v server_fields n.

(** The loop of [parseClientNodes] from the entry [i] on; [s] is the length of the array of nodes. *)
Fixpoint parse_client_loop (s i : Z) (l : list Json) (nodes : list ClientNode) : option (bool * list ClientNode) :=
  match l with
  | [] => Some (true, nodes)
  | vv :: l =>
    if s - 1 <=? i then Some (true, nodes) else
    if negb (IsObject vv) then Some (false, nodes) else
    n ← nodes !! Z.to_nat i;
    '(ok, n) ← run_fields vv client_fields n;
    let nodes := <[Z.to_nat i := n]> nodes in
    if ok : bool then parse_client_loop s (i + 1) l nodes else Some (false, nodes)
  end.

Definition parseClientNodes (doc : Json) (nodes : list ClientNode) : option (bool * list ClientNode) :=
  v ← member doc (chars "clients");
  if IsNull v then Some (true, nodes) else
  match GetArray v with
  | None => Some (false, nodes)
  | Some l => parse_client_loop MaxClientNodeNum 0 l nodes
  end.

Definition reader_loadJson `{Files} (jsonpath : text) (rd : ServerConfigReader) : option (bool * ServerConfigReader) :=
  match read_document jsonpath with
  | None => Some (false, rd)
  | Some None => Some (false, mkReader JNull (server_node_ rd) (client_nodes_ rd))
  | Some (Some doc) =>
    '(ok, n) ← parseServerNode doc (server_node_ rd);
    if negb ok then Some (false, mkReader doc n (client_nodes_ rd)) else
    '(ok, nodes) ← parseClientNodes doc (client_nodes_ rd);
    Some (ok : bool, mkReader doc n nodes)
  end.

(** [doc_.Clear()] is for arrays. *)
Definition reader_close (rd : ServerConfigReader) : option ServerConfigReader :=
  match rd_doc rd with JArray _ => Some (rd <| rd_doc := JArray [] |>) | _ => None end.

(** The last node of the array is never handed out; a negative index is undefined behaviour. *)
Definition getClientNode (index : Z) (rd : ServerConfigReader) : option (option ClientNode) :=
  if MaxClientNodeNum - 1 <=? index then Some None else
  if index <? 0 then None else n ← client_nodes_ rd !! Z.to_nat index; Some (Some n).

End Reader.
