(* ===== verification/ServerFilesProps.v ===== *)
(** * What the loaders of the configuration files do

    A block of a loader reads one member of the document and nothing else; what it does without that member is
    what tells the loaders apart. *)
From S2P Require Import Prelude Text Json AppNet Common ServerFiles.
From Stdlib Require Import ZArith Lia String Ascii.
From stdpp Require Import base option list sets.
From coqutil Require Import Datatypes.RecordSetters.
Import TriangleBracketNotations.
Local Open Scope Z_scope.

(** ** Blocks *)

(** A block depends on its own member only. *)
Definition local {C} (f : Field C) : Prop := forall doc doc' c,
  IsObject doc = IsObject doc' -> member doc (fd_name f) = member doc' (fd_name f) -> fd_step f doc c = fd_step f doc' c.
(** Whether it goes on does not depend on what was read before. *)
Definition independent {C} (f : Field C) : Prop := forall doc c c', fst <$> fd_step f doc c = fst <$> fd_step f doc c'.

Definition aborts_without {C} (f : Field C) : Prop := forall doc c, member doc (fd_name f) = None -> fd_step f doc c = None.
Definition refuses_without {C} (f : Field C) : Prop := forall doc c,
  IsObject doc = true -> member doc (fd_name f) = None -> fd_step f doc c = Some (false, c).
Definition skips_without {C} (f : Field C) : Prop := forall doc c,
  IsObject doc = true -> member doc (fd_name f) = None -> fd_step f doc c = Some (true, c).

Lemma HasMember_eq doc doc' name :
  IsObject doc = IsObject doc' -> member doc name = member doc' name -> HasMember doc name = HasMember doc' name.
Proof. destruct doc, doc'; try done. cbn. by intros _ ->. Qed.

Lemma HasMember_None doc name : IsObject doc = true -> member doc name = None -> HasMember doc name = Some false.
Proof. destruct doc; try done. cbn. by intros _ ->. Qed.

Section blocks.
Context {C A : Type}.
Variables (name : string) (K : Kind A) (set : A -> C -> C) (ok : C -> bool).
Context `{!LawfulKind K}.

(** The member of a document, when it has the type. *)
Definition typed (doc : Json) : option A := v ← member doc (chars name); k_get K v.

Lemma asserted_step doc c : fd_step (asserted name K set ok) doc c =
  v ← member doc (chars name); Some (match k_get K v with Some a => (ok (set a c), set a c) | None => (false, c) end).
Proof.
  cbn [asserted fd_step]. unfold read_member. destruct (member doc (chars name)) as [v|]; [|done]. cbn [mbind option_bind].
  destruct (k_get K v) as [a|] eqn:E; cbn [mbind option_bind].
  - by rewrite (kind_true K v a E).
  - destruct (k_is K v) eqn:Ei; [|done]. apply (kind_get (K := K)) in Ei as (a & Ea). congruence.
Qed.

Lemma required_step doc c : fd_step (required name K set ok) doc c =
  has ← HasMember doc (chars name);
  if has : bool then fd_step (asserted name K set ok) doc c else Some (false, c).
Proof. cbn [required fd_step]. by destruct (HasMember _ _) as [[]|]. Qed.

Lemma optional_step doc c : fd_step (optional name K set ok) doc c =
  has ← HasMember doc (chars name);
  if has : bool then fd_step (asserted name K set ok) doc c else Some (true, c).
Proof. cbn [optional fd_step]. by destruct (HasMember _ _) as [[]|]. Qed.

Lemma lenient_step doc c : fd_step (lenient name K set) doc c =
  if IsObject doc then Some (true, match typed doc with Some a => set a c | None => c end) else None.
Proof.
  cbn [lenient fd_step]. unfold typed, read_member. destruct (IsObject doc) eqn:Eo; [|by destruct doc].
  destruct (member doc (chars name)) as [v|] eqn:E.
  - rewrite (member_HasMember _ _ _ E). cbn [mbind option_bind negb]. destruct (k_get K v) as [a|] eqn:Ea; cbn [mbind option_bind].
    + by rewrite (kind_true K v a Ea).
    + destruct (k_is K v) eqn:Ei; [|done]. apply (kind_get (K := K)) in Ei as (a & ?). congruence.
  - by rewrite (HasMember_None _ _ Eo E).
Qed.

Lemma required_true doc c c' : fd_step (required name K set ok) doc c = Some (true, c') <->
  exists a, typed doc = Some a /\ ok (set a c) = true /\ c' = set a c.
Proof.
  rewrite required_step, asserted_step. unfold typed. destruct (member doc (chars name)) as [v|] eqn:E.
  - rewrite (member_HasMember _ _ _ E). cbn [mbind option_bind]. destruct (k_get K v) as [a|]; [|split; [done|by intros (? & ? & _)]].
    split; [|by intros (? & [= <-] & -> & ->)]. intros [= Hok <-]. by eauto.
  - split; [|by intros (? & ? & _)]. by destruct (HasMember _ _) as [[]|].
Qed.

Lemma asserted_local : local (asserted name K set ok).
Proof. intros doc doc' c _ Hm. cbn [fd_name asserted] in Hm. by rewrite !asserted_step, Hm. Qed.
Lemma required_local : local (required name K set ok).
Proof. intros doc doc' c Ho Hm. cbn [fd_name required] in Hm. by rewrite !required_step, !asserted_step, Hm, (HasMember_eq doc doc'). Qed.
Lemma optional_local : local (optional name K set ok).
Proof. intros doc doc' c Ho Hm. cbn [fd_name optional] in Hm. by rewrite !optional_step, !asserted_step, Hm, (HasMember_eq doc doc'). Qed.
Lemma lenient_local : local (lenient name K set).
Proof. intros doc doc' c Ho Hm. cbn [fd_name lenient] in Hm. rewrite !lenient_step. unfold typed. by rewrite Hm, Ho. Qed.

Lemma asserted_aborts : aborts_without (asserted name K set ok).
Proof. intros doc c Hm. cbn [fd_name asserted] in Hm. by rewrite asserted_step, Hm. Qed.
Lemma required_refuses : refuses_without (required name K set ok).
Proof. intros doc c Ho Hm. cbn [fd_name required] in Hm. by rewrite required_step, (HasMember_None _ _ Ho Hm). Qed.
Lemma optional_skips : skips_without (optional name K set ok).
Proof. intros doc c Ho Hm. cbn [fd_name optional] in Hm. by rewrite optional_step, (HasMember_None _ _ Ho Hm). Qed.

Lemma optional_independent : (forall a c c', ok (set a c) = ok (set a c')) -> independent (optional name K set ok).
Proof.
  intros Hok doc c c'. rewrite !optional_step, !asserted_step. destruct (HasMember _ _) as [[]|]; [|done..]. cbn [mbind option_bind].
  destruct (member _ _) as [v|]; [|done]. cbn [mbind option_bind fmap option_fmap option_map]. destruct (k_get K v) as [a|]; [|done]. cbn. by rewrite (Hok a c c').
Qed.
End blocks.

(** ** Sequences of blocks *)

Lemma run_fields_app {C} doc (fs1 fs2 : list (Field C)) c :
  run_fields doc (fs1 ++ fs2) c = '(ok, c) ← run_fields doc fs1 c; if ok : bool then run_fields doc fs2 c else Some (false, c).
Proof.
  revert c. induction fs1 as [|f fs1 IH]; intros c; [done|]. cbn [run_fields app]. destruct (fd_step f doc c) as [[[] c']|]; cbn [mbind option_bind]; [|done..].
  apply IH.
Qed.

Section sequences.
Context {C : Type}.
Implicit Types fs : list (Field C).

Lemma run_fields_without doc k fs c :
  Forall local fs -> k ∉ fd_name <$> fs -> run_fields (without k doc) fs c = run_fields doc fs c.
Proof.
  intros Hl. revert c. induction Hl as [|f fs Hf Hl IH]; intros c Hk; [done|]. cbn [fmap list_fmap] in Hk. apply not_elem_of_cons in Hk as [Hk Hks].
  cbn [run_fields]. rewrite (Hf (without k doc) doc).
  - destruct (fd_step f doc c) as [[[] c']|]; cbn [mbind option_bind]; [by apply IH|done..].
  - by destruct doc.
  - by rewrite member_without, decide_False.
Qed.

(** A block that the loader reaches, without its member. *)
Lemma run_fields_missing doc k fs c c' :
  Forall local fs -> run_fields doc fs c = Some (true, c') -> k ∈ fd_name <$> fs ->
  exists f fs' c1, f ∈ fs /\ fd_name f = k /\
    run_fields (without k doc) fs c = '(ok, c) ← fd_step f (without k doc) c1; if ok : bool then run_fields (without k doc) fs' c else Some (false, c).
Proof.
  intros Hl Hrun Hk. apply list_elem_of_fmap in Hk as (f & -> & Hf).
  assert (exists fs1 f' fs2, fs = fs1 ++ f' :: fs2 /\ fd_name f' = fd_name f /\ fd_name f ∉ fd_name <$> fs1) as (fs1 & f' & fs2 & -> & Hn & H1).
  { clear Hrun Hl. induction fs as [|g fs IH]; [by apply elem_of_nil in Hf|]. destruct (decide (fd_name g = fd_name f)) as [E|E].
    - exists [], g, fs. split; [done|]. split; [done|]. apply not_elem_of_nil.
    - apply elem_of_cons in Hf as [->|Hf]; [done|]. destruct (IH Hf) as (fs1 & f' & fs2 & -> & ? & ?). exists (g :: fs1), f', fs2.
      split; [done|]. split; [done|]. cbn [fmap list_fmap]. by apply not_elem_of_cons. }
  rewrite run_fields_app in Hrun. apply Forall_app in Hl as [Hl1 Hl2]. apply bind_Some in Hrun as ([[] c1] & E1 & Hrun); [|done].
  exists f', fs2, c1. split; [set_solver|]. split; [done|]. rewrite run_fields_app, run_fields_without, E1 by done. done.
Qed.

Lemma run_fields_aborts doc k fs c c' :
  Forall local fs -> Forall aborts_without fs -> run_fields doc fs c = Some (true, c') -> k ∈ fd_name <$> fs -> run_fields (without k doc) fs c = None.
Proof.
  intros Hl Ha Hrun Hk. destruct (run_fields_missing doc k fs c c') as (f & fs' & c1 & Hf & <- & ->); [done..|].
  rewrite Forall_forall in Ha. rewrite (Ha f) by (done || by rewrite member_without, decide_True). done.
Qed.

Lemma run_fields_object doc f fs c c' : Forall (fun f => forall c, fd_step f doc c <> None -> IsObject doc = true) (f :: fs) -> run_fields doc (f :: fs) c = Some (true, c') -> IsObject doc = true.
Proof. intros [Hf _]%Forall_cons. cbn [run_fields]. intros Hr. apply (Hf c). by destruct (fd_step f doc c). Qed.

Lemma run_fields_refuses doc k fs c c' :
  IsObject doc = true -> Forall local fs -> (forall f, f ∈ fs -> fd_name f = k -> refuses_without f) ->
  run_fields doc fs c = Some (true, c') -> k ∈ fd_name <$> fs -> exists c1, run_fields (without k doc) fs c = Some (false, c1).
Proof.
  intros Ho Hl Ha Hrun Hk. destruct (run_fields_missing doc k fs c c') as (f & fs' & c1 & Hf & <- & ->); [done..|].
  rewrite (Ha f) by (done || (by destruct doc) || by rewrite member_without, decide_True). by exists c1.
Qed.

Lemma run_fields_independent doc fs : Forall independent fs -> forall c c', fst <$> run_fields doc fs c = fst <$> run_fields doc fs c'.
Proof.
  induction 1 as [|f fs Hf Hfs IH]; intros c c'; [done|]. cbn [run_fields]. specialize (Hf doc c c').
  destruct (fd_step f doc c) as [[[] c1]|], (fd_step f doc c') as [[[] c1']|]; try done. cbn [mbind option_bind]. apply IH.
Qed.

Lemma run_fields_skips doc k fs c c' :
  IsObject doc = true -> Forall local fs -> Forall skips_without fs -> Forall independent fs ->
  NoDup (fd_name <$> fs) -> run_fields doc fs c = Some (true, c') -> exists c1, run_fields (without k doc) fs c = Some (true, c1).
Proof.
  intros Ho Hl Hs Hi. revert c. induction Hl as [|f fs Hf Hl IH]; intros c Hn Hrun; [by eauto|]. cbn [fmap list_fmap] in Hn.
  apply NoDup_cons in Hn as [Hn1 Hn2]. apply Forall_cons in Hs as [Hs1 Hs2]. apply Forall_cons in Hi as [Hi1 Hi2].
  cbn [run_fields] in *. destruct (decide (fd_name f = k)) as [<-|Hk].
  - rewrite Hs1 by ((by destruct doc) || by rewrite member_without, decide_True). cbn [mbind option_bind]. rewrite run_fields_without by done.
    apply bind_Some in Hrun as ([[] c1] & E1 & Hrun); [|done]. pose proof (run_fields_independent doc fs Hi2 c c1) as E. rewrite Hrun in E.
    destruct (run_fields doc fs c) as [[[] c2]|]; try done. by exists c2.
  - rewrite (Hf (without k doc) doc) by ((by destruct doc) || by rewrite member_without, decide_False). apply bind_Some in Hrun as ([[] c1] & E1 & Hrun); [|done].
    rewrite E1. cbn [mbind option_bind]. by apply IH.
Qed.
End sequences.

Lemma run_fields_cons {C} doc (f : Field C) fs c c' :
  run_fields doc (f :: fs) c = Some (true, c') <-> exists c1, fd_step f doc c = Some (true, c1) /\ run_fields doc fs c1 = Some (true, c').
Proof.
  cbn [run_fields]. split.
  - intros ([[] c1] & ? & ?)%bind_Some; [by eauto|done].
  - by intros (c1 & -> & <-).
Qed.

Lemma load_fields_true `{Files} {C} (fs : list (Field C)) path ld ld' :
  load_fields fs path ld = Some (true, ld') <->
  exists doc c, read_document path = Some (Some doc) /\ run_fields doc fs (config_ ld) = Some (true, c) /\ ld' = mkLoader doc c path.
Proof.
  unfold load_fields. destruct (read_document path) as [[doc|]|]; [|split; [done|by intros (? & ? & ? & _)]..]. split.
  - intros ([[] c] & E & [= <-])%bind_Some. by exists doc, c.
  - intros (doc' & c & [= <-] & -> & ->). done.
Qed.

Create HintDb blocks.
#[export] Hint Resolve asserted_local required_local optional_local lenient_local asserted_aborts required_refuses optional_skips : blocks.
(** Proves that every block of a list of blocks has a property. *)
Ltac all_blocks := repeat (apply Forall_cons; split); try apply Forall_nil_2; eauto with blocks typeclass_instances.

Lemma gate_blocks_local : Forall local GateFile.gate_fields. Proof. unfold GateFile.gate_fields. all_blocks. Qed.
Lemma login_blocks_local : Forall local LoginFile.login_fields. Proof. unfold LoginFile.login_fields. all_blocks. Qed.
Lemma config_blocks_local : Forall local ConfigFile.config_fields. Proof. unfold ConfigFile.config_fields. all_blocks. Qed.
Lemma game_blocks_local : Forall local GameFile.game_fields. Proof. unfold GameFile.game_fields. all_blocks. Qed.
Lemma db_blocks_local : Forall local DbFile.db_fields. Proof. unfold DbFile.db_fields. all_blocks. Qed.
Lemma test_client_blocks_local : Forall local TestClientFile.test_client_fields. Proof. unfold TestClientFile.test_client_fields. all_blocks. Qed.
Lemma login_blocks_abort : Forall aborts_without LoginFile.login_fields. Proof. unfold LoginFile.login_fields. all_blocks. Qed.
Lemma config_blocks_abort : Forall aborts_without ConfigFile.config_fields. Proof. unfold ConfigFile.config_fields. all_blocks. Qed.
Lemma game_blocks_skip : Forall skips_without GameFile.game_fields. Proof. unfold GameFile.game_fields. all_blocks. Qed.
Lemma test_client_blocks_skip : Forall skips_without TestClientFile.test_client_fields. Proof. unfold TestClientFile.test_client_fields. all_blocks. Qed.
Lemma db_blocks_refuse : Forall refuses_without DbFile.db_fields. Proof. unfold DbFile.db_fields. all_blocks. Qed.
Lemma gate_blocks_refuse : Forall (fun f => fd_name f <> chars "log_conf_path" -> refuses_without f) GateFile.gate_fields.
Proof. unfold GateFile.gate_fields. repeat (apply Forall_cons; split); try apply Forall_nil_2; intros Hn; [eauto with blocks typeclass_instances..|done]. Qed.
Lemma game_blocks_independent : Forall independent GameFile.game_fields.
Proof. unfold GameFile.game_fields. all_blocks; apply optional_independent; first [apply _|intros; reflexivity]. Qed.
Lemma test_client_blocks_independent : Forall independent TestClientFile.test_client_fields.
Proof. unfold TestClientFile.test_client_fields. all_blocks; apply optional_independent; first [apply _|intros; reflexivity]. Qed.

(** ** The loaders *)

Lemma game_names_unique : NoDup (fd_name <$> GameFile.game_fields).
Proof. apply (bool_decide_unpack _). vm_compute. exact I. Qed.
Lemma test_client_names_unique : NoDup (fd_name <$> TestClientFile.test_client_fields).
Proof. apply (bool_decide_unpack _). vm_compute. exact I. Qed.

(** A loader that starts with a block that asks for its member runs on objects only. *)
Lemma run_fields_starts {C A} doc name (K : Kind A) set (ok : C -> bool) fs c c' f :
  f = required name K set ok \/ f = optional name K set ok -> run_fields doc (f :: fs) c = Some (true, c') -> IsObject doc = true.
Proof.
  intros Hf. cbn [run_fields]. intros Hr. apply (HasMember_object doc (chars name)).
  destruct (HasMember doc (chars name)) eqn:E; [by eauto|]. destruct Hf as [-> | ->]; cbn [required optional fd_step] in Hr; by rewrite E in Hr.
Qed.

Section missing.
(** Two files that differ by the members of one name. *)
Variables (F F' : Files) (path k : text) (doc : Json).
Hypothesis Hdoc : read_document (F := F) path = Some (Some doc).
Hypothesis Hdoc' : read_document (F := F') path = Some (Some (without k doc)).
Context {C : Type}.
Implicit Types (fs : list (Field C)) (ld : Loader C).

Lemma load_aborts fs ld ld' : Forall local fs -> Forall aborts_without fs -> k ∈ fd_name <$> fs ->
  load_fields (F := F) fs path ld = Some (true, ld') -> load_fields (F := F') fs path ld = None.
Proof.
  intros Hl Ha Hk (doc' & c & Hd & Hr & _)%load_fields_true. assert (doc' = doc) as -> by congruence.
  unfold load_fields. by rewrite Hdoc', (run_fields_aborts doc k fs _ c).
Qed.

Lemma load_refuses fs ld ld' : IsObject doc = true -> Forall local fs -> (forall f, f ∈ fs -> fd_name f = k -> refuses_without f) -> k ∈ fd_name <$> fs ->
  load_fields (F := F) fs path ld = Some (true, ld') -> exists ld'', load_fields (F := F') fs path ld = Some (false, ld'').
Proof.
  intros Ho Hl Ha Hk (doc' & c & Hd & Hr & _)%load_fields_true. assert (doc' = doc) as -> by congruence.
  destruct (run_fields_refuses doc k fs (config_ ld) c) as (c1 & E); [done..|]. unfold load_fields. rewrite Hdoc', E. by eauto.
Qed.

Lemma load_skips fs ld ld' : IsObject doc = true -> Forall local fs -> Forall skips_without fs -> Forall independent fs -> NoDup (fd_name <$> fs) ->
  load_fields (F := F) fs path ld = Some (true, ld') -> exists ld'', load_fields (F := F') fs path ld = Some (true, ld'').
Proof.
  intros Ho Hl Hs Hi Hn (doc' & c & Hd & Hr & _)%load_fields_true. assert (doc' = doc) as -> by congruence.
  destruct (run_fields_skips doc k fs (config_ ld) c) as (c1 & E); [done..|]. unfold load_fields. rewrite Hdoc', E. by eauto.
Qed.
End missing.

Lemma load_starts `{Files} {C A} path doc name (K : Kind A) set (ok : C -> bool) fs ld ld' f :
  f = required name K set ok \/ f = optional name K set ok -> read_document path = Some (Some doc) ->
  load_fields (f :: fs) path ld = Some (true, ld') -> IsObject doc = true.
Proof.
  intros Hf Hd (doc' & c & Hd' & Hr & _)%load_fields_true. assert (doc' = doc) as -> by congruence. by eapply run_fields_starts.
Qed.

(** A gate loads a configuration file exactly when the file opens and parses to an object that has every
    member with its type and whose server id is one of a gate; then the configuration is what the file says, the
    ports cut to 16 bits.  Two members are not what they seem: whether the link of the game servers may be
    connected again is never read, and a path of the log that is missing or not a string is kept from before. *)
Theorem gate_config_loads_iff `{Files} path ld ld' :
  GateFile.gate_loadJson path ld = Some (true, ld') <->
  exists doc v_name v_id v_ip v_port v_max v_reconn g_ip g_port g_max c_ip c_port c_reconn,
    read_document path = Some (Some doc) /\
    typed "server_name" KString doc = Some v_name /\ typed "server_id" KInt doc = Some v_id /\
    typed "server_ip" KString doc = Some v_ip /\ typed "server_port" KInt doc = Some v_port /\
    typed "max_conn" KInt doc = Some v_max /\ typed "enable_reconnect" KBool doc = Some v_reconn /\
    typed "listen_game_ip" KString doc = Some g_ip /\ typed "listen_game_port" KInt doc = Some g_port /\
    typed "listen_game_max_conn" KInt doc = Some g_max /\
    typed "connect_config_ip" KString doc = Some c_ip /\ typed "connect_config_port" KInt doc = Some c_port /\
    typed "connect_config_enable_reconnect" KBool doc = Some c_reconn /\
    get_server_type v_id = 2 /\
    ld' = mkLoader doc
      (GateFile.mkGateConfig v_name v_id v_ip (u16 v_port) v_max v_reconn g_ip (u16 g_port) g_max
        (GateFile.listen_game_enable_reconnect (config_ ld)) c_ip (u16 c_port) c_reconn
        (default (GateFile.log_conf_path (config_ ld)) (typed "log_conf_path" KString doc))) path.
Proof.
  unfold GateFile.gate_loadJson. rewrite load_fields_true. split.
  - intros (doc & c & Hd & Hr & ->). unfold GateFile.gate_fields in Hr.
    assert (Ho : IsObject doc = true) by (eapply run_fields_starts; [|exact Hr]; by left).
    do 12 (apply run_fields_cons in Hr as (? & (? & ? & Hok & ->)%required_true & Hr); [|apply _];
           match type of Hok with any _ = true => clear Hok | _ => rename Hok into Hid end).
    apply run_fields_cons in Hr as (c1 & Hc & [= <-]). rewrite lenient_step, Ho in Hc by apply _. injection Hc as <-.
    eexists doc, _, _, _, _, _, _, _, _, _, _, _, _. repeat (split; [eassumption|]). split; [by apply Z.eqb_eq in Hid|].
    destruct (typed "log_conf_path" KString doc); reflexivity.
  - intros (doc & v_name & v_id & v_ip & v_port & v_max & v_reconn & g_ip & g_port & g_max & c_ip & c_port & c_reconn & Hd & H1 & H2 & H3 & H4 & H5 & H6 & H7 & H8 & H9 & H10 & H11 & H12 & Hid & ->).
    eexists doc, _. split; [done|]. split; [|reflexivity]. unfold GateFile.gate_fields.
    assert (Ho : IsObject doc = true) by (unfold typed in H1; by destruct doc).
    do 12 (apply run_fields_cons; eexists; split; [apply required_true; [apply _|]; eexists; split; [eassumption|]; split; [first [reflexivity|by apply Z.eqb_eq]|reflexivity]|]).
    apply run_fields_cons. eexists. split; [rewrite lenient_step, Ho by apply _; reflexivity|]. destruct (typed "log_conf_path" KString doc); reflexivity.
Qed.

(** A gate's file without the path of the log. *)
Lemma gate_without_log (F F' : Files) path doc ld ld' :
  read_document (F := F) path = Some (Some doc) -> read_document (F := F') path = Some (Some (without (chars "log_conf_path") doc)) ->
  GateFile.gate_loadJson (H := F) path ld = Some (true, ld') ->
  exists ld'', GateFile.gate_loadJson (H := F') path ld = Some (true, ld'') /\
    GateFile.log_conf_path (config_ ld'') = GateFile.log_conf_path (config_ ld).
Proof.
  intros Hd Hd' Hl.
  assert (exists ld'', GateFile.gate_loadJson (H := F') path ld = Some (true, ld'')) as [ld'' E].
  { assert (Ho : IsObject doc = true) by (eapply (load_starts (H := F)); [|exact Hd|exact Hl]; by left).
    apply load_fields_true in Hl as (doc' & c & Hd2 & Hr & _). assert (doc' = doc) as -> by congruence.
    pose proof gate_blocks_local as Hloc. unfold GateFile.gate_fields in Hr, Hloc.
    match type of Hr with run_fields _ ?l _ = _ => change l with (take 12 l ++ drop 12 l) in Hr, Hloc end.
    rewrite run_fields_app in Hr. apply bind_Some in Hr as ([[] c1] & E1 & Hr); [|done]. apply Forall_app in Hloc as [Hloc _].
    exists (mkLoader (without (chars "log_conf_path") doc) c1 path). apply load_fields_true.
    exists (without (chars "log_conf_path") doc), c1. split; [done|]. split; [|done]. unfold GateFile.gate_fields.
    match goal with |- run_fields _ ?l _ = _ => change l with (take 12 l ++ drop 12 l) end.
    rewrite run_fields_app, run_fields_without; [|done|apply (bool_decide_unpack _); vm_compute; exact I]. rewrite E1. cbn [mbind option_bind drop].
    apply run_fields_cons. exists c1. split; [|done]. rewrite lenient_step by apply _. unfold typed.
    rewrite member_without, decide_True by done. by destruct doc. }
  exists ld''. split; [done|]. apply gate_config_loads_iff in E as (doc' & v1 & v2 & v3 & v4 & v5 & v6 & v7 & v8 & v9 & v10 & v11 & v12 & Hd2 & E).
  assert (doc' = without (chars "log_conf_path") doc) as -> by congruence. destruct_and? E. subst ld''.
  unfold typed. rewrite member_without, decide_True by done. reflexivity.
Qed.

(** C36.  A member is missing from a configuration file that a program loads.  The login server and the config
    server abort; the gate and the database server refuse the file, whichever member it is, except that a gate loads
    a file without the path of its log and keeps the path it had; the game server and the test client load the file
    all the same. *)
Theorem config_missing_member (F F' : Files) path k doc
    (Hdoc : read_document (F := F) path = Some (Some doc))
    (Hdoc' : read_document (F := F') path = Some (Some (without k doc))) :
  (forall ld ld', LoginFile.login_loadJson (H := F) path ld = Some (true, ld') -> k ∈ fd_name <$> LoginFile.login_fields ->
    LoginFile.login_loadJson (H := F') path ld = None) /\
  (forall ld ld', ConfigFile.config_loadJson (H := F) path ld = Some (true, ld') -> k ∈ fd_name <$> ConfigFile.config_fields ->
    ConfigFile.config_loadJson (H := F') path ld = None) /\
  (forall ld ld', GateFile.gate_loadJson (H := F) path ld = Some (true, ld') -> k ∈ fd_name <$> GateFile.gate_fields -> k <> chars "log_conf_path" ->
    exists ld'', GateFile.gate_loadJson (H := F') path ld = Some (false, ld'')) /\
  (forall ld ld', GateFile.gate_loadJson (H := F) path ld = Some (true, ld') -> k = chars "log_conf_path" ->
    exists ld'', GateFile.gate_loadJson (H := F') path ld = Some (true, ld'') /\
      GateFile.log_conf_path (config_ ld'') = GateFile.log_conf_path (config_ ld)) /\
  (forall ld ld', DbFile.db_loadJson (H := F) path ld = Some (true, ld') -> k ∈ fd_name <$> DbFile.db_fields ->
    exists ld'', DbFile.db_loadJson (H := F') path ld = Some (false, ld'')) /\
  (forall ld ld', GameFile.game_loadJson (H := F) path ld = Some (true, ld') ->
    exists ld'', GameFile.game_loadJson (H := F') path ld = Some (true, ld'')) /\
  (forall ld ld', TestClientFile.test_client_loadJson (H := F) path ld = Some (true, ld') ->
    exists ld'', TestClientFile.test_client_loadJson (H := F') path ld = Some (true, ld'')).
Proof.
  split_and!; intros ld ld' Hl.
  - intros Hk. exact (load_aborts F F' path k doc Hdoc Hdoc' _ _ _ login_blocks_local login_blocks_abort Hk Hl).
  - intros Hk. exact (load_aborts F F' path k doc Hdoc Hdoc' _ _ _ config_blocks_local config_blocks_abort Hk Hl).
  - intros Hk Hn. refine (load_refuses F F' path k doc Hdoc Hdoc' _ _ _ _ gate_blocks_local _ Hk Hl).
    + eapply (load_starts (H := F)); [|exact Hdoc|exact Hl]. by left.
    + intros f Hf <-. pose proof gate_blocks_refuse as Hr. rewrite Forall_forall in Hr. by apply Hr.
  - intros ->. by eapply (gate_without_log F F').
  - intros Hk. refine (load_refuses F F' path k doc Hdoc Hdoc' _ _ _ _ db_blocks_local _ Hk Hl).
    + eapply (load_starts (H := F)); [|exact Hdoc|exact Hl]. by left.
    + intros f Hf _. pose proof db_blocks_refuse as Hr. rewrite Forall_forall in Hr. by apply Hr.
  - refine (load_skips F F' path k doc Hdoc Hdoc' _ _ _ _ game_blocks_local game_blocks_skip game_blocks_independent game_names_unique Hl).
    eapply (load_starts (H := F)); [|exact Hdoc|exact Hl]. by right.
  - refine (load_skips F F' path k doc Hdoc Hdoc' _ _ _ _ test_client_blocks_local test_client_blocks_skip test_client_blocks_independent test_client_names_unique Hl).
    eapply (load_starts (H := F)); [|exact Hdoc|exact Hl]. by right.
Qed.

(** The configuration of a login server, and the environment whose only file is a document. *)
Definition example_login_doc : Json := JObject [
  (chars "server_name", JString (chars "login1")); (chars "server_id", JInt 10001); (chars "server_ip", JString (chars "0.0.0.0"));
  (chars "server_port", JInt 75537); (chars "max_conn", JInt 100); (chars "enable_reconnect", JBool true);
  (chars "listen_gate_ip", JString (chars "0.0.0.0")); (chars "listen_gate_port", JInt 4000); (chars "listen_gate_max_conn", JInt 10);
  (chars "listen_gate_enable_reconnect", JBool true); (chars "connect_config_ip", JString (chars "127.0.0.1"));
  (chars "connect_config_port", JInt 5000); (chars "connect_config_enable_reconnect", JBool true); (chars "log_conf_path", JString (chars "./zlog.conf"))
].
Definition example_files (doc : Json) : Files := mkFiles (fun _ => Some []) (fun _ => Some doc).
Definition example_login_config : LoginFile.LoginConfig := LoginFile.mkLoginConfig [] 0 [] 0 0 false [] 0 0 false [] 0 false [].

Lemma config_missing_member_witness :
  (LoginFile.port ∘ config_ ∘ snd <$> LoginFile.login_loadJson (H := example_files example_login_doc) (chars "f") (mkLoader JNull example_login_config [])) = Some 10001 /\
  LoginFile.login_loadJson (H := example_files (without (chars "server_port") example_login_doc)) (chars "f") (mkLoader JNull example_login_config []) = None.
Proof.
  split; [vm_compute; reflexivity|].
  eapply (proj1 (config_missing_member (example_files example_login_doc) (example_files (without (chars "server_port") example_login_doc))
    (chars "f") (chars "server_port") example_login_doc eq_refl eq_refl)).
  - vm_compute. reflexivity.
  - apply (bool_decide_unpack _). vm_compute. exact I.
Defined.

(** The reader of the common library asks for both of its members; a document that it loads is an object, and closing
    the reader, which its destructor does, clears the document as if it were an array. *)
Lemma reader_close_aborts `{Files} path rd rd' : Reader.reader_loadJson path rd = Some (true, rd') -> Reader.reader_close rd' = None.
Proof.
  unfold Reader.reader_loadJson. destruct (read_document path) as [[doc|]|]; [|done..]. intros Hl.
  apply bind_Some in Hl as ([ok n] & Hs & Hl). assert (IsObject doc = true) as Ho.
  { unfold Reader.parseServerNode in Hs. apply bind_Some in Hs as (v & Hv & _). by destruct doc. }
  destruct ok; [|done]. cbn [negb] in Hl. apply bind_Some in Hl as ([ok nodes] & _ & Hl). injection Hl as _ <-. by destruct doc.
Qed.
