(* ===== verification/DbGenConfig.v ===== *)
(** * The database generator: its input ([db_generator/db_config_parser.*], [db_field_config_parser.*])

    The description of the tables, the way it is read from a JSON document, the file of the field structures that
    reading it writes, and the functions that turn the words of a description into C++.  The strings of a description
    are C strings, since all of them come from [GetString].  A file is its name and its text. *)
From S2P Require Import Prelude Text Json ServerFiles.
From Stdlib Require Import ZArith Lia String Ascii.
From stdpp Require Import base option list.
Local Open Scope Z_scope.

Definition endl : text := [10].
Definition quote : text := [34].
(** The text of a literal. *)
Abbreviation L := chars (only parsing).

(** ** [std::string] *)

Definition starts_with (sub s : text) : bool := bool_decide (take (length sub) s = sub).

(** [s.find(sub)]; [None] is [npos]. *)
Fixpoint find_sub (sub s : text) : option nat :=
  if starts_with sub s then Some O else match s with [] => None | _ :: s => S <$> find_sub sub s end.
Definition contains (sub s : text) : bool := match find_sub sub s with Some _ => true | None => false end.

(** What follows the last [c], that is [s.substr(s.find_last_of(c)+1)]; [None] is [npos]. *)
Fixpoint after_last (c : Z) (s : text) : option text :=
  match s with
  | [] => None
  | x :: s => match after_last c s with Some t => Some t | None => if x =? c then Some s else None end
  end.

(** [boost::split(v, s, boost::is_any_of(c))]: one piece more than separators. *)
Fixpoint boost_split (c : Z) (s : text) : list text :=
  match s with
  | [] => [[]]
  | x :: s => let l := boost_split c s in if x =? c then [] :: l else match l with p :: l => (x :: p) :: l | [] => [[x]] end
  end.

Definition trim_left (s : text) : text := skip_space s.
(** [boost::trim]. *)
Definition trim (s : text) : text := rev (trim_left (rev (trim_left s))).

Definition word_is (s : text) (word : string) : bool := bool_decide (s = chars word).

(** The name of a file without its directory and its endings; a name that begins with a point stays. *)
Definition without_endings (file_name : text) : text :=
  match find_sub (chars ".") file_name with Some (S i) => take (S i) file_name | _ => file_name end.

(** ** The description *)

Record SelKeyInfo : Type := mkSelKey { sk_key : text; sk_result_type : text; sk_result_key : text }.

Record TableInfo : Type := mkTable {
  ti_name : text;
  primary_key : text;
  primary_key_index : Z;
  db_engine : text;
  select_keys_info : list SelKeyInfo;
  update_key : text;
  delete_key : text;
}.

Record FieldInfo : Type := mkFieldInfo {
  fi_name : text;
  field_type : text;
  field_length : Z;
  index_type : text;
  create_flags : text;
}.

Record Config : Type := mkConfig {
  db_name : text;
  struct_include_strings : list text;
  define_include_strings : list text;
  funcs_include_strings : list text;
  tables : list TableInfo;
  tables_fields : list (list FieldInfo);
}.

(** ** Reading: [None] is a failed assertion or undefined behaviour, [Some None] is [return false] *)

Definition Read (A : Type) : Type := option (option A).
Definition read_ret {A} (a : A) : Read A := Some (Some a).
Definition refuse {A} : Read A := Some None.
Definition read_bind {A B} (m : Read A) (f : A -> Read B) : Read B :=
  match m with Some (Some a) => f a | Some None => Some None | None => None end.
Notation "x ⇐ m ; k" := (read_bind m (fun x => k)) (at level 20, m at level 100, k at level 200, right associativity).
Definition sure {A} (o : option A) : Read A := match o with Some a => read_ret a | None => None end.

Fixpoint read_each {A B} (f : A -> Read B) (l : list A) : Read (list B) :=
  match l with [] => read_ret [] | a :: l => b ⇐ f a; bs ⇐ read_each f l; read_ret (b :: bs) end.

(** [if (!v.HasMember(name)) return false;], and the member. *)
Definition has_member (v : Json) (name : text) : Read Json :=
  match HasMember v name with Some true => sure (member v name) | Some false => refuse | None => None end.
(** The same, and the type is checked too. *)
Definition checked {A} (K : Kind A) (v : Json) (name : string) : Read A :=
  m ⇐ has_member v (chars name); if k_is K m then sure (k_get K m) else refuse.
(** The same, but a wrong type is a failed assertion. *)
Definition unchecked {A} (K : Kind A) (v : Json) (name : string) : Read A :=
  m ⇐ has_member v (chars name); sure (k_get K m).
Definition checked_array (v : Json) (name : text) : Read (list Json) :=
  m ⇐ has_member v name; if IsArray m then sure (GetArray m) else refuse.

(** *** [DBFieldConfigParser] *)

Record FieldMemberInfo : Type := mkMember { fm_name : text; fm_index : Z; fm_type : text; repeated : bool }.
Record FieldStruct : Type := mkStruct { fs_name : text; fs_members : list FieldMemberInfo }.

Definition parse_field_member (mem_name : text) (v : Json) : Read FieldMemberInfo :=
  index ⇐ checked KInt v "index";
  type ⇐ checked KString v "type";
  has ⇐ sure (HasMember v (chars "repeated"));
  rep ⇐ (if has : bool then checked KBool v "repeated" else read_ret false);
  read_ret (mkMember mem_name index type rep).

Definition GetMembers (v : Json) : option (list (text * Json)) := match v with JObject l => Some l | _ => None end.

(** The name is set with every member: a structure without members has none. *)
Definition parse_field (field_name : text) (v : Json) : Read FieldStruct :=
  l ⇐ sure (GetMembers v);
  ms ⇐ read_each (fun nv => parse_field_member (c_str nv.1) nv.2) l;
  read_ret (mkStruct (match ms with [] => [] | _ => field_name end) ms).

Definition fields_load `{Files} (config_path : text) : Read (list FieldStruct) :=
  match read_document config_path with
  | None | Some None => refuse
  | Some (Some doc) => l ⇐ sure (GetMembers doc); read_each (fun nv => parse_field (c_str nv.1) nv.2) l
  end.

(** One member; [<<] of an [int] writes its decimal digits. *)
Definition gen_struct_member (m : FieldMemberInfo) : text :=
  L"  " ++ (if repeated m then L"repeated " else []) ++
  fm_type m ++ L" " ++ fm_name m ++ L" = " ++ print_signed (fm_index m) ++ L";" ++ endl.

Definition gen_struct_message (s : FieldStruct) : text :=
  L"message " ++ fs_name s ++ L" {" ++ endl ++
  concat (gen_struct_member <$> fs_members s) ++
  L"}" ++ endl ++
  endl.

(** The file that [generate] writes from the structures that were read from [config_path]. *)
Definition fields_generate (config_path : text) (l : list FieldStruct) : text * text :=
  let name := without_endings (default config_path (after_last 47 config_path)) in
  (name ++ L".proto",
  L"// Generated by the db_generator.  DO NOT EDIT!" ++ endl ++
  L"// source: " ++ name ++ endl ++
  L"syntax=" ++ quote ++ L"proto3" ++ quote ++ L";" ++ endl ++
  endl ++
  concat (gen_struct_message <$> l)).

(** *** [DBConfigParser] *)

(** The elements of an array of strings. *)
Definition read_strings (doc : Json) (name : string) : Read (list text) :=
  l ⇐ checked_array doc (L name);
  read_each (fun v => if IsString v then sure (GetString v) else refuse) l.

Definition parse_table_field (v : Json) : Read FieldInfo :=
  name ⇐ unchecked KString v "name";
  type ⇐ unchecked KString v "field_type";
  length ⇐ unchecked KInt v "field_length";
  index ⇐ unchecked KString v "index_type";
  flags ⇐ unchecked KString v "create_flags";
  read_ret (mkFieldInfo name type length index flags).

Definition parse_table_fields (doc : Json) (table_name : text) : Read (list FieldInfo) :=
  l ⇐ checked_array doc table_name;
  read_each parse_table_field l.

(** An entry of [tables] with the fields of the table; the keys come later. *)
Definition parse_table (doc : Json) (v : Json) : Read (TableInfo * list FieldInfo) :=
  name ⇐ unchecked KString v "name";
  fields ⇐ parse_table_fields doc name;
  key ⇐ unchecked KString v "primary_key";
  index ⇐ unchecked KInt v "primary_key_index";
  engine ⇐ unchecked KString v "engine";
  read_ret (mkTable name key index engine [] [] [], fields).

Definition parse_select_key (vv : Json) : Read SelKeyInfo :=
  key ⇐ unchecked KString vv "key";
  type ⇐ unchecked KString vv "result_type";
  rkey ⇐ unchecked KString vv "result_key";
  read_ret (mkSelKey key type rkey).

(** An entry of [tables_operate_keys]: it belongs to the table at the same position, whatever its name says. *)
Definition parse_operate_keys (t : TableInfo) (v : Json) : Read TableInfo :=
  sel ⇐ checked_array v (L"select");
  keys ⇐ read_each parse_select_key sel;
  upd ⇐ checked KString v "update";
  del ⇐ checked KString v "delete";
  read_ret (mkTable (ti_name t) (primary_key t) (primary_key_index t) (db_engine t) (select_keys_info t ++ keys) upd del).

(** More entries than tables write behind the tables. *)
Fixpoint parse_all_operate_keys (ts : list TableInfo) (l : list Json) : Read (list TableInfo) :=
  match l, ts with
  | [], _ => read_ret ts
  | v :: l, t :: ts => t ⇐ parse_operate_keys t v; ts ⇐ parse_all_operate_keys ts l; read_ret (t :: ts)
  | v :: _, [] =>
    sel ⇐ checked_array v (L"select");
    match sel with
    | vv :: _ => _ ⇐ parse_select_key vv; None
    | [] => _ ⇐ checked KString v "update"; None
    end
  end.

Section load.
Context `{Files}.

(** The configuration that a fresh parser reads, and the file of the field structures that it writes on the way. *)
Definition load (jsonpath : text) : Read (Config * (text * text)) :=
  match read_document jsonpath with
  | None | Some None => refuse
  | Some (Some doc) =>
    db ⇐ checked KString doc "db_name";
    struct_include ⇐ read_strings doc "struct_include";
    define_include ⇐ read_strings doc "define_include";
    func_include ⇐ read_strings doc "func_include";
    table_list ⇐ checked_array doc (L"tables");
    ts ⇐ read_each (parse_table doc) table_list;
    key_list ⇐ checked_array doc (L"tables_operate_keys");
    ts' ⇐ parse_all_operate_keys (fst <$> ts) key_list;
    path ⇐ unchecked KString doc "field_structs_file";
    structs ⇐ fields_load path;
    read_ret (mkConfig db struct_include define_include func_include ts' (snd <$> ts), fields_generate path structs)
  end.
End load.

(** ** From the words of a description to C++ *)

(** The type that the user defines: what follows [blob:] or [binary:]. *)
Definition get_blob_user_define_data (ft : text) : option text :=
  match find_sub (L"blob:") ft with
  | Some i => Some (drop (i + length (L"blob:")) ft)
  | None => i ← find_sub (L"binary:") ft; Some (drop (i + length (L"binary:")) ft)
  end.

(** The C++ type of a field; [None] is a null pointer. *)
Definition get_field_type_str (f : FieldInfo) : option text :=
  let s := field_type f in
  match get_blob_user_define_data s with
  | Some type_str => Some type_str
  | None =>
    if word_is s "tinyint" || word_is s "smallint" || word_is s "mediumint" || word_is s "int"
    then Some (if contains (L"unsigned") (create_flags f) then L"unsigned int" else L"int")
    else if word_is s "bigint" then Some (if contains (L"unsigned") (create_flags f) then L"uint64_t" else L"int64_t")
    else if word_is s "float" then Some (L"float")
    else if word_is s "double" then Some (L"double")
    else if word_is s "varchar" || word_is s "char" || word_is s "tinytext" || word_is s "text" || word_is s "mediumtext" || word_is s "longtext"
    then Some (L"std::string")
    else None
  end.

Definition find_field (fields : list FieldInfo) (field_name : text) : option FieldInfo :=
  list_find (fun f => fi_name f = field_name) fields ≫= fun p => Some p.2.

Definition get_field_type_str_of (fields : list FieldInfo) (field_name : text) : option text :=
  f ← find_field fields field_name; get_field_type_str f.

Definition is_integer_type (s : text) : bool :=
  word_is s "tinyint" || word_is s "smallint" || word_is s "mediumint" || word_is s "int" || word_is s "bigint".
Definition is_basic_field_type (s : text) : bool := is_integer_type s || word_is s "float" || word_is s "double".

Definition is_field_time_type (s : text) : bool :=
  word_is s "timestamp" || word_is s "time" || word_is s "year" || word_is s "date" || word_is s "datetime".

(** The order of the tests matters: a word is looked for inside the type. *)
Definition get_field_type_define_str (s : text) : option text :=
  if word_is s "tinyint" then Some (L"MYSQL_FIELD_TYPE_TINYINT")
  else if word_is s "smallint" then Some (L"MYSQL_FIELD_TYPE_SMALLINT")
  else if word_is s "mediumint" then Some (L"MYSQL_FIELD_TYPE_MEDIUMINT")
  else if word_is s "int" then Some (L"MYSQL_FIELD_TYPE_INT")
  else if word_is s "bigint" then Some (L"MYSQL_FIELD_TYPE_BIGINT")
  else if word_is s "float" then Some (L"MYSQL_FIELD_TYPE_FLOAT")
  else if word_is s "double" then Some (L"MYSQL_FIELD_TYPE_DOUBLE")
  else if word_is s "char" then Some (L"MYSQL_FIELD_TYPE_CHAR")
  else if word_is s "varchar" then Some (L"MYSQL_FIELD_TYPE_VARCHAR")
  else if contains (L"binary") s then Some (L"MYSQL_FIELD_TYPE_BINARY")
  else if contains (L"varbinary") s then Some (L"MYSQL_FIELD_TYPE_VARBINARY")
  else if word_is s "text" then Some (L"MYSQL_FIELD_TYPE_TEXT")
  else if word_is s "tinytext" then Some (L"MYSQL_FIELD_TYPE_TINYTEXT")
  else if word_is s "longtext" then Some (L"MYSQL_FIELD_TYPE_LONGTEXT")
  else if word_is s "mediumtext" then Some (L"MYSQL_FIELD_TYPE_MEDIUMTEXT")
  else if contains (L"tinyblob") s then Some (L"MYSQL_FIELD_TYPE_TINYBLOB")
  else if contains (L"mediumblob") s then Some (L"MYSQL_FIELD_TYPE_MEDIUM_BLOB")
  else if contains (L"blob") s then Some (L"MYSQL_FIELD_TYPE_BLOB")
  else if contains (L"longblob") s then Some (L"MYSQL_FIELD_TYPE_LONGBLOB")
  else if word_is s "time" then Some (L"MYSQL_FIELD_TYPE_TIME")
  else if word_is s "timestamp" then Some (L"MYSQL_FIELD_TYPE_TIMESTAMP")
  else if word_is s "date" then Some (L"MYSQL_FIELD_TYPE_DATE")
  else if word_is s "datetime" then Some (L"MYSQL_FIELD_TYPE_DATETIME")
  else if word_is s "year" then Some (L"MYSQL_FIELD_TYPE_YEAR")
  else if word_is s "enum" then Some (L"MYSQL_FIELD_TYPE_ENUM")
  else if word_is s "set" then Some (L"MYSQL_FIELD_TYPE_SET")
  else None.

(** [snprintf] into a buffer of 16 characters. *)
Definition get_field_length_define_str (n : Z) : text :=
  if n =? 0 then L"MYSQL_FIELD_DEFAULT_LENGTH" else snprintf 16 (print_signed n).

Definition get_field_index_type_define_str (s : text) : option text :=
  if word_is s "none" then Some (L"MYSQL_INDEX_TYPE_NONE")
  else if word_is s "index" then Some (L"MYSQL_INDEX_TYPE_NORMAL")
  else if word_is s "unique" then Some (L"MYSQL_INDEX_TYPE_UNIQUE")
  else None.

(** One piece of the flags: nothing for a piece of spaces, [None] for another word. *)
Definition create_flag_define_str (s : text) : option text :=
  if word_is s "auto_increment" then Some (L"MYSQL_TABLE_CREATE_AUTOINCREMENT")
  else if word_is s "unsigned" then Some (L"MYSQL_TABLE_CREATE_UNSIGNED")
  else if word_is s "null" then Some (L"MYSQL_TABLE_CREATE_NULL")
  else if word_is s "not null" then Some (L"MYSQL_TABLE_CREATE_NOT_NULL")
  else if word_is s "current_timestamp" then Some (L"MYSQL_TABLE_CREATE_CURRENTTIMESTAMP")
  else if word_is s "current_timestamp_on_update" then Some (L"MYSQL_TABLE_CREATE_CURRENTTIMESTAMP_ON_UPDATE")
  else if word_is s "zerofill" then Some (L"MYSQL_TABLE_CREATE_ZEROFILL")
  else if word_is s "default" then Some (L"MYSQL_TABLE_CREATE_DEFAULT")
  else if bool_decide (trim s = []) then Some []
  else None.

(** The loop over the pieces, with the result so far; [first] is [i == 0]. *)
Fixpoint create_flags_loop (first : bool) (l : list text) (res : text) : option text :=
  match l with
  | [] => Some res
  | s :: l => t ← create_flag_define_str s; create_flags_loop false l ((if first then res else res ++ L"|") ++ t)
  end.
Definition get_create_flags_define_str (s : text) : option text := create_flags_loop true (boost_split 44 s) [].

Definition can_select_field_type (s : text) : bool :=
  word_is s "int" || word_is s "tinyint" || word_is s "smallint" || word_is s "mediumint" || word_is s "int" || word_is s "bigint" ||
  contains (L"blob:") s || contains (L"text") s || word_is s "char" || word_is s "varchar" || word_is s "binary" || word_is s "varbinary".

Definition get_field_type_default_value (s : text) : option text :=
  if is_integer_type s then Some (L"0") else if word_is s "float" || word_is s "double" then Some (L"0.f") else None.

(** Whether the pointer to the type of a field points into the static string. *)
Definition user_defined_type (fields : list FieldInfo) (field_name : text) : bool :=
  match find_field fields field_name with
  | Some f => match get_blob_user_define_data (field_type f) with Some _ => true | None => false end
  | None => false
  end.
