(* ===== verification/DbGenStruct.v ===== *)
(** * The database generator: tables and their classes ([generate_define_file] and [generate_struct_file] of [db_generator/db_config_parser.cpp])

    The text that is written to the two open files.  What is written before an error stays written. *)
From S2P Require Import Prelude Text DbGenConfig.
From Stdlib Require Import ZArith Lia String Ascii.
From stdpp Require Import base option list.
Local Open Scope Z_scope.

(** ** Writing: whether it succeeded, and what was appended to the two files; [None] is undefined behaviour *)

Definition Gen : Type := option (bool * (text * text)).
Definition app2 (a b : text * text) : text * text := (a.1 ++ b.1, a.2 ++ b.2).
Definition emit (o : text * text) : Gen := Some (true, o).
Definition gen_fail : Gen := Some (false, ([], [])).
Definition gen_then (g g' : Gen) : Gen :=
  '(ok, o) ← g; if negb ok then Some (false, o) else '(ok, o') ← g'; Some (ok : bool, app2 o o').
Notation "g ;;; g'" := (gen_then g g') (at level 60, right associativity).
Fixpoint gen_each {A} (f : A -> Gen) (l : list A) : Gen :=
  match l with [] => emit ([], []) | a :: l => f a ;;; gen_each f l end.

(** ** [generate_define_file] *)

Definition fields_variable (t : TableInfo) : text := ti_name t ++ L"_table_fields_info".
Definition table_variable (t : TableInfo) : text := ti_name t ++ L"_table_info".
Definition tables_variable (c : Config) : text := db_name c ++ L"_tables".

Definition gen_define_field (f : FieldInfo) : Gen :=
  match get_field_type_define_str (field_type f) with None => gen_fail | Some type_ds =>
  let length_ds := get_field_length_define_str (field_length f) in
  match get_field_index_type_define_str (index_type f) with None => gen_fail | Some index_ds =>
  match get_create_flags_define_str (create_flags f) with None => gen_fail | Some create_flags_ds =>
  emit (
    L"  { " ++ quote ++ fi_name f ++ quote ++ L", " ++ type_ds ++ L", " ++ length_ds ++ L", " ++ index_ds ++ L", " ++
    create_flags_ds ++ L" }," ++ endl, [])
  end end end.

Definition engine_define_str (engine : text) : option text :=
  if word_is engine "myisam" then Some (L"  " ++ L"MYSQL_ENGINE_MYISAM," ++ endl)
  else if word_is engine "innodb" then Some (L"  " ++ L"MYSQL_ENGINE_INNODB," ++ endl)
  else None.

Definition gen_define_table (tf : TableInfo * list FieldInfo) : Gen :=
  let '(t, fields) := tf in
  emit (
    L"static const MysqlTableFieldInfo " ++ fields_variable t ++ L"[] = {" ++ endl, []) ;;;
  gen_each gen_define_field fields ;;;
  emit (
    L"};" ++ endl ++
    L"static const MysqlTableInfo " ++ table_variable t ++ L" = {" ++ endl ++
    L"  " ++ quote ++ ti_name t ++ quote ++ L"," ++ endl ++
    L"  " ++ print_signed (primary_key_index t) ++ L"," ++ endl ++
    L"  " ++ quote ++ primary_key t ++ quote ++ L"," ++ endl ++
    L"  " ++ fields_variable t ++ L"," ++ endl ++
    L"  sizeof(" ++ fields_variable t ++ L")/sizeof(" ++ fields_variable t ++ L"[0])," ++ endl, []) ;;;
  match engine_define_str (db_engine t) with None => gen_fail | Some engine_ds =>
  emit (engine_ds ++ L"};" ++ endl, []) end.

Definition gen_include (inc : text) : text := L"#include " ++ quote ++ inc ++ quote ++ endl.

Definition generate_define_file (jsonpath : text) (c : Config) : Gen :=
  emit (
    L"// Generated by the db_generator.  DO NOT EDIT!" ++ endl ++
    L"// source: " ++ jsonpath ++ endl ++
    L"#pragma once" ++ endl ++
    concat (gen_include <$> define_include_strings c) ++ endl, []) ;;;
  gen_each gen_define_table (zip (tables c) (tables_fields c)) ;;;
  emit (
    L"static const MysqlTableInfo " ++ tables_variable c ++ L"[] = {" ++ endl ++
    concat ((fun t => L"  " ++ table_variable t ++ L"," ++ endl) <$> tables c) ++
    L"};" ++ endl ++
    L"static const MysqlDatabaseConfig s_" ++ db_name c ++ L"_db_config = {" ++ endl ++
    L"  " ++ quote ++ db_name c ++ quote ++ L"," ++ endl ++
    L"  " ++ tables_variable c ++ L"," ++ endl ++
    L"  sizeof(" ++ tables_variable c ++ L")/sizeof(" ++ tables_variable c ++ L"[0])," ++ endl ++
    L"};" ++ endl, []).

(** ** The class of a table *)

(** The initialisers with a default value end with a comma each; those of the states are separated by commas. *)
Fixpoint gen_state_initialisers (b : bool) (fields : list FieldInfo) : text :=
  match fields with
  | [] => []
  | f :: fields =>
    if negb (is_field_time_type (field_type f)) then
      (if b then L"," ++ endl else []) ++ L"  " ++ fi_name f ++ L"_state(MYSQL_TABLE_FIELD_STATE_IDLE)" ++ gen_state_initialisers true fields
    else gen_state_initialisers b fields
  end.

Definition gen_default_initialiser (f : FieldInfo) : text :=
  match get_field_type_default_value (field_type f) with
  | Some ds => L"  " ++ fi_name f ++ L"(" ++ ds ++ L")," ++ endl
  | None => []
  end.

Definition gen_struct_constructor_func (t : TableInfo) (fields : list FieldInfo) : text * text :=
  (L"  " ++ ti_name t ++ L"();" ++ endl,
   ti_name t ++ L"::" ++ ti_name t ++ L"() : " ++ endl ++
   concat (gen_default_initialiser <$> fields) ++
   gen_state_initialisers false fields ++
   endl ++
   L"{}" ++ endl ++
   endl).

Definition gen_get_field_func (f : FieldInfo) (ft : text) : text :=
  L"  " ++ ft ++ L" get_" ++ fi_name f ++ L"() const {" ++ endl ++
  L"    return " ++ fi_name f ++ L";" ++ endl ++
  L"  }" ++ endl.
Definition gen_get_mutable_field_func (f : FieldInfo) (ft : text) : text :=
  L"  " ++ ft ++ L"& get_mutable_" ++ fi_name f ++ L"() {" ++ endl ++
  L"    return " ++ fi_name f ++ L";" ++ endl ++
  L"  }" ++ endl.
Definition gen_get_const_obj_field_func (f : FieldInfo) (ft : text) : text :=
  L"  const " ++ ft ++ L"& get_" ++ fi_name f ++ L"() const {" ++ endl ++
  L"    return " ++ fi_name f ++ L";" ++ endl ++
  L"  }" ++ endl.
Definition gen_init_field_func (f : FieldInfo) (ft : text) : text :=
  L"  void init_" ++ fi_name f ++ L"(" ++ ft ++ L" data) {" ++ endl ++
  L"    " ++ fi_name f ++ L" = data;" ++ endl ++
  L"    " ++ fi_name f ++ L"_state = MYSQL_TABLE_FIELD_STATE_INITED;" ++ endl ++
  L"  }" ++ endl.
Definition gen_init_const_obj_field_func (f : FieldInfo) (ft : text) : text :=
  L"  void init_" ++ fi_name f ++ L"(const " ++ ft ++ L"& data) {" ++ endl ++
  L"    " ++ fi_name f ++ L" = data;" ++ endl ++
  L"    " ++ fi_name f ++ L"_state = MYSQL_TABLE_FIELD_STATE_INITED;" ++ endl ++
  L"  }" ++ endl.
Definition gen_set_field_func (f : FieldInfo) (ft : text) : text :=
  L"  void set_" ++ fi_name f ++ L"(" ++ ft ++ L" data) {" ++ endl ++
  L"    " ++ fi_name f ++ L" = data;" ++ endl ++
  L"    " ++ fi_name f ++ L"_state = MYSQL_TABLE_FIELD_STATE_CHANGED;" ++ endl ++
  L"  }" ++ endl.
Definition gen_set_const_obj_field_func (f : FieldInfo) (ft : text) : text :=
  L"  void set_" ++ fi_name f ++ L"(const " ++ ft ++ L"& data) {" ++ endl ++
  L"    " ++ fi_name f ++ L" = data;" ++ endl ++
  L"    " ++ fi_name f ++ L"_state = MYSQL_TABLE_FIELD_STATE_CHANGED;" ++ endl ++
  L"  }" ++ endl.
Definition gen_get_field_state_func (f : FieldInfo) : text :=
  L"  MysqlTableFieldValueState get_" ++ fi_name f ++ L"_state() const {" ++ endl ++
  L"    return " ++ fi_name f ++ L"_state;" ++ endl ++
  L"  }" ++ endl.
Definition gen_set_field_state_func (f : FieldInfo) : text :=
  L"  void set_" ++ fi_name f ++ L"_state(MysqlTableFieldValueState state) {" ++ endl ++
  L"    " ++ fi_name f ++ L"_state = state;" ++ endl ++
  L"  }" ++ endl.
Definition gen_commit_field_changed_func (f : FieldInfo) : text :=
  L"  void commit_" ++ fi_name f ++ L"_changed() {" ++ endl ++
  L"    " ++ fi_name f ++ L"_state = MYSQL_TABLE_FIELD_STATE_CHANGED;" ++ endl ++
  L"  }" ++ endl.

(** The declarations of the accessors of a field; nothing for a time. *)
Definition gen_accessors (f : FieldInfo) : Gen :=
  if is_field_time_type (field_type f) then emit ([], []) else
  match get_field_type_str f with None => gen_fail | Some ft =>
  emit (
    (if is_basic_field_type (field_type f)
     then gen_get_field_func f ft ++ gen_init_field_func f ft ++ gen_set_field_func f ft
     else gen_get_mutable_field_func f ft ++ gen_get_const_obj_field_func f ft ++ gen_init_const_obj_field_func f ft ++
          gen_set_const_obj_field_func f ft ++ gen_commit_field_changed_func f) ++
    gen_get_field_state_func f ++ gen_set_field_state_func f, [])
  end.

(** The fields that take part in the requests of a record, with their C++ types: all but the primary key, and those
    without a type. *)
Definition request_fields (t : TableInfo) (fields : list FieldInfo) : list (FieldInfo * text) :=
  omap (fun '(i, f) => if Z.of_nat i =? primary_key_index t then None else ft ← get_field_type_str f; Some (f, ft))
    (zip (seq 0 (length fields)) fields).

Definition nv_name (f : FieldInfo) : text := L"nv_" ++ fi_name f.

(** [format_params_string]: the first name, and then each with a comma before it. *)
Definition format_params (fs : list (FieldInfo * text)) : text :=
  foldl (fun params '(f, _) => match params with [] => nv_name f | _ => params ++ (L", " ++ nv_name f) end) [] fs.

Definition gen_insert_value (ff : FieldInfo * text) : text :=
  let '(f, ft) := ff in
  let nv := nv_name f in
  L"  MysqlFieldNameValue<" ++ ft ++ L"> " ++ nv ++ L"(" ++ quote ++ fi_name f ++ quote ++ L", this->get_" ++
  fi_name f ++ L"()" ++ L");" ++ endl.
Definition gen_insert_state (ff : FieldInfo * text) : text :=
  let '(f, _) := ff in
  L"  this->set_" ++ fi_name f ++ L"_state(MYSQL_TABLE_FIELD_STATE_COMMITTING);" ++ endl.

Definition gen_struct_insert_func (t : TableInfo) (fields : list FieldInfo) : text * text :=
  let func_name := L"insert_request(/*mysql_cmd_callback_func get_last_insert_id_func, void* param, long param_l*/)" in
  let params := format_params (request_fields t fields) in
  (L"  bool " ++ func_name ++ L";" ++ endl,
   L"bool " ++ ti_name t ++ L"::" ++ func_name ++ L" {" ++ endl ++
   concat (gen_insert_value <$> request_fields t fields) ++
   L"  if (!DB_MGR.insertRecord(" ++ quote ++ ti_name t ++ quote ++
   L"/*, get_last_insert_id_func, param, param_l*/, " ++ params ++ L")) {" ++ endl ++
   L"    std::cout << " ++ quote ++ L"insert record failed" ++ quote ++ L" << std::endl;" ++ endl ++
   L"    return false;" ++ endl ++
   L"  }" ++ endl ++
   concat (gen_insert_state <$> request_fields t fields) ++
   L"  return true;" ++ endl ++
   L"}" ++ endl ++
   endl).

Definition gen_struct_delete_func (t : TableInfo) : text * text :=
  let func_name := L"delete_request()" in
  (L"  bool " ++ func_name ++ L";" ++ endl,
   L"bool " ++ ti_name t ++ L"::" ++ func_name ++ L" {" ++ endl ++
   L"  if (!DB_MGR.deleteRecord(" ++ quote ++ ti_name t ++ quote ++ L", " ++ quote ++ delete_key t ++ quote ++
   L", " ++ L"this->get_" ++ delete_key t ++ L"())) {" ++ endl ++
   L"    std::cout << " ++ quote ++ L"delete record failed" ++ quote ++ L" << std::endl;" ++ endl ++
   L"    return false;" ++ endl ++
   L"  }" ++ endl ++
   L"  return true;" ++ endl ++
   L"}" ++ endl ++
   endl).

Definition gen_update_value (ff : FieldInfo * text) : text :=
  let '(f, ft) := ff in
  let nv := nv_name f in
  L"  MysqlFieldNameValue<" ++ ft ++ L"> " ++ nv ++ L"((get_" ++ fi_name f ++
  L"_state() == MYSQL_TABLE_FIELD_STATE_CHANGED)" ++ L"?" ++ quote ++ fi_name f ++ quote ++
  L":nullptr, this->get_" ++ fi_name f ++ L"()" ++ L");" ++ endl.
Definition gen_update_state (ff : FieldInfo * text) : text :=
  let '(f, _) := ff in
  L"  if (this->get_" ++ fi_name f ++ L"_state() == MYSQL_TABLE_FIELD_STATE_CHANGED) {" ++ endl ++
  L"    this->set_" ++ fi_name f ++ L"_state(MYSQL_TABLE_FIELD_STATE_COMMITTING);" ++ endl ++
  L"  }" ++ endl.

Definition gen_struct_update_func (t : TableInfo) (fields : list FieldInfo) : text * text :=
  if bool_decide (update_key t = []) then ([], []) else
  let func_name := L"update_request()" in
  let params := format_params (request_fields t fields) in
  (L"  bool " ++ func_name ++ L";" ++ endl,
   L"bool " ++ ti_name t ++ L"::" ++ func_name ++ L" {" ++ endl ++
   concat (gen_update_value <$> request_fields t fields) ++
   L"  if (!DB_MGR.updateRecord(" ++ quote ++ ti_name t ++ quote ++ L", " ++ quote ++ update_key t ++ quote ++
   L", " ++ L"this->get_" ++ update_key t ++ L"()" ++ L", " ++ params ++ L")) {" ++ endl ++
   L"    std::cout << " ++ quote ++ L"update record failed" ++ quote ++ L" << std::endl;" ++ endl ++
   L"    return false;" ++ endl ++
   L"  }" ++ endl ++
   concat (gen_update_state <$> request_fields t fields) ++
   L"  return true;" ++ endl ++
   L"}" ++ endl ++
   endl).

Definition gen_member (f : FieldInfo) : Gen :=
  if is_field_time_type (field_type f) then emit ([], []) else
  match get_field_type_str f with None => gen_fail | Some ft =>
  emit (L"  " ++ ft ++ L" " ++ fi_name f ++ L";" ++ endl, []) end.
Definition gen_state_member (f : FieldInfo) : text :=
  if is_field_time_type (field_type f) then [] else
  L"  MysqlTableFieldValueState " ++ fi_name f ++ L"_state;" ++ endl.

Definition gen_class (tf : TableInfo * list FieldInfo) : Gen :=
  let '(t, fields) := tf in
  emit (
    endl ++
    L"class " ++ ti_name t ++ L" {" ++ endl ++
    L"public:" ++ endl, []) ;;;
  emit (gen_struct_constructor_func t fields) ;;;
  gen_each gen_accessors fields ;;;
  emit (gen_struct_insert_func t fields) ;;;
  emit (gen_struct_update_func t fields) ;;;
  emit (gen_struct_delete_func t) ;;;
  emit (endl ++ L"private:" ++ endl, []) ;;;
  gen_each gen_member fields ;;;
  emit (concat (gen_state_member <$> fields) ++ L"};" ++ endl ++ endl, []).

(** ** [gen_db_tables_manager] *)

(** The type and the name of the member for a table.  A null pointer that is added to a string is undefined behaviour;
    so is the first of two types of the user, since the second is put into the same static string. *)
Definition table_member (tf : TableInfo * list FieldInfo) : option (option (text * text)) :=
  let '(t, fields) := tf in
  let mem := ti_name t ++ L"_table" in
  match select_keys_info t with
  | [k] =>
    if word_is (sk_result_type k) "single" || bool_decide (sk_result_type k = []) then
      key ← get_field_type_str_of fields (sk_key k);
      Some (Some (L"mysql_records_manager<" ++ ti_name t ++ L", " ++ key ++ L">", mem))
    else if word_is (sk_result_type k) "multi" then
      let key := get_field_type_str_of fields (sk_key k) in
      sub_key ← get_field_type_str_of fields (sk_result_key k);
      match key with
      | None => Some (Some (L"mysql_records_manager<" ++ ti_name t ++ L", " ++ sub_key ++ L">", mem))
      | Some key =>
        if user_defined_type fields (sk_key k) && user_defined_type fields (sk_result_key k) then None else
        Some (Some (L"mysql_records_manager_map<" ++ ti_name t ++ L", " ++ key ++ L", " ++ sub_key ++ L">", mem))
      end
    else Some None
  | [k; k2] =>
    if negb (word_is (sk_result_type k) "single") || negb (word_is (sk_result_type k2) "single") then Some None else
    key ← get_field_type_str_of fields (sk_key k);
    key2 ← get_field_type_str_of fields (sk_key k2);
    Some (Some (L"mysql_records_manager2<" ++ ti_name t ++ L", " ++ key ++ L", " ++ key2 ++ L">", mem))
  | _ => Some None
  end.

Fixpoint table_members (l : list (TableInfo * list FieldInfo)) : option (option (list (text * text))) :=
  match l with
  | [] => Some (Some [])
  | tf :: l => m ⇐ table_member tf; ms ⇐ table_members l; Some (Some (m :: ms))
  end.

Definition gen_db_tables_manager (c : Config) : Gen :=
  let class_name := db_name c ++ L"_tables_manager" in
  emit (
    L"// " ++ class_name ++ endl ++
    L"class " ++ class_name ++ L" {" ++ endl ++
    L"public:" ++ endl ++
    L"  " ++ class_name ++ L"() {}" ++ endl ++
    L"  ~" ++ class_name ++ L"() {}" ++ endl ++
    endl, []) ;;;
  match table_members (zip (tables c) (tables_fields c)) with
  | None => None
  | Some None => gen_fail
  | Some (Some ms) =>
    emit (
      concat ((fun m =>
        L"  " ++ m.1 ++ L"&" ++ endl ++
        L"  get_" ++ m.2 ++ L"() { return " ++ m.2 ++ L"; }" ++ endl ++
        endl) <$> ms) ++
      L"  void" ++ endl ++
      L"  update() {" ++ endl ++
      concat ((fun m => L"    " ++ m.2 ++ L".update();" ++ endl) <$> ms) ++
      L"  }" ++ endl ++
      endl ++
      L"private:" ++ endl ++
      concat ((fun m => L"  " ++ m.1 ++ L" " ++ m.2 ++ L";" ++ endl) <$> ms) ++
      L"};" ++ endl, [])
  end.

(** ** [generate_struct_file] *)

Definition generate_struct_file (jsonpath : text) (c : Config) (file_name : text) : Gen :=
  let name := file_name ++ L"_struct.h" in
  emit (
    L"// Generated by the db_generator.  DO NOT EDIT!" ++ endl ++
    L"// source: " ++ jsonpath ++ endl ++
    endl ++
    L"#pragma once" ++ endl ++
    L"#include <string>" ++ endl ++
    L"#include <set>" ++ endl ++
    L"#include <unordered_map>" ++ endl ++
    L"#include <list>" ++ endl ++
    L"#include " ++ quote ++ L"../mysql/mysql_connector.h" ++ quote ++ endl ++
    L"#include " ++ quote ++ L"../mysql/mysql_records_manager.h" ++ quote ++ endl ++
    concat (gen_include <$> struct_include_strings c) ++ endl,
    L"// Generated by the db_generator.  DO NOT EDIT!" ++ endl ++
    L"// source: " ++ jsonpath ++ endl ++
    endl ++
    L"#include " ++ quote ++ name ++ quote ++ endl ++
    L"#include <iostream>" ++ endl ++
    L"#include " ++ quote ++ L"../../proto/src/db_field_struct.pb.h" ++ quote ++ endl ++
    L"#include " ++ quote ++ L"../mysql/mysql_db_manager.h" ++ quote ++ endl ++
    L"#include " ++ quote ++ L"db_server.h" ++ quote ++ endl ++
    endl) ;;;
  gen_each gen_class (zip (tables c) (tables_fields c)) ;;;
  gen_db_tables_manager c.
