(* ===== verification/DbGenFunc.v ===== *)
(** * The database generator: functions ([generate_func_file] of [db_generator/db_config_parser.cpp])

    For every table and every key by which it is selected, a function that sends the select and a function that puts
    its result into the class of the table; and the program as a whole. *)
From S2P Require Import Prelude Text Json ServerFiles DbGenConfig DbGenStruct.
From Stdlib Require Import ZArith Lia String Ascii.
From stdpp Require Import base option list.
Local Open Scope Z_scope.

Definition MYSQL_MAX_KEYS_COUNT : nat := 3.

(** The parameter for a key.  It is written into a static buffer of 32 characters: every call overwrites the result of
    the last one. *)
Definition get_field_format_for_func (fields : list FieldInfo) (field_name : text) : option text :=
  match find_field fields field_name with
  | None => None
  | Some f =>
    let unsigned := contains (L"unsigned") (create_flags f) in
    let s := field_type f in
    if word_is s "tinyint" || word_is s "smallint" || word_is s "mediumint" || word_is s "int"
    then Some (snprintf 32 ((if unsigned then L"unsigned int " else L"int ") ++ field_name))
    else if word_is s "bigint" then Some (snprintf 32 ((if unsigned then L"uint64_t " else L"int64_t ") ++ field_name))
    else if contains (L"text") s || word_is s "char" || word_is s "varchar"
    then Some (snprintf 32 (L"const std::string& " ++ field_name))
    else None
  end.

(** The loop over the keys: the number of keys that count, and the content of the static buffer, to which all the
    pointers of [ff] point; an empty key makes the number 0.  [None] is [return false]. *)
Fixpoint select_keys_loop (fields : list FieldInfo) (ks : nat) (buf : text) (keys : list text) : option (nat * text) :=
  match keys with
  | [] => Some (ks, buf)
  | key :: keys =>
    match key with
    | [] => Some (O, buf)
    | _ => buf ← get_field_format_for_func fields key; select_keys_loop fields ks buf keys
    end
  end.

Definition select_title (t : TableInfo) (ks : nat) (param : text) (keys : list text) : text :=
  match ks, keys with
  | 1%nat, [k0] =>
    L"bool db_select_" ++ ti_name t ++ L"_fields_by_" ++ k0 ++ L"(" ++ param ++
    L", mysql_cmd_callback_func get_result_func/*, void* param, long param_l*/)"
  | 2%nat, [k0; k1] =>
    L"bool db_select_" ++ ti_name t ++ L"_fields_by_" ++ k0 ++ L"_and_" ++ k1 ++ L"(" ++ param ++
    L", mysql_cmd_callback_func get_result_func/*, void* param, long param_l*/)"
  | 3%nat, [k0; k1; k2] =>
    L"bool db_select_" ++ ti_name t ++ L"_fields_by_" ++ k0 ++ L"_and_" ++ k1 ++ L"_and_" ++ L"(" ++ param ++
    L", mysql_cmd_callback_func get_result_func/*, void* param, long param_l*/)"
  | _, _ =>
    L"bool db_select_" ++ ti_name t ++ L"_fields" ++
    L"(mysql_cmd_callback_func get_result_func/*, void* param, long param_l*/)"
  end.

Definition select_arguments (ks : nat) (keys : list text) : text :=
  match ks, keys with
  | 1%nat, [k0] => L", " ++ quote ++ k0 ++ quote ++ L", " ++ k0
  | 2%nat, [k0; k1] => L", " ++ quote ++ k0 ++ quote ++ L", " ++ k0 ++ L", " ++ quote ++ k1 ++ quote ++ L", " ++ k1
  | 3%nat, [k0; k1; k2] =>
    L", " ++ quote ++ k0 ++ quote ++ L", " ++ k0 ++ L", " ++ quote ++ k1 ++ quote ++ L", " ++ k1 ++ L", " ++ quote ++
    k2 ++ quote ++ L", " ++ k2
  | _, _ => []
  end.

(** The fields that a select asks for, in the order of the table. *)
Definition gen_select_field (f : FieldInfo) : text :=
  if can_select_field_type (field_type f) then L"    " ++ quote ++ fi_name f ++ quote ++ L"," ++ endl else [].

(** The function around the names of the fields. *)
Definition select_head (title : text) : text :=
  title ++ L" {" ++ endl ++
  L"  static const char* s_sel_fields[] = { " ++ endl.
Definition select_tail (t : TableInfo) (ks : nat) (keys : list text) : text :=
  L"  };" ++ endl ++
  L"  if (!DB_MGR.selectRecord(" ++ quote ++ ti_name t ++ quote ++
  select_arguments ks keys ++
  L", s_sel_fields, sizeof(s_sel_fields)/sizeof(s_sel_fields[0]), get_result_func/*, param, param_l*/)) {" ++ endl ++
  L"    return false;" ++ endl ++
  L"  }" ++ endl ++
  L"  return true;" ++ endl ++
  L"}" ++ endl ++
  endl.

Definition gen_select_record_func (t : TableInfo) (fields : list FieldInfo) (k : SelKeyInfo) : Gen :=
  let keys := boost_split 38 (sk_key k) in
  if (MYSQL_MAX_KEYS_COUNT <? length keys)%nat then gen_fail else
  match select_keys_loop fields (length keys) [] keys with
  | None => gen_fail
  | Some (ks, param) =>
    let title := select_title t ks param keys in
    emit (title ++ L";" ++ endl, select_head title ++ concat (gen_select_field <$> fields) ++ select_tail t ks keys)
  end.

(** ** [gen_get_result_of_select_record_func] *)

(** The lines are indented once more inside the loop over the rows. *)
Definition indent (multi : bool) : text := if multi then L"  " else [].

(** The statements that read the column [m] as a number or a string: through a variable when the field is the key of
    the result. *)
Definition gen_read_value (multi is_key : bool) (name decl value : text) : text :=
  (if is_key then indent multi ++ L"  " ++ decl ++ endl else []) ++
  indent multi ++
  (if is_key then L"  data->init_" ++ name ++ L"(d);" ++ endl else L"  data->init_" ++ name ++ L"(" ++ value ++ L");" ++ endl).

Definition gen_read_message (multi : bool) (f : FieldInfo) (user_define : text) (m : Z) : text :=
  indent multi ++
  L"  if (!data->get_mutable_" ++ fi_name f ++ L"().ParseFromArray(row[" ++ print_signed m ++ L"], row_len[" ++
  print_signed m ++ L"])) {" ++ endl ++
  indent multi ++ L"    LogError(" ++ quote ++ L"user define " ++ user_define ++ L" parse failed" ++ quote ++ L");" ++ endl ++
  indent multi ++ L"    return -1;" ++ endl ++
  indent multi ++ L"  }" ++ endl.

Definition gen_row_lengths (multi : bool) : text :=
  indent multi ++ L"  const unsigned long* row_len = res.row_lengths();" ++ endl.

(** What is written for a field that is selected, as column [m]; and whether the lengths of the columns are known. *)
Definition gen_read_field (k : SelKeyInfo) (f : FieldInfo) (m : Z) (has_blob : bool) : Gen * bool :=
  let s := field_type f in
  let multi := word_is (sk_result_type k) "multi" in
  let is_key := bool_decide (sk_result_key k = fi_name f) in
  let unsigned := contains (L"unsigned") (create_flags f) in
  let row := L"row[" ++ print_signed m ++ L"]" in
  let insert := if is_key && multi then L"    result_list.insert_new(d, data);" ++ endl else [] in
  let value decl v := (emit ([], gen_read_value multi is_key (fi_name f) (decl ++ v ++ L";") v ++ insert), has_blob) in
  if word_is s "tinyint" || word_is s "smallint" || word_is s "mediumint" || word_is s "int" then
    if unsigned then value (L"unsigned int d = ") (L"(unsigned int)std::strtoul(" ++ row ++ L", nullptr, 10)")
    else value (L"int d = ") (L"std::atoi(" ++ row ++ L")")
  else if word_is s "bigint" then
    if unsigned then value (L"uint64_t d = ") (L"(uint64_t)std::strtoull(" ++ row ++ L", nullptr, 10)")
    else value (L"int64_t d = ") (L"(int64_t)std::strtoull(" ++ row ++ L", nullptr, 10)")
  else if contains (L"blob") s || contains (L"binary") s then
    match get_blob_user_define_data s with
    | None => (gen_fail, has_blob)
    | Some user_define =>
      (emit ([], (if has_blob then [] else gen_row_lengths multi) ++ gen_read_message multi f user_define m ++ insert), true)
    end
  else if contains (L"text") s || word_is s "char" || word_is s "varchar" then value (L"string d = ") row
  else (gen_fail, has_blob).

Fixpoint gen_read_fields (k : SelKeyInfo) (fields : list FieldInfo) (m : Z) (has_blob : bool) : Gen :=
  match fields with
  | [] => emit ([], [])
  | f :: fields =>
    if can_select_field_type (field_type f)
    then let '(g, has_blob) := gen_read_field k f m has_blob in g ;;; gen_read_fields k fields (m + 1) has_blob
    else gen_read_fields k fields m has_blob
  end.

(** The title, or [Some None] for a kind of result that is refused; a key of the result without a C++ type makes a
    string from a null pointer. *)
Definition result_title (t : TableInfo) (fields : list FieldInfo) (k : SelKeyInfo) : option (option text) :=
  if bool_decide (sk_result_type k = []) || word_is (sk_result_type k) "single" then
    Some (Some (L"int db_get_result_of_select_" ++ ti_name t ++ L"_by_" ++ sk_key k ++ L"(MysqlConnector::Result& res, " ++
ti_name t ++ L"* data)"))
  else if word_is (sk_result_type k) "multi" then
    if bool_decide (sk_result_key k = []) then Some None else
    ft ← get_field_type_str_of fields (sk_result_key k);
    Some (Some (L"int db_get_result_of_select_" ++ ti_name t ++ L"(MysqlConnector::Result& res, mysql_records_manager<" ++
      ti_name t ++ L", " ++ ft ++ L">& result_list)"))
  else Some None.

(** The function around the statements that read the columns. *)
Definition result_head (t : TableInfo) (multi : bool) (title : text) : text :=
  title ++ L" {" ++ endl ++
  L"  if (res.res_err != 0) {" ++ endl ++
  L"    LogError(" ++ quote ++ L"result(%d) is not no error" ++ quote ++ L", res.res_err);" ++ endl ++
  L"    return -1;" ++ endl ++
  L"  }" ++ endl ++
  L"  if (res.num_rows()==0 || res.is_empty()) {" ++ endl ++
  L"    LogInfo(" ++ quote ++ L"result is empty" ++ quote ++ L");" ++ endl ++
  L"    return 0;" ++ endl ++
  L"  }" ++ endl ++
  L"  MYSQL_ROW row;" ++ endl ++
  (if multi then
     L"  while ((row = res.fetch()) != nullptr) {" ++ endl ++
     L"    " ++ ti_name t ++ L"* data = result_list.get_new_no_insert();" ++ endl
   else L"  row = res.fetch();" ++ endl).
Definition result_tail (multi : bool) : text :=
  (if multi then L"  }" ++ endl else []) ++
  L"  return res.num_rows();" ++ endl ++
  L"}" ++ endl ++
  endl.

Definition gen_get_result_of_select_record_func (t : TableInfo) (fields : list FieldInfo) (k : SelKeyInfo) : Gen :=
  let multi := word_is (sk_result_type k) "multi" in
  match result_title t fields k with
  | None => None
  | Some None => gen_fail
  | Some (Some title) =>
    emit (title ++ L";" ++ endl, result_head t multi title) ;;;
    gen_read_fields k fields 0 false ;;;
    emit ([], result_tail multi)
  end.

(** ** [generate_func_file] *)

Definition generate_func_file (jsonpath : text) (c : Config) (file_name : text) : Gen :=
  let name := file_name ++ L"_func.h" in
  emit (
    L"// Generated by the db_generator.  DO NOT EDIT!" ++ endl ++
    L"// source: " ++ jsonpath ++ endl ++
    L"#pragma once" ++ endl ++
    concat (gen_include <$> funcs_include_strings c) ++ endl,
    L"// Generated by the db_generator. DO NOT EDIT!" ++ endl ++
    L"// source: " ++ jsonpath ++ endl ++
    L"#include " ++ quote ++ name ++ quote ++ endl ++
    L"#include <cstdlib>" ++ endl ++
    L"#include <string>" ++ endl ++
    endl) ;;;
  gen_each (fun '(t, fields) =>
    gen_each (fun k => gen_select_record_func t fields k ;;; gen_get_result_of_select_record_func t fields k) (select_keys_info t) ;;;
    emit (endl, [])) (zip (tables c) (tables_fields c)).

(** ** [gen_insert_record_func] and [gen_update_record_func], which are not called *)

Definition gen_data_insert_value (ff : FieldInfo * text) : text :=
  let '(f, ft) := ff in
  let nv := nv_name f in
  L"  MysqlFieldNameValue<" ++ ft ++ L"> " ++ nv ++ L"(" ++ quote ++ fi_name f ++ quote ++ L", data.get_" ++
  fi_name f ++ L"()" ++ L");" ++ endl.

Definition gen_insert_record_func (t : TableInfo) (fields : list FieldInfo) : Gen :=
  let title := L"bool db_insert_" ++ ti_name t ++ L"_record(const " ++ ti_name t ++
    L"& data, mysql_cmd_callback_func get_last_insert_id_func, void* param, long param_l)" in
  emit (title ++ L";" ++ endl,
    title ++ L" {" ++ endl ++
    concat (gen_data_insert_value <$> request_fields t fields) ++
    L"  if (!DB_MGR.insertRecord(" ++ quote ++ ti_name t ++ quote ++
    L", get_last_insert_id_func, param, param_l, " ++ format_params (request_fields t fields) ++ L")) {" ++ endl ++
    L"    std::cout << " ++ quote ++ L"insert record failed" ++ quote ++ L" << std::endl;" ++ endl ++
    L"    return false;" ++ endl ++
    L"  }" ++ endl ++
    L"  return true;" ++ endl ++
    L"}" ++ endl ++
    endl).

Definition gen_data_update_value (ff : FieldInfo * text) : text :=
  let '(f, ft) := ff in
  let nv := nv_name f in
  L"  MysqlFieldNameValue<" ++ ft ++ L"> " ++ nv ++ L"(" ++ quote ++ L"data.get_" ++ fi_name f ++
  L"_state() == MYSQL_TABLE_FIELD_STATE_CHANGED?" ++ quote ++ fi_name f ++ quote ++ L":nullptr, data.get_" ++
  fi_name f ++ L"()" ++ L");" ++ endl.
Definition gen_data_update_state (ff : FieldInfo * text) : text :=
  let '(f, _) := ff in
  L"  if (data.get_" ++ fi_name f ++ L"_state() == MYSQL_TABLE_FIELD_STATE_CHANGED) {" ++ endl ++
  L"    data.set_" ++ fi_name f ++ L"_state(MYSQL_TABLE_FIELD_STATE_COMMITTING);" ++ endl ++
  L"  }" ++ endl.

(** The parts of the title and of the call for up to two keys; three are refused here. *)
Definition gen_update_record_func (t : TableInfo) (fields : list FieldInfo) (update_key : text) : Gen :=
  let keys := boost_split 38 update_key in
  if (MYSQL_MAX_KEYS_COUNT <=? length keys)%nat then gen_fail else
  let title := L"bool db_update_" ++ ti_name t ++ L"_record_by_" ++ boost_join (L"_and_") keys ++ L"(" ++ ti_name t ++ L"& data)" in
  emit (title ++ L";" ++ endl,
    title ++ L" {" ++ endl ++
    concat (gen_data_update_value <$> request_fields t fields) ++
    L"  if (!DB_MGR.updateRecord(" ++ quote ++ ti_name t ++ quote ++ L", " ++
    boost_join (L", ") ((fun key => quote ++ key ++ quote ++ L", data.get_" ++ key ++ L"()") <$> keys) ++
    L", " ++ format_params (request_fields t fields) ++ L")) {" ++ endl ++
    L"    std::cout << " ++ quote ++ L"update record failed" ++ quote ++ L" << std::endl;" ++ endl ++
    L"    return false;" ++ endl ++
    L"  }" ++ endl ++
    concat (gen_data_update_state <$> request_fields t fields) ++
    L"  return true;" ++ endl ++
    L"}" ++ endl ++
    endl).

(** ** The program *)

(** The files that were opened, with what was written to them. *)
Definition generate (jsonpath : text) (c : Config) : option (bool * list (text * text)) :=
  match after_last 47 jsonpath with
  | None => Some (false, [])
  | Some file_name =>
    let file_name := without_endings file_name in
    '(ok, d) ← generate_define_file jsonpath c;
    let files := [(file_name ++ L"_define.h", d.1)] in
    if negb ok then Some (false, files) else
    '(ok, s) ← generate_struct_file jsonpath c file_name;
    let files := files ++ [(file_name ++ L"_struct.h", s.1); (file_name ++ L"_struct.cpp", s.2)] in
    if negb ok then Some (false, files) else
    '(ok, f) ← generate_func_file jsonpath c file_name;
    Some (ok : bool, files ++ [(file_name ++ L"_func.h", f.1); (file_name ++ L"_func.cpp", f.2)])
  end.

Definition DB_STRUCT_JSON : text := L"./db_tables.json".

(** The result of [main] and the files. *)
Definition generator_main `{Files} : option (Z * list (text * text)) :=
  r ← load DB_STRUCT_JSON;
  match r with
  | None => Some (-1, [])
  | Some (c, proto) =>
    '(ok, files) ← generate DB_STRUCT_JSON c;
    Some (if ok : bool then 0 else -1, proto :: files)
  end.
