(* ===== verification/DbGenProps.v ===== *)
(** * What the generated functions mean

    The function that reads the result of a select, as a program: its statements, how each is written, and what it does
    with a row of the database.  The theorems about the generator say that the text it writes is the text of such a
    program, and that the program loads the record. *)
From S2P Require Import Prelude Text DbGenConfig DbGenStruct DbGenFunc.
From Stdlib Require Import ZArith Lia String Ascii.
From stdpp Require Import base option list gmap sets.
Local Open Scope Z_scope.

(** How a column is converted: [(unsigned int)std::strtoul], [std::atoi], [(uint64_t)std::strtoull],
    [(int64_t)std::strtoull], or not at all. *)
Inductive Conv : Type := ToUInt | ToInt | ToU64 | ToI64 | ToString.

(** The statements: the lengths of the columns, [T d = column;], [data->init_x(column);], [data->init_x(d);], the parse of a
    message of the user, and the insertion of the record under [d]. *)
Inductive Stmt : Type :=
| SRowLengths
| SDeclare (c : Conv) (m : Z)
| SInit (name : text) (c : Conv) (m : Z)
| SInitVar (name : text)
| SParse (name type : text) (m : Z)
| SInsert.

(** ** How they are written *)

Definition print_column (m : Z) : text := L"row[" ++ print_signed m ++ L"]".
Definition print_conv (c : Conv) (m : Z) : text :=
  match c with
  | ToUInt => L"(unsigned int)std::strtoul(" ++ print_column m ++ L", nullptr, 10)"
  | ToInt => L"std::atoi(" ++ print_column m ++ L")"
  | ToU64 => L"(uint64_t)std::strtoull(" ++ print_column m ++ L", nullptr, 10)"
  | ToI64 => L"(int64_t)std::strtoull(" ++ print_column m ++ L", nullptr, 10)"
  | ToString => print_column m
  end.
Definition print_type (c : Conv) : text :=
  match c with ToUInt => L"unsigned int" | ToInt => L"int" | ToU64 => L"uint64_t" | ToI64 => L"int64_t" | ToString => L"string" end.

Definition print_stmt (multi : bool) (s : Stmt) : text :=
  match s with
  | SRowLengths => indent multi ++ L"  const unsigned long* row_len = res.row_lengths();" ++ endl
  | SDeclare c m => indent multi ++ L"  " ++ print_type c ++ L" d = " ++ print_conv c m ++ L";" ++ endl
  | SInit name c m => indent multi ++ L"  data->init_" ++ name ++ L"(" ++ print_conv c m ++ L");" ++ endl
  | SInitVar name => indent multi ++ L"  data->init_" ++ name ++ L"(d);" ++ endl
  | SParse name type m =>
    indent multi ++ L"  if (!data->get_mutable_" ++ name ++ L"().ParseFromArray(row[" ++ print_signed m ++ L"], row_len[" ++ print_signed m ++ L"])) {" ++ endl ++
    indent multi ++ L"    LogError(" ++ quote ++ L"user define " ++ type ++ L" parse failed" ++ quote ++ L");" ++ endl ++
    indent multi ++ L"    return -1;" ++ endl ++
    indent multi ++ L"  }" ++ endl
  | SInsert => L"    result_list.insert_new(d, data);" ++ endl
  end.

Definition print_select_name (name : text) : text := L"    " ++ quote ++ name ++ quote ++ L"," ++ endl.

(** ** What they do *)

Section semantics.
(** The messages of the users, and the parser of a type of message ([protobuf]'s). *)
Context {M : Type}.
Variable ParseFromArray : text -> text -> option M.

Inductive Value : Type := VInt (z : Z) | VText (t : text) | VMessage (type : text) (m : M).

(** A column that is null is a null pointer, which no conversion survives; a C string ends at the first zero. *)
Definition convert (c : Conv) (column : option text) : option Value :=
  t ← column;
  let s := c_str t in
  match c with
  | ToUInt => Some (VInt (u32 (strtoul s)))
  | ToInt => z ← atoi s; Some (VInt z)
  | ToU64 => Some (VInt (strtoul s))
  | ToI64 => Some (VInt (s64 (strtoul s)))
  | ToString => Some (VText s)
  end.

(** The record, the variable [d], whether the lengths are known, and the key under which the record was inserted. *)
Record Reading : Type := mkReading { rd_data : gmap text Value; rd_d : option Value; rd_lens : bool; rd_key : option Value }.

(** [Some None] is [return -1]; [None] is undefined behaviour, or a program that does not compile: a name that is used and
    not declared, or declared twice. *)
Definition exec_stmt (row : list (option text)) (s : Stmt) (r : Reading) : Read Reading :=
  match s with
  | SRowLengths => if rd_lens r then None else read_ret (mkReading (rd_data r) (rd_d r) true (rd_key r))
  | SDeclare c m =>
    match rd_d r with Some _ => None | None =>
    column ⇐ sure (row !! Z.to_nat m); v ⇐ sure (convert c column); read_ret (mkReading (rd_data r) (Some v) (rd_lens r) (rd_key r)) end
  | SInit name c m => column ⇐ sure (row !! Z.to_nat m); v ⇐ sure (convert c column); read_ret (mkReading (<[name := v]> (rd_data r)) (rd_d r) (rd_lens r) (rd_key r))
  | SInitVar name => v ⇐ sure (rd_d r); read_ret (mkReading (<[name := v]> (rd_data r)) (rd_d r) (rd_lens r) (rd_key r))
  | SParse name type m =>
    if negb (rd_lens r) then None else
    column ⇐ sure (row !! Z.to_nat m);
    match ParseFromArray type (default [] column) with
    | None => refuse
    | Some msg => read_ret (mkReading (<[name := VMessage type msg]> (rd_data r)) (rd_d r) (rd_lens r) (rd_key r))
    end
  | SInsert => v ⇐ sure (rd_d r); read_ret (mkReading (rd_data r) (rd_d r) (rd_lens r) (Some v))
  end.

Fixpoint exec (row : list (option text)) (l : list Stmt) (r : Reading) : Read Reading :=
  match l with [] => read_ret r | s :: l => r ⇐ exec_stmt row s r; exec row l r end.

(** A function starts, for every row, with a new record. *)
Definition Reading_new : Reading := mkReading ∅ None false None.
End semantics.

(** ** The program for a table *)

(** How a field is read: as a value or as a message of the user; [None] is a field that the generator refuses. *)
Inductive Reader : Type := AsValue (c : Conv) | AsMessage (type : text).

Definition reader_of (f : FieldInfo) : option Reader :=
  let s := field_type f in
  let unsigned := contains (L"unsigned") (create_flags f) in
  if word_is s "tinyint" || word_is s "smallint" || word_is s "mediumint" || word_is s "int" then Some (AsValue (if unsigned then ToUInt else ToInt))
  else if word_is s "bigint" then Some (AsValue (if unsigned then ToU64 else ToI64))
  else if contains (L"blob") s || contains (L"binary") s then type ← get_blob_user_define_data s; Some (AsMessage type)
  else if contains (L"text") s || word_is s "char" || word_is s "varchar" then Some (AsValue ToString)
  else None.

Definition selected (fields : list FieldInfo) : list FieldInfo := filter (fun f => can_select_field_type (field_type f) = true) fields.

Definition field_stmts (k : SelKeyInfo) (f : FieldInfo) (m : Z) (lens : bool) (r : Reader) : list Stmt :=
  let is_key := bool_decide (sk_result_key k = fi_name f) in
  match r with
  | AsValue c => if is_key then [SDeclare c m; SInitVar (fi_name f)] else [SInit (fi_name f) c m]
  | AsMessage type => (if lens then [] else [SRowLengths]) ++ [SParse (fi_name f) type m]
  end ++ (if is_key && word_is (sk_result_type k) "multi" then [SInsert] else []).

(** The statements for the selected fields, from the column [m] on. *)
Fixpoint reader_program (k : SelKeyInfo) (fields : list FieldInfo) (m : Z) (lens : bool) : option (list Stmt) :=
  match fields with
  | [] => Some []
  | f :: fields =>
    r ← reader_of f;
    l ← reader_program k fields (m + 1) (lens || match r with AsMessage _ => true | AsValue _ => false end);
    Some (field_stmts k f m lens r ++ l)
  end.

(** ** What the database generator writes

    The texts of the generated functions are those of the programs above, and these programs load a record. *)

(** ** The functions that read results *)

Lemma gen_then_emit o g : emit o ;;; g = '(ok, o') ← g; Some (ok : bool, app2 o o').
Proof. done. Qed.

Lemma gen_then_true g g' o : (g ;;; g') = Some (true, o) <-> exists o1 o2, g = Some (true, o1) /\ g' = Some (true, o2) /\ o = app2 o1 o2.
Proof.
  unfold gen_then. destruct g as [[[] o1]|]; cbn [mbind option_bind negb]; [|split; [done|by intros (? & ? & ? & _)]..].
  destruct g' as [[ok o2]|]; cbn [mbind option_bind]; [|split; [done|by intros (? & ? & _ & ? & _)]].
  split; [intros [= -> <-]; by eauto|]. by intros (? & ? & [= <-] & [= -> <-] & ->).
Qed.

Lemma print_value_stmts multi is_key name c m :
  gen_read_value multi is_key name (print_type c ++ L" d = " ++ print_conv c m ++ L";") (print_conv c m) =
  concat (print_stmt multi <$> (if is_key then [SDeclare c m; SInitVar name] else [SInit name c m])).
Proof. unfold gen_read_value. destruct is_key; cbn [fmap list_fmap concat print_stmt]; rewrite ?app_nil_r, <- ?app_assoc; done. Qed.

Lemma concat_fmap_app {A} (f : A -> text) l1 l2 : concat (f <$> l1 ++ l2) = concat (f <$> l1) ++ concat (f <$> l2).
Proof. by rewrite fmap_app, concat_app. Qed.

(** One field: what is written is the text of its statements. *)
Lemma gen_read_field_spec k f m lens :
  gen_read_field k f m lens =
  match reader_of f with
  | None => (gen_fail, lens)
  | Some r => (emit ([], concat (print_stmt (word_is (sk_result_type k) "multi") <$> field_stmts k f m lens r)),
      lens || match r with AsMessage _ => true | AsValue _ => false end)
  end.
Proof.
  set (multi := word_is (sk_result_type k) "multi"). set (is_key := bool_decide (sk_result_key k = fi_name f)).
  assert (Hins : (if is_key && multi then L"    result_list.insert_new(d, data);" ++ endl else []) = concat (print_stmt multi <$> (if is_key && multi then [SInsert] else []))).
  { destruct (is_key && multi); [|done]. cbn [fmap list_fmap concat print_stmt]. by rewrite app_nil_r. }
  assert (Hval : forall c, (emit ([], gen_read_value multi is_key (fi_name f) (print_type c ++ L" d = " ++ print_conv c m ++ L";") (print_conv c m) ++
      (if is_key && multi then L"    result_list.insert_new(d, data);" ++ endl else [])), lens) =
    (emit ([], concat (print_stmt multi <$> field_stmts k f m lens (AsValue c))), lens || false)).
  { intros c. unfold field_stmts. fold is_key multi. by rewrite concat_fmap_app, print_value_stmts, Hins, orb_false_r. }
  unfold gen_read_field, reader_of. fold multi is_key. set (s := field_type f).
  destruct (word_is s "tinyint" || word_is s "smallint" || word_is s "mediumint" || word_is s "int").
  { destruct (contains (L"unsigned") (create_flags f)); [exact (Hval ToUInt)|exact (Hval ToInt)]. }
  destruct (word_is s "bigint").
  { destruct (contains (L"unsigned") (create_flags f)); [exact (Hval ToU64)|exact (Hval ToI64)]. }
  destruct (contains (L"blob") s || contains (L"binary") s).
  - destruct (get_blob_user_define_data s) as [type|]; [|done]. cbn [mbind option_bind]. rewrite orb_true_r. do 2 f_equal.
    unfold field_stmts. fold is_key multi. rewrite !concat_fmap_app, Hins. rewrite <- app_assoc. do 2 f_equal.
    + destruct lens; [done|]. cbn [fmap list_fmap concat print_stmt]. by rewrite app_nil_r.
    + f_equal. cbn [fmap list_fmap concat print_stmt]. by rewrite app_nil_r.
  - destruct (contains (L"text") s || word_is s "char" || word_is s "varchar"); [exact (Hval ToString)|done].
Qed.

Lemma gen_read_fields_spec k fields : forall m lens o,
  gen_read_fields k fields m lens = Some (true, o) <->
  exists l, reader_program k (selected fields) m lens = Some l /\ o = ([], concat (print_stmt (word_is (sk_result_type k) "multi") <$> l)).
Proof.
  induction fields as [|f fields IH]; intros m lens o; cbn [gen_read_fields].
  { unfold selected. cbn. split; [intros [= <-]; by exists []|]. by intros (l & [= <-] & ->). }
  unfold selected. rewrite filter_cons. fold (selected fields). destruct (can_select_field_type (field_type f)) eqn:Hc.
  2:{ rewrite decide_False by congruence. apply IH. }
  rewrite decide_True by done. cbn [reader_program]. rewrite gen_read_field_spec.
  destruct (reader_of f) as [r|]; cbn [mbind option_bind].
  2:{ split; [done|]. by intros (l & ? & _). }
  rewrite gen_then_true. split.
  - intros (o1 & o2 & [= <-] & Ho2 & ->). apply IH in Ho2 as (l & -> & ->). cbn [mbind option_bind]. eexists. split; [done|].
    unfold app2. cbn [fst snd app]. by rewrite concat_fmap_app.
  - intros (l & Hl & ->). apply bind_Some in Hl as (l' & Hl' & [= <-]). eexists _, _. split; [done|]. split; [apply IH; by eauto|].
    unfold app2. cbn [fst snd app]. by rewrite concat_fmap_app.
Qed.

Lemma select_names_spec fields : concat (gen_select_field <$> fields) = concat (print_select_name <$> (fi_name <$> selected fields)).
Proof.
  induction fields as [|f fields IH]; [done|]. cbn [fmap list_fmap concat]. rewrite IH. unfold selected. rewrite filter_cons. unfold gen_select_field at 1.
  destruct (can_select_field_type (field_type f)) eqn:Hc.
  - rewrite decide_True by done. done.
  - rewrite decide_False by congruence. done.
Qed.

(** ** Numbers that are printed and read back *)

Lemma digits_no_space l : (forall c, c ∈ l -> 48 <= c <= 57) -> skip_space l = l.
Proof.
  destruct l as [|c l]; [done|]. intros H. cbn [skip_space]. assert (48 <= c <= 57) by (apply H; by left). unfold isspace.
  rewrite (proj2 (Z.eqb_neq c 32)), (proj2 (Z.leb_gt c 13)) by lia. by rewrite andb_false_r.
Qed.

Lemma print_unsigned_digit_first n c l : print_unsigned n = c :: l -> 48 <= c <= 57.
Proof. intros H. apply (print_unsigned_digits n). rewrite H. by left. Qed.

Lemma print_unsigned_skip n : skip_space (print_unsigned n) = print_unsigned n.
Proof. apply digits_no_space, print_unsigned_digits. Qed.

Lemma strtoul_print_unsigned n : 0 <= n < 2 ^ 64 -> strtoul (print_unsigned n) = n.
Proof.
  intros Hn. pose proof (print_unsigned_value n Hn) as Hv. unfold strtoul. rewrite print_unsigned_skip.
  destruct (print_unsigned n) as [|c l] eqn:E.
  - cbn in Hv. subst n. done.
  - pose proof (print_unsigned_digit_first n c l E). rewrite (proj2 (Z.eqb_neq c 45)), (proj2 (Z.eqb_neq c 43)) by lia.
    rewrite Hv, (proj2 (Z.leb_gt _ _)) by lia. done.
Qed.

Lemma strtoul_print_signed n : - 2 ^ 63 <= n < 2 ^ 63 -> strtoul (print_signed n) = u64 n.
Proof.
  intros Hn. unfold print_signed. destruct (Z.ltb_spec n 0) as [Hneg|Hpos].
  - unfold strtoul. cbn [skip_space]. change (isspace 45) with false. cbv beta iota zeta. rewrite Z.eqb_refl. cbv beta iota zeta.
    rewrite print_unsigned_value by lia. rewrite (proj2 (Z.leb_gt _ _)) by lia. by rewrite Z.opp_involutive.
  - rewrite strtoul_print_unsigned by lia. unfold u64. rewrite Z.mod_small by lia. done.
Qed.

Lemma atoi_print_signed n : - 2 ^ 31 <= n < 2 ^ 31 -> atoi (print_signed n) = Some n.
Proof.
  intros Hn. unfold print_signed, atoi. destruct (Z.ltb_spec n 0) as [Hneg|Hpos].
  - cbn [skip_space]. change (isspace 45) with false. cbv beta iota zeta. rewrite Z.eqb_refl. cbv beta iota zeta.
    rewrite print_unsigned_value by lia. rewrite Z.opp_involutive. rewrite (proj2 (Z.leb_le _ _)), (proj2 (Z.ltb_lt _ _)) by lia. done.
  - rewrite print_unsigned_skip. pose proof (print_unsigned_value n ltac:(lia)) as Hv. destruct (print_unsigned n) as [|c l] eqn:E.
    + cbn in Hv. subst n. done.
    + pose proof (print_unsigned_digit_first n c l E). rewrite (proj2 (Z.eqb_neq c 45)), (proj2 (Z.eqb_neq c 43)) by lia. cbv zeta.
      rewrite Hv, (proj2 (Z.leb_le _ _)), (proj2 (Z.ltb_lt _ _)) by lia. done.
Qed.

Lemma print_unsigned_no_zero n : 0 ∉ print_unsigned n.
Proof. intros H%print_unsigned_digits. lia. Qed.

(** ** Loading a record *)

Section loading.
Context {M : Type}.
Variable ParseFromArray : text -> text -> option M.
Notation Value := (@Value M).
Notation exec := (exec ParseFromArray).

(** The column of a field holds a value: numbers as decimal digits, texts without zero as they are, messages as bytes from
    which they are parsed. *)
Inductive holds : Reader -> Value -> option text -> Prop :=
| holds_uint z : 0 <= z < 2 ^ 32 -> holds (AsValue ToUInt) (VInt z) (Some (print_unsigned z))
| holds_int z : - 2 ^ 31 <= z < 2 ^ 31 -> holds (AsValue ToInt) (VInt z) (Some (print_signed z))
| holds_u64 z : 0 <= z < 2 ^ 64 -> holds (AsValue ToU64) (VInt z) (Some (print_unsigned z))
| holds_i64 z : - 2 ^ 63 <= z < 2 ^ 63 -> holds (AsValue ToI64) (VInt z) (Some (print_signed z))
| holds_text t : 0 ∉ t -> holds (AsValue ToString) (VText t) (Some t)
| holds_message type m b : ParseFromArray type b = Some m -> holds (AsMessage type) (VMessage type m) (Some b).

Lemma convert_holds c v column : holds (AsValue c) v column -> convert c column = Some v.
Proof.
  intros H. inversion H; subst; cbn [convert mbind option_bind].
  - rewrite c_str_id, strtoul_print_unsigned by (apply print_unsigned_no_zero || lia). unfold u32. by rewrite Z.mod_small by lia.
  - rewrite c_str_id, atoi_print_signed by (apply print_signed_no_zero || lia). done.
  - rewrite c_str_id, strtoul_print_unsigned by (apply print_unsigned_no_zero || lia). done.
  - rewrite c_str_id, strtoul_print_signed by (apply print_signed_no_zero || lia). do 2 f_equal. unfold s64, u64. rewrite Zplus_mod_idemp_l. rewrite Z.mod_small by lia. lia.
  - by rewrite c_str_id.
Qed.

(** The columns of a row, from [m] on, hold the values that a record has for the fields. *)
Definition row_holds (rec : text -> Value) (row : list (option text)) (fields : list FieldInfo) (m : Z) : Prop :=
  forall i f r, fields !! i = Some f -> reader_of f = Some r ->
    exists column, row !! Z.to_nat (m + Z.of_nat i) = Some column /\ holds r (rec (fi_name f)) column.

Lemma exec_app row l1 l2 r : exec row (l1 ++ l2) r = (r ⇐ exec row l1 r; exec row l2 r).
Proof. revert r. induction l1 as [|s l1 IH]; intros r; [done|]. cbn [DbGenProps.exec app]. destruct (exec_stmt _ row s r) as [[r'|]|]; [apply IH|done..]. Qed.

(** The field whose name is the key of the result. *)
Definition is_result_key (k : SelKeyInfo) (f : FieldInfo) : bool := bool_decide (sk_result_key k = fi_name f).
Definition multi_result (k : SelKeyInfo) : bool := word_is (sk_result_type k) "multi".

Lemma exec_field (rec : text -> Value) row k f m lens r column st :
  0 <= m -> reader_of f = Some r -> row !! Z.to_nat m = Some column -> holds r (rec (fi_name f)) column ->
  rd_lens st = lens -> (is_result_key k f = true -> rd_d st = None) ->
  (is_result_key k f = true -> multi_result k = true -> exists c, r = AsValue c) ->
  exists st', exec row (field_stmts k f m lens r) st = read_ret st' /\
    rd_data st' = <[fi_name f := rec (fi_name f)]> (rd_data st) /\
    rd_lens st' = lens || match r with AsMessage _ => true | AsValue _ => false end /\
    (is_result_key k f = false -> rd_d st' = rd_d st) /\
    rd_key st' = if is_result_key k f && multi_result k then Some (rec (fi_name f)) else rd_key st.
Proof.
  intros Hm Hr Hrow Hh Hlens Hd Hkey. unfold field_stmts. fold (is_result_key k f) (multi_result k). destruct st as [data d ln key]. cbn [rd_data rd_d rd_lens rd_key] in *. subst ln.
  destruct r as [c|type].
  - pose proof (convert_holds c _ _ Hh) as Hc. destruct (is_result_key k f) eqn:Ek; cbn [app andb].
    + rewrite Hd by done. cbn [DbGenProps.exec exec_stmt rd_d read_bind sure read_ret rd_data rd_lens rd_key]. rewrite Hrow. cbn [sure read_bind read_ret]. rewrite Hc. cbn [sure read_bind read_ret exec_stmt rd_d rd_data rd_lens rd_key].
      destruct (multi_result k); cbn [DbGenProps.exec exec_stmt sure read_bind read_ret rd_d rd_data rd_lens rd_key]; (eexists; split; [done|]); cbn; rewrite orb_false_r; done.
    + cbn [DbGenProps.exec exec_stmt]. rewrite Hrow. cbn [sure read_bind read_ret]. rewrite Hc. cbn [sure read_bind read_ret].
      eexists. split; [done|]. cbn. by rewrite orb_false_r.
  - inversion Hh; subst. assert (Hnk : is_result_key k f && multi_result k = false).
    { destruct (is_result_key k f); [|done]. destruct (multi_result k); [|done]. destruct Hkey as (c & ?); done. }
    rewrite Hnk. rewrite app_nil_r, exec_app.
    assert (E : exec row (if lens then [] else [SRowLengths]) (mkReading data d lens key) = read_ret (mkReading data d true key)) by (by destruct lens).
    rewrite E. cbn [read_bind read_ret]. cbn [DbGenProps.exec exec_stmt rd_lens negb]. rewrite Hrow. cbn [sure read_bind read_ret]. change (default [] (Some b)) with b. rewrite H1. cbn [read_bind read_ret].
    eexists. split; [done|]. cbn. rewrite orb_true_r. done.
Qed.
(** The key of the result, when there can be more than one, is a field that is read as a value. *)
Definition key_readable (k : SelKeyInfo) (fields : list FieldInfo) : Prop :=
  multi_result k = true -> forall f, f ∈ fields -> fi_name f = sk_result_key k -> exists c, reader_of f = Some (AsValue c).

Lemma row_holds_tail rec row f fields m : 0 <= m -> row_holds rec row (f :: fields) m -> row_holds rec row fields (m + 1).
Proof.
  intros Hm H i g r Hi Hr. destruct (H (S i) g r Hi Hr) as (column & Hrow & Hh). exists column. split; [|done].
  rewrite <- Hrow. f_equal. lia.
Qed.

Lemma exec_program (rec : text -> Value) row k fields : forall m lens l st,
  reader_program k fields m lens = Some l -> 0 <= m -> NoDup (fi_name <$> fields) -> row_holds rec row fields m -> rd_lens st = lens ->
  (sk_result_key k ∈ fi_name <$> fields -> rd_d st = None) -> key_readable k fields ->
  exists st', exec row l st = read_ret st' /\
    (forall n, rd_data st' !! n = if decide (n ∈ fi_name <$> fields) then Some (rec n) else rd_data st !! n) /\
    rd_key st' = if multi_result k && bool_decide (sk_result_key k ∈ fi_name <$> fields) then Some (rec (sk_result_key k)) else rd_key st.
Proof.
  induction fields as [|f fields IH]; intros m lens l st Hl Hm Hn Hrow Hlens Hd Hkey.
  { injection Hl as <-. exists st. split; [done|]. split; [done|]. by rewrite andb_false_r. }
  cbn [reader_program] in Hl. apply bind_Some in Hl as (r & Hr & Hl). apply bind_Some in Hl as (l' & Hl & [= <-]).
  cbn [fmap list_fmap] in *. apply NoDup_cons in Hn as [Hnf Hn].
  destruct (Hrow 0%nat f r eq_refl Hr) as (column & Hcol & Hh). replace (m + Z.of_nat 0) with m in Hcol by lia.
  destruct (exec_field rec row k f m lens r column st) as (st1 & E & Hdata & Hlens1 & Hd1 & Hkey1); [done..| | |].
  { intros Ek. apply Hd. unfold is_result_key in Ek. apply bool_decide_eq_true in Ek as ->. set_solver. }
  { intros Ek Em. unfold is_result_key in Ek. apply bool_decide_eq_true in Ek. destruct (Hkey Em f ltac:(set_solver) ltac:(done)) as (c & Hc). exists c. congruence. }
  destruct (IH (m + 1) (rd_lens st1) l' st1) as (st' & E' & Hdata' & Hkey').
  { by rewrite Hlens1. } { lia. } { done. } { by apply (row_holds_tail rec row f). } { done. }
  { intros Hin. rewrite Hd1; [apply Hd; set_solver|]. apply bool_decide_eq_false. intros E1. apply Hnf. by rewrite <- E1. }
  { intros Em g Hg. apply Hkey; [done|set_solver]. }
  exists st'. split; [rewrite exec_app, E; exact E'|]. split.
  - intros n. rewrite Hdata', Hdata. destruct (decide (n = fi_name f)) as [->|Hne].
    + rewrite decide_False, decide_True, lookup_insert_eq by set_solver. done.
    + rewrite lookup_insert_ne by done. destruct (decide (n ∈ fi_name <$> fields)); [by rewrite decide_True by set_solver|by rewrite decide_False by set_solver].
  - rewrite Hkey', Hkey1. unfold is_result_key. destruct (multi_result k); [|by rewrite andb_false_r]. rewrite andb_true_r. cbn [andb].
    destruct (bool_decide_reflect (sk_result_key k ∈ fi_name <$> fields)).
    + by rewrite bool_decide_true by set_solver.
    + destruct (bool_decide_reflect (sk_result_key k = fi_name f)) as [->|]; [by rewrite bool_decide_true by set_solver|by rewrite bool_decide_false by set_solver].
Qed.
End loading.

(** C22.  The two functions that are generated for a select fit together.  Whenever the generator writes both, the fields
    that the first asks for and the statements of the second are those of one list of fields; the statements are the
    text of a program that, run on a row with the columns of exactly these fields in this order, loads every field with
    the value of its own column, numbers at the width of the field, texts and messages, and touches no other field; with
    more than one result the record goes under the value of its key, when the key is among the fields. *)
Theorem generated_reader_loads_record {M} (ParseFromArray : text -> text -> option M) t fields k h1 c1 h2 c2
    (Hsel : gen_select_record_func t fields k = Some (true, (h1, c1)))
    (Hres : gen_get_result_of_select_record_func t fields k = Some (true, (h2, c2)))
    (Hnames : NoDup (fi_name <$> fields)) (Hkey : key_readable k (selected fields)) :
  exists ks param title l,
    let keys := boost_split 38 (sk_key k) in
    let names := fi_name <$> selected fields in
    c1 = select_head (select_title t ks param keys) ++ concat (print_select_name <$> names) ++ select_tail t ks keys /\
    c2 = result_head t (multi_result k) title ++ concat (print_stmt (multi_result k) <$> l) ++ result_tail (multi_result k) /\
    forall rec row, row_holds ParseFromArray rec row (selected fields) 0 -> exists st,
      exec ParseFromArray row l Reading_new = Some (Some st) /\
      (forall n, rd_data st !! n = if decide (n ∈ names) then Some (rec n) else None) /\
      rd_key st = (if multi_result k && bool_decide (sk_result_key k ∈ names) then Some (rec (sk_result_key k)) else None).
Proof.
  unfold gen_select_record_func in Hsel. destruct (_ <? _)%nat; [done|]. destruct (select_keys_loop _ _ _ _) as [[ks param]|]; [|done]. injection Hsel as <- <-.
  unfold gen_get_result_of_select_record_func in Hres. destruct (result_title t fields k) as [[title|]|]; [|done..].
  apply gen_then_true in Hres as (o1 & o2 & [= <-] & Hres & Ho). apply gen_then_true in Hres as (o3 & o4 & Hread & [= <-] & ->).
  apply gen_read_fields_spec in Hread as (l & Hl & ->). exists ks, param, title, l. cbv zeta. split; [by rewrite select_names_spec|].
  unfold app2 in Ho. cbn [fst snd app] in Ho. injection Ho as _ ->. split; [done|]. intros rec row Hrow.
  destruct (exec_program ParseFromArray rec row k (selected fields) 0 false l Reading_new) as (st & E & Hdata & Hk); [done..| |done|done|done|done|].
  { unfold selected. eapply sublist_NoDup; [exact Hnames|]. apply fmap_sublist, sublist_filter. }
  exists st. split; [done|]. split; [|done]. intros n. rewrite Hdata. done.
Qed.

(** The mails of a player: several results under the number of the mail, with a message of the user. *)
Definition example_mail_fields : list FieldInfo := [
  mkFieldInfo (L"id") (L"int") 0 (L"none") (L"auto_increment,unsigned,not null");
  mkFieldInfo (L"mail_id") (L"int") 0 (L"unique") (L"not null,default,unsigned");
  mkFieldInfo (L"sent") (L"timestamp") 0 (L"none") (L"null");
  mkFieldInfo (L"title") (L"varchar") 32 (L"none") (L"not null,default");
  mkFieldInfo (L"items") (L"blob:DBItems") 0 (L"none") (L"not null")
].
Definition example_mail : TableInfo := mkTable (L"t_mail") (L"id") 0 (L"innodb") [mkSelKey (L"id") (L"multi") (L"mail_id")] (L"id") (L"id").
Definition example_mail_record (name : text) : @Value text :=
  if decide (name = L"id") then VInt 7 else if decide (name = L"mail_id") then VInt 4000000000 else
  if decide (name = L"title") then VText (L"hello") else VMessage (L"DBItems") [1; 0; 2].

Lemma generated_reader_loads_record_witness : exists l st,
  exec (fun _ b => Some b) [Some (L"7"); Some (L"4000000000"); Some (L"hello"); Some [1; 0; 2]] l Reading_new = Some (Some st) /\
  rd_data st !! L"items" = Some (VMessage (L"DBItems") [1; 0; 2]) /\ rd_data st !! L"sent" = None /\ rd_key st = Some (VInt 4000000000).
Proof.
  destruct (generated_reader_loads_record (fun _ b : text => Some b) example_mail example_mail_fields (mkSelKey (L"id") (L"multi") (L"mail_id")) _ _ _ _
    ltac:(vm_compute; reflexivity) ltac:(vm_compute; reflexivity)) as (ks & param & title & l & _ & _ & Hl).
  - apply (bool_decide_unpack _). vm_compute. exact I.
  - intros _ f Hf Hn. apply list_elem_of_filter in Hf as [_ Hf]. repeat (apply elem_of_cons in Hf as [->|Hf]; [vm_compute in Hn; first [by exists ToUInt|discriminate]|]).
    by apply elem_of_nil in Hf.
  - exists l. destruct (Hl example_mail_record [Some (L"7"); Some (L"4000000000"); Some (L"hello"); Some [1; 0; 2]]) as (st & E & Hd & Hk).
    { intros i f r Hi Hr. destruct i as [|[|[|[|i]]]]; vm_compute in Hi; [injection Hi as <-; vm_compute in Hr; injection Hr as <-; eexists; (split; [reflexivity|])..|discriminate].
      - exact (holds_uint _ 7 ltac:(lia)).
      - exact (holds_uint _ 4000000000 ltac:(lia)).
      - apply holds_text. apply (bool_decide_unpack _). vm_compute. exact I.
      - by apply holds_message. }
    exists st. split; [exact E|]. split; [exact (Hd (L"items"))|]. split; [exact (Hd (L"sent"))|exact Hk].
Defined.
