(* ===== verification/DbGenTables.v ===== *)
(** * What the words of a description become, and which tables are accepted

    The constants that the generator writes into the file of the definitions are C++ expressions over the enumerators of
    [mysql_defines.h]; here is what they denote, and which words are translated to what they say. *)
From S2P Require Import Prelude Text SqlFormat DbGenConfig DbGenStruct DbGenFunc DbGenProps.
From Stdlib Require Import ZArith Lia String Ascii.
From stdpp Require Import base option list sets.
Local Open Scope Z_scope.

(** ** Pieces of a string *)

Lemma boost_split_ne c s : boost_split c s <> [].
Proof. induction s as [|x s IH]; [done|]. cbn [boost_split]. destruct (x =? c); [done|]. by destruct (boost_split c s). Qed.

Lemma boost_split_none c s : c ∉ s -> boost_split c s = [s].
Proof.
  induction s as [|x s IH]; [done|]. intros Hs. apply not_elem_of_cons in Hs as [Hx Hs]. cbn [boost_split].
  rewrite (proj2 (Z.eqb_neq x c)), IH by done. done.
Qed.

Lemma boost_split_cons c s t : c ∉ s -> boost_split c (s ++ c :: t) = s :: boost_split c t.
Proof.
  induction s as [|x s IH]; intros Hs; cbn [boost_split app]; [by rewrite Z.eqb_refl|]. apply not_elem_of_cons in Hs as [Hx Hs].
  rewrite (proj2 (Z.eqb_neq x c)), IH by done. done.
Qed.

(** Splitting what was joined. *)
Lemma boost_split_join c l : l <> [] -> Forall (fun s => c ∉ s) l -> boost_split c (boost_join [c] l) = l.
Proof.
  intros Hne Hl. induction Hl as [|s l Hs Hl IH]; [done|]. destruct l as [|s' l].
  - by apply boost_split_none.
  - change (boost_join [c] (s :: s' :: l)) with (s ++ [c] ++ boost_join [c] (s' :: l)). cbn [app]. rewrite boost_split_cons by done. by rewrite IH.
Qed.

Lemma split_pieces_clean c s : Forall (fun p => c ∉ p) (boost_split c s).
Proof.
  induction s as [|x s IH]; cbn [boost_split]; [repeat constructor; apply not_elem_of_nil|]. destruct (Z.eqb_spec x c) as [->|Hx].
  - constructor; [apply not_elem_of_nil|done].
  - destruct (boost_split c s) as [|p l]; [repeat constructor; set_solver|]. apply Forall_cons in IH as [Hp Hl]. constructor; [set_solver|done].
Qed.

(** ** Flags *)

Definition MYSQL_TABLE_CREATE_CURRENTTIMESTAMP : Z := 64.
Definition MYSQL_TABLE_CREATE_CURRENTTIMESTAMP_ON_UPDATE : Z := 128.

(** The words, the enumerators and their values. *)
Definition flag_table : list (text * text * Z) := [
  (L"auto_increment", L"MYSQL_TABLE_CREATE_AUTOINCREMENT", MYSQL_TABLE_CREATE_AUTOINCREMENT);
  (L"unsigned", L"MYSQL_TABLE_CREATE_UNSIGNED", MYSQL_TABLE_CREATE_UNSIGNED);
  (L"null", L"MYSQL_TABLE_CREATE_NULL", MYSQL_TABLE_CREATE_NULL);
  (L"not null", L"MYSQL_TABLE_CREATE_NOT_NULL", MYSQL_TABLE_CREATE_NOT_NULL);
  (L"current_timestamp", L"MYSQL_TABLE_CREATE_CURRENTTIMESTAMP", MYSQL_TABLE_CREATE_CURRENTTIMESTAMP);
  (L"current_timestamp_on_update", L"MYSQL_TABLE_CREATE_CURRENTTIMESTAMP_ON_UPDATE", MYSQL_TABLE_CREATE_CURRENTTIMESTAMP_ON_UPDATE);
  (L"zerofill", L"MYSQL_TABLE_CREATE_ZEROFILL", MYSQL_TABLE_CREATE_ZEROFILL);
  (L"default", L"MYSQL_TABLE_CREATE_DEFAULT", MYSQL_TABLE_CREATE_DEFAULT)
].

Fixpoint find_word (w : text) (l : list (text * text * Z)) : option (text * Z) :=
  match l with [] => None | (x, n, v) :: l => if bool_decide (w = x) then Some (n, v) else find_word w l end.
Fixpoint find_name (n : text) (l : list (text * text * Z)) : option Z :=
  match l with [] => None | (_, x, v) :: l => if bool_decide (n = x) then Some v else find_name n l end.
Definition flag_of_word (w : text) : option (text * Z) := find_word w flag_table.
Definition flag_of_name (n : text) : option Z := find_name n flag_table.

Fixpoint flags_value (l : list Z) : Z := match l with [] => 0 | v :: l => Z.lor v (flags_value l) end.

(** The value of the initialiser of the flags: nothing is 0, enumerators with [|] between them are their union; anything
    else is not such an expression. *)
Definition eval_flags (t : text) : option Z :=
  match t with [] => Some 0 | _ => vs ← mapM flag_of_name (boost_split 124 t); Some (flags_value vs) end.

(** A piece of the description is a word or blank. *)
Definition blank (p : text) : bool := bool_decide (trim p = []).

Lemma create_flag_word p : create_flag_define_str p = match flag_of_word p with Some (n, _) => Some n | None => if blank p then Some [] else None end.
Proof.
  unfold create_flag_define_str, word_is, flag_of_word, flag_table. cbn [find_word].
  repeat match goal with |- context [bool_decide (p = ?w)] => destruct (bool_decide (p = w)); [reflexivity|] end. done.
Qed.

Lemma create_flags_loop_false l : forall res, create_flags_loop false l res =
  ts ← mapM create_flag_define_str l; Some (res ++ concat ((fun t => L"|" ++ t) <$> ts)).
Proof.
  induction l as [|p l IH]; intros res; cbn [create_flags_loop mapM]; [cbn; by rewrite app_nil_r|].
  destruct (create_flag_define_str p) as [t|]; [|done]. cbn [mbind option_bind]. rewrite IH. destruct (mapM create_flag_define_str l) as [ts|]; [|done].
  cbn [mbind option_bind mret option_ret fmap list_fmap concat]. by rewrite <- !app_assoc.
Qed.

Lemma boost_join_bars t ts : boost_join (L"|") (t :: ts) = t ++ concat ((fun t => L"|" ++ t) <$> ts).
Proof.
  revert t. induction ts as [|t' ts IH]; intros t; [cbn; by rewrite app_nil_r|].
  change (boost_join (L"|") (t :: t' :: ts)) with (t ++ L"|" ++ boost_join (L"|") (t' :: ts)). rewrite IH. cbn [fmap list_fmap concat]. by rewrite <- app_assoc.
Qed.

Lemma create_flags_join s : get_create_flags_define_str s = ts ← mapM create_flag_define_str (boost_split 44 s); Some (boost_join (L"|") ts).
Proof.
  unfold get_create_flags_define_str. pose proof (boost_split_ne 44 s) as Hne. destruct (boost_split 44 s) as [|p l]; [done|].
  cbn [create_flags_loop mapM]. destruct (create_flag_define_str p) as [t|]; [|done]. cbn [mbind option_bind app]. rewrite create_flags_loop_false.
  destruct (mapM create_flag_define_str l) as [ts|]; [|done]. cbn [mbind option_bind mret option_ret]. by rewrite boost_join_bars.
Qed.

Lemma find_word_in w l n v : find_word w l = Some (n, v) -> (w, n, v) ∈ l.
Proof.
  induction l as [|[[x m] u] l IH]; [done|]. cbn [find_word]. case_bool_decide as E; [|intros H; right; by apply IH]. intros [= <- <-]. subst x. by left.
Qed.

(** Every enumerator has one value, is not empty and has no bar. *)
Lemma flag_of_word_name w n v : flag_of_word w = Some (n, v) -> flag_of_name n = Some v /\ 124 ∉ n /\ n <> [].
Proof.
  intros H%find_word_in. assert (Hall : Forall (fun e => flag_of_name e.1.2 = Some e.2 /\ 124 ∉ e.1.2 /\ e.1.2 <> []) flag_table).
  { unfold flag_table. repeat (apply Forall_cons; split); try apply Forall_nil_2; (split; [vm_compute; reflexivity|split; [by apply (bool_decide_unpack _); vm_compute|done]]). }
  rewrite Forall_forall in Hall. exact (Hall _ H).
Qed.

(** The values of the words among the pieces. *)
Definition word_values (pieces : list text) : list Z := omap (fun p => snd <$> flag_of_word p) pieces.

Lemma create_flag_no_bar p t : create_flag_define_str p = Some t -> 124 ∉ t.
Proof.
  rewrite create_flag_word. destruct (flag_of_word p) as [[n v]|] eqn:E; [|destruct (blank p); [|done]; intros [= <-]; apply not_elem_of_nil].
  intros [= <-]. by apply (flag_of_word_name p n v).
Qed.

Lemma blank_word p n v : flag_of_word p = Some (n, v) -> blank p = false.
Proof.
  intros H%find_word_in. assert (Hall : Forall (fun e => blank e.1.1 = false) flag_table).
  { unfold flag_table. repeat (apply Forall_cons; split); try apply Forall_nil_2; vm_compute; reflexivity. }
  rewrite Forall_forall in Hall. exact (Hall _ H).
Qed.

Lemma names_values pieces ts : mapM create_flag_define_str pieces = Some ts ->
  mapM flag_of_name ts = if forallb (fun p => negb (blank p)) pieces then Some (word_values pieces) else None.
Proof.
  revert ts. induction pieces as [|p pieces IH]; intros ts; cbn [mapM]; [by intros [= <-]|]. rewrite create_flag_word. intros H.
  apply bind_Some in H as (t & Ht & H). apply bind_Some in H as (ts' & Hts & [= <-]). specialize (IH ts' Hts). cbn [mapM forallb].
  unfold word_values. cbn [omap list_omap]. destruct (flag_of_word p) as [[n v]|] eqn:E.
  - injection Ht as <-. destruct (flag_of_word_name p n v E) as (-> & _ & _). rewrite (blank_word p n v E). cbn [negb andb mbind option_bind]. rewrite IH.
    by destruct (forallb _ pieces).
  - destruct (blank p); [|done]. injection Ht as <-. done.
Qed.

(** What the flags of a description become.  The generator refuses them exactly when a piece between the commas is
    neither one of the eight words nor blank; a word with a space before it is refused.  Otherwise it writes an
    expression whose value is the union of the flags of the words, unless one of several pieces is blank: then
    something is missing between two bars or at an end. *)
Theorem create_flags_denote s :
  let pieces := boost_split 44 s in
  match get_create_flags_define_str s with
  | None => exists p, p ∈ pieces /\ flag_of_word p = None /\ blank p = false
  | Some t =>
    Forall (fun p => is_Some (flag_of_word p) \/ blank p = true) pieces /\
    eval_flags t = if bool_decide (length pieces = 1%nat) || forallb (fun p => negb (blank p)) pieces
      then Some (flags_value (word_values pieces)) else None
  end.
Proof.
  intros pieces. rewrite create_flags_join. fold pieces. assert (Hne : pieces <> []) by apply boost_split_ne. clearbody pieces. destruct (mapM create_flag_define_str pieces) as [ts|] eqn:Hts; cbn [mbind option_bind].
  - assert (Hok : Forall (fun p => is_Some (flag_of_word p) \/ blank p = true) pieces).
    { apply mapM_Some in Hts. clear -Hts. induction Hts as [|p t l ts Hp _ IH]; constructor; [|done]. rewrite create_flag_word in Hp.
      destruct (flag_of_word p) as [[]|]; [left; by eauto|]. right. by destruct (blank p). }
    split; [done|]. pose proof (names_values pieces ts Hts) as Hv. assert (Hbars : Forall (fun t => 124 ∉ t) ts).
    { apply mapM_Some in Hts. clear -Hts. induction Hts as [|p t l ts Hp _ IH]; constructor; [by eapply create_flag_no_bar|done]. }
    pose proof (length_mapM _ _ _ Hts) as Hlen. destruct ts as [|t ts]; [by destruct pieces|].
    destruct ts as [|t' ts].
    + rewrite bool_decide_true by done. cbn [orb boost_join]. destruct pieces as [|p [|]] eqn:Ep; [done| |done]. cbn [mapM] in Hts.
      rewrite create_flag_word in Hts. apply bind_Some in Hts as (t1 & Ht & [= ->]). unfold word_values. cbn [omap list_omap].
      destruct (flag_of_word p) as [[n v]|] eqn:E.
      * injection Ht as <-. destruct (flag_of_word_name p n v E) as (Hn & Hb & Hnn). destruct n as [|c n]; [done|]. unfold eval_flags.
        rewrite boost_split_none by done. cbn [mapM]. rewrite Hn. done.
      * destruct (blank p); [|done]. injection Ht as <-. done.
    + rewrite bool_decide_false by (rewrite Hlen; done). cbn [orb]. unfold eval_flags.
      change (L"|") with [124]. destruct (boost_join [124] (t :: t' :: ts)) as [|c l] eqn:Ej; [by destruct t|]. rewrite <- Ej, boost_split_join, Hv by done.
      by destruct (forallb _ pieces).
  - apply mapM_None in Hts. apply Exists_exists in Hts as (p & Hp & Hn). exists p. split; [done|]. rewrite create_flag_word in Hn.
    destruct (flag_of_word p) as [[]|]; [done|]. by destruct (blank p).
Qed.

(** ** Types *)

(** The word for a type and its enumerator. *)
Definition type_table : list (MysqlTableFieldType * string * string) := [
  (MYSQL_FIELD_TYPE_TINYINT, "tinyint", "MYSQL_FIELD_TYPE_TINYINT");
  (MYSQL_FIELD_TYPE_SMALLINT, "smallint", "MYSQL_FIELD_TYPE_SMALLINT");
  (MYSQL_FIELD_TYPE_MEDIUMINT, "mediumint", "MYSQL_FIELD_TYPE_MEDIUMINT");
  (MYSQL_FIELD_TYPE_INT, "int", "MYSQL_FIELD_TYPE_INT");
  (MYSQL_FIELD_TYPE_BIGINT, "bigint", "MYSQL_FIELD_TYPE_BIGINT");
  (MYSQL_FIELD_TYPE_FLOAT, "float", "MYSQL_FIELD_TYPE_FLOAT");
  (MYSQL_FIELD_TYPE_DOUBLE, "double", "MYSQL_FIELD_TYPE_DOUBLE");
  (MYSQL_FIELD_TYPE_DATE, "date", "MYSQL_FIELD_TYPE_DATE");
  (MYSQL_FIELD_TYPE_DATETIME, "datetime", "MYSQL_FIELD_TYPE_DATETIME");
  (MYSQL_FIELD_TYPE_TIMESTAMP, "timestamp", "MYSQL_FIELD_TYPE_TIMESTAMP");
  (MYSQL_FIELD_TYPE_TIME, "time", "MYSQL_FIELD_TYPE_TIME");
  (MYSQL_FIELD_TYPE_YEAR, "year", "MYSQL_FIELD_TYPE_YEAR");
  (MYSQL_FIELD_TYPE_CHAR, "char", "MYSQL_FIELD_TYPE_CHAR");
  (MYSQL_FIELD_TYPE_BINARY, "binary", "MYSQL_FIELD_TYPE_BINARY");
  (MYSQL_FIELD_TYPE_VARBINARY, "varbinary", "MYSQL_FIELD_TYPE_VARBINARY");
  (MYSQL_FIELD_TYPE_VARCHAR, "varchar", "MYSQL_FIELD_TYPE_VARCHAR");
  (MYSQL_FIELD_TYPE_TINYBLOB, "tinyblob", "MYSQL_FIELD_TYPE_TINYBLOB");
  (MYSQL_FIELD_TYPE_TINYTEXT, "tinytext", "MYSQL_FIELD_TYPE_TINYTEXT");
  (MYSQL_FIELD_TYPE_BLOB, "blob", "MYSQL_FIELD_TYPE_BLOB");
  (MYSQL_FIELD_TYPE_TEXT, "text", "MYSQL_FIELD_TYPE_TEXT");
  (MYSQL_FIELD_TYPE_MEDIUMBLOB, "mediumblob", "MYSQL_FIELD_TYPE_MEDIUMBLOB");
  (MYSQL_FIELD_TYPE_MEDIUMTEXT, "mediumtext", "MYSQL_FIELD_TYPE_MEDIUMTEXT");
  (MYSQL_FIELD_TYPE_LONGBLOB, "longblob", "MYSQL_FIELD_TYPE_LONGBLOB");
  (MYSQL_FIELD_TYPE_LONGTEXT, "longtext", "MYSQL_FIELD_TYPE_LONGTEXT");
  (MYSQL_FIELD_TYPE_ENUM, "enum", "MYSQL_FIELD_TYPE_ENUM");
  (MYSQL_FIELD_TYPE_SET, "set", "MYSQL_FIELD_TYPE_SET")
]%string.

Definition enumerators : list text := (fun e => chars e.2) <$> type_table.

Lemma starts_with_cut c w a u : c ∉ w -> starts_with w (a ++ c :: u) = starts_with w a.
Proof.
  intros Hc. unfold starts_with. apply bool_decide_ext. destruct (decide (length w <= length a)%nat) as [Hl|Hl].
  - by rewrite take_app_le.
  - rewrite take_app_ge, (take_ge a) by lia. split; intros E.
    + exfalso. apply Hc. rewrite <- E. apply elem_of_app. right. destruct (length w - length a)%nat eqn:El; [lia|]. left.
    + apply (f_equal length) in E. lia.
Qed.

Lemma contains_cons w x s : contains w (x :: s) = starts_with w (x :: s) || contains w s.
Proof. unfold contains. cbn [find_sub]. destruct (starts_with w (x :: s)); [done|]. by destruct (find_sub w s). Qed.

Lemma starts_with_spec w s : starts_with w s = true <-> exists r, s = w ++ r.
Proof.
  unfold starts_with. rewrite bool_decide_eq_true. split; [intros <-; exists (drop (length w) s); by rewrite take_drop|].
  intros (r & ->). by rewrite take_app_length.
Qed.

Lemma contains_spec w s : contains w s = true <-> exists l r, s = l ++ w ++ r.
Proof.
  split.
  - induction s as [|x s IH].
    + unfold contains. cbn [find_sub]. destruct (starts_with w []) eqn:E; [|done]. intros _. apply starts_with_spec in E as (r & ->). by exists [], r.
    + rewrite contains_cons. intros [E|E]%orb_true_iff; [apply starts_with_spec in E as (r & ->); by exists [], r|].
      apply IH in E as (l & r & ->). by exists (x :: l), r.
  - intros (l & r & ->). induction l as [|x l IH].
    + cbn [app]. unfold contains. assert (E : starts_with w (w ++ r) = true) by (apply starts_with_spec; by exists r). destruct (w ++ r); cbn [find_sub]; by rewrite E.
    + cbn [app]. rewrite contains_cons, IH. apply orb_true_r.
Qed.

Lemma contains_suffix w1 w2 s : contains (w1 ++ w2) s = true -> contains w2 s = true.
Proof. rewrite !contains_spec. intros (l & r & ->). exists (l ++ w1), r. by rewrite <- !app_assoc. Qed.

(** A word without [c] is on one side of a [c]. *)
Lemma contains_cut c w a u : c ∉ w -> w <> [] -> contains w (a ++ c :: u) = contains w a || contains w u.
Proof.
  intros Hc Hw. assert (Hnil : starts_with w [] = false) by (unfold starts_with; apply bool_decide_eq_false; rewrite take_nil; congruence).
  induction a as [|x a IH]; cbn [app].
  - rewrite contains_cons. pose proof (starts_with_cut c w [] u Hc) as E. cbn [app] in E. rewrite E, Hnil. unfold contains at 2. cbn [find_sub]. by rewrite Hnil.
  - rewrite !contains_cons. pose proof (starts_with_cut c w (x :: a) u Hc) as E. cbn [app] in E. rewrite E, IH. by rewrite orb_assoc.
Qed.

Lemma contains_blob_user w u : 58 ∉ w -> w <> [] -> contains w (L"blob:" ++ u) = contains w (L"blob") || contains w u.
Proof. intros Hc Hw. exact (contains_cut 58 w (L"blob") u Hc Hw). Qed.

(** The type of a column in the file of the definitions.  The word of every type but three becomes the enumerator of
    the type; [varbinary] becomes that of [binary], [longblob] that of [blob], and [mediumblob] a name that is not
    declared.  A message of the user stored as a [blob] becomes a [blob] exactly when none of the words [binary],
    [tinyblob] and [mediumblob] is inside the name of the message. *)
Theorem define_types_exact_iff :
  (forall t w n, (t, w, n) ∈ type_table ->
    get_field_type_define_str (chars w) = Some (chars n) <-> t <> MYSQL_FIELD_TYPE_VARBINARY /\ t <> MYSQL_FIELD_TYPE_MEDIUMBLOB /\ t <> MYSQL_FIELD_TYPE_LONGBLOB) /\
  get_field_type_define_str (L"varbinary") = Some (L"MYSQL_FIELD_TYPE_BINARY") /\
  get_field_type_define_str (L"longblob") = Some (L"MYSQL_FIELD_TYPE_BLOB") /\
  (exists n, get_field_type_define_str (L"mediumblob") = Some n /\ n ∉ enumerators) /\
  (forall user, get_field_type_define_str (L"blob:" ++ user) = Some (L"MYSQL_FIELD_TYPE_BLOB") <->
    contains (L"binary") user = false /\ contains (L"tinyblob") user = false /\ contains (L"mediumblob") user = false).
Proof.
  split; [|split; [vm_compute; reflexivity|split; [vm_compute; reflexivity|split]]].
  - intros t w n Hin. assert (Hall : Forall (fun e => (get_field_type_define_str (chars e.1.2) = Some (chars e.2)) <->
      e.1.1 <> MYSQL_FIELD_TYPE_VARBINARY /\ e.1.1 <> MYSQL_FIELD_TYPE_MEDIUMBLOB /\ e.1.1 <> MYSQL_FIELD_TYPE_LONGBLOB) type_table).
    { unfold type_table. repeat (apply Forall_cons; split); try apply Forall_nil_2; cbn [fst snd]; (split; [intros H; first [split_and!; discriminate|vm_compute in H; discriminate]|]);
        first [intros _; vm_compute; reflexivity|intros (? & ? & ?); congruence]. }
    rewrite Forall_forall in Hall. exact (Hall _ Hin).
  - eexists. split; [vm_compute; reflexivity|]. apply (bool_decide_unpack _). vm_compute. exact I.
  - intros user. assert (Hw : forall w, word_is (L"blob:" ++ user) w = bool_decide (L"blob:" ++ user = chars w)) by done.
    unfold get_field_type_define_str. rewrite !Hw.
    repeat match goal with |- context [bool_decide (L"blob:" ++ user = ?w)] => rewrite (bool_decide_false (L"blob:" ++ user = w)) by (intros E; vm_compute in E; congruence) end.
    rewrite !contains_blob_user by (first [by apply (bool_decide_unpack _); vm_compute|done]).
    change (contains (L"binary") (L"blob")) with false. change (contains (L"varbinary") (L"blob")) with false. change (contains (L"tinyblob") (L"blob")) with false.
    change (contains (L"mediumblob") (L"blob")) with false. change (contains (L"blob") (L"blob")) with true. cbn [orb].
    assert (Hvar : contains (L"varbinary") user = true -> contains (L"binary") user = true) by exact (contains_suffix (L"var") (L"binary") user).
    destruct (contains (L"binary") user); [split; [discriminate|by intros (? & _)]|]. destruct (contains (L"varbinary") user); [by discriminate Hvar|].
    destruct (contains (L"tinyblob") user); [split; [discriminate|by intros (_ & ? & _)]|].
    destruct (contains (L"mediumblob") user); [split; [discriminate|by intros (_ & _ & ?)]|]. done.
Qed.

(** ** Which tables the generator accepts, and what it makes of their fields and keys

    Fields and keys. *)

(** ** Fields *)

Lemma find_field_in fields name f : find_field fields name = Some f -> f ∈ fields /\ fi_name f = name.
Proof.
  unfold find_field. intros H. apply bind_Some in H as ([i g] & H & [= <-]). apply list_find_Some in H as (Hi & Hn & _).
  split; [by eapply list_elem_of_lookup_2|done].
Qed.

Lemma request_fields_in t fields f ft : (f, ft) ∈ request_fields t fields -> f ∈ fields /\ get_field_type_str f = Some ft.
Proof.
  unfold request_fields. rewrite list_elem_of_omap. intros ([i g] & Hin & H). destruct (_ =? _); [done|].
  apply bind_Some in H as (ft' & Hft & [= -> ->]). split; [|done]. by apply elem_of_zip_r in Hin.
Qed.

Lemma blob_user_spec s : get_blob_user_define_data s =
  match find_sub (L"blob:") s with Some i => Some (drop (i + 5) s) | None => i ← find_sub (L"binary:") s; Some (drop (i + 7) s) end.
Proof. done. Qed.

(** The types with a C++ type that are written but not read. *)
Definition written_only (s : text) : bool :=
  word_is s "float" || word_is s "double" || (contains (L"binary:") s && negb (contains (L"blob:") s) && negb (contains (L"text") s)).

Lemma written_only_spec f ft : get_field_type_str f = Some ft -> can_select_field_type (field_type f) = negb (written_only (field_type f)).
Proof.
  unfold get_field_type_str. rewrite blob_user_spec. set (s := field_type f). generalize s. clear s. intros s H.
  assert (Hword : forall w, contains (L"binary:") (L w) = false -> contains (L"binary:") s = true -> word_is s w = false).
  { intros w Hw Hs. unfold word_is. apply bool_decide_eq_false. intros ->. congruence. }
  unfold written_only, can_select_field_type. destruct (find_sub (L"blob:") s) as [i|] eqn:Eb.
  - assert (Hb : contains (L"blob:") s = true) by (unfold contains; by rewrite Eb). rewrite Hb. cbn [negb].
    assert (word_is s "float" = false /\ word_is s "double" = false) as (-> & ->).
    { split; unfold word_is; apply bool_decide_eq_false; intros ->; vm_compute in Hb; done. }
    rewrite andb_false_r. cbn [andb orb negb]. by rewrite !orb_true_r.
  - assert (Hb : contains (L"blob:") s = false) by (unfold contains; by rewrite Eb). rewrite Hb. cbn [negb].
    destruct (find_sub (L"binary:") s) as [j|] eqn:Ey; cbn [mbind option_bind] in H.
    + assert (Hy : contains (L"binary:") s = true) by (unfold contains; by rewrite Ey). rewrite Hy.
      repeat match goal with |- context [word_is s ?w] => rewrite (Hword w eq_refl Hy) end. cbn [orb andb]. rewrite !orb_false_r. by destruct (contains (L"text") s).
    + assert (Hy : contains (L"binary:") s = false) by (unfold contains; by rewrite Ey). rewrite Hy. cbn [andb]. rewrite orb_false_r.
      unfold word_is in *. repeat match type of H with
      | context [bool_decide (s = ?w)] => destruct (bool_decide_reflect (s = w)) as [Es|?]; [rewrite Es; vm_compute; reflexivity|cbn [orb] in H]
      end; discriminate.
Qed.

(** C37.  What is written and never read.  A field that the insert and update requests of its class write is not among
    those that the generated selects ask for exactly when its type is [float] or [double], or contains [binary:] and neither
    [blob:] nor [text]: such a value goes into the database and does not come back.  So it is with a message stored
    as [binary], unless the name of the message contains one of the two ([binary_message_read]). *)
Theorem written_never_read_iff t fields f ft (Hin : (f, ft) ∈ request_fields t fields) :
  f ∉ selected fields <->
  field_type f = L"float" \/ field_type f = L"double" \/
  (contains (L"binary:") (field_type f) = true /\ contains (L"blob:") (field_type f) = false /\ contains (L"text") (field_type f) = false).
Proof.
  apply request_fields_in in Hin as [Hin Hft]. unfold selected. rewrite list_elem_of_filter, (written_only_spec f ft Hft). unfold written_only, word_is.
  destruct (bool_decide_reflect (field_type f = L"float")); [naive_solver|]. destruct (bool_decide_reflect (field_type f = L"double")); [naive_solver|].
  cbn [orb]. destruct (contains (L"binary:") (field_type f)), (contains (L"blob:") (field_type f)), (contains (L"text") (field_type f)); naive_solver.
Qed.

Definition example_score : FieldInfo := mkFieldInfo (L"score") (L"float") 0 (L"none") [].
Definition example_scores : TableInfo := mkTable (L"t_score") (L"id") 0 (L"innodb") [mkSelKey (L"id") (L"single") []] (L"id") (L"id").
Definition example_fields : list FieldInfo := [mkFieldInfo (L"id") (L"int") 0 (L"none") (L"auto_increment,unsigned,not null"); example_score].

Lemma written_never_read_iff_witness : (example_score, L"float") ∈ request_fields example_scores example_fields /\ example_score ∉ selected example_fields.
Proof.
  assert (Hin : (example_score, L"float") ∈ request_fields example_scores example_fields) by by left.
  split; [exact Hin|]. apply (proj2 (written_never_read_iff example_scores example_fields example_score (L"float") Hin)). by left.
Defined.

(** The type of this message contains [text]. *)
Lemma binary_message_read : can_select_field_type (L"binary:ContextData") = true /\ can_select_field_type (L"binary:ItemData") = false.
Proof. split; vm_compute; reflexivity. Qed.

(** ** Keys *)

(** A key that is the name of a field with a C++ type. *)
Definition is_typed_field (fields : list FieldInfo) (name : text) : Prop :=
  exists f, f ∈ fields /\ fi_name f = name /\ is_Some (get_field_type_str f).

Lemma typed_field fields name ft : get_field_type_str_of fields name = Some ft -> is_typed_field fields name.
Proof.
  unfold get_field_type_str_of. intros (f & Hf & Hft)%bind_Some. apply find_field_in in Hf as [Hin Hn]. exists f. eauto.
Qed.

(** The keys by which a table can be selected. *)
Definition keyed (t : TableInfo) (fields : list FieldInfo) : Prop :=
  (exists k, select_keys_info t = [k] /\
    ((sk_result_type k = [] \/ sk_result_type k = L"single") /\ is_typed_field fields (sk_key k) \/
     sk_result_type k = L"multi" /\ is_typed_field fields (sk_result_key k))) \/
  (exists k k2, select_keys_info t = [k; k2] /\ sk_result_type k = L"single" /\ sk_result_type k2 = L"single" /\
    is_typed_field fields (sk_key k) /\ is_typed_field fields (sk_key k2)).

Lemma table_member_keyed t fields m : table_member (t, fields) = Some (Some m) -> keyed t fields.
Proof.
  unfold table_member, word_is. destruct (select_keys_info t) as [|k [|k2 [|]]] eqn:E; [done| | |done].
  - destruct (bool_decide_reflect (sk_result_type k = L"single")) as [Hs|]; cbn [orb].
    { intros (key & Hkey & _)%bind_Some. left. exists k. split; [done|]. left. split; [by right|by eapply typed_field]. }
    destruct (bool_decide_reflect (sk_result_type k = [])) as [Hs|].
    { intros (key & Hkey & _)%bind_Some. left. exists k. split; [done|]. left. split; [by left|by eapply typed_field]. }
    destruct (bool_decide_reflect (sk_result_type k = L"multi")) as [Hs|]; [|done].
    intros (key & Hkey & _)%bind_Some. left. exists k. split; [done|]. right. split; [done|by eapply typed_field].
  - destruct (bool_decide_reflect (sk_result_type k = L"single")) as [Hs|]; cbn [negb orb]; [|done].
    destruct (bool_decide_reflect (sk_result_type k2 = L"single")) as [Hs2|]; cbn [negb]; [|done].
    intros (key & Hkey & (key2 & Hkey2 & _)%bind_Some)%bind_Some. right. exists k, k2. split_and!; try done; by eapply typed_field.
Qed.

Lemma table_members_each l ms : table_members l = Some (Some ms) -> forall tf, tf ∈ l -> exists m, table_member tf = Some (Some m).
Proof.
  revert ms. induction l as [|tf l IH]; intros ms H tf' Hin; [by apply elem_of_nil in Hin|]. cbn [table_members] in H.
  destruct (table_member tf) as [[m|]|] eqn:E; [|done..]. cbn [read_bind] in H. destruct (table_members l) as [[ms'|]|]; [|done..].
  apply elem_of_cons in Hin as [->|Hin]; [by exists m|by apply (IH ms')].
Qed.

Lemma generate_members jsonpath c files : generate jsonpath c = Some (true, files) ->
  exists ms, table_members (zip (tables c) (tables_fields c)) = Some (Some ms).
Proof.
  unfold generate. destruct (after_last 47 jsonpath) as [file_name|]; [|done]. intros ([[] d] & _ & H)%bind_Some; [|done].
  apply bind_Some in H as ([[] s] & Hs & H); [clear H|done]. unfold generate_struct_file in Hs. apply gen_then_true in Hs as (_ & o & _ & Hs & _).
  apply gen_then_true in Hs as (_ & o' & _ & Hs & _). unfold gen_db_tables_manager in Hs. apply gen_then_true in Hs as (_ & o2 & _ & Hs & _).
  destruct (table_members _) as [[ms|]|]; [by eauto|done..].
Qed.

(** The title of the function of a select by two keys: the only parameter for them is that of the second. *)
Lemma two_keys_title t fields k k1 k2 h c :
  boost_split 38 (sk_key k) = [k1; k2] -> k1 <> [] -> k2 <> [] -> gen_select_record_func t fields k = Some (true, (h, c)) ->
  exists param, get_field_format_for_func fields k2 = Some param /\ h = select_title t 2 param [k1; k2] ++ L";" ++ endl /\
    c = select_head (select_title t 2 param [k1; k2]) ++ concat (gen_select_field <$> fields) ++ select_tail t 2 [k1; k2].
Proof.
  intros Hk H1 H2. unfold gen_select_record_func. rewrite Hk. cbn [length]. change (MYSQL_MAX_KEYS_COUNT <? 2)%nat with false. cbn iota.
  destruct k1 as [|x1 k1]; [done|]. destruct k2 as [|x2 k2]; [done|]. cbn [select_keys_loop].
  destruct (get_field_format_for_func fields (x1 :: k1)) as [p1|]; cbn [mbind option_bind]; [|done].
  destruct (get_field_format_for_func fields (x2 :: k2)) as [p2|]; cbn [mbind option_bind]; [|done]. intros [= <- <-]. by exists p2.
Qed.

(** The tables that the generator accepts.  When it succeeds, every table is selected by one key or by two that give
    single results; every such key is the name of one field with a C++ type, so a key made of several fields is never
    accepted for a single result, and the result of a select with more results has such a key.  A select with more
    results by two fields is accepted, but the function that is written for it declares a parameter for the second field
    only, and uses both. *)
Theorem generated_tables_keyed jsonpath c files
    (Hgen : generate jsonpath c = Some (true, files)) t fields (Hin : (t, fields) ∈ zip (tables c) (tables_fields c)) :
  keyed t fields /\
  (forall k, k ∈ select_keys_info t -> sk_result_type k <> L"multi" -> (forall f, f ∈ fields -> 38 ∉ fi_name f) -> 38 ∉ sk_key k) /\
  (forall k k1 k2 h s, boost_split 38 (sk_key k) = [k1; k2] -> k1 <> [] -> k2 <> [] -> gen_select_record_func t fields k = Some (true, (h, s)) ->
    exists param, get_field_format_for_func fields k2 = Some param /\ h = select_title t 2 param [k1; k2] ++ L";" ++ endl /\
      s = select_head (select_title t 2 param [k1; k2]) ++ concat (gen_select_field <$> fields) ++ select_tail t 2 [k1; k2]).
Proof.
  assert (Hk : keyed t fields).
  { destruct (generate_members _ _ _ Hgen) as (ms & Hms). destruct (table_members_each _ _ Hms _ Hin) as (m & Hm). by eapply table_member_keyed. }
  split; [done|]. split; [|intros; by eapply two_keys_title].
  intros k Hkin Hmulti Hf. assert (Ht : is_typed_field fields (sk_key k)).
  { destruct Hk as [(k0 & E & [[_ Ht]|[Ht _]])|(k0 & k2 & E & _ & _ & Ht & Ht2)]; rewrite E in Hkin; set_solver. }
  destruct Ht as (f & Hfin & <- & _). by apply Hf.
Qed.

Definition example_config : Config := mkConfig (L"game") [] [] [] [example_scores] [example_fields].

Lemma generated_tables_keyed_witness : keyed example_scores example_fields /\ 38 ∉ L"id".
Proof.
  assert (Hk : forall files, generate (L"./db_tables.json") example_config = Some (true, files) -> keyed example_scores example_fields /\ 38 ∉ L"id").
  { intros files Hgen. destruct (generated_tables_keyed _ example_config files Hgen example_scores example_fields) as (Hk & Hc & _); [by left|].
    split; [exact Hk|]. apply (Hc (mkSelKey (L"id") (L"single") [])); [by left|discriminate|]. intros f Hf.
    apply elem_of_cons in Hf as [->|Hf]; [by apply (bool_decide_unpack _); vm_compute|]. apply list_elem_of_singleton in Hf as ->. by apply (bool_decide_unpack _); vm_compute. }
  eapply Hk. vm_compute. reflexivity.
Defined.

(** ** The constructor *)

(** The initialisers: numbers with a value first, then the states. *)
Definition default_initialisers (fields : list FieldInfo) : list text :=
  omap (fun f => ds ← get_field_type_default_value (field_type f); Some (L"  " ++ fi_name f ++ L"(" ++ ds ++ L")")) fields.

Definition state_initialisers (fields : list FieldInfo) : list text :=
  omap (fun f => if is_field_time_type (field_type f) then None else Some (L"  " ++ fi_name f ++ L"_state(MYSQL_TABLE_FIELD_STATE_IDLE)")) fields.

Lemma boost_join_cons sep (x : text) l : l <> [] -> boost_join sep (x :: l) = x ++ sep ++ boost_join sep l.
Proof. by destruct l. Qed.

Lemma gen_states_spec fields : forall b, gen_state_initialisers b fields =
  match state_initialisers fields with [] => [] | l => (if b then L"," ++ endl else []) ++ boost_join (L"," ++ endl) l end.
Proof.
  induction fields as [|f fields IH]; intros b; [done|]. cbn [gen_state_initialisers]. unfold state_initialisers. cbn [omap list_omap].
  fold (state_initialisers fields). destruct (is_field_time_type (field_type f)); cbn [negb]; [apply IH|].
  change (list_omap _ _ _ fields) with (state_initialisers fields). rewrite IH. f_equal. destruct (state_initialisers fields) as [|x l] eqn:E; [by rewrite !app_nil_r|].
  rewrite (boost_join_cons _ _ (x :: l)) by done. by rewrite <- !app_assoc.
Qed.

Lemma join_prefix sep (l1 l2 : list text) : l2 <> [] -> boost_join sep (l1 ++ l2) = concat ((fun x => x ++ sep) <$> l1) ++ boost_join sep l2.
Proof.
  intros H2. induction l1 as [|x l1 IH]; [done|]. cbn [app fmap list_fmap concat]. rewrite boost_join_cons by (by destruct l1, l2). rewrite IH.
  by rewrite <- !app_assoc.
Qed.

Lemma default_not_time s ds : get_field_type_default_value s = Some ds -> is_field_time_type s = false.
Proof.
  unfold get_field_type_default_value, is_integer_type, is_field_time_type, word_is. intros H.
  repeat match type of H with context [bool_decide (s = ?w)] => destruct (bool_decide_reflect (s = w)) as [Es|?]; [rewrite Es; reflexivity|cbn [orb] in H] end. done.
Qed.

Lemma gen_defaults_spec fields : concat (gen_default_initialiser <$> fields) = concat ((fun x => x ++ L"," ++ endl) <$> default_initialisers fields).
Proof.
  induction fields as [|f fields IH]; [done|]. cbn [fmap list_fmap concat]. change (concat (list_fmap _ _ gen_default_initialiser fields)) with (concat (gen_default_initialiser <$> fields)).
  rewrite IH. unfold default_initialisers. cbn [omap list_omap]. fold (default_initialisers fields). unfold gen_default_initialiser at 1.
  destruct (get_field_type_default_value (field_type f)) as [ds|]; cbn [mbind option_bind]; [|done]. cbn [fmap list_fmap concat]. by rewrite <- !app_assoc.
Qed.

Lemma states_none fields : state_initialisers fields = [] -> Forall (fun f => is_field_time_type (field_type f) = true) fields.
Proof.
  induction fields as [|f fields IH]; [by constructor|]. unfold state_initialisers. cbn [omap list_omap]. destruct (is_field_time_type (field_type f)) eqn:E; [|done].
  intros H. constructor; [done|]. by apply IH.
Qed.

Lemma defaults_none fields : Forall (fun f => is_field_time_type (field_type f) = true) fields -> default_initialisers fields = [] /\ state_initialisers fields = [].
Proof.
  induction 1 as [|f fields Hf Hfs [IH1 IH2]]; [done|]. unfold default_initialisers, state_initialisers. cbn [omap list_omap]. rewrite Hf.
  destruct (get_field_type_default_value (field_type f)) eqn:E; [apply default_not_time in E; congruence|]. done.
Qed.

Lemma format_params_snoc fs f ft : (forall f, nv_name f <> []) -> format_params (fs ++ [(f, ft)]) = match fs with [] => nv_name f | _ => format_params fs ++ L", " ++ nv_name f end.
Proof.
  intros _. unfold format_params. rewrite foldl_app. cbn [foldl]. destruct fs as [|[g gt] fs]; [done|].
  assert (H : forall l acc, acc <> [] -> foldl (fun params '(f, _) => match params with [] => nv_name f | _ => params ++ (L", " ++ nv_name f) end) acc (l : list (FieldInfo * text)) <> []).
  { induction l as [|[h ht] l IH]; intros acc Hacc; [done|]. cbn [foldl]. apply IH. destruct acc; [done|]. by destruct acc. }
  specialize (H fs (nv_name g) ltac:(done)). cbn [foldl]. destruct (foldl _ (nv_name g) fs); [done|]. done.
Qed.

Lemma format_params_join fs : format_params fs = boost_join (L", ") (nv_name ∘ fst <$> fs).
Proof.
  induction fs as [|[f ft] fs IH] using rev_ind; [done|]. rewrite format_params_snoc by done. rewrite fmap_app. cbn [fmap list_fmap compose fst].
  destruct fs as [|g fs]; [done|]. rewrite boost_join_snoc by done. by rewrite IH.
Qed.

(** The lists that the generator writes into a class.  The initialisers of the constructor, first the numbers and then
    the states, are separated by commas, unless all fields are times: then nothing follows the colon, and the class
    does not compile.  The arguments of the insert and update requests are, separated by commas, the variables that are
    declared before: one for every field that has a C++ type and is not the primary key, in their order. *)
Theorem class_lists_separated t fields :
  let head := ti_name t ++ L"::" ++ ti_name t ++ L"() : " ++ endl in
  let tail := endl ++ L"{}" ++ endl ++ endl in
  (gen_struct_constructor_func t fields).2 = head ++ boost_join (L"," ++ endl) (default_initialisers fields ++ state_initialisers fields) ++ tail /\
  (default_initialisers fields ++ state_initialisers fields = [] <-> Forall (fun f => is_field_time_type (field_type f) = true) fields) /\
  format_params (request_fields t fields) = boost_join (L", ") (nv_name ∘ fst <$> request_fields t fields).
Proof.
  intros head tail. split; [|split; [|apply format_params_join]].
  - unfold gen_struct_constructor_func. cbn [snd]. rewrite gen_defaults_spec, gen_states_spec. subst head tail. rewrite <- !app_assoc. do 5 f_equal.
    destruct (state_initialisers fields) as [|x l] eqn:E.
    + destruct (defaults_none fields (states_none fields E)) as [-> _]. done.
    + rewrite join_prefix by done. by rewrite <- !app_assoc.
  - split; [intros [_ H]%app_nil; by apply states_none|]. intros [-> ->]%defaults_none. done.
Qed.
