(* ===== verification/NetContract.v ===== *)
(** * The connections behind the servers' handlers

    The theorems on the servers are proved against [AppNet.Net], which keeps the state of each
    connection and the packets sent on it.  This file proves that the connection of
    [Connection], with a send buffer list without limits, keeps that promise: a simulation
    between [Net] and a connection with its buffers and its socket ([link_rel]), and with a connection whose socket was
    closed, which an accepted connection can be while it counts as connected ([shut_rel]). *)
From S2P Require Import Prelude Datatype Wire NetProto2 SessionBuffer BufferPool BufferList DoubleBuffer SendBuffer DataHandler2 EventHandler ConnBuffer Connection ConnectionFrame ConnectionProps ConnectionLife Agent AppNet.
From Stdlib Require Import ZArith Lia.
From stdpp Require Import base option list gmap.
Local Open Scope Z_scope.

(** The packet of the protocol for a packet of [Net], and whether a packet carries a message. *)
Definition packet_of (p : Packet) : packet :=
  match AppNet.pk_user p with
  | None => DataHandler2.pk_user (pk_msgid p) (pk_data p)
  | Some u => pk_user_id u (pk_msgid p) (pk_data p)
  end.

Definition carries_message (p : packet) : Prop :=
  match p with DataHandler2.pk_user _ _ | pk_user_id _ _ _ => True | _ => False end.

#[export] Instance carries_message_dec p : Decision (carries_message p).
Proof. destruct p; simpl; apply _. Defined.

(** What happens to a connection: the calls of the handlers, and what goes on below them. *)
Inductive link_op : Type :=
| lk_send (user : option Z) (msgid : Z) (data : bytes) (len : Z)
| lk_close (now : Z)
| lk_force_close (reason : Z)
| lk_peer_closes             (** a disconnect packet was received: [on_disconnect] *)
| lk_start                   (** [start_send], by [run] *)
| lk_sent (n : Z)            (** the outstanding send completes after at most [n] bytes *)
| lk_send_fails              (** ... with an error *)
| lk_read (res : option bytes)   (** the outstanding read completes: [read_completes] *)
| lk_run (now : Z).          (** [run]: the tick, [handle_recv] with the message handlers, [start_send] *)

Section contract.
Context {App : Type}.
Notation W := (World App).
Implicit Type w : W.
Variable handlers : JmyDataHandler2 W.
Variable events : JmyEventHandlerManager W.
Variables mgr c : Z.
Variable garbage : Z -> list Z.
Hypothesis Hgarbage : forall n, 0 <= n -> lenZ (garbage n) = n.
Variable effect : Z -> JmyEventInfo -> App -> App.
Hypothesis Hevents : forall i info w, snd (eh_call events i info w) = set_app (effect i info (w_app w)) w.

(** ** Both sides *)

(** The bytes that reach the peer, the result of the call, and the new state.  A send that is
    outstanding when the socket is closed completes with an error. *)
Definition link_exec (o : link_op) (w : W) : option (bytes * Z * W) :=
  match o with
  | lk_send None msgid data len => '(r, w) ← send garbage msgid (Some data) len w; Some ([], r, w)
  | lk_send (Some u) msgid data len => '(r, w) ← send_user garbage u msgid (Some data) len w; Some ([], r, w)
  | lk_close now => w ← close garbage now w; Some ([], 0, w)
  | lk_force_close reason => w ← force_close events mgr reason w; Some ([], 0, w)
  | lk_peer_closes => '(_, w) ← conn_on_disconnect garbage w; Some ([], 0, w)
  | lk_start => '(_, w) ← start_send w; Some ([], 0, w)
  | lk_sent n =>
    match offered w with
    | None => Some ([], 0, w)
    | Some bs =>
      if sk_open (w_sock w) then
        let k := Z.min n (lenZ bs) in
        w ← send_completes events mgr (Some k) w; Some (take (Z.to_nat k) bs, 0, w)
      else w ← send_completes events mgr None w; Some ([], 0, w)
    end
  | lk_send_fails =>
    match offered w with
    | None => Some ([], 0, w)
    | Some _ => w ← send_completes events mgr None w; Some ([], 0, w)
    end
  | lk_read res =>
    match sk_reads (w_sock w) with
    | [] => Some ([], 0, w)
    | _ => w ← read_completes events mgr garbage res w; Some ([], 0, w)
    end
  | lk_run now => '(r, w) ← run handlers events mgr garbage now w; Some ([], r, w)
  end.

Fixpoint link_run (os : list link_op) (w : W) : option (bytes * list Z * W) :=
  match os with
  | [] => Some ([], [], w)
  | o :: os => '(bs, r, w) ← link_exec o w; '(bs', rs, w) ← link_run os w; Some (bs ++ bs', r :: rs, w)
  end.

(** The result of the call, whether it raises the disconnect event, and the new state; [None] for what [Net] leaves
    open ([net_step]). *)
Definition net_exec (o : link_op) (n : Net) : option (Z * bool * Net) :=
  match o with
  | lk_send user msgid data len => '(r, n) ← nt_send mgr c user msgid data len n; Some (r, false, n)
  | lk_close _ => n ← nt_close mgr c n; Some (0, false, n)
  | lk_force_close _ => '(raised, n) ← nt_force_close mgr c n; Some (0, raised, n)
  | lk_peer_closes | lk_start | lk_sent _ => Some (0, false, n)
  | lk_send_fails | lk_read _ | lk_run _ => None
  end.

Fixpoint net_run (os : list link_op) (n : Net) : option (list Z * nat * Net) :=
  match os with
  | [] => Some ([], 0%nat, n)
  | o :: os =>
    '(r, raised, n) ← net_exec o n; '(rs, k, n) ← net_run os n;
    Some (r :: rs, ((if raised : bool then 1 else 0) + k)%nat, n)
  end.

Definition link_op_ok (o : link_op) : Prop := match o with lk_sent n => 0 <= n | _ => True end.

(** The application's state after [k] disconnect events. *)
Definition raises (k : nat) (a : App) : App :=
  Nat.iter k (effect JMY_EVENT_DISCONNECT (mkJmyEventInfo JMY_EVENT_DISCONNECT c mgr 0)) a.

(** ** The simulation *)

Definition as_connected (w : W) : W := set_conn (c_set_state JMY_CONN_STATE_CONNECTED) w.

(** A connection with the servers' configuration: it sends from a list that has no limits. *)
Record unlimited (w : W) (b : JmyConnectionBuffer) : Prop := mkUnlimited {
  ul_buffer : buffer_ (w_conn w) = Some b;
  ul_list : use_send_list b = true;
  ul_bytes : max_bytes_ (send_buff_list b) = 0;
  ul_count : max_count_ (send_buff_list b) = 0;
  ul_ok : bl_ok (send_buff_list b);
}.

(** [sent] are the bytes that reached the peer and [ps] the packets that were written. *)
Definition link_stream (sent : bytes) (ps : list packet) (w : W) : Prop :=
  match state w with
  | JMY_CONN_STATE_CONNECTED | JMY_CONN_STATE_DISCONNECTING =>
    out_inv (as_connected w) /\ sk_open (w_sock w) = true /\
    sent ++ out_stream w = concat (packet_bytes <$> ps)
  | JMY_CONN_STATE_DISCONNECTED =>
    sk_open (w_sock w) = false /\ sent `prefix_of` concat (packet_bytes <$> ps)
  | _ => False
  end.

Record link_rel (sent : bytes) (ps : list packet) (w : W) (n : Net) : Prop := mkLinkRel {
  lr_state : nt_conns n !! (mgr, c) = Some (state w);
  lr_id : c_id (w_conn w) = c;
  lr_events : event_handler_ (w_conn w) = true;
  lr_data : data_handler_ (w_conn w) = true;
  lr_buffer : exists b, unlimited w b;
  lr_packets : filter carries_message ps = packet_of <$> link_packets mgr c n;
  lr_stream : link_stream sent ps w;
}.

(** An operation that writes no packet of the protocol's own. *)
Definition quiet (o : link_op) : Prop := match o with lk_close _ | lk_peer_closes | lk_read _ | lk_run _ => False | _ => True end.

(** One step of the connection does what [Net] does, and writes the packets [qs]. *)
Definition simulates (sent : bytes) (ps : list packet) (w : W) (o : link_op) (r : Z) (raised : bool) (n : Net) : Prop :=
  exists bs w' qs, link_exec o w = Some (bs, r, w') /\ link_rel (sent ++ bs) (ps ++ qs) w' n /\
    w_app w' = raises (if raised then 1 else 0) (w_app w) /\ (quiet o -> Forall carries_message qs).

Lemma as_connected_id w : state w = JMY_CONN_STATE_CONNECTED -> as_connected w = w.
Proof using. unfold state, as_connected, set_conn, c_set_state. intros <-. by destruct w as [[] ? ? ? ? ?]. Qed.

Lemma out_inv_frame w w' :
  out_inv w -> state_ (w_conn w') = JMY_CONN_STATE_CONNECTED ->
  data_handler_ (w_conn w') = data_handler_ (w_conn w) ->
  buff_send_count_ (w_conn w') = buff_send_count_ (w_conn w) ->
  buffer_ (w_conn w') = buffer_ (w_conn w) -> sending_data_ (w_conn w') = sending_data_ (w_conn w) ->
  sk_sends (w_sock w') = sk_sends (w_sock w) -> w_heap w' = w_heap w -> out_inv w'.
Proof using.
  intros (Hs & Hd & Hc & b & Hb & Hp & Hm) E1 E2 E3 E4 E5 E6 E7.
  split; [done|]. split; [congruence|]. split; [by rewrite E3|]. exists b. split; [congruence|].
  unfold pending_ok in *. by rewrite E5, E6, E7.
Qed.

(** ** Writing *)

Lemma unlimited_accepts w b n : unlimited w b -> bl_accepts (send_buff_list b) n = true.
Proof using. intros [_ _ E1 E2 _]. unfold bl_accepts, bl_count_full, bl_bytes_full. by rewrite E1, E2. Qed.

Lemma unlimited_extends w b l' w' :
  unlimited w b -> list_extends (send_buff_list b) l' -> bl_ok l' ->
  buffer_ (w_conn w') = Some (cb_set_send_list l' b) -> unlimited w' (cb_set_send_list l' b).
Proof using. intros [] (_ & E1 & E2) Hok Hb. constructor; simpl; congruence. Qed.

(** A packet written to a connected connection. *)
Lemma link_write p w b fd :
  state w = JMY_CONN_STATE_CONNECTED -> out_inv w -> unlimited w b -> lenZ (packet_bytes p) < 2 ^ 16 ->
  exists l', let w' := set_conn (c_set_buffer (Some (cb_set_send_list l' b))) w in
    on_send_buffer fd (fun l => @write_packet _ (list_SendBuffer garbage) l p) w = Some (packet_ret p, w') /\
    out_inv w' /\ out_stream w' = out_stream w ++ packet_bytes p /\ unlimited w' (cb_set_send_list l' b).
Proof using Hgarbage.
  intros Hs Hw Hu Hl.
  destruct (on_send_list_packet garbage Hgarbage p w b fd Hw Hl (ul_buffer _ _ Hu) (ul_list _ _ Hu))
    as (l' & E & Hw' & Est & Hex).
  rewrite (unlimited_accepts _ _ _ Hu) in E, Est. exists l'. split; [done|]. split; [done|]. split; [done|].
  apply (unlimited_extends w); [done|done| |done].
  destruct Hw' as (_ & _ & _ & b' & [= <-] & _ & Hm). simpl in Hm. by rewrite (ul_list _ _ Hu) in Hm.
Qed.

(** Only the first [len] bytes of the data matter. *)
Lemma buffer_write_all_cut head res data len d b :
  mem_read data 0 len = Some d -> len <= NET_MAX_DATA ->
  buffer_write_all b [mkJmyData head res; mkJmyData data len] =
  buffer_write_all b [mkJmyData head res; mkJmyData d (lenZ d)].
Proof using.
  intros Hd Hl. pose proof (mem_read_length _ _ _ _ Hd) as E. apply mem_read_inv in Hd as Hi.
  cbn [buffer_write_all jd_data jd_len]. rewrite E.
  unfold NET_MAX_DATA in Hl. rewrite (u16_id len) by (unfold is_u16; lia).
  destruct (buffer_write b _ (u16 res)) as [[[] b1]|]; cbn [mbind option_bind]; [|done|done].
  unfold buffer_write. destruct (len =? 0); [done|]. destruct (_ <? len); [done|].
  rewrite Hd. rewrite <-E, mem_read_all. done.
Qed.

Lemma bl_writeDatas_cut head res data len d l :
  mem_read data 0 len = Some d -> len <= NET_MAX_DATA ->
  bl_writeDatas garbage l (Some [mkJmyData head res; mkJmyData data len]) =
  bl_writeDatas garbage l (Some [mkJmyData head res; mkJmyData d (lenZ d)]).
Proof using.
  intros Hd Hl. pose proof (mem_read_length _ _ _ _ Hd) as E. unfold bl_writeDatas.
  assert (datas_total [mkJmyData head res; mkJmyData data len] =
          datas_total [mkJmyData head res; mkJmyData d (lenZ d)]) as -> by (unfold datas_total; simpl; by rewrite E).
  destruct (bl_count_full l); [done|]. destruct (bl_bytes_full l _); [done|].
  destruct (buffer_init_len _ _ _) as [[] b]; simpl negb; cbv iota; [|done].
  by rewrite (buffer_write_all_cut _ _ _ _ _ _ Hd Hl).
Qed.

Lemma writeUserData_cut l msgid data len d :
  mem_read data 0 len = Some d -> len <= NET_MAX_DATA ->
  writeUserData_list garbage l msgid (Some data) len =
    @write_packet _ (list_SendBuffer garbage) l (DataHandler2.pk_user msgid d).
Proof using.
  intros Hd Hl. pose proof (mem_read_length _ _ _ _ Hd) as E. cbn [writeUserData_list write_packet].
  unfold writeUserData. rewrite E. apply option_bind_ext_fun. intros [res hd].
  destruct (res <? 0); [done|]. destruct (len =? 0); [done|].
  cbn [list_SendBuffer sbuf_writeDatas]. cbn [default from_option]. unfold id.
  by rewrite (bl_writeDatas_cut _ _ _ _ _ _ Hd Hl), E.
Qed.

Lemma writeUserIdAndData_cut l u msgid data len d :
  mem_read data 0 len = Some d -> len <= NET_MAX_DATA ->
  writeUserIdAndData_list garbage l u msgid (Some data) len =
    @write_packet _ (list_SendBuffer garbage) l (pk_user_id u msgid d).
Proof using.
  intros Hd Hl. pose proof (mem_read_length _ _ _ _ Hd) as E. cbn [writeUserIdAndData_list write_packet].
  unfold writeUserIdAndData. rewrite E. apply option_bind_ext_fun. intros [res hd].
  destruct (len =? 0); [done|].
  cbn [list_SendBuffer sbuf_writeDatas]. cbn [default from_option]. unfold id.
  by rewrite (bl_writeDatas_cut _ _ _ _ _ _ Hd Hl), E.
Qed.

Lemma on_send_buffer_ext fd fl fl' w : (forall l, fl l = fl' l) -> on_send_buffer fd fl w = on_send_buffer fd fl' w.
Proof using.
  intros E. unfold on_send_buffer. destruct (buffer_ (w_conn w)); [|done]. cbn [mbind option_bind].
  destruct (data_handler_ (w_conn w)); [|done]. cbn. by rewrite E.
Qed.

(** ** The steps *)

(** The packet [p] that is written extends the stream. *)
Lemma link_rel_write sent ps w n p b l' st n' :
  link_rel sent ps w n -> state w = JMY_CONN_STATE_CONNECTED ->
  let w' := set_conn (c_set_buffer (Some (cb_set_send_list l' b))) w in
  out_inv w' -> out_stream w' = out_stream w ++ packet_bytes p -> unlimited w' (cb_set_send_list l' b) ->
  forall w'' t, st = JMY_CONN_STATE_CONNECTED \/ st = JMY_CONN_STATE_DISCONNECTING ->
  w_conn w'' = c_set_state st (c_set_close_start t (w_conn w')) ->
  w_sock w'' = w_sock w' -> w_heap w'' = w_heap w' ->
  nt_conns n' !! (mgr, c) = Some st ->
  packet_of <$> link_packets mgr c n' =
    (packet_of <$> link_packets mgr c n) ++ (if decide (carries_message p) then [p] else []) ->
  link_rel sent (ps ++ [p]) w'' n'.
Proof using.
  intros [Hn Hid He Hd Hb Hps Hst] Hs w' Hw' Est Hu w'' t Hcase Hc Hk Hh Hn' Hp.
  assert (Hs' : state w'' = st) by (unfold state; by rewrite Hc).
  unfold link_stream in Hst. rewrite Hs in Hst. destruct Hst as (_ & Ho & Hst).
  constructor; try (rewrite Hc; done).
  - by rewrite Hs'.
  - exists (cb_set_send_list l' b). destruct Hu. constructor; try done. by rewrite Hc.
  - rewrite filter_app, Hp, Hps, filter_cons, filter_nil. by destruct (decide _).
  - assert (Hx : out_inv (as_connected w'') /\ sk_open (w_sock w'') = true /\
                 sent ++ out_stream w'' = concat (packet_bytes <$> ps ++ [p])).
    { split; [apply (out_inv_frame w'); try done; unfold as_connected; simpl; by rewrite ?Hc, ?Hk|].
      split; [by rewrite Hk|].
      assert (out_stream w'' = out_stream w') as -> by (unfold out_stream; by rewrite Hc, Hh).
      rewrite Est, app_assoc, Hst, fmap_app, concat_app. simpl. by rewrite app_nil_r. }
    unfold link_stream. rewrite Hs'. by destruct Hcase as [-> | ->].
Qed.

Lemma link_packets_snoc n p cs ls :
  pk_mgr p = mgr -> AppNet.pk_conn p = c ->
  link_packets mgr c (mkNet cs (nt_sent n ++ [p]) ls) = link_packets mgr c n ++ [p].
Proof using.
  intros. unfold link_packets. simpl. rewrite filter_app, filter_cons, filter_nil.
  by rewrite decide_True.
Qed.

Lemma set_close_start_id (k : JmyTcpConnection) st :
  state_ k = st -> k = c_set_state st (c_set_close_start (active_close_start_ k) k).
Proof using. intros <-. by destruct k. Qed.

(** A call that does nothing on both sides. *)
Lemma simulates_nothing sent ps w n o r :
  link_rel sent ps w n -> link_exec o w = Some ([], r, w) -> simulates sent ps w o r false n.
Proof using. intros Hr E. exists [], w, []. by rewrite !app_nil_r. Qed.

(** Sending data writes the packet. *)
Lemma send_writes w user msgid data len d : state w = JMY_CONN_STATE_CONNECTED ->
  mem_read data 0 len = Some d -> len <= NET_MAX_DATA ->
  let p := packet_of (mkPacket mgr c user msgid d) in
  lenZ (packet_bytes p) < 2 ^ 16 /\ carries_message p /\
  exists fd, link_exec (lk_send user msgid data len) w =
    ('(r, w) ← on_send_buffer fd (fun l => @write_packet _ (list_SendBuffer garbage) l p) w;
     let x := neg_or len (r, w) in Some ([], fst x, snd x)).
Proof using.
  intros Hs Hd Hl p. pose proof (mem_read_length _ _ _ _ Hd) as El. apply mem_read_inv in Hd as Hi. unfold NET_MAX_DATA in Hl.
  split; [|split; [unfold p, packet_of; simpl; by destruct user|]].
  { unfold p, packet_of. simpl. destruct user; cbn [packet_bytes].
    - rewrite (length_app (user_id_data_head _ _ _)). simpl. lia.
    - rewrite (length_app (user_data_head _ _)). simpl. lia. }
  destruct user as [u|]; cbn [link_exec]; [unfold send_user|unfold send]; rewrite (bool_decide_eq_true_2 (state w = _)) by done; cbn [negb].
  - exists (fun s => writeUserIdAndData s u msgid (Some data) len).
    rewrite (on_send_buffer_ext _ _ _ _ (fun l => writeUserIdAndData_cut l u msgid data len d Hd Hl)).
    change (pk_user_id u msgid d) with p. destruct (on_send_buffer _ _ w) as [[r w1]|]; cbn [mbind option_bind]; [|done].
    by destruct (neg_or _ _).
  - exists (fun s => writeUserData s msgid (Some data) len).
    rewrite (on_send_buffer_ext _ _ _ _ (fun l => writeUserData_cut l msgid data len d Hd Hl)).
    change (DataHandler2.pk_user msgid d) with p. rewrite s32_id by (unfold is_s32; lia).
    destruct (on_send_buffer _ _ w) as [[r w1]|]; cbn [mbind option_bind]; [|done]. by destruct (neg_or _ _).
Qed.

Lemma neg_or_packet ret p w : neg_or ret (packet_ret p, w) = (ret, w).
Proof using. unfold neg_or. cbn [fst snd]. by rewrite (proj2 (Z.ltb_ge _ 0)) by apply packet_ret_nonneg. Qed.

Lemma simulates_send sent ps w n user msgid data len r raised n' :
  link_rel sent ps w n -> net_exec (lk_send user msgid data len) n = Some (r, raised, n') ->
  simulates sent ps w (lk_send user msgid data len) r raised n'.
Proof using Hgarbage.
  intros Hr Hn. cbn [net_exec] in Hn. apply bind_Some in Hn as ([r0 n0] & Hn & [= <- <- <-]).
  unfold nt_send in Hn. rewrite (lr_state _ _ _ _ Hr) in Hn. cbn [mbind option_bind] in Hn.
  destruct (decide (state w = JMY_CONN_STATE_CONNECTED)) as [Hs|Hs].
  - destruct (Z.leb_spec len NET_MAX_DATA) as [Hl|]; [|done]. cbn [ub_unless mbind option_bind] in Hn.
    apply bind_Some in Hn as (d & Hd & [= <- <-]). destruct (lr_buffer _ _ _ _ Hr) as [b Hu]. pose proof (lr_stream _ _ _ _ Hr) as Hst.
    unfold link_stream in Hst. rewrite Hs, as_connected_id in Hst by done. destruct Hst as (Hw & _ & _).
    destruct (send_writes w user msgid data len d Hs Hd Hl) as (Hpl & Hc & fd & E).
    destruct (link_write _ w b fd Hs Hw Hu Hpl) as (l' & Ew & Hw' & Est & Hu'). rewrite Ew in E. cbn [mbind option_bind] in E.
    rewrite neg_or_packet in E. eexists [], _, [_]. split; [exact E|]. rewrite app_nil_r. split; [|split; [done|intros _; by repeat constructor]].
    apply (link_rel_write sent ps w n _ b l' JMY_CONN_STATE_CONNECTED _ Hr Hs Hw' Est Hu' _ (active_close_start_ (w_conn w))); [auto| |done..| |].
    + exact (set_close_start_id (w_conn (set_conn (c_set_buffer (Some (cb_set_send_list l' b))) w)) _ Hs).
    + simpl. rewrite (lr_state _ _ _ _ Hr). by rewrite Hs.
    + rewrite link_packets_snoc, fmap_app by done. f_equal. by rewrite decide_True.
  - injection Hn as <- <-. apply simulates_nothing; [done|].
    destruct user; cbn [link_exec]; [unfold send_user|unfold send]; by rewrite bool_decide_eq_false_2.
Qed.

Lemma simulates_close sent ps w n now r raised n' :
  link_rel sent ps w n -> net_exec (lk_close now) n = Some (r, raised, n') ->
  simulates sent ps w (lk_close now) r raised n'.
Proof using Hgarbage.
  intros Hr Hn. cbn [net_exec] in Hn. unfold nt_close in Hn. rewrite (lr_state _ _ _ _ Hr) in Hn.
  cbn [mbind option_bind] in Hn. injection Hn as <- <- <-.
  destruct (decide (state w = JMY_CONN_STATE_CONNECTED)) as [Hs|Hs].
  2: { apply simulates_nothing; [done|]. cbn [link_exec]. unfold close. by rewrite bool_decide_eq_false_2. }
  unfold simulates. cbn [link_exec]. unfold close. rewrite bool_decide_eq_true_2 by done. simpl negb. cbv iota.
  destruct (lr_buffer _ _ _ _ Hr) as [b Hu]. pose proof (lr_stream _ _ _ _ Hr) as Hst.
  unfold link_stream in Hst. rewrite Hs, as_connected_id in Hst by done. destruct Hst as (Hw & _ & _).
  destruct (link_write pk_disconnect w b (fun s => writeDisconnect s) Hs Hw Hu) as (l' & E & Hw' & Est & Hu'); [done|].
  unfold sendDisconnect.
  change (@writeDisconnect _ (list_SendBuffer garbage)) with (fun l => @write_packet _ (list_SendBuffer garbage) l pk_disconnect).
  rewrite E. cbn [mbind option_bind]. unfold neg_or. cbn [fst snd].
  rewrite (proj2 (Z.ltb_ge _ 0)) by apply packet_ret_nonneg. cbn [mbind option_bind].
  eexists [], _, [pk_disconnect]. split; [done|]. split; [|done]. rewrite app_nil_r.
  apply (link_rel_write sent ps w n pk_disconnect b l' JMY_CONN_STATE_DISCONNECTING _ Hr Hs Hw' Est Hu' _ now); auto; try done.
  - unfold nt_set. simpl. by rewrite lookup_insert_eq.
  - simpl. by rewrite app_nil_r.
Qed.

(** The peer's disconnect packet is acknowledged; [Net] does not see it. *)
Lemma simulates_peer_closes sent ps w n :
  link_rel sent ps w n -> simulates sent ps w lk_peer_closes 0 false n.
Proof using Hgarbage.
  intros Hr. destruct (lr_buffer _ _ _ _ Hr) as [b Hu].
  destruct (decide (state w = JMY_CONN_STATE_DISCONNECTING)) as [Hd|Hd].
  { apply simulates_nothing; [done|]. cbn [link_exec]. unfold conn_on_disconnect. by rewrite bool_decide_eq_true_2. }
  unfold simulates. cbn [link_exec]. unfold conn_on_disconnect. rewrite bool_decide_eq_false_2 by done. pose proof (lr_stream _ _ _ _ Hr) as Hst.
  unfold sendDisconnectAck. unfold link_stream in Hst.
  change (@writeDisconnectAck _ (list_SendBuffer garbage)) with (fun l => @write_packet _ (list_SendBuffer garbage) l pk_disconnect_ack). destruct (state w) eqn:Hs; try done.
  - rewrite as_connected_id in Hst by done. destruct Hst as (Hw & _ & _).
    destruct (link_write pk_disconnect_ack w b (fun s => writeDisconnectAck s) Hs Hw Hu) as (l' & E & Hw' & Est & Hu'); [done|].
    rewrite E. cbn [mbind option_bind]. unfold neg_or. cbn [fst snd].
    rewrite (proj2 (Z.ltb_ge _ 0)) by apply packet_ret_nonneg.
    eexists [], _, [pk_disconnect_ack]. split; [done|]. split; [|done]. rewrite app_nil_r.
    apply (link_rel_write sent ps w n pk_disconnect_ack b l' JMY_CONN_STATE_CONNECTED _ Hr Hs Hw' Est Hu' _
      (active_close_start_ (w_conn w))); auto; try done.
    + exact (set_close_start_id (w_conn (set_conn (c_set_buffer (Some (cb_set_send_list l' b))) w)) _ Hs).
    + rewrite (lr_state _ _ _ _ Hr). by rewrite Hs.
    + simpl. by rewrite app_nil_r.
  - unfold on_send_buffer. rewrite (ul_buffer _ _ Hu), (lr_data _ _ _ _ Hr).
    cbn [mbind option_bind ub_unless]. rewrite (ul_list _ _ Hu). simpl negb. cbv iota.
    destruct (@write_packet_appends _ (list_SendBuffer garbage) (list_SendBufferLaws garbage Hgarbage)
      (send_buff_list b) pk_disconnect_ack (ul_ok _ _ Hu)) as (l' & E & Hok & _); [done|].
    pose proof (list_write_extends _ _ _ _ _ E) as Hex. rewrite E. cbn [mbind option_bind].
    eexists [], (set_conn (c_set_buffer (Some (cb_set_send_list l' b))) w), [].
    split; [unfold neg_or; by destruct (_ <? 0)|]. split; [|done]. rewrite !app_nil_r. destruct Hr. constructor; try done.
    + exists (cb_set_send_list l' b). by apply (unlimited_extends w).
    + unfold link_stream.
      change (state (set_conn (c_set_buffer (Some (cb_set_send_list l' b))) w)) with (state w). by rewrite Hs.
Qed.

Lemma closed_world_unlimited w b :
  unlimited w b -> exists b', unlimited (closed_world w) b' /\ send_buff_list b' = bl_clear (send_buff_list b).
Proof using.
  intros [Hb Hl E1 E2 Hok]. unfold closed_world, clear_buffer, sock_close. simpl. rewrite Hb. unfold cb_clear.
  destruct (db_clear _ _) as [P sb]. eexists. split; [constructor; simpl; [done|done|done|done|]|done].
  exists (mkPQ [] 0 0 0 0). constructor; simpl; try done; rewrite ?E1, ?E2; lia.
Qed.

Lemma simulates_force_close sent ps w n reason r raised n' :
  link_rel sent ps w n -> net_exec (lk_force_close reason) n = Some (r, raised, n') ->
  simulates sent ps w (lk_force_close reason) r raised n'.
Proof using Hevents.
  intros Hr Hn. cbn [net_exec] in Hn. unfold nt_force_close in Hn. rewrite (lr_state _ _ _ _ Hr) in Hn.
  cbn [mbind option_bind] in Hn.
  destruct (decide (state w = JMY_CONN_STATE_DISCONNECTED)) as [Hs|Hs]; injection Hn as <- <- <-.
  { apply simulates_nothing; [done|]. cbn [link_exec]. by rewrite (force_close_closed events mgr reason w Hs). }
  unfold simulates. cbn [link_exec]. rewrite (force_close_eq events mgr effect Hevents reason w (lr_events _ _ _ _ Hr) Hs). cbn [mbind option_bind].
  destruct (closed_world_frame w) as (F1 & F2 & F3 & F4 & F5 & F6 & F7 & F8 & _).
  destruct (lr_buffer _ _ _ _ Hr) as [b Hu]. destruct (closed_world_unlimited _ _ Hu) as (b' & Hu' & _).
  pose proof (lr_stream _ _ _ _ Hr) as Hst.
  assert (Fs : state (closed_world w) = JMY_CONN_STATE_DISCONNECTED) by done.
  set (v := closed_world w) in *. clearbody v.
  eexists [], _, []. split; [done|]. rewrite !app_nil_r.
  split; [|unfold raises, event_of; simpl; by rewrite (lr_id _ _ _ _ Hr)].
  destruct Hr as [_ Hid He Hd _ Hps _]. constructor; simpl; [|congruence|congruence|congruence| | |].
  - unfold state in *. simpl. by rewrite lookup_insert_eq, Fs.
  - exists b'. by destruct Hu'.
  - exact Hps.
  - unfold link_stream in *. unfold state in *. simpl. rewrite Fs. split; [done|].
    destruct (state_ (w_conn w)); try done; destruct Hst as (_ & _ & <-); by apply prefix_app_r.
Qed.

(** What the steps of the sending side leave alone. *)
Definition link_frame (w w' : W) : Prop :=
  state w' = state w /\ c_id (w_conn w') = c_id (w_conn w) /\ event_handler_ (w_conn w') = event_handler_ (w_conn w) /\
  data_handler_ (w_conn w') = data_handler_ (w_conn w) /\ sk_open (w_sock w') = sk_open (w_sock w) /\ w_app w' = w_app w.

(** The stream after a step below the calls. *)
Lemma link_rel_below sent ps w n w' bs :
  link_rel sent ps w n -> state w = JMY_CONN_STATE_CONNECTED \/ state w = JMY_CONN_STATE_DISCONNECTING ->
  link_frame w w' -> out_inv (as_connected w') -> bs ++ out_stream w' = out_stream w ->
  (exists b, unlimited w' b) -> link_rel (sent ++ bs) ps w' n.
Proof using.
  intros [Hn Hid He Hd _ Hps Hst] Hs (F1 & F2 & F3 & F4 & F5 & F6) Hw' E Hu.
  constructor; try congruence. unfold link_stream in *. rewrite F1, F5.
  destruct Hs as [Hs|Hs]; rewrite Hs in *; destruct Hst as (_ & Ho & Hst); by rewrite <-app_assoc, E.
Qed.

Lemma simulates_start sent ps w n : link_rel sent ps w n -> simulates sent ps w lk_start 0 false n.
Proof using Hgarbage.
  intros Hr. destruct (decide (state w = JMY_CONN_STATE_CONNECTED)) as [Hs|Hs].
  2: { apply simulates_nothing; [done|]. cbn [link_exec]. unfold start_send. by rewrite bool_decide_eq_false_2. }
  unfold simulates. cbn [link_exec].
  destruct (lr_buffer _ _ _ _ Hr) as [b Hu]. pose proof (lr_stream _ _ _ _ Hr) as Hst.
  unfold link_stream in Hst. rewrite Hs, as_connected_id in Hst by done. destruct Hst as (Hw & _ & _).
  destruct (oo_start_conserves events mgr garbage w Hw) as (bs & ps' & w' & E & Hw' & Est). cbn [out_exec] in E.
  apply bind_Some in E as ([r w1] & E & [= <- <- <-]). rewrite E. cbn [mbind option_bind].
  exists [], w1, []. rewrite (app_nil_r ps). split; [done|].
  assert (w1 = w \/ exists s, w1 = set_conn (c_set_sending true) (push_send s w)) as [-> | [s ->]].
  { unfold start_send in E. rewrite bool_decide_eq_true_2 in E by done. simpl negb in E. cbv iota in E.
    destruct (sending_data_ (w_conn w)); [injection E as _ <-; by left|].
    rewrite (ul_buffer _ _ Hu) in E. cbn [mbind option_bind] in E. destruct (_ =? 0); [injection E as _ <-; by left|].
    unfold buffer_send, buffer_list_send in E. apply bind_Some in E as (w2 & E2 & [= _ <-]). right.
    destruct (negb _); apply bind_Some in E2 as (m & _ & [= <-]); by eexists. }
  - by rewrite app_nil_r.
  - split; [|done]. apply (link_rel_below sent ps w); [done|by left|done| | |].
    + by rewrite as_connected_id.
    + simpl in Est. by rewrite app_nil_r in Est.
    + exists b. by destruct Hu.
Qed.

(** The completion of a send does not look at the state of the connection. *)
Lemma sent_as_connected w n : send_completes events mgr (Some n) (as_connected w) = as_connected <$> send_completes events mgr (Some n) w.
Proof using.
  unfold send_completes, pop_send, as_connected. simpl. destruct (sk_sends (w_sock w)) as [|[bs|bs] ss]; [done| |];
    cbn [mbind option_bind]; unfold on_sent_buffer, on_sent_list; simpl;
    (destruct (buffer_ (w_conn w)) as [b|]; [|done]); cbn [mbind option_bind].
  - destruct (0 <? n); [|done]. destruct (db_readLen _ _) as [[] s]; done.
  - destruct (bl_readLen _ _) as [r l]. destruct (_ || _); [done|]. unfold buffer_list_send. simpl.
    destruct (match bl_getReadBuff l with Some _ => _ | None => _ end); done.
Qed.

Lemma bl_readLen_limits l n :
  max_bytes_ (snd (bl_readLen l n)) = max_bytes_ l /\ max_count_ (snd (bl_readLen l n)) = max_count_ l.
Proof using.
  unfold bl_readLen. destruct (using_list_ l) as [|b bs]; [done|]. destruct (buffer_read _ _) as [[] b']; [|done].
  simpl negb. cbv iota. by destruct (buffer_is_read_out b').
Qed.

Lemma sent_frame w b bs ss n w' :
  unlimited w b -> sk_sends (w_sock w) = sd_list bs :: ss -> send_completes events mgr (Some n) w = Some w' ->
  link_frame w w' /\ exists l, buffer_ (w_conn w') = Some (cb_set_send_list l b) /\ max_bytes_ l = 0 /\ max_count_ l = 0.
Proof using.
  intros [Hb Hl E1 E2 _] Hs H. unfold send_completes, pop_send in H. rewrite Hs in H. cbn [mbind option_bind] in H.
  unfold on_sent_list in H. simpl w_conn in H. rewrite Hb in H. cbn [mbind option_bind] in H.
  pose proof (bl_readLen_limits (send_buff_list b) (u32 n)) as [L1 L2].
  destruct (bl_readLen _ _) as [r l]. simpl in L1, L2.
  assert (Hl' : max_bytes_ l = 0 /\ max_count_ l = 0) by (split; congruence).
  destruct (_ || _); [injection H as <-; split; [done|by exists l]|].
  unfold buffer_list_send in H. apply bind_Some in H as (m & _ & [= <-]). split; [done|by exists l].
Qed.

Lemma simulates_sent sent ps w n k :
  0 <= k -> link_rel sent ps w n -> simulates sent ps w (lk_sent k) 0 false n.
Proof using Hgarbage.
  intros Hk Hr. cbn [link_exec]. destruct (lr_buffer _ _ _ _ Hr) as [b Hu].
  pose proof (lr_stream _ _ _ _ Hr) as Hst. destruct (offered w) as [bs|] eqn:Ho; [|apply simulates_nothing; [done|]; cbn [link_exec]; by rewrite Ho].
  unfold simulates. cbn [link_exec]. rewrite Ho.
  destruct (decide (state w = JMY_CONN_STATE_DISCONNECTED)) as [Hd|Hd].
  { unfold link_stream in Hst. rewrite Hd in Hst. destruct Hst as (Hop & Hpre). rewrite Hop.
    unfold send_completes, pop_send. unfold offered in Ho. destruct (sk_sends (w_sock w)) as [|s ss] eqn:Hss; [done|].
    cbn [mbind option_bind]. set (w1 := set_sock _ w).
    assert (E : (match s with sd_buffer _ => on_sent_buffer events mgr None w1 | sd_list _ => on_sent_list events mgr None w1 end) = Some w1)
      by (destruct s; by apply force_close_closed).
    rewrite E. cbn [mbind option_bind]. exists [], w1, []. split; [done|]. rewrite !app_nil_r. split; [|done].
    destruct Hr as [Hn Hid He Hda _ Hps _]. constructor; try done; [by exists b; destruct Hu|]. unfold link_stream. change (state w1) with (state w). by rewrite Hd. }
  assert (Hc : state w = JMY_CONN_STATE_CONNECTED \/ state w = JMY_CONN_STATE_DISCONNECTING)
    by (unfold link_stream in Hst; destruct (state w); auto; done).
  assert (out_inv (as_connected w) /\ sk_open (w_sock w) = true) as [Hw Hop]
    by (unfold link_stream in Hst; destruct Hc as [Hc|Hc]; rewrite Hc in Hst; by destruct Hst as (? & ? & _)).
  rewrite Hop. pose proof (oo_sent_list events mgr garbage k (as_connected w) b Hw Hk (ul_buffer _ _ Hu) (ul_list _ _ Hu)) as Hx.
  unfold conserves in Hx. cbn [out_exec] in Hx. change (offered (as_connected w)) with (offered w) in Hx. rewrite Ho in Hx.
  rewrite sent_as_connected in Hx. destruct (send_completes events mgr (Some _) w) as [w'|] eqn:E;
    [|by destruct Hx as (? & ? & ? & ? & _)].
  destruct Hx as (bs' & ps' & w2 & [= <- <- <-] & Hw' & Est). cbn [mbind option_bind].
  eexists _, w', []. rewrite (app_nil_r ps). split; [done|].
  assert (exists ss, sk_sends (w_sock w) = sd_list bs :: ss) as [ss Hss].
  { destruct Hw as (_ & _ & _ & b0 & Hb0 & Hp & _). simpl in Hb0. rewrite (ul_buffer _ _ Hu) in Hb0. injection Hb0 as <-.
    unfold pending_ok in Hp. simpl in Hp. unfold offered in Ho. destruct (sk_sends (w_sock w)) as [|s [|? ?]]; [done| |done].
    rewrite (ul_list _ _ Hu) in Hp. destruct Hp as (_ & x & _ & _ & _ & -> & _). injection Ho as ->. by exists []. }
  destruct (sent_frame _ _ _ _ _ _ Hu Hss E) as (Hf & l & Hb & L1 & L2). split; [|split; [apply Hf|done]].
  apply (link_rel_below sent ps w); [done|done|done|done| |].
  - simpl in Est. rewrite app_nil_r in Est. exact Est.
  - exists (cb_set_send_list l b). constructor; try done; [by destruct Hu|].
    destruct Hw' as (_ & _ & _ & b1 & Hb1 & _ & Hm). simpl in Hb1. rewrite Hb in Hb1. injection Hb1 as <-.
    simpl in Hm. by rewrite (ul_list _ _ Hu) in Hm.
Qed.

Lemma net_step_simulated sent ps w n o r raised n' :
  link_rel sent ps w n -> link_op_ok o -> net_exec o n = Some (r, raised, n') -> simulates sent ps w o r raised n'.
Proof using Hgarbage Hevents.
  intros Hr Ho Hn. destruct o; eauto using simulates_send, simulates_close, simulates_force_close;
    try (injection Hn as <- <- <-); try done; auto using simulates_peer_closes, simulates_start, simulates_sent.
Qed.

Lemma raises_add k k' a : raises (k + k') a = raises k' (raises k a).
Proof using. unfold raises. by rewrite Nat.add_comm, Nat.iter_add. Qed.

Lemma net_run_simulated os sent ps w n rs k n' :
  link_rel sent ps w n -> Forall link_op_ok os -> net_run os n = Some (rs, k, n') ->
  exists bs w' qs, link_run os w = Some (bs, rs, w') /\ link_rel (sent ++ bs) (ps ++ qs) w' n' /\
    w_app w' = raises k (w_app w) /\ (Forall quiet os -> Forall carries_message qs).
Proof using Hgarbage Hevents.
  intros Hr Hos. revert sent ps w n rs k Hr.
  induction Hos as [|o os Ho Hos IH]; intros sent ps w n rs k Hr Hn; cbn [net_run] in Hn.
  - injection Hn as <- <- <-. exists [], w, []. by rewrite !app_nil_r.
  - apply bind_Some in Hn as ([[r raised] n1] & Hn1 & Hn). apply bind_Some in Hn as ([[rs' k'] n2] & Hn2 & [= <- <- <-]).
    destruct (net_step_simulated _ _ _ _ _ _ _ _ Hr Ho Hn1) as (bs & w1 & qs & E1 & Hr1 & A1 & Q1).
    destruct (IH _ _ _ _ _ _ Hr1 Hn2) as (bs' & w2 & qs' & E2 & Hr2 & A2 & Q2).
    exists (bs ++ bs'), w2, (qs ++ qs'). cbn [link_run]. rewrite E1. cbn [mbind option_bind]. rewrite E2. split; [done|].
    rewrite !app_assoc. split; [done|]. split; [by rewrite A2, A1, raises_add|].
    intros Hq. apply Forall_cons in Hq as [Hq Hqs]. apply Forall_app; auto.
Qed.

Lemma net_step_raises o n r raised n' :
  net_exec o n = Some (r, raised, n') ->
  (nt_conns n !! (mgr, c) = Some JMY_CONN_STATE_DISCONNECTED ->
   raised = false /\ nt_conns n' !! (mgr, c) = Some JMY_CONN_STATE_DISCONNECTED) /\
  (raised = true -> nt_conns n' !! (mgr, c) = Some JMY_CONN_STATE_DISCONNECTED).
Proof using.
  intros H. destruct o; cbn [net_exec] in H; try done; try (by injection H as <- <- <-).
  - apply bind_Some in H as ([r0 n0] & H & [= <- <- <-]). split; [|done]. intros E.
    unfold nt_send in H. rewrite E in H. cbn [mbind option_bind] in H. by injection H as <- <-.
  - unfold nt_close in H. destruct (nt_conns n !! (mgr, c)) as [st|] eqn:E; [|done]. cbn [mbind option_bind] in H.
    injection H as <- <- <-. split; [|done]. intros [= ->]. split; [done|exact E].
  - unfold nt_force_close in H. destruct (nt_conns n !! (mgr, c)) as [st|] eqn:E; [|done]. cbn [mbind option_bind] in H.
    destruct (decide _) as [->|]; injection H as <- <- <-; [done|]. split; [by intros [= ->]|].
    intros _. unfold nt_set. simpl. by rewrite lookup_insert_eq.
Qed.

(** A connection is disconnected at most once. *)
Lemma net_run_raises os n rs k n' :
  net_run os n = Some (rs, k, n') ->
  (k <= 1)%nat /\ (nt_conns n !! (mgr, c) = Some JMY_CONN_STATE_DISCONNECTED -> k = 0%nat).
Proof using.
  revert n rs k. induction os as [|o os IH]; intros n rs k H; cbn [net_run] in H; [by injection H as <- <- <-; auto|].
  apply bind_Some in H as ([[r raised] n1] & H1 & H). apply bind_Some in H as ([[rs' k'] n2] & H2 & [= <- <- <-]).
  destruct (IH _ _ _ H2) as [IH1 IH2]. destruct (net_step_raises _ _ _ _ _ H1) as [S1 S2].
  destruct raised; simpl.
  - rewrite IH2 by auto. split; [lia|]. intros E. by destruct (S1 E).
  - split; [done|]. intros E. apply IH2. by apply S1.
Qed.

(** ** Reads, failing sends and [run]

    What is read may close the connection; a connection that was accepted counts as connected again when it is read after it
    was closed.  A connection that was shut stays usable for the handlers: what they send is written to its list and
    reaches nobody. *)

(** The calls that the handlers make, and what [handle_recv] and [run] do besides. *)
Definition handler_call (o : link_op) : Prop :=
  match o with lk_send _ _ _ _ | lk_close _ | lk_force_close _ => True | _ => False end.
Definition inner_op (o : link_op) : Prop :=
  match o with lk_peer_closes | lk_start => True | _ => handler_call o end.
(** Data that is sent can be read, and is not longer than [Net] allows. *)
Definition op_ok (o : link_op) : Prop :=
  match o with lk_send _ _ data len => is_Some (mem_read data 0 len) /\ len <= NET_MAX_DATA | _ => link_op_ok o end.
Definition not_run (o : link_op) : Prop := match o with lk_run _ => False | _ => True end.

(** What a read, or the completion of a send, may do to the connection besides: close it, and then make it connected
    again when it is an accepted one.  The numbers count the disconnect events and the revivals. *)
Inductive net_below (ty : JmyConnType) (n : Net) : nat -> nat -> Net -> Prop :=
| nb_same : net_below ty n 0 0 n
| nb_close raised n' : nt_force_close mgr c n = Some (raised, n') -> net_below ty n (if raised then 1 else 0) 0 n'
| nb_revive k n1 n' : net_below ty n k 0 n1 -> ty = JMY_CONN_TYPE_PASSIVE ->
    nt_conns n1 !! (mgr, c) <> Some JMY_CONN_STATE_CONNECTED -> nt_revive mgr c n1 = Some n' -> net_below ty n k 1 n'.

Inductive net_step (ty : JmyConnType) : link_op -> Net -> Z -> nat -> nat -> Net -> Prop :=
| ns_exec o n r raised n' : net_exec o n = Some (r, raised, n') -> net_step ty o n r (if raised then 1 else 0) 0 n'
| ns_sent m n k n' : net_below ty n k 0 n' -> net_step ty (lk_sent m) n 0 k 0 n'
| ns_send_fails n k n' : net_below ty n k 0 n' -> net_step ty lk_send_fails n 0 k 0 n'
| ns_read res n k v n' : net_below ty n k v n' -> net_step ty (lk_read res) n 0 k v n'
| ns_run now cs n r rs k n' : Forall inner_op cs -> Forall op_ok cs -> net_run cs n = Some (rs, k, n') ->
    net_step ty (lk_run now) n r k 0 n'.

Inductive net_runs (ty : JmyConnType) : list link_op -> Net -> list Z -> nat -> nat -> Net -> Prop :=
| nr_nil n : net_runs ty [] n [] 0 0 n
| nr_cons o os n r k v n1 rs k' v' n' : net_step ty o n r k v n1 -> net_runs ty os n1 rs k' v' n' ->
    net_runs ty (o :: os) n (r :: rs) (k + k') (v + v') n'.

(** *** The disconnect event is raised once for every revival, and once more *)

Definition is_down (n : Net) : nat := if decide (nt_conns n !! (mgr, c) = Some JMY_CONN_STATE_DISCONNECTED) then 1 else 0.

Lemma is_down_yes n : nt_conns n !! (mgr, c) = Some JMY_CONN_STATE_DISCONNECTED -> is_down n = 1%nat.
Proof using. intros E. unfold is_down. by rewrite decide_True. Qed.

Lemma net_exec_down o n r raised n' : net_exec o n = Some (r, raised, n') -> ((if raised then 1 else 0) + is_down n <= is_down n')%nat.
Proof using.
  intros E. destruct (net_step_raises _ _ _ _ _ E) as [S1 S2]. unfold is_down at 1. case_decide as Hd.
  - destruct (S1 Hd) as [-> Hd']. by rewrite is_down_yes.
  - destruct raised; [by rewrite is_down_yes by auto|lia].
Qed.

Lemma net_run_down os n rs k n' : net_run os n = Some (rs, k, n') -> (k + is_down n <= is_down n')%nat.
Proof using.
  revert n rs k. induction os as [|o os IH]; intros n rs k H; cbn [net_run] in H; [by injection H as <- <- <-|].
  apply bind_Some in H as ([[r raised] n1] & H1 & H). apply bind_Some in H as ([[rs' k'] n2] & H2 & [= <- <- <-]).
  apply IH in H2. apply net_exec_down in H1. lia.
Qed.

Lemma net_below_down ty n k v n' : net_below ty n k v n' -> (k + is_down n <= v + is_down n')%nat /\ (ty = JMY_CONN_TYPE_ACTIVE -> v = 0%nat).
Proof using.
  induction 1 as [|raised n' E|k n1 n' _ [IH _] Ht Hs E]; [lia| |].
  - split; [|done]. apply (net_exec_down (lk_force_close 0) n 0). cbn [net_exec]. by rewrite E.
  - split; [|by rewrite Ht]. unfold is_down at 2 in IH. case_decide; lia.
Qed.

Lemma net_step_down ty o n r k v n' : net_step ty o n r k v n' -> (k + is_down n <= v + is_down n')%nat /\ (ty = JMY_CONN_TYPE_ACTIVE -> v = 0%nat).
Proof using.
  destruct 1 as [o n r raised n' E|m n k n' E|n k n' E|res n k v n' E|now cs n r rs k n' _ _ E]; try by eapply net_below_down.
  - apply net_exec_down in E. split; [lia|done].
  - apply net_run_down in E. split; [lia|done].
Qed.

Lemma net_runs_raises ty os n rs k v n' : net_runs ty os n rs k v n' -> (k + is_down n <= v + is_down n')%nat /\ (ty = JMY_CONN_TYPE_ACTIVE -> v = 0%nat).
Proof using.
  induction 1 as [|o os n r k v n1 rs k' v' n' H _ [IH1 IH2]]; [lia|]. apply net_step_down in H as [H1 H2].
  split; [lia|]. intros Ht. by rewrite H2, IH2.
Qed.

(** *** The kind of a connection stays *)

Definition same_ctype (w w' : W) : Prop := ctype w' = ctype w.

#[local] Instance same_ctype_preserved : ConnPreserved same_ctype.
Proof using.
  constructor; try done.
  - split; [done|]. intros w1 w2 w3 H1 H2. unfold same_ctype in *. congruence.
  - intros w w' H. apply H.
Qed.

(** *** Connections that are shut *)

Record usable (w : W) : Prop := mkUsable {
  us_events : event_handler_ (w_conn w) = true;
  us_data : data_handler_ (w_conn w) = true;
  us_buffer : exists b, unlimited w b;
}.

(** What holds of a connection whether its socket is open or not. *)
Record base_rel (sent : bytes) (ps : list packet) (w : W) (n : Net) : Prop := mkBase {
  br_state : nt_conns n !! (mgr, c) = Some (state w);
  br_kind : state w = JMY_CONN_STATE_CONNECTED \/ state w = JMY_CONN_STATE_DISCONNECTING \/
            (state w = JMY_CONN_STATE_DISCONNECTED /\ sk_open (w_sock w) = false);
  br_id : c_id (w_conn w) = c;
  br_usable : usable w;
  br_packets : filter carries_message ps = packet_of <$> link_packets mgr c n;
  br_sent : sent `prefix_of` concat (packet_bytes <$> ps);
}.

Definition shut_rel (sent : bytes) (ps : list packet) (w : W) (n : Net) : Prop :=
  base_rel sent ps w n /\ sk_open (w_sock w) = false.

(** A connection that is open, or shut. *)
Definition net_rel (sent : bytes) (ps : list packet) (w : W) (n : Net) : Prop :=
  link_rel sent ps w n \/ shut_rel sent ps w n.

Lemma link_stream_prefix sent ps w : link_stream sent ps w -> sent `prefix_of` concat (packet_bytes <$> ps).
Proof using.
  unfold link_stream. intros H. destruct (state w); try done; [| |by destruct H];
    destruct H as (_ & _ & <-); by apply prefix_app_r.
Qed.

Lemma link_rel_base sent ps w n : link_rel sent ps w n -> base_rel sent ps w n.
Proof using.
  intros [Hn Hid He Hd Hb Hps Hst]. constructor; try done; [|by eapply link_stream_prefix].
  unfold link_stream in Hst. destruct (state w); try done; auto. destruct Hst; auto.
Qed.

Lemma net_rel_base sent ps w n : net_rel sent ps w n -> base_rel sent ps w n.
Proof using. intros [H|[H _]]; [by apply link_rel_base|done]. Qed.

Lemma net_rel_lost sent ps w n : net_rel sent ps w n -> state w = JMY_CONN_STATE_DISCONNECTED -> shut_rel sent ps w n.
Proof using.
  intros Hr Hs. pose proof (net_rel_base _ _ _ _ Hr) as Hb. split; [done|]. destruct (br_kind _ _ _ _ Hb) as [E|[E|[_ E]]]; congruence.
Qed.

Lemma base_rel_sock f w sent ps n : (forall s, sk_open (f s) = sk_open s) -> base_rel sent ps w n -> base_rel sent ps (set_sock f w) n.
Proof using.
  intros Hf [Hn Hk Hid [He Hd [b Hu]] Hps Hst]. constructor; try done.
  - simpl. by rewrite Hf.
  - constructor; try done. exists b. by destruct Hu.
Qed.

(** *** The calls *)

(** The disconnect events the application has seen for this connection; ticks are others. *)
Variable count : App -> nat.
Hypothesis Hcount : forall a, count (effect JMY_EVENT_DISCONNECT (mkJmyEventInfo JMY_EVENT_DISCONNECT c mgr 0) a) = S (count a).
Hypothesis Htick : forall id l a, count (effect JMY_EVENT_TICK (mkJmyEventInfo JMY_EVENT_TICK id mgr l) a) = count a.

Lemma count_raises k a : count (raises k a) = (k + count a)%nat.
Proof using Hcount. induction k as [|k IH]; [done|]. unfold raises in *. simpl. by rewrite Hcount, IH. Qed.

(** A call: the result, and the packets written. *)
Definition call_follows (sent : bytes) (ps : list packet) (w : W) (o : link_op) (n : Net) : Prop :=
  exists r raised n' w' qs, net_exec o n = Some (r, raised, n') /\ link_exec o w = Some ([], r, w') /\
    net_rel sent (ps ++ qs) w' n' /\ count (w_app w') = ((if raised then 1 else 0) + count (w_app w))%nat.

Lemma simulates_call sent ps w o r raised n n' :
  net_exec o n = Some (r, raised, n') -> (forall bs w', link_exec o w = Some (bs, r, w') -> bs = []) ->
  simulates sent ps w o r raised n' -> call_follows sent ps w o n.
Proof using Hcount.
  intros En Hb (bs & w' & qs & E & Hr & Ha & _). assert (bs = []) as -> by by eapply Hb.
  exists r, raised, n', w', qs. split; [done|]. split; [done|]. rewrite app_nil_r in Hr. split; [by left|].
  by rewrite Ha, count_raises.
Qed.

Lemma call_no_bytes o w bs r w' : inner_op o -> link_exec o w = Some (bs, r, w') -> bs = [].
Proof using.
  destruct o as [[u|] m d len|t|reason| | | | | |]; try done; intros _ E; cbn [link_exec] in E;
    try apply bind_Some in E as ([? ?] & _ & E); try apply bind_Some in E as (? & _ & E); by injection E as <- _ _.
Qed.

Lemma open_call_follows sent ps w o n : link_rel sent ps w n -> inner_op o -> op_ok o -> call_follows sent ps w o n.
Proof using Hgarbage Hevents Hcount.
  intros Hr Hi Ho. assert (exists r raised n', net_exec o n = Some (r, raised, n')) as (r & raised & n' & E).
  { destruct o; try done; cbn [net_exec]; unfold nt_send, nt_close, nt_force_close; rewrite ?(lr_state _ _ _ _ Hr); cbn [mbind option_bind]; eauto.
    - destruct Ho as [[d Hd] Hl]. destruct (decide _); [|cbn; eauto]. rewrite (proj2 (Z.leb_le _ _)) by done. cbn [ub_unless mbind option_bind].
      rewrite Hd. cbn. eauto.
    - destruct (decide _); cbn; eauto. }

  eapply simulates_call; [exact E|intros bs w'; by apply call_no_bytes|].
  apply (net_step_simulated _ _ _ n); [done| |done]. by destruct o.
Qed.

(** *** ... on a connection that is shut *)

Lemma usable_write p w b fd : unlimited w b -> data_handler_ (w_conn w) = true -> lenZ (packet_bytes p) < 2 ^ 16 ->
  exists l', on_send_buffer fd (fun l => @write_packet _ (list_SendBuffer garbage) l p) w =
      Some (packet_ret p, set_conn (c_set_buffer (Some (cb_set_send_list l' b))) w) /\
    unlimited (set_conn (c_set_buffer (Some (cb_set_send_list l' b))) w) (cb_set_send_list l' b).
Proof using Hgarbage.
  intros Hu Hd Hl. unfold on_send_buffer. rewrite (ul_buffer _ _ Hu), Hd. cbn [mbind option_bind ub_unless].
  rewrite (ul_list _ _ Hu). cbn [negb].
  destruct (@write_packet_appends _ (list_SendBuffer garbage) (list_SendBufferLaws garbage Hgarbage)
    (send_buff_list b) p (ul_ok _ _ Hu) Hl) as (l' & E & Hok & _).
  pose proof (list_write_extends _ _ _ _ _ E) as Hex. exists l'. rewrite E. cbn [mbind option_bind].
  change (sbuf_accepts (send_buff_list b) (lenZ (packet_bytes p))) with (bl_accepts (send_buff_list b) (lenZ (packet_bytes p))).
  rewrite (unlimited_accepts _ _ _ Hu). split; [done|]. by apply (unlimited_extends w).
Qed.

(** The packet [p] is written; the state may be set. *)
Lemma shut_rel_write sent ps w n p b l' st t n' :
  shut_rel sent ps w n -> unlimited (set_conn (c_set_buffer (Some (cb_set_send_list l' b))) w) (cb_set_send_list l' b) ->
  st = JMY_CONN_STATE_CONNECTED \/ st = JMY_CONN_STATE_DISCONNECTING \/ st = JMY_CONN_STATE_DISCONNECTED ->
  nt_conns n' !! (mgr, c) = Some st ->
  packet_of <$> link_packets mgr c n' = (packet_of <$> link_packets mgr c n) ++ (if decide (carries_message p) then [p] else []) ->
  shut_rel sent (ps ++ [p])
    (set_conn (c_set_state st) (set_conn (c_set_close_start t) (set_conn (c_set_buffer (Some (cb_set_send_list l' b))) w))) n'.
Proof using.
  intros [[Hn Hk Hid [He Hd _] Hps Hst] Hop] Hu Hs Hn' Hp. split; [|done]. constructor; try done.
  - destruct Hs as [->|[->| ->]]; auto.
  - constructor; try done. exists (cb_set_send_list l' b). by destruct Hu.
  - rewrite filter_app, Hp, Hps, filter_cons, filter_nil. by destruct (decide _).
  - rewrite fmap_app, concat_app. etrans; [exact Hst|by apply prefix_app_r].
Qed.

Lemma set_state_same w b t st : state w = st -> t = active_close_start_ (w_conn w) ->
  set_conn (c_set_state st) (set_conn (c_set_close_start t) (set_conn (c_set_buffer b) w)) = set_conn (c_set_buffer b) w.
Proof using. intros <- ->. by destruct w as [[] ? ? ? ? ?]. Qed.

Lemma shut_follows sent ps w o n r w' qs n' : net_exec o n = Some (r, false, n') -> link_exec o w = Some ([], r, w') ->
  shut_rel sent (ps ++ qs) w' n' -> w_app w' = w_app w -> call_follows sent ps w o n.
Proof using. intros En E Hr Ha. exists r, false, n', w', qs. split; [done|]. split; [done|]. split; [by right|]. by rewrite Ha. Qed.

Lemma shut_nothing sent ps w o n r : net_exec o n = Some (r, false, n) -> link_exec o w = Some ([], r, w) ->
  shut_rel sent ps w n -> call_follows sent ps w o n.
Proof using. intros En E Hr. eapply (shut_follows _ _ _ _ _ _ _ []); [done..| |done]. by rewrite app_nil_r. Qed.

Lemma shut_send sent ps w n user msgid data len :
  shut_rel sent ps w n -> op_ok (lk_send user msgid data len) -> call_follows sent ps w (lk_send user msgid data len) n.
Proof using Hgarbage.
  intros Hr [[d Hd] Hl]. destruct Hr as [Hb Hop]. destruct (decide (state w = JMY_CONN_STATE_CONNECTED)) as [Hs|Hs].
  2: { apply (shut_nothing _ _ _ _ _ (-1)); [| |done].
       - cbn [net_exec]. unfold nt_send. rewrite (br_state _ _ _ _ Hb). cbn [mbind option_bind]. by rewrite decide_False.
       - destruct user; cbn [link_exec]; [unfold send_user|unfold send]; by rewrite bool_decide_eq_false_2. }
  destruct (br_usable _ _ _ _ Hb) as [_ Hdh [b Hu]]. destruct (send_writes w user msgid data len d Hs Hd Hl) as (Hpl & Hc & fd & E).
  destruct (usable_write _ w b fd Hu Hdh Hpl) as (l' & Ew & Hu'). rewrite Ew in E. cbn [mbind option_bind] in E. rewrite neg_or_packet in E.
  eapply shut_follows; [|exact E| |done].
  - cbn [net_exec]. unfold nt_send. rewrite (br_state _ _ _ _ Hb). cbn [mbind option_bind]. rewrite decide_True by done.
    rewrite (proj2 (Z.leb_le _ _)) by done. cbn [ub_unless mbind option_bind]. rewrite Hd. done.
  - cbn [snd]. rewrite <- (set_state_same w _ _ _ Hs eq_refl). apply (shut_rel_write sent ps w n); [done|exact Hu'|auto| |].
    + simpl. rewrite (br_state _ _ _ _ Hb). by rewrite Hs.
    + rewrite link_packets_snoc, fmap_app by done. f_equal. by rewrite decide_True.
Qed.

Lemma shut_close sent ps w n now : shut_rel sent ps w n -> call_follows sent ps w (lk_close now) n.
Proof using Hgarbage.
  intros [Hb Hop]. destruct (decide (state w = JMY_CONN_STATE_CONNECTED)) as [Hs|Hs].
  2: { apply (shut_nothing _ _ _ _ _ 0); [| |done].
       - cbn [net_exec]. unfold nt_close. rewrite (br_state _ _ _ _ Hb). cbn [mbind option_bind]. by rewrite decide_False.
       - cbn [link_exec]. unfold close. by rewrite bool_decide_eq_false_2. }
  destruct (br_usable _ _ _ _ Hb) as [_ Hdh [b Hu]].
  destruct (usable_write pk_disconnect w b (fun s => writeDisconnect s) Hu Hdh) as (l' & Ew & Hu'); [done|].
  eapply (shut_follows _ _ _ _ _ 0 _ [pk_disconnect]).
  - cbn [net_exec]. unfold nt_close. rewrite (br_state _ _ _ _ Hb). cbn [mbind option_bind]. by rewrite decide_True.
  - cbn [link_exec]. unfold close, sendDisconnect. rewrite bool_decide_eq_true_2 by done. cbn [negb].
    change (@writeDisconnect _ (list_SendBuffer garbage)) with (fun l => @write_packet _ (list_SendBuffer garbage) l pk_disconnect).
    rewrite Ew. cbn [mbind option_bind]. rewrite neg_or_packet. reflexivity.
  - apply (shut_rel_write sent ps w n); [done|exact Hu'|auto| |].
    + unfold nt_set. simpl. by rewrite lookup_insert_eq.
    + rewrite decide_False by (intros []). by rewrite app_nil_r.
  - done.
Qed.

Lemma shut_peer_closes sent ps w n : shut_rel sent ps w n -> call_follows sent ps w lk_peer_closes n.
Proof using Hgarbage.
  intros [Hb Hop]. destruct (decide (state w = JMY_CONN_STATE_DISCONNECTING)) as [Hs|Hs].
  { apply (shut_nothing _ _ _ _ _ 0); [done| |done]. cbn [link_exec]. unfold conn_on_disconnect. by rewrite bool_decide_eq_true_2. }
  destruct (br_usable _ _ _ _ Hb) as [_ Hdh [b Hu]].
  destruct (usable_write pk_disconnect_ack w b (fun s => writeDisconnectAck s) Hu Hdh) as (l' & Ew & Hu'); [done|].
  eapply (shut_follows _ _ _ _ _ 0 _ [pk_disconnect_ack]).
  - done.
  - cbn [link_exec]. unfold conn_on_disconnect, sendDisconnectAck. rewrite bool_decide_eq_false_2 by done.
    change (@writeDisconnectAck _ (list_SendBuffer garbage)) with (fun l => @write_packet _ (list_SendBuffer garbage) l pk_disconnect_ack).
    rewrite Ew. cbn [mbind option_bind]. rewrite neg_or_packet. reflexivity.
  - cbn [snd]. rewrite <- (set_state_same w _ _ _ eq_refl eq_refl). apply (shut_rel_write sent ps w n); [done|exact Hu'| |by rewrite (br_state _ _ _ _ Hb)|].
    + destruct (br_kind _ _ _ _ Hb) as [?|[?|[? _]]]; auto.
    + rewrite decide_False by (intros []). by rewrite app_nil_r.
  - done.
Qed.

Lemma usable_list_send w b : unlimited w b -> exists bs, buffer_list_send b w = Some (push_send (sd_list bs) w).
Proof using.
  intros Hu. destruct (ul_ok _ _ Hu) as [q Hq]. pose proof (bl_front_refines _ _ Hq) as Hf. unfold buffer_list_send.
  destruct (pq_packets q) as [|p ps]; destruct Hf as [-> ->].
  - by exists [].
  - rewrite mem_read_all. by exists p.
Qed.

Lemma shut_start sent ps w n : shut_rel sent ps w n -> call_follows sent ps w lk_start n.
Proof using.
  intros [Hb Hop]. destruct (br_usable _ _ _ _ Hb) as [He Hdh [b Hu]].
  assert (exists r w', start_send w = Some (r, w') /\ (w' = w \/ exists bs, w' = set_conn (c_set_sending true) (push_send (sd_list bs) w)))
    as (r & w' & E & Hw).
  { unfold start_send. destruct (negb _); [by eauto|]. destruct (sending_data_ _); [by eauto|]. rewrite (ul_buffer _ _ Hu).
    cbn [mbind option_bind]. rewrite (ul_list _ _ Hu). destruct (_ =? 0); [by eauto|]. cbn [negb].
    destruct (usable_list_send w b Hu) as [bs ->]. cbn [mbind option_bind]. eexists _, _. split; [done|]. right. by eexists. }
  assert (El : link_exec lk_start w = Some ([], 0, w')) by (cbn [link_exec]; by rewrite E).
  destruct Hw as [->|[bs ->]]; [by apply (shut_nothing _ _ _ _ _ 0)|]. apply (shut_follows _ _ _ lk_start _ 0 _ [] n eq_refl El); [|done].
  rewrite app_nil_r. split; [|done]. destruct Hb as [Hn Hk Hid _ Hps Hst]. constructor; try done. constructor; try done. exists b. by destruct Hu.
Qed.

(** Closing by force, whether the socket is open or not. *)
Lemma base_force_close reason sent ps w n : base_rel sent ps w n ->
  exists raised n' w', nt_force_close mgr c n = Some (raised, n') /\ force_close events mgr reason w = Some w' /\
    shut_rel sent ps w' n' /\ count (w_app w') = ((if raised then 1 else 0) + count (w_app w))%nat.
Proof using Hevents Hcount.
  intros Hb. unfold nt_force_close. rewrite (br_state _ _ _ _ Hb). cbn [mbind option_bind].
  destruct (decide (state w = JMY_CONN_STATE_DISCONNECTED)) as [Hs|Hs].
  { exists false, n, w. split; [done|]. split; [by apply force_close_closed|]. split; [|done]. split; [done|].
    destruct (br_kind _ _ _ _ Hb) as [E|[E|[_ E]]]; congruence. }
  destruct Hb as [Hn Hk Hid [He Hd [b Hu]] Hps Hst]. destruct (closed_world_unlimited _ _ Hu) as (b' & Hu' & _).
  destruct (closed_world_frame w) as (F1 & F2 & F3 & F4 & F5 & F6 & F7 & F8 & _).
  assert (Fs : state (closed_world w) = JMY_CONN_STATE_DISCONNECTED) by done.
  eexists true, _, _. split; [done|]. rewrite (force_close_eq events mgr effect Hevents reason w He Hs). split; [done|].
  set (v := closed_world w) in *. clearbody v. split.
  - split; [|exact F7]. constructor; simpl; [| |congruence| |exact Hps|exact Hst].
    + unfold state in *. simpl. by rewrite lookup_insert_eq, Fs.
    + right. right. split; [exact Fs|exact F7].
    + constructor; simpl; [congruence|congruence|]. exists b'. by destruct Hu'.
  - cbn [set_app w_app]. unfold event_of. by rewrite Hid, Hcount.
Qed.

(** The calls of the handlers do what [Net] says, also on a connection that is shut. *)
Lemma inner_op_follows sent ps w o n : net_rel sent ps w n -> inner_op o -> op_ok o -> call_follows sent ps w o n.
Proof using Hgarbage Hevents Hcount.
  intros [Hr|Hr] Hi Ho; [by apply open_call_follows|].
  destruct o as [user msgid data len|now|reason| | | | | |]; try done.
  - by apply shut_send.
  - by apply shut_close.
  - destruct (base_force_close reason sent ps w n (proj1 Hr)) as (raised & n' & w' & En & E & Hr' & Ha).
    exists 0, raised, n', w', []. cbn [net_exec link_exec]. rewrite En, E, app_nil_r. split; [done|]. split; [done|]. split; [by right|done].
  - by apply shut_peer_closes.
  - by apply shut_start.
Qed.

(** *** What goes on below *)

Definition step_follows (sent : bytes) (ps : list packet) (w : W) (o : link_op) (n : Net) : Prop :=
  exists bs r w' qs k v n', link_exec o w = Some (bs, r, w') /\ net_step (ctype w) o n r k v n' /\
    net_rel (sent ++ bs) (ps ++ qs) w' n' /\ count (w_app w') = (k + count (w_app w))%nat.

Lemma send_fails_base sent ps w n sd ss : base_rel sent ps w n -> sk_sends (w_sock w) = sd :: ss ->
  exists raised n' w', nt_force_close mgr c n = Some (raised, n') /\ send_completes events mgr None w = Some w' /\
    shut_rel sent ps w' n' /\ count (w_app w') = ((if raised then 1 else 0) + count (w_app w))%nat.
Proof using Hevents Hcount.
  intros Hb Hs. unfold send_completes, pop_send. rewrite Hs. cbn [mbind option_bind].
  assert (E : (match sd with sd_buffer _ => on_sent_buffer events mgr None (set_sock (fun k => mkSock (sk_open k) (sk_connecting k) (sk_reads k) ss) w)
               | sd_list _ => on_sent_list events mgr None (set_sock (fun k => mkSock (sk_open k) (sk_connecting k) (sk_reads k) ss) w) end) =
    force_close events mgr CONN_CLOSE_REASON_WRITE_DATA_FAILED (set_sock (fun k => mkSock (sk_open k) (sk_connecting k) (sk_reads k) ss) w))
    by by destruct sd.
  rewrite E. apply (base_force_close _ sent ps (set_sock _ w) n). by apply base_rel_sock.
Qed.

Lemma offered_sends w bs : offered w = Some bs -> exists sd ss, sk_sends (w_sock w) = sd :: ss.
Proof using. unfold offered. destruct (sk_sends (w_sock w)); [done|]. eauto. Qed.

Lemma sent_follows sent ps w n k : 0 <= k -> net_rel sent ps w n -> step_follows sent ps w (lk_sent k) n.
Proof using Hgarbage Hevents Hcount.
  intros Hk Hr. destruct (sk_open (w_sock w)) eqn:Hop.
  - destruct Hr as [Hr|[_ Hop']]; [|congruence]. destruct (simulates_sent sent ps w n k Hk Hr) as (bs & w' & qs & E & Hr' & Ha & _).
    exists bs, 0, w', qs, 0%nat, 0%nat, n. split; [done|]. split; [by apply ns_sent, nb_same|]. split; [by left|]. by rewrite Ha.
  - cbn [step_follows]. unfold step_follows. cbn [link_exec]. destruct (offered w) as [bs|] eqn:Ho.
    + destruct (offered_sends _ _ Ho) as (sd & ss & Hs). rewrite Hop.
      destruct (send_fails_base sent ps w n sd ss (net_rel_base _ _ _ _ Hr) Hs) as (raised & n' & w' & En & E & Hr' & Ha).
      rewrite E. cbn [mbind option_bind]. eexists [], 0, w', [], _, 0%nat, n'. split; [done|]. split; [by apply ns_sent, nb_close|].
      rewrite !app_nil_r. split; [by right|exact Ha].
    + exists [], 0, w, [], 0%nat, 0%nat, n. rewrite !app_nil_r. split; [done|]. split; [by apply ns_sent, nb_same|done].
Qed.

Lemma send_fails_follows sent ps w n : net_rel sent ps w n -> step_follows sent ps w lk_send_fails n.
Proof using Hevents Hcount.
  intros Hr. unfold step_follows. cbn [link_exec]. destruct (offered w) as [bs|] eqn:Ho.
  - destruct (offered_sends _ _ Ho) as (sd & ss & Hs).
    destruct (send_fails_base sent ps w n sd ss (net_rel_base _ _ _ _ Hr) Hs) as (raised & n' & w' & En & E & Hr' & Ha).
    rewrite E. cbn [mbind option_bind]. eexists [], 0, w', [], _, 0%nat, n'. split; [done|]. split; [by apply ns_send_fails, nb_close|].
    rewrite !app_nil_r. split; [by right|exact Ha].
  - exists [], 0, w, [], 0%nat, 0%nat, n. rewrite !app_nil_r. split; [done|]. split; [by apply ns_send_fails, nb_same|done].
Qed.

(** *** Reads *)

(** [w'] differs from [w] at most in what the sending side does not look at. *)
Record send_side_same (w w' : W) : Prop := mkSendSame {
  ss_state : state w' = state w;
  ss_type : ctype w' = ctype w;
  ss_id : c_id (w_conn w') = c_id (w_conn w);
  ss_handlers : event_handler_ (w_conn w') = event_handler_ (w_conn w) /\ data_handler_ (w_conn w') = data_handler_ (w_conn w);
  ss_sending : sending_data_ (w_conn w') = sending_data_ (w_conn w) /\ buff_send_count_ (w_conn w') = buff_send_count_ (w_conn w);
  ss_buffer : exists l, buffer_ (w_conn w') = cb_set_recv_list l <$> buffer_ (w_conn w);
  ss_sock : sk_open (w_sock w') = sk_open (w_sock w) /\ sk_sends (w_sock w') = sk_sends (w_sock w);
  ss_heap : w_heap w' = w_heap w;
  ss_count : count (w_app w') = count (w_app w);
}.

Lemma same_unlimited w w' b : send_side_same w w' -> unlimited w b -> exists b', unlimited w' b'.
Proof using.
  intros H [Hb Hl E1 E2 Hok]. destruct (ss_buffer _ _ H) as [l E]. rewrite Hb in E. exists (cb_set_recv_list l b). by constructor.
Qed.

Lemma same_usable w w' : send_side_same w w' -> usable w -> usable w'.
Proof using.
  intros H [He Hd [b Hu]]. destruct (ss_handlers _ _ H) as [E1 E2]. constructor; [congruence|congruence|]. by eapply same_unlimited.
Qed.

Lemma same_out_inv w w' : send_side_same w w' -> out_inv (as_connected w) -> out_inv (as_connected w').
Proof using.
  intros H (_ & Hd & Hc & b & Hb & Hp & Hm). destruct (ss_handlers _ _ H) as [_ E2], (ss_sending _ _ H) as [E3 E4], (ss_sock _ _ H) as [_ E5].
  destruct (ss_buffer _ _ H) as [l E]. simpl in *. rewrite Hb in E. split; [done|]. split; [simpl; congruence|]. split; [simpl; by rewrite E4|].
  exists (cb_set_recv_list l b). split; [done|]. simpl. rewrite (ss_heap _ _ H). split; [|done].
  unfold pending_ok in *. simpl in *. by rewrite E5, E3, (ss_heap _ _ H).
Qed.

Lemma same_out_stream w w' : send_side_same w w' -> out_stream w' = out_stream w.
Proof using.
  intros H. unfold out_stream. destruct (ss_buffer _ _ H) as [l ->]. rewrite (ss_heap _ _ H). by destruct (buffer_ (w_conn w)).
Qed.

Lemma same_net_rel sent ps w w' n : send_side_same w w' -> net_rel sent ps w n -> net_rel sent ps w' n.
Proof using.
  intros H Hr. destruct (ss_sock _ _ H) as [Eo _]. pose proof (net_rel_base _ _ _ _ Hr) as Hb.
  pose proof (same_usable _ _ H (br_usable _ _ _ _ Hb)) as Hu. destruct Hr as [[Hn Hid He Hd _ Hps Hst]|[[Hn Hk Hid _ Hps Hst] Hop]].
  - left. destruct Hu as [U1 U2 U3]. constructor; rewrite ?(ss_state _ _ H), ?(ss_id _ _ H); try done.
    unfold link_stream in *. rewrite (ss_state _ _ H), Eo, (same_out_stream _ _ H).
    destruct (state w); try done; destruct Hst as (Hi & Hst); (split; [by eapply same_out_inv|done]).
  - right. split; [|congruence]. constructor; rewrite ?(ss_state _ _ H), ?(ss_id _ _ H), ?Eo; done.
Qed.

Lemma same_reads rs w : send_side_same w (set_sock (fun s => mkSock (sk_open s) (sk_connecting s) rs (sk_sends s)) w).
Proof using. constructor; try done. exists (recv_of w). unfold recv_of. simpl. destruct (buffer_ (w_conn w)) as [[]|]; done. Qed.

Lemma same_recv_list l w b : buffer_ (w_conn w) = Some b -> send_side_same w (set_conn (c_set_buffer (Some (cb_set_recv_list l b))) w).
Proof using. intros Hb. constructor; try done. exists l. by rewrite Hb. Qed.

Lemma same_set_recv l w : send_side_same w (set_recv l w).
Proof using.
  unfold set_recv. destruct (buffer_ (w_conn w)) as [b|] eqn:Hb; [by apply same_recv_list|]. constructor; try done. exists l. by rewrite Hb.
Qed.

(** Only what the application and the dispatcher keep changes. *)
Lemma same_unpack u w : send_side_same w (set_unpack u w).
Proof using. constructor; try done. exists (recv_of w). unfold recv_of. simpl. destruct (buffer_ (w_conn w)) as [[]|]; done. Qed.
Lemma same_app a w : count a = count (w_app w) -> send_side_same w (set_app a w).
Proof using. intros Ha. constructor; try done. exists (recv_of w). unfold recv_of. simpl. destruct (buffer_ (w_conn w)) as [[]|]; done. Qed.
Lemma same_tick t w : send_side_same w (set_conn (c_set_tick t) w).
Proof using. constructor; try done. exists (recv_of w). unfold recv_of. simpl. destruct (buffer_ (w_conn w)) as [[]|]; done. Qed.

(** Reading on: an accepted connection counts as connected again. *)
Lemma start_recv_follows sent ps w n k n0 ty : net_rel sent ps w n -> ctype w = ty -> net_below ty n0 k 0 n ->
  exists v n', net_rel sent ps (start_recv w) n' /\ net_below ty n0 k v n' /\ w_app (start_recv w) = w_app w.
Proof using count.
  intros Hr Ht Hk. pose proof (net_rel_base _ _ _ _ Hr) as Hb. unfold start_recv.
  destruct (_ && _); [by exists 0%nat, n|]. destruct (_ || _); [by exists 0%nat, n|].
  assert (Hp : net_rel sent ps (push_read rd_head w) n) by (eapply same_net_rel; [apply (same_reads (sk_reads (w_sock w) ++ [rd_head]))|done]).
  change (ctype (push_read rd_head w)) with (ctype w). change (state (push_read rd_head w)) with (state w).
  destruct (bool_decide (ctype w = JMY_CONN_TYPE_PASSIVE)) eqn:Htp; [|by exists 0%nat, n]. apply bool_decide_eq_true in Htp.
  destruct (bool_decide (state w = JMY_CONN_STATE_CONNECTED)) eqn:Hs; [by exists 0%nat, n|]. apply bool_decide_eq_false in Hs.
  cbn [andb negb]. exists 1%nat, (nt_set mgr c JMY_CONN_STATE_CONNECTED n).
  split; [|split; [|done]].
  2: { eapply nb_revive; [exact Hk|congruence| |]. rewrite (br_state _ _ _ _ Hb). congruence.
       unfold nt_revive. by rewrite (br_state _ _ _ _ Hb). }
  clear Hr Hb. change (state w) with (state (push_read rd_head w)) in Hs. change (set_conn _ (push_read rd_head w)) with (as_connected (push_read rd_head w)).
  set (w1 := push_read rd_head w) in *. clearbody w1. destruct Hp as [[Hn Hid He Hd [b Hu] Hps Hst]|[[Hn Hk' Hid [He Hd [b Hu]] Hps Hst] Hop]].
  - unfold link_stream in Hst. destruct (state w1) eqn:E1; try done.
    + left. constructor; try done; [unfold nt_set; simpl; by rewrite lookup_insert_eq|exists b; by destruct Hu].
    + destruct Hst as [Hop Hst]. right. split; [|done]. constructor; try done; [unfold nt_set; simpl; by rewrite lookup_insert_eq|by left|].
      constructor; try done. exists b. by destruct Hu.
  - right. split; [|done]. constructor; try done; [unfold nt_set; simpl; by rewrite lookup_insert_eq|by left|]. constructor; try done. exists b. by destruct Hu.
Qed.

Lemma packet_head tmp : lenZ tmp = 3 -> exists type len, jmy_net_proto2_get_packet_len_type tmp 3 = Some (Some (type, len)).
Proof using.
  destruct tmp as [|a [|b [|d [|e l]]]]; try (simpl; lia). intros _. eexists _, _. reflexivity.
Qed.

Definition below_follows (sent : bytes) (ps : list packet) (w : W) (n : Net) (w' : W) : Prop :=
  exists qs k v n', net_below (ctype w) n k v n' /\ net_rel sent (ps ++ qs) w' n' /\ count (w_app w') = (k + count (w_app w))%nat.

Lemma force_close_ctype reason w w' : force_close events mgr reason w = Some w' -> ctype w' = ctype w.
Proof using Hevents.
  apply (force_close_preserves same_ctype). intros i info v. by rewrite Hevents.
Qed.

Lemma below_force_close reason sent ps w n : net_rel sent ps w n ->
  exists w', force_close events mgr reason w = Some w' /\ below_follows sent ps w n w'.
Proof using Hevents Hcount.
  intros Hr. destruct (base_force_close reason sent ps w n (net_rel_base _ _ _ _ Hr)) as (raised & n' & w' & En & E & Hr' & Ha).
  exists w'. split; [done|]. eexists [], _, 0%nat, n'. split; [by apply nb_close|]. rewrite app_nil_r. split; [by right|done].
Qed.

(** What a packet's type makes the connection do. *)
Lemma packet_type_follows type sent ps w n : net_rel sent ps w n ->
  exists x w1, handle_packet_type events mgr garbage type w = Some (x, w1) /\ ctype w1 = ctype w /\
    exists qs k n1, net_below (ctype w) n k 0 n1 /\ net_rel sent (ps ++ qs) w1 n1 /\ count (w_app w1) = (k + count (w_app w))%nat.
Proof using handlers Hgarbage Hevents Hcount.
  intros Hr. assert (H0 : forall x : Z, exists y w1, Some (x, w) = Some (y, w1) /\ ctype w1 = ctype w /\
    exists qs k n1, net_below (ctype w) n k 0 n1 /\ net_rel sent (ps ++ qs) w1 n1 /\ count (w_app w1) = (k + count (w_app w))%nat).
  { intros x. exists x, w. split; [done|]. split; [done|]. exists [], 0%nat, n. rewrite app_nil_r. split; [by apply nb_same|done]. }
  unfold handle_packet_type, conn_on_heartbeat. destruct (type =? JMY_PACKET2_DISCONNECT).
  { destruct (inner_op_follows sent ps w lk_peer_closes n Hr) as (r1 & raised & n1 & w1 & qs & En & E & Hr1 & Ha); [done..|].
    cbn [net_exec] in En. injection En as <- <- <-. cbn [link_exec] in E. apply bind_Some in E as ([x w2] & E & [= <-]). rewrite E.
    cbn [mbind option_bind]. exists 0, w2. split; [done|]. split; [exact (on_disconnect_preserves same_ctype garbage w x w2 E)|].
    exists qs, 0%nat, n. split; [by apply nb_same|]. split; [done|exact Ha]. }
  destruct (type =? JMY_PACKET2_DISCONNECT_ACK).
  { unfold conn_on_disconnect_ack. destruct (bool_decide (state w = JMY_CONN_STATE_DISCONNECTING)); cbn [negb mbind option_bind]; [|apply H0].
    destruct (base_force_close CONN_CLOSE_REASON_RECV_CLOSE_EVENT sent ps w n (net_rel_base _ _ _ _ Hr)) as (raised & n1 & w1 & En & E & Hr1 & Ha).
    rewrite E. cbn [mbind option_bind]. exists 0, w1. split; [done|]. split; [by eapply force_close_ctype|]. eexists [], _, n1. rewrite app_nil_r.
    split; [by apply nb_close|]. split; [by right|exact Ha]. }
  cbn [mbind option_bind]. repeat case_match; apply H0.
Qed.

Lemma head_follows tmp sent ps w n : net_rel sent ps w n ->
  exists w', on_head events mgr garbage tmp w = Some w' /\ below_follows sent ps w n w'.
Proof using handlers Hgarbage Hevents Hcount.
  intros Hr. unfold on_head. change (JMY_PACKET2_LEN_HEAD + JMY_PACKET2_LEN_TYPE) with 3.
  destruct (Z.eqb_spec (lenZ tmp) 3) as [Hl|]; cbn [negb]; [|by apply below_force_close].
  destruct (packet_head tmp Hl) as (type & len & ->). cbn [mbind option_bind].
  destruct (packet_type_follows type sent ps w n Hr) as (x & w1 & -> & Ht1 & qs & k & n1 & Hk & Hr1 & Ha1).
  cbn [mbind option_bind]. destruct (x =? 0).
  - destruct (start_recv_follows sent (ps ++ qs) w1 n1 k n (ctype w) Hr1 Ht1 Hk) as (v & n' & Hr' & Hk' & Ea).
    eexists. split; [done|]. exists qs, k, v, n'. split; [done|]. split; [done|]. by rewrite Ea.
  - eexists. split; [done|]. exists qs, k, 0%nat, n1. split; [done|]. split; [|exact Ha1].
    eapply same_net_rel; [|exact Hr1]. apply (same_reads (sk_reads (w_sock w1) ++ [_])).
Qed.

Lemma body_follows type n0 buf sent ps w n : net_rel sent ps w n ->
  exists w', on_body events mgr type n0 buf w = Some w' /\ below_follows sent ps w n w'.
Proof using Hevents Hcount.
  intros Hr. unfold on_body. destruct (Z.eqb_spec (lenZ buf) n0) as [<-|]; cbn [negb]; [|by apply below_force_close].
  destruct (br_usable _ _ _ _ (net_rel_base _ _ _ _ Hr)) as [_ _ [b Hu]]. rewrite (ul_buffer _ _ Hu). cbn [mbind option_bind].
  assert (exists y, bl_writeParam (recv_buff_list b) (u16 type) (Some buf) (lenZ buf) = Some y) as [[y l] ->].
  { unfold bl_writeParam, buffer_init_data. destruct (lenZ buf =? 0); [by eexists|]. rewrite mem_read_all. by eexists. }
  cbn [mbind option_bind]. set (w1 := set_conn _ w). assert (Hsame : send_side_same w w1) by (apply same_recv_list, Hu).
  destruct (start_recv_follows sent ps w1 n 0 n (ctype w)) as (v & n' & Hr' & Hk' & Ea);
    [by eapply same_net_rel|done|by apply nb_same|].
  eexists. split; [done|]. exists [], 0%nat, v, n'. rewrite app_nil_r. split; [done|]. split; [done|]. by rewrite Ea.
Qed.

Lemma read_follows sent ps w n res : net_rel sent ps w n -> step_follows sent ps w (lk_read res) n.
Proof using handlers Hgarbage Hevents Hcount.
  intros Hr. unfold step_follows. cbn [link_exec]. destruct (sk_reads (w_sock w)) as [|r rs] eqn:Hs.
  { exists [], 0, w, [], 0%nat, 0%nat, n. rewrite !app_nil_r. split; [done|]. split; [by apply ns_read, nb_same|done]. }
  enough (exists w', read_completes events mgr garbage res w = Some w' /\ below_follows sent ps w n w') as (w' & -> & qs & k & v & n' & Hk & Hr' & Ha).
  { cbn [mbind option_bind]. exists [], 0, w', qs, k, v, n'. rewrite app_nil_r. split; [done|]. split; [by apply ns_read|done]. }
  unfold read_completes, pop_read. rewrite Hs. cbn [mbind option_bind].
  set (w0 := set_sock _ w). assert (Hr0 : net_rel sent ps w0 n) by (eapply same_net_rel; [apply same_reads|done]).
  change (below_follows sent ps w n) with (below_follows sent ps w0 n).
  destruct res as [tmp|]; [|by apply below_force_close]. destruct r; [by apply head_follows|by apply body_follows].
Qed.

(** *** [run]

    The message handlers reach the connection through [send], [close] and [force_close] only, with data that can be read,
    and change what the application keeps besides. *)

Inductive does : list link_op -> W -> W -> Prop :=
| does_nothing w : does [] w w
| does_own a cs w w' : count a = count (w_app w) -> does cs (set_app a w) w' -> does cs w w'
| does_call o r cs w w1 w' : handler_call o -> op_ok o -> link_exec o w = Some ([], r, w1) -> does cs w1 w' -> does (o :: cs) w w'.

Hypothesis Hhandlers : forall info w r w', usable w -> handleMsg handlers info w = (r, w') -> exists cs, does cs w w'.

(** From [w], [w'] is reached by calls that [Net] makes too. *)
Definition moves (w w' : W) : Prop := forall sent ps n, net_rel sent ps w n ->
  exists cs qs rs k n', Forall inner_op cs /\ Forall op_ok cs /\ net_run cs n = Some (rs, k, n') /\
    net_rel sent (ps ++ qs) w' n' /\ count (w_app w') = (k + count (w_app w))%nat /\ ctype w' = ctype w.

Lemma moves_same w w' : send_side_same w w' -> moves w w'.
Proof using.
  intros H sent ps n Hr. exists [], [], [], 0%nat, n. rewrite app_nil_r. split; [done|]. split; [done|]. split; [done|].
  split; [by eapply same_net_rel|]. split; apply H.
Qed.

Lemma moves_refl w : moves w w.
Proof using.
  intros sent ps n Hr. exists [], [], [], 0%nat, n. by rewrite app_nil_r.
Qed.

Lemma net_run_app cs cs' n rs k n1 rs' k' n' : net_run cs n = Some (rs, k, n1) -> net_run cs' n1 = Some (rs', k', n') ->
  net_run (cs ++ cs') n = Some (rs ++ rs', (k + k')%nat, n').
Proof using.
  revert n rs k. induction cs as [|o cs IH]; intros n rs k E E'; cbn [net_run app] in *; [by injection E as <- <- <-|].
  apply bind_Some in E as ([[r raised] n2] & -> & E). apply bind_Some in E as ([[rs1 k1] n3] & E1 & [= <- <- <-]).
  cbn [mbind option_bind]. rewrite (IH _ _ _ E1 E'). cbn [mbind option_bind app]. by rewrite Nat.add_assoc.
Qed.

Lemma moves_trans w1 w2 w3 : moves w1 w2 -> moves w2 w3 -> moves w1 w3.
Proof using.
  intros H1 H2 sent ps n Hr. destruct (H1 _ _ _ Hr) as (cs & qs & rs & k & n1 & C1 & C2 & E1 & R1 & A1 & T1).
  destruct (H2 _ _ _ R1) as (cs' & qs' & rs' & k' & n2 & D1 & D2 & E2 & R2 & A2 & T2).
  exists (cs ++ cs'), (qs ++ qs'), (rs ++ rs'), (k + k')%nat, n2. rewrite app_assoc. split; [by apply Forall_app|]. split; [by apply Forall_app|].
  split; [by eapply net_run_app|]. split; [done|]. split; [lia|congruence].
Qed.

Lemma moves_usable w w' : (usable w -> moves w w') -> moves w w'.
Proof using. intros H sent ps n Hr. apply H; [|done]. apply (br_usable _ _ _ _ (net_rel_base _ _ _ _ Hr)). Qed.

Lemma send_user_ctype u m data len w r w' : send_user garbage u m data len w = Some (r, w') -> ctype w' = ctype w.
Proof using.
  unfold send_user. destruct (negb _); [by intros [= _ ->]|]. intros E. apply bind_Some in E as ([r1 w1] & E & E1).
  assert (Hx : same_ctype w w1) by exact (on_send_buffer_preserves same_ctype _ _ _ _ _ E). injection E1 as E1.
  unfold neg_or in E1. by destruct (_ <? 0); injection E1 as _ <-.
Qed.

Lemma inner_ctype o w bs r w' : inner_op o -> link_exec o w = Some (bs, r, w') -> ctype w' = ctype w.
Proof using Hevents.
  destruct o as [[u|] m d len|t|reason| | | | | |]; try done; intros _ E; cbn [link_exec] in E;
    try apply bind_Some in E as ([? ?] & E & [= _ _ <-]); try apply bind_Some in E as (? & E & [= _ _ <-]).
  - by eapply send_user_ctype.
  - exact (send_preserves same_ctype garbage _ _ _ _ _ _ E).
  - exact (close_preserves same_ctype garbage _ _ _ E).
  - by eapply force_close_ctype.
  - exact (on_disconnect_preserves same_ctype garbage _ _ _ E).
  - exact (start_send_preserves same_ctype _ _ _ E).
Qed.

Lemma moves_inner o w r w' : inner_op o -> op_ok o -> link_exec o w = Some ([], r, w') -> moves w w'.
Proof using Hgarbage Hevents Hcount.
  intros Hi Ho E sent ps n Hr. destruct (inner_op_follows _ _ _ _ _ Hr Hi Ho) as (r1 & raised & n' & w1 & qs & En & E1 & Hr' & Ha).
  rewrite E in E1. injection E1 as <- <-. eexists [o], qs, [r], _, n'. split; [by apply Forall_singleton|]. split; [by apply Forall_singleton|].
  split; [cbn [net_run]; rewrite En; reflexivity|]. split; [done|]. split; [rewrite Ha; lia|by eapply inner_ctype].
Qed.

Lemma moves_does cs w w' : does cs w w' -> moves w w'.
Proof using Hgarbage Hevents Hcount.
  induction 1 as [w|a cs w w' Ha _ IH|o r cs w w1 w' Hi Ho E _ IH]; [apply moves_refl| |].
  - eapply moves_trans; [|exact IH]. by apply moves_same, same_app.
  - eapply moves_trans; [|exact IH]. eapply moves_inner; [|done|exact E]. by destruct o.
Qed.

Lemma moves_force_close reason w w' : force_close events mgr reason w = Some w' -> moves w w'.
Proof using handlers Hgarbage Hevents Hcount.
  intros E. eapply (moves_inner (lk_force_close reason)); [done|done|]. cbn [link_exec]. by rewrite E.
Qed.

Lemma moves_on_disconnect w r w' : conn_on_disconnect garbage w = Some (r, w') -> moves w w'.
Proof using handlers Hgarbage Hevents Hcount.
  intros E. eapply (moves_inner lk_peer_closes); [done|done|]. cbn [link_exec]. by rewrite E.
Qed.

Lemma moves_tick l w r w' : handle_event events mgr JMY_EVENT_TICK l w = Some (r, w') -> moves w w'.
Proof using Hevents Htick.
  intros E. apply moves_usable. intros [He _ _].
  destruct (handle_event_app events mgr effect Hevents JMY_EVENT_TICK l w He) as [r' E']; [auto|]. rewrite E in E'. injection E' as _ ->.
  apply moves_same, same_app. unfold event_of. by rewrite Htick.
Qed.

Lemma handleOne_moves u buff id p w r w' H' :
  @handleOne W (connection_calls events mgr garbage) (dh2_set_unpack u handlers) buff id p w = Some (r, w', H') ->
  moves w w' /\ exists u', H' = dh2_set_unpack u' handlers.
Proof using Hgarbage Hevents Hcount Hhandlers.
  unfold handleOne. intros E. apply bind_Some in E as ([r1 d] & _ & E).
  assert (Hn : forall y, Some (y, w, dh2_set_unpack d (dh2_set_unpack u handlers)) = Some (r, w', H') ->
    moves w w' /\ exists u', H' = dh2_set_unpack u' handlers).
  { intros y [= _ <- <-]. split; [apply moves_refl|]. by exists d. }
  destruct (r1 <? 0); [by apply Hn in E|]. destruct (_ && _); [by apply Hn in E|]. destruct (is_user_packet _).
  { destruct (handleMsg (dh2_set_unpack d (dh2_set_unpack u handlers)) (ud2_msg_info d) w) as [r2 w2] eqn:Em. rewrite !handleMsg_unpack in Em. injection E as _ <- <-.
    split; [|by exists d]. apply moves_usable. intros Hu. destruct (Hhandlers _ _ _ _ Hu Em) as [cs Hd]. by eapply moves_does. }
  assert (Hc : forall x, (forall r2 w2, x = Some (r2, w2) -> moves w w2) ->
    check_neg x r1 (dh2_set_unpack d (dh2_set_unpack u handlers)) = Some (r, w', H') ->
    moves w w' /\ exists u', H' = dh2_set_unpack u' handlers).
  { intros x Hx E'. unfold check_neg in E'. apply bind_Some in E' as ([r2 w2] & E' & [= _ <- <-]). split; [by eapply Hx|by exists d]. }
  destruct (_ =? JMY_PACKET2_HEARTBEAT).
  { eapply Hc; [|exact E]. unfold handleHeartbeat. intros r2 w2. destruct mgr_get; intros [= _ <-]; apply moves_refl. }
  destruct (_ =? JMY_PACKET2_DISCONNECT).
  { eapply Hc; [|exact E]. unfold handleDisconnect. intros r2 w2. destruct mgr_get; [|intros [= _ <-]; apply moves_refl]. apply moves_on_disconnect. }
  destruct (_ =? JMY_PACKET2_DISCONNECT_ACK); [|by apply Hn in E].
  eapply Hc; [|exact E]. unfold handleDisconnectAck. intros r2 w2. destruct mgr_get; [|intros [= _ <-]; apply moves_refl].
  cbn [connection_calls conn_handleDisconnectAck]. unfold conn_on_disconnect_ack. destruct (negb _); [intros [= _ <-]; apply moves_refl|].
  intros E2. apply bind_Some in E2 as (w3 & E2 & [= _ <-]). by eapply moves_force_close.
Qed.

Lemma process_loop_moves all bs id p n u w r w' H' :
  @process_loop W (connection_calls events mgr garbage) recv_of all bs id p n (dh2_set_unpack u handlers) w = Some (r, w', H') -> moves w w'.
Proof using Hgarbage Hevents Hcount Hhandlers.
  revert n u w. induction bs as [|b bs IH]; intros n u w; cbn [process_loop]; [intros [= _ <- _]; apply moves_refl|].
  intros E. apply bind_Some in E as ([[r1 w1] H1] & E1 & E). destruct (handleOne_moves _ _ _ _ _ _ _ _ E1) as [Hk [u' ->]].
  destruct (r1 <? 0); [by injection E as _ <- _|]. apply bind_Some in E as ([] & _ & E). eapply moves_trans; [exact Hk|]. by eapply IH.
Qed.

Lemma handle_recv_moves w r w' : handle_recv handlers events mgr garbage w = Some (r, w') -> moves w w'.
Proof using Hgarbage Hevents Hcount Hhandlers.
  unfold handle_recv. intros E. apply bind_Some in E as ([] & _ & E). apply bind_Some in E as (b & _ & E).
  apply bind_Some in E as ([[r1 w1] H1] & E & [= _ <-]). unfold processData in E.
  apply bind_Some in E as ([[r2 w2] H2] & E2 & E). apply process_loop_moves in E2.
  eapply moves_trans; [exact E2|]. destruct (r2 <? 0); injection E as _ <- _; [by apply moves_same, same_unpack|].
  eapply moves_trans; [apply moves_same, (same_set_recv (bl_clear (recv_of w2)))|]. by apply moves_same, same_unpack.
Qed.

Lemma run_moves now w r w' : run handlers events mgr garbage now w = Some (r, w') -> moves w w'.
Proof using Hgarbage Hevents Hcount Htick Hhandlers.
  unfold run. intros E. apply bind_Some in E as ([] & _ & E). apply bind_Some in E as (w1 & E1 & E).
  eapply moves_trans; [instantiate (1 := w1)|].
  { destruct (hasTickHandler events); [|injection E1 as <-; apply moves_refl]. apply bind_Some in E1 as ([r1 w2] & E1 & [= <-]).
    apply moves_tick in E1. eapply moves_trans; [exact E1|]. apply moves_same, same_tick. }
  destruct (_ && _).
  { apply bind_Some in E as (w2 & E & [= _ <-]). by eapply moves_force_close. }
  destruct (negb _); [injection E as _ <-; apply moves_refl|]. apply bind_Some in E as ([r2 w2] & E2 & E).
  apply handle_recv_moves in E2. eapply moves_trans; [exact E2|]. destruct (r2 <? 0).
  - apply bind_Some in E as (w3 & E & [= _ <-]). by eapply moves_force_close.
  - eapply (moves_inner lk_start); [done|done|]. cbn [link_exec]. by rewrite E.
Qed.

(** *** Every operation *)

Lemma step_follows_run sent ps w o n : net_rel sent ps w n -> op_ok o ->
  (not_run o -> is_Some (link_exec o w)) /\ (is_Some (link_exec o w) -> step_follows sent ps w o n).
Proof using Hgarbage Hevents Hcount Htick Hhandlers.
  intros Hr Ho. assert (Hnr : not_run o -> step_follows sent ps w o n).
  { intros Hn. assert (Hin : inner_op o -> step_follows sent ps w o n).
    { intros Hi. destruct (inner_op_follows sent ps w o n Hr Hi Ho) as (r & raised & n' & w' & qs & En & E & Hr' & Ha).
      eexists [], r, w', qs, _, 0%nat, n'. split; [done|]. split; [by apply ns_exec|]. by rewrite app_nil_r. }
    destruct o; try (by apply Hin); [by apply sent_follows|by apply send_fails_follows|by apply read_follows]. }
  split; [intros Hn; destruct (Hnr Hn) as (bs & r & w' & qs & k & v & n' & E & _); by eexists|].
  intros [[[bs r] w'] E]. destruct o; try (by apply Hnr). cbn [link_exec] in E. apply bind_Some in E as ([r1 w1] & E & [= <- <- <-]).
  destruct (run_moves _ _ _ _ E sent ps n Hr) as (cs & qs & rs & k & n' & C1 & C2 & En & Hr' & Ha & _).
  exists [], r1, w1, qs, k, 0%nat, n'. cbn [link_exec]. rewrite E, app_nil_r. split; [done|]. split; [by eapply ns_run|done].
Qed.

Lemma link_exec_ctype o w bs r w' sent ps n : net_rel sent ps w n -> link_exec o w = Some (bs, r, w') -> ctype w' = ctype w.
Proof using Hgarbage Hevents Hcount Htick Hhandlers.
  intros Hr E. assert (Hs : forall res v, send_completes events mgr res w = Some v -> ctype v = ctype w).
  { intros res v. apply (send_completes_preserves same_ctype). intros i info x. by rewrite Hevents. }
  assert (Hin : inner_op o -> ctype w' = ctype w) by (intros Hi; by eapply inner_ctype).
  destruct o; try (by apply Hin); cbn [link_exec] in E.
  - destruct (offered w); [|by injection E as _ _ <-]. destruct (sk_open _); apply bind_Some in E as (v & E & [= _ _ <-]); by eapply Hs.
  - destruct (offered w); [|by injection E as _ _ <-]. apply bind_Some in E as (v & E & [= _ _ <-]); by eapply Hs.
  - destruct (sk_reads _); [by injection E as _ _ <-|]. apply bind_Some in E as (v & E & [= _ _ <-]).
    assert (Hx : same_ctype w v); [|exact Hx]. eapply (read_completes_preserves same_ctype); [|exact E]. intros i info x. by rewrite Hevents.
  - apply bind_Some in E as ([r1 v] & E & [= _ _ <-]). by destruct (run_moves _ _ _ _ E sent ps n Hr) as (? & ? & ? & ? & ? & _ & _ & _ & _ & _ & Ht).
Qed.

Lemma link_run_follows os sent ps w n : net_rel sent ps w n -> Forall op_ok os ->
  (Forall not_run os -> is_Some (link_run os w)) /\
  (forall bs rs w', link_run os w = Some (bs, rs, w') ->
    exists qs k v n', net_runs (ctype w) os n rs k v n' /\ net_rel (sent ++ bs) (ps ++ qs) w' n' /\
      count (w_app w') = (k + count (w_app w))%nat).
Proof using Hgarbage Hevents Hcount Htick Hhandlers.
  intros Hr Ho. revert sent ps w n Hr. induction Ho as [|o os Ho Hos IH]; intros sent ps w n Hr.
  { split; [intros _; by eexists|]. intros bs rs w' [= <- <- <-]. exists [], 0%nat, 0%nat, n. rewrite !app_nil_r. split; [apply nr_nil|done]. }
  destruct (step_follows_run sent ps w o n Hr Ho) as [Hd Hf]. cbn [link_run]. split.
  - intros Hn. apply Forall_cons in Hn as [Hn Hns]. destruct (Hf (Hd Hn)) as (bs & r & w1 & qs & k & v & n1 & E & _ & Hr1 & _).
    rewrite E. cbn [mbind option_bind]. destruct (IH _ _ _ _ Hr1) as [IH1 _]. destruct (IH1 Hns) as [[[bs' rs'] w'] ->]. by eexists.
  - intros bs rs w' E. apply bind_Some in E as ([[bs1 r1] w1] & E1 & E). apply bind_Some in E as ([[bs2 rs2] w2] & E2 & [= <- <- <-]).
    destruct (Hf ltac:(by eexists)) as (bs & r & w1' & qs & k & v & n1 & E1' & Hst & Hr1 & Ha). rewrite E1 in E1'. injection E1' as <- <- <-.
    destruct (IH _ _ _ _ Hr1) as [_ IH2]. destruct (IH2 _ _ _ E2) as (qs' & k' & v' & n2 & Hrs & Hr2 & Ha2).
    rewrite (link_exec_ctype _ _ _ _ _ _ _ _ Hr E1) in Hrs.
    eexists (qs ++ qs'), _, _, n2. split; [by eapply nr_cons|]. rewrite !app_assoc. split; [done|lia].
Qed.

End contract.

(** ** To the peer *)

(** C3.  What [Net] says was sent arrives.  The handlers of a server send on a connection; when
    the connection is still open and everything has gone out, the packets that [Net] recorded are
    delivered: the connection at the other end reads the bytes and one [handle_recv] there calls
    the message handlers with exactly these messages, in the order they were sent. *)
Theorem net_packets_delivered : forall {App App' : Type} (eva : JmyEventHandlerManager (World App))
    (evb : JmyEventHandlerManager (World App')) (sender : JmyDataHandler2 (World App)) (handlers : JmyDataHandler2 (World App')) mgr c mgr' garbage effect
    os w w' n rs rs' k n' bs ms (wb : World App'),
  (forall n, 0 <= n -> lenZ (garbage n) = n) ->
  (forall i info w, snd (eh_call eva i info w) = set_app (effect i info (w_app w)) w) ->
  link_rel mgr c [] [] w n -> Forall link_op_ok os -> Forall quiet os ->
  net_run mgr c os n = Some (rs, k, n') -> link_run sender eva mgr garbage os w = Some (bs, rs', w') ->
  state w' = JMY_CONN_STATE_CONNECTED -> out_stream w' = [] ->
  packet_of <$> link_packets mgr c n' = message_packet <$> ms -> Forall message_ok ms ->
  reading wb -> using_list_ (recv_of wb) = [] -> ud2_type (w_unpack wb) = JMY_PACKET2_NONE ->
  keeps_recv recv_of handlers (c_id (w_conn wb)) mgr' ->
  exists wb' u, feed evb mgr' garbage (2 * length ms) bs wb = Some ([], wb') /\ reading wb' /\
    let '(ok, wd) := deliver handlers (c_id (w_conn wb)) mgr' ms wb' in
    handle_recv handlers evb mgr' garbage wb' =
      Some (if ok then (0, set_unpack u (set_recv (bl_clear (recv_of wb')) wd)) else (-1, set_unpack u wd)).
Proof.
  intros App App' eva evb sender handlers mgr c mgr' garbage effect os w w' n rs rs' k n' bs ms wb Hg Hev Hr Hos Hq Hn Hl Hs Ho Hp Hms
    Hb Hb0 Hu Hk.
  destruct (net_run_simulated sender eva mgr c garbage Hg effect Hev os [] [] w n rs k n' Hr Hos Hn)
    as (bs1 & w1 & qs & E & Hr' & _ & Hqs). rewrite Hl in E. injection E as <- <- <-. simpl in Hr'.
  destruct Hr' as [_ _ _ _ _ Hf Hst]. unfold link_stream in Hst. rewrite Hs in Hst.
  destruct Hst as (_ & _ & Hst). rewrite Ho, app_nil_r in Hst.
  assert (filter carries_message qs = qs) as Hqq.
  { specialize (Hqs Hq). clear -Hqs. induction Hqs as [|p qs Hp _ IH]; [done|]. rewrite filter_cons_True by done. by rewrite IH. }
  rewrite Hqq, Hp in Hf. subst qs. rewrite <-list_fmap_compose in Hst. rewrite Hst. by apply fed_messages_delivered.
Qed.

(** ** Witnesses *)

Definition demo_net : Net := mkNet {[ (3, 7) := JMY_CONN_STATE_CONNECTED ]} [] {[ 3 := 7 ]}.
Definition demo_sender : World log_app := demo_world JMY_CONN_TYPE_ACTIVE true.

Definition demo_link_sends : list link_op :=
  [lk_send None 5 [1; 2; 99] 2; lk_start; lk_sent 4; lk_send (Some 9) 6 [] 0; lk_sent 100; lk_start; lk_sent 100].
Lemma demo_link_rel : link_rel 3 7 [] [] demo_sender demo_net.
Proof.
  constructor; try done.
  - exists (demo_buffer true). constructor; try done. exists (mkPQ [] 0 0 0 0). by constructor.
  - split; [exact (demo_out_inv JMY_CONN_TYPE_ACTIVE true)|done].
Qed.

Lemma demo_link_sends_ok : Forall link_op_ok demo_link_sends /\ Forall quiet demo_link_sends.
Proof. split; repeat constructor; vm_compute; discriminate. Qed.

Definition net_after (os : list link_op) : Net :=
  match net_run 3 7 os demo_net with Some (_, _, n) => n | None => Net_new end.

(** An accepted connection whose handler answers every message.  It reads a message and answers it, is closed, reads the
    acknowledgement of the peer, which closes its socket, and counts as connected again: a message is sent to nobody, and
    the failing read raises the disconnect event a second time. *)
Definition demo_reply : jmy_msg_handler (World log_app) := fun _ w =>
  match send demo_garbage 6 (Some [1]) 1 w with Some (_, w) => (0, w) | None => (-1, w) end.
Definition demo_replying : JmyDataHandler2 (World log_app) := setDefaultMsgHandler JmyDataHandler2_new (Some demo_reply).
Definition demo_accepted : World log_app := demo_world JMY_CONN_TYPE_PASSIVE true.

Definition demo_link_ops : list link_op :=
  let message := packet_bytes (DataHandler2.pk_user 5 [7]) in
  [lk_read (Some (take 3 message)); lk_read (Some (drop 3 message)); lk_run 0; lk_sent 100; lk_close 0;
   lk_read (Some disconnect_ack_packet); lk_send None 8 [9] 1; lk_read None; lk_force_close 5].

Definition demo_count (a : list (Z * Z * bytes)) : nat := length (filter (fun x => x.1 = (JMY_EVENT_DISCONNECT, 7)) a).

Lemma demo_count_disconnect a :
  demo_count (log_effect JMY_EVENT_DISCONNECT (mkJmyEventInfo JMY_EVENT_DISCONNECT 7 3 0) a) = S (demo_count a).
Proof. unfold demo_count, log_effect. change (Nat.ltb _ _) with true. cbv iota. by rewrite filter_app, length_app, Nat.add_comm. Qed.

Lemma demo_count_tick id l a : demo_count (log_effect JMY_EVENT_TICK (mkJmyEventInfo JMY_EVENT_TICK id 3 l) a) = demo_count a.
Proof. unfold demo_count, log_effect. change (Nat.ltb _ _) with true. cbv iota. by rewrite filter_app, length_app, Nat.add_comm. Qed.

Lemma demo_replying_does info w r w' : usable w -> handleMsg demo_replying info w = (r, w') ->
  exists cs, does demo_replying log_events 3 demo_garbage demo_count cs w w'.
Proof.
  intros _. unfold handleMsg, demo_replying, demo_reply. cbn. rewrite lookup_empty.
  destruct (send demo_garbage 6 (Some [1]) 1 w) as [[r1 w1]|] eqn:E; cbn; intros [= _ <-]; [|exists []; by apply does_nothing].
  exists [lk_send None 6 [1] 1]. eapply does_call; [done| | |by apply does_nothing].
  - split; [by eexists|done].
  - cbn [link_exec]. rewrite E. reflexivity.
Qed.

Lemma demo_accepted_rel : net_rel 3 7 [] [] demo_accepted demo_net.
Proof.
  left. constructor; try done.
  - exists (demo_buffer true). constructor; try done. exists (mkPQ [] 0 0 0 0). by constructor.
  - split; [exact (demo_out_inv JMY_CONN_TYPE_PASSIVE true)|done].
Qed.

Lemma demo_link_ops_ok : Forall op_ok demo_link_ops.
Proof. repeat constructor; try done. Qed.


Lemma net_packets_delivered_witness :
  let wb := demo_world JMY_CONN_TYPE_PASSIVE true in
  packet_of <$> link_packets 3 7 (net_after demo_link_sends) = message_packet <$> demo_messages /\
  exists bs rs w', link_run demo_handlers log_events 3 demo_garbage demo_link_sends demo_sender = Some (bs, rs, w') /\
    exists wb' u, feed JmyEventHandlerManager_new 0 demo_garbage 4 bs wb = Some ([], wb') /\ reading wb' /\
      let '(ok, wd) := deliver demo_handlers 7 0 demo_messages wb' in
      handle_recv demo_handlers JmyEventHandlerManager_new 0 demo_garbage wb' =
        Some (if ok then (0, set_unpack u (set_recv (bl_clear (recv_of wb')) wd)) else (-1, set_unpack u wd)).
Proof.
  cbv zeta.
  assert (Hn : net_run 3 7 demo_link_sends demo_net = Some ([2; 0; 0; 0; 0; 0; 0], 0%nat, net_after demo_link_sends))
    by (vm_compute; reflexivity).
  assert (Hp : packet_of <$> link_packets 3 7 (net_after demo_link_sends) = message_packet <$> demo_messages)
    by (vm_compute; reflexivity).
  split; [exact Hp|].
  assert (Hx : match link_run demo_handlers log_events 3 demo_garbage demo_link_sends demo_sender with
               | Some (_, _, w') => Some (state w', out_stream w') | None => None
               end = Some (JMY_CONN_STATE_CONNECTED, [])) by (vm_compute; reflexivity).
  destruct (link_run _ _ _ _ _) as [[[bs rs] w']|] eqn:E; [|discriminate Hx].
  exists bs, rs, w'. split; [reflexivity|].
  assert (Hs : state w' = JMY_CONN_STATE_CONNECTED) by congruence. assert (Ho : out_stream w' = []) by congruence.
  exact (net_packets_delivered log_events JmyEventHandlerManager_new demo_handlers demo_handlers 3 7 0 demo_garbage log_effect
    demo_link_sends demo_sender w' demo_net _ _ _ _ _ _ (demo_world JMY_CONN_TYPE_PASSIVE true) demo_garbage_len log_events_effect
    demo_link_rel (proj1 demo_link_sends_ok) (proj2 demo_link_sends_ok) Hn E Hs Ho Hp demo_messages_ok
    (demo_reading _ _) eq_refl eq_refl (fun m w => eq_refl)).
Defined.
