(* ===== verification/CsvParser.v ===== *)
(** * Tables in csv files ([JmyCsvParser] of [jmy_csv_parser.h])

    A parser holds the lines it has read, each as its cells.  Reading a file adds to the lines that are there. *)
From S2P Require Import Prelude Text Json ServerFiles.
From Stdlib Require Import ZArith Lia String Ascii.
From stdpp Require Import base option list sets.
Local Open Scope Z_scope.

Definition NAME_LINE_INDEX : Z := 0.
Definition TYPE_LINE_INDEX : Z := 1.
Definition DATA_LINE_START_INDEX : Z := 2.
Definition MIN_LINE_COUNT : Z := 3.

Abbreviation csv_lines := (list (list text)).

(** The characters of [",\r"]. *)
Definition csv_delimiter (c : Z) : bool := (c =? 44) || (c =? 13).

(** The tokens that [strtok] gives one after the other: [tok] is the token that was begun.  Delimiters that follow one
    another count as one. *)
Fixpoint strtok_all (tok s : text) : list text :=
  let ended := match tok with [] => [] | _ => [tok] end in
  match s with
  | [] => ended
  | c :: s => if csv_delimiter c then ended ++ strtok_all [] s else strtok_all (tok ++ [c]) s
  end.

Definition parseLine (line : text) : list text := strtok_all [] (c_str line).

(** The lines that [while (infile.good()) std::getline(infile, line)] gives: one more than there are line ends. *)
Fixpoint getlines (line content : text) : list text :=
  match content with
  | [] => [line]
  | c :: content => if c =? 10 then line :: getlines [] content else getlines (line ++ [c]) content
  end.

(** The loop of [load]: [n] lines were read and the first had [item_num] cells. *)
Fixpoint csv_load_loop (n item_num : Z) (ls : list text) (lines_ : csv_lines) : bool * csv_lines :=
  match ls with
  | [] => (true, lines_)
  | line :: ls =>
    let item_vec := parseLine line in
    let item_num := if n =? 0 then lenZ item_vec else item_num in
    if 0 <? lenZ item_vec then
      if negb (item_num =? lenZ item_vec) then (false, [])
      else csv_load_loop (n + 1) item_num ls (lines_ ++ [item_vec])
    else csv_load_loop (n + 1) item_num ls lines_
  end.

(** A file that does not open reads as one without lines. *)
Definition csv_load `{Files} (file_path : text) (lines_ : csv_lines) : bool * csv_lines :=
  match open_file file_path with
  | None => (true, lines_)
  | Some content => csv_load_loop 0 0 (getlines [] content) lines_
  end.

Definition csv_close (lines_ : csv_lines) : csv_lines := [].

(** ** Writing a table *)

(** What a spreadsheet writes: commas between the cells and [eol] after every row. *)
Definition csv_print (eol : text) (rows : csv_lines) : text := concat ((fun r => boost_join [44] r ++ eol) <$> rows).

Definition is_eol (eol : text) : Prop := eol = [10] \/ eol = [13; 10].
(** A cell that can be written without quoting. *)
Definition plain_cell (c : text) : Prop := Forall (fun x => x <> 0 /\ x <> 10 /\ x <> 13 /\ x <> 44) c.

(** What is left of a row: the cells that are not empty. *)
Definition full_cells (r : list text) : list text := filter (fun c => c <> []) r.
Definition full_rows (rows : csv_lines) : csv_lines := filter (fun r => r <> []) (full_cells <$> rows).

(** ** Lemmas *)

Lemma strtok_all_cell c tok s :
  plain_cell c -> strtok_all tok (c ++ s) = strtok_all (tok ++ c) s.
Proof.
  intros Hc. revert tok. induction Hc as [|x c (_ & _ & H13 & H44) _ IH]; intros tok; [by rewrite app_nil_r|]. cbn [strtok_all app].
  unfold csv_delimiter. rewrite (proj2 (Z.eqb_neq x 44)), (proj2 (Z.eqb_neq x 13)) by done. simpl.
  by rewrite IH, <-app_assoc.
Qed.

Lemma full_cells_cons c r : full_cells (c :: r) = match c with [] => full_cells r | _ => c :: full_cells r end.
Proof. unfold full_cells. rewrite filter_cons. destruct c; [rewrite decide_False by auto|rewrite decide_True by done]; done. Qed.

Lemma strtok_all_join r eol :
  Forall plain_cell r -> eol = [] \/ eol = [13] -> strtok_all [] (boost_join [44] r ++ eol) = full_cells r.
Proof.
  intros Hr He. assert (Hend : forall tok, strtok_all tok eol = match tok with [] => [] | _ => [tok] end).
  { intros [|x tok]; by destruct He as [-> | ->]. }
  induction Hr as [|c r Hc Hr IH]; [by rewrite Hend|]. rewrite full_cells_cons. destruct r as [|c' r].
  - cbn [boost_join]. rewrite strtok_all_cell, Hend by done. by destruct c.
  - change (boost_join [44] (c :: c' :: r)) with (c ++ [44] ++ boost_join [44] (c' :: r)).
    rewrite <-!app_assoc, strtok_all_cell by done. cbn [app strtok_all]. change (csv_delimiter 44) with true. cbv iota.
    rewrite IH. by destruct c.
Qed.

Lemma getlines_line l rest line : 10 ∉ l -> getlines line (l ++ 10 :: rest) = (line ++ l) :: getlines [] rest.
Proof.
  revert line. induction l as [|c l IH]; intros line Hl; cbn [getlines app]; [by rewrite app_nil_r|].
  apply not_elem_of_cons in Hl as [Hc Hl]. rewrite (proj2 (Z.eqb_neq c 10)) by done. by rewrite IH, <-app_assoc.
Qed.

Lemma join_plain x r : Forall plain_cell r -> x ∈ boost_join [44] r -> x <> 0 /\ x <> 10 /\ x <> 13.
Proof.
  induction 1 as [|c r Hc Hr IH]; [by intros ?%elem_of_nil|].
  assert (Hin : x ∈ c -> x <> 0 /\ x <> 10 /\ x <> 13).
  { intros Hx. destruct (proj1 (Forall_forall _ _) Hc x Hx) as (? & ? & ? & _). done. }
  destruct r as [|c' r]; [done|].
  change (boost_join [44] (c :: c' :: r)) with (c ++ [44] ++ boost_join [44] (c' :: r)).
  intros [Hx|[Hx|Hx]%elem_of_app]%elem_of_app; auto. apply list_elem_of_singleton in Hx as ->. done.
Qed.

(** The lines of a table that was written, as cells. *)
Lemma parse_printed eol rows :
  is_eol eol -> Forall (Forall plain_cell) rows ->
  parseLine <$> getlines [] (csv_print eol rows) = (full_cells <$> rows) ++ [[]].
Proof.
  intros He. induction 1 as [|r rows Hr Hrows IH]; [done|]. unfold csv_print. csimpl. fold (csv_print eol rows).
  assert (Hl : forall t, t = [] \/ t = [13] -> 10 ∉ boost_join [44] r ++ t /\ c_str (boost_join [44] r ++ t) = boost_join [44] r ++ t).
  { intros t Ht. split; [|apply c_str_id]; intros [Hx|Hx]%elem_of_app; try (by eapply join_plain in Hx as (? & ? & ?));
      destruct Ht as [-> | ->]; set_solver. }
  assert (exists t, (t = [] \/ t = [13]) /\ (boost_join [44] r ++ eol) ++ csv_print eol rows =
      (boost_join [44] r ++ t) ++ 10 :: csv_print eol rows) as (t & Ht & ->).
  { destruct He as [-> | ->]; [exists []|exists [13]]; (split; [auto|]); by rewrite <-!app_assoc. }
  destruct (Hl t Ht) as [H10 Hc]. rewrite getlines_line by done. csimpl. rewrite IH. f_equal.
  unfold parseLine. simpl. rewrite Hc. by apply strtok_all_join.
Qed.
