(* ===== verification/CsvGen.v ===== *)
(** * The csv generator ([csv_generator/])

    For every table a header with the struct of its rows and a class that loads it ([GenerateSource]), and a header with
    all tables ([GenerateManager]).  The first line of a table has the names of its columns and the second
    their types. *)
From S2P Require Import Prelude Text Json ServerFiles DbGenConfig CsvParser.
From Stdlib Require Import ZArith Lia String Ascii.
From stdpp Require Import base option list.
Local Open Scope Z_scope.

(** What a step of the generator does: whether it succeeded, and what it wrote; [None] is undefined behaviour. *)
Definition CsvOut : Type := option (bool * text).
Definition out (t : text) : CsvOut := Some (true, t).
Definition out_fail : CsvOut := Some (false, []).
(** [if (!a) return false; b]. *)
Definition out_then (a b : CsvOut) : CsvOut :=
  '(ok, t) ← a; if negb ok then Some (false, t) else '(ok, t') ← b; Some (ok : bool, t ++ t').
(** [a; b], whatever [a] returned. *)
Definition out_seq (a b : CsvOut) : CsvOut := '(_, t) ← a; '(ok, t') ← b; Some (ok : bool, t ++ t').

(** ** GenerateSource: [fn] is [file_name_], [KEY_INDEX] the column of the key *)

Definition KEY_INDEX : nat := 0.

Definition source_head : text :=
  L"// Generated by the csv_generator.  DO NOT EDIT!" ++ endl ++
  L"#pragma once" ++ endl ++
  L"#include " ++ quote ++ L"../../libjmy/jmy_object_set.hpp" ++ quote ++ endl ++
  L"#include " ++ quote ++ L"../../libjmy/jmy_csv_parser.h" ++ quote ++ endl ++
  L"#include <iostream>" ++ endl ++
  L"#include <vector>" ++ endl.

Definition member_type (field_type : text) : option text :=
  if word_is field_type "int" then Some (L"  int ")
  else if word_is field_type "int64" then Some (L"  int64_t ")
  else if word_is field_type "string" then Some (L"  std::string ")
  else if word_is field_type "bool" then Some (L"  bool ")
  else None.

(** The members of the struct, for columns given as name and type. *)
Fixpoint writeMembers (fields : list (text * text)) : CsvOut :=
  match fields with
  | [] => out []
  | (name, field_type) :: fields =>
    match member_type field_type with
    | None => out_fail
    | Some t => out_then (out (t ++ name ++ L";" ++ endl)) (writeMembers fields)
    end
  end.

Definition struct_head (fn : text) : text := endl ++ L"struct " ++ fn ++ L" {" ++ endl.
Definition struct_tail : text := L"};" ++ endl ++ endl.
Definition writeStruct (fn : text) (fields_name fields_type : list text) : CsvOut :=
  if (lenZ fields_name =? 0) || negb (lenZ fields_name =? lenZ fields_type) then out_fail else
  out_then (out (struct_head fn))
    (out_then (writeMembers (zip fields_name fields_type)) (out struct_tail)).

Definition writeCountFunc : text :=
  L"  size_t count() const {" ++ endl ++
  L"    return objs_.count();" ++ endl ++
  L"  }" ++ endl.

Definition writeLoadFunc : text :=
  L"  bool load(const char* file_path) {" ++ endl ++
  L"    JmyCsvParser parser;" ++ endl ++
  L"    if (!parser.load(file_path)) {" ++ endl ++
  L"      std::cout << " ++ quote ++ L"load file" ++ quote ++ L" << file_path << " ++ quote ++ L" failed" ++ quote ++
  L" << std::endl;" ++ endl ++
  L"      return false;" ++ endl ++
  L"    }" ++ endl ++
  L"    if (!parseData(parser.getLines())) {" ++ endl ++
  L"      std::cout << " ++ quote ++ L"parse file " ++ quote ++ L" << file_path << " ++ quote ++ L" data failed" ++
  quote ++ L";" ++ endl ++
  L"      return false;" ++ endl ++
  L"    }" ++ endl ++
  L"    parser.close();" ++ endl ++
  L"    return true;" ++ endl ++
  L"  }" ++ endl.

Definition writeCloseFunc : text :=
  L"  void close() {" ++ endl ++
  L"    objs_.clear(true);" ++ endl ++
  L"  }" ++ endl.

(** [kt] is the type of the key as the table has it. *)
Definition writeGetFunc (fn kt : text) : text :=
  L"  " ++ fn ++ L"* get(const " ++ kt ++ L"& key) {" ++ endl ++
  L"    return objs_.getByKey(key);" ++ endl ++
  L"  }" ++ endl ++
  endl ++
  L"  " ++ fn ++ L"* getByIndex(uint32_t index) {" ++ endl ++
  L"    return objs_.getByIndex(index);" ++ endl ++
  L"  }" ++ endl.

(** The statement that reads column [i]. *)
Definition assign_text (name type : text) (i : Z) : option text :=
  if word_is type "int" then Some (
    L"      data." ++ name ++ L" = std::atoi(line[" ++ print_signed i ++ L"].c_str());" ++ endl)
  else if word_is type "int64" then Some (
    L"      data." ++ name ++ L" = (int64_t)std::strtoull(line[" ++ print_signed i ++ L"].c_str(), nullptr, 10);" ++
    endl)
  else if word_is type "string" then Some (
    L"      data." ++ name ++ L" = line[" ++ print_signed i ++ L"];" ++ endl)
  else if word_is type "bool" then Some (
    L"      data." ++ name ++ L" = (bool)std::atoi(line[" ++ print_signed i ++ L"].c_str());" ++ endl)
  else None.

(** The loop over [type_line], from column [i] on; [name_line[i]] past its end is undefined. *)
Fixpoint writeAssigns (name_line type_line : list text) (i : Z) : CsvOut :=
  match type_line with
  | [] => out []
  | type :: type_line =>
    name ← name_line !! Z.to_nat i;
    match assign_text name type i with
    | None => out_fail
    | Some t => out_then (out t) (writeAssigns name_line type_line (i + 1))
    end
  end.

Definition object_set_type (fn kt : text) : text := L"JmyObjectSet<" ++ fn ++ L", " ++ kt ++ L">".

(** The text before the loop, the head of the loop over the [n] lines that the table has now, and the text after the
    assignments. *)
Definition parse_head (fn : text) : text :=
  L"  bool parseData(const JmyCsvParser::lines_type& lines) {" ++ endl ++
  L"    size_t s = lines.size();" ++ endl ++
  L"    if (s < " ++ print_signed MIN_LINE_COUNT ++ L") {" ++ endl ++
  L"      std::cout << " ++ quote ++ L"line count: " ++ quote ++ L" << s << " ++ quote ++
  L" must be not less to " ++ print_signed MIN_LINE_COUNT ++ quote ++ L" << std::endl;" ++ endl ++
  L"      return false;" ++ endl ++
  L"    }" ++ endl ++
  endl ++
  L"    " ++ fn ++ L" data;" ++ endl.
Definition parse_loop (n : Z) : text :=
  L"    for (size_t i=" ++ print_signed DATA_LINE_START_INDEX ++ L"; i<" ++ print_signed n ++
  L"; ++i) {" ++ endl ++
  L"      const std::vector<std::string>& line = lines[i];" ++ endl.
Definition parse_tail (fn kt kn : text) : text :=
  let obj_type := object_set_type fn kt in
  endl ++
  L"      " ++ fn ++ L"* d = " ++ obj_type ++ L"::newObject();" ++ endl ++
  L"      *d = data;" ++ endl ++
  L"      objs_.insertKeyValue(data." ++ kn ++ L", d);" ++ endl ++
  L"      objs_.pushValue(d);" ++ endl ++
  L"    }" ++ endl ++
  L"    return true;" ++ endl ++
  L"  }" ++ endl.

Definition writeParseDataFunc (fn : text) (lines : csv_lines) : CsvOut :=
  name_line ← lines !! Z.to_nat NAME_LINE_INDEX;
  type_line ← lines !! Z.to_nat TYPE_LINE_INDEX;
  out_then (out (parse_head fn ++ parse_loop (lenZ lines)))
  (out_then (writeAssigns name_line type_line 0)
  (kt ← type_line !! KEY_INDEX; kn ← name_line !! KEY_INDEX; out (parse_tail fn kt kn))).

Definition class_head (fn kt : text) : text :=
  let cn := fn ++ L"_table" in
  L"class " ++ cn ++ L" {" ++ endl ++
  L"public:" ++ endl ++
  L"  " ++ cn ++ L"() {}" ++ endl ++
  L"  ~" ++ cn ++ L"() {}" ++ endl ++
  endl ++
  writeCountFunc ++ endl ++ writeLoadFunc ++ endl ++ writeCloseFunc ++ endl ++ writeGetFunc fn kt ++ endl ++
  L"private:" ++ endl.
Definition class_tail (fn kt : text) : text :=
  endl ++
  L"  JmyObjectSet<" ++ fn ++ L", " ++ kt ++ L"> objs_;" ++ endl ++
  L"};" ++ endl.

(** The results of the functions it calls are not looked at. *)
Definition writeClassBody (fn : text) (lines : csv_lines) : CsvOut :=
  type_line ← lines !! Z.to_nat TYPE_LINE_INDEX;
  kt ← type_line !! KEY_INDEX;
  out_seq (out (class_head fn kt)) (out_seq (writeParseDataFunc fn lines) (out (class_tail fn kt))).

(** [file_name_] of a path: without the directory and the endings; [None] without a directory. *)
Definition source_name (path : text) : option text := without_endings <$> after_last 47 path.

(** [init] of a fresh object: whether it succeeded, and the header it wrote, if it came to open one, with its name. *)
Definition source_init `{Files} (path : text) : option (bool * option (text * text)) :=
  let '(ok, lines) := csv_load path [] in
  if negb ok then Some (false, None) else
  match source_name path with
  | None => Some (false, None)
  | Some fn =>
    name_line ← lines !! Z.to_nat NAME_LINE_INDEX;
    type_line ← lines !! Z.to_nat TYPE_LINE_INDEX;
    '(ok, t) ← out_then (out source_head) (out_then (writeStruct fn name_line type_line) (writeClassBody fn lines));
    Some (ok : bool, Some (fn ++ L".h", t))
  end.

(** ** GenerateManager *)

Record CsvInfo : Type := mkCsvInfo { ci_file : text; ci_source : text; ci_class : text }.

Definition manager_includes (ci : CsvInfo) : text :=
  L"#include " ++ quote ++ L"csv/" ++ ci_source ci ++ quote ++ endl.
Definition manager_close (ci : CsvInfo) : text :=
  L"    " ++ ci_class ci ++ L"_.close();" ++ endl.
Definition manager_load (ci : CsvInfo) : text :=
  L"    if (!" ++ ci_class ci ++ L"_.load(" ++ quote ++ L"csv/" ++ ci_file ci ++ quote ++ L")) {" ++ endl ++
  L"      std::cout << " ++ quote ++ L"load file " ++ ci_file ci ++ L" failed" ++ quote ++ L" << std::endl;" ++
  endl ++
  L"      return false;" ++ endl ++
  L"    }" ++ endl.
Definition manager_get (ci : CsvInfo) : text :=
  L"  " ++ ci_class ci ++ L"& get_" ++ ci_class ci ++ L"() {" ++ endl ++
  L"    return " ++ ci_class ci ++ L"_;" ++ endl ++
  L"  }" ++ endl.
Definition manager_member (ci : CsvInfo) : text :=
  L"  " ++ ci_class ci ++ L" " ++ ci_class ci ++ L"_;" ++ endl.

Definition manager_generate (l : list CsvInfo) : text :=
  L"// Generated by the csv_generator.  DO NOT EDIT!" ++ endl ++
  L"#pragma once" ++ endl ++
  concat (manager_includes <$> l) ++
  L"#include " ++ quote ++ L"../libjmy/jmy_singleton.hpp" ++ quote ++ endl ++
  endl ++
  L"class CsvListManager : public JmySingleton<CsvListManager>" ++ endl ++
  L"{" ++ endl ++
  L"public:" ++ endl ++
  L"  void close() {" ++ endl ++
  concat (manager_close <$> l) ++
  L"  }" ++ endl ++
  L"  bool loadCsv() {" ++ endl ++
  concat (manager_load <$> l) ++
  L"    return true;" ++ endl ++
  L"  }" ++ endl ++
  concat (manager_get <$> l) ++
  L"private:" ++ endl ++
  concat (manager_member <$> l) ++
  L"};" ++ endl ++
  endl ++
  L"#define CSV_MGR CsvListManager::getInstance()" ++ endl.

(** ** The program *)

(** The names of the tables: [None] is a failed assertion of the JSON library, [Some None] a refusal. *)
Fixpoint csv_names (l : list Json) : option (option (list text)) :=
  match l with
  | [] => Some (Some [])
  | v :: l => if negb (IsString v) then Some None else s ← GetString v; names ← csv_names l; Some (option_map (cons s) names)
  end.

Definition load_config `{Files} (jsonpath : text) : option (option (list text)) :=
  match read_document jsonpath with
  | None | Some None => Some None
  | Some (Some doc) => l ← GetArray doc; csv_names l
  end.

(** The tables one after the other: the exit code, the headers written, and what the manager was told. *)
Fixpoint generate_sources `{Files} (root : text) (names : list text) (infos : list CsvInfo)
  : option (Z * list (text * text) * list CsvInfo) :=
  match names with
  | [] => Some (0, [], infos)
  | name :: names =>
    let path := root ++ L"/" ++ name in
    '(ok, file) ← source_init path;
    let written := match file with Some f => [f] | None => [] end in
    if negb ok then Some (-1, written, infos) else
    fn ← source_name path;
    '(r, files, infos) ← generate_sources root names (infos ++ [mkCsvInfo name (fn ++ L".h") (fn ++ L"_table")]);
    Some (r, written ++ files, infos)
  end.

(** [main]: the exit code and the files written; [csv_root] is its argument, if it has one. *)
Definition csv_generator_main `{Files} (csv_root : option text) : option (Z * list (text * text)) :=
  match csv_root with
  | None => Some (-1, [])
  | Some root =>
    names ← load_config (L"../game_server/csv_list.json");
    match names with
    | None => Some (-1, [])
    | Some names =>
      '(r, files, infos) ← generate_sources root names [];
      if r <? 0 then Some (-1, files) else Some (0, files ++ [(L"csv_list_manager.h", manager_generate infos)])
    end
  end.
