(* ===== verification/CsvTable.v ===== *)
(** * Tables of objects ([JmyObjectSet] of [jmy_object_set.hpp]) and the classes the csv generator writes

    [JmyObjectSet] holds pointers to objects, by key and in order.  The second part says what the generated class of a
    table means: its statements, how they are written, and what they do. *)
From S2P Require Import Prelude Text Json ServerFiles DbGenConfig CsvParser CsvGen.
From Stdlib Require Import ZArith Lia String Ascii.
From stdpp Require Import base option list gmap countable.
Local Open Scope Z_scope.

(** ** JmyObjectSet: the objects live in a store *)

Section object_set.
Context {T K : Type} `{Countable K}.

Record JmyObjectSet : Type := mkOS { objs_map_ : gmap K ptr; objs_vec_ : list ptr }.
Definition JmyObjectSet_new : JmyObjectSet := mkOS ∅ [].

(** [new T], which then holds [v]. *)
Definition newObject (v : T) (h : gmap Z T) : ptr * gmap Z T := (fresh_ptr h, <[fresh_ptr h := v]> h).

Definition os_count (s : JmyObjectSet) : Z := lenZ (objs_vec_ s).

(** [delete] of every pointer: one that is not allocated any more is undefined behaviour. *)
Fixpoint delete_all (l : list ptr) (h : gmap Z T) : option (gmap Z T) :=
  match l with
  | [] => Some h
  | p :: l => if p =? NULL then delete_all l h else _ ← h !! p; delete_all l (delete p h)
  end.

Definition os_clear (free_memory : bool) (h : gmap Z T) (s : JmyObjectSet) : option (gmap Z T * JmyObjectSet) :=
  h ← (if free_memory then delete_all (objs_vec_ s) h else Some h); Some (h, JmyObjectSet_new).

(** [unordered_map::insert] keeps an object that is there. *)
Definition insertKeyValue (key : K) (value : ptr) (s : JmyObjectSet) : JmyObjectSet :=
  mkOS (match objs_map_ s !! key with Some _ => objs_map_ s | None => <[key := value]> (objs_map_ s) end) (objs_vec_ s).

Definition removeValueByKey (key : K) (s : JmyObjectSet) : bool * JmyObjectSet :=
  match objs_map_ s !! key with
  | None => (false, s)
  | Some _ => (true, mkOS (delete key (objs_map_ s)) (objs_vec_ s))
  end.

Definition pushValue (value : ptr) (s : JmyObjectSet) : JmyObjectSet := mkOS (objs_map_ s) (objs_vec_ s ++ [value]).

Fixpoint erase_first (p : ptr) (l : list ptr) : option (list ptr) :=
  match l with [] => None | q :: l => if p =? q then Some l else cons q <$> erase_first p l end.
Definition removeValue (value : ptr) (s : JmyObjectSet) : bool * JmyObjectSet :=
  match erase_first value (objs_vec_ s) with Some l => (true, mkOS (objs_map_ s) l) | None => (false, s) end.

(** It removes nothing. *)
Definition removeValueByIndex (index : Z) (s : JmyObjectSet) : bool * JmyObjectSet := (true, s).

Definition getByKey (key : K) (s : JmyObjectSet) : option ptr := objs_map_ s !! key.
Definition getByIndex (index : Z) (s : JmyObjectSet) : option ptr := objs_vec_ s !! Z.to_nat index.
End object_set.
Arguments JmyObjectSet K {_ _}.

(** ** The generated class *)

(** How a cell becomes a member: [std::atoi], [(int64_t)std::strtoull], as it is, or [(bool)std::atoi]. *)
Inductive CsvConv : Type := CInt | CInt64 | CString | CBool.

(** The columns with their names, and the number of lines the generator saw; the first column is the key. *)
Record CsvProgram : Type := mkCsvProgram { cp_columns : list (text * CsvConv); cp_lines : Z }.

Definition conv_word (c : CsvConv) : string :=
  match c with CInt => "int" | CInt64 => "int64" | CString => "string" | CBool => "bool" end.

Definition column_conv (type : text) : option CsvConv :=
  if word_is type "int" then Some CInt else if word_is type "int64" then Some CInt64
  else if word_is type "string" then Some CString else if word_is type "bool" then Some CBool else None.

(** The program for the lines of a table. *)
Definition program_of (lines : csv_lines) : option CsvProgram :=
  name_line ← lines !! 0%nat;
  type_line ← lines !! 1%nat;
  convs ← mapM column_conv type_line;
  Some (mkCsvProgram (zip name_line convs) (lenZ lines)).

(** The type of the key is written as the table has it.  [int64] and [string] are no types there: a header with such a key does
    not compile, and neither does one in which two members have the same name. *)
Definition compiles (P : CsvProgram) : bool :=
  match cp_columns P !! KEY_INDEX with
  | Some (_, CInt) | Some (_, CBool) => bool_decide (NoDup (fst <$> cp_columns P))
  | _ => false
  end.

(** *** How it is written *)

Definition print_cell (i : Z) : text := L"line[" ++ print_signed i ++ L"]".
Definition print_column (c : CsvConv) (i : Z) : text :=
  match c with
  | CInt => L"std::atoi(" ++ print_cell i ++ L".c_str())"
  | CInt64 => L"(int64_t)std::strtoull(" ++ print_cell i ++ L".c_str(), nullptr, 10)"
  | CString => print_cell i
  | CBool => L"(bool)std::atoi(" ++ print_cell i ++ L".c_str())"
  end.
Definition print_assign (i : nat) (col : text * CsvConv) : text :=
  L"      data." ++ fst col ++ L" = " ++ print_column (snd col) (Z.of_nat i) ++ L";" ++ endl.
Definition print_member (col : text * CsvConv) : text :=
  L"  " ++ match snd col with CInt => L"int" | CInt64 => L"int64_t" | CString => L"std::string" | CBool => L"bool" end ++
  L" " ++ fst col ++ L";" ++ endl.

Definition code (lines : list text) : text := concat ((fun l => l ++ endl) <$> lines).

(** The header of the table [fn] with the program [P], whose key is the member [kn] and has the type [kt]. *)
Definition print_table (fn : text) (P : CsvProgram) (kn kt : text) : text :=
  let set := L"JmyObjectSet<" ++ fn ++ L", " ++ kt ++ L">" in
  code [
    L"// Generated by the csv_generator.  DO NOT EDIT!";
    L"#pragma once";
    L"#include " ++ quote ++ L"../../libjmy/jmy_object_set.hpp" ++ quote;
    L"#include " ++ quote ++ L"../../libjmy/jmy_csv_parser.h" ++ quote;
    L"#include <iostream>";
    L"#include <vector>";
    [];
    L"struct " ++ fn ++ L" {"] ++
  concat (print_member <$> cp_columns P) ++
  code [
    L"};";
    [];
    L"class " ++ fn ++ L"_table" ++ L" {";
    L"public:";
    L"  " ++ fn ++ L"_table" ++ L"() {}";
    L"  ~" ++ fn ++ L"_table" ++ L"() {}";
    [];
    L"  size_t count() const {";
    L"    return objs_.count();";
    L"  }";
    [];
    L"  bool load(const char* file_path) {";
    L"    JmyCsvParser parser;";
    L"    if (!parser.load(file_path)) {";
    L"      std::cout << " ++ quote ++ L"load file" ++ quote ++ L" << file_path << " ++ quote ++ L" failed" ++ quote ++ L" << std::endl;";
    L"      return false;";
    L"    }";
    L"    if (!parseData(parser.getLines())) {";
    L"      std::cout << " ++ quote ++ L"parse file " ++ quote ++ L" << file_path << " ++ quote ++ L" data failed" ++ quote ++ L";";
    L"      return false;";
    L"    }";
    L"    parser.close();";
    L"    return true;";
    L"  }";
    [];
    L"  void close() {";
    L"    objs_.clear(true);";
    L"  }";
    [];
    L"  " ++ fn ++ L"* get(const " ++ kt ++ L"& key) {";
    L"    return objs_.getByKey(key);";
    L"  }";
    [];
    L"  " ++ fn ++ L"* getByIndex(uint32_t index) {";
    L"    return objs_.getByIndex(index);";
    L"  }";
    [];
    L"private:";
    L"  bool parseData(const JmyCsvParser::lines_type& lines) {";
    L"    size_t s = lines.size();";
    L"    if (s < " ++ print_signed MIN_LINE_COUNT ++ L") {";
    L"      std::cout << " ++ quote ++ L"line count: " ++ quote ++ L" << s << " ++ quote ++ L" must be not less to " ++ print_signed MIN_LINE_COUNT ++ quote ++ L" << std::endl;";
    L"      return false;";
    L"    }";
    [];
    L"    " ++ fn ++ L" data;";
    L"    for (size_t i=" ++ print_signed DATA_LINE_START_INDEX ++ L"; i<" ++ print_signed (cp_lines P) ++ L"; ++i) {";
    L"      const std::vector<std::string>& line = lines[i];"] ++
  concat (imap print_assign (cp_columns P)) ++
  code [
    [];
    L"      " ++ fn ++ L"* d = " ++ set ++ L"::newObject();";
    L"      *d = data;";
    L"      objs_.insertKeyValue(data." ++ kn ++ L", d);";
    L"      objs_.pushValue(d);";
    L"    }";
    L"    return true;";
    L"  }";
    [];
    L"  JmyObjectSet<" ++ fn ++ L", " ++ kt ++ L"> objs_;";
    L"};"].

(** *** What it does *)

Inductive CsvValue : Type := VInt (z : Z) | VText (t : text) | VBool (b : bool).
#[export] Instance CsvValue_eq_dec : EqDecision CsvValue.
Proof. solve_decision. Defined.
#[export] Instance CsvValue_countable : Countable CsvValue.
Proof.
  refine (inj_countable' (fun v => match v with VInt z => inl z | VText t => inr (inl t) | VBool b => inr (inr b) end)
    (fun s => match s with inl z => VInt z | inr (inl t) => VText t | inr (inr b) => VBool b end) _).
  by intros [].
Defined.

(** The members of the struct. *)
Abbreviation CsvRow := (gmap text CsvValue).

Definition convert (c : CsvConv) (cell : text) : option CsvValue :=
  match c with
  | CInt => z ← atoi (c_str cell); Some (VInt z)
  | CInt64 => Some (VInt (s64 (strtoul (c_str cell))))
  | CString => Some (VText cell)
  | CBool => z ← atoi (c_str cell); Some (VBool (negb (z =? 0)))
  end.

(** The assignments to the members of [data], from column [i] on; [line[i]] past its end is undefined. *)
Fixpoint exec_columns (line : list text) (i : nat) (cols : list (text * CsvConv)) (data : CsvRow) : option CsvRow :=
  match cols with
  | [] => Some data
  | (name, conv) :: cols =>
    cell ← line !! i;
    v ← convert conv cell;
    exec_columns line (S i) cols (<[name := v]> data)
  end.

(** A table: its objects, and the set [objs_]. *)
Record CsvStore : Type := mkStore { cs_heap : gmap Z CsvRow; cs_objs : JmyObjectSet CsvValue }.
Definition CsvStore_new : CsvStore := mkStore ∅ JmyObjectSet_new.

Definition store_row (key : CsvValue) (data : CsvRow) (st : CsvStore) : CsvStore :=
  let '(d, h) := newObject data (cs_heap st) in
  mkStore h (pushValue d (insertKeyValue key d (cs_objs st))).

(** The loop of [parseData]: [n] lines from line [i] on; [data] lives outside the loop. *)
Fixpoint parse_rows (P : CsvProgram) (lines : csv_lines) (i n : nat) (data : CsvRow) (st : CsvStore) : option CsvStore :=
  match n with
  | O => Some st
  | S n =>
    line ← lines !! i;
    data ← exec_columns line 0 (cp_columns P) data;
    key_column ← cp_columns P !! KEY_INDEX;
    key ← data !! fst key_column;
    parse_rows P lines (S i) n data (store_row key data st)
  end.

Definition parseData (P : CsvProgram) (lines : csv_lines) (st : CsvStore) : option (bool * CsvStore) :=
  if lenZ lines <? MIN_LINE_COUNT then Some (false, st) else
  st ← parse_rows P lines (Z.to_nat DATA_LINE_START_INDEX) (Z.to_nat (cp_lines P - DATA_LINE_START_INDEX)) ∅ st;
  Some (true, st).

(** There is a class to run only when the header compiles. *)
Definition table_load `{Files} (P : CsvProgram) (file_path : text) (st : CsvStore) : option (bool * CsvStore) :=
  ub_unless (compiles P);;
  let '(ok, lines) := csv_load file_path [] in
  if negb ok then Some (false, st) else parseData P lines st.

(** The accessors give the object behind the pointer. *)
Definition table_count (st : CsvStore) : Z := os_count (cs_objs st).
Definition table_get (key : CsvValue) (st : CsvStore) : option CsvRow := p ← getByKey key (cs_objs st); cs_heap st !! p.
Definition table_getByIndex (i : Z) (st : CsvStore) : option CsvRow := p ← getByIndex i (cs_objs st); cs_heap st !! p.
Definition table_close (st : CsvStore) : option CsvStore :=
  '(h, s) ← os_clear true (cs_heap st) (cs_objs st); Some (mkStore h s).
