(* ===== verification/CsvProps.v ===== *)
(** * Properties of csv tables

    Which tables survive writing and reading, that the generated header is the text of a program, and what the
    generated class holds when it has loaded a file. *)
From S2P Require Import Prelude Text Json ServerFiles DbGenConfig CsvParser CsvGen CsvTable.
From Stdlib Require Import ZArith Lia String Ascii.
From stdpp Require Import base option list gmap countable sets.
Local Open Scope Z_scope.

(** ** Reading *)

(** The rows of a file: its lines that have cells. *)
Definition rows_of (cells : csv_lines) : csv_lines := filter (fun r => r <> []) cells.
(** Every row has as many cells as the first line. *)
Definition rectangular (cells : csv_lines) : bool := forallb (fun r => lenZ r =? lenZ (hd [] cells)) (rows_of cells).

Lemma rows_of_cons r cells : rows_of (r :: cells) = if 0 <? lenZ r then r :: rows_of cells else rows_of cells.
Proof.
  unfold rows_of. rewrite filter_cons. destruct r as [|c r]; [by rewrite decide_False by auto|].
  rewrite decide_True by done. rewrite (proj2 (Z.ltb_lt _ _)) by (simpl; lia). done.
Qed.

Lemma csv_loop_eq n m ls acc :
  0 < n -> csv_load_loop n m ls acc =
    if forallb (fun r => lenZ r =? m) (rows_of (parseLine <$> ls)) then (true, acc ++ rows_of (parseLine <$> ls)) else (false, []).
Proof.
  revert n acc. induction ls as [|l ls IH]; intros n acc Hn; [by rewrite app_nil_r|]. cbn [csv_load_loop fmap list_fmap].
  rewrite rows_of_cons, (proj2 (Z.eqb_neq n 0)) by lia. destruct (0 <? lenZ (parseLine l)); [|apply IH; lia].
  cbn [forallb]. rewrite Z.eqb_sym. destruct (lenZ (parseLine l) =? m); simpl; [|done]. rewrite IH by lia. by rewrite <-app_assoc.
Qed.

Lemma csv_load_eq `{Files} path content acc :
  open_file path = Some content ->
  csv_load path acc = let cells := parseLine <$> getlines [] content in
    if rectangular cells then (true, acc ++ rows_of cells) else (false, []).
Proof.
  intros E. unfold csv_load. rewrite E. destruct (getlines [] content) as [|l ls]; [by rewrite app_nil_r|].
  unfold rectangular. cbn [csv_load_loop fmap list_fmap hd]. rewrite rows_of_cons. change (0 =? 0) with true. cbv iota.
  cbv zeta. rewrite Z.eqb_refl. simpl negb. cbv iota.
  destruct (0 <? lenZ (parseLine l)); rewrite csv_loop_eq by lia; [|done]. cbn [forallb]. rewrite Z.eqb_refl. simpl.
  by rewrite <-app_assoc.
Qed.

Lemma rows_of_id cells : Forall (fun r => r <> []) cells -> rows_of cells = cells.
Proof. induction 1 as [|r cells Hr _ IH]; [done|]. unfold rows_of in *. by rewrite filter_cons_True, IH. Qed.

Lemma full_cells_id r : Forall (fun c => c <> []) r -> full_cells r = r.
Proof. induction 1 as [|c r Hc _ IH]; [done|]. rewrite full_cells_cons, IH. by destruct c. Qed.

Lemma rows_of_snoc cells : rows_of (cells ++ [[]]) = rows_of cells.
Proof. unfold rows_of. rewrite filter_app, filter_cons_False by auto. rewrite filter_nil. apply app_nil_r. Qed.

Lemma csv_load_printed `{Files} path eol rows acc :
  is_eol eol -> Forall (Forall plain_cell) rows -> open_file path = Some (csv_print eol rows) ->
  csv_load path acc = let cells := full_cells <$> rows in
    if rectangular cells then (true, acc ++ rows_of cells) else (false, []).
Proof.
  intros He Hr Ho. rewrite (csv_load_eq _ _ _ Ho), (parse_printed eol rows He Hr). unfold rectangular. cbv zeta.
  rewrite rows_of_snoc. by destruct rows.
Qed.

Lemma full_row_nonempty (r : list text) : Forall (fun c => c <> []) (full_cells r).
Proof. apply Forall_forall. intros c [Hc _]%list_elem_of_filter. done. Qed.

(** C32.  Which tables survive.  Rows written with commas and line ends (of either kind) are read back as they were if
    and only if no row is without cells, no cell is empty, and all rows are as long as the first.  The parser cannot hold an
    empty cell: what it reads of a row is its other cells ([full_cells]).  A row that has none left is dropped, and when the
    rows that stay do not all have as many as the first line the table is refused as a whole; so a table whose first row is full
    is refused when another row of that length lacks a cell but not all. *)
Theorem csv_roundtrip_iff : forall `{Files} path eol rows,
  is_eol eol -> Forall (Forall plain_cell) rows -> open_file path = Some (csv_print eol rows) ->
  (csv_load path [] = (true, rows) <->
    Forall (fun r => r <> [] /\ Forall (fun c => c <> []) r /\ length r = length (hd [] rows)) rows) /\
  (let kept := filter (fun r => r <> []) (full_cells <$> rows) in
   csv_load path [] = if decide (Forall (fun r => length r = length (full_cells (hd [] rows))) kept) then (true, kept) else (false, [])) /\
  (forall r, r ∈ rows -> length r = length (hd [] rows) -> [] ∈ r -> full_cells r <> [] ->
    Forall (fun c => c <> []) (hd [] rows) -> csv_load path [] = (false, [])).
Proof.
  intros F path eol rows He Hr Ho. rewrite (csv_load_printed _ _ _ _ He Hr Ho). cbv zeta. unfold rectangular. split; [|split].
  - split.
    + destruct (forallb _ _) eqn:Ef; [|done]. intros [= E]. rewrite <-E at 1. apply Forall_forall.
      intros r Hin. rewrite forallb_forall in Ef. pose proof Hin as Hin2. apply list_elem_of_In in Hin2. specialize (Ef r Hin2).
      rewrite <-E. apply list_elem_of_filter in Hin as [Hne Hin]. split; [done|]. apply list_elem_of_fmap in Hin as (r0 & -> & _).
      split; [apply full_row_nonempty|]. apply Z.eqb_eq in Ef.
      destruct rows as [|r1 rows]; [done|]. cbn [fmap list_fmap hd] in *. rewrite rows_of_cons in *.
      destruct (Z.ltb_spec 0 (lenZ (full_cells r1))); cbn [hd]; [lia|].
      exfalso. apply Hne. destruct (full_cells r0); [done|]. simpl in *. lia.
    + intros Hall. assert ((full_cells <$> rows) = rows) as ->.
      { rewrite <-(list_fmap_id rows) at 2. apply list_fmap_ext. intros i r Hi. apply full_cells_id.
        by apply (proj1 (Forall_lookup _ _) Hall i r Hi). }
      rewrite rows_of_id by (eapply Forall_impl; [exact Hall|by intros ? (? & _)]).
      assert (forallb (fun r => lenZ r =? lenZ (hd [] rows)) rows = true) as ->; [|done].
      apply forallb_forall. intros r Hin. apply list_elem_of_In in Hin.
      destruct (proj1 (Forall_forall _ _) Hall r Hin) as (_ & _ & E). apply Z.eqb_eq. lia.
  - assert (hd [] (full_cells <$> rows) = full_cells (hd [] rows)) as -> by by destruct rows.
    fold (rows_of (full_cells <$> rows)). case_decide as Hd.
    + rewrite (proj2 (forallb_forall _ _)); [done|]. intros r Hin%list_elem_of_In. rewrite Forall_forall in Hd. apply Z.eqb_eq. by rewrite Hd.
    + destruct (forallb _ _) eqn:Ef; [|done]. destruct Hd. apply Forall_forall. intros r Hin%list_elem_of_In.
      rewrite forallb_forall in Ef. specialize (Ef r Hin). lia.
  - intros r Hin Hl Hemp Hne Hhd. assert (forallb (fun r => lenZ r =? lenZ (hd [] (full_cells <$> rows))) (rows_of (full_cells <$> rows)) = false) as ->; [|done].
    apply not_true_is_false. rewrite forallb_forall. intros Hall.
    assert (Hx : full_cells r ∈ rows_of (full_cells <$> rows)).
    { apply list_elem_of_filter. split; [done|]. by apply list_elem_of_fmap_2. }
    apply list_elem_of_In in Hx. specialize (Hall _ Hx). apply Z.eqb_eq in Hall.
    assert (hd [] (full_cells <$> rows) = hd [] rows) as E by (destruct rows; [done|]; simpl; by apply full_cells_id).
    rewrite E, <-Hl in Hall. clear -Hall Hemp.
    apply list_elem_of_split in Hemp as (r1 & r2 & ->). unfold full_cells in Hall.
    rewrite filter_app, filter_cons_False in Hall by auto. rewrite !length_app in Hall. simpl in Hall.
    pose proof (length_filter (fun c : text => c <> []) r1). pose proof (length_filter (fun c : text => c <> []) r2). lia.
Qed.

(** What a file that loads looks like: all rows have the same number of cells, and at least one. *)
Lemma csv_load_rectangular `{Files} path lines :
  csv_load path [] = (true, lines) -> exists m, (0 < m)%nat /\ Forall (fun r => length r = m) lines.
Proof.
  destruct (open_file path) as [content|] eqn:Ho; [rewrite (csv_load_eq _ _ _ Ho)|unfold csv_load; rewrite Ho].
  2: { intros [= <-]. exists 1%nat. split; [lia|constructor]. }
  cbv zeta. destruct (rectangular _) eqn:Hr; [|done]. intros [= <-]. unfold rectangular in Hr.
  set (cells := parseLine <$> getlines [] content) in *. clearbody cells. rewrite forallb_forall in Hr.
  assert (Hne : forall r, r ∈ rows_of cells -> (0 < length r)%nat /\ length r = length (hd [] cells)).
  { intros r Hin. pose proof Hin as Hin2. apply list_elem_of_In in Hin2. apply Hr, Z.eqb_eq in Hin2.
    apply list_elem_of_filter in Hin as [Hn _]. split; [destruct r; [done|simpl; lia]|lia]. }
  destruct (rows_of cells) as [|r rs] eqn:E; [exists 1%nat; split; [lia|constructor]|].
  exists (length (hd [] cells)). split; [destruct (Hne r) as [? <-]; [set_solver|done]|].
  apply Forall_forall. intros x Hx. by apply Hne.
Qed.

(** ** The generated text *)

Lemma column_conv_member type c name :
  column_conv type = Some c -> (t ← member_type type; Some (t ++ name ++ L";" ++ endl)) = Some (print_member (name, c)).
Proof.
  unfold column_conv, member_type, print_member.
  destruct (word_is type "int"); [intros [= <-]; reflexivity|].
  destruct (word_is type "int64"); [intros [= <-]; reflexivity|].
  destruct (word_is type "string"); [intros [= <-]; reflexivity|].
  destruct (word_is type "bool"); [intros [= <-]; reflexivity|done].
Qed.

Lemma column_conv_None type : column_conv type = None <-> member_type type = None.
Proof. unfold column_conv, member_type. by repeat case_match. Qed.

Lemma writeMembers_eq names types :
  length names = length types ->
  match mapM column_conv types with
  | Some convs => writeMembers (zip names types) = Some (true, concat (print_member <$> zip names convs))
  | None => exists t, writeMembers (zip names types) = Some (false, t)
  end.
Proof.
  revert types. induction names as [|name names IH]; intros [|ty types] Hl; try done.
  change (zip (name :: names) (ty :: types)) with ((name, ty) :: zip names types).
  cbn [mapM mbind option_bind writeMembers]. destruct (column_conv ty) as [cv|] eqn:Ec; cbn [mbind option_bind].
  - pose proof (column_conv_member ty cv name Ec) as Hm. apply bind_Some in Hm as (t & Et & [= Em]). rewrite Et.
    specialize (IH types ltac:(simpl in Hl; lia)). destruct (mapM column_conv types) as [convs|]; cbn [mbind option_bind].
    + rewrite IH. change (zip (name :: names) (cv :: convs)) with ((name, cv) :: zip names convs). csimpl. by rewrite Em.
    + destruct IH as [t' ->]. eexists. reflexivity.
  - apply column_conv_None in Ec. rewrite Ec. by eexists.
Qed.

Lemma assign_text_eq name type c i :
  column_conv type = Some c -> assign_text name type (Z.of_nat i) = Some (print_assign i (name, c)).
Proof.
  unfold column_conv, assign_text, print_assign, print_column, print_cell, fst, snd. intros H.
  destruct (word_is type "int"); [injection H as <-; by rewrite <-!app_assoc|].
  destruct (word_is type "int64"); [injection H as <-; by rewrite <-!app_assoc|].
  destruct (word_is type "string"); [injection H as <-; by rewrite <-!app_assoc|].
  destruct (word_is type "bool"); [injection H as <-; by rewrite <-!app_assoc|done].
Qed.

Lemma writeAssigns_eq pre names types convs :
  length names = length types -> mapM column_conv types = Some convs ->
  writeAssigns (pre ++ names) types (lenZ pre) =
    Some (true, concat (imap (fun i => print_assign (length pre + i)) (zip names convs))).
Proof.
  revert pre names convs. induction types as [|ty types IH]; intros pre [|name names] convs Hl Hc; try done.
  cbn [mapM mbind option_bind] in Hc. apply bind_Some in Hc as (cv & Ec & Hc). apply bind_Some in Hc as (convs' & Hc & [= <-]).
  change (zip (name :: names) (cv :: convs')) with ((name, cv) :: zip names convs').
  cbn [writeAssigns imap]. rewrite Nat2Z.id, lookup_app_r, Nat.sub_diag by lia. cbn [lookup list_lookup mbind option_bind].
  rewrite (assign_text_eq _ _ _ _ Ec).
  specialize (IH (pre ++ [name]) names convs' ltac:(simpl in Hl; lia) Hc).
  rewrite <-app_assoc, length_app in IH. simpl in IH. replace (lenZ pre + 1) with (Z.of_nat (length pre + 1)) by lia.
  rewrite IH. unfold out_then, out. cbn [mbind option_bind negb concat]. rewrite Nat.add_0_r. do 3 f_equal.
  f_equal. apply imap_ext. intros i x _. simpl. by rewrite <-Nat.add_assoc.
Qed.

Lemma column_conv_word type c : column_conv type = Some c -> type = chars (conv_word c).
Proof.
  unfold column_conv, word_is. intros H.
  repeat (case_bool_decide as Hw; [injection H as <-; exact Hw|clear Hw]). done.
Qed.

(** The pieces that the generator writes make up the text of the program. *)
Lemma header_text fn P kn kt :
  source_head ++ (struct_head fn ++ concat (print_member <$> cp_columns P) ++ struct_tail) ++
    class_head fn kt ++ ((parse_head fn ++ parse_loop (cp_lines P)) ++ concat (imap print_assign (cp_columns P)) ++ parse_tail fn kt kn) ++
    class_tail fn kt = print_table fn P kn kt.
Proof.
  unfold print_table, code, source_head, struct_head, struct_tail, class_head, writeCountFunc, writeLoadFunc, writeCloseFunc, writeGetFunc,
    parse_head, parse_loop, parse_tail, class_tail, object_set_type.
  cbn [fmap list_fmap concat]. repeat match goal with |- context [chars ?s] => generalize (chars s); intros ? end.
  by rewrite ?app_nil_r, <-!app_assoc.
Qed.

(** The header of a table is the text of its program, and it is written exactly when there is one. *)
Lemma source_init_eq `{Files} path lines fn names types :
  csv_load path [] = (true, lines) -> source_name path = Some fn -> lines !! 0%nat = Some names -> lines !! 1%nat = Some types ->
  match program_of lines with
  | None => exists t, source_init path = Some (false, Some (fn ++ L".h", t))
  | Some P => exists kn conv, cp_columns P !! KEY_INDEX = Some (kn, conv) /\
      source_init path = Some (true, Some (fn ++ L".h", print_table fn P kn (chars (conv_word conv))))
  end.
Proof.
  intros Hl Hfn Hn Ht. destruct (csv_load_rectangular _ _ Hl) as (m & Hm & Hall).
  assert (length names = m /\ length types = m) as [En Et] by (split; by eapply Forall_lookup_1 in Hall).
  unfold source_init. rewrite Hl. simpl negb. cbv iota. rewrite Hfn. change (Z.to_nat NAME_LINE_INDEX) with 0%nat.
  change (Z.to_nat TYPE_LINE_INDEX) with 1%nat. rewrite Hn, Ht. cbn [mbind option_bind].
  pose proof (writeMembers_eq names types ltac:(congruence)) as Hw.
  unfold program_of. rewrite Hn, Ht. cbn [mbind option_bind]. unfold writeStruct.
  rewrite (proj2 (Z.eqb_neq (lenZ names) 0)) by lia. rewrite (proj2 (Z.eqb_eq (lenZ names) (lenZ types))) by lia. simpl orb. cbv iota.
  destruct (mapM column_conv types) as [convs|] eqn:Ec; cbn [mbind option_bind].
  2: { destruct Hw as [t ->]. eexists. reflexivity. }
  rewrite Hw. unfold writeClassBody, writeParseDataFunc. change (Z.to_nat NAME_LINE_INDEX) with 0%nat.
  change (Z.to_nat TYPE_LINE_INDEX) with 1%nat. rewrite Hn, Ht. cbn [mbind option_bind].
  assert (writeAssigns names types 0 = Some (true, concat (imap print_assign (zip names convs)))) as ->
    by exact (writeAssigns_eq [] names types convs ltac:(congruence) Ec).
  destruct types as [|ty types]; [simpl in Et; lia|]. destruct names as [|nm names]; [simpl in En; lia|].
  cbn [KEY_INDEX lookup list_lookup mbind option_bind cp_columns cp_lines]. unfold out, out_seq, out_then. cbn [mbind option_bind negb].
  cbn [mapM mbind option_bind] in Ec. apply bind_Some in Ec as (cv & Ev & Ec). apply bind_Some in Ec as (cvs & _ & [= <-]).
  exists nm, cv. split; [done|]. rewrite <-(column_conv_word _ _ Ev). rewrite <-header_text. reflexivity.
Qed.

(** ** The table that was loaded *)

(** The members that a row of cells gives. *)
Definition row_record (P : CsvProgram) (line : list text) : option CsvRow := exec_columns line 0 (cp_columns P) ∅.

Lemma exec_columns_frame line i cols data :
  exec_columns line i cols data = (fun r => r ∪ data) <$> exec_columns line i cols ∅.
Proof.
  revert i data. induction cols as [|[name conv] cols IH]; intros i data; cbn [exec_columns]; [cbn; by rewrite map_empty_union|].
  destruct (line !! i) as [cell|]; [|done]. cbn [mbind option_bind]. destruct (convert conv cell) as [v|]; [|done].
  cbn [mbind option_bind]. rewrite IH, (IH _ (<[name:=v]> ∅)). destruct (exec_columns line (S i) cols ∅) as [r|]; [|done]. cbn.
  f_equal. rewrite <-map_union_assoc. f_equal. by rewrite <-insert_union_l, map_empty_union.
Qed.

Lemma exec_columns_dom line i cols data r :
  exec_columns line i cols data = Some r -> dom r = list_to_set (fst <$> cols) ∪ dom data.
Proof.
  revert i data. induction cols as [|[name conv] cols IH]; intros i data H; cbn [exec_columns] in H.
  - injection H as <-. simpl. set_solver.
  - apply bind_Some in H as (cell & _ & H). apply bind_Some in H as (v & _ & H). apply IH in H. rewrite H, dom_insert_L. simpl. set_solver.
Qed.

(** What an earlier row left in [data] is overwritten. *)
Lemma exec_columns_fresh P line data r0 :
  dom data ⊆ (list_to_set (fst <$> cp_columns P) : gset text) -> row_record P line = Some r0 ->
  exec_columns line 0 (cp_columns P) data = Some r0.
Proof.
  intros Hd Hr. unfold row_record in Hr. rewrite exec_columns_frame, Hr. cbn. f_equal. apply exec_columns_dom in Hr.
  apply map_eq. intros k. rewrite lookup_union. destruct (r0 !! k) as [v|] eqn:E; [by destruct (data !! k)|].
  destruct (data !! k) as [v|] eqn:Ed; [|done]. exfalso. apply not_elem_of_dom in E. apply E. rewrite Hr.
  apply elem_of_union_l, Hd. apply elem_of_dom. by exists v.
Qed.

(** Each member has the value of its column. *)
Lemma exec_columns_lookup line i cols data r k name conv :
  NoDup (fst <$> cols) -> exec_columns line i cols data = Some r -> cols !! k = Some (name, conv) ->
  exists cell v, line !! (i + k)%nat = Some cell /\ convert conv cell = Some v /\ r !! name = Some v.
Proof.
  revert i data k. induction cols as [|[nm cv] cols IH]; intros i data k Hn H Hk; [done|]. cbn [exec_columns] in H.
  apply bind_Some in H as (cell & Hc & H). apply bind_Some in H as (v & Hv & H). csimpl in Hn.
  apply NoDup_cons in Hn as [Hnm Hn]. destruct k as [|k].
  - injection Hk as <- <-. exists cell, v. rewrite Nat.add_0_r. split; [done|]. split; [done|].
    rewrite exec_columns_frame in H. destruct (exec_columns line (S i) cols ∅) as [r'|] eqn:E; [|done]. injection H as <-.
    apply exec_columns_dom in E. apply lookup_union_Some_raw. right. split; [|by rewrite lookup_insert_eq].
    apply not_elem_of_dom. rewrite E. rewrite dom_empty_L. set_solver.
  - simpl in Hk. destruct (IH (S i) _ k Hn H Hk) as (c & w & H1 & H2 & H3). exists c, w. by rewrite Nat.add_succ_r.
Qed.

(** The table holds the rows [recs]: its objects are theirs, in order, and a key finds the first row that has it. *)
Record holds (kn : text) (recs : list CsvRow) (st : CsvStore) : Prop := mkHolds {
  hd_nodup : NoDup (objs_vec_ (cs_objs st));
  hd_rows : Forall2 (fun p r => cs_heap st !! p = Some r /\ p <> NULL) (objs_vec_ (cs_objs st)) recs;
  hd_dom : dom (cs_heap st) = (list_to_set (objs_vec_ (cs_objs st)) : gset Z);
  hd_keys : forall key, objs_map_ (cs_objs st) !! key =
    match list_find (fun r => r !! kn = Some key) recs with Some (i, _) => objs_vec_ (cs_objs st) !! i | None => None end;
}.

Lemma holds_new kn : holds kn [] CsvStore_new.
Proof. constructor; simpl; [constructor|constructor|set_solver|by intros; rewrite lookup_empty]. Qed.

Lemma list_find_singleton {A} (P : A -> Prop) `{!forall x, Decision (P x)} x :
  list_find P [x] = if decide (P x) then Some (0%nat, x) else None.
Proof. cbn. by destruct (decide (P x)). Qed.

Lemma holds_store kn recs st key data :
  holds kn recs st -> data !! kn = Some key -> holds kn (recs ++ [data]) (store_row key data st).
Proof.
  intros [Hn Hr Hd Hk] Hkey. unfold store_row, newObject. set (d := fresh_ptr (cs_heap st)).
  assert (Hf : cs_heap st !! d = None) by apply fresh_ptr_fresh.
  assert (Hnd : d ∉ objs_vec_ (cs_objs st)).
  { intros Hin. apply not_elem_of_dom in Hf. apply Hf. rewrite Hd. by apply elem_of_list_to_set. }
  pose proof (Forall2_length _ _ _ Hr) as Hl.
  constructor; simpl.
  - apply NoDup_app. split; [done|]. split; [set_solver|apply NoDup_singleton].
  - apply Forall2_app; [|constructor; [|constructor]; split; [by rewrite lookup_insert_eq|apply fresh_ptr_not_null]].
    eapply Forall2_impl; [exact Hr|]. intros p r [Hp Hp0]. split; [|done]. rewrite lookup_insert_ne by congruence. done.
  - rewrite dom_insert_L, Hd, list_to_set_app_L. simpl. set_solver.
  - intros k. pose proof (Hk k) as Hkk. pose proof (Hk key) as Hkey'.
    destruct (list_find (fun r => r !! kn = Some k) recs) as [[i r]|] eqn:E.
    + rewrite (list_find_app_l _ _ _ _ _ E). apply list_find_Some in E as (Hi & Hrk & _).
      assert (Hlt : (i < length (objs_vec_ (cs_objs st)))%nat) by (rewrite Hl; by eapply lookup_lt_Some).
      rewrite lookup_app_l by done. destruct (objs_map_ (cs_objs st) !! key) as [q|] eqn:Eq; [done|].
      rewrite lookup_insert_ne; [done|]. intros ->. rewrite Hkk in Eq. by apply lookup_ge_None in Eq; lia.
    + rewrite (list_find_app_r _ _ _ E), list_find_singleton. destruct (decide (data !! kn = Some k)) as [Hdk|Hdk]; cbn.
      * assert (k = key) as -> by congruence. rewrite Hkk. rewrite lookup_insert_eq.
        rewrite lookup_app_r by lia. by rewrite Hl, Nat.sub_diag.
      * destruct (objs_map_ (cs_objs st) !! key) as [q|] eqn:Eq; [done|]. rewrite lookup_insert_ne by congruence. done.
Qed.

Lemma parse_rows_holds P kn conv lines i n data st recs recs' :
  cp_columns P !! KEY_INDEX = Some (kn, conv) ->
  dom data ⊆ (list_to_set (fst <$> cp_columns P) : gset text) ->
  mapM (row_record P) (take n (drop i lines)) = Some recs' -> (i + n <= length lines)%nat ->
  holds kn recs st -> exists st', parse_rows P lines i n data st = Some st' /\ holds kn (recs ++ recs') st'.
Proof.
  intros Hc. revert i data st recs recs'. induction n as [|n IH]; intros i data st recs recs' Hd Hm Hle Hh.
  - injection Hm as <-. exists st. by rewrite app_nil_r.
  - destruct (lookup_lt_is_Some_2 lines i ltac:(lia)) as [line Hi]. rewrite (drop_S _ _ _ Hi) in Hm.
    cbn [take mapM] in Hm. apply bind_Some in Hm as (r & Hr & Hm). apply bind_Some in Hm as (rs & Hm & [= <-]).
    cbn [parse_rows]. rewrite Hi. cbn [mbind option_bind]. rewrite (exec_columns_fresh P line data r Hd Hr).
    cbn [mbind option_bind]. rewrite Hc. cbn [mbind option_bind fst].
    pose proof (exec_columns_dom _ _ _ _ _ Hr) as Hdom.
    destruct (r !! kn) as [key|] eqn:Hkey.
    2: { exfalso. apply not_elem_of_dom in Hkey. apply Hkey. rewrite Hdom. apply elem_of_union_l, elem_of_list_to_set.
         apply list_elem_of_fmap. exists (kn, conv). split; [done|]. by eapply list_elem_of_lookup_2. }
    cbn [mbind option_bind]. destruct (IH (S i) r (store_row key r st) (recs ++ [r]) rs) as (st' & E & Hh'); [|done|lia|by apply holds_store|].
    + rewrite Hdom, dom_empty_L. set_solver.
    + exists st'. by rewrite <-app_assoc in Hh'.
Qed.

(** What [holds] means for the functions of the table. *)
Lemma holds_table kn recs st :
  holds kn recs st ->
  table_count st = lenZ recs /\
  (forall i, 0 <= i -> table_getByIndex i st = recs !! Z.to_nat i) /\
  (forall key, table_get key st = snd <$> list_find (fun r => r !! kn = Some key) recs).
Proof.
  intros [Hn Hr Hd Hk]. pose proof (Forall2_length _ _ _ Hr) as Hl.
  assert (Hidx : forall i, (p ← objs_vec_ (cs_objs st) !! i; cs_heap st !! p) = recs !! i).
  { intros i. destruct (recs !! i) as [r|] eqn:E.
    - destruct (Forall2_lookup_r _ _ _ _ _ Hr E) as (p & -> & Hp & _). done.
    - apply lookup_ge_None in E. by rewrite lookup_ge_None_2 by lia. }
  split; [unfold table_count, os_count; lia|]. split; [intros i Hi; apply Hidx|].
  intros key. unfold table_get, getByKey. rewrite Hk.
  destruct (list_find _ recs) as [[i r]|] eqn:E; [|done]. rewrite Hidx. by apply list_find_Some in E as (-> & _).
Qed.

Lemma delete_all_holds (l : list ptr) (h : gmap Z CsvRow) :
  NoDup l -> Forall (fun p => p <> NULL) l -> dom h = (list_to_set l : gset Z) -> delete_all l h = Some ∅.
Proof.
  revert h. induction l as [|p l IH]; intros h Hn Hl Hd; cbn [delete_all].
  - f_equal. apply dom_empty_inv_L. exact Hd.
  - apply NoDup_cons in Hn as [Hp Hn]. apply Forall_cons in Hl as [H0 Hl]. rewrite (proj2 (Z.eqb_neq _ _) H0).
    assert (is_Some (h !! p)) as [r Hr] by (apply elem_of_dom; rewrite Hd; set_solver). rewrite Hr. cbn [mbind option_bind].
    apply IH; [done|done|]. rewrite dom_delete_L, Hd. set_solver.
Qed.

Lemma holds_close kn recs st : holds kn recs st -> table_close st = Some CsvStore_new.
Proof.
  intros [Hn Hr Hd _]. unfold table_close, os_clear. rewrite delete_all_holds; [done|done| |done].
  clear -Hr. induction Hr as [|p r ps rs [_ Hp] _ IH]; by constructor.
Qed.

Lemma parseData_holds P kn conv lines recs :
  cp_columns P !! KEY_INDEX = Some (kn, conv) -> 3 <= lenZ lines ->
  mapM (row_record P) (take (Z.to_nat (cp_lines P - 2)) (drop 2 lines)) = Some recs -> cp_lines P <= lenZ lines ->
  exists st, parseData P lines CsvStore_new = Some (true, st) /\ holds kn recs st.
Proof.
  intros Hc H3 Hm Hle. unfold parseData. rewrite (proj2 (Z.ltb_ge (lenZ lines) MIN_LINE_COUNT)) by (unfold MIN_LINE_COUNT; lia).
  destruct (parse_rows_holds P kn conv lines 2 (Z.to_nat (cp_lines P - 2)) ∅ CsvStore_new [] recs Hc) as (st & E & Hh);
    [rewrite dom_empty_L; set_solver|done|lia|apply holds_new|].
  exists st. change (Z.to_nat DATA_LINE_START_INDEX) with 2%nat. change DATA_LINE_START_INDEX with 2. by rewrite E.
Qed.

Lemma compiles_key P : compiles P = true -> exists kn conv, cp_columns P !! KEY_INDEX = Some (kn, conv).
Proof. unfold compiles. destruct (cp_columns P !! KEY_INDEX) as [[kn conv]|]; [eauto|done]. Qed.

Lemma compiles_names P : compiles P = true -> NoDup (fst <$> cp_columns P).
Proof. unfold compiles. destruct (cp_columns P !! KEY_INDEX) as [[kn []]|]; try done; apply bool_decide_eq_true. Qed.

Lemma table_load_eq `{Files} P path lines st : compiles P = true -> csv_load path [] = (true, lines) ->
  table_load P path st = parseData P lines st.
Proof. intros Hc Hl. unfold table_load. by rewrite Hc, Hl. Qed.

(** The rows that are read are readable. *)
Lemma parse_rows_readable P lines i n data st st' :
  parse_rows P lines i n data st = Some st' ->
  (n = 0 \/ i + n <= length lines)%nat /\ Forall (fun line => is_Some (row_record P line)) (take n (drop i lines)).
Proof.
  revert i data st. induction n as [|n IH]; intros i data st E; [split; [by left|constructor]|]. cbn [parse_rows] in E.
  apply bind_Some in E as (line & Hi & E). apply bind_Some in E as (r & Hr & E). apply bind_Some in E as (kc & _ & E).
  apply bind_Some in E as (key & _ & E). apply IH in E as [H1 H2]. apply lookup_lt_Some in Hi as Hlt.
  split; [right; lia|]. rewrite (drop_S _ _ _ Hi). cbn [take]. constructor; [|done].
  unfold row_record. rewrite exec_columns_frame in Hr. destruct (exec_columns line 0 (cp_columns P) ∅); [by eexists|done].
Qed.

Lemma parseData_safe_iff P lines : is_Some (cp_columns P !! KEY_INDEX) -> 3 <= lenZ lines ->
  is_Some (parseData P lines CsvStore_new) <->
    cp_lines P <= lenZ lines /\ Forall (fun line => is_Some (row_record P line)) (take (Z.to_nat (cp_lines P - 2)) (drop 2 lines)).
Proof.
  intros [[kn conv] Hc] H3. split.
  - intros [[ok st] E]. unfold parseData in E. rewrite (proj2 (Z.ltb_ge _ _)) in E by (unfold MIN_LINE_COUNT; lia).
    apply bind_Some in E as (st' & E & _). apply parse_rows_readable in E as [H1 H2].
    change (Z.to_nat DATA_LINE_START_INDEX) with 2%nat in *. change DATA_LINE_START_INDEX with 2 in *. split; [lia|exact H2].
  - intros [Hle Hall]. destruct (mapM_is_Some_2 (row_record P) _ Hall) as [recs Hm].
    destruct (parseData_holds P kn conv lines recs Hc H3 Hm Hle) as (st & -> & _). by eexists.
Qed.

(** C23.  From the table to the game.  When the generator accepts a table with a key of type [int] or [bool] whose columns have
    different names, for others its header does not compile ([compiles]), the header it writes is, letter for letter, that of
    the table's program; and that program, given the same file, is memory safe and loads it:
    there is one object for every data row, [getByIndex] finds them in order, every member has the value of its column,
    [get] finds the first row that has the key and nothing for a key that no row has, and [close] frees every object
    exactly once. *)
Theorem generated_table_loads : forall `{Files} path lines fn P kn conv recs,
  csv_load path [] = (true, lines) -> source_name path = Some fn ->
  program_of lines = Some P -> compiles P = true -> cp_columns P !! KEY_INDEX = Some (kn, conv) -> 3 <= lenZ lines ->
  mapM (row_record P) (drop 2 lines) = Some recs ->
  source_init path = Some (true, Some (fn ++ L".h", print_table fn P kn (chars (conv_word conv)))) /\
  exists st, table_load P path CsvStore_new = Some (true, st) /\ table_count st = lenZ lines - 2 /\
    (forall i, 0 <= i -> table_getByIndex i st = recs !! Z.to_nat i) /\
    (forall i line r k name cv, drop 2 lines !! i = Some line -> recs !! i = Some r -> cp_columns P !! k = Some (name, cv) ->
      exists cell v, line !! k = Some cell /\ convert cv cell = Some v /\ r !! name = Some v) /\
    (forall key, table_get key st = snd <$> list_find (fun r => r !! kn = Some key) recs) /\
    table_close st = Some CsvStore_new.
Proof.
  intros F path lines fn P kn conv recs Hl Hfn HP Hcomp Hc H3 Hm. pose proof HP as HP'. unfold program_of in HP'.
  apply bind_Some in HP' as (names & Hn & HP'). apply bind_Some in HP' as (types & Ht & HP').
  apply bind_Some in HP' as (convs & _ & [= EP]). split.
  { pose proof (source_init_eq path lines fn names types Hl Hfn Hn Ht) as Hs. rewrite HP in Hs.
    destruct Hs as (kn' & conv' & Hc' & Hs). rewrite Hc in Hc'. by injection Hc' as <- <-. }
  assert (HL : cp_lines P = lenZ lines) by by rewrite <-EP. clear EP. pose proof (compiles_names _ Hcomp) as Hnd.
  destruct (parseData_holds P kn conv lines recs Hc H3) as (st & E & Hh); [rewrite take_ge; [done|rewrite length_drop; lia]|lia|].
  destruct (holds_table _ _ _ Hh) as (T1 & T2 & T3). apply length_mapM in Hm as Hlen. rewrite length_drop in Hlen.
  exists st. rewrite (table_load_eq _ _ _ _ Hcomp Hl). split; [done|]. split; [lia|]. split; [done|]. split; [|split; [done|by eapply holds_close]].
  intros i line r k name cv Hi Hr Hk. apply mapM_Some_1 in Hm.
  pose proof (Forall2_lookup_lr _ _ _ _ _ _ Hm Hi Hr) as Hrec.
  by apply (exec_columns_lookup line 0 (cp_columns P) ∅ r k name cv).
Qed.

(** C33.  A table that has changed.  The number of rows is compiled into the generated class.  Given any other file that can be
    read it stays memory safe if and only if the file has fewer than three lines, which it refuses, or has at least as many lines
    as the table had when the class was generated and each of the rows up to there has all columns with numbers
    that [atoi] can represent; of a file that it loads it has these rows, and not those after them. *)
Theorem stale_table_iff : forall `{Files} P path lines,
  csv_load path [] = (true, lines) -> compiles P = true ->
  let rows := take (Z.to_nat (cp_lines P - 2)) (drop 2 lines) in
  (is_Some (table_load P path CsvStore_new) <->
    lenZ lines < 3 \/ (cp_lines P <= lenZ lines /\ Forall (fun line => is_Some (row_record P line)) rows)) /\
  (lenZ lines < 3 -> table_load P path CsvStore_new = Some (false, CsvStore_new)) /\
  (forall ok st, 3 <= lenZ lines -> table_load P path CsvStore_new = Some (ok, st) ->
    ok = true /\ table_count st = Z.max 0 (cp_lines P - 2) /\
    forall i, 0 <= i -> table_getByIndex i st = line ← rows !! Z.to_nat i; row_record P line).
Proof.
  intros F P path lines Hl Hcomp rows. rewrite (table_load_eq _ _ _ _ Hcomp Hl). destruct (compiles_key _ Hcomp) as (kn & conv & Hc).
  destruct (decide (lenZ lines < 3)) as [H3|H3].
  { assert (parseData P lines CsvStore_new = Some (false, CsvStore_new)) as ->
      by (unfold parseData; by rewrite (proj2 (Z.ltb_lt (lenZ lines) MIN_LINE_COUNT)) by (unfold MIN_LINE_COUNT; lia)).
    split; [split; [by left|by eexists]|]. split; [done|]. intros; lia. }
  assert (Hiff : is_Some (parseData P lines CsvStore_new) <->
    cp_lines P <= lenZ lines /\ Forall (fun line => is_Some (row_record P line)) rows) by (apply parseData_safe_iff; [by rewrite Hc|lia]).
  split; [rewrite Hiff; split; [by right|by intros [?|?]; [lia|]]|]. split; [lia|]. intros ok st' _ E'.
  destruct (proj1 Hiff ltac:(by eexists)) as [Hle Hall]. destruct (mapM_is_Some_2 (row_record P) rows Hall) as [recs Hm].
  destruct (parseData_holds P kn conv lines recs Hc ltac:(lia) Hm Hle) as (st & E & Hh). rewrite E in E'. injection E' as <- <-.
  destruct (holds_table _ _ _ Hh) as (T1 & T2 & _). apply length_mapM in Hm as Hlen. unfold rows in Hlen.
  rewrite length_take, length_drop in Hlen. split; [done|]. split; [lia|]. intros i Hi. rewrite T2 by done. apply mapM_Some_1 in Hm.
  destruct (rows !! Z.to_nat i) as [line|] eqn:Er; cbn [mbind option_bind].
  - destruct (Forall2_lookup_l _ _ _ _ _ Hm Er) as (r & -> & ->). done.
  - apply lookup_ge_None. apply lookup_ge_None in Er. by rewrite <-(Forall2_length _ _ _ Hm).
Qed.

(** ** Witnesses: a table of items, and what is left of it when its last row is cut off *)

Definition demo_rows : csv_lines :=
  [[L"id"; L"name"; L"max_count"; L"price"]; [L"int"; L"string"; L"int"; L"int"];
   [L"10001"; L"dw1"; L"10"; L"1"]; [L"10002"; L"dw2"; L"20"; L"2"]; [L"10001"; L"dw3"; L"30"; L"3"]].
Definition demo_csv_files : Files := mkFiles
  (fun path => if decide (path = L"csv/item.csv") then Some (csv_print [13; 10] demo_rows)
               else if decide (path = L"csv/cut.csv") then Some (csv_print [10] (take 4 demo_rows)) else None)
  (fun _ => None).
Definition demo_program : CsvProgram :=
  mkCsvProgram [(L"id", CInt); (L"name", CString); (L"max_count", CInt); (L"price", CInt)] 5.
Definition demo_records : list CsvRow := default [] (mapM (row_record demo_program) (drop 2 demo_rows)).

Definition readable (P : CsvProgram) (lines : csv_lines) : bool :=
  match mapM (row_record P) lines with Some _ => true | None => false end.

Lemma readable_rows P lines : readable P lines = true -> mapM (row_record P) lines = Some (default [] (mapM (row_record P) lines)).
Proof. unfold readable. by destruct (mapM _ _). Qed.

Lemma readable_all P lines : readable P lines = true -> Forall (fun line => is_Some (row_record P line)) lines.
Proof. intros H. apply (mapM_is_Some_1 (row_record P)). rewrite (readable_rows P lines H). by eexists. Qed.

Lemma csv_roundtrip_iff_witness :
  (is_eol [13; 10] /\ Forall (Forall plain_cell) demo_rows /\
   @open_file demo_csv_files (L"csv/item.csv") = Some (csv_print [13; 10] demo_rows)) /\
  @csv_load demo_csv_files (L"csv/item.csv") [] = (true, demo_rows).
Proof.
  assert (He : is_eol [13; 10]) by (right; reflexivity).
  assert (Hp : Forall (Forall plain_cell) demo_rows).
  { repeat (apply Forall_cons; split); try apply Forall_nil_2; vm_compute; repeat constructor; discriminate. }
  assert (Ho : @open_file demo_csv_files (L"csv/item.csv") = Some (csv_print [13; 10] demo_rows)) by (vm_compute; reflexivity).
  split; [split; [exact He|split; [exact Hp|exact Ho]]|].
  apply (proj1 (@csv_roundtrip_iff demo_csv_files (L"csv/item.csv") [13; 10] demo_rows He Hp Ho)).
  repeat (apply Forall_cons; split); try apply Forall_nil_2;
    (split; [discriminate|split; [repeat (apply Forall_cons; split); try apply Forall_nil_2; vm_compute; discriminate|reflexivity]]).
Defined.

Lemma generated_table_loads_witness :
  (@csv_load demo_csv_files (L"csv/item.csv") [] = (true, demo_rows) /\ program_of demo_rows = Some demo_program /\
   mapM (row_record demo_program) (drop 2 demo_rows) = Some demo_records) /\
  exists st, @table_load demo_csv_files demo_program (L"csv/item.csv") CsvStore_new = Some (true, st) /\ table_count st = 3 /\
    (r ← table_get (VInt 10001) st; r !! L"max_count") = Some (VInt 10) /\ table_get (VInt 7) st = None /\
    table_close st = Some CsvStore_new.
Proof.
  assert (Hl : @csv_load demo_csv_files (L"csv/item.csv") [] = (true, demo_rows)) by (vm_compute; reflexivity).
  assert (HP : program_of demo_rows = Some demo_program) by (vm_compute; reflexivity).
  assert (Hm : mapM (row_record demo_program) (drop 2 demo_rows) = Some demo_records) by (apply readable_rows; vm_compute; reflexivity).
  split; [split; [exact Hl|split; [exact HP|exact Hm]]|].
  assert (Hfn : source_name (L"csv/item.csv") = Some (L"item")) by (vm_compute; reflexivity).
  destruct (@generated_table_loads demo_csv_files (L"csv/item.csv") demo_rows (L"item") demo_program (L"id") CInt demo_records
    Hl Hfn HP ltac:(vm_compute; reflexivity) eq_refl ltac:(vm_compute; discriminate) Hm) as (_ & st & E & Hcnt & _ & _ & Hget & Hcl).
  exists st. split; [exact E|]. split; [exact Hcnt|]. rewrite !Hget. split; [vm_compute; reflexivity|].
  split; [vm_compute; reflexivity|exact Hcl].
Defined.

Lemma stale_table_iff_witness :
  (@csv_load demo_csv_files (L"csv/cut.csv") [] = (true, take 4 demo_rows) /\ compiles demo_program = true) /\
  ~ is_Some (@table_load demo_csv_files demo_program (L"csv/cut.csv") CsvStore_new).
Proof.
  assert (Hl : @csv_load demo_csv_files (L"csv/cut.csv") [] = (true, take 4 demo_rows)) by (vm_compute; reflexivity).
  assert (Hc : compiles demo_program = true) by (vm_compute; reflexivity).
  split; [split; [exact Hl|exact Hc]|]. intros Hs.
  pose proof (@stale_table_iff demo_csv_files demo_program (L"csv/cut.csv") (take 4 demo_rows) Hl Hc) as [Hiff _].
  apply Hiff in Hs as [Hs|[Hs _]]; vm_compute in Hs; [discriminate Hs|apply Hs; reflexivity].
Defined.
