(* ===== verification/GateLink.v ===== *)
(** * The gate server's links to other servers ([gate_server/gate_server.*], [gate_server/conn_config_handler.*])

    One master makes the client of the config server and the clients of the login servers.  The config server names
    the login servers; for each the gate starts a client, which it records by the login server's id.  Start-up and the
    tables of [config_data.h] are here too; the handlers of clients, the game server and login servers are in
    [GateServer]. *)
From S2P Require Import Prelude Text Json ServerFiles Datatype EventHandler DataHandler2 ConnBuffer Connection ConnectionMgr TcpServer TcpClient Agent BiMap AppNet Proto Common GateClients GateServer.
From Stdlib Require Import ZArith Lia.
From stdpp Require Import base option list gmap.
Local Open Scope Z_scope.

(** [client_master_.init(10)]: the clients there can be. *)
Definition GATE_MAX_CLIENTS : Z := 10.
Definition CLIENT_RECONNECT_INTERVAL_SECS : Z := 3.

(** ** The tables of [config_data.h]: the buffers and handlers of each kind of connection *)

Section tables.
Context {App : Type}.
Notation handler := (jmy_msg_handler (World App)).
Notation event := (jmy_event_handler (World App)).

(** The static functions the tables name. *)
Record GateHandlers : Type := mkGateHandlers {
  client_processGetRoleRequest : handler;
  client_processCreateRoleRequest : handler;
  client_processEnterGameRequest : handler;
  client_processLeaveGameRequest : handler;
  client_processReconnectRequest : handler;
  client_processDefault : handler;
  client_events : event * event * event;             (** [onConnect], [onDisconnect] and [onTick] *)
  game_processConnectGateRequest : handler;
  game_processGetRoleResponse : handler;
  game_processCreateRoleResponse : handler;
  game_processDefault : handler;
  game_events : event * event * event;
  config_processConnectConfigResponse : handler;
  config_processNewLoginNotify : handler;
  config_processRemoveLoginNotify : handler;
  config_events : event * event * event;
  login_processConnectLoginResponse : handler;
  login_processSelectedServerNotify : handler;
  login_events : event * event * event;
}.

Definition base_handlers (e : event * event * event) : JmyBaseEventHandlers (World App) :=
  let '(c, d, t) := e in mkBaseEH (Some c) (Some d) (Some t) None.

Variable h : GateHandlers.

Definition s_client_config (max_conn : Z) : JmyServerConfig App :=
  mkServerConfig (Some [
    (MSGID_C2S_GET_ROLE_REQUEST, client_processGetRoleRequest h);
    (MSGID_C2S_CREATE_ROLE_REQUEST, client_processCreateRoleRequest h);
    (MSGID_C2S_ENTER_GAME_REQUEST, client_processEnterGameRequest h);
    (MSGID_C2S_LEAVE_GAME_REQUEST, client_processLeaveGameRequest h);
    (MSGID_C2S_RECONNECT_REQUEST, client_processReconnectRequest h)])
    (Some (client_processDefault h)) (base_handlers (client_events h)) None
    (mkJmyBufferConfig 2048 2048 0 0 false true) max_conn.

Definition s_game_config (max_conn : Z) : JmyServerConfig App :=
  mkServerConfig (Some [
    (MSGID_GS2GT_CONNECT_GATE_REQUEST, game_processConnectGateRequest h);
    (MSGID_GS2GT_GET_ROLE_RESPONSE, game_processGetRoleResponse h);
    (MSGID_GS2GT_CREATE_ROLE_RESPONSE, game_processCreateRoleResponse h)])
    (Some (game_processDefault h)) (base_handlers (game_events h)) None
    (mkJmyBufferConfig (2048 * 100) (2048 * 100) 0 0 false true) max_conn.

Definition s_config_config : JmyClientConfig App :=
  mkClientConfig (Some [
    (MSGID_CS2GT_CONNECT_CONFIG_RESPONSE, config_processConnectConfigResponse h);
    (MSGID_CS2GT_NEW_LOGIN_NOTIFY, config_processNewLoginNotify h);
    (MSGID_CS2GT_REMOVE_LOGIN_NOTIFY, config_processRemoveLoginNotify h)])
    None (base_handlers (config_events h)) None
    (mkJmyBufferConfig (1024 * 64) (1024 * 64) 0 0 false true) true CLIENT_RECONNECT_INTERVAL_SECS.

Definition s_login_config : JmyClientConfig App :=
  mkClientConfig (Some [
    (MSGID_LS2GT_CONNECT_LOGIN_RESPONSE, login_processConnectLoginResponse h);
    (MSGID_LS2GT_SELECTED_SERVER_NOTIFY, login_processSelectedServerNotify h)])
    None (base_handlers (login_events h)) None
    (mkJmyBufferConfig (1024 * 64) (1024 * 64) 0 0 false true) true CLIENT_RECONNECT_INTERVAL_SECS.
End tables.
Arguments GateHandlers : clear implicits.

(** ** The links *)

Section links.
Context {App : Type}.
Variable h : GateHandlers App.
(** The address of the connection manager of the clients, and the content of a new block. *)
Variable mgr : Z.
Variable garbage : Z -> list Z.
(** [ip::address::from_string] throws when it is given anything but an address. *)
Variable is_address : text -> bool.
(** [tmp_] of the handlers. *)
Variable tmp : bytes.
Context `{ServerMessages}.

(** [client_master_] and [login_client_set_], [config_client_], and the global data. *)
Record GateLinks : Type := mkLinks {
  gl_clients : Clients App;
  gl_config_client : option ptr;
  gl_gate : GateServer;
}.

Definition gl_set_clients (cs : Clients App) (g : GateLinks) : GateLinks := mkLinks cs (gl_config_client g) (gl_gate g).
Definition gl_set_gate (s : GateServer) (g : GateLinks) : GateLinks := mkLinks (gl_clients g) (gl_config_client g) s.

(** [client->setIP(ip, port)]. *)
Definition setIP (ip : text) (port : Z) (c : ptr) (m : JmyTcpClientMaster App) : option (JmyTcpClientMaster App) :=
  ub_unless (is_address ip);; cl_setEndPoint (ip, port) c m.

(** The client that was started, or null; a client that does not start stays generated. *)
Definition startLoginClient (now : Z) (ip : text) (port : Z) (cs : Clients App) : option (option ptr * Clients App) :=
  '(client, m) ← mt_generate (ct_master cs);
  match client with
  | None => Some (None, mkClients m (ct_set cs))
  | Some c =>
    m ← setIP ip port c m;
    '(ok, m) ← cl_start mgr garbage (s_login_config h) None c m;
    if negb ok then Some (None, mkClients m (ct_set cs)) else
    let '(added, set) := addClient c (Some (s_login_config h)) (ct_set cs) in
    if negb added then m ← cl_close garbage now c m; Some (None, mkClients m set) else
    Some (Some c, mkClients m set)
  end.

(** [GateServer::removeLoginClient] *)
Definition stopLoginClient (c : ptr) (cs : Clients App) : option (bool * Clients App) :=
  let '(r, set) := removeClient c (ct_set cs) in
  if negb r then Some (false, mkClients (ct_master cs) set) else
  '(r, m) ← mt_recycle c (ct_master cs);
  Some (r, mkClients m set).

Fixpoint stopLoginClients (l : list ptr) (cs : Clients App) : option (Clients App) :=
  match l with [] => Some cs | c :: l => '(_, cs) ← stopLoginClient c cs; stopLoginClients l cs end.

(** A handler of [GateServer] runs, and the clients it removes are stopped. *)
Definition on_gate {A} (f : GateServer -> option (A * GateServer)) (g : GateLinks) : option (A * GateLinks) :=
  '(r, s) ← f (gl_gate g);
  cs ← stopLoginClients (drop (length (gt_removed (gl_gate g))) (gt_removed s)) (gl_clients g);
  Some (r, mkLinks cs (gl_config_client g) s).

Definition checkClientMaxCount (max_conn curr_count : Z) : bool := s32 max_conn <=? curr_count.

(** ** ConnConfigHandler *)

Definition config_onConnect (mgr conn_id : Z) (g : GateLinks) : option (Z * GateLinks) :=
  let s := gl_gate g in
  match get_connection conn_id mgr (gt_net s) with
  | None => Some (-1, g)
  | Some _ =>
    let request := mkGateConfigRequest (gcf_id (gt_conf s)) in
    match SerializeToArray request tmp with
    | None => Some (-1, g)
    | Some tmp =>
      '(r, n) ← nt_send mgr conn_id None MSGID_GT2CS_CONNECT_CONFIG_REQUEST tmp (ByteSize request) (gt_net s);
      Some (if r <? 0 then -1 else 0, gl_set_gate (gt_set_net n s) g)
    end
  end.

Definition config_onDisconnect (g : GateLinks) : Z * GateLinks := (0, g).
Definition config_onTick (g : GateLinks) : Z * GateLinks := (0, g).

(** A client is started for one login server, and recorded if none is recorded under its id. *)
Definition connectLogin (now : Z) (info : MsgLoginInfoData) (g : GateLinks) : option (option ptr * GateLinks) :=
  '(client, cs) ← startLoginClient now (c_str (li_login_ip info)) (u16 (li_login_port info)) (gl_clients g);
  let g := gl_set_clients cs g in
  match client with
  | None => Some (None, g)
  | Some c => Some (Some c, gl_set_gate (snd (addLoginClient (li_login_id info) c (gl_gate g))) g)
  end.

(** The loop of [processConnectConfigResponse]; the clients that were started. *)
Fixpoint connectLogins (now : Z) (infos : list MsgLoginInfoData) (g : GateLinks) : option (list ptr * GateLinks) :=
  match infos with
  | [] => Some ([], g)
  | info :: infos =>
    '(client, g) ← connectLogin now info g;
    '(l, g) ← connectLogins now infos g;
    Some (match client with Some c => c :: l | None => l end, g)
  end.

Definition processConnectConfigResponse (now : Z) (data : bytes) (g : GateLinks) : option (Z * GateLinks) :=
  match (ParseFromArray data : option MsgCS2GT_ConnectConfigResponse) with
  | None => Some (-1, g)
  | Some response => '(_, g) ← connectLogins now (gc_login_list response) g; Some (0, g)
  end.

Definition processNewLoginNotify (now : Z) (data : bytes) (g : GateLinks) : option (Z * GateLinks) :=
  match (ParseFromArray data : option MsgCS2GT_NewLoginNotify) with
  | None => Some (-1, g)
  | Some notify =>
    '(client, g) ← connectLogin now (nl_login_data notify) g;
    Some (match client with None => -1 | Some _ => 0 end, g)
  end.

Definition processRemoveLoginNotify (data : bytes) (g : GateLinks) : option (Z * GateLinks) := Some (0, g).

(** The messages of the config server; there is no default handler, and a message without a handler is dropped. *)
Definition config_handle (now msg_id : Z) (data : bytes) (g : GateLinks) : option (Z * GateLinks) :=
  if msg_id =? MSGID_CS2GT_CONNECT_CONFIG_RESPONSE then processConnectConfigResponse now data g
  else if msg_id =? MSGID_CS2GT_NEW_LOGIN_NOTIFY then processNewLoginNotify now data g
  else if msg_id =? MSGID_CS2GT_REMOVE_LOGIN_NOTIFY then processRemoveLoginNotify data g
  else Some (0, g).

(** ** GateServer *)

Record GateProcess : Type := mkGate {
  gp_main_server : JmyTcpServer App;
  gp_listen_game_server : JmyTcpServer App;
  gp_links : GateLinks;
  gp_config : Loader GateFile.GateConfig;
}.

Definition gp_set_links (g : GateLinks) (p : GateProcess) : GateProcess :=
  mkGate (gp_main_server p) (gp_listen_game_server p) g (gp_config p).

(** [listens ip port]: opening, binding and listening do not throw. *)
Variable listens : text -> Z -> bool.
(** Whether the log opens. *)
Variable global_log_init : text -> bool.
(** The order in which the hash map of the client set is traversed. *)
Variable hash_order : gmap ptr (SetClientData App) -> list ptr.

(** [a] and, when it succeeds, [b]: [if (!a) return false;]. *)
Definition then_init {A} (a : option (bool * A)) (b : A -> option (bool * A)) : option (bool * A) :=
  '(ok, x) ← a; if negb ok then Some (false, x) else b x.

Definition listen_start (conf : JmyServerConfig App) (ip : text) (port : Z) (s : JmyTcpServer App) : option (bool * JmyTcpServer App) :=
  then_init (sv_loadConfig garbage s conf) (fun s =>
    ub_unless (negb (sv_inited s) || listens ip port);;
    let '(r, s) := sv_listenStart s in Some (negb (r <? 0), s)).

(** The client of the config server. *)
Definition start_config_client (ip : text) (port : Z) (g : GateLinks) : option (bool * GateLinks) :=
  '(client, m) ← mt_generate (ct_master (gl_clients g));
  let set := ct_set (gl_clients g) in
  match client with
  | None => Some (false, mkLinks (mkClients m set) None (gl_gate g))
  | Some c =>
    m ← setIP ip port c m;
    '(ok, m) ← cl_start mgr garbage (s_config_config h) None c m;
    Some (ok : bool, mkLinks (mkClients m set) (Some c) (gl_gate g))
  end.

Definition gate_init `{Files} (conf_path : text) (p : GateProcess) : option (bool * GateProcess) :=
  '(ok, ld) ← GateFile.gate_loadJson conf_path (gp_config p);
  let p := mkGate (gp_main_server p) (gp_listen_game_server p) (gp_links p) ld in
  if negb ok then Some (false, p) else
  let c := config_ ld in
  if negb (global_log_init (GateFile.log_conf_path c)) then Some (false, p) else
  '(ok, sv) ← listen_start (s_client_config h (u32 (GateFile.max_conn c))) (GateFile.ip c) (GateFile.port c) (gp_main_server p);
  let p := mkGate sv (gp_listen_game_server p) (gp_links p) ld in
  if negb ok then Some (false, p) else
  '(ok, sv) ← listen_start (s_game_config h (u32 (GateFile.listen_game_max_conn c))) (GateFile.listen_game_ip c)
                (GateFile.listen_game_port c) (gp_listen_game_server p);
  let p := mkGate (gp_main_server p) sv (gp_links p) ld in
  if negb ok then Some (false, p) else
  let '(ok, m) := mt_init GATE_MAX_CLIENTS (ct_master (gl_clients (gp_links p))) in
  let p := gp_set_links (gl_set_clients (mkClients m (ct_set (gl_clients (gp_links p)))) (gp_links p)) p in
  if negb ok then Some (false, p) else
  '(ok, g) ← start_config_client (c_str (GateFile.connect_config_ip c)) (GateFile.connect_config_port c) (gp_links p);
  let p := gp_set_links g p in
  if negb ok then Some (false, p) else
  let '(ok, cm) := cmg_init (GateFile.max_conn c) (gt_clients (gl_gate (gp_links p))) in
  Some (ok, gp_set_links (gl_set_gate (gt_set_clients cm (gl_gate (gp_links p))) (gp_links p)) p).

(** One turn of the loop of [run], before the poll of the sockets; the loop ends when a server fails. *)
Definition gate_turn (main_mgr game_mgr now : Z) (p : GateProcess) : option (bool * GateProcess) :=
  '(r, sv) ← sv_run main_mgr garbage now (gp_main_server p);
  let p := mkGate sv (gp_listen_game_server p) (gp_links p) (gp_config p) in
  if r <? 0 then Some (false, p) else
  '(r, sv) ← sv_run game_mgr garbage now (gp_listen_game_server p);
  let p := mkGate (gp_main_server p) sv (gp_links p) (gp_config p) in
  if r <? 0 then Some (false, p) else
  let cs := gl_clients (gp_links p) in
  '(set, m) ← cset_run mgr garbage hash_order now (ct_set cs) (ct_master cs);
  c ← gl_config_client (gp_links p);
  '(_, m) ← cl_run mgr garbage now c m;
  Some (true, gp_set_links (gl_set_clients (mkClients m set) (gp_links p)) p).

Definition gate_close (p : GateProcess) : option GateProcess :=
  let g := gp_links p in
  cm ← cmg_clear (gt_clients (gl_gate g));
  let s := gt_set_clients cm (gl_gate g) in
  let cs := mkClients (mt_close (ct_master (gl_clients g))) (cset_clear (ct_set (gl_clients g))) in
  game ← sv_close (gp_listen_game_server p);
  main ← sv_close (gp_main_server p);
  Some (mkGate main game (mkLinks cs (gl_config_client g) s) (gp_config p)).
End links.
Arguments GateLinks : clear implicits.
Arguments GateProcess : clear implicits.
