(* ===== verification/GateLinkProps.v ===== *)
(** * Properties of the gate server's links

    The gate counts the clients it generates, never those it recycles: the config client takes one of ten, and each
    login server that the config server names takes another, known or not. *)
From S2P Require Import Prelude Text Json ServerFiles Datatype DataHandler2 EventHandler ConnBuffer Connection ConnectionFrame ConnectionMgr TcpServer TcpClient ClientProps Agent BiMap AppNet Proto Common GateClients GateServer Codec GateLink.
From Stdlib Require Import ZArith Lia.
From stdpp Require Import base option list gmap strings.
Local Open Scope Z_scope.

Section links.
Context {App : Type}.
Variable h : GateHandlers App.
Variable mgr : Z.
Variable garbage : Z -> list Z.
Variable is_address : text -> bool.
Variable hash_order : gmap ptr (SetClientData App) -> list ptr.
Context `{ServerMessages}.
Hypothesis Horder : forall cs, hash_order cs ≡ₚ (map_to_list cs).*1.
(** The handlers of the two kinds of link only use the connection's operations. *)
Hypothesis Hlogin : conf_keeps (s_login_config h).
Hypothesis Hconfig : conf_keeps (s_config_config h).
Notation Links := (GateLinks App).

(** What happens to the links: a message of the config server, a handler of another link or of a server, which may
    remove login clients, or something on the network. *)
Inductive gl_op : Type :=
| gl_message (now msg_id : Z) (data : bytes)
| gl_handler (f : GateServer -> option (bool * GateServer))
| gl_net (o : ct_op App).

Definition gl_exec (o : gl_op) (g : Links) : option Links :=
  match o with
  | gl_message now msg_id data => '(_, g) ← config_handle h mgr garbage is_address now msg_id data g; Some g
  | gl_handler f => '(_, g) ← on_gate f g; Some g
  | gl_net o => cs ← ct_exec mgr garbage hash_order o (gl_clients g); Some (gl_set_clients cs g)
  end.

Fixpoint gl_exec_all (os : list gl_op) (g : Links) : option Links :=
  match os with [] => Some g | o :: os => g ← gl_exec o g; gl_exec_all os g end.

Definition gl_allowed (o : gl_op) : Prop := match o with gl_net o => net_op o | _ => True end.

(** The login servers that a message of the config server names. *)
Definition named (o : gl_op) : list MsgLoginInfoData :=
  match o with
  | gl_message _ msg_id data =>
    if msg_id =? MSGID_CS2GT_CONNECT_CONFIG_RESPONSE then
      match (ParseFromArray data : option MsgCS2GT_ConnectConfigResponse) with Some m => gc_login_list m | None => [] end
    else if msg_id =? MSGID_CS2GT_NEW_LOGIN_NOTIFY then
      match (ParseFromArray data : option MsgCS2GT_NewLoginNotify) with Some m => [nl_login_data m] | None => [] end
    else []
  | _ => []
  end.
Definition all_named (os : list gl_op) : list MsgLoginInfoData := concat (named <$> os).

(** ** The invariant: [k] clients were generated, one of them for the config server *)

Record gl_inv (B : gset Z) (n k : Z) (cs : Clients App) : Prop := mkGlInv {
  gli_master : mt_inv B n k (ct_master cs);
  gli_set : Z.of_nat (size (ct_set cs)) < k;
}.

Lemma turn_dom now l (s s' : gmap ptr (SetClientData App)) (m m' : JmyTcpClientMaster App) :
  cset_run_loop mgr garbage now l s m = Some (s', m') -> dom s' = dom s.
Proof using.
  revert s m. induction l as [|c l IH]; intros s m E; cbn [cset_run_loop] in E; [by injection E as <- <-|].
  apply bind_Some in E as (d & Hd & E). destruct (cd_conf d) as [cf|]; [|by eapply IH]. destruct (c =? NULL); [by eapply IH|].
  apply bind_Some in E as ([last m1] & _ & E). rewrite (IH _ _ E), dom_insert_lookup_L; [done|by eexists].
Qed.

Lemma net_inv B n k o cs cs' : net_op o -> gl_inv B n k cs -> ct_exec mgr garbage hash_order o cs = Some cs' -> gl_inv B n k cs'.
Proof using Horder.
  intros Ho [Hm Hs] E. split.
  - replace k with (if is_generate o then Z.min n (k + 1) else k) by by destruct o.
    eapply clients_exec_inv; [exact Horder|exact Hm|by destruct o|exact E].
  - replace (size (ct_set cs')) with (size (ct_set cs)); [done|]. rewrite <- !size_dom. f_equal.
    destruct o; try done; cbn [ct_exec] in E; unfold on_master in E.
    + apply bind_Some in E as ([r m] & _ & [= <-]). done.
    + apply bind_Some in E as ([s m] & E & [= <-]). symmetry. by eapply turn_dom.
    + apply bind_Some in E as (x & _ & E). apply bind_Some in E as ([] & _ & E). by apply bind_Some in E as ([r m] & _ & [= <-]).
    + by apply bind_Some in E as ([r m] & _ & [= <-]).
    + by apply bind_Some in E as ([r m] & _ & [= <-]).
Qed.

(** ** Starting and stopping the client of a login server *)

Lemma setIP_inv B n k ip port c (m m' : JmyTcpClientMaster App) : mt_inv B n k m -> setIP is_address ip port c m = Some m' -> mt_inv B n k m'.
Proof using.
  intros Hm E. unfold setIP in E. apply bind_Some in E as ([] & _ & E). by eapply setEndPoint_inv.
Qed.

Lemma close_inv B n k now c (m m' : JmyTcpClientMaster App) : mt_inv B n k m -> cl_close garbage now c m = Some m' -> mt_inv B n k m'.
Proof using.
  intros Hm E. change m' with (ct_master (mkClients m' (∅ : gmap ptr (SetClientData App)))).
  eapply (clients_exec_inv 0 garbage (fun cs => (map_to_list cs).*1) (fun _ => reflexivity _) B n k (ct_close now c) (mkClients m ∅)); [done|done|].
  cbn [ct_exec ct_master ct_set]. by rewrite E.
Qed.

Lemma startLoginClient_none B n now ip port cs : gl_inv B n n cs ->
  startLoginClient h mgr garbage is_address now ip port cs = Some (None, cs).
Proof using.
  intros [Hm _]. unfold startLoginClient. rewrite (generate_none _ _ _ _ Hm) by lia. cbn [mbind option_bind]. by destruct cs.
Qed.

Lemma startLoginClient_inv B n k now ip port cs r cs' : gl_inv B n k cs ->
  startLoginClient h mgr garbage is_address now ip port cs = Some (r, cs') -> gl_inv B n (Z.min n (k + 1)) cs'.
Proof using Hlogin.
  intros [Hm Hs] E. pose proof (mi_range _ _ _ _ Hm) as Hk. destruct (Z.eq_dec k n) as [->|Hn].
  { rewrite (startLoginClient_none B n) in E by by split. injection E as _ <-. rewrite Z.min_l by lia. by split. }
  rewrite Z.min_r by lia. unfold startLoginClient in E.
  destruct (generate_more _ _ _ _ Hm) as (c & m1 & E1 & H1); [lia|]. rewrite E1 in E. cbn [mbind option_bind] in E.
  apply bind_Some in E as (m2 & E2 & E). pose proof (setIP_inv _ _ _ _ _ _ _ _ H1 E2) as H2.
  apply bind_Some in E as ([ok m3] & E3 & E). pose proof (start_inv _ _ _ _ _ _ _ _ _ _ _ Hlogin H2 E3) as H3.
  destruct (negb ok); [injection E as _ <-; split; [done|cbn [ct_set]; lia]|].
  unfold addClient in E. destruct (ct_set cs !! c) as [d|] eqn:Hc.
  - cbn [negb] in E. apply bind_Some in E as (m4 & E4 & [= _ <-]). split; [by eapply close_inv|cbn [ct_set]; lia].
  - cbn [negb] in E. injection E as _ <-. split; [done|]. cbn [ct_set]. rewrite map_size_insert_None by done. lia.
Qed.

Lemma stopLoginClient_inv B n k c cs r cs' : gl_inv B n k cs -> stopLoginClient c cs = Some (r, cs') -> gl_inv B n k cs'.
Proof using.
  intros [Hm Hs] E. unfold stopLoginClient, removeClient in E. destruct (ct_set cs !! c) as [d|] eqn:Hc; cbn [negb] in E.
  - apply bind_Some in E as ([r1 m] & E & [= _ <-]). destruct (mt_recycle_inv _ _ _ _ c Hm) as (m1 & E1 & H1).
    rewrite E1 in E. injection E as _ <-. split; [done|]. cbn [ct_set].
    rewrite map_size_delete_Some by by eexists. lia.
  - injection E as _ <-. by split.
Qed.

Lemma stopLoginClients_inv B n k l cs cs' : gl_inv B n k cs -> stopLoginClients l cs = Some cs' -> gl_inv B n k cs'.
Proof using.
  revert cs. induction l as [|c l IH]; intros cs Hi E; cbn [stopLoginClients] in E; [by injection E as <-|].
  apply bind_Some in E as ([r cs1] & E1 & E). eapply IH; [|exact E]. by eapply stopLoginClient_inv.
Qed.

(** ** The messages of the config server *)

Lemma connectLogin_inv B n k now info (g : Links) r g' : gl_inv B n k (gl_clients g) ->
  connectLogin h mgr garbage is_address now info g = Some (r, g') -> gl_inv B n (Z.min n (k + 1)) (gl_clients g').
Proof using Hlogin.
  intros Hi E. unfold connectLogin in E. apply bind_Some in E as ([c cs] & E1 & E). apply startLoginClient_inv with (B := B) (n := n) (k := k) in E1; [|done].
  destruct c; injection E as _ <-; exact E1.
Qed.

Lemma connectLogin_none B n now info (g : Links) : gl_inv B n n (gl_clients g) -> connectLogin h mgr garbage is_address now info g = Some (None, g).
Proof using. intros Hi. unfold connectLogin. rewrite (startLoginClient_none B n) by done. cbn [mbind option_bind]. by destruct g. Qed.

Lemma connectLogins_inv B n k now infos (g : Links) r g' : gl_inv B n k (gl_clients g) ->
  connectLogins h mgr garbage is_address now infos g = Some (r, g') -> gl_inv B n (Z.min n (k + lenZ infos)) (gl_clients g').
Proof using Hlogin.
  revert k g r. induction infos as [|info infos IH]; intros k g r Hi E; cbn [connectLogins] in E.
  { injection E as _ <-. cbn [length]. pose proof (mi_range _ _ _ _ (gli_master _ _ _ _ Hi)). by rewrite Z.add_0_r, Z.min_r by lia. }
  apply bind_Some in E as ([c g1] & E1 & E). apply bind_Some in E as ([l g2] & E2 & [= _ <-]).
  pose proof (mi_range _ _ _ _ (gli_master _ _ _ _ Hi)).
  eapply connectLogin_inv in E1; [|done]. apply IH with (k := Z.min n (k + 1)) in E2; [|done]. cbn [length].
  by replace (Z.min n (k + Z.of_nat (S (length infos)))) with (Z.min n (Z.min n (k + 1) + lenZ infos)) by lia.
Qed.

Lemma connectLogins_none B n now infos (g : Links) : gl_inv B n n (gl_clients g) -> connectLogins h mgr garbage is_address now infos g = Some ([], g).
Proof using.
  intros Hi. induction infos as [|info infos IH]; cbn [connectLogins]; [done|].
  rewrite (connectLogin_none B n) by done. cbn [mbind option_bind]. by rewrite IH.
Qed.

Lemma gl_exec_inv B n k o (g g' : Links) : gl_allowed o -> gl_inv B n k (gl_clients g) -> gl_exec o g = Some g' ->
  gl_inv B n (Z.min n (k + lenZ (named o))) (gl_clients g').
Proof using Hlogin Horder.
  intros Ho Hi E. pose proof (mi_range _ _ _ _ (gli_master _ _ _ _ Hi)) as Hk.
  assert (Hsame : gl_inv B n k (gl_clients g') -> gl_inv B n (Z.min n (k + lenZ (@nil MsgLoginInfoData))) (gl_clients g')).
  { cbn [length]. by rewrite Z.add_0_r, Z.min_r by lia. }
  destruct o as [now msg_id data|f|o]; cbn [gl_exec named] in *.
  - apply bind_Some in E as ([r g1] & E & [= <-]). unfold config_handle in E. destruct (msg_id =? MSGID_CS2GT_CONNECT_CONFIG_RESPONSE).
    + unfold processConnectConfigResponse in E. destruct (ParseFromArray data) as [m|]; [|injection E as _ <-; by apply Hsame].
      apply bind_Some in E as ([l g2] & E & [= _ <-]). by eapply connectLogins_inv.
    + destruct (msg_id =? MSGID_CS2GT_NEW_LOGIN_NOTIFY).
      * unfold processNewLoginNotify in E. destruct (ParseFromArray data) as [m|]; [|injection E as _ <-; by apply Hsame].
        apply bind_Some in E as ([l g2] & E & [= _ <-]). by eapply connectLogin_inv.
      * apply Hsame. destruct (msg_id =? MSGID_CS2GT_REMOVE_LOGIN_NOTIFY); injection E as _ <-; exact Hi.
  - apply bind_Some in E as ([r g1] & E & [= <-]). apply Hsame. unfold on_gate in E. apply bind_Some in E as ([r1 s] & _ & E).
    apply bind_Some in E as (cs & E & [= _ <-]). by eapply stopLoginClients_inv.
  - apply bind_Some in E as (cs & E & [= <-]). apply Hsame. by eapply net_inv.
Qed.

Lemma gl_exec_all_inv B n k os (g g' : Links) : Forall gl_allowed os -> gl_inv B n k (gl_clients g) -> gl_exec_all os g = Some g' ->
  gl_inv B n (Z.min n (k + lenZ (all_named os))) (gl_clients g').
Proof using Hlogin Horder.
  revert k g. induction os as [|o os IH]; intros k g Ho Hi E; cbn [gl_exec_all] in E;
    pose proof (mi_range _ _ _ _ (gli_master _ _ _ _ Hi)) as Hk.
  { injection E as <-. unfold all_named. cbn. by rewrite Z.add_0_r, Z.min_r by lia. }
  apply Forall_cons in Ho as [Ho Hos]. apply bind_Some in E as (g1 & E1 & E). eapply gl_exec_inv in E1; [|done..].
  apply IH with (k := Z.min n (k + lenZ (named o))) in E; [|done..]. unfold all_named in *. cbn [fmap list_fmap concat]. rewrite length_app.
  by replace (Z.min n (k + Z.of_nat (length (named o) + length (concat (named <$> os)))))
    with (Z.min n (Z.min n (k + lenZ (named o)) + lenZ (concat (named <$> os)))) by lia.
Qed.

(** ** Start-up *)

Variable listens : text -> Z -> bool.
Variable global_log_init : text -> bool.

Definition links_new (hp : heap) (app : App) (s : GateServer) : Links := mkLinks (mkClients (JmyTcpClientMaster_new hp app) ∅) None s.

(** A step of the start-up that succeeded. *)
Ltac init_step E Hok :=
  lazymatch type of E with
  | mbind _ _ = _ => apply bind_Some in E as ([[] ?] & Hok & E); [|by injection E]; cbn [negb] in E
  | (if ?b then _ else _) = _ => destruct b eqn:Hok; [by injection E|]
  end.

Lemma gate_init_inv `{Files} conf_path p p' hp app s : gp_links p = links_new hp app s ->
  gate_init h mgr garbage is_address listens global_log_init conf_path p = Some (true, p') ->
  exists B, gl_inv B GATE_MAX_CLIENTS 1 (gl_clients (gp_links p')).
Proof using Hconfig.
  intros Hp E. unfold gate_init in E. init_step E E1. init_step E E2. init_step E E3. init_step E E4. cbn [gp_links] in E. rewrite Hp in E.
  destruct (mt_init _ _) as [ok m] eqn:Em. destruct (new_inv GATE_MAX_CLIENTS hp app) as (B & _ & Hm); [by vm_compute|].
  cbn [gl_clients ct_master links_new] in Em. unfold clients_new in Hm. rewrite Em in Hm. cbn [snd ct_master] in Hm.
  destruct ok; [|by injection E]. cbn [negb] in E. apply bind_Some in E as ([ok g] & E5 & E). destruct ok; [|by injection E]. cbn [negb] in E.
  destruct (cmg_init _ _) as [ok cm]. injection E as -> <-. exists B. unfold gp_set_links, gl_set_gate. cbn [gp_links gl_clients].
  unfold start_config_client in E5. cbn [gl_clients gp_links gp_set_links gl_set_clients ct_master ct_set links_new] in E5.
  destruct (generate_more _ _ _ _ Hm) as (c & m1 & Eg & H1); [by vm_compute|]. rewrite Eg in E5. cbn [mbind option_bind] in E5.
  apply bind_Some in E5 as (m2 & E6 & E5). apply bind_Some in E5 as ([r m3] & E7 & [= -> <-]). split; cbn [gl_clients ct_master ct_set].
  - eapply start_inv; [exact Hconfig| |exact E7]. by eapply setIP_inv.
  - rewrite map_size_empty. lia.
Qed.

(** C31.  However many login clients a gate removes, its clients are used up once the config server named nine login
    servers, each time it names one counting, be it known or not.  While fewer were named there is a client for the
    next one.  Afterwards the gate ignores the login servers of a response, and answers every notification of a new
    login server with -1, and in both cases nothing changes.  At no time more than nine login clients run. *)
Theorem gate_login_clients_run_out `{Files} conf_path p p' hp app s os g :
  gp_links p = links_new hp app s ->
  gate_init h mgr garbage is_address listens global_log_init conf_path p = Some (true, p') ->
  Forall gl_allowed os -> gl_exec_all os (gp_links p') = Some g ->
  (size (ct_set (gl_clients g)) <= 9)%nat /\
  (lenZ (all_named os) < 9 -> exists c m, mt_generate (ct_master (gl_clients g)) = Some (Some c, m)) /\
  (9 <= lenZ (all_named os) ->
     (forall now infos, connectLogins h mgr garbage is_address now infos g = Some ([], g)) /\
     (forall now data, processNewLoginNotify h mgr garbage is_address now data g = Some (-1, g))).
Proof using Hlogin Hconfig Horder.
  intros Hp E0 Ho E. destruct (gate_init_inv _ _ _ _ _ _ Hp E0) as [B Hi]. pose proof (gl_exec_all_inv _ _ _ _ _ _ Ho Hi E) as Hg.
  change GATE_MAX_CLIENTS with 10 in *. split; [|split].
  - pose proof (gli_set _ _ _ _ Hg). lia.
  - intros Hl. destruct (generate_more _ _ _ _ (gli_master _ _ _ _ Hg)) as (c & m & Eg & _); [lia|eauto].
  - intros Hl. rewrite Z.min_l in Hg by lia. split.
    + intros now infos. by apply (connectLogins_none B 10).
    + intros now data. unfold processNewLoginNotify. destruct (ParseFromArray data) as [m|]; [|done].
      by rewrite (connectLogin_none B 10).
Qed.
End links.

(** ** Example

    A gate starts, the config server names nine login servers, one of which is removed, and then a tenth. *)

Definition ex_gate_doc : Json := JObject [
  (chars "server_name", JString (chars "gate1")); (chars "server_id", JInt 20001); (chars "server_ip", JString (chars "0.0.0.0"));
  (chars "server_port", JInt 6000); (chars "max_conn", JInt 1); (chars "enable_reconnect", JBool true);
  (chars "listen_game_ip", JString (chars "0.0.0.0")); (chars "listen_game_port", JInt 7000); (chars "listen_game_max_conn", JInt 1);
  (chars "connect_config_ip", JString (chars "127.0.0.1")); (chars "connect_config_port", JInt 5000);
  (chars "connect_config_enable_reconnect", JBool true); (chars "log_conf_path", JString (chars "./zlog.conf"))
].
Definition ex_gate_files : Files := mkFiles (fun _ => Some []) (fun _ => Some ex_gate_doc).
Definition ex_msg (info : JmyMsgInfo) (w : World unit) : Z * World unit := (mi_len info, w).
Definition ex_events : jmy_event_handler (World unit) * jmy_event_handler (World unit) * jmy_event_handler (World unit) :=
  (fun _ w => (0, w), fun _ w => (0, w), fun _ w => (0, w)).
Definition ex_handlers : GateHandlers unit :=
  mkGateHandlers ex_msg ex_msg ex_msg ex_msg ex_msg ex_msg ex_events ex_msg ex_msg ex_msg ex_msg ex_events ex_msg ex_msg ex_msg ex_events
    ex_msg ex_msg ex_events.
Definition ex_links_order (cs : gmap ptr (SetClientData unit)) : list ptr := (map_to_list cs).*1.
Definition ex_gate_process : GateProcess unit :=
  mkGate (JmyTcpServer_new ∅ tt) (JmyTcpServer_new ∅ tt) (links_new ∅ tt (GateServer_new (mkGateConfig 20001 [] 6000 1)))
    (mkLoader JNull (GateFile.mkGateConfig [] 0 [] 0 0 false [] 0 0 false [] 0 false []) []).
Definition ex_info (i : Z) : MsgLoginInfoData := mkLoginInfoData (chars "127.0.0.1") (4000 + i) (10000 + i).
Definition ex_response : bytes := Serialize (Message := sm_CS2GT_ConnectConfigResponse (ServerMessages := coded_messages)) (mkGateConfigResponse (ex_info <$> seqZ 1 9)).
Abbreviation ex_start :=
  (gate_init (H0 := ex_gate_files) ex_handlers 7 demo_content (fun _ => true) (fun _ _ => true) (fun _ => true) (chars "f") ex_gate_process).
Definition ex_ops : list (gl_op (App := unit)) :=
  [gl_message 0 MSGID_CS2GT_CONNECT_CONFIG_RESPONSE ex_response; gl_handler (fun s => Some (removeLoginClient 10003 s)); gl_net (ct_run_set 0)].
Abbreviation ex_run p := (gl_exec_all (H := coded_messages) ex_handlers 7 demo_content (fun _ => true) ex_links_order ex_ops (gp_links p)).

Lemma map_insert_new_lookup {A} k (v : A) m id f : map_insert_new k v m !! id = Some f -> f = v \/ m !! id = Some f.
Proof. unfold map_insert_new. destruct (m !! k); [auto|]. intros [[_ <-]|[_ Hf]]%lookup_insert_Some; auto. Qed.

(** A configuration with these handlers. *)
Lemma ex_conf_keeps l dflt buf r i :
  Forall (fun e => snd e = ex_msg) l -> dflt = None \/ dflt = Some ex_msg ->
  conf_keeps (mkClientConfig (Some l) dflt (base_handlers ex_events) None buf r i).
Proof.
  intros Hl Hd. split.
  - intros H E. assert (Hm : (forall id f, msg_handler_map_ H !! id = Some f -> f = ex_msg) /\ (default_msg_handler_ H = None \/ default_msg_handler_ H = Some ex_msg)).
    { unfold cl_load_handlers in E. cbn [cc_handlers cc_default_msg_handler] in E. destruct l as [|e l]; [discriminate E|]. injection E as <-. split; [|exact Hd].
      assert (Hf : forall l (m : gmap Z (jmy_msg_handler (World unit))), Forall (fun e => snd e = ex_msg) l -> (forall id f, m !! id = Some f -> f = ex_msg) ->
                forall id f, foldl (fun m e => map_insert_new (fst e) (snd e) m) m l !! id = Some f -> f = ex_msg).
      { clear. induction l as [|e l IH]; intros m Hl Hm; [exact Hm|]. apply Forall_cons in Hl as [He Hl]. cbn [foldl]. apply IH; [done|].
        intros id f [->|Hf]%map_insert_new_lookup; [done|eauto]. }
      apply (Hf (e :: l)); [exact Hl|]. by intros id f [=]. }
    destruct Hm as [Hm Hdf]. intros info w. unfold handleMsg. destruct (_ !! _) as [f|] eqn:Ef.
    + apply Hm in Ef as ->. unfold ex_msg. destruct (mi_len info <? 0); reflexivity.
    + destruct Hdf as [->| ->]; cbn; destruct (mi_len info =? 0), (mi_len info <? 0); reflexivity.
  - intros ev [= <-] j info w. unfold eh_call, eh_at. cbn. destruct (Z.to_nat j) as [|[|[|[|[|k]]]]]; cbn; reflexivity.
Qed.

Lemma ex_keeps : conf_keeps (s_login_config ex_handlers) /\ conf_keeps (s_config_config ex_handlers).
Proof. split; apply ex_conf_keeps; auto; repeat constructor. Qed.

Lemma gate_login_clients_run_out_witness : exists p g, ex_start = Some (true, p) /\ ex_run p = Some g /\ size (ct_set (gl_clients g)) = 8%nat /\
  processNewLoginNotify (H := coded_messages) ex_handlers 7 demo_content (fun _ => true) 0
    (Serialize (Message := sm_CS2GT_NewLoginNotify (ServerMessages := coded_messages)) (mkNewLoginNotify (ex_info 10))) g = Some (-1, g).
Proof.
  assert (E : match ex_start with Some (true, p) => match ex_run p with Some g => size (ct_set (gl_clients g)) =? 8 | None => false end%nat | _ => false end = true)
    by (vm_compute; reflexivity).
  destruct ex_start as [[[] p]|] eqn:E0; [|discriminate E|discriminate E]. destruct (ex_run p) as [g|] eqn:E1; [|discriminate E].
  exists p, g. split; [reflexivity|]. split; [exact E1|]. split; [by apply Nat.eqb_eq|].
  apply (gate_login_clients_run_out (H := coded_messages) ex_handlers 7 demo_content (fun _ => true) ex_links_order
    (fun _ => reflexivity _) (proj1 ex_keeps) (proj2 ex_keeps) (fun _ _ => true) (fun _ => true)
    (H0 := ex_gate_files) (chars "f") ex_gate_process p ∅ tt _ ex_ops g eq_refl E0).
  - repeat constructor.
  - exact E1.
  - vm_compute. discriminate.
Defined.
