(* ===== verification/ServerStart.v ===== *)
(** * Start-up and main loops of the login, game and config servers

    ([login_server/login_server.*], [game_server/game_server.*], [config_server/main.cpp] and the tables of their
    [config_data.h].)  Each program reads its configuration, starts to listen or to connect, and then turns its loop
    until something it runs fails.  The links of the login and the game server are run by the loop itself, not by a
    client set. *)
From S2P Require Import Prelude Text Json ServerFiles Datatype DataHandler2 EventHandler ConnBuffer Connection ConnectionMgr TcpServer TcpClient Agent BiMap AppNet Proto Common ConfigServer GateClients GateServer GateLink.
From Stdlib Require Import ZArith Lia.
From stdpp Require Import base option list gmap strings.
Local Open Scope Z_scope.

Section start.
Context {App : Type}.
Notation handler := (jmy_msg_handler (World App)).
Notation event := (jmy_event_handler (World App)).
Notation Master := (JmyTcpClientMaster App).

(** The static functions that the tables name, and those of the events [onConnect], [onDisconnect] and [onTick]. *)
Record LoginHandlers : Type := mkLoginHandlers {
  login_client_processLogin : handler;
  login_client_processSelectServer : handler;
  login_client_processEcho : handler;
  login_client_events : event * event * event;
  login_gate_processConnectLogin : handler;
  login_gate_processSelectedServerResponse : handler;
  login_gate_events : event * event * event;
  login_config_processConnectConfigResponse : handler;
  login_config_events : event * event * event;
}.

Record LinkHandlers : Type := mkLinkHandlers {
  gate_link_processConnectGateResponse : handler;
  gate_link_processGetRole : handler;
  gate_link_processCreateRole : handler;
  gate_link_processEnterGame : handler;
  gate_link_processLeaveGame : handler;
  gate_link_processDefault : handler;
  gate_link_events : event * event * event;
  db_link_processConnectDBResponse : handler;
  db_link_processGetRoleResponse : handler;
  db_link_processCreateRoleResponse : handler;
  db_link_processDefault : handler;
  db_link_events : event * event * event;
}.

Record ConfigHandlers : Type := mkConfigHandlers {
  config_conn_processLoginConnect : handler;
  config_conn_processGateConnect : handler;
  config_conn_events : event * event * event;
  config_conn_onTimer : event;
}.

(** The address of the connection manager of the clients, and the content of a new block. *)
Variable mgr : Z.
Variable garbage : Z -> list Z.
Variable is_address : text -> bool.
Variable listens : text -> Z -> bool.
Variable global_log_init : text -> bool.

(** [generate], [setIP] and [start]: whether it succeeded, and the client if one was generated. *)
Definition start_link (conf : JmyClientConfig App) (ip : text) (port : Z) (m : Master) : option (bool * option ptr * Master) :=
  '(client, m) ← mt_generate m;
  match client with
  | None => Some (false, None, m)
  | Some c => m ← setIP is_address ip port c m; '(ok, m) ← cl_start mgr garbage conf None c m; Some (ok, Some c, m)
  end.

(** ** LoginServer *)

Section login.
Variable h : LoginHandlers.

Definition login_client_config (max_conn : Z) : JmyServerConfig App :=
  mkServerConfig (Some [
    (MSGID_C2S_LOGIN_REQUEST, login_client_processLogin h);
    (MSGID_C2S_SELECT_SERVER_REQUEST, login_client_processSelectServer h);
    (MSGID_C2S_ECHO_REQUEST, login_client_processEcho h)])
    None (base_handlers (login_client_events h)) None (mkJmyBufferConfig 64 64 0 0 false true) max_conn.

Definition login_gate_config (max_conn : Z) : JmyServerConfig App :=
  mkServerConfig (Some [
    (MSGID_GT2LS_CONNECT_LOGIN_REQUEST, login_gate_processConnectLogin h);
    (MSGID_GT2LS_SELECTED_SERVER_RESPONSE, login_gate_processSelectedServerResponse h)])
    None (base_handlers (login_gate_events h)) None (mkJmyBufferConfig (1024 * 64) (1024 * 64) 0 0 false true) max_conn.

Definition login_conn_config : JmyClientConfig App :=
  mkClientConfig (Some [(MSGID_CS2LS_CONNECT_CONFIG_RESPONSE, login_config_processConnectConfigResponse h)])
    None (base_handlers (login_config_events h)) None
    (mkJmyBufferConfig (1024 * 64) (1024 * 64) 0 0 false true) true CLIENT_RECONNECT_INTERVAL_SECS.

Definition LOGIN_MAX_CLIENTS : Z := 2.

Record LoginProcess : Type := mkLoginProcess {
  lp_main_server : JmyTcpServer App;
  lp_listen_gate_server : JmyTcpServer App;
  lp_client_master : Master;
  lp_config_client : option ptr;
  lp_config : Loader LoginFile.LoginConfig;
}.

Definition lp_set_main (sv : JmyTcpServer App) (p : LoginProcess) : LoginProcess :=
  mkLoginProcess sv (lp_listen_gate_server p) (lp_client_master p) (lp_config_client p) (lp_config p).
Definition lp_set_gate (sv : JmyTcpServer App) (p : LoginProcess) : LoginProcess :=
  mkLoginProcess (lp_main_server p) sv (lp_client_master p) (lp_config_client p) (lp_config p).
Definition lp_set_client (m : Master) (c : option ptr) (p : LoginProcess) : LoginProcess :=
  mkLoginProcess (lp_main_server p) (lp_listen_gate_server p) m c (lp_config p).

(** After the log is open, [init] returns -1 when something fails, which is [true].  [GateServerList::init]
    leaves an empty list as it is. *)
Definition login_init `{Files} (conf_path : text) (p : LoginProcess) : option (bool * LoginProcess) :=
  '(ok, ld) ← LoginFile.login_loadJson conf_path (lp_config p);
  let p := mkLoginProcess (lp_main_server p) (lp_listen_gate_server p) (lp_client_master p) (lp_config_client p) ld in
  if negb ok then Some (false, p) else
  let c := config_ ld in
  if negb (global_log_init (LoginFile.log_conf_path c)) then Some (false, p) else
  '(ok, sv) ← listen_start garbage listens (login_client_config (u32 (LoginFile.max_conn c))) (c_str (LoginFile.ip c)) (LoginFile.port c) (lp_main_server p);
  let p := lp_set_main sv p in
  if negb ok then Some (true, p) else
  '(ok, sv) ← listen_start garbage listens (login_gate_config (u32 (LoginFile.listen_gate_max_conn c))) (c_str (LoginFile.listen_gate_ip c))
                (LoginFile.listen_gate_port c) (lp_listen_gate_server p);
  let p := lp_set_gate sv p in
  if negb ok then Some (true, p) else
  let '(ok, m) := mt_init LOGIN_MAX_CLIENTS (lp_client_master p) in
  let p := lp_set_client m (lp_config_client p) p in
  if negb ok then Some (true, p) else
  '(_, c, m) ← start_link login_conn_config (c_str (LoginFile.connect_config_ip c)) (LoginFile.connect_config_port c) m;
  Some (true, lp_set_client m c p).

(** The pointer is set to null before it is recycled. *)
Definition login_clear (now : Z) (p : LoginProcess) : option LoginProcess :=
  m ← match lp_config_client p with
      | None => Some (lp_client_master p)
      | Some c => m ← cl_close garbage now c (lp_client_master p); '(_, m) ← mt_recycle NULL m; Some m
      end;
  gate ← sv_close (lp_listen_gate_server p);
  main ← sv_close (lp_main_server p);
  Some (mkLoginProcess main gate (mt_close m) None (lp_config p)).

(** One turn of the loop of [run], before the poll; the loop ends when the result is negative. *)
Definition login_turn (main_mgr gate_mgr now : Z) (p : LoginProcess) : option (Z * LoginProcess) :=
  '(r, sv) ← sv_run main_mgr garbage now (lp_main_server p);
  let p := lp_set_main sv p in
  if r <? 0 then Some (r, p) else
  '(r, sv) ← sv_run gate_mgr garbage now (lp_listen_gate_server p);
  let p := lp_set_gate sv p in
  if r <? 0 then Some (r, p) else
  c ← lp_config_client p;
  '(r, m) ← cl_run mgr garbage now c (lp_client_master p);
  Some (r, lp_set_client m (Some c) p).
End login.

(** ** GameServer *)

Section game.
Variable h : LinkHandlers.

Definition game_gate_config : JmyClientConfig App :=
  mkClientConfig (Some [
    (MSGID_GT2GS_CONNECT_GATE_RESPONSE, gate_link_processConnectGateResponse h);
    (MSGID_GT2GS_GET_ROLE_REQUEST, gate_link_processGetRole h);
    (MSGID_GT2GS_CREATE_ROLE_REQUEST, gate_link_processCreateRole h);
    (MSGID_GT2GS_ENTER_GAME_REQUEST, gate_link_processEnterGame h);
    (MSGID_GT2GS_LEAVE_GAME_REQUEST, gate_link_processLeaveGame h)])
    (Some (gate_link_processDefault h)) (base_handlers (gate_link_events h)) None
    (mkJmyBufferConfig (1024 * 64) (1024 * 64) 0 0 false true) true CLIENT_RECONNECT_INTERVAL_SECS.

Definition game_db_config : JmyClientConfig App :=
  mkClientConfig (Some [
    (MSGID_DS2GS_CONNECT_DB_RESPONSE, db_link_processConnectDBResponse h);
    (MSGID_DS2GS_GET_ROLE_RESPONSE, db_link_processGetRoleResponse h);
    (MSGID_DS2GS_CREATE_ROLE_RESPONSE, db_link_processCreateRoleResponse h)])
    (Some (db_link_processDefault h)) (base_handlers (db_link_events h)) None
    (mkJmyBufferConfig (1024 * 128) (1024 * 128) 0 0 false true) true CLIENT_RECONNECT_INTERVAL_SECS.

Definition GAME_MAX_CLIENTS : Z := 10.

Record GameProcess : Type := mkGameProcess {
  gmp_client_master : Master;
  gmp_gate_client : option ptr;
  gmp_db_client : option ptr;
  gmp_config : Loader GameFile.GameConfig;
}.

(** Whether the generated [CsvListManager] loads its tables. *)
Variable loadCsv : bool.

Definition game_init `{Files} (conf_path : text) (p : GameProcess) : option (bool * GameProcess) :=
  '(ok, ld) ← GameFile.game_loadJson conf_path (gmp_config p);
  let p := mkGameProcess (gmp_client_master p) (gmp_gate_client p) (gmp_db_client p) ld in
  if negb ok then Some (false, p) else
  let c := config_ ld in
  if negb (global_log_init (GameFile.log_conf_path c)) then Some (false, p) else
  let '(ok, m) := mt_init GAME_MAX_CLIENTS (gmp_client_master p) in
  if negb ok then Some (false, mkGameProcess m (gmp_gate_client p) (gmp_db_client p) ld) else
  '(ok, gate, m) ← start_link game_gate_config (c_str (GameFile.connect_gate_ip c)) (GameFile.connect_gate_port c) m;
  if negb ok then Some (false, mkGameProcess m gate (gmp_db_client p) ld) else
  '(ok, db, m) ← start_link game_db_config (c_str (GameFile.connect_db_ip c)) (GameFile.connect_db_port c) m;
  if negb ok then Some (false, mkGameProcess m gate db ld) else
  Some (loadCsv, mkGameProcess m gate db ld).

Definition recycle_link (c : option ptr) (m : Master) : option Master :=
  match c with None => Some m | Some c => '(_, m) ← mt_recycle c m; Some m end.

Definition game_clear (p : GameProcess) : option GameProcess :=
  m ← recycle_link (gmp_gate_client p) (gmp_client_master p);
  m ← recycle_link (gmp_db_client p) m;
  Some (mkGameProcess (mt_close m) None None (gmp_config p)).

(** One turn of the loop of [run], before the poll; the loop ends when the result is negative. *)
Definition game_turn (now : Z) (p : GameProcess) : option (Z * GameProcess) :=
  gate ← gmp_gate_client p;
  '(r, m) ← cl_run mgr garbage now gate (gmp_client_master p);
  let p := mkGameProcess m (gmp_gate_client p) (gmp_db_client p) (gmp_config p) in
  if r <? 0 then Some (r, p) else
  db ← gmp_db_client p;
  '(r, m) ← cl_run mgr garbage now db (gmp_client_master p);
  Some (r, mkGameProcess m (gmp_gate_client p) (gmp_db_client p) (gmp_config p)).
End game.

(** ** The config server's [main] *)

Section config.
Variable h : ConfigHandlers.

Definition config_conn_config (max_conn : Z) : JmyServerConfig App :=
  let '(c, d, t) := config_conn_events h in
  mkServerConfig (Some [
    (MSGID_LS2CS_CONNECT_CONFIG_REQUEST, config_conn_processLoginConnect h);
    (MSGID_GT2CS_CONNECT_CONFIG_REQUEST, config_conn_processGateConnect h)])
    None (mkBaseEH (Some c) (Some d) (Some t) (Some (config_conn_onTimer h))) None (mkJmyBufferConfig 4096 4096 0 0 false true) max_conn.

(** Up to the loop, which runs the server until it fails: [None] in the result is an exit with -1.  [list_file] is
    the file of gate servers: [None] when it does not open or parse as an array, and else its elements. *)
Definition config_main_init `{Files} (list_file : option (list JsonServer)) (ld : Loader ConfigFile.ConfigConfig) (gates : ConfGateList)
  (sv : JmyTcpServer App) : option (option (ConfGateList * JmyTcpServer App)) :=
  '(ok, ld) ← ConfigFile.config_loadJson (chars "./config_server.json") ld;
  if negb ok then Some None else
  let c := config_ ld in
  if negb (global_log_init (ConfigFile.log_conf_path c)) then Some None else
  match list_file with
  | None => Some None
  | Some entries =>
    '(ok, gates) ← cg_load entries [] [] gates;
    if negb ok then Some None else
    '(ok, sv) ← listen_start garbage listens (config_conn_config (u32 (ConfigFile.max_conn c))) (c_str (ConfigFile.ip c)) (ConfigFile.port c) sv;
    if negb ok then Some None else Some (Some (gates, sv))
  end.
End config.
End start.
Arguments LoginHandlers : clear implicits.
Arguments LinkHandlers : clear implicits.
Arguments ConfigHandlers : clear implicits.
Arguments LoginProcess : clear implicits.
Arguments GameProcess : clear implicits.
