(* ===== verification/ServerStartProps.v ===== *)
(** * What becomes of the links of the login and the game server

    A link that is not in a client set connects once: its configuration asks for it to be connected again, but nothing
    does.  Losing it ends the program. *)
From S2P Require Import Prelude Text Json ServerFiles Datatype DataHandler2 EventHandler IdGenerator ConnBuffer Connection ConnectionFrame ConnectionMgr TcpServer TcpClient ClientProps AppNet Proto Common GateLink GateLinkProps ServerStart.
From Stdlib Require Import ZArith Lia.
From stdpp Require Import base option list gmap strings.
Local Open Scope Z_scope.

(** ** A link that nothing connects again *)

(** How the attempts to connect completed, and the states the link can be in then. *)
Definition link_states (rs : list connect_result) (st : JmyConnState) : Prop :=
  match rs with
  | [] | [connect_in_progress] => st = JMY_CONN_STATE_CONNECTING \/ st = JMY_CONN_STATE_DISCONNECTED
  | [connect_failed] => st = JMY_CONN_STATE_NOT_CONNECT \/ st = JMY_CONN_STATE_DISCONNECTED
  | [connect_ok] => st = JMY_CONN_STATE_CONNECTED \/ st = JMY_CONN_STATE_DISCONNECTING \/ st = JMY_CONN_STATE_DISCONNECTED
  | _ => False
  end.

Lemma link_states_settle rs st st' : settles st st' -> link_states rs st -> link_states rs st'.
Proof. intros [->|[->|[-> ->]]]; [done|..]; destruct rs as [|[] [|]]; cbn; intuition congruence. Qed.

Section link.
Context {App : Type}.
Notation W := (World App).
Notation Master := (JmyTcpClientMaster App).
Implicit Type m : Master.
Variable mgr : Z.
Variable garbage : Z -> list Z.

(** The program runs a link, sends on it or closes it, or an operation on a socket completes. *)
Definition link_op (o : ct_op App) : Prop :=
  match o with ct_run _ _ | ct_send _ _ _ _ | ct_close _ _ | ct_connected _ _ | ct_read _ _ | ct_sent _ _ => True | _ => False end.

(** The completed attempts to connect the connection [p]. *)
Definition completed (p : ptr) (o : ct_op App) : list connect_result :=
  match o with ct_connected q res => if decide (q = p) then [res] else [] | _ => [] end.

(** The client [c] has the connection [p], which is in the state [st]; [b] tells whether an attempt to connect is
    outstanding. *)
Record link_at (c p : ptr) (b : bool) (st : JmyConnState) (m : Master) : Prop := mkLinkAt {
  la_client : exists cl, mt_objs m !! c = Some cl /\ cl_conn cl = p;
  la_state : conn_state m p = Some st;
  la_sock : sk_connecting (default closed_socket (mt_socks m !! p)) = b;
}.

Lemma link_at_state c p b st m : link_at c p b st m -> cl_state m c = Some st.
Proof using. intros [(cl & Hc & <-) Hs _]. by rewrite (cl_state_conn _ _ _ Hc). Qed.

(** An operation on some connection that keeps what a client's connection keeps. *)
Lemma on_keeps_link {A} B n k m q (f : W -> option (A * W)) r m' c p b st :
  mt_inv B n k m -> (forall w r w', f w = Some (r, w') -> client_keeps w w') -> mt_on m q f = Some (r, m') -> link_at c p b st m ->
  mt_inv B n k m' /\ exists st', settles st st' /\ link_at c p b st' m'.
Proof using.
  intros Hm Hf E [Hc Hs Hk]. pose proof E as E'. unfold mt_on in E'. apply bind_Some in E' as (w & Hw & E'). apply bind_Some in E' as ([r1 w'] & Ew & [= -> <-]).
  pose proof (Hf _ _ _ Ew) as Hkeep. pose proof (mt_world_type _ _ _ _ _ _ Hm Hw) as Ht. destruct (mt_world_Some _ _ _ Hw) as [Hp Hsk].
  split; [by eapply put_inv; [..|eapply client_keeps_but_state]|]. destruct (decide (q = p)) as [->|Hne].
  - unfold conn_state in Hs. rewrite Hp in Hs. injection Hs as <-. exists (state w'). split; [by apply (ck_state _ _ Hkeep)|]. constructor; [done|..].
    + unfold conn_state. cbn. by rewrite lookup_insert_eq.
    + cbn. rewrite lookup_insert_eq. cbn. rewrite (ck_connecting _ _ Hkeep). by rewrite Hsk.
  - exists st. split; [by left|]. constructor; [done|..].
    + unfold conn_state in *. cbn. by rewrite lookup_insert_ne.
    + cbn. by rewrite lookup_insert_ne.
Qed.

Lemma on_connect_connecting events res (w w' : W) : events_preserve client_keeps events -> on_connect events mgr res w = Some w' ->
  sk_connecting (w_sock w') = false.
Proof using.
  intros Hev. unfold on_connect. destruct res; [|intros [= <-]; reflexivity..].
  intros E. apply bind_Some in E as ([r1 w1] & E & [= <-]). apply handle_event_preserves with (R := client_keeps) in E; [|exact client_keeps_preserved|done].
  match type of E with client_keeps (start ?a) _ => pose proof (start_recv_preserves client_keeps a : client_keeps a (start a)) as Ha end.
  pose proof (transitivity Ha E) as Hk. by rewrite (ck_connecting _ _ Hk).
Qed.

(** The completion of the attempt itself. *)
Lemma connected_link B n k m q res r m' c p b st :
  mt_inv B n k m -> (exists x, mt_socks m !! q = Some x /\ sk_connecting x = true) ->
  mt_on m q (no_result (on_connect (mt_event m q) mgr res)) = Some (r, m') -> link_at c p b st m ->
  (b = true -> st = JMY_CONN_STATE_CONNECTING \/ st = JMY_CONN_STATE_DISCONNECTED) ->
  mt_inv B n k m' /\ exists b' st', link_at c p b' st' m' /\
    if decide (q = p) then b = true /\ b' = false /\ link_states [res] st' else b' = b /\ st' = st.
Proof using.
  intros Hm (x & Hx & Hxc) E [Hc Hs Hk] Hst. unfold mt_on in E. apply bind_Some in E as (w & Hw & E). apply bind_Some in E as ([[] w'] & Ew & [= _ <-]).
  unfold no_result in Ew. apply bind_Some in Ew as (w1 & Ew & [= <-]).
  pose proof (mt_world_type _ _ _ _ _ _ Hm Hw) as Ht. destruct (mt_world_Some _ _ _ Hw) as [Hp Hsk].
  pose proof (on_connect_connecting _ _ _ _ (mi_events _ _ _ _ Hm q) Ew) as Hc0.
  apply on_connect_spec in Ew as [Hkeep Hres]; [|apply Hm|done]. split; [by eapply put_inv|].
  destruct (decide (q = p)) as [->|Hne].
  - exists false, (state w1). split.
    { constructor; [done|..]; [unfold conn_state; cbn; by rewrite lookup_insert_eq|cbn; by rewrite lookup_insert_eq]. }
    rewrite Hx in Hk. cbn in Hk. split; [congruence|]. split; [done|].
    unfold conn_state in Hs. rewrite Hp in Hs. injection Hs as Hs. destruct res; cbn in Hres |- *.
    + destruct Hres as [->|[->|[_ ->]]]; auto.
    + rewrite Hres. change (state w) with (state_ (w_conn w)). rewrite Hs. apply Hst. congruence.
    + by left.
  - exists b, st. split; [|done]. constructor; [done|..]; [unfold conn_state in *; cbn; by rewrite lookup_insert_ne|cbn; by rewrite lookup_insert_ne].
Qed.

(** What is known of a link after the attempts [rs] completed. *)
Record link_known (B : gset Z) (n k : Z) (c p : ptr) (rs : list connect_result) (m : Master) : Prop := mkLinkKnown {
  lk_inv : mt_inv B n k m;
  lk_at : exists b st, link_at c p b st m /\ link_states rs st /\ (b = true -> rs = []);
}.

Lemma link_known_keeps {A} B n k c p rs m q (f : W -> option (A * W)) r m' :
  (forall w r w', f w = Some (r, w') -> client_keeps w w') -> mt_on m q f = Some (r, m') ->
  link_known B n k c p rs m -> link_known B n k c p rs m'.
Proof using.
  intros Hf E [Hm (b & st & Ha & Hs & Hb)]. eapply on_keeps_link in E as (Hm' & st' & Hset & Ha'); [|exact Hm|exact Hf|exact Ha].
  split; [done|]. exists b, st'. split; [done|]. split; [by eapply link_states_settle|done].
Qed.

Lemma run_known B n k c p rs m now c' r m' :
  link_known B n k c p rs m -> cl_run mgr garbage now c' m = Some (r, m') -> link_known B n k c p rs m'.
Proof using.
  intros Hl E. unfold cl_run in E. apply bind_Some in E as (q & _ & E). apply bind_Some in E as (s & _ & E).
  destruct (bool_decide _); [by injection E as _ <-|]. destruct (bool_decide _); [by injection E as _ <-|].
  eapply link_known_keeps; [|exact E|done]. intros w r1 w' Ew. eapply run_preserves; [..|exact Ew]; [exact client_keeps_preserved|apply Hl..].
Qed.

Lemma link_exec_known B n k c p rs m o cs s' hash_order :
  link_op o -> link_known B n k c p rs m -> ct_exec mgr garbage hash_order o (mkClients m cs) = Some s' ->
  link_known B n k c p (rs ++ completed p o) (ct_master s').
Proof using.
  intros Ho Hl E. destruct o as [|c'|ep c'|conf bl c'|bl c'|id d len c'|now c'|c'|now c'|c' conf|c'|now|q res|q res|q res]; try done;
    cbn [ct_exec completed ct_master ct_set] in *; unfold on_master in E; rewrite ?app_nil_r.
  - apply bind_Some in E as ([r m'] & E & [= <-]). unfold cl_send in E. apply bind_Some in E as (q & _ & E). eapply link_known_keeps; [|exact E|done].
    intros w r1 w' Ew. by apply (send_preserves client_keeps garbage id d len w r1 w').
  - apply bind_Some in E as (m' & E & [= <-]). unfold cl_close in E. apply bind_Some in E as (q & _ & E). apply bind_Some in E as ([[] m1] & E & [= <-]).
    eapply link_known_keeps; [|exact E|done]. intros w [] w' Ew. apply bind_Some in Ew as (w1 & Ew & [= <-]).
    by apply (close_preserves client_keeps garbage now w w1).
  - apply bind_Some in E as ([r m'] & E & [= <-]). by eapply run_known.
  - apply bind_Some in E as (x & Hx & E). apply bind_Some in E as ([] & Hxc & E). apply bind_Some in E as ([[] m'] & E & [= <-]).
    destruct Hl as [Hm (b & st & Ha & Hs & Hb)].
    eapply connected_link in E as (Hm' & b' & st' & Ha' & Hcase); [|exact Hm| |exact Ha|].
    + cbn [ct_master]. split; [done|]. exists b', st'. split; [done|]. destruct (decide (q = p)) as [->|Hne].
      * destruct Hcase as (-> & -> & Hst'). by rewrite (Hb eq_refl).
      * destruct Hcase as [-> ->]. by rewrite app_nil_r.
    + exists x. split; [done|]. by destruct (sk_connecting x).
    + intros ->. rewrite (Hb eq_refl) in Hs. exact Hs.
  - apply bind_Some in E as ([[] m'] & E & [= <-]). eapply link_known_keeps; [|exact E|done].
    intros w [] w' Ew. apply bind_Some in Ew as (w1 & Ew & [= <-]). eapply read_completes_preserves; [exact client_keeps_preserved|apply Hl|exact Ew].
  - apply bind_Some in E as ([[] m'] & E & [= <-]). eapply link_known_keeps; [|exact E|done].
    intros w [] w' Ew. apply bind_Some in Ew as (w1 & Ew & [= <-]). eapply send_completes_preserves; [exact client_keeps_preserved|apply Hl|exact Ew].
Qed.
(** A link that is closed. *)
Lemma closed_link_run c (m : Master) now : cl_state m c = Some JMY_CONN_STATE_DISCONNECTED -> cl_run mgr garbage now c m = Some (-1, m).
Proof using.
  intros Hs. unfold cl_run. rewrite Hs. unfold cl_state in Hs. apply bind_Some in Hs as (p & -> & _). reflexivity.
Qed.

End link.

(** ** Starting a link *)

Section starting.
Context {App : Type}.
Notation W := (World App).
Notation Master := (JmyTcpClientMaster App).
Implicit Type m : Master.
Variable mgr : Z.
Variable garbage : Z -> list Z.
Variable is_address : text -> bool.

(** A part of the state where nothing changed but the connection [p]. *)
Record others_same (p : ptr) (m m' : Master) : Prop := mkOthersSame {
  os_state : forall q, q <> p -> conn_state m' q = conn_state m q;
  os_sock : forall q, q <> p -> mt_socks m' !! q = mt_socks m !! q;
}.

Lemma others_same_trans p m1 m2 m3 : others_same p m1 m2 -> others_same p m2 m3 -> others_same p m1 m3.
Proof using. intros [H1 H2] [H3 H4]. split; intros q Hq; [by rewrite H3, H1|by rewrite H4, H2]. Qed.

Lemma generate_spec B n k m : mt_inv B n k m -> k < n -> exists c p x m',
  mt_generate m = Some (Some c, m') /\ mt_inv B n (k + 1) m' /\ mt_objs m !! c = None /\ (forall id, used_map_ (conn_mgr_ m) !! id <> Some p) /\
  mt_objs m' = <[c := mkClient p ([], 0)]> (mt_objs m) /\ cm_objs (conn_mgr_ m) !! p = Some x /\
  conn_state m' p = Some (state_ x) /\ others_same p m m'.
Proof using.
  intros Hm Hk. destruct (generate_more _ _ _ _ Hm Hk) as (c & m' & E & Hm'). pose proof E as E'.
  destruct (getFree_next _ _ _ _ Hm Hk) as (p & cm & x & Ef & _ & _ & Hx & Ho & _ & Hnew). unfold mt_generate in E'.
  rewrite (mi_max _ _ _ _ Hm), (mi_used_ids _ _ _ _ Hm), (proj2 (Z.leb_gt _ _)), (mi_free_ids _ _ _ _ Hm), (mi_gen _ _ _ _ Hm) in E' by lia.
  pose proof (mi_range _ _ _ _ Hm). pose proof (mi_int _ _ _ _ Hm). rewrite ig_get_at in E' by lia. cbn [Z.eqb andb] in E'.
  rewrite (proj2 (Z.eqb_neq _ _)) in E' by lia. cbn [mbind option_bind] in E'. change (next_id 0 k) with (k + 1) in E'. rewrite Ef in E'. cbn [mbind option_bind] in E'.
  rewrite Ho, lookup_insert_eq in E'. cbn [mbind option_bind] in E'. injection E' as Hc Em. exists c, p, x, m'. split; [exact E|]. split; [exact Hm'|].
  split; [rewrite <- Hc; apply fresh_ptr_fresh|]. split; [exact Hnew|]. rewrite <- Em, <- Hc.
  split; [reflexivity|]. split; [exact Hx|]. split; [unfold conn_state; cbn; by rewrite Ho, lookup_insert_eq|].
  split; [|done]. intros q Hq. unfold conn_state. cbn. by rewrite Ho, lookup_insert_ne.
Qed.

Lemma setIP_same ip port c m m' p : setIP is_address ip port c m = Some m' -> cl_at m c = Some p ->
  others_same p m m' /\ conn_state m' p = conn_state m p /\ mt_objs m' = <[c := mkClient p (ip, port)]> (mt_objs m).
Proof using.
  intros E Hc. unfold setIP in E. apply bind_Some in E as ([] & _ & E). unfold cl_setEndPoint in E. apply bind_Some in E as (cl & Hcl & [= <-]).
  unfold cl_at in Hc. rewrite Hcl in Hc. injection Hc as <-. by split.
Qed.

Lemma start_spec B n k m conf c cl ok m' :
  mt_inv B n k m -> mt_objs m !! c = Some cl -> conn_state m (cl_conn cl) = Some JMY_CONN_STATE_NOT_USE ->
  cl_start mgr garbage conf None c m = Some (ok, m') ->
  mt_objs m' = mt_objs m /\ others_same (cl_conn cl) m m' /\
  (cl_load_handlers conf <> None -> ok = true) /\ (ok = true -> link_at c (cl_conn cl) true JMY_CONN_STATE_CONNECTING m').
Proof using.
  intros Hm Hc Hs E. unfold cl_start, cl_at in E. rewrite Hc in E. cbn [mbind option_bind] in E. unfold conn_state in Hs.
  destruct (cm_objs (conn_mgr_ m) !! cl_conn cl) as [x|] eqn:Hx; [|done]. cbn [mbind option_bind] in E. injection Hs as Hs.
  pose proof (mi_active _ _ _ _ Hm _ _ Hx) as Ht. set (p := cl_conn cl) in *.
  destruct (cl_load_handlers conf) as [H|]; [|injection E as <- <-; split; [done|]; split; [by split|done]].
  apply bind_Some in E as (ev & _ & E). apply bind_Some in E as ([h b] & _ & E).
  set (m1 := mt_set_conn p _ _) in E. assert (H1 : mt_objs m1 = mt_objs m /\ mt_socks m1 = mt_socks m) by done. destruct H1 as [H1 H2].
  assert (Hk : exists y, cm_objs (conn_mgr_ m1) !! p = Some y /\ conn_type_ y = conn_type_ x /\ state_ y = state_ x).
  { unfold m1. cbn. rewrite lookup_alter_eq, Hx. by eexists. }
  assert (Ho : forall q, q <> p -> conn_state m1 q = conn_state m q).
  { intros q Hq. unfold conn_state, m1. cbn. by rewrite lookup_alter_ne. }
  clearbody m1. destruct Hk as (y & Hy & Hyt & Hys).
  unfold cl_connect, cl_at in E. rewrite H1, Hc in E. cbn [mbind option_bind] in E. fold p in E. unfold mt_on, mt_world in E. rewrite Hy in E.
  cbn [mbind option_bind] in E. unfold asynConnect, ctype, state in E. cbn [w_conn] in E. rewrite Hyt, Hys, Ht, Hs in E.
  rewrite bool_decide_true, bool_decide_false in E by done. cbn [negb] in E. injection E as <- <-. split; [exact H1|]. split.
  - split; intros q Hq; [rewrite <- Ho by done; unfold conn_state; cbn; by rewrite lookup_insert_ne|cbn; rewrite lookup_insert_ne by done; by rewrite H2].
  - split; [done|]. intros _. constructor; [exists cl; cbn; by rewrite H1|unfold conn_state; cbn; by rewrite lookup_insert_eq|cbn; by rewrite lookup_insert_eq].
Qed.

(** The connections of a master that no client uses are as they were made. *)
Definition unused_fresh m : Prop :=
  forall p st, conn_state m p = Some st -> (forall c cl, mt_objs m !! c = Some cl -> cl_conn cl <> p) -> st = JMY_CONN_STATE_NOT_USE.

Lemma link_at_frame c p b st p' m m' : link_at c p b st m -> p <> p' -> others_same p' m m' ->
  (exists cl, mt_objs m' !! c = Some cl /\ cl_conn cl = p) -> link_at c p b st m'.
Proof using. intros [Hc Hs Hk] Hp [H1 H2] Hc'. constructor; [done|by rewrite H1|by rewrite H2]. Qed.

Lemma start_link_spec B n k m conf ip port ok oc m' :
  mt_inv B n k m -> k < n -> unused_fresh m -> conf_keeps conf ->
  start_link mgr garbage is_address conf ip port m = Some (ok, oc, m') ->
  mt_inv B n (k + 1) m' /\ unused_fresh m' /\
  (exists c p, oc = Some c /\ (cl_load_handlers conf <> None -> ok = true) /\ (ok = true -> link_at c p true JMY_CONN_STATE_CONNECTING m')) /\
  (forall c p b st, link_at c p b st m -> link_at c p b st m').
Proof using.
  intros Hm Hk Hu Hconf E. destruct (generate_spec _ _ _ _ Hm Hk) as (c & p & x & m1 & E1 & Hm1 & Hnone & Hnew & Ho1 & Hx & Hs1 & Hf1).
  assert (Hunused : forall c' cl, mt_objs m !! c' = Some cl -> cl_conn cl <> p).
  { intros c' cl Hc' <-. destruct (mi_conn _ _ _ _ Hm _ _ Hc') as [id Hid]. by apply (Hnew id). }
  assert (Hst : state_ x = JMY_CONN_STATE_NOT_USE) by (apply (Hu p); [unfold conn_state; by rewrite Hx|done]).
  unfold start_link in E. rewrite E1 in E. cbn [mbind option_bind] in E. apply bind_Some in E as (m2 & E2 & E). apply bind_Some in E as ([ok3 m3] & E3 & E).
  injection E as <- <- <-. assert (Hat : cl_at m1 c = Some p) by (unfold cl_at; by rewrite Ho1, lookup_insert_eq).
  pose proof (setIP_inv is_address _ _ _ _ _ _ _ _ Hm1 E2) as Hm2. destruct (setIP_same _ _ _ _ _ _ E2 Hat) as (Hf2 & Hs2 & Ho2).
  pose proof (start_inv _ _ _ _ _ _ _ _ _ _ _ Hconf Hm2 E3) as Hm3.
  assert (Hc2 : mt_objs m2 !! c = Some (mkClient p (ip, port))) by (by rewrite Ho2, lookup_insert_eq).
  eapply start_spec in E3 as (Ho3 & Hf3 & Hload & Hok); [|exact Hm2|exact Hc2|cbn; by rewrite Hs2, Hs1, Hst]. cbn [cl_conn] in Hf3, Hok.
  assert (Hf : others_same p m m3) by (by eapply others_same_trans; [eapply others_same_trans|]).
  assert (Ho : forall c', c' <> c -> mt_objs m3 !! c' = mt_objs m !! c').
  { intros c' Hc'. rewrite Ho3, Ho2, lookup_insert_ne by done. by rewrite Ho1, lookup_insert_ne. }
  assert (Hc3 : mt_objs m3 !! c = Some (mkClient p (ip, port))) by (by rewrite Ho3).
  split; [done|]. split; [|split; [by exists c, p|]].
  - intros q st Hq Hno. destruct (decide (q = p)) as [->|Hne]; [exfalso; by apply (Hno _ _ Hc3)|].
    rewrite (os_state _ _ _ Hf) in Hq by done. apply (Hu q); [done|]. intros c' cl Hc' <-. apply (Hno c' cl); [|done].
    rewrite Ho; [done|]. intros ->. congruence.
  - intros c' q b st Hl. destruct (la_client _ _ _ _ _ Hl) as (cl & Hc' & Hq). apply (link_at_frame _ _ _ _ p m); [done| |done|].
    + subst q. by eapply Hunused.
    + exists cl. rewrite Ho; [done|]. intros ->. congruence.
Qed.

Lemma new_conns_state n ty objs l :
  (forall p x, objs !! p = Some x -> state_ x = JMY_CONN_STATE_NOT_USE) ->
  forall p x, fst (cm_new_conns n ty objs l) !! p = Some x -> state_ x = JMY_CONN_STATE_NOT_USE.
Proof using.
  revert objs l. induction n as [|n IH]; intros objs l Ho; cbn [cm_new_conns]; [exact Ho|]. apply IH.
  intros p x. destruct (decide (p = fresh_ptr objs)) as [->|]; [rewrite lookup_insert_eq; by intros [= <-]|].
  rewrite lookup_insert_ne by done. apply Ho.
Qed.

Lemma new_fresh n hp (app : App) : unused_fresh (snd (mt_init n (JmyTcpClientMaster_new hp app))).
Proof using.
  intros p st Hp _. unfold conn_state in Hp. destruct (cm_objs _ !! p) as [x|] eqn:Hx; [|done]. injection Hp as <-. revert Hx.
  change (conn_mgr_ _) with (cm_init JmyTcpConnectionMgr_new n JMY_CONN_TYPE_ACTIVE). unfold cm_init.
  pose proof (new_conns_state (Z.to_nat n) JMY_CONN_TYPE_ACTIVE (cm_objs JmyTcpConnectionMgr_new) (ConnectionMgr.free_list_ JmyTcpConnectionMgr_new)) as Hn.
  destruct (cm_new_conns _ _ _ _) as [objs l]. cbn in *. apply Hn. by intros q y [=].
Qed.
End starting.

(** ** The game server *)

Section game.
Context {App : Type}.
Notation Master := (JmyTcpClientMaster App).
Variable h : LinkHandlers App.
Variable mgr : Z.
Variable garbage : Z -> list Z.
Variable is_address : text -> bool.
Variable global_log_init : text -> bool.
Variable loadCsv : bool.
Hypothesis Hgate : conf_keeps (game_gate_config h).
Hypothesis Hdb : conf_keeps (game_db_config h).

(** The loop turns, or something happens between its turns. *)
Inductive game_op : Type := game_op_turn (now : Z) | game_op_net (o : ct_op App).

(** A loop that goes on. *)
Definition game_exec (o : game_op) (p : GameProcess App) : option (GameProcess App) :=
  match o with
  | game_op_turn now => '(r, p) ← game_turn mgr garbage now p; if r <? 0 then None else Some p
  | game_op_net o =>
    s ← ct_exec mgr garbage (fun _ => []) o (mkClients (gmp_client_master p) ∅);
    Some (mkGameProcess (ct_master s) (gmp_gate_client p) (gmp_db_client p) (gmp_config p))
  end.

Fixpoint game_run (os : list game_op) (p : GameProcess App) : option (GameProcess App) :=
  match os with [] => Some p | o :: os => p ← game_exec o p; game_run os p end.

Definition game_allowed (o : game_op) : Prop := match o with game_op_turn _ => True | game_op_net o => link_op o end.
Definition game_completed (p : ptr) (o : game_op) : list connect_result := match o with game_op_turn _ => [] | game_op_net o => completed p o end.

Record game_inv (B : gset Z) (n k gate db pg pd : Z) (rg rd : list connect_result) (p : GameProcess App) : Prop := mkGameInv {
  gmi_gate : gmp_gate_client p = Some gate;
  gmi_db : gmp_db_client p = Some db;
  gmi_gate_link : link_known B n k gate pg rg (gmp_client_master p);
  gmi_db_link : link_known B n k db pd rd (gmp_client_master p);
}.

Lemma game_init_links `{Files} path p p' hp app : gmp_client_master p = JmyTcpClientMaster_new hp app ->
  game_init mgr garbage is_address global_log_init h loadCsv path p = Some (true, p') ->
  exists B gate db pg pd, game_inv B GAME_MAX_CLIENTS 2 gate db pg pd [] [] p'.
Proof using Hgate Hdb.
  intros Hp E. unfold game_init in E. apply bind_Some in E as ([[] ld] & _ & E); [|by injection E]. cbn [negb] in E.
  destruct (negb _); [by injection E|]. cbn [gmp_client_master] in E. rewrite Hp in E. destruct (new_inv GAME_MAX_CLIENTS hp app) as (B & _ & Hm); [by vm_compute|].
  pose proof (new_fresh GAME_MAX_CLIENTS hp app) as Hu. unfold clients_new in Hm. cbn [ct_master] in Hm.
  destruct (mt_init GAME_MAX_CLIENTS _) as [ok m]. cbn [snd] in Hm, Hu. destruct ok; [|by injection E]. cbn [negb] in E.
  apply bind_Some in E as ([[ok1 gate] m1] & E1 & E). destruct ok1; [|by injection E]. cbn [negb] in E.
  apply bind_Some in E as ([[ok2 db] m2] & E2 & E). destruct ok2; [|by injection E]. cbn [negb] in E. injection E as _ <-.
  eapply start_link_spec in E1 as (Hm1 & Hu1 & (c1 & p1 & -> & _ & H1) & _); [|exact Hm|by vm_compute|exact Hu|exact Hgate].
  eapply start_link_spec in E2 as (Hm2 & Hu2 & (c2 & p2 & -> & _ & H2) & Hf); [|exact Hm1|by vm_compute|exact Hu1|exact Hdb].
  exists B, c1, c2, p1, p2. split; [done|done|..]; (split; [exact Hm2|]); exists true, JMY_CONN_STATE_CONNECTING; split; auto; (split; [by left|done]).
Qed.

Lemma game_exec_inv B n k gate db pg pd rg rd o p p' : game_allowed o -> game_inv B n k gate db pg pd rg rd p -> game_exec o p = Some p' ->
  game_inv B n k gate db pg pd (rg ++ game_completed pg o) (rd ++ game_completed pd o) p'.
Proof using.
  intros Ho [H1 H2 H3 H4] E. destruct o as [now|o]; cbn [game_exec game_completed] in *.
  - apply bind_Some in E as ([r p1] & E & E'). destruct (r <? 0) eqn:Hr; [done|]. injection E' as <-. rewrite !app_nil_r.
    unfold game_turn in E. rewrite H1, H2 in E. cbn [mbind option_bind] in E. apply bind_Some in E as ([r1 m1] & E1 & E).
    destruct (r1 <? 0); [injection E as <- <-|cbn [gmp_db_client gmp_client_master mbind option_bind] in E; apply bind_Some in E as ([r2 m2] & E2 & [= <- <-])].
    + split; [done|done|..]; by eapply run_known.
    + split; [done|done|..]; (eapply run_known; [by eapply run_known|exact E2]).
  - apply bind_Some in E as (s & E & [= <-]). split; [done|done|..]; by eapply link_exec_known.
Qed.

Lemma game_run_inv B n k gate db pg pd rg rd os p p' : Forall game_allowed os -> game_inv B n k gate db pg pd rg rd p -> game_run os p = Some p' ->
  game_inv B n k gate db pg pd (rg ++ concat (game_completed pg <$> os)) (rd ++ concat (game_completed pd <$> os)) p'.
Proof using.
  revert rg rd p. induction os as [|o os IH]; intros rg rd p Ho Hi E; cbn [game_run fmap list_fmap concat] in *; [injection E as <-; by rewrite !app_nil_r|].
  apply Forall_cons in Ho as [Ho Hos]. apply bind_Some in E as (p1 & E1 & E). rewrite !app_assoc. eapply IH; [done| |exact E]. by eapply game_exec_inv.
Qed.

(** C29.  The game server does not survive the loss of a link.  After its start, whatever is sent, arrives, fails or is
    closed while the loop goes on: the attempt to connect each link, to the gate and to the database
    server, completes at most once; a link whose attempt failed is never connected, although its configuration asks for
    new attempts every three seconds; and when a link was closed the next turn of the loop ends the program. *)
Theorem game_server_links_end `{Files} path p p' hp app os q :
  gmp_client_master p = JmyTcpClientMaster_new hp app ->
  game_init mgr garbage is_address global_log_init h loadCsv path p = Some (true, p') ->
  Forall game_allowed os -> game_run os p' = Some q ->
  exists gate db pg pd sg sd, gmp_gate_client q = Some gate /\ gmp_db_client q = Some db /\
    cl_at (gmp_client_master q) gate = Some pg /\ cl_at (gmp_client_master q) db = Some pd /\
    cl_state (gmp_client_master q) gate = Some sg /\ link_states (concat (game_completed pg <$> os)) sg /\
    cl_state (gmp_client_master q) db = Some sd /\ link_states (concat (game_completed pd <$> os)) sd /\
    (sg = JMY_CONN_STATE_DISCONNECTED \/ sd = JMY_CONN_STATE_DISCONNECTED ->
       forall now r q', game_turn mgr garbage now q = Some (r, q') -> r < 0).
Proof using Hgate Hdb.
  intros Hp E0 Ho E. destruct (game_init_links _ _ _ _ _ Hp E0) as (B & gate & db & pg & pd & Hi).
  pose proof (game_run_inv _ _ _ _ _ _ _ _ _ _ _ _ Ho Hi E) as [H1 H2 [Hm (bg & sg & Hg & Hsg & _)] [_ (bd & sd & Hd & Hsd & Hbd)]].
  exists gate, db, pg, pd, sg, sd. split; [done|]. split; [done|]. split; [by destruct Hg as [(cl & Hc & <-) _ _]; unfold cl_at; rewrite Hc|].
  split; [by destruct Hd as [(cl & Hc & <-) _ _]; unfold cl_at; rewrite Hc|]. split; [by eapply link_at_state|]. split; [done|].
  split; [by eapply link_at_state|]. split; [done|]. intros Hcase now r q' Et. unfold game_turn in Et. rewrite H1, H2 in Et. cbn [mbind option_bind] in Et.
  apply bind_Some in Et as ([r1 m1] & E1 & Et). destruct (r1 <? 0) eqn:Hr1; [injection Et as <- <-; by apply Z.ltb_lt|].
  cbn [gmp_db_client gmp_client_master mbind option_bind] in Et. apply bind_Some in Et as ([r2 m2] & E2 & [= <- <-]). destruct Hcase as [->| ->].
  - rewrite closed_link_run in E1 by by eapply link_at_state. by injection E1 as <- _.
  - assert (Hd1 : exists b st, link_at db pd b st m1 /\ settles JMY_CONN_STATE_DISCONNECTED st).
    { unfold cl_run in E1. apply bind_Some in E1 as (x & _ & E1). apply bind_Some in E1 as (st & _ & E1).
      destruct (bool_decide _); [injection E1 as _ <-; exists bd, JMY_CONN_STATE_DISCONNECTED; split; [done|by left]|].
      destruct (bool_decide _); [injection E1 as _ <-; exists bd, JMY_CONN_STATE_DISCONNECTED; split; [done|by left]|].
      eapply on_keeps_link in E1 as (_ & st' & Hset & Ha); [|exact Hm| |exact Hd]; [by exists bd, st'|].
      intros w r3 w' Ew. eapply run_preserves; [..|exact Ew]; [exact client_keeps_preserved|apply Hm..]. }
    destruct Hd1 as (b & st & Ha & Hset). assert (st = JMY_CONN_STATE_DISCONNECTED) as -> by (destruct Hset as [|[|[? ?]]]; congruence).
    rewrite closed_link_run in E2 by by eapply link_at_state. by injection E2 as <- _.
Qed.
End game.

(** ** The login server *)

Section login.
Context {App : Type}.
Variable h : LoginHandlers App.
Variable mgr main_mgr gate_mgr : Z.
Variable garbage : Z -> list Z.
Variable is_address : text -> bool.
Variable listens : text -> Z -> bool.
Variable global_log_init : text -> bool.
Hypothesis Hconf : conf_keeps (login_conn_config h).

(** The loop turns, or something happens to one of the servers or to the link between its turns. *)
Inductive login_op : Type := login_op_turn (now : Z) | login_op_main (o : sv_op) | login_op_gate (o : sv_op) | login_op_net (o : ct_op App).

Definition login_exec (o : login_op) (p : LoginProcess App) : option (LoginProcess App) :=
  match o with
  | login_op_turn now => '(r, p) ← login_turn mgr garbage main_mgr gate_mgr now p; if r <? 0 then None else Some p
  | login_op_main o => sv ← sv_exec main_mgr garbage o (lp_main_server p); Some (lp_set_main sv p)
  | login_op_gate o => sv ← sv_exec gate_mgr garbage o (lp_listen_gate_server p); Some (lp_set_gate sv p)
  | login_op_net o =>
    s ← ct_exec mgr garbage (fun _ => []) o (mkClients (lp_client_master p) ∅); Some (lp_set_client (ct_master s) (lp_config_client p) p)
  end.

Fixpoint login_run (os : list login_op) (p : LoginProcess App) : option (LoginProcess App) :=
  match os with [] => Some p | o :: os => p ← login_exec o p; login_run os p end.

Definition login_allowed (o : login_op) : Prop := match o with login_op_net o => link_op o | _ => True end.
Definition login_completed (p : ptr) (o : login_op) : list connect_result := match o with login_op_net o => completed p o | _ => [] end.

Record login_inv (B : gset Z) (n k c pc : Z) (rs : list connect_result) (p : LoginProcess App) : Prop := mkLoginInv {
  lpi_client : lp_config_client p = Some c;
  lpi_link : link_known B n k c pc rs (lp_client_master p);
}.

Lemma login_init_link `{Files} path p p' hp app c : lp_client_master p = JmyTcpClientMaster_new hp app -> lp_config_client p = None ->
  login_init mgr garbage is_address listens global_log_init h path p = Some (true, p') -> lp_config_client p' = Some c ->
  exists B pc, login_inv B LOGIN_MAX_CLIENTS 1 c pc [] p'.
Proof using Hconf.
  intros Hp Hn E Hc. unfold login_init in E. apply bind_Some in E as ([[] ld] & _ & E); [|by injection E]. cbn [negb] in E.
  destruct (negb _); [by injection E|]. apply bind_Some in E as ([ok1 s1] & _ & E).
  destruct ok1; cbn [negb] in E; [|injection E as <-; cbn in Hc; congruence]. apply bind_Some in E as ([ok2 s2] & _ & E).
  destruct ok2; cbn [negb] in E; [|injection E as <-; cbn in Hc; congruence]. cbn [lp_client_master lp_set_gate lp_set_main] in E. rewrite Hp in E.
  destruct (new_inv LOGIN_MAX_CLIENTS hp app) as (B & _ & Hm); [by vm_compute|]. pose proof (new_fresh LOGIN_MAX_CLIENTS hp app) as Hu.
  unfold clients_new in Hm. cbn [ct_master] in Hm. destruct (mt_init LOGIN_MAX_CLIENTS _) as [ok m]. cbn [snd] in Hm, Hu.
  destruct ok; cbn [negb] in E; [|injection E as <-; cbn in Hc; congruence]. apply bind_Some in E as ([[ok3 c3] m3] & E3 & [= <-]).
  eapply start_link_spec in E3 as (Hm3 & _ & (c1 & pc & -> & Hload & H1) & _); [|exact Hm|by vm_compute|exact Hu|exact Hconf].
  cbn in Hc. injection Hc as ->. exists B, pc. split; [done|]. split; [exact Hm3|]. exists true, JMY_CONN_STATE_CONNECTING.
  split; [apply H1, Hload; by cbn|]. split; [by left|done].
Qed.

Lemma login_exec_inv B n k c pc rs o p p' : login_allowed o -> login_inv B n k c pc rs p -> login_exec o p = Some p' ->
  login_inv B n k c pc (rs ++ login_completed pc o) p'.
Proof using.
  intros Ho [H1 H2] E. destruct o as [now|o|o|o]; cbn [login_exec login_completed] in *; rewrite ?app_nil_r.
  - apply bind_Some in E as ([r p1] & E & E'). destruct (r <? 0) eqn:Hr; [done|]. injection E' as <-.
    unfold login_turn in E. apply bind_Some in E as ([r1 s1] & _ & E). destruct (r1 <? 0); [by injection E as <- <-|].
    apply bind_Some in E as ([r2 s2] & _ & E). destruct (r2 <? 0); [by injection E as <- <-|].
    cbn [lp_config_client lp_client_master lp_set_gate lp_set_main] in E. rewrite H1 in E. cbn [mbind option_bind] in E.
    apply bind_Some in E as ([r3 m3] & E & [= <- <-]). split; [done|]. by eapply run_known.
  - by apply bind_Some in E as (sv & _ & [= <-]).
  - by apply bind_Some in E as (sv & _ & [= <-]).
  - apply bind_Some in E as (s & E & [= <-]). split; [done|]. by eapply link_exec_known.
Qed.

Lemma login_run_inv B n k c pc rs os p p' : Forall login_allowed os -> login_inv B n k c pc rs p -> login_run os p = Some p' ->
  login_inv B n k c pc (rs ++ concat (login_completed pc <$> os)) p'.
Proof using.
  revert rs p. induction os as [|o os IH]; intros rs p Ho Hi E; cbn [login_run fmap list_fmap concat] in *; [injection E as <-; by rewrite app_nil_r|].
  apply Forall_cons in Ho as [Ho Hos]. apply bind_Some in E as (p1 & E1 & E). rewrite app_assoc. eapply IH; [done| |exact E]. by eapply login_exec_inv.
Qed.

(** The login server and its config server: the same holds of its link, whatever its clients and gate servers do. *)
Lemma login_server_link_ends `{Files} path p p' hp app c os q :
  lp_client_master p = JmyTcpClientMaster_new hp app -> lp_config_client p = None ->
  login_init mgr garbage is_address listens global_log_init h path p = Some (true, p') -> lp_config_client p' = Some c ->
  Forall login_allowed os -> login_run os p' = Some q ->
  exists pc st, cl_at (lp_client_master q) c = Some pc /\ cl_state (lp_client_master q) c = Some st /\
    link_states (concat (login_completed pc <$> os)) st /\
    (st = JMY_CONN_STATE_DISCONNECTED -> forall now r q', login_turn mgr garbage main_mgr gate_mgr now q = Some (r, q') -> r < 0).
Proof using Hconf.
  intros Hp Hn E0 Hc Ho E. destruct (login_init_link _ _ _ _ _ _ Hp Hn E0 Hc) as (B & pc & Hi).
  pose proof (login_run_inv _ _ _ _ _ _ _ _ _ Ho Hi E) as [H1 [Hm (b & st & Ha & Hst & _)]]. exists pc, st.
  split; [by destruct Ha as [(cl & Hcl & <-) _ _]; unfold cl_at; rewrite Hcl|]. pose proof (link_at_state _ _ _ _ _ Ha) as Hs. split; [done|]. split; [done|].
  intros -> now r q' Et. unfold login_turn in Et. apply bind_Some in Et as ([r1 s1] & _ & Et).
  destruct (r1 <? 0) eqn:Hr1; [injection Et as <- <-; by apply Z.ltb_lt|]. apply bind_Some in Et as ([r2 s2] & _ & Et).
  destruct (r2 <? 0) eqn:Hr2; [injection Et as <- <-; by apply Z.ltb_lt|].
  cbn [lp_config_client lp_client_master lp_set_gate lp_set_main] in Et. rewrite H1 in Et. cbn [mbind option_bind] in Et.
  rewrite closed_link_run in Et by done. cbn [mbind option_bind] in Et. by injection Et as <- _.
Qed.
End login.

(** ** Example

    A game server whose gate cannot be reached; its link to the database server is lost. *)

Definition ex_links : LinkHandlers unit :=
  mkLinkHandlers ex_msg ex_msg ex_msg ex_msg ex_msg ex_msg ex_events ex_msg ex_msg ex_msg ex_msg ex_events.
Definition ex_game_files : Files := mkFiles (fun _ => Some []) (fun _ => Some (JObject [])).
Definition ex_game_process : GameProcess unit :=
  mkGameProcess (JmyTcpClientMaster_new ∅ tt) None None
    (mkLoader JNull (GameFile.mkGameConfig [] 0 [] 0 0 false [] 0 false [] 0 false []) []).
Abbreviation ex_game_start :=
  (game_init (H := ex_game_files) 7 demo_content (fun _ => true) (fun _ => true) ex_links true (chars "f") ex_game_process).
Definition ex_game_ops : list (game_op (App := unit)) :=
  [game_op_net (ct_connected 1 connect_failed); game_op_turn 0; game_op_net (ct_connected 2 connect_ok); game_op_turn 0; game_op_net (ct_read 2 None)].
Abbreviation ex_game_run p := (game_run 7 demo_content ex_game_ops p).

Lemma game_server_links_end_witness : exists p q sg, ex_game_start = Some (true, p) /\ ex_game_run p = Some q /\
  cl_state (gmp_client_master q) 1 = Some sg /\ link_states [connect_failed] sg /\
  forall now r q', game_turn 7 demo_content now q = Some (r, q') -> r < 0.
Proof.
  assert (E : match ex_game_start with
    | Some (true, p) => match ex_game_run p with
      | Some q => bool_decide (cl_at (gmp_client_master q) 1 = Some 1 /\ gmp_gate_client q = Some 1 /\ gmp_db_client q = Some 2 /\
                    cl_state (gmp_client_master q) 2 = Some JMY_CONN_STATE_DISCONNECTED)
      | None => false end
    | _ => false end = true) by (vm_compute; reflexivity).
  destruct ex_game_start as [[[] p]|] eqn:E0; [|discriminate E|discriminate E]. destruct (ex_game_run p) as [q|] eqn:E1; [|discriminate E].
  apply bool_decide_eq_true in E as (Hp & Hg & Hd & Hs).
  destruct (game_server_links_end (H := ex_game_files) ex_links 7 demo_content (fun _ => true) (fun _ => true) true
    ltac:(apply ex_conf_keeps; auto; repeat constructor) ltac:(apply ex_conf_keeps; auto; repeat constructor)
    (chars "f") ex_game_process p ∅ tt ex_game_ops q eq_refl E0 ltac:(repeat constructor) E1)
    as (gate & db & pg & pd & sg & sd & H1 & H2 & H3 & H4 & H5 & H6 & H7 & H8 & H9).
  rewrite Hg in H1. injection H1 as <-. rewrite Hd in H2. injection H2 as <-. rewrite Hp in H3. injection H3 as <-.
  exists p, q, sg. split; [reflexivity|]. split; [exact E1|]. split; [exact H5|]. split; [exact H6|]. apply H9. right. rewrite Hs in H7. by injection H7 as <-.
Defined.
