(* ===== verification/TestClient.v ===== *)
(** * The test client ([test_client/])

    One process plays many accounts.  Each has a [TestClient] with a link to the login server and one to the gate
    server; an event list takes the address of the gate from the handlers of the first to the main loop.
    [test_client.*], [user_event.h], [login_handler.cpp], [game_handler.cpp], [main.cpp] and the tables of
    [config_data.h]. *)
From S2P Require Import Prelude Text Json ServerFiles Datatype DataHandler2 EventHandler ConnBuffer Connection ConnectionMgr TcpServer TcpClient Agent AppNet Proto Common GateLink ServerStart.
From Stdlib Require Import ZArith Lia.
From stdpp Require Import base option list gmap strings.
Local Open Scope Z_scope.

(** [account.proto] and [msgid.proto] *)
Record MsgC2S_EnterGameRequest : Type := mkClientEnterGameRequest { }.
Definition MSGID_S2C_ECHO_RESPONSE : Z := 19004.

(** ** user_event.h *)

Inductive UserEventType : Type := USER_EVENT_NONE | USER_EVENT_CONNECT_GAME_SERVER | USER_EVENT_EXIT_GAME.

(** [ptr_param] is always null. *)
Record UserEvent : Type := mkUserEvent { event_id : UserEventType; l_param : Z; str_param : text }.
Definition pushEvent (e : UserEvent) (l : list UserEvent) : list UserEvent := l ++ [e].

(** ** TestClient *)

Inductive ClientState : Type := InNone | InLogin | InGame.
#[export] Instance ClientState_eq_dec : EqDecision ClientState.
Proof. solve_decision. Defined.

Record TestClient : Type := mkTestClient {
  login_client_ : option ptr;
  game_client_ : option ptr;
  state_ : ClientState;
  exit_ : bool;
  event_list_ : list UserEvent;
  account_ : text;
  enter_session_ : bytes;
  reconn_session_ : bytes;
}.

Definition TestClient_new (login game : option ptr) : TestClient := mkTestClient login game InNone false [] [] [] [].
Definition tc_set_state (st : ClientState) (c : TestClient) : TestClient :=
  mkTestClient (login_client_ c) (game_client_ c) st (exit_ c) (event_list_ c) (account_ c) (enter_session_ c) (reconn_session_ c).
Definition tc_set_exit (c : TestClient) : TestClient :=
  mkTestClient (login_client_ c) (game_client_ c) (state_ c) true (event_list_ c) (account_ c) (enter_session_ c) (reconn_session_ c).
Definition tc_set_events (l : list UserEvent) (c : TestClient) : TestClient :=
  mkTestClient (login_client_ c) (game_client_ c) (state_ c) (exit_ c) l (account_ c) (enter_session_ c) (reconn_session_ c).
Definition setEnterSession (session : bytes) (c : TestClient) : TestClient :=
  mkTestClient (login_client_ c) (game_client_ c) (state_ c) (exit_ c) (event_list_ c) (account_ c) session (reconn_session_ c).
Definition setReconnSession (session : bytes) (c : TestClient) : TestClient :=
  mkTestClient (login_client_ c) (game_client_ c) (state_ c) (exit_ c) (event_list_ c) (account_ c) (enter_session_ c) session.

Definition tc_start (c : TestClient) : TestClient := tc_set_state InLogin c.
Definition postExitEvent (c : TestClient) : TestClient := tc_set_events (pushEvent (mkUserEvent USER_EVENT_EXIT_GAME 0 []) (event_list_ c)) c.
Definition postConnectGameEvent (ip : text) (port : Z) (c : TestClient) : TestClient :=
  tc_set_events (pushEvent (mkUserEvent USER_EVENT_CONNECT_GAME_SERVER (u16 port) (c_str ip)) (event_list_ c)) c.

Section test_client.
Context {App : Type}.
Notation handler := (jmy_msg_handler (World App)).
Notation event := (jmy_event_handler (World App)).
Notation Master := (JmyTcpClientMaster App).

(** The static functions that the tables name. *)
Record TestHandlers : Type := mkTestHandlers {
  th_login_processLogin : handler;
  th_login_processSelectedServer : handler;
  th_login_processEcho : handler;
  th_login_processDefault : handler;
  th_login_events : event * event * event;
  th_game_processGetRole : handler;
  th_game_processCreateRole : handler;
  th_game_processEnterGame : handler;
  th_game_processEnterGameComplete : handler;
  th_game_processReconnect : handler;
  th_game_processError : handler;
  th_game_processDefault : handler;
  th_game_events : event * event * event;
}.
Variable h : TestHandlers.

Definition test_login_config : JmyClientConfig App :=
  mkClientConfig (Some [
    (MSGID_S2C_LOGIN_RESPONSE, th_login_processLogin h);
    (MSGID_S2C_SELECT_SERVER_RESPONSE, th_login_processSelectedServer h);
    (MSGID_S2C_ECHO_RESPONSE, th_login_processEcho h)])
    (Some (th_login_processDefault h)) (base_handlers (th_login_events h)) None
    (mkJmyBufferConfig 128 128 0 0 false true) true CLIENT_RECONNECT_INTERVAL_SECS.

Definition test_game_config : JmyClientConfig App :=
  mkClientConfig (Some [
    (MSGID_S2C_GET_ROLE_RESPONSE, th_game_processGetRole h);
    (MSGID_S2C_CREATE_ROLE_RESPONSE, th_game_processCreateRole h);
    (MSGID_S2C_ENTER_GAME_RESPONSE, th_game_processEnterGame h);
    (MSGID_S2C_ENTER_GAME_COMPLETE_NOTIFY, th_game_processEnterGameComplete h);
    (MSGID_S2C_RECONNECT_RESPONSE, th_game_processReconnect h);
    (MSGID_ERROR, th_game_processError h)])
    (Some (th_game_processDefault h)) (base_handlers (th_game_events h)) None
    (mkJmyBufferConfig (1024 * 128) (1024 * 128) 0 0 false true) true CLIENT_RECONNECT_INTERVAL_SECS.

(** The address of the connection manager, the content of a new block and what the address parser accepts. *)
Variable mgr : Z.
Variable garbage : Z -> list Z.
Variable is_address : text -> bool.
(** The buffers [tmp_] of the handlers. *)
Variable tmp : bytes.
Context `{ServerMessages} `{Message MsgC2S_EnterGameRequest}.

(** ** TestClientManager: the clients are objects in a store *)

Record TestClients : Type := mkTestClients {
  tm_master : Master;
  tm_net : Net;
  tm_objs : gmap ptr TestClient;
  clients_ : gmap text ptr;
  conn_id2accounts_ : gmap Z text;
  gs_ip_port_list_ : list (ptr * text * Z);
  tm_config : Loader TestClientFile.ClientConfig;
}.

Definition tm_set_master (m : Master) (t : TestClients) : TestClients :=
  mkTestClients m (tm_net t) (tm_objs t) (clients_ t) (conn_id2accounts_ t) (gs_ip_port_list_ t) (tm_config t).
Definition tm_set_net (n : Net) (t : TestClients) : TestClients :=
  mkTestClients (tm_master t) n (tm_objs t) (clients_ t) (conn_id2accounts_ t) (gs_ip_port_list_ t) (tm_config t).
Definition tm_set_obj (p : ptr) (c : TestClient) (t : TestClients) : TestClients :=
  mkTestClients (tm_master t) (tm_net t) (<[p := c]> (tm_objs t)) (clients_ t) (conn_id2accounts_ t) (gs_ip_port_list_ t) (tm_config t).
Definition tm_set_list (l : list (ptr * text * Z)) (t : TestClients) : TestClients :=
  mkTestClients (tm_master t) (tm_net t) (tm_objs t) (clients_ t) (conn_id2accounts_ t) l (tm_config t).
Definition tm_set_accounts (a : gmap Z text) (t : TestClients) : TestClients :=
  mkTestClients (tm_master t) (tm_net t) (tm_objs t) (clients_ t) a (gs_ip_port_list_ t) (tm_config t).

Definition getAccountByConnId (conn_id : Z) (t : TestClients) : option text := conn_id2accounts_ t !! conn_id.
Definition getClientByConnId (conn_id : Z) (t : TestClients) : option ptr :=
  match conn_id2accounts_ t !! conn_id with None => None | Some account => clients_ t !! account end.
Definition pushGsIpPort (client : ptr) (ip : text) (port : Z) (t : TestClients) : TestClients :=
  tm_set_list (gs_ip_port_list_ t ++ [(client, ip, port)]) t.

Definition tm_init `{Files} (global_log_init : text -> bool) (conf_path : text) (t : TestClients) : option (bool * TestClients) :=
  '(ok, ld) ← TestClientFile.test_client_loadJson conf_path (tm_config t);
  let t := mkTestClients (tm_master t) (tm_net t) (tm_objs t) (clients_ t) (conn_id2accounts_ t) (gs_ip_port_list_ t) ld in
  if negb ok then Some (false, t) else
  if negb (global_log_init (TestClientFile.log_conf_path (config_ ld))) then Some (false, t) else
  let n := 4 * TestClientFile.account_num (config_ ld) in
  ub_unless ((- 2 ^ 31 <=? n) && (n <? 2 ^ 31));;
  let '(ok, m) := mt_init n (tm_master t) in
  Some (ok, tm_set_master m t).

Definition tm_clear (t : TestClients) : TestClients := tm_set_master (mt_close (tm_master t)) t.

(** [insert] keeps the account that is there. *)
Definition tm_name_conn (id : Z) (account : text) (t : TestClients) : TestClients :=
  tm_set_accounts (map_insert_new id account (conn_id2accounts_ t)) t.

Definition startClient (account : text) (t : TestClients) : option (bool * TestClients) :=
  match clients_ t !! account with
  | Some _ => Some (true, t)
  | None =>
    let cfg := config_ (tm_config t) in
    '(ok, login, m) ← start_link mgr garbage is_address test_login_config (c_str (TestClientFile.connect_ip cfg)) (TestClientFile.connect_port cfg) (tm_master t);
    let t := tm_set_master m t in
    match login with
    | None => Some (false, t)
    | Some l =>
      if negb ok then Some (false, t) else
      id ← cl_getId m l;
      let t := tm_name_conn id account t in
      '(game, m) ← mt_generate m;
      let t := tm_set_master m t in
      match game with
      | None => Some (false, t)
      | Some g =>
        id ← cl_getId m g;
        let t := tm_name_conn id account t in
        let p := fresh_ptr (tm_objs t) in
        let t := tm_set_obj p (tc_start (TestClient_new login game)) t in
        Some (true, mkTestClients (tm_master t) (tm_net t) (tm_objs t) (<[account := p]> (clients_ t)) (conn_id2accounts_ t) (gs_ip_port_list_ t) (tm_config t))
      end
    end
  end.

(** Closing one link of a client and forgetting its connection; the clients stay generated. *)
Definition stop_link (now : Z) (c : option ptr) (t : TestClients) : option TestClients :=
  c ← c;
  m ← cl_close garbage now c (tm_master t);
  id ← cl_getId m c;
  Some (tm_set_accounts (delete id (conn_id2accounts_ t)) (tm_set_master m t)).

Definition stopClient (now : Z) (account : text) (t : TestClients) : option (bool * TestClients) :=
  match clients_ t !! account with
  | None => Some (false, t)
  | Some p =>
    t ← (if p =? NULL then Some t else
           c ← tm_objs t !! p;
           t ← stop_link now (login_client_ c) t;
           t ← stop_link now (game_client_ c) t;
           Some (mkTestClients (tm_master t) (tm_net t) (delete p (tm_objs t)) (clients_ t) (conn_id2accounts_ t) (gs_ip_port_list_ t) (tm_config t)));
    Some (true, mkTestClients (tm_master t) (tm_net t) (tm_objs t) (delete account (clients_ t)) (conn_id2accounts_ t) (gs_ip_port_list_ t) (tm_config t))
  end.

(** ** The main loop *)

(** The events of the client [p], [l], from the first on; the event that [popEvent] takes is no longer in its list.
    The result is how many were handled. *)
Fixpoint do_events_loop (p : ptr) (l : list UserEvent) (n : Z) (t : TestClients) : option (Z * TestClients) :=
  match l with
  | [] => Some (n, t)
  | e :: l =>
    c ← tm_objs t !! p;
    let c := tc_set_events l c in
    match event_id e with
    | USER_EVENT_CONNECT_GAME_SERVER => do_events_loop p l (n + 1) (pushGsIpPort p (c_str (str_param e)) (u16 (l_param e)) (tm_set_obj p c t))
    | USER_EVENT_EXIT_GAME => do_events_loop p l (n + 1) (tm_set_obj p (tc_set_exit c) t)
    | USER_EVENT_NONE => do_events_loop p l n (tm_set_obj p c t)
    end
  end.
Definition do_events (p : ptr) (t : TestClients) : option (Z * TestClients) :=
  c ← tm_objs t !! p; do_events_loop p (event_list_ c) 0 t.

(** A link that is null is not run. *)
Definition run_link (now : Z) (c : option ptr) (t : TestClients) : option (Z * TestClients) :=
  match c with
  | None => Some (0, t)
  | Some c => '(r, m) ← cl_run mgr garbage now c (tm_master t); Some (r, tm_set_master m t)
  end.

Definition tc_run (now : Z) (p : ptr) (t : TestClients) : option (Z * TestClients) :=
  c ← tm_objs t !! p;
  if exit_ c then Some (0, t) else
  '(r, t) ← match state_ c with
    | InLogin => run_link now (login_client_ c) t
    | InGame => run_link now (game_client_ c) t
    | InNone => Some (0, t)
    end;
  if r <? 0 then Some (-1, t) else '(_, t) ← do_events p t; Some (0, t).

Definition connect_game (ip : text) (port : Z) (p : ptr) (t : TestClients) : option (bool * TestClients) :=
  c ← tm_objs t !! p;
  g ← game_client_ c;
  m ← setIP is_address ip port g (tm_master t);
  '(ok, m) ← cl_start mgr garbage test_game_config None g m;
  let t := tm_set_master m t in
  if negb ok then Some (false, t) else Some (true, tm_set_obj p (tc_set_state InGame c) t).

(** At most 100 clients connect to their gate in one turn. *)
Definition MAX_CONNECTS : nat := 100.
Fixpoint connect_games (l : list (ptr * text * Z)) (t : TestClients) : option TestClients :=
  match l with [] => Some t | (p, ip, port) :: l => '(_, t) ← connect_game (c_str ip) port p t; connect_games l t end.

Fixpoint run_clients (now : Z) (l : list ptr) (t : TestClients) : option TestClients :=
  match l with
  | [] => Some t
  | p :: l => if p =? NULL then run_clients now l t else '(_, t) ← tc_run now p t; run_clients now l t
  end.

(** The order in which the hash map is traversed. *)
Variable hash_order : gmap text ptr -> list ptr.
Definition tm_turn (now : Z) (t : TestClients) : option TestClients :=
  t ← run_clients now (hash_order (clients_ t)) t;
  let l := gs_ip_port_list_ t in
  t ← connect_games (take MAX_CONNECTS l) t;
  Some (tm_set_list (drop MAX_CONNECTS l) t).

(** [main]: the accounts that it starts; failures are ignored. *)
Definition account_name (cfg : TestClientFile.ClientConfig) (i : nat) : text :=
  TestClientFile.account_prefix cfg ++ print_signed (TestClientFile.account_start_index cfg + Z.of_nat i).
Fixpoint start_clients (cfg : TestClientFile.ClientConfig) (i n : nat) (t : TestClients) : option TestClients :=
  match n with
  | O => Some t
  | S n =>
    ub_unless (TestClientFile.account_start_index cfg + Z.of_nat i <? 2 ^ 31);;
    '(_, t) ← startClient (account_name cfg i) t; start_clients cfg (S i) n t
  end.

(** ** LoginHandler *)

(** [conn->send(id, tmp_, request.ByteSize())] after serialising. *)
Definition tc_send {M} `{Message M} (conn_id msg_id : Z) (m : M) (t : TestClients) : option (option Z * TestClients) :=
  match SerializeToArray m tmp with
  | None => Some (None, t)
  | Some tmp =>
    '(r, n) ← nt_send mgr conn_id None msg_id tmp (ByteSize m) (tm_net t);
    Some (if r <? 0 then None else Some r, tm_set_net n t)
  end.

Definition tl_onConnect (conn_id : Z) (t : TestClients) : option (Z * TestClients) :=
  match get_connection conn_id mgr (tm_net t) with
  | None => Some (-1, t)
  | Some _ =>
    match getAccountByConnId conn_id t with
    | None => Some (-1, t)
    | Some account => '(r, t) ← tc_send conn_id MSGID_C2S_LOGIN_REQUEST (mkLoginRequest account []) t; Some (match r with None => -1 | Some _ => 0 end, t)
    end
  end.

Definition tl_onDisconnect (conn_id : Z) (t : TestClients) : Z * TestClients :=
  (match getAccountByConnId conn_id t with None => -1 | Some _ => 0 end, t).

(** The first server of the list is selected. *)
Definition tl_processLogin (conn_id : Z) (data : bytes) (t : TestClients) : option (Z * TestClients) :=
  match get_connection conn_id mgr (tm_net t) with
  | None => Some (-1, t)
  | Some _ =>
    match (ParseFromArray data : option MsgS2C_LoginResponse) with
    | None => Some (-1, t)
    | Some response =>
      '(r, t) ← match lr_servers response with
        | [] => Some (Some 0, t)
        | si :: _ => tc_send conn_id MSGID_C2S_SELECT_SERVER_REQUEST (mkSelectServerRequest (si_id si)) t
        end;
      match r with
      | None => Some (-1, t)
      | Some _ => Some (match getAccountByConnId conn_id t with None => -1 | Some _ => lenZ data end, t)
      end
    end
  end.

Definition tl_processSelectedServer (conn_id : Z) (data : bytes) (t : TestClients) : option (Z * TestClients) :=
  match get_connection conn_id mgr (tm_net t) with
  | None => Some (-1, t)
  | Some _ =>
    match (ParseFromArray data : option MsgS2C_SelectServerResponse) with
    | None => Some (-1, t)
    | Some response =>
      match getClientByConnId conn_id t with
      | None => Some (-1, t)
      | Some p =>
        c ← tm_objs t !! p;
        Some (lenZ data, tm_set_obj p (postConnectGameEvent (sr_server_ip response) (sr_port response) (setEnterSession (sr_session_code response) c)) t)
      end
    end
  end.

Definition tl_processEcho (conn_id : Z) (data : bytes) (t : TestClients) : Z * TestClients :=
  match get_connection conn_id mgr (tm_net t) with
  | None => (-1, t)
  | Some _ =>
    match (ParseFromArray data : option MsgS2C_EchoResponse) with
    | None => (-1, t)
    | Some _ => (match getClientByConnId conn_id t with None => -1 | Some _ => lenZ data end, t)
    end
  end.

(** ** GameHandler *)

Definition tg_onConnect (conn_id : Z) (t : TestClients) : option (Z * TestClients) :=
  match get_connection conn_id mgr (tm_net t) with
  | None => Some (-1, t)
  | Some _ =>
    match getAccountByConnId conn_id t with
    | None => Some (-1, t)
    | Some account =>
      match getClientByConnId conn_id t with
      | None => Some (-1, t)
      | Some p =>
        c ← tm_objs t !! p;
        '(r, t) ← tc_send conn_id MSGID_C2S_GET_ROLE_REQUEST (mkGetRoleRequest account (enter_session_ c)) t;
        Some (match r with None => -1 | Some _ => 0 end, t)
      end
    end
  end.

Definition tg_onDisconnect (t : TestClients) : Z * TestClients := (0, t).
Definition tg_onTick (t : TestClients) : Z * TestClients := (0, t).

Definition send_enter_game_request (conn_id : Z) (t : TestClients) : option (option Z * TestClients) :=
  tc_send conn_id MSGID_C2S_ENTER_GAME_REQUEST mkClientEnterGameRequest t.

Definition tg_processGetRole (conn_id : Z) (data : bytes) (t : TestClients) : option (Z * TestClients) :=
  match get_connection conn_id mgr (tm_net t) with
  | None => Some (-1, t)
  | Some _ =>
    match (ParseFromArray data : option MsgS2C_GetRoleResponse) with
    | None => Some (-1, t)
    | Some response =>
      match getClientByConnId conn_id t with
      | None => Some (-1, t)
      | Some p =>
        c ← tm_objs t !! p;
        let t := tm_set_obj p (setReconnSession (gp_reconnect_session response) c) t in
        '(r, t) ← send_enter_game_request conn_id t;
        Some (match r with None => -1 | Some _ => lenZ data end, t)
      end
    end
  end.

Definition tg_processCreateRole (conn_id : Z) (data : bytes) (t : TestClients) : option (Z * TestClients) :=
  match get_connection conn_id mgr (tm_net t) with
  | None => Some (-1, t)
  | Some _ =>
    match (ParseFromArray data : option MsgS2C_CreateRoleResponse) with
    | None => Some (-1, t)
    | Some _ => '(r, t) ← send_enter_game_request conn_id t; Some (match r with None => -1 | Some _ => lenZ data end, t)
    end
  end.

Definition tg_processEnterGame (conn_id : Z) (data : bytes) (t : TestClients) : Z * TestClients :=
  match (ParseFromArray data : option MsgS2C_EnterGameResponse) with
  | None => (-1, t)
  | Some _ => (match getAccountByConnId conn_id t with None => -1 | Some _ => lenZ data end, t)
  end.

Definition test_role_data : MsgBaseRoleData := mkBaseRoleData 0 [] 1 1 1 2.

Definition tg_processEnterGameComplete (conn_id : Z) (data : bytes) (t : TestClients) : option (Z * TestClients) :=
  match get_connection conn_id mgr (tm_net t) with
  | None => Some (-1, t)
  | Some _ =>
    '(r, t) ← tc_send conn_id MSGID_C2S_SET_ROLE_DATA_REQUEST (mkSetRoleDataRequest test_role_data) t;
    match r with
    | None => Some (-1, t)
    | Some _ =>
      '(r, t) ← tc_send conn_id MSGID_C2S_CHAT_REQUEST (mkChatRequest (chars "/gm additem 10000 1") 0 0 0) t;
      Some (match r with None => -1 | Some _ => lenZ data end, t)
    end
  end.

Definition tg_processReconnect (data : bytes) (t : TestClients) : Z * TestClients := (lenZ data, t).

(** The only error that is looked at is that there is no role: one is created. *)
Definition tg_processError (conn_id : Z) (data : bytes) (t : TestClients) : option (Z * TestClients) :=
  match get_connection conn_id mgr (tm_net t) with
  | None => Some (-1, t)
  | Some _ =>
    match (ParseFromArray data : option MsgError) with
    | None => Some (-1, t)
    | Some error =>
      if er_code error =? PROTO_ERROR_GET_ROLE_NONE then
        '(r, t) ← tc_send conn_id MSGID_C2S_CREATE_ROLE_REQUEST (mkCreateRoleRequest (chars "huoshan017") 0 0) t;
        match r with
        | None => Some (-1, t)
        | Some _ => Some (match getAccountByConnId conn_id t with None => -1 | Some _ => lenZ data end, t)
        end
      else Some (lenZ data, t)
    end
  end.

Definition tg_processDefault (data : bytes) (t : TestClients) : Z * TestClients := (lenZ data, t).
End test_client.
Arguments TestHandlers : clear implicits.
Arguments TestClients : clear implicits.
