(* ===== verification/TestClientProps.v ===== *)
(** * What the test client does with its accounts

    Every account that [main] starts gets two connections of its own; the gates that the login server names are
    connected in that order, each with the code that came with it. *)
From S2P Require Import Prelude Text Json ServerFiles Datatype DataHandler2 EventHandler IdGenerator BufferList ConnBuffer Connection ConnectionFrame ConnectionMgr TcpServer TcpClient ClientProps AppNet Proto Codec Common GateLink GateLinkProps ServerStart ServerStartProps TestClient.
From Stdlib Require Import ZArith Lia.
From stdpp Require Import base option list gmap strings.
Local Open Scope Z_scope.

(** ** Names of accounts *)

Lemma print_signed_inj a b : - 2 ^ 63 <= a < 2 ^ 63 -> - 2 ^ 63 <= b < 2 ^ 63 -> print_signed a = print_signed b -> a = b.
Proof.
  assert (Hm : forall n l, 45 :: l <> print_unsigned n).
  { intros n l He. assert (Hin : 45 ∈ print_unsigned n) by (rewrite <- He; by left). apply print_unsigned_digits in Hin. lia. }
  intros Ha Hb. unfold print_signed. destruct (Z.ltb_spec a 0), (Z.ltb_spec b 0); intros He.
  - injection He as He. apply (f_equal (digits_value 0)) in He. rewrite !print_unsigned_value in He by lia. lia.
  - by apply Hm in He.
  - symmetry in He. by apply Hm in He.
  - apply (f_equal (digits_value 0)) in He. rewrite !print_unsigned_value in He by lia. lia.
Qed.

Lemma account_name_inj cfg i j :
  - 2 ^ 31 <= TestClientFile.account_start_index cfg < 2 ^ 31 -> Z.of_nat i < 2 ^ 32 -> Z.of_nat j < 2 ^ 32 ->
  account_name cfg i = account_name cfg j -> i = j.
Proof. intros Hs Hi Hj He. apply app_inv_head, print_signed_inj in He; lia. Qed.

(** ** The id of a client's connection *)

Section ids.
Context {App : Type}.
Notation Master := (JmyTcpClientMaster App).
Implicit Type m : Master.
Variable mgr : Z.
Variable garbage : Z -> list Z.
Variable is_address : text -> bool.

Definition client_id m (c id : Z) : Prop := exists cl, mt_objs m !! c = Some cl /\ used_map_ (conn_mgr_ m) !! id = Some (cl_conn cl).

Lemma client_id_get B n k m c id : mt_inv B n k m -> client_id m c id -> cl_getId m c = Some id.
Proof using.
  intros Hm (cl & Hc & Hid). destruct (cmi_id _ _ (mi_mgr _ _ _ _ Hm) _ _ Hid) as (x & Hx & <-). unfold cl_getId, cl_at. rewrite Hc. cbn. by rewrite Hx.
Qed.

(** Clients keep their connections, and connections their ids. *)
Record grows m m' : Prop := mkGrows {
  gw_objs : forall c cl, mt_objs m !! c = Some cl -> exists cl', mt_objs m' !! c = Some cl' /\ cl_conn cl' = cl_conn cl;
  gw_used : forall id p, used_map_ (conn_mgr_ m) !! id = Some p -> used_map_ (conn_mgr_ m') !! id = Some p;
}.

Lemma grows_trans m1 m2 m3 : grows m1 m2 -> grows m2 m3 -> grows m1 m3.
Proof using.
  intros [H1 H2] [H3 H4]. split; [|auto]. intros c cl Hc. destruct (H1 _ _ Hc) as (cl' & Hc' & He).
  destruct (H3 _ _ Hc') as (cl'' & Hc'' & He'). exists cl''. by rewrite He', He.
Qed.

Lemma grows_id m m' c id : grows m m' -> client_id m c id -> client_id m' c id.
Proof using. intros [H1 H2] (cl & Hc & Hid). destruct (H1 _ _ Hc) as (cl' & Hc' & He). exists cl'. rewrite He. auto. Qed.

Lemma generate_grows B n k m c m' : mt_inv B n k m -> k < n -> mt_generate m = Some (Some c, m') -> grows m m' /\ client_id m' c (k + 1).
Proof using.
  intros Hm Hk E. destruct (getFree_next _ _ _ _ Hm Hk) as (p & cm & x & Ef & _ & Hu & Hx & Ho & _ & _). unfold mt_generate in E.
  rewrite (mi_max _ _ _ _ Hm), (mi_used_ids _ _ _ _ Hm), (proj2 (Z.leb_gt _ _)), (mi_free_ids _ _ _ _ Hm), (mi_gen _ _ _ _ Hm) in E by lia.
  pose proof (mi_range _ _ _ _ Hm). pose proof (mi_int _ _ _ _ Hm). rewrite ig_get_at in E by lia. cbn [Z.eqb andb] in E.
  rewrite (proj2 (Z.eqb_neq _ _)) in E by lia. cbn [mbind option_bind] in E. change (next_id 0 k) with (k + 1) in E. rewrite Ef in E. cbn [mbind option_bind] in E.
  rewrite Ho, lookup_insert_eq in E. cbn [mbind option_bind] in E. injection E as <- <-. split.
  - split; cbn.
    + intros c cl Hc. exists cl. split; [|done]. rewrite lookup_insert_ne; [done|]. intros <-. by rewrite fresh_ptr_fresh in Hc.
    + intros id q Hq. rewrite Hu, lookup_insert_ne; [done|]. intros <-. apply (mi_map_range _ _ _ _ Hm) in Hq. lia.
  - eexists. cbn. rewrite lookup_insert_eq. split; [done|]. by rewrite Hu, lookup_insert_eq.
Qed.

(** A client that [generate] made and nothing else started. *)
Lemma generate_frame B n k m : mt_inv B n k m -> k < n -> unused_fresh m -> exists c m',
  mt_generate m = Some (Some c, m') /\ mt_inv B n (k + 1) m' /\ unused_fresh m' /\ grows m m' /\ client_id m' c (k + 1) /\
  (forall c p b st, link_at c p b st m -> link_at c p b st m').
Proof using.
  intros Hm Hk Hu. destruct (generate_spec _ _ _ _ Hm Hk) as (c & p & x & m' & E & Hm' & Hnone & Hnew & Ho & _ & _ & Hf).
  exists c, m'. split; [done|]. split; [done|]. split; [|split; [|split]]; [|by eapply generate_grows..|].
  - intros q st Hq Hno. destruct (decide (q = p)) as [->|Hne]; [exfalso; by apply (Hno c (mkClient p ([], 0))); [rewrite Ho, lookup_insert_eq|]|].
    rewrite (os_state _ _ _ Hf) in Hq by done. apply (Hu q); [done|]. intros c' cl Hc'. apply (Hno c'). rewrite Ho, lookup_insert_ne; [done|congruence].
  - intros c' q b st Hl. destruct (la_client _ _ _ _ _ Hl) as (cl & Hc' & Hq). apply (link_at_frame _ _ _ _ p m); [done| |done|].
    + subst q. intros He. destruct (mi_conn _ _ _ _ Hm _ _ Hc') as [id Hid]. apply (Hnew id). by rewrite Hid, He.
    + exists cl. rewrite Ho, lookup_insert_ne; [done|congruence].
Qed.

(** With an address, handlers that load and a list of sent messages, a link is started. *)
Lemma start_link_starts B n k m conf ip port : mt_inv B n k m -> k < n -> unused_fresh m -> conf_keeps conf ->
  is_address ip = true -> cl_load_handlers conf <> None -> is_Some (cl_load_events conf) -> bc_use_send_buff_list (cc_buff_conf conf) = true ->
  exists c m', start_link mgr garbage is_address conf ip port m = Some (true, Some c, m') /\ grows m m' /\ client_id m' c (k + 1).
Proof using.
  intros Hm Hk Hu Hconf Hip Hload [ev Hev] Hlist. destruct (generate_more _ _ _ _ Hm Hk) as (c & m1 & E1 & Hm1).
  destruct (generate_grows _ _ _ _ _ _ Hm Hk E1) as [Hg (cl & Hc & Hid)]. unfold start_link. rewrite E1. cbn [mbind option_bind].
  unfold setIP. rewrite Hip. cbn [ub_unless mbind option_bind]. unfold cl_setEndPoint. rewrite Hc. cbn [mbind option_bind].
  set (m2 := mt_set_clients _ _ _ _ _ _). assert (H2 : mt_objs m2 = <[c := mkClient (cl_conn cl) (ip, port)]> (mt_objs m1) /\ conn_mgr_ m2 = conn_mgr_ m1) by done.
  clearbody m2. destruct H2 as [H2 H3].
  destruct (cmi_id _ _ (mi_mgr _ _ _ _ Hm1) _ _ Hid) as (x & Hx & _). unfold cl_start, cl_at. rewrite H2, lookup_insert_eq. cbn [mbind option_bind cl_conn].
  rewrite H3, Hx. cbn [mbind option_bind]. destruct (cl_load_handlers conf) as [H|] eqn:EH; [|done]. rewrite Hev. cbn [mbind option_bind].
  unfold cb_init. rewrite Hlist. cbn [negb mbind option_bind]. destruct (bl_init _ _ _) as [r l]. cbn [mbind option_bind].
  set (m3 := mt_set_conn _ _ _). assert (H4 : mt_objs m3 = mt_objs m2 /\ used_map_ (conn_mgr_ m3) = used_map_ (conn_mgr_ m2)) by done.
  assert (H5 : is_Some (cm_objs (conn_mgr_ m3) !! cl_conn cl)) by (unfold m3; cbn; rewrite lookup_alter_eq, H3, Hx; by eexists).
  clearbody m3. destruct H4 as [H4 H6], H5 as [y Hy]. unfold cl_connect, cl_at. rewrite H4, H2, lookup_insert_eq. cbn [mbind option_bind cl_conn].
  unfold mt_on, mt_world. rewrite Hy. cbn [mbind option_bind]. do 2 eexists. split; [reflexivity|].
  assert (Hlast : forall w, grows m (mt_put m3 (cl_conn cl) w) /\ client_id (mt_put m3 (cl_conn cl) w) c (k + 1)).
  { intros w. split.
    - eapply grows_trans; [exact Hg|]. split; cbn; rewrite ?H4, ?H6, ?H2, ?H3; [|done]. intros c' cl' Hc'.
      destruct (decide (c = c')) as [<-|Hne]; [rewrite lookup_insert_eq; eexists; split; [done|]; cbn; congruence|rewrite lookup_insert_ne by done; by exists cl'].
    - eexists. cbn. rewrite H4, H6, H2, H3, lookup_insert_eq. by split. }
  apply Hlast.
Qed.
End ids.

(** ** Starting the accounts *)

Section started.
Context {App : Type}.
Variable h : TestHandlers App.
Variable mgr : Z.
Variable garbage : Z -> list Z.
Variable is_address : text -> bool.
Hypothesis Hconf : conf_keeps (test_login_config h).

(** The client of an account: [l] and [g] are its links, whose connections have the ids [i] and [j]. *)
Definition playing (t : TestClients App) (account : text) (i j : Z) : Prop := exists p l g,
  clients_ t !! account = Some p /\ tm_objs t !! p = Some (mkTestClient (Some l) (Some g) InLogin false [] [] [] []) /\
  client_id (tm_master t) l i /\ client_id (tm_master t) g j /\ (exists q, link_at l q true JMY_CONN_STATE_CONNECTING (tm_master t)) /\
  conn_id2accounts_ t !! i = Some account /\ conn_id2accounts_ t !! j = Some account.

Record tm_inv (B : gset Z) (n k : Z) (names : list text) (t : TestClients App) : Prop := mkTmInv {
  tmi_master : mt_inv B n k (tm_master t);
  tmi_fresh : unused_fresh (tm_master t);
  tmi_names : forall a, is_Some (clients_ t !! a) -> a ∈ names;
  tmi_ids : forall id a, conn_id2accounts_ t !! id = Some a -> 1 <= id <= k;
  tmi_playing : forall i a, names !! i = Some a -> playing t a (2 * Z.of_nat i + 1) (2 * Z.of_nat i + 2);
}.

Lemma startClient_starts B n names account t :
  tm_inv B n (2 * lenZ names) names t -> 2 * lenZ names + 2 <= n -> account ∉ names ->
  is_address (c_str (TestClientFile.connect_ip (config_ (tm_config t)))) = true ->
  exists t', startClient h mgr garbage is_address account t = Some (true, t') /\ tm_config t' = tm_config t /\
    tm_inv B n (2 * lenZ (names ++ [account])) (names ++ [account]) t'.
Proof using Hconf.
  intros [Hm Hu Hn Hi Hp] Hk Hnew Hip. set (k := 2 * lenZ names) in *.
  set (ip := c_str _) in Hip. set (port := TestClientFile.connect_port (config_ (tm_config t))).
  assert (Hload : cl_load_handlers (test_login_config h) <> None /\ is_Some (cl_load_events (test_login_config h))) by (split; [discriminate|by eexists]).
  destruct (start_link_starts mgr garbage is_address B n k (tm_master t) (test_login_config h) ip port Hm ltac:(lia) Hu Hconf Hip (proj1 Hload) (proj2 Hload) eq_refl)
    as (l & m1 & E1 & Hg1 & Hl1).
  destruct (start_link_spec _ _ _ _ _ _ _ _ _ _ _ _ _ Hm ltac:(lia) Hu Hconf E1) as (Hm1 & Hu1 & (l' & q & Hl' & _ & Hq) & Hf1).
  injection Hl' as <-. specialize (Hq eq_refl).
  destruct (generate_frame _ _ _ _ Hm1 ltac:(lia) Hu1) as (g & m2 & E2 & Hm2 & Hu2 & Hg2 & Hid2 & Hf2).
  unfold startClient. destruct (clients_ t !! account) as [x|] eqn:Ea; [destruct Hnew; apply Hn; by eexists|].
  cbv zeta. fold ip port. rewrite E1. cbn [mbind option_bind negb]. cbn [tm_set_master tm_master].
  rewrite (client_id_get _ _ _ _ _ _ Hm1 Hl1). cbn [mbind option_bind tm_name_conn tm_set_accounts tm_master]. rewrite E2.
  cbn [mbind option_bind tm_set_master tm_master]. rewrite (client_id_get _ _ _ _ _ _ Hm2 Hid2). cbn [mbind option_bind]. eexists. split; [reflexivity|].
  split; [done|]. assert (Hlen : 2 * lenZ (names ++ [account]) = k + 1 + 1) by (rewrite length_app; cbn; lia). rewrite Hlen. cbn [tm_set_master tm_name_conn tm_set_accounts tm_set_obj tm_objs clients_ conn_id2accounts_ tm_master].
  assert (Ha : forall id v (m : gmap Z text), m !! id = None -> map_insert_new id v m = <[id := v]> m) by (intros id v m E; unfold map_insert_new; by rewrite E).
  assert (N1 : conn_id2accounts_ t !! (k + 1) = None) by (apply eq_None_not_Some; intros [a E]; apply Hi in E; lia).
  assert (N2 : conn_id2accounts_ t !! (k + 2) = None) by (apply eq_None_not_Some; intros [a E]; apply Hi in E; lia).
  rewrite (Ha _ _ _ N1), Ha by (rewrite lookup_insert_ne by lia; by replace (k + 1 + 1) with (k + 2) by lia).
  replace (k + 1 + 1) with (k + 2) in * by lia.
  split; cbn [tm_master clients_ conn_id2accounts_ tm_objs]; [done|done|..].
  - intros a [x Hx]. apply elem_of_app. apply lookup_insert_Some in Hx as [[<- _]|[_ Hx]]; [right; by left|left; apply Hn; by eexists].
  - intros id a [[<- _]|[_ [[<- _]|[_ Hx%Hi]]%lookup_insert_Some]]%lookup_insert_Some; lia.
  - intros i a [Hx|[Hx Hy]]%lookup_app_Some.
    + destruct (Hp _ _ Hx) as (p & l1 & g1 & H1 & H2 & H3 & H4 & (q1 & H5) & H6 & H7). apply lookup_lt_Some in Hx as Hlt.
      assert (a <> account) by (intros ->; apply Hnew; by eapply list_elem_of_lookup_2). assert (2 * Z.of_nat i + 2 <= k) by (unfold k; lia).
      exists p, l1, g1. cbn [clients_ tm_objs tm_master conn_id2accounts_]. rewrite lookup_insert_ne by done.
      rewrite (lookup_insert_ne (tm_objs t)) by (intros He; rewrite <- He, fresh_ptr_fresh in H2; discriminate). rewrite !lookup_insert_ne by lia.
      split; [done|]. split; [done|]. split; [by eapply grows_id, grows_id|]. split; [by eapply grows_id, grows_id|]. split; [|done]. exists q1. auto.
    + apply list_lookup_singleton_Some in Hy as [Hy <-]. assert (Z.of_nat i = lenZ names) as -> by lia. fold k. exists (fresh_ptr (tm_objs t)), l, g.
      cbn [clients_ tm_objs tm_master conn_id2accounts_]. rewrite !lookup_insert_eq. rewrite lookup_insert_ne, lookup_insert_eq by lia.
      split; [done|]. split; [done|]. split; [by eapply grows_id|]. split; [done|]. split; [|done]. exists q. auto.
Qed.

Definition first_accounts (cfg : TestClientFile.ClientConfig) (i : nat) : list text := account_name cfg <$> seq 0 i.

Lemma first_accounts_S cfg i : first_accounts cfg (S i) = first_accounts cfg i ++ [account_name cfg i].
Proof using. unfold first_accounts. by rewrite seq_S, fmap_app. Qed.

Lemma start_clients_start B N cfg i n t :
  tm_inv B N (2 * lenZ (first_accounts cfg i)) (first_accounts cfg i) t -> 2 * (Z.of_nat i + Z.of_nat n) <= N ->
  config_ (tm_config t) = cfg -> is_address (c_str (TestClientFile.connect_ip cfg)) = true ->
  - 2 ^ 31 <= TestClientFile.account_start_index cfg -> TestClientFile.account_start_index cfg + (Z.of_nat i + Z.of_nat n) <= 2 ^ 31 ->
  exists t', start_clients h mgr garbage is_address cfg i n t = Some t' /\
    tm_inv B N (2 * lenZ (first_accounts cfg (i + n))) (first_accounts cfg (i + n)) t'.
Proof using Hconf.
  revert i t. induction n as [|n IH]; intros i t Ht Hn Hc Hip Hs Hb; cbn [start_clients]; [exists t; by rewrite Nat.add_0_r|].
  rewrite (proj2 (Z.ltb_lt _ _)) by lia. cbn [ub_unless mbind option_bind].
  assert (Hl : lenZ (first_accounts cfg i) = Z.of_nat i) by (unfold first_accounts; by rewrite length_fmap, length_seq).
  destruct (startClient_starts B N _ (account_name cfg i) t Ht ltac:(lia)) as (t1 & E1 & Hc1 & Ht1); [|by rewrite Hc|].
  - intros (j & Hj & Hin%elem_of_seq)%list_elem_of_fmap. pose proof (mi_int _ _ _ _ (tmi_master _ _ _ _ _ Ht)). unfold INT_MAX in *.
    apply account_name_inj in Hj; lia.
  - rewrite E1. cbn [mbind option_bind]. rewrite <- first_accounts_S in Ht1. rewrite Nat.add_succ_r, <- Nat.add_succ_l. apply IH; [done|lia| |done|done|lia]. by rewrite Hc1.
Qed.

(** C30.  The test client starts all its accounts.  After [init] read how many accounts there are and which is the first, [main]
    starts each of them: every account has a client of its own in the state for logging in; its link to the login server
    is connecting and its link to the gate is kept for later; the ids of both connections lead back to the account and to the
    client.  Half of the clients that [init] made room for are never used. *)
Theorem clients_started `{Files} global_log_init path t t1 hp app :
  tm_master t = JmyTcpClientMaster_new hp app -> clients_ t = ∅ -> conn_id2accounts_ t = ∅ ->
  tm_init global_log_init path t = Some (true, t1) ->
  let cfg := config_ (tm_config t1) in
  let n := TestClientFile.account_num cfg in
  0 <= n -> is_address (c_str (TestClientFile.connect_ip cfg)) = true ->
  - 2 ^ 31 <= TestClientFile.account_start_index cfg -> TestClientFile.account_start_index cfg + n <= 2 ^ 31 ->
  exists t2, start_clients h mgr garbage is_address cfg 0 (Z.to_nat n) t1 = Some t2 /\
    Z.of_nat (size (used_ids_ (tm_master t2))) = 2 * n /\ max_count_ (tm_master t2) = 4 * n /\
    (forall a, is_Some (clients_ t2 !! a) -> exists i, 0 <= i < n /\ a = account_name cfg (Z.to_nat i)) /\
    forall i, 0 <= i < n -> exists p l g, clients_ t2 !! account_name cfg (Z.to_nat i) = Some p /\
      tm_objs t2 !! p = Some (mkTestClient (Some l) (Some g) InLogin false [] [] [] []) /\
      cl_getId (tm_master t2) l = Some (2 * i + 1) /\ cl_getId (tm_master t2) g = Some (2 * i + 2) /\
      cl_state (tm_master t2) l = Some JMY_CONN_STATE_CONNECTING /\
      forall id, id = 2 * i + 1 \/ id = 2 * i + 2 -> getAccountByConnId id t2 = Some (account_name cfg (Z.to_nat i)) /\ getClientByConnId id t2 = Some p.
Proof using Hconf.
  intros Hm Hc Ha E cfg n Hn Hip Hs Hb. unfold tm_init in E. apply bind_Some in E as ([[] ld] & _ & E); [|by injection E]. cbn [negb] in E.
  destruct (negb _); [by injection E|]. apply bind_Some in E as ([] & Hr & E). cbn [tm_master] in E. rewrite Hm in E.
  set (N := 4 * _) in *. destruct (mt_init N _) as [ok m] eqn:Em. injection E as -> <-.
  assert (HN : N = 4 * n) by done. clearbody N. cbn in cfg. fold cfg in HN.
  unfold ub_unless in Hr. destruct (_ && _) eqn:Hb2 in Hr; [clear Hr|done]. apply andb_true_iff in Hb2 as [_ Hr%Z.ltb_lt].
  destruct (new_inv N hp app) as (B & _ & Hi); [unfold INT_MAX; lia|]. pose proof (new_fresh N hp app) as Hu.
  unfold clients_new in Hi. cbn [ct_master] in Hi. rewrite Em in Hi, Hu. cbn [snd] in Hi, Hu.
  set (t1 := tm_set_master m _). assert (Ht1 : tm_inv B N (2 * lenZ (first_accounts cfg 0)) (first_accounts cfg 0) t1).
  { constructor; [exact Hi|exact Hu|..].
    - intros a. subst t1. cbn. rewrite Hc. by intros [x [=]].
    - intros id a. subst t1. cbn. rewrite Ha. by intros [=].
    - by intros i a [=]. }
  destruct (start_clients_start B N cfg 0 (Z.to_nat n) t1 Ht1) as (t2 & E2 & Ht2); [lia|reflexivity|exact Hip|exact Hs|lia|].
  exists t2. split; [exact E2|]. cbn [Nat.add] in Ht2. destruct Ht2 as [H1 H2 H3 H4 H5].
  assert (Hl : lenZ (first_accounts cfg (Z.to_nat n)) = n) by (unfold first_accounts; rewrite length_fmap, length_seq; lia). rewrite Hl in *.
  split; [by apply (mi_used_ids _ _ _ _ H1)|]. split; [rewrite <- HN; by apply (mi_max _ _ _ _ H1)|]. split.
  - intros a Hx%H3. apply list_elem_of_fmap in Hx as (j & -> & Hj%elem_of_seq). exists (Z.of_nat j). split; [lia|]. by rewrite Nat2Z.id.
  - intros i Hi'. destruct (H5 (Z.to_nat i) (account_name cfg (Z.to_nat i))) as (p & l & g & G1 & G2 & G3 & G4 & (q & G5) & G6 & G7).
    { unfold first_accounts. rewrite list_lookup_fmap, lookup_seq_lt by lia. done. }
    rewrite Z2Nat.id in * by lia. exists p, l, g. split; [done|]. split; [done|]. split; [by eapply client_id_get|]. split; [by eapply client_id_get|].
    split; [by eapply link_at_state|]. unfold getAccountByConnId, getClientByConnId. intros id [->| ->]; by rewrite ?G6, ?G7.
Qed.
End started.

(** ** From the login server to the gate *)

Section gate.
Context {App : Type}.
Variable h : TestHandlers App.
Variable mgr : Z.
Variable garbage : Z -> list Z.
Variable is_address : text -> bool.
Implicit Type t : TestClients App.

(** What the events of the client [p] ask for. *)
Definition asked_gates (p : ptr) (l : list UserEvent) : list (ptr * text * Z) :=
  l ≫= fun e => match event_id e with USER_EVENT_CONNECT_GAME_SERVER => [(p, c_str (str_param e), u16 (l_param e))] | _ => [] end.
Definition asks_exit (e : UserEvent) : bool := match event_id e with USER_EVENT_EXIT_GAME => true | _ => false end.
Definition events_done (c : TestClient) (l : list UserEvent) : TestClient :=
  mkTestClient (login_client_ c) (game_client_ c) (state_ c) (exit_ c || existsb asks_exit l) [] (account_ c) (enter_session_ c) (reconn_session_ c).

Lemma do_events_loop_spec p l : forall n t c, tm_objs t !! p = Some c -> event_list_ c = l ->
  exists m t', do_events_loop p l n t = Some (m, t') /\ tm_objs t' = <[p := events_done c l]> (tm_objs t) /\
    gs_ip_port_list_ t' = gs_ip_port_list_ t ++ asked_gates p l /\ tm_master t' = tm_master t /\ clients_ t' = clients_ t.
Proof using.
  induction l as [|e l IH]; intros n t c Hc Hl; cbn [do_events_loop].
  - exists n, t. split; [done|]. split; [|by rewrite app_nil_r]. symmetry. apply insert_id. rewrite Hc. destruct c; cbn in *. unfold events_done. cbn. by rewrite orb_false_r, Hl.
  - rewrite Hc. cbn [mbind option_bind]. unfold asked_gates. cbn [mbind list_bind]. fold (asked_gates p l).
    assert (Hx : asks_exit e = match event_id e with USER_EVENT_EXIT_GAME => true | _ => false end) by done.
    destruct (event_id e); match goal with |- exists m t', do_events_loop _ _ ?n1 ?t1 = _ /\ _ =>
      edestruct (IH n1 t1) as (m & t' & E & H1 & H2 & H3 & H4); [apply lookup_insert_eq|reflexivity|]; exists m, t' end;
      (split; [exact E|]); rewrite H1, H2, H3, H4; cbn [tm_objs gs_ip_port_list_ tm_set_obj pushGsIpPort tm_set_list tm_master clients_];
      rewrite insert_insert_eq, <- ?app_assoc; (split; [|done]); f_equal; unfold events_done; cbn [existsb]; rewrite Hx; cbn;
      rewrite ?orb_true_r; done.
Qed.

(** The events of a client are handled once, in their order. *)
Lemma do_events_spec p t c : tm_objs t !! p = Some c -> exists m t', do_events p t = Some (m, t') /\
  tm_objs t' = <[p := events_done c (event_list_ c)]> (tm_objs t) /\ gs_ip_port_list_ t' = gs_ip_port_list_ t ++ asked_gates p (event_list_ c).
Proof using.
  intros Hc. unfold do_events. rewrite Hc. cbn [mbind option_bind]. destruct (do_events_loop_spec p _ 0 t c Hc eq_refl) as (m & t' & E & H1 & H2 & _). by exists m, t'.
Qed.

Lemma tc_run_queue now p t r t' : tc_run mgr garbage now p t = Some (r, t') -> exists l, gs_ip_port_list_ t' = gs_ip_port_list_ t ++ l.
Proof using.
  unfold tc_run. intros E. apply bind_Some in E as (c & _ & E). destruct (exit_ c); [injection E as _ <-; exists []; by rewrite app_nil_r|].
  apply bind_Some in E as ([r1 t1] & E1 & E). assert (H1 : gs_ip_port_list_ t1 = gs_ip_port_list_ t).
  { assert (Hl : forall o, run_link mgr garbage now o t = Some (r1, t1) -> gs_ip_port_list_ t1 = gs_ip_port_list_ t).
    { intros [l|]; cbn [run_link]; [intros E2; apply bind_Some in E2 as ([r2 m] & _ & [= _ <-])|intros [= _ <-]]; done. }
    destruct (state_ c); [by injection E1 as _ <-|eauto..]. }
  destruct (r1 <? 0); [injection E as _ <-; exists []; by rewrite app_nil_r|]. apply bind_Some in E as ([m t2] & E2 & [= _ <-]).
  pose proof E2 as E3. unfold do_events in E3. apply bind_Some in E3 as (c1 & Hc1 & _).
  destruct (do_events_spec _ _ _ Hc1) as (m' & t3 & E4 & _ & H2). rewrite E4 in E2. injection E2 as _ <-. rewrite H2, H1. by eexists.
Qed.

Lemma run_clients_queue now l : forall t t', run_clients mgr garbage now l t = Some t' -> exists new, gs_ip_port_list_ t' = gs_ip_port_list_ t ++ new.
Proof using.
  induction l as [|p l IH]; intros t t' E; cbn [run_clients] in E; [injection E as <-; exists []; by rewrite app_nil_r|].
  destruct (p =? NULL); [by apply IH|]. apply bind_Some in E as ([r t1] & E1 & E). apply tc_run_queue in E1 as [l1 H1]. apply IH in E as [l2 H2].
  rewrite H2, H1, <- app_assoc. by eexists.
Qed.

(** The gates that wait to be connected are a queue: a turn of the loop puts what the clients ask for at its end, and
    takes at most a hundred from its front. *)
Lemma tm_turn_queue hash_order now t t' : tm_turn h mgr garbage is_address hash_order now t = Some t' -> exists t1 new t2,
  gs_ip_port_list_ t1 = gs_ip_port_list_ t ++ new /\ connect_games h mgr garbage is_address (take MAX_CONNECTS (gs_ip_port_list_ t ++ new)) t1 = Some t2 /\
  gs_ip_port_list_ t' = drop MAX_CONNECTS (gs_ip_port_list_ t ++ new) /\ tm_master t' = tm_master t2 /\ tm_objs t' = tm_objs t2.
Proof using.
  intros E. unfold tm_turn in E. apply bind_Some in E as (t1 & E1 & E). apply run_clients_queue in E1 as [new H1].
  apply bind_Some in E as (t2 & E2 & [= <-]). rewrite H1 in E2. exists t1, new, t2. rewrite H1 in *. done.
Qed.

(** The connection to the gate presents the code that the login server sent, and the account it was sent for. *)
Lemma code_is_presented `{ServerMessages} `{Message MsgC2S_EnterGameRequest} tmp login_id game_id account data response t t' :
  getAccountByConnId login_id t = Some account -> getAccountByConnId game_id t = Some account ->
  ParseFromArray data = Some response -> tl_processSelectedServer mgr login_id data t = Some (lenZ data, t') ->
  exists p c, clients_ t !! account = Some p /\ tm_objs t' !! p = Some c /\
    event_list_ c = event_list_ (default c (tm_objs t !! p)) ++ [mkUserEvent USER_EVENT_CONNECT_GAME_SERVER (u16 (sr_port response)) (c_str (sr_server_ip response))] /\
    (is_Some (get_connection game_id mgr (tm_net t)) ->
       tg_onConnect mgr tmp game_id t' =
       ('(r, t2) ← tc_send mgr tmp game_id MSGID_C2S_GET_ROLE_REQUEST (mkGetRoleRequest account (sr_session_code response)) t';
        Some (match r with None => -1 | Some _ => 0 end, t2))).
Proof using.
  unfold getAccountByConnId. intros Hl Hg Hp E. unfold tl_processSelectedServer in E. destruct (get_connection login_id mgr (tm_net t)); [|injection E as He _; lia].
  rewrite Hp in E. unfold getClientByConnId in E. rewrite Hl in E. destruct (clients_ t !! account) as [p|] eqn:Ea; [|injection E as He _; lia].
  apply bind_Some in E as (c & Hc & [= <-]). exists p. eexists. split; [done|]. split; [apply lookup_insert_eq|]. rewrite Hc. split; [reflexivity|].
  intros [k Hk]. unfold tg_onConnect. cbn [tm_set_obj tm_net]. rewrite Hk. unfold getAccountByConnId, getClientByConnId. cbn [conn_id2accounts_ tm_set_obj clients_ tm_objs].
  rewrite Hg, Ea, lookup_insert_eq. reflexivity.
Qed.
End gate.

(** ** Example

    Two accounts, from 7 on. *)

Definition ex_test_handlers : TestHandlers unit :=
  mkTestHandlers ex_msg ex_msg ex_msg ex_msg ex_events ex_msg ex_msg ex_msg ex_msg ex_msg ex_msg ex_msg ex_events.
Definition ex_test_doc : Json := JObject [
  (chars "connect_ip", JString (chars "127.0.0.1")); (chars "connect_port", JInt 5000); (chars "account_prefix", JString (chars "test"));
  (chars "account_start_index", JInt 7); (chars "account_num", JInt 2)].
Definition ex_test_files : Files := mkFiles (fun _ => Some []) (fun _ => Some ex_test_doc).
Definition ex_test_clients : TestClients unit :=
  mkTestClients (JmyTcpClientMaster_new ∅ tt) Net_new ∅ ∅ ∅ [] (mkLoader JNull (TestClientFile.mkClientConfig [] 0 false [] [] 0 0) []).
Abbreviation ex_test_start := (tm_init (H1 := ex_test_files) (fun _ => true) (chars "f") ex_test_clients).

Lemma clients_started_witness : exists t1 t2, ex_test_start = Some (true, t1) /\
  start_clients ex_test_handlers 7 demo_content (fun _ => true) (config_ (tm_config t1)) 0 2 t1 = Some t2 /\
  is_Some (clients_ t2 !! chars "test8") /\ Z.of_nat (size (used_ids_ (tm_master t2))) = 4 /\ max_count_ (tm_master t2) = 8.
Proof.
  assert (E : match ex_test_start with
    | Some (true, t1) => bool_decide (TestClientFile.account_num (config_ (tm_config t1)) = 2 /\
        TestClientFile.account_start_index (config_ (tm_config t1)) = 7 /\ TestClientFile.account_prefix (config_ (tm_config t1)) = chars "test")
    | _ => false end = true) by (vm_compute; reflexivity).
  destruct ex_test_start as [[[] t1]|] eqn:E0; [|discriminate E|discriminate E]. apply bool_decide_eq_true in E as (Hn & Hs & Hp).
  destruct (clients_started (H := ex_test_files) ex_test_handlers 7 demo_content (fun _ => true) ltac:(apply ex_conf_keeps; auto; repeat constructor)
    (fun _ => true) (chars "f") ex_test_clients t1 ∅ tt eq_refl eq_refl eq_refl E0) as (t2 & E2 & Hu & Hm & _ & Hc);
    [by rewrite Hn|reflexivity|by rewrite Hs|by rewrite Hs, Hn|].
  rewrite Hn in *. exists t1, t2. split; [reflexivity|]. split; [exact E2|]. split; [|by split].
  destruct (Hc 1 ltac:(lia)) as (p & _ & _ & H1 & _). unfold account_name in H1. rewrite Hp, Hs in H1. exists p. exact H1.
Defined.
