(* ===== verification/HttpRequests.v ===== *)
(** * The HTTP requests ([src/curl/])

    A manager keeps a pool of requests.  A request that a program makes waits in a list until the loop of the manager
    gives it to curl; when curl is done with it, it goes back to the pool.  [http_request_common.hpp],
    [http_request.*], [http_request_processor.*], [http_request_mgr.*] and [http_request_results.*].  What curl answers
    is given with each operation; output and statistics, which are only printed, are left out. *)
From S2P Require Import Prelude.
From Stdlib Require Import ZArith Lia.
From stdpp Require Import base option list gmap.
Local Open Scope Z_scope.

(** ** HttpRequest

    Requests, easy handles and multi handles are addresses; a callback is the address of a function. *)

Record HttpResponse : Type := mkResponse { error_code : Z; resp_data : option (list Z); resp_len : Z; user_data : ptr }.
Record resp_cb_data : Type := mkCallback { cb_func : option ptr; cb_param : ptr }.

Inductive CurlOption : Type :=
| CURLOPT_HEADER (v : Z) | CURLOPT_VERBOSE (v : Z) | CURLOPT_NOSIGNAL (v : Z)
| CURLOPT_WRITEDATA (request : ptr) | CURLOPT_READDATA (request : ptr)    (** with the functions [default_resp_*_func] *)
| CURLOPT_HTTPGET (v : Z) | CURLOPT_POST (v : Z) | CURLOPT_POSTFIELDS (content : list Z) | CURLOPT_URL (url : list Z)
| CURLOPT_PRIVATE (p : ptr).

(** The requests with their [eh_], and what curl knows: the handles that exist, the options that were set; the
    callbacks that were called. *)
Record Requests : Type := mkRequests {
  rq_objs : gmap ptr (option ptr);
  eh2func_map_ : gmap ptr resp_cb_data;
  rq_easy : gset ptr;
  rq_multi : gset ptr;
  rq_options : list (ptr * CurlOption);
  rq_calls : list (ptr * HttpResponse);
}.

Definition Requests_new : Requests := mkRequests ∅ ∅ ∅ ∅ [] [].
Definition rq_set_objs (o : gmap ptr (option ptr)) (r : Requests) : Requests :=
  mkRequests o (eh2func_map_ r) (rq_easy r) (rq_multi r) (rq_options r) (rq_calls r).
Definition rq_set_map (m : gmap ptr resp_cb_data) (r : Requests) : Requests :=
  mkRequests (rq_objs r) m (rq_easy r) (rq_multi r) (rq_options r) (rq_calls r).
Definition rq_set_easy (e : gset ptr) (r : Requests) : Requests :=
  mkRequests (rq_objs r) (eh2func_map_ r) e (rq_multi r) (rq_options r) (rq_calls r).
Definition rq_set_multi (m : gset ptr) (r : Requests) : Requests :=
  mkRequests (rq_objs r) (eh2func_map_ r) (rq_easy r) m (rq_options r) (rq_calls r).
Definition rq_add_option (eh : ptr) (o : CurlOption) (r : Requests) : Requests :=
  mkRequests (rq_objs r) (eh2func_map_ r) (rq_easy r) (rq_multi r) (rq_options r ++ [(eh, o)]) (rq_calls r).
Definition rq_add_call (f : ptr) (a : HttpResponse) (r : Requests) : Requests :=
  mkRequests (rq_objs r) (eh2func_map_ r) (rq_easy r) (rq_multi r) (rq_options r) (rq_calls r ++ [(f, a)]).

(** [curl_easy_setopt] on a handle that was cleaned up is undefined behaviour. *)
Definition curl_easy_setopt (eh : ptr) (o : CurlOption) (r : Requests) : option Requests :=
  ub_unless (bool_decide (eh ∈ rq_easy r));; Some (rq_add_option eh o r).

(** [easy] is what [curl_easy_init] returned. *)
Definition req_init (easy : option ptr) (p : ptr) (r : Requests) : option (bool * Requests) :=
  _ ← rq_objs r !! p;
  let r := rq_set_objs (<[p := easy]> (rq_objs r)) r in
  match easy with
  | None => Some (false, r)
  | Some eh =>
    let r := rq_set_easy ({[eh]} ∪ rq_easy r) r in
    r ← curl_easy_setopt eh (CURLOPT_HEADER 0) r;
    r ← curl_easy_setopt eh (CURLOPT_VERBOSE 0) r;
    r ← curl_easy_setopt eh (CURLOPT_NOSIGNAL 1) r;
    r ← curl_easy_setopt eh (CURLOPT_WRITEDATA p) r;
    r ← curl_easy_setopt eh (CURLOPT_READDATA p) r;
    Some (true, r)
  end.

(** [eh_] keeps the handle that is cleaned up. *)
Definition req_close (p : ptr) (r : Requests) : option Requests :=
  eh ← rq_objs r !! p;
  match eh with
  | None => Some r
  | Some eh =>
    let r := match eh2func_map_ r !! p with Some _ => rq_set_map (<[p := mkCallback None NULL]> (eh2func_map_ r)) r | None => r end in
    ub_unless (bool_decide (eh ∈ rq_easy r));;
    Some (rq_set_easy (rq_easy r ∖ {[eh]}) r)
  end.

Definition set_option (o : CurlOption) (p : ptr) (r : Requests) : option Requests :=
  eh ← rq_objs r !! p;
  match eh with None => Some r | Some eh => curl_easy_setopt eh o r end.
Definition setGet (enable : bool) : ptr -> Requests -> option Requests := set_option (CURLOPT_HTTPGET (if enable then 1 else 0)).
Definition setPost (enable : bool) : ptr -> Requests -> option Requests := set_option (CURLOPT_POST (if enable then 1 else 0)).
Definition setPostContent (content : list Z) : ptr -> Requests -> option Requests := set_option (CURLOPT_POSTFIELDS content).
Definition setUrl (url : list Z) : ptr -> Requests -> option Requests := set_option (CURLOPT_URL url).
Definition setPrivate (pointer : ptr) : ptr -> Requests -> option Requests := set_option (CURLOPT_PRIVATE pointer).

Definition set_resp_func (func : option ptr) (userdata : ptr) (p : ptr) (r : Requests) : Requests :=
  match eh2func_map_ r !! p with Some _ => rq_set_map (<[p := mkCallback func userdata]> (eh2func_map_ r)) r | None => r end.
Definition setRespWriteFunc : option ptr -> ptr -> ptr -> Requests -> Requests := set_resp_func.
Definition setRespReadFunc : option ptr -> ptr -> ptr -> Requests -> Requests := set_resp_func.

Definition storeInMap (p : ptr) (r : Requests) : Requests := rq_set_map (map_insert_new p (mkCallback None NULL) (eh2func_map_ r)) r.
Definition removeFromMap (p : ptr) (r : Requests) : Requests := rq_set_map (delete p (eh2func_map_ r)) r.

(** Calling a null function is undefined behaviour. *)
Definition call_back (d : resp_cb_data) (a : HttpResponse) (r : Requests) : option Requests := f ← cb_func d; Some (rq_add_call f a r).

(** [code] is the response code that curl has for the handle of the request. *)
Definition default_resp_func (data : list Z) (code : Z) (p : ptr) (r : Requests) : option (Z * Requests) :=
  _ ← rq_objs r !! p;
  match eh2func_map_ r !! p with
  | None => Some (lenZ data, r)
  | Some d =>
    r ← call_back d (if code =? 200 then mkResponse 0 (Some data) (lenZ data) (cb_param d) else mkResponse (s32 code) None 0 (cb_param d)) r;
    Some (lenZ data, r)
  end.
Definition default_resp_write_func : list Z -> Z -> ptr -> Requests -> option (Z * Requests) := default_resp_func.
Definition default_resp_read_func : list Z -> Z -> ptr -> Requests -> option (Z * Requests) := default_resp_func.

Definition call_error_func (error : Z) (p : ptr) (r : Requests) : option Requests :=
  match eh2func_map_ r !! p with None => Some r | Some d => call_back d (mkResponse error None 0 NULL) r end.

(** ** ThreadSafeObjPool and ThreadSafeObjList

    The lock-free queues are first in, first out.  The pool is never made over [boost::object_pool]. *)

Record ThreadSafeObjPool : Type := mkObjPool { op_max_size : Z; free_queue_ : list ptr }.
Definition ThreadSafeObjPool_new : ThreadSafeObjPool := mkObjPool 0 [].

Fixpoint op_fill (n : nat) (q : list ptr) (r : Requests) : list ptr * Requests :=
  match n with
  | O => (q, r)
  | S n => let p := fresh_ptr (rq_objs r) in op_fill n (q ++ [p]) (storeInMap p (rq_set_objs (<[p := None]> (rq_objs r)) r))
  end.
Definition op_init (max_size : Z) (o : ThreadSafeObjPool) (r : Requests) : bool * ThreadSafeObjPool * Requests :=
  if max_size <=? 0 then (false, o, r) else
  let '(q, r) := op_fill (Z.to_nat max_size) (free_queue_ o) r in (true, mkObjPool max_size q, r).
(** A request is deleted before it leaves the map, which only needs its address. *)
Definition op_clear (o : ThreadSafeObjPool) (r : Requests) : ThreadSafeObjPool * Requests :=
  (mkObjPool (op_max_size o) [], foldl (fun r p => removeFromMap p (rq_set_objs (delete p (rq_objs r)) r)) r (free_queue_ o)).
Definition op_malloc (o : ThreadSafeObjPool) : option ptr * ThreadSafeObjPool :=
  match free_queue_ o with [] => (None, o) | p :: q => (Some p, mkObjPool (op_max_size o) q) end.
(** [push] on a queue that grows always succeeds. *)
Definition op_free (p : ptr) (o : ThreadSafeObjPool) : bool * ThreadSafeObjPool := (true, mkObjPool (op_max_size o) (free_queue_ o ++ [p])).
Definition op_notEmpty (o : ThreadSafeObjPool) : bool := match free_queue_ o with [] => false | _ => true end.

Definition ol_push {T} (p : T) (l : list T) : bool * list T := (true, l ++ [p]).
Definition ol_pop {T} (l : list T) : option T * list T := match l with [] => (None, []) | p :: l => (Some p, l) end.

(** ** HttpRequestProcessor *)

Definition DEFAULT_MAX_PROCESS_COUNT : Z := 2000.

Record HttpRequestProcessor : Type := mkProcessor {
  pr_mgr : bool;                 (** whether [mgr_] was set *)
  handle_ : option ptr;
  curr_nprocess_ : Z;
  max_nprocess_ : Z;
  reqs_map_ : gmap ptr ptr;
}.
Definition HttpRequestProcessor_new : HttpRequestProcessor := mkProcessor false None 0 0 ∅.
Definition pr_set_reqs (n : Z) (m : gmap ptr ptr) (x : HttpRequestProcessor) : HttpRequestProcessor :=
  mkProcessor (pr_mgr x) (handle_ x) n (max_nprocess_ x) m.
Definition setMgr (x : HttpRequestProcessor) : HttpRequestProcessor := mkProcessor true (handle_ x) (curr_nprocess_ x) (max_nprocess_ x) (reqs_map_ x).

(** [multi] is what [curl_multi_init] returned. *)
Definition pr_init (multi : option ptr) (max_nprocess : Z) (x : HttpRequestProcessor) (r : Requests) : bool * HttpRequestProcessor * Requests :=
  match multi with
  | None => (false, mkProcessor (pr_mgr x) None (curr_nprocess_ x) (max_nprocess_ x) (reqs_map_ x), r)
  | Some h =>
    (true, mkProcessor (pr_mgr x) (Some h) (curr_nprocess_ x) (if max_nprocess <=? 0 then DEFAULT_MAX_PROCESS_COUNT else max_nprocess) (reqs_map_ x),
     rq_set_multi ({[h]} ∪ rq_multi r) r)
  end.

(** [handle_] keeps the handle that is cleaned up. *)
Definition pr_close (x : HttpRequestProcessor) (r : Requests) : option Requests :=
  match handle_ x with
  | None => Some r
  | Some h => ub_unless (bool_decide (h ∈ rq_multi r));; Some (rq_set_multi (rq_multi r ∖ {[h]}) r)
  end.

Definition checkMaxProcess (x : HttpRequestProcessor) : bool := max_nprocess_ x <=? curr_nprocess_ x.
Definition pr_isEmpty (x : HttpRequestProcessor) : bool := curr_nprocess_ x <=? 0.

(** What curl answers when the handle is added.  The map has handles as keys and is asked for the request. *)
Definition pr_addReq (add_ok : ptr -> bool) (p : ptr) (x : HttpRequestProcessor) (r : Requests) : option (bool * HttpRequestProcessor) :=
  match handle_ x with
  | None => Some (false, x)
  | Some h =>
    match reqs_map_ x !! p with
    | Some _ => Some (false, x)
    | None =>
      if checkMaxProcess x then Some (false, x) else
      eh ← rq_objs r !! p;
      match eh with
      | None => Some (false, x)      (** curl refuses a null handle *)
      | Some eh =>
        ub_unless (bool_decide (h ∈ rq_multi r));;
        if negb (add_ok eh) then Some (false, x) else
        Some (true, pr_set_reqs (curr_nprocess_ x + 1) (map_insert_new eh p (reqs_map_ x)) x)
      end
    end
  end.

Definition pr_removeReq (remove_ok : ptr -> bool) (eh : ptr) (x : HttpRequestProcessor) : bool * HttpRequestProcessor :=
  if eh =? NULL then (false, x) else
  match reqs_map_ x !! eh with
  | None => (false, x)
  | Some _ =>
    if negb (remove_ok eh) then (false, x) else
    (true, pr_set_reqs (if 0 <? curr_nprocess_ x then curr_nprocess_ x - 1 else curr_nprocess_ x) (delete eh (reqs_map_ x)) x)
  end.

(** ** HttpRequestMgr *)

Definition DEFAULT_MAX_REQUEST_COUNT : Z := 5000.

Record HttpRequestMgr : Type := mkHttpMgr {
  processor_ : HttpRequestProcessor;
  pool_ : ThreadSafeObjPool;
  list_ : list ptr;
  running_ : bool;
  work_thread_ : bool;
  use_thread_ : bool;
}.
Definition HttpRequestMgr_new : HttpRequestMgr := mkHttpMgr HttpRequestProcessor_new ThreadSafeObjPool_new [] false false false.

(** The manager with the requests. *)
Record Http : Type := mkHttp { ht_mgr : HttpRequestMgr; ht_reqs : Requests }.
Definition ht_set_reqs (r : Requests) (h : Http) : Http := mkHttp (ht_mgr h) r.
Definition ht_set_processor (x : HttpRequestProcessor) (h : Http) : Http :=
  let m := ht_mgr h in mkHttp (mkHttpMgr x (pool_ m) (list_ m) (running_ m) (work_thread_ m) (use_thread_ m)) (ht_reqs h).
Definition ht_set_pool (o : ThreadSafeObjPool) (h : Http) : Http :=
  let m := ht_mgr h in mkHttp (mkHttpMgr (processor_ m) o (list_ m) (running_ m) (work_thread_ m) (use_thread_ m)) (ht_reqs h).
Definition ht_set_list (l : list ptr) (h : Http) : Http :=
  let m := ht_mgr h in mkHttp (mkHttpMgr (processor_ m) (pool_ m) l (running_ m) (work_thread_ m) (use_thread_ m)) (ht_reqs h).
Definition ht_set_thread (running thread use : bool) (h : Http) : Http :=
  let m := ht_mgr h in mkHttp (mkHttpMgr (processor_ m) (pool_ m) (list_ m) running thread use) (ht_reqs h).
(** An operation of one request. *)
Definition ht_req (f : Requests -> option Requests) (h : Http) : option Http := r ← f (ht_reqs h); Some (ht_set_reqs r h).

Definition hm_init (multi : option ptr) (max_nreq : Z) (h : Http) : bool * Http :=
  let max_nreq := if max_nreq <=? 0 then DEFAULT_MAX_REQUEST_COUNT else max_nreq in
  let '(ok, x, r) := pr_init multi DEFAULT_MAX_PROCESS_COUNT (processor_ (ht_mgr h)) (ht_reqs h) in
  let h := ht_set_reqs r (ht_set_processor x h) in
  if negb ok then (false, h) else
  let h := ht_set_processor (setMgr x) h in
  let '(ok, o, r) := op_init max_nreq (pool_ (ht_mgr h)) (ht_reqs h) in
  (ok, ht_set_reqs r (ht_set_pool o h)).

(** Joining a thread that was never started is undefined behaviour. *)
Definition thread_join (h : Http) : option Http :=
  ub_unless (work_thread_ (ht_mgr h));; Some (ht_set_thread (running_ (ht_mgr h)) false (use_thread_ (ht_mgr h)) h).

Definition hm_close (h : Http) : option Http :=
  let '(o, r) := op_clear (pool_ (ht_mgr h)) (ht_reqs h) in
  let h := ht_set_reqs r (ht_set_pool o h) in
  r ← pr_close (processor_ (ht_mgr h)) (ht_reqs h);
  let h := ht_set_reqs r h in
  let h := ht_set_thread false (work_thread_ (ht_mgr h)) (use_thread_ (ht_mgr h)) h in
  h ← (if use_thread_ (ht_mgr h) then thread_join h else Some h);
  Some (ht_set_thread (running_ (ht_mgr h)) (work_thread_ (ht_mgr h)) false h).

Definition hasReq (h : Http) : bool := op_notEmpty (pool_ (ht_mgr h)).

(** A request whose [init] fails does not go back. *)
Definition newReq (easy : option ptr) (h : Http) : option (option ptr * Http) :=
  let '(p, o) := op_malloc (pool_ (ht_mgr h)) in
  let h := ht_set_pool o h in
  match p with
  | None => Some (None, h)
  | Some p => '(ok, r) ← req_init easy p (ht_reqs h); Some (if ok : bool then Some p else None, ht_set_reqs r h)
  end.

Definition hm_addReq (p : option ptr) (h : Http) : bool * Http :=
  match p with None => (false, h) | Some p => let '(ok, l) := ol_push p (list_ (ht_mgr h)) in (ok, ht_set_list l h) end.

Definition freeReq (p : ptr) (h : Http) : option Http :=
  h ← ht_req (req_close p) h;
  let '(_, o) := op_free p (pool_ (ht_mgr h)) in Some (ht_set_pool o h).

(** The common part of [get] and [post]; [set] sets the kind of request. *)
Definition send_request (set : ptr -> Requests -> option Requests) (easy : option ptr) (url : list Z) (cb_func : option ptr) (func_param : ptr) (h : Http)
  : option (Z * Http) :=
  '(p, h) ← newReq easy h;
  match p with
  | None => Some (0, h)
  | Some p =>
    h ← ht_req (setUrl url p) h;
    h ← ht_req (set p) h;
    let h := ht_set_reqs (setRespWriteFunc cb_func func_param p (ht_reqs h)) h in
    let '(ok, h) := hm_addReq (Some p) h in
    if negb ok then h ← freeReq p h; Some (-1, h) else Some (1, h)
  end.
Definition hm_get (easy : option ptr) (url : list Z) (cb_func : option ptr) (func_param : ptr) : Http -> option (Z * Http) :=
  send_request (setGet true) easy url cb_func func_param.
Definition hm_post (easy : option ptr) (url content : list Z) (cb_func : option ptr) (func_param : ptr) : Http -> option (Z * Http) :=
  send_request (fun p r => r ← setPost true p r; setPostContent content p r) easy url cb_func func_param.

(** ** waitResponse *)

(** What [curl_multi_perform] did: the data that arrived, each with the request and the response code of its handle, and
    how many transfers still run. *)
Record Perform : Type := mkPerform { pf_writes : list (ptr * list Z * Z); pf_running : Z }.
Inductive CurlMsg : Type := msg_done (eh : ptr) (code : Z) | msg_other (eh : ptr).
Definition CURLE_OK : Z := 0.

(** What curl answers in one turn of the loop: the results of [curl_multi_add_handle], of the first
    [curl_multi_perform], of each [curl_multi_wait] (whether it succeeded and the number of descriptors, with the
    [curl_multi_perform] after it), of [curl_multi_info_read] and of [curl_multi_remove_handle]. *)
Record CurlAnswers : Type := mkAnswers {
  an_add : ptr -> bool;
  an_first : Perform;
  an_waits : list (bool * Z * Perform);
  an_msgs : list CurlMsg;
  an_remove : ptr -> bool;
}.

Fixpoint multi_writes (l : list (ptr * list Z * Z)) (r : Requests) : option Requests :=
  match l with [] => Some r | (p, data, code) :: l => '(_, r) ← default_resp_write_func data code p r; multi_writes l r end.
Definition curl_multi_perform (pf : Perform) (h : Http) : option Http := ht_req (multi_writes (pf_writes pf)) h.

(** [None] in the result is -1, else it is [numfds].  The answers have to last until the loop ends. *)
Fixpoint wait_loop (l : list (bool * Z * Perform)) (old new numfds : Z) (h : Http) : option (option Z * Http) :=
  if new <? old then Some (Some numfds, h) else
  match l with
  | [] => None
  | (ok, numfds, pf) :: l =>
    if negb ok then Some (None, h) else
    if numfds =? 0 then Some (Some numfds, h) else
    h ← curl_multi_perform pf h; wait_loop l old (pf_running pf) numfds h
  end.

Definition process_msg (remove_ok : ptr -> bool) (m : CurlMsg) (done : Z) (h : Http) : option (Z * Http) :=
  let eh := match m with msg_done eh _ | msg_other eh => eh end in
  req ← reqs_map_ (processor_ (ht_mgr h)) !! eh;
  '(done, h) ← match m with
    | msg_done _ code =>
      if negb (code =? CURLE_OK) then h ← ht_req (call_error_func code req) h; Some (done, h) else Some (done + 1, h)
    | msg_other _ => h ← ht_req (call_error_func (-1) req) h; Some (done, h)
    end;
  let '(_, x) := pr_removeReq remove_ok eh (processor_ (ht_mgr h)) in
  let h := ht_set_processor x h in
  h ← (if pr_mgr x then freeReq req h else Some h);
  Some (done, h).

Fixpoint process_msgs (remove_ok : ptr -> bool) (l : list CurlMsg) (done : Z) (h : Http) : option (Z * Http) :=
  match l with [] => Some (done, h) | m :: l => '(done, h) ← process_msg remove_ok m done h; process_msgs remove_ok l done h end.

Definition waitResponse (a : CurlAnswers) (h : Http) : option (Z * Http) :=
  match handle_ (processor_ (ht_mgr h)) with
  | None => Some (-1, h)
  | Some hd =>
    ub_unless (bool_decide (hd ∈ rq_multi (ht_reqs h)));;
    h ← curl_multi_perform (an_first a) h;
    '(numfds, h) ← wait_loop (an_waits a) (pf_running (an_first a)) (pf_running (an_first a)) 0 h;
    match numfds with
    | None => Some (-1, h)
    | Some numfds => if 0 <? numfds then process_msgs (an_remove a) (an_msgs a) 0 h else Some (0, h)
    end
  end.

(** The loop that fills the processor; a request that it refuses is dropped.  The result tells whether one was. *)
Fixpoint fill_processor (add_ok : ptr -> bool) (l : list ptr) (h : Http) : option (bool * Http) :=
  if checkMaxProcess (processor_ (ht_mgr h)) then Some (false, h) else
  match l with
  | [] => Some (false, h)
  | p :: l =>
    let h := ht_set_list l h in
    '(ok, x) ← pr_addReq add_ok p (processor_ (ht_mgr h)) (ht_reqs h);
    let h := ht_set_processor x h in
    if ok : bool then fill_processor add_ok l h else Some (true, h)
  end.

Definition one_loop (a : CurlAnswers) (h : Http) : option (Z * Http) :=
  '(_, h) ← fill_processor (an_add a) (list_ (ht_mgr h)) h;
  '(n, h) ← waitResponse a h;
  Some (if n <? 0 then -1 else 0, h).

(** [run]: the thread is started once, and else one turn is made. *)
Definition thread_run (h : Http) : Z * Http := (0, ht_set_thread (running_ (ht_mgr h)) true (use_thread_ (ht_mgr h)) h).
Definition hm_run (a : CurlAnswers) (h : Http) : option (Z * Http) := if use_thread_ (ht_mgr h) then Some (thread_run h) else one_loop a h.

(** The function of the thread: its start, and one turn, which tells whether it goes on. *)
Definition thread_start (h : Http) : Http := ht_set_thread true (work_thread_ (ht_mgr h)) (use_thread_ (ht_mgr h)) h.
Definition thread_turn (a : CurlAnswers) (h : Http) : option (bool * Http) :=
  if negb (running_ (ht_mgr h)) then Some (false, h) else
  '(n, h) ← one_loop a h;
  Some (true, if n <? 0 then ht_set_thread false (work_thread_ (ht_mgr h)) (use_thread_ (ht_mgr h)) h else h).

(** ** HttpRequestResults

    [insertResult] takes its result from a pool that is commented out. *)

Record HttpRequestResults : Type := mkResults { results_ : list ptr; to_free_results_ : list ptr }.
Definition insertResult (str : option (list Z)) (len : Z) (req : ptr) (x : HttpRequestResults) : bool * HttpRequestResults :=
  match str with None => (false, x) | Some _ => match (None : option ptr) with None => (false, x) | Some p => (true, mkResults (results_ x ++ [p]) (to_free_results_ x)) end end.
Definition popResult (x : HttpRequestResults) : option ptr * HttpRequestResults :=
  let '(p, l) := ol_pop (results_ x) in (p, mkResults l (to_free_results_ x)).
Definition freeResult (p : ptr) (x : HttpRequestResults) : bool * HttpRequestResults :=
  let '(ok, l) := ol_push p (to_free_results_ x) in (ok, mkResults (results_ x) l).
Definition hr_clear (_ : HttpRequestResults) : HttpRequestResults := mkResults [] [].
Definition hr_doLoop (x : HttpRequestResults) : HttpRequestResults := mkResults (results_ x) [].
