(* ===== verification/HttpProps.v ===== *)
(** * What becomes of the HTTP requests

    Whatever programs ask for and whatever curl answers, a request is in the pool, in the list, with curl, or lost; it is
    lost exactly when curl refuses a handle. *)
From S2P Require Import Prelude HttpRequests.
From Stdlib Require Import ZArith Lia.
From stdpp Require Import base option list gmap.
Local Open Scope Z_scope.

Lemma request_freed {A} (F L P D : list A) p : (F ++ [p]) ++ L ++ P ++ D ≡ₚ F ++ L ++ (p :: P) ++ D.
Proof. rewrite <- app_assoc. cbn [app]. apply Permutation_app_head, (Permutation_middle L (P ++ D)). Qed.

(** ** Runs *)

(** A program asks for something, or the loop of the manager turns. *)
Inductive http_op : Type :=
| http_get (easy : option ptr) (url : list Z) (cb : option ptr) (param : ptr)
| http_post (easy : option ptr) (url content : list Z) (cb : option ptr) (param : ptr)
| http_turn (a : CurlAnswers).

Definition http_exec (o : http_op) (h : Http) : option Http :=
  match o with
  | http_get easy url cb param => '(_, h) ← hm_get easy url cb param h; Some h
  | http_post easy url content cb param => '(_, h) ← hm_post easy url content cb param h; Some h
  | http_turn a => '(_, h) ← one_loop a h; Some h
  end.
Fixpoint http_run (os : list http_op) (h : Http) : option Http := match os with [] => Some h | o :: os => h ← http_exec o h; http_run os h end.

Definition free_requests (h : Http) : list ptr := free_queue_ (pool_ (ht_mgr h)).
Definition listed (h : Http) : list ptr := list_ (ht_mgr h).
Definition with_curl (h : Http) : gmap ptr ptr := reqs_map_ (processor_ (ht_mgr h)).
Definition in_process (h : Http) : list ptr := (map_to_list (with_curl h)).*2.

(** A new handle is an address that nothing has.  The program may pass no function to be called. *)
Definition request_allowed (easy : option ptr) (h : Http) : Prop :=
  forall eh, easy = Some eh -> eh <> NULL /\ eh ∉ rq_easy (ht_reqs h) /\ rq_objs (ht_reqs h) !! eh = None.

(** The program passed a function with the request. *)
Definition has_function (r : Requests) (p : ptr) : Prop := exists f u, eh2func_map_ r !! p = Some (mkCallback (Some f) u).

Definition msg_handle (m : CurlMsg) : ptr := match m with msg_done eh _ | msg_other eh => eh end.
(** The loop over [curl_multi_wait] ends. *)
Fixpoint waits_end (l : list (bool * Z * Perform)) (old new : Z) : bool :=
  (new <? old) || match l with [] => false | (ok, numfds, pf) :: l => negb ok || (numfds =? 0) || waits_end l old (pf_running pf) end.

(** What arrives is of requests that curl has and that have a function. *)
Definition writes_allowed (h : Http) (pf : Perform) : Prop :=
  Forall (fun w => fst (fst w) ∈ in_process h /\ has_function (ht_reqs h) (fst (fst w))) (pf_writes pf).

(** A message that needs no function: the transfer is done and went well. *)
Definition msg_went_well (m : CurlMsg) : Prop := match m with msg_done _ code => code = CURLE_OK | msg_other _ => False end.

(** A message is of a request that curl has, and a failure is of one that has a function. *)
Definition msg_allowed (h : Http) (m : CurlMsg) : Prop :=
  exists p, with_curl h !! msg_handle m = Some p /\ (msg_went_well m \/ has_function (ht_reqs h) p).

(** Curl, as it is documented, writes to and reports handles that it was given, reports each at most once, and removes
    a handle that it has; what it writes, and the failures that it reports, are of requests that have a function. *)
Record curl_answers_well (a : CurlAnswers) (h : Http) : Prop := mkAnswersWell {
  aw_first : writes_allowed h (an_first a);
  aw_waits : Forall (fun t => writes_allowed h (snd t)) (an_waits a);
  aw_end : waits_end (an_waits a) (pf_running (an_first a)) (pf_running (an_first a)) = true;
  aw_msgs : Forall (msg_allowed h) (an_msgs a);
  aw_once : NoDup (msg_handle <$> an_msgs a);
  aw_remove : forall eh, an_remove a eh = true;
}.

Definition http_allowed (o : http_op) (h : Http) : Prop :=
  match o with
  | http_get easy _ _ _ | http_post easy _ _ _ _ => request_allowed easy h
  | http_turn a => forall b h1, fill_processor (an_add a) (list_ (ht_mgr h)) h = Some (b, h1) -> curl_answers_well a h1
  end.
Fixpoint http_run_allowed (os : list http_op) (h : Http) : Prop :=
  match os with [] => True | o :: os => http_allowed o h /\ forall h', http_exec o h = Some h' -> http_run_allowed os h' end.

(** How often curl refused to make a handle for a request, or to take one. *)
Definition refused (o : http_op) (h : Http) : nat :=
  match o with
  | http_get None _ _ _ | http_post None _ _ _ _ => if hasReq h then 1 else 0
  | http_turn a => match fill_processor (an_add a) (list_ (ht_mgr h)) h with Some (true, _) => 1 | _ => 0 end
  | _ => 0
  end%nat.
Fixpoint refusals (os : list http_op) (h : Http) : nat :=
  match os with [] => 0 | o :: os => refused o h + match http_exec o h with Some h' => refusals os h' | None => 0 end end%nat.

(** ** The invariant *)

Section http.
Variable all : list ptr.
Hypothesis Hall : NoDup all.

(** A request with its handle and its entry in the map of the callbacks. *)
Definition prepared (r : Requests) (p eh : ptr) : Prop :=
  rq_objs r !! p = Some (Some eh) /\ eh ∈ rq_easy r /\ eh <> NULL /\ eh ∉ all /\ is_Some (eh2func_map_ r !! p).

Record http_inv (lost : list ptr) (h : Http) : Prop := mkHttpInv {
  hi_all : free_requests h ++ listed h ++ in_process h ++ lost ≡ₚ all;
  hi_objs : forall p, p ∈ all -> is_Some (rq_objs (ht_reqs h) !! p) /\ is_Some (eh2func_map_ (ht_reqs h) !! p);
  hi_listed : forall p, p ∈ listed h -> exists eh, prepared (ht_reqs h) p eh /\ with_curl h !! eh = None;
  hi_distinct : forall p q eh, p ∈ listed h -> q ∈ listed h -> rq_objs (ht_reqs h) !! p = Some (Some eh) -> rq_objs (ht_reqs h) !! q = Some (Some eh) -> p = q;
  hi_process : forall eh p, with_curl h !! eh = Some p -> prepared (ht_reqs h) p eh;
  hi_count : curr_nprocess_ (processor_ (ht_mgr h)) = Z.of_nat (size (with_curl h));
  hi_max : curr_nprocess_ (processor_ (ht_mgr h)) <= max_nprocess_ (processor_ (ht_mgr h)) /\ max_nprocess_ (processor_ (ht_mgr h)) = DEFAULT_MAX_PROCESS_COUNT;
  hi_handle : exists hd, handle_ (processor_ (ht_mgr h)) = Some hd /\ hd ∈ rq_multi (ht_reqs h);
  hi_mgr : pr_mgr (processor_ (ht_mgr h)) = true;
}.

Lemma in_process_elem h p : p ∈ in_process h <-> exists eh, with_curl h !! eh = Some p.
Proof using.
  unfold in_process. rewrite list_elem_of_fmap. split.
  - intros ([eh q] & -> & H%elem_of_map_to_list). by exists eh.
  - intros [eh H]. exists (eh, p). split; [done|]. by apply elem_of_map_to_list.
Qed.

Lemma inv_member lost h p : http_inv lost h -> p ∈ free_requests h \/ p ∈ listed h \/ p ∈ in_process h \/ p ∈ lost -> p ∈ all.
Proof using. clear Hall. intros Hi Hp. rewrite <- (hi_all _ _ Hi). set_solver. Qed.

Lemma inv_nodup lost h : http_inv lost h -> NoDup (free_requests h ++ listed h ++ in_process h ++ lost).
Proof using Hall. intros Hi. by rewrite (hi_all _ _ Hi). Qed.

(** ** What curl writes *)

(** Two states of the requests that only differ in the callbacks that were called. *)
Definition only_calls (r r' : Requests) : Prop :=
  rq_objs r' = rq_objs r /\ eh2func_map_ r' = eh2func_map_ r /\ rq_easy r' = rq_easy r /\ rq_multi r' = rq_multi r.

Lemma only_calls_trans r1 r2 r3 : only_calls r1 r2 -> only_calls r2 r3 -> only_calls r1 r3.
Proof using. intros (?&?&?&?) (?&?&?&?). split; [congruence|]. split; [congruence|]. split; congruence. Qed.

Lemma has_function_calls r r' p : only_calls r r' -> has_function r p -> has_function r' p.
Proof using. intros (_ & E & _) H. unfold has_function. by rewrite E. Qed.

Lemma writes_only_calls pf r h : only_calls (ht_reqs h) r -> writes_allowed h pf -> writes_allowed (ht_set_reqs r h) pf.
Proof using. intros Hr H. eapply Forall_impl; [exact H|]. intros w [H1 H2]. split; [exact H1|by eapply has_function_calls]. Qed.

Lemma msg_only_calls m r h : only_calls (ht_reqs h) r -> msg_allowed h m -> msg_allowed (ht_set_reqs r h) m.
Proof using. intros Hr (p & H1 & H2). exists p. split; [exact H1|]. destruct H2; [by left|right; by eapply has_function_calls]. Qed.

Lemma inv_only_calls lost h r : http_inv lost h -> only_calls (ht_reqs h) r -> http_inv lost (ht_set_reqs r h).
Proof using.
  intros [H1 H2 H3 H4 H5 H6 H7 H8 H9] (E1 & E2 & E3 & E4).
  constructor; cbn; unfold prepared in *; rewrite ?E1, ?E2, ?E3, ?E4; done.
Qed.

Lemma set_reqs_twice r r' h : ht_set_reqs r' (ht_set_reqs r h) = ht_set_reqs r' h.
Proof using. reflexivity. Qed.
Lemma set_reqs_same h : ht_set_reqs (ht_reqs h) h = h.
Proof using. by destruct h. Qed.

Lemma multi_writes_defined l : forall r, Forall (fun w => exists eh, prepared r (fst (fst w)) eh /\ has_function r (fst (fst w))) l -> exists r', multi_writes l r = Some r' /\ only_calls r r'.
Proof using.
  induction l as [|[[p data] code] l IH]; intros r Hl; cbn [multi_writes]; [by exists r|]. apply Forall_cons in Hl as [(eh & (Hp & _) & f & u & Hf) Hl].
  unfold default_resp_write_func, default_resp_func. cbn [fst] in Hp, Hf. rewrite Hp. cbn [mbind option_bind]. rewrite Hf. unfold call_back. cbn [cb_func mbind option_bind].
  match goal with |- exists r', multi_writes l ?r1 = _ /\ _ => destruct (IH r1) as (r' & E & Hr); [exact Hl|] end. exists r'. split; [exact E|]. exact Hr.
Qed.

Lemma perform_defined lost pf h : http_inv lost h -> writes_allowed h pf ->
  exists r, curl_multi_perform pf h = Some (ht_set_reqs r h) /\ only_calls (ht_reqs h) r.
Proof using.
  intros Hi Hw. destruct (multi_writes_defined (pf_writes pf) (ht_reqs h)) as (r & E & Hr).
  - eapply Forall_impl; [exact Hw|]. intros w [[eh He]%in_process_elem Hf]. exists eh. split; [by apply (hi_process _ _ Hi)|done].
  - exists r. unfold curl_multi_perform, ht_req. by rewrite E.
Qed.

Lemma wait_loop_defined lost l : forall old new n h, http_inv lost h -> waits_end l old new = true ->
  Forall (fun t => writes_allowed h (snd t)) l ->
  exists res r, wait_loop l old new n h = Some (res, ht_set_reqs r h) /\ only_calls (ht_reqs h) r.
Proof using.
  induction l as [|[[ok numfds] pf] l IH]; intros old new n h Hi He Hl; cbn [wait_loop waits_end] in *.
  - rewrite orb_false_r in He. rewrite He. exists (Some n), (ht_reqs h). rewrite set_reqs_same. by split.
  - destruct (new <? old); [exists (Some n), (ht_reqs h); rewrite set_reqs_same; by split|]. cbn [orb] in He.
    destruct ok; cbn [negb orb] in *; [|exists None, (ht_reqs h); rewrite set_reqs_same; by split].
    destruct (numfds =? 0); cbn [orb] in He; [exists (Some numfds), (ht_reqs h); rewrite set_reqs_same; by split|].
    apply Forall_cons in Hl as [Hp Hl]. destruct (perform_defined _ pf h Hi Hp) as (r & -> & Hr). cbn [mbind option_bind].
    destruct (IH old (pf_running pf) numfds (ht_set_reqs r h)) as (res & r' & E & Hr'); [by apply inv_only_calls|done|eapply Forall_impl; [exact Hl|]; intros t Ht; by apply writes_only_calls|].
    exists res, r'. rewrite E, set_reqs_twice. split; [done|]. by eapply only_calls_trans.
Qed.

(** ** A message of curl *)

Lemma in_process_delete h eh p x : with_curl h !! eh = Some p -> reqs_map_ x = delete eh (with_curl h) ->
  in_process h ≡ₚ p :: in_process (ht_set_processor x h).
Proof using.
  intros He Hx. unfold in_process at 2. unfold with_curl at 1. cbn. rewrite Hx. unfold in_process.
  rewrite <- (insert_id _ _ _ He) at 1. rewrite <- insert_delete_eq, map_to_list_insert by apply lookup_delete_eq. done.
Qed.

Lemma req_close_prepared r p eh : prepared r p eh -> exists r', req_close p r = Some r' /\ rq_objs r' = rq_objs r /\ rq_multi r' = rq_multi r /\
  rq_easy r' = rq_easy r ∖ {[eh]} /\ eh2func_map_ r' = <[p := mkCallback None NULL]> (eh2func_map_ r).
Proof using.
  intros (Ho & He & _ & _ & d & Hf). unfold req_close. rewrite Ho. cbn [mbind option_bind]. rewrite Hf. cbn [rq_easy rq_set_map].
  rewrite bool_decide_true by done. cbn [ub_unless mbind option_bind]. by eexists.
Qed.

(** What is left of the messages is still allowed when the request of one of them is freed. *)
Lemma msg_allowed_delete lost h h' m m' p : http_inv lost h -> with_curl h !! msg_handle m = Some p -> msg_handle m' <> msg_handle m -> msg_allowed h m' ->
  with_curl h' = delete (msg_handle m) (with_curl h) -> (forall q, q <> p -> eh2func_map_ (ht_reqs h') !! q = eh2func_map_ (ht_reqs h) !! q) -> msg_allowed h' m'.
Proof using.
  intros Hi Hp Hne (q & Hq & Hf) Hw He. exists q. rewrite Hw, lookup_delete_ne by done. split; [done|]. destruct Hf as [Hf|Hf]; [by left|right].
  unfold has_function. rewrite He; [done|]. intros ->. apply (hi_process _ _ Hi) in Hp as (P & _), Hq as (Q & _). congruence.
Qed.

Lemma process_msg_defined lost rem m n h : http_inv lost h -> (forall eh, rem eh = true) -> msg_allowed h m ->
  exists n' h' p, process_msg rem m n h = Some (n', h') /\ http_inv lost h' /\ with_curl h' = delete (msg_handle m) (with_curl h) /\
    with_curl h !! msg_handle m = Some p /\ (forall q, q <> p -> eh2func_map_ (ht_reqs h') !! q = eh2func_map_ (ht_reqs h) !! q).
Proof using Hall.
  intros Hi Hrem (p & Hp & Hfunc). set (eh := msg_handle m) in *. pose proof (hi_process _ _ Hi _ _ Hp) as Hprep.
  unfold process_msg. fold (msg_handle m). fold eh. change (reqs_map_ _) with (with_curl h) at 1. rewrite Hp. cbn [mbind option_bind].
  assert (Herr : ~ msg_went_well m -> forall e, exists r, ht_req (call_error_func e p) h = Some (ht_set_reqs r h) /\ only_calls (ht_reqs h) r).
  { intros Hbad e. destruct Hfunc as [|(f & u & Hf)]; [done|]. unfold ht_req, call_error_func. rewrite Hf. by eexists. }
  match goal with |- context [?o ≫= _] => assert (H1 : exists n1 r, o = Some (n1, ht_set_reqs r h) /\ only_calls (ht_reqs h) r) end.
  { destruct m as [eh' code|eh']; [destruct (negb _) eqn:Ecode|].
    - destruct (Herr (proj1 (Z.eqb_neq _ _) (proj1 (negb_true_iff _) Ecode)) code) as (r & -> & Hr). by exists n, r.
    - exists (n + 1), (ht_reqs h). by rewrite set_reqs_same.
    - destruct (Herr id (-1)) as (r & -> & Hr). by exists n, r. }
  destruct H1 as (n1 & r & -> & Hr). cbn [mbind option_bind]. apply (inv_only_calls _ _ r) in Hi as Hi1; [|done]. clear Hi Herr Hfunc. destruct Hr as (_ & Hr & _).
  set (h1 := ht_set_reqs r h) in *. assert (Hw : with_curl h1 = with_curl h) by done. change r with (ht_reqs h1) in Hr. rewrite <- Hw, <- Hr in *.
  clearbody h1. clear h Hr Hw Hprep.
  pose proof (hi_process _ _ Hi1 _ _ Hp) as Hprep. unfold pr_removeReq. rewrite (proj2 (Z.eqb_neq eh NULL)) by apply Hprep.
  change (reqs_map_ (processor_ (ht_mgr h1))) with (with_curl h1). rewrite Hp, Hrem. cbn [negb].
  pose proof (hi_count _ _ Hi1) as Hcount. assert (Hsize : size (with_curl h1) <> 0%nat) by (apply map_size_ne_0_lookup; by eexists _, _).
  rewrite (proj2 (Z.ltb_lt 0 _)) by lia. set (x := pr_set_reqs _ _ _). cbn [pr_mgr x pr_set_reqs]. rewrite (hi_mgr _ _ Hi1).
  destruct (req_close_prepared _ _ _ Hprep) as (r' & E & R1 & R2 & R3 & R4). unfold freeReq, ht_req. cbn [ht_reqs ht_set_processor]. rewrite E.
  cbn [mbind option_bind]. do 2 eexists. exists p. split; [reflexivity|].
  split; [|split; [done|split; [done|intros q Hq; cbn; by rewrite R4, lookup_insert_ne]]].
  assert (Hperm : in_process h1 ≡ₚ p :: in_process (ht_set_processor x h1)) by (by eapply in_process_delete).
  assert (Hpall : p ∈ all) by (eapply inv_member; [exact Hi1|]; right; right; left; apply in_process_elem; by eexists).
  assert (Hnd : p ∉ listed h1).
  { pose proof (inv_nodup _ _ Hi1) as Hnd. rewrite Hperm in Hnd. intros Hin. rewrite !NoDup_app in Hnd. destruct Hnd as (_ & _ & _ & Hd & _).
    apply (Hd p Hin). by left. }
  destruct Hi1 as [H1 H2 H3 H4 H5 H6 H7 H8 H9]. constructor; cbn [ht_set_pool ht_set_reqs ht_set_processor ht_mgr ht_reqs processor_ pool_ list_ op_free free_queue_].
  - rewrite <- H1, Hperm. change (in_process _) with (in_process (ht_set_processor x h1)). apply request_freed.
  - intros q Hq. rewrite R1, R4. split; [by apply H2|]. destruct (decide (q = p)) as [->|]; [rewrite lookup_insert_eq; by eexists|rewrite lookup_insert_ne by done; by apply H2].
  - intros q Hq. destruct (H3 q Hq) as (eh' & (P1 & P2 & P3 & P4 & P5) & Hno). exists eh'. split; [|unfold with_curl; cbn; by apply lookup_delete_None; right].
    unfold prepared. rewrite R1, R3, R4, lookup_insert_ne by (intros ->; by apply Hnd). split; [done|]. split; [|done].
    apply elem_of_difference. split; [done|]. rewrite elem_of_singleton. intros ->. rewrite Hp in Hno. discriminate.
  - intros q q' eh'. rewrite R1. apply H4.
  - unfold with_curl. cbn. intros eh' q [Hne Hq]%lookup_delete_Some. destruct (H5 _ _ Hq) as (P1 & P2 & P3 & P4 & P5).
    assert (q <> p) by (intros ->; destruct Hprep as (P0 & _); congruence).
    unfold prepared. rewrite R1, R3, R4, lookup_insert_ne by done. split; [done|]. split; [|done]. apply elem_of_difference. split; [done|]. by rewrite elem_of_singleton.
  - unfold with_curl. cbn. rewrite map_size_delete_Some by by eexists. fold (with_curl h1). lia.
  - cbn. lia.
  - destruct H8 as (hd & Hh & Hm). exists hd. cbn. by rewrite R2.
  - done.
Qed.

Lemma process_msgs_defined lost rem l : forall n h, http_inv lost h -> (forall eh, rem eh = true) -> Forall (msg_allowed h) l ->
  NoDup (msg_handle <$> l) -> exists n' h', process_msgs rem l n h = Some (n', h') /\ http_inv lost h'.
Proof using Hall.
  induction l as [|m l IH]; intros n h Hi Hrem Hl Hnd; cbn [process_msgs]; [by exists n, h|]. apply Forall_cons in Hl as [Hm Hl]. apply NoDup_cons in Hnd as [Hnot Hnd].
  destruct (process_msg_defined _ _ m n h Hi Hrem Hm) as (n1 & h1 & p & -> & Hi1 & Hw & Hp & Hf). cbn [mbind option_bind]. apply IH; [done|done| |done].
  rewrite Forall_forall in *. intros m' Hm'. eapply msg_allowed_delete; [exact Hi|exact Hp| |exact (Hl m' Hm')|exact Hw|exact Hf].
  intros He. apply Hnot. rewrite <- He. by apply list_elem_of_fmap_2.
Qed.

(** ** A turn of the loop *)

Lemma set_list_same h : ht_set_list (listed h) h = h.
Proof using. by destruct h as [[]]. Qed.

(** A request that leaves the list because curl refused it. *)
Lemma inv_dropped lost h p l : http_inv lost h -> listed h = p :: l -> http_inv (p :: lost) (ht_set_list l h).
Proof using.
  clear Hall. intros [H1 H2 H3 H4 H5 H6 H7 H8 H9] Hl. rewrite Hl in *. constructor; cbn [ht_set_list ht_mgr ht_reqs processor_ pool_ list_ listed]; try done.
  - rewrite <- H1. unfold free_requests. cbn. apply Permutation_app_head. rewrite <- (Permutation_middle (in_process _)), <- Permutation_middle. done.
  - intros q Hq. apply H3. by right.
  - intros q q' eh Hq Hq'. apply H4; by right.
Qed.

Lemma inv_added lost h p l eh : http_inv lost h -> listed h = p :: l -> prepared (ht_reqs h) p eh -> with_curl h !! eh = None ->
  curr_nprocess_ (processor_ (ht_mgr h)) < max_nprocess_ (processor_ (ht_mgr h)) ->
  http_inv lost (ht_set_processor (pr_set_reqs (curr_nprocess_ (processor_ (ht_mgr h)) + 1) (<[eh := p]> (with_curl h)) (processor_ (ht_mgr h))) (ht_set_list l h)).
Proof using Hall.
  intros Hi Hl Hp Hno Hlt. pose proof (inv_nodup _ _ Hi) as Hnd. destruct Hi as [H1 H2 H3 H4 H5 H6 H7 H8 H9]. rewrite Hl in *.
  assert (Hpl : p ∉ l). { rewrite !NoDup_app in Hnd. destruct Hnd as (_ & _ & Hnd & _). by apply NoDup_cons in Hnd as [? _]. }
  constructor; cbn [ht_set_list ht_set_processor ht_mgr ht_reqs processor_ pool_ list_ listed]; try done.
  - rewrite <- H1. unfold free_requests. cbn. apply Permutation_app_head. unfold in_process, with_curl. cbn. rewrite map_to_list_insert by done. cbn.
    by rewrite <- Permutation_middle.
  - intros q Hq. destruct (H3 q) as (eh' & P & N); [by right|]. exists eh'. split; [done|]. unfold with_curl. cbn. rewrite lookup_insert_ne; [done|].
    intros <-. apply Hpl. rewrite (H4 p q eh); [done|by left|by right|apply Hp|apply P].
  - intros q q' eh' Hq Hq'. apply H4; by right.
  - unfold with_curl. cbn. intros eh' q [[<- <-]|[_ Hq]]%lookup_insert_Some; [done|by apply H5].
  - unfold with_curl. cbn. rewrite map_size_insert_None by done. unfold with_curl in H6. lia.
  - cbn. lia.
Qed.

Lemma fill_defined add l : forall lost h, http_inv lost h -> listed h = l -> exists b h' lost', fill_processor add l h = Some (b, h') /\
  http_inv lost' h' /\ length lost' = (length lost + if b then 1 else 0)%nat.
Proof using Hall.
  induction l as [|p l IH]; intros lost h Hi Hl; cbn [fill_processor]; destruct (checkMaxProcess _) eqn:Hmax; try (exists false, h, lost; cbn; split; [done|]; split; [done|lia]).
  apply Z.leb_gt in Hmax. destruct (hi_listed _ _ Hi p) as (eh & Hp & Hno); [rewrite Hl; by left|]. destruct (hi_handle _ _ Hi) as (hd & Hhd & Hm).
  assert (Hpall : p ∈ all) by (eapply inv_member; [exact Hi|]; right; left; rewrite Hl; by left).
  assert (Hkey : with_curl h !! p = None). { apply eq_None_not_Some. intros [q Hq]. apply (hi_process _ _ Hi) in Hq as (_ & _ & _ & Hq & _). done. }
  unfold pr_addReq. cbn [ht_set_list ht_mgr ht_reqs processor_]. rewrite Hhd. change (reqs_map_ (processor_ (ht_mgr h))) with (with_curl h). rewrite Hkey.
  unfold checkMaxProcess. rewrite (proj2 (Z.leb_gt _ _)) by done. destruct Hp as (Ho & Hp). rewrite Ho. cbn [mbind option_bind].
  rewrite bool_decide_true by done. cbn [ub_unless mbind option_bind]. destruct (add eh); cbn [negb mbind option_bind].
  - unfold map_insert_new. rewrite Hno. match goal with |- context [fill_processor _ _ ?h2] => set (h1 := h2) end.
    destruct (IH lost h1) as (b & h' & lost' & E & Hi' & Hlen); [by apply inv_added|done|]. by exists b, h', lost'.
  - exists true. do 2 eexists. split; [reflexivity|]. split; [|instantiate (1 := p :: lost); cbn; lia].
    pose proof (inv_dropped _ _ _ _ Hi Hl) as Hi'. by destruct h as [[]].
Qed.

Lemma turn_defined lost a h : http_inv lost h -> http_allowed (http_turn a) h -> exists h' lost', http_exec (http_turn a) h = Some h' /\
  http_inv lost' h' /\ length lost' = (length lost + refused (http_turn a) h)%nat.
Proof using Hall.
  intros Hi Ha. cbn [http_exec refused http_allowed] in *. destruct (fill_defined (an_add a) _ lost h Hi eq_refl) as (b & h1 & lost1 & E & Hi1 & Hlen).
  unfold listed in E. unfold one_loop. rewrite E. cbn [mbind option_bind]. rewrite <- Hlen. destruct (Ha b h1 E) as [A1 A2 A3 A4 A5 A6].
  unfold waitResponse. destruct (hi_handle _ _ Hi1) as (hd & -> & Hm). rewrite bool_decide_true by done. cbn [ub_unless mbind option_bind].
  destruct (perform_defined _ _ _ Hi1 A1) as (r & -> & Hr). cbn [mbind option_bind]. apply (inv_only_calls _ _ r) in Hi1 as Hi2; [|done].
  destruct (wait_loop_defined _ (an_waits a) (pf_running (an_first a)) (pf_running (an_first a)) 0 _ Hi2 A3) as (res & r2 & -> & Hr2); [eapply Forall_impl; [exact A2|]; intros t Ht; by apply writes_only_calls|].
  cbn [mbind option_bind]. rewrite set_reqs_twice in *. apply (inv_only_calls _ _ r2) in Hi2 as Hi3; [|done]. rewrite set_reqs_twice in Hi3.
  assert (Hlost : length lost1 = length lost1) by done.
  destruct res as [numfds|]; [|eexists; exists lost1; by split].
  destruct (0 <? numfds); [|eexists; exists lost1; by split].
  destruct (process_msgs_defined _ _ (an_msgs a) 0 _ Hi3 A6) as (n & h3 & -> & Hi4);
    [eapply Forall_impl; [exact A4|]; intros m Hm'; apply (msg_only_calls m r2 (ht_set_reqs r h1)), msg_only_calls; done|exact A5|]. eexists. exists lost1. by split.
Qed.

(** ** A request of the program *)

Lemma setopt_defined eh o r : eh ∈ rq_easy r -> exists r', curl_easy_setopt eh o r = Some r' /\ only_calls r r'.
Proof using. intros He. unfold curl_easy_setopt. rewrite bool_decide_true by done. by eexists. Qed.

Definition sets_options (set : ptr -> Requests -> option Requests) : Prop := forall p eh r,
  rq_objs r !! p = Some (Some eh) -> eh ∈ rq_easy r -> exists r', set p r = Some r' /\ only_calls r r'.

Lemma set_option_sets o : sets_options (set_option o).
Proof using. intros p eh r Ho He. unfold set_option. rewrite Ho. cbn. by apply setopt_defined. Qed.

Lemma sets_options_seq f g : sets_options f -> sets_options g -> sets_options (fun p r => r ← f p r; g p r).
Proof using.
  intros Hf Hg p eh r Ho He. destruct (Hf p eh r Ho He) as (r1 & -> & H1). cbn [mbind option_bind]. pose proof H1 as (E1 & _ & E3 & _).
  destruct (Hg p eh r1) as (r2 & -> & H2); [by rewrite E1|by rewrite E3|]. exists r2. split; [done|]. by eapply only_calls_trans.
Qed.

Lemma inv_unused lost h p q r : http_inv lost h -> free_requests h = p :: q -> only_calls (rq_set_objs (<[p := None]> (rq_objs (ht_reqs h))) (ht_reqs h)) r ->
  http_inv (p :: lost) (ht_set_reqs r (ht_set_pool (mkObjPool (op_max_size (pool_ (ht_mgr h))) q) h)).
Proof using Hall.
  intros Hi Hq (E1 & E2 & E3 & E4). pose proof (inv_nodup _ _ Hi) as Hnd. destruct Hi as [H1 H2 H3 H4 H5 H6 H7 H8 H9]. rewrite Hq in *. cbn [app] in *. apply NoDup_cons in Hnd as [Hp _].
  assert (Hne : forall x, x ∈ listed h \/ x ∈ in_process h -> x <> p) by (intros x Hx ->; apply Hp; set_solver).
  assert (Hprep : forall x eh, x <> p -> prepared (ht_reqs h) x eh -> prepared r x eh).
  { intros x eh Hx (P1 & P2 & P3 & P4 & P5). unfold prepared. rewrite E1, E2, E3. cbn. by rewrite lookup_insert_ne. }
  constructor; cbn [ht_set_pool ht_set_reqs ht_mgr ht_reqs processor_ pool_ list_ free_queue_ free_requests]; try done.
  - rewrite <- H1. cbn. change (q ++ listed h ++ in_process h ++ p :: lost ≡ₚ p :: q ++ listed h ++ in_process h ++ lost). by rewrite <- !Permutation_middle.
  - intros x Hx. rewrite E1, E2. cbn. split; [|by apply H2]. destruct (decide (x = p)) as [->|]; [rewrite lookup_insert_eq; by eexists|rewrite lookup_insert_ne by done; by apply H2].
  - intros x Hx. destruct (H3 x Hx) as (eh & P & N). exists eh. split; [|done]. apply Hprep; [by apply Hne; left|done].
  - intros x y eh Hx Hy. rewrite E1. cbn. rewrite !lookup_insert_ne by (apply not_eq_sym, Hne; by left). by apply H4.
  - intros eh x Hx. apply Hprep; [|by apply H5]. apply Hne. right. apply in_process_elem. by eexists.
  - destruct H8 as (hd & Hh & Hm). exists hd. by rewrite E4.
Qed.

Lemma inv_requested lost h p q eh cb u r : http_inv lost h -> free_requests h = p :: q -> eh <> NULL -> eh ∉ rq_easy (ht_reqs h) -> rq_objs (ht_reqs h) !! eh = None ->
  rq_objs r = <[p := Some eh]> (rq_objs (ht_reqs h)) -> rq_easy r = {[eh]} ∪ rq_easy (ht_reqs h) -> rq_multi r = rq_multi (ht_reqs h) ->
  eh2func_map_ r = <[p := mkCallback cb u]> (eh2func_map_ (ht_reqs h)) ->
  http_inv lost (ht_set_list (listed h ++ [p]) (ht_set_reqs r (ht_set_pool (mkObjPool (op_max_size (pool_ (ht_mgr h))) q) h))).
Proof using Hall.
  intros Hi Hq Hnull Hnew Hno E1 E3 E4 E2. pose proof (inv_nodup _ _ Hi) as Hnd. destruct Hi as [H1 H2 H3 H4 H5 H6 H7 H8 H9]. rewrite Hq in *. cbn [app] in *. apply NoDup_cons in Hnd as [Hp _].
  assert (Hne : forall x, x ∈ listed h \/ x ∈ in_process h -> x <> p) by (intros x Hx ->; apply Hp; set_solver).
  assert (Hpall : p ∈ all) by (rewrite <- H1; by left). assert (Heh : eh ∉ all) by (intros Hin; destruct (H2 _ Hin) as [[x Hx] _]; congruence).
  assert (Hprep : forall x eh', x <> p -> prepared (ht_reqs h) x eh' -> prepared r x eh').
  { intros x eh' Hx (P1 & P2 & P3 & P4 & P5). unfold prepared. rewrite E1, E2, E3. rewrite !lookup_insert_ne by done. split; [done|]. split; [set_solver|done]. }
  assert (Hpp : prepared r p eh). { unfold prepared. rewrite E1, E2, E3, !lookup_insert_eq. split; [done|]. split; [set_solver|]. split; [done|]. split; [done|]. by eexists. }
  assert (Hother : forall x, x ∈ listed h -> rq_objs (ht_reqs h) !! x <> Some (Some eh)).
  { intros x Hx Hxe. destruct (H3 x Hx) as (eh' & (P1 & P2 & _) & _). congruence. }
  assert (Hw : with_curl h !! eh = None). { apply eq_None_not_Some. intros [x Hx]. destruct (H5 _ _ Hx) as (_ & P2 & _). done. }
  constructor; cbn [ht_set_pool ht_set_reqs ht_set_list ht_mgr ht_reqs processor_ pool_ list_ free_queue_ free_requests]; try done.
  - rewrite <- H1. cbn. change (q ++ (listed h ++ [p]) ++ in_process h ++ lost ≡ₚ p :: q ++ listed h ++ in_process h ++ lost).
    rewrite <- (app_assoc (listed h)). cbn [app]. by rewrite <- !Permutation_middle.
  - intros x Hx. rewrite E1, E2. destruct (decide (x = p)) as [->|]; [rewrite !lookup_insert_eq; split; by eexists|rewrite !lookup_insert_ne by done; by apply H2].
  - unfold listed. cbn. fold (listed h). intros x [Hx| ->%list_elem_of_singleton]%elem_of_app; [|by exists eh].
    destruct (H3 x Hx) as (eh' & P & N). exists eh'. split; [|done]. apply Hprep; [by apply Hne; left|done].
  - unfold listed at 1 2. cbn. fold (listed h). intros x y eh'. rewrite E1.
    intros [Hx| ->%list_elem_of_singleton]%elem_of_app [Hy| ->%list_elem_of_singleton]%elem_of_app; rewrite ?lookup_insert_eq; try done.
    + rewrite !lookup_insert_ne by (apply not_eq_sym, Hne; by left). by apply H4.
    + rewrite lookup_insert_ne by (apply not_eq_sym, Hne; by left). intros P [= <-]. by apply Hother in P.
    + rewrite lookup_insert_ne by (apply not_eq_sym, Hne; by left). intros [= <-] P. by apply Hother in P.
  - intros eh' x Hx. apply Hprep; [|by apply H5]. apply Hne. right. apply in_process_elem. by eexists.
  - destruct H8 as (hd & Hh & Hm). exists hd. by rewrite E4.
Qed.

Lemma newReq_some easy h p q : free_requests h = p :: q -> newReq easy h =
  ('(ok, r) ← req_init easy p (ht_reqs h); Some (if ok : bool then Some p else None, ht_set_reqs r (ht_set_pool (mkObjPool (op_max_size (pool_ (ht_mgr h))) q) h))).
Proof using. intros Hq. unfold newReq, op_malloc. unfold free_requests in Hq. by rewrite Hq. Qed.

Lemma req_init_defined eh p r : is_Some (rq_objs r !! p) -> exists r', req_init (Some eh) p r = Some (true, r') /\
  only_calls (rq_set_easy ({[eh]} ∪ rq_easy r) (rq_set_objs (<[p := Some eh]> (rq_objs r)) r)) r'.
Proof using.
  clear all Hall. intros [x Hx]. unfold req_init. rewrite Hx. cbn [mbind option_bind]. unfold curl_easy_setopt.
  cbn [rq_easy rq_set_easy rq_set_objs rq_add_option]. repeat (rewrite bool_decide_true by set_solver; cbn [ub_unless mbind option_bind rq_easy rq_add_option rq_set_easy rq_set_objs]).
  eexists. split; [reflexivity|]. done.
Qed.

Lemma send_defined lost set easy url cb param h : sets_options set -> http_inv lost h -> request_allowed easy h ->
  exists z h' lost', send_request set easy url cb param h = Some (z, h') /\ http_inv lost' h' /\
    length lost' = (length lost + match easy with None => if hasReq h then 1 else 0 | Some _ => 0 end)%nat /\
    (z = 1 <-> hasReq h = true /\ is_Some easy).
Proof using Hall.
  intros Hset Hi Hnew. unfold send_request, hasReq, op_notEmpty. destruct (free_requests h) as [|p q] eqn:Hq; unfold free_requests in Hq.
  - rewrite Hq. unfold newReq, op_malloc. rewrite Hq. cbn [mbind option_bind]. exists 0, h, lost. split; [by destruct h as [[]]|]. split; [done|].
    split; [destruct easy; lia|]. split; [done|by intros []].
  - rewrite Hq. rewrite (newReq_some _ _ _ _ Hq). assert (Hpall : p ∈ all) by (eapply inv_member; [exact Hi|]; left; unfold free_requests; rewrite Hq; by left).
    destruct (hi_objs _ _ Hi _ Hpall) as [Ho [d Hd]]. destruct easy as [eh|].
    + destruct (Hnew eh eq_refl) as (N1 & N2 & N3). destruct (req_init_defined eh _ _ Ho) as (r1 & -> & O1 & O2 & O3 & O4). cbn in O1, O2, O3, O4. cbn [mbind option_bind].
      assert (P1 : rq_objs r1 !! p = Some (Some eh)) by (rewrite O1; apply lookup_insert_eq). assert (P2 : eh ∈ rq_easy r1) by (rewrite O3; set_solver).
      unfold ht_req, setUrl. cbn [ht_reqs ht_set_reqs]. destruct (set_option_sets (CURLOPT_URL url) p eh r1 P1 P2) as (r2 & E2 & U1 & U2 & U3 & U4).
      rewrite E2. cbn [mbind option_bind ht_reqs ht_set_reqs].
      destruct (Hset p eh r2) as (r3 & -> & V1 & V2 & V3 & V4); [by rewrite U1|by rewrite U3|]. cbn [mbind option_bind ht_reqs ht_set_reqs].
      unfold setRespWriteFunc, set_resp_func. rewrite V2, U2, O2, Hd. cbn [hm_addReq ol_push negb]. do 2 eexists. exists lost. split; [reflexivity|].
      split; [|split; [lia|by split]]. rewrite !set_reqs_twice. cbn [ht_mgr ht_set_reqs].
      eapply (inv_requested lost h p q eh cb param); [exact Hi|exact Hq|exact N1|exact N2|exact N3|..]; cbn [rq_objs rq_easy rq_multi eh2func_map_ rq_set_map]; congruence.
    + unfold req_init. destruct Ho as [x Hx]. rewrite Hx. cbn [mbind option_bind]. do 2 eexists. exists (p :: lost). split; [reflexivity|].
      split; [eapply inv_unused; [exact Hi|exact Hq|done]|]. split; [cbn; lia|]. split; [done|by intros [_ []]].
Qed.

Lemma http_exec_defined lost o h : http_inv lost h -> http_allowed o h -> exists h' lost', http_exec o h = Some h' /\
  http_inv lost' h' /\ length lost' = (length lost + refused o h)%nat.
Proof using Hall.
  intros Hi Ha. destruct o as [easy url cb param|easy url content cb param|a]; [..|by apply turn_defined]; cbn [http_exec refused http_allowed] in *.
  - unfold hm_get. edestruct (send_defined lost (setGet true)) as (z & h' & lost' & E & Hi' & Hl & _); [apply set_option_sets|exact Hi|exact Ha|].
    rewrite E. exists h', lost'. split; [done|]. split; [done|]. by destruct easy.
  - unfold hm_post. edestruct (send_defined lost (fun p r => r ← setPost true p r; setPostContent content p r)) as (z & h' & lost' & E & Hi' & Hl & _);
      [apply (sets_options_seq (setPost true) (setPostContent content)); apply set_option_sets|exact Hi|exact Ha|].
    rewrite E. exists h', lost'. split; [done|]. split; [done|]. by destruct easy.
Qed.

Lemma http_run_defined os : forall lost h, http_inv lost h -> http_run_allowed os h -> exists h' lost', http_run os h = Some h' /\
  http_inv lost' h' /\ length lost' = (length lost + refusals os h)%nat.
Proof using Hall.
  induction os as [|o os IH]; intros lost h Hi Ha; cbn [http_run refusals]; [exists h, lost; split; [done|]; split; [done|lia]|]. destruct Ha as [Ha Hos].
  destruct (http_exec_defined _ _ _ Hi Ha) as (h1 & lost1 & E & Hi1 & Hl). rewrite E. cbn [mbind option_bind].
  destruct (IH lost1 h1 Hi1 (Hos _ E)) as (h2 & lost2 & E2 & Hi2 & Hl2). exists h2, lost2. split; [done|]. split; [done|]. lia.
Qed.
End http.

(** ** The start *)

Record pool_filled (q : list ptr) (r : Requests) : Prop := mkFilled {
  pf_nodup : NoDup q;
  pf_objs : forall p, p ∈ q <-> is_Some (rq_objs r !! p);
  pf_map : forall p, p ∈ q -> is_Some (eh2func_map_ r !! p);
}.

Lemma op_fill_spec n : forall q r, pool_filled q r -> let '(q', r') := op_fill n q r in
  pool_filled q' r' /\ length q' = (length q + n)%nat /\ rq_multi r' = rq_multi r.
Proof.
  induction n as [|n IH]; intros q r Hf; cbn [op_fill]; [split; [done|]; split; [lia|done]|]. set (p := fresh_ptr (rq_objs r)).
  assert (Hp : p ∉ q) by (rewrite (pf_objs _ _ Hf); unfold p; rewrite fresh_ptr_fresh; by intros []).
  match goal with |- context [op_fill n ?q1 ?r1] => specialize (IH q1 r1); destruct (op_fill n q1 r1) as [q' r'] end.
  destruct IH as (H1 & H2 & H3).
  - destruct Hf as [F1 F2 F3]. constructor.
    + apply NoDup_app. split; [done|]. split; [|apply NoDup_singleton]. intros x Hx ->%list_elem_of_singleton. done.
    + intros x. cbn. rewrite elem_of_app, list_elem_of_singleton, F2. destruct (decide (x = p)) as [->|Hne]; [rewrite lookup_insert_eq; split; [by eexists|by right]|].
      rewrite lookup_insert_ne by done. tauto.
    + intros x [Hx| ->%list_elem_of_singleton]%elem_of_app; cbn; unfold map_insert_new.
      * destruct (F3 x Hx) as [d Hd]. destruct (eh2func_map_ r !! p); [by eexists|]. destruct (decide (x = p)) as [->|]; [done|]. rewrite lookup_insert_ne by done. by eexists.
      * destruct (eh2func_map_ r !! p) eqn:E; [by eexists|]. rewrite lookup_insert_eq. by eexists.
  - split; [done|]. rewrite length_app in H2. cbn in H2. split; [lia|done].
Qed.

Lemma hm_init_inv multi n h0 : hm_init (Some multi) n (mkHttp HttpRequestMgr_new Requests_new) = (true, h0) ->
  NoDup (free_requests h0) /\ lenZ (free_requests h0) = (if n <=? 0 then DEFAULT_MAX_REQUEST_COUNT else n) /\ http_inv (free_requests h0) [] h0.
Proof.
  unfold hm_init. cbn [pr_init ht_mgr ht_reqs HttpRequestMgr_new processor_ negb]. set (k := if n <=? 0 then _ else n).
  assert (Hk : 0 < k) by (unfold k; destruct (Z.leb_spec n 0); [by vm_compute|lia]). clearbody k. unfold op_init. rewrite (proj2 (Z.leb_gt _ _)) by lia.
  cbn [ht_set_processor ht_set_reqs ht_mgr ht_reqs pool_ ThreadSafeObjPool_new free_queue_]. set (r0 := rq_set_multi _ _).
  pose proof (op_fill_spec (Z.to_nat k) [] r0) as Hf. destruct (op_fill _ _ _) as [q r]. intros [= <-].
  destruct Hf as ([F1 F2 F3] & Hl & Hm).
  { constructor; [by apply NoDup_nil|..]; intros p; cbn; [split; [by intros ?%elem_of_nil|by intros []]|by intros ?%elem_of_nil]. }
  unfold free_requests at 1 2 3. cbn. split; [done|]. cbn in Hl. split; [rewrite Hl; lia|].
  constructor; unfold listed, in_process, with_curl; cbn; try done.
  - unfold free_requests. cbn. by rewrite map_to_list_empty, app_nil_r.
  - intros p Hp. split; [by apply F2|by apply F3].
  - intros p Hp. by apply elem_of_nil in Hp.
  - intros p x eh Hp. by apply elem_of_nil in Hp.
  - exists multi. split; [done|]. rewrite Hm. cbn. set_solver.
Qed.

(** C39.  No request is lost unless curl refuses it.  Programs ask for addresses, with or without a function to be called,
    while the loop of the manager turns.  Curl may refuse to make or to take a handle and may fail a transfer at any time;
    it behaves as it is documented: a new handle is one that nothing has, it writes to and reports only handles that it
    was given, reports each at most once in a turn, can remove each that it was given, and the loop that waits for it
    ends.  Data and failures arrive only for requests that have a function: for one without, they are undefined
    ([response_without_function] below), and it may only end well with nothing written.  Then nothing is undefined, and no handle
    is used or cleaned up twice; each of the requests that [init] made is in the pool, in the list or with curl, or it is
    one of those that are lost for good, and of these there are exactly as many as the times curl refused to make or to
    take a handle; curl never has more than 2000 at a time. *)
Theorem requests_conserved multi n h0 os :
  hm_init (Some multi) n (mkHttp HttpRequestMgr_new Requests_new) = (true, h0) -> http_run_allowed os h0 ->
  exists h lost, http_run os h0 = Some h /\
    free_requests h ++ listed h ++ in_process h ++ lost ≡ₚ free_requests h0 /\
    NoDup (free_requests h0) /\ lenZ (free_requests h0) = (if n <=? 0 then DEFAULT_MAX_REQUEST_COUNT else n) /\
    length lost = refusals os h0 /\
    curr_nprocess_ (processor_ (ht_mgr h)) = lenZ (in_process h) /\ lenZ (in_process h) <= DEFAULT_MAX_PROCESS_COUNT.
Proof.
  intros E Ha. destruct (hm_init_inv _ _ _ E) as (Hnd & Hn & Hi). destruct (http_run_defined _ Hnd os [] h0 Hi Ha) as (h & lost & Er & Hi' & Hl).
  exists h, lost. split; [done|]. split; [by apply (hi_all _ _ _ Hi')|]. split; [done|]. split; [done|]. split; [done|].
  destruct (hi_max _ _ _ Hi') as [H1 H2]. rewrite H2, (hi_count _ _ _ Hi') in H1. rewrite (hi_count _ _ _ Hi').
  assert (length (in_process h) = size (with_curl h)) as -> by (unfold in_process; by rewrite length_fmap, length_map_to_list). by split.
Qed.

(** ** Closing *)

Lemma op_clear_empty o r : free_queue_ o = [] -> op_clear o r = (o, r).
Proof. intros Ho. destruct o as [k q]. cbn in Ho. subst q. reflexivity. Qed.

(** The manager cannot be closed twice, as its destructor does after a call of [close]: the handle of curl is cleaned
    up again. *)
Lemma close_twice_undefined h h1 : hm_close h = Some h1 -> handle_ (processor_ (ht_mgr h)) <> None -> hm_close h1 = None.
Proof.
  unfold hm_close. destruct (op_clear _ _) as [o r] eqn:Eo. intros E Hh. cbn [ht_set_pool ht_set_reqs ht_mgr ht_reqs processor_] in E.
  destruct (handle_ (processor_ (ht_mgr h))) as [hd|] eqn:Ehd; [|done]. unfold pr_close in E at 1. rewrite Ehd in E.
  apply bind_Some in E as (r1 & E1 & E). apply bind_Some in E1 as ([] & _ & [= <-]). apply bind_Some in E as (h2 & E2 & [= <-]).
  assert (H2 : processor_ (ht_mgr h2) = processor_ (ht_mgr h) /\ free_queue_ (pool_ (ht_mgr h2)) = [] /\ hd ∉ rq_multi (ht_reqs h2)).
  { assert (Ho : free_queue_ o = []) by (unfold op_clear in Eo; by injection Eo as <- _).
    unfold thread_join in E2. destruct (use_thread_ _); [apply bind_Some in E2 as ([] & _ & [= <-])|injection E2 as <-]; cbn; (split; [done|]; split; [done|set_solver]). }
  destruct H2 as (P1 & P2 & P3). cbn [ht_set_thread ht_mgr ht_reqs pool_ processor_]. rewrite op_clear_empty by done. cbn [ht_set_thread ht_set_pool ht_set_reqs ht_mgr ht_reqs pool_ processor_].
  unfold pr_close. rewrite P1, Ehd, bool_decide_false by done. reflexivity.
Qed.

(** ** Requests without a function

    Whatever arrives for a request that was made without a function to be called, calling it is undefined. *)
Lemma response_without_function set eh url param h h' p q data code :
  sets_options set -> free_requests h = p :: q -> is_Some (rq_objs (ht_reqs h) !! p) -> is_Some (eh2func_map_ (ht_reqs h) !! p) ->
  send_request set (Some eh) url None param h = Some (1, h') ->
  default_resp_write_func data code p (ht_reqs h') = None /\ call_error_func code p (ht_reqs h') = None.
Proof.
  intros Hset Hq Ho [d Hd] E. unfold send_request in E. rewrite (newReq_some _ _ _ _ Hq) in E.
  destruct (req_init_defined eh _ _ Ho) as (r1 & E1 & O1 & O2 & O3 & O4). rewrite E1 in E. cbn in O1, O2, O3, O4. cbn [mbind option_bind] in E.
  assert (P1 : rq_objs r1 !! p = Some (Some eh)) by (rewrite O1; apply lookup_insert_eq). assert (P2 : eh ∈ rq_easy r1) by (rewrite O3; set_solver).
  unfold ht_req, setUrl in E. cbn [ht_reqs ht_set_reqs] in E. destruct (set_option_sets (CURLOPT_URL url) p eh r1 P1 P2) as (r2 & E2 & U1 & U2 & U3 & U4).
  rewrite E2 in E. cbn [mbind option_bind ht_reqs ht_set_reqs] in E.
  destruct (Hset p eh r2) as (r3 & E3 & V1 & V2 & V3 & V4); [by rewrite U1|by rewrite U3|]. rewrite E3 in E. cbn [mbind option_bind ht_reqs ht_set_reqs] in E.
  unfold setRespWriteFunc, set_resp_func in E. rewrite V2, U2, O2, Hd in E. cbn [hm_addReq ol_push negb] in E. injection E as <-.
  unfold default_resp_write_func, default_resp_func, call_error_func. cbn [ht_set_list ht_set_reqs ht_reqs rq_set_map rq_objs eh2func_map_].
  rewrite V1, U1, P1, lookup_insert_eq. by split.
Qed.

(** ** Example

    Three requests: the first one is answered, curl has no handle for the second one, and the third one, which has no
    function, ends well with nothing written. *)

Definition ex_http : Http := snd (hm_init (Some 900) 3 (mkHttp HttpRequestMgr_new Requests_new)).
Definition ex_answers : CurlAnswers :=
  mkAnswers (fun _ => true) (mkPerform [(1, [72; 105], 200)] 1) [(true, 1, mkPerform [] 0)] [msg_done 902 0; msg_done 901 0] (fun _ => true).
Definition ex_http_ops : list http_op := [http_get (Some 901) [104] (Some 7) 0; http_get None [104] (Some 7) 0; http_get (Some 902) [104] None 0; http_turn ex_answers].

Lemma ex_http_allowed : http_run_allowed ex_http_ops ex_http.
Proof.
  split; [intros eh [= <-]; split; [done|split; [apply (bool_decide_unpack _); vm_compute; exact I|reflexivity]]|]. intros h1 E1. vm_compute in E1. injection E1 as <-.
  split; [done|]. intros h2 E2. vm_compute in E2. injection E2 as <-.
  split; [intros eh [= <-]; split; [done|split; [apply (bool_decide_unpack _); vm_compute; exact I|reflexivity]]|]. intros h3 E3. vm_compute in E3. injection E3 as <-.
  split; [|done]. intros b h4 E4. vm_compute in E4. injection E4 as _ <-. constructor.
  - constructor; [split; [apply (bool_decide_unpack _); vm_compute; exact I|by eexists _, _]|constructor].
  - repeat constructor.
  - reflexivity.
  - constructor; [eexists; split; [reflexivity|by left]|]. constructor; [eexists; split; [reflexivity|by left]|constructor].
  - apply (bool_decide_unpack _). vm_compute. exact I.
  - done.
Qed.

Lemma requests_conserved_witness : exists h lost, http_run ex_http_ops ex_http = Some h /\
  free_requests h ++ listed h ++ in_process h ++ lost ≡ₚ [1; 2; 3] /\ length lost = 1%nat.
Proof.
  destruct (requests_conserved 900 3 ex_http ex_http_ops eq_refl ex_http_allowed) as (h & lost & E & Hp & _ & _ & Hl & _).
  exists h, lost. split; [exact E|]. split; [exact Hp|]. rewrite Hl. reflexivity.
Defined.
