(* ===== verification/HttpPostLog.v ===== *)
(** * Posting logs ([curl/http_postlog_mgr.*])

    A program fills in a log, which is kept as a record until it is posted through a manager of requests of its own.  The
    JSON writer, the digest and the clock are parameters. *)
From S2P Require Import Prelude Text HttpRequests HttpProps.
From Stdlib Require Import ZArith Lia.
From stdpp Require Import base option list gmap strings.
Local Open Scope Z_scope.

(** The values that a log holds; an object of the JSON library is a map. *)
Inductive LogValue : Type := log_int (v : Z) | log_string (s : text).
Abbreviation LogObject := (gmap (list Z) LogValue).

Record PostLogRecord : Type := mkPostLog { pr_operation : text; pr_value : LogObject }.
Record PostLogData : Type := mkPostData { pd_key : text; pd_value : text }.

(** [std::string] compares characters as [unsigned char]. *)
Fixpoint string_lt (a b : text) : bool :=
  match a, b with
  | _, [] => false
  | [], _ :: _ => true
  | x :: a, y :: b => let x := x mod 256 in let y := y mod 256 in if x <? y then true else if y <? x then false else string_lt a b
  end.

(** [std::set<PostLogData, CmpPostLogData>], in its order. *)
Definition pd_equal (d e : PostLogData) : bool := negb (string_lt (pd_key d) (pd_key e)) && negb (string_lt (pd_key e) (pd_key d)).
Fixpoint pd_insert (d : PostLogData) (l : list PostLogData) : list PostLogData :=
  match l with
  | [] => [d]
  | e :: l' => if string_lt (pd_key d) (pd_key e) then d :: l else if string_lt (pd_key e) (pd_key d) then e :: pd_insert d l' else l
  end.
Definition pd_erase (d : PostLogData) (l : list PostLogData) : list PostLogData := List.filter (fun e => negb (pd_equal d e)) l.

Definition DEFAULT_POST_COUNT_ONCE : Z := 128.

Record HttpPostLogMgr : Type := mkPostLogMgr {
  push_data_ : list PostLogData;
  record_list_ : list PostLogRecord;
  current_json_ : LogObject;
  request_mgr_ : Http;
  max_log_size_ : Z;
  post_url_ : text;
  post_count_once_ : Z;
}.
Definition HttpPostLogMgr_new : HttpPostLogMgr := mkPostLogMgr [] [] ∅ (mkHttp HttpRequestMgr_new Requests_new) 0 [] DEFAULT_POST_COUNT_ONCE.

Definition pl_set_data (l : list PostLogData) (j : LogObject) (p : HttpPostLogMgr) : HttpPostLogMgr :=
  mkPostLogMgr l (record_list_ p) j (request_mgr_ p) (max_log_size_ p) (post_url_ p) (post_count_once_ p).
Definition pl_set_records (l : list PostLogRecord) (p : HttpPostLogMgr) : HttpPostLogMgr :=
  mkPostLogMgr (push_data_ p) l (current_json_ p) (request_mgr_ p) (max_log_size_ p) (post_url_ p) (post_count_once_ p).
Definition pl_set_http (h : Http) (p : HttpPostLogMgr) : HttpPostLogMgr :=
  mkPostLogMgr (push_data_ p) (record_list_ p) (current_json_ p) h (max_log_size_ p) (post_url_ p) (post_count_once_ p).

Definition pl_init (multi : option ptr) (max_log_size : Z) (p : HttpPostLogMgr) : bool * HttpPostLogMgr :=
  let n := if max_log_size <=? 0 then 5000 else max_log_size in
  let '(b, h) := hm_init multi n (request_mgr_ p) in
  (b, mkPostLogMgr (push_data_ p) (record_list_ p) (current_json_ p) h n (post_url_ p) (post_count_once_ p)).
Definition pl_clear (p : HttpPostLogMgr) : option HttpPostLogMgr := h ← hm_close (request_mgr_ p); Some (pl_set_http h p).

(** [at] of an empty text throws. *)
Definition pl_setUrl (url : text) (p : HttpPostLogMgr) : option HttpPostLogMgr :=
  c ← last url;
  Some (mkPostLogMgr (push_data_ p) (record_list_ p) (current_json_ p) (request_mgr_ p) (max_log_size_ p) (if c =? 47 then url else url ++ chars "/") (post_count_once_ p)).
Definition setPostCountOnce (count : Z) (p : HttpPostLogMgr) : HttpPostLogMgr :=
  let count := if count <=? 0 then DEFAULT_POST_COUNT_ONCE else if max_log_size_ p <? count then u16 (max_log_size_ p) else count in
  mkPostLogMgr (push_data_ p) (record_list_ p) (current_json_ p) (request_mgr_ p) (max_log_size_ p) (post_url_ p) count.

(** ** Filling in a log *)

Definition insertLogData (key value : text) (p : HttpPostLogMgr) : HttpPostLogMgr :=
  let d := mkPostData key value in
  pl_set_data (pd_insert d (if existsb (pd_equal d) (push_data_ p) then pd_erase d (push_data_ p) else push_data_ p)) (current_json_ p) p.
Definition set_value (key : text) (v : LogValue) (p : HttpPostLogMgr) : HttpPostLogMgr := pl_set_data (push_data_ p) (<[key := v]> (current_json_ p)) p.

(** A null key is [None]. *)
Definition pushLogData (key : option text) (value : text) (p : HttpPostLogMgr) : HttpPostLogMgr :=
  match key with None => p | Some key => insertLogData key value (set_value key (log_string value) p) end.
Definition pushLogData_string (key : option text) (value : text) (p : HttpPostLogMgr) : HttpPostLogMgr :=
  match key with None => p | Some key => insertLogData key (c_str value) (set_value key (log_string value) p) end.
Definition pushLogData_int (key : option text) (value : Z) (p : HttpPostLogMgr) : HttpPostLogMgr :=
  match key with None => p | Some key => insertLogData key (print_signed value) (set_value key (log_int value) p) end.
Definition pushLogDataAsString (key : option text) (value : Z) (p : HttpPostLogMgr) : HttpPostLogMgr :=
  match key with None => p | Some k => pushLogData_string key (print_signed value) (set_value k (log_int value) p) end.
Definition pushLogData_time (key : option text) (value : Z) (p : HttpPostLogMgr) : HttpPostLogMgr :=
  match key with None => p | Some key => insertLogData key (print_signed (s32 value)) (set_value key (log_int (s32 value)) p) end.

(** [std::tm]: years since 1900, months since January. *)
Record tm : Type := mkTm { tm_year : Z; tm_mon : Z; tm_mday : Z; tm_hour : Z; tm_min : Z; tm_yday : Z }.
Definition pushDate (ct : tm) (p : HttpPostLogMgr) : HttpPostLogMgr :=
  let p := pushLogData_int (Some (chars "log_ymd")) (tm_year ct * 10000 + tm_mon ct * 100 + tm_mday ct) p in
  let p := pushLogData_int (Some (chars "log_ym")) (tm_year ct * 100 + tm_mon ct) p in
  let p := pushLogData_int (Some (chars "year")) (tm_year ct) p in
  let p := pushLogData_int (Some (chars "month")) (tm_mon ct) p in
  let p := pushLogData_int (Some (chars "day")) (tm_mday ct) p in
  let p := pushLogData_int (Some (chars "hour")) (tm_hour ct) p in
  let p := pushLogData_int (Some (chars "minute")) (tm_min ct) p in
  pushLogData_int (Some (chars "week")) (Z.quot (tm_yday ct + 6) 7) p.

Definition pl_begin (ct : tm) (p : HttpPostLogMgr) : HttpPostLogMgr := pushDate ct (pl_set_data [] ∅ p).

Section log.
Variable md5_string : text -> text.
Variable write : LogObject -> text.

(** The values in the order of their keys. *)
Definition val_str (p : HttpPostLogMgr) : text := foldl (fun s d => s ++ pd_value d) [] (push_data_ p).
Definition ended_json (p : HttpPostLogMgr) : LogObject := <[chars "md5data" := log_string (md5_string (c_str (val_str p)))]> (current_json_ p).
Definition pl_end (operation : text) (p : HttpPostLogMgr) : HttpPostLogMgr :=
  let p := pl_set_data (push_data_ p) (ended_json p) p in
  pl_set_records (record_list_ p ++ [mkPostLog operation (current_json_ p)]) p.

(** ** Posting

    [easy i] is what curl answers when the record [i] needs a handle.  The loop gives the last result, how many records
    were posted, and whether it returned -1. *)
Fixpoint post_loop (easy : nat -> option ptr) (l : list PostLogRecord) (i : nat) (c res : Z) (p : HttpPostLogMgr) : option (bool * Z * Z * HttpPostLogMgr) :=
  match l with
  | [] => Some (false, c, res, p)
  | r :: l =>
    '(res, h) ← hm_post (easy i) (c_str (post_url_ p ++ pr_operation r)) (c_str (write (pr_value r))) None NULL (request_mgr_ p);
    let p := pl_set_http h p in
    if res <? 0 then Some (true, c, res, p) else
    if res =? 0 then Some (false, c, res, p) else
    let c := s16 (c + 1) in
    if post_count_once_ p <=? c then Some (false, c, res, p) else post_loop easy l (S i) c res p
  end.

Definition pl_run (easy : nat -> option ptr) (p : HttpPostLogMgr) : option (Z * HttpPostLogMgr) :=
  match post_url_ p with
  | [] => Some (0, p)
  | _ =>
    '(failed, c, res, p) ← post_loop easy (record_list_ p) 0 0 0 p;
    if failed : bool then Some (-1, p) else Some (res, pl_set_records (drop (Z.to_nat c) (record_list_ p)) p)
  end.
End log.

(** ** What becomes of the logs

    Records are given to the manager of requests once each and in order, but its loop is never run: none is sent. *)

(** The contents that curl was given. *)
Definition posted (r : Requests) : list text := omap (fun o => match snd o with CURLOPT_POSTFIELDS c => Some c | _ => None end) (rq_options r).

(** Everything is as it was but the pool, the list and the options. *)
Record quiet (h h' : Http) : Prop := mkQuiet {
  qu_processor : processor_ (ht_mgr h') = processor_ (ht_mgr h);
  qu_calls : rq_calls (ht_reqs h') = rq_calls (ht_reqs h);
}.

Lemma quiet_trans h1 h2 h3 : quiet h1 h2 -> quiet h2 h3 -> quiet h1 h3.
Proof. intros [] []. split; congruence. Qed.

Lemma posted_option eh o r : posted (rq_add_option eh o r) = posted r ++ match o with CURLOPT_POSTFIELDS c => [c] | _ => [] end.
Proof. unfold posted. cbn [rq_options rq_add_option]. rewrite omap_app. f_equal. by destruct o. Qed.

Lemma setopt_calls eh o r r' : curl_easy_setopt eh o r = Some r' -> r' = rq_add_option eh o r.
Proof. unfold curl_easy_setopt. intros E. by apply bind_Some in E as ([] & _ & [= <-]). Qed.

Lemma req_init_posted easy p r ok r' : req_init easy p r = Some (ok, r') -> posted r' = posted r /\ rq_calls r' = rq_calls r /\
  ok = bool_decide (is_Some easy) /\ rq_objs r' !! p = Some easy.
Proof.
  unfold req_init. intros E. apply bind_Some in E as (x & _ & E). destruct easy as [eh|].
  - do 5 (apply bind_Some in E as (? & ?%setopt_calls & E)). injection E as <- <-. subst. rewrite !posted_option, !app_nil_r. split; [done|]. split; [done|].
    split; [done|]. cbn. apply lookup_insert_eq.
  - injection E as <- <-. split; [done|]. split; [done|]. split; [done|]. cbn. apply lookup_insert_eq.
Qed.

Lemma set_option_posted o p r r' eh : rq_objs r !! p = Some (Some eh) -> set_option o p r = Some r' -> r' = rq_add_option eh o r.
Proof. unfold set_option. intros -> E. cbn in E. by apply setopt_calls in E. Qed.

(** One post: it is given a request, or nothing was done. *)
Lemma post_spec easy url content cb param h z h' : hm_post easy url content cb param h = Some (z, h') ->
  quiet h h' /\
  ((z = 1 /\ posted (ht_reqs h') = posted (ht_reqs h) ++ [content] /\ exists p, listed h' = listed h ++ [p] /\ free_requests h = p :: free_requests h') \/
   (z = 0 /\ posted (ht_reqs h') = posted (ht_reqs h) /\ listed h' = listed h /\ free_requests h' = tail (free_requests h))).
Proof.
  unfold hm_post, send_request. intros E. destruct (free_requests h) as [|p q] eqn:Hq.
  - unfold newReq, op_malloc in E. unfold free_requests in Hq. rewrite Hq in E. injection E as <- <-.
    split; [done|]. right. split; [done|]. split; [done|]. split; [done|]. exact Hq.
  - rewrite (newReq_some _ _ _ _ Hq) in E. apply bind_Some in E as ([o h1] & E1 & E). apply bind_Some in E1 as ([ok r1] & E1 & [= <- <-]).
    apply req_init_posted in E1 as (P1 & C1 & -> & O1). destruct easy as [eh|]; cbn in E.
    + unfold ht_req in E. apply bind_Some in E as (h2 & E2 & E). apply bind_Some in E2 as (r2 & E2 & [= <-]). eapply set_option_posted in E2; [|exact O1]. subst r2.
      apply bind_Some in E as (h3 & E3 & E). apply bind_Some in E3 as (r3 & E3 & [= <-]). apply bind_Some in E3 as (r4 & E4 & E3). cbn in E3, E4.
      eapply set_option_posted in E4; [|exact O1]. subst r4. eapply set_option_posted in E3; [|exact O1]. subst r3.
      injection E as <- <-. assert (Hr : forall r f u p, posted (set_resp_func f u p r) = posted r /\ rq_calls (set_resp_func f u p r) = rq_calls r).
      { intros r f u p0. unfold set_resp_func. destruct (eh2func_map_ r !! p0); split; reflexivity. }
      unfold setRespWriteFunc. split; [split; cbn; [done|]; rewrite (proj2 (Hr _ _ _ _)); done|]. left. split; [done|]. cbn [ht_reqs ht_set_list ht_set_reqs].
      rewrite (proj1 (Hr _ _ _ _)), !posted_option, !app_nil_r, P1. split; [done|]. by exists p.
    + injection E as <- <-. split; [done|]. right. done.
Qed.

(** The loop posts the first [k] records. *)
Lemma post_loop_spec write easy l : forall i c res p failed c' res' p', post_count_once_ p < 2 ^ 15 -> 0 <= c < Z.max 1 (post_count_once_ p) ->
  post_loop write easy l i c res p = Some (failed, c', res', p') ->
  failed = false /\ exists k, c' = c + Z.of_nat k /\ (k <= length l)%nat /\ quiet (request_mgr_ p) (request_mgr_ p') /\ p' = pl_set_http (request_mgr_ p') p /\
    posted (ht_reqs (request_mgr_ p')) = posted (ht_reqs (request_mgr_ p)) ++ ((fun r => c_str (write (pr_value r))) <$> take k l) /\
    exists ps, listed (request_mgr_ p') = listed (request_mgr_ p) ++ ps /\ length ps = k /\
      (length ps + length (free_requests (request_mgr_ p')) <= length (free_requests (request_mgr_ p)))%nat.
Proof.
  induction l as [|r l IH]; intros i c res p failed c' res' p' Hn Hc E; cbn [post_loop] in E.
  - injection E as <- <- <- <-. split; [done|]. exists 0%nat. split; [lia|]. split; [lia|]. split; [done|]. split; [by destruct p|]. cbn. rewrite app_nil_r.
    split; [done|]. exists []. rewrite app_nil_r. split; [done|]. split; [done|]. cbn. lia.
  - apply bind_Some in E as ([z h] & E1 & E). apply post_spec in E1 as (Q1 & [(-> & P1 & x & L1 & F1)|(-> & P1 & L1 & F1)]).
    + change (1 <? 0) with false in E. change (1 =? 0) with false in E. cbn iota in E. cbn [pl_set_http post_count_once_] in E.
      assert (Hs : s16 (c + 1) = c + 1) by (unfold s16; rewrite Z.mod_small by lia; lia). rewrite Hs in E.
      destruct (Z.leb_spec (post_count_once_ p) (c + 1)).
      * injection E as <- <- <- <-. split; [done|]. exists 1%nat. split; [lia|]. split; [cbn; lia|]. split; [exact Q1|]. split; [done|].
        cbn [pl_set_http request_mgr_ take fmap list_fmap]. rewrite P1, L1, F1. split; [done|]. exists [x]. split; [done|]. split; [done|]. cbn. lia.
      * apply IH in E as (-> & k & -> & Hk & Q2 & -> & P2 & ps & L2 & <- & F2); [|done|cbn; lia]. cbn [pl_set_http request_mgr_] in *.
        split; [done|]. exists (S (length ps)). split; [lia|]. split; [cbn; lia|]. split; [by eapply quiet_trans|]. split; [done|].
        rewrite P2, P1, <- app_assoc. split; [done|]. exists (x :: ps). rewrite L2, L1, <- app_assoc. split; [done|]. split; [done|]. rewrite F1. cbn in *. lia.
    + change (0 <? 0) with false in E. change (0 =? 0) with true in E. cbn iota in E. injection E as <- <- <- <-. split; [done|].
      exists 0%nat. split; [lia|]. split; [lia|]. split; [exact Q1|]. split; [done|]. cbn [pl_set_http request_mgr_ take fmap list_fmap]. rewrite P1, L1, app_nil_r.
      split; [done|]. exists []. rewrite app_nil_r. split; [done|]. split; [done|]. rewrite F1. cbn [length]. clear. destruct (free_requests (request_mgr_ p)); cbn; lia.
Qed.

Lemma op_fill_quiet n : forall q r, rq_calls (snd (op_fill n q r)) = rq_calls r /\ posted (snd (op_fill n q r)) = posted r.
Proof. induction n as [|n IH]; intros q r; cbn [op_fill]; [done|]. match goal with |- context [op_fill n ?a ?b] => destruct (IH a b) as [-> ->] end. done. Qed.

Lemma init_quiet multi n h : hm_init (Some multi) n (mkHttp HttpRequestMgr_new Requests_new) = (true, h) ->
  listed h = [] /\ with_curl h = ∅ /\ rq_calls (ht_reqs h) = [] /\ posted (ht_reqs h) = [].
Proof.
  unfold hm_init. cbn [pr_init ht_mgr ht_reqs HttpRequestMgr_new processor_ negb]. unfold op_init. destruct (_ <=? 0); [by intros [=]|].
  cbn [ht_set_processor ht_set_reqs ht_mgr ht_reqs pool_ ThreadSafeObjPool_new free_queue_].
  match goal with |- context [op_fill ?k ?q ?r] => pose proof (op_fill_quiet k q r) as [H1 H2]; destruct (op_fill k q r) as [q' r'] end. intros [= <-]. cbn in H1, H2. done.
Qed.

(** ** Runs of the log manager *)

Section log.
Variable md5_string : text -> text.
Variable write : LogObject -> text.

Inductive pl_op : Type :=
| plo_begin (ct : tm) | plo_push (key : option text) (value : text) | plo_push_string (key : option text) (value : text) | plo_push_int (key : option text) (value : Z)
| plo_push_as_string (key : option text) (value : Z) | plo_push_time (key : option text) (value : Z)
| plo_end (operation : text) | plo_url (url : text) | plo_count (count : Z) | plo_run (easy : nat -> option ptr).

Definition pl_exec (o : pl_op) (p : HttpPostLogMgr) : option HttpPostLogMgr :=
  match o with
  | plo_begin ct => Some (pl_begin ct p)
  | plo_push key value => Some (pushLogData key value p)
  | plo_push_string key value => Some (pushLogData_string key value p)
  | plo_push_int key value => Some (pushLogData_int key value p)
  | plo_push_as_string key value => Some (pushLogDataAsString key value p)
  | plo_push_time key value => Some (pushLogData_time key value p)
  | plo_end operation => Some (pl_end md5_string operation p)
  | plo_url url => pl_setUrl url p
  | plo_count count => Some (setPostCountOnce count p)
  | plo_run easy => '(_, p) ← pl_run write easy p; Some p
  end.
Fixpoint pl_exec_all (os : list pl_op) (p : HttpPostLogMgr) : option HttpPostLogMgr :=
  match os with [] => Some p | o :: os => p ← pl_exec o p; pl_exec_all os p end.

(** The logs that the program ended, as texts. *)
Fixpoint ended_logs (os : list pl_op) (p : HttpPostLogMgr) : list text :=
  match os with
  | [] => []
  | o :: os => (match o with plo_end _ => [c_str (write (ended_json md5_string p))] | _ => [] end) ++
               match pl_exec o p with Some p => ended_logs os p | None => [] end
  end.

(** The count is not above what [int16_t] can count. *)
Definition count_fits (o : pl_op) : Prop := match o with plo_count count => 0 <= count < 2 ^ 15 | _ => True end.

Definition waiting (p : HttpPostLogMgr) : list text := (fun r => c_str (write (pr_value r))) <$> record_list_ p.

Record log_inv (n : nat) (p : HttpPostLogMgr) : Prop := mkLogInv {
  lv_count : 0 <= post_count_once_ p < 2 ^ 15;
  lv_max : 0 < max_log_size_ p;
  lv_posted : length (listed (request_mgr_ p)) = length (posted (ht_reqs (request_mgr_ p)));
  lv_room : (length (listed (request_mgr_ p)) + length (free_requests (request_mgr_ p)) <= n)%nat;
  lv_process : with_curl (request_mgr_ p) = ∅;
  lv_calls : rq_calls (ht_reqs (request_mgr_ p)) = [];
}.

(** Filling in a log. *)
Record fills (p p' : HttpPostLogMgr) : Prop := mkFills {
  fl_records : record_list_ p' = record_list_ p;
  fl_http : request_mgr_ p' = request_mgr_ p;
  fl_count : post_count_once_ p' = post_count_once_ p;
  fl_max : max_log_size_ p' = max_log_size_ p;
}.

Lemma insert_fills key value p : fills p (insertLogData key value p).
Proof using. done. Qed.
Lemma push_fills key value p : fills p (pushLogData key value p).
Proof using. by destruct key. Qed.
Lemma push_int_fills key value p : fills p (pushLogData_int key value p).
Proof using. by destruct key. Qed.
Lemma fills_trans p1 p2 p3 : fills p1 p2 -> fills p2 p3 -> fills p1 p3.
Proof using. intros [] []. split; congruence. Qed.

Lemma begin_fills ct p : fills p (pl_begin ct p).
Proof using. unfold pl_begin, pushDate. repeat (eapply fills_trans; [|apply push_int_fills]). done. Qed.

Lemma fills_keeps n p p' : fills p p' -> log_inv n p -> log_inv n p' /\ posted (ht_reqs (request_mgr_ p')) ++ waiting p' = posted (ht_reqs (request_mgr_ p)) ++ waiting p.
Proof using. intros [F1 F2 F3 F4] [H1 H0 H2 H3 H4 H5]. unfold waiting. rewrite F1, F2. split; [|done]. by constructor; rewrite ?F2, ?F3, ?F4. Qed.

Lemma pl_exec_keeps n o p p' : log_inv n p -> count_fits o -> pl_exec o p = Some p' -> log_inv n p' /\
  posted (ht_reqs (request_mgr_ p')) ++ waiting p' =
  (posted (ht_reqs (request_mgr_ p)) ++ waiting p) ++ match o with plo_end _ => [c_str (write (ended_json md5_string p))] | _ => [] end.
Proof using.
  intros Hi Ho E. destruct o as [ct|key value|key value|key value|key value|key value|operation|url|count|easy]; cbn [pl_exec] in E;
    try (injection E as <-; rewrite app_nil_r; apply fills_keeps; [|exact Hi]; first [apply begin_fills|apply push_fills|apply push_int_fills|by destruct key]).
  - injection E as <-. unfold waiting, pl_end. cbn [pl_set_records pl_set_data record_list_ request_mgr_]. rewrite fmap_app. split; [by destruct Hi|]. rewrite <- app_assoc. done.
  - rewrite app_nil_r. unfold pl_setUrl in E. apply bind_Some in E as (c & _ & [= <-]). by apply fills_keeps.
  - rewrite app_nil_r. injection E as <-. split; [|done]. destruct Hi as [H1 H0 H2 H3 H4 H5]. constructor; cbn; try done.
    cbn in Ho. destruct (count <=? 0); [unfold DEFAULT_POST_COUNT_ONCE; lia|]. destruct (Z.ltb_spec (max_log_size_ p) count); [|lia].
    unfold u16. rewrite Z.mod_small by lia. lia.
  - rewrite app_nil_r. apply bind_Some in E as ([z p1] & E & [= <-]). unfold pl_run in E. destruct (post_url_ p); [by injection E as _ <-|].
    apply bind_Some in E as ([[[failed c] res] p2] & E & E2). destruct Hi as [H1 H0 H2 H3 H4 H5].
    apply post_loop_spec in E as (-> & k & -> & Hk & [Q1 Q2] & Ep & P & ps & L & Hps & F); [|lia|lia]. injection E2 as _ <-. rewrite Z.add_0_l, Nat2Z.id.
    rewrite Ep. unfold waiting. cbn [pl_set_http pl_set_records record_list_ request_mgr_]. rewrite P, <- app_assoc, fmap_drop, fmap_take, take_drop. split; [|done].
    constructor; cbn [pl_set_http pl_set_records post_count_once_ max_log_size_ request_mgr_]; try done.
    + rewrite L, P, !length_app, length_fmap, length_take. lia.
    + rewrite L, length_app. lia.
    + unfold with_curl. by rewrite Q1.
    + by rewrite Q2.
Qed.

Lemma pl_exec_all_keeps n os : forall p p', log_inv n p -> Forall count_fits os -> pl_exec_all os p = Some p' -> log_inv n p' /\
  posted (ht_reqs (request_mgr_ p')) ++ waiting p' = (posted (ht_reqs (request_mgr_ p)) ++ waiting p) ++ ended_logs os p.
Proof using.
  induction os as [|o os IH]; intros p p' Hi Ho E; cbn [pl_exec_all ended_logs] in *; [injection E as <-; by rewrite app_nil_r|].
  apply Forall_cons in Ho as [Ho Hos]. apply bind_Some in E as (p1 & E1 & E). destruct (pl_exec_keeps _ _ _ _ Hi Ho E1) as [Hi1 H1].
  destruct (IH _ _ Hi1 Hos E) as [Hi2 H2]. split; [done|]. rewrite H2, H1, E1, !app_assoc. done.
Qed.

(** No log is ever sent.  In every run of the log manager, whatever is filled in, ended and posted: the logs that were given
    to the manager of requests, followed by the records that wait, are the logs that were ended, in that order and each
    once; but all that were given stay in the list of the manager, curl never has one, and when as many
    were given as the manager was made for, the others wait for ever. *)
Theorem logs_never_sent multi max p0 os p :
  pl_init (Some multi) max HttpPostLogMgr_new = (true, p0) -> Forall count_fits os -> pl_exec_all os p0 = Some p ->
  posted (ht_reqs (request_mgr_ p)) ++ waiting p = ended_logs os p0 /\
  length (posted (ht_reqs (request_mgr_ p))) = length (listed (request_mgr_ p)) /\
  in_process (request_mgr_ p) = [] /\ rq_calls (ht_reqs (request_mgr_ p)) = [] /\
  lenZ (posted (ht_reqs (request_mgr_ p))) <= (if max <=? 0 then 5000 else max).
Proof using.
  intros E Ho Er. unfold pl_init in E. set (n := if max <=? 0 then 5000 else max) in *. assert (Hn : 0 < n) by (unfold n; destruct (Z.leb_spec max 0); lia). clearbody n.
  destruct (hm_init (Some multi) n (request_mgr_ HttpPostLogMgr_new)) as [b h] eqn:Eh. injection E as -> <-.
  destruct (hm_init_inv _ _ _ Eh) as (_ & Hl & Hi). rewrite (proj2 (Z.leb_gt _ _)) in Hl by lia.
  assert (Hq : listed h = [] /\ with_curl h = ∅ /\ rq_calls (ht_reqs h) = [] /\ posted (ht_reqs h) = []) by (eapply init_quiet; exact Eh).
  destruct Hq as (Q1 & Q2 & Q3 & Q4). set (p0 := mkPostLogMgr _ _ _ _ _ _ _) in *.
  destruct (pl_exec_all_keeps (Z.to_nat n) os p0 p) as [[_ _ H2 H3 H4 H5] H6]; [|done|done|].
  { constructor; cbn [p0 post_count_once_ max_log_size_ request_mgr_]; [by vm_compute|done|by rewrite Q1, Q4|rewrite Q1; cbn; lia|done|done]. }
  split; [rewrite H6; cbn [p0 request_mgr_]; rewrite Q4; done|]. split; [done|]. split; [unfold in_process; by rewrite H4|]. split; [done|]. lia.
Qed.
End log.

(** ** Example

    A manager made for one log, and two logs. *)

Definition ex_write (j : LogObject) : text := match j !! chars "id" with Some (log_int v) => print_signed v | _ => [] end.
Definition ex_log_ops : list pl_op :=
  [plo_url (chars "http://log"); plo_begin (mkTm 117 4 20 10 30 139); plo_push_int (Some (chars "id")) 7; plo_end (chars "login");
   plo_begin (mkTm 117 4 20 10 31 139); plo_push_int (Some (chars "id")) 8; plo_end (chars "login"); plo_run (fun i => Some (901 + Z.of_nat i))].
Abbreviation ex_log_start := (snd (pl_init (Some 900) 1 HttpPostLogMgr_new)).

Lemma logs_never_sent_witness : exists p, pl_exec_all (fun t => t) ex_write ex_log_ops ex_log_start = Some p /\
  posted (ht_reqs (request_mgr_ p)) ++ waiting ex_write p = [chars "7"; chars "8"] /\ lenZ (posted (ht_reqs (request_mgr_ p))) <= 1.
Proof.
  destruct (pl_exec_all (fun t => t) ex_write ex_log_ops ex_log_start) as [p|] eqn:E; [|vm_compute in E; discriminate E].
  destruct (logs_never_sent (fun t => t) ex_write 900 1 ex_log_start ex_log_ops p eq_refl ltac:(repeat constructor) E) as (H1 & _ & _ & _ & H2).
  exists p. split; [reflexivity|]. split; [|exact H2]. rewrite H1. vm_compute. reflexivity.
Defined.
