(* ===== verification/TcpClients.v ===== *)
(** * Groups of TCP clients ([libjmy/jmy_tcp_clients.*])

    One object opens many connections to one address.  The connections, their buffers and the handler are those of
    [ConnectionMgr], [ConnBuffer] and [DataHandler2]; no connection is given an event handler. *)
From S2P Require Import Prelude Datatype NetProto2 SessionBuffer BufferPool IdGenerator BufferList DoubleBuffer DataHandler2 EventHandler ConnBuffer Connection ConnectionMgr TcpServer.
From Stdlib Require Import ZArith Lia.
From stdpp Require Import base option list gmap sorting.
Local Open Scope Z_scope.

Definition JMY_TCP_CLIENTS_MAX_COUNT : Z := 5000.

Section clients.
Context {App : Type}.
Notation W := (World App).

(** The address is used as it is; [max_conn] is unsigned. *)
Record JmyClientsConfig : Type := mkClientsConfig {
  ccs_handlers : option (list (Z * jmy_msg_handler W));
  ccs_buff_conf : JmyBufferConfig;
  ccs_max_conn : Z;
}.

Record JmyTcpClients : Type := mkTcpClients {
  jc_max_count : Z;
  jc_used_ids : gset Z;
  jc_free_ids : list Z;
  jc_conf : option JmyClientsConfig;
  jc_mgr : JmyTcpConnectionMgr;
  jc_socks : gmap Z Socket;          (** the socket of each connection *)
  jc_bufs : gmap Z nat;              (** the buffer each connection holds *)
  jc_buffer_mgr : JmyConnectionBufferMgr;
  jc_id_gen : JmyIdGenerator;
  jc_handler : JmyDataHandler2 W;
  jc_pool : JmySessionBufferPool;
  jc_heap : heap;
  jc_app : App;
}.

(** [max_id_] and [min_id_] of the generator are 0 and 1. *)
Definition JmyTcpClients_new (max_count : Z) (h : heap) (app : App) : JmyTcpClients :=
  mkTcpClients max_count ∅ [] None JmyTcpConnectionMgr_new ∅ ∅ JmyConnectionBufferMgr_new (JmyIdGenerator_new 0 1) JmyDataHandler2_new
    JmySessionBufferPool_new h app.

Definition jc_set_ids (used : gset Z) (free : list Z) (s : JmyTcpClients) : JmyTcpClients :=
  mkTcpClients (jc_max_count s) used free (jc_conf s) (jc_mgr s) (jc_socks s) (jc_bufs s) (jc_buffer_mgr s) (jc_id_gen s) (jc_handler s) (jc_pool s) (jc_heap s) (jc_app s).
Definition jc_set_conns (m : JmyTcpConnectionMgr) (bufs : gmap Z nat) (bm : JmyConnectionBufferMgr) (g : JmyIdGenerator) (s : JmyTcpClients) : JmyTcpClients :=
  mkTcpClients (jc_max_count s) (jc_used_ids s) (jc_free_ids s) (jc_conf s) m (jc_socks s) bufs bm g (jc_handler s) (jc_pool s) (jc_heap s) (jc_app s).
Definition jc_set_mem (h : heap) (P : JmySessionBufferPool) (s : JmyTcpClients) : JmyTcpClients :=
  mkTcpClients (jc_max_count s) (jc_used_ids s) (jc_free_ids s) (jc_conf s) (jc_mgr s) (jc_socks s) (jc_bufs s) (jc_buffer_mgr s) (jc_id_gen s) (jc_handler s) P h (jc_app s).

(** ** A connection's own part of the state *)

Definition jc_world (s : JmyTcpClients) (p : ptr) : option W :=
  c ← cm_objs (jc_mgr s) !! p;
  b ← match jc_bufs s !! p with None => Some None | Some i => b ← conn_buff_vec_ (jc_buffer_mgr s) !! i; Some (Some b) end;
  Some (mkWorld (c_set_buffer b c) (default closed_socket (jc_socks s !! p)) (jc_heap s) (jc_pool s) (unpack_data_ (jc_handler s)) (jc_app s)).

Definition jc_put (s : JmyTcpClients) (p : ptr) (w : W) : JmyTcpClients :=
  let vec := conn_buff_vec_ (jc_buffer_mgr s) in
  let vec := match jc_bufs s !! p, buffer_ (w_conn w) with Some i, Some b => <[i := b]> vec | _, _ => vec end in
  mkTcpClients (jc_max_count s) (jc_used_ids s) (jc_free_ids s) (jc_conf s) (cm_set_objs (<[p := w_conn w]> (cm_objs (jc_mgr s))) (jc_mgr s))
    (<[p := w_sock w]> (jc_socks s)) (jc_bufs s) (cbm_set_vec vec (jc_buffer_mgr s)) (jc_id_gen s) (dh2_set_unpack (w_unpack w) (jc_handler s))
    (w_pool w) (w_heap w) (w_app w).

Definition jc_on {A} (s : JmyTcpClients) (p : ptr) (f : W -> option (A * W)) : option (A * JmyTcpClients) :=
  w ← jc_world s p; '(r, w) ← f w; Some (r, jc_put s p w).

(** ** Operations

    [mgr] is the address of the connection manager, [garbage n] the content of a new block. *)
Variable mgr : Z.
Variable garbage : Z -> list Z.

Definition jc_close (s : JmyTcpClients) : JmyTcpClients := jc_set_ids ∅ [] s.
Definition jc_destroy (s : JmyTcpClients) : JmyTcpClients :=
  let s := jc_close s in
  mkTcpClients 0 (jc_used_ids s) (jc_free_ids s) (jc_conf s) (jc_mgr s) (jc_socks s) (jc_bufs s) (jc_buffer_mgr s) (jc_id_gen s) (jc_handler s) (jc_pool s) (jc_heap s) (jc_app s).
Definition jc_reset (s : JmyTcpClients) : JmyTcpClients := s.

Definition jc_loadConfig (conf : JmyClientsConfig) (s : JmyTcpClients) : bool * JmyTcpClients :=
  if ccs_max_conn conf <=? 0 then (false, s) else
  let m := cm_init (jc_mgr s) (s32 (ccs_max_conn conf)) JMY_CONN_TYPE_ACTIVE in
  let '(ok, H) := loadMsgHandle (jc_handler s) (ccs_handlers conf) in
  let s := mkTcpClients (jc_max_count s) (jc_used_ids s) (jc_free_ids s) (jc_conf s) m (jc_socks s) (jc_bufs s) (jc_buffer_mgr s) (jc_id_gen s) H
             (jc_pool s) (jc_heap s) (jc_app s) in
  if negb ok then (false, s) else
  let b := ccs_buff_conf conf in
  let n := s32 (u32 (2 * ccs_max_conn conf)) in
  let '(ok, h, P) := bp_init garbage (jc_heap s) (jc_pool s) n (bc_send_buff_size b) (bc_send_buff_size b) (bc_recv_buff_size b) (bc_recv_buff_size b) in
  let s := jc_set_mem h P s in
  if negb ok then (false, s) else
  let '(_, bm) := cbm_init (jc_buffer_mgr s) n in
  (true, mkTcpClients (jc_max_count s) (jc_used_ids s) (jc_free_ids s) (Some conf) (jc_mgr s) (jc_socks s) (jc_bufs s) bm (jc_id_gen s) (jc_handler s)
           (jc_pool s) (jc_heap s) (jc_app s)).

(** [setBuffer] and [setDataHandler]. *)
Definition jc_attach (p : ptr) (i : nat) (s : JmyTcpClients) : JmyTcpClients :=
  let set c := mkConn (c_id c) (conn_type_ c) (state_ c) (sending_data_ c) (buff_send_count_ c) (active_close_start_ c) true (event_handler_ c) (buffer_ c) (last_run_tick_ c) in
  jc_set_conns (cm_set_objs (alter set p (cm_objs (jc_mgr s))) (jc_mgr s)) (<[p := i]> (jc_bufs s)) (jc_buffer_mgr s) (jc_id_gen s) s.

(** A connection that can be connected, and its id; [None] in the result is a null pointer. *)
Definition jc_take (s : JmyTcpClients) : option (option (ptr * Z) * JmyTcpClients) :=
  match jc_free_ids s with
  | [] =>
    '(id, g) ← ig_get (jc_id_gen s);
    '(conn, m) ← cm_getFree (jc_mgr s) id;
    let s := jc_set_conns m (jc_bufs s) (jc_buffer_mgr s) g s in
    match conn with
    | None => Some (None, s)
    | Some p =>
      c ← cm_objs m !! p;
      let '(buffer, bm) := getOneBuffer (jc_buffer_mgr s) in
      match buffer with
      | None => Some (None, s)
      | Some i =>
        conf ← jc_conf s;
        b ← conn_buff_vec_ bm !! i;
        '(h, P, b) ← cb_init_pool (jc_heap s) (jc_pool s) b (ccs_buff_conf conf);
        let s := jc_set_mem h P (jc_set_conns (jc_mgr s) (jc_bufs s) (cbm_set_vec (<[i := b]> (conn_buff_vec_ bm)) bm) (jc_id_gen s) s) in
        Some (Some (p, c_id c), jc_attach p i s)
      end
    end
  | id :: _ =>
    match cm_get (jc_mgr s) id with
    | None => Some (None, s)
    | Some p => '(_, s) ← jc_on s p (fun w => Some (tt, set_conn conn_reset w)); Some (Some (p, id), s)
    end
  end.

(** [ok] is whether the blocking connect succeeds; the connection has no event handler that could be told. *)
Definition jc_start (ok : bool) (s : JmyTcpClients) : option (option ptr * JmyTcpClients) :=
  if jc_max_count s <=? Z.of_nat (size (jc_used_ids s)) then Some (None, s) else
  '(conn, s) ← jc_take s;
  match conn with
  | None => Some (None, s)
  | Some (p, id) =>
    '(connected, s) ← jc_on s p (connect JmyEventHandlerManager_new mgr ok);
    if negb connected then Some (None, s) else
    '(_, s) ← jc_on s p (fun w => Some (tt, start w));
    Some (Some p, jc_set_ids ({[id]} ∪ jc_used_ids s) (jc_free_ids s) s)
  end.

Definition jc_getConnection (conn_id : Z) (s : JmyTcpClients) : option ptr :=
  if decide (conn_id ∈ jc_used_ids s) then cm_get (jc_mgr s) conn_id else None.
Definition jc_getState (conn_id : Z) (s : JmyTcpClients) : option JmyConnState :=
  match jc_getConnection conn_id s with None => Some JMY_CONN_STATE_NOT_CONNECT | Some p => c ← cm_objs (jc_mgr s) !! p; Some (state_ c) end.

(** The id becomes free. *)
Definition jc_give_up (id : Z) (s : JmyTcpClients) : JmyTcpClients := jc_set_ids (jc_used_ids s ∖ {[id]}) (jc_free_ids s ++ [id]) s.

Definition jc_send (now conn_id msg_id : Z) (data : option (list Z)) (len : Z) (s : JmyTcpClients) : option (Z * JmyTcpClients) :=
  match jc_getConnection conn_id s with
  | None => Some (0, s)
  | Some p =>
    '(res, s) ← jc_on s p (send garbage msg_id data len);
    if res <? 0 then
      let s := jc_give_up conn_id s in
      '(_, s) ← jc_on s p (no_result (close garbage now));
      '(_, s) ← jc_on s p (fun w => Some (tt, set_conn conn_reset w));
      Some (res, s)
    else Some (res, s)
  end.

Definition jc_run_conn (now : Z) (p : ptr) (s : JmyTcpClients) : option (Z * JmyTcpClients) :=
  jc_on s p (run (jc_handler s) JmyEventHandlerManager_new mgr garbage now).
Definition jc_run (now conn_id : Z) (s : JmyTcpClients) : option (Z * JmyTcpClients) :=
  match jc_getConnection conn_id s with
  | None => Some (-1, s)
  | Some p => '(res, s) ← jc_run_conn now p s; Some (res, if res <? 0 then jc_give_up conn_id s else s)
  end.

(** [oks] are the results of the blocking connects; the loop ends with the first connection that is not started. *)
Fixpoint start_loop (oks : list bool) (n : nat) (c : Z) (s : JmyTcpClients) {struct n} : option (Z * JmyTcpClients) :=
  match n with
  | O => Some (c, s)
  | S n =>
    match oks with
    | [] => None
    | ok :: oks => '(conn, s) ← jc_start ok s; match conn with None => Some (c, s) | Some _ => start_loop oks n (c + 1) s end
    end
  end.
Definition startInturn (oks : list bool) (count : Z) (s : JmyTcpClients) : option (Z * JmyTcpClients) :=
  start_loop oks (Z.to_nat (if jc_max_count s <? count then jc_max_count s else count)) 0 s.

(** [std::for_each] over the ids, in their order.  It is given a copy of the function object, so that the count stays 0. *)
Fixpoint for_each_conn (f : ptr -> JmyTcpClients -> option (Z * JmyTcpClients)) (l : list Z) (s : JmyTcpClients) : option JmyTcpClients :=
  match l with
  | [] => Some s
  | id :: l => match cm_get (jc_mgr s) id with None => for_each_conn f l s | Some p => '(_, s) ← f p s; for_each_conn f l s end
  end.
Definition ids_in_order (ids : gset Z) : list Z := merge_sort Z.le (elements ids).
Definition sendInturn (msg_id : Z) (data : option (list Z)) (len : Z) (s : JmyTcpClients) : option (Z * JmyTcpClients) :=
  s ← for_each_conn (fun p s => jc_on s p (send garbage msg_id data len)) (ids_in_order (jc_used_ids s)) s; Some (0, s).
Definition runInturn (now : Z) (s : JmyTcpClients) : option (Z * JmyTcpClients) :=
  s ← for_each_conn (jc_run_conn now) (ids_in_order (jc_used_ids s)) s; Some (0, s).

End clients.
Arguments JmyClientsConfig : clear implicits.
Arguments JmyTcpClients : clear implicits.

(** ** What a group can do

    A group never has a connection: telling a connection that it is connected is undefined, as it has no event
    handler. *)

Section clients.
Context {App : Type}.
Implicit Type s : JmyTcpClients App.
Variable mgr : Z.
Variable garbage : Z -> list Z.

Inductive jc_op : Type :=
| jco_start (ok : bool) | jco_startInturn (oks : list bool) (count : Z) | jco_send (now conn_id msg_id : Z) (data : option (list Z)) (len : Z)
| jco_run (now conn_id : Z) | jco_sendInturn (msg_id : Z) (data : option (list Z)) (len : Z) | jco_runInturn (now : Z) | jco_close.

Definition jc_exec (o : jc_op) (s : JmyTcpClients App) : option (JmyTcpClients App) :=
  match o with
  | jco_start ok => '(_, s) ← jc_start mgr ok s; Some s
  | jco_startInturn oks count => '(_, s) ← startInturn mgr oks count s; Some s
  | jco_send now conn_id msg_id data len => '(_, s) ← jc_send garbage now conn_id msg_id data len s; Some s
  | jco_run now conn_id => '(_, s) ← jc_run mgr garbage now conn_id s; Some s
  | jco_sendInturn msg_id data len => '(_, s) ← sendInturn garbage msg_id data len s; Some s
  | jco_runInturn now => '(_, s) ← runInturn mgr garbage now s; Some s
  | jco_close => Some (jc_close s)
  end.
Fixpoint jc_exec_all (os : list jc_op) (s : JmyTcpClients App) : option (JmyTcpClients App) :=
  match os with [] => Some s | o :: os => s ← jc_exec o s; jc_exec_all os s end.


(** A connection that was never connected. *)
Definition untouched (c : JmyTcpConnection) : Prop :=
  event_handler_ c = false /\ conn_type_ c = JMY_CONN_TYPE_ACTIVE /\ state_ c = JMY_CONN_STATE_NOT_USE.
Record idle s : Prop := mkIdle {
  il_used : jc_used_ids s = ∅;
  il_free : jc_free_ids s = [];
  il_conns : forall p c, cm_objs (jc_mgr s) !! p = Some c -> untouched c;
}.

Lemma take_idle s conn s' : idle s -> jc_take s = Some (conn, s') -> idle s'.
Proof using.
  intros [H1 H2 H3] E. unfold jc_take in E. rewrite H2 in E. apply bind_Some in E as ([id g] & _ & E). apply bind_Some in E as ([o m] & Em & E).
  assert (Hm : forall p c, cm_objs m !! p = Some c -> untouched c).
  { unfold cm_getFree in Em. destruct (used_map_ (jc_mgr s) !! id); [by injection Em as _ <-|]. destruct (ConnectionMgr.free_list_ (jc_mgr s)) as [|q l]; [by injection Em as _ <-|].
    apply bind_Some in Em as (c & Hc & [= _ <-]). intros p x. cbn. intros [[<- <-]|[_ Hx]]%lookup_insert_Some; [by apply (H3 q c)|by apply (H3 p x)]. }
  destruct o as [p|]; [|injection E as <- <-; by constructor].
  apply bind_Some in E as (c & Hc & E). destruct (getOneBuffer _) as [[i|] bm]; [|injection E as <- <-; by constructor].
  apply bind_Some in E as (conf & _ & E). apply bind_Some in E as (b & _ & E). apply bind_Some in E as ([[h P] b'] & _ & [= <- <-]).
  constructor; [done|done|]. intros q x. cbn. intros [(-> & y & Hy & ->)|[_ Hx]]%lookup_alter_Some; [|by apply (Hm q x)]. by apply (Hm _ _ Hy).
Qed.

(** Either nothing is started, or it is undefined. *)
Lemma start_idle ok s conn s' : idle s -> jc_start mgr ok s = Some (conn, s') -> conn = None /\ idle s'.
Proof using.
  intros Hi E. unfold jc_start in E. destruct (_ <=? _); [by injection E as <- <-|]. apply bind_Some in E as ([o s1] & E1 & E).
  apply take_idle in E1 as Hi1; [|done]. destruct o as [[p id]|]; [|by injection E as <- <-].
  apply bind_Some in E as ([r s2] & E2 & E). unfold jc_on in E2. apply bind_Some in E2 as (w & Hw & E2). apply bind_Some in E2 as ([r1 w1] & Ew & [= -> <-]).
  unfold jc_world in Hw. apply bind_Some in Hw as (c & Hc & Hw). apply bind_Some in Hw as (b & _ & [= <-]). destruct Hi1 as [I1 I2 I3].
  destruct (I3 _ _ Hc) as (U1 & U2 & U3). unfold connect, ctype, state in Ew. cbn [w_conn c_set_buffer conn_type_ state_] in Ew. rewrite U2, U3 in Ew.
  rewrite bool_decide_true, bool_decide_false in Ew by done. cbn [negb] in Ew. destruct ok; cbn [negb] in Ew.
  - unfold handle_event in Ew. cbn [w_conn set_conn set_sock c_set_state c_set_buffer event_handler_] in Ew. rewrite U1 in Ew. discriminate Ew.
  - injection Ew as <- <-. cbn [negb] in E. injection E as <- <-. split; [done|]. constructor; [done|done|].
    intros q x. cbn. intros [[<- <-]|[_ Hx]]%lookup_insert_Some; [done|by apply (I3 q x)].
Qed.

Lemma start_loop_idle oks n c s z s' : idle s -> start_loop mgr oks n c s = Some (z, s') -> z = c /\ idle s'.
Proof using.
  intros Hi E. destruct n as [|n]; cbn [start_loop] in E; [by injection E as <- <-|]. destruct oks as [|ok oks]; [done|].
  apply bind_Some in E as ([conn s1] & E1 & E). apply start_idle in E1 as [-> Hi1]; [|done]. by injection E as <- <-.
Qed.

Lemma exec_idle o s s' : idle s -> jc_exec o s = Some s' -> idle s'.
Proof using.
  intros Hi E. destruct o as [ok|oks count|now id msg_id data len|now id|msg_id data len|now|]; cbn [jc_exec] in E.
  - apply bind_Some in E as ([conn s1] & E1 & [= <-]). by apply start_idle in E1 as [_ H].
  - apply bind_Some in E as ([z s1] & E1 & [= <-]). by apply start_loop_idle in E1 as [_ H].
  - unfold jc_send, jc_getConnection in E. rewrite (il_used _ Hi), decide_False in E by set_solver. by injection E as <-.
  - unfold jc_run, jc_getConnection in E. rewrite (il_used _ Hi), decide_False in E by set_solver. by injection E as <-.
  - unfold sendInturn in E. rewrite (il_used _ Hi) in E. by injection E as <-.
  - unfold runInturn in E. rewrite (il_used _ Hi) in E. by injection E as <-.
  - injection E as <-. destruct Hi as [H1 H2 H3]. by constructor.
Qed.

Lemma new_conns_untouched n objs l :
  (forall p c, objs !! p = Some c -> untouched c) -> forall p c, fst (cm_new_conns n JMY_CONN_TYPE_ACTIVE objs l) !! p = Some c -> untouched c.
Proof using.
  revert objs l. induction n as [|n IH]; intros objs l Ho; cbn [cm_new_conns]; [exact Ho|]. apply IH.
  intros p c [[_ <-]|[_ Hc]]%lookup_insert_Some; [done|by eapply Ho].
Qed.

Lemma load_idle max h app conf s : jc_loadConfig garbage conf (JmyTcpClients_new max h app) = (true, s) -> idle s.
Proof using.
  unfold jc_loadConfig. destruct (_ <=? 0); [by intros [=]|]. destruct (loadMsgHandle _ _) as [ok H]. destruct ok; cbn [negb]; [|by intros [=]].
  destruct (bp_init _ _ _ _ _ _ _ _) as [[ok h'] P]. destruct ok; cbn [negb]; [|by intros [=]]. destruct (cbm_init _ _) as [r bm]. intros [= <-].
  constructor; [done|done|]. cbn. unfold cm_init. pose proof (new_conns_untouched (Z.to_nat (s32 (ccs_max_conn conf))) (cm_objs (jc_mgr (JmyTcpClients_new max h app)))
    (ConnectionMgr.free_list_ (jc_mgr (JmyTcpClients_new max h app)))) as Hn. destruct (cm_new_conns _ _ _ _) as [objs l]. cbn in *. apply Hn. by intros p c [=].
Qed.

(** No connection of a group is ever started: in every run after the configuration was loaded, [start] gives no
    connection or is undefined, none is found under any id, and [startInturn], [sendInturn] and [runInturn] count
    none. *)
Theorem no_client_starts max h app conf s0 os s :
  jc_loadConfig garbage conf (JmyTcpClients_new max h app) = (true, s0) -> jc_exec_all os s0 = Some s ->
  (forall ok conn s', jc_start mgr ok s = Some (conn, s') -> conn = None) /\
  (forall id, jc_getConnection id s = None /\ jc_getState id s = Some JMY_CONN_STATE_NOT_CONNECT) /\
  (forall oks count z s', startInturn mgr oks count s = Some (z, s') -> z = 0) /\
  (forall now id msg_id data len, jc_send garbage now id msg_id data len s = Some (0, s) /\ jc_run mgr garbage now id s = Some (-1, s)).
Proof using.
  intros E0 E. assert (Hi : idle s).
  { apply load_idle in E0. revert s0 E0 E. induction os as [|o os IH]; intros s0 Hi E; cbn [jc_exec_all] in E; [by injection E as <-|].
    apply bind_Some in E as (s1 & E1 & E). eapply IH; [|exact E]. by eapply exec_idle. }
  assert (Hg : forall id, jc_getConnection id s = None) by (intros id; unfold jc_getConnection; rewrite (il_used _ Hi), decide_False by set_solver; done).
  split; [intros ok conn s' E1; by apply start_idle in E1 as [-> _]|]. split; [intros id; unfold jc_getState; by rewrite Hg|].
  split; [intros oks count z s' E1; by apply start_loop_idle in E1 as [-> _]|]. intros now id msg_id data len. unfold jc_send, jc_run. by rewrite Hg.
Qed.
End clients.
