(* ===== verification/Users.v ===== *)
(** * The users of the login server ([login_server/user.*])

    Users by id, and ids by account; the users are objects in a store.  The class is compiled into the login server, whose
    handlers do not use it. *)
From S2P Require Import Prelude Text Datatype AppNet.
From Stdlib Require Import ZArith Lia.
From stdpp Require Import base option list gmap.
Local Open Scope Z_scope.

Inductive UserState : Type :=
| USER_STATE_IDLE | USER_STATE_LOGINING | USER_STATE_VERIFIED | USER_STATE_ENTERING_GAME | USER_STATE_IN_GAME | USER_STATE_QUIT_GAME.
#[export] Instance UserState_eq_dec : EqDecision UserState.
Proof. solve_decision. Defined.

Record User : Type := mkUser { us_id : Z; us_mgr : ptr; us_account : text; us_state : UserState }.
Definition User_new : User := mkUser 0 NULL [] USER_STATE_IDLE.
Definition us_init (id : Z) (mgr : ptr) (account : text) (_ : User) : User := mkUser id mgr account USER_STATE_IDLE.
Definition us_setState (state : UserState) (u : User) : User := mkUser (us_id u) (us_mgr u) (us_account u) state.

(** [mgr_] is used without a test for null. *)
Definition us_sendMsg (msgid : Z) (data : bytes) (len : Z) (u : User) (n : Net) : option (Z * Net) :=
  if negb (bool_decide (us_state u = USER_STATE_VERIFIED)) then Some (0, n) else
  ub_unless (negb (us_mgr u =? NULL));;
  match get_connection (us_id u) (us_mgr u) n with
  | None => Some (-1, n)
  | Some _ => '(r, n) ← nt_send (us_mgr u) (us_id u) None msgid data len n; Some (if r <? 0 then -1 else 0, n)
  end.

Record UserManager : Type := mkUserManager { um_objs : gmap ptr User; account2id_ : gmap text Z; id2user_ : gmap Z ptr }.
Definition UserManager_new : UserManager := mkUserManager ∅ ∅ ∅.
Definition um_clear (m : UserManager) : UserManager := m.

(** [None] is a null pointer. *)
Definition newUser (id : Z) (mgr : ptr) (account : text) (m : UserManager) : option ptr * UserManager :=
  match id2user_ m !! id with
  | Some _ => (None, m)
  | None =>
    match account2id_ m !! account with
    | Some _ => (None, m)
    | None =>
      let p := fresh_ptr (um_objs m) in
      (Some p, mkUserManager (<[p := us_init id mgr account User_new]> (um_objs m)) (<[account := id]> (account2id_ m)) (<[id := p]> (id2user_ m)))
    end
  end.

Definition getUserById (id : Z) (m : UserManager) : option ptr := id2user_ m !! id.
Definition getUser (account : text) (m : UserManager) : option ptr :=
  match account2id_ m !! account with None => None | Some id => getUserById id m end.

(** Freeing a user that was freed is undefined. *)
Definition deleteUserById (id : Z) (m : UserManager) : option (bool * UserManager) :=
  match id2user_ m !! id with
  | None => Some (false, m)
  | Some p => _ ← um_objs m !! p; Some (true, mkUserManager (delete p (um_objs m)) (account2id_ m) (delete id (id2user_ m)))
  end.
Definition deleteUser (account : text) (m : UserManager) : option (bool * UserManager) :=
  match account2id_ m !! account with
  | None => Some (false, m)
  | Some id =>
    '(ok, m) ← deleteUserById id m;
    if negb ok then Some (false, m) else Some (true, mkUserManager (um_objs m) (delete account (account2id_ m)) (id2user_ m))
  end.

Definition setUserStateById (id : Z) (state : UserState) (m : UserManager) : option (bool * UserManager) :=
  match id2user_ m !! id with
  | None => Some (false, m)
  | Some p =>
    if p =? NULL then Some (false, m) else
    u ← um_objs m !! p; Some (true, mkUserManager (<[p := us_setState state u]> (um_objs m)) (account2id_ m) (id2user_ m))
  end.
Definition setUserState (account : text) (state : UserState) (m : UserManager) : option (bool * UserManager) :=
  match account2id_ m !! account with None => Some (false, m) | Some id => setUserStateById id state m end.

(** ** Runs *)

Inductive um_op : Type :=
| umo_new (id : Z) (mgr : ptr) (account : text) | umo_delete (account : text) | umo_delete_id (id : Z)
| umo_state (account : text) (state : UserState) | umo_state_id (id : Z) (state : UserState).

Definition um_exec (o : um_op) (m : UserManager) : option UserManager :=
  match o with
  | umo_new id mgr account => Some (snd (newUser id mgr account m))
  | umo_delete account => '(_, m) ← deleteUser account m; Some m
  | umo_delete_id id => '(_, m) ← deleteUserById id m; Some m
  | umo_state account state => '(_, m) ← setUserState account state m; Some m
  | umo_state_id id state => '(_, m) ← setUserStateById id state m; Some m
  end.
Fixpoint um_exec_all (os : list um_op) (m : UserManager) : option UserManager :=
  match os with [] => Some m | o :: os => m ← um_exec o m; um_exec_all os m end.

(** Every user that is registered exists under its id and its account. *)
Definition um_inv (m : UserManager) : Prop := forall id p, id2user_ m !! id = Some p ->
  p <> NULL /\ exists u, um_objs m !! p = Some u /\ us_id u = id /\ account2id_ m !! us_account u = Some id.

(** [by_account]: users are deleted by their account. *)
Definition by_account (o : um_op) : Prop := match o with umo_delete_id _ => False | _ => True end.
Definition accounts_lead (m : UserManager) : Prop := forall a id, account2id_ m !! a = Some id ->
  exists p u, id2user_ m !! id = Some p /\ um_objs m !! p = Some u /\ us_account u = a.

Lemma um_inv_ptr m id id' p : um_inv m -> id2user_ m !! id = Some p -> id2user_ m !! id' = Some p -> id = id'.
Proof. intros Hm H1 H2. destruct (Hm _ _ H1) as (_ & u & Hu & <- & _), (Hm _ _ H2) as (_ & v & Hv & <- & _). congruence. Qed.

Lemma new_keeps id mgr account m : um_inv m -> um_inv (snd (newUser id mgr account m)) /\
  (accounts_lead m -> accounts_lead (snd (newUser id mgr account m))).
Proof.
  intros Hm. unfold newUser. destruct (id2user_ m !! id) eqn:Hid; [done|]. destruct (account2id_ m !! account) eqn:Ha; [done|].
  set (p := fresh_ptr (um_objs m)). split.
  - intros id' q. cbn. intros [[<- <-]|[Hne Hq]]%lookup_insert_Some.
    + split; [apply fresh_ptr_not_null|]. eexists. rewrite lookup_insert_eq. split; [done|]. cbn. by rewrite lookup_insert_eq.
    + destruct (Hm _ _ Hq) as (Hn & u & Hu & Hi & Hl). split; [done|]. exists u. rewrite lookup_insert_ne by (intros <-; unfold p in Hu; by rewrite fresh_ptr_fresh in Hu).
      split; [done|]. split; [done|]. rewrite lookup_insert_ne; [done|]. intros ->. congruence.
  - intros Hl a id'. cbn. intros [[<- <-]|[Hne Hq]]%lookup_insert_Some.
    + exists p. eexists. by rewrite !lookup_insert_eq.
    + destruct (Hl _ _ Hq) as (q & u & H1 & H2 & H3). exists q, u. assert (id <> id') by congruence.
      assert (p <> q) by (intros <-; unfold p in H2; by rewrite fresh_ptr_fresh in H2). by rewrite !lookup_insert_ne.
Qed.

Lemma delete_id_keeps id m : um_inv m -> exists b m', deleteUserById id m = Some (b, m') /\ um_inv m' /\ account2id_ m' = account2id_ m /\
  b = bool_decide (is_Some (id2user_ m !! id)).
Proof.
  intros Hm. unfold deleteUserById. destruct (id2user_ m !! id) as [p|] eqn:Hp; [|by exists false, m].
  destruct (Hm _ _ Hp) as (_ & u & Hu & _). rewrite Hu. cbn. do 2 eexists. split; [reflexivity|]. split; [|done].
  intros id' q. cbn. intros [Hne Hq]%lookup_delete_Some. destruct (Hm _ _ Hq) as (Hn & v & Hv & Hi & Hl). split; [done|]. exists v.
  rewrite lookup_delete_ne; [done|]. intros <-. by apply Hne, (um_inv_ptr m id id' p).
Qed.

Lemma state_id_keeps id state m : um_inv m -> exists b m', setUserStateById id state m = Some (b, m') /\ um_inv m' /\
  (accounts_lead m -> accounts_lead m').
Proof.
  intros Hm. unfold setUserStateById. destruct (id2user_ m !! id) as [p|] eqn:Hp; [|by exists false, m].
  destruct (Hm _ _ Hp) as (Hn & u & Hu & Hi & Hl). rewrite (proj2 (Z.eqb_neq _ _)) by done. rewrite Hu. cbn. do 2 eexists. split; [reflexivity|]. split.
  - intros id' q. cbn. intros Hq. destruct (Hm _ _ Hq) as (Hn' & v & Hv & Hi' & Hl'). split; [done|]. destruct (decide (p = q)) as [<-|Hne].
    + rewrite lookup_insert_eq. eexists. split; [done|]. cbn. by replace v with u in * by congruence.
    + exists v. by rewrite lookup_insert_ne.
  - intros Ha a id' Hid. destruct (Ha _ _ Hid) as (q & v & H1 & H2 & H3). cbn. exists q. destruct (decide (p = q)) as [<-|Hne].
    + eexists. rewrite lookup_insert_eq. split; [done|]. split; [done|]. cbn. congruence.
    + exists v. by rewrite lookup_insert_ne.
Qed.

Lemma exec_keeps o m : um_inv m -> exists m', um_exec o m = Some m' /\ um_inv m' /\ (by_account o -> accounts_lead m -> accounts_lead m').
Proof.
  intros Hm. destruct o as [id mgr account|account|id|account state|id state]; cbn [um_exec by_account].
  - destruct (new_keeps id mgr account m Hm) as [H1 H2]. eauto.
  - unfold deleteUser. destruct (account2id_ m !! account) as [id|] eqn:Ha; [|by exists m].
    destruct (delete_id_keeps id m Hm) as (b & m1 & E & H1 & H2 & Hb). rewrite E. cbn [mbind option_bind].
    destruct b; cbn [negb mbind option_bind]; eexists; (split; [reflexivity|]).
    + unfold deleteUserById in E. destruct (id2user_ m !! id) as [p|] eqn:Hp; [|by injection E]. apply bind_Some in E as (u & Hu & [= <-]). cbn in *.
      split.
      * intros id' q Hq. cbn in Hq. destruct (H1 _ _ Hq) as (Hn & v & Hv & Hi & Hl). split; [done|]. exists v. split; [done|]. split; [done|]. cbn in *.
        rewrite lookup_delete_ne; [done|]. intros ->. rewrite Ha in Hl. injection Hl as <-. by apply lookup_delete_Some in Hq as [? _].
      * intros _ Hl a id'. cbn. intros [Hne Hid]%lookup_delete_Some. destruct (Hl _ _ Hid) as (q & v & H3 & H4 & H5). cbn. exists q, v.
        destruct (Hm _ _ Hp) as (_ & w & Hw & Hwi & Hwa).
        assert (id <> id'). { intros <-. destruct (Hl _ _ Ha) as (q' & v' & H3' & H4' & H5'). congruence. }
        assert (p <> q). { intros <-. by apply H, (um_inv_ptr m id id' p). }
        by rewrite !lookup_delete_ne.
    + split; [done|]. intros _ Hl. unfold deleteUserById in E. destruct (Hl _ _ Ha) as (q & v & H3 & _). rewrite H3 in E. apply bind_Some in E as (u & _ & E). by injection E.
  - destruct (delete_id_keeps id m Hm) as (b & m1 & E & H1 & _). rewrite E. cbn [mbind option_bind]. by exists m1.
  - unfold setUserState. destruct (account2id_ m !! account) as [id|]; [|by exists m].
    destruct (state_id_keeps id state m Hm) as (b & m1 & E & H1 & H2). rewrite E. cbn [mbind option_bind]. exists m1. auto.
  - destruct (state_id_keeps id state m Hm) as (b & m1 & E & H1 & H2). rewrite E. cbn [mbind option_bind]. exists m1. auto.
Qed.

(** No operation of the users is undefined, and while users are only deleted by their account the user of an account is
    its own. *)
Lemma users_registered os : exists m, um_exec_all os UserManager_new = Some m /\ um_inv m /\
  (Forall by_account os -> forall a p, getUser a m = Some p -> exists u, um_objs m !! p = Some u /\ us_account u = a).
Proof.
  assert (H : forall os m, um_inv m -> exists m', um_exec_all os m = Some m' /\ um_inv m' /\ (Forall by_account os -> accounts_lead m -> accounts_lead m')).
  { clear os. induction os as [|o os IH]; intros m Hm; cbn [um_exec_all]; [by exists m|]. destruct (exec_keeps o m Hm) as (m1 & -> & H1 & H2). cbn [mbind option_bind].
    destruct (IH m1 H1) as (m2 & E & H3 & H4). exists m2. split; [done|]. split; [done|]. intros [Ho Hos]%Forall_cons Hl. auto. }
  destruct (H os UserManager_new) as (m & E & Hm & Hl); [by intros id p [=]|]. exists m. split; [done|]. split; [done|]. intros Ho a p.
  unfold getUser, getUserById. destruct (account2id_ m !! a) as [id|] eqn:Ha; [|done]. intros Hp.
  destruct (Hl Ho ltac:(by intros b i [=]) _ _ Ha) as (q & u & H1 & H2 & H3). exists u. split; [|done]. congruence.
Qed.

(** A user that is deleted by its id leaves its account behind: the account cannot be registered again, and when the id
    is given to another account, the user of that one is found, and deleted, as the user of both. *)
Lemma deleted_account_aliases id mgr a b p m1 m2 m3 : a <> b -> newUser id mgr a UserManager_new = (Some p, m1) ->
  deleteUserById id m1 = Some (true, m2) ->
  (forall id' mgr', fst (newUser id' mgr' a m2) = None) /\
  (forall q, newUser id mgr b m2 = (Some q, m3) -> getUser a m3 = Some q /\ getUser b m3 = Some q /\
     exists m4, deleteUser a m3 = Some (true, m4) /\ getUser b m4 = None).
Proof.
  intros Hab E1 E2. unfold newUser in E1. cbn [id2user_ account2id_ um_objs UserManager_new] in E1. rewrite !lookup_empty in E1. injection E1 as <- <-. unfold deleteUserById in E2. cbn [id2user_ um_objs account2id_] in E2. rewrite !lookup_insert_eq in E2. cbn [mbind option_bind] in E2. injection E2 as <-.
  split.
  - intros id' mgr'. unfold newUser. cbn [id2user_ account2id_]. destruct (_ !! id'); [done|]. by rewrite lookup_insert_eq.
  - intros q. unfold newUser. cbn [id2user_ account2id_ um_objs]. rewrite lookup_delete_eq, lookup_insert_ne by done.
    rewrite lookup_empty. intros [= <- <-]. unfold getUser, getUserById, deleteUser, deleteUserById. cbn [id2user_ account2id_ um_objs].
    rewrite (lookup_insert_ne _ b a), !lookup_insert_eq by done. split; [done|]. split; [done|]. cbn. eexists. split; [reflexivity|]. cbn.
    rewrite lookup_delete_ne, lookup_insert_eq by done. apply lookup_delete_eq.
Qed.
