(* ===== verification/DbStart.v ===== *)
(** * Start-up and main loop of the database server

    ([db_server/db_server.*], [config_data.h], [GlobalData::init] of [global_data.cpp], and what they start:
    [MysqlDBManager::init] of [mysql/mysql_db_manager.cpp], [MysqlConnectorPool::init] of [mysql_connector_pool.cpp] and the
    connecting of [mysql_connector.cpp].)  What the MySQL client answers is given with each connector; the description of the
    tables is generated. *)
From S2P Require Import Prelude Text Json ServerFiles Datatype DataHandler2 EventHandler ConnBuffer Connection TcpServer Proto MysqlPool SqlFormat ConfigLoader GateLink.
From Stdlib Require Import ZArith Lia String.
From stdpp Require Import base option list gmap strings.
Local Open Scope Z_scope.

Definition MYSQL_PORT : Z := 3306.
Definition ER_BAD_DB_ERROR : Z := 1049.

Record MysqlConnPoolConfig : Type := mkConnPoolConfig {
  pc_host : text; pc_port : Z; pc_user : text; pc_passwd : text; pc_dbname : text;
  read_conn_size : Z; write_conn_size : Z;
  database_config : MysqlDatabaseConfig;
}.
Definition MysqlConnPoolConfig_new (h u p db : text) (db_conf : MysqlDatabaseConfig) : MysqlConnPoolConfig :=
  mkConnPoolConfig h MYSQL_PORT u p db MYSQL_POOL_READ_CONN_SIZE MYSQL_POOL_WRITE_CONN_SIZE db_conf.

(** The MySQL client for the [i]th connector that is made: whether [mysql_init] gives a handle, the error of
    [mysql_real_connect] with a host, user, password, database and port, and the answers to the statements. *)
Class MysqlClient : Type := mkMysqlClient {
  mysql_init : nat -> bool;
  mysql_real_connect : nat -> text -> text -> text -> option text -> Z -> option Z;
  mysql_answer : nat -> nat -> Outcome Z;
}.

(** ** MysqlConnector *)

Section connector.
Context `{MysqlClient}.

Definition use_db (i : nat) (db_name : text) (s : LoaderState) : bool * LoaderState :=
  ask (mysql_answer i) MAX_BUFFER_SIZE real_query (chars "USE " ++ db_name) s.
Definition drop_db (i : nat) (db_name : text) (s : LoaderState) : bool * LoaderState :=
  ask (mysql_answer i) MAX_BUFFER_SIZE real_query (chars "DROP DATABASE " ++ db_name) s.

(** A null pointer that is printed is undefined. *)
Definition connect_port (i : nat) (host : text) (port : Z) (user passwd : text) (dbname : option text) (s : LoaderState) : option (bool * LoaderState) :=
  match mysql_real_connect i host user passwd dbname port with
  | None => Some (true, s)
  | Some err =>
    if err =? ER_BAD_DB_ERROR then
      match mysql_real_connect i host user passwd (Some []) port with
      | Some _ => Some (false, s)
      | None => db ← dbname; let '(ok, s) := create_db (mysql_answer i) db s in if negb ok then Some (false, s) else Some (true, s)
      end
    else Some (false, s)
  end.
Definition connect_default (i : nat) (host user password : text) (s : LoaderState) : option (bool * LoaderState) :=
  connect_port i host MYSQL_PORT user password None s.

(** ** MysqlConnectorPool *)

Definition one_connector_init (i : nat) (config : MysqlConnPoolConfig) (s : LoaderState) : option (bool * LoaderState) :=
  if negb (mysql_init i) then Some (false, s) else
  '(ok, s) ← connect_default i (pc_host config) (pc_user config) (pc_passwd config) s;
  if negb ok then Some (false, s) else
  let '(ok, s) := use_db i (pc_dbname config) s in
  if negb ok then Some (false, s) else Some (true, s).

Context {Cb : Type}.

(** The pool, what each connector sent while it was made, and the static buffer of the loader. *)
Record PoolStart : Type := mkPoolStart {
  ps_pool : MysqlConnectorPool Z Cb;
  ps_sent : list (list (text * Outcome Z));
  ps_type : text;
}.
Definition PoolStart_new (type : text) : PoolStart := mkPoolStart (mkPool [] [] 0 0) [] type.

(** A connector holds the result of its last statement; its thread has not taken a command. *)
Definition started (s : LoaderState) : ConnectorInfo Z Cb := mkConn (ls_res s) [] [] w_pop.
Definition ps_connector (p : PoolStart) : LoaderState := mkLoader [] Result_new (ps_type p).
Definition ps_add (write : bool) (s : LoaderState) (p : PoolStart) : PoolStart :=
  let l := ps_pool p in
  mkPoolStart (if write then pl_set_write (write_connectors_ l ++ [started s]) l else pl_set_read (read_connectors_ l ++ [started s]) l)
    (ps_sent p ++ [ls_sent s]) (ls_type s).

(** The first writing connector loads the configuration. *)
Fixpoint init_writers (config : MysqlConnPoolConfig) (n : nat) (load_config : bool) (p : PoolStart) : option (bool * PoolStart) :=
  match n with
  | O => Some (true, p)
  | S n =>
    let i := length (ps_sent p) in
    '(ok, s) ← one_connector_init i config (ps_connector p);
    if negb ok then Some (false, ps_add true s p) else
    '(ok, s) ← (if load_config : bool then Some (true, s) else load (mysql_answer i) (database_config config) s);
    if negb ok then Some (false, ps_add true s p) else init_writers config n true (ps_add true s p)
  end.
Fixpoint init_readers (config : MysqlConnPoolConfig) (n : nat) (p : PoolStart) : option (bool * PoolStart) :=
  match n with
  | O => Some (true, p)
  | S n =>
    '(ok, s) ← one_connector_init (length (ps_sent p)) config (ps_connector p);
    let p := ps_add false s p in
    if negb ok then Some (false, p) else init_readers config n p
  end.
Definition ps_init (config : MysqlConnPoolConfig) (p : PoolStart) : option (bool * PoolStart) :=
  '(ok, p) ← init_writers config (Z.to_nat (write_conn_size config)) false p;
  if negb ok then Some (false, p) else init_readers config (Z.to_nat (read_conn_size config)) p.

(** ** MysqlDBManager *)

(** What the connectors sent is returned with the result. *)
Definition dm_init (host user password : text) (config : MysqlDatabaseConfig) (type : text) (m : MysqlDBManager Z Cb)
  : option (bool * list (list (text * Outcome Z)) * MysqlDBManager Z Cb) :=
  '(ok, p) ← ps_init (MysqlConnPoolConfig_new (c_str host) (c_str user) (c_str password) (dbname config) config) (mkPoolStart (dm_pool m) [] type);
  let m := dm_set_pool (ps_pool p) m in
  if negb ok then Some (false, ps_sent p, m) else
  let '(ok, cm) := cm_init config (dm_config m) in
  Some (ok, ps_sent p, mkDBManager cm (dm_bufs m) (dm_pool m)).

Definition MysqlDBManager_new (bufs : SqlBufs) : MysqlDBManager Z Cb := mkDBManager (mkConfigManager [] ∅ [] []) bufs (mkPool [] [] 0 0).

(** [GlobalData::init]; [get_accounts] is its callback. *)
Definition gd_init (get_accounts : Cb) (m : MysqlDBManager Z Cb) : option (bool * MysqlDBManager Z Cb) :=
  '(ok, m) ← by_table_name (chars "t_player") (selectRecord [chars "account"] get_accounts) m; if negb ok then Some (false, m) else Some (true, m).

End connector.
Arguments PoolStart : clear implicits.

(** ** DBServer *)

Section server.
Context {G Cb : Type}.

(** What the handlers can reach: [db_mgr_], and the data of [DbServer]. *)
Record DbData : Type := mkDbData { db_mgr_ : option (MysqlDBManager Z Cb); db_global : G }.
Notation handler := (jmy_msg_handler (World DbData)).
Notation event := (jmy_event_handler (World DbData)).

(** The static functions that the tables name, and those of the events [onConnect], [onDisconnect] and [onTick]. *)
Record DbHandlers : Type := mkDbHandlers {
  db_game_processConnectDBRequest : handler;
  db_game_processGetRole : handler;
  db_game_processCreateRole : handler;
  db_game_processDefault : handler;
  db_game_events : event * event * event;
}.

Definition db_game_config (h : DbHandlers) (max_conn : Z) : JmyServerConfig DbData :=
  mkServerConfig (Some [
    (MSGID_GS2DS_CONNECT_DB_REQUEST, db_game_processConnectDBRequest h);
    (MSGID_GS2DS_GET_ROLE_REQUEST, db_game_processGetRole h);
    (MSGID_GS2DS_CREATE_ROLE_REQUEST, db_game_processCreateRole h)])
    (Some (db_game_processDefault h)) (base_handlers (db_game_events h)) None (mkJmyBufferConfig 4096 4096 0 0 false true) max_conn.

Record DbProcess : Type := mkDbProcess {
  dp_server : JmyTcpServer DbData;
  dp_config : Loader DbFile.DbConfig;
  dp_sent : list (list (text * Outcome Z));    (** what each connector sent while it was made *)
}.

Definition sv_set_app (app : DbData) (s : JmyTcpServer DbData) : JmyTcpServer DbData :=
  mkServer (sv_handler s) (sv_events s) (sv_mgr s) (sv_socks s) (sv_bufs s) (sv_buffer_mgr s) (sv_id_gene s) (sv_conns s) (sv_heap s) (sv_pool s)
    app (sv_conf s) (sv_inited s) (sv_accepting s).
Definition dp_set_server (sv : JmyTcpServer DbData) (p : DbProcess) : DbProcess := mkDbProcess sv (dp_config p) (dp_sent p).
Definition dp_set_db (m : MysqlDBManager Z Cb) (p : DbProcess) : DbProcess :=
  dp_set_server (sv_set_app (mkDbData (Some m) (db_global (sv_app (dp_server p)))) (dp_server p)) p.

Variable h : DbHandlers.
Variable garbage : Z -> list Z.
Variable listens : text -> Z -> bool.
Variable global_log_init : text -> bool.
Variable s_jmy_game_db_config : MysqlDatabaseConfig.
Variable get_accounts : Cb.
(** The callbacks and [GlobalData::run] on what the handlers can reach. *)
Variable callback : Cb -> Result Z -> DbData -> option DbData.
Variable global_run : DbData -> option DbData.

(** [bufs] and [type] are what the buffers of a new manager hold. *)
Definition db_init `{MysqlClient} `{Files} (conf_path : text) (bufs : SqlBufs) (type : text) (p : DbProcess) : option (bool * DbProcess) :=
  '(ok, ld) ← DbFile.db_loadJson conf_path (dp_config p);
  let p := mkDbProcess (dp_server p) ld (dp_sent p) in
  if negb ok then Some (false, p) else
  let c := config_ ld in
  if negb (global_log_init (DbFile.log_conf_path c)) then Some (false, p) else
  '(ok, sent, m) ← dm_init (DbFile.mysql_host c) (DbFile.mysql_user c) (DbFile.mysql_password c) s_jmy_game_db_config type (MysqlDBManager_new bufs);
  let p := dp_set_db m (mkDbProcess (dp_server p) ld sent) in
  if negb ok then Some (false, p) else
  '(ok, m) ← gd_init get_accounts m;
  let p := dp_set_db m p in
  if negb ok then Some (false, p) else
  '(ok, sv) ← listen_start garbage listens (db_game_config h (u32 (DbFile.max_conn c))) (c_str (DbFile.ip c)) (DbFile.port c) (dp_server p);
  Some (ok, dp_set_server sv p).

Fixpoint call_back (l : list (Cb * Result Z)) (d : DbData) : option DbData :=
  match l with [] => Some d | (cb, r) :: l => d ← callback cb r d; call_back l d end.

(** One turn of the loop of [run], before the poll; the loop ends when the result is negative.  [MysqlDBManager::run]
    returns 0. *)
Definition db_turn (main_mgr now : Z) (p : DbProcess) : option (Z * DbProcess) :=
  '(r, sv) ← sv_run main_mgr garbage now (dp_server p);
  let p := dp_set_server sv p in
  if r <? 0 then Some (r, p) else
  m ← db_mgr_ (sv_app sv);
  let '(calls, m) := dm_run m in
  let p := dp_set_db m p in
  d ← call_back calls (sv_app (dp_server p));
  d ← global_run d;
  Some (r, dp_set_server (sv_set_app d (dp_server p)) p).
End server.
Arguments DbHandlers : clear implicits.
Arguments DbProcess : clear implicits.
Arguments DbData : clear implicits.

(** ** What a connector says while it is made *)

Abbreviation said s s' := (ls_sent s `prefix_of` ls_sent s').

Lemma ask_says answer size q t s : said s (ask answer size q t s).2.
Proof. unfold ask. destruct (q _ _). by eexists. Qed.

(** The statement that comes next. *)
Ltac next_says s1 P :=
  match goal with |- context [ask ?a ?n ?q ?t ?s] => pose proof (ask_says a n q t s) as P; destruct (ask a n q t s) as [[] s1]; cbn [snd negb] in P |- * end.

Lemma add_field_says answer table f s ok s' : add_field answer table f s = Some (ok, s') -> said s s'.
Proof.
  unfold add_field, loader_query, ls_set_type. next_says s1 P1; [|by intros [= _ <-]]. destruct (fetch (ls_res s1)) as [[] r]; [by intros [= _ <-]|].
  destruct (get_field_type f _) as [type buf]. destruct (get_field_create_flags f) as [flags|]; [|done]. cbn [mbind option_bind ls_sent].
  next_says s2 P2; cbn [ls_sent] in P2; pose proof (transitivity P1 P2) as P3; [|by intros [= _ <-]].
  destruct (get_field_index_type f) as [ix|]; [|by intros [= _ <-]].
  intros E. apply bind_Some in E as (n & _ & E). destruct (n <? 0); [by injection E as _ <-|]. revert E.
  next_says s3 P4; intros [= _ <-]; exact (transitivity P3 P4).
Qed.

Lemma add_fields_says answer table k fs : forall i s ok s', add_fields answer table k i fs s = Some (ok, s') -> said s s'.
Proof.
  induction fs as [|f fs IH]; intros i s ok s' H; cbn [add_fields] in H; [by injection H as _ ->|].
  destruct (i =? k); [by eauto|]. apply bind_Some in H as ([b s1] & E & H). apply add_field_says in E.
  destruct b; cbn [negb] in H; [|by injection H as _ <-]. etransitivity; eauto.
Qed.

Lemma loadTable_says answer t s ok s' : loadTable answer t s = Some (ok, s') -> said s s'.
Proof.
  unfold loadTable, loader_query, ls_set_type. destruct (_ || _); [by intros [= _ <-]|]. intros E. apply bind_Some in E as (f & _ & E). revert E.
  destruct (bool_decide _); cbn [negb]; [|by intros [= _ <-]]. destruct (get_field_type f _) as [type buf].
  destruct (get_field_create_flags f) as [flags|]; [|done]. cbn [mbind option_bind ls_sent].
  next_says s1 P1; cbn [ls_sent] in P1; [|by intros [= _ <-]]. intros E. apply add_fields_says in E. exact (transitivity P1 E).
Qed.

Lemma load_tables_says answer ts : forall s ok s', load_tables answer ts s = Some (ok, s') -> said s s'.
Proof.
  induction ts as [|t ts IH]; intros s ok s' H; cbn [load_tables] in H; [by injection H as _ ->|].
  apply bind_Some in H as ([b s1] & E & H). apply loadTable_says in E.
  destruct b; cbn [negb] in H; [|by injection H as _ <-]. etransitivity; eauto.
Qed.

Lemma load_says answer config s ok s' : load answer config s = Some (ok, s') -> said s s'.
Proof.
  unfold load, create_db. intros H. pose proof (ask_says answer MAX_BUFFER_SIZE real_query (chars "CREATE DATABASE IF NOT EXISTS " ++ dbname config) s) as P.
  destruct (ask _ _ _ _ s) as [[] s1]; cbn [snd negb] in *; [|by injection H as _ <-]. apply load_tables_says in H. by etransitivity.
Qed.

Section first.
Context `{MysqlClient} {Cb : Type}.
Implicit Type p : PoolStart Cb.

Definition use_event (c : MysqlConnPoolConfig) : text := snprintf MAX_BUFFER_SIZE (chars "USE " ++ pc_dbname c).

(** A connector asks for its database first; when that is refused it says nothing else. *)
Lemma one_connector_says i c type ok s : one_connector_init i c (mkLoader [] Result_new type) = Some (ok, s) ->
  ok = false /\ ls_sent s = [] \/ exists o, ls_sent s = [(use_event c, o)] /\ ok = match o with oc_error _ => false | _ => true end.
Proof.
  unfold one_connector_init. destruct (mysql_init i); cbn [negb]; [|intros [= <- <-]; by left].
  intros E. apply bind_Some in E as ([b s1] & E1 & E). assert (s1 = mkLoader [] Result_new type) as ->.
  { unfold connect_default, connect_port in E1. destruct (mysql_real_connect i _ _ _ None _) as [err|]; [|by injection E1 as _ <-].
    destruct (err =? ER_BAD_DB_ERROR); [|by injection E1 as _ <-]. destruct (mysql_real_connect i _ _ _ (Some []) _); by simplify_eq. }
  destruct b; cbn [negb] in E; [|injection E as <- <-; by left].
  right. exists (mysql_answer i 0). unfold use_db, ask, real_query in E. cbn [ls_sent length ls_res ls_type app] in E.
  destruct (mysql_answer i 0); cbn [negb] in E; by injection E as <- <-.
Qed.

Lemma init_readers_says c n : forall p ok p', init_readers c n p = Some (ok, p') -> ps_sent p `prefix_of` ps_sent p'.
Proof.
  induction n as [|n IH]; intros p ok p' E; cbn [init_readers] in E; [by injection E as _ ->|].
  apply bind_Some in E as ([b s] & _ & E). assert (ps_sent p `prefix_of` ps_sent (ps_add false s p)) by (by eexists).
  destruct b; cbn [negb] in E; [|by injection E as _ <-]. etransitivity; eauto.
Qed.

(** The first statement of all connectors asks for the database; when it is refused it is the last one, and the pool is not made. *)
Lemma ps_init_says h u pw db config (l : MysqlConnectorPool Z Cb) type ok p :
  ps_init (MysqlConnPoolConfig_new h u pw db config) (mkPoolStart l [] type) = Some (ok, p) ->
  let c := MysqlConnPoolConfig_new h u pw db config in
  ok = false /\ concat (ps_sent p) = [] \/
  exists o rest, concat (ps_sent p) = (use_event c, o) :: rest /\ forall e, o = oc_error e -> ok = false /\ rest = [].
Proof.
  intros E c. unfold ps_init in E. fold c in E. change (Z.to_nat (write_conn_size c)) with 1%nat in E. cbn [init_writers ps_sent length] in E.
  apply bind_Some in E as ([ok1 p1] & E1 & E). apply bind_Some in E1 as ([ok2 s] & E2 & E1). unfold ps_connector in E2. cbn [ps_type] in E2.
  apply one_connector_says in E2 as [[-> Hs]|(o & Hs & Ho)].
  { cbn [negb] in E1. injection E1 as <- <-. cbn [negb] in E. injection E as <- <-. left. cbn [ps_sent ps_add app concat]. by rewrite Hs. }
  right. exists o. destruct ok2; cbn [negb] in E1.
  2: { injection E1 as <- <-. cbn [negb] in E. injection E as <- <-. exists []. cbn [ps_sent ps_add app concat]. by rewrite Hs, app_nil_r. }
  assert (Hl : exists s', said s s' /\ ps_sent p1 = [ls_sent s']).
  { apply bind_Some in E1 as ([ok3 s'] & E3 & E1). apply load_says in E3. exists s'. split; [done|]. destruct ok3; cbn [negb] in E1; by injection E1 as _ <-. }
  destruct Hl as (s' & [rest Hrest] & Hp1). rewrite Hs in Hrest.
  assert (Hp : ps_sent p1 `prefix_of` ps_sent p) by (destruct ok1; cbn [negb] in E; [by eapply init_readers_says|by injection E as _ <-]).
  destruct Hp as [more Hmore]. exists (rest ++ concat more). split.
  - rewrite Hmore, Hp1. cbn [app concat]. by rewrite Hrest.
  - intros e ->. discriminate Ho.
Qed.
End first.

(** ** A database that does not exist is never made *)

Section never.
Context {G Cb : Type}.
Variable h : DbHandlers G Cb.
Variable garbage : Z -> list Z.
Variable listens : text -> Z -> bool.
Variable global_log_init : text -> bool.
Variable s_jmy_game_db_config : MysqlDatabaseConfig.
Variable get_accounts : Cb.

Abbreviation init := (db_init h garbage listens global_log_init s_jmy_game_db_config get_accounts).
Abbreviation db := (dbname s_jmy_game_db_config).
Definition use_text : text := snprintf MAX_BUFFER_SIZE (chars "USE " ++ db).
Definition create_text : text := snprintf MAX_BUFFER_SIZE (chars "CREATE DATABASE IF NOT EXISTS " ++ db).

(** A server answers statements: whether the database exists before and after them.  Using one that does not is an error, and
    no other statement than the one that makes it makes it. *)
Inductive served : bool -> list (text * Outcome Z) -> bool -> Prop :=
| srv_nil b : served b [] b
| srv_use b o l b' : (b = false -> exists e, o = oc_error e) -> served b l b' -> served b ((use_text, o) :: l) b'
| srv_create b o l b' : served (match o with oc_error _ => b | _ => true end) l b' -> served b ((create_text, o) :: l) b'
| srv_other t b o l b' : t <> use_text -> t <> create_text -> served b l b' -> served b ((t, o) :: l) b'.

(** The program is started again and again, each time with another client of the database and other files, and what the server
    was asked is what the connectors said; the list has whether [init] succeeds. *)
Inductive starts : bool -> list bool -> bool -> Prop :=
| sts_none b : starts b [] b
| sts_start (C : MysqlClient) (F : Files) path bufs type p ok p' b b' l b'' :
    dp_sent p = [] -> init path bufs type p = Some (ok, p') -> served b (concat (dp_sent p')) b' -> starts b' l b'' -> starts b (ok :: l) b''.

Lemma db_init_says (C : MysqlClient) (F : Files) path bufs type p ok p' : dp_sent p = [] -> init path bufs type p = Some (ok, p') ->
  ok = false /\ concat (dp_sent p') = [] \/
  exists o rest, concat (dp_sent p') = (use_text, o) :: rest /\ forall e, o = oc_error e -> ok = false /\ rest = [].
Proof.
  intros Hp E. unfold db_init in E. apply bind_Some in E as ([ok1 ld] & _ & E). destruct ok1; cbn [negb] in E.
  2: { injection E as <- <-. left. cbn [dp_sent]. by rewrite Hp. }
  destruct (global_log_init _); cbn [negb] in E; [|injection E as <- <-; left; cbn [dp_sent]; by rewrite Hp].
  apply bind_Some in E as ([[ok2 sent] m] & E2 & E).
  assert (dp_sent p' = sent /\ (ok2 = false -> ok = false)) as [-> Hok].
  { destruct ok2; cbn [negb] in E; [|by injection E as <- <-]. split; [|done]. apply bind_Some in E as ([ok3 m3] & _ & E).
    destruct ok3; cbn [negb] in E; [|by injection E as _ <-]. apply bind_Some in E as ([ok4 sv] & _ & E). by injection E as _ <-. }
  unfold dm_init in E2. apply bind_Some in E2 as ([ok3 ps] & E3 & E2). apply ps_init_says in E3.
  assert (sent = ps_sent ps /\ (ok3 = false -> ok2 = false)) as [-> Hok3].
  { destruct ok3; cbn [negb] in E2; [|by injection E2 as <- <- _]. split; [|done]. destruct (cm_init _ _). by injection E2 as _ <- _. }
  destruct E3 as [[H1 H2]|(o & rest & H1 & H2)]; [left; by auto|right]. exists o, rest. split; [done|]. intros e He. destruct (H2 e He). by auto.
Qed.

Lemma served_use b o l b' : served b ((use_text, o) :: l) b' -> (b = false -> exists e, o = oc_error e) /\ served b l b'.
Proof. inversion 1; subst; done. Qed.

(** The database is used before the configuration that makes it is loaded: on a server without it no start ever succeeds,
    and it is never made. *)
Theorem database_never_created l b : starts false l b -> b = false /\ Forall (eq false) l.
Proof.
  enough (H : forall b0, starts b0 l b -> b0 = false -> b = false /\ Forall (eq false) l) by (intros Hs; by apply (H false)).
  intros b0 Hs. induction Hs as [|C F path bufs type p ok p' b b' l b'' Hp Hinit Hserved _ IH]; [done|]. intros ->.
  assert (ok = false /\ b' = false) as [-> Hb'].
  { apply db_init_says in Hinit as [[-> E]|(o & rest & E & Hrest)]; [| |done]; rewrite E in Hserved; [by inversion Hserved; subst|].
    apply served_use in Hserved as [Hno Hl]. destruct (Hno eq_refl) as [e ->]. destruct (Hrest e eq_refl) as [-> ->]. by inversion Hl. }
  destruct (IH Hb') as [-> Hl]. split; [done|]. by constructor.
Qed.
End never.

(** ** A start *)

Definition one_table_database : MysqlDatabaseConfig :=
  mkDatabaseConfig (chars "game") [mkTableInfo (chars "t_player") 0 (chars "id")
    [mkFieldInfo (chars "id") MYSQL_FIELD_TYPE_BIGINT 0 0 MYSQL_TABLE_CREATE_NOT_NULL; mkFieldInfo (chars "account") MYSQL_FIELD_TYPE_VARCHAR 32 0 MYSQL_TABLE_CREATE_NOT_NULL] MYSQL_ENGINE_INNODB].
(** A client that connects at the default port and answers every statement but the first with a row. *)
Definition good_client (first : Outcome Z) : MysqlClient :=
  mkMysqlClient (fun _ => true) (fun _ _ _ _ _ port => if port =? MYSQL_PORT then None else Some 2003)
    (fun _ n => match n with O => first | _ => oc_rows 1 end).
Definition start_pool (first : Outcome Z) : option (bool * list (list text)) :=
  let _ := good_client first in
  option_map (fun r : bool * list (list (text * Outcome Z)) * MysqlDBManager Z unit => (r.1.1, map (map fst) r.1.2))
    (dm_init (chars "localhost") (chars "root") (chars "") one_table_database [] (MysqlDBManager_new (SqlBufs_new [] [] 0 []))).

(** With a database, the first connector makes the tables; the second only uses it. *)
Example pool_starts : start_pool oc_done = Some (true, [
  [chars "USE game"; chars "CREATE DATABASE IF NOT EXISTS game";
   chars "CREATE TABLE IF NOT EXISTS `t_player` (`id` BIGINT(20)  NOT NULL, primary key(`id`)) ENGINE=InnoDB";
   chars "DESCRIBE t_player account"];
  [chars "USE game"]]).
Proof. vm_compute. reflexivity. Qed.

Example pool_without_database : start_pool (oc_error ER_BAD_DB_ERROR) = Some (false, [[chars "USE game"]]).
Proof. vm_compute. reflexivity. Qed.
